(* ===== verification/_CoqProject ===== *)
-Q . S2P
Prelude.v
NetAddr.v
Text.v
Models.v
Runtime.v
Effects.v
Queries.v
Logic.v
EventLogic.v
TableFacts.v
Lifecycle.v
Volumes.v
Instances.v
InstanceReconcile.v
Scaling.v
Deploy.v
DeployTrace.v
Integrity.v
DeploySafety.v
Sample.v
Removal.v
Retirement.v
Scheduler.v
RateLimit.v
Migration.v
MigrationProofs.v
ServerReconcile.v
PreviewCleanup.v
ScalingProofs.v
LifecycleProofs.v
Termination.v
Promotion.v
InstanceProofs.v
Evacuation.v
NameProofs.v
Float64.v
Autoscale.v
AutoscaleProofs.v
VolumeQueries.v
Codecs.v
Secrets.v
SecretsProofs.v
Config.v
Paths.v
Json.v
VolumeOps.v
StorageLogic.v
VolumeMove.v
VolumeBackup.v
VolumeSafety.v
Api.v
VolumeApi.v
DbLogic.v
VolumeApiEffect.v
VolumeApiProofs.v
GithubActions.v
EventQueries.v
WorkerDns.v
DnsNames.v
Webhook.v
WebhookProofs.v
PreviewProofs.v
CiJobs.v
CiEvents.v
CiRuns.v
EdgeProxy.v
EdgeRoutes.v
EdgeServe.v
WorkerDnsProofs.v
Background.v
BackgroundProofs.v
CiWorkflow.v
CiOrder.v
CiRunner.v
CiRunnerProofs.v
Builder.v
BuilderProofs.v
DomainApi.v
Auth.v
AuthProofs.v
