(* ===== verification/Prelude.v ===== *)
(** * Kindling: a verification development

    Kindling is a platform that builds a project's repository into an image and
    runs it as virtual machines on a cluster of servers.  Its control plane is a
    set of reconcilers over one PostgreSQL database: a scheduler per kind of
    entity calls a handler with an id, the handler reads rows, compares them
    with what should be, changes rows and drives the local runtime, and returns
    an error when it wants to be called again.  This development models that
    control plane and proves what its handlers do and leave alone, whatever the
    database, the runtime, the network and the clock answer.

    ** The parts and their files

    Foundations
    - [Prelude]: ids (internal/shared/pguuid), times, 32-bit and 64-bit
      integers, strings, and sorting as the contract [Sorter].
    - [NetAddr]: what the code uses of net, net/netip, net/url and strconv, and
      the two copies of parseRuntimeAddress (internal/deploy/runtime_address.go,
      internal/migrationreconcile/reconcile.go).
    - [Text]: UTF-8, JSON lists, the host names of internal/preview/naming.go.
    - [Float64]: float64 on the Standard Library's [SpecFloat].
    - [Models]: a record per table (internal/database/queries/models.go) and the
      database [Db] as a finite map per table.
    - [Runtime]: errors and the runtime interface (internal/runtime/runtime.go).
    - [Effects]: the monad of the handlers.
    - [Queries], [VolumeQueries], [EventQueries]: the SQL statements of
      internal/database/queries/queries.sql.go the modelled packages issue, with
      the constraints of schema.sql.
    - [Codecs], [Paths], [Json]: what the code uses of encoding/base64,
      google/uuid, path, encoding/json, crypto/sha256, crypto/hmac and
      encoding/hex.

    Handlers
    - [Lifecycle], [Volumes], [Instances], [InstanceReconcile], [Scaling],
      [Deploy]: the deployer, internal/deploy, from the pure decisions to
      [ReconcileDeployment] (deploy.go, lifecycle.go, project_volumes.go,
      deploy_health.go, deploy_instance.go, deploy_scaling.go,
      deploy_evacuation.go, deploy_build.go, deploy_preview.go,
      deploy_service_routes.go, migration_metadata.go, runtime_address.go).
    - [Migration]: live migration, internal/migrationreconcile.
    - [ServerReconcile]: draining servers, internal/serverreconcile.
    - [PreviewCleanup]: preview environments, internal/preview/cleanup.go.
    - [Autoscale]: the autoscaler, internal/autoscale.
    - [Scheduler]: the scheduler of the handlers, internal/reconciler.
    - [Secrets], [Config]: internal/config, the encryption of secrets and the
      snapshot of the settings.
    - [VolumeOps]: backup, restore, move and repair of volumes,
      internal/volumeops, on the object store of internal/volumebackup.
    - [Api], [VolumeApi]: the REST API of volumes, internal/rpc: principals and
      roles, the project or service of a request, all handlers of
      project_volumes.go and project_volume_ops.go and their routes.
    - [RateLimit]: the API's rate limiter, internal/ratelimit.
    - [GithubActions], [Webhook]: GitHub's webhooks, internal/webhook/github.go,
      with the integrations of internal/githubactions/integration.go: from the
      bytes of a body and its signature to the deployments of a push and the
      environment of a pull request.
    - [CiJobs]: CI jobs, internal/ci/service.go and github_runner.go: the events
      of GitHub's workflow jobs, leases and runs.
    - [CiWorkflow], [CiRunner]: workflow files and their execution: workflow.go
      and compile.go of internal/ci from the files to a plan, runner.go and
      adapters.go from the plan to the report of its run.
    - [Builder]: builds, internal/builder (builder.go, detect.go, dockerfiles.go,
      runner.go, local_runner.go): leases, the download of the source
      (DownloadTarball of internal/githubapi), its unpacking with the detection
      of frameworks, and the image of a successful build.
    - [EdgeProxy]: the edge, internal/edgeproxy/edgeproxy.go: the table of
      routes, requests with their retry, and the wake-up of deployments scaled
      to zero.
    - [WorkerDns]: the private names of VMs, internal/workerdns (resolver.go,
      server.go) and internal/shared/netnames, with the statements they use.
    - [DomainApi]: the REST API of custom domains, internal/rpc/domains: names,
      the TXT challenge and all handlers with their routes.
    - [Auth]: who a request speaks for and what it may do with accounts:
      internal/auth (middleware.go with sessions, API keys, worker agents,
      origins, tokens and cookies) and the handlers of auth_api.go, api_keys.go
      and pending_members_api.go of internal/rpc.
    - [Background]: the sweeps that run beside the schedulers and what happens
      at startup, cmd/kindling: serve_background.go, startup_recovery.go,
      server_registration.go and the allowed prefix of serve_internal_dns.go,
      with the statements they use.

    Proofs
    - [Logic], [EventLogic], [TableFacts]: program logics for the monad and
      facts about statements.
    - [DeployTrace], [Integrity], [DeploySafety], [Removal], [Retirement],
      [ScalingProofs], [Termination], [Promotion],
      [InstanceProofs], [Evacuation], [LifecycleProofs],
      [NameProofs], [MigrationProofs], [AutoscaleProofs]: theorems about the
      handlers; those about the scheduler, the rate limiter, the servers and
      the previews are in the files that model them.
    - [SecretsProofs], [StorageLogic], [VolumeMove],
      [VolumeBackup], [VolumeSafety]: secrets and volume
      operations, with a logic that relates the calls of the log to the disks
      and objects they change.
    - [DbLogic], [VolumeApiEffect], [VolumeApiProofs]: the API, with a Hoare
      logic for the database, a logic of total correctness for environments
      without faults, and one relation for the effect of all routes;
      [AuthProofs]: authentication and accounts; the theorems about domains are
      in [DomainApi].
    - [WebhookProofs], [PreviewProofs]: the webhooks.
    - [CiEvents], [CiRuns]: CI jobs; [CiOrder],
      [CiRunnerProofs]: workflows and their runs; [BuilderProofs]: builds.
    - [EdgeRoutes], [EdgeServe]: the edge; [DnsNames], [WorkerDnsProofs]: the
      worker DNS; [BackgroundProofs]: the sweeps and the registration.
    - [Sample]: a small cluster on which definitions are evaluated; the one of
      volumes is in [VolumeSafety].

    ** State and effects

    A handler is a function [M A] of a [World]: the database, the clock, the
    number of calls made so far, the open transaction and the log of the calls
    that left the process (starts, stops, probes, wake-ups of schedulers, calls
    to the file system and the object store with their outcome).  It
    ends with a result, a Go error, a nil dereference ([Panic]), or without
    fuel ([Diverge]).  The class [Env] says for the n-th call whether it failed
    before or after it took effect and how long it took, and gives the ids drawn
    and the answers of HTTP probes.  The answers of a [Runtime] also depend on
    the number of the call.  A theorem over all [Env] therefore covers every
    pattern of faults, delays and answers.  [quiet env] says that no call to the
    database fails; it leaves runtime, probes and delays arbitrary.

    Statements are pure functions on [Db]: an UPDATE checks the columns it
    writes against NOT NULL, CHECK, UNIQUE and the foreign keys, and fails as
    PostgreSQL does.  [db_wf] says that the rows of the deployer's tables
    satisfy these constraints.  One handler runs at a time in a [World]:
    statements that other processes interleave with it are not modelled, except
    the tables of usage samples ([Metering]), which change under a sweep.

    The scheduler is a transition system: a label per atomic step of its
    goroutines, [step] executes a label when it is enabled, and theorems are
    about all sequences of labels, that is, all interleavings, with the order in
    which Go visits a map as part of the label.

    ** Loops and fuel

    Loops over lists are structural.  Two loops of the source wait for the
    world: the one of scaleDownExcess takes fuel as an argument, and
    [Termination.reconcile_terminates] shows that from some fuel on the outcome
    no longer depends on it, [ScalingProofs.scale_down_terminates] that twice the
    number of instances plus one is enough.  The waits for health and the
    creation of missing instances carry their own bound ([health_rounds], one
    round per poll interval until the deadline; the wanted number of instances
    plus one), and are shown never to reach it; so does the edge's wait for a
    backend ([cold_rounds], [EdgeServe.request_answered]).  The search of a
    workflow's jobs goes at most one deeper than their number, the parser of
    conditions makes at most four calls per token, and the search for the
    repository's root goes up at most as often as the path is long
    ([CiOrder.jobs_in_order], [CiRunnerProofs.condition_value],
    [CiOrder.FindRepoRoot_ends]).  A download is tried three times, as in the
    source.  Interpolation takes fuel as an argument: it
    need not end ([CiRunnerProofs.interpolation_ends]).

    ** What the theorems show

    - Deployments: a reconciliation ends; it never dereferences a nil runtime;
      it changes rows only in permitted directions (nothing deleted comes back,
      a deleted instance changes in its timestamps only, a mark once set stays)
      and keeps the schema's constraints; a deployment is marked running only in
      the world in which enough ready instances of it were counted; a terminal deployment loses all its instances and no other
      deployment loses any.
    - Instances: a start that fails is undone; scaling up reaches exactly the
      wanted number; scaling down ends; an instance leaves a draining server
      only after replacements are ready; restart budget, warm pool, replica
      targets, placement of volumes and the environment of a service.
    - Migration: the states move along a fixed transition relation, each server
      acts only in its role, and the commit is all or nothing.
    - Servers and previews: a server is drained only when nothing is left on it;
      a cleanup closes every deployment of an environment.
    - Autoscaler: targets stay within the project's bounds and are what the
      deployer then runs; sweeps write nothing else.
    - Scheduler: in every interleaving an entity is reconciled at most once at a
      time and never forgotten: a later tick sends it, when the channel has room.
    - Volume operations: a move, however often and wherever it is resumed,
      keeps the volume pinned to a server whose disk holds the data, and a
      backup followed by deletion never loses it; trimming keeps exactly the
      newest backups.  [StorageLogic.replay] reads the log: a call to the
      object store that failed, or an interrupted download, may have taken
      effect all the same.
    - Volume API: organizations are isolated, a volume has one operation at a
      time and never shrinks, mount paths are clean, and an accepted move starts
      in a state the operations keep safe.
    - Domains: a request changes only domains of the administrator's
      organization, verifies one only when the TXT record holds its token, and
      the routes of the edge then lead to the service's running VMs.
    - Accounts: the middleware hands on only requests that speak for a user, a
      key or an agent; each request changes only what its caller may change; a
      login's cookie is good for 30 days.
    - Webhooks: nothing happens without a valid signature; a push creates
      exactly the deployments of the services it touches; a pull request's
      environment, newest deployment and host name point at each other.
    - CI: an event of GitHub touches its own job only and never restarts a
      finished one; a job runs only under its lease, gives it back, and a local
      workflow ends finished.
    - CI workflows: the jobs of a plan are those the wanted ones need, in an
      order in which each follows what it needs, or the error names a missing
      job or a cycle; a run reports them in that order; conditions have the
      value of their grammar, however they are spaced; interpolation replaces
      the expressions of a template by their values and ends unless a looked-up
      value holds an opening brace; the search for the repository's root ends.
    - Builder: a build changes its own row, images and logs only, under its
      lease, and is successful only with the image that was built; it settles
      and gives the lease back; its source is unpacked below its directory
      unless a name goes up, and has a Dockerfile when it is.
    - Edge: the table of routes is exactly what the database says, whatever
      fails the handler of a request returns, a cold start leaves the deployment
      with replicas to run if its project may have any, the hosts of a closed
      preview are gone, and backends are taken in turn.
    - Worker DNS: a reply holds only addresses of running VMs of the organization
      and environment of one VM, the newest at the caller's address, and private names are read back.
    - Background: a server is declared dead only when its heartbeat is stale and
      no live instance is left on it; the idle sweep scales only idle projects
      to zero; a new server gets the address range of an old one, because the
      largest range plus one is cut back to itself; the recovery of builds
      writes nothing, because its statement names a column the table lacks;
      polling creates a deployment again on every round until one runs.
    - Configuration: secrets survive encryption and the backfill, and every
      snapshot is well-formed.
    - Rate limiter: exact within a window, at most twice the limit in any
      interval of that length, cleanup is invisible.
    - Some theorems record behaviour that the source may not intend: promotion
      stops the running deployments of the whole project, a preview with a
      volume keeps its instances, a failure replaces a newer schedule, a
      production label can exceed 63 bytes, the migration's address parser
      accepts ports out of range, a retried pre-delete backup is marked
      failed, certificates are obtained for unverified domains, a workflow
      reads every variable of the host's environment, a user whose approval is
      pending enters an organization, verifying one domain of a project
      redirects the others, an artifact named by
      two dots replaces the directory above the artifacts, and a name with two
      dots in the archive of a build leads out of the directory of the build.

    ** Parameters and assumptions

    [Env], [Runtime], [Metering] as above; [Sorter], any ordered permutation, as
    sorting and ORDER BY leave ties open; [Unicode], lower case outside ASCII,
    and [UnicodeFold], case folding there;
    [Arch], conversion of a float64 outside the range of int32; [Crypto], AES-GCM
    and the random source, with the law that opening undoes sealing;
    [UuidParser], uuid.Parse, with the law that it reads what String prints;
    [VolumeIO], the answers of the file system, qemu-img and S3; the decoder of
    encrypted values; in a [JobService], the client of GitHub, the runners, the
    workflow files with their compiler ([CiRunner.LocalWorkflowRunner] is one
    runner) and the unpacking of archives, as
    computations that may do anything a theorem does not exclude; in an [Edge],
    the outcome of forwarding, the end of a request's context and what others do
    while it sleeps; [DnsLibrary], [SqlText] and [UnicodeLetters], the DNS
    library's Fqdn, LOWER of the database and the classes of runes outside
    ASCII; in [Background], the answers of GitHub, the recovery of the runtime
    and the host of the database URL as its driver parses it; [Yaml], the
    decoder of YAML documents, [WorkflowFS], the files of a repository, and
    [RunnerHost], the processes and files of the host of a CI run with the
    copies of trees, which may do anything; [BuildHost], the file system, GitHub
    and the end of the context under a build, the runner of a [Builder], a
    computation that answers only for images it has built, and [Oci], the calls
    of internal/oci below the local one; [DomainHost], the random source and the
    DNS resolver; [AuthHost], the random source, bcrypt and the variables of
    the process.  Where a connection and the
    cluster's advisory lock come first, whether they were obtained is the
    argument [leader].  Texts hold no
    zero byte, which PostgreSQL would refuse.  Logging is left out.  Texts of errors wrapped from libraries are placeholders where the code
    does not inspect them, and %q is modelled for strings that need no escapes.

    ** Not modelled

    The runtimes and virtual machines behind the interface, the runners of builds
    in virtual machines with internal/oci, the other RPC handlers, the archives of CI jobs and their runner in a virtual
    machine, external identity providers and enrollment tokens, metering and the
    commands: input and output, external services or user interface.  Of
    the edge, the headers of forwarded requests, TLS with its certificate store,
    the refresh loop and the usage counters are left out.  Next in the plan: the
    handlers of internal/rpc/servers and of the other packages of internal/rpc
    and the usage counters. *)

From Stdlib Require Export ZArith Lia.
From stdpp Require Export base option list gmap sorting strings pretty.

#[global] Open Scope string_scope.
#[global] Open Scope list_scope.
#[global] Open Scope Z_scope.

(** ** Identifiers *)

(** [uuid.UUID] is a 128-bit value, written here as the number its sixteen
    bytes spell; [uuid.Nil] is zero. *)
Abbreviation UUID := N (only parsing).

Definition uuid_Nil : UUID := 0%N.

(** [pgtype.UUID] carries a validity flag; an invalid one has zero bytes in
    every value the code builds or scans, so [None] stands for it. *)
Abbreviation pgUUID := (option UUID) (only parsing).

(** [pguuid.ToPgtype]. *)
Definition ToPgtype (id : UUID) : pgUUID :=
  if decide (id = uuid_Nil) then None else Some id.

(** [pguuid.FromPgtype]. *)
Definition FromPgtype (u : pgUUID) : UUID :=
  match u with Some b => b | None => uuid_Nil end.

(** [pguuid.Equal]. *)
Definition pguuid_Equal (a b : pgUUID) : bool :=
  match a, b with
  | Some x, Some y => bool_decide (x = y)
  | None, None => true
  | _, _ => false
  end.

(** The hexadecimal digit of a number below sixteen. *)
Definition hex_digit (n : N) : Ascii.ascii :=
  Ascii.ascii_of_N (if (n <? 10)%N then 48 + n else 87 + n)%N.

Fixpoint hex_digits (k : nat) (n : N) (acc : string) : string :=
  match k with
  | O => acc
  | S k' => hex_digits k' (n / 16)%N (String (hex_digit (n mod 16)%N) acc)
  end.

(** [uuid.UUID.String]: 8-4-4-4-12 hexadecimal digits. *)
Definition uuid_String (u : UUID) : string :=
  let part (k : nat) (shift : N) := hex_digits k (N.shiftr u shift) "" in
  part 8%nat 96%N +:+ "-" +:+ part 4%nat 80%N +:+ "-" +:+ part 4%nat 64%N
    +:+ "-" +:+ part 4%nat 48%N +:+ "-" +:+ part 12%nat 0%N.

(** [pguuid.ToString]. *)
Definition pguuid_ToString (u : pgUUID) : string :=
  match u with Some b => uuid_String b | None => "" end.

(** ** Time *)

(** [time.Time] is the number of nanoseconds since the zero time, so that
    [t.IsZero()] is [t = 0]; [time.Duration] is a number of nanoseconds. *)
Abbreviation Time := Z (only parsing).
Abbreviation Duration := Z (only parsing).

Definition Nanosecond : Duration := 1.
Definition Millisecond : Duration := 1000000.
Definition Second : Duration := 1000000000.
Definition Minute : Duration := 60 * Second.
Definition Hour : Duration := 60 * Minute.

Definition IsZero (t : Time) : bool := t =? 0.
Definition After (t u : Time) : bool := u <? t.
Definition Before (t u : Time) : bool := t <? u.

Definition min_int64 : Z := - 2 ^ 63.
Definition max_int64 : Z := 2 ^ 63 - 1.
Definition min_int32 : Z := - 2 ^ 31.
Definition max_int32 : Z := 2 ^ 31 - 1.

(** [Time.Sub] saturates at the bounds of [Duration]. *)
Definition time_Sub (t u : Time) : Duration :=
  Z.max min_int64 (Z.min max_int64 (t - u)).

(** Two's complement conversion to a signed 32-bit and 64-bit integer. *)
Definition wrap32 (z : Z) : Z := (z + 2 ^ 31) mod 2 ^ 32 - 2 ^ 31.
Definition wrap64 (z : Z) : Z := (z + 2 ^ 63) mod 2 ^ 64 - 2 ^ 63.

(** ** Strings *)

Definition str_bytes : string -> list Ascii.ascii := String.list_ascii_of_string.
Definition str_of_bytes : list Ascii.ascii -> string := String.string_of_list_ascii.

(** The UTF-8 encodings of the code points [unicode.IsSpace] accepts. *)
Definition white_space : list (list N) :=
  [[9]; [10]; [11]; [12]; [13]; [32];
   [194; 133]; [194; 160]; [225; 154; 128];
   [226; 128; 128]; [226; 128; 129]; [226; 128; 130]; [226; 128; 131];
   [226; 128; 132]; [226; 128; 133]; [226; 128; 134]; [226; 128; 135];
   [226; 128; 136]; [226; 128; 137]; [226; 128; 138];
   [226; 128; 168]; [226; 128; 169]; [226; 128; 175]; [226; 129; 159];
   [227; 128; 128]]%N.

(** [bytes_strip p l] is [l] without its prefix [p], when it has one. *)
Fixpoint bytes_strip (p : list N) (l : list Ascii.ascii) : option (list Ascii.ascii) :=
  match p, l with
  | [], _ => Some l
  | b :: p', c :: l' =>
      if decide (Ascii.N_of_ascii c = b) then bytes_strip p' l' else None
  | _ :: _, [] => None
  end.

(** The first of the encodings in [ws] that [l] starts with, removed. *)
Fixpoint strip_any (ws : list (list N)) (l : list Ascii.ascii) : option (list Ascii.ascii) :=
  match ws with
  | [] => None
  | p :: ws' =>
      match bytes_strip p l with Some l' => Some l' | None => strip_any ws' l end
  end.

Fixpoint trim_front (fuel : nat) (ws : list (list N)) (l : list Ascii.ascii) : list Ascii.ascii :=
  match fuel with
  | O => l
  | S n => match strip_any ws l with Some l' => trim_front n ws l' | None => l end
  end.

(** [strings.TrimSpace]: every encoding removed has at least one byte, so the
    length of the string bounds the rounds. *)
Definition TrimSpace (s : string) : string :=
  let l := str_bytes s in
  let front := trim_front (length l) white_space l in
  str_of_bytes (rev (trim_front (length front) (map (@rev N) white_space) (rev front))).

(** [strings.HasPrefix]. *)
Fixpoint HasPrefix (s p : string) : bool :=
  match p, s with
  | EmptyString, _ => true
  | String c p', String d s' => if Ascii.eqb c d then HasPrefix s' p' else false
  | String _ _, EmptyString => false
  end.

(** [strings.Contains]. *)
Fixpoint Contains (s sub : string) : bool :=
  if HasPrefix s sub then true
  else match s with EmptyString => false | String _ s' => Contains s' sub end.

(** [s[:n]] for [n <= len(s)]. *)
Fixpoint str_take (n : nat) (s : string) : string :=
  match n, s with
  | S n', String c s' => String c (str_take n' s')
  | _, _ => EmptyString
  end.

(** [strings.Compare]. *)
Definition strings_Compare (a b : string) : Z :=
  match String.compare a b with Lt => -1 | Eq => 0 | Gt => 1 end.

(** [%q] of a string without characters to escape. *)
Definition go_quote (s : string) : string :=
  let dq := String (Ascii.ascii_of_N 34) "" in dq +:+ s +:+ dq.

(** ** Sorting

    [slices.SortFunc] and SQL's [ORDER BY] promise an ordered permutation and
    leave the order of equal elements open.  The model takes any
    implementation of that contract. *)
Class Sorter := {
  sort_by : forall {A : Type}, (A -> A -> bool) -> list A -> list A;
  sort_by_perm : forall {A} (le : A -> A -> bool) l, sort_by le l ≡ₚ l;
  sort_by_sorted : forall {A} (le : A -> A -> bool) l,
    (forall x y, le x y || le y x) ->
    (forall x y z, le x y -> le y z -> le x z) ->
    StronglySorted (fun x y => Is_true (le x y)) (sort_by le l)
}.

(** Insertion sort meets the contract. *)
Fixpoint insert_by {A} (le : A -> A -> bool) (x : A) (l : list A) : list A :=
  match l with
  | [] => [x]
  | y :: l' => if le x y then x :: l else y :: insert_by le x l'
  end.

Definition insertion_sort {A} (le : A -> A -> bool) (l : list A) : list A :=
  foldr (insert_by le) [] l.

Lemma insert_by_perm {A} (le : A -> A -> bool) x l : insert_by le x l ≡ₚ x :: l.
Proof.
  induction l as [|y l IH]; simpl; [done|].
  destruct (le x y); [done|]. rewrite IH. by rewrite Permutation_swap.
Qed.

Lemma insertion_sort_perm {A} (le : A -> A -> bool) l : insertion_sort le l ≡ₚ l.
Proof. induction l as [|x l IH]; simpl; [done|]. by rewrite insert_by_perm, IH. Qed.

Lemma insert_by_sorted {A} (le : A -> A -> bool) x l :
  (forall x y, le x y || le y x) ->
  (forall x y z, le x y -> le y z -> le x z) ->
  StronglySorted (fun x y => Is_true (le x y)) l ->
  StronglySorted (fun x y => Is_true (le x y)) (insert_by le x l).
Proof.
  intros Htot Htrans. induction 1 as [|y l Hl IH Hy]; simpl; [repeat constructor|].
  destruct (le x y) eqn:E.
  - constructor; [by constructor|]. constructor; [by rewrite E|].
    apply (Forall_impl _ _ _ Hy); intros z Hz. apply (Htrans _ y); [by rewrite E|done].
  - constructor; [done|]. rewrite insert_by_perm. constructor; [|done].
    specialize (Htot x y). by rewrite E in Htot.
Qed.

#[export] Instance insertion_sorter : Sorter.
Proof.
  refine {| sort_by A := @insertion_sort A |}.
  - intros; apply insertion_sort_perm.
  - intros A le l Htot Htrans; induction l as [|x l IH]; simpl; [constructor|].
    by apply insert_by_sorted.
Defined.

(** ** Shared tactics and lemmas *)

(** Splits boolean tests and matches in the goal. *)
Ltac case_if :=
  match goal with
  | |- context [ if ?b then _ else _ ] => let E := fresh "E" in destruct b eqn:E
  | |- context [ match ?x with _ => _ end ] => let E := fresh "E" in destruct x eqn:E
  end.

Lemma sort_by_elem {S : Sorter} {A} (le : A -> A -> bool) l x :
  x ∈ sort_by le l <-> x ∈ l.
Proof. by rewrite sort_by_perm. Qed.

Lemma sort_by_length {S : Sorter} {A} (le : A -> A -> bool) (l : list A) :
  length (sort_by le l) = length l.
Proof. by rewrite sort_by_perm. Qed.
