(* ===== verification/NetAddr.v ===== *)
(** * Addresses

    The parts of Go's [net], [net/netip], [net/url] and [strconv] that the
    control plane uses to read and print runtime addresses, and
    [parseRuntimeAddress] itself (internal/deploy/runtime_address.go and the
    copy in internal/migrationreconcile/reconcile.go). *)

From S2P Require Import Prelude.

(** ** netip.Addr *)

(** The zero [netip.Addr], an IPv4 address as a 32-bit number, or an IPv6
    address as a 128-bit number with its zone. *)
Inductive Addr :=
  | AddrZero
  | Addr4 (ip : N)
  | Addr6 (ip : N) (zone : string).

#[export] Instance Addr_eq_dec : EqDecision Addr.
Proof. solve_decision. Defined.

(** ** Byte-list helpers *)

Definition byte_is (n : N) (c : Ascii.ascii) : bool := (Ascii.N_of_ascii c =? n)%N.

(** [strings.Cut] at the first byte [sep]: the parts before and after it. *)
Fixpoint cut_byte (sep : N) (l : list Ascii.ascii) : list Ascii.ascii * option (list Ascii.ascii) :=
  match l with
  | [] => ([], None)
  | c :: l' =>
      if byte_is sep c then ([], Some l')
      else let '(a, b) := cut_byte sep l' in (c :: a, b)
  end.

(** The parts before and after the last byte [sep]. *)
Definition cut_last (sep : N) (l : list Ascii.ascii) : option (list Ascii.ascii * list Ascii.ascii) :=
  match cut_byte sep (rev l) with
  | (_, None) => None
  | (after, Some before) => Some (rev before, rev after)
  end.

Definition has_byte (sep : N) (l : list Ascii.ascii) : bool := existsb (byte_is sep) l.

Definition digit_value (c : Ascii.ascii) : option N :=
  let n := Ascii.N_of_ascii c in
  if ((48 <=? n) && (n <=? 57))%N then Some (n - 48)%N else None.

Definition hex_value (c : Ascii.ascii) : option N :=
  let n := Ascii.N_of_ascii c in
  if ((48 <=? n) && (n <=? 57))%N then Some (n - 48)%N
  else if ((97 <=? n) && (n <=? 102))%N then Some (n - 87)%N
  else if ((65 <=? n) && (n <=? 70))%N then Some (n - 55)%N
  else None.

(** ** net.SplitHostPort and net.JoinHostPort *)

(** [net.SplitHostPort]: [None] stands for the [AddrError]. *)
Definition split_host_port (l : list Ascii.ascii) : option (list Ascii.ascii * list Ascii.ascii) :=
  match cut_last 58 l with
  | None => None
  | Some (host, port) =>
      match l with
      | c :: l' =>
          if byte_is 91 c then
            (* [host]:port, with the first ']' just before the last ':' *)
            match cut_byte 93 l' with
            | (inner, Some after) =>
                match after with
                | d :: port' =>
                    if byte_is 58 d && negb (has_byte 58 port') &&
                       negb (has_byte 91 inner) && negb (has_byte 91 port') &&
                       negb (has_byte 93 port')
                    then Some (inner, port') else None
                | [] => None
                end
            | (_, None) => None
            end
          else if has_byte 58 host || has_byte 91 l || has_byte 93 l then None
          else Some (host, port)
      | [] => None
      end
  end.

Definition SplitHostPort (s : string) : option (string * string) :=
  match split_host_port (str_bytes s) with
  | Some (h, p) => Some (str_of_bytes h, str_of_bytes p)
  | None => None
  end.

(** [net.JoinHostPort]. *)
Definition JoinHostPort (host port : string) : string :=
  if Contains host ":" || Contains host "%"
  then "[" +:+ host +:+ "]:" +:+ port else host +:+ ":" +:+ port.

(** ** netip.ParseAddr *)

(** The loop of [parseIPv4Fields]: [prev] is the byte before the rest of the
    input, [val] and [digLen] the octet read so far, [fields] those finished. *)
Fixpoint parse_ipv4_fields (l : list Ascii.ascii) (prev : option Ascii.ascii)
    (val : N) (digLen : nat) (fields : list N) : option (list N) :=
  match l with
  | [] => if decide (length fields = 3%nat) then Some (fields ++ [val]) else None
  | c :: l' =>
      match digit_value c with
      | Some d =>
          if ((digLen =? 1)%nat && (val =? 0)%N)%bool then None
          else
            let val' := (val * 10 + d)%N in
            if (255 <? val')%N then None
            else parse_ipv4_fields l' (Some c) val' (S digLen) fields
      | None =>
          if byte_is 46 c then
            match prev, l' with
            | Some p, _ :: _ =>
                if byte_is 46 p || (length fields =? 3)%nat then None
                else parse_ipv4_fields l' (Some c) 0 0 (fields ++ [val])
            | _, _ => None
            end
          else None
      end
  end.

Definition bytes_number (bs : list N) : N := foldl (fun acc b => acc * 256 + b)%N 0%N bs.

Definition parse_ipv4 (l : list Ascii.ascii) : option Addr :=
  Addr4 ∘ bytes_number <$> parse_ipv4_fields l None 0 0 [].

(** One hexadecimal group: its value, its number of digits and the rest;
    [None] when it has more than four digits. *)
Fixpoint parse_group (l : list Ascii.ascii) (acc : N) (off : nat) : option (N * nat * list Ascii.ascii) :=
  match l with
  | c :: l' =>
      match hex_value c with
      | Some d => if (3 <? off)%nat then None else parse_group l' (acc * 16 + d)%N (S off)
      | None => Some (acc, off, l)
      end
  | [] => Some (acc, off, [])
  end.

(** The group loop of [parseIPv6]; [ip] holds the bytes written so far and
    [ellipsis] the position of "::" in it.  Each round adds two bytes or ends. *)
Fixpoint parse_groups (fuel : nat) (l : list Ascii.ascii) (ip : list N) (ellipsis : option nat)
    : option (list Ascii.ascii * list N * option nat) :=
  match fuel with
  | O => Some (l, ip, ellipsis)
  | S fuel' =>
      match parse_group l 0 0 with
      | None => None
      | Some (acc, off, rest) =>
          if (off =? 0)%nat then None
          else if match rest with c :: _ => byte_is 46 c | [] => false end then
            if (bool_decide (ellipsis = None) && negb (length ip =? 12)%nat) ||
               (16 <? length ip + 4)%nat then None
            else
              match parse_ipv4_fields l None 0 0 [] with
              | Some fs => Some ([], ip ++ fs, ellipsis)
              | None => None
              end
          else
            let ip' := ip ++ [(acc / 256)%N; (acc mod 256)%N] in
            match rest with
            | [] => Some ([], ip', ellipsis)
            | c :: rest' =>
                if negb (byte_is 58 c) then None
                else match rest' with
                | [] => None
                | d :: rest'' =>
                    if byte_is 58 d then
                      if bool_decide (ellipsis = None) then
                        match rest'' with
                        | [] => Some ([], ip', Some (length ip'))
                        | _ => parse_groups fuel' rest'' ip' (Some (length ip'))
                        end
                      else None
                    else parse_groups fuel' rest' ip' ellipsis
                end
            end
      end
  end.

(** [parseIPv6]: eight groups of two bytes bound the loop. *)
Definition parse_ipv6 (l : list Ascii.ascii) : option Addr :=
  let '(s, zone) := cut_byte 37 l in
  if bool_decide (zone = Some []) then None
  else
    let z := str_of_bytes (default [] zone) in
    let finish (r : list Ascii.ascii * list N * option nat) :=
      let '(rest, ip, ellipsis) := r in
      match rest, ellipsis with
      | _ :: _, _ => None
      | [], Some e =>
          if (length ip <? 16)%nat
          then Some (Addr6 (bytes_number (take e ip ++ replicate (16 - length ip) 0%N ++ drop e ip)) z)
          else None
      | [], None =>
          if (length ip =? 16)%nat then Some (Addr6 (bytes_number ip) z) else None
      end in
    match s with
    | c :: d :: s' =>
        if byte_is 58 c && byte_is 58 d then
          match s' with
          | [] => Some (Addr6 0 z)
          | _ => parse_groups 8 s' [] (Some 0%nat) ≫= finish
          end
        else parse_groups 8 s [] None ≫= finish
    | _ => parse_groups 8 s [] None ≫= finish
    end.

(** [netip.ParseAddr]: the first '.', ':' or '%' decides. *)
Fixpoint parse_addr_scan (l whole : list Ascii.ascii) : option Addr :=
  match l with
  | [] => None
  | c :: l' =>
      if byte_is 46 c then parse_ipv4 whole
      else if byte_is 58 c then parse_ipv6 whole
      else if byte_is 37 c then None
      else parse_addr_scan l' whole
  end.

Definition ParseAddr (s : string) : option Addr :=
  parse_addr_scan (str_bytes s) (str_bytes s).

(** ** strconv.Atoi *)

Fixpoint parse_digits (l : list Ascii.ascii) (acc : N) : option N :=
  match l with
  | [] => Some acc
  | c :: l' => match digit_value c with Some d => parse_digits l' (acc * 10 + d)%N | None => None end
  end.

(** [strconv.Atoi] on a 64-bit platform. *)
Definition Atoi (s : string) : option Z :=
  let magnitude (l : list Ascii.ascii) := match l with [] => None | _ => parse_digits l 0 end in
  match str_bytes s with
  | c :: l =>
      if byte_is 45 c then
        n ← magnitude l; if (min_int64 <=? - Z.of_N n) then Some (- Z.of_N n) else None
      else
        n ← magnitude (if byte_is 43 c then l else c :: l);
        if (Z.of_N n <=? max_int64) then Some (Z.of_N n) else None
  | [] => None
  end.

(** ** net/url

    [url.Parse] as far as [u.Host] depends on it: [None] is an error, and the
    host of an opaque or authority-less URL is empty. *)
Section url.

Definition is_alpha (n : N) : bool :=
  ((97 <=? n) && (n <=? 122) || (65 <=? n) && (n <=? 90))%N.
Definition is_alnum (n : N) : bool := is_alpha n || ((48 <=? n) && (n <=? 57))%N.

(** Which bytes [shouldEscape] lets stand in a host. *)
Definition host_byte (n : N) : bool :=
  is_alnum n ||
  existsb (N.eqb n) [33; 36; 38; 39; 40; 41; 42; 43; 44; 59; 61; 58; 91; 93; 60; 62; 34;
                     45; 95; 46; 126]%N.

Inductive unescape_mode := encodeOther | encodeHost | encodeZone.

(** [unescape]: percent decoding with the checks of each mode. *)
Fixpoint unescape (mode : unescape_mode) (l : list Ascii.ascii) : option (list Ascii.ascii) :=
  match l with
  | [] => Some []
  | c :: l' =>
      if byte_is 37 c then
        match l' with
        | a :: b :: l'' =>
            match hex_value a, hex_value b with
            | Some x, Some y =>
                let v := (x * 16 + y)%N in
                let bad :=
                  match mode with
                  | encodeOther => false
                  | encodeHost => (x <? 8)%N && negb (v =? 37)%N
                  | encodeZone => negb (v =? 37)%N && negb (v =? 32)%N && negb (host_byte v)
                  end in
                if bad then None else cons (Ascii.ascii_of_N v) <$> unescape mode l''
            | _, _ => None
            end
        | _ => None
        end
      else
        let n := Ascii.N_of_ascii c in
        let bad :=
          match mode with
          | encodeOther => false
          | _ => (n <? 128)%N && negb (host_byte n)
          end in
        if bad then None else cons c <$> unescape mode l'
  end.

(** [validOptionalPort]: empty, or ':' and decimal digits. *)
Definition valid_optional_port (l : list Ascii.ascii) : bool :=
  match l with
  | [] => true
  | c :: l' => byte_is 58 c && forallb (fun d => bool_decide (is_Some (digit_value d))) l'
  end.

(** The position at which "%25" first occurs splits a bracketed host. *)
Fixpoint split_zone (l : list Ascii.ascii) : list Ascii.ascii * option (list Ascii.ascii) :=
  match bytes_strip [37; 50; 53]%N l, l with
  | Some _, _ => ([], Some l)
  | None, [] => ([], None)
  | None, c :: l' => let '(a, z) := split_zone l' in (c :: a, z)
  end.

(** [parseHost]: a bracketed IPv6 literal, or a name with an optional port. *)
Definition parse_host (l : list Ascii.ascii) : option (list Ascii.ascii) :=
  match l with
  | c :: l' =>
      if byte_is 91 c then
        if has_byte 91 l' then None
        else
          '(inner, port) ← cut_last 93 l';
          if negb (valid_optional_port port) then None
          else
            let '(h, z) := split_zone inner in
            h' ← unescape encodeHost h;
            z' ← unescape encodeZone (default [] z);
            match parse_addr_scan (h' ++ z') (h' ++ z') with
            | Some (Addr6 _ _) => Some (c :: (h' ++ z') ++ Ascii.ascii_of_N 93 :: port)
            | _ => None
            end
      else if has_byte 91 l then None
      else
        let '(name, port) := cut_byte 58 l in
        if (valid_optional_port (match port with Some p => Ascii.ascii_of_N 58 :: p | None => [] end))
        then unescape encodeHost l else None
  | [] => Some []
  end.

(** The userinfo bytes [validUserinfo] accepts. *)
Definition userinfo_byte (n : N) : bool :=
  is_alnum n ||
  existsb (N.eqb n) [45; 46; 95; 58; 126; 33; 36; 38; 39; 40; 41; 42; 43; 44; 59; 61; 37; 64]%N.

Definition parse_authority (l : list Ascii.ascii) : option (list Ascii.ascii) :=
  match cut_last 64 l with
  | None => parse_host l
  | Some (user, host) =>
      h ← parse_host host;
      if forallb (fun c => userinfo_byte (Ascii.N_of_ascii c)) user
      then (fun _ => h) <$> unescape encodeOther user else None
  end.

(** [getScheme]: the scheme, empty when there is none, and the rest. *)
Fixpoint get_scheme (l seen whole : list Ascii.ascii) : option (list Ascii.ascii * list Ascii.ascii) :=
  match l with
  | [] => Some ([], whole)
  | c :: l' =>
      let n := Ascii.N_of_ascii c in
      if is_alpha n then get_scheme l' (seen ++ [c]) whole
      else if is_alnum n || byte_is 43 c || byte_is 45 c || byte_is 46 c then
        match seen with [] => Some ([], whole) | _ => get_scheme l' (seen ++ [c]) whole end
      else if byte_is 58 c then
        match seen with [] => None | _ => Some (seen, l') end
      else Some ([], whole)
  end.

Definition starts_with (bs : list N) (l : list Ascii.ascii) : bool :=
  match bytes_strip bs l with Some _ => true | None => false end.

(** [url.Parse(s)], then [u.Host]. *)
Definition url_Host (s : string) : option string :=
  let '(u, frag) := cut_byte 35 (str_bytes s) in
  if existsb (fun c => let n := Ascii.N_of_ascii c in (n <? 32)%N || (n =? 127)%N) u then None
  else
    _ ← unescape encodeOther (default [] frag);
    '(scheme, rest0) ← get_scheme u [] u;
    let '(rest, _) := cut_byte 63 rest0 in
    if bool_decide (u = str_bytes "*") then Some ""
    else if negb (starts_with [47]%N rest) then
      match scheme with
      | _ :: _ => Some ""
      | [] => if has_byte 58 (fst (cut_byte 47 rest)) then None
              else (fun _ => "") <$> unescape encodeOther rest
      end
    else
      match bytes_strip [47; 47]%N rest with
      | Some authority =>
          if bool_decide (scheme = []) && starts_with [47; 47; 47]%N rest
          then (fun _ => "") <$> unescape encodeOther rest
          else
            let '(auth, path) := cut_byte 47 authority in
            h ← parse_authority auth;
            (fun _ => str_of_bytes h) <$> unescape encodeOther (default [] path)
      | None => (fun _ => "") <$> unescape encodeOther rest
      end.

End url.

(** ** parseRuntimeAddress *)

Inductive addr_error :=
  | empty_runtime_address
  | parse_runtime_url
  | split_host_port_error (hostPort : string)
  | parse_host_ip (host : string)
  | parse_port (port : string)
  | port_out_of_range (port : Z).

(** [parseRuntimeAddress] of internal/deploy/runtime_address.go. *)
Definition parseRuntimeAddress (raw : string) : addr_error + (Addr * Z) :=
  let s := TrimSpace raw in
  if decide (s = "") then inl empty_runtime_address
  else
    match (if Contains s "://" then url_Host s else Some s) with
    | None => inl parse_runtime_url
    | Some hostPort =>
        match SplitHostPort hostPort with
        | None => inl (split_host_port_error hostPort)
        | Some (host, portStr) =>
            match ParseAddr host with
            | None => inl (parse_host_ip host)
            | Some addr =>
                match Atoi portStr with
                | None => inl (parse_port portStr)
                | Some port =>
                    if (port <? 1) || (65535 <? port) then inl (port_out_of_range port)
                    else inr (addr, port)
                end
            end
        end
    end.

(** [parseRuntimeAddress] of internal/migrationreconcile/reconcile.go, which
    has no range check on the port. *)
Definition migration_parseRuntimeAddress (raw : string) : addr_error + (Addr * Z) :=
  let s := TrimSpace raw in
  if decide (s = "") then inl empty_runtime_address
  else
    match (if Contains s "://" then url_Host s else Some s) with
    | None => inl parse_runtime_url
    | Some hostPort =>
        match SplitHostPort hostPort with
        | None => inl (split_host_port_error hostPort)
        | Some (host, portStr) =>
            match ParseAddr host with
            | None => inl (parse_host_ip host)
            | Some ip =>
                match Atoi portStr with
                | None => inl (parse_port portStr)
                | Some port => inr (ip, port)
                end
            end
        end
    end.

(** ** netip.Addr.String *)

Definition ipv4_string (ip : N) : string :=
  pretty (N.shiftr ip 24 mod 256)%N +:+ "." +:+ pretty (N.shiftr ip 16 mod 256)%N +:+ "." +:+
  pretty (N.shiftr ip 8 mod 256)%N +:+ "." +:+ pretty (ip mod 256)%N.

Definition ipv6_groups (ip : N) : list N :=
  (fun i => N.shiftr ip (16 * i) mod 65536)%N <$> [7; 6; 5; 4; 3; 2; 1; 0]%N.

(** The length of the run of zero groups a list starts with. *)
Fixpoint zero_run (gs : list N) : nat :=
  match gs with g :: gs' => if (g =? 0)%N then S (zero_run gs') else 0%nat | [] => 0%nat end.

(** Position and length of the first longest run of at least two zero groups. *)
Fixpoint longest_zero_run (i : nat) (gs : list N) (best : nat * nat) : nat * nat :=
  match gs with
  | [] => best
  | _ :: gs' =>
      let n := zero_run gs in
      longest_zero_run (S i) gs' (if (2 <=? n)%nat && (snd best <? n)%nat then (i, n) else best)
  end.

(** Lower-case hexadecimal without leading zeros. *)
Fixpoint hex_string (fuel : nat) (n : N) (acc : string) : string :=
  match fuel with
  | O => acc
  | S fuel' =>
      let acc' := String (hex_digit (n mod 16)%N) acc in
      if (n <? 16)%N then acc' else hex_string fuel' (n / 16)%N acc'
  end.

Definition join_groups (gs : list N) : string :=
  String.concat ":" ((fun g => hex_string 4 g "") <$> gs).

Definition Addr_String (a : Addr) : string :=
  match a with
  | AddrZero => "invalid IP"
  | Addr4 ip => ipv4_string ip
  | Addr6 ip zone =>
      let z := if String.eqb zone "" then "" else "%" +:+ zone in
      if (N.shiftr ip 32 =? 65535)%N then "::ffff:" +:+ ipv4_string (ip mod 4294967296)%N +:+ z
      else
        let gs := ipv6_groups ip in
        let '(i, n) := longest_zero_run 0 gs (0, 0)%nat in
        (if (n =? 0)%nat then join_groups gs
         else join_groups (take i gs) +:+ "::" +:+ join_groups (drop (i + n) gs)) +:+ z
  end.
