(* ===== verification/Text.v ===== *)
(** * Text

    UTF-8 decoding, [json.Marshal] on lists of strings, and the host names of
    internal/preview/naming.go. *)

From S2P Require Import Prelude.

(** ** UTF-8 *)

Definition in_range (lo hi n : N) : bool := ((lo <=? n) && (n <=? hi))%N.

(** The first rune of a byte sequence, with its width; [None] is an invalid
    encoding, which Go decodes as U+FFFD of width one. *)
Definition decode_rune (l : list N) : option (N * nat) :=
  match l with
  | [] => None
  | a :: l' =>
      if (a <? 128)%N then Some (a, 1%nat)
      else
        match l' with
        | b :: l'' =>
            if in_range 194 223 a && in_range 128 191 b
            then Some (((a - 192) * 64 + (b - 128))%N, 2%nat)
            else
              match l'' with
              | c :: l''' =>
                  if in_range 224 239 a && in_range (if (a =? 224)%N then 160 else 128) (if (a =? 237)%N then 159 else 191) b
                     && in_range 128 191 c
                  then Some (((a - 224) * 4096 + (b - 128) * 64 + (c - 128))%N, 3%nat)
                  else
                    match l''' with
                    | e :: _ =>
                        if in_range 240 244 a && in_range (if (a =? 240)%N then 144 else 128) (if (a =? 244)%N then 143 else 191) b
                           && in_range 128 191 c && in_range 128 191 e
                        then Some (((a - 240) * 262144 + (b - 128) * 4096 + (c - 128) * 64 + (e - 128))%N, 4%nat)
                        else None
                    | [] => None
                    end
              | [] => None
              end
        | [] => None
        end
  end.

Definition bytes_of (s : string) : list N := Ascii.N_of_ascii <$> str_bytes s.
Definition of_bytes (l : list N) : string := str_of_bytes (Ascii.ascii_of_N <$> l).

(** [for _, r := range s]: the runes, U+FFFD for each invalid byte. *)
Fixpoint runes_fuel (fuel : nat) (l : list N) : list N :=
  match fuel, l with
  | S fuel', _ :: l' =>
      match decode_rune l with
      | Some (r, w) => r :: runes_fuel fuel' (drop w l)
      | None => 65533%N :: runes_fuel fuel' l'
      end
  | _, _ => []
  end.

Definition runes (s : string) : list N := let l := bytes_of s in runes_fuel (length l) l.

(** [utf8.AppendRune]. *)
Definition encode_rune (r : N) : list N :=
  if (r <? 128)%N then [r]
  else if (r <? 2048)%N then [192 + r / 64; 128 + r mod 64]%N
  else if (r <? 65536)%N then [224 + r / 4096; 128 + r / 64 mod 64; 128 + r mod 64]%N
  else [240 + r / 262144; 128 + r / 4096 mod 64; 128 + r / 64 mod 64; 128 + r mod 64]%N.

(** ** json.Marshal *)

Definition hex4 (n : N) : list N := bytes_of (hex_digits 4 n "").

(** The escape of one byte below 128 inside a JSON string. *)
Definition json_ascii (a : N) : list N :=
  if (a =? 34)%N || (a =? 92)%N then [92; a]%N
  else if (a =? 8)%N then bytes_of "\b"
  else if (a =? 12)%N then bytes_of "\f"
  else if (a =? 10)%N then bytes_of "\n"
  else if (a =? 13)%N then bytes_of "\r"
  else if (a =? 9)%N then bytes_of "\t"
  else if (a <? 32)%N || (a =? 60)%N || (a =? 62)%N || (a =? 38)%N then bytes_of "\u" ++ hex4 a
  else [a].

Fixpoint json_string_fuel (fuel : nat) (l : list N) : list N :=
  match fuel, l with
  | S fuel', a :: l' =>
      if (a <? 128)%N then json_ascii a ++ json_string_fuel fuel' l'
      else
        match decode_rune l with
        | Some (r, w) =>
            (if (r =? 8232)%N || (r =? 8233)%N then bytes_of "\u" ++ hex4 r else take w l)
              ++ json_string_fuel fuel' (drop w l)
        | None => bytes_of "\ufffd" ++ json_string_fuel fuel' l'
        end
  | _, _ => []
  end.

Definition json_string (s : string) : string :=
  let l := bytes_of s in
  of_bytes ([34%N] ++ json_string_fuel (length l) l ++ [34%N]).

(** [json.Marshal] of a non-nil [[]string]. *)
Definition marshal_strings (l : list string) : string :=
  "[" +:+ String.concat "," (json_string <$> l) +:+ "]".

(** ** Host names (internal/preview/naming.go) *)

(** The part of [unicode.ToLower] outside ASCII is data of the Unicode tables. *)
Class Unicode := { lower_rune : N -> N }.

Section names.
Context {U : Unicode}.

Definition ToLower_rune (r : N) : N :=
  if in_range 65 90 r then (r + 32)%N else if (r <? 128)%N then r else lower_rune r.

(** [strings.ToLower]: rune by rune, re-encoded. *)
Definition ToLower (s : string) : string :=
  of_bytes (mjoin ((fun r => encode_rune (ToLower_rune r)) <$> runes s)).

(** [[a-z0-9-]] as bytes. *)
Definition slug_byte (b : N) : bool := in_range 97 122 b || in_range 48 57 b || (b =? 45)%N.

(** [nonSlug.ReplaceAllString(s, "-")]: each maximal run of other bytes becomes
    one hyphen; the bytes of a multi-byte rune are never slug bytes. *)
Fixpoint replace_runs (inside : bool) (l : list N) : list N :=
  match l with
  | [] => []
  | b :: l' =>
      if slug_byte b then b :: replace_runs false l'
      else if inside then replace_runs true l' else 45%N :: replace_runs true l'
  end.

(** [strings.TrimLeft(s, c)], [strings.TrimRight(s, c)], [strings.Trim(s, c)]. *)
Fixpoint trim_left (c : N) (l : list N) : list N :=
  match l with b :: l' => if (b =? c)%N then trim_left c l' else l | [] => [] end.
Definition trim_right (c : N) (l : list N) : list N := rev (trim_left c (rev l)).
Definition trim (c : N) (l : list N) : list N := trim_right c (trim_left c l).

Definition SlugProjectName (name : string) : string :=
  let s := trim 45%N (replace_runs false (bytes_of (ToLower (TrimSpace name)))) in
  match s with
  | [] => "app"
  | _ => of_bytes (if (40 <? length s)%nat then trim_right 45%N (take 40 s) else s)
  end.

Definition SlugServiceName (name : string) : string := SlugProjectName name.

Definition base_domain (baseDomain : string) : string :=
  of_bytes (trim 46%N (bytes_of (ToLower baseDomain))).

Definition ProductionServiceHostname (serviceName projectName baseDomain : string) : string :=
  let base := base_domain baseDomain in
  if String.eqb base "" then ""
  else SlugServiceName serviceName +:+ "-" +:+ SlugProjectName projectName +:+ "." +:+ base.

Definition StableHostname (prNumber : Z) (serviceName projectName baseDomain : string) : string :=
  let base := base_domain baseDomain in
  if String.eqb base "" then ""
  else "pr-" +:+ pretty prNumber +:+ "-" +:+ SlugServiceName serviceName +:+ "-" +:+
       SlugProjectName projectName +:+ "." +:+ base.

Definition ImmutableHostname (shortSHA : string) (prNumber : Z) (serviceName projectName baseDomain : string) : string :=
  let base := base_domain baseDomain in
  if String.eqb base "" then ""
  else
    let sh := str_take 7 (ToLower (TrimSpace shortSHA)) in
    let sh := if String.eqb sh "" then "unknown" else sh in
    sh +:+ "-pr" +:+ pretty prNumber +:+ "-" +:+ SlugServiceName serviceName +:+ "-" +:+
    SlugProjectName projectName +:+ "." +:+ base.

End names.
