(* ===== verification/Models.v ===== *)
(** * Database rows

    The rows of internal/database/queries/models.go, one record per table of
    internal/database/schema.sql the modelled components use, with all columns
    in order.  A nullable column is an [option]; a [jsonb] column is the value
    it stores; [int32] and [int64] columns are [Z].  [set_<t>_<Column>] is the
    row with one column replaced. *)

From S2P Require Import Prelude NetAddr.

(** A [jsonb] value. *)
Inductive json :=
  | JNull
  | JBool (b : bool)
  | JNumber (digits : string)
  | JString (s : string)
  | JArray (items : list json)
  | JObject (fields : list (string * json)).

(** [json.Unmarshal] into a [map[string]any]: only objects and null decode. *)
Definition json_fields (j : json) : option (list (string * json)) :=
  match j with
  | JObject fs => Some fs
  | JNull => Some []
  | _ => None
  end.

(** [m[key]], then [conv.String]: a string value, or the empty string. *)
Fixpoint json_string_field (key : string) (fs : list (string * json)) : string :=
  match fs with
  | [] => ""
  | (k, v) :: fs' =>
      if decide (k = key) then match v with JString s => s | _ => "" end
      else json_string_field key fs'
  end.

(** [b, ok := m[key].(bool)]; false unless the value is the boolean true. *)
Fixpoint json_bool_field (key : string) (fs : list (string * json)) : bool :=
  match fs with
  | [] => false
  | (k, v) :: fs' =>
      if decide (k = key) then match v with JBool b => b | _ => false end
      else json_bool_field key fs'
  end.

Record Build := mkBuild {
  bld_ID : pgUUID;
  bld_ProjectID : pgUUID;
  bld_ServiceID : pgUUID;
  bld_Status : string;
  bld_GithubCommit : string;
  bld_GithubBranch : string;
  bld_ImageID : pgUUID;
  bld_VmID : pgUUID;
  bld_ProcessingBy : pgUUID;
  bld_BuildingAt : option Time;
  bld_FailedAt : option Time;
  bld_CreatedAt : option Time;
  bld_UpdatedAt : option Time
}.

Record Deployment := mkDeployment {
  dep_ID : pgUUID;
  dep_ProjectID : pgUUID;
  dep_ServiceID : pgUUID;
  dep_BuildID : pgUUID;
  dep_ImageID : pgUUID;
  dep_VmID : pgUUID;
  dep_PromotedFromDeploymentID : pgUUID;
  dep_GithubCommit : string;
  dep_GithubBranch : string;
  dep_DeploymentKind : string;
  dep_PreviewEnvironmentID : pgUUID;
  dep_PreviewLastRequestAt : option Time;
  dep_PreviewScaledToZero : bool;
  dep_CircuitBroken : bool;
  dep_RunningAt : option Time;
  dep_StoppedAt : option Time;
  dep_FailedAt : option Time;
  dep_DeletedAt : option Time;
  dep_WakeRequestedAt : option Time;
  dep_CreatedAt : option Time;
  dep_UpdatedAt : option Time
}.

Definition set_dep_BuildID (v : pgUUID) (r : Deployment) : Deployment :=
  mkDeployment r.(dep_ID) r.(dep_ProjectID) r.(dep_ServiceID) v r.(dep_ImageID)
    r.(dep_VmID) r.(dep_PromotedFromDeploymentID) r.(dep_GithubCommit)
    r.(dep_GithubBranch) r.(dep_DeploymentKind) r.(dep_PreviewEnvironmentID)
    r.(dep_PreviewLastRequestAt) r.(dep_PreviewScaledToZero) r.(dep_CircuitBroken)
    r.(dep_RunningAt) r.(dep_StoppedAt) r.(dep_FailedAt) r.(dep_DeletedAt)
    r.(dep_WakeRequestedAt) r.(dep_CreatedAt) r.(dep_UpdatedAt).

Definition set_dep_ImageID (v : pgUUID) (r : Deployment) : Deployment :=
  mkDeployment r.(dep_ID) r.(dep_ProjectID) r.(dep_ServiceID) r.(dep_BuildID) v
    r.(dep_VmID) r.(dep_PromotedFromDeploymentID) r.(dep_GithubCommit)
    r.(dep_GithubBranch) r.(dep_DeploymentKind) r.(dep_PreviewEnvironmentID)
    r.(dep_PreviewLastRequestAt) r.(dep_PreviewScaledToZero) r.(dep_CircuitBroken)
    r.(dep_RunningAt) r.(dep_StoppedAt) r.(dep_FailedAt) r.(dep_DeletedAt)
    r.(dep_WakeRequestedAt) r.(dep_CreatedAt) r.(dep_UpdatedAt).

Definition set_dep_PreviewEnvironmentID (v : pgUUID) (r : Deployment) : Deployment :=
  mkDeployment r.(dep_ID) r.(dep_ProjectID) r.(dep_ServiceID) r.(dep_BuildID)
    r.(dep_ImageID) r.(dep_VmID) r.(dep_PromotedFromDeploymentID) r.(dep_GithubCommit)
    r.(dep_GithubBranch) r.(dep_DeploymentKind) v r.(dep_PreviewLastRequestAt)
    r.(dep_PreviewScaledToZero) r.(dep_CircuitBroken) r.(dep_RunningAt)
    r.(dep_StoppedAt) r.(dep_FailedAt) r.(dep_DeletedAt) r.(dep_WakeRequestedAt)
    r.(dep_CreatedAt) r.(dep_UpdatedAt).

Definition set_dep_PreviewScaledToZero (v : bool) (r : Deployment) : Deployment :=
  mkDeployment r.(dep_ID) r.(dep_ProjectID) r.(dep_ServiceID) r.(dep_BuildID)
    r.(dep_ImageID) r.(dep_VmID) r.(dep_PromotedFromDeploymentID) r.(dep_GithubCommit)
    r.(dep_GithubBranch) r.(dep_DeploymentKind) r.(dep_PreviewEnvironmentID)
    r.(dep_PreviewLastRequestAt) v r.(dep_CircuitBroken) r.(dep_RunningAt)
    r.(dep_StoppedAt) r.(dep_FailedAt) r.(dep_DeletedAt) r.(dep_WakeRequestedAt)
    r.(dep_CreatedAt) r.(dep_UpdatedAt).

Definition set_dep_CircuitBroken (v : bool) (r : Deployment) : Deployment :=
  mkDeployment r.(dep_ID) r.(dep_ProjectID) r.(dep_ServiceID) r.(dep_BuildID)
    r.(dep_ImageID) r.(dep_VmID) r.(dep_PromotedFromDeploymentID) r.(dep_GithubCommit)
    r.(dep_GithubBranch) r.(dep_DeploymentKind) r.(dep_PreviewEnvironmentID)
    r.(dep_PreviewLastRequestAt) r.(dep_PreviewScaledToZero) v r.(dep_RunningAt)
    r.(dep_StoppedAt) r.(dep_FailedAt) r.(dep_DeletedAt) r.(dep_WakeRequestedAt)
    r.(dep_CreatedAt) r.(dep_UpdatedAt).

Definition set_dep_RunningAt (v : option Time) (r : Deployment) : Deployment :=
  mkDeployment r.(dep_ID) r.(dep_ProjectID) r.(dep_ServiceID) r.(dep_BuildID)
    r.(dep_ImageID) r.(dep_VmID) r.(dep_PromotedFromDeploymentID) r.(dep_GithubCommit)
    r.(dep_GithubBranch) r.(dep_DeploymentKind) r.(dep_PreviewEnvironmentID)
    r.(dep_PreviewLastRequestAt) r.(dep_PreviewScaledToZero) r.(dep_CircuitBroken) v
    r.(dep_StoppedAt) r.(dep_FailedAt) r.(dep_DeletedAt) r.(dep_WakeRequestedAt)
    r.(dep_CreatedAt) r.(dep_UpdatedAt).

Definition set_dep_StoppedAt (v : option Time) (r : Deployment) : Deployment :=
  mkDeployment r.(dep_ID) r.(dep_ProjectID) r.(dep_ServiceID) r.(dep_BuildID)
    r.(dep_ImageID) r.(dep_VmID) r.(dep_PromotedFromDeploymentID) r.(dep_GithubCommit)
    r.(dep_GithubBranch) r.(dep_DeploymentKind) r.(dep_PreviewEnvironmentID)
    r.(dep_PreviewLastRequestAt) r.(dep_PreviewScaledToZero) r.(dep_CircuitBroken)
    r.(dep_RunningAt) v r.(dep_FailedAt) r.(dep_DeletedAt) r.(dep_WakeRequestedAt)
    r.(dep_CreatedAt) r.(dep_UpdatedAt).

Definition set_dep_FailedAt (v : option Time) (r : Deployment) : Deployment :=
  mkDeployment r.(dep_ID) r.(dep_ProjectID) r.(dep_ServiceID) r.(dep_BuildID)
    r.(dep_ImageID) r.(dep_VmID) r.(dep_PromotedFromDeploymentID) r.(dep_GithubCommit)
    r.(dep_GithubBranch) r.(dep_DeploymentKind) r.(dep_PreviewEnvironmentID)
    r.(dep_PreviewLastRequestAt) r.(dep_PreviewScaledToZero) r.(dep_CircuitBroken)
    r.(dep_RunningAt) r.(dep_StoppedAt) v r.(dep_DeletedAt) r.(dep_WakeRequestedAt)
    r.(dep_CreatedAt) r.(dep_UpdatedAt).

Definition set_dep_WakeRequestedAt (v : option Time) (r : Deployment) : Deployment :=
  mkDeployment r.(dep_ID) r.(dep_ProjectID) r.(dep_ServiceID) r.(dep_BuildID)
    r.(dep_ImageID) r.(dep_VmID) r.(dep_PromotedFromDeploymentID) r.(dep_GithubCommit)
    r.(dep_GithubBranch) r.(dep_DeploymentKind) r.(dep_PreviewEnvironmentID)
    r.(dep_PreviewLastRequestAt) r.(dep_PreviewScaledToZero) r.(dep_CircuitBroken)
    r.(dep_RunningAt) r.(dep_StoppedAt) r.(dep_FailedAt) r.(dep_DeletedAt) v
    r.(dep_CreatedAt) r.(dep_UpdatedAt).

Definition set_dep_UpdatedAt (v : option Time) (r : Deployment) : Deployment :=
  mkDeployment r.(dep_ID) r.(dep_ProjectID) r.(dep_ServiceID) r.(dep_BuildID)
    r.(dep_ImageID) r.(dep_VmID) r.(dep_PromotedFromDeploymentID) r.(dep_GithubCommit)
    r.(dep_GithubBranch) r.(dep_DeploymentKind) r.(dep_PreviewEnvironmentID)
    r.(dep_PreviewLastRequestAt) r.(dep_PreviewScaledToZero) r.(dep_CircuitBroken)
    r.(dep_RunningAt) r.(dep_StoppedAt) r.(dep_FailedAt) r.(dep_DeletedAt)
    r.(dep_WakeRequestedAt) r.(dep_CreatedAt) v.

Record DeploymentInstance := mkDeploymentInstance {
  inst_ID : pgUUID;
  inst_DeploymentID : pgUUID;
  inst_ServerID : pgUUID;
  inst_VmID : pgUUID;
  inst_Role : string;
  inst_CloneSourceInstanceID : pgUUID;
  inst_Status : string;
  inst_RestartCount : Z;
  inst_LastRestartAt : option Time;
  inst_DeletedAt : option Time;
  inst_CreatedAt : option Time;
  inst_UpdatedAt : option Time
}.

Definition set_inst_ServerID (v : pgUUID) (r : DeploymentInstance) : DeploymentInstance :=
  mkDeploymentInstance r.(inst_ID) r.(inst_DeploymentID) v r.(inst_VmID) r.(inst_Role)
    r.(inst_CloneSourceInstanceID) r.(inst_Status) r.(inst_RestartCount)
    r.(inst_LastRestartAt) r.(inst_DeletedAt) r.(inst_CreatedAt) r.(inst_UpdatedAt).

Definition set_inst_VmID (v : pgUUID) (r : DeploymentInstance) : DeploymentInstance :=
  mkDeploymentInstance r.(inst_ID) r.(inst_DeploymentID) r.(inst_ServerID) v
    r.(inst_Role) r.(inst_CloneSourceInstanceID) r.(inst_Status) r.(inst_RestartCount)
    r.(inst_LastRestartAt) r.(inst_DeletedAt) r.(inst_CreatedAt) r.(inst_UpdatedAt).

Definition set_inst_Role (v : string) (r : DeploymentInstance) : DeploymentInstance :=
  mkDeploymentInstance r.(inst_ID) r.(inst_DeploymentID) r.(inst_ServerID) r.(inst_VmID)
    v r.(inst_CloneSourceInstanceID) r.(inst_Status) r.(inst_RestartCount)
    r.(inst_LastRestartAt) r.(inst_DeletedAt) r.(inst_CreatedAt) r.(inst_UpdatedAt).

Definition set_inst_CloneSourceInstanceID (v : pgUUID) (r : DeploymentInstance) : DeploymentInstance :=
  mkDeploymentInstance r.(inst_ID) r.(inst_DeploymentID) r.(inst_ServerID) r.(inst_VmID)
    r.(inst_Role) v r.(inst_Status) r.(inst_RestartCount) r.(inst_LastRestartAt)
    r.(inst_DeletedAt) r.(inst_CreatedAt) r.(inst_UpdatedAt).

Definition set_inst_Status (v : string) (r : DeploymentInstance) : DeploymentInstance :=
  mkDeploymentInstance r.(inst_ID) r.(inst_DeploymentID) r.(inst_ServerID) r.(inst_VmID)
    r.(inst_Role) r.(inst_CloneSourceInstanceID) v r.(inst_RestartCount)
    r.(inst_LastRestartAt) r.(inst_DeletedAt) r.(inst_CreatedAt) r.(inst_UpdatedAt).

Definition set_inst_RestartCount (v : Z) (r : DeploymentInstance) : DeploymentInstance :=
  mkDeploymentInstance r.(inst_ID) r.(inst_DeploymentID) r.(inst_ServerID) r.(inst_VmID)
    r.(inst_Role) r.(inst_CloneSourceInstanceID) r.(inst_Status) v
    r.(inst_LastRestartAt) r.(inst_DeletedAt) r.(inst_CreatedAt) r.(inst_UpdatedAt).

Definition set_inst_LastRestartAt (v : option Time) (r : DeploymentInstance) : DeploymentInstance :=
  mkDeploymentInstance r.(inst_ID) r.(inst_DeploymentID) r.(inst_ServerID) r.(inst_VmID)
    r.(inst_Role) r.(inst_CloneSourceInstanceID) r.(inst_Status) r.(inst_RestartCount) v
    r.(inst_DeletedAt) r.(inst_CreatedAt) r.(inst_UpdatedAt).

Definition set_inst_DeletedAt (v : option Time) (r : DeploymentInstance) : DeploymentInstance :=
  mkDeploymentInstance r.(inst_ID) r.(inst_DeploymentID) r.(inst_ServerID) r.(inst_VmID)
    r.(inst_Role) r.(inst_CloneSourceInstanceID) r.(inst_Status) r.(inst_RestartCount)
    r.(inst_LastRestartAt) v r.(inst_CreatedAt) r.(inst_UpdatedAt).

Definition set_inst_UpdatedAt (v : option Time) (r : DeploymentInstance) : DeploymentInstance :=
  mkDeploymentInstance r.(inst_ID) r.(inst_DeploymentID) r.(inst_ServerID) r.(inst_VmID)
    r.(inst_Role) r.(inst_CloneSourceInstanceID) r.(inst_Status) r.(inst_RestartCount)
    r.(inst_LastRestartAt) r.(inst_DeletedAt) r.(inst_CreatedAt) v.

Record Domain := mkDomain {
  dom_ID : pgUUID;
  dom_ProjectID : pgUUID;
  dom_ServiceID : pgUUID;
  dom_DeploymentID : pgUUID;
  dom_DomainName : string;
  dom_VerificationToken : string;
  dom_VerifiedAt : option Time;
  dom_RedirectTo : option string;
  dom_RedirectStatusCode : option Z;
  dom_DomainKind : string;
  dom_PreviewEnvironmentID : pgUUID;
  dom_CreatedAt : option Time;
  dom_UpdatedAt : option Time
}.

Definition set_dom_DeploymentID (v : pgUUID) (r : Domain) : Domain :=
  mkDomain r.(dom_ID) r.(dom_ProjectID) r.(dom_ServiceID) v r.(dom_DomainName)
    r.(dom_VerificationToken) r.(dom_VerifiedAt) r.(dom_RedirectTo)
    r.(dom_RedirectStatusCode) r.(dom_DomainKind) r.(dom_PreviewEnvironmentID)
    r.(dom_CreatedAt) r.(dom_UpdatedAt).

Definition set_dom_DomainName (v : string) (r : Domain) : Domain :=
  mkDomain r.(dom_ID) r.(dom_ProjectID) r.(dom_ServiceID) r.(dom_DeploymentID) v
    r.(dom_VerificationToken) r.(dom_VerifiedAt) r.(dom_RedirectTo)
    r.(dom_RedirectStatusCode) r.(dom_DomainKind) r.(dom_PreviewEnvironmentID)
    r.(dom_CreatedAt) r.(dom_UpdatedAt).

Definition set_dom_VerificationToken (v : string) (r : Domain) : Domain :=
  mkDomain r.(dom_ID) r.(dom_ProjectID) r.(dom_ServiceID) r.(dom_DeploymentID)
    r.(dom_DomainName) v r.(dom_VerifiedAt) r.(dom_RedirectTo)
    r.(dom_RedirectStatusCode) r.(dom_DomainKind) r.(dom_PreviewEnvironmentID)
    r.(dom_CreatedAt) r.(dom_UpdatedAt).

Definition set_dom_VerifiedAt (v : option Time) (r : Domain) : Domain :=
  mkDomain r.(dom_ID) r.(dom_ProjectID) r.(dom_ServiceID) r.(dom_DeploymentID)
    r.(dom_DomainName) r.(dom_VerificationToken) v r.(dom_RedirectTo)
    r.(dom_RedirectStatusCode) r.(dom_DomainKind) r.(dom_PreviewEnvironmentID)
    r.(dom_CreatedAt) r.(dom_UpdatedAt).

Definition set_dom_UpdatedAt (v : option Time) (r : Domain) : Domain :=
  mkDomain r.(dom_ID) r.(dom_ProjectID) r.(dom_ServiceID) r.(dom_DeploymentID)
    r.(dom_DomainName) r.(dom_VerificationToken) r.(dom_VerifiedAt) r.(dom_RedirectTo)
    r.(dom_RedirectStatusCode) r.(dom_DomainKind) r.(dom_PreviewEnvironmentID)
    r.(dom_CreatedAt) v.

Record EnvironmentVariable := mkEnvironmentVariable {
  ev_ID : pgUUID;
  ev_ProjectID : pgUUID;
  ev_ServiceID : pgUUID;
  ev_Name : string;
  ev_Value : string;
  ev_CreatedAt : option Time;
  ev_UpdatedAt : option Time
}.

Definition set_ev_Value (v : string) (r : EnvironmentVariable) : EnvironmentVariable :=
  mkEnvironmentVariable r.(ev_ID) r.(ev_ProjectID) r.(ev_ServiceID) r.(ev_Name) v r.(ev_CreatedAt) r.(ev_UpdatedAt).

Definition set_ev_UpdatedAt (v : option Time) (r : EnvironmentVariable) : EnvironmentVariable :=
  mkEnvironmentVariable r.(ev_ID) r.(ev_ProjectID) r.(ev_ServiceID) r.(ev_Name) r.(ev_Value) r.(ev_CreatedAt) v.

Record Image := mkImage {
  img_ID : pgUUID;
  img_Registry : string;
  img_Repository : string;
  img_Tag : string;
  img_CreatedAt : option Time
}.

Record InstanceMigration := mkInstanceMigration {
  mig_ID : pgUUID;
  mig_DeploymentInstanceID : pgUUID;
  mig_SourceServerID : pgUUID;
  mig_DestinationServerID : pgUUID;
  mig_SourceVmID : pgUUID;
  mig_State : string;
  mig_Mode : string;
  mig_ReceiveAddr : string;
  mig_ReceiveTokenHash : option string;
  mig_DestinationRuntimeUrl : string;
  mig_FailureCode : string;
  mig_FailureMessage : string;
  mig_CutoverDeadlineAt : option Time;
  mig_StartedAt : option Time;
  mig_CompletedAt : option Time;
  mig_FailedAt : option Time;
  mig_AbortedAt : option Time;
  mig_UpdatedAt : option Time
}.

Definition set_mig_State (v : string) (r : InstanceMigration) : InstanceMigration :=
  mkInstanceMigration r.(mig_ID) r.(mig_DeploymentInstanceID) r.(mig_SourceServerID)
    r.(mig_DestinationServerID) r.(mig_SourceVmID) v r.(mig_Mode) r.(mig_ReceiveAddr)
    r.(mig_ReceiveTokenHash) r.(mig_DestinationRuntimeUrl) r.(mig_FailureCode)
    r.(mig_FailureMessage) r.(mig_CutoverDeadlineAt) r.(mig_StartedAt)
    r.(mig_CompletedAt) r.(mig_FailedAt) r.(mig_AbortedAt) r.(mig_UpdatedAt).

Definition set_mig_ReceiveAddr (v : string) (r : InstanceMigration) : InstanceMigration :=
  mkInstanceMigration r.(mig_ID) r.(mig_DeploymentInstanceID) r.(mig_SourceServerID)
    r.(mig_DestinationServerID) r.(mig_SourceVmID) r.(mig_State) r.(mig_Mode) v
    r.(mig_ReceiveTokenHash) r.(mig_DestinationRuntimeUrl) r.(mig_FailureCode)
    r.(mig_FailureMessage) r.(mig_CutoverDeadlineAt) r.(mig_StartedAt)
    r.(mig_CompletedAt) r.(mig_FailedAt) r.(mig_AbortedAt) r.(mig_UpdatedAt).

Definition set_mig_DestinationRuntimeUrl (v : string) (r : InstanceMigration) : InstanceMigration :=
  mkInstanceMigration r.(mig_ID) r.(mig_DeploymentInstanceID) r.(mig_SourceServerID)
    r.(mig_DestinationServerID) r.(mig_SourceVmID) r.(mig_State) r.(mig_Mode)
    r.(mig_ReceiveAddr) r.(mig_ReceiveTokenHash) v r.(mig_FailureCode)
    r.(mig_FailureMessage) r.(mig_CutoverDeadlineAt) r.(mig_StartedAt)
    r.(mig_CompletedAt) r.(mig_FailedAt) r.(mig_AbortedAt) r.(mig_UpdatedAt).

Definition set_mig_FailureCode (v : string) (r : InstanceMigration) : InstanceMigration :=
  mkInstanceMigration r.(mig_ID) r.(mig_DeploymentInstanceID) r.(mig_SourceServerID)
    r.(mig_DestinationServerID) r.(mig_SourceVmID) r.(mig_State) r.(mig_Mode)
    r.(mig_ReceiveAddr) r.(mig_ReceiveTokenHash) r.(mig_DestinationRuntimeUrl) v
    r.(mig_FailureMessage) r.(mig_CutoverDeadlineAt) r.(mig_StartedAt)
    r.(mig_CompletedAt) r.(mig_FailedAt) r.(mig_AbortedAt) r.(mig_UpdatedAt).

Definition set_mig_FailureMessage (v : string) (r : InstanceMigration) : InstanceMigration :=
  mkInstanceMigration r.(mig_ID) r.(mig_DeploymentInstanceID) r.(mig_SourceServerID)
    r.(mig_DestinationServerID) r.(mig_SourceVmID) r.(mig_State) r.(mig_Mode)
    r.(mig_ReceiveAddr) r.(mig_ReceiveTokenHash) r.(mig_DestinationRuntimeUrl)
    r.(mig_FailureCode) v r.(mig_CutoverDeadlineAt) r.(mig_StartedAt)
    r.(mig_CompletedAt) r.(mig_FailedAt) r.(mig_AbortedAt) r.(mig_UpdatedAt).

Definition set_mig_CutoverDeadlineAt (v : option Time) (r : InstanceMigration) : InstanceMigration :=
  mkInstanceMigration r.(mig_ID) r.(mig_DeploymentInstanceID) r.(mig_SourceServerID)
    r.(mig_DestinationServerID) r.(mig_SourceVmID) r.(mig_State) r.(mig_Mode)
    r.(mig_ReceiveAddr) r.(mig_ReceiveTokenHash) r.(mig_DestinationRuntimeUrl)
    r.(mig_FailureCode) r.(mig_FailureMessage) v r.(mig_StartedAt) r.(mig_CompletedAt)
    r.(mig_FailedAt) r.(mig_AbortedAt) r.(mig_UpdatedAt).

Definition set_mig_CompletedAt (v : option Time) (r : InstanceMigration) : InstanceMigration :=
  mkInstanceMigration r.(mig_ID) r.(mig_DeploymentInstanceID) r.(mig_SourceServerID)
    r.(mig_DestinationServerID) r.(mig_SourceVmID) r.(mig_State) r.(mig_Mode)
    r.(mig_ReceiveAddr) r.(mig_ReceiveTokenHash) r.(mig_DestinationRuntimeUrl)
    r.(mig_FailureCode) r.(mig_FailureMessage) r.(mig_CutoverDeadlineAt)
    r.(mig_StartedAt) v r.(mig_FailedAt) r.(mig_AbortedAt) r.(mig_UpdatedAt).

Definition set_mig_FailedAt (v : option Time) (r : InstanceMigration) : InstanceMigration :=
  mkInstanceMigration r.(mig_ID) r.(mig_DeploymentInstanceID) r.(mig_SourceServerID)
    r.(mig_DestinationServerID) r.(mig_SourceVmID) r.(mig_State) r.(mig_Mode)
    r.(mig_ReceiveAddr) r.(mig_ReceiveTokenHash) r.(mig_DestinationRuntimeUrl)
    r.(mig_FailureCode) r.(mig_FailureMessage) r.(mig_CutoverDeadlineAt)
    r.(mig_StartedAt) r.(mig_CompletedAt) v r.(mig_AbortedAt) r.(mig_UpdatedAt).

Definition set_mig_AbortedAt (v : option Time) (r : InstanceMigration) : InstanceMigration :=
  mkInstanceMigration r.(mig_ID) r.(mig_DeploymentInstanceID) r.(mig_SourceServerID)
    r.(mig_DestinationServerID) r.(mig_SourceVmID) r.(mig_State) r.(mig_Mode)
    r.(mig_ReceiveAddr) r.(mig_ReceiveTokenHash) r.(mig_DestinationRuntimeUrl)
    r.(mig_FailureCode) r.(mig_FailureMessage) r.(mig_CutoverDeadlineAt)
    r.(mig_StartedAt) r.(mig_CompletedAt) r.(mig_FailedAt) v r.(mig_UpdatedAt).

Definition set_mig_UpdatedAt (v : option Time) (r : InstanceMigration) : InstanceMigration :=
  mkInstanceMigration r.(mig_ID) r.(mig_DeploymentInstanceID) r.(mig_SourceServerID)
    r.(mig_DestinationServerID) r.(mig_SourceVmID) r.(mig_State) r.(mig_Mode)
    r.(mig_ReceiveAddr) r.(mig_ReceiveTokenHash) r.(mig_DestinationRuntimeUrl)
    r.(mig_FailureCode) r.(mig_FailureMessage) r.(mig_CutoverDeadlineAt)
    r.(mig_StartedAt) r.(mig_CompletedAt) r.(mig_FailedAt) r.(mig_AbortedAt) v.

Record PreviewEnvironment := mkPreviewEnvironment {
  pe_ID : pgUUID;
  pe_ProjectID : pgUUID;
  pe_ServiceID : pgUUID;
  pe_Provider : string;
  pe_PrNumber : Z;
  pe_HeadBranch : string;
  pe_HeadSha : string;
  pe_LatestDeploymentID : pgUUID;
  pe_StableDomainName : string;
  pe_ClosedAt : option Time;
  pe_ExpiresAt : option Time;
  pe_CreatedAt : option Time;
  pe_UpdatedAt : option Time
}.

Record Project := mkProject {
  proj_ID : pgUUID;
  proj_OrgID : pgUUID;
  proj_Name : string;
  proj_GithubRepository : string;
  proj_GithubInstallationID : Z;
  proj_GithubWebhookSecret : string;
  proj_RootDirectory : string;
  proj_DockerfilePath : string;
  proj_DesiredInstanceCount : Z;
  proj_MinInstanceCount : Z;
  proj_MaxInstanceCount : Z;
  proj_LastRequestAt : option Time;
  proj_ScaledToZero : bool;
  proj_ScaleToZeroEnabled : bool;
  proj_BuildOnlyOnRootChanges : bool;
  proj_CreatedAt : option Time;
  proj_UpdatedAt : option Time
}.

Record ProjectVolume := mkProjectVolume {
  vol_ID : pgUUID;
  vol_ProjectID : pgUUID;
  vol_ServiceID : pgUUID;
  vol_ServerID : pgUUID;
  vol_AttachedVmID : pgUUID;
  vol_MountPath : string;
  vol_SizeGb : Z;
  vol_Filesystem : string;
  vol_Status : string;
  vol_Health : string;
  vol_BackupSchedule : string;
  vol_BackupRetentionCount : Z;
  vol_PreDeleteBackupEnabled : bool;
  vol_LastError : string;
  vol_DeletedAt : option Time;
  vol_CreatedAt : option Time;
  vol_UpdatedAt : option Time
}.

Definition set_vol_SizeGb (v : Z) (r : ProjectVolume) : ProjectVolume :=
  mkProjectVolume r.(vol_ID) r.(vol_ProjectID) r.(vol_ServiceID) r.(vol_ServerID) r.(vol_AttachedVmID)
    r.(vol_MountPath) v r.(vol_Filesystem) r.(vol_Status) r.(vol_Health)
    r.(vol_BackupSchedule) r.(vol_BackupRetentionCount) r.(vol_PreDeleteBackupEnabled)
    r.(vol_LastError) r.(vol_DeletedAt) r.(vol_CreatedAt) r.(vol_UpdatedAt).

Definition set_vol_Filesystem (v : string) (r : ProjectVolume) : ProjectVolume :=
  mkProjectVolume r.(vol_ID) r.(vol_ProjectID) r.(vol_ServiceID) r.(vol_ServerID) r.(vol_AttachedVmID)
    r.(vol_MountPath) r.(vol_SizeGb) v r.(vol_Status) r.(vol_Health) r.(vol_BackupSchedule)
    r.(vol_BackupRetentionCount) r.(vol_PreDeleteBackupEnabled) r.(vol_LastError)
    r.(vol_DeletedAt) r.(vol_CreatedAt) r.(vol_UpdatedAt).

Definition set_vol_BackupSchedule (v : string) (r : ProjectVolume) : ProjectVolume :=
  mkProjectVolume r.(vol_ID) r.(vol_ProjectID) r.(vol_ServiceID) r.(vol_ServerID) r.(vol_AttachedVmID)
    r.(vol_MountPath) r.(vol_SizeGb) r.(vol_Filesystem) r.(vol_Status) r.(vol_Health) v
    r.(vol_BackupRetentionCount) r.(vol_PreDeleteBackupEnabled) r.(vol_LastError)
    r.(vol_DeletedAt) r.(vol_CreatedAt) r.(vol_UpdatedAt).

Definition set_vol_BackupRetentionCount (v : Z) (r : ProjectVolume) : ProjectVolume :=
  mkProjectVolume r.(vol_ID) r.(vol_ProjectID) r.(vol_ServiceID) r.(vol_ServerID) r.(vol_AttachedVmID)
    r.(vol_MountPath) r.(vol_SizeGb) r.(vol_Filesystem) r.(vol_Status) r.(vol_Health)
    r.(vol_BackupSchedule) v r.(vol_PreDeleteBackupEnabled) r.(vol_LastError)
    r.(vol_DeletedAt) r.(vol_CreatedAt) r.(vol_UpdatedAt).

Definition set_vol_PreDeleteBackupEnabled (v : bool) (r : ProjectVolume) : ProjectVolume :=
  mkProjectVolume r.(vol_ID) r.(vol_ProjectID) r.(vol_ServiceID) r.(vol_ServerID) r.(vol_AttachedVmID)
    r.(vol_MountPath) r.(vol_SizeGb) r.(vol_Filesystem) r.(vol_Status) r.(vol_Health)
    r.(vol_BackupSchedule) r.(vol_BackupRetentionCount) v r.(vol_LastError)
    r.(vol_DeletedAt) r.(vol_CreatedAt) r.(vol_UpdatedAt).

Definition set_vol_DeletedAt (v : option Time) (r : ProjectVolume) : ProjectVolume :=
  mkProjectVolume r.(vol_ID) r.(vol_ProjectID) r.(vol_ServiceID) r.(vol_ServerID) r.(vol_AttachedVmID)
    r.(vol_MountPath) r.(vol_SizeGb) r.(vol_Filesystem) r.(vol_Status) r.(vol_Health)
    r.(vol_BackupSchedule) r.(vol_BackupRetentionCount) r.(vol_PreDeleteBackupEnabled)
    r.(vol_LastError) v r.(vol_CreatedAt) r.(vol_UpdatedAt).

Definition set_vol_ServerID (v : pgUUID) (r : ProjectVolume) : ProjectVolume :=
  mkProjectVolume r.(vol_ID) r.(vol_ProjectID) r.(vol_ServiceID) v r.(vol_AttachedVmID)
    r.(vol_MountPath) r.(vol_SizeGb) r.(vol_Filesystem) r.(vol_Status) r.(vol_Health)
    r.(vol_BackupSchedule) r.(vol_BackupRetentionCount) r.(vol_PreDeleteBackupEnabled)
    r.(vol_LastError) r.(vol_DeletedAt) r.(vol_CreatedAt) r.(vol_UpdatedAt).

Definition set_vol_AttachedVmID (v : pgUUID) (r : ProjectVolume) : ProjectVolume :=
  mkProjectVolume r.(vol_ID) r.(vol_ProjectID) r.(vol_ServiceID) r.(vol_ServerID) v
    r.(vol_MountPath) r.(vol_SizeGb) r.(vol_Filesystem) r.(vol_Status) r.(vol_Health)
    r.(vol_BackupSchedule) r.(vol_BackupRetentionCount) r.(vol_PreDeleteBackupEnabled)
    r.(vol_LastError) r.(vol_DeletedAt) r.(vol_CreatedAt) r.(vol_UpdatedAt).

Definition set_vol_Status (v : string) (r : ProjectVolume) : ProjectVolume :=
  mkProjectVolume r.(vol_ID) r.(vol_ProjectID) r.(vol_ServiceID) r.(vol_ServerID)
    r.(vol_AttachedVmID) r.(vol_MountPath) r.(vol_SizeGb) r.(vol_Filesystem) v
    r.(vol_Health) r.(vol_BackupSchedule) r.(vol_BackupRetentionCount)
    r.(vol_PreDeleteBackupEnabled) r.(vol_LastError) r.(vol_DeletedAt) r.(vol_CreatedAt)
    r.(vol_UpdatedAt).

Definition set_vol_Health (v : string) (r : ProjectVolume) : ProjectVolume :=
  mkProjectVolume r.(vol_ID) r.(vol_ProjectID) r.(vol_ServiceID) r.(vol_ServerID)
    r.(vol_AttachedVmID) r.(vol_MountPath) r.(vol_SizeGb) r.(vol_Filesystem)
    r.(vol_Status) v r.(vol_BackupSchedule) r.(vol_BackupRetentionCount)
    r.(vol_PreDeleteBackupEnabled) r.(vol_LastError) r.(vol_DeletedAt) r.(vol_CreatedAt)
    r.(vol_UpdatedAt).

Definition set_vol_LastError (v : string) (r : ProjectVolume) : ProjectVolume :=
  mkProjectVolume r.(vol_ID) r.(vol_ProjectID) r.(vol_ServiceID) r.(vol_ServerID)
    r.(vol_AttachedVmID) r.(vol_MountPath) r.(vol_SizeGb) r.(vol_Filesystem)
    r.(vol_Status) r.(vol_Health) r.(vol_BackupSchedule) r.(vol_BackupRetentionCount)
    r.(vol_PreDeleteBackupEnabled) v r.(vol_DeletedAt) r.(vol_CreatedAt)
    r.(vol_UpdatedAt).

Definition set_vol_UpdatedAt (v : option Time) (r : ProjectVolume) : ProjectVolume :=
  mkProjectVolume r.(vol_ID) r.(vol_ProjectID) r.(vol_ServiceID) r.(vol_ServerID)
    r.(vol_AttachedVmID) r.(vol_MountPath) r.(vol_SizeGb) r.(vol_Filesystem)
    r.(vol_Status) r.(vol_Health) r.(vol_BackupSchedule) r.(vol_BackupRetentionCount)
    r.(vol_PreDeleteBackupEnabled) r.(vol_LastError) r.(vol_DeletedAt) r.(vol_CreatedAt)
    v.

Record Server := mkServer {
  srv_ID : pgUUID;
  srv_Hostname : string;
  srv_InternalIp : string;
  srv_IpRange : (Addr * Z);
  srv_WireguardIp : Addr;
  srv_WireguardPublicKey : string;
  srv_WireguardEndpoint : string;
  srv_Status : string;
  srv_LastHeartbeatAt : option Time;
  srv_CreatedAt : option Time;
  srv_UpdatedAt : option Time
}.

Definition set_srv_Hostname (v : string) (r : Server) : Server :=
  mkServer r.(srv_ID) v r.(srv_InternalIp) r.(srv_IpRange) r.(srv_WireguardIp)
    r.(srv_WireguardPublicKey) r.(srv_WireguardEndpoint) r.(srv_Status)
    r.(srv_LastHeartbeatAt) r.(srv_CreatedAt) r.(srv_UpdatedAt).

Definition set_srv_InternalIp (v : string) (r : Server) : Server :=
  mkServer r.(srv_ID) r.(srv_Hostname) v r.(srv_IpRange) r.(srv_WireguardIp)
    r.(srv_WireguardPublicKey) r.(srv_WireguardEndpoint) r.(srv_Status)
    r.(srv_LastHeartbeatAt) r.(srv_CreatedAt) r.(srv_UpdatedAt).

Definition set_srv_Status (v : string) (r : Server) : Server :=
  mkServer r.(srv_ID) r.(srv_Hostname) r.(srv_InternalIp) r.(srv_IpRange)
    r.(srv_WireguardIp) r.(srv_WireguardPublicKey) r.(srv_WireguardEndpoint) v
    r.(srv_LastHeartbeatAt) r.(srv_CreatedAt) r.(srv_UpdatedAt).

Definition set_srv_LastHeartbeatAt (v : option Time) (r : Server) : Server :=
  mkServer r.(srv_ID) r.(srv_Hostname) r.(srv_InternalIp) r.(srv_IpRange)
    r.(srv_WireguardIp) r.(srv_WireguardPublicKey) r.(srv_WireguardEndpoint)
    r.(srv_Status) v r.(srv_CreatedAt) r.(srv_UpdatedAt).

Definition set_srv_UpdatedAt (v : option Time) (r : Server) : Server :=
  mkServer r.(srv_ID) r.(srv_Hostname) r.(srv_InternalIp) r.(srv_IpRange)
    r.(srv_WireguardIp) r.(srv_WireguardPublicKey) r.(srv_WireguardEndpoint)
    r.(srv_Status) r.(srv_LastHeartbeatAt) r.(srv_CreatedAt) v.

Record ServerComponentStatus := mkServerComponentStatus {
  scs_ServerID : pgUUID;
  scs_Component : string;
  scs_Status : string;
  scs_ObservedAt : option Time;
  scs_LastSuccessAt : option Time;
  scs_LastErrorAt : option Time;
  scs_LastErrorMessage : string;
  scs_Metadata : json;
  scs_CreatedAt : option Time;
  scs_UpdatedAt : option Time
}.

Record Service := mkService {
  svc_ID : pgUUID;
  svc_ProjectID : pgUUID;
  svc_Name : string;
  svc_Slug : string;
  svc_RootDirectory : string;
  svc_DockerfilePath : string;
  svc_DesiredInstanceCount : Z;
  svc_BuildOnlyOnRootChanges : bool;
  svc_PublicDefault : bool;
  svc_IsPrimary : bool;
  svc_CreatedAt : option Time;
  svc_UpdatedAt : option Time
}.

Definition set_svc_DesiredInstanceCount (v : Z) (r : Service) : Service :=
  mkService r.(svc_ID) r.(svc_ProjectID) r.(svc_Name) r.(svc_Slug) r.(svc_RootDirectory)
    r.(svc_DockerfilePath) v r.(svc_BuildOnlyOnRootChanges) r.(svc_PublicDefault)
    r.(svc_IsPrimary) r.(svc_CreatedAt) r.(svc_UpdatedAt).

Definition set_svc_UpdatedAt (v : option Time) (r : Service) : Service :=
  mkService r.(svc_ID) r.(svc_ProjectID) r.(svc_Name) r.(svc_Slug) r.(svc_RootDirectory)
    r.(svc_DockerfilePath) r.(svc_DesiredInstanceCount) r.(svc_BuildOnlyOnRootChanges)
    r.(svc_PublicDefault) r.(svc_IsPrimary) r.(svc_CreatedAt) v.

Record ServiceEndpoint := mkServiceEndpoint {
  sep_ID : pgUUID;
  sep_ServiceID : pgUUID;
  sep_Name : string;
  sep_Protocol : string;
  sep_TargetPort : Z;
  sep_Visibility : string;
  sep_PrivateIp : Addr;
  sep_PublicHostname : string;
  sep_LastHealthyAt : option Time;
  sep_LastUnhealthyAt : option Time;
  sep_CreatedAt : option Time;
  sep_UpdatedAt : option Time
}.

Record Vm := mkVm {
  vm_ID : pgUUID;
  vm_ServerID : pgUUID;
  vm_ImageID : pgUUID;
  vm_Status : string;
  vm_Runtime : string;
  vm_SnapshotRef : option string;
  vm_SharedRootfsRef : string;
  vm_CloneSourceVmID : pgUUID;
  vm_Vcpus : Z;
  vm_Memory : Z;
  vm_IpAddress : Addr;
  vm_Port : option Z;
  vm_EnvVariables : option string;
  vm_DeletedAt : option Time;
  vm_CreatedAt : option Time;
  vm_UpdatedAt : option Time
}.

Definition set_vm_Status (v : string) (r : Vm) : Vm :=
  mkVm r.(vm_ID) r.(vm_ServerID) r.(vm_ImageID) v r.(vm_Runtime) r.(vm_SnapshotRef)
    r.(vm_SharedRootfsRef) r.(vm_CloneSourceVmID) r.(vm_Vcpus) r.(vm_Memory)
    r.(vm_IpAddress) r.(vm_Port) r.(vm_EnvVariables) r.(vm_DeletedAt) r.(vm_CreatedAt)
    r.(vm_UpdatedAt).

Definition set_vm_SnapshotRef (v : option string) (r : Vm) : Vm :=
  mkVm r.(vm_ID) r.(vm_ServerID) r.(vm_ImageID) r.(vm_Status) r.(vm_Runtime) v
    r.(vm_SharedRootfsRef) r.(vm_CloneSourceVmID) r.(vm_Vcpus) r.(vm_Memory)
    r.(vm_IpAddress) r.(vm_Port) r.(vm_EnvVariables) r.(vm_DeletedAt) r.(vm_CreatedAt)
    r.(vm_UpdatedAt).

Definition set_vm_SharedRootfsRef (v : string) (r : Vm) : Vm :=
  mkVm r.(vm_ID) r.(vm_ServerID) r.(vm_ImageID) r.(vm_Status) r.(vm_Runtime)
    r.(vm_SnapshotRef) v r.(vm_CloneSourceVmID) r.(vm_Vcpus) r.(vm_Memory)
    r.(vm_IpAddress) r.(vm_Port) r.(vm_EnvVariables) r.(vm_DeletedAt) r.(vm_CreatedAt)
    r.(vm_UpdatedAt).

Definition set_vm_CloneSourceVmID (v : pgUUID) (r : Vm) : Vm :=
  mkVm r.(vm_ID) r.(vm_ServerID) r.(vm_ImageID) r.(vm_Status) r.(vm_Runtime)
    r.(vm_SnapshotRef) r.(vm_SharedRootfsRef) v r.(vm_Vcpus) r.(vm_Memory)
    r.(vm_IpAddress) r.(vm_Port) r.(vm_EnvVariables) r.(vm_DeletedAt) r.(vm_CreatedAt)
    r.(vm_UpdatedAt).

Definition set_vm_IpAddress (v : Addr) (r : Vm) : Vm :=
  mkVm r.(vm_ID) r.(vm_ServerID) r.(vm_ImageID) r.(vm_Status) r.(vm_Runtime)
    r.(vm_SnapshotRef) r.(vm_SharedRootfsRef) r.(vm_CloneSourceVmID) r.(vm_Vcpus)
    r.(vm_Memory) v r.(vm_Port) r.(vm_EnvVariables) r.(vm_DeletedAt) r.(vm_CreatedAt)
    r.(vm_UpdatedAt).

Definition set_vm_Port (v : option Z) (r : Vm) : Vm :=
  mkVm r.(vm_ID) r.(vm_ServerID) r.(vm_ImageID) r.(vm_Status) r.(vm_Runtime)
    r.(vm_SnapshotRef) r.(vm_SharedRootfsRef) r.(vm_CloneSourceVmID) r.(vm_Vcpus)
    r.(vm_Memory) r.(vm_IpAddress) v r.(vm_EnvVariables) r.(vm_DeletedAt)
    r.(vm_CreatedAt) r.(vm_UpdatedAt).

Definition set_vm_DeletedAt (v : option Time) (r : Vm) : Vm :=
  mkVm r.(vm_ID) r.(vm_ServerID) r.(vm_ImageID) r.(vm_Status) r.(vm_Runtime)
    r.(vm_SnapshotRef) r.(vm_SharedRootfsRef) r.(vm_CloneSourceVmID) r.(vm_Vcpus)
    r.(vm_Memory) r.(vm_IpAddress) r.(vm_Port) r.(vm_EnvVariables) v r.(vm_CreatedAt)
    r.(vm_UpdatedAt).

Definition set_vm_UpdatedAt (v : option Time) (r : Vm) : Vm :=
  mkVm r.(vm_ID) r.(vm_ServerID) r.(vm_ImageID) r.(vm_Status) r.(vm_Runtime)
    r.(vm_SnapshotRef) r.(vm_SharedRootfsRef) r.(vm_CloneSourceVmID) r.(vm_Vcpus)
    r.(vm_Memory) r.(vm_IpAddress) r.(vm_Port) r.(vm_EnvVariables) r.(vm_DeletedAt)
    r.(vm_CreatedAt) v.

(** ** The database *)

(** Tables are maps from the primary key; [cluster_settings] maps the setting
    key to its value. *)
Record ProjectVolumeBackup := mkProjectVolumeBackup {
  vb_ID : pgUUID;
  vb_ProjectVolumeID : pgUUID;
  vb_Kind : string;
  vb_StorageUrl : string;
  vb_StorageKey : string;
  vb_SizeBytes : Z;
  vb_Status : string;
  vb_Error : string;
  vb_Metadata : json;
  vb_StartedAt : option Time;
  vb_CompletedAt : option Time;
  vb_FailedAt : option Time;
  vb_CreatedAt : option Time;
  vb_UpdatedAt : option Time
}.

Record ProjectVolumeOperation := mkProjectVolumeOperation {
  vo_ID : pgUUID;
  vo_ProjectVolumeID : pgUUID;
  vo_ServerID : pgUUID;
  vo_Kind : string;
  vo_Status : string;
  vo_RequestMetadata : json;
  vo_ResultMetadata : json;
  vo_Error : string;
  vo_StartedAt : option Time;
  vo_CompletedAt : option Time;
  vo_FailedAt : option Time;
  vo_CreatedAt : option Time;
  vo_UpdatedAt : option Time
}.

Record ServerSetting := mkServerSetting {
  ss_ServerID : pgUUID;
  ss_RuntimeOverride : string;
  ss_AdvertiseHost : string;
  ss_InternalApiPort : Z;
  ss_CloudHypervisorBin : string;
  ss_CloudHypervisorKernelPath : string;
  ss_CloudHypervisorInitramfsPath : string;
  ss_CloudHypervisorStateDir : string;
  ss_UpdatedAt : option Time
}.

Record OrgProviderConnection := mkOrgProviderConnection {
  opc_ID : pgUUID;
  opc_OrganizationID : pgUUID;
  opc_Provider : string;
  opc_ExternalSlug : string;
  opc_DisplayLabel : string;
  opc_CredentialsCiphertext : list N;
  opc_Metadata : json;
  opc_CreatedAt : option Time;
  opc_UpdatedAt : option Time
}.

Record CiJob := mkCiJob {
  ci_ID : pgUUID;
  ci_ProjectID : pgUUID;
  ci_Status : string;
  ci_Source : string;
  ci_WorkflowName : string;
  ci_WorkflowFile : string;
  ci_SelectedJobID : string;
  ci_EventName : string;
  ci_InputValues : json;
  ci_InputArchivePath : string;
  ci_ProviderConnectionID : pgUUID;
  ci_ExternalRepo : string;
  ci_ExternalInstallationID : Z;
  ci_ExternalWorkflowJobID : Z;
  ci_ExternalWorkflowRunID : Z;
  ci_ExternalRunAttempt : Z;
  ci_ExternalHtmlUrl : string;
  ci_RunnerLabels : json;
  ci_RunnerName : string;
  ci_RequireMicrovm : bool;
  ci_ExecutionBackend : string;
  ci_WorkspaceDir : string;
  ci_ProcessingBy : pgUUID;
  ci_ExitCode : option Z;
  ci_ErrorMessage : string;
  ci_StartedAt : option Time;
  ci_FinishedAt : option Time;
  ci_CanceledAt : option Time;
  ci_CreatedAt : option Time;
  ci_UpdatedAt : option Time
}.

Definition set_ci_Status (v : string) (r : CiJob) : CiJob :=
  mkCiJob r.(ci_ID) r.(ci_ProjectID) v r.(ci_Source) r.(ci_WorkflowName) r.(ci_WorkflowFile)
    r.(ci_SelectedJobID) r.(ci_EventName) r.(ci_InputValues) r.(ci_InputArchivePath)
    r.(ci_ProviderConnectionID) r.(ci_ExternalRepo) r.(ci_ExternalInstallationID)
    r.(ci_ExternalWorkflowJobID) r.(ci_ExternalWorkflowRunID) r.(ci_ExternalRunAttempt)
    r.(ci_ExternalHtmlUrl) r.(ci_RunnerLabels) r.(ci_RunnerName) r.(ci_RequireMicrovm)
    r.(ci_ExecutionBackend) r.(ci_WorkspaceDir) r.(ci_ProcessingBy) r.(ci_ExitCode)
    r.(ci_ErrorMessage) r.(ci_StartedAt) r.(ci_FinishedAt) r.(ci_CanceledAt) r.(ci_CreatedAt)
    r.(ci_UpdatedAt).
Definition set_ci_InputArchivePath (v : string) (r : CiJob) : CiJob :=
  mkCiJob r.(ci_ID) r.(ci_ProjectID) r.(ci_Status) r.(ci_Source) r.(ci_WorkflowName) r.(ci_WorkflowFile)
    r.(ci_SelectedJobID) r.(ci_EventName) r.(ci_InputValues) v r.(ci_ProviderConnectionID)
    r.(ci_ExternalRepo) r.(ci_ExternalInstallationID) r.(ci_ExternalWorkflowJobID)
    r.(ci_ExternalWorkflowRunID) r.(ci_ExternalRunAttempt) r.(ci_ExternalHtmlUrl)
    r.(ci_RunnerLabels) r.(ci_RunnerName) r.(ci_RequireMicrovm) r.(ci_ExecutionBackend)
    r.(ci_WorkspaceDir) r.(ci_ProcessingBy) r.(ci_ExitCode) r.(ci_ErrorMessage) r.(ci_StartedAt)
    r.(ci_FinishedAt) r.(ci_CanceledAt) r.(ci_CreatedAt) r.(ci_UpdatedAt).
Definition set_ci_ExecutionBackend (v : string) (r : CiJob) : CiJob :=
  mkCiJob r.(ci_ID) r.(ci_ProjectID) r.(ci_Status) r.(ci_Source) r.(ci_WorkflowName) r.(ci_WorkflowFile)
    r.(ci_SelectedJobID) r.(ci_EventName) r.(ci_InputValues) r.(ci_InputArchivePath)
    r.(ci_ProviderConnectionID) r.(ci_ExternalRepo) r.(ci_ExternalInstallationID)
    r.(ci_ExternalWorkflowJobID) r.(ci_ExternalWorkflowRunID) r.(ci_ExternalRunAttempt)
    r.(ci_ExternalHtmlUrl) r.(ci_RunnerLabels) r.(ci_RunnerName) r.(ci_RequireMicrovm) v
    r.(ci_WorkspaceDir) r.(ci_ProcessingBy) r.(ci_ExitCode) r.(ci_ErrorMessage) r.(ci_StartedAt)
    r.(ci_FinishedAt) r.(ci_CanceledAt) r.(ci_CreatedAt) r.(ci_UpdatedAt).
Definition set_ci_WorkspaceDir (v : string) (r : CiJob) : CiJob :=
  mkCiJob r.(ci_ID) r.(ci_ProjectID) r.(ci_Status) r.(ci_Source) r.(ci_WorkflowName) r.(ci_WorkflowFile)
    r.(ci_SelectedJobID) r.(ci_EventName) r.(ci_InputValues) r.(ci_InputArchivePath)
    r.(ci_ProviderConnectionID) r.(ci_ExternalRepo) r.(ci_ExternalInstallationID)
    r.(ci_ExternalWorkflowJobID) r.(ci_ExternalWorkflowRunID) r.(ci_ExternalRunAttempt)
    r.(ci_ExternalHtmlUrl) r.(ci_RunnerLabels) r.(ci_RunnerName) r.(ci_RequireMicrovm)
    r.(ci_ExecutionBackend) v r.(ci_ProcessingBy) r.(ci_ExitCode) r.(ci_ErrorMessage)
    r.(ci_StartedAt) r.(ci_FinishedAt) r.(ci_CanceledAt) r.(ci_CreatedAt) r.(ci_UpdatedAt).
Definition set_ci_ProcessingBy (v : pgUUID) (r : CiJob) : CiJob :=
  mkCiJob r.(ci_ID) r.(ci_ProjectID) r.(ci_Status) r.(ci_Source) r.(ci_WorkflowName) r.(ci_WorkflowFile)
    r.(ci_SelectedJobID) r.(ci_EventName) r.(ci_InputValues) r.(ci_InputArchivePath)
    r.(ci_ProviderConnectionID) r.(ci_ExternalRepo) r.(ci_ExternalInstallationID)
    r.(ci_ExternalWorkflowJobID) r.(ci_ExternalWorkflowRunID) r.(ci_ExternalRunAttempt)
    r.(ci_ExternalHtmlUrl) r.(ci_RunnerLabels) r.(ci_RunnerName) r.(ci_RequireMicrovm)
    r.(ci_ExecutionBackend) r.(ci_WorkspaceDir) v r.(ci_ExitCode) r.(ci_ErrorMessage)
    r.(ci_StartedAt) r.(ci_FinishedAt) r.(ci_CanceledAt) r.(ci_CreatedAt) r.(ci_UpdatedAt).
Definition set_ci_ExitCode (v : option Z) (r : CiJob) : CiJob :=
  mkCiJob r.(ci_ID) r.(ci_ProjectID) r.(ci_Status) r.(ci_Source) r.(ci_WorkflowName) r.(ci_WorkflowFile)
    r.(ci_SelectedJobID) r.(ci_EventName) r.(ci_InputValues) r.(ci_InputArchivePath)
    r.(ci_ProviderConnectionID) r.(ci_ExternalRepo) r.(ci_ExternalInstallationID)
    r.(ci_ExternalWorkflowJobID) r.(ci_ExternalWorkflowRunID) r.(ci_ExternalRunAttempt)
    r.(ci_ExternalHtmlUrl) r.(ci_RunnerLabels) r.(ci_RunnerName) r.(ci_RequireMicrovm)
    r.(ci_ExecutionBackend) r.(ci_WorkspaceDir) r.(ci_ProcessingBy) v r.(ci_ErrorMessage)
    r.(ci_StartedAt) r.(ci_FinishedAt) r.(ci_CanceledAt) r.(ci_CreatedAt) r.(ci_UpdatedAt).
Definition set_ci_ErrorMessage (v : string) (r : CiJob) : CiJob :=
  mkCiJob r.(ci_ID) r.(ci_ProjectID) r.(ci_Status) r.(ci_Source) r.(ci_WorkflowName) r.(ci_WorkflowFile)
    r.(ci_SelectedJobID) r.(ci_EventName) r.(ci_InputValues) r.(ci_InputArchivePath)
    r.(ci_ProviderConnectionID) r.(ci_ExternalRepo) r.(ci_ExternalInstallationID)
    r.(ci_ExternalWorkflowJobID) r.(ci_ExternalWorkflowRunID) r.(ci_ExternalRunAttempt)
    r.(ci_ExternalHtmlUrl) r.(ci_RunnerLabels) r.(ci_RunnerName) r.(ci_RequireMicrovm)
    r.(ci_ExecutionBackend) r.(ci_WorkspaceDir) r.(ci_ProcessingBy) r.(ci_ExitCode) v
    r.(ci_StartedAt) r.(ci_FinishedAt) r.(ci_CanceledAt) r.(ci_CreatedAt) r.(ci_UpdatedAt).
Definition set_ci_StartedAt (v : option Time) (r : CiJob) : CiJob :=
  mkCiJob r.(ci_ID) r.(ci_ProjectID) r.(ci_Status) r.(ci_Source) r.(ci_WorkflowName) r.(ci_WorkflowFile)
    r.(ci_SelectedJobID) r.(ci_EventName) r.(ci_InputValues) r.(ci_InputArchivePath)
    r.(ci_ProviderConnectionID) r.(ci_ExternalRepo) r.(ci_ExternalInstallationID)
    r.(ci_ExternalWorkflowJobID) r.(ci_ExternalWorkflowRunID) r.(ci_ExternalRunAttempt)
    r.(ci_ExternalHtmlUrl) r.(ci_RunnerLabels) r.(ci_RunnerName) r.(ci_RequireMicrovm)
    r.(ci_ExecutionBackend) r.(ci_WorkspaceDir) r.(ci_ProcessingBy) r.(ci_ExitCode)
    r.(ci_ErrorMessage) v r.(ci_FinishedAt) r.(ci_CanceledAt) r.(ci_CreatedAt) r.(ci_UpdatedAt).
Definition set_ci_FinishedAt (v : option Time) (r : CiJob) : CiJob :=
  mkCiJob r.(ci_ID) r.(ci_ProjectID) r.(ci_Status) r.(ci_Source) r.(ci_WorkflowName) r.(ci_WorkflowFile)
    r.(ci_SelectedJobID) r.(ci_EventName) r.(ci_InputValues) r.(ci_InputArchivePath)
    r.(ci_ProviderConnectionID) r.(ci_ExternalRepo) r.(ci_ExternalInstallationID)
    r.(ci_ExternalWorkflowJobID) r.(ci_ExternalWorkflowRunID) r.(ci_ExternalRunAttempt)
    r.(ci_ExternalHtmlUrl) r.(ci_RunnerLabels) r.(ci_RunnerName) r.(ci_RequireMicrovm)
    r.(ci_ExecutionBackend) r.(ci_WorkspaceDir) r.(ci_ProcessingBy) r.(ci_ExitCode)
    r.(ci_ErrorMessage) r.(ci_StartedAt) v r.(ci_CanceledAt) r.(ci_CreatedAt) r.(ci_UpdatedAt).
Definition set_ci_CanceledAt (v : option Time) (r : CiJob) : CiJob :=
  mkCiJob r.(ci_ID) r.(ci_ProjectID) r.(ci_Status) r.(ci_Source) r.(ci_WorkflowName) r.(ci_WorkflowFile)
    r.(ci_SelectedJobID) r.(ci_EventName) r.(ci_InputValues) r.(ci_InputArchivePath)
    r.(ci_ProviderConnectionID) r.(ci_ExternalRepo) r.(ci_ExternalInstallationID)
    r.(ci_ExternalWorkflowJobID) r.(ci_ExternalWorkflowRunID) r.(ci_ExternalRunAttempt)
    r.(ci_ExternalHtmlUrl) r.(ci_RunnerLabels) r.(ci_RunnerName) r.(ci_RequireMicrovm)
    r.(ci_ExecutionBackend) r.(ci_WorkspaceDir) r.(ci_ProcessingBy) r.(ci_ExitCode)
    r.(ci_ErrorMessage) r.(ci_StartedAt) r.(ci_FinishedAt) v r.(ci_CreatedAt) r.(ci_UpdatedAt).
Definition set_ci_UpdatedAt (v : option Time) (r : CiJob) : CiJob :=
  mkCiJob r.(ci_ID) r.(ci_ProjectID) r.(ci_Status) r.(ci_Source) r.(ci_WorkflowName) r.(ci_WorkflowFile)
    r.(ci_SelectedJobID) r.(ci_EventName) r.(ci_InputValues) r.(ci_InputArchivePath)
    r.(ci_ProviderConnectionID) r.(ci_ExternalRepo) r.(ci_ExternalInstallationID)
    r.(ci_ExternalWorkflowJobID) r.(ci_ExternalWorkflowRunID) r.(ci_ExternalRunAttempt)
    r.(ci_ExternalHtmlUrl) r.(ci_RunnerLabels) r.(ci_RunnerName) r.(ci_RequireMicrovm)
    r.(ci_ExecutionBackend) r.(ci_WorkspaceDir) r.(ci_ProcessingBy) r.(ci_ExitCode)
    r.(ci_ErrorMessage) r.(ci_StartedAt) r.(ci_FinishedAt) r.(ci_CanceledAt) r.(ci_CreatedAt) v.

Record CiJobLog := mkCiJobLog {
  cil_ID : pgUUID;
  cil_CiJobID : pgUUID;
  cil_Message : string;
  cil_Level : string;
  cil_CreatedAt : option Time
}.

Record CiJobArtifact := mkCiJobArtifact {
  cia_ID : pgUUID;
  cia_CiJobID : pgUUID;
  cia_Name : string;
  cia_Path : string;
  cia_CreatedAt : option Time
}.

Record Organization := mkOrganization {
  org_ID : pgUUID;
  org_Name : string;
  org_Slug : string;
  org_EmailDomain : string;
  org_CreatedAt : option Time;
  org_UpdatedAt : option Time
}.

Record BuildLog := mkBuildLog {
  bl_ID : pgUUID;
  bl_BuildID : pgUUID;
  bl_Message : string;
  bl_Level : string;
  bl_CreatedAt : option Time
}.

(** ** Accounts *)

Record User := mkUser {
  usr_ID : pgUUID;
  usr_Email : string;
  usr_PasswordHash : string;
  usr_DisplayName : string;
  usr_IsPlatformAdmin : bool;
  usr_CreatedAt : option Time;
  usr_UpdatedAt : option Time
}.

Record UserSession := mkUserSession {
  ses_ID : pgUUID;
  ses_UserID : pgUUID;
  ses_TokenHash : list N;
  ses_CurrentOrganizationID : pgUUID;
  ses_ExpiresAt : option Time;
  ses_CreatedAt : option Time
}.

Record UserApiKey := mkUserApiKey {
  key_ID : pgUUID;
  key_UserID : pgUUID;
  key_OrganizationID : pgUUID;
  key_Name : string;
  key_TokenHash : list N;
  key_CreatedAt : option Time;
  key_LastUsedAt : option Time;
  key_RevokedAt : option Time
}.

Record OrganizationMembership := mkMembership {
  mem_ID : pgUUID;
  mem_OrganizationID : pgUUID;
  mem_UserID : pgUUID;
  mem_Role : string;
  mem_Status : string;
  mem_CreatedAt : option Time
}.

Record WorkerAgent := mkWorkerAgent {
  wa_ID : pgUUID;
  wa_OrganizationID : pgUUID;
  wa_EnrollmentTokenID : pgUUID;
  wa_WorkerPublicKey : string;
  wa_ApiTokenHash : list N;
  wa_Hostname : string;
  wa_LastSeenAt : option Time;
  wa_DesiredVersion : Z;
  wa_DesiredStatePayload : json;
  wa_ReportedVersionApplied : Z;
  wa_CreatedAt : option Time;
  wa_UpdatedAt : option Time
}.

Record OrgOnboarding := mkOnboarding {
  ob_OrganizationID : pgUUID;
  ob_CompletedAt : option Time;
  ob_WizardState : json;
  ob_CreatedAt : option Time;
  ob_UpdatedAt : option Time
}.

Record Accounts := mkAccounts {
  ac_users : gmap UUID User;
  ac_sessions : gmap UUID UserSession;
  ac_keys : gmap UUID UserApiKey;
  ac_memberships : gmap UUID OrganizationMembership;
  ac_agents : gmap UUID WorkerAgent;
  ac_onboarding : gmap UUID OrgOnboarding
}.

(** The tables the deployer does not use: volume operations and backups,
    encrypted cluster secrets, server settings, provider connections, CI jobs,
    organizations, the logs of builds and accounts. *)
Record DbExt := mkExt {
  x_volume_operations : gmap UUID ProjectVolumeOperation;
  x_volume_backups : gmap UUID ProjectVolumeBackup;
  x_secrets : gmap string (list N);
  x_server_settings : gmap UUID ServerSetting;
  x_connections : gmap UUID OrgProviderConnection;
  x_ci_jobs : gmap UUID CiJob;
  x_ci_logs : gmap UUID CiJobLog;
  x_ci_artifacts : gmap UUID CiJobArtifact;
  x_organizations : gmap UUID Organization;
  x_build_logs : gmap UUID BuildLog;
  x_accounts : Accounts
}.

Definition empty_ext : DbExt := mkExt ∅ ∅ ∅ ∅ ∅ ∅ ∅ ∅ ∅ ∅ (mkAccounts ∅ ∅ ∅ ∅ ∅ ∅).

Record Db := mkDb {
  db_builds : gmap UUID Build;
  db_deployments : gmap UUID Deployment;
  db_instances : gmap UUID DeploymentInstance;
  db_domains : gmap UUID Domain;
  db_env : gmap UUID EnvironmentVariable;
  db_images : gmap UUID Image;
  db_migrations : gmap UUID InstanceMigration;
  db_previews : gmap UUID PreviewEnvironment;
  db_projects : gmap UUID Project;
  db_volumes : gmap UUID ProjectVolume;
  db_servers : gmap UUID Server;
  db_statuses : gmap (UUID * string) ServerComponentStatus;
  db_services : gmap UUID Service;
  db_endpoints : gmap UUID ServiceEndpoint;
  db_vms : gmap UUID Vm;
  db_settings : gmap string string;
  db_ext : DbExt
}.

Definition empty_db : Db :=
  mkDb ∅ ∅ ∅ ∅ ∅ ∅ ∅ ∅ ∅ ∅ ∅ ∅ ∅ ∅ ∅ ∅ empty_ext.

Definition set_builds (v : gmap UUID Build) (d : Db) : Db :=
  mkDb v d.(db_deployments) d.(db_instances) d.(db_domains) d.(db_env) d.(db_images)
    d.(db_migrations) d.(db_previews) d.(db_projects) d.(db_volumes) d.(db_servers)
    d.(db_statuses) d.(db_services) d.(db_endpoints) d.(db_vms) d.(db_settings) d.(db_ext).

Definition set_deployments (v : gmap UUID Deployment) (d : Db) : Db :=
  mkDb d.(db_builds) v d.(db_instances) d.(db_domains) d.(db_env) d.(db_images)
    d.(db_migrations) d.(db_previews) d.(db_projects) d.(db_volumes) d.(db_servers)
    d.(db_statuses) d.(db_services) d.(db_endpoints) d.(db_vms) d.(db_settings) d.(db_ext).

Definition set_instances (v : gmap UUID DeploymentInstance) (d : Db) : Db :=
  mkDb d.(db_builds) d.(db_deployments) v d.(db_domains) d.(db_env) d.(db_images)
    d.(db_migrations) d.(db_previews) d.(db_projects) d.(db_volumes) d.(db_servers)
    d.(db_statuses) d.(db_services) d.(db_endpoints) d.(db_vms) d.(db_settings) d.(db_ext).

Definition set_domains (v : gmap UUID Domain) (d : Db) : Db :=
  mkDb d.(db_builds) d.(db_deployments) d.(db_instances) v d.(db_env) d.(db_images)
    d.(db_migrations) d.(db_previews) d.(db_projects) d.(db_volumes) d.(db_servers)
    d.(db_statuses) d.(db_services) d.(db_endpoints) d.(db_vms) d.(db_settings) d.(db_ext).

Definition set_migrations (v : gmap UUID InstanceMigration) (d : Db) : Db :=
  mkDb d.(db_builds) d.(db_deployments) d.(db_instances) d.(db_domains) d.(db_env)
    d.(db_images) v d.(db_previews) d.(db_projects) d.(db_volumes) d.(db_servers)
    d.(db_statuses) d.(db_services) d.(db_endpoints) d.(db_vms) d.(db_settings) d.(db_ext).

Definition set_previews (v : gmap UUID PreviewEnvironment) (d : Db) : Db :=
  mkDb d.(db_builds) d.(db_deployments) d.(db_instances) d.(db_domains) d.(db_env)
    d.(db_images) d.(db_migrations) v d.(db_projects) d.(db_volumes) d.(db_servers)
    d.(db_statuses) d.(db_services) d.(db_endpoints) d.(db_vms) d.(db_settings) d.(db_ext).

Definition set_volumes (v : gmap UUID ProjectVolume) (d : Db) : Db :=
  mkDb d.(db_builds) d.(db_deployments) d.(db_instances) d.(db_domains) d.(db_env)
    d.(db_images) d.(db_migrations) d.(db_previews) d.(db_projects) v d.(db_servers)
    d.(db_statuses) d.(db_services) d.(db_endpoints) d.(db_vms) d.(db_settings) d.(db_ext).

Definition set_servers (v : gmap UUID Server) (d : Db) : Db :=
  mkDb d.(db_builds) d.(db_deployments) d.(db_instances) d.(db_domains) d.(db_env)
    d.(db_images) d.(db_migrations) d.(db_previews) d.(db_projects) d.(db_volumes) v
    d.(db_statuses) d.(db_services) d.(db_endpoints) d.(db_vms) d.(db_settings) d.(db_ext).

Definition set_services (v : gmap UUID Service) (d : Db) : Db :=
  mkDb d.(db_builds) d.(db_deployments) d.(db_instances) d.(db_domains) d.(db_env)
    d.(db_images) d.(db_migrations) d.(db_previews) d.(db_projects) d.(db_volumes)
    d.(db_servers) d.(db_statuses) v d.(db_endpoints) d.(db_vms) d.(db_settings) d.(db_ext).

Definition set_vms (v : gmap UUID Vm) (d : Db) : Db :=
  mkDb d.(db_builds) d.(db_deployments) d.(db_instances) d.(db_domains) d.(db_env)
    d.(db_images) d.(db_migrations) d.(db_previews) d.(db_projects) d.(db_volumes)
    d.(db_servers) d.(db_statuses) d.(db_services) d.(db_endpoints) v
    d.(db_settings) d.(db_ext).

Definition set_ext (v : DbExt) (d : Db) : Db :=
  mkDb d.(db_builds) d.(db_deployments) d.(db_instances) d.(db_domains) d.(db_env)
    d.(db_images) d.(db_migrations) d.(db_previews) d.(db_projects) d.(db_volumes)
    d.(db_servers) d.(db_statuses) d.(db_services) d.(db_endpoints) d.(db_vms)
    d.(db_settings) v.

Definition db_volume_operations (d : Db) : gmap UUID ProjectVolumeOperation := d.(db_ext).(x_volume_operations).
Definition db_volume_backups (d : Db) : gmap UUID ProjectVolumeBackup := d.(db_ext).(x_volume_backups).

Definition db_connections (d : Db) : gmap UUID OrgProviderConnection := d.(db_ext).(x_connections).
Definition db_ci_jobs (d : Db) : gmap UUID CiJob := d.(db_ext).(x_ci_jobs).
Definition db_ci_logs (d : Db) : gmap UUID CiJobLog := d.(db_ext).(x_ci_logs).
Definition db_ci_artifacts (d : Db) : gmap UUID CiJobArtifact := d.(db_ext).(x_ci_artifacts).
Definition db_organizations (d : Db) : gmap UUID Organization := d.(db_ext).(x_organizations).

Definition set_volume_operations (v : gmap UUID ProjectVolumeOperation) (d : Db) : Db :=
  set_ext (mkExt v d.(db_ext).(x_volume_backups) d.(db_ext).(x_secrets) d.(db_ext).(x_server_settings)
    d.(db_ext).(x_connections) d.(db_ext).(x_ci_jobs) d.(db_ext).(x_ci_logs)
    d.(db_ext).(x_ci_artifacts) d.(db_ext).(x_organizations) d.(db_ext).(x_build_logs) d.(db_ext).(x_accounts)) d.
Definition set_volume_backups (v : gmap UUID ProjectVolumeBackup) (d : Db) : Db :=
  set_ext (mkExt d.(db_ext).(x_volume_operations) v d.(db_ext).(x_secrets) d.(db_ext).(x_server_settings)
    d.(db_ext).(x_connections) d.(db_ext).(x_ci_jobs) d.(db_ext).(x_ci_logs)
    d.(db_ext).(x_ci_artifacts) d.(db_ext).(x_organizations) d.(db_ext).(x_build_logs) d.(db_ext).(x_accounts)) d.
Definition set_connections (v : gmap UUID OrgProviderConnection) (d : Db) : Db :=
  set_ext (mkExt d.(db_ext).(x_volume_operations) d.(db_ext).(x_volume_backups) d.(db_ext).(x_secrets) d.(db_ext).(x_server_settings)
    v d.(db_ext).(x_ci_jobs) d.(db_ext).(x_ci_logs)
    d.(db_ext).(x_ci_artifacts) d.(db_ext).(x_organizations) d.(db_ext).(x_build_logs) d.(db_ext).(x_accounts)) d.
Definition set_ci_jobs (v : gmap UUID CiJob) (d : Db) : Db :=
  set_ext (mkExt d.(db_ext).(x_volume_operations) d.(db_ext).(x_volume_backups) d.(db_ext).(x_secrets) d.(db_ext).(x_server_settings)
    d.(db_ext).(x_connections) v d.(db_ext).(x_ci_logs)
    d.(db_ext).(x_ci_artifacts) d.(db_ext).(x_organizations) d.(db_ext).(x_build_logs) d.(db_ext).(x_accounts)) d.
Definition set_ci_logs (v : gmap UUID CiJobLog) (d : Db) : Db :=
  set_ext (mkExt d.(db_ext).(x_volume_operations) d.(db_ext).(x_volume_backups) d.(db_ext).(x_secrets) d.(db_ext).(x_server_settings)
    d.(db_ext).(x_connections) d.(db_ext).(x_ci_jobs) v d.(db_ext).(x_ci_artifacts) d.(db_ext).(x_organizations) d.(db_ext).(x_build_logs) d.(db_ext).(x_accounts)) d.
Definition set_ci_artifacts (v : gmap UUID CiJobArtifact) (d : Db) : Db :=
  set_ext (mkExt d.(db_ext).(x_volume_operations) d.(db_ext).(x_volume_backups) d.(db_ext).(x_secrets) d.(db_ext).(x_server_settings)
    d.(db_ext).(x_connections) d.(db_ext).(x_ci_jobs) d.(db_ext).(x_ci_logs) v d.(db_ext).(x_organizations) d.(db_ext).(x_build_logs) d.(db_ext).(x_accounts)) d.
Definition set_organizations (v : gmap UUID Organization) (d : Db) : Db :=
  set_ext (mkExt d.(db_ext).(x_volume_operations) d.(db_ext).(x_volume_backups) d.(db_ext).(x_secrets) d.(db_ext).(x_server_settings)
    d.(db_ext).(x_connections) d.(db_ext).(x_ci_jobs) d.(db_ext).(x_ci_logs) d.(db_ext).(x_ci_artifacts) v d.(db_ext).(x_build_logs) d.(db_ext).(x_accounts)) d.

Definition db_build_logs (d : Db) : gmap UUID BuildLog := d.(db_ext).(x_build_logs).
Definition set_build_logs (v : gmap UUID BuildLog) (d : Db) : Db :=
  set_ext (mkExt d.(db_ext).(x_volume_operations) d.(db_ext).(x_volume_backups) d.(db_ext).(x_secrets) d.(db_ext).(x_server_settings)
    d.(db_ext).(x_connections) d.(db_ext).(x_ci_jobs) d.(db_ext).(x_ci_logs) d.(db_ext).(x_ci_artifacts) d.(db_ext).(x_organizations) v d.(db_ext).(x_accounts)) d.

Definition db_accounts (d : Db) : Accounts := d.(db_ext).(x_accounts).
Definition set_accounts (v : Accounts) (d : Db) : Db :=
  set_ext (mkExt d.(db_ext).(x_volume_operations) d.(db_ext).(x_volume_backups) d.(db_ext).(x_secrets) d.(db_ext).(x_server_settings)
    d.(db_ext).(x_connections) d.(db_ext).(x_ci_jobs) d.(db_ext).(x_ci_logs) d.(db_ext).(x_ci_artifacts) d.(db_ext).(x_organizations) d.(db_ext).(x_build_logs) v) d.

Definition set_env (v : gmap UUID EnvironmentVariable) (d : Db) : Db :=
  mkDb d.(db_builds) d.(db_deployments) d.(db_instances) d.(db_domains) v
    d.(db_images) d.(db_migrations) d.(db_previews) d.(db_projects) d.(db_volumes)
    d.(db_servers) d.(db_statuses) d.(db_services) d.(db_endpoints) d.(db_vms)
    d.(db_settings) d.(db_ext).

(** ** Columns the edge proxy writes *)

Definition set_dep_PreviewLastRequestAt (v : option Time) (r : Deployment) : Deployment :=
  mkDeployment r.(dep_ID) r.(dep_ProjectID) r.(dep_ServiceID) r.(dep_BuildID) r.(dep_ImageID)
    r.(dep_VmID) r.(dep_PromotedFromDeploymentID) r.(dep_GithubCommit) r.(dep_GithubBranch)
    r.(dep_DeploymentKind) r.(dep_PreviewEnvironmentID) v r.(dep_PreviewScaledToZero)
    r.(dep_CircuitBroken) r.(dep_RunningAt) r.(dep_StoppedAt) r.(dep_FailedAt) r.(dep_DeletedAt)
    r.(dep_WakeRequestedAt) r.(dep_CreatedAt) r.(dep_UpdatedAt).
Definition set_proj_LastRequestAt (v : option Time) (r : Project) : Project :=
  mkProject r.(proj_ID) r.(proj_OrgID) r.(proj_Name) r.(proj_GithubRepository)
    r.(proj_GithubInstallationID) r.(proj_GithubWebhookSecret) r.(proj_RootDirectory)
    r.(proj_DockerfilePath) r.(proj_DesiredInstanceCount) r.(proj_MinInstanceCount)
    r.(proj_MaxInstanceCount) v r.(proj_ScaledToZero) r.(proj_ScaleToZeroEnabled)
    r.(proj_BuildOnlyOnRootChanges) r.(proj_CreatedAt) r.(proj_UpdatedAt).
Definition set_proj_ScaledToZero (v : bool) (r : Project) : Project :=
  mkProject r.(proj_ID) r.(proj_OrgID) r.(proj_Name) r.(proj_GithubRepository)
    r.(proj_GithubInstallationID) r.(proj_GithubWebhookSecret) r.(proj_RootDirectory)
    r.(proj_DockerfilePath) r.(proj_DesiredInstanceCount) r.(proj_MinInstanceCount)
    r.(proj_MaxInstanceCount) r.(proj_LastRequestAt) v r.(proj_ScaleToZeroEnabled)
    r.(proj_BuildOnlyOnRootChanges) r.(proj_CreatedAt) r.(proj_UpdatedAt).
Definition set_proj_UpdatedAt (v : option Time) (r : Project) : Project :=
  mkProject r.(proj_ID) r.(proj_OrgID) r.(proj_Name) r.(proj_GithubRepository)
    r.(proj_GithubInstallationID) r.(proj_GithubWebhookSecret) r.(proj_RootDirectory)
    r.(proj_DockerfilePath) r.(proj_DesiredInstanceCount) r.(proj_MinInstanceCount)
    r.(proj_MaxInstanceCount) r.(proj_LastRequestAt) r.(proj_ScaledToZero)
    r.(proj_ScaleToZeroEnabled) r.(proj_BuildOnlyOnRootChanges) r.(proj_CreatedAt) v.
Definition set_projects (v : gmap UUID Project) (d : Db) : Db :=
  mkDb d.(db_builds) d.(db_deployments) d.(db_instances) d.(db_domains) d.(db_env) d.(db_images)
    d.(db_migrations) d.(db_previews) v d.(db_volumes) d.(db_servers) d.(db_statuses)
    d.(db_services) d.(db_endpoints) d.(db_vms) d.(db_settings) d.(db_ext).
