(* ===== verification/Runtime.v ===== *)
(** * The runtime interface

    Go error values as the control plane inspects them, the data types of
    internal/runtime/runtime.go, and the [Runtime] interface through which the
    deployer and the migration handler drive virtual machines.  An
    implementation's answers depend on the host, so each method takes the
    number of the call: every sequence of answers is some implementation. *)

From S2P Require Import Prelude.

(** ** Errors *)

(** The errors the control plane tells apart; [ErrWrap] is [fmt.Errorf] with
    [%w], [ErrExternal] an error of a driver or of the host. *)
Inductive error :=
  | ErrNoRows
  | ErrInstanceNotRunning
  | ErrConstraint (what : string)
  | ErrExternal (msg : string)
  | ErrVolumeUnavailable (message : string)
  | ErrMsg (msg : string)
  | ErrWrap (ctx : string) (inner : error).

(** [err.Error()]. *)
Fixpoint error_Error (e : error) : string :=
  match e with
  | ErrNoRows => "no rows in result set"
  | ErrInstanceNotRunning => "instance not running"
  | ErrConstraint s | ErrExternal s | ErrVolumeUnavailable s | ErrMsg s => s
  | ErrWrap ctx e' => ctx +:+ ": " +:+ error_Error e'
  end.

(** [errors.Is(err, pgx.ErrNoRows)]. *)
Fixpoint is_no_rows (e : error) : bool :=
  match e with ErrNoRows => true | ErrWrap _ e' => is_no_rows e' | _ => false end.

(** [errors.Is(err, runtime.ErrInstanceNotRunning)]. *)
Fixpoint is_not_running (e : error) : bool :=
  match e with ErrInstanceNotRunning => true | ErrWrap _ e' => is_not_running e' | _ => false end.

(** [errors.As(err, &projectVolumeUnavailableError)]. *)
Fixpoint isProjectVolumeUnavailableError (e : error) : bool :=
  match e with
  | ErrVolumeUnavailable _ => true
  | ErrWrap _ e' => isProjectVolumeUnavailableError e'
  | _ => false
  end.

(** ** Data *)

Record PersistentVolumeMount := mkMount {
  pvm_ID : UUID;
  pvm_HostPath : string;
  pvm_MountPath : string;
  pvm_SizeGB : Z;
  pvm_Filesystem : string;
  pvm_CreateIfMissing : bool
}.

Record Instance := mkInstance {
  ri_ID : UUID;
  ri_ImageRef : string;
  ri_VCPUs : Z;
  ri_MemoryMB : Z;
  ri_Port : Z;
  ri_Env : list string;
  ri_PersistentVolume : option PersistentVolumeMount
}.

Inductive Capability := CapabilitySuspendResume | CapabilityWarmClone | CapabilityLiveMigration.

Record StartMetadata := mkStartMetadata {
  sm_SnapshotRef : string;
  sm_SharedRootfsRef : string;
  sm_CloneSourceVMID : UUID
}.

Record MigrationMetadata := mkMigrationMetadata {
  mm_SharedRootfsRef : string;
  mm_Version : string
}.

Record PreparedMigrationTarget := mkPrepared { pmt_ReceiveAddr : string }.

Record SendMigrationRequest := mkSendRequest {
  smr_DestinationURL : string;
  smr_DowntimeMS : Z;
  smr_TimeoutSeconds : Z
}.

(** ** The interface *)

Record Runtime := mkRuntime {
  rt_Name : string;
  rt_Supports : Capability -> bool;
  rt_Start : nat -> Instance -> error + string;
  rt_Suspend : nat -> UUID -> option error;
  rt_Resume : nat -> UUID -> error + string;
  rt_CreateTemplate : nat -> UUID -> error + string;
  rt_StartClone : nat -> Instance -> string -> UUID -> error + (string * StartMetadata);
  rt_MigrationMetadata : nat -> UUID -> error + MigrationMetadata;
  rt_PrepareMigrationTarget : nat -> UUID -> error + PreparedMigrationTarget;
  rt_SendMigration : nat -> UUID -> SendMigrationRequest -> option error;
  rt_FinalizeMigrationTarget : nat -> UUID -> error + (string * StartMetadata);
  rt_AbortMigrationTarget : nat -> UUID -> option error;
  rt_Stop : nat -> UUID -> option error;
  rt_Healthy : nat -> UUID -> bool
}.
