(* ===== verification/Effects.v ===== *)
(** * Effects

    The monad in which the control plane's handlers are written: a database, a
    clock, and a log of the calls that leave the process, with Go's outcomes of
    a function (a result, an error, a nil dereference) and [Diverge] for a loop
    that used up its fuel.

    Every call out of the process (a query, a runtime call, a probe) has a
    number.  The environment [Env] says, by that number, whether the call
    failed, how long it took and what it answered; theorems quantify over all of them.  A query
    can fail before it takes effect or after it ([FailAfter]: the statement was
    applied and its answer was lost). *)

From S2P Require Import Prelude NetAddr Models Runtime.

Inductive outcome (A : Type) :=
  | Ret (a : A)
  | Err (e : error)
  | Panic
  | Diverge.
Arguments Ret {A} a.
Arguments Err {A} e.
Arguments Panic {A}.
Arguments Diverge {A}.

(** The schedulers a handler can wake. *)
Inductive sched := SchedDeployments | SchedServers | SchedVolumeOperations | SchedCIJobs | SchedBuilds.

(** Calls of the host's file system, of qemu-img and of the object store, with
    whether they succeeded. *)
Inductive IO :=
  | IoStat (path : string) (ok : bool)
  | IoMkdir (path : string) (ok : bool)
  | IoCreateTemp (path : string) (ok : bool)
  | IoClose (path : string) (ok : bool)
  | IoRename (src dst : string) (ok : bool)
  | IoRemove (path : string) (ok : bool)
  | IoOpen (path : string) (ok : bool)
  | IoFileInfo (path : string) (ok : bool)
  | IoCreate (path : string) (ok : bool)
  | IoImageInfo (path : string) (ok : bool)
  | IoImageRepair (path : string) (ok : bool)
  | IoLoadConfig (ok : bool)
  | IoPutObject (bucket key path : string) (ok : bool)
  | IoGetObject (bucket key : string) (ok : bool)
  | IoCopyObject (bucket key path : string) (ok : bool)
  | IoDeleteObject (bucket key : string) (ok : bool)
  | IoCopyFile (path : string) (ok : bool)
  | IoWriteFile (path content : string) (ok : bool)
  | IoReadFile (path : string) (ok : bool)
  | IoChmod (path : string) (ok : bool)
  | IoRemoveAll (path : string) (ok : bool).

Inductive Event :=
  | EvIO (io : IO)
  | EvStart (i : Instance)
  | EvStartClone (i : Instance) (ref : string) (source : UUID)
  | EvStop (id : UUID)
  | EvSuspend (id : UUID)
  | EvResume (id : UUID)
  | EvCreateTemplate (id : UUID)
  | EvMigrationMetadata (id : UUID)
  | EvPrepareTarget (id : UUID)
  | EvSend (id : UUID) (req : SendMigrationRequest)
  | EvFinalize (id : UUID)
  | EvAbortTarget (id : UUID)
  | EvHealthy (id : UUID)
  | EvProbe (url : string)
  | EvSchedule (s : sched) (id : UUID) (at_ : Time)
  | EvPublishProject (id : UUID)
  | EvPublishServers
  | EvPublishCIJob (id : UUID)
  | EvCancelCIJob (id : UUID)
  | EvProxy (url : string)
  | EvResolveCommit (repo : string)
  | EvRecoverState (instances : list UUID) (templates : list string)
  | EvNotifyRoute
  | EvDownload (url : string)
  | EvLookupTXT (name : string).

(** [w_tx] is the start time of the open transaction, at which [NOW()] stands. *)
Record World := mkWorld {
  w_db : Db;
  w_now : Time;
  w_step : nat;
  w_tx : option Time;
  w_log : list Event
}.

Inductive fault := NoFault | FailBefore (msg : string) | FailAfter (msg : string).

(** An HTTP GET: a transport error, retryable (EOF or connection reset) or
    not, or a status code. *)
Inductive http_reply := HttpError (retryable : bool) | HttpStatus (code : Z).

Class Env := {
  env_fault : nat -> fault;
  env_delay : nat -> N;
  env_uuid : nat -> UUID;
  env_http : nat -> string -> http_reply;
  env_volume_dir : string
}.

(** An environment without faults and delays. *)
Definition quiet_env (ids : nat -> UUID) (http : nat -> string -> http_reply) : Env :=
  {| env_fault _ := NoFault; env_delay _ := 0%N; env_uuid := ids; env_http := http;
     env_volume_dir := "/data/volumes" |}.

Definition M (A : Type) : Type := World -> outcome A * World.

Definition ret {A} (a : A) : M A := fun w => (Ret a, w).
Definition throw {A} (e : error) : M A := fun w => (Err e, w).
Definition panic {A} : M A := fun w => (Panic, w).
Definition diverge {A} : M A := fun w => (Diverge, w).

Definition bind {A B} (m : M A) (k : A -> M B) : M B := fun w =>
  match m w with
  | (Ret a, w') => k a w'
  | (Err e, w') => (Err e, w')
  | (Panic, w') => (Panic, w')
  | (Diverge, w') => (Diverge, w')
  end.

(** [x, err := m], with the error as a value. *)
Definition attempt {A} (m : M A) : M (error + A) := fun w =>
  match m w with
  | (Ret a, w') => (Ret (inr a), w')
  | (Err e, w') => (Ret (inl e), w')
  | (Panic, w') => (Panic, w')
  | (Diverge, w') => (Diverge, w')
  end.

(** [if err != nil { return fmt.Errorf("ctx: %w", err) }]. *)
Definition wrap {A} (ctx : string) (m : M A) : M A := fun w =>
  match m w with
  | (Err e, w') => (Err (ErrWrap ctx e), w')
  | r => r
  end.

Declare Scope kindling_scope.
Delimit Scope kindling_scope with kindling.
Notation "'let!' x ':=' m 'in' k" := (bind m (fun x => k))
  (at level 10, x name, m at level 100, k at level 200) : kindling_scope.
Notation "'let!' ' p ':=' m 'in' k" := (bind m (fun x => match x with p => k end))
  (at level 10, p pattern, m at level 100, k at level 200) : kindling_scope.
Notation "'do!' m ';' k" := (bind m (fun _ => k))
  (at level 10, m at level 100, k at level 200) : kindling_scope.
#[global] Open Scope kindling_scope.

(** [_ = m] and [_, _ = m]: the error is dropped. *)
Definition ignore {A} (m : M A) : M unit := do! attempt m ; ret tt.

Definition when (b : bool) (m : M unit) : M unit := if b then m else ret tt.

(** [for _, x := range l { f x }]. *)
Fixpoint for_each {A} (l : list A) (f : A -> M unit) : M unit :=
  match l with
  | [] => ret tt
  | x :: l' => do! f x ; for_each l' f
  end.

(** A range loop with an accumulator. *)
Fixpoint fold_each {A B} (f : B -> A -> M B) (l : list A) (acc : B) : M B :=
  match l with
  | [] => ret acc
  | x :: l' => let! acc' := f acc x in fold_each f l' acc'
  end.

(** A [for] loop: [body] answers whether to go on, with the next state. *)
Fixpoint loop {S R} (fuel : nat) (body : S -> M (S + R)) (s : S) : M R :=
  match fuel with
  | O => diverge
  | S fuel' =>
      let! r := body s in
      match r with inl s' => loop fuel' body s' | inr x => ret x end
  end.

Section primitives.
Context {env : Env}.

(** The world after one call out of the process. *)
Definition tick (w : World) : World :=
  mkWorld w.(w_db) (w.(w_now) + Z.of_N (env_delay w.(w_step))) (S w.(w_step)) w.(w_tx) w.(w_log).

Definition set_db (d : Db) (w : World) : World :=
  mkWorld d w.(w_now) w.(w_step) w.(w_tx) w.(w_log).

Definition log_event (e : Event) (w : World) : World :=
  mkWorld w.(w_db) w.(w_now) w.(w_step) w.(w_tx) (e :: w.(w_log)).

(** [NOW()] in a statement: the transaction's start, or the current time. *)
Definition sql_now (w : World) : Time := default w.(w_now) w.(w_tx).

(** A statement that answers with a value. *)
Definition query {A} (f : Time -> Db -> error + A) : M A := fun w =>
  match env_fault w.(w_step) with
  | FailBefore msg | FailAfter msg => (Err (ErrExternal msg), tick w)
  | NoFault =>
      match f (sql_now w) w.(w_db) with
      | inl e => (Err e, tick w)
      | inr a => (Ret a, tick w)
      end
  end.

(** A statement that changes the database. *)
Definition exec {A} (f : Time -> Db -> error + (A * Db)) : M A := fun w =>
  match env_fault w.(w_step) with
  | FailBefore msg => (Err (ErrExternal msg), tick w)
  | NoFault =>
      match f (sql_now w) w.(w_db) with
      | inl e => (Err e, tick w)
      | inr (a, d) => (Ret a, tick (set_db d w))
      end
  | FailAfter msg =>
      match f (sql_now w) w.(w_db) with
      | inl e => (Err e, tick w)
      | inr (_, d) => (Err (ErrExternal msg), tick (set_db d w))
      end
  end.

Definition set_tx (t : option Time) (w : World) : World :=
  mkWorld w.(w_db) w.(w_now) w.(w_step) t w.(w_log).

(** [pool.Begin], [defer tx.Rollback], the body, and [tx.Commit] when the body
    returns without an error; [on_commit] handles the error of a failed commit. *)
Definition transaction {A} (begin_ctx : string) (on_commit : error -> M A) (body : M A) : M A := fun w =>
  match env_fault w.(w_step) with
  | FailBefore msg | FailAfter msg => (Err (ErrWrap begin_ctx (ErrExternal msg)), tick w)
  | NoFault =>
      let before := w.(w_db) in
      match body (set_tx (Some w.(w_now)) (tick w)) with
      | (Ret a, w1) =>
          let w1 := set_tx None w1 in
          match env_fault w1.(w_step) with
          | NoFault => (Ret a, tick w1)
          | FailBefore msg =>
              on_commit (ErrExternal msg) (tick (set_db before w1))
          | FailAfter msg =>
              on_commit (ErrExternal msg) (tick w1)
          end
      | (r, w1) => (r, set_db before (set_tx None w1))
      end
  end.

(** [time.Now()]. *)
Definition now : M Time := fun w => (Ret w.(w_now), w).

(** [time.Sleep(d)]. *)
Definition sleep (d : Duration) : M unit := fun w =>
  (Ret tt, tick (mkWorld w.(w_db) (w.(w_now) + Z.max 0 d) w.(w_step) w.(w_tx) w.(w_log))).

(** [uuid.New()]. *)
Definition new_uuid : M UUID := fun w => (Ret (env_uuid w.(w_step)), tick w).

(** A call of the runtime or of the network, whose answer depends on its number. *)
Definition extern {A} (e : Event) (f : nat -> A) : M A := fun w =>
  (Ret (f w.(w_step)), tick (log_event e w)).

(** A call whose outcome is part of the event. *)
Definition extern_io {A} (ev : A -> IO) (f : nat -> A) : M A := fun w =>
  let r := f w.(w_step) in (Ret r, tick (log_event (EvIO (ev r)) w)).

(** An effect inside the process: waking a scheduler, publishing an event. *)
Definition emit (e : Event) : M unit := fun w => (Ret tt, log_event e w).

Definition of_sum {A} (r : error + A) : M A :=
  match r with inl e => throw e | inr a => ret a end.

Definition of_error (r : option error) : M unit :=
  match r with Some e => throw e | None => ret tt end.

End primitives.

(** A nil interface dereferenced, [d.rt.Name()] with [d.rt == nil], panics. *)
Definition deref {A B} (o : option A) (k : A -> M B) : M B :=
  match o with Some a => k a | None => panic end.
