(* ===== verification/Queries.v ===== *)
(** * SQL statements

    The statements of internal/database/queries/queries.sql.go the modelled
    components issue, as pure functions on the database.  A statement that
    reads is a [reads A], one that writes a [writes A]; both see the value of
    [NOW()].  A comparison with NULL selects no row.  Writes check the
    constraints schema.sql puts on the columns they set: NOT NULL, CHECK,
    UNIQUE, the primary key and the foreign keys.

    Where a statement leaves the order of rows open (no ORDER BY, or equal
    keys), the model takes the order of the table's map and of the [Sorter]. *)

From S2P Require Import Prelude NetAddr Models Runtime.

Definition reads (A : Type) : Type := Time -> Db -> error + A.
Definition writes (A : Type) : Type := Time -> Db -> error + (A * Db).

(** ** Rows of a table *)

(** [SELECT ... FROM t WHERE p]. *)
Definition rows {R} (p : R -> bool) (t : gmap UUID R) : list R :=
  List.filter p (snd <$> map_to_list t).

(** [WHERE id = $1]. *)
Definition row_at {R} (t : gmap UUID R) (id : pgUUID) : option R :=
  match id with Some k => t !! k | None => None end.

(** A [:one] query: the first row, or [pgx.ErrNoRows]. *)
Definition first_row {R} (l : list R) : error + R :=
  match l with r :: _ => inr r | [] => inl ErrNoRows end.

(** [col = $1] on a nullable uuid column. *)
Definition col_eq (col param : pgUUID) : bool :=
  match col, param with Some a, Some b => bool_decide (a = b) | _, _ => false end.

(** [col IS NULL] and [col IS NOT NULL]. *)
Definition is_null {A} (c : option A) : bool := match c with None => true | Some _ => false end.
Definition not_null {A} (c : option A) : bool := negb (is_null c).

Definition in_list (l : list string) (s : string) : bool := existsb (String.eqb s) l.

(** ORDER BY a nullable timestamp, ascending, NULLs last. *)
Definition time_le (a b : option Time) : bool :=
  match a, b with
  | Some x, Some y => x <=? y
  | _, None => true
  | None, Some _ => false
  end.

(** ** Constraints *)

(** A nullable and a mandatory foreign key. *)
Definition fk {R} (t : gmap UUID R) (c : pgUUID) : bool :=
  match c with Some k => not_null (t !! k) | None => true end.
Definition fk_required {R} (t : gmap UUID R) (c : pgUUID) : bool :=
  match c with Some k => not_null (t !! k) | None => false end.

Definition int4 (z : Z) : bool := (min_int32 <=? z) && (z <=? max_int32).

(** schema.sql, deployment_instances. *)
Definition instance_ok (d : Db) (k : UUID) (r : DeploymentInstance) : bool :=
  fk_required d.(db_deployments) r.(inst_DeploymentID) &&
  fk d.(db_servers) r.(inst_ServerID) && fk d.(db_vms) r.(inst_VmID) &&
  in_list ["active"; "warm_pool"; "template"] r.(inst_Role) &&
  in_list ["pending"; "starting"; "running"; "failed"; "stopped"] r.(inst_Status) &&
  int4 r.(inst_RestartCount).

(** schema.sql, vms. *)
Definition vm_ok (d : Db) (k : UUID) (r : Vm) : bool :=
  fk_required d.(db_servers) r.(vm_ServerID) && fk_required d.(db_images) r.(vm_ImageID) &&
  in_list ["pending"; "starting"; "running"; "stopped"; "failed"; "suspending"; "suspended";
           "warming"; "template"] r.(vm_Status) &&
  fk d.(db_vms) r.(vm_CloneSourceVmID) && bool_decide (r.(vm_IpAddress) <> AddrZero).

(** schema.sql, deployments. *)
Definition deployment_ok (d : Db) (k : UUID) (r : Deployment) : bool :=
  fk_required d.(db_projects) r.(dep_ProjectID) && fk d.(db_services) r.(dep_ServiceID) &&
  fk d.(db_builds) r.(dep_BuildID) && fk d.(db_images) r.(dep_ImageID) &&
  fk d.(db_vms) r.(dep_VmID) && fk d.(db_previews) r.(dep_PreviewEnvironmentID) &&
  in_list ["production"; "preview"] r.(dep_DeploymentKind).

(** schema.sql, builds. *)
Definition build_ok (d : Db) (k : UUID) (r : Build) : bool :=
  fk_required d.(db_projects) r.(bld_ProjectID) && fk d.(db_services) r.(bld_ServiceID) &&
  in_list ["pending"; "building"; "successful"; "failed"] r.(bld_Status).

(** schema.sql, project_volumes. *)
Definition volume_ok (d : Db) (k : UUID) (r : ProjectVolume) : bool :=
  fk d.(db_servers) r.(vol_ServerID) && fk d.(db_vms) r.(vol_AttachedVmID) &&
  in_list ["detached"; "available"; "attached"; "unavailable"; "backing_up"; "restoring";
           "repairing"; "deleting"] r.(vol_Status) &&
  in_list ["unknown"; "healthy"; "degraded"; "missing"; "corrupt"] r.(vol_Health) &&
  fk_required d.(db_projects) r.(vol_ProjectID) && fk d.(db_services) r.(vol_ServiceID) &&
  (0 <? r.(vol_SizeGb)) && int4 r.(vol_SizeGb) && String.eqb r.(vol_Filesystem) "ext4" &&
  in_list ["off"; "manual"; "daily"; "weekly"] r.(vol_BackupSchedule) &&
  (0 <? r.(vol_BackupRetentionCount)) && int4 r.(vol_BackupRetentionCount).

(** schema.sql, domains: domain_name is unique. *)
Definition domain_ok (d : Db) (k : UUID) (r : Domain) : bool :=
  fk_required d.(db_projects) r.(dom_ProjectID) && fk d.(db_services) r.(dom_ServiceID) &&
  fk d.(db_deployments) r.(dom_DeploymentID) && fk d.(db_previews) r.(dom_PreviewEnvironmentID) &&
  in_list ["production"; "service_managed"; "preview_stable"; "preview_immutable"] r.(dom_DomainKind) &&
  forallb (fun o => negb (String.eqb o.(dom_DomainName) r.(dom_DomainName)))
    (snd <$> map_to_list (delete k d.(db_domains))).

Definition migration_final (state : string) : bool :=
  in_list ["completed"; "failed"; "aborted"; "fallback_evacuating"] state.

(** schema.sql, instance_migrations: the state check and
    idx_instance_migrations_one_active_per_instance. *)
Definition migration_ok (d : Db) (k : UUID) (r : InstanceMigration) : bool :=
  in_list ["pending"; "destination_prepared"; "sending"; "received"; "completed"; "failed";
           "aborted"; "fallback_evacuating"] r.(mig_State) &&
  (migration_final r.(mig_State) ||
   forallb (fun o => migration_final o.(mig_State) ||
                     negb (col_eq o.(mig_DeploymentInstanceID) r.(mig_DeploymentInstanceID)))
     (snd <$> map_to_list (delete k d.(db_migrations)))).

(** schema.sql, servers. *)
Definition server_ok (d : Db) (k : UUID) (r : Server) : bool :=
  in_list ["active"; "draining"; "drained"; "dead"] r.(srv_Status).

Definition service_ok (d : Db) (k : UUID) (r : Service) : bool := int4 r.(svc_DesiredInstanceCount).

(** ** Tables *)

Record Table (R : Type) := mkTable {
  t_get : Db -> gmap UUID R;
  t_set : gmap UUID R -> Db -> Db;
  t_ok : Db -> UUID -> R -> bool;
  t_name : string
}.
Arguments mkTable {R} t_get t_set t_ok t_name.
Arguments t_get {R} t.
Arguments t_set {R} t.
Arguments t_ok {R} t.
Arguments t_name {R} t.

Definition t_instances := mkTable db_instances set_instances instance_ok "deployment_instances".
Definition t_vms := mkTable db_vms set_vms vm_ok "vms".
Definition t_deployments := mkTable db_deployments set_deployments deployment_ok "deployments".
Definition t_builds := mkTable db_builds set_builds build_ok "builds".
Definition t_volumes := mkTable db_volumes set_volumes volume_ok "project_volumes".
Definition t_domains := mkTable db_domains set_domains domain_ok "domains".
Definition t_migrations := mkTable db_migrations set_migrations migration_ok "instance_migrations".
Definition t_servers := mkTable db_servers set_servers server_ok "servers".
Definition t_env := mkTable db_env set_env (fun _ _ _ => true) "environment_variables".
Definition t_services := mkTable db_services set_services service_ok "services".

(** [INSERT INTO t ... RETURNING *]. *)
Definition insert_row {R} (t : Table R) (id : pgUUID) (r : R) (d : Db) : error + (R * Db) :=
  match id with
  | None => inl (ErrConstraint (t.(t_name) +:+ "_id_not_null"))
  | Some k =>
      match t.(t_get) d !! k with
      | Some _ => inl (ErrConstraint (t.(t_name) +:+ "_pkey"))
      | None =>
          if t.(t_ok) d k r then inr (r, t.(t_set) (<[k := r]> (t.(t_get) d)) d)
          else inl (ErrConstraint (t.(t_name) +:+ "_check"))
      end
  end.

(** [UPDATE t SET ... WHERE id = $1 AND guard]: the new row, if one matched. *)
Definition update_row {R} (t : Table R) (id : pgUUID) (guard : R -> bool) (f : R -> R) (d : Db)
    : error + (option R * Db) :=
  match id with
  | None => inr (None, d)
  | Some k =>
      match t.(t_get) d !! k with
      | None => inr (None, d)
      | Some r =>
          if guard r then
            if t.(t_ok) d k (f r) then inr (Some (f r), t.(t_set) (<[k := f r]> (t.(t_get) d)) d)
            else inl (ErrConstraint (t.(t_name) +:+ "_check"))
          else inr (None, d)
      end
  end.

(** [... RETURNING *] scanned by QueryRow: no matching row is ErrNoRows. *)
Definition returning {R} (r : error + (option R * Db)) : error + (R * Db) :=
  match r with
  | inl e => inl e
  | inr (Some x, d) => inr (x, d)
  | inr (None, _) => inl ErrNoRows
  end.

(** [:exec]: the number of matching rows is not looked at. *)
Definition executing {R} (r : error + (option R * Db)) : error + (unit * Db) :=
  match r with inl e => inl e | inr (_, d) => inr (tt, d) end.

(** [UPDATE t SET ... WHERE p], any number of rows. *)
Definition update_where {R} (t : Table R) (p : R -> bool) (f : R -> R) (d : Db) : error + (unit * Db) :=
  if forallb (fun '(k, r) => negb (p r) || t.(t_ok) d k (f r)) (map_to_list (t.(t_get) d))
  then inr (tt, t.(t_set) ((fun r => if p r then f r else r) <$> t.(t_get) d) d)
  else inl (ErrConstraint (t.(t_name) +:+ "_check")).

(** The key of the first row of [p], for updates by a unique column. *)
Definition key_where {R} (p : R -> bool) (t : gmap UUID R) : pgUUID :=
  fst <$> head (List.filter (fun '(_, r) => p r) (map_to_list t)).

Definition always {R} (_ : R) : bool := true.

Section statements.
Context {S : Sorter}.

(** [pg_advisory_xact_lock]: serialises transactions and changes no row. *)
Definition AdvisoryLock (key : string) : reads unit := fun _ _ => inr tt.

(** ** deployments *)

(** The scan of a deployment whose lifecycle is open: not stopped, failed or
    deleted. *)
Definition dep_live (r : Deployment) : bool :=
  is_null r.(dep_StoppedAt) && is_null r.(dep_FailedAt) && is_null r.(dep_DeletedAt).

Definition DeploymentFirstByID (id : pgUUID) : reads Deployment := fun _ d =>
  first_row (option_list (row_at d.(db_deployments) id)).

Definition DeploymentFindRunningAndOlder (projectID id : pgUUID) : reads (list Deployment) := fun _ d =>
  inr (sort_by (fun a b => time_le a.(dep_CreatedAt) b.(dep_CreatedAt))
        (rows (fun r => col_eq r.(dep_ProjectID) projectID &&
                        String.eqb r.(dep_DeploymentKind) "production" &&
                        not_null r.(dep_RunningAt) && dep_live r &&
                        not_null id && negb (col_eq r.(dep_ID) id)) d.(db_deployments))).

Definition DeploymentLatestRunningByServiceID (serviceID : pgUUID) : reads Deployment := fun _ d =>
  first_row (sort_by (fun a b => time_le b.(dep_RunningAt) a.(dep_RunningAt))
        (rows (fun r => col_eq r.(dep_ServiceID) serviceID &&
                        String.eqb r.(dep_DeploymentKind) "production" &&
                        not_null r.(dep_RunningAt) && dep_live r) d.(db_deployments))).

Definition DeploymentsByPreviewEnvironmentID (pe : pgUUID) : reads (list Deployment) := fun _ d =>
  inr (sort_by (fun a b => time_le b.(dep_CreatedAt) a.(dep_CreatedAt))
        (rows (fun r => col_eq r.(dep_PreviewEnvironmentID) pe && is_null r.(dep_DeletedAt))
              d.(db_deployments))).

Definition DeploymentCircuitBreak (id : pgUUID) : writes Deployment := fun now d =>
  returning (update_row t_deployments id
    (fun r => negb r.(dep_CircuitBroken) && is_null r.(dep_DeletedAt))
    (fun r => set_dep_UpdatedAt (Some now) (set_dep_CircuitBroken true r)) d).

Definition DeploymentResetCircuit (id : pgUUID) : writes unit := fun now d =>
  executing (update_row t_deployments id (fun r => is_null r.(dep_DeletedAt))
    (fun r => set_dep_UpdatedAt (Some now) (set_dep_CircuitBroken false r)) d).

Definition DeploymentClearWakeRequested (id : pgUUID) : writes unit := fun now d =>
  executing (update_row t_deployments id always
    (fun r => set_dep_UpdatedAt (Some now) (set_dep_WakeRequestedAt None r)) d).

Definition DeploymentMarkRunning (id : pgUUID) : writes unit := fun now d =>
  executing (update_row t_deployments id always
    (fun r => set_dep_UpdatedAt (Some now) (set_dep_RunningAt (Some now) r)) d).

Definition DeploymentMarkStopped (id : pgUUID) : writes unit := fun now d =>
  executing (update_row t_deployments id always
    (fun r => set_dep_UpdatedAt (Some now) (set_dep_StoppedAt (Some now) r)) d).

Definition DeploymentUpdateFailedAt (id : pgUUID) : writes unit := fun now d =>
  executing (update_row t_deployments id always
    (fun r => set_dep_UpdatedAt (Some now) (set_dep_FailedAt (Some now) r)) d).

Definition DeploymentUpdateBuild (id buildID : pgUUID) : writes Deployment := fun now d =>
  returning (update_row t_deployments id always
    (fun r => set_dep_UpdatedAt (Some now) (set_dep_BuildID buildID r)) d).

Definition DeploymentUpdateImage (id imageID : pgUUID) : writes Deployment := fun now d =>
  returning (update_row t_deployments id always
    (fun r => set_dep_UpdatedAt (Some now) (set_dep_ImageID imageID r)) d).

Definition DeploymentPreviewMarkScaledToZero (id : pgUUID) : writes unit := fun now d =>
  executing (update_row t_deployments id
    (fun r => String.eqb r.(dep_DeploymentKind) "preview" && not_null r.(dep_RunningAt) &&
              dep_live r && negb r.(dep_PreviewScaledToZero))
    (fun r => set_dep_UpdatedAt (Some now) (set_dep_PreviewScaledToZero true r)) d).

Definition DeploymentsMarkStoppedByPreviewEnvironment (pe : pgUUID) : writes unit := fun now d =>
  update_where t_deployments
    (fun r => col_eq r.(dep_PreviewEnvironmentID) pe &&
              String.eqb r.(dep_DeploymentKind) "preview" && dep_live r)
    (fun r => set_dep_UpdatedAt (Some now) (set_dep_StoppedAt (Some now) r)) d.

(** ** deployment_instances *)

Definition inst_live (r : DeploymentInstance) : bool := is_null r.(inst_DeletedAt).

Definition DeploymentInstanceFirstByID (id : pgUUID) : reads DeploymentInstance := fun _ d =>
  first_row (option_list (row_at d.(db_instances) id)).

Definition DeploymentInstanceFindByDeploymentID (dep : pgUUID) : reads (list DeploymentInstance) := fun _ d =>
  inr (sort_by (fun a b => time_le a.(inst_CreatedAt) b.(inst_CreatedAt))
        (rows (fun r => col_eq r.(inst_DeploymentID) dep && inst_live r) d.(db_instances))).

Definition DeploymentInstanceActiveCountByServerID (server : pgUUID) : reads Z := fun _ d =>
  inr (Z.of_nat (length (rows (fun r => col_eq r.(inst_ServerID) server && inst_live r &&
                                        String.eqb r.(inst_Role) "active") d.(db_instances)))).

Definition DeploymentInstanceCountByServerID (server : pgUUID) : reads Z := fun _ d =>
  inr (Z.of_nat (length (rows (fun r => col_eq r.(inst_ServerID) server && inst_live r)
                              d.(db_instances)))).

Definition DeploymentIDsForInstancesOnServer (server : pgUUID) : reads (list pgUUID) := fun _ d =>
  inr (remove_dups (inst_DeploymentID <$>
        rows (fun r => col_eq r.(inst_ServerID) server && inst_live r) d.(db_instances))).

Definition DeploymentInstanceVMIDsByServerID (server : pgUUID) : reads (list pgUUID) := fun _ d =>
  inr (inst_VmID <$> rows (fun r => col_eq r.(inst_ServerID) server && inst_live r &&
                                    not_null r.(inst_VmID)) d.(db_instances)).

Definition DeploymentInstanceCreate (id dep : pgUUID) : writes DeploymentInstance := fun now d =>
  insert_row t_instances id
    (mkDeploymentInstance id dep None None "active" None "pending" 0 None None (Some now) (Some now)) d.

Definition DeploymentInstanceAttachVM (id vm : pgUUID) (status : string) : writes DeploymentInstance := fun now d =>
  returning (update_row t_instances id inst_live
    (fun r => set_inst_UpdatedAt (Some now) (set_inst_Status status (set_inst_VmID vm r))) d).

Definition DeploymentInstanceUpdateRole (id : pgUUID) (role : string) : writes DeploymentInstance := fun now d =>
  returning (update_row t_instances id inst_live
    (fun r => set_inst_UpdatedAt (Some now) (set_inst_Role role r)) d).

Definition DeploymentInstanceUpdateServer (id server : pgUUID) : writes DeploymentInstance := fun now d =>
  returning (update_row t_instances id inst_live
    (fun r => set_inst_UpdatedAt (Some now) (set_inst_ServerID server r)) d).

Definition DeploymentInstanceUpdateStatus (id : pgUUID) (status : string) : writes DeploymentInstance := fun now d =>
  returning (update_row t_instances id inst_live
    (fun r => set_inst_UpdatedAt (Some now) (set_inst_Status status r)) d).

(** The columns every reset clears. *)
Definition inst_unassign (r : DeploymentInstance) : DeploymentInstance :=
  set_inst_Status "pending" (set_inst_CloneSourceInstanceID None
    (set_inst_Role "active" (set_inst_VmID None (set_inst_ServerID None r)))).

Definition DeploymentInstancePrepareRetry (id : pgUUID) : writes DeploymentInstance := fun now d =>
  returning (update_row t_instances id inst_live
    (fun r => set_inst_UpdatedAt (Some now) (set_inst_LastRestartAt (Some now)
                (set_inst_RestartCount (r.(inst_RestartCount) + 1) (inst_unassign r)))) d).

Definition DeploymentInstanceResetForRetry (id : pgUUID) : writes DeploymentInstance := fun now d =>
  returning (update_row t_instances id inst_live
    (fun r => set_inst_UpdatedAt (Some now) (inst_unassign r)) d).

Definition DeploymentInstanceResetForDeadServer (server : pgUUID) : writes unit := fun now d =>
  update_where t_instances (fun r => col_eq r.(inst_ServerID) server && inst_live r)
    (fun r => set_inst_UpdatedAt (Some now) (set_inst_LastRestartAt None
                (set_inst_RestartCount 0 (inst_unassign r)))) d.

Definition DeploymentInstanceSoftDelete (id : pgUUID) : writes unit := fun now d =>
  executing (update_row t_instances id always
    (fun r => set_inst_UpdatedAt (Some now) (set_inst_DeletedAt (Some now) r)) d).

(** ** vms *)

(** The inet column keeps no zone. *)
Definition inet (a : Addr) : Addr := match a with Addr6 ip _ => Addr6 ip "" | _ => a end.

Record VMCreateParams := mkVMCreate {
  vmc_ID : pgUUID; vmc_ServerID : pgUUID; vmc_ImageID : pgUUID; vmc_Status : string;
  vmc_Runtime : string; vmc_SnapshotRef : option string; vmc_SharedRootfsRef : string;
  vmc_CloneSourceVmID : pgUUID; vmc_Vcpus : Z; vmc_Memory : Z; vmc_IpAddress : Addr;
  vmc_Port : option Z; vmc_EnvVariables : option string
}.

Definition VMCreate (p : VMCreateParams) : writes Vm := fun now d =>
  insert_row t_vms p.(vmc_ID)
    (mkVm p.(vmc_ID) p.(vmc_ServerID) p.(vmc_ImageID) p.(vmc_Status) p.(vmc_Runtime)
       p.(vmc_SnapshotRef) p.(vmc_SharedRootfsRef) p.(vmc_CloneSourceVmID) p.(vmc_Vcpus)
       p.(vmc_Memory) (inet p.(vmc_IpAddress)) p.(vmc_Port) p.(vmc_EnvVariables) None
       (Some now) (Some now)) d.

Definition VMFirstByID (id : pgUUID) : reads Vm := fun _ d =>
  first_row (option_list (row_at d.(db_vms) id)).

Definition VMSoftDelete (id : pgUUID) : writes unit := fun now d =>
  executing (update_row t_vms id always
    (fun r => set_vm_UpdatedAt (Some now) (set_vm_DeletedAt (Some now) r)) d).

Definition VMUpdateLifecycleMetadata (id : pgUUID) (status : string) (snapshotRef : option string)
    (sharedRootfsRef : string) (cloneSource : pgUUID) : writes Vm := fun now d =>
  returning (update_row t_vms id always
    (fun r => set_vm_UpdatedAt (Some now) (set_vm_CloneSourceVmID cloneSource
                (set_vm_SharedRootfsRef sharedRootfsRef (set_vm_SnapshotRef snapshotRef
                  (set_vm_Status status r))))) d).

Definition VMUpdateRuntimeAddress (id : pgUUID) (ip : Addr) (port : option Z) : writes Vm := fun now d =>
  returning (update_row t_vms id always
    (fun r => set_vm_UpdatedAt (Some now) (set_vm_Port port (set_vm_IpAddress (inet ip) r))) d).

Definition VMUpdateStatus (id : pgUUID) (status : string) : writes Vm := fun now d =>
  returning (update_row t_vms id always
    (fun r => set_vm_UpdatedAt (Some now) (set_vm_Status status r)) d).

(** ** builds, images, environment variables, settings *)

Definition BuildCreate (id project service : pgUUID) (status commit branch : string) : writes Build := fun now d =>
  insert_row t_builds id
    (mkBuild id project service status commit branch None None None None None (Some now) (Some now)) d.

Definition BuildFirstByID (id : pgUUID) : reads Build := fun _ d =>
  first_row (option_list (row_at d.(db_builds) id)).

Definition ImageFindByID (id : pgUUID) : reads Image := fun _ d =>
  first_row (option_list (row_at d.(db_images) id)).

Definition ev_name_le (a b : EnvironmentVariable) : bool := String.leb a.(ev_Name) b.(ev_Name).

Definition EnvironmentVariableFindByProjectID (project : pgUUID) : reads (list EnvironmentVariable) := fun _ d =>
  inr (sort_by ev_name_le (rows (fun r => col_eq r.(ev_ProjectID) project) d.(db_env))).

(** [DISTINCT ON (key)] over an ordered list: the first row of each key. *)
Fixpoint distinct_on {A K} `{EqDecision K} (key : A -> K) (seen : list K) (l : list A) : list A :=
  match l with
  | [] => []
  | x :: l' =>
      if bool_decide (key x ∈ seen) then distinct_on key seen l'
      else x :: distinct_on key (key x :: seen) l'
  end.

(** By name; the service's own row before the project default, then the newest. *)
Definition ev_effective_le (service : pgUUID) (a b : EnvironmentVariable) : bool :=
  let own (e : EnvironmentVariable) := if col_eq e.(ev_ServiceID) service then 0 else 1 in
  if String.eqb a.(ev_Name) b.(ev_Name) then
    (own a <? own b) || ((own a =? own b) && time_le b.(ev_UpdatedAt) a.(ev_UpdatedAt))
  else String.leb a.(ev_Name) b.(ev_Name).

Definition EnvironmentVariableFindEffectiveByServiceID (service : pgUUID) : reads (list EnvironmentVariable) := fun _ d =>
  inr match row_at d.(db_services) service with
      | None => []
      | Some s =>
          distinct_on ev_Name []
            (sort_by (ev_effective_le service)
              (rows (fun e => col_eq e.(ev_ProjectID) s.(svc_ProjectID) &&
                              (col_eq e.(ev_ServiceID) service || is_null e.(ev_ServiceID)))
                    d.(db_env)))
      end.

(** ORDER BY project_id, name. *)
Definition ev_project_name_le (a b : EnvironmentVariable) : bool :=
  let pa := FromPgtype a.(ev_ProjectID) in
  let pb := FromPgtype b.(ev_ProjectID) in
  (pa <? pb)%N || ((pa =? pb)%N && ev_name_le a b).

Definition EnvironmentVariableFindAll : reads (list EnvironmentVariable) := fun _ d =>
  inr (sort_by ev_project_name_le (rows always d.(db_env))).

Definition EnvironmentVariableUpdateValue (id : pgUUID) (value : string) : writes EnvironmentVariable := fun now d =>
  returning (update_row t_env id always (fun r => set_ev_UpdatedAt (Some now) (set_ev_Value value r)) d).

Definition ClusterSettingGet (key : string) : reads string := fun _ d =>
  first_row (option_list (d.(db_settings) !! key)).

Definition ClusterSettingsAll : reads (list (string * string)) := fun _ d =>
  inr (sort_by (fun a b => String.leb a.1 b.1) (map_to_list d.(db_settings))).

Definition ClusterSecretGet (key : string) : reads (list N) := fun _ d =>
  first_row (option_list (d.(db_ext).(x_secrets) !! key)).

Definition ServerSettingGet (server : pgUUID) : reads ServerSetting := fun _ d =>
  first_row (option_list (row_at d.(db_ext).(x_server_settings) server)).

(** ** projects, services, endpoints, preview environments *)

Definition ProjectFirstByID (id : pgUUID) : reads Project := fun _ d =>
  first_row (option_list (row_at d.(db_projects) id)).

Definition ServiceFirstByID (id : pgUUID) : reads Service := fun _ d =>
  first_row (option_list (row_at d.(db_services) id)).

Definition ProjectFindAll : reads (list Project) := fun _ d =>
  inr (sort_by (fun a b => time_le b.(proj_CreatedAt) a.(proj_CreatedAt)) (rows always d.(db_projects))).

(** The primary service first, then by age. *)
Definition ServiceListByProjectID (project : pgUUID) : reads (list Service) := fun _ d =>
  inr (sort_by (fun a b => (a.(svc_IsPrimary) && negb b.(svc_IsPrimary)) ||
                           (Bool.eqb a.(svc_IsPrimary) b.(svc_IsPrimary) && time_le a.(svc_CreatedAt) b.(svc_CreatedAt)))
        (rows (fun r => col_eq r.(svc_ProjectID) project) d.(db_services))).

Definition ServiceSetDesiredInstanceCount (id : pgUUID) (n : Z) : writes unit := fun now d =>
  executing (update_row t_services id always
    (fun r => set_svc_UpdatedAt (Some now) (set_svc_DesiredInstanceCount n r)) d).

Definition ServiceEndpointListByServiceID (service : pgUUID) : reads (list ServiceEndpoint) := fun _ d =>
  inr (sort_by (fun a b => time_le a.(sep_CreatedAt) b.(sep_CreatedAt))
        (rows (fun r => col_eq r.(sep_ServiceID) service) d.(db_endpoints))).

Definition PreviewEnvironmentByID (id : pgUUID) : reads PreviewEnvironment := fun _ d =>
  first_row (option_list (row_at d.(db_previews) id)).

Definition PreviewEnvironmentsDueForCleanup : reads (list PreviewEnvironment) := fun now d =>
  inr (rows (fun r => match r.(pe_ExpiresAt) with Some t => t <=? now | None => false end) d.(db_previews)).

(** The rows of domains that reference the environment go with it
    (ON DELETE CASCADE), deployments lose the reference (ON DELETE SET NULL). *)
Definition PreviewEnvironmentDelete (id : pgUUID) : writes unit := fun _ d =>
  match id with
  | None => inr (tt, d)
  | Some k =>
      let refers (c : pgUUID) := col_eq c id in
      inr (tt, set_previews (delete k d.(db_previews))
            (set_domains (filter (fun '(_, r) => refers r.(dom_PreviewEnvironmentID) = false) d.(db_domains))
              (set_deployments ((fun r => if refers r.(dep_PreviewEnvironmentID)
                                          then set_dep_PreviewEnvironmentID None r else r) <$> d.(db_deployments)) d)))
  end.

Definition DeploymentsFindPreviewForIdleScaleDown (idleSeconds : Z) : reads (list Deployment) := fun now d =>
  inr (take 100 (sort_by (fun a b => time_le a.(dep_PreviewLastRequestAt) b.(dep_PreviewLastRequestAt))
        (rows (fun r =>
           match row_at d.(db_previews) r.(dep_PreviewEnvironmentID), r.(dep_PreviewLastRequestAt) with
           | Some pe, Some last =>
               String.eqb r.(dep_DeploymentKind) "preview" && is_null pe.(pe_ClosedAt) &&
               not_null r.(dep_RunningAt) && dep_live r && negb r.(dep_PreviewScaledToZero) &&
               (last <? now - idleSeconds * Second)
           | _, _ => false
           end) d.(db_deployments)))).

(** ** project_volumes *)

(** Rows are found by project_id, which is UNIQUE. *)
Definition volume_of_project (project : pgUUID) (r : ProjectVolume) : bool :=
  col_eq r.(vol_ProjectID) project && is_null r.(vol_DeletedAt).

Definition ProjectVolumeFindByProjectID (project : pgUUID) : reads ProjectVolume := fun _ d =>
  first_row (rows (volume_of_project project) d.(db_volumes)).

Definition ProjectVolumeFindByServiceID (service : pgUUID) : reads ProjectVolume := fun _ d =>
  first_row (rows (fun r => col_eq r.(vol_ServiceID) service && is_null r.(vol_DeletedAt)) d.(db_volumes)).

Definition update_volume (project : pgUUID) (f : ProjectVolume -> ProjectVolume) (d : Db) : error + (ProjectVolume * Db) :=
  returning (update_row t_volumes (key_where (volume_of_project project) d.(db_volumes)) always f d).

Definition ProjectVolumeAssignServer (project server : pgUUID) : writes ProjectVolume := fun now d =>
  update_volume project (fun r => set_vol_UpdatedAt (Some now) (set_vol_ServerID server r)) d.

Definition ProjectVolumeAttachVM (project server vm : pgUUID) : writes ProjectVolume := fun now d =>
  update_volume project
    (fun r => set_vol_UpdatedAt (Some now) (set_vol_LastError "" (set_vol_Health "healthy"
                (set_vol_Status "attached" (set_vol_AttachedVmID vm (set_vol_ServerID server r)))))) d.

Definition ProjectVolumeDetachVM (project : pgUUID) (status lastError : string) : writes ProjectVolume := fun now d =>
  update_volume project
    (fun r => set_vol_UpdatedAt (Some now) (set_vol_LastError lastError
                (set_vol_Status status (set_vol_AttachedVmID None r)))) d.

Definition ProjectVolumeUpdateStatus (project : pgUUID) (status lastError : string) : writes ProjectVolume := fun now d =>
  update_volume project
    (fun r => set_vol_UpdatedAt (Some now) (set_vol_LastError lastError (set_vol_Status status r))) d.

(** ** domains *)

Definition DomainFindByDeploymentIDAndKind (dep : pgUUID) (kind : string) : reads Domain := fun _ d =>
  first_row (rows (fun r => col_eq r.(dom_DeploymentID) dep && String.eqb r.(dom_DomainKind) kind)
                  d.(db_domains)).

Definition DomainFindByPreviewEnvironmentAndKind (pe : pgUUID) (kind : string) : reads Domain := fun _ d =>
  first_row (rows (fun r => col_eq r.(dom_PreviewEnvironmentID) pe && String.eqb r.(dom_DomainKind) kind)
                  d.(db_domains)).

Definition managed_domain (service : pgUUID) (r : Domain) : bool :=
  col_eq r.(dom_ServiceID) service && String.eqb r.(dom_DomainKind) "service_managed".

Definition DomainManagedByServiceID (service : pgUUID) : reads Domain := fun _ d =>
  first_row (rows (managed_domain service) d.(db_domains)).

Definition DomainCreateManaged (id project service dep : pgUUID) (name : string) : writes Domain := fun now d =>
  insert_row t_domains id
    (mkDomain id project service dep name "" (Some now) None None "service_managed" None
       (Some now) (Some now)) d.

Definition DomainCreatePreview (id project service dep : pgUUID) (name kind : string) (pe : pgUUID) : writes Domain := fun now d =>
  insert_row t_domains id
    (mkDomain id project service dep name "" (Some now) None None kind pe (Some now) (Some now)) d.

Definition DomainDeleteManagedByServiceID (service : pgUUID) : writes unit := fun _ d =>
  inr (tt, set_domains (filter (fun '(_, r) => managed_domain service r = false) d.(db_domains)) d).

Definition DomainUpdateDeploymentForDomainID (id dep : pgUUID) : writes unit := fun now d =>
  executing (update_row t_domains id always
    (fun r => set_dom_UpdatedAt (Some now) (set_dom_DeploymentID dep r)) d).

Definition DomainUpdateDeploymentForService (dep service : pgUUID) : writes unit := fun now d =>
  update_where t_domains
    (fun r => col_eq r.(dom_ServiceID) service &&
              in_list ["production"; "service_managed"] r.(dom_DomainKind))
    (fun r => set_dom_UpdatedAt (Some now) (set_dom_DeploymentID dep r)) d.

(** Two managed rows of one service would both take the same unique name. *)
Definition DomainUpdateManagedByServiceID (service : pgUUID) (name : string) (dep : pgUUID) : writes Domain := fun now d =>
  match rows (managed_domain service) d.(db_domains) with
  | [] => inl ErrNoRows
  | [_] =>
      returning (update_row t_domains (key_where (managed_domain service) d.(db_domains)) always
        (fun r => set_dom_UpdatedAt (Some now) (set_dom_VerifiedAt (Some now)
                    (set_dom_VerificationToken "" (set_dom_DeploymentID dep
                      (set_dom_DomainName name r))))) d)
  | _ => inl (ErrConstraint "domains_domain_name_key")
  end.

(** ** servers *)

Definition ServerFindByID (id : pgUUID) : reads Server := fun _ d =>
  first_row (option_list (row_at d.(db_servers) id)).

Definition ServerFindAll : reads (list Server) := fun _ d =>
  inr (sort_by (fun a b => time_le a.(srv_CreatedAt) b.(srv_CreatedAt)) (rows always d.(db_servers))).

(** The live VMs of a server. *)
Definition server_vm_count (d : Db) (s : Server) : Z :=
  Z.of_nat (length (rows (fun v => col_eq v.(vm_ServerID) s.(srv_ID) && is_null v.(vm_DeletedAt))
                         d.(db_vms))).

Definition least_loaded_le (d : Db) (a b : Server) : bool :=
  (server_vm_count d a <? server_vm_count d b) ||
  ((server_vm_count d a =? server_vm_count d b) &&
   time_le b.(srv_LastHeartbeatAt) a.(srv_LastHeartbeatAt)).

Definition ServerFindLeastLoaded : reads Server := fun now d =>
  first_row (sort_by (least_loaded_le d)
    (rows (fun s => String.eqb s.(srv_Status) "active" &&
                    match s.(srv_LastHeartbeatAt) with
                    | Some t => now - 3 * Minute <? t
                    | None => false
                    end) d.(db_servers))).

Definition ServerFindDead : reads (list Server) := fun now d =>
  inr (rows (fun s => String.eqb s.(srv_Status) "active" &&
                      match s.(srv_LastHeartbeatAt) with
                      | Some t => t <? now - 30 * Second
                      | None => false
                      end) d.(db_servers)).

(** Draining and drained servers keep their status. *)
Definition heartbeat_status (status : string) : string :=
  if in_list ["draining"; "drained"] status then status else "active".

Definition ServerHeartbeat (id : pgUUID) : writes unit := fun now d =>
  executing (update_row t_servers id always
    (fun r => set_srv_UpdatedAt (Some now) (set_srv_Status (heartbeat_status r.(srv_Status))
                (set_srv_LastHeartbeatAt (Some now) r))) d).

Definition ServerSetDrained (id : pgUUID) : writes unit := fun now d =>
  executing (update_row t_servers id always
    (fun r => set_srv_UpdatedAt (Some now) (set_srv_Status "drained" r)) d).

Definition ServerUpdateStatus (id : pgUUID) (status : string) : writes unit := fun now d =>
  executing (update_row t_servers id always
    (fun r => set_srv_UpdatedAt (Some now) (set_srv_Status status r)) d).

Definition status_le (a b : ServerComponentStatus) : bool :=
  match a.(scs_ServerID), b.(scs_ServerID) with
  | Some x, Some y => (x <? y)%N || ((x =? y)%N && String.leb a.(scs_Component) b.(scs_Component))
  | _, None => true
  | None, Some _ => false
  end.

Definition ServerComponentStatusFindAll : reads (list ServerComponentStatus) := fun _ d =>
  inr (sort_by status_le (snd <$> map_to_list d.(db_statuses))).

Definition ServerComponentStatusFindByServerID (server : pgUUID) : reads (list ServerComponentStatus) := fun _ d =>
  inr (sort_by (fun a b => String.leb a.(scs_Component) b.(scs_Component))
        (List.filter (fun r => col_eq r.(scs_ServerID) server) (snd <$> map_to_list d.(db_statuses)))).

(** ** instance_migrations *)

Definition InstanceMigrationFirstByID (id : pgUUID) : reads InstanceMigration := fun _ d =>
  first_row (option_list (row_at d.(db_migrations) id)).

Definition InstanceMigrationCountActiveByServerID (server : pgUUID) : reads Z := fun _ d =>
  inr (Z.of_nat (length (rows (fun r => negb (migration_final r.(mig_State)) &&
                                        (col_eq r.(mig_SourceServerID) server ||
                                         col_eq r.(mig_DestinationServerID) server))
                              d.(db_migrations)))).

Definition update_migration (id : pgUUID) (f : InstanceMigration -> InstanceMigration) (d : Db) : error + (InstanceMigration * Db) :=
  returning (update_row t_migrations id always f d).

Definition InstanceMigrationUpdatePrepared (id : pgUUID) (addr : string) (deadline : option Time) : writes InstanceMigration := fun now d =>
  update_migration id
    (fun r => set_mig_UpdatedAt (Some now) (set_mig_CutoverDeadlineAt deadline
                (set_mig_ReceiveAddr addr (set_mig_State "destination_prepared" r)))) d.

Definition InstanceMigrationUpdateSending (id : pgUUID) : writes InstanceMigration := fun now d =>
  update_migration id (fun r => set_mig_UpdatedAt (Some now) (set_mig_State "sending" r)) d.

Definition InstanceMigrationUpdateReceived (id : pgUUID) : writes InstanceMigration := fun now d =>
  update_migration id (fun r => set_mig_UpdatedAt (Some now) (set_mig_State "received" r)) d.

Definition InstanceMigrationUpdateCompleted (id : pgUUID) (url : string) : writes InstanceMigration := fun now d =>
  update_migration id
    (fun r => set_mig_UpdatedAt (Some now) (set_mig_CompletedAt (Some now)
                (set_mig_DestinationRuntimeUrl url (set_mig_State "completed" r)))) d.

Definition InstanceMigrationUpdateFailed (id : pgUUID) (code msg : string) : writes InstanceMigration := fun now d =>
  update_migration id
    (fun r => set_mig_UpdatedAt (Some now) (set_mig_FailedAt (Some now) (set_mig_FailureMessage msg
                (set_mig_FailureCode code (set_mig_State "failed" r))))) d.

Definition InstanceMigrationUpdateAborted (id : pgUUID) (code msg : string) : writes InstanceMigration := fun now d =>
  update_migration id
    (fun r => set_mig_UpdatedAt (Some now) (set_mig_AbortedAt (Some now) (set_mig_FailureMessage msg
                (set_mig_FailureCode code (set_mig_State "aborted" r))))) d.

Definition InstanceMigrationUpdateFallbackEvacuating (id : pgUUID) (code msg : string) : writes InstanceMigration := fun now d =>
  update_migration id
    (fun r => set_mig_UpdatedAt (Some now) (set_mig_FailedAt (Some now) (set_mig_FailureMessage msg
                (set_mig_FailureCode code (set_mig_State "fallback_evacuating" r))))) d.

End statements.
