(* ===== verification/Logic.v ===== *)
(** * Program logic

    Two ways to reason about handlers of [Effects]:

    - [runs allowed m]: whatever the environment does, [m] changes the database
      only through a sequence of statements that [allowed] admits;
    - [safe dv m]: whatever the environment does, [m] does not panic, and does
      not diverge either unless [dv] ([never_panics], [settles]).

    Each has one lemma per construct of the monad, registered in a hint
    database, and a tactic that follows the structure of a handler. *)

From S2P Require Import Prelude NetAddr Models Runtime Effects Queries.
From stdpp Require Export relations.
#[global] Open Scope Z_scope.

Create HintDb runs discriminated.
Create HintDb safe discriminated.

(** ** Statement traces *)

Section runs.
Context {env : Env} (allowed : forall A, writes A -> Prop).

(** One statement of the allowed set, at any time, that succeeded. *)
Definition db_step (d d' : Db) : Prop :=
  exists A (s : writes A) t a, allowed A s /\ s t d = inr (a, d').

Definition runs {A} (m : M A) : Prop :=
  forall w, rtc db_step (w_db w) (w_db (m w).2).

Lemma runs_ret {A} (a : A) : runs (ret a).
Proof. intros w; apply rtc_refl. Qed.
Lemma runs_throw {A} e : runs (throw (A := A) e).
Proof. intros w; apply rtc_refl. Qed.
Lemma runs_panic {A} : runs (panic (A := A)).
Proof. intros w; apply rtc_refl. Qed.
Lemma runs_diverge {A} : runs (diverge (A := A)).
Proof. intros w; apply rtc_refl. Qed.
Lemma runs_now : runs now.
Proof. intros w; apply rtc_refl. Qed.
Lemma runs_sleep t : runs (sleep t).
Proof. intros w; apply rtc_refl. Qed.
Lemma runs_new_uuid : runs new_uuid.
Proof. intros w; apply rtc_refl. Qed.
Lemma runs_extern {A} e (f : nat -> A) : runs (extern e f).
Proof. intros w; apply rtc_refl. Qed.
Lemma runs_extern_io {A} ev (f : nat -> A) : runs (extern_io ev f).
Proof. intros w; apply rtc_refl. Qed.
Lemma runs_emit e : runs (emit e).
Proof. intros w; apply rtc_refl. Qed.
Lemma runs_of_sum {A} (r : error + A) : runs (of_sum r).
Proof. destruct r; [apply runs_throw|apply runs_ret]. Qed.
Lemma runs_of_error r : runs (of_error r).
Proof. destruct r; [apply runs_throw|apply runs_ret]. Qed.

Lemma runs_query {A} (f : reads A) : runs (query f).
Proof. intros w; unfold query; repeat case_match; apply rtc_refl. Qed.

Lemma runs_exec {A} (s : writes A) : allowed A s -> runs (exec s).
Proof.
  intros Hs w; unfold exec.
  destruct (env_fault (w_step w)); [|apply rtc_refl|];
    destruct (s (sql_now w) (w_db w)) as [e|[a d']] eqn:E; try apply rtc_refl;
    apply rtc_once; by exists A, s, (sql_now w), a.
Qed.

Lemma runs_bind {A B} (m : M A) (k : A -> M B) :
  runs m -> (forall a, runs (k a)) -> runs (bind m k).
Proof.
  intros Hm Hk w; unfold bind; specialize (Hm w).
  destruct (m w) as [[a| | |] w']; simpl in *; try done. etrans; [done|apply Hk].
Qed.

Lemma runs_attempt {A} (m : M A) : runs m -> runs (attempt m).
Proof. intros Hm w; unfold attempt; specialize (Hm w). by destruct (m w) as [[] w']. Qed.

Lemma runs_wrap {A} ctx (m : M A) : runs m -> runs (wrap ctx m).
Proof. intros Hm w; unfold wrap; specialize (Hm w). by destruct (m w) as [[] w']. Qed.

Lemma runs_ignore {A} (m : M A) : runs m -> runs (ignore m).
Proof. intros Hm; apply runs_bind; [by apply runs_attempt|intros; apply runs_ret]. Qed.

Lemma runs_when b m : runs m -> runs (when b m).
Proof. intros Hm; destruct b; [done|apply runs_ret]. Qed.

Lemma runs_for_each {A} (l : list A) f : (forall x, runs (f x)) -> runs (for_each l f).
Proof.
  intros Hf; induction l; simpl; [apply runs_ret|]. by apply runs_bind.
Qed.

Lemma runs_fold_each {A B} (f : B -> A -> M B) l acc :
  (forall b x, runs (f b x)) -> runs (fold_each f l acc).
Proof.
  intros Hf; revert acc; induction l; intros acc; simpl; [apply runs_ret|]. by apply runs_bind.
Qed.

Lemma runs_loop {X R} fuel (body : X -> M (X + R)) x :
  (forall y, runs (body y)) -> runs (loop fuel body x).
Proof.
  intros Hb; revert x; induction fuel as [|fuel IH]; intros x; simpl; [apply runs_diverge|].
  apply runs_bind; [done|]. intros [y|r]; [apply IH|apply runs_ret].
Qed.

Lemma runs_transaction {A} ctx (on_commit : error -> M A) body :
  runs body -> (forall e, runs (on_commit e)) -> runs (transaction ctx on_commit body).
Proof.
  intros Hb Hc w; unfold transaction.
  destruct (env_fault (w_step w)); try apply rtc_refl.
  specialize (Hb (set_tx (Some (w_now w)) (tick w))).
  destruct (body _) as [[a|e| |] w1] eqn:E; simpl in Hb; try apply rtc_refl.
  destruct (env_fault _); simpl; [done| |].
  - apply (Hc _ (tick (set_db (w_db w) (set_tx None w1)))).
  - etrans; [exact Hb|]. apply (Hc _ (tick (set_tx None w1))).
Qed.

Lemma runs_deref {A B} (o : option A) (k : A -> M B) :
  (forall a, runs (k a)) -> runs (deref o k).
Proof. intros Hk; destruct o; [apply Hk|apply runs_panic]. Qed.

(** Every preorder on databases that all allowed statements respect holds
    across a handler. *)
Lemma runs_preorder {A} (R : Db -> Db -> Prop) `{!PreOrder R} (m : M A) w :
  (forall d d', db_step d d' -> R d d') -> runs m -> R (w_db w) (w_db (m w).2).
Proof.
  intros HR Hm. specialize (Hm w). induction Hm; [reflexivity|]. etrans; eauto.
Qed.

(** Every invariant that all allowed statements preserve holds after it. *)
Lemma runs_invariant {A} (I : Db -> Prop) (m : M A) w :
  (forall d d', db_step d d' -> I d -> I d') -> runs m -> I (w_db w) -> I (w_db (m w).2).
Proof. intros HI Hm. specialize (Hm w). induction Hm; eauto. Qed.

(** What no allowed statement changes is the same after it. *)
Lemma runs_same {A X} (f : Db -> X) (m : M A) w :
  (forall d d', db_step d d' -> f d' = f d) -> runs m -> f (w_db (m w).2) = f (w_db w).
Proof. intros Hf Hm. specialize (Hm w). induction Hm as [|??? Hs ? IH]; [done|]. rewrite IH. auto. Qed.

End runs.

Lemma runs_weaken (P Q : forall A, writes A -> Prop) {A} (m : M A) :
  (forall A s, P A s -> Q A s) -> runs P m -> runs Q m.
Proof.
  intros HPQ Hm w. specialize (Hm w). induction Hm as [|x y z (B & s & t & b & Hs & H) _ IH]; [constructor|].
  eapply rtc_l; [|exact IH]. exists B, s, t, b. auto.
Qed.

(** A handler that issues no write leaves the database alone. *)
Definition no_stmt (A : Type) (s : writes A) : Prop := False.

Lemma runs_none {A} (m : M A) w : runs no_stmt m -> w_db (m w).2 = w_db w.
Proof. apply (runs_same no_stmt (fun d => d)). intros db db' (B & s & t & b & [] & _). Qed.

#[export] Hint Resolve runs_ret runs_throw runs_panic runs_diverge runs_now runs_sleep
  runs_new_uuid runs_extern runs_extern_io runs_emit runs_of_sum runs_of_error runs_query runs_exec : runs.

(** Follows the structure of a handler down to its statements. *)
Ltac runs_step :=
  lazymatch goal with
  | |- runs _ (bind _ _) => apply runs_bind; [|intros]
  | |- runs _ (attempt _) => apply runs_attempt
  | |- runs _ (wrap _ _) => apply runs_wrap
  | |- runs _ (ignore _) => apply runs_ignore
  | |- runs _ (when _ _) => apply runs_when
  | |- runs _ (for_each _ _) => apply runs_for_each; intros
  | |- runs _ (fold_each _ _ _) => apply runs_fold_each; intros
  | |- runs _ (loop _ _ _) => apply runs_loop; intros
  | |- runs _ (transaction _ _ _) => apply runs_transaction; [|intros]
  | |- runs _ (deref _ _) => apply runs_deref; intros
  | |- runs _ (let '(_, _) := ?x in _) => destruct x
  | |- runs _ (match ?x with _ => _ end) => destruct x eqn:?
  | |- runs _ ?f => progress cbv zeta
  end.

Ltac solve_runs := repeat (first [ solve [eauto with runs] | runs_step ]).

(** ** Outcomes *)

Section safe.
Context {env : Env} {dv : bool}.

(** The outcomes ruled out: a panic, and divergence unless [dv] admits it. *)
Definition good_outcome {A} (o : outcome A) : bool :=
  match o with Panic => false | Diverge => dv | _ => true end.

Definition safe {A} (m : M A) : Prop := forall w, good_outcome (m w).1.

Lemma np_ret {A} (a : A) : safe (ret a).
Proof. by intros w. Qed.
Lemma np_throw {A} e : safe (throw (A := A) e).
Proof. by intros w. Qed.
Lemma np_now : safe now.
Proof. by intros w. Qed.
Lemma np_sleep t : safe (sleep t).
Proof. by intros w. Qed.
Lemma np_new_uuid : safe new_uuid.
Proof. by intros w. Qed.
Lemma np_extern {A} e (f : nat -> A) : safe (extern e f).
Proof. by intros w. Qed.
Lemma np_extern_io {A} ev (f : nat -> A) : safe (extern_io ev f).
Proof. by intros w. Qed.
Lemma np_emit e : safe (emit e).
Proof. by intros w. Qed.
Lemma np_of_sum {A} (r : error + A) : safe (of_sum r).
Proof. by destruct r. Qed.
Lemma np_of_error r : safe (of_error r).
Proof. by destruct r. Qed.
Lemma np_query {A} (f : reads A) : safe (query f).
Proof. intros w; unfold query; by repeat case_match. Qed.
Lemma np_exec {A} (f : writes A) : safe (exec f).
Proof. intros w; unfold exec; by repeat case_match. Qed.

Lemma np_bind {A B} (m : M A) (k : A -> M B) :
  safe m -> (forall a, safe (k a)) -> safe (bind m k).
Proof.
  intros Hm Hk w; unfold bind; specialize (Hm w).
  destruct (m w) as [[] w']; simpl in *; try done. apply Hk.
Qed.

Lemma np_attempt {A} (m : M A) : safe m -> safe (attempt m).
Proof. intros Hm w; unfold attempt; specialize (Hm w). by destruct (m w) as [[] w']. Qed.
Lemma np_wrap {A} ctx (m : M A) : safe m -> safe (wrap ctx m).
Proof. intros Hm w; unfold wrap; specialize (Hm w). by destruct (m w) as [[] w']. Qed.
Lemma np_ignore {A} (m : M A) : safe m -> safe (ignore m).
Proof. intros Hm; apply np_bind; [by apply np_attempt|intros; apply np_ret]. Qed.
Lemma np_when b m : safe m -> safe (when b m).
Proof. intros Hm; destruct b; [done|apply np_ret]. Qed.

Lemma np_for_each {A} (l : list A) f : (forall x, safe (f x)) -> safe (for_each l f).
Proof. intros Hf; induction l; simpl; [apply np_ret|]. by apply np_bind. Qed.

Lemma np_fold_each {A B} (f : B -> A -> M B) l acc :
  (forall b x, safe (f b x)) -> safe (fold_each f l acc).
Proof. intros Hf; revert acc; induction l; intros acc; simpl; [apply np_ret|]. by apply np_bind. Qed.

Lemma np_transaction {A} ctx (on_commit : error -> M A) body :
  safe body -> (forall e, safe (on_commit e)) ->
  safe (transaction ctx on_commit body).
Proof.
  intros Hb Hc w; unfold transaction. destruct (env_fault (w_step w)); try done.
  specialize (Hb (set_tx (Some (w_now w)) (tick w))).
  destruct (body _) as [[a|e| |] w1] eqn:E; simpl in Hb; try done.
  destruct (env_fault _); [done|apply Hc..].
Qed.

Lemma np_deref {A B} (o : option A) (k : A -> M B) :
  is_Some o -> (forall a, safe (k a)) -> safe (deref o k).
Proof. intros [a ->] Hk. apply Hk. Qed.

End safe.
Arguments safe dv {A} m.

Abbreviation never_panics := (safe true).
Abbreviation settles := (safe false).

Lemma np_diverge {A} : never_panics (diverge (A := A)).
Proof. by intros w. Qed.

Lemma np_loop {X R} fuel (body : X -> M (X + R)) x :
  (forall y, never_panics (body y)) -> never_panics (loop fuel body x).
Proof.
  intros Hb; revert x; induction fuel as [|fuel IH]; intros x; simpl; [apply np_diverge|].
  apply np_bind; [done|]. intros [y|r]; [apply IH|apply np_ret].
Qed.

(** A settled computation whose error is dropped returns. *)
Lemma settles_ignore {A} (m : M A) w : settles m -> ignore m w = (Ret tt, (m w).2).
Proof.
  intros Hm. specialize (Hm w). unfold ignore, bind, attempt, ret.
  by destruct (m w) as [[] w'].
Qed.

#[export] Hint Resolve np_ret np_throw np_diverge np_now np_sleep np_new_uuid np_extern np_extern_io np_emit
  np_of_sum np_of_error np_query np_exec : safe.

Ltac np_step :=
  lazymatch goal with
  | |- safe _ (bind _ _) => apply np_bind; [|intros]
  | |- safe _ (attempt _) => apply np_attempt
  | |- safe _ (wrap _ _) => apply np_wrap
  | |- safe _ (ignore _) => apply np_ignore
  | |- safe _ (when _ _) => apply np_when
  | |- safe _ (for_each _ _) => apply np_for_each; intros
  | |- safe _ (fold_each _ _ _) => apply np_fold_each; intros
  | |- safe _ (loop _ _ _) => apply np_loop; intros
  | |- safe _ (transaction _ _ _) => apply np_transaction; [|intros]
  | |- safe _ (let '(_, _) := ?x in _) => destruct x
  | |- safe _ (match ?x with _ => _ end) => destruct x eqn:?
  | |- safe _ ?f => progress cbv zeta
  end.

Ltac solve_np := repeat (first [ solve [eauto with safe] | np_step ]).

(** ** Computations that cannot fail *)

Section returns.
Context {env : Env}.

Definition returns {A} (m : M A) : Prop := forall w, exists a w', m w = (Ret a, w').

Lemma returns_ret {A} (a : A) : returns (ret a).
Proof. intros w. by eexists _, _. Qed.
Lemma returns_now : returns now.
Proof. intros w. by eexists _, _. Qed.
Lemma returns_emit e : returns (emit e).
Proof. intros w. by eexists _, _. Qed.
Lemma returns_extern {A} e (f : nat -> A) : returns (extern e f).
Proof. intros w. by eexists _, _. Qed.
Lemma returns_extern_io {A} ev (f : nat -> A) : returns (extern_io ev f).
Proof. intros w. by eexists _, _. Qed.
Lemma returns_sleep t : returns (sleep t).
Proof. intros w. by eexists _, _. Qed.
Lemma returns_bind {A B} (m : M A) (k : A -> M B) :
  returns m -> (forall a, returns (k a)) -> returns (bind m k).
Proof.
  intros Hm Hk w. destruct (Hm w) as (a & w' & H). destruct (Hk a w') as (b & w'' & H').
  exists b, w''. unfold bind. by rewrite H.
Qed.
Lemma returns_attempt {A} (m : M A) : settles m -> returns (attempt m).
Proof.
  intros Hm w. specialize (Hm w). unfold attempt. destruct (m w) as [[] w']; simpl in *; try done; eauto.
Qed.
Lemma returns_ignore {A} (m : M A) : settles m -> returns (ignore m).
Proof. intros Hm w. eexists _, _. by apply settles_ignore. Qed.
Lemma returns_when b m : returns m -> returns (when b m).
Proof. intros Hm. destruct b; [done|apply returns_ret]. Qed.
Lemma returns_for_each {A} (l : list A) f : (forall x, returns (f x)) -> returns (for_each l f).
Proof. intros Hf; induction l; simpl; [apply returns_ret|]. by apply returns_bind. Qed.

Lemma returns_unit (m : M unit) w : returns m -> m w = (Ret tt, (m w).2).
Proof. intros Hm. destruct (Hm w) as ([] & w' & ->). done. Qed.

End returns.

Create HintDb returns discriminated.
#[export] Hint Resolve returns_ret returns_now returns_emit returns_extern returns_extern_io returns_sleep : returns.

Ltac returns_step :=
  lazymatch goal with
  | |- returns (bind _ _) => apply returns_bind; [|intros]
  | |- returns (attempt _) => apply returns_attempt; solve_np
  | |- returns (ignore _) => apply returns_ignore; solve_np
  | |- returns (when _ _) => apply returns_when
  | |- returns (for_each _ _) => apply returns_for_each; intros
  | |- returns (let '(_, _) := ?x in _) => destruct x
  | |- returns (match ?x with _ => _ end) => destruct x eqn:?
  | |- returns ?f => progress cbv zeta
  end.

Ltac solve_returns := repeat (first [ solve [eauto with returns] | returns_step ]).
