(* ===== verification/EventLogic.v ===== *)
(** * Events and fault-free runs

    [emits P m]: whatever the environment does, [m] only adds events of [P] to
    the log.  [quiet env]: no call to the database fails; the lemmas give the
    results of statements in such an environment. *)

From S2P Require Import Prelude NetAddr Models Runtime Effects Queries Logic.

Create HintDb emits discriminated.

Section emits.
Context {env : Env} (P : Event -> Prop).

Definition log_grows (w w' : World) : Prop :=
  exists new, w_log w' = new ++ w_log w /\ Forall P new.

#[export] Instance log_grows_preorder : PreOrder log_grows.
Proof.
  split.
  - intros w. by exists [].
  - intros w1 w2 w3 (n1 & H1 & F1) (n2 & H2 & F2). exists (n2 ++ n1).
    rewrite H2, H1, (assoc_L (++)). split; [done|]. by apply Forall_app.
Qed.

Definition emits {A} (m : M A) : Prop := forall w, log_grows w (m w).2.

Lemma log_same w w' : w_log w' = w_log w -> log_grows w w'.
Proof. intros H. by exists []. Qed.

Lemma em_ret {A} (a : A) : emits (ret a).
Proof. intros w; by apply log_same. Qed.
Lemma em_throw {A} e : emits (throw (A := A) e).
Proof. intros w; by apply log_same. Qed.
Lemma em_panic {A} : emits (panic (A := A)).
Proof. intros w; by apply log_same. Qed.
Lemma em_diverge {A} : emits (diverge (A := A)).
Proof. intros w; by apply log_same. Qed.
Lemma em_now : emits now.
Proof. intros w; by apply log_same. Qed.
Lemma em_sleep t : emits (sleep t).
Proof. intros w; by apply log_same. Qed.
Lemma em_new_uuid : emits new_uuid.
Proof. intros w; by apply log_same. Qed.
Lemma em_extern {A} e (f : nat -> A) : P e -> emits (extern e f).
Proof. intros HP w. exists [e]. split; [done|]. by constructor. Qed.
Lemma em_extern_io {A} ev (f : nat -> A) : (forall r, P (EvIO (ev r))) -> emits (extern_io ev f).
Proof. intros He w. exists [EvIO (ev (f (w_step w)))]. split; [done|]. by repeat constructor. Qed.
Lemma em_emit e : P e -> emits (emit e).
Proof. intros HP w. exists [e]. split; [done|]. by constructor. Qed.
Lemma em_of_sum {A} (r : error + A) : emits (of_sum r).
Proof. destruct r; [apply em_throw|apply em_ret]. Qed.
Lemma em_of_error r : emits (of_error r).
Proof. destruct r; [apply em_throw|apply em_ret]. Qed.
Lemma em_query {A} (f : reads A) : emits (query f).
Proof. intros w; unfold query; repeat case_match; by apply log_same. Qed.
Lemma em_exec {A} (f : writes A) : emits (exec f).
Proof. intros w; unfold exec; repeat case_match; by apply log_same. Qed.

Lemma em_bind {A B} (m : M A) (k : A -> M B) :
  emits m -> (forall a, emits (k a)) -> emits (bind m k).
Proof.
  intros Hm Hk w; unfold bind; specialize (Hm w).
  destruct (m w) as [[a| | |] w']; simpl in *; try done. etrans; [done|apply Hk].
Qed.

Lemma em_attempt {A} (m : M A) : emits m -> emits (attempt m).
Proof. intros Hm w; unfold attempt; specialize (Hm w). by destruct (m w) as [[] w']. Qed.
Lemma em_wrap {A} ctx (m : M A) : emits m -> emits (wrap ctx m).
Proof. intros Hm w; unfold wrap; specialize (Hm w). by destruct (m w) as [[] w']. Qed.
Lemma em_ignore {A} (m : M A) : emits m -> emits (ignore m).
Proof. intros Hm; apply em_bind; [by apply em_attempt|intros; apply em_ret]. Qed.
Lemma em_when b m : emits m -> emits (when b m).
Proof. intros Hm; destruct b; [done|apply em_ret]. Qed.

Lemma em_for_each {A} (l : list A) f : (forall x, x ∈ l -> emits (f x)) -> emits (for_each l f).
Proof.
  induction l as [|x l IH]; intros Hf; simpl; [apply em_ret|].
  apply em_bind; [apply Hf; constructor|]. intros _. apply IH. intros. apply Hf. by constructor.
Qed.

Lemma em_fold_each {A B} (f : B -> A -> M B) l acc :
  (forall b x, emits (f b x)) -> emits (fold_each f l acc).
Proof. intros Hf; revert acc; induction l; intros acc; simpl; [apply em_ret|]. by apply em_bind. Qed.

Lemma em_loop {X R} fuel (body : X -> M (X + R)) x :
  (forall y, emits (body y)) -> emits (loop fuel body x).
Proof.
  intros Hb; revert x; induction fuel as [|fuel IH]; intros x; simpl; [apply em_diverge|].
  apply em_bind; [done|]. intros [y|r]; [apply IH|apply em_ret].
Qed.

Lemma em_transaction {A} ctx (on_commit : error -> M A) body :
  emits body -> (forall e, emits (on_commit e)) -> emits (transaction ctx on_commit body).
Proof.
  intros Hb Hc w; unfold transaction. destruct (env_fault (w_step w)); try by apply log_same.
  specialize (Hb (set_tx (Some (w_now w)) (tick w))).
  destruct (body _) as [[a|e| |] w1] eqn:E; simpl in Hb; try done.
  destruct (env_fault _); simpl; [done| |].
  - etrans; [exact Hb|]. apply (Hc _ (tick (set_db (w_db w) (set_tx None w1)))).
  - etrans; [exact Hb|]. apply (Hc _ (tick (set_tx None w1))).
Qed.

Lemma em_deref {A B} (o : option A) (k : A -> M B) : (forall a, emits (k a)) -> emits (deref o k).
Proof. intros Hk; destruct o; [apply Hk|apply em_panic]. Qed.

End emits.

#[export] Hint Resolve em_ret em_throw em_panic em_diverge em_now em_sleep em_new_uuid
  em_of_sum em_of_error em_query em_exec : emits.

Lemma emits_weaken {env : Env} (P Q : Event -> Prop) {A} (m : M A) :
  (forall e, P e -> Q e) -> emits P m -> emits Q m.
Proof.
  intros HPQ Hm w. destruct (Hm w) as (new & Hn & HF). exists new. split; [done|].
  by eapply Forall_impl.
Qed.

Ltac emits_step :=
  lazymatch goal with
  | |- emits _ (bind _ _) => apply em_bind; [|intros]
  | |- emits _ (attempt _) => apply em_attempt
  | |- emits _ (wrap _ _) => apply em_wrap
  | |- emits _ (ignore _) => apply em_ignore
  | |- emits _ (when _ _) => apply em_when
  | |- emits _ (for_each _ _) => apply em_for_each; intros
  | |- emits _ (fold_each _ _ _) => apply em_fold_each; intros
  | |- emits _ (loop _ _ _) => apply em_loop; intros
  | |- emits _ (transaction _ _ _) => apply em_transaction; [|intros]
  | |- emits _ (deref _ _) => apply em_deref; intros
  | |- emits _ (extern _ _) => apply em_extern
  | |- emits _ (extern_io _ _) => apply em_extern_io; intros
  | |- emits _ (emit _) => apply em_emit
  | |- emits _ (let '(_, _) := ?x in _) => destruct x
  | |- emits _ (match ?x with _ => _ end) => destruct x eqn:?
  | |- emits _ ?f => progress cbv zeta
  end.

Ltac solve_emits := repeat (first [ solve [eauto with emits] | emits_step ]).

(** ** Single statements *)

(** A read answers from the database or fails; either way it changes nothing. *)
Lemma query_cases {env : Env} {A} (f : reads A) w :
  (exists a, f (sql_now w) (w_db w) = inr a /\ query f w = (Ret a, tick w)) \/
  (exists e, query f w = (Err e, tick w) /\
     (f (sql_now w) (w_db w) = inl e \/ exists msg, e = ErrExternal msg)).
Proof. unfold query. repeat case_match; eauto 10. Qed.

(** A read followed by the rest of a handler. *)
Lemma fetch_cases {env : Env} {A B} ctx (f : reads A) (k : A -> M B) w :
  (exists e, bind (wrap ctx (query f)) k w = (Err e, tick w)) \/
  (exists a, f (sql_now w) (w_db w) = inr a /\ bind (wrap ctx (query f)) k w = k a (tick w)).
Proof.
  unfold bind, wrap. destruct (query_cases f w) as [(a & ? & ->)|(e & -> & _)]; eauto.
Qed.

(** What a write's statement leaves alone, the write leaves alone. *)
Lemma exec_same {env : Env} {A X} (f : Db -> X) (s : writes A) w :
  (forall t a d d', s t d = inr (a, d') -> f d' = f d) -> f (w_db (exec s w).2) = f (w_db w).
Proof.
  intros Hs. unfold exec. destruct (env_fault _); [|done|]; destruct (s _ _) as [|[]] eqn:E; simpl; eauto.
Qed.

(** A write that answered took effect. *)
Lemma exec_ret_inv {env : Env} {A} (s : writes A) w a w' :
  exec s w = (Ret a, w') -> s (sql_now w) (w_db w) = inr (a, w_db w').
Proof. unfold exec. intros H. repeat case_match; simplify_eq. done. Qed.

Lemma wrap_ret_inv {A} ctx (m : M A) w a w' : wrap ctx m w = (Ret a, w') -> m w = (Ret a, w').
Proof. unfold wrap. intros H. by repeat case_match. Qed.

(** A transaction applies all of its body or nothing. *)
Lemma transaction_atomic {env : Env} {A} ctx (on_commit : error -> M A) body w :
  (forall e w0, w_db (on_commit e w0).2 = w_db w0) ->
  w_db (transaction ctx on_commit body w).2 = w_db w \/
  exists a w1, body (set_tx (Some (w_now w)) (tick w)) = (Ret a, w1) /\
    w_db (transaction ctx on_commit body w).2 = w_db w1.
Proof.
  intros Hc. unfold transaction. destruct (env_fault _); [|by left..].
  destruct (body _) as [[a|e| |] w1] eqn:E; [|by left..].
  destruct (env_fault _); [right; eauto|left|right]; rewrite Hc; eauto.
Qed.

Lemma ignore_world {env : Env} {A} (m : M A) w : w_db (ignore m w).2 = w_db (m w).2.
Proof. unfold ignore, bind, attempt, ret. by destruct (m w) as [[] w']. Qed.

(** ** Fault-free environments *)

Definition quiet (env : Env) : Prop := forall n, env_fault n = NoFault.

Section quiet.
Context {env : Env} (Hq : quiet env).

Lemma quiet_query {A} (f : reads A) w :
  query f w = match f (sql_now w) (w_db w) with inl e => (Err e, tick w) | inr a => (Ret a, tick w) end.
Proof. unfold query. by rewrite Hq. Qed.

(** A read that answers. *)
Lemma quiet_read {A} (f : reads A) w a : f (sql_now w) (w_db w) = inr a -> query f w = (Ret a, tick w).
Proof. intros H. by rewrite quiet_query, H. Qed.

Lemma quiet_exec {A} (f : writes A) w :
  exec f w = match f (sql_now w) (w_db w) with
             | inl e => (Err e, tick w)
             | inr (a, d) => (Ret a, tick (set_db d w))
             end.
Proof. unfold exec. by rewrite Hq. Qed.

Lemma quiet_transaction {A} ctx (on_commit : error -> M A) body w :
  transaction ctx on_commit body w =
  match body (set_tx (Some (w_now w)) (tick w)) with
  | (Ret a, w1) => (Ret a, tick (set_tx None w1))
  | (r, w1) => (r, set_db (w_db w) (set_tx None w1))
  end.
Proof.
  unfold transaction. rewrite Hq.
  destruct (body _) as [[] w1]; [|done..]. by rewrite Hq.
Qed.

End quiet.

(** ** Sequencing *)

Lemma bind_ret {A B} (m : M A) (k : A -> M B) w a w' : m w = (Ret a, w') -> bind m k w = k a w'.
Proof. intros H. unfold bind. by rewrite H. Qed.

Lemma wrap_ret {A} ctx (m : M A) w a w' : m w = (Ret a, w') -> wrap ctx m w = (Ret a, w').
Proof. intros H. unfold wrap. by rewrite H. Qed.

Lemma attempt_ret {A} (m : M A) w a w' : m w = (Ret a, w') -> attempt m w = (Ret (inr a), w').
Proof. intros H. unfold attempt. by rewrite H. Qed.

Lemma attempt_err {A} (m : M A) w e w' : m w = (Err e, w') -> attempt m w = (Ret (inl e), w').
Proof. intros H. unfold attempt. by rewrite H. Qed.

(** What a read that returned answered. *)
Lemma query_inv {env : Env} {A} (f : reads A) w a w' :
  query f w = (Ret a, w') -> f (sql_now w) (w_db w) = inr a /\ w' = tick w.
Proof.
  intros H. destruct (query_cases f w) as [(x & Hx & Hq)|(e & Hq & _)]; rewrite Hq in H; by simplify_eq.
Qed.

Lemma read_inv {env : Env} {A} ctx (f : reads A) w a w' :
  wrap ctx (query f) w = (Ret a, w') -> f (sql_now w) (w_db w) = inr a /\ w' = tick w.
Proof. intros H%wrap_ret_inv. by apply query_inv. Qed.

Lemma bind_err {A B} (m : M A) (f : A -> M B) w e w' : m w = (Err e, w') -> bind m f w = (Err e, w').
Proof. intros H. unfold bind. by rewrite H. Qed.

(** What a successful sequence did. *)
Lemma bind_inv {A B} (m : M A) (k : A -> M B) w b w' :
  bind m k w = (Ret b, w') -> exists a w1, m w = (Ret a, w1) /\ k a w1 = (Ret b, w').
Proof. unfold bind. destruct (m w) as [[] w1]; intros; simplify_eq. eauto. Qed.

(** A range loop keeps an invariant indexed by the elements passed. *)
Lemma for_each_invariant {A} (P : list A -> World -> Prop) (f : A -> M unit) l :
  (forall x done w, P done w -> x ∈ l ->
     exists w', f x w = (Ret tt, w') /\ P (x :: done) w') ->
  forall done w, P done w -> exists w', for_each l f w = (Ret tt, w') /\ P (rev l ++ done) w'.
Proof.
  induction l as [|x l IH]; intros Hf done w HP; simpl; [by exists w|].
  destruct (Hf x done w HP) as (w1 & H1 & HP1); [constructor|].
  rewrite (bind_ret _ _ _ _ _ H1), <- app_assoc. simpl. apply IH; [|done].
  intros. apply Hf; [done|by constructor].
Qed.
