(* ===== verification/TableFacts.v ===== *)
(** * Facts about statements

    What a successful INSERT or UPDATE of [Queries] did to the database, as
    inversion lemmas, and how relations between the rows of a table follow. *)

From S2P Require Import Prelude NetAddr Models Runtime Effects Queries Logic.

(** ** Inversion *)

Section inversion.
Context {R : Type} (t : Table R).

Lemma insert_row_inv id r d x d' :
  insert_row t id r d = inr (x, d') ->
  exists k, id = Some k /\ t.(t_get) d !! k = None /\ t.(t_ok) d k r = true /\
            x = r /\ d' = t.(t_set) (<[k := r]> (t.(t_get) d)) d.
Proof.
  unfold insert_row; intros H. repeat case_match; simplify_eq; eauto 10.
Qed.

Lemma update_row_inv id guard f d o d' :
  update_row t id guard f d = inr (o, d') ->
  (d' = d /\ o = None) \/
  exists k r, id = Some k /\ t.(t_get) d !! k = Some r /\ guard r = true /\
              t.(t_ok) d k (f r) = true /\ o = Some (f r) /\
              d' = t.(t_set) (<[k := f r]> (t.(t_get) d)) d.
Proof.
  unfold update_row; intros H. repeat case_match; simplify_eq; eauto 12.
Qed.

Lemma returning_inv id guard f d x d' :
  returning (update_row t id guard f d) = inr (x, d') ->
  exists k r, id = Some k /\ t.(t_get) d !! k = Some r /\ guard r = true /\
              t.(t_ok) d k (f r) = true /\ x = f r /\
              d' = t.(t_set) (<[k := f r]> (t.(t_get) d)) d.
Proof.
  unfold returning; intros H.
  destruct (update_row t id guard f d) as [e|[[y|] d2]] eqn:E; simplify_eq.
  apply update_row_inv in E as [[_ ?]|(k & r & ? & ? & ? & ? & ? & ?)]; simplify_eq. eauto 10.
Qed.

Lemma executing_inv id guard f d x d' :
  executing (update_row t id guard f d) = inr (x, d') ->
  d' = d \/
  exists k r, id = Some k /\ t.(t_get) d !! k = Some r /\ guard r = true /\
              t.(t_ok) d k (f r) = true /\
              d' = t.(t_set) (<[k := f r]> (t.(t_get) d)) d.
Proof.
  unfold executing; intros H.
  destruct (update_row t id guard f d) as [e|[o d2]] eqn:E; simplify_eq.
  apply update_row_inv in E as [[? _]|(k & r & ? & ? & ? & ? & ? & ?)]; simplify_eq; eauto 10.
Qed.

Lemma executing_present k r guard f d x d' :
  t.(t_get) d !! k = Some r -> guard r = true ->
  executing (update_row t (Some k) guard f d) = inr (x, d') ->
  d' = t.(t_set) (<[k := f r]> (t.(t_get) d)) d.
Proof.
  intros Hk Hg H. unfold executing, update_row in H. rewrite Hk, Hg in H. repeat case_match; by simplify_eq.
Qed.

Lemma update_where_inv p f d x d' :
  update_where t p f d = inr (x, d') ->
  (forall k r, t.(t_get) d !! k = Some r -> p r = true -> t.(t_ok) d k (f r) = true) /\
  d' = t.(t_set) ((fun r => if p r then f r else r) <$> t.(t_get) d) d.
Proof.
  unfold update_where; intros H. case_match eqn:E; simplify_eq. split; [|done].
  intros k r Hk Hp. rewrite forallb_forall in E.
  specialize (E (k, r)); cbn in E. rewrite Hp in E; cbn in E. apply E.
  apply list_elem_of_In. by apply elem_of_map_to_list.
Qed.

End inversion.

(** Inverts the statement that led from one database to the next. *)
Ltac invert_stmt :=
  match goal with
  | H : insert_row _ _ _ _ = inr _ |- _ => apply insert_row_inv in H as (?k & ? & ? & ? & ? & ?)
  | H : returning (update_row _ _ _ _ _) = inr _ |- _ =>
      apply returning_inv in H as (?k & ?r & ? & ? & ? & ? & ? & ?)
  | H : executing (update_row _ _ _ _ _) = inr _ |- _ =>
      apply executing_inv in H as [?|(?k & ?r & ? & ? & ? & ? & ?)]
  | H : update_where _ _ _ _ = inr _ |- _ => apply update_where_inv in H as [? ?]
  end; simplify_eq.

(** ** Relations between the rows of a table *)

(** Every row of [m] is still there, related by [rel] to its new version. *)
Definition rows_rel {R} (rel : R -> R -> Prop) (m m' : gmap UUID R) : Prop :=
  forall k r, m !! k = Some r -> exists r', m' !! k = Some r' /\ rel r r'.

#[export] Instance rows_rel_preorder {R} (rel : R -> R -> Prop) :
  PreOrder rel -> PreOrder (rows_rel rel).
Proof.
  intros Hpre. split.
  - intros m k r Hk. exists r. by split.
  - intros m1 m2 m3 H12 H23 k r Hk.
    destruct (H12 k r Hk) as (r2 & Hk2 & ?). destruct (H23 k r2 Hk2) as (r3 & ? & ?).
    exists r3; split; [done|]. by etrans.
Qed.

Lemma rows_rel_fresh {R} (rel : R -> R -> Prop) `{!PreOrder rel} m k r :
  m !! k = None -> rows_rel rel m (<[k := r]> m).
Proof.
  intros Hk k' r' Hk'. exists r'. rewrite lookup_insert_ne by congruence. by split.
Qed.

Lemma rows_rel_update {R} (rel : R -> R -> Prop) `{!PreOrder rel} m k r r' :
  m !! k = Some r -> rel r r' -> rows_rel rel m (<[k := r']> m).
Proof.
  intros Hk Hr k' x Hx. destruct (decide (k = k')) as [->|Hne].
  - rewrite lookup_insert_eq. simplify_eq. eauto.
  - rewrite lookup_insert_ne by done. exists x. by split.
Qed.

Lemma rows_rel_fmap {R} (rel : R -> R -> Prop) m (f : R -> R) :
  (forall r, rel r (f r)) -> rows_rel rel m (f <$> m).
Proof. intros Hf k r Hk. exists (f r). by rewrite lookup_fmap, Hk. Qed.

(** ** Rows *)

Lemma elem_of_rows {R} (p : R -> bool) (m : gmap UUID R) r :
  r ∈ rows p m <-> p r = true /\ exists k, m !! k = Some r.
Proof.
  unfold rows. rewrite list_elem_of_In, filter_In, <- list_elem_of_In, list_elem_of_fmap.
  split.
  - intros [([k x] & ? & Hin) Hp]; simpl in *; subst.
    apply elem_of_map_to_list in Hin. eauto.
  - intros [Hp [k Hk]]. split; [|done]. exists (k, r). split; [done|].
    by apply elem_of_map_to_list.
Qed.

(** The rows of a query have different keys. *)
Lemma rows_nodup {R} (id : R -> pgUUID) (p : R -> bool) (m : gmap UUID R) :
  (forall k r, m !! k = Some r -> id r = Some k) -> NoDup (id <$> rows p m).
Proof.
  intros Hid. unfold rows. assert (NoDup (id <$> (snd <$> map_to_list m))) as H.
  { rewrite <- list_fmap_compose. assert ((id ∘ snd) <$> map_to_list m = Some <$> (fst <$> map_to_list m)) as ->.
    { rewrite <- list_fmap_compose. apply list_fmap_ext. intros i [k r] H. simpl. apply Hid.
      apply elem_of_map_to_list. by eapply list_elem_of_lookup_2. }
    apply NoDup_fmap_2; [by intros ?? [=]|]. apply NoDup_fst_map_to_list. }
  revert H. generalize (snd <$> map_to_list m). intros l. induction l as [|x l IH]; simpl; [done|].
  intros [Hx H]%NoDup_cons. destruct (p x); [|auto]. rewrite fmap_cons. constructor; [|auto].
  intros (y & Hy & Hin%list_elem_of_In)%list_elem_of_fmap. apply filter_In in Hin as [Hin _].
  apply Hx. rewrite Hy. apply list_elem_of_fmap. exists y. split; [done|]. by apply list_elem_of_In.
Qed.

Lemma filter_perm {A} (p : A -> bool) l l' : l ≡ₚ l' -> List.filter p l ≡ₚ List.filter p l'.
Proof.
  induction 1; simpl; repeat case_match; try done; [by f_equiv|by rewrite Permutation_swap|by etrans].
Qed.

Lemma rows_insert {R} (p : R -> bool) (m : gmap UUID R) k r :
  m !! k = None ->
  rows p (<[k := r]> m) ≡ₚ (if p r then [r] else []) ++ rows p m.
Proof.
  intros Hk. unfold rows. etrans.
  - apply filter_perm, fmap_Permutation, map_to_list_insert, Hk.
  - simpl. by destruct (p r).
Qed.

Lemma rows_nil {R} (p : R -> bool) (m : gmap UUID R) :
  (forall k r, m !! k = Some r -> p r = false) -> rows p m = [].
Proof.
  intros Hp. destruct (rows p m) as [|r l] eqn:E; [done|].
  assert (r ∈ rows p m) as Hr by (rewrite E; constructor).
  apply elem_of_rows in Hr as [? [k ?]]. by rewrite (Hp k r) in *.
Qed.

(** ** Lookups by primary key *)

Section by_id.
Context (t : Time) (db : Db).

Lemma deployment_by_id k r : db_deployments db !! k = Some r -> DeploymentFirstByID (Some k) t db = inr r.
Proof. intros H. unfold DeploymentFirstByID. simpl. by rewrite H. Qed.
Lemma instance_by_id k r : db_instances db !! k = Some r -> DeploymentInstanceFirstByID (Some k) t db = inr r.
Proof. intros H. unfold DeploymentInstanceFirstByID. simpl. by rewrite H. Qed.
Lemma vm_by_id k r : db_vms db !! k = Some r -> VMFirstByID (Some k) t db = inr r.
Proof. intros H. unfold VMFirstByID. simpl. by rewrite H. Qed.
Lemma project_by_id k r : db_projects db !! k = Some r -> ProjectFirstByID (Some k) t db = inr r.
Proof. intros H. unfold ProjectFirstByID. simpl. by rewrite H. Qed.
Lemma service_by_id k r : db_services db !! k = Some r -> ServiceFirstByID (Some k) t db = inr r.
Proof. intros H. unfold ServiceFirstByID. simpl. by rewrite H. Qed.
Lemma server_by_id k r : db_servers db !! k = Some r -> ServerFindByID (Some k) t db = inr r.
Proof. intros H. unfold ServerFindByID. simpl. by rewrite H. Qed.
Lemma migration_by_id k r : db_migrations db !! k = Some r -> InstanceMigrationFirstByID (Some k) t db = inr r.
Proof. intros H. unfold InstanceMigrationFirstByID. simpl. by rewrite H. Qed.

End by_id.

(** ** Times of rows *)

Lemma time_le_total a b : time_le a b = true \/ time_le b a = true.
Proof. destruct a as [a|], b as [b|]; simpl; auto. rewrite !Z.leb_le. lia. Qed.
Lemma time_le_trans a b c : time_le a b = true -> time_le b c = true -> time_le a c = true.
Proof. destruct a, b, c; simpl; try done. rewrite !Z.leb_le. lia. Qed.
