(* ===== verification/Lifecycle.v ===== *)
(** * Deployment decisions

    The decisions of internal/deploy that need no database: replica targets
    (deploy.go), roles and launch modes (lifecycle.go), health predicates
    (deploy_health.go), the restart budget (deploy_instance.go), warm-pool
    candidates (deploy_scaling.go), and the runtime environment of an instance. *)

From S2P Require Import Prelude NetAddr Models Runtime.

(** ** Roles and launch modes (lifecycle.go) *)

Definition deploymentInstanceRoleActive : string := "active".
Definition deploymentInstanceRoleWarmPool : string := "warm_pool".
Definition deploymentInstanceRoleTemplate : string := "template".
Definition vmStatusSuspending : string := "suspending".
Definition vmStatusSuspended : string := "suspended".

Inductive launchMode := launchModeCold | launchModeResume | launchModeClone.

Record instanceVMMetadata := mkVMMetadata {
  md_Runtime : string;
  md_SnapshotRef : string;
  md_SharedRootfsRef : string;
  md_CloneSourceVMID : pgUUID
}.

Definition isActiveInstance (inst : DeploymentInstance) : bool :=
  String.eqb inst.(inst_Role) "" || String.eqb inst.(inst_Role) deploymentInstanceRoleActive.

Definition isWarmPoolInstance (inst : DeploymentInstance) : bool :=
  String.eqb inst.(inst_Role) deploymentInstanceRoleWarmPool.

(** [None] is the answer [("", false)]: do not launch.  [vmStatus] is the
    status of the VM row passed in. *)
Definition selectLaunchMode (inst : DeploymentInstance) (vmStatus templateRef : string) : option launchMode :=
  if String.eqb inst.(inst_Role) deploymentInstanceRoleTemplate then None
  else if bool_decide (is_Some inst.(inst_VmID)) && String.eqb vmStatus vmStatusSuspended
  then Some launchModeResume
  else if String.eqb inst.(inst_Role) deploymentInstanceRoleWarmPool then None
  else if negb (String.eqb (TrimSpace templateRef) "") then Some launchModeClone
  else Some launchModeCold.

(** ** Replica targets (deploy.go) *)

Definition serviceDesiredReplicaCount (proj : Project) (service : option Service) : Z :=
  match service with
  | Some s => if 0 <? s.(svc_DesiredInstanceCount) then s.(svc_DesiredInstanceCount)
              else proj.(proj_DesiredInstanceCount)
  | None => proj.(proj_DesiredInstanceCount)
  end.

Definition nonZeroReplicaFloor (proj : Project) : Z :=
  if proj.(proj_MaxInstanceCount) <=? 0 then 0
  else if 1 <? proj.(proj_MinInstanceCount) then proj.(proj_MinInstanceCount)
  else 1.

Definition clampDesiredReplicaCount (proj : Project) (desired : Z) : Z :=
  if proj.(proj_MaxInstanceCount) <=? 0 then 0
  else
    let floor := nonZeroReplicaFloor proj in
    let d := if desired <? floor then floor else desired in
    let d := if proj.(proj_MaxInstanceCount) <? d then proj.(proj_MaxInstanceCount) else d in
    if d <? 0 then 0 else d.

Definition effectiveReplicaCount (proj : Project) (service : option Service) (dep : Deployment) : Z :=
  let serviceDesired := serviceDesiredReplicaCount proj service in
  let wake := bool_decide (is_Some dep.(dep_WakeRequestedAt)) in
  if String.eqb dep.(dep_DeploymentKind) "preview" then
    if wake then (if serviceDesired <? 1 then 1 else serviceDesired)
    else if dep.(dep_PreviewScaledToZero) then 0
    else (if serviceDesired <? 1 then 1 else serviceDesired)
  else if wake then clampDesiredReplicaCount proj serviceDesired
  else if proj.(proj_ScaledToZero) then 0
  else clampDesiredReplicaCount proj serviceDesired.

(** ** Runtime environment (deploy.go) *)

(** internal/config/crypto.go. *)
Definition projectSecretEnvelopePrefix : string := "enc:v1:".
Definition IsEncryptedProjectSecretValue (v : string) : bool := HasPrefix v projectSecretEnvelopePrefix.

(** [buildRuntimeEnv]; the decoder is the configured secret decryption. *)
Fixpoint buildRuntimeEnv (envVars : list EnvironmentVariable) (decoder : option (string -> error + string)) : error + list string :=
  match envVars with
  | [] => inr []
  | ev :: rest =>
      let value :=
        match decoder with
        | Some decrypt =>
            match decrypt ev.(ev_Value) with
            | inl e => inl (ErrWrap ("decrypt project secret " +:+ ev.(ev_Name)) e)
            | inr plain => inr plain
            end
        | None =>
            if IsEncryptedProjectSecretValue ev.(ev_Value)
            then inl (ErrMsg ("decrypt project secret " +:+ ev.(ev_Name) +:+ ": no secret decoder configured"))
            else inr ev.(ev_Value)
        end in
      match value with
      | inl e => inl e
      | inr v =>
          match buildRuntimeEnv rest decoder with
          | inl e => inl e
          | inr env => inr ((ev.(ev_Name) +:+ "=" +:+ v) :: env)
          end
      end
  end.

(** ** Health (deploy_health.go) *)

Definition requiresExternalHealthCheck (runtimeName : string) : bool :=
  negb (String.eqb runtimeName "apple-vz").

Definition shouldKeepRunningVM (vm : Vm) (runtimeName : string) (hostHealthCheckOK : bool) : bool :=
  if bool_decide (is_Some vm.(vm_DeletedAt)) || negb (String.eqb vm.(vm_Status) "running") then false
  else if String.eqb runtimeName "cloud-hypervisor" then true
  else if requiresExternalHealthCheck runtimeName && negb hostHealthCheckOK then false
  else true.

Definition shouldTreatRunningInstanceAsHealthy (inst : DeploymentInstance) (vm : Vm) (runtimeName : string)
    (hostHealthCheckOK : bool) (localServerID : UUID) (localRuntimeHealthy : bool) : bool :=
  if bool_decide (is_Some inst.(inst_ServerID)) &&
     bool_decide (FromPgtype inst.(inst_ServerID) = localServerID) && negb localRuntimeHealthy
  then false
  else shouldKeepRunningVM vm runtimeName hostHealthCheckOK.

(** ** Restart budget (deploy_instance.go) *)

Definition maxRestartCount : Z := 3.
Definition restartBudgetSeconds : Z := 5 * 60.

Definition restartBudgetExceeded (inst : DeploymentInstance) (healthyRunning : bool) (now : Time) : bool :=
  match inst.(inst_LastRestartAt) with
  | None => false
  | Some last =>
      if healthyRunning || (inst.(inst_RestartCount) <? maxRestartCount) then false
      else Before now (last + restartBudgetSeconds * Second)
  end.

Definition suspendedResumeEligible (inst : DeploymentInstance) : bool := isActiveInstance inst.

(** ** Counting and warm pool (deploy_scaling.go) *)

Fixpoint activeInstanceCount (instList : list DeploymentInstance) : Z :=
  match instList with
  | [] => 0
  | inst :: rest => (if isActiveInstance inst then 1 else 0) + activeInstanceCount rest
  end.

Fixpoint countProvisionableInstances (instList : list DeploymentInstance) : Z :=
  match instList with
  | [] => 0
  | inst :: rest =>
      (if isActiveInstance inst || isWarmPoolInstance inst then 1 else 0) + countProvisionableInstances rest
  end.

(** The loop of [warmPoolPromotionCandidates]. *)
Fixpoint warm_candidates (instList : list DeploymentInstance) (deficit : Z) : list pgUUID :=
  match instList with
  | [] => []
  | inst :: rest =>
      if deficit =? 0 then []
      else if isWarmPoolInstance inst then inst.(inst_ID) :: warm_candidates rest (deficit - 1)
      else warm_candidates rest deficit
  end.

Definition warmPoolPromotionCandidates (instList : list DeploymentInstance) (desired : Z) : list pgUUID :=
  let deficit := desired - activeInstanceCount instList in
  if deficit <=? 0 then [] else warm_candidates instList deficit.

Definition warmPoolExtraRetentionAfterTraffic : Duration := 15 * Minute.

Definition warmPoolExtraRetentionEligible (lastRequestAt now : Time) : bool :=
  let age := time_Sub now lastRequestAt in
  (0 <=? age) && (age <? warmPoolExtraRetentionAfterTraffic).
