(* ===== verification/Volumes.v ===== *)
(** * Deployer: state and project volumes

    The deployer's configuration (internal/deploy/deploy.go) and its project
    volume operations (internal/deploy/project_volumes.go). *)

From S2P Require Import Prelude NetAddr Models Runtime Effects Queries Lifecycle.

(** ** The deployer *)

(** [Deployer]: a nil pool, runtime, decoder, scheduler or hook is [None] or
    [false]; calls through the schedulers and hooks are events of the log. *)
Record Deployer := mkDeployer {
  d_pool : bool;
  d_serverID : UUID;
  d_secretDecoder : option (string -> error + string);
  d_deploymentReconciler : bool;
  d_serverScheduler : bool;
  d_rt : option Runtime;
  d_publishProjectEvents : bool;
  d_publishServerEvents : bool
}.

Definition buildPollRetryInterval : Duration := 10 * Second.
Definition reconcileRetryInterval : Duration := 5 * Second.
Definition healthCheckTimeout : Duration := 90 * Second.
Definition healthCheckRetryDelay : Duration := 100 * Millisecond.
Definition healthCheckRetryAttempts : nat := 5.
Definition healthCheckPollInterval : Duration := 100 * Millisecond.
Definition volumeUnavailableRetryDelay : Duration := 30 * Second.
Definition volumeServerHeartbeatCutoff : Duration := 3 * Minute.

Definition projectVolumeRetryDelay (e : error) : Duration :=
  if isProjectVolumeUnavailableError e then volumeUnavailableRetryDelay else reconcileRetryInterval.

Definition projectVolumeServerStatusMessage (serverID : pgUUID) (status : string) : string :=
  "pinned server " +:+ uuid_String (FromPgtype serverID) +:+ " is " +:+ status.

Definition isProjectVolumeTransitionalStatus (status : string) : bool :=
  in_list ["backing_up"; "restoring"; "repairing"; "deleting"] (TrimSpace status).

Section volumes.
Context {env : Env} {S : Sorter} (d : Deployer).

(** [runtime.PersistentVolumePath]: the directory depends on the host. *)
Definition PersistentVolumePath (id : UUID) : string :=
  env_volume_dir +:+ "/" +:+ uuid_String id +:+ ".qcow2".

Definition persistentVolumeMountFromRow (vol : ProjectVolume) : PersistentVolumeMount :=
  mkMount (FromPgtype vol.(vol_ID)) (PersistentVolumePath (FromPgtype vol.(vol_ID)))
    vol.(vol_MountPath) vol.(vol_SizeGb) vol.(vol_Filesystem)
    (String.eqb vol.(vol_Health) "unknown").

Definition scheduleRetry (id : UUID) (delay : Duration) : M unit :=
  when d.(d_deploymentReconciler)
    (let! t := now in emit (EvSchedule SchedDeployments id (t + delay))).

Definition publishProjectVolumeEvents (projectID : pgUUID) : M unit :=
  do! when (d.(d_publishProjectEvents) && bool_decide (is_Some projectID))
        (emit (EvPublishProject (FromPgtype projectID))) ;
  when d.(d_publishServerEvents) (emit EvPublishServers).

Definition projectVolumeForDeployment (dep : Deployment) : M (option (ProjectVolume * PersistentVolumeMount)) :=
  let! r := attempt (match dep.(dep_ServiceID) with
                     | Some _ => query (ProjectVolumeFindByServiceID dep.(dep_ServiceID))
                     | None => query (ProjectVolumeFindByProjectID dep.(dep_ProjectID))
                     end) in
  match r with
  | inl e => if is_no_rows e then ret None else throw e
  | inr vol =>
      if isProjectVolumeTransitionalStatus vol.(vol_Status) then
        let msg := TrimSpace vol.(vol_LastError) in
        throw (ErrVolumeUnavailable
          (if String.eqb msg "" then "project volume is " +:+ vol.(vol_Status) else msg))
      else ret (Some (vol, persistentVolumeMountFromRow vol))
  end.

(** Always fails: with a database error, or with the unavailable error. *)
Definition markProjectVolumeUnavailable {A} (projectID : pgUUID) (message : string) : M A :=
  let message := TrimSpace message in
  let! vol := query (ProjectVolumeFindByProjectID projectID) in
  do! (match vol.(vol_AttachedVmID) with
       | Some _ => exec (ProjectVolumeDetachVM projectID "unavailable" message)
       | None => exec (ProjectVolumeUpdateStatus projectID "unavailable" message)
       end) ;
  do! publishProjectVolumeEvents projectID ;
  throw (ErrVolumeUnavailable message).

(** The worker runtime a component status row reports. *)
Definition worker_runtime (row : ServerComponentStatus) : string :=
  match json_fields row.(scs_Metadata) with
  | Some fs => json_string_field "runtime" fs
  | None => ""
  end.

Definition healthy_worker (row : ServerComponentStatus) : bool :=
  String.eqb row.(scs_Component) "worker" && String.eqb row.(scs_Status) "healthy".

Definition serverSupportsCloudHypervisor (serverID : pgUUID) : M bool :=
  let! r := attempt (query (ServerComponentStatusFindByServerID serverID)) in
  match r with
  | inl _ => ret false
  | inr statuses =>
      ret (existsb (fun row => healthy_worker row &&
                               String.eqb (worker_runtime row) "cloud-hypervisor") statuses)
  end.

(** [runtimeByServer]: later rows overwrite earlier ones. *)
Definition runtime_by_server (statuses : list ServerComponentStatus) : gmap UUID string :=
  foldl (fun m row =>
    match row.(scs_ServerID) with
    | Some sid =>
        if healthy_worker row && negb (String.eqb (worker_runtime row) "")
        then <[sid := worker_runtime row]> m else m
    | None => m
    end) ∅ statuses.

(** The comparison of the candidates: load, then the newest heartbeat, then
    the host name. *)
Definition candidate_le (a b : Server * Z) : bool :=
  let '(sa, la) := a in
  let '(sb, lb) := b in
  if negb (la =? lb) then la <? lb
  else
    let ta := default 0 sa.(srv_LastHeartbeatAt) in
    let tb := default 0 sb.(srv_LastHeartbeatAt) in
    if After ta tb then true
    else if Before ta tb then false
    else strings_Compare sa.(srv_Hostname) sb.(srv_Hostname) <=? 0.

(** Which servers the candidate loop keeps. *)
Definition volume_server_eligible (runtimes : gmap UUID string) (cutoff : Time) (server : Server) : bool :=
  match server.(srv_ID), server.(srv_LastHeartbeatAt) with
  | Some sid, Some beat =>
      String.eqb server.(srv_Status) "active" && negb (Before beat cutoff) &&
      bool_decide (runtimes !! sid = Some "cloud-hypervisor")
  | _, _ => false
  end.

Definition findLeastLoadedCloudHypervisorServer : M Server :=
  let! servers := query ServerFindAll in
  let! statuses := query ServerComponentStatusFindAll in
  let runtimes := runtime_by_server statuses in
  let! t := now in
  let cutoff := t - volumeServerHeartbeatCutoff in
  let! candidates := fold_each (fun acc server =>
      if volume_server_eligible runtimes cutoff server then
        let! load := query (DeploymentInstanceActiveCountByServerID server.(srv_ID)) in
        ret (acc ++ [(server, load)])
      else ret acc) servers [] in
  match sort_by candidate_le candidates with
  | [] => throw ErrNoRows
  | (server, _) :: _ => ret server
  end.

Definition ensureProjectVolumeServer (vol : ProjectVolume) : M ProjectVolume :=
  match vol.(vol_ServerID) with
  | Some _ =>
      let! r := attempt (query (ServerFindByID vol.(vol_ServerID))) in
      match r with
      | inl e =>
          markProjectVolumeUnavailable vol.(vol_ProjectID)
            ("pinned server lookup failed: " +:+ error_Error e)
      | inr srv =>
          if negb (String.eqb srv.(srv_Status) "active") then
            markProjectVolumeUnavailable vol.(vol_ProjectID)
              (projectVolumeServerStatusMessage srv.(srv_ID) srv.(srv_Status))
          else
            let! ok := serverSupportsCloudHypervisor srv.(srv_ID) in
            if negb ok then
              markProjectVolumeUnavailable vol.(vol_ProjectID)
                ("pinned server " +:+ uuid_String (FromPgtype srv.(srv_ID)) +:+
                 " is not a cloud-hypervisor worker")
            else if String.eqb vol.(vol_Status) "unavailable" && is_null vol.(vol_AttachedVmID) then
              let! u := attempt (exec (ProjectVolumeUpdateStatus vol.(vol_ProjectID) "available" "")) in
              match u with
              | inr updated => do! publishProjectVolumeEvents vol.(vol_ProjectID) ; ret updated
              | inl _ => ret vol
              end
            else ret vol
      end
  | None =>
      let! r := attempt findLeastLoadedCloudHypervisorServer in
      match r with
      | inl _ =>
          markProjectVolumeUnavailable vol.(vol_ProjectID) "no active cloud-hypervisor worker is available"
      | inr srv =>
          do! exec (ProjectVolumeAssignServer vol.(vol_ProjectID) srv.(srv_ID)) ;
          do! publishProjectVolumeEvents vol.(vol_ProjectID) ;
          let! updated := exec (ProjectVolumeUpdateStatus vol.(vol_ProjectID) "available" "") in
          do! publishProjectVolumeEvents vol.(vol_ProjectID) ;
          ret updated
      end
  end.

Definition detachProjectVolumeIfAttached (projectID vmID : pgUUID) (status lastError : string) : M unit :=
  match projectID, vmID with
  | Some _, Some _ =>
      let! r := attempt (query (ProjectVolumeFindByProjectID projectID)) in
      match r with
      | inl e => if is_no_rows e then ret tt else throw (ErrWrap "find project volume" e)
      | inr vol =>
          if is_null vol.(vol_AttachedVmID) || bool_decide (vol.(vol_AttachedVmID) <> vmID) then ret tt
          else
            do! wrap "detach volume" (exec (ProjectVolumeDetachVM projectID status lastError)) ;
            publishProjectVolumeEvents projectID
      end
  | _, _ => ret tt
  end.

Definition detachProjectVolumeForInstance (inst : DeploymentInstance) (status lastError : string) : M unit :=
  match inst.(inst_VmID) with
  | None => ret tt
  | Some _ =>
      let! dep := wrap "fetch deployment for volume detach" (query (DeploymentFirstByID inst.(inst_DeploymentID))) in
      detachProjectVolumeIfAttached dep.(dep_ProjectID) inst.(inst_VmID) status lastError
  end.

(** The answers [(false, nil)], [(false, err)] and [(true, err)]. *)
Definition markProjectVolumeUnavailableForInstance (inst : DeploymentInstance) (serverStatus : string) : M (bool * option error) :=
  match inst.(inst_ServerID) with
  | None => ret (false, None)
  | Some _ =>
      let! rd := attempt (query (DeploymentFirstByID inst.(inst_DeploymentID))) in
      match rd with
      | inl e => ret (false, Some e)
      | inr dep =>
          let! rv := attempt (query (ProjectVolumeFindByProjectID dep.(dep_ProjectID))) in
          match rv with
          | inl e => ret (false, if is_no_rows e then None else Some e)
          | inr vol =>
              if is_null vol.(vol_ServerID) || bool_decide (vol.(vol_ServerID) <> inst.(inst_ServerID))
              then ret (false, None)
              else
                let! r := attempt (markProjectVolumeUnavailable (A := unit) dep.(dep_ProjectID)
                            (projectVolumeServerStatusMessage inst.(inst_ServerID) serverStatus)) in
                ret (true, match r with inl e => Some e | inr _ => None end)
          end
      end
  end.

End volumes.
