(* ===== verification/Instances.v ===== *)
(** * Instance reconciliation

    Health probes (internal/deploy/deploy_health.go), VM metadata
    (runtime_address.go, migration_metadata.go), the life of one deployment
    instance (deploy_instance.go): server assignment, resume, restart budget,
    start, suspension into the warm pool, deletion. *)

From S2P Require Import Prelude NetAddr Text Models Runtime Effects Queries Lifecycle Volumes.

Definition vm_port (vm : Vm) : Z := match vm.(vm_Port) with Some p => p | None => 3000 end.

(** [err.Error()] of [parseRuntimeAddress]. *)
Definition addr_error_message (e : addr_error) : string :=
  match e with
  | empty_runtime_address => "empty runtime address"
  | parse_runtime_url => "parse runtime url"
  | split_host_port_error hp => "split host/port " +:+ hp
  | parse_host_ip h => "parse host ip " +:+ h
  | parse_port p => "parse port " +:+ p
  | port_out_of_range p => "port out of range: " +:+ pretty p
  end.

Section instances.
Context {env : Env} {S : Sorter} (d : Deployer).

(** ** Health probes *)

Definition probe (url : string) : M http_reply := extern (EvProbe url) (fun n => env_http n url).

(** The attempts of [healthCheck]; [left] is the number left after this one. *)
Fixpoint healthCheck_attempts (left : nat) (url : string) : M bool :=
  let! r := probe url in
  match r with
  | HttpStatus code => ret ((200 <=? code) && (code <? 400))
  | HttpError retryable =>
      match left with
      | O => ret false
      | Datatypes.S left' =>
          if retryable then do! sleep healthCheckRetryDelay ; healthCheck_attempts left' url
          else ret false
      end
  end.

Definition health_url (addr : string) (port : Z) : string :=
  let url := if Contains addr ":" then addr else addr +:+ ":" +:+ pretty port in
  if HasPrefix url "http" then url else "http://" +:+ url.

Definition healthCheck (addr : string) (port : Z) : M bool :=
  healthCheck_attempts (healthCheckRetryAttempts - 1) (health_url addr port).

Definition on_this_server (id : pgUUID) : bool :=
  bool_decide (is_Some id) && bool_decide (FromPgtype id = d.(d_serverID)).

Definition healthCheckVMFromHost (vm : Vm) (port : Z) : M bool :=
  if on_this_server vm.(vm_ServerID) then healthCheck "127.0.0.1" port
  else healthCheck (Addr_String vm.(vm_IpAddress)) port.

Definition healthCheckLocalForwarded (runtimeURL : string) : M bool :=
  match parseRuntimeAddress runtimeURL with
  | inl _ => ret false
  | inr (_, port) => healthCheck "127.0.0.1" port
  end.

(** Each round sleeps for the poll interval, so the deadline bounds the rounds. *)
Definition health_rounds (maxWait : Duration) : nat :=
  Datatypes.S (Z.to_nat (maxWait / healthCheckPollInterval) + 1).

Definition waitHealthCheckLocalForwarded (runtimeURL : string) (maxWait : Duration) : M bool :=
  let! t := now in
  let deadline := t + maxWait in
  loop (health_rounds maxWait) (fun _ : unit =>
    let! t := now in
    if Before t deadline then
      let! ok := healthCheckLocalForwarded runtimeURL in
      if ok then ret (inr true)
      else do! sleep healthCheckPollInterval ; ret (inl tt)
    else ret (inr false)) tt.

Definition localRuntimeHealthy (inst : DeploymentInstance) : M bool :=
  match d.(d_rt) with
  | None => ret true
  | Some rt =>
      if on_this_server inst.(inst_ServerID) then
        extern (EvHealthy (FromPgtype inst.(inst_ID))) (fun n => rt.(rt_Healthy) n (FromPgtype inst.(inst_ID)))
      else ret true
  end.

(** [isRunningInstanceHealthy]: reads the runtime's name even when it is nil. *)
Definition isRunningInstanceHealthy (inst : DeploymentInstance) : M bool :=
  let! r := attempt (query (VMFirstByID inst.(inst_VmID))) in
  match r with
  | inl _ => ret false
  | inr vm =>
      let! hostOK := (match d.(d_rt) with
                      | Some rt => if requiresExternalHealthCheck rt.(rt_Name)
                                   then healthCheckVMFromHost vm (vm_port vm) else ret true
                      | None => ret true
                      end) in
      deref d.(d_rt) (fun rt =>
        let! local := localRuntimeHealthy inst in
        ret (shouldTreatRunningInstanceAsHealthy inst vm rt.(rt_Name) hostOK d.(d_serverID) local))
  end.

(** ** VM metadata *)

Definition fillLiveMigrationMetadata (rt : Runtime) (instanceID : UUID) (meta : instanceVMMetadata) : M instanceVMMetadata :=
  if negb (rt.(rt_Supports) CapabilityLiveMigration) then ret meta
  else
    let! r := extern (EvMigrationMetadata instanceID) (fun n => rt.(rt_MigrationMetadata) n instanceID) in
    match r with
    | inl _ => ret meta
    | inr info =>
        ret (if String.eqb meta.(md_SharedRootfsRef) ""
             then mkVMMetadata meta.(md_Runtime) meta.(md_SnapshotRef) info.(mm_SharedRootfsRef) meta.(md_CloneSourceVMID)
             else meta)
    end.

Definition persistInstanceVMMetadata (instanceID imageID : pgUUID) (serverID : UUID)
    (vmStatus instanceStatus runtimeAddr : string) (vcpus memoryMB : Z) (envVars : list string)
    (meta : instanceVMMetadata) : M UUID :=
  let! inst := wrap "fetch deployment instance" (query (DeploymentInstanceFirstByID instanceID)) in
  match inst.(inst_VmID) with
  | Some vm => ret vm
  | None =>
      match imageID with
      | None => throw (ErrMsg "deployment image id is missing")
      | Some _ =>
          match parseRuntimeAddress runtimeAddr with
          | inl e => throw (ErrMsg (addr_error_message e))
          | inr (ip, port) =>
              let! vmID := new_uuid in
              do! wrap "create vm row" (exec (VMCreate
                    (mkVMCreate (ToPgtype vmID) (ToPgtype serverID) imageID vmStatus meta.(md_Runtime)
                       (if String.eqb (TrimSpace meta.(md_SnapshotRef)) "" then None else Some meta.(md_SnapshotRef))
                       meta.(md_SharedRootfsRef) meta.(md_CloneSourceVMID) (wrap32 vcpus) (wrap32 memoryMB)
                       ip (Some (wrap32 port)) (Some (marshal_strings envVars))))) ;
              let! r := attempt (exec (DeploymentInstanceAttachVM instanceID (ToPgtype vmID) instanceStatus)) in
              match r with
              | inl e =>
                  do! ignore (exec (VMSoftDelete (ToPgtype vmID))) ;
                  throw (ErrWrap "attach vm to deployment instance" e)
              | inr _ => ret vmID
              end
          end
      end
  end.

(** ** Removing an instance *)

Definition rt_stop (rt : Runtime) (id : UUID) : M unit :=
  let! r := extern (EvStop id) (fun n => rt.(rt_Stop) n id) in of_error r.

(** [if d.rt != nil { _ = d.rt.Stop(id) }]. *)
Definition stop_if_runtime (id : UUID) : M unit :=
  match d.(d_rt) with Some rt => ignore (rt_stop rt id) | None => ret tt end.

Definition deleteInstancePermanently (inst : DeploymentInstance) : M unit :=
  let iid := FromPgtype inst.(inst_ID) in
  do! (if bool_decide (iid = uuid_Nil) then ret tt else stop_if_runtime iid) ;
  do! (match inst.(inst_VmID) with
       | Some _ =>
           do! ignore (detachProjectVolumeForInstance d inst "available" "") ;
           ignore (exec (VMSoftDelete inst.(inst_VmID)))
       | None => ret tt
       end) ;
  ignore (exec (DeploymentInstanceSoftDelete inst.(inst_ID))).

Definition cleanupDeploymentAllInstances (deploymentID : pgUUID) : M unit :=
  let! r := attempt (query (DeploymentInstanceFindByDeploymentID deploymentID)) in
  match r with
  | inl _ => ret tt
  | inr instList => for_each instList deleteInstancePermanently
  end.

(** The suspension branch of [cleanupInstance]: [true] when the instance was
    handled (suspended, or deleted after a failed mark). *)
Definition suspend_instance (rt : Runtime) (inst : DeploymentInstance) (vm : Vm) : M bool :=
  let iid := FromPgtype inst.(inst_ID) in
  let abandon := do! deleteInstancePermanently inst ; ret true in
  let! r := attempt (exec (DeploymentInstanceUpdateRole inst.(inst_ID) deploymentInstanceRoleWarmPool)) in
  match r with
  | inl _ => abandon
  | inr _ =>
      let! r := attempt (exec (DeploymentInstanceUpdateStatus inst.(inst_ID) "stopped")) in
      match r with
      | inl _ => abandon
      | inr _ =>
          let! r := attempt (exec (VMUpdateLifecycleMetadata inst.(inst_VmID) vmStatusSuspending
                       vm.(vm_SnapshotRef) vm.(vm_SharedRootfsRef) vm.(vm_CloneSourceVmID))) in
          match r with
          | inl _ => abandon
          | inr _ =>
              let! s := extern (EvSuspend iid) (fun n => rt.(rt_Suspend) n iid) in
              match s with
              | Some _ => ret false
              | None =>
                  let! snapshotRef :=
                    (if rt.(rt_Supports) CapabilityWarmClone then
                       let! t := extern (EvCreateTemplate iid) (fun n => rt.(rt_CreateTemplate) n iid) in
                       ret (match t with
                            | inr ref => if String.eqb (TrimSpace ref) "" then vm.(vm_SnapshotRef) else Some ref
                            | inl _ => vm.(vm_SnapshotRef)
                            end)
                     else ret vm.(vm_SnapshotRef)) in
                  let! r := attempt (exec (VMUpdateLifecycleMetadata inst.(inst_VmID) vmStatusSuspended
                               snapshotRef vm.(vm_SharedRootfsRef) vm.(vm_CloneSourceVmID))) in
                  ret (match r with inr _ => true | inl _ => false end)
              end
          end
      end
  end.

Definition cleanupInstance (inst : DeploymentInstance) : M unit :=
  let! handled :=
    (match inst.(inst_VmID), d.(d_rt) with
     | Some _, Some rt =>
         if rt.(rt_Supports) CapabilitySuspendResume && on_this_server inst.(inst_ServerID) then
           let! r := attempt (query (VMFirstByID inst.(inst_VmID))) in
           match r with
           | inr vm =>
               if is_null vm.(vm_DeletedAt) && String.eqb vm.(vm_Status) "running"
               then suspend_instance rt inst vm else ret false
           | inl _ => ret false
           end
         else ret false
     | _, _ => ret false
     end) in
  if (handled : bool) then ret tt else deleteInstancePermanently inst.

Definition drainOldDeployments (current : Deployment) : M unit :=
  let! r := attempt (query (DeploymentFindRunningAndOlder current.(dep_ProjectID) current.(dep_ID))) in
  match r with
  | inl _ => ret tt
  | inr old =>
      for_each old (fun o =>
        do! cleanupDeploymentAllInstances o.(dep_ID) ;
        do! (match o.(dep_VmID) with
             | Some _ => ignore (exec (VMSoftDelete o.(dep_VmID)))
             | None => ret tt
             end) ;
        ignore (exec (DeploymentMarkStopped o.(dep_ID))))
  end.

(** internal/deploy/project_volumes.go; [true]: some deployment was stopped. *)
Definition stopOldDeploymentsForVolume (current : Deployment) : M bool :=
  let! old := query (DeploymentFindRunningAndOlder current.(dep_ProjectID) current.(dep_ID)) in
  match old with
  | [] => ret false
  | _ =>
      do! for_each old (fun dep =>
            let! instList := query (DeploymentInstanceFindByDeploymentID dep.(dep_ID)) in
            do! for_each instList deleteInstancePermanently ;
            do! (match dep.(dep_VmID) with
                 | Some _ => ignore (exec (VMSoftDelete dep.(dep_VmID)))
                 | None => ret tt
                 end) ;
            exec (DeploymentMarkStopped dep.(dep_ID))) ;
      ret true
  end.

End instances.
