(* ===== verification/InstanceReconcile.v ===== *)
(** * Reconciling one instance

    [reconcileOneInstance] of internal/deploy/deploy_instance.go and the steps
    it takes: server assignment, resume, restart budget, reset, start. *)

From S2P Require Import Prelude NetAddr Text Models Runtime Effects Queries Lifecycle Volumes Instances.

Section one_instance.
Context {env : Env} {S : Sorter} (d : Deployer).

(** The re-fetch after a reset. *)
Definition reset_for_retry (inst : DeploymentInstance) (reset_ctx fetch_ctx : string) : M DeploymentInstance :=
  do! wrap reset_ctx (exec (DeploymentInstanceResetForRetry inst.(inst_ID))) ;
  wrap fetch_ctx (query (DeploymentInstanceFirstByID inst.(inst_ID))).

(** The part of [reconcileInstanceServerAssignment] for a draining server. *)
Definition leave_draining_server (inst : DeploymentInstance) : M DeploymentInstance :=
  let! r := attempt (query (ServerFindByID inst.(inst_ServerID))) in
  match r with
  | inl _ => ret inst
  | inr srv =>
      if negb (String.eqb srv.(srv_Status) "draining") then ret inst
      else if isWarmPoolInstance inst then
        do! deleteInstancePermanently d inst ; ret inst
      else
        let! suspended :=
          (match inst.(inst_VmID) with
           | Some _ =>
               let! r := attempt (query (VMFirstByID inst.(inst_VmID))) in
               ret (match r with
                    | inr vm => String.eqb vm.(vm_Status) vmStatusSuspended
                    | inl _ => false
                    end)
           | None => ret false
           end) in
        if (suspended : bool) then do! deleteInstancePermanently d inst ; ret inst
        else if negb (String.eqb inst.(inst_Status) "running") || is_null inst.(inst_VmID) then
          reset_for_retry inst "release instance from draining server"
            "re-fetch instance after draining server release"
        else ret inst
  end.

Definition reconcileInstanceServerAssignment (dep : Deployment) (inst : DeploymentInstance)
    (persistentVolume : option PersistentVolumeMount) : M DeploymentInstance :=
  match inst.(inst_ServerID) with
  | None => ret inst
  | Some _ =>
      match persistentVolume with
      | None => leave_draining_server inst
      | Some _ =>
          let! v := wrap "load project volume" (projectVolumeForDeployment dep) in
          match v with
          | Some (vol, _) =>
              if not_null vol.(vol_ServerID) && bool_decide (inst.(inst_ServerID) <> vol.(vol_ServerID))
              then reset_for_retry inst "reset instance for pinned volume server"
                     "re-fetch instance after volume server reset"
              else leave_draining_server inst
          | None => leave_draining_server inst
          end
      end
  end.

(** The error branch of [d.rt.Resume] for a vanished instance. *)
Definition reset_suspended (dep : Deployment) (inst : DeploymentInstance)
    (persistentVolume : option PersistentVolumeMount) : M bool :=
  do! (match inst.(inst_VmID) with
       | Some _ =>
           do! (match persistentVolume with
                | Some _ => ignore (detachProjectVolumeIfAttached d dep.(dep_ProjectID) inst.(inst_VmID) "available" "")
                | None => ret tt
                end) ;
           ignore (exec (VMSoftDelete inst.(inst_VmID)))
       | None => ret tt
       end) ;
  do! wrap "reset stale suspended instance" (exec (DeploymentInstancePrepareRetry inst.(inst_ID))) ;
  ret true.

(** [true]: the instance was handled. *)
Definition tryResumeFromSuspended (dep : Deployment) (inst0 : DeploymentInstance)
    (persistentVolume : option PersistentVolumeMount) : M bool :=
  let! r := attempt (query (VMFirstByID inst0.(inst_VmID))) in
  match r with
  | inl _ => ret false
  | inr vm =>
      if negb (String.eqb vm.(vm_Status) vmStatusSuspended) || negb (suspendedResumeEligible inst0) then ret false
      else if negb (bool_decide (FromPgtype inst0.(inst_ServerID) = d.(d_serverID))) then ret true
      else
        let! inst := (if isWarmPoolInstance inst0
                      then wrap "promote warm pool instance"
                             (exec (DeploymentInstanceUpdateRole inst0.(inst_ID) deploymentInstanceRoleActive))
                      else ret inst0) in
        do! wrap "mark resuming" (exec (DeploymentInstanceUpdateStatus inst.(inst_ID) "starting")) ;
        deref d.(d_rt) (fun rt =>
          let iid := FromPgtype inst.(inst_ID) in
          let! r := extern (EvResume iid) (fun n => rt.(rt_Resume) n iid) in
          match r with
          | inl e =>
              if is_not_running e then reset_suspended dep inst persistentVolume
              else throw (ErrWrap "resume instance" e)
          | inr ip =>
              do! (match parseRuntimeAddress ip with
                   | inr (addr, port) =>
                       do! wrap "update resumed vm runtime address"
                         (exec (VMUpdateRuntimeAddress inst.(inst_VmID) addr (Some (wrap32 port)))) ;
                       ret tt
                   | inl _ => ret tt
                   end) ;
              let! healthy := (if requiresExternalHealthCheck rt.(rt_Name)
                               then waitHealthCheckLocalForwarded ip healthCheckTimeout else ret true) in
              if negb healthy then throw (ErrMsg "health check failed after resume")
              else
                do! wrap "mark resumed vm running"
                  (exec (VMUpdateLifecycleMetadata inst.(inst_VmID) "running" vm.(vm_SnapshotRef)
                           vm.(vm_SharedRootfsRef) vm.(vm_CloneSourceVmID))) ;
                do! wrap "mark resumed instance running"
                  (exec (DeploymentInstanceUpdateStatus inst.(inst_ID) "running")) ;
                ret true
          end)
  end.

Definition resetStaleInstance (dep : Deployment) (inst : DeploymentInstance)
    (persistentVolume : option PersistentVolumeMount) : M DeploymentInstance :=
  if (is_null inst.(inst_VmID) || isWarmPoolInstance inst) && negb (String.eqb inst.(inst_Status) "failed")
  then ret inst
  else
    do! stop_if_runtime d (FromPgtype inst.(inst_ID)) ;
    do! (match inst.(inst_VmID) with
         | Some _ =>
             do! (match persistentVolume with
                  | Some _ => ignore (detachProjectVolumeIfAttached d dep.(dep_ProjectID) inst.(inst_VmID) "available" "")
                  | None => ret tt
                  end) ;
             ignore (exec (VMSoftDelete inst.(inst_VmID)))
         | None => ret tt
         end) ;
    do! wrap "prepare retry" (exec (DeploymentInstancePrepareRetry inst.(inst_ID))) ;
    wrap "re-fetch instance after prepare retry" (query (DeploymentInstanceFirstByID inst.(inst_ID))).

Definition assignServerIfNeeded (dep : Deployment) (inst : DeploymentInstance)
    (persistentVolume : option PersistentVolumeMount) : M DeploymentInstance :=
  match inst.(inst_ServerID) with
  | Some _ => ret inst
  | None =>
      let! srv :=
        (match persistentVolume with
         | Some _ =>
             let! v := wrap "load project volume" (projectVolumeForDeployment dep) in
             match v with
             | Some (vol, _) =>
                 match vol.(vol_ServerID) with
                 | Some _ => wrap "pick server" (query (ServerFindByID vol.(vol_ServerID)))
                 | None => throw (ErrMsg "project volume server is not assigned")
                 end
             | None => throw (ErrMsg "project volume server is not assigned")
             end
         | None => wrap "pick server" (query ServerFindLeastLoaded)
         end) in
      wrap "assign server" (exec (DeploymentInstanceUpdateServer inst.(inst_ID) srv.(srv_ID)))
  end.

Definition mark_failed (inst : DeploymentInstance) : M unit :=
  ignore (exec (DeploymentInstanceUpdateStatus inst.(inst_ID) "failed")).

(** A cold start, with its metadata. *)
Definition cold_start (rt : Runtime) (startInst : Instance) (inst : DeploymentInstance) (ctx : string) : M (string * instanceVMMetadata) :=
  let! r := extern (EvStart startInst) (fun n => rt.(rt_Start) n startInst) in
  match r with
  | inl e => do! mark_failed inst ; throw (ErrWrap ctx e)
  | inr ip =>
      let! meta := fillLiveMigrationMetadata rt startInst.(ri_ID) (mkVMMetadata rt.(rt_Name) "" "" None) in
      ret (ip, meta)
  end.

Definition launchInstance (rt : Runtime) (startInst : Instance) (templateRef : string)
    (templateSourceVMID : pgUUID) (inst : DeploymentInstance) (mode : launchMode) : M (string * instanceVMMetadata) :=
  if match mode with launchModeClone => rt.(rt_Supports) CapabilityWarmClone | _ => false end then
    let source := FromPgtype templateSourceVMID in
    let! r := extern (EvStartClone startInst templateRef source)
                (fun n => rt.(rt_StartClone) n startInst templateRef source) in
    match r with
    | inl e =>
        if is_not_running e then cold_start rt startInst inst "start clone fallback cold start"
        else do! mark_failed inst ; throw (ErrWrap "start clone" e)
    | inr (ip, m) =>
        ret (ip, mkVMMetadata rt.(rt_Name) m.(sm_SnapshotRef) m.(sm_SharedRootfsRef) (ToPgtype m.(sm_CloneSourceVMID)))
    end
  else cold_start rt startInst inst "start instance".

(** The compensation of a failed start: stop, drop the VM row, mark failed. *)
Definition undo_start (rt : Runtime) (inst : DeploymentInstance) (vm : pgUUID) : M unit :=
  do! ignore (rt_stop rt (FromPgtype inst.(inst_ID))) ;
  do! ignore (exec (VMSoftDelete vm)) ;
  mark_failed inst.

(** [if err != nil { compensate; return fmt.Errorf }]. *)
Definition or_undo {A} (rt : Runtime) (inst : DeploymentInstance) (vm : pgUUID) (ctx : string) (m : M A) : M A :=
  let! r := attempt m in
  match r with
  | inl e => do! undo_start rt inst vm ; throw (ErrWrap ctx e)
  | inr a => ret a
  end.

Definition startNewInstance (dep : Deployment) (inst : DeploymentInstance) (imageRef : string)
    (envVars : list string) (templateRef : string) (templateSourceVMID : pgUUID)
    (persistentVolume : option PersistentVolumeMount) : M unit :=
  let instID := FromPgtype inst.(inst_ID) in
  let startInst := mkInstance instID imageRef 1 512 3000 envVars persistentVolume in
  match selectLaunchMode inst "" templateRef with
  | None =>
      if isWarmPoolInstance inst && negb (String.eqb inst.(inst_Status) "stopped") then
        do! wrap "normalize warm pool status" (exec (DeploymentInstanceUpdateStatus inst.(inst_ID) "stopped")) ;
        ret tt
      else ret tt
  | Some mode =>
      do! wrap "mark starting" (exec (DeploymentInstanceUpdateStatus inst.(inst_ID) "starting")) ;
      deref d.(d_rt) (fun rt =>
        let! '(ip, meta) := launchInstance rt startInst templateRef templateSourceVMID inst mode in
        let! p := attempt (persistInstanceVMMetadata inst.(inst_ID) dep.(dep_ImageID)
                             (FromPgtype inst.(inst_ServerID)) "starting" "starting" ip 1 512 envVars meta) in
        match p with
        | inl e =>
            do! ignore (rt_stop rt instID) ;
            do! mark_failed inst ;
            throw (ErrWrap "persist vm metadata" e)
        | inr vmID =>
            let vm := ToPgtype vmID in
            let! healthy := (if requiresExternalHealthCheck rt.(rt_Name)
                             then waitHealthCheckLocalForwarded ip healthCheckTimeout else ret true) in
            if negb healthy then do! undo_start rt inst vm ; throw (ErrMsg "health check failed")
            else
              do! or_undo rt inst vm "mark vm running" (exec (VMUpdateStatus vm "running")) ;
              do! or_undo rt inst vm "mark deployment instance running"
                    (exec (DeploymentInstanceUpdateStatus inst.(inst_ID) "running")) ;
              match persistentVolume with
              | Some _ =>
                  do! or_undo rt inst vm "attach project volume to vm"
                        (exec (ProjectVolumeAttachVM dep.(dep_ProjectID) inst.(inst_ServerID) vm)) ;
                  publishProjectVolumeEvents d dep.(dep_ProjectID)
              | None => ret tt
              end
        end)
  end.

(** The rest of [reconcileOneInstance] once the server assignment is settled
    and the instance is neither resumed nor healthy. *)
Definition restart_instance (dep : Deployment) (inst : DeploymentInstance) (imageRef : string)
    (envVars : list string) (templateRef : string) (templateSourceVMID : pgUUID)
    (persistentVolume : option PersistentVolumeMount) : M unit :=
  let! t := now in
  if restartBudgetExceeded inst false t then
    ignore (exec (DeploymentCircuitBreak dep.(dep_ID)))
  else
    let! inst := resetStaleInstance dep inst persistentVolume in
    let! inst := assignServerIfNeeded dep inst persistentVolume in
    if negb (bool_decide (FromPgtype inst.(inst_ServerID) = d.(d_serverID))) then ret tt
    else startNewInstance dep inst imageRef envVars templateRef templateSourceVMID persistentVolume.

Definition reconcileOneInstance (dep : Deployment) (inst : DeploymentInstance) (imageRef : string)
    (envVars : list string) (templateRef : string) (templateSourceVMID : pgUUID)
    (persistentVolume : option PersistentVolumeMount) : M unit :=
  if String.eqb inst.(inst_Role) deploymentInstanceRoleTemplate then ret tt
  else if dep.(dep_CircuitBroken) then ret tt
  else
    let! inst := reconcileInstanceServerAssignment dep inst persistentVolume in
    let! done := (match inst.(inst_VmID) with
                  | Some _ => tryResumeFromSuspended dep inst persistentVolume
                  | None => ret false
                  end) in
    if (done : bool) then ret tt
    else
      let! healthyRunning :=
        (if String.eqb inst.(inst_Status) "running" && not_null inst.(inst_VmID)
         then isRunningInstanceHealthy d inst else ret false) in
      if (healthyRunning : bool) then ret tt
      else restart_instance dep inst imageRef envVars templateRef templateSourceVMID persistentVolume.

End one_instance.
