(* ===== verification/Scaling.v ===== *)
(** * Scaling and evacuation

    internal/deploy/deploy_scaling.go and deploy_evacuation.go: converging the
    number of instances, the warm pool, and leaving draining servers. *)

From S2P Require Import Prelude NetAddr Text Models Runtime Effects Queries Lifecycle Volumes Instances.

(** [a.CreatedAt.Time], the zero time when it is not set. *)
Definition created_time (inst : DeploymentInstance) : Time := default 0 inst.(inst_CreatedAt).

(** The comparison that puts the newest instance first. *)
Definition newest_first (a b : DeploymentInstance) : bool := created_time b <=? created_time a.

(** [statusMap[pguuid.FromPgtype(inst.ServerID)] == "draining"] for an instance
    with a server. *)
Definition on_draining (statusMap : gmap UUID string) (inst : DeploymentInstance) : bool :=
  match inst.(inst_ServerID) with
  | Some sid => bool_decide (statusMap !! sid = Some "draining")
  | None => false
  end.

Definition countInstancesOnDrainingServers (instList : list DeploymentInstance) (statusMap : gmap UUID string) : Z :=
  Z.of_nat (length (List.filter (fun inst => isActiveInstance inst && on_draining statusMap inst) instList)).

Section scaling.
Context {env : Env} {S : Sorter} (d : Deployer).

(** ** Repair *)

Definition repair_instance (inst : DeploymentInstance) : M unit :=
  match inst.(inst_ServerID) with
  | None => ret tt
  | Some _ =>
      let! r := attempt (query (ServerFindByID inst.(inst_ServerID))) in
      match r with
      | inl _ => ret tt
      | inr srv =>
          if negb (in_list ["dead"; "drained"] srv.(srv_Status)) then ret tt
          else
            do! stop_if_runtime d (FromPgtype inst.(inst_ID)) ;
            do! (match inst.(inst_VmID) with
                 | Some _ =>
                     let! '(handledUnavailable, volumeErr) :=
                       markProjectVolumeUnavailableForInstance d inst srv.(srv_Status) in
                     do! (match volumeErr with
                          | Some _ => ret tt
                          | None => if (handledUnavailable : bool) then ret tt
                                    else ignore (detachProjectVolumeForInstance d inst "available" "")
                          end) ;
                     ignore (exec (VMSoftDelete inst.(inst_VmID)))
                 | None => ret tt
                 end) ;
            ignore (exec (DeploymentInstancePrepareRetry inst.(inst_ID)))
      end
  end.

Definition repairInstancesOnBadServers (instList : list DeploymentInstance) : M unit :=
  for_each instList repair_instance.

(** ** Warm pool *)

Definition retainedWarmPoolBudgetBase : Z :=
  match d.(d_rt) with
  | Some rt => if rt.(rt_Supports) CapabilitySuspendResume then 1 else 0
  | None => 0
  end.

Definition retainedWarmPoolBudget (deploymentID : pgUUID) : M Z :=
  let base := retainedWarmPoolBudgetBase in
  if (base =? 0) || is_null deploymentID then ret base
  else
    let! rd := attempt (query (DeploymentFirstByID deploymentID)) in
    match rd with
    | inl _ => ret base
    | inr dep =>
        let! rp := attempt (query (ProjectFirstByID dep.(dep_ProjectID))) in
        match rp with
        | inl _ => ret base
        | inr proj =>
            match proj.(proj_LastRequestAt) with
            | Some last =>
                let! t := now in
                ret (if warmPoolExtraRetentionEligible last t then base + 1 else base)
            | None => ret base
            end
        end
    end.

Definition pruneWarmPoolInstances (instList : list DeploymentInstance) (keep : Z) : M unit :=
  let warmPool := List.filter isWarmPoolInstance instList in
  if Z.of_nat (length warmPool) <=? keep then ret tt
  else for_each (drop (Z.to_nat keep) (sort_by newest_first warmPool)) (deleteInstancePermanently d).

(** The rows written by the promotion, by instance. *)
Definition promote_candidates (candidates : list pgUUID) : M (list (pgUUID * DeploymentInstance)) :=
  fold_each (fun acc instID =>
    let! inst := wrap "promote warm pool instance"
                   (exec (DeploymentInstanceUpdateRole instID deploymentInstanceRoleActive)) in
    ret (acc ++ [(instID, inst)])) candidates [].

Definition refresh (updated : list (pgUUID * DeploymentInstance)) (inst : DeploymentInstance) : DeploymentInstance :=
  match List.find (fun '(id, _) => bool_decide (id = inst.(inst_ID))) updated with
  | Some (_, next) => next
  | None => inst
  end.

Definition activateWarmPoolInstances (instList : list DeploymentInstance) (desired : Z) : M (list DeploymentInstance) :=
  match warmPoolPromotionCandidates instList desired with
  | [] => ret instList
  | candidates => let! updated := promote_candidates candidates in ret (refresh updated <$> instList)
  end.

(** ** Scaling down to a count *)

(** The removal loop of [scaleDownInstances]. *)
Fixpoint remove_excess (l : list DeploymentInstance) (excess : Z) : M unit :=
  match l with
  | [] => ret tt
  | inst :: rest =>
      if excess <=? 0 then ret tt
      else if isActiveInstance inst then do! cleanupInstance d inst ; remove_excess rest (excess - 1)
      else remove_excess rest excess
  end.

Definition scaleDownInstances (instList : list DeploymentInstance) (desired : Z) : M unit :=
  if activeInstanceCount instList <=? desired then ret tt
  else
    let sorted := sort_by newest_first instList in
    do! remove_excess sorted (activeInstanceCount sorted - desired) ;
    match instList with
    | [] => ret tt
    | first :: _ =>
        let! refreshed := wrap "list instances after scale down"
                            (query (DeploymentInstanceFindByDeploymentID first.(inst_DeploymentID))) in
        let! keep := retainedWarmPoolBudget first.(inst_DeploymentID) in
        pruneWarmPoolInstances refreshed keep
    end.

(** ** Scaling up *)

(** The creation loop: every round adds a row or fails, so [desired] rounds
    and the last test are enough. *)
Definition create_missing (deploymentID : pgUUID) (desired : Z) (after_ctx : string) (first : list DeploymentInstance) : M unit :=
  loop (Datatypes.S (Z.to_nat desired)) (fun rows =>
    if countProvisionableInstances rows <? desired then
      let! id := new_uuid in
      do! wrap "create deployment instance" (exec (DeploymentInstanceCreate (ToPgtype id) deploymentID)) ;
      let! rows' := wrap after_ctx (query (DeploymentInstanceFindByDeploymentID deploymentID)) in
      ret (inl rows')
    else ret (inr tt)) first.

Definition ensureInstanceCountUp (deploymentID : pgUUID) (desired : Z) : M unit :=
  if d.(d_pool) then
    transaction "begin tx" throw (
      do! wrap "advisory lock" (query (AdvisoryLock ("kindling:deploy:" +:+ uuid_String (FromPgtype deploymentID)))) ;
      let! rows := wrap "list instances in tx" (query (DeploymentInstanceFindByDeploymentID deploymentID)) in
      create_missing deploymentID desired "list instances after create in tx" rows)
  else
    let! rows := wrap "list instances" (query (DeploymentInstanceFindByDeploymentID deploymentID)) in
    create_missing deploymentID desired "list instances after create" rows.

(** ** Readiness *)

(** The tests [countInstancesReady] makes of one instance. *)
Definition instance_ready (inst : DeploymentInstance) : M bool :=
  if negb (isActiveInstance inst) then ret false
  else if negb (String.eqb inst.(inst_Status) "running") || is_null inst.(inst_VmID) then ret false
  else
    let! r := attempt (query (VMFirstByID inst.(inst_VmID))) in
    match r with
    | inl _ => ret false
    | inr vm =>
        if not_null vm.(vm_DeletedAt) || negb (String.eqb vm.(vm_Status) "running") then ret false
        else
          deref d.(d_rt) (fun rt =>
            let! hostOK := (if requiresExternalHealthCheck rt.(rt_Name)
                            then healthCheckVMFromHost d vm (vm_port vm) else ret true) in
            let! local := localRuntimeHealthy d inst in
            ret (shouldTreatRunningInstanceAsHealthy inst vm rt.(rt_Name) hostOK d.(d_serverID) local))
    end.

Definition countInstancesReady (instList : list DeploymentInstance) : M Z :=
  fold_each (fun n inst => let! ok := instance_ready inst in ret (if (ok : bool) then n + 1 else n)) instList 0.

(** ** Evacuation *)

Definition serverStatusByIDs (instList : list DeploymentInstance) : M (gmap UUID string) :=
  fold_each (fun m inst =>
    if negb (isActiveInstance inst) then ret m
    else
      match inst.(inst_ServerID) with
      | None => ret m
      | Some id =>
          match m !! id with
          | Some _ => ret m
          | None =>
              let! srv := wrap ("server " +:+ uuid_String id) (query (ServerFindByID inst.(inst_ServerID))) in
              ret (<[id := srv.(srv_Status)]> m)
          end
      end) instList ∅.

Definition ready_off_draining (statusMap : gmap UUID string) (inst : DeploymentInstance) : M bool :=
  if negb (isActiveInstance inst) then ret false
  else if negb (String.eqb inst.(inst_Status) "running") || is_null inst.(inst_VmID) then ret false
  else
    let! r := attempt (query (VMFirstByID inst.(inst_VmID))) in
    match r with
    | inl _ => ret false
    | inr vm =>
        if not_null vm.(vm_DeletedAt) || negb (String.eqb vm.(vm_Status) "running") then ret false
        else
          let! ok := (match d.(d_rt) with
                      | Some rt => if requiresExternalHealthCheck rt.(rt_Name)
                                   then healthCheckVMFromHost d vm (vm_port vm) else ret true
                      | None => ret true
                      end) in
          ret (ok && negb (on_draining statusMap inst))
    end.

Definition countReadyOffDrainingServers (instList : list DeploymentInstance) (statusMap : gmap UUID string) : M Z :=
  fold_each (fun n inst => let! ok := ready_off_draining statusMap inst in ret (if (ok : bool) then n + 1 else n)) instList 0.

(** The instance [scaleDownExcess] removes next: the newest active one that is
    not on a draining server, otherwise the newest of all. *)
Definition pick_victim (statusMap : gmap UUID string) (sorted : list DeploymentInstance) : option DeploymentInstance :=
  match List.find (fun inst => isActiveInstance inst && negb (on_draining statusMap inst)) sorted with
  | Some inst => Some inst
  | None => head sorted
  end.

(** The loop of [scaleDownExcess]; [None] is the nil status map, reloaded at
    the start of the next round.  A round whose deletion fails silently repeats,
    so the number of rounds is not bounded by the list: [fuel] bounds it here. *)
Definition scale_down_loop (fuel : nat) (deploymentID : pgUUID) (target : Z)
    (start : list DeploymentInstance * option (gmap UUID string)) : M (list DeploymentInstance) :=
  loop fuel (fun '(list, status) =>
    if target <? activeInstanceCount list then
      let! statusMap := (match status with Some m => ret m | None => serverStatusByIDs list end) in
      match pick_victim statusMap (sort_by newest_first list) with
      | None => ret (inr list)
      | Some victim =>
          do! cleanupInstance d victim ;
          let! list' := query (DeploymentInstanceFindByDeploymentID deploymentID) in
          ret (inl (list', None))
      end
    else ret (inr list)) start.

Definition scaleDownExcess (fuel : nat) (deploymentID : pgUUID) (instList : list DeploymentInstance)
    (target : Z) (initStatus : gmap UUID string) : M (list DeploymentInstance) :=
  let! list := scale_down_loop fuel deploymentID target (instList, Some initStatus) in
  let! keep := retainedWarmPoolBudget deploymentID in
  do! pruneWarmPoolInstances list keep ;
  query (DeploymentInstanceFindByDeploymentID deploymentID).

Definition removeInstancesOnDrainingServers (depID : pgUUID) (instList : list DeploymentInstance)
    (statusMap : gmap UUID string) (desired : Z) : M (list DeploymentInstance) :=
  let! ready := countReadyOffDrainingServers instList statusMap in
  if ready <? desired then ret instList
  else
    let toRemove := List.filter (fun inst => isActiveInstance inst && on_draining statusMap inst) instList in
    match toRemove with
    | [] => ret instList
    | _ =>
        do! for_each toRemove (deleteInstancePermanently d) ;
        let! list := query (DeploymentInstanceFindByDeploymentID depID) in
        do! when d.(d_serverScheduler)
              (for_each (remove_dups (FromPgtype ∘ inst_ServerID <$> toRemove)) (fun sid =>
                 let! t := now in emit (EvSchedule SchedServers sid t))) ;
        ret list
    end.

(** ** Template source *)

Fixpoint templateSourceForDeployment (instList : list DeploymentInstance) (imageID : pgUUID) : M (string * pgUUID) :=
  match instList with
  | [] => ret ("", None)
  | inst :: rest =>
      match inst.(inst_VmID) with
      | None => templateSourceForDeployment rest imageID
      | Some _ =>
          let! r := attempt (query (VMFirstByID inst.(inst_VmID))) in
          match r with
          | inl _ => templateSourceForDeployment rest imageID
          | inr vm =>
              match vm.(vm_SnapshotRef) with
              | Some ref =>
                  if not_null vm.(vm_DeletedAt) then templateSourceForDeployment rest imageID
                  else if not_null imageID && bool_decide (vm.(vm_ImageID) <> imageID)
                  then templateSourceForDeployment rest imageID
                  else if not_null vm.(vm_ServerID) && negb (bool_decide (FromPgtype vm.(vm_ServerID) = d.(d_serverID)))
                  then templateSourceForDeployment rest imageID
                  else ret (ref, vm.(vm_ID))
              | None => templateSourceForDeployment rest imageID
              end
          end
      end
  end.

End scaling.
