(* ===== verification/Deploy.v ===== *)
(** * The deployment reconciler

    [ReconcileDeployment] of internal/deploy/deploy.go with the build
    (deploy_build.go), the routes (deploy_service_routes.go, deploy_preview.go)
    and the convergence of the instances. *)

From S2P Require Import Prelude NetAddr Text Models Runtime Effects Queries Lifecycle Volumes Instances InstanceReconcile Scaling.

(** internal/config/keys.go. *)
Definition SettingServiceBaseDomain : string := "service_base_domain".
Definition SettingPreviewBaseDomain : string := "preview_base_domain".

(** The fields of [reconcileContext] that stay fixed once it is prepared. *)
Record reconcileContext := mkRC {
  rc_dep : Deployment;
  rc_proj : Project;
  rc_service : option Service;
  rc_desired : Z;
  rc_persistentVolume : option PersistentVolumeMount;
  rc_imageRef : string;
  rc_env : list string
}.

Section deploy.
Context {env : Env} {S : Sorter} {U : Unicode} (d : Deployer).

(** ** Build (deploy_build.go) *)

(** The answer is the deployment and whether the caller is done. *)
Definition ensureBuild (dep : Deployment) (deploymentID : UUID) : M (Deployment * bool) :=
  match dep.(dep_BuildID) with
  | None =>
      let branch := TrimSpace dep.(dep_GithubBranch) in
      let branch := if String.eqb branch "" then "main" else branch in
      let! id := new_uuid in
      let! build := wrap "create build" (exec (BuildCreate (ToPgtype id) dep.(dep_ProjectID)
                      dep.(dep_ServiceID) "pending" dep.(dep_GithubCommit) branch)) in
      let! dep' := wrap "update deployment build" (exec (DeploymentUpdateBuild dep.(dep_ID) build.(bld_ID))) in
      ret (dep', true)
  | Some _ =>
      let! build := wrap "fetch build" (query (BuildFirstByID dep.(dep_BuildID))) in
      if not_null build.(bld_FailedAt) then
        do! exec (DeploymentUpdateFailedAt dep.(dep_ID)) ; ret (dep, true)
      else if is_null build.(bld_ImageID) then
        do! scheduleRetry d deploymentID buildPollRetryInterval ; ret (dep, true)
      else ret (dep, false)
  end.

Definition syncDeploymentImage (dep : Deployment) : M Deployment :=
  let! build := wrap "fetch build" (query (BuildFirstByID dep.(dep_BuildID))) in
  if bool_decide (dep.(dep_ImageID) <> build.(bld_ImageID))
  then wrap "update deployment image" (exec (DeploymentUpdateImage dep.(dep_ID) build.(bld_ImageID)))
  else ret dep.

(** [prepareImageAndEnv]: the image reference and the environment. *)
Definition prepareImageAndEnv (dep : Deployment) (service : option Service) : M (string * list string) :=
  let! image := wrap "fetch image" (query (ImageFindByID dep.(dep_ImageID))) in
  let imageRef := image.(img_Registry) +:+ "/" +:+ image.(img_Repository) +:+ ":" +:+ image.(img_Tag) in
  let! envVars :=
    (match service with
     | Some s => wrap "fetch service env vars" (query (EnvironmentVariableFindEffectiveByServiceID s.(svc_ID)))
     | None => wrap "fetch env vars" (query (EnvironmentVariableFindByProjectID dep.(dep_ProjectID)))
     end) in
  let! envList := wrap "build runtime env" (of_sum (buildRuntimeEnv envVars d.(d_secretDecoder))) in
  ret (imageRef, envList).

(** The answer is the volume to mount and whether the caller is done. *)
Definition resolveProjectVolume (dep : Deployment) (volume : option (ProjectVolume * PersistentVolumeMount))
    (deploymentID : UUID) : M (option PersistentVolumeMount * bool) :=
  match volume with
  | None => ret (None, false)
  | Some (projectVolume, _) =>
      let! r := attempt (ensureProjectVolumeServer d projectVolume) in
      match r with
      | inl e => do! scheduleRetry d deploymentID (projectVolumeRetryDelay e) ; ret (None, true)
      | inr resolved =>
          if String.eqb dep.(dep_DeploymentKind) "production" && is_null dep.(dep_RunningAt) then
            let! drained := wrap "stop old deployments for volume" (stopOldDeploymentsForVolume d dep) in
            if (drained : bool) then
              do! scheduleRetry d deploymentID reconcileRetryInterval ; ret (None, true)
            else ret (Some (persistentVolumeMountFromRow resolved), false)
          else ret (Some (persistentVolumeMountFromRow resolved), false)
      end
  end.

(** ** Routes *)

Fixpoint public_http (endpoints : list ServiceEndpoint) : option ServiceEndpoint :=
  match endpoints with
  | [] => None
  | e :: rest =>
      if String.eqb e.(sep_Protocol) "http" && String.eqb e.(sep_Visibility) "public" then Some e
      else public_http rest
  end.

Definition publicHTTPEndpoint (serviceID : pgUUID) : M (option ServiceEndpoint) :=
  let! endpoints := wrap "list service endpoints" (query (ServiceEndpointListByServiceID serviceID)) in
  ret (public_http endpoints).

Definition ensureProductionRoutes (dep : Deployment) (proj : Project) (service : option Service) : M unit :=
  match service with
  | None => ret tt
  | Some service =>
      do! wrap "update service domains" (exec (DomainUpdateDeploymentForService dep.(dep_ID) service.(svc_ID))) ;
      let! endpoint := publicHTTPEndpoint service.(svc_ID) in
      match endpoint with
      | None => wrap "delete managed service domain" (exec (DomainDeleteManagedByServiceID service.(svc_ID)))
      | Some _ =>
          let! r := attempt (query (ClusterSettingGet SettingServiceBaseDomain)) in
          match r with
          | inl _ => ret tt
          | inr base =>
              let host := ProductionServiceHostname service.(svc_Slug) proj.(proj_Name) base in
              if String.eqb (TrimSpace base) "" || String.eqb host "" then ret tt
              else
                let! m := attempt (query (DomainManagedByServiceID service.(svc_ID))) in
                match m with
                | inr _ =>
                    do! wrap "update managed service domain"
                      (exec (DomainUpdateManagedByServiceID service.(svc_ID) host dep.(dep_ID))) ;
                    ret tt
                | inl e =>
                    if is_no_rows e then
                      let! id := new_uuid in
                      do! wrap "create managed service domain"
                        (exec (DomainCreateManaged (ToPgtype id) dep.(dep_ProjectID) service.(svc_ID) dep.(dep_ID) host)) ;
                      ret tt
                    else throw (ErrWrap "lookup managed service domain" e)
                end
          end
      end
  end.

(** [if len(sha) > 7 { sha = sha[:7] }]. *)
Definition short_sha (commit : string) : string := str_take 7 (TrimSpace commit).

Definition ensurePreviewRoutes (dep : Deployment) (proj : Project) : M unit :=
  if negb (String.eqb dep.(dep_DeploymentKind) "preview") || is_null dep.(dep_PreviewEnvironmentID) ||
     is_null dep.(dep_ServiceID) then ret tt
  else
    let! r := attempt (query (ClusterSettingGet SettingPreviewBaseDomain)) in
    match r with
    | inl _ => ret tt
    | inr raw =>
        let base := TrimSpace raw in
        if String.eqb base "" then ret tt
        else
          let! pe := wrap "preview env" (query (PreviewEnvironmentByID dep.(dep_PreviewEnvironmentID))) in
          let! service := wrap "preview service" (query (ServiceFirstByID dep.(dep_ServiceID))) in
          let! stable := attempt (query (DomainFindByPreviewEnvironmentAndKind pe.(pe_ID) "preview_stable")) in
          do! (match stable with
               | inr dom => wrap "update stable preview domain"
                              (exec (DomainUpdateDeploymentForDomainID dom.(dom_ID) dep.(dep_ID)))
               | inl _ => ret tt
               end) ;
          let host := ImmutableHostname (short_sha dep.(dep_GithubCommit)) pe.(pe_PrNumber)
                        service.(svc_Slug) proj.(proj_Name) base in
          let! m := attempt (query (DomainFindByDeploymentIDAndKind dep.(dep_ID) "preview_immutable")) in
          match m with
          | inr _ => ret tt
          | inl e =>
              if negb (is_no_rows e) then throw (ErrWrap "lookup immutable preview domain" e)
              else
                let! id := new_uuid in
                do! wrap "create immutable preview domain"
                  (exec (DomainCreatePreview (ToPgtype id) dep.(dep_ProjectID) None dep.(dep_ID) host
                           "preview_immutable" pe.(pe_ID))) ;
                ret tt
          end
    end.

(** ** Promotion *)

Definition promoteDeployment (rc : reconcileContext) : M unit :=
  let dep := rc.(rc_dep) in
  if not_null dep.(dep_RunningAt) then ret tt
  else
    do! wrap "mark running" (exec (DeploymentMarkRunning dep.(dep_ID))) ;
    do! ignore (exec (DeploymentResetCircuit dep.(dep_ID))) ;
    if String.eqb dep.(dep_DeploymentKind) "preview" then
      wrap "preview routes" (ensurePreviewRoutes dep rc.(rc_proj))
    else
      do! wrap "production routes" (ensureProductionRoutes dep rc.(rc_proj) rc.(rc_service)) ;
      drainOldDeployments d dep.

(** ** Instances *)

(** [for _, inst := range instList { if err := ...; err != nil { retry; return nil } }]:
    [false] when an instance was deferred. *)
Fixpoint reconcile_each (rc : reconcileContext) (templateRef : string) (templateSource : pgUUID)
    (deploymentID : UUID) (l : list DeploymentInstance) : M bool :=
  match l with
  | [] => ret true
  | inst :: rest =>
      let! r := attempt (reconcileOneInstance d rc.(rc_dep) inst rc.(rc_imageRef) rc.(rc_env)
                           templateRef templateSource rc.(rc_persistentVolume)) in
      match r with
      | inl _ => do! scheduleRetry d deploymentID reconcileRetryInterval ; ret false
      | inr _ => reconcile_each rc templateRef templateSource deploymentID rest
      end
  end.

(** [None]: a retry was scheduled and the caller returns. *)
Definition surgeAndReconcile (fuel : nat) (rc : reconcileContext) (instList : list DeploymentInstance)
    (deploymentID : UUID) : M (option (list DeploymentInstance)) :=
  let! statusMap := wrap "load server statuses" (serverStatusByIDs instList) in
  let onDraining := countInstancesOnDrainingServers instList statusMap in
  let surgeTarget := rc.(rc_desired) + onDraining in
  do! wrap "scale down excess" (scaleDownExcess d fuel rc.(rc_dep).(dep_ID) instList surgeTarget statusMap) ;
  do! wrap "ensure instance count" (ensureInstanceCountUp d rc.(rc_dep).(dep_ID) (wrap32 surgeTarget)) ;
  let! instList := wrap "list deployment instances" (query (DeploymentInstanceFindByDeploymentID rc.(rc_dep).(dep_ID))) in
  let! instList := wrap "activate warm pool instances" (activateWarmPoolInstances instList rc.(rc_desired)) in
  let! '(ref, source) := templateSourceForDeployment d instList rc.(rc_dep).(dep_ImageID) in
  let '(ref, source) := match rc.(rc_persistentVolume) with Some _ => ("", None) | None => (ref, source) end in
  let! ok := reconcile_each rc ref source deploymentID instList in
  ret (if (ok : bool) then Some instList else None).

Definition retireDrainingInstances (fuel : nat) (rc : reconcileContext) : M (list DeploymentInstance) :=
  let depID := rc.(rc_dep).(dep_ID) in
  let! instList := wrap "list deployment instances" (query (DeploymentInstanceFindByDeploymentID depID)) in
  let! statusMap := wrap "load server statuses" (serverStatusByIDs instList) in
  let onDraining := countInstancesOnDrainingServers instList statusMap in
  let! ready := countReadyOffDrainingServers d instList statusMap in
  let! '(instList, statusMap, onDraining) :=
    (if (rc.(rc_desired) <=? ready) && (0 <? onDraining) then
       let! instList := wrap "remove draining instances"
                          (removeInstancesOnDrainingServers d depID instList statusMap rc.(rc_desired)) in
       let! statusMap := wrap "load server statuses" (serverStatusByIDs instList) in
       ret (instList, statusMap, countInstancesOnDrainingServers instList statusMap)
     else ret (instList, statusMap, onDraining)) in
  if (onDraining =? 0) && (rc.(rc_desired) <? activeInstanceCount instList) then
    wrap "scale down excess instances" (scaleDownExcess d fuel depID instList rc.(rc_desired) statusMap)
  else ret instList.

Definition reconcileInstances (fuel : nat) (rc : reconcileContext) (deploymentID : UUID) : M unit :=
  let depID := rc.(rc_dep).(dep_ID) in
  let list_instances := wrap "list deployment instances" (query (DeploymentInstanceFindByDeploymentID depID)) in
  let! instList := list_instances in
  do! repairInstancesOnBadServers d instList ;
  let! instList := list_instances in
  if rc.(rc_desired) =? 0 then
    do! wrap "scale down instances" (scaleDownInstances d instList 0) ;
    promoteDeployment rc
  else
    let! surged := surgeAndReconcile fuel rc instList deploymentID in
    match surged with
    | None => ret tt
    | Some _ =>
        do! retireDrainingInstances fuel rc ;
        let! instList := list_instances in
        let! ready := countInstancesReady d instList in
        if ready <? rc.(rc_desired) then scheduleRetry d deploymentID reconcileRetryInterval
        else
          do! (match rc.(rc_dep).(dep_WakeRequestedAt) with
               | Some _ => wrap "clear wake" (exec (DeploymentClearWakeRequested depID))
               | None => ret tt
               end) ;
          promoteDeployment rc
    end.

(** ** The reconciler *)

Definition failPreviewVolumeDeployment (dep : Deployment) : M unit :=
  do! ignore (exec (ProjectVolumeUpdateStatus dep.(dep_ProjectID) "unavailable"
        "persistent volumes are not supported for preview deployments")) ;
  if is_null dep.(dep_FailedAt) then ignore (exec (DeploymentUpdateFailedAt dep.(dep_ID))) else ret tt.

Definition reconcileTerminalDeployment (dep : Deployment) : M unit :=
  do! cleanupDeploymentAllInstances d dep.(dep_ID) ;
  match dep.(dep_VmID) with
  | None => ret tt
  | Some _ =>
      let! r := attempt (query (VMFirstByID dep.(dep_VmID))) in
      match r with
      | inr vm => if is_null vm.(vm_DeletedAt) then ignore (exec (VMSoftDelete dep.(dep_VmID))) else ret tt
      | inl _ => ret tt
      end
  end.

(** The part of [ReconcileDeployment] after the terminal check. *)
Definition converge (fuel : nat) (deploymentID : UUID) (dep : Deployment) (proj : Project)
    (service : option Service) (desired : Z) (volume : option (ProjectVolume * PersistentVolumeMount)) : M unit :=
  let! '(dep, done) := ensureBuild dep deploymentID in
  if (done : bool) then ret tt
  else
    let! '(mount, done) := resolveProjectVolume dep volume deploymentID in
    if (done : bool) then ret tt
    else
      let! dep := syncDeploymentImage dep in
      match d.(d_rt) with
      | None => throw (ErrMsg "no runtime configured")
      | Some _ =>
          let! '(imageRef, envList) := prepareImageAndEnv dep service in
          reconcileInstances fuel (mkRC dep proj service desired mount imageRef envList) deploymentID
      end.

Definition ReconcileDeployment (fuel : nat) (deploymentID : UUID) : M unit :=
  let! dep := wrap "fetch deployment" (query (DeploymentFirstByID (ToPgtype deploymentID))) in
  let! proj := wrap "fetch project" (query (ProjectFirstByID dep.(dep_ProjectID))) in
  let! service :=
    (match dep.(dep_ServiceID) with
     | Some _ => let! s := wrap "fetch service" (query (ServiceFirstByID dep.(dep_ServiceID))) in ret (Some s)
     | None => ret None
     end) in
  let desired := effectiveReplicaCount proj service dep in
  let! volume := wrap "fetch project volume" (projectVolumeForDeployment dep) in
  match volume with
  | Some _ =>
      if String.eqb dep.(dep_DeploymentKind) "preview" then failPreviewVolumeDeployment dep
      else
        let desired := if 1 <? desired then 1 else desired in
        if negb (dep_live dep) then reconcileTerminalDeployment dep
        else converge fuel deploymentID dep proj service desired volume
  | None =>
      if negb (dep_live dep) then reconcileTerminalDeployment dep
      else converge fuel deploymentID dep proj service desired None
  end.

End deploy.
