(* ===== verification/DeployTrace.v ===== *)
(** * What the deployer may do to the database

    The statements the deployer issues, and that [ReconcileDeployment] changes
    the database only through them, for every environment. *)

From S2P Require Import Prelude NetAddr Text Models Runtime Effects Queries Logic Lifecycle Volumes Instances InstanceReconcile Scaling Deploy.

(** With [p] false, all of them but the one that marks a deployment running. *)
Inductive deployer_stmt (p : bool) : forall A, writes A -> Prop :=
  | ds_circuit_break id : deployer_stmt p _ (DeploymentCircuitBreak id)
  | ds_reset_circuit id : deployer_stmt p _ (DeploymentResetCircuit id)
  | ds_clear_wake id : deployer_stmt p _ (DeploymentClearWakeRequested id)
  | ds_mark_running id : p = true -> deployer_stmt p _ (DeploymentMarkRunning id)
  | ds_mark_stopped id : deployer_stmt p _ (DeploymentMarkStopped id)
  | ds_failed_at id : deployer_stmt p _ (DeploymentUpdateFailedAt id)
  | ds_update_build id b : deployer_stmt p _ (DeploymentUpdateBuild id b)
  | ds_update_image id i : deployer_stmt p _ (DeploymentUpdateImage id i)
  | ds_instance_create id dep : deployer_stmt p _ (DeploymentInstanceCreate id dep)
  | ds_attach_vm id vm st : deployer_stmt p _ (DeploymentInstanceAttachVM id vm st)
  | ds_update_role id role : deployer_stmt p _ (DeploymentInstanceUpdateRole id role)
  | ds_update_server id srv : deployer_stmt p _ (DeploymentInstanceUpdateServer id srv)
  | ds_update_status id st : deployer_stmt p _ (DeploymentInstanceUpdateStatus id st)
  | ds_prepare_retry id : deployer_stmt p _ (DeploymentInstancePrepareRetry id)
  | ds_reset_retry id : deployer_stmt p _ (DeploymentInstanceResetForRetry id)
  | ds_inst_delete id : deployer_stmt p _ (DeploymentInstanceSoftDelete id)
  | ds_vm_create args : deployer_stmt p _ (VMCreate args)
  | ds_vm_delete id : deployer_stmt p _ (VMSoftDelete id)
  | ds_vm_lifecycle id st snap rootfs src : deployer_stmt p _ (VMUpdateLifecycleMetadata id st snap rootfs src)
  | ds_vm_address id ip port : deployer_stmt p _ (VMUpdateRuntimeAddress id ip port)
  | ds_vm_status id st : deployer_stmt p _ (VMUpdateStatus id st)
  | ds_build_create id proj s st c b : deployer_stmt p _ (BuildCreate id proj s st c b)
  | ds_vol_assign proj s : deployer_stmt p _ (ProjectVolumeAssignServer proj s)
  | ds_vol_attach proj s vm : deployer_stmt p _ (ProjectVolumeAttachVM proj s vm)
  | ds_vol_detach proj st e : deployer_stmt p _ (ProjectVolumeDetachVM proj st e)
  | ds_vol_status proj st e : deployer_stmt p _ (ProjectVolumeUpdateStatus proj st e)
  | ds_dom_managed id proj s dep n : deployer_stmt p _ (DomainCreateManaged id proj s dep n)
  | ds_dom_preview id proj s dep n k pe : deployer_stmt p _ (DomainCreatePreview id proj s dep n k pe)
  | ds_dom_delete s : deployer_stmt p _ (DomainDeleteManagedByServiceID s)
  | ds_dom_update id dep : deployer_stmt p _ (DomainUpdateDeploymentForDomainID id dep)
  | ds_dom_service dep s : deployer_stmt p _ (DomainUpdateDeploymentForService dep s)
  | ds_dom_rename s n dep : deployer_stmt p _ (DomainUpdateManagedByServiceID s n dep).

#[export] Hint Constructors deployer_stmt : runs.

Abbreviation dep_runs := (runs (deployer_stmt true)).

Section trace.
Context {env : Env} {S : Sorter} {U : Unicode} (d : Deployer) {mark : bool}.

Local Abbreviation mark_runs := (runs (deployer_stmt mark)).

Lemma runs_scheduleRetry id t : mark_runs (scheduleRetry d id t).
Proof. unfold scheduleRetry. solve_runs. Qed.
Hint Resolve runs_scheduleRetry : runs.

Lemma runs_publish p : mark_runs (publishProjectVolumeEvents d p).
Proof. unfold publishProjectVolumeEvents. solve_runs. Qed.
Hint Resolve runs_publish : runs.

Lemma runs_volume_for dep : mark_runs (projectVolumeForDeployment dep).
Proof. unfold projectVolumeForDeployment. solve_runs. Qed.
Hint Resolve runs_volume_for : runs.

Lemma runs_mark_unavailable {A} p m : mark_runs (markProjectVolumeUnavailable (A := A) d p m).
Proof. unfold markProjectVolumeUnavailable. solve_runs. Qed.
Hint Resolve runs_mark_unavailable : runs.

Lemma runs_ensure_volume vol : mark_runs (ensureProjectVolumeServer d vol).
Proof.
  unfold ensureProjectVolumeServer, serverSupportsCloudHypervisor, findLeastLoadedCloudHypervisorServer.
  solve_runs.
Qed.
Hint Resolve runs_ensure_volume : runs.

Lemma runs_detach_attached p v st e : mark_runs (detachProjectVolumeIfAttached d p v st e).
Proof. unfold detachProjectVolumeIfAttached. solve_runs. Qed.
Hint Resolve runs_detach_attached : runs.

Lemma runs_detach_instance i st e : mark_runs (detachProjectVolumeForInstance d i st e).
Proof. unfold detachProjectVolumeForInstance. solve_runs. Qed.
Hint Resolve runs_detach_instance : runs.

Lemma runs_mark_unavailable_instance i st : mark_runs (markProjectVolumeUnavailableForInstance d i st).
Proof. unfold markProjectVolumeUnavailableForInstance. solve_runs. Qed.
Hint Resolve runs_mark_unavailable_instance : runs.

Lemma runs_attempts n url : mark_runs (healthCheck_attempts n url).
Proof. induction n; simpl; unfold probe; solve_runs. Qed.
Hint Resolve runs_attempts : runs.

Lemma runs_vm_health vm port : mark_runs (healthCheckVMFromHost d vm port).
Proof. unfold healthCheckVMFromHost, healthCheck. solve_runs. Qed.
Hint Resolve runs_vm_health : runs.

Lemma runs_wait_health url t : mark_runs (waitHealthCheckLocalForwarded url t).
Proof. unfold waitHealthCheckLocalForwarded, healthCheckLocalForwarded, healthCheck. solve_runs. Qed.
Hint Resolve runs_wait_health : runs.

Lemma runs_local_healthy i : mark_runs (localRuntimeHealthy d i).
Proof. unfold localRuntimeHealthy. solve_runs. Qed.
Hint Resolve runs_local_healthy : runs.

Lemma runs_running_healthy i : mark_runs (isRunningInstanceHealthy d i).
Proof. unfold isRunningInstanceHealthy. solve_runs. Qed.
Hint Resolve runs_running_healthy : runs.

Lemma runs_stop rt id : mark_runs (rt_stop rt id).
Proof. unfold rt_stop. solve_runs. Qed.
Hint Resolve runs_stop : runs.

Lemma runs_stop_if id : mark_runs (stop_if_runtime d id).
Proof. unfold stop_if_runtime. solve_runs. Qed.
Hint Resolve runs_stop_if : runs.

Lemma runs_delete i : mark_runs (deleteInstancePermanently d i).
Proof. unfold deleteInstancePermanently. solve_runs. Qed.
Hint Resolve runs_delete : runs.

Lemma runs_cleanup_all id : mark_runs (cleanupDeploymentAllInstances d id).
Proof. unfold cleanupDeploymentAllInstances. solve_runs. Qed.
Hint Resolve runs_cleanup_all : runs.

Lemma runs_cleanup i : mark_runs (cleanupInstance d i).
Proof. unfold cleanupInstance, suspend_instance. solve_runs. Qed.
Hint Resolve runs_cleanup : runs.

Lemma runs_drain_old dep : mark_runs (drainOldDeployments d dep).
Proof. unfold drainOldDeployments. solve_runs. Qed.
Hint Resolve runs_drain_old : runs.

Lemma runs_stop_old dep : mark_runs (stopOldDeploymentsForVolume d dep).
Proof. unfold stopOldDeploymentsForVolume. solve_runs. Qed.
Hint Resolve runs_stop_old : runs.

Lemma runs_persist a b c v i r x y e m : mark_runs (persistInstanceVMMetadata a b c v i r x y e m).
Proof. unfold persistInstanceVMMetadata. solve_runs. Qed.
Hint Resolve runs_persist : runs.

Lemma runs_leave i : mark_runs (leave_draining_server d i).
Proof. unfold leave_draining_server, reset_for_retry. solve_runs. Qed.
Hint Resolve runs_leave : runs.

Lemma runs_assignment dep i v : mark_runs (reconcileInstanceServerAssignment d dep i v).
Proof. unfold reconcileInstanceServerAssignment, reset_for_retry. solve_runs. Qed.
Hint Resolve runs_assignment : runs.

Lemma runs_resume dep i v : mark_runs (tryResumeFromSuspended d dep i v).
Proof. unfold tryResumeFromSuspended, reset_suspended. solve_runs. Qed.
Hint Resolve runs_resume : runs.

Lemma runs_mark_failed i : mark_runs (mark_failed i).
Proof. unfold mark_failed. solve_runs. Qed.
Hint Resolve runs_mark_failed : runs.

Lemma runs_cold_start rt si i ctx : mark_runs (cold_start rt si i ctx).
Proof. unfold cold_start, fillLiveMigrationMetadata. solve_runs. Qed.
Hint Resolve runs_cold_start : runs.

Lemma runs_launch rt si ref src i mode : mark_runs (launchInstance rt si ref src i mode).
Proof. unfold launchInstance. solve_runs. Qed.
Hint Resolve runs_launch : runs.

Lemma runs_undo rt i vm : mark_runs (undo_start rt i vm).
Proof. unfold undo_start. solve_runs. Qed.
Hint Resolve runs_undo : runs.

Lemma runs_or_undo {A} rt i vm ctx (m : M A) : mark_runs m -> mark_runs (or_undo rt i vm ctx m).
Proof. intros Hm. unfold or_undo. solve_runs. Qed.
Hint Resolve runs_or_undo : runs.

Lemma runs_start dep i img e ref src v : mark_runs (startNewInstance d dep i img e ref src v).
Proof. unfold startNewInstance. solve_runs. Qed.
Hint Resolve runs_start : runs.

Lemma runs_reconcile_one dep i img e ref src v : mark_runs (reconcileOneInstance d dep i img e ref src v).
Proof.
  unfold reconcileOneInstance, restart_instance, resetStaleInstance, assignServerIfNeeded. solve_runs.
Qed.
Hint Resolve runs_reconcile_one : runs.

Lemma runs_repair l : mark_runs (repairInstancesOnBadServers d l).
Proof. unfold repairInstancesOnBadServers, repair_instance. solve_runs. Qed.
Hint Resolve runs_repair : runs.

Lemma runs_budget id : mark_runs (retainedWarmPoolBudget d id).
Proof. unfold retainedWarmPoolBudget. solve_runs. Qed.
Hint Resolve runs_budget : runs.

Lemma runs_prune l k : mark_runs (pruneWarmPoolInstances d l k).
Proof. unfold pruneWarmPoolInstances. solve_runs. Qed.
Hint Resolve runs_prune : runs.

Lemma runs_activate l n : mark_runs (activateWarmPoolInstances l n).
Proof. unfold activateWarmPoolInstances, promote_candidates. solve_runs. Qed.
Hint Resolve runs_activate : runs.

Lemma runs_remove_excess l n : mark_runs (remove_excess d l n).
Proof. revert n; induction l; intros n; simpl; solve_runs. Qed.
Hint Resolve runs_remove_excess : runs.

Lemma runs_scale_down l n : mark_runs (scaleDownInstances d l n).
Proof. unfold scaleDownInstances. solve_runs. Qed.
Hint Resolve runs_scale_down : runs.

Lemma runs_ensure_up id n : mark_runs (ensureInstanceCountUp d id n).
Proof. unfold ensureInstanceCountUp, create_missing. solve_runs. Qed.
Hint Resolve runs_ensure_up : runs.

Lemma runs_count_ready l : mark_runs (countInstancesReady d l).
Proof. unfold countInstancesReady, instance_ready. solve_runs. Qed.
Hint Resolve runs_count_ready : runs.

Lemma runs_status_by l : mark_runs (serverStatusByIDs l).
Proof. unfold serverStatusByIDs. solve_runs. Qed.
Hint Resolve runs_status_by : runs.

Lemma runs_ready_off l m : mark_runs (countReadyOffDrainingServers d l m).
Proof. unfold countReadyOffDrainingServers, ready_off_draining. solve_runs. Qed.
Hint Resolve runs_ready_off : runs.

Lemma runs_scale_excess fuel id l n m : mark_runs (scaleDownExcess d fuel id l n m).
Proof. unfold scaleDownExcess, scale_down_loop. solve_runs. Qed.
Hint Resolve runs_scale_excess : runs.

Lemma runs_remove_draining id l m n : mark_runs (removeInstancesOnDrainingServers d id l m n).
Proof. unfold removeInstancesOnDrainingServers. solve_runs. Qed.
Hint Resolve runs_remove_draining : runs.

Lemma runs_template l img : mark_runs (templateSourceForDeployment d l img).
Proof. induction l; simpl; solve_runs. Qed.
Hint Resolve runs_template : runs.

Lemma runs_production_routes dep p s : mark_runs (ensureProductionRoutes dep p s).
Proof. unfold ensureProductionRoutes, publicHTTPEndpoint. solve_runs. Qed.
Hint Resolve runs_production_routes : runs.

Lemma runs_preview_routes dep p : mark_runs (ensurePreviewRoutes dep p).
Proof. unfold ensurePreviewRoutes. solve_runs. Qed.
Hint Resolve runs_preview_routes : runs.

Lemma runs_each rc ref src id l : mark_runs (reconcile_each d rc ref src id l).
Proof. induction l; simpl; solve_runs. Qed.
Hint Resolve runs_each : runs.

Lemma runs_surge fuel rc l id : mark_runs (surgeAndReconcile d fuel rc l id).
Proof. unfold surgeAndReconcile. solve_runs. Qed.

Lemma runs_retire fuel rc : mark_runs (retireDrainingInstances d fuel rc).
Proof. unfold retireDrainingInstances. solve_runs. Qed.

Lemma runs_terminal dep : mark_runs (reconcileTerminalDeployment d dep).
Proof. unfold reconcileTerminalDeployment. solve_runs. Qed.

Lemma runs_fail_preview dep : mark_runs (failPreviewVolumeDeployment dep).
Proof. unfold failPreviewVolumeDeployment. solve_runs. Qed.

Lemma runs_ensure_build dep id : mark_runs (ensureBuild d dep id).
Proof. unfold ensureBuild. solve_runs. Qed.

Lemma runs_resolve_volume dep v id : mark_runs (resolveProjectVolume d dep v id).
Proof. unfold resolveProjectVolume. solve_runs. Qed.

Lemma runs_sync_image dep : mark_runs (syncDeploymentImage dep).
Proof. unfold syncDeploymentImage. solve_runs. Qed.

Lemma runs_prepare_image dep s : mark_runs (prepareImageAndEnv d dep s).
Proof. unfold prepareImageAndEnv. solve_runs. Qed.

End trace.

#[export] Hint Resolve runs_scheduleRetry runs_publish runs_volume_for runs_mark_unavailable runs_ensure_volume runs_detach_attached
  runs_detach_instance runs_mark_unavailable_instance runs_attempts runs_vm_health runs_wait_health runs_local_healthy
  runs_running_healthy runs_stop runs_stop_if runs_delete runs_cleanup_all runs_cleanup
  runs_drain_old runs_stop_old runs_persist runs_leave runs_assignment runs_resume
  runs_mark_failed runs_cold_start runs_launch runs_undo runs_or_undo runs_start
  runs_reconcile_one runs_repair runs_budget runs_prune runs_activate runs_remove_excess
  runs_scale_down runs_ensure_up runs_count_ready runs_status_by runs_ready_off runs_scale_excess
  runs_remove_draining runs_template runs_production_routes runs_preview_routes runs_each runs_surge runs_retire
  runs_terminal runs_fail_preview runs_ensure_build runs_resolve_volume runs_sync_image runs_prepare_image : runs.

(** ** The functions that can mark the deployment running *)

Section promoting.
Context {env : Env} {S : Sorter} {U : Unicode} (d : Deployer).

Lemma runs_promote rc : dep_runs (promoteDeployment d rc).
Proof. unfold promoteDeployment. solve_runs. Qed.
Hint Resolve runs_promote : runs.

Lemma runs_instances fuel rc id : dep_runs (reconcileInstances d fuel rc id).
Proof. unfold reconcileInstances. solve_runs. Qed.
Hint Resolve runs_instances : runs.

Lemma runs_converge fuel id dep p s n v : dep_runs (converge d fuel id dep p s n v).
Proof. unfold converge. solve_runs. Qed.
Hint Resolve runs_converge : runs.

Lemma runs_ReconcileDeployment fuel id : dep_runs (ReconcileDeployment d fuel id).
Proof. unfold ReconcileDeployment. solve_runs. Qed.

End promoting.

#[export] Hint Resolve runs_promote runs_instances runs_converge runs_ReconcileDeployment : runs.
