(* ===== verification/Integrity.v ===== *)
(** * What reconciliation preserves

    Two facts about every run of the deployer, whatever the database, the
    runtime and the network do: rows only evolve in the permitted directions
    ([db_evolves]), and the constraints of schema.sql on the deployer's tables
    keep holding ([db_wf]). *)

From S2P Require Import Prelude NetAddr Text Models Runtime Effects Queries Logic TableFacts Lifecycle Volumes Instances InstanceReconcile Scaling Deploy DeployTrace.

(** ** How rows evolve *)

(** An instance keeps its identity; once soft-deleted only its timestamps move. *)
Record inst_evolves (i i' : DeploymentInstance) : Prop := {
  ie_identity : (inst_ID i', inst_DeploymentID i', inst_CreatedAt i') =
                (inst_ID i, inst_DeploymentID i, inst_CreatedAt i);
  ie_restarts : inst_RestartCount i <= inst_RestartCount i';
  ie_deleted : inst_live i = false ->
    inst_live i' = false /\
    exists del upd, i' = set_inst_UpdatedAt upd (set_inst_DeletedAt del i)
}.

(** A VM stays on its server with its image and its size; it is never undeleted. *)
Record vm_evolves (v v' : Vm) : Prop := {
  ve_identity : (vm_ID v', vm_ServerID v', vm_ImageID v', vm_Runtime v', vm_Vcpus v', vm_Memory v',
                 vm_EnvVariables v', vm_CreatedAt v') =
                (vm_ID v, vm_ServerID v, vm_ImageID v, vm_Runtime v, vm_Vcpus v, vm_Memory v,
                 vm_EnvVariables v, vm_CreatedAt v);
  ve_deleted : is_null (vm_DeletedAt v) = false -> is_null (vm_DeletedAt v') = false
}.

(** A deployment keeps its identity; the marks of its life cycle are never
    taken back, so a terminal deployment stays terminal. *)
Record dep_evolves (r r' : Deployment) : Prop := {
  de_identity : (dep_ID r', dep_ProjectID r', dep_ServiceID r', dep_DeploymentKind r',
                 dep_PreviewEnvironmentID r', dep_GithubCommit r', dep_VmID r', dep_DeletedAt r',
                 dep_PreviewScaledToZero r', dep_CreatedAt r') =
                (dep_ID r, dep_ProjectID r, dep_ServiceID r, dep_DeploymentKind r,
                 dep_PreviewEnvironmentID r, dep_GithubCommit r, dep_VmID r, dep_DeletedAt r,
                 dep_PreviewScaledToZero r, dep_CreatedAt r);
  de_running : is_null (dep_RunningAt r) = false -> is_null (dep_RunningAt r') = false;
  de_stopped : is_null (dep_StoppedAt r) = false -> is_null (dep_StoppedAt r') = false;
  de_failed : is_null (dep_FailedAt r) = false -> is_null (dep_FailedAt r') = false
}.

(** The tables the deployer only reads. *)
Definition read_only_tables (d : Db) :=
  (db_env d, db_images d, db_migrations d, db_previews d, db_projects d, db_servers d,
   (db_statuses d, db_services d, db_endpoints d, db_settings d)).

Record db_evolves (d d' : Db) : Prop := {
  dbe_instances : rows_rel inst_evolves (db_instances d) (db_instances d');
  dbe_vms : rows_rel vm_evolves (db_vms d) (db_vms d');
  dbe_deployments : rows_rel dep_evolves (db_deployments d) (db_deployments d');
  dbe_builds : db_builds d ⊆ db_builds d';
  dbe_read_only : read_only_tables d' = read_only_tables d
}.

#[export] Instance inst_evolves_preorder : PreOrder inst_evolves.
Proof.
  split.
  - intros []; split; simpl; [done|lia|]. intros. split; [done|]. eexists _, _. reflexivity.
  - intros i1 i2 i3 [] []; split; simpl; [congruence|lia|]. intros H1.
    destruct (ie_deleted0 H1) as (H2 & del & upd & ->).
    destruct (ie_deleted1 H2) as (H3 & del' & upd' & ->).
    split; [done|]. by exists del', upd'.
Qed.

#[export] Instance vm_evolves_preorder : PreOrder vm_evolves.
Proof. split; [by split|]. intros v1 v2 v3 [] []; split; [congruence|auto]. Qed.

#[export] Instance dep_evolves_preorder : PreOrder dep_evolves.
Proof. split; [by split|]. intros v1 v2 v3 [] []; split; [congruence|auto..]. Qed.

#[export] Instance db_evolves_preorder : PreOrder db_evolves.
Proof.
  split; [by split|]. intros d1 d2 d3 [] []; split; [by etrans..|congruence].
Qed.

(** ** Statements respect it *)

(** A write to one table leaves the relation on the others. *)
Lemma evolves_instance d k i i' :
  db_instances d !! k = Some i -> inst_evolves i i' ->
  db_evolves d (set_instances (<[k := i']> (db_instances d)) d).
Proof. intros; split; simpl; [by eapply (rows_rel_update _)|done..]. Qed.

Lemma evolves_vm d k v v' :
  db_vms d !! k = Some v -> vm_evolves v v' -> db_evolves d (set_vms (<[k := v']> (db_vms d)) d).
Proof. intros; split; simpl; [done|by eapply (rows_rel_update _)|done..]. Qed.

Lemma evolves_deployment d k r r' :
  db_deployments d !! k = Some r -> dep_evolves r r' ->
  db_evolves d (set_deployments (<[k := r']> (db_deployments d)) d).
Proof. intros; split; simpl; [done..|by eapply (rows_rel_update _)|done|done]. Qed.

Lemma evolves_new_instance d k i :
  db_instances d !! k = None -> db_evolves d (set_instances (<[k := i]> (db_instances d)) d).
Proof. intros; split; simpl; [by apply (rows_rel_fresh _)|done..]. Qed.

Lemma evolves_new_vm d k v :
  db_vms d !! k = None -> db_evolves d (set_vms (<[k := v]> (db_vms d)) d).
Proof. intros; split; simpl; [done|by apply (rows_rel_fresh _)|done..]. Qed.

Lemma evolves_new_build d k b :
  db_builds d !! k = None -> db_evolves d (set_builds (<[k := b]> (db_builds d)) d).
Proof. intros; split; simpl; [done..|by apply insert_subseteq|done]. Qed.

Lemma evolves_volumes d m : db_evolves d (set_volumes m d).
Proof. by split. Qed.

Lemma evolves_domains d m : db_evolves d (set_domains m d).
Proof. by split. Qed.

Create HintDb evolve.
#[export] Hint Resolve evolves_instance evolves_vm evolves_deployment evolves_new_instance
  evolves_new_vm evolves_new_build evolves_volumes evolves_domains : evolve.

(** The same for whole statements. *)
Section statements.
Context (d : Db).

Lemma evolves_update_instance id g f x d' :
  (forall r, g r = true -> inst_evolves r (f r)) ->
  returning (update_row t_instances id g f d) = inr (x, d') -> db_evolves d d'.
Proof. intros Hf H. invert_stmt. eauto with evolve. Qed.

Lemma evolves_exec_instance id g f x d' :
  (forall r, g r = true -> inst_evolves r (f r)) ->
  executing (update_row t_instances id g f d) = inr (x, d') -> db_evolves d d'.
Proof. intros Hf H. invert_stmt; [reflexivity|eauto with evolve]. Qed.

Lemma evolves_update_vm id g f x d' :
  (forall r, g r = true -> vm_evolves r (f r)) ->
  returning (update_row t_vms id g f d) = inr (x, d') -> db_evolves d d'.
Proof. intros Hf H. invert_stmt. eauto with evolve. Qed.

Lemma evolves_exec_vm id g f x d' :
  (forall r, g r = true -> vm_evolves r (f r)) ->
  executing (update_row t_vms id g f d) = inr (x, d') -> db_evolves d d'.
Proof. intros Hf H. invert_stmt; [reflexivity|eauto with evolve]. Qed.

Lemma evolves_update_deployment id g f x d' :
  (forall r, g r = true -> dep_evolves r (f r)) ->
  returning (update_row t_deployments id g f d) = inr (x, d') -> db_evolves d d'.
Proof. intros Hf H. invert_stmt. eauto with evolve. Qed.

Lemma evolves_exec_deployment id g f x d' :
  (forall r, g r = true -> dep_evolves r (f r)) ->
  executing (update_row t_deployments id g f d) = inr (x, d') -> db_evolves d d'.
Proof. intros Hf H. invert_stmt; [reflexivity|eauto with evolve]. Qed.

Lemma evolves_insert_instance id r x d' :
  insert_row t_instances id r d = inr (x, d') -> db_evolves d d'.
Proof. intros H. invert_stmt. eauto with evolve. Qed.

Lemma evolves_insert_vm id r x d' : insert_row t_vms id r d = inr (x, d') -> db_evolves d d'.
Proof. intros H. invert_stmt. eauto with evolve. Qed.

Lemma evolves_insert_build id r x d' : insert_row t_builds id r d = inr (x, d') -> db_evolves d d'.
Proof. intros H. invert_stmt. eauto with evolve. Qed.

Lemma evolves_insert_domain id r x d' : insert_row t_domains id r d = inr (x, d') -> db_evolves d d'.
Proof. intros H. invert_stmt. eauto with evolve. Qed.

Lemma evolves_update_volume p f x d' : update_volume p f d = inr (x, d') -> db_evolves d d'.
Proof. unfold update_volume. intros H. invert_stmt. eauto with evolve. Qed.

Lemma evolves_exec_domain id g f x d' :
  executing (update_row t_domains id g f d) = inr (x, d') -> db_evolves d d'.
Proof. intros H. invert_stmt; [reflexivity|eauto with evolve]. Qed.

Lemma evolves_update_domain id g f x d' :
  returning (update_row t_domains id g f d) = inr (x, d') -> db_evolves d d'.
Proof. intros H. invert_stmt. eauto with evolve. Qed.

Lemma evolves_where_domain p f x d' : update_where t_domains p f d = inr (x, d') -> db_evolves d d'.
Proof. intros H. invert_stmt. eauto with evolve. Qed.

End statements.

#[export] Hint Resolve evolves_insert_instance evolves_insert_vm evolves_insert_build
  evolves_insert_domain evolves_update_volume evolves_exec_domain evolves_update_domain
  evolves_where_domain : evolve.

(** A row update that keeps identity, guarded by liveness where it needs it. *)
Lemma live_inst_evolves i i' :
  (inst_ID i', inst_DeploymentID i', inst_CreatedAt i') = (inst_ID i, inst_DeploymentID i, inst_CreatedAt i) ->
  inst_RestartCount i <= inst_RestartCount i' -> inst_live i = true -> inst_evolves i i'.
Proof. intros ?? Hl; split; [done|done|]. by rewrite Hl. Qed.

Ltac live_instance H :=
  refine (evolves_update_instance _ _ _ _ _ _ _ H); intros; apply live_inst_evolves; simpl; (done || lia).
Ltac vm_update H := first [refine (evolves_update_vm _ _ _ _ _ _ _ H) | refine (evolves_exec_vm _ _ _ _ _ _ _ H)];
  by split.
Ltac dep_update H :=
  first [ refine (evolves_update_deployment _ _ _ _ _ _ _ H) | refine (evolves_exec_deployment _ _ _ _ _ _ _ H) ];
  by split.

Lemma rename_domain_evolves s n dep t d x d' :
  DomainUpdateManagedByServiceID s n dep t d = inr (x, d') -> db_evolves d d'.
Proof.
  unfold DomainUpdateManagedByServiceID. destruct (rows _ _) as [|? [|]]; [done| |done].
  apply evolves_update_domain.
Qed.

Lemma delete_domain_evolves s t d x d' :
  DomainDeleteManagedByServiceID s t d = inr (x, d') -> db_evolves d d'.
Proof. unfold DomainDeleteManagedByServiceID. intros [= _ <-]. auto with evolve. Qed.

Lemma deployer_stmt_evolves d d' : db_step (deployer_stmt true) d d' -> db_evolves d d'.
Proof.
  intros (A & s & t & a & Hs & H). destruct Hs;
    try solve [eauto using rename_domain_evolves, delete_domain_evolves with evolve];
    try solve [live_instance H | vm_update H | dep_update H].
  refine (evolves_exec_instance _ _ _ _ _ _ _ H). intros. split; simpl; [done|lia|].
  intros _. split; [done|]. by eexists _, _.
Qed.

(** ** Constraints of the schema *)

(** Every row of a table is stored under its id and meets the constraints. *)
Definition table_wf {R} (t : Table R) (id : R -> pgUUID) (d : Db) : Prop :=
  forall k r, t.(t_get) d !! k = Some r -> id r = Some k /\ t.(t_ok) d k r = true.

Record db_wf (d : Db) : Prop := {
  wf_instances : table_wf t_instances inst_ID d;
  wf_vms : table_wf t_vms vm_ID d;
  wf_deployments : table_wf t_deployments dep_ID d;
  wf_builds : table_wf t_builds bld_ID d;
  wf_volumes : table_wf t_volumes vol_ID d
}.

(** A statement that wrote the rows of [t] in [d'] checked each of them. *)
Definition table_checked {R} (t : Table R) (id : R -> pgUUID) (d d' : Db) : Prop :=
  forall k r', t.(t_get) d' !! k = Some r' ->
    t.(t_get) d !! k = Some r' \/
    (t.(t_ok) d k r' = true /\ (id r' = Some k \/ exists r, t.(t_get) d !! k = Some r /\ id r' = id r)).

Record db_checked (d d' : Db) : Prop := {
  ck_instances : table_checked t_instances inst_ID d d';
  ck_vms : table_checked t_vms vm_ID d d';
  ck_deployments : table_checked t_deployments dep_ID d d';
  ck_builds : table_checked t_builds bld_ID d d';
  ck_volumes : table_checked t_volumes vol_ID d d'
}.

Lemma checked_same {R} (t : Table R) id d d' :
  t.(t_get) d' = t.(t_get) d -> table_checked t id d d'.
Proof. intros He k r' Hk. left. by rewrite <- He. Qed.

Lemma checked_insert {R} (t : Table R) id d d' k r :
  t.(t_get) d' = <[k := r]> (t.(t_get) d) -> t.(t_ok) d k r = true ->
  (id r = Some k \/ exists r0, t.(t_get) d !! k = Some r0 /\ id r = id r0) ->
  table_checked t id d d'.
Proof.
  intros He Hok Hid k' r' Hk. rewrite He in Hk.
  apply lookup_insert_Some in Hk as [[<- <-]|[? Hk]]; [by right|by left].
Qed.

Lemma fk_mono {R} (m m' : gmap UUID R) c :
  (forall k, is_Some (m !! k) -> is_Some (m' !! k)) -> fk m c = true -> fk m' c = true.
Proof.
  intros Hm. destruct c as [k|]; [|done]. simpl. specialize (Hm k).
  destruct (m !! k); [|done]. destruct Hm as [? ->]; [eauto|done].
Qed.

Lemma fk_required_mono {R} (m m' : gmap UUID R) c :
  (forall k, is_Some (m !! k) -> is_Some (m' !! k)) -> fk_required m c = true -> fk_required m' c = true.
Proof. destruct c as [k|]; [|done]. apply (fk_mono m m' (Some k)). Qed.

Lemma rows_rel_keys {R} (rel : R -> R -> Prop) m m' k :
  rows_rel rel m m' -> is_Some (m !! k) -> is_Some (m' !! k).
Proof. intros Hm [r Hr]. destruct (Hm k r Hr) as (r' & -> & _). eauto. Qed.

(** Rows that other rows refer to are never removed, so constraints that hold
    before a step hold after it. *)
Lemma ok_mono d d' :
  db_evolves d d' ->
  (forall k r, instance_ok d k r = true -> instance_ok d' k r = true) /\
  (forall k r, vm_ok d k r = true -> vm_ok d' k r = true) /\
  (forall k r, deployment_ok d k r = true -> deployment_ok d' k r = true) /\
  (forall k r, build_ok d k r = true -> build_ok d' k r = true) /\
  (forall k r, volume_ok d k r = true -> volume_ok d' k r = true).
Proof.
  intros [_ Hv Hd Hb Hro]. unfold read_only_tables in Hro. injection Hro as _ Himg _ Hpre Hproj Hsrv _ Hsvc _ _.
  assert (forall k, is_Some (db_builds d !! k) -> is_Some (db_builds d' !! k)).
  { intros k [b Hk]. exists b. by apply (lookup_weaken _ _ _ _ Hk). }
  unfold instance_ok, vm_ok, deployment_ok, build_ok, volume_ok.
  rewrite Himg, Hpre, Hproj, Hsrv, Hsvc.
  repeat match goal with |- _ /\ _ => split end; intros k r Hok;
    repeat match goal with H : _ && _ = true |- _ => apply andb_true_iff in H as [? ?] end;
    repeat match goal with |- _ && _ = true => apply andb_true_iff; split end;
    try assumption;
    first [ eapply fk_mono; [|eassumption] | eapply fk_required_mono; [|eassumption] ];
    eauto using rows_rel_keys.
Qed.

Lemma table_wf_step {R} (t : Table R) id d d' :
  (forall k r, t.(t_ok) d k r = true -> t.(t_ok) d' k r = true) ->
  table_checked t id d d' -> table_wf t id d -> table_wf t id d'.
Proof.
  intros Hmono Hck Hwf k r' Hk. destruct (Hck k r' Hk) as [Hold|[Hok Hid]].
  - destruct (Hwf k r' Hold). auto.
  - split; [|by apply Hmono]. destruct Hid as [?|(r & Hr & ->)]; [done|]. by apply (Hwf k r).
Qed.

Lemma db_wf_step d d' : db_evolves d d' -> db_checked d d' -> db_wf d -> db_wf d'.
Proof.
  intros (Hi & Hv & Hd & Hb & Ho)%ok_mono [] [].
  split; (eapply table_wf_step; [|eassumption|eassumption]); assumption.
Qed.

(** The checks of each kind of statement. *)
Ltac checked_others := first [ by apply checked_same | idtac ].

Section checks.
Context (d : Db).

Lemma checked_update_instance id g f x d' :
  (forall r, inst_ID (f r) = inst_ID r) ->
  returning (update_row t_instances id g f d) = inr (x, d') -> db_checked d d'.
Proof.
  intros Hf H. invert_stmt. split; checked_others. eapply checked_insert; [done|done|]. eauto.
Qed.

Lemma checked_exec_instance id g f x d' :
  (forall r, inst_ID (f r) = inst_ID r) ->
  executing (update_row t_instances id g f d) = inr (x, d') -> db_checked d d'.
Proof.
  intros Hf H. invert_stmt; split; checked_others. eapply checked_insert; [done|done|]. eauto.
Qed.

Lemma checked_update_vm id g f x d' :
  (forall r, vm_ID (f r) = vm_ID r) ->
  returning (update_row t_vms id g f d) = inr (x, d') -> db_checked d d'.
Proof.
  intros Hf H. invert_stmt. split; checked_others. eapply checked_insert; [done|done|]. eauto.
Qed.

Lemma checked_exec_vm id g f x d' :
  (forall r, vm_ID (f r) = vm_ID r) ->
  executing (update_row t_vms id g f d) = inr (x, d') -> db_checked d d'.
Proof.
  intros Hf H. invert_stmt; split; checked_others. eapply checked_insert; [done|done|]. eauto.
Qed.

Lemma checked_update_deployment id g f x d' :
  (forall r, dep_ID (f r) = dep_ID r) ->
  returning (update_row t_deployments id g f d) = inr (x, d') -> db_checked d d'.
Proof.
  intros Hf H. invert_stmt. split; checked_others. eapply checked_insert; [done|done|]. eauto.
Qed.

Lemma checked_exec_deployment id g f x d' :
  (forall r, dep_ID (f r) = dep_ID r) ->
  executing (update_row t_deployments id g f d) = inr (x, d') -> db_checked d d'.
Proof.
  intros Hf H. invert_stmt; split; checked_others. eapply checked_insert; [done|done|]. eauto.
Qed.

Lemma checked_insert_instance r x d' :
  insert_row t_instances (inst_ID r) r d = inr (x, d') -> db_checked d d'.
Proof. intros H. invert_stmt. split; checked_others. eapply checked_insert; [done|done|]. eauto. Qed.

Lemma checked_insert_vm r x d' : insert_row t_vms (vm_ID r) r d = inr (x, d') -> db_checked d d'.
Proof. intros H. invert_stmt. split; checked_others. eapply checked_insert; [done|done|]. eauto. Qed.

Lemma checked_insert_build r x d' : insert_row t_builds (bld_ID r) r d = inr (x, d') -> db_checked d d'.
Proof. intros H. invert_stmt. split; checked_others. eapply checked_insert; [done|done|]. eauto. Qed.

Lemma checked_update_volume p f x d' :
  (forall r, vol_ID (f r) = vol_ID r) -> update_volume p f d = inr (x, d') -> db_checked d d'.
Proof.
  intros Hf H. unfold update_volume in H. invert_stmt. split; checked_others.
  eapply checked_insert; [done|done|]. eauto.
Qed.

Lemma checked_domains m : db_checked d (set_domains m d).
Proof. split; checked_others. Qed.

Lemma checked_insert_domain id r x d' : insert_row t_domains id r d = inr (x, d') -> db_checked d d'.
Proof. intros H. invert_stmt. apply checked_domains. Qed.

Lemma checked_exec_domain id g f x d' :
  executing (update_row t_domains id g f d) = inr (x, d') -> db_checked d d'.
Proof. intros H. invert_stmt; [split; checked_others|apply checked_domains]. Qed.

Lemma checked_where_domain p f x d' : update_where t_domains p f d = inr (x, d') -> db_checked d d'.
Proof. intros H. invert_stmt. apply checked_domains. Qed.

Lemma checked_rename_domain s n dep t x d' :
  DomainUpdateManagedByServiceID s n dep t d = inr (x, d') -> db_checked d d'.
Proof.
  unfold DomainUpdateManagedByServiceID. destruct (rows _ _) as [|? [|]]; [done| |done].
  intros H. invert_stmt. apply checked_domains.
Qed.

Lemma checked_delete_domain s t x d' :
  DomainDeleteManagedByServiceID s t d = inr (x, d') -> db_checked d d'.
Proof. unfold DomainDeleteManagedByServiceID. intros [= _ <-]. apply checked_domains. Qed.

End checks.

Lemma deployer_stmt_checked d d' : db_step (deployer_stmt true) d d' -> db_checked d d'.
Proof.
  intros (A & s & t & a & Hs & H). destruct Hs;
    first [ by eapply checked_rename_domain | by eapply checked_delete_domain
          | by refine (checked_update_instance _ _ _ _ _ _ _ H)
          | by refine (checked_exec_instance _ _ _ _ _ _ _ H)
          | by refine (checked_update_vm _ _ _ _ _ _ _ H)
          | by refine (checked_exec_vm _ _ _ _ _ _ _ H)
          | by refine (checked_update_deployment _ _ _ _ _ _ _ H)
          | by refine (checked_exec_deployment _ _ _ _ _ _ _ H)
          | by refine (checked_insert_instance _ _ _ _ H)
          | by refine (checked_insert_vm _ _ _ _ H)
          | by refine (checked_insert_build _ _ _ _ H)
          | by refine (checked_update_volume _ _ _ _ _ _ H)
          | by refine (checked_insert_domain _ _ _ _ _ H)
          | by refine (checked_exec_domain _ _ _ _ _ _ H)
          | by refine (checked_where_domain _ _ _ _ _ H) ].
Qed.
