(* ===== verification/DeploySafety.v ===== *)
(** * The deployer never dereferences a nil runtime

    A chain of lemmas, one per function of the deployer, up to
    [ReconcileDeployment]; those without a retry loop also settle. *)

From S2P Require Import Prelude NetAddr Text Models Runtime Effects Queries Logic EventLogic Lifecycle Volumes Instances InstanceReconcile Scaling Deploy.

(** ** Waiting for health ends *)

Section waiting.
Context {env : Env}.

(** The clock never goes back. *)
Definition clock_on {A} (m : M A) : Prop := forall w, w_now w <= w_now (m w).2.

Lemma clock_bind {A B} (m : M A) (k : A -> M B) : clock_on m -> (forall a, clock_on (k a)) -> clock_on (bind m k).
Proof.
  intros Hm Hk w. unfold bind. specialize (Hm w). destruct (m w) as [[a|e| |] w1]; simpl in *; try done.
  etrans; [done|apply Hk].
Qed.

Lemma clock_attempts n url : clock_on (healthCheck_attempts n url).
Proof.
  induction n as [|n IH]; (apply clock_bind; [intros w; simpl; lia|]); intros [[]|]; try (intros w; simpl; lia).
  apply clock_bind; [intros w; simpl; lia|done].
Qed.

Lemma clock_local_forwarded url : clock_on (healthCheckLocalForwarded url).
Proof.
  unfold healthCheckLocalForwarded. destruct (parseRuntimeAddress url) as [|[]]; [intros w; simpl; lia|].
  apply clock_attempts.
Qed.

Lemma returns_attempts n url : returns (healthCheck_attempts n url).
Proof. induction n; simpl; unfold probe; solve_returns. Qed.

Lemma returns_local_forwarded url : returns (healthCheckLocalForwarded url).
Proof.
  unfold healthCheckLocalForwarded, healthCheck. pose proof returns_attempts. solve_returns.
Qed.

(** One round of [waitHealthCheckLocalForwarded]. *)
Definition wait_round (url : string) (deadline : Time) (_ : unit) : M (unit + bool) :=
  let! t := now in
  if Before t deadline then
    let! ok := healthCheckLocalForwarded url in
    if ok then ret (inr true) else do! sleep healthCheckPollInterval ; ret (inl tt)
  else ret (inr false).

(** It is the last one, or the deadline is closer by the poll interval. *)
Lemma wait_round_cases url deadline w :
  (exists b w', wait_round url deadline tt w = (Ret (inr b), w')) \/
  (w_now w < deadline /\ exists w', wait_round url deadline tt w = (Ret (inl tt), w') /\
     w_now w + healthCheckPollInterval <= w_now w').
Proof.
  unfold wait_round. rewrite (bind_ret now _ w (w_now w) w eq_refl). unfold Before.
  destruct (w_now w <? deadline) eqn:E; [apply Z.ltb_lt in E|left; by eexists _, _].
  destruct (returns_local_forwarded url w) as ([] & w1 & H1).
  - left. eexists _, _. by rewrite (bind_ret _ _ _ _ _ H1).
  - right. split; [done|]. eexists. rewrite (bind_ret _ _ _ _ _ H1). split; [reflexivity|].
    pose proof (clock_local_forwarded url w) as Hc. rewrite H1 in Hc. simpl in *. lia.
Qed.

Lemma wait_rounds url deadline fuel w :
  deadline - w_now w < Z.of_nat fuel * healthCheckPollInterval ->
  exists b w', loop (Datatypes.S fuel) (wait_round url deadline) tt w = (Ret b, w').
Proof.
  revert w. induction fuel as [|fuel IH]; intros w Hw;
    (destruct (wait_round_cases url deadline w) as [(b & w' & H)|(Hlt & w' & H & Hadv)];
     cbn [loop]; rewrite (bind_ret _ _ _ _ _ H); [by eexists _, _|]); [lia|].
  apply IH. lia.
Qed.

Lemma health_rounds_enough (t maxWait : Z) :
  t + maxWait - t < Z.of_nat (Z.to_nat (maxWait / healthCheckPollInterval) + 1) * healthCheckPollInterval.
Proof.
  unfold healthCheckPollInterval, Millisecond.
  pose proof (Z.div_mod maxWait (100 * 1000000) ltac:(lia)).
  pose proof (Z.mod_pos_bound maxWait (100 * 1000000) ltac:(lia)). lia.
Qed.

Lemma wait_health_returns url maxWait : returns (waitHealthCheckLocalForwarded url maxWait).
Proof. intros w. apply (wait_rounds url (w_now w + maxWait)), health_rounds_enough. Qed.

End waiting.

Section safety.
Context {env : Env} {S : Sorter} {U : Unicode} (d : Deployer).

Lemma np_scheduleRetry {dv} id t : safe dv (scheduleRetry d id t).
Proof. unfold scheduleRetry. solve_np. Qed.
Lemma np_publish {dv} p : safe dv (publishProjectVolumeEvents d p).
Proof. unfold publishProjectVolumeEvents. solve_np. Qed.
Lemma np_volume_for {dv} dep : safe dv (projectVolumeForDeployment dep).
Proof. unfold projectVolumeForDeployment. solve_np. Qed.
Hint Resolve np_scheduleRetry np_publish np_volume_for : safe.

Lemma np_mark_unavailable {dv} {A} p m : safe dv (markProjectVolumeUnavailable (A := A) d p m).
Proof. unfold markProjectVolumeUnavailable. solve_np. Qed.
Hint Resolve np_mark_unavailable : safe.

Lemma np_ensure_volume {dv} vol : safe dv (ensureProjectVolumeServer d vol).
Proof.
  unfold ensureProjectVolumeServer, serverSupportsCloudHypervisor, findLeastLoadedCloudHypervisorServer.
  solve_np.
Qed.
Lemma np_detach_attached {dv} p v st e : safe dv (detachProjectVolumeIfAttached d p v st e).
Proof. unfold detachProjectVolumeIfAttached. solve_np. Qed.
Hint Resolve np_ensure_volume np_detach_attached : safe.

Lemma np_detach_instance {dv} i st e : safe dv (detachProjectVolumeForInstance d i st e).
Proof. unfold detachProjectVolumeForInstance. solve_np. Qed.
Lemma np_mark_unavailable_instance {dv} i st : safe dv (markProjectVolumeUnavailableForInstance d i st).
Proof. unfold markProjectVolumeUnavailableForInstance. solve_np. Qed.
Lemma np_attempts {dv} n url : safe dv (healthCheck_attempts n url).
Proof. induction n; simpl; unfold probe; solve_np. Qed.
Hint Resolve np_detach_instance np_mark_unavailable_instance np_attempts : safe.

Lemma np_vm_health {dv} vm port : safe dv (healthCheckVMFromHost d vm port).
Proof. unfold healthCheckVMFromHost, healthCheck. solve_np. Qed.
Lemma np_wait_health {dv} url t : safe dv (waitHealthCheckLocalForwarded url t).
Proof.
  intros w. by destruct (wait_health_returns url t w) as (b & w' & ->).
Qed.
Lemma np_local_healthy {dv} i : safe dv (localRuntimeHealthy d i).
Proof. unfold localRuntimeHealthy. solve_np. Qed.
Lemma np_stop {dv} rt id : safe dv (rt_stop rt id).
Proof. unfold rt_stop. solve_np. Qed.
Hint Resolve np_vm_health np_wait_health np_local_healthy np_stop : safe.

Lemma np_stop_if {dv} id : safe dv (stop_if_runtime d id).
Proof. unfold stop_if_runtime. solve_np. Qed.
Hint Resolve np_stop_if : safe.

Lemma np_delete {dv} i : safe dv (deleteInstancePermanently d i).
Proof. unfold deleteInstancePermanently. solve_np. Qed.
Hint Resolve np_delete : safe.

Lemma np_cleanup_all {dv} id : safe dv (cleanupDeploymentAllInstances d id).
Proof. unfold cleanupDeploymentAllInstances. solve_np. Qed.
Lemma np_cleanup {dv} i : safe dv (cleanupInstance d i).
Proof. unfold cleanupInstance, suspend_instance. solve_np. Qed.
Hint Resolve np_cleanup_all np_cleanup : safe.

Lemma np_drain_old {dv} dep : safe dv (drainOldDeployments d dep).
Proof. unfold drainOldDeployments. solve_np. Qed.
Lemma np_stop_old {dv} dep : safe dv (stopOldDeploymentsForVolume d dep).
Proof. unfold stopOldDeploymentsForVolume. solve_np. Qed.
Lemma np_persist {dv} a b c v i r x y e m : safe dv (persistInstanceVMMetadata a b c v i r x y e m).
Proof. unfold persistInstanceVMMetadata. solve_np. Qed.
Lemma np_assignment {dv} dep i v : safe dv (reconcileInstanceServerAssignment d dep i v).
Proof. unfold reconcileInstanceServerAssignment, leave_draining_server, reset_for_retry. solve_np. Qed.
Lemma np_mark_failed {dv} i : safe dv (mark_failed i).
Proof. unfold mark_failed. solve_np. Qed.
Hint Resolve np_drain_old np_stop_old np_persist np_assignment np_mark_failed : safe.

Lemma np_cold_start {dv} rt si i ctx : safe dv (cold_start rt si i ctx).
Proof. unfold cold_start, fillLiveMigrationMetadata. solve_np. Qed.
Hint Resolve np_cold_start : safe.

Lemma np_launch {dv} rt si ref src i mode : safe dv (launchInstance rt si ref src i mode).
Proof. unfold launchInstance. solve_np. Qed.
Lemma np_undo {dv} rt i vm : safe dv (undo_start rt i vm).
Proof. unfold undo_start. solve_np. Qed.
Hint Resolve np_launch np_undo : safe.

Lemma np_or_undo {dv} {A} rt i vm ctx (m : M A) : safe dv m -> safe dv (or_undo rt i vm ctx m).
Proof. intros Hm. unfold or_undo. solve_np. Qed.
Hint Resolve np_or_undo : safe.

Lemma np_repair {dv} l : safe dv (repairInstancesOnBadServers d l).
Proof. unfold repairInstancesOnBadServers, repair_instance. solve_np. Qed.
Lemma np_budget {dv} id : safe dv (retainedWarmPoolBudget d id).
Proof. unfold retainedWarmPoolBudget. solve_np. Qed.
Lemma np_prune {dv} l k : safe dv (pruneWarmPoolInstances d l k).
Proof. unfold pruneWarmPoolInstances. solve_np. Qed.
Lemma np_activate {dv} l n : safe dv (activateWarmPoolInstances l n).
Proof. unfold activateWarmPoolInstances, promote_candidates. solve_np. Qed.
Lemma np_remove_excess {dv} l n : safe dv (remove_excess d l n).
Proof. revert n; induction l; intros n; simpl; solve_np. Qed.
Hint Resolve np_repair np_budget np_prune np_activate np_remove_excess : safe.

Lemma np_scale_down {dv} l n : safe dv (scaleDownInstances d l n).
Proof. unfold scaleDownInstances. solve_np. Qed.
Lemma np_ensure_up id n : never_panics (ensureInstanceCountUp d id n).
Proof. unfold ensureInstanceCountUp, create_missing. solve_np. Qed.
Lemma np_status_by {dv} l : safe dv (serverStatusByIDs l).
Proof. unfold serverStatusByIDs. solve_np. Qed.
Lemma np_ready_off {dv} l m : safe dv (countReadyOffDrainingServers d l m).
Proof. unfold countReadyOffDrainingServers, ready_off_draining. solve_np. Qed.
Hint Resolve np_scale_down np_ensure_up np_status_by np_ready_off : safe.

Lemma np_scale_excess fuel id l n m : never_panics (scaleDownExcess d fuel id l n m).
Proof. unfold scaleDownExcess, scale_down_loop. solve_np. Qed.
Lemma np_remove_draining {dv} id l m n : safe dv (removeInstancesOnDrainingServers d id l m n).
Proof. unfold removeInstancesOnDrainingServers. solve_np. Qed.
Lemma np_template {dv} l img : safe dv (templateSourceForDeployment d l img).
Proof. induction l; simpl; solve_np. Qed.
Lemma np_production_routes {dv} dep p s : safe dv (ensureProductionRoutes dep p s).
Proof. unfold ensureProductionRoutes, publicHTTPEndpoint. solve_np. Qed.
Lemma np_preview_routes {dv} dep p : safe dv (ensurePreviewRoutes dep p).
Proof. unfold ensurePreviewRoutes. solve_np. Qed.
Hint Resolve np_scale_excess np_remove_draining np_template np_production_routes np_preview_routes : safe.

Lemma np_promote {dv} rc : safe dv (promoteDeployment d rc).
Proof. unfold promoteDeployment. solve_np. Qed.
Lemma np_terminal {dv} dep : safe dv (reconcileTerminalDeployment d dep).
Proof. unfold reconcileTerminalDeployment. solve_np. Qed.
Hint Resolve np_promote np_terminal : safe.

(** The functions that dereference the runtime run behind the nil check of
    [ReconcileDeployment]. *)
Section with_runtime.
Hypothesis Hrt : is_Some (d_rt d).

Hint Extern 3 (safe _ (deref _ _)) => (apply np_deref; [exact Hrt|intros; solve_np]) : safe.

Lemma np_running_healthy {dv} i : safe dv (isRunningInstanceHealthy d i).
Proof. unfold isRunningInstanceHealthy. solve_np. Qed.
Lemma np_resume {dv} dep i v : safe dv (tryResumeFromSuspended d dep i v).
Proof. unfold tryResumeFromSuspended, reset_suspended. solve_np. Qed.
Lemma np_start {dv} dep i img e ref src v : safe dv (startNewInstance d dep i img e ref src v).
Proof. unfold startNewInstance. solve_np. Qed.
Hint Resolve np_running_healthy np_resume np_start : safe.

Lemma np_reconcile_one {dv} dep i img e ref src v : safe dv (reconcileOneInstance d dep i img e ref src v).
Proof.
  unfold reconcileOneInstance, restart_instance, resetStaleInstance, assignServerIfNeeded. solve_np.
Qed.
Lemma np_count_ready {dv} l : safe dv (countInstancesReady d l).
Proof. unfold countInstancesReady, instance_ready. solve_np. Qed.
Hint Resolve np_reconcile_one np_count_ready : safe.

Lemma np_each {dv} rc ref src id l : safe dv (reconcile_each d rc ref src id l).
Proof. induction l; simpl; solve_np. Qed.
Hint Resolve np_each : safe.

Lemma np_instances fuel rc id : never_panics (reconcileInstances d fuel rc id).
Proof. unfold reconcileInstances, surgeAndReconcile, retireDrainingInstances. solve_np. Qed.

End with_runtime.

Lemma np_converge fuel id dep p s n v : never_panics (converge d fuel id dep p s n v).
Proof.
  unfold converge, ensureBuild, resolveProjectVolume, syncDeploymentImage, prepareImageAndEnv.
  pose proof np_instances as Hi. destruct (d_rt d) eqn:E.
  - specialize (Hi (ex_intro _ r eq_refl)). solve_np.
  - clear Hi. solve_np.
Qed.

End safety.

#[export] Hint Resolve np_converge np_terminal np_volume_for np_detach_instance np_stop np_delete np_cleanup
  np_cleanup_all np_detach_attached np_publish np_mark_unavailable np_scheduleRetry np_repair np_budget np_prune np_activate
  np_scale_down np_status_by np_ready_off np_remove_draining np_template np_promote np_ensure_volume np_stop_old : safe.
