(* ===== verification/Sample.v ===== *)
(** * A small cluster

    A concrete database, runtime and environment on which definitions are
    evaluated and the hypotheses of theorems are seen to hold: one project with
    two services, three servers (one draining, one drained), a running deployment of each
    service, a stopped deployment and a new one. *)

From S2P Require Import Prelude NetAddr Text Models Runtime Effects Queries Lifecycle Volumes Instances InstanceReconcile Scaling Deploy.

#[export] Instance sample_unicode : Unicode := {| lower_rune r := r |}.

Definition sample_project : Project :=
  mkProject (Some 1%N) (Some 2%N) "Shop" "acme/shop" 0 "" "" "" 1 0 3 None false false false
    (Some 1) (Some 1).

Definition sample_service (id : N) (slug : string) : Service :=
  mkService (Some id) (Some 1%N) slug slug "" "" 1 false true true (Some 1) (Some 1).

Definition sample_server (id : N) (status : string) (beat : Time) : Server :=
  mkServer (Some id) ("host-" +:+ pretty id) "10.0.0.1" (Addr4 0, 24) (Addr4 1) "" "" status
    (Some beat) (Some 1) (Some 1).

Definition sample_deployment (id service : N) (build image : pgUUID) (running stopped : option Time) : Deployment :=
  mkDeployment (Some id) (Some 1%N) (Some service) build image None None "abcdef0123" "main" "production"
    None None false false running stopped None None None (Some 1) (Some 1).

Definition sample_build : Build :=
  mkBuild (Some 50%N) (Some 1%N) (Some 20%N) "successful" "abcdef0123" "main" (Some 40%N) None None None None
    (Some 1) (Some 1).

Definition sample_vm (id server : N) (status : string) : Vm :=
  mkVm (Some id) (Some server) (Some 40%N) status "cloud-hypervisor" None "rootfs" None 1 512
    (Addr4 167772165) (Some 3000) None None (Some 1) (Some 1).

Definition sample_instance (id dep server vm : N) (role status : string) (created : Time) : DeploymentInstance :=
  mkDeploymentInstance (Some id) (Some dep) (Some server) (Some vm) role None status 0 None None
    (Some created) (Some created).

Definition sample_db : Db :=
  mkDb {[ 50%N := sample_build ]}
    {[ 10%N := sample_deployment 10 20 (Some 50%N) (Some 40%N) (Some 5) None;
       11%N := sample_deployment 11 21 (Some 50%N) (Some 40%N) (Some 6) None;
       12%N := sample_deployment 12 20 (Some 50%N) (Some 40%N) (Some 2) (Some 3);
       13%N := sample_deployment 13 20 (Some 50%N) None None None ]}
    {[ 70%N := sample_instance 70 10 30 60 "active" "running" 10;
       71%N := sample_instance 71 10 31 61 "active" "running" 11;
       72%N := sample_instance 72 12 30 62 "active" "running" 3;
       73%N := sample_instance 73 10 30 63 "warm_pool" "stopped" 4;
       74%N := sample_instance 74 11 30 64 "active" "running" 6 ]}
    ∅ ∅
    {[ 40%N := mkImage (Some 40%N) "registry" "shop" "v1" (Some 1) ]}
    ∅ ∅
    {[ 1%N := sample_project ]}
    ∅
    {[ 30%N := sample_server 30 "active" 1000; 31%N := sample_server 31 "draining" 1000;
       32%N := sample_server 32 "drained" 1000 ]}
    ∅
    {[ 20%N := sample_service 20 "web"; 21%N := sample_service 21 "api" ]}
    ∅
    {[ 60%N := sample_vm 60 30 "running"; 61%N := sample_vm 61 31 "running";
       62%N := sample_vm 62 30 "running"; 63%N := sample_vm 63 30 "suspended";
       64%N := sample_vm 64 30 "running" ]}
    ∅ empty_ext.

Definition sample_world : World := mkWorld sample_db 2000 0 None [].

(** New ids are fresh, every probe succeeds, nothing fails. *)
#[export] Instance sample_env : Env :=
  quiet_env (fun n => (1000 + N.of_nat n)%N) (fun _ _ => HttpStatus 200).

Definition sample_runtime : Runtime :=
  mkRuntime "cloud-hypervisor" (fun _ => true)
    (fun _ _ => inr "http://10.0.0.5:3000") (fun _ _ => None) (fun _ _ => inr "http://10.0.0.5:3000")
    (fun _ _ => inr "template-1") (fun _ _ _ _ => inr ("http://10.0.0.5:3000", mkStartMetadata "" "rootfs" 60%N))
    (fun _ _ => inr (mkMigrationMetadata "rootfs" "v40")) (fun _ _ => inr (mkPrepared "0.0.0.0:4000"))
    (fun _ _ _ => None) (fun _ _ => inr ("http://10.0.0.6:3000", mkStartMetadata "" "rootfs" 0%N))
    (fun _ _ => None) (fun _ _ => None) (fun _ _ => true).

(** The deployer of server 30. *)
Definition sample_deployer : Deployer :=
  mkDeployer true 30%N None true true (Some sample_runtime) true true.

(** The new deployment goes live: an instance is created and started on this
    server, the deployment is marked running and the older ones are stopped. *)
Example sample_reconcile :
  let '(r, w) := ReconcileDeployment sample_deployer 10 13%N sample_world in
  r = Ret tt /\
  not_null (dep_RunningAt <$> db_deployments (w_db w) !! 13%N) /\
  (inst_Status <$> rows (fun i => col_eq (inst_DeploymentID i) (Some 13%N)) (db_instances (w_db w)))
    = ["running"].
Proof. vm_compute. repeat split. Qed.
