(* ===== verification/Removal.v ===== *)
(** * Removing instances

    What [deleteInstancePermanently] and [cleanupDeploymentAllInstances] do:
    which rows they can touch in any environment, and that they finish the job
    when the database answers. *)

From S2P Require Import Prelude NetAddr Text Models Runtime Effects Queries Logic EventLogic TableFacts Lifecycle Volumes Instances InstanceReconcile Scaling Deploy DeployTrace Integrity DeploySafety.

(** ** Frame *)

(** The statements of [deleteInstancePermanently]. *)
Inductive delete_stmt (inst : DeploymentInstance) : forall A, writes A -> Prop :=
  | del_instance : delete_stmt inst _ (DeploymentInstanceSoftDelete inst.(inst_ID))
  | del_vm v : inst.(inst_VmID) = v -> delete_stmt inst _ (VMSoftDelete v)
  | del_detach p st e : delete_stmt inst _ (ProjectVolumeDetachVM p st e).
#[export] Hint Constructors delete_stmt : runs.

(** Only the row of [id] in [deployment_instances] and the row of [vm] in [vms]
    may differ; no row is added to these tables. *)
Record touches (id vm : pgUUID) (d d' : Db) : Prop := {
  tc_instances : forall k, id <> Some k -> db_instances d' !! k = db_instances d !! k;
  tc_no_new : forall k, db_instances d !! k = None -> db_instances d' !! k = None;
  tc_vms : forall k, vm <> Some k -> db_vms d' !! k = db_vms d !! k;
  tc_deployments : db_deployments d' = db_deployments d
}.

#[export] Instance touches_preorder id vm : PreOrder (touches id vm).
Proof.
  split; [by split|]. intros d1 d2 d3 [] []; split; [|by auto| |congruence].
  - intros k Hk. rewrite tc_instances1 by done. auto.
  - intros k Hk. rewrite tc_vms1 by done. auto.
Qed.

Lemma insert_ne_Some {R} (m : gmap UUID R) k k' r : Some k <> Some k' -> <[k := r]> m !! k' = m !! k'.
Proof. intros Hne. apply lookup_insert_ne. congruence. Qed.

Section removal.
Context {env : Env} {S : Sorter} (d : Deployer).

Lemma runs_delete_only inst : runs (delete_stmt inst) (deleteInstancePermanently d inst).
Proof.
  unfold deleteInstancePermanently, stop_if_runtime, rt_stop, detachProjectVolumeForInstance,
    detachProjectVolumeIfAttached, publishProjectVolumeEvents.
  solve_runs.
Qed.

Lemma delete_step_touches inst db db' :
  db_step (delete_stmt inst) db db' -> touches (inst_ID inst) (inst_VmID inst) db db'.
Proof.
  intros (A & s & t & a & Hs & H). destruct Hs; simpl in H.
  - unfold DeploymentInstanceSoftDelete in H. invert_stmt; [reflexivity|].
    match goal with E : _ = Some k |- _ => rewrite E end.
    split; simpl; [intros; by apply insert_ne_Some| |done|done].
    intros k' Hk'. rewrite lookup_insert_ne; [done|]. intros ->. simpl in *. congruence.
  - unfold VMSoftDelete in H. invert_stmt; [reflexivity|].
    match goal with E : _ = Some k |- _ => rewrite E end.
    split; simpl; [done|done|intros; by apply insert_ne_Some|done].
  - unfold ProjectVolumeDetachVM, update_volume in H. invert_stmt. by split.
Qed.

Lemma delete_touches inst w :
  touches (inst_ID inst) (inst_VmID inst) (w_db w) (w_db (deleteInstancePermanently d inst w).2).
Proof.
  apply (runs_preorder (delete_stmt inst) (touches _ _)); [apply delete_step_touches|apply runs_delete_only].
Qed.

Lemma runs_evolves {A} (m : M A) w : dep_runs m -> db_evolves (w_db w) (w_db (m w).2).
Proof. apply (runs_preorder (deployer_stmt true) db_evolves), deployer_stmt_evolves. Qed.

Lemma delete_evolves inst w : db_evolves (w_db w) (w_db (deleteInstancePermanently d inst w).2).
Proof. apply runs_evolves, runs_delete. Qed.

Lemma runs_wf {A} (m : M A) w : dep_runs m -> db_wf (w_db w) -> db_wf (w_db (m w).2).
Proof.
  intros Hm. eapply runs_invariant; [|exact Hm]. intros db db' Hstep.
  apply db_wf_step; [by apply deployer_stmt_evolves|by apply deployer_stmt_checked].
Qed.

(** ** Progress *)

(** It never fails, whatever happens. *)
Lemma delete_returns inst w :
  deleteInstancePermanently d inst w = (Ret tt, (deleteInstancePermanently d inst w).2).
Proof. apply returns_unit. unfold deleteInstancePermanently, stop_if_runtime. solve_returns. Qed.

(** A soft delete of an existing row succeeds: the row meets its constraints. *)
Lemma soft_delete_done (Hq : quiet env) k r w :
  db_wf (w_db w) -> db_instances (w_db w) !! k = Some r ->
  exists r', db_instances (w_db (ignore (exec (DeploymentInstanceSoftDelete (Some k))) w).2) !! k = Some r' /\
             inst_live r' = false.
Proof.
  intros Hwf Hk. rewrite settles_ignore by apply np_exec. simpl.
  rewrite quiet_exec by done. unfold DeploymentInstanceSoftDelete, executing, update_row. simpl.
  rewrite Hk. simpl. destruct (wf_instances _ Hwf k r Hk) as [_ Hok].
  assert (instance_ok (w_db w) k (set_inst_UpdatedAt (Some (sql_now w))
            (set_inst_DeletedAt (Some (sql_now w)) r)) = true) as -> by exact Hok.
  simpl. rewrite lookup_insert_eq. by eexists.
Qed.

Lemma vm_delete_done (Hq : quiet env) k r w :
  db_wf (w_db w) -> db_vms (w_db w) !! k = Some r ->
  exists r', db_vms (w_db (ignore (exec (VMSoftDelete (Some k))) w).2) !! k = Some r' /\
             is_null (vm_DeletedAt r') = false.
Proof.
  intros Hwf Hk. rewrite settles_ignore by apply np_exec. simpl.
  rewrite quiet_exec by done. unfold VMSoftDelete, executing, update_row. simpl.
  rewrite Hk. simpl. destruct (wf_vms _ Hwf k r Hk) as [_ Hok].
  assert (vm_ok (w_db w) k (set_vm_UpdatedAt (Some (sql_now w))
            (set_vm_DeletedAt (Some (sql_now w)) r)) = true) as -> by exact Hok.
  simpl. rewrite lookup_insert_eq. by eexists.
Qed.

(** A row found under a key keeps being found there. *)
Lemma runs_keep_instance {A} (m : M A) w k r :
  dep_runs m -> db_instances (w_db w) !! k = Some r ->
  exists r', db_instances (w_db (m w).2) !! k = Some r' /\ inst_evolves r r'.
Proof. intros Hm Hk. apply (dbe_instances _ _ (runs_evolves m w Hm) k r Hk). Qed.

Lemma runs_keep_vm {A} (m : M A) w k r :
  dep_runs m -> db_vms (w_db w) !! k = Some r ->
  exists r', db_vms (w_db (m w).2) !! k = Some r' /\ vm_evolves r r'.
Proof. intros Hm Hk. apply (dbe_vms _ _ (runs_evolves m w Hm) k r Hk). Qed.

Lemma elem_of_rev {A} (x : A) l : x ∈ rev l <-> x ∈ l.
Proof. by rewrite !list_elem_of_In, <- in_rev. Qed.

(** A first step that cannot fail. *)
Lemma after_step {B} (m : M unit) (k : unit -> M B) w : returns m -> bind m k w = k tt (m w).2.
Proof. intros Hm. apply bind_ret. by apply returns_unit. Qed.

(** The two steps before the row itself is deleted. *)
Definition delete_stop (inst : DeploymentInstance) : M unit :=
  if bool_decide (FromPgtype inst.(inst_ID) = uuid_Nil) then ret tt
  else stop_if_runtime d (FromPgtype inst.(inst_ID)).

Definition delete_vm (inst : DeploymentInstance) : M unit :=
  match inst.(inst_VmID) with
  | Some _ =>
      do! ignore (detachProjectVolumeForInstance d inst "available" "") ;
      ignore (exec (VMSoftDelete inst.(inst_VmID)))
  | None => ret tt
  end.

Lemma delete_stop_ok inst : returns (delete_stop inst) /\ dep_runs (delete_stop inst).
Proof. unfold delete_stop, stop_if_runtime. split; [solve_returns|solve_runs]. Qed.

Lemma delete_vm_ok inst : returns (delete_vm inst) /\ dep_runs (delete_vm inst).
Proof. unfold delete_vm. split; [solve_returns|solve_runs]. Qed.

Lemma delete_steps inst w :
  deleteInstancePermanently d inst w =
  ignore (exec (DeploymentInstanceSoftDelete inst.(inst_ID))) (delete_vm inst (delete_stop inst w).2).2.
Proof.
  unfold deleteInstancePermanently. fold (delete_stop inst).
  rewrite after_step by apply delete_stop_ok. fold (delete_vm inst).
  by rewrite after_step by apply delete_vm_ok.
Qed.

(** The instance row is deleted at the end... *)
Lemma delete_done (Hq : quiet env) inst k r w :
  db_wf (w_db w) -> inst_ID inst = Some k -> db_instances (w_db w) !! k = Some r ->
  exists r', db_instances (w_db (deleteInstancePermanently d inst w).2) !! k = Some r' /\
             inst_live r' = false.
Proof.
  intros Hwf Hid Hk. rewrite delete_steps, Hid.
  destruct (delete_stop_ok inst) as [_ H1]. destruct (delete_vm_ok inst) as [_ H2].
  destruct (runs_keep_instance _ w k r H1 Hk) as (r1 & Hk1 & _).
  destruct (runs_keep_instance _ _ k r1 H2 Hk1) as (r2 & Hk2 & _).
  eapply soft_delete_done; [done| |done]. by do 2 (apply runs_wf; [done|]).
Qed.

(** ... and so is the row of its VM. *)
Lemma delete_vm_done (Hq : quiet env) inst k r w :
  db_wf (w_db w) -> inst_VmID inst = Some k -> db_vms (w_db w) !! k = Some r ->
  exists r', db_vms (w_db (deleteInstancePermanently d inst w).2) !! k = Some r' /\
             is_null (vm_DeletedAt r') = false.
Proof.
  intros Hwf Hid Hk. rewrite delete_steps.
  destruct (delete_stop_ok inst) as [_ H1].
  destruct (runs_keep_vm _ w k r H1 Hk) as (r1 & Hk1 & _).
  assert (exists r', db_vms (w_db (delete_vm inst (delete_stop inst w).2).2) !! k = Some r' /\
                     is_null (vm_DeletedAt r') = false) as (r2 & Hk2 & Hdel).
  { unfold delete_vm. rewrite Hid. rewrite after_step by solve_returns.
    assert (dep_runs (ignore (detachProjectVolumeForInstance d inst "available" ""))) as H2 by solve_runs.
    destruct (runs_keep_vm _ _ k r1 H2 Hk1) as (r2 & Hk2 & _).
    eapply vm_delete_done; [done| |done]. by do 2 (apply runs_wf; [done|]). }
  assert (dep_runs (ignore (exec (DeploymentInstanceSoftDelete (inst_ID inst))))) as H3 by solve_runs.
  destruct (runs_keep_vm _ _ k r2 H3 Hk2) as (r3 & Hk3 & [_ Hd]). exists r3. auto.
Qed.

(** ** Cleaning a deployment *)

(** The rows a deployment's listing returns. *)
Lemma listed_instances dep t db l :
  DeploymentInstanceFindByDeploymentID dep t db = inr l ->
  forall x, x ∈ l <-> col_eq (inst_DeploymentID x) dep = true /\ inst_live x = true /\
                      exists k, db_instances db !! k = Some x.
Proof.
  intros [= <-] x. rewrite sort_by_elem, elem_of_rows, andb_true_iff. tauto.
Qed.

(** What holds of the database while the instances in [done] of [w0] are gone. *)
Record cleaned (w0 : World) (done : list DeploymentInstance) (w : World) : Prop := {
  cl_wf : db_wf (w_db w);
  cl_evolves : db_evolves (w_db w0) (w_db w);
  cl_no_new : forall k, db_instances (w_db w0) !! k = None -> db_instances (w_db w) !! k = None;
  cl_deployments : db_deployments (w_db w) = db_deployments (w_db w0);
  cl_done : forall x k, x ∈ done -> inst_ID x = Some k ->
              exists r, db_instances (w_db w) !! k = Some r /\ inst_live r = false;
  cl_others : forall k, (forall x, x ∈ done -> inst_ID x <> Some k) ->
              db_instances (w_db w) !! k = db_instances (w_db w0) !! k
}.

Lemma cleaned_step (Hq : quiet env) w0 done x w :
  db_wf (w_db w0) -> cleaned w0 done w -> (exists k, db_instances (w_db w0) !! k = Some x) ->
  cleaned w0 (x :: done) (deleteInstancePermanently d x w).2.
Proof.
  intros Hwf0 [Hwf Hev Hnew Hdep Hdone Hoth] [k Hk].
  destruct (wf_instances _ Hwf0 k x Hk) as [Hid _].
  destruct (dbe_instances _ _ Hev k x Hk) as (r & Hr & _).
  destruct (delete_touches x w) as [Ht Htn _ Htd]. split.
  - apply runs_wf; [apply runs_delete|done].
  - etrans; [exact Hev|apply delete_evolves].
  - auto.
  - congruence.
  - intros y j [->|Hy]%elem_of_cons Hj.
    + assert (j = k) as -> by congruence. by eapply delete_done.
    + destruct (Hdone y j Hy Hj) as (ry & Hry & Hlive).
      destruct (dbe_instances _ _ (delete_evolves x w) j ry Hry) as (r' & Hr' & [_ _ Hd]).
      exists r'. split; [done|]. by apply Hd.
  - intros j Hj. rewrite Ht by (apply Hj; constructor). apply Hoth. intros. apply Hj. by constructor.
Qed.

Lemma cleanup_all_cleaned (Hq : quiet env) dep w :
  db_wf (w_db w) ->
  exists l w', DeploymentInstanceFindByDeploymentID dep (sql_now w) (w_db w) = inr l /\
    cleanupDeploymentAllInstances d dep w = (Ret tt, w') /\ cleaned w l w'.
Proof.
  intros Hwf. unfold cleanupDeploymentAllInstances, bind, attempt.
  rewrite quiet_query by done. unfold DeploymentInstanceFindByDeploymentID.
  set (l := sort_by _ _). exists l.
  destruct (for_each_invariant (cleaned w) (deleteInstancePermanently d) l) with (done := @nil DeploymentInstance) (w := tick w)
    as (w' & Hw' & Hcl).
  - intros x done w1 Hc Hx. exists (deleteInstancePermanently d x w1).2.
    split; [apply delete_returns|]. apply cleaned_step; [done..|].
    by apply (listed_instances dep (sql_now w) (w_db w) l eq_refl) in Hx as (_ & _ & ?).
  - split; try done. by intros ?? ?%not_elem_of_nil.
  - exists w'. split; [done|]. split; [done|]. rewrite app_nil_r in Hcl.
    destruct Hcl as [? ? ? ? Hd Ho]. split; try done.
    + intros x k Hx. apply Hd. by apply elem_of_rev.
    + intros k Hk. apply Ho. intros x Hx. apply Hk, elem_of_rev, Hx.
Qed.

End removal.

(** ** Claims *)


(** Reconciling a deployment, in every environment, preserves the
    constraints of the schema on instances, VMs, deployments, builds and
    volumes: primary keys, foreign keys and the enumerated columns. *)
Theorem reconcile_wf (env : Env) (S : Sorter) (U : Unicode) (d : Deployer) (fuel : nat)
    (id : UUID) (w : World) :
  db_wf (w_db w) -> db_wf (w_db (ReconcileDeployment d fuel id w).2).
Proof. apply runs_wf, runs_ReconcileDeployment. Qed.

(** Reconciling a deployment never panics: every use of the runtime lies
    behind the check that one is configured. *)
Theorem reconcile_never_panics (env : Env) (S : Sorter) (U : Unicode) (d : Deployer) (fuel : nat)
    (id : UUID) : never_panics (ReconcileDeployment d fuel id).
Proof. unfold ReconcileDeployment, failPreviewVolumeDeployment. solve_np. Qed.
