(* ===== verification/Retirement.v ===== *)
(** * Retiring deployments

    What reconciliation does to deployments that are over: a terminal one loses
    its instances, a promotion stops the project's other deployments, and a
    preview with a project volume keeps its instances. *)

From S2P Require Import Prelude NetAddr Text Models Runtime Effects Queries Logic EventLogic TableFacts Lifecycle Volumes Instances InstanceReconcile Scaling Deploy DeployTrace Integrity DeploySafety Removal Sample.

(** ** Boolean check of the constraints, for concrete databases *)

Definition table_wfb {R} (t : Table R) (id : R -> pgUUID) (d : Db) : bool :=
  forallb (fun '(k, r) => bool_decide (id r = Some k) && t.(t_ok) d k r) (map_to_list (t.(t_get) d)).

Definition db_wfb (d : Db) : bool :=
  table_wfb t_instances inst_ID d && table_wfb t_vms vm_ID d && table_wfb t_deployments dep_ID d &&
  table_wfb t_builds bld_ID d && table_wfb t_volumes vol_ID d.

Lemma table_wfb_spec {R} (t : Table R) id d : table_wfb t id d = true -> table_wf t id d.
Proof.
  unfold table_wfb. rewrite forallb_forall. intros H k r Hk.
  specialize (H (k, r)). cbn in H. rewrite andb_true_iff, bool_decide_eq_true in H.
  apply H, list_elem_of_In, elem_of_map_to_list, Hk.
Qed.

Lemma db_wfb_spec d : db_wfb d = true -> db_wf d.
Proof.
  unfold db_wfb. rewrite !andb_true_iff. intros [[[[]]]]. split; by apply table_wfb_spec.
Qed.

Lemma sample_wf : db_wf sample_db.
Proof. apply db_wfb_spec. vm_compute. reflexivity. Qed.

(** ** Fetching the deployment *)

Section retirement.
Context {env : Env} {S : Sorter} {U : Unicode} (d : Deployer).

(** In a well-formed database the project and the service are found. *)
Lemma fk_lookup {R} (m : gmap UUID R) c : fk_required m c = true -> exists k r, c = Some k /\ m !! k = Some r.
Proof.
  destruct c as [k|]; [|done]. simpl. destruct (m !! k) eqn:E; [|done]. eauto.
Qed.

(** The part of [ReconcileDeployment] after the three fetches. *)
Definition reconcile_fetched (fuel : nat) (deploymentID : UUID) (dep : Deployment) (proj : Project)
    (service : option Service) : M unit :=
  let desired := effectiveReplicaCount proj service dep in
  let! volume := wrap "fetch project volume" (projectVolumeForDeployment dep) in
  match volume with
  | Some _ =>
      if String.eqb dep.(dep_DeploymentKind) "preview" then failPreviewVolumeDeployment dep
      else
        let desired := if 1 <? desired then 1 else desired in
        if negb (dep_live dep) then reconcileTerminalDeployment d dep
        else converge d fuel deploymentID dep proj service desired volume
  | None =>
      if negb (dep_live dep) then reconcileTerminalDeployment d dep
      else converge d fuel deploymentID dep proj service desired None
  end.

(** The fetches answer, and nothing else has happened yet. *)
Lemma reconcile_fetches (Hq : quiet env) fuel id dep w :
  db_wf (w_db w) -> id <> uuid_Nil -> db_deployments (w_db w) !! id = Some dep ->
  exists proj service w1, w_db w1 = w_db w /\
    ReconcileDeployment d fuel id w = reconcile_fetched fuel id dep proj service w1.
Proof.
  intros Hwf Hid Hdep. destruct (wf_deployments _ Hwf id dep Hdep) as [_ Hok].
  unfold t_deployments in Hok; simpl in Hok. unfold deployment_ok in Hok.
  rewrite !andb_true_iff in Hok. destruct Hok as [[[[[[Hproj Hsvc] _] _] _] _] _].
  apply fk_lookup in Hproj as (p & proj & Hp & Hproj).
  unfold ReconcileDeployment, ToPgtype. rewrite decide_False by done.
  rewrite (bind_ret _ _ _ dep (tick w)) by (by apply wrap_ret, quiet_read, deployment_by_id).
  rewrite (bind_ret _ _ _ proj (tick (tick w)))
    by (rewrite Hp; by apply wrap_ret, quiet_read, project_by_id).
  destruct (dep_ServiceID dep) as [s|] eqn:Es.
  - simpl in Hsvc. destruct (db_services (w_db w) !! s) as [svc|] eqn:E; [|done].
    exists proj, (Some svc), (tick (tick (tick w))). split; [done|].
    rewrite (bind_ret _ _ _ (Some svc) (tick (tick (tick w)))); [done|].
    by rewrite (bind_ret _ _ _ svc (tick (tick (tick w)))) by (by apply wrap_ret, quiet_read, service_by_id).
  - by exists proj, None, (tick (tick w)).
Qed.

(** ** The volume of a deployment *)

(** [vol] is the volume row the deployment's lookup finds. *)
Definition finds_volume (db : Db) (dep : Deployment) (vol : ProjectVolume) : Prop :=
  match dep.(dep_ServiceID) with
  | Some _ => ProjectVolumeFindByServiceID dep.(dep_ServiceID) 0 db
  | None => ProjectVolumeFindByProjectID dep.(dep_ProjectID) 0 db
  end = inr vol.

(** The lookup returns the row, or an error, and changes nothing. *)
Lemma volume_lookup dep vol w :
  finds_volume (w_db w) dep vol -> isProjectVolumeTransitionalStatus vol.(vol_Status) = false ->
  (exists e, projectVolumeForDeployment dep w = (Err e, tick w)) \/
  projectVolumeForDeployment dep w = (Ret (Some (vol, persistentVolumeMountFromRow vol)), tick w).
Proof.
  intros Hv Ht. unfold projectVolumeForDeployment, finds_volume, bind, attempt in *.
  destruct (dep_ServiceID dep) as [s|];
    match goal with |- context [query ?f w] => destruct (query_cases f w) as [(a & Ha & ->)|(e & -> & He)] end;
    [|destruct He as [He|[? ->]]| |destruct He as [He|[? ->]]];
    unfold ProjectVolumeFindByServiceID, ProjectVolumeFindByProjectID in *; simplify_eq/=;
    try (left; by eexists); try congruence; right;
    assert (a = vol) as -> by congruence; by rewrite Ht.
Qed.

(** ** A preview with a volume *)

Inductive preview_fail_stmt : forall A, writes A -> Prop :=
  | pf_status p st e : preview_fail_stmt _ (ProjectVolumeUpdateStatus p st e)
  | pf_failed id : preview_fail_stmt _ (DeploymentUpdateFailedAt id).
Hint Constructors preview_fail_stmt : runs.

(** The two tables that hold what runs. *)
Definition instance_tables (db : Db) : gmap UUID DeploymentInstance * gmap UUID Vm :=
  (db_instances db, db_vms db).

Lemma fail_preview_instances dep w :
  instance_tables (w_db (failPreviewVolumeDeployment dep w).2) = instance_tables (w_db w).
Proof.
  apply (runs_same preview_fail_stmt).
  - intros db db' (A & s & t & a & Hs & H). destruct Hs.
    + unfold ProjectVolumeUpdateStatus, update_volume in H. invert_stmt. done.
    + unfold DeploymentUpdateFailedAt in H. by invert_stmt.
  - unfold failPreviewVolumeDeployment. solve_runs.
Qed.

(** ** A terminal deployment *)

Lemma quiet_volume (Hq : quiet env) dep w :
  (forall k v, db_volumes (w_db w) !! k = Some v -> isProjectVolumeTransitionalStatus (vol_Status v) = false) ->
  exists v, projectVolumeForDeployment dep w = (Ret v, tick w).
Proof.
  intros Ht. unfold projectVolumeForDeployment, bind, attempt.
  destruct (dep_ServiceID dep) as [s|]; rewrite quiet_query by done;
    unfold ProjectVolumeFindByServiceID, ProjectVolumeFindByProjectID, first_row;
    (destruct (rows _ _) as [|v l] eqn:E; [by eexists|];
     assert (v ∈ v :: l) as Hv by constructor; rewrite <- E in Hv;
     apply elem_of_rows in Hv as [_ [k Hk]]; rewrite (Ht k v Hk); by eexists).
Qed.

Inductive vm_delete_stmt : forall A, writes A -> Prop :=
  | vd_delete id : vm_delete_stmt _ (VMSoftDelete id).
Hint Constructors vm_delete_stmt : runs.

(** The VM of the deployment itself, after its instances. *)
Definition delete_own_vm (dep : Deployment) : M unit :=
  match dep.(dep_VmID) with
  | None => ret tt
  | Some _ =>
      let! r := attempt (query (VMFirstByID dep.(dep_VmID))) in
      match r with
      | inr vm => if is_null vm.(vm_DeletedAt) then ignore (exec (VMSoftDelete dep.(dep_VmID))) else ret tt
      | inl _ => ret tt
      end
  end.

Lemma vm_statements_keep_instances {A} (m : M A) w :
  runs vm_delete_stmt m -> db_instances (w_db (m w).2) = db_instances (w_db w).
Proof.
  apply (runs_same vm_delete_stmt).
  intros db db' (A' & s & t & a & Hs & H). destruct Hs. unfold VMSoftDelete in H. by invert_stmt.
Qed.

(** The instances of deployment [id] are dead after [cleaned], others as before. *)
Lemma cleaned_deployment id l w w' :
  db_wf (w_db w) -> DeploymentInstanceFindByDeploymentID (Some id) (sql_now w) (w_db w) = inr l ->
  cleaned w l w' ->
  (forall k i, db_instances (w_db w') !! k = Some i -> inst_DeploymentID i = Some id -> inst_live i = false) /\
  (forall k i, db_instances (w_db w) !! k = Some i -> inst_DeploymentID i <> Some id ->
               db_instances (w_db w') !! k = Some i).
Proof.
  intros Hwf Hl [Hwf' Hev Hnew _ Hdone Hoth].
  pose proof (listed_instances _ _ _ _ Hl) as Hin. split.
  - intros k i' Hk Hi. destruct (db_instances (w_db w) !! k) as [i|] eqn:E; [|by rewrite Hnew in Hk].
    destruct (dbe_instances _ _ Hev k i E) as (j & Hj & [Hident _ Hdead]). simplify_eq.
    destruct (inst_live i) eqn:Elive; [|by apply Hdead].
    destruct (Hdone i k) as (r & Hr & Hlive); [|by apply (wf_instances _ Hwf k i E)|by simplify_eq].
    apply Hin. split; [|by eauto].
    assert (inst_DeploymentID i = Some id) as -> by congruence. simpl. by apply bool_decide_eq_true.
  - intros k i Hk Hi. rewrite Hoth; [done|]. intros x (Hdep & _ & kx & Hx)%Hin Hid.
    destruct (wf_instances _ Hwf kx x Hx) as [Hidx _].
    assert (kx = k) as -> by congruence. simplify_eq. apply Hi.
    destruct (inst_DeploymentID i); simpl in Hdep; [|done].
    by apply bool_decide_eq_true in Hdep as ->.
Qed.

Lemma terminal_quiet (Hq : quiet env) id dep w :
  db_wf (w_db w) -> dep_ID dep = Some id ->
  exists l w1 w', DeploymentInstanceFindByDeploymentID (Some id) (sql_now w) (w_db w) = inr l /\
    cleaned w l w1 /\ reconcileTerminalDeployment d dep w = (Ret tt, w') /\
    db_instances (w_db w') = db_instances (w_db w1).
Proof.
  intros Hwf Hid.
  destruct (cleanup_all_cleaned d Hq (Some id) w Hwf) as (l & w1 & Hl & Hw1 & Hcl).
  exists l, w1, (delete_own_vm dep w1).2. split; [done|]. split; [done|]. split.
  - unfold reconcileTerminalDeployment. rewrite Hid, (bind_ret _ _ _ _ _ Hw1).
    apply returns_unit. unfold delete_own_vm. solve_returns.
  - apply vm_statements_keep_instances. unfold delete_own_vm. solve_runs.
Qed.

(** ** Promotion *)

(** No live instance of deployment [k]. *)
Definition no_live (k : UUID) (db : Db) : Prop :=
  forall j i, db_instances db !! j = Some i -> inst_DeploymentID i = Some k -> inst_live i = false.

Definition no_new_instances (db db' : Db) : Prop :=
  forall j, db_instances db !! j = None -> db_instances db' !! j = None.

Lemma no_live_evolves k db db' :
  db_evolves db db' -> no_new_instances db db' -> no_live k db -> no_live k db'.
Proof.
  intros Hev Hnew Hk j i' Hj Hi. destruct (db_instances db !! j) as [i|] eqn:E; [|by rewrite Hnew in Hj].
  destruct (dbe_instances _ _ Hev j i E) as (i2 & Hi2 & [Hident _ Hdead]). simplify_eq.
  apply Hdead, (Hk j i E). congruence.
Qed.

(** The last two steps of a drained deployment. *)
Definition stop_deployment (o : Deployment) : M unit :=
  do! (match o.(dep_VmID) with
       | Some _ => ignore (exec (VMSoftDelete o.(dep_VmID)))
       | None => ret tt
       end) ;
  ignore (exec (DeploymentMarkStopped o.(dep_ID))).

Lemma mark_stopped_done (Hq : quiet env) k r w :
  db_wf (w_db w) -> db_deployments (w_db w) !! k = Some r ->
  exists r', db_deployments (w_db (ignore (exec (DeploymentMarkStopped (Some k))) w).2) !! k = Some r' /\
             is_null (dep_StoppedAt r') = false.
Proof.
  intros Hwf Hk. rewrite settles_ignore by apply np_exec. simpl.
  rewrite quiet_exec by done. unfold DeploymentMarkStopped, executing, update_row. simpl.
  rewrite Hk. simpl. destruct (wf_deployments _ Hwf k r Hk) as [_ Hok].
  assert (deployment_ok (w_db w) k (set_dep_UpdatedAt (Some (sql_now w))
            (set_dep_StoppedAt (Some (sql_now w)) r)) = true) as -> by exact Hok.
  simpl. rewrite lookup_insert_eq. by eexists.
Qed.

Inductive stop_stmt : forall A, writes A -> Prop :=
  | ss_vm id : stop_stmt _ (VMSoftDelete id)
  | ss_mark id : stop_stmt _ (DeploymentMarkStopped id).
Hint Constructors stop_stmt : runs.

Lemma stop_deployment_instances o w : db_instances (w_db (stop_deployment o w).2) = db_instances (w_db w).
Proof.
  apply (runs_same stop_stmt); [|unfold stop_deployment; solve_runs].
  intros db db' (A & s & t & a & Hs & H).
  destruct Hs; [unfold VMSoftDelete in H|unfold DeploymentMarkStopped in H]; by invert_stmt.
Qed.

Lemma stop_deployment_done (Hq : quiet env) o k r w :
  db_wf (w_db w) -> dep_ID o = Some k -> db_deployments (w_db w) !! k = Some r ->
  exists r', db_deployments (w_db (stop_deployment o w).2) !! k = Some r' /\
             is_null (dep_StoppedAt r') = false.
Proof.
  intros Hwf Hid Hk. unfold stop_deployment.
  match goal with |- context [bind ?m _ w] => set (m1 := m) end.
  assert (dep_runs m1) as Hm1 by (unfold m1; solve_runs).
  rewrite after_step by (unfold m1; solve_returns). rewrite Hid.
  destruct (dbe_deployments _ _ (runs_evolves m1 w Hm1) k r Hk) as (r1 & Hr1 & _).
  eapply mark_stopped_done; [done|by apply runs_wf|done].
Qed.

Record drained (w0 : World) (done : list Deployment) (w : World) : Prop := {
  dr_wf : db_wf (w_db w);
  dr_evolves : db_evolves (w_db w0) (w_db w);
  dr_no_new : no_new_instances (w_db w0) (w_db w);
  dr_done : forall o k, o ∈ done -> dep_ID o = Some k ->
    no_live k (w_db w) /\
    exists r, db_deployments (w_db w) !! k = Some r /\ is_null (dep_StoppedAt r) = false
}.

Lemma drain_step (Hq : quiet env) w0 done o w :
  db_wf (w_db w0) -> drained w0 done w -> (exists k, db_deployments (w_db w0) !! k = Some o) ->
  exists w', (do! cleanupDeploymentAllInstances d o.(dep_ID) ; stop_deployment o) w = (Ret tt, w') /\
             drained w0 (o :: done) w'.
Proof.
  intros Hwf0 [Hwf Hev Hnew Hdone] [k Hk]. destruct (wf_deployments _ Hwf0 k o Hk) as [Hid _].
  destruct (cleanup_all_cleaned d Hq (Some k) w Hwf) as (l & w1 & Hl & Hw1 & Hcl).
  destruct (cleaned_deployment k l w w1 Hwf Hl Hcl) as [Hdead _].
  destruct Hcl as [Hwf1 Hev1 Hnew1 _ _ _].
  exists (stop_deployment o w1).2. rewrite Hid, (bind_ret _ _ _ _ _ Hw1).
  split; [apply returns_unit; unfold stop_deployment; solve_returns|].
  assert (dep_runs (stop_deployment o)) as Hruns by (unfold stop_deployment; solve_runs).
  pose proof (runs_evolves _ w1 Hruns) as Hev2.
  assert (no_new_instances (w_db w) (w_db (stop_deployment o w1).2)) as Hnew2.
  { intros j Hj. rewrite stop_deployment_instances. by apply Hnew1. }
  destruct (dbe_deployments _ _ (transitivity Hev Hev1) k o Hk) as (r1 & Hr1 & _).
  split.
  - by apply runs_wf.
  - etrans; [exact Hev|]. by etrans.
  - intros j Hj. apply Hnew2. by apply Hnew.
  - intros o' k' [->|Ho']%elem_of_cons Hid'.
    + assert (k' = k) as -> by congruence. split; [|by eapply stop_deployment_done].
      intros j i. rewrite stop_deployment_instances. apply Hdead.
    + destruct (Hdone o' k' Ho' Hid') as [Hno (r & Hr & Hst)].
      assert (db_evolves (w_db w) (w_db (stop_deployment o w1).2)) as Hev3 by (by etrans).
      split; [by eapply no_live_evolves|].
      destruct (dbe_deployments _ _ Hev3 k' r Hr) as (r' & Hr' & [_ _ Hs _]). exists r'. auto.
Qed.

Lemma drain_quiet (Hq : quiet env) cur w :
  db_wf (w_db w) ->
  exists old w', DeploymentFindRunningAndOlder (dep_ProjectID cur) (dep_ID cur) (sql_now w) (w_db w) = inr old /\
    drainOldDeployments d cur w = (Ret tt, w') /\ drained w old w'.
Proof.
  intros Hwf. unfold drainOldDeployments, bind at 1, attempt. rewrite quiet_query by done.
  unfold DeploymentFindRunningAndOlder. set (old := sort_by _ _). exists old.
  destruct (for_each_invariant (drained w)
    (fun o => do! cleanupDeploymentAllInstances d o.(dep_ID) ; stop_deployment o) old)
    with (done := @nil Deployment) (w := tick w) as (w' & Hw' & Hdr).
  - intros o done w1 Hd Ho. apply drain_step; [done..|].
    unfold old in Ho. rewrite sort_by_elem, elem_of_rows in Ho. by destruct Ho.
  - split; [done|done|by intros j|by intros ?? ?%not_elem_of_nil].
  - exists w'. split; [done|]. split; [exact Hw'|]. rewrite app_nil_r in Hdr.
    destruct Hdr as [? ? ? Hd]. split; try done. intros o k Ho. apply Hd. by apply elem_of_rev.
Qed.

End retirement.

(** Promoting a deployment stops every other running production deployment
    of the project, of whichever service and whether older or newer, and leaves
    none of their instances alive (when the database answers). *)
Theorem drain_stops_whole_project (env : Env) (S : Sorter) (d : Deployer) (cur : Deployment)
    (k : UUID) (o : Deployment) (w : World) :
  quiet env -> db_wf (w_db w) -> is_Some (dep_ID cur) -> is_Some (dep_ProjectID cur) ->
  db_deployments (w_db w) !! k = Some o ->
  dep_ProjectID o = dep_ProjectID cur -> dep_ID cur <> Some k ->
  dep_DeploymentKind o = "production" -> not_null (dep_RunningAt o) = true -> dep_live o = true ->
  exists w' o', drainOldDeployments d cur w = (Ret tt, w') /\
    db_deployments (w_db w') !! k = Some o' /\ is_null (dep_StoppedAt o') = false /\ no_live k (w_db w').
Proof.
  intros Hq Hwf [c Hc] [p Hp] Hk Hproj Hne Hkind Hrun Hlive.
  destruct (drain_quiet d Hq cur w Hwf) as (old & w' & Hold & Hw' & Hdr).
  destruct (wf_deployments _ Hwf k o Hk) as [Hid _].
  assert (o ∈ old) as Hin.
  { injection Hold as <-. apply sort_by_elem, elem_of_rows. split; [|by eauto].
    rewrite Hproj, Hp, Hkind, Hrun, Hlive, Hc, Hid. simpl.
    rewrite !bool_decide_eq_true_2 by done. rewrite bool_decide_eq_false_2; [done|]. congruence. }
  destruct (dr_done _ _ _ Hdr o k Hin Hid) as [Hno (o' & Ho' & Hst)]. eauto 10.
Qed.

(** When the database answers, reconciling a terminal (stopped, failed or
    deleted) production deployment succeeds and leaves it without a live
    instance, and the instances of all other deployments as they were. *)
Theorem terminal_reconcile_complete (env : Env) (S : Sorter) (U : Unicode) (d : Deployer)
    (fuel : nat) (id : UUID) (dep : Deployment) (w : World) :
  quiet env -> db_wf (w_db w) -> id <> uuid_Nil -> db_deployments (w_db w) !! id = Some dep ->
  dep_live dep = false -> dep_DeploymentKind dep = "production" ->
  (forall k v, db_volumes (w_db w) !! k = Some v -> isProjectVolumeTransitionalStatus (vol_Status v) = false) ->
  exists w', ReconcileDeployment d fuel id w = (Ret tt, w') /\
    (forall k i, db_instances (w_db w') !! k = Some i -> inst_DeploymentID i = Some id -> inst_live i = false) /\
    (forall k i, db_instances (w_db w) !! k = Some i -> inst_DeploymentID i <> Some id ->
                 db_instances (w_db w') !! k = Some i).
Proof.
  intros Hq Hwf Hid Hdep Hlive Hkind Hvol.
  destruct (reconcile_fetches d Hq fuel id dep w Hwf Hid Hdep) as (proj & svc & w1 & Hw1 & ->).
  destruct (wf_deployments _ Hwf id dep Hdep) as [HdepID _].
  rewrite <- Hw1 in Hwf, Hvol. rewrite <- Hw1. clear Hw1 Hdep.
  destruct (quiet_volume Hq dep w1 Hvol) as [v Hv].
  unfold reconcile_fetched. rewrite (bind_ret _ _ _ _ _ (wrap_ret _ _ _ _ _ Hv)), Hkind, Hlive.
  destruct (terminal_quiet d Hq id dep (tick w1) Hwf HdepID) as (l & w2 & w' & Hl & Hcl & Hw' & Hsame).
  exists w'. split; [by destruct v|]. rewrite Hsame.
  by apply (cleaned_deployment id l (tick w1) w2).
Qed.

(** A preview deployment whose project has a volume never loses its
    instances: even when it is stopped, failed or deleted, and in every
    environment, reconciling it leaves all instances and VMs as they are,
    because the volume check returns before the check for a terminal
    deployment. *)
Theorem preview_volume_keeps_instances (env : Env) (S : Sorter) (U : Unicode) (d : Deployer)
    (fuel : nat) (id : UUID) (dep : Deployment) (vol : ProjectVolume) (w : World) :
  id <> uuid_Nil -> db_deployments (w_db w) !! id = Some dep ->
  dep_DeploymentKind dep = "preview" -> finds_volume (w_db w) dep vol ->
  isProjectVolumeTransitionalStatus (vol_Status vol) = false ->
  instance_tables (w_db (ReconcileDeployment d fuel id w).2) = instance_tables (w_db w).
Proof.
  intros Hid Hdep Hkind Hvol Ht. unfold ReconcileDeployment, ToPgtype. rewrite decide_False by done.
  match goal with |- context [bind (wrap _ (query ?f)) ?k w] =>
    destruct (fetch_cases "fetch deployment" f k w) as [[e ->]|(x & Hx & ->)] end; [done|].
  rewrite (deployment_by_id _ _ _ _ Hdep) in Hx. simplify_eq.
  match goal with |- context [bind (wrap _ (query ?f)) ?k ?w1] =>
    destruct (fetch_cases "fetch project" f k w1) as [[e ->]|(proj & _ & ->)] end; [done|].
  assert (forall svc w1, w_db w1 = w_db w ->
    instance_tables (w_db (reconcile_fetched d fuel id x proj svc w1).2) = instance_tables (w_db w)) as Hrest.
  { intros svc w1 Hw1. unfold reconcile_fetched. rewrite <- Hw1 in Hvol. rewrite <- Hw1.
    destruct (volume_lookup x vol w1 Hvol Ht) as [[e He]|Hv].
    - unfold bind, wrap. by rewrite He.
    - rewrite (bind_ret _ _ _ _ _ (wrap_ret _ _ _ _ _ Hv)). rewrite Hkind.
      apply (fail_preview_instances x (tick w1)). }
  destruct (dep_ServiceID x) as [s|]; [|by apply (Hrest None (tick (tick w)))].
  unfold bind at 1 2.
  match goal with |- context [wrap _ (query ?f) ?w1] =>
    destruct (query_cases f w1) as [(a & ? & Ha)|(e & He & _)] end.
  - rewrite (wrap_ret _ _ _ _ _ Ha). by apply (Hrest (Some a) (tick (tick (tick w)))).
  - unfold wrap. by rewrite He.
Qed.

(** ** Witnesses *)

(** A stopped preview deployment with a running instance, in a project with a volume. *)
Definition sample_volume : ProjectVolume :=
  mkProjectVolume (Some 80%N) (Some 1%N) (Some 20%N) (Some 30%N) None "/data" 10 "ext4" "available" "healthy"
    "" 0 false "" None (Some 1) (Some 1).

Definition sample_preview : Deployment :=
  mkDeployment (Some 14%N) (Some 1%N) (Some 20%N) (Some 50%N) (Some 40%N) None None "abcdef0123" "pr" "preview"
    None None false false (Some 5) (Some 6) None None None (Some 1) (Some 1).

Definition preview_db : Db :=
  set_volumes {[ 80%N := sample_volume ]}
    (set_deployments (<[ 14%N := sample_preview ]> (db_deployments sample_db))
      (set_instances (<[ 75%N := sample_instance 75 14 30 60 "active" "running" 9 ]> (db_instances sample_db))
        sample_db)).

Lemma sample_quiet : quiet sample_env.
Proof. by intros n. Qed.

Lemma reconcile_wf_witness : db_wf (w_db (ReconcileDeployment sample_deployer 10 13%N sample_world).2).
Proof. apply (reconcile_wf sample_env insertion_sorter sample_unicode sample_deployer 10 13%N sample_world sample_wf). Defined.

Lemma preview_volume_keeps_instances_witness :
  dep_live sample_preview = false /\
  instance_tables (w_db (ReconcileDeployment sample_deployer 5 14%N (mkWorld preview_db 2000 0 None [])).2)
    = instance_tables preview_db.
Proof.
  split; [reflexivity|].
  apply (preview_volume_keeps_instances _ _ _ _ 5 14%N sample_preview sample_volume
           (mkWorld preview_db 2000 0 None [])); [done|reflexivity|reflexivity|vm_compute; reflexivity|reflexivity].
Defined.

Lemma terminal_reconcile_complete_witness :
  exists w', ReconcileDeployment sample_deployer 5 12%N sample_world = (Ret tt, w') /\
    (forall k i, db_instances (w_db w') !! k = Some i -> inst_DeploymentID i = Some 12%N -> inst_live i = false) /\
    (forall k i, db_instances sample_db !! k = Some i -> inst_DeploymentID i <> Some 12%N ->
                 db_instances (w_db w') !! k = Some i).
Proof.
  apply (terminal_reconcile_complete _ _ _ _ 5 12%N (sample_deployment 12 20 (Some 50%N) (Some 40%N) (Some 2) (Some 3))
           sample_world sample_quiet sample_wf); [done|reflexivity..|].
  intros k v. simpl. by rewrite lookup_empty.
Defined.

(** Promoting deployment 13 of service web stops deployment 11 of service api. *)
Lemma drain_stops_whole_project_witness :
  exists w' o', drainOldDeployments sample_deployer (sample_deployment 13 20 (Some 50%N) None None None) sample_world
      = (Ret tt, w') /\
    db_deployments (w_db w') !! 11%N = Some o' /\ is_null (dep_StoppedAt o') = false /\ no_live 11%N (w_db w').
Proof.
  apply (drain_stops_whole_project _ _ sample_deployer (sample_deployment 13 20 (Some 50%N) None None None) 11%N
           (sample_deployment 11 21 (Some 50%N) (Some 40%N) (Some 6) None) sample_world sample_quiet sample_wf);
    [eauto|eauto|reflexivity|reflexivity|done|reflexivity..].
Defined.
