(* ===== verification/Scheduler.v ===== *)
(** * The reconciliation scheduler

    internal/reconciler/reconciler.go.  The goroutines of a scheduler (the tick
    loop, the workers, the callers of [Schedule]) are interleaved: a [label] is
    one atomic step of one of them, [step] executes it when it is enabled, and
    a run is a list of labels.  The mutex is held from the start of
    [dispatchDue] to its end, while workers may receive from the channel in
    between, so [dispatchDue] is one step per map entry.  Go visits the entries
    of a map in any order: the order is part of the label. *)

From S2P Require Import Prelude.

Definition defaultRetryAfter : Duration := 5 * Second.
Definition defaultReconcileAfter : Duration := Hour.
Definition workCapacity : nat := 100.

Record Config := mkConfig {
  cfg_Workers : Z;
  cfg_RetryAfter : Duration;
  cfg_DefaultAfter : Duration
}.

(** The maps, the channel, the ids held by workers, and the rest of an ongoing
    [dispatchDue] (its time and the entries left to visit). *)
Record Scheduler := mkScheduler {
  workers : Z;
  schedule : gmap UUID Time;
  running : gset UUID;
  work : list UUID;
  retryAfter : Duration;
  defaultAfter : Duration;
  inflight : list UUID;
  dispatching : option (Time * list UUID);
  closed : bool
}.

Definition New (cfg : Config) : Scheduler :=
  mkScheduler (if cfg.(cfg_Workers) <=? 0 then 5 else cfg.(cfg_Workers)) ∅ ∅ []
    (if cfg.(cfg_RetryAfter) <=? 0 then defaultRetryAfter else cfg.(cfg_RetryAfter))
    (if cfg.(cfg_DefaultAfter) <=? 0 then defaultReconcileAfter else cfg.(cfg_DefaultAfter))
    [] None false.

(** Replacing the parts that change. *)
Definition with_maps (sch : gmap UUID Time) (run : gset UUID) (q : list UUID) (s : Scheduler) : Scheduler :=
  mkScheduler s.(workers) sch run q s.(retryAfter) s.(defaultAfter) s.(inflight) s.(dispatching) s.(closed).
Definition with_work (q fl : list UUID) (s : Scheduler) : Scheduler :=
  mkScheduler s.(workers) s.(schedule) s.(running) q s.(retryAfter) s.(defaultAfter) fl s.(dispatching) s.(closed).
Definition with_dispatching (o : option (Time * list UUID)) (s : Scheduler) : Scheduler :=
  mkScheduler s.(workers) s.(schedule) s.(running) s.(work) s.(retryAfter) s.(defaultAfter) s.(inflight) o s.(closed).
Definition with_closed (s : Scheduler) : Scheduler :=
  mkScheduler s.(workers) s.(schedule) s.(running) s.(work) s.(retryAfter) s.(defaultAfter) s.(inflight)
    s.(dispatching) true.

Definition Schedule (id : UUID) (at_ : Time) (s : Scheduler) : Scheduler :=
  with_maps (<[id := at_]> s.(schedule)) s.(running) s.(work) s.

Definition ScheduleNow (id : UUID) (now : Time) (s : Scheduler) : Scheduler := Schedule id now s.

(** An entry [dispatchDue] tries to send. *)
Definition due (now : Time) (id : UUID) (s : Scheduler) : bool :=
  match s.(schedule) !! id with
  | Some at_ => negb (IsZero at_ || After at_ now) && negb (bool_decide (id ∈ s.(running)))
  | None => false
  end.

(** The body of the loop of [dispatchDue]. *)
Definition dispatch_entry (now : Time) (id : UUID) (s : Scheduler) : Scheduler :=
  if due now id s then
    if (length s.(work) <? workCapacity)%nat
    then with_maps (<[id := 0]> s.(schedule)) ({[ id ]} ∪ s.(running)) (s.(work) ++ [id]) s
    else with_maps (<[id := now + Second]> s.(schedule)) s.(running) s.(work) s
  else s.

(** [dispatchDue] when no worker receives meanwhile. *)
Definition dispatchDue (now : Time) (order : list UUID) (s : Scheduler) : Scheduler :=
  foldl (fun s id => dispatch_entry now id s) s order.

(** The critical section of [worker] after [s.reconcile] returned. *)
Definition worker_done (id : UUID) (failed : bool) (now : Time) (s : Scheduler) : Scheduler :=
  let run := s.(running) ∖ {[ id ]} in
  if failed then with_maps (<[id := now + s.(retryAfter)]> s.(schedule)) run s.(work) s
  else if IsZero (default 0 (s.(schedule) !! id))
  then with_maps (<[id := now + s.(defaultAfter)]> s.(schedule)) run s.(work) s
  else with_maps s.(schedule) run s.(work) s.

(** ** Interleaving *)

Inductive label :=
  | LSchedule (id : UUID) (at_ : Time)
  | LTick (now : Time) (order : list UUID)
  | LVisit
  | LUnlock
  | LTake
  | LFinish (id : UUID) (failed : bool) (now : Time)
  | LStop.

Definition unlocked (s : Scheduler) : bool := bool_decide (s.(dispatching) = None).

(** The first occurrence of [x] removed. *)
Fixpoint remove_one (x : UUID) (l : list UUID) : list UUID :=
  match l with
  | [] => []
  | y :: l' => if decide (x = y) then l' else y :: remove_one x l'
  end.

(** [None]: the step is not enabled. *)
Definition step (l : label) (s : Scheduler) : option Scheduler :=
  match l with
  | LSchedule id at_ => if unlocked s then Some (Schedule id at_ s) else None
  | LTick now order =>
      if unlocked s && negb s.(closed) && bool_decide (order ≡ₚ elements (dom s.(schedule)))
      then Some (with_dispatching (Some (now, order)) s) else None
  | LVisit =>
      match s.(dispatching) with
      | Some (now, id :: rest) => Some (with_dispatching (Some (now, rest)) (dispatch_entry now id s))
      | _ => None
      end
  | LUnlock =>
      match s.(dispatching) with
      | Some (_, []) => Some (with_dispatching None s)
      | _ => None
      end
  | LTake =>
      match s.(work) with
      | id :: rest =>
          if Z.of_nat (length s.(inflight)) <? s.(workers)
          then Some (with_work rest (id :: s.(inflight)) s) else None
      | [] => None
      end
  | LFinish id failed now =>
      if unlocked s && bool_decide (id ∈ s.(inflight))
      then Some (worker_done id failed now (with_work s.(work) (remove_one id s.(inflight)) s)) else None
  | LStop => if unlocked s && negb s.(closed) then Some (with_closed s) else None
  end.

Fixpoint run (ls : list label) (s : Scheduler) : option Scheduler :=
  match ls with
  | [] => Some s
  | l :: ls' => match step l s with Some s' => run ls' s' | None => None end
  end.

(** ** Invariant *)

(** An id is marked running exactly when it is queued or held by one worker. *)
Record sched_inv (s : Scheduler) : Prop := {
  si_once : NoDup (s.(work) ++ s.(inflight));
  si_running : forall id, id ∈ s.(running) <-> id ∈ s.(work) ++ s.(inflight);
  si_capacity : (length s.(work) <= workCapacity)%nat;
  si_workers : Z.of_nat (length s.(inflight)) <= s.(workers);
  si_known : forall id, id ∈ s.(running) -> is_Some (s.(schedule) !! id)
}.

Lemma remove_one_perm x l : x ∈ l -> x :: remove_one x l ≡ₚ l.
Proof.
  induction l as [|y l IH]; simpl; intros Hx; [by apply not_elem_of_nil in Hx|].
  destruct (decide (x = y)) as [->|Hne]; [done|].
  apply elem_of_cons in Hx as [?|Hx]; [done|]. rewrite <- (IH Hx) at 2. apply Permutation_swap.
Qed.

Lemma New_inv cfg : sched_inv (New cfg).
Proof.
  split; simpl; [constructor| |lia| |].
  - intros id. rewrite elem_of_empty. by rewrite elem_of_nil.
  - case_match eqn:E; [lia|]. apply Z.leb_gt in E. lia.
  - intros id. by rewrite elem_of_empty.
Qed.

Lemma Schedule_inv id at_ s : sched_inv s -> sched_inv (Schedule id at_ s).
Proof.
  intros []; split; simpl; try done. intros j Hj.
  destruct (decide (id = j)) as [->|]; [by rewrite lookup_insert_eq|].
  rewrite lookup_insert_ne by done. auto.
Qed.

Lemma dispatch_entry_inv now id s : sched_inv s -> sched_inv (dispatch_entry now id s).
Proof.
  intros [Hnd Hrun Hcap Hw Hknown]. unfold dispatch_entry. destruct (due now id s) eqn:Hdue; [|by split].
  assert (forall t, forall j, j ∈ running s -> is_Some (<[id := t]> (schedule s) !! j)) as Hk.
  { intros t j Hj. destruct (decide (id = j)) as [->|]; [by rewrite lookup_insert_eq|].
    rewrite lookup_insert_ne by done. auto. }
  case_match eqn:Hroom; [|split; simpl; try done; apply Hk].
  apply Nat.ltb_lt in Hroom. unfold due in Hdue.
  destruct (schedule s !! id) as [t|] eqn:Et; [|done].
  apply andb_true_iff in Hdue as [_ Hnot]. apply negb_true_iff, bool_decide_eq_false in Hnot.
  assert (work s ++ [id] ++ inflight s ≡ₚ id :: work s ++ inflight s) as Hperm
    by (by rewrite Permutation_middle).
  split; simpl.
  - rewrite <- app_assoc, Hperm. constructor; [by rewrite <- Hrun|done].
  - intros j. rewrite <- app_assoc, Hperm, elem_of_cons, elem_of_union, elem_of_singleton. by rewrite Hrun.
  - rewrite length_app. simpl. lia.
  - done.
  - intros j [->%elem_of_singleton|Hj]%elem_of_union; [by rewrite lookup_insert_eq|by apply Hk].
Qed.

Lemma take_inv id rest s :
  work s = id :: rest -> Z.of_nat (length (inflight s)) < workers s -> sched_inv s ->
  sched_inv (with_work rest (id :: inflight s) s).
Proof.
  intros Hwork Hfree [Hnd Hrun Hcap Hw Hknown]. rewrite Hwork in *.
  assert (rest ++ id :: inflight s ≡ₚ (id :: rest) ++ inflight s) as Hperm
    by (simpl; by rewrite Permutation_middle).
  split; simpl in *; [by rewrite Hperm| |lia|lia|done]. intros j. by rewrite Hperm.
Qed.

Lemma finish_inv id failed now s :
  id ∈ inflight s -> sched_inv s ->
  sched_inv (worker_done id failed now (with_work (work s) (remove_one id (inflight s)) s)).
Proof.
  intros Hin [Hnd Hrun Hcap Hw Hknown].
  pose proof (remove_one_perm id (inflight s) Hin) as Hperm.
  assert (work s ++ inflight s ≡ₚ id :: work s ++ remove_one id (inflight s)) as Hall
    by (rewrite <- Hperm at 1; by rewrite Permutation_middle).
  rewrite Hall in Hnd. apply NoDup_cons in Hnd as [Hfresh Hnd].
  assert (forall sch, (forall j, is_Some (schedule s !! j) -> is_Some (sch !! j)) ->
    sched_inv (with_maps sch (running s ∖ {[ id ]}) (work s)
                 (with_work (work s) (remove_one id (inflight s)) s))) as Hgoal.
  { intros sch Hsch. split; simpl; [done| |done| |].
    - intros j. rewrite elem_of_difference, elem_of_singleton, Hrun, Hall, elem_of_cons.
      split; [tauto|]. intros Hj. split; [by right|]. intros ->. done.
    - apply Permutation_length in Hperm. simpl in Hperm. lia.
    - intros j [Hj _]%elem_of_difference. by apply Hsch, Hknown. }
  assert (forall t j, is_Some (schedule s !! j) -> is_Some (<[id := t]> (schedule s) !! j)) as Hk.
  { intros t j Hj. destruct (decide (id = j)) as [->|]; [by rewrite lookup_insert_eq|].
    by rewrite lookup_insert_ne. }
  unfold worker_done. simpl. repeat case_match; apply Hgoal; auto.
Qed.

Lemma step_inv l s s' : step l s = Some s' -> sched_inv s -> sched_inv s'.
Proof.
  intros Hs Hinv. destruct l; simpl in Hs.
  - case_match; simplify_eq. by apply Schedule_inv.
  - case_match; simplify_eq. by destruct Hinv.
  - destruct (dispatching s) as [[t [|u rest]]|]; simplify_eq.
    by destruct (dispatch_entry_inv t u s Hinv).
  - repeat case_match; simplify_eq. by destruct Hinv.
  - repeat case_match; simplify_eq. apply take_inv; [done| |done]. by apply Z.ltb_lt.
  - case_match eqn:E; simplify_eq. apply andb_true_iff in E as [_ E%bool_decide_eq_true]. by apply finish_inv.
  - case_match; simplify_eq. by destruct Hinv.
Qed.

Lemma run_inv ls s s' : run ls s = Some s' -> sched_inv s -> sched_inv s'.
Proof.
  revert s; induction ls as [|l ls IH]; simpl; intros s Hr Hinv; [by simplify_eq|].
  destruct (step l s) as [s1|] eqn:E; [|done]. eauto using step_inv.
Qed.

(** ** Nothing is forgotten *)

(** The times a step reads or is given are not the zero time, and stay so when
    the delays are added. *)
Definition label_ok (s : Scheduler) (l : label) : Prop :=
  match l with
  | LSchedule _ at_ => at_ <> 0
  | LTick now _ => 0 < now
  | LFinish _ _ now => 0 < now
  | _ => True
  end.

(** A known entity that is not running has a time at which it is due, so a
    later tick will dispatch it. *)
Record kept (s : Scheduler) : Prop := {
  kp_inv : sched_inv s;
  kp_delays : 0 < s.(retryAfter) /\ 0 < s.(defaultAfter);
  kp_tick : forall now ids, s.(dispatching) = Some (now, ids) -> 0 < now;
  kp_scheduled : forall id, schedule s !! id = Some 0 -> id ∈ s.(running)
}.

Lemma New_kept cfg : kept (New cfg).
Proof.
  split; [apply New_inv| |done|by intros id; simpl; rewrite lookup_empty].
  simpl. unfold defaultRetryAfter, defaultReconcileAfter, Hour, Minute, Second.
  split; case_match eqn:E; try lia; apply Z.leb_gt in E; lia.
Qed.

Lemma kept_dispatch now id s :
  0 < now -> kept s -> forall j, schedule (dispatch_entry now id s) !! j = Some 0 -> j ∈ running (dispatch_entry now id s).
Proof.
  intros Hnow [_ _ _ Hs] j. unfold dispatch_entry. destruct (due now id s); [|apply Hs].
  case_match; simpl.
  - rewrite elem_of_union, elem_of_singleton.
    intros [[-> _]|[_ Hj]]%lookup_insert_Some; [by left|right; auto].
  - intros [[_ Ht]|[_ Hj]]%lookup_insert_Some; [unfold Second in Ht; lia|auto].
Qed.

Lemma dispatch_entry_config now id s :
  retryAfter (dispatch_entry now id s) = retryAfter s /\
  defaultAfter (dispatch_entry now id s) = defaultAfter s.
Proof. unfold dispatch_entry. by repeat case_match. Qed.

Lemma kept_done id failed now s :
  0 < now -> kept s -> id ∈ inflight s ->
  kept (worker_done id failed now (with_work (work s) (remove_one id (inflight s)) s)).
Proof.
  intros Hnow [Hinv Hd Ht Hs] Hin. split; [by apply finish_inv|..];
    unfold worker_done; simpl; repeat case_match; simpl; try done; try apply Ht; intros j Hj.
  all: rewrite elem_of_difference, elem_of_singleton.
  - apply lookup_insert_Some in Hj as [[_ ?]|[? Hj]]; [lia|]. split; [auto|done].
  - apply lookup_insert_Some in Hj as [[_ ?]|[? Hj]]; [lia|]. split; [auto|done].
  - split; [auto|]. intros ->. by rewrite Hj in *.
Qed.

Lemma step_kept l s s' : step l s = Some s' -> label_ok s l -> kept s -> kept s'.
Proof.
  intros Hs Hl Hk. pose proof (step_inv _ _ _ Hs (kp_inv _ Hk)) as Hinv.
  destruct l; simpl in Hs, Hl.
  - case_match; simplify_eq. destruct Hk as [_ Hd Ht Hsch]. split; simpl; try done.
    intros j [[_ ?]|[_ ?]]%lookup_insert_Some; [done|auto].
  - case_match; simplify_eq. destruct Hk as [_ Hd Ht Hsch]. split; simpl; try done. by intros ?? [= <- _].
  - destruct (dispatching s) as [[t [|u rest]]|] eqn:E; simplify_eq.
    pose proof (dispatch_entry_config t u s) as [Hr Hdf].
    assert (0 < t) as Hnow by (by eapply kp_tick).
    split; simpl; [done| |by intros ?? [= <- _]|by apply kept_dispatch].
    rewrite Hr, Hdf. apply Hk.
  - repeat case_match; simplify_eq. by destruct Hk; split.
  - repeat case_match; simplify_eq. by destruct Hk; split.
  - case_match eqn:E; simplify_eq. apply andb_true_iff in E as [_ E%bool_decide_eq_true]. by apply kept_done.
  - case_match; simplify_eq. by destruct Hk; split.
Qed.

(** A run whose times are sensible. *)
Fixpoint run_ok (ls : list label) (s : Scheduler) : Prop :=
  match ls with
  | [] => True
  | l :: ls' => label_ok s l /\ match step l s with Some s' => run_ok ls' s' | None => True end
  end.

Lemma run_kept ls s s' : run ls s = Some s' -> run_ok ls s -> kept s -> kept s'.
Proof.
  revert s; induction ls as [|l ls IH]; simpl; intros s Hr Hok Hk; [by simplify_eq|].
  destruct Hok as [Hl Hok]. destruct (step l s) as [s1|] eqn:E; [|done]. eauto using step_kept.
Qed.

Lemma step_known l s s' id : step l s = Some s' -> is_Some (schedule s !! id) -> is_Some (schedule s' !! id).
Proof.
  assert (forall (m : gmap UUID Time) j t, is_Some (m !! id) -> is_Some (<[j := t]> m !! id)) as Hins.
  { intros m j t Hm. destruct (decide (j = id)) as [->|]; [by rewrite lookup_insert_eq|].
    by rewrite lookup_insert_ne. }
  intros Hs Hk. destruct l; simpl in Hs; repeat case_match; simplify_eq; simpl; auto;
    unfold dispatch_entry, worker_done; repeat case_match; simpl; auto.
Qed.

Lemma run_known ls s s' id : run ls s = Some s' -> is_Some (schedule s !! id) -> is_Some (schedule s' !! id).
Proof.
  revert s; induction ls as [|l ls IH]; simpl; intros s Hr Hk; [by simplify_eq|].
  destruct (step l s) as [s1|] eqn:E; [|done]. eauto using step_known.
Qed.

Lemma run_scheduled ls s s' id at_ :
  run ls s = Some s' -> LSchedule id at_ ∈ ls -> is_Some (schedule s' !! id).
Proof.
  revert s; induction ls as [|l ls IH]; simpl; intros s Hr Hin; [by apply not_elem_of_nil in Hin|].
  destruct (step l s) as [s1|] eqn:E; [|done].
  apply elem_of_cons in Hin as [<-|Hin]; [|by eauto].
  eapply run_known; [done|]. simpl in E. case_match; simplify_eq. simpl. by rewrite lookup_insert_eq.
Qed.

(** ** A whole tick *)

(** The labels of a [dispatchDue] that no worker interrupts. *)
Definition tick_labels (now : Time) (order : list UUID) : list label :=
  LTick now order :: replicate (length order) LVisit ++ [LUnlock].

Lemma run_app ls1 ls2 s : run (ls1 ++ ls2) s = match run ls1 s with Some s' => run ls2 s' | None => None end.
Proof.
  revert s; induction ls1 as [|l ls1 IH]; simpl; intros s; [done|]. by destruct (step l s).
Qed.

Lemma dispatch_entry_dispatching now id s o :
  dispatch_entry now id (with_dispatching o s) = with_dispatching o (dispatch_entry now id s).
Proof. unfold dispatch_entry, due. simpl. by repeat case_match. Qed.

Lemma run_visits now order s :
  run (replicate (length order) LVisit ++ [LUnlock]) (with_dispatching (Some (now, order)) s) =
  Some (with_dispatching None (dispatchDue now order s)).
Proof.
  revert s; induction order as [|id order IH]; intros s; simpl; [done|].
  rewrite dispatch_entry_dispatching. exact (IH (dispatch_entry now id s)).
Qed.

Lemma dispatch_entry_unlocked now id s : dispatching s = None -> dispatching (dispatch_entry now id s) = None.
Proof. intros H. unfold dispatch_entry. by repeat case_match. Qed.

Lemma dispatchDue_unlocked now order s : dispatching s = None -> dispatching (dispatchDue now order s) = None.
Proof.
  revert s; induction order; intros s Hs; simpl; [done|]. by apply IHorder, dispatch_entry_unlocked.
Qed.

Lemma with_dispatching_same s : dispatching s = None -> with_dispatching None s = s.
Proof. destruct s; simpl; by intros ->. Qed.

Lemma run_tick now order s :
  dispatching s = None -> closed s = false -> order ≡ₚ elements (dom (schedule s)) ->
  run (tick_labels now order) s = Some (dispatchDue now order s).
Proof.
  intros Hd Hc Ho. unfold tick_labels. simpl. unfold unlocked.
  rewrite (bool_decide_eq_true_2 _ Hd), Hc, (bool_decide_eq_true_2 _ Ho). simpl.
  rewrite run_visits. by rewrite with_dispatching_same by (by apply dispatchDue_unlocked).
Qed.

Lemma due_other now id j s : id <> j -> due now j (dispatch_entry now id s) = due now j s.
Proof.
  intros Hne. unfold dispatch_entry. destruct (due now id s); [|done]. unfold due.
  destruct (length (work s) <? workCapacity)%nat; simpl; rewrite lookup_insert_ne by done; [|done].
  destruct (schedule s !! j); [|done]. do 2 f_equal. apply bool_decide_ext. set_solver.
Qed.

Lemma dispatch_keeps_running now order s id :
  id ∈ running s -> id ∈ running (dispatchDue now order s).
Proof.
  revert s; induction order as [|x order IH]; intros s Hid; simpl; [done|].
  apply IH. unfold dispatch_entry. repeat case_match; simpl; set_solver.
Qed.

(** With room for all due entries, each of them is sent. *)
Lemma dispatchDue_sends now order s id :
  NoDup order -> (length (work s) + length (List.filter (fun j => due now j s) order) <= workCapacity)%nat ->
  id ∈ order -> due now id s = true -> id ∈ running (dispatchDue now order s).
Proof.
  revert s; induction order as [|x order IH]; intros s Hnd Hroom Hin Hdue; [by apply not_elem_of_nil in Hin|].
  apply NoDup_cons in Hnd as [Hx Hnd].
  assert (List.filter (fun j => due now j (dispatch_entry now x s)) order =
          List.filter (fun j => due now j s) order) as Hfilter.
  { apply filter_ext_in. intros j Hj%list_elem_of_In. apply due_other. by intros ->. }
  apply elem_of_cons in Hin as [->|Hin]; simpl in *.
  - rewrite Hdue in Hroom. simpl in Hroom. apply dispatch_keeps_running.
    unfold dispatch_entry. rewrite Hdue. rewrite (proj2 (Nat.ltb_lt _ _)) by lia. simpl. set_solver.
  - apply IH; [done| |done|by rewrite due_other by (by intros ->)]. rewrite Hfilter.
    unfold dispatch_entry. destruct (due now x s); [|done].
    case_match; simpl in *; [rewrite length_app; simpl; lia|lia].
Qed.

(** ** Claims *)

(** C3: In every interleaving of ticks, workers, callers and shutdown, an
    entity is queued or reconciled at most once at a time, [running] marks
    exactly the entities that are, the channel holds at most 100 ids and at
    most [workers] reconciliations are in flight. *)
Theorem scheduler_exclusive (cfg : Config) (ls : list label) (s : Scheduler) :
  run ls (New cfg) = Some s -> sched_inv s.
Proof. intros Hr. eapply run_inv; [done|apply New_inv]. Qed.

(** A tick dispatches every due entity, whatever order the map is visited
    in, as long as the channel has room for them: after it each entity whose
    time has come and that was not running is running. *)
Theorem tick_dispatches_due (s : Scheduler) (now : Time) (order : list UUID) (id : UUID) :
  dispatching s = None -> closed s = false -> order ≡ₚ elements (dom (schedule s)) ->
  (length (work s) + length (List.filter (fun j => due now j s) order) <= workCapacity)%nat ->
  due now id s = true ->
  exists s', run (tick_labels now order) s = Some s' /\ dispatching s' = None /\ id ∈ running s'.
Proof.
  intros Hd Hc Ho Hroom Hdue. exists (dispatchDue now order s).
  split; [by apply run_tick|]. split; [by apply dispatchDue_unlocked|].
  apply dispatchDue_sends; [|done| |done].
  - rewrite Ho. apply NoDup_elements.
  - rewrite Ho, elem_of_elements, elem_of_dom. unfold due in Hdue.
    destruct (schedule s !! id); [eauto|done].
Qed.

(** C36: No scheduled entity is forgotten: in every interleaving, an entity for
    which [Schedule] was ever called is running or has a time, after failures and
    after a full channel too; and a tick from that time on, that finds the
    scheduler not stopped and room in the channel for the entities that are due,
    sends it to the workers. *)
Theorem scheduler_never_forgets (cfg : Config) (ls : list label) (s : Scheduler) (id : UUID) (at_ : Time) :
  run ls (New cfg) = Some s -> run_ok ls (New cfg) -> LSchedule id at_ ∈ ls ->
  id ∈ running s \/
  exists t, t <> 0 /\ schedule s !! id = Some t /\
    forall now order, t <= now -> dispatching s = None -> closed s = false -> order ≡ₚ elements (dom (schedule s)) ->
      (length (work s) + length (List.filter (fun j => due now j s) order) <= workCapacity)%nat ->
      exists s', run (tick_labels now order) s = Some s' /\ id ∈ running s' /\ id ∈ work s' ++ inflight s'.
Proof.
  intros Hr Hok Hin. destruct (run_scheduled _ _ _ _ _ Hr Hin) as [t Ht].
  destruct (decide (id ∈ running s)) as [|Hn]; [by left|right]. exists t.
  assert (t <> 0) as Ht0. { intros ->. apply Hn. eapply kp_scheduled; [|exact Ht]. eapply run_kept; [done..|apply New_kept]. }
  split; [done|]. split; [done|]. intros now order Hle Hd Hc Ho Hroom.
  assert (due now id s = true) as Hdue.
  { unfold due, IsZero, After. rewrite Ht, (proj2 (Z.eqb_neq _ _) Ht0), (proj2 (Z.ltb_ge _ _) Hle), bool_decide_eq_false_2 by done. done. }
  destruct (tick_dispatches_due s now order id Hd Hc Ho Hroom Hdue) as (s' & Hs' & _ & Hrun). exists s'. split; [done|]. split; [done|].
  assert (sched_inv s) as Hinv by (eapply run_inv; [exact Hr|apply New_inv]). assert (sched_inv s') as Hinv' by (eapply run_inv; [exact Hs'|done]).
  by apply (si_running _ Hinv').
Qed.

(** A schedule set while an entity is being reconciled survives a
    successful reconciliation: the entity is next due at the time asked for,
    not after the default interval. *)
Theorem success_keeps_new_schedule (s : Scheduler) (id : UUID) (at_ now : Time) :
  dispatching s = None -> id ∈ inflight s -> at_ <> 0 ->
  exists s', run [LSchedule id at_; LFinish id false now] s = Some s' /\ schedule s' !! id = Some at_.
Proof.
  intros Hd Hin Hat. eexists. split.
  - simpl. unfold unlocked. rewrite (bool_decide_eq_true_2 _ Hd). simpl. rewrite (bool_decide_eq_true_2 _ Hd). simpl.
    rewrite (bool_decide_eq_true_2 _ Hin). reflexivity.
  - unfold worker_done. simpl. rewrite lookup_insert_eq. simpl.
    unfold IsZero. rewrite (proj2 (Z.eqb_neq _ _) Hat). simpl. by rewrite lookup_insert_eq.
Qed.

(** A failed reconciliation replaces a schedule that was set while it was
    in flight: the entity is next due after the retry delay, whatever time (the
    present included) was asked for. *)
Theorem failure_replaces_new_schedule (s : Scheduler) (id : UUID) (at_ now : Time) :
  dispatching s = None -> id ∈ inflight s ->
  exists s', run [LSchedule id at_; LFinish id true now] s = Some s' /\
    schedule s' !! id = Some (now + retryAfter s).
Proof.
  intros Hd Hin. eexists. split.
  - simpl. unfold unlocked. rewrite (bool_decide_eq_true_2 _ Hd). simpl. rewrite (bool_decide_eq_true_2 _ Hd). simpl.
    rewrite (bool_decide_eq_true_2 _ Hin). reflexivity.
  - simpl. by rewrite lookup_insert_eq.
Qed.

(** ** Witnesses *)

Definition sample_config : Config := mkConfig 2 0 0.

(** Two entities scheduled, dispatched, one taken and failed, one in the queue. *)
Definition sample_run : list label :=
  [LSchedule 7%N 100; LSchedule 8%N 100] ++ tick_labels 200 [7%N; 8%N] ++ [LTake; LFinish 7%N true 300].

Definition sample_state : Scheduler := default (New sample_config) (run sample_run (New sample_config)).

(** The same with entity 7 still in flight. *)
Definition sample_inflight : Scheduler :=
  default (New sample_config) (run (take 7 sample_run) (New sample_config)).

Lemma scheduler_exclusive_witness : sched_inv sample_state /\ work sample_state = [8%N].
Proof.
  split; [|reflexivity]. apply (scheduler_exclusive sample_config sample_run). vm_compute. reflexivity.
Defined.

Lemma scheduler_never_forgets_witness :
  7%N ∈ running sample_state \/ exists t s', schedule sample_state !! 7%N = Some t /\
    run (tick_labels (t + 1) [8%N; 7%N]) sample_state = Some s' /\ 7%N ∈ work s' ++ inflight s'.
Proof.
  destruct (scheduler_never_forgets sample_config sample_run sample_state 7%N 100) as [H|(t & _ & Ht & H)].
  - vm_compute. reflexivity.
  - simpl. repeat split; lia.
  - constructor.
  - by left.
  - right. destruct (H (t + 1) [8%N; 7%N]) as (s' & H1 & _ & H2).
    + lia.
    + vm_compute. reflexivity.
    + vm_compute. reflexivity.
    + vm_compute. reflexivity.
    + vm_compute in Ht. injection Ht as <-. vm_compute. repeat constructor.
    + exists t, s'. split; [exact Ht|]. split; [exact H1|exact H2].
Defined.

Lemma tick_dispatches_due_witness :
  exists s', run (tick_labels 200 [7%N]) (Schedule 7%N 100 (New sample_config)) = Some s' /\
    dispatching s' = None /\ 7%N ∈ running s'.
Proof.
  apply (tick_dispatches_due (Schedule 7%N 100 (New sample_config)) 200 [7%N] 7%N); try reflexivity.
  vm_compute. lia.
Defined.

Lemma success_keeps_new_schedule_witness :
  exists s', run [LSchedule 7%N 250; LFinish 7%N false 300] sample_inflight = Some s' /\
    schedule s' !! 7%N = Some 250.
Proof.
  apply (success_keeps_new_schedule sample_inflight 7%N 250 300); [reflexivity| |lia].
  vm_compute. constructor.
Defined.

Lemma failure_replaces_new_schedule_witness :
  exists s', run [LSchedule 7%N 250; LFinish 7%N true 300] sample_inflight = Some s' /\
    schedule s' !! 7%N = Some (300 + 5 * Second).
Proof.
  apply (failure_replaces_new_schedule sample_inflight 7%N 250 300); [reflexivity|].
  vm_compute. constructor.
Defined.
