(* ===== verification/RateLimit.v ===== *)
(** * Rate limiting

    internal/ratelimit/ratelimit.go: fixed windows per client address, the
    cleanup of expired buckets, and the HTTP middleware.  The clock is an
    argument of each operation; the calls are serialised by the mutex. *)

From S2P Require Import Prelude NetAddr.

Record bucket := mkBucket { count : Z; windowStart : Time }.

Record Limiter := mkLimiter {
  buckets : gmap string bucket;
  limit : Z;
  window : Duration
}.

Definition New (limit : Z) (window : Duration) : Limiter := mkLimiter ∅ limit window.

Definition with_buckets (m : gmap string bucket) (l : Limiter) : Limiter :=
  mkLimiter m l.(limit) l.(window).

(** [Time.Unix]: whole seconds since 1970; the zero time is in year 1. *)
Definition Unix (t : Time) : Z := t / Second - 62135596800.

(** [!ok || now.Sub(b.windowStart) >= l.window]. *)
Definition expired (l : Limiter) (now : Time) (b : bucket) : bool :=
  l.(window) <=? time_Sub now b.(windowStart).

Definition Allow (ip : string) (now : Time) (l : Limiter) : (bool * Z * Z) * Limiter :=
  let fresh :=
    ((true, l.(limit) - 1, Unix (now + l.(window))),
     with_buckets (<[ip := mkBucket 1 now]> l.(buckets)) l) in
  match l.(buckets) !! ip with
  | None => fresh
  | Some b =>
      if expired l now b then fresh
      else
        let b' := mkBucket (b.(count) + 1) b.(windowStart) in
        let remaining := l.(limit) - b'.(count) in
        let resetUnix := Unix (b.(windowStart) + l.(window)) in
        let l' := with_buckets (<[ip := b']> l.(buckets)) l in
        if l.(limit) <? b'.(count) then ((false, 0, resetUnix), l')
        else ((true, if remaining <? 0 then 0 else remaining, resetUnix), l')
  end.

Definition cleanup (now : Time) (l : Limiter) : Limiter :=
  with_buckets (filter (fun '(_, b) => expired l now b = false) l.(buckets)) l.

Definition BucketCount (l : Limiter) : Z := Z.of_nat (size l.(buckets)).

(** ** Middleware *)

(** [extractIP], from [r.RemoteAddr]. *)
Definition extractIP (addr : string) : string :=
  if String.eqb addr "" then ""
  else if Contains addr ":" then
    match SplitHostPort addr with
    | Some (host, _) => host
    | None => addr
    end
  else addr.

(** The headers set on every response and what follows: the next handler, or
    429 with the seconds of Retry-After. *)
Record Response := mkResponse {
  hdr_Limit : Z;
  hdr_Remaining : Z;
  hdr_Reset : Z;
  rejected : option Z
}.

(** [now2] is the clock when the rejection is written. *)
Definition Middleware (remoteAddr : string) (now now2 : Time) (l : Limiter) : Response * Limiter :=
  let '((allowed, remaining, resetUnix), l') := Allow (extractIP remoteAddr) now l in
  let retryAfter := resetUnix - Unix now2 in
  (mkResponse l.(limit) remaining resetUnix
     (if allowed then None else Some (if retryAfter <? 1 then 1 else retryAfter)), l').

(** [None]: the request is not a target and passes through. *)
Definition PathMiddleware (targets : gmap string bool) (method path remoteAddr : string) (now now2 : Time)
    (l : Limiter) : option Response * Limiter :=
  if default false (targets !! (method +:+ " " +:+ path))
  then let '(r, l') := Middleware remoteAddr now now2 l in (Some r, l')
  else (None, l).

(** ** A sequence of requests *)

Inductive op := Request (ip : string) (now : Time) | Cleanup (now : Time).

Definition op_time (o : op) : Time := match o with Request _ t | Cleanup t => t end.

(** The limiter after [ops], with the decisions on the requests of [ip]. *)
Fixpoint decisions (ip : string) (ops : list op) (l : Limiter) : list bool :=
  match ops with
  | [] => []
  | Request ip' now :: ops' =>
      let '((ok, _, _), l') := Allow ip' now l in
      if String.eqb ip' ip then ok :: decisions ip ops' l' else decisions ip ops' l'
  | Cleanup now :: ops' => decisions ip ops' (cleanup now l)
  end.

Definition allowed_count (l : list bool) : Z := Z.of_nat (length (List.filter id l)).

(** ** Lemmas *)

(** The windows in use: positive and representable. *)
Definition window_ok (l : Limiter) : Prop := 0 < l.(window) <= max_int64.

Lemma expired_spec l now b :
  window_ok l -> expired l now b = (window l <=? now - windowStart b).
Proof.
  intros [Hpos Hmax]. unfold expired, time_Sub, max_int64, min_int64 in *.
  apply Bool.eq_true_iff_eq. rewrite !Z.leb_le. lia.
Qed.

Lemma cleanup_lookup now l ip :
  buckets (cleanup now l) !! ip =
  match buckets l !! ip with Some b => if expired l now b then None else Some b | None => None end.
Proof.
  simpl. rewrite map_lookup_filter. destruct (buckets l !! ip) as [b|]; simpl; [|done].
  destruct (expired l now b) eqn:E; [by rewrite option_guard_False by congruence|].
  by rewrite option_guard_True.
Qed.

Lemma Allow_config ip now l : limit (Allow ip now l).2 = limit l /\ window (Allow ip now l).2 = window l.
Proof. unfold Allow. by repeat case_match. Qed.

(** A request only touches its own bucket. *)
Lemma Allow_other ip ip' now l : ip <> ip' -> buckets (Allow ip now l).2 !! ip' = buckets l !! ip'.
Proof. intros Hne. unfold Allow. by repeat case_match; simpl; rewrite lookup_insert_ne. Qed.

(** The two ways a request is decided. *)
Lemma Allow_own ip now l :
  buckets (Allow ip now l).2 !! ip = Some (mkBucket 1 now) /\ (Allow ip now l).1.1.1 = true \/
  exists b, buckets l !! ip = Some b /\ expired l now b = false /\
    buckets (Allow ip now l).2 !! ip = Some (mkBucket (count b + 1) (windowStart b)) /\
    (Allow ip now l).1.1.1 = (count b + 1 <=? limit l).
Proof.
  unfold Allow. destruct (buckets l !! ip) as [b|] eqn:Eb; [|left; simpl; by rewrite lookup_insert_eq].
  destruct (expired l now b) eqn:Ex; [left; simpl; by rewrite lookup_insert_eq|].
  right. exists b. simpl. case_match eqn:E; simpl; rewrite lookup_insert_eq.
  - apply Z.ltb_lt in E. do 3 (split; [done|]). symmetry. apply Z.leb_gt. lia.
  - apply Z.ltb_ge in E. do 3 (split; [done|]). symmetry. by apply Z.leb_le.
Qed.

Lemma allowed_count_cons b l : allowed_count (b :: l) = (if b then 1 else 0) + allowed_count l.
Proof. unfold allowed_count. simpl. destruct b; simpl; lia. Qed.

Lemma allowed_count_nil : allowed_count [] = 0.
Proof. done. Qed.

(** Inside one window of [ip], what is left of the limit bounds what is allowed. *)
Lemma within_window ip ops l b :
  window_ok l -> buckets l !! ip = Some b -> 1 <= count b ->
  Forall (fun o => op_time o < windowStart b + window l) ops ->
  allowed_count (decisions ip ops l) <= Z.max 0 (limit l - count b).
Proof.
  revert l b; induction ops as [|o ops IH]; intros l b Hw Hb Hc Ht; [simpl; rewrite allowed_count_nil; lia|].
  apply Forall_cons in Ht as [Hto Ht].
  assert (expired l (op_time o) b = false) as Hex.
  { rewrite expired_spec by done. apply Z.leb_gt. lia. }
  destruct o as [ip' t|t]; simpl in *.
  - destruct (Allow ip' t l) as [[[ok ?] ?] l'] eqn:EA.
    pose proof (Allow_config ip' t l) as [HL HW]. rewrite EA in HL, HW. simpl in HL, HW.
    destruct (String.eqb_spec ip' ip) as [->|Hne].
    + destruct (Allow_own ip t l) as [[Hfresh _]|(b2 & Hb2 & _ & Hb' & Hok)].
      * unfold Allow in Hfresh, EA. rewrite Hb, Hex in *. simpl in Hfresh.
        destruct (limit l <? count b + 1); simpl in Hfresh; rewrite lookup_insert_eq in Hfresh;
          injection Hfresh as Hc1 Hc2; lia.
      * rewrite Hb in Hb2. injection Hb2 as <-. rewrite EA in Hb', Hok. simpl in Hb', Hok.
        rewrite allowed_count_cons.
        specialize (IH l' _ ltac:(unfold window_ok in *; by rewrite HW) Hb').
        simpl in IH. rewrite HL, HW in IH. specialize (IH ltac:(lia) Ht). subst ok.
        destruct (count b + 1 <=? limit l) eqn:E; [apply Z.leb_le in E|apply Z.leb_gt in E]; lia.
    + pose proof (Allow_other ip' ip t l Hne) as Ho. rewrite EA in Ho. simpl in Ho.
      specialize (IH l' b ltac:(unfold window_ok in *; by rewrite HW) ltac:(congruence) Hc).
      rewrite HL, HW in IH. auto.
  - apply (IH (cleanup t l) b); [done| |done|done]. by rewrite cleanup_lookup, Hb, Hex.
Qed.

(** In an interval as long as the window at most one new window starts. *)
Lemma within_interval ip ops l t :
  window_ok l -> 1 <= limit l -> StronglySorted (fun o o' => op_time o <= op_time o') ops ->
  Forall (fun o => t <= op_time o < t + window l) ops ->
  (forall b, buckets l !! ip = Some b -> 1 <= count b) ->
  allowed_count (decisions ip ops l) <=
    limit l + match buckets l !! ip with Some b => Z.max 0 (limit l - count b) | None => 0 end.
Proof.
  revert l; induction ops as [|o ops IH]; intros l Hw Hlim Hs Ht Hc.
  { simpl. rewrite allowed_count_nil. case_match; lia. }
  apply Forall_cons in Ht as [Hto Ht]. apply StronglySorted_inv in Hs as [Hs Hle].
  destruct o as [ip' t'|t']; simpl in *.
  - destruct (Allow ip' t' l) as [[[ok ?] ?] l'] eqn:EA.
    pose proof (Allow_config ip' t' l) as [HL HW]. rewrite EA in HL, HW. simpl in HL, HW.
    assert (window_ok l') as Hw' by (unfold window_ok in *; by rewrite HW).
    destruct (String.eqb_spec ip' ip) as [->|Hne].
    + rewrite allowed_count_cons.
      destruct (Allow_own ip t' l) as [[Hb' _]|(b & Hb & Hex & Hb' & Hok)].
      * rewrite EA in Hb'. simpl in Hb'.
        pose proof (within_window ip ops l' _ Hw' Hb' ltac:(simpl; lia)) as Hrest. simpl in Hrest.
        rewrite HL, HW in Hrest.
        assert (Forall (fun o => op_time o < t' + window l) ops) as Hin.
        { eapply Forall_impl; [exact Ht|]. simpl. lia. }
        specialize (Hrest Hin).
        destruct ok, (buckets l !! ip); lia.
      * rewrite EA in Hb', Hok. simpl in Hb', Hok. specialize (IH l' Hw').
        rewrite HL, HW, Hb' in IH. simpl in IH. rewrite Hb. specialize (Hc b Hb).
        assert (forall b0, Some (mkBucket (count b + 1) (windowStart b)) = Some b0 -> 1 <= count b0) as Hc'
          by (intros b0 [= <-]; simpl; lia).
        specialize (IH Hlim Hs Ht Hc').
        subst ok. destruct (count b + 1 <=? limit l) eqn:E; [apply Z.leb_le in E|apply Z.leb_gt in E]; lia.
    + pose proof (Allow_other ip' ip t' l Hne) as Ho. rewrite EA in Ho. simpl in Ho.
      specialize (IH l' Hw'). rewrite HL, HW, Ho in IH. auto.
  - specialize (IH (cleanup t' l) Hw Hlim Hs Ht). rewrite cleanup_lookup in IH. simpl in IH.
    destruct (buckets l !! ip) as [b|] eqn:Eb; [|apply IH; done].
    destruct (expired l t' b); [|by apply IH].
    assert (forall b0 : bucket, None = Some b0 -> 1 <= count b0) as Hnone by done.
    specialize (IH Hnone). lia.
Qed.

(** Every bucket counts at least the request that opened it. *)
Definition counted (l : Limiter) : Prop := forall ip b, buckets l !! ip = Some b -> 1 <= count b.

(** ** Claims *)

(** C40: However the requests of a client fall, and whatever other clients and
    the cleanup do meanwhile, at most [2 * limit] of them are let through in
    any interval as long as the window. *)
Theorem rate_bounded (ip : string) (ops : list op) (l : Limiter) (t : Time) :
  window_ok l -> 1 <= limit l -> counted l ->
  StronglySorted (fun o o' => op_time o <= op_time o') ops ->
  Forall (fun o => t <= op_time o < t + window l) ops ->
  allowed_count (decisions ip ops l) <= 2 * limit l.
Proof.
  intros Hw Hlim Hc Hs Ht.
  pose proof (within_interval ip ops l t Hw Hlim Hs Ht (Hc ip)) as H.
  destruct (buckets l !! ip) as [b|] eqn:E; [|lia]. specialize (Hc ip b E). lia.
Qed.

(** A client that stays within the limit is never turned away: in a window
    opened by its first request, every further request is let through until the
    limit is reached, and the next one is rejected. *)
Theorem window_exact (ip : string) (now : Time) (l : Limiter) (b : bucket) :
  buckets l !! ip = Some b -> expired l now b = false ->
  (Allow ip now l).1.1.1 = (count b <? limit l) /\
  buckets (Allow ip now l).2 !! ip = Some (mkBucket (count b + 1) (windowStart b)).
Proof.
  intros Hb Hex. unfold Allow. rewrite Hb, Hex. simpl.
  case_match eqn:E; simpl; rewrite lookup_insert_eq; (split; [|done]).
  - apply Z.ltb_lt in E. symmetry. apply Z.ltb_ge. lia.
  - apply Z.ltb_ge in E. symmetry. apply Z.ltb_lt. lia.
Qed.

(** The background cleanup is invisible: after removing the buckets that
    have expired at [t], every request at or after [t] gets the same answer
    (decision, remaining and reset) as without the cleanup. *)
Theorem cleanup_invisible (ip : string) (t now : Time) (l : Limiter) :
  window_ok l -> t <= now -> (Allow ip now (cleanup t l)).1 = (Allow ip now l).1.
Proof.
  intros Hw Hle. unfold Allow. rewrite cleanup_lookup.
  destruct (buckets l !! ip) as [b|] eqn:Eb; [|done].
  destruct (expired l t b) eqn:Et.
  - assert (expired l now b = true) as ->; [|done].
    rewrite expired_spec in * by done. apply Z.leb_le. apply Z.leb_le in Et. lia.
  - change (expired (cleanup t l) now b) with (expired l now b). destruct (expired l now b); [done|].
    simpl. by case_match.
Qed.

(** A rejected client that waits one second more than Retry-After says is
    let through, unless it sent other requests in between; Retry-After itself
    rounds the end of the window down to a whole second. *)
Theorem retry_after_sufficient (addr : string) (now now2 later : Time) (l : Limiter) (r : Response)
    (l' : Limiter) (n : Z) :
  window_ok l -> now <= now2 -> Middleware addr now now2 l = (r, l') -> rejected r = Some n ->
  now2 + (n + 1) * Second <= later -> (Allow (extractIP addr) later l').1.1.1 = true.
Proof.
  intros Hw Hle Hm Hr Hlater. unfold Middleware in Hm.
  destruct (Allow (extractIP addr) now l) as [[[ok rem] reset] l2] eqn:EA. simplify_eq. simpl in Hr.
  destruct ok; [done|]. injection Hr as Hr. pose proof (Allow_config (extractIP addr) now l) as [HL HW]. rewrite EA in HL, HW.
  simpl in HL, HW. unfold Allow in EA.
  destruct (buckets l !! extractIP addr) as [b|] eqn:Eb; [|done].
  destruct (expired l now b) eqn:Ex; [done|]. simpl in EA. destruct (limit l <? count b + 1); [|done].
  injection EA as _ <- <-.
  assert (Unix (windowStart b + window l) - Unix now2 <= n) as Hn
    by (destruct (_ <? 1) eqn:E in Hr; [apply Z.ltb_lt in E|]; lia).
  unfold Allow. simpl. rewrite lookup_insert_eq. rewrite expired_spec by done. simpl.
  assert ((window l <=? later - windowStart b) = true) as ->; [|done].
  unfold Unix, Second in *. apply Z.leb_le.
  pose proof (Z.div_mod (windowStart b + window l) 1000000000 ltac:(done)).
  pose proof (Z.mod_pos_bound (windowStart b + window l) 1000000000 ltac:(done)).
  pose proof (Z.mul_div_le now2 1000000000 ltac:(done)). lia.
Qed.

(** ** Witnesses *)

Definition sample_limiter : Limiter := New 2 (60 * Second).

(** A burst at the end of one window and the start of the next. *)
Definition sample_ops : list op :=
  [Request "10.0.0.9" (10 * Second); Request "10.0.0.9" (20 * Second); Cleanup (30 * Second);
   Request "10.0.0.9" (40 * Second)].

Lemma sample_window_ok : window_ok sample_limiter.
Proof. unfold window_ok. vm_compute. split; [reflexivity|discriminate]. Qed.

Lemma rate_bounded_witness :
  allowed_count (decisions "10.0.0.9" sample_ops sample_limiter) <= 2 * limit sample_limiter.
Proof.
  apply (rate_bounded "10.0.0.9" sample_ops sample_limiter 0 sample_window_ok); [done| | |].
  - intros ip b. simpl. by rewrite lookup_empty.
  - repeat constructor; vm_compute; discriminate.
  - repeat constructor; vm_compute; try discriminate; reflexivity.
Defined.

Definition opened_limiter : Limiter := (Allow "10.0.0.9" 0 sample_limiter).2.

Lemma window_exact_witness :
  (Allow "10.0.0.9" 5 opened_limiter).1.1.1 = (1 <? 2) /\
  buckets (Allow "10.0.0.9" 5 opened_limiter).2 !! "10.0.0.9" = Some (mkBucket 2 0).
Proof. apply (window_exact "10.0.0.9" 5 opened_limiter (mkBucket 1 0)); reflexivity. Defined.

Lemma cleanup_invisible_witness :
  (Allow "10.0.0.9" (70 * Second) (cleanup (65 * Second) opened_limiter)).1 =
  (Allow "10.0.0.9" (70 * Second) opened_limiter).1.
Proof.
  apply (cleanup_invisible "10.0.0.9" (65 * Second) (70 * Second) opened_limiter sample_window_ok).
  vm_compute. discriminate.
Defined.

Lemma retry_after_sufficient_witness :
  let l := (Allow "10.0.0.9" 1 opened_limiter).2 in
  (Allow "10.0.0.9" (61 * Second + 2) (Middleware "10.0.0.9:5000" 2 2 l).2).1.1.1 = true.
Proof.
  apply (retry_after_sufficient "10.0.0.9:5000" 2 2 (61 * Second + 2)
           (Allow "10.0.0.9" 1 opened_limiter).2 (Middleware "10.0.0.9:5000" 2 2 (Allow "10.0.0.9" 1 opened_limiter).2).1
           _ 60 sample_window_ok); vm_compute; (reflexivity || discriminate).
Defined.
