(* ===== verification/Migration.v ===== *)
(** * Live migration

    internal/migrationreconcile/reconcile.go: the handler that advances an
    instance migration, on the source and on the destination server. *)

From S2P Require Import Prelude NetAddr Models Runtime Effects Queries Lifecycle.

Definition migrationCutoverDeadline : Duration := 10 * Minute.

(** [Handler]; a nil pool, runtime, scheduler or hook is [false] or [None]. *)
Record Handler := mkHandler {
  h_pool : bool;
  h_rt : option Runtime;
  h_serverID : UUID;
  h_deployments : bool;
  h_notifyRoute : bool
}.

Definition chooseSharedRootfsRef (primary fallback : string) : string :=
  if negb (String.eqb (TrimSpace primary) "") then primary else fallback.

(** [err.Error()] of this package's [parseRuntimeAddress], up to the text of
    the library error it wraps. *)
Definition migration_addr_message (e : addr_error) : string :=
  match e with
  | empty_runtime_address => "empty runtime address"
  | parse_runtime_url => "parse runtime URL"
  | split_host_port_error hp => "split host port " +:+ go_quote hp
  | parse_host_ip h => "invalid host ip " +:+ go_quote h
  | parse_port p => "parse port " +:+ go_quote p
  | port_out_of_range p => "port out of range: " +:+ pretty p
  end.

Record liveMigrationWorkerMetadata := mkWorkerMetadata {
  wm_Runtime : string;
  wm_LiveMigrationEnabled : bool;
  wm_CloudHypervisorVersion : string;
  wm_SharedRootfsDir : string
}.

(** The first worker row decides. *)
Fixpoint liveMigrationWorkerMetadataFromStatuses (statuses : list ServerComponentStatus)
    : error + liveMigrationWorkerMetadata :=
  match statuses with
  | [] => inl (ErrMsg "destination server worker heartbeat is missing")
  | st :: rest =>
      if negb (String.eqb st.(scs_Component) "worker") then liveMigrationWorkerMetadataFromStatuses rest
      else
        match json_fields st.(scs_Metadata) with
        | None => inl (ErrMsg "unmarshal worker metadata")
        | Some raw =>
            inr (mkWorkerMetadata (TrimSpace (json_string_field "runtime" raw))
                   (json_bool_field "live_migration_enabled" raw)
                   (TrimSpace (json_string_field "cloud_hypervisor_version" raw))
                   (TrimSpace (json_string_field "shared_rootfs_dir" raw)))
        end
  end.

(** The version check of [sendFromSource]. *)
Definition version_mismatch (source destination : string) : bool :=
  negb (String.eqb source "") && negb (String.eqb destination "") && negb (String.eqb source destination).

Section migration.
Context {env : Env} {S : Sorter} (h : Handler).

(** [h.rt != nil && h.rt.Supports(CapabilityLiveMigration)]. *)
Definition migration_runtime : option Runtime :=
  match h.(h_rt) with
  | Some rt => if rt.(rt_Supports) CapabilityLiveMigration then Some rt else None
  | None => None
  end.

(** [if _, err := UpdateFailed(...); err != nil { return ... }; return nil]. *)
Definition fail_migration (mig : InstanceMigration) (ctx code msg : string) : M unit :=
  do! wrap ("persist failure (" +:+ ctx +:+ ")") (exec (InstanceMigrationUpdateFailed mig.(mig_ID) code msg)) ;
  ret tt.

Definition abort_target (rt : Runtime) (instanceID : UUID) : M unit :=
  do! extern (EvAbortTarget instanceID) (fun n => rt.(rt_AbortMigrationTarget) n instanceID) ; ret tt.

Definition prepareDestination (mig : InstanceMigration) (instanceID : UUID) : M unit :=
  match migration_runtime with
  | None =>
      fail_migration mig "unsupported_runtime" "unsupported_runtime"
        "live migration is not supported on this destination runtime"
  | Some rt =>
      let! server := wrap "fetch destination server" (query (ServerFindByID mig.(mig_DestinationServerID))) in
      let ip := TrimSpace server.(srv_InternalIp) in
      if negb (String.eqb server.(srv_Status) "active") then
        fail_migration mig "destination_inactive" "destination_inactive" "destination server is not active"
      else if in_list [""; "127.0.0.1"; "0.0.0.0"] ip then
        fail_migration mig "destination_internal_ip" "destination_internal_ip"
          "destination server has no usable internal IP for live migration"
      else
        let! r := extern (EvPrepareTarget instanceID) (fun n => rt.(rt_PrepareMigrationTarget) n instanceID) in
        match r with
        | inl e => fail_migration mig "destination_prepare" "destination_prepare" (error_Error e)
        | inr prepared =>
            match SplitHostPort prepared.(pmt_ReceiveAddr) with
            | None =>
                do! abort_target rt instanceID ;
                fail_migration mig "invalid receive addr" "destination_prepare"
                  ("invalid prepared receive address " +:+ go_quote prepared.(pmt_ReceiveAddr))
            | Some (_, portStr) =>
                let receiveAddr := JoinHostPort ip portStr in
                let! t := now in
                do! wrap "update migration prepared state"
                      (exec (InstanceMigrationUpdatePrepared mig.(mig_ID) receiveAddr
                               (Some (t + migrationCutoverDeadline)))) ;
                ret tt
            end
        end
  end.

Definition abortMigrationFromSource (mig : InstanceMigration) : M unit :=
  let msg := "migration did not complete within cutover deadline" in
  do! wrap "persist migration abort" (exec (InstanceMigrationUpdateAborted mig.(mig_ID) "cutover_timeout" msg)) ;
  do! wrap "persist fallback evacuation"
        (exec (InstanceMigrationUpdateFallbackEvacuating mig.(mig_ID) "cutover_timeout" msg)) ;
  ret tt.

(** The checks of the destination worker; [None] when it can receive. *)
Definition destination_refusal (source : MigrationMetadata) (dest : error + liveMigrationWorkerMetadata)
    : option (string * string * string) :=
  match dest with
  | inl e => Some ("destination_runtime", "destination_runtime", error_Error e)
  | inr meta =>
      if negb (String.eqb meta.(wm_Runtime) "cloud-hypervisor") then
        Some ("runtime check", "destination_runtime", "destination server worker runtime is not cloud-hypervisor")
      else if negb meta.(wm_LiveMigrationEnabled) then
        Some ("lm disabled", "destination_runtime", "destination server worker does not advertise live migration support")
      else if String.eqb meta.(wm_SharedRootfsDir) "" then
        Some ("shared_rootfs", "destination_runtime", "destination server worker does not advertise shared rootfs storage")
      else if version_mismatch source.(mm_Version) meta.(wm_CloudHypervisorVersion) then
        Some ("version_mismatch", "version_mismatch",
              "destination cloud-hypervisor version " +:+ go_quote meta.(wm_CloudHypervisorVersion) +:+
              " does not match source " +:+ go_quote source.(mm_Version))
      else None
  end.

(** The transfer itself. *)
Definition transfer (rt : Runtime) (mig : InstanceMigration) (instanceID : UUID) : M unit :=
  do! wrap "update migration to sending" (exec (InstanceMigrationUpdateSending mig.(mig_ID))) ;
  let req := mkSendRequest ("tcp:" +:+ TrimSpace mig.(mig_ReceiveAddr)) 300 3600 in
  let! r := extern (EvSend instanceID req) (fun n => rt.(rt_SendMigration) n instanceID req) in
  match r with
  | Some e => fail_migration mig "send_failed" "send_failed" (error_Error e)
  | None => do! wrap "update migration to received" (exec (InstanceMigrationUpdateReceived mig.(mig_ID))) ; ret tt
  end.

Definition sendFromSource (mig : InstanceMigration) (instanceID : UUID) : M unit :=
  match migration_runtime with
  | None => ret tt
  | Some rt =>
      let! inst := wrap "fetch deployment instance" (query (DeploymentInstanceFirstByID mig.(mig_DeploymentInstanceID))) in
      let! dep := wrap "fetch deployment" (query (DeploymentFirstByID inst.(inst_DeploymentID))) in
      let! v := attempt (query (ProjectVolumeFindByProjectID dep.(dep_ProjectID))) in
      match v with
      | inr _ =>
          fail_migration mig "unsupported_volume" "unsupported_volume"
            "live migration does not support workloads with persistent volumes yet"
      | inl e =>
          if negb (is_no_rows e) then throw (ErrWrap "check project volume" e)
          else
            let! vm := wrap "fetch source VM" (query (VMFirstByID mig.(mig_SourceVmID))) in
            if String.eqb (TrimSpace vm.(vm_SharedRootfsRef)) "" then
              fail_migration mig "shared_rootfs_missing" "shared_rootfs_missing"
                "source VM is missing a shared rootfs reference"
            else
              let! m := extern (EvMigrationMetadata instanceID) (fun n => rt.(rt_MigrationMetadata) n instanceID) in
              match m with
              | inl e => fail_migration mig "source_metadata" "source_metadata" (error_Error e)
              | inr sourceMeta =>
                  let! statuses := wrap "fetch destination server status"
                    (query (ServerComponentStatusFindByServerID mig.(mig_DestinationServerID))) in
                  match destination_refusal sourceMeta (liveMigrationWorkerMetadataFromStatuses statuses) with
                  | Some (ctx, code, msg) => fail_migration mig ctx code msg
                  | None => transfer rt mig instanceID
                  end
              end
      end
  end.

(** [_, _ = UpdateFallbackEvacuating(...); return nil]. *)
Definition fall_back (mig : InstanceMigration) (code msg : string) : M unit :=
  ignore (exec (InstanceMigrationUpdateFallbackEvacuating mig.(mig_ID) code msg)).

(** The transaction of [commitOnDestination]. *)
Definition commit_body (mig : InstanceMigration) (inst : DeploymentInstance) (sourceVM : Vm) (meta : StartMetadata)
    (ip : Addr) (port : Z) (runtimeURL : string) : M unit :=
  let! newVMID := new_uuid in
  let! newVM := wrap "create destination VM" (exec (VMCreate
        (mkVMCreate (ToPgtype newVMID) mig.(mig_DestinationServerID) sourceVM.(vm_ImageID) "running"
           sourceVM.(vm_Runtime) sourceVM.(vm_SnapshotRef)
           (chooseSharedRootfsRef meta.(sm_SharedRootfsRef) sourceVM.(vm_SharedRootfsRef)) None
           sourceVM.(vm_Vcpus) sourceVM.(vm_Memory) ip (Some (wrap32 port)) sourceVM.(vm_EnvVariables)))) in
  do! wrap "update instance server"
        (exec (DeploymentInstanceUpdateServer mig.(mig_DeploymentInstanceID) mig.(mig_DestinationServerID))) ;
  do! wrap "attach VM to instance"
        (exec (DeploymentInstanceAttachVM mig.(mig_DeploymentInstanceID) newVM.(vm_ID) inst.(inst_Status))) ;
  do! wrap "soft-delete source VM" (exec (VMSoftDelete mig.(mig_SourceVmID))) ;
  do! wrap "update migration completed" (exec (InstanceMigrationUpdateCompleted mig.(mig_ID) runtimeURL)) ;
  ret tt.

Definition commitOnDestination (mig : InstanceMigration) (instanceID : UUID) : M unit :=
  deref h.(h_rt) (fun rt =>
    let! r := extern (EvFinalize instanceID) (fun n => rt.(rt_FinalizeMigrationTarget) n instanceID) in
    match r with
    | inl e => fall_back mig "destination_finalize" (error_Error e)
    | inr (runtimeURL, meta) =>
        match migration_parseRuntimeAddress runtimeURL with
        | inl e => fall_back mig "destination_runtime_url" (migration_addr_message e)
        | inr (ip, port) =>
            let! inst := wrap "fetch deployment instance" (query (DeploymentInstanceFirstByID mig.(mig_DeploymentInstanceID))) in
            let! sourceVM := wrap "fetch source VM" (query (VMFirstByID mig.(mig_SourceVmID))) in
            if negb h.(h_pool) then panic
            else
              do! transaction "begin transaction"
                    (fun e =>
                       do! extern (EvStop instanceID) (fun n => rt.(rt_Stop) n instanceID) ;
                       throw (ErrWrap "commit migration transaction" e))
                    (commit_body mig inst sourceVM meta ip port runtimeURL) ;
              when h.(h_notifyRoute) (emit EvNotifyRoute)
        end
    end).

(** The cleanup in the final states. *)
Definition settle_final (mig : InstanceMigration) (instanceID : UUID) : M unit :=
  do! (if bool_decide (FromPgtype mig.(mig_DestinationServerID) = h.(h_serverID))
       then match migration_runtime with Some rt => abort_target rt instanceID | None => ret tt end
       else ret tt) ;
  if String.eqb mig.(mig_State) "fallback_evacuating" && h.(h_deployments) then
    let! r := attempt (query (DeploymentInstanceFirstByID mig.(mig_DeploymentInstanceID))) in
    match r with
    | inr inst =>
        match inst.(inst_DeploymentID) with
        | Some dep => let! t := now in emit (EvSchedule SchedDeployments dep t)
        | None => ret tt
        end
    | inl _ => ret tt
    end
  else ret tt.

Definition Reconcile (migrationID : UUID) : M unit :=
  let! r := attempt (query (InstanceMigrationFirstByID (ToPgtype migrationID))) in
  match r with
  | inl e => if is_no_rows e then ret tt else throw (ErrWrap "fetch migration" e)
  | inr mig =>
      let instanceID := FromPgtype mig.(mig_DeploymentInstanceID) in
      let here (server : pgUUID) := bool_decide (FromPgtype server = h.(h_serverID)) in
      let state := mig.(mig_State) in
      if String.eqb state "pending" then
        if here mig.(mig_DestinationServerID) then prepareDestination mig instanceID else ret tt
      else if String.eqb state "destination_prepared" then
        if here mig.(mig_SourceServerID) then sendFromSource mig instanceID else ret tt
      else if String.eqb state "sending" then
        let! t := now in
        match mig.(mig_CutoverDeadlineAt) with
        | Some deadline =>
            if After t deadline then wrap "abort timed-out migration" (abortMigrationFromSource mig) else ret tt
        | None => ret tt
        end
      else if String.eqb state "received" then
        if here mig.(mig_DestinationServerID) then commitOnDestination mig instanceID else ret tt
      else if migration_final state then settle_final mig instanceID
      else ret tt
  end.

End migration.
