(* ===== verification/MigrationProofs.v ===== *)
(** * Properties of live migration

    The states a migration can go through, which server acts in which state,
    and that the commit is all or nothing. *)

From S2P Require Import Prelude NetAddr Text Models Runtime Effects Queries Logic EventLogic TableFacts Lifecycle Migration Sample.

(** ** The state machine *)

(** The states one reconciliation can move a migration to. *)
Definition successors (state : string) : list string :=
  if String.eqb state "pending" then ["destination_prepared"; "failed"]
  else if String.eqb state "destination_prepared" then ["sending"; "received"; "failed"]
  else if String.eqb state "sending" then ["aborted"; "fallback_evacuating"]
  else if String.eqb state "received" then ["completed"; "fallback_evacuating"]
  else [].

(** The statements of the handler, with the states they may write. *)
Inductive mig_stmt (id : pgUUID) (ok : list string) : forall A, writes A -> Prop :=
  | ms_prepared a t : "destination_prepared" ∈ ok -> mig_stmt id ok _ (InstanceMigrationUpdatePrepared id a t)
  | ms_sending : "sending" ∈ ok -> mig_stmt id ok _ (InstanceMigrationUpdateSending id)
  | ms_received : "received" ∈ ok -> mig_stmt id ok _ (InstanceMigrationUpdateReceived id)
  | ms_completed url : "completed" ∈ ok -> mig_stmt id ok _ (InstanceMigrationUpdateCompleted id url)
  | ms_failed c m : "failed" ∈ ok -> mig_stmt id ok _ (InstanceMigrationUpdateFailed id c m)
  | ms_aborted c m : "aborted" ∈ ok -> mig_stmt id ok _ (InstanceMigrationUpdateAborted id c m)
  | ms_fallback c m : "fallback_evacuating" ∈ ok -> mig_stmt id ok _ (InstanceMigrationUpdateFallbackEvacuating id c m)
  | ms_vm_create p : mig_stmt id ok _ (VMCreate p)
  | ms_server i srv : mig_stmt id ok _ (DeploymentInstanceUpdateServer i srv)
  | ms_attach i vm st : mig_stmt id ok _ (DeploymentInstanceAttachVM i vm st)
  | ms_vm_delete vm : mig_stmt id ok _ (VMSoftDelete vm).
#[export] Hint Constructors mig_stmt : runs.
#[export] Hint Extern 5 (_ ∈ _) => (vm_compute; by repeat constructor) : runs.

(** Row [k] keeps its identity and is in its old state or one of [ok]; other
    migrations are untouched. *)
Record mig_moves (k : UUID) (ok : list string) (db db' : Db) : Prop := {
  mm_row : forall r, db_migrations db !! k = Some r ->
    exists r', db_migrations db' !! k = Some r' /\ (mig_State r' = mig_State r \/ mig_State r' ∈ ok) /\
      (mig_ID r', mig_DeploymentInstanceID r', mig_SourceServerID r', mig_DestinationServerID r', mig_SourceVmID r') =
      (mig_ID r, mig_DeploymentInstanceID r, mig_SourceServerID r, mig_DestinationServerID r, mig_SourceVmID r);
  mm_others : forall j, j <> k -> db_migrations db' !! j = db_migrations db !! j
}.

#[export] Instance mig_moves_preorder k ok : PreOrder (mig_moves k ok).
Proof.
  split; [split; eauto|]. intros d1 d2 d3 [R1 O1] [R2 O2]. split.
  - intros r Hr. destruct (R1 r Hr) as (r1 & H1 & Hs1 & Hi1). destruct (R2 r1 H1) as (r2 & H2 & Hs2 & Hi2).
    exists r2. split; [done|]. split; [|congruence]. destruct Hs2 as [->|]; [done|by right].
  - intros j Hj. rewrite O2, O1; done.
Qed.

Lemma mig_update_moves k ok f db x db' s :
  (forall r, mig_State (f r) = s) -> s ∈ ok ->
  (forall r, (mig_ID (f r), mig_DeploymentInstanceID (f r), mig_SourceServerID (f r), mig_DestinationServerID (f r), mig_SourceVmID (f r)) =
      (mig_ID r, mig_DeploymentInstanceID r, mig_SourceServerID r, mig_DestinationServerID r, mig_SourceVmID r)) ->
  update_migration (Some k) f db = inr (x, db') -> mig_moves k ok db db'.
Proof.
  intros Hs Hok Hid H. unfold update_migration in H. invert_stmt. split; simpl in *.
  - intros r0 Hr0. rewrite lookup_insert_eq. eexists. split; [done|]. simplify_eq.
    split; [right; by rewrite Hs|done].
  - intros j Hj. by rewrite lookup_insert_ne.
Qed.

Lemma mig_step_moves k ok db db' : db_step (mig_stmt (Some k) ok) db db' -> mig_moves k ok db db'.
Proof.
  intros (A & s & t & a & Hs & H). destruct Hs;
    try (refine (mig_update_moves _ _ _ _ _ _ _ _ _ _ H); [intros; simpl; reflexivity|eassumption|intros; reflexivity]);
    unfold VMCreate, DeploymentInstanceUpdateServer, DeploymentInstanceAttachVM, VMSoftDelete in H;
    invert_stmt; (split; [eauto|done]).
Qed.

Section proofs.
Context {env : Env} {S : Sorter} (h : Handler).

Definition mig_runs (mig : InstanceMigration) {A} (m : M A) : Prop :=
  runs (mig_stmt (mig_ID mig) (successors (mig_State mig))) m.

Lemma runs_prepare mig iid : mig_State mig = "pending" -> mig_runs mig (prepareDestination h mig iid).
Proof.
  intros Hs. unfold mig_runs. rewrite Hs. unfold prepareDestination, fail_migration, abort_target. solve_runs.
Qed.

Lemma runs_send mig iid : mig_State mig = "destination_prepared" -> mig_runs mig (sendFromSource h mig iid).
Proof.
  intros Hs. unfold mig_runs. rewrite Hs. unfold sendFromSource, transfer, fail_migration. solve_runs.
Qed.

Lemma runs_abort mig : mig_State mig = "sending" -> mig_runs mig (abortMigrationFromSource mig).
Proof. intros Hs. unfold mig_runs. rewrite Hs. unfold abortMigrationFromSource. solve_runs. Qed.

Lemma runs_commit mig iid : mig_State mig = "received" -> mig_runs mig (commitOnDestination h mig iid).
Proof.
  intros Hs. unfold mig_runs. rewrite Hs. unfold commitOnDestination, fall_back, commit_body. solve_runs.
Qed.

Lemma runs_settle mig iid : mig_runs mig (settle_final h mig iid).
Proof. unfold mig_runs, settle_final, abort_target. solve_runs. Qed.

(** What [Reconcile] does once the row is read. *)
Lemma reconcile_moves k mig w :
  k <> uuid_Nil -> db_migrations (w_db w) !! k = Some mig -> mig_ID mig = Some k ->
  mig_moves k (successors (mig_State mig)) (w_db w) (w_db (Reconcile h k w).2).
Proof.
  intros Hk Hrow Hid. unfold Reconcile, ToPgtype. rewrite decide_False by done.
  unfold bind at 1, attempt.
  destruct (query_cases (InstanceMigrationFirstByID (Some k)) w) as [(a & Ha & ->)|(e & -> & _)].
  2: { by destruct (is_no_rows e). }
  rewrite (migration_by_id _ _ _ _ Hrow) in Ha. simplify_eq.
  assert (forall B (m : M B), mig_runs a m ->
    mig_moves k (successors (mig_State a)) (w_db w) (w_db (m (tick w)).2)) as Hruns.
  { intros B m Hm. unfold mig_runs in Hm. rewrite Hid in Hm.
    refine (runs_preorder _ (mig_moves k _) m (tick w) _ Hm). intros. by apply mig_step_moves. }
  apply Hruns. cbv zeta.
  destruct (String.eqb_spec (mig_State a) "pending"); [case_match; [by apply runs_prepare|apply runs_ret]|].
  destruct (String.eqb_spec (mig_State a) "destination_prepared");
    [case_match; [by apply runs_send|apply runs_ret]|].
  destruct (String.eqb_spec (mig_State a) "sending").
  { apply runs_bind; [apply runs_now|intros t].
    repeat case_match; [by apply runs_wrap, runs_abort|apply runs_ret..]. }
  destruct (String.eqb_spec (mig_State a) "received"); [case_match; [by apply runs_commit|apply runs_ret]|].
  case_match; [apply runs_settle|apply runs_ret].
Qed.

End proofs.

(** ** Atomic commit *)

(** What a committed migration looks like: the instance runs on the new VM on
    the destination, the source VM is gone, the migration is completed, and no
    other row of any table changed. *)
Definition committed (mig : InstanceMigration) (db db' : Db) : Prop :=
  exists ik i0 i nk v sk sv k r,
    db' = set_migrations (<[k := r]> (db_migrations db)) (set_instances (<[ik := i]> (db_instances db))
            (set_vms (<[sk := sv]> (<[nk := v]> (db_vms db))) db)) /\
    (mig_DeploymentInstanceID mig = Some ik /\ db_instances db !! ik = Some i0 /\ inst_DeploymentID i = inst_DeploymentID i0 /\
     inst_VmID i = Some nk /\ inst_ServerID i = mig_DestinationServerID mig) /\
    (db_vms db !! nk = None /\ vm_ServerID v = mig_DestinationServerID mig /\ vm_Status v = "running" /\ vm_DeletedAt v = None) /\
    (mig_SourceVmID mig = Some sk /\ is_Some (db_vms db !! sk) /\ is_Some (vm_DeletedAt sv)) /\
    (mig_ID mig = Some k /\ is_Some (db_migrations db !! k) /\ mig_State r = "completed").

(** Given up for an evacuation, with the reason, and nothing else. *)
Definition fallen_back (mig : InstanceMigration) (db db' : Db) : Prop :=
  exists k r t code msg, mig_ID mig = Some k /\ db_migrations db !! k = Some r /\
    db' = set_migrations (<[k := set_mig_UpdatedAt (Some t) (set_mig_FailedAt (Some t) (set_mig_FailureMessage msg
            (set_mig_FailureCode code (set_mig_State "fallback_evacuating" r))))]> (db_migrations db)) db.

(** The five statements of the transaction, in order. *)
Lemma commit_body_done {env : Env} mig inst src meta ip port url w a w' sk sv :
  mig_SourceVmID mig = Some sk -> db_vms (w_db w) !! sk = Some sv ->
  commit_body mig inst src meta ip port url w = (Ret a, w') -> committed mig (w_db w) (w_db w').
Proof.
  intros Hsk Hsv H. unfold commit_body in H.
  apply bind_inv in H as (nid & w1 & H1 & H). injection H1 as _ <-.
  apply bind_inv in H as (nv & w2 & H2%wrap_ret_inv%exec_ret_inv & H).
  apply bind_inv in H as (? & w3 & H3%wrap_ret_inv%exec_ret_inv & H).
  apply bind_inv in H as (? & w4 & H4%wrap_ret_inv%exec_ret_inv & H).
  apply bind_inv in H as (? & w5 & H5%wrap_ret_inv%exec_ret_inv & H).
  apply bind_inv in H as (? & w6 & H6%wrap_ret_inv%exec_ret_inv & H). injection H as _ <-.
  unfold VMCreate in H2. apply insert_row_inv in H2 as (nk & Hnk & Hfresh & _ & -> & E2).
  apply returning_inv in H3 as (ik & i3 & Hik & Hi3 & _ & _ & _ & E3).
  apply returning_inv in H4 as (ik' & i4 & Hik' & Hi4 & _ & _ & _ & E4).
  apply returning_inv in H6 as (k & r & Hk & Hr & _ & _ & _ & E6).
  simpl in Hnk, Hfresh, E2, E3, Hi4, E4, E6, Hr. assert (ik' = ik) as -> by congruence.
  assert (nk <> sk) as Hne by congruence.
  assert (db_vms (w_db w4) = <[nk := _]> (db_vms (w_db w))) as Hvms by (by rewrite E4, E3, E2).
  unfold VMSoftDelete in H5. rewrite Hsk in H5.
  apply (executing_present _ _ sv) in H5; [|by simpl; rewrite Hvms, lookup_insert_ne|done]. simpl in H5.
  simpl in Hi3. rewrite E2 in Hi3. simpl in Hi3. rewrite E3 in Hi4. simpl in Hi4. rewrite lookup_insert_eq in Hi4. injection Hi4 as <-.
  assert (db_migrations (w_db w5) = db_migrations (w_db w)) as Hmig by (by rewrite H5, E4, E3, E2).
  exists ik, i3. eexists _. exists nk. eexists _. exists sk. eexists _. exists k. eexists _. split.
  { rewrite E6, Hmig, H5, Hvms, E4, E3, E2. cbn. rewrite insert_insert_eq. reflexivity. }
  rewrite <- Hmig, Hsv. cbn. split_and!; by eauto.
Qed.

Definition commit_outcome (mig : InstanceMigration) (db db' : Db) : Prop :=
  db' = db \/ fallen_back mig db db' \/ committed mig db db'.

Section commit.
Context {env : Env} (h : Handler) (mig : InstanceMigration).

Lemma fall_back_outcome code msg w : commit_outcome mig (w_db w) (w_db (fall_back mig code msg w).2).
Proof.
  unfold fall_back. rewrite ignore_world. unfold exec.
  assert (forall a db', InstanceMigrationUpdateFallbackEvacuating (mig_ID mig) code msg (sql_now w) (w_db w) = inr (a, db') -> fallen_back mig (w_db w) db') as H.
  { intros a db' (k & r & Hk & Hr & _ & _ & _ & ->)%returning_inv. by exists k, r, (sql_now w), code, msg. }
  destruct (env_fault _); [|by left|]; destruct (InstanceMigrationUpdateFallbackEvacuating _ _ _ _ _) as [|[a db']] eqn:E; simpl;
    first [by left|right; left; by eapply H].
Qed.

(** A read before the transaction: it fails, or the rest runs on the same rows. *)
Lemma fetch_outcome {A} ctx (f : reads A) (k : A -> M unit) w :
  (forall a w1, f (sql_now w) (w_db w) = inr a -> w_db w1 = w_db w ->
     commit_outcome mig (w_db w) (w_db (k a w1).2)) ->
  commit_outcome mig (w_db w) (w_db (bind (wrap ctx (query f)) k w).2).
Proof.
  intros Hk. destruct (fetch_cases ctx f k w) as [[e ->]|(a & Ha & ->)]; [by left|]. by apply Hk.
Qed.

Lemma transaction_outcome on_commit inst src meta ip port url notify sk sv w :
  (forall e w0, w_db (on_commit e w0).2 = w_db w0) ->
  mig_SourceVmID mig = Some sk -> db_vms (w_db w) !! sk = Some sv ->
  commit_outcome mig (w_db w) (w_db ((do! transaction "begin transaction" on_commit
      (commit_body mig inst src meta ip port url) ; when notify (emit EvNotifyRoute)) w).2).
Proof.
  intros Hc Hsk Hsv.
  assert (forall r, w_db ((do! r ; when notify (emit EvNotifyRoute)) w).2 = w_db (r w).2) as ->.
  { intros r. unfold bind. destruct (r w) as [[] w']; [by destruct notify|done..]. }
  destruct (transaction_atomic "begin transaction" on_commit (commit_body mig inst src meta ip port url) w Hc)
    as [->|(a & w1 & Hb & ->)]; [by left|right; right].
  apply (commit_body_done mig inst src meta ip port url _ a w1 sk sv Hsk) in Hb; [done|exact Hsv].
Qed.

End commit.

(** ** Claims *)

(** C34: In every environment, and at whatever point a statement or the commit
    fails, a commit on the destination either leaves the database as it was, or
    only gives this migration up for an evacuation, or has moved the instance
    completely: it is attached to a new running VM on the destination server,
    the source VM is deleted, the migration is completed, and no other row of
    any table changed. *)
Theorem commit_all_or_nothing (env : Env) (h : Handler) (mig : InstanceMigration)
    (instanceID : UUID) (w : World) :
  commit_outcome mig (w_db w) (w_db (commitOnDestination h mig instanceID w).2).
Proof.
  unfold commitOnDestination. destruct (h_rt h) as [rt|]; [|by left].
  unfold deref. rewrite (bind_ret _ _ _ _ _ (eq_refl : extern _ _ w = _)).
  set (w1 := tick (log_event _ w)). change (w_db w) with (w_db w1).
  destruct (rt_FinalizeMigrationTarget rt _ instanceID) as [e|[url meta]]; [apply fall_back_outcome|].
  destruct (migration_parseRuntimeAddress url) as [e|[ip port]]; [apply fall_back_outcome|].
  apply fetch_outcome. intros inst w2 _ Hw2. rewrite <- Hw2.
  apply fetch_outcome. intros src w3 Hsrc Hw3. rewrite <- Hw3. rewrite <- Hw3 in Hsrc.
  destruct (h_pool h); simpl; [|by left].
  unfold VMFirstByID in Hsrc. destruct (mig_SourceVmID mig) as [sk|] eqn:Esk; [|done]. simpl in Hsrc.
  destruct (db_vms (w_db w3) !! sk) as [sv|] eqn:Esv; [|done].
  by eapply transaction_outcome.
Qed.

(** C35: Reconciling a migration, in every environment, moves its state only
    along the edges of the state machine (pending to prepared or failed,
    prepared to sending, received or failed, sending to aborted or fallback,
    received to completed or fallback), never out of a final state, keeps the
    instance, the servers and the source VM it names, and touches no other
    migration. *)
Theorem migration_transitions (env : Env) (S : Sorter) (h : Handler) (k : UUID) (mig : InstanceMigration) (w : World) :
  k <> uuid_Nil -> db_migrations (w_db w) !! k = Some mig -> mig_ID mig = Some k ->
  mig_moves k (successors (mig_State mig)) (w_db w) (w_db (Reconcile h k w).2).
Proof. apply reconcile_moves. Qed.

(** The server that may cause an event, by role. *)
Definition role_ok (h : Handler) (mig : InstanceMigration) (e : Event) : Prop :=
  match e with
  | EvPrepareTarget _ | EvFinalize _ | EvAbortTarget _ | EvStop _ =>
      FromPgtype (mig_DestinationServerID mig) = h_serverID h
  | EvSend _ _ | EvMigrationMetadata _ => FromPgtype (mig_SourceServerID mig) = h_serverID h
  | EvSchedule s _ _ => s = SchedDeployments
  | EvNotifyRoute => FromPgtype (mig_DestinationServerID mig) = h_serverID h
  | _ => False
  end.

(** The two servers keep to their roles: only the destination prepares,
    finalizes, aborts or stops the received instance and announces the new
    route, only the source reads the metadata and sends, and no reconciliation
    starts, suspends or resumes an instance. *)
Theorem migration_roles (env : Env) (S : Sorter) (h : Handler) (k : UUID) (mig : InstanceMigration) (w : World) :
  k <> uuid_Nil -> db_migrations (w_db w) !! k = Some mig ->
  log_grows (role_ok h mig) w (Reconcile h k w).2.
Proof.
  intros Hk Hrow. unfold Reconcile, ToPgtype. rewrite decide_False by done. unfold bind at 1, attempt.
  destruct (query_cases (InstanceMigrationFirstByID (Some k)) w) as [(a & Ha & ->)|(e & -> & _)].
  2: { destruct (is_no_rows e); by apply log_same. }
  rewrite (migration_by_id _ _ _ _ Hrow) in Ha. simplify_eq.
  assert (forall m : M unit, emits (role_ok h a) m -> log_grows (role_ok h a) w (m (tick w)).2) as Hem.
  { intros m Hm. etrans; [|apply Hm]. by apply log_same. }
  apply Hem. cbv zeta. repeat case_match; try apply em_ret;
    repeat match goal with H : bool_decide _ = true |- _ => apply bool_decide_eq_true in H end;
    unfold prepareDestination, sendFromSource, commitOnDestination, settle_final, transfer, fail_migration,
      abort_target, fall_back, commit_body, abortMigrationFromSource; solve_emits; try done;
    repeat match goal with H : bool_decide _ = true |- _ => apply bool_decide_eq_true in H end; done.
Qed.

(** ** A migration from start to end *)

(** Instance 70 is to move from server 30 to server 32. *)
Definition sample_migration (state : string) : InstanceMigration :=
  mkInstanceMigration (Some 90%N) (Some 70%N) (Some 30%N) (Some 32%N) (Some 60%N) state "live" "" None "" "" ""
    None (Some 1) None None None (Some 1).

Definition worker_status : ServerComponentStatus :=
  mkServerComponentStatus (Some 32%N) "worker" "healthy" (Some 1) None None ""
    (JObject [("runtime", JString "cloud-hypervisor"); ("live_migration_enabled", JBool true);
              ("cloud_hypervisor_version", JString "v40"); ("shared_rootfs_dir", JString "/shared")])
    (Some 1) (Some 1).

Definition migration_db (state : string) : Db :=
  let d := set_servers (<[ 32%N := sample_server 32 "active" 1000 ]> (db_servers sample_db)) sample_db in
  let d := set_migrations {[ 90%N := sample_migration state ]} d in
  mkDb d.(db_builds) d.(db_deployments) d.(db_instances) d.(db_domains) d.(db_env) d.(db_images)
    d.(db_migrations) d.(db_previews) d.(db_projects) d.(db_volumes) d.(db_servers)
    {[ (32%N, "worker") := worker_status ]} d.(db_services) d.(db_endpoints) d.(db_vms) d.(db_settings)
    d.(db_ext).

Definition migration_world : World := mkWorld (migration_db "pending") 2000 0 None [].

Definition sample_handler (server : UUID) : Handler :=
  mkHandler true (Some sample_runtime) server true true.

(** Destination, source, destination: the instance ends up on server 32. *)
Example sample_migration_completes :
  let w1 := (Reconcile (sample_handler 32) 90 migration_world).2 in
  let w2 := (Reconcile (sample_handler 30) 90 w1).2 in
  let w3 := (Reconcile (sample_handler 32) 90 w2).2 in
  ((fun w => mig_State <$> db_migrations (w_db w) !! 90%N) <$> [w1; w2; w3]) =
    [Some "destination_prepared"; Some "received"; Some "completed"] /\
  (inst_ServerID <$> db_instances (w_db w3) !! 70%N) = Some (Some 32%N).
Proof. vm_compute. split; reflexivity. Qed.

Lemma migration_transitions_witness :
  mig_moves 90 ["destination_prepared"; "failed"] (w_db migration_world)
    (w_db (Reconcile (sample_handler 32) 90 migration_world).2).
Proof.
  apply (migration_transitions _ _ (sample_handler 32) 90%N (sample_migration "pending") migration_world);
    [done|reflexivity|reflexivity].
Defined.

Lemma migration_roles_witness :
  log_grows (role_ok (sample_handler 32) (sample_migration "pending")) migration_world
    (Reconcile (sample_handler 32) 90 migration_world).2.
Proof.
  apply (migration_roles _ _ (sample_handler 32) 90%N (sample_migration "pending") migration_world);
    [done|reflexivity].
Defined.
