(* ===== verification/ServerReconcile.v ===== *)
(** * Draining servers

    internal/serverreconcile/reconcile.go: the handler that evacuates a
    draining server and marks it drained once nothing is left on it. *)

From S2P Require Import Prelude NetAddr Text Models Runtime Effects Queries Logic EventLogic TableFacts Lifecycle Sample.

(** [Handler]: whether the route hook is set. *)
Record Handler := mkHandler { h_notifyRoute : bool }.

Section server.
Context {env : Env} (h : Handler).

Definition Reconcile (serverID : UUID) : M unit :=
  let sid := Some serverID in
  let! srv := wrap "server find" (query (ServerFindByID sid)) in
  do! (if String.eqb srv.(srv_Status) "draining" then
         let! depIDs := wrap "deployments on server" (query (DeploymentIDsForInstancesOnServer sid)) in
         do! for_each depIDs (fun did =>
               match did with
               | None => ret tt
               | Some id => let! t := now in emit (EvSchedule SchedDeployments id t)
               end) ;
         let! n := wrap "instance count on server" (query (DeploymentInstanceCountByServerID sid)) in
         let! migrations := wrap "active migrations on server" (query (InstanceMigrationCountActiveByServerID sid)) in
         if (n =? 0) && (migrations =? 0) then wrap "server set drained" (exec (ServerSetDrained sid))
         else ret tt
       else ret tt) ;
  when h.(h_notifyRoute) (emit EvNotifyRoute).

End server.

(** ** What "nothing is left" means *)

(** No live instance and no unfinished migration refers to the server. *)
Definition evacuated (serverID : UUID) (db : Db) : Prop :=
  (forall k i, db_instances db !! k = Some i -> inst_ServerID i = Some serverID -> inst_live i = false) /\
  (forall k m, db_migrations db !! k = Some m ->
     mig_SourceServerID m = Some serverID \/ mig_DestinationServerID m = Some serverID ->
     migration_final (mig_State m) = true).

Lemma col_eq_refl (k : UUID) : col_eq (Some k) (Some k) = true.
Proof. by apply bool_decide_eq_true. Qed.

(** The two counts are zero exactly on an evacuated server. *)
Lemma counts_evacuated sid t db :
  DeploymentInstanceCountByServerID (Some sid) t db = inr 0 ->
  InstanceMigrationCountActiveByServerID (Some sid) t db = inr 0 -> evacuated sid db.
Proof.
  unfold DeploymentInstanceCountByServerID, InstanceMigrationCountActiveByServerID.
  intros [= Hi] [= Hm]. split.
  - intros k i Hk Hs. destruct (inst_live i) eqn:E; [|done].
    assert (i ∈ rows (fun r => col_eq (inst_ServerID r) (Some sid) && inst_live r) (db_instances db)) as Hin.
    { apply elem_of_rows. rewrite Hs, col_eq_refl, E. eauto. }
    destruct (rows _ (db_instances db)); [by apply not_elem_of_nil in Hin|simpl in Hi; lia].
  - intros k m Hk Hs. destruct (migration_final (mig_State m)) eqn:E; [done|].
    assert (m ∈ rows (fun r => negb (migration_final (mig_State r)) &&
              (col_eq (mig_SourceServerID r) (Some sid) || col_eq (mig_DestinationServerID r) (Some sid)))
              (db_migrations db)) as Hin.
    { apply elem_of_rows. rewrite E. split; [|eauto].
      destruct Hs as [-> | ->]; rewrite col_eq_refl; [done|]. apply orb_true_r. }
    destruct (rows _ (db_migrations db)); [by apply not_elem_of_nil in Hin|simpl in Hm; lia].
Qed.

Section proofs.
Context {env : Env} (h : Handler).

(** Waking the deployments changes no row. *)
Lemma wake_all_db depIDs w :
  exists w', for_each depIDs (fun did =>
      match did with
      | None => ret tt
      | Some id => let! t := now in emit (EvSchedule SchedDeployments id t)
      end) w = (Ret tt, w') /\ w_db w' = w_db w /\ sql_now w' = sql_now w.
Proof.
  revert w; induction depIDs as [|[id|] l IH]; intros w; simpl; [by exists w| |].
  - rewrite (bind_ret _ _ _ tt (log_event (EvSchedule SchedDeployments id (w_now w)) w)) by done.
    apply (IH (log_event _ w)).
  - rewrite (bind_ret _ _ _ tt w) by done. apply IH.
Qed.

(** The body for a draining server: the database is as before, or the server
    was evacuated and only its row was written. *)
Lemma drain_cases sid w :
  let w' := (Reconcile h sid w).2 in
  w_db w' = w_db w \/
  (evacuated sid (w_db w) /\ exists r, db_servers (w_db w) !! sid = Some r /\ srv_Status r = "draining" /\
     exists r', w_db w' = set_servers (<[sid := r']> (db_servers (w_db w))) (w_db w) /\ srv_Status r' = "drained").
Proof.
  cbv zeta. unfold Reconcile.
  match goal with |- context [bind (wrap ?c (query ?f)) ?k w] =>
    destruct (fetch_cases c f k w) as [[e ->]|(srv & Hsrv & ->)] end; [by left|].
  assert (forall m : M unit, w_db ((do! m ; when (h_notifyRoute h) (emit EvNotifyRoute)) (tick w)).2 =
                             w_db (m (tick w)).2) as ->.
  { intros m. unfold bind. destruct (m (tick w)) as [[] w']; [by destruct (h_notifyRoute h)|done..]. }
  destruct (String.eqb_spec (srv_Status srv) "draining") as [Hdr|]; [|by left].
  match goal with |- context [bind (wrap ?c (query ?f)) ?k ?w1] =>
    destruct (fetch_cases c f k w1) as [[e ->]|(ids & _ & ->)] end; [by left|].
  destruct (wake_all_db ids (tick (tick w))) as (w2 & Hw2 & Hdb2 & Hnow2). rewrite (bind_ret _ _ _ _ _ Hw2).
  match goal with |- context [bind (wrap ?c (query ?f)) ?k ?w1] =>
    destruct (fetch_cases c f k w1) as [[e ->]|(n & Hn & ->)] end; [by left|].
  match goal with |- context [bind (wrap ?c (query ?f)) ?k ?w1] =>
    destruct (fetch_cases c f k w1) as [[e ->]|(m & Hm & ->)] end; [by left|].
  destruct ((n =? 0) && (m =? 0)) eqn:E; [|by left].
  apply andb_true_iff in E as [->%Z.eqb_eq ->%Z.eqb_eq].
  simpl in Hn, Hm. rewrite Hdb2 in Hn, Hm. simpl in Hn, Hm.
  unfold ServerFindByID in Hsrv. simpl in Hsrv.
  destruct (db_servers (w_db w) !! sid) as [r|] eqn:Er; [|done]. simpl in Hsrv. injection Hsrv as ->.
  assert (w_db (wrap "server set drained" (exec (ServerSetDrained (Some sid))) (tick (tick w2))).2 =
          w_db (exec (ServerSetDrained (Some sid)) (tick (tick w2))).2) as ->
    by (unfold wrap; by destruct (exec _ _) as [[] ?]).
  unfold exec. simpl. rewrite Hdb2. simpl.
  destruct (env_fault _); [|left; simpl; by rewrite Hdb2|];
    (destruct (ServerSetDrained (Some sid) _ (w_db w)) as [e|[[] d']] eqn:Es; [left; simpl; by rewrite Hdb2|]);
    right; (split; [eapply counts_evacuated; [exact Hn|exact Hm]|]); exists srv; (split; [done|]); (split; [done|]);
    unfold ServerSetDrained in Es; (apply (executing_present t_servers sid srv) in Es; [|exact Er|reflexivity]); simpl in *; subst d';
    by eexists.
Qed.

End proofs.

(** C37: A server becomes drained only when it was draining and nothing is left
    on it: no live instance and no unfinished migration in either role; in
    every environment, nothing but the server's own row changes. *)
Theorem drained_only_when_evacuated (env : Env) (h : Handler) (sid : UUID) (w : World) :
  w_db (Reconcile h sid w).2 = w_db w \/
  (evacuated sid (w_db w) /\ exists r, db_servers (w_db w) !! sid = Some r /\ srv_Status r = "draining" /\
     exists r', w_db (Reconcile h sid w).2 = set_servers (<[sid := r']> (db_servers (w_db w))) (w_db w) /\
       srv_Status r' = "drained").
Proof. apply drain_cases. Qed.

(** Server 31 of the sample still runs instance 71, so it is not drained yet;
    the deployment of that instance is woken. *)
Example sample_drain :
  let w := (Reconcile (mkHandler true) 31 sample_world).2 in
  (srv_Status <$> db_servers (w_db w) !! 31%N) = Some "draining" /\
  w_log w = [EvNotifyRoute; EvSchedule SchedDeployments 10 2000].
Proof. vm_compute. split; reflexivity. Qed.
