(* ===== verification/PreviewCleanup.v ===== *)
(** * Preview environments

    internal/preview/cleanup.go: stopping the deployments of a preview
    environment, deleting expired environments, and scaling idle previews to
    zero.  The sweeps first open a connection and try a cluster-wide advisory
    lock; whether this process got it is the argument [leader]. *)

From S2P Require Import Prelude NetAddr Text Models Runtime Effects Queries Logic EventLogic TableFacts Lifecycle Integrity Sample.

Section preview.
Context {env : Env} {S : Sorter}.

(** [reconciler] tells whether a scheduler is configured. *)
Definition scheduleDeployments (reconciler : bool) (deps : list Deployment) : M unit :=
  if negb reconciler then ret tt
  else for_each deps (fun dep => let! t := now in emit (EvSchedule SchedDeployments (FromPgtype dep.(dep_ID)) t)).

Definition StopEnvironmentDeployments (reconciler : bool) (pe : pgUUID) : M (list Deployment) :=
  let! deps := query (DeploymentsByPreviewEnvironmentID pe) in
  do! exec (DeploymentsMarkStoppedByPreviewEnvironment pe) ;
  do! scheduleDeployments reconciler deps ;
  ret deps.

Definition CleanupEnvironmentNow (reconciler : bool) (pe : pgUUID) : M unit :=
  do! wrap "stop environment deployments" (StopEnvironmentDeployments reconciler pe) ;
  exec (PreviewEnvironmentDelete pe).

Definition RunCleanupOnce (leader reconciler : bool) : M unit :=
  if negb leader then ret tt
  else
    let! r := attempt (query PreviewEnvironmentsDueForCleanup) in
    match r with
    | inl _ => ret tt
    | inr envs => for_each envs (fun pe => ignore (CleanupEnvironmentNow reconciler pe.(pe_ID)))
    end.

Definition RunIdleScaleDownOnce (leader : bool) (idleSeconds : Z) : M unit :=
  let idleSeconds := if idleSeconds <=? 0 then 300 else idleSeconds in
  if negb leader then ret tt
  else
    let! r := attempt (query (DeploymentsFindPreviewForIdleScaleDown idleSeconds)) in
    match r with
    | inl _ => ret tt
    | inr deps =>
        for_each deps (fun dep =>
          let! m := attempt (exec (DeploymentPreviewMarkScaledToZero dep.(dep_ID))) in
          match m with
          | inl _ => ret tt
          | inr _ => let! t := now in emit (EvSchedule SchedDeployments (FromPgtype dep.(dep_ID)) t)
          end)
    end.

(** ** Lemmas *)

Lemma schedule_deployments_spec reconciler deps w :
  exists w', scheduleDeployments reconciler deps w = (Ret tt, w') /\ w_db w' = w_db w /\
    (reconciler = true -> forall dep, dep ∈ deps ->
       exists t, EvSchedule SchedDeployments (FromPgtype (dep_ID dep)) t ∈ w_log w').
Proof.
  unfold scheduleDeployments. destruct reconciler; simpl; [|by exists w].
  revert w; induction deps as [|dep deps IH]; intros w; simpl.
  { exists w. split; [done|]. split; [done|]. by intros _ ? ?%not_elem_of_nil. }
  set (e := EvSchedule SchedDeployments (FromPgtype (dep_ID dep)) (w_now w)).
  rewrite (bind_ret _ _ _ tt (log_event e w)) by done.
  destruct (IH (log_event e w)) as (w' & Hw' & Hdb & Hlog). exists w'. split; [done|]. split; [done|].
  intros _ x [->|Hx]%elem_of_cons; [|by apply Hlog]. exists (w_now w).
  assert (emits (fun _ => True) (for_each deps (fun dep =>
    let! t := now in emit (EvSchedule SchedDeployments (FromPgtype (dep_ID dep)) t)))) as Hem by solve_emits.
  destruct (Hem (log_event e w)) as (new & Hnew & _). rewrite Hw' in Hnew. simpl in Hnew. rewrite Hnew.
  apply elem_of_app. right. constructor.
Qed.

(** The rows after the deployments were stopped and the environment deleted. *)
Definition stopped_row (pe : UUID) (now : Time) (r : Deployment) : Deployment :=
  if col_eq r.(dep_PreviewEnvironmentID) (Some pe) && String.eqb r.(dep_DeploymentKind) "preview" && dep_live r
  then set_dep_UpdatedAt (Some now) (set_dep_StoppedAt (Some now) r) else r.

Lemma live_unlink (b : bool) r : dep_live (if b then set_dep_PreviewEnvironmentID None r else r) = dep_live r.
Proof. by destruct b. Qed.

Lemma mark_stopped_all pe t db :
  table_wf t_deployments dep_ID db ->
  DeploymentsMarkStoppedByPreviewEnvironment (Some pe) t db =
    inr (tt, set_deployments (stopped_row pe t <$> db_deployments db) db).
Proof.
  intros Hwf. unfold DeploymentsMarkStoppedByPreviewEnvironment, update_where.
  match goal with |- (if ?b then _ else _) = _ => assert (b = true) as ->; [|done] end.
  apply forallb_forall. intros [k r] Hin%list_elem_of_In%elem_of_map_to_list. cbn.
  destruct (Hwf k r Hin) as [_ Hok]. apply orb_true_iff. right. exact Hok.
Qed.

End preview.

(** Cleaning up an expired or closed preview environment, when the database
    answers, removes the environment, leaves none of its preview deployments
    open (each is stopped, failed or deleted), removes the domains that pointed
    to it, and wakes the reconciler for every deployment of it that was not
    deleted, so that their instances are removed. *)
Theorem preview_cleanup_complete (env : Env) (S : Sorter) (pe : UUID) (w : World) :
  quiet env -> table_wf t_deployments dep_ID (w_db w) ->
  exists w', CleanupEnvironmentNow true (Some pe) w = (Ret tt, w') /\
    db_previews (w_db w') !! pe = None /\
    (forall k d, db_domains (w_db w') !! k = Some d -> dom_PreviewEnvironmentID d <> Some pe) /\
    (forall k r, db_deployments (w_db w) !! k = Some r ->
       dep_PreviewEnvironmentID r = Some pe -> dep_DeploymentKind r = "preview" ->
       exists r', db_deployments (w_db w') !! k = Some r' /\ dep_live r' = false /\
         (dep_DeletedAt r = None -> exists t, EvSchedule SchedDeployments k t ∈ w_log w')).
Proof.
  intros Hq Hwf. unfold CleanupEnvironmentNow, StopEnvironmentDeployments.
  set (deps := sort_by (fun a b => time_le (dep_CreatedAt b) (dep_CreatedAt a))
    (rows (fun r => col_eq (dep_PreviewEnvironmentID r) (Some pe) && is_null (dep_DeletedAt r)) (db_deployments (w_db w)))).
  destruct (schedule_deployments_spec true deps
    (tick (set_db (set_deployments (stopped_row pe (sql_now (tick w)) <$> db_deployments (w_db w)) (w_db w)) (tick w))))
    as (w2 & Hw2 & Hdb2 & Hlog). specialize (Hlog eq_refl).
  eexists. split; [|split; [|split]].
  - erewrite bind_ret; [|apply wrap_ret; erewrite bind_ret; [|by apply quiet_read];
      erewrite bind_ret; [|rewrite quiet_exec by done; simpl; rewrite mark_stopped_all by done; reflexivity];
      erewrite bind_ret; [|exact Hw2]; reflexivity].
    rewrite quiet_exec by done. unfold PreviewEnvironmentDelete. reflexivity.
  - simpl. by rewrite lookup_delete_eq.
  - simpl. intros k d [_ Hd]%map_lookup_filter_Some He. rewrite He in Hd. simpl in Hd.
    by rewrite bool_decide_eq_true_2 in Hd.
  - simpl. rewrite Hdb2. simpl. intros k r Hk Hpe Hkind.
    rewrite !lookup_fmap, Hk. simpl. eexists. split; [done|]. split.
    + rewrite live_unlink. unfold stopped_row. rewrite Hpe, Hkind. simpl. rewrite bool_decide_eq_true_2 by done.
      by destruct (dep_live r) eqn:E.
    + intros Hdel. destruct (Hwf k r Hk) as [Hid _].
      destruct (Hlog r) as [t Ht]; [|by rewrite Hid in Ht; exists t].
      unfold deps. rewrite sort_by_elem, elem_of_rows. split; [|by eauto].
      rewrite Hpe, Hdel. simpl. by rewrite bool_decide_eq_true_2.
Qed.

(** An environment with a running preview and a domain. *)
Definition sample_environment_db : Db :=
  set_previews {[ 95%N := mkPreviewEnvironment (Some 95%N) (Some 1%N) (Some 20%N) "github" 7 "pr" "abc" None ""
                            None (Some 1) (Some 1) (Some 1) ]}
    (set_domains {[ 96%N := mkDomain (Some 96%N) (Some 1%N) None None "pr-7.example" "" None None None
                              "preview_stable" (Some 95%N) (Some 1) (Some 1) ]}
      (set_deployments (<[ 14%N :=
          mkDeployment (Some 14%N) (Some 1%N) (Some 20%N) (Some 50%N) (Some 40%N) None None "abc" "pr" "preview"
            (Some 95%N) None false false (Some 5) None None None None (Some 1) (Some 1) ]>
          (db_deployments sample_db)) sample_db)).

Lemma preview_cleanup_complete_witness :
  exists w', CleanupEnvironmentNow true (Some 95%N) (mkWorld sample_environment_db 2000 0 None []) = (Ret tt, w') /\
    db_previews (w_db w') !! 95%N = None /\
    (forall k d, db_domains (w_db w') !! k = Some d -> dom_PreviewEnvironmentID d <> Some 95%N) /\
    (forall k r, db_deployments sample_environment_db !! k = Some r ->
       dep_PreviewEnvironmentID r = Some 95%N -> dep_DeploymentKind r = "preview" ->
       exists r', db_deployments (w_db w') !! k = Some r' /\ dep_live r' = false /\
         (dep_DeletedAt r = None -> exists t, EvSchedule SchedDeployments k t ∈ w_log w')).
Proof.
  apply (preview_cleanup_complete _ _ 95%N (mkWorld sample_environment_db 2000 0 None [])); [by intros n|].
  intros k r Hk. cbn in Hk. apply elem_of_map_to_list in Hk.
  assert (Forall (fun '(k, r) => dep_ID r = Some k /\ deployment_ok sample_environment_db k r = true)
            (map_to_list (db_deployments sample_environment_db))) as Hall
    by (vm_compute; repeat constructor).
  rewrite Forall_forall in Hall. exact (Hall (k, r) Hk).
Defined.
