(* ===== verification/ScalingProofs.v ===== *)
(** * Properties of scaling

    [ensureInstanceCountUp] reaches the wanted number of instances and no more,
    and succeeds when the database answers; [scaleDownExcess] ends. *)

From S2P Require Import Prelude NetAddr Text Models Runtime Effects Queries Logic EventLogic TableFacts Lifecycle Volumes Instances InstanceReconcile Scaling Deploy DeployTrace Integrity DeploySafety Sample Removal Retirement.


(** ** Counting *)

Lemma provisionable_perm l l' : l ≡ₚ l' -> countProvisionableInstances l = countProvisionableInstances l'.
Proof. induction 1; simpl; lia. Qed.

Lemma provisionable_nonneg l : 0 <= countProvisionableInstances l.
Proof. induction l; simpl; [lia|]. case_match; lia. Qed.

(** The live instances of a deployment. *)
Definition live_instances (dep : pgUUID) (db : Db) : list DeploymentInstance :=
  rows (fun r => col_eq r.(inst_DeploymentID) dep && inst_live r) db.(db_instances).

(** Those that count towards the wanted number: active or in the warm pool. *)
Definition provisionable (dep : pgUUID) (db : Db) : Z := countProvisionableInstances (live_instances dep db).

Lemma listing_perm {S : Sorter} dep t db l :
  DeploymentInstanceFindByDeploymentID dep t db = inr l -> l ≡ₚ live_instances dep db.
Proof. intros [= <-]. apply sort_by_perm. Qed.

(** A created instance counts. *)
Lemma create_counts id dep t db x db' :
  DeploymentInstanceCreate id dep t db = inr (x, db') -> provisionable dep db' = provisionable dep db + 1.
Proof.
  unfold DeploymentInstanceCreate. intros H. apply insert_row_inv in H as (k & -> & Hk & Hok & -> & ->).
  simpl in Hk, Hok. unfold instance_ok in Hok. rewrite !andb_true_iff in Hok. simpl in Hok.
  destruct Hok as [[[[[Hdep _] _] _] _] _]. destruct dep as [dk|]; [|done].
  unfold provisionable, live_instances. simpl.
  rewrite (provisionable_perm _ _ (rows_insert _ _ _ _ Hk)). simpl.
  rewrite bool_decide_eq_true_2 by done. simpl. lia.
Qed.

(** ** Scaling up *)

Section up.
Context {env : Env} {S : Sorter}.

(** One round of the creation loop that went through. *)
Lemma create_round dep after_ctx id w w1 w2 x l :
  exec (DeploymentInstanceCreate id dep) w = (Ret x, w1) ->
  wrap after_ctx (query (DeploymentInstanceFindByDeploymentID dep)) w1 = (Ret l, w2) ->
  l ≡ₚ live_instances dep (w_db w2) /\ provisionable dep (w_db w2) = provisionable dep (w_db w) + 1.
Proof.
  intros H1%exec_ret_inv H2%wrap_ret_inv.
  destruct (query_cases (DeploymentInstanceFindByDeploymentID dep) w1) as [(a & Ha & E)|(e & E & _)];
    rewrite E in H2; simplify_eq. simpl. split; [by eapply listing_perm|by eapply create_counts].
Qed.

(** The loop of [create_missing]. *)
Definition create_round_body (dep : pgUUID) (desired : Z) (after_ctx : string) (rows : list DeploymentInstance)
    : M (list DeploymentInstance + unit) :=
  if countProvisionableInstances rows <? desired then
    let! id := new_uuid in
    do! wrap "create deployment instance" (exec (DeploymentInstanceCreate (ToPgtype id) dep)) ;
    let! rows' := wrap after_ctx (query (DeploymentInstanceFindByDeploymentID dep)) in
    ret (inl rows')
  else ret (inr tt).

(** A round fails or adds one instance and lists them again. *)
Lemma create_round_cases dep desired ctx rows w :
  rows ≡ₚ live_instances dep (w_db w) ->
  (exists e w', create_round_body dep desired ctx rows w = (Err e, w')) \/
  (desired <= provisionable dep (w_db w) /\ create_round_body dep desired ctx rows w = (Ret (inr tt), w)) \/
  (provisionable dep (w_db w) < desired /\ exists l w',
     create_round_body dep desired ctx rows w = (Ret (inl l), w') /\
     l ≡ₚ live_instances dep (w_db w') /\ provisionable dep (w_db w') = provisionable dep (w_db w) + 1).
Proof.
  intros Hrows. unfold create_round_body. rewrite (provisionable_perm _ _ Hrows).
  fold (provisionable dep (w_db w)).
  destruct (provisionable dep (w_db w) <? desired) eqn:E; [apply Z.ltb_lt in E|apply Z.ltb_ge in E; by right; left].
  rewrite (bind_ret _ _ _ (env_uuid (w_step w)) (tick w)) by done.
  match goal with |- context [bind ?m ?k (tick w)] => set (m1 := m); set (k1 := k) end.
  assert (settles m1) as Hs1 by (unfold m1; solve_np). specialize (Hs1 (tick w)).
  unfold bind. destruct (m1 (tick w)) as [[x|e| |] w1] eqn:E1; [|left; eauto|done|done].
  unfold k1, bind.
  match goal with |- context [wrap ctx ?q w1] =>
    assert (settles (wrap ctx q)) as Hs2 by solve_np; specialize (Hs2 w1);
    destruct (wrap ctx q w1) as [[l|e| |] w2] eqn:E2 end; [|left; eauto|done|done].
  right; right. split; [done|]. exists l, w2. split; [done|].
  unfold m1 in E1. apply wrap_ret_inv in E1. exact (create_round _ _ _ _ _ _ _ _ E1 E2).
Qed.

Lemma create_missing_loop fuel dep desired ctx first w :
  first ≡ₚ live_instances dep (w_db w) -> Z.max 0 (desired - provisionable dep (w_db w)) < Z.of_nat fuel ->
  let r := loop fuel (create_round_body dep desired ctx) first w in
  r.1 = Ret tt /\ provisionable dep (w_db r.2) = Z.max (provisionable dep (w_db w)) desired \/
  exists e, r.1 = Err e.
Proof.
  revert first w; induction fuel as [|fuel IH]; intros first w Hfirst Hfuel; cbv zeta; [simpl in Hfuel; lia|].
  cbn [loop]. unfold bind.
  destruct (create_round_cases dep desired ctx first w Hfirst)
    as [(e & w' & ->)|[[Hle ->]|(Hlt & l & w' & -> & Hl & Hp)]].
  - right. by exists e.
  - left. simpl. split; [done|]. lia.
  - destruct (IH l w' Hl) as [[-> H]|[e He]]; [lia| |right; by exists e]. left. split; [done|]. rewrite H. lia.
Qed.

Lemma create_missing_spec dep desired ctx first w :
  first ≡ₚ live_instances dep (w_db w) ->
  let r := create_missing dep desired ctx first w in
  r.1 = Ret tt /\ provisionable dep (w_db r.2) = Z.max (provisionable dep (w_db w)) desired \/
  exists e, r.1 = Err e.
Proof.
  intros Hfirst. apply create_missing_loop; [done|].
  pose proof (provisionable_nonneg (live_instances dep (w_db w))). unfold provisionable. lia.
Qed.

(** Listing, then creating. *)
Lemma list_and_create dep desired c1 c2 w :
  let r := (let! rows := wrap c1 (query (DeploymentInstanceFindByDeploymentID dep)) in
            create_missing dep desired c2 rows) w in
  r.1 = Ret tt /\ provisionable dep (w_db r.2) = Z.max (provisionable dep (w_db w)) desired \/
  exists e, r.1 = Err e.
Proof.
  cbv zeta.
  match goal with |- context [bind (wrap c1 (query ?f)) ?k w] =>
    destruct (fetch_cases c1 f k w) as [[e ->]|(l & Hl & ->)] end; [right; by exists e|].
  by apply (create_missing_spec dep desired c2 l (tick w)), (listing_perm _ _ _ _ Hl).
Qed.

Lemma ensure_up_spec d dep desired w :
  let r := ensureInstanceCountUp d dep desired w in
  r.1 = Ret tt /\ provisionable dep (w_db r.2) = Z.max (provisionable dep (w_db w)) desired \/
  exists e, r.1 = Err e.
Proof.
  cbv zeta. unfold ensureInstanceCountUp. destruct (d_pool d); [|apply list_and_create].
  unfold transaction. destruct (env_fault (w_step w)); [|right; by eexists..].
  set (w0 := set_tx (Some (w_now w)) (tick w)). change (w_db w) with (w_db w0) at 1.
  match goal with |- context [bind (wrap ?c (query ?f)) ?k w0] =>
    destruct (fetch_cases c f k w0) as [[e ->]|(x & _ & ->)] end; [right; by exists e|].
  match goal with |- context [bind ?m ?k (tick w0)] =>
    destruct (list_and_create dep desired "list instances in tx" "list instances after create in tx" (tick w0))
      as [[H1 H2]|[e He]]; cbv zeta in *; destruct (bind m k (tick w0)) as [o w1]; simpl in * end; subst.
  - destruct (env_fault (w_step w1)); simpl; [by left|right; by eexists..].
  - right. by exists e.
Qed.

End up.

(** [ensureInstanceCountUp] always comes to an end, in every environment
    and for every target: it returns an error, or it returns after the
    deployment has exactly the larger of the wanted and the previous number of
    live active or warm instances, never more. *)
Theorem ensure_count_up_exact (env : Env) (S : Sorter) (d : Deployer) (dep : pgUUID) (desired : Z) (w : World) :
  ((ensureInstanceCountUp d dep desired w).1 = Ret tt /\
   provisionable dep (w_db (ensureInstanceCountUp d dep desired w).2) =
     Z.max (provisionable dep (w_db w)) desired) \/
  exists e, (ensureInstanceCountUp d dep desired w).1 = Err e.
Proof. apply ensure_up_spec. Qed.

(** ** Scaling up succeeds *)

(** The ids the environment hands out from call [n] on are new. *)
Definition fresh_ids {env : Env} (n : nat) (db : Db) : Prop :=
  (forall i, (n <= i)%nat -> env_uuid i <> uuid_Nil /\ db_instances db !! env_uuid i = None) /\
  (forall i j, env_uuid i = env_uuid j -> i = j).

Section up_succeeds.
Context {env : Env} {S : Sorter} (Hq : quiet env).

(** With a fresh id and an existing deployment a round creates an instance. *)
Lemma create_round_ok k desired ctx rows w :
  is_Some (db_deployments (w_db w) !! k) -> fresh_ids (w_step w) (w_db w) ->
  provisionable (Some k) (w_db w) < desired -> rows ≡ₚ live_instances (Some k) (w_db w) ->
  exists l w', create_round_body (Some k) desired ctx rows w = (Ret (inl l), w') /\
    is_Some (db_deployments (w_db w') !! k) /\ fresh_ids (w_step w') (w_db w').
Proof.
  intros [r Hr] [Hnew Hinj] Hlt Hrows. unfold create_round_body. rewrite (provisionable_perm _ _ Hrows).
  fold (provisionable (Some k) (w_db w)). rewrite (proj2 (Z.ltb_lt _ _) Hlt).
  rewrite (bind_ret _ _ _ (env_uuid (w_step w)) (tick w)) by done.
  destruct (Hnew (w_step w) (le_n _)) as [Hnz Hfree]. unfold ToPgtype. rewrite decide_False by done.
  unfold bind, wrap. rewrite !quiet_exec by done. unfold DeploymentInstanceCreate, insert_row. simpl.
  rewrite Hfree. unfold instance_ok. simpl. rewrite Hr. simpl.
  rewrite quiet_query by done. eexists _, _. split; [reflexivity|]. simpl. split; [eauto|].
  split; [|done]. intros i Hi. simpl in *. destruct (Hnew i) as [Hz Hn]; [lia|]. split; [done|].
  rewrite lookup_insert_ne; [done|]. intros He. apply Hinj in He. lia.
Qed.

Lemma create_loop_ok fuel k desired ctx first w :
  is_Some (db_deployments (w_db w) !! k) -> fresh_ids (w_step w) (w_db w) ->
  first ≡ₚ live_instances (Some k) (w_db w) ->
  Z.max 0 (desired - provisionable (Some k) (w_db w)) < Z.of_nat fuel ->
  (loop fuel (create_round_body (Some k) desired ctx) first w).1 = Ret tt.
Proof.
  revert first w; induction fuel as [|fuel IH]; intros first w Hdep Hfresh Hfirst Hfuel; [simpl in Hfuel; lia|].
  cbn [loop]. unfold bind.
  destruct (create_round_cases (Some k) desired ctx first w Hfirst)
    as [(e & w' & Herr)|[[Hle ->]|(Hlt & l & w' & Hround & Hl & Hp)]]; [|done|].
  - destruct (Z.lt_ge_cases (provisionable (Some k) (w_db w)) desired) as [Hlt|Hge].
    + destruct (create_round_ok k desired ctx first w Hdep Hfresh Hlt Hfirst) as (l & w2 & H & _). congruence.
    + unfold create_round_body in Herr. rewrite (provisionable_perm _ _ Hfirst) in Herr.
      fold (provisionable (Some k) (w_db w)) in Herr. by rewrite (proj2 (Z.ltb_ge _ _) Hge) in Herr.
  - destruct (create_round_ok k desired ctx first w Hdep Hfresh Hlt Hfirst) as (l2 & w2 & H & Hd & Hf).
    rewrite Hround in H. injection H as <- <-. rewrite Hround. apply IH; [done..|]. lia.
Qed.

Lemma list_and_create_ok k desired c1 c2 w :
  is_Some (db_deployments (w_db w) !! k) -> fresh_ids (w_step w) (w_db w) ->
  ((let! rows := wrap c1 (query (DeploymentInstanceFindByDeploymentID (Some k))) in
    create_missing (Some k) desired c2 rows) w).1 = Ret tt.
Proof.
  intros Hdep [Hnew Hinj]. unfold bind, wrap. rewrite quiet_query by done.
  unfold DeploymentInstanceFindByDeploymentID at 1. apply create_loop_ok; [done| |apply sort_by_perm|].
  - split; [|done]. intros i Hi. apply Hnew. simpl in Hi. lia.
  - pose proof (provisionable_nonneg (live_instances (Some k) (w_db w))). unfold provisionable. simpl. lia.
Qed.

Lemma ensure_up_ok d k desired w :
  is_Some (db_deployments (w_db w) !! k) -> fresh_ids (w_step w) (w_db w) ->
  (ensureInstanceCountUp d (Some k) desired w).1 = Ret tt.
Proof.
  intros Hdep Hfresh. unfold ensureInstanceCountUp. destruct (d_pool d); [|by apply list_and_create_ok].
  rewrite quiet_transaction by done. set (w0 := set_tx (Some (w_now w)) (tick w)).
  assert (fresh_ids (w_step (tick w0)) (w_db w0)) as Hfresh2.
  { destruct Hfresh as [Hnew Hinj]. split; [|done]. intros i Hi. apply Hnew. simpl in Hi. lia. }
  unfold bind at 1, wrap at 1. rewrite quiet_query by done. simpl.
  pose proof (list_and_create_ok k desired "list instances in tx" "list instances after create in tx" (tick w0)
    Hdep Hfresh2) as Hok.
  match goal with |- context [bind ?m ?f (tick w0)] => destruct (bind m f (tick w0)) as [o w1] eqn:E end.
  simpl in Hok. by subst o.
Qed.

End up_succeeds.

(** When the database answers and the ids drawn are new, scaling up an
    existing deployment succeeds. *)
Theorem ensure_count_up_succeeds (env : Env) (S : Sorter) (d : Deployer) (k : UUID) (desired : Z) (w : World) :
  quiet env -> is_Some (db_deployments (w_db w) !! k) -> fresh_ids (w_step w) (w_db w) ->
  (ensureInstanceCountUp d (Some k) desired w).1 = Ret tt.
Proof. intros Hq. by apply ensure_up_ok. Qed.

Lemma ensure_count_up_succeeds_witness :
  (ensureInstanceCountUp sample_deployer (Some 13%N) 3 sample_world).1 = Ret tt.
Proof.
  apply (ensure_count_up_succeeds _ _ sample_deployer 13%N 3 sample_world sample_quiet); [by eexists|].
  split; [|simpl; lia]. intros i _. split; [unfold uuid_Nil; simpl; lia|].
  apply not_elem_of_dom. assert (dom (db_instances (w_db sample_world)) = {[70; 71; 72; 73; 74]}%N) as ->.
  { apply leibniz_equiv. vm_compute. intros x. split; intros Hx; exact Hx. }
  simpl. set_unfold. lia.
Defined.

(** * Scaling down ends

    [scaleDownExcess] repeats until few enough instances are active.  Each
    round deletes the chosen instance or suspends its VM, so the number of live
    instances plus the number of those whose VM runs goes down, and the loop
    ends when the database answers. *)

(** ** What cleaning up one instance can change *)

Inductive cleanup_stmt (inst : DeploymentInstance) : forall A, writes A -> Prop :=
  | cs_role id : cleanup_stmt inst _ (DeploymentInstanceUpdateRole id deploymentInstanceRoleWarmPool)
  | cs_status id st : cleanup_stmt inst _ (DeploymentInstanceUpdateStatus id st)
  | cs_lifecycle v st snap rootfs src : st <> "running" ->
      cleanup_stmt inst _ (VMUpdateLifecycleMetadata v st snap rootfs src)
  | cs_delete A (s : writes A) : delete_stmt inst A s -> cleanup_stmt inst A s.
#[local] Hint Constructors cleanup_stmt : runs.
#[local] Hint Extern 3 (_ <> _) => (vm_compute; discriminate) : runs.

(** No instance appears, comes to life, becomes active or changes its VM; no VM
    starts running. *)
Record shrinks (db db' : Db) : Prop := {
  sh_instances : forall j i', db_instances db' !! j = Some i' ->
    exists i, db_instances db !! j = Some i /\
      (inst_DeploymentID i', inst_VmID i') = (inst_DeploymentID i, inst_VmID i) /\
      (inst_live i' = true -> inst_live i = true) /\
      (isActiveInstance i' = true -> isActiveInstance i = true);
  sh_vms : forall v x', db_vms db' !! v = Some x' ->
    exists x, db_vms db !! v = Some x /\ (vm_Status x' = "running" -> vm_Status x = "running")
}.

#[export] Instance shrinks_preorder : PreOrder shrinks.
Proof.
  split; [split; eauto 10|]. intros d1 d2 d3 [I1 V1] [I2 V2]. split.
  - intros j i3 H3. destruct (I2 j i3 H3) as (i2 & H2 & E2 & L2 & A2).
    destruct (I1 j i2 H2) as (i1 & H1 & E1 & L1 & A1). exists i1. split; [done|]. split; [congruence|]. auto.
  - intros v x3 H3. destruct (V2 v x3 H3) as (x2 & H2 & R2). destruct (V1 v x2 H2) as (x1 & H1 & R1).
    exists x1. auto.
Qed.

Lemma shrinks_instance db k i i' :
  db_instances db !! k = Some i ->
  (inst_DeploymentID i', inst_VmID i') = (inst_DeploymentID i, inst_VmID i) ->
  (inst_live i' = true -> inst_live i = true) -> (isActiveInstance i' = true -> isActiveInstance i = true) ->
  shrinks db (set_instances (<[k := i']> (db_instances db)) db).
Proof.
  intros Hk He Hl Ha. split; simpl; [|eauto]. intros j x [[<- <-]|[_ Hj]]%lookup_insert_Some; eauto 10.
Qed.

Lemma shrinks_vm db k v v' :
  db_vms db !! k = Some v -> (vm_Status v' = "running" -> vm_Status v = "running") ->
  shrinks db (set_vms (<[k := v']> (db_vms db)) db).
Proof.
  intros Hk He. split; simpl; [eauto 10|]. intros j x [[<- <-]|[_ Hj]]%lookup_insert_Some; eauto.
Qed.

Lemma cleanup_step_shrinks inst db db' : db_step (cleanup_stmt inst) db db' -> shrinks db db'.
Proof.
  intros (A & s & t & a & Hs & H). destruct Hs as [id|id st|v st snap rootfs src Hst|A s Hd].
  - unfold DeploymentInstanceUpdateRole in H. invert_stmt. by eapply shrinks_instance.
  - unfold DeploymentInstanceUpdateStatus in H. invert_stmt. by eapply shrinks_instance.
  - unfold VMUpdateLifecycleMetadata in H. invert_stmt. eapply shrinks_vm; [done|]. simpl. by intros ->.
  - destruct Hd.
    + unfold DeploymentInstanceSoftDelete in H. invert_stmt; [done|]. by eapply shrinks_instance.
    + unfold VMSoftDelete in H. invert_stmt; [done|]. by eapply shrinks_vm.
    + unfold ProjectVolumeDetachVM, update_volume in H. invert_stmt. split; simpl; eauto 10.
Qed.

Section cleanup.
Context {env : Env} {S : Sorter} (d : Deployer).

Lemma runs_cleanup_only inst : runs (cleanup_stmt inst) (cleanupInstance d inst).
Proof.
  assert (runs (cleanup_stmt inst) (deleteInstancePermanently d inst)) as Hdel.
  { apply (runs_weaken (delete_stmt inst)); [intros; by constructor|apply runs_delete_only]. }
  unfold cleanupInstance, suspend_instance. solve_runs.
Qed.

Lemma cleanup_shrinks inst w : shrinks (w_db w) (w_db (cleanupInstance d inst w).2).
Proof.
  apply (runs_preorder (cleanup_stmt inst) shrinks); [apply cleanup_step_shrinks|apply runs_cleanup_only].
Qed.

(** ** What it achieves *)

(** Instance [k] is gone, or VM [v] is suspended. *)
Definition retired (k : UUID) (vm : pgUUID) (db : Db) : Prop :=
  (exists r, db_instances db !! k = Some r /\ inst_live r = false) \/
  (exists v x, vm = Some v /\ db_vms db !! v = Some x /\ vm_Status x = vmStatusSuspended).

Context (Hq : quiet env) (inst : DeploymentInstance) (k : UUID) (Hid : inst_ID inst = Some k).

(** A step that answers whether it retired the instance. *)
Definition retires (m : M bool) : Prop := forall w,
  db_wf (w_db w) -> is_Some (db_instances (w_db w) !! k) ->
  exists b w', m w = (Ret b, w') /\ (b = true -> retired k (inst_VmID inst) (w_db w')).

Lemma retires_bind {A} (m : M A) (f : A -> M bool) :
  returns m -> dep_runs m -> (forall a, retires (f a)) -> retires (bind m f).
Proof.
  intros Hr Hd Hf w Hwf [r Hk]. destruct (Hr w) as (a & w1 & Hm).
  assert (w1 = (m w).2) as -> by (by rewrite Hm).
  rewrite (bind_ret _ _ _ _ _ Hm). apply Hf; [by apply runs_wf|].
  destruct (runs_keep_instance m w k r Hd Hk) as (r' & -> & _). eauto.
Qed.

Lemma retires_no : retires (ret false).
Proof. intros w _ _. by exists false, w. Qed.

Lemma retires_delete : retires (do! deleteInstancePermanently d inst ; ret true).
Proof.
  intros w Hwf [r Hk]. rewrite (bind_ret _ _ _ _ _ (delete_returns d inst w)).
  eexists _, _. split; [reflexivity|]. intros _. left. by eapply delete_done.
Qed.

Lemma retires_suspended snap rootfs src :
  retires (let! r := attempt (exec (VMUpdateLifecycleMetadata (inst_VmID inst) vmStatusSuspended snap rootfs src)) in
           ret (match r with inr _ => true | inl _ => false end)).
Proof.
  intros w _ _. unfold bind, attempt. rewrite quiet_exec by done.
  destruct (VMUpdateLifecycleMetadata _ _ _ _ _ _ _) as [e|[x db']] eqn:E; eexists _, _; (split; [reflexivity|]); [done|].
  intros _. right. unfold VMUpdateLifecycleMetadata in E. apply returning_inv in E as (v & x0 & Hv & _ & _ & _ & _ & ->).
  exists v. eexists. split; [done|]. simpl. by rewrite lookup_insert_eq.
Qed.

Lemma suspend_retires rt vm : retires (suspend_instance d rt inst vm).
Proof.
  unfold suspend_instance. cbv zeta.
  apply retires_bind; [solve_returns|solve_runs|intros [e|?]]; [apply retires_delete|].
  apply retires_bind; [solve_returns|solve_runs|intros [e|?]]; [apply retires_delete|].
  apply retires_bind; [solve_returns|solve_runs|intros [e|?]]; [apply retires_delete|].
  apply retires_bind; [solve_returns|solve_runs|intros [e|]]; [apply retires_no|].
  apply retires_bind; [solve_returns|solve_runs|intros snap]. apply retires_suspended.
Qed.

Lemma cleanup_retires w :
  db_wf (w_db w) -> is_Some (db_instances (w_db w) !! k) ->
  exists w', cleanupInstance d inst w = (Ret tt, w') /\
    retired k (if is_null (inst_VmID inst) then None else
               match row_at (db_vms (w_db w)) (inst_VmID inst) with
               | Some x => if String.eqb (vm_Status x) "running" then inst_VmID inst else None
               | None => None
               end) (w_db w').
Proof.
  intros Hwf Hk. unfold cleanupInstance.
  match goal with |- context [bind ?m _ w] => set (m1 := m) end.
  assert (dep_runs m1) as Hruns by (unfold m1, suspend_instance; solve_runs).
  assert (exists b w1, m1 w = (Ret b, w1) /\ (b = true -> retired k
            (if is_null (inst_VmID inst) then None else
               match row_at (db_vms (w_db w)) (inst_VmID inst) with
               | Some x => if String.eqb (vm_Status x) "running" then inst_VmID inst else None
               | None => None
               end) (w_db w1))) as (b & w1 & H1 & Hb).
  { unfold m1. destruct (inst_VmID inst) as [v|] eqn:Ev; [|by exists false, w].
    destruct (d_rt d) as [rt|]; [|by exists false, w].
    destruct (_ && _); [|by exists false, w].
    unfold bind, attempt. rewrite quiet_query by done. unfold VMFirstByID. simpl.
    destruct (db_vms (w_db w) !! v) as [x|] eqn:Ex; simpl; [|by eexists _, _].
    destruct (is_null (vm_DeletedAt x)); simpl; [|by eexists _, _].
    destruct (String.eqb (vm_Status x) "running"); [|by eexists _, _].
    destruct (suspend_retires rt x (tick w) Hwf Hk) as (b & w1 & H & Hb). rewrite Ev in Hb. eauto. }
  rewrite (bind_ret _ _ _ _ _ H1). destruct b; [by exists w1; split; [|apply Hb]|].
  assert (w1 = (m1 w).2) as -> by (by rewrite H1).
  destruct Hk as [r Hk]. destruct (runs_keep_instance m1 w k r Hruns Hk) as (r1 & Hr1 & _).
  eexists. split; [apply delete_returns|]. left. by eapply delete_done; [..|apply runs_wf| |].
Qed.

End cleanup.

(** ** The measure *)

(** The keys of the live instances of [dep] that satisfy [p]. *)
Definition keys_of (dep : pgUUID) (p : DeploymentInstance -> bool) (db : Db) : gset UUID :=
  dom (filter (fun '(_, r) => col_eq (inst_DeploymentID r) dep && inst_live r && p r = true) (db_instances db)).

Lemma elem_of_keys_of dep p db k :
  k ∈ keys_of dep p db <->
  exists r, db_instances db !! k = Some r /\ col_eq (inst_DeploymentID r) dep = true /\ inst_live r = true /\ p r = true.
Proof.
  unfold keys_of. rewrite elem_of_dom. split.
  - intros [r Hr]. apply map_lookup_filter_Some in Hr as [Hk Hp]. rewrite !andb_true_iff in Hp.
    destruct Hp as [[? ?] ?]. by exists r.
  - intros (r & Hk & H1 & H2 & H3). exists r. apply map_lookup_filter_Some. by rewrite H1, H2, H3.
Qed.

Definition vm_running (db : Db) (r : DeploymentInstance) : bool :=
  match row_at (db_vms db) (inst_VmID r) with Some x => String.eqb (vm_Status x) "running" | None => false end.

Definition remaining (dep : pgUUID) (db : Db) : nat :=
  (size (keys_of dep always db) + size (keys_of dep (vm_running db) db))%nat.

Lemma keys_shrink dep p p' db db' :
  shrinks db db' ->
  (forall j i i', db_instances db !! j = Some i -> db_instances db' !! j = Some i' ->
     (inst_DeploymentID i', inst_VmID i') = (inst_DeploymentID i, inst_VmID i) ->
     (isActiveInstance i' = true -> isActiveInstance i = true) -> p' i' = true -> p i = true) ->
  keys_of dep p' db' ⊆ keys_of dep p db.
Proof.
  intros [HI _] Hp k (i' & Hk & Hdep & Hlive & Hpi)%elem_of_keys_of.
  destruct (HI k i' Hk) as (i & Hi & He & Hl & Ha). apply elem_of_keys_of. exists i.
  split; [done|]. split; [congruence|]. eauto.
Qed.

Lemma vm_running_shrink db db' i i' :
  shrinks db db' -> inst_VmID i' = inst_VmID i -> vm_running db' i' = true -> vm_running db i = true.
Proof.
  intros [_ HV] He. unfold vm_running. rewrite He. destruct (inst_VmID i) as [v|]; [|done]. simpl.
  destruct (db_vms db' !! v) as [x'|] eqn:E; [|done]. destruct (HV v x' E) as (x & -> & Hx).
  rewrite !String.eqb_eq. auto.
Qed.

(** A retired instance of the deployment makes the measure smaller. *)
Lemma remaining_decreases dep db db' k r :
  shrinks db db' -> db_instances db !! k = Some r -> col_eq (inst_DeploymentID r) dep = true ->
  inst_live r = true ->
  retired k (if is_null (inst_VmID r) then None else
             match row_at (db_vms db) (inst_VmID r) with
             | Some x => if String.eqb (vm_Status x) "running" then inst_VmID r else None
             | None => None
             end) db' ->
  (remaining dep db' < remaining dep db)%nat.
Proof.
  intros Hsh Hk Hdep Hlive Hret.
  assert (keys_of dep always db' ⊆ keys_of dep always db) as HL by (eapply keys_shrink; [done|]; by intros).
  assert (keys_of dep (vm_running db') db' ⊆ keys_of dep (vm_running db) db) as HV.
  { eapply keys_shrink; [done|]. intros j i i' _ _ He _. eapply vm_running_shrink; [done|]. congruence. }
  unfold remaining.
  destruct Hret as [(r' & Hr' & Hdead)|(v & x & Hv & Hx & Hst)].
  - assert (keys_of dep always db' ⊂ keys_of dep always db) as Hs.
    { apply strict_spec_alt. split; [done|]. intros Heq.
      assert (k ∈ keys_of dep always db) as Hin by (apply elem_of_keys_of; eauto 10).
      rewrite <- Heq in Hin. apply elem_of_keys_of in Hin as (r2 & Hr2 & _ & Hl2 & _). simplify_eq. congruence. }
    apply subset_size in Hs. apply subseteq_size in HV. lia.
  - assert (keys_of dep (vm_running db') db' ⊂ keys_of dep (vm_running db) db) as Hs.
    { destruct (is_null (inst_VmID r)); [done|].
      destruct (row_at (db_vms db) (inst_VmID r)) as [y|] eqn:Ey; [|done].
      destruct (String.eqb (vm_Status y) "running") eqn:Er; [|done].
      apply strict_spec_alt. split; [done|]. intros Heq.
      assert (k ∈ keys_of dep (vm_running db) db) as Hin.
      { apply elem_of_keys_of. exists r. unfold vm_running. by rewrite Ey. }
      rewrite <- Heq in Hin. apply elem_of_keys_of in Hin as (r2 & Hr2 & _ & _ & Hrun).
      destruct (sh_instances _ _ Hsh k r2 Hr2) as (r1 & Hr1 & He & _). simplify_eq.
      unfold vm_running in Hrun. assert (inst_VmID r2 = Some v) as Hv2 by congruence. rewrite Hv2 in Hrun.
      simpl in Hrun. rewrite Hx, Hst in Hrun. done. }
    apply subset_size in Hs. apply subseteq_size in HL. lia.
Qed.

(** ** Counting active instances *)

Lemma rows_size {R} (p : R -> bool) (m : gmap UUID R) :
  length (rows p m) = size (filter (fun '(_, r) => p r = true) m).
Proof.
  induction m as [|k r m Hk IH] using map_ind.
  - unfold rows. rewrite map_to_list_empty. by rewrite map_filter_empty, map_size_empty.
  - rewrite (Permutation_length (rows_insert p m k r Hk)), length_app, IH. destruct (p r) eqn:E; simpl.
    + rewrite map_filter_insert_True by done. rewrite map_size_insert_None; [done|].
      apply map_lookup_filter_None. by left.
    + rewrite map_filter_insert_False by congruence. by rewrite delete_id.
Qed.

Lemma active_filter l : activeInstanceCount l = Z.of_nat (length (List.filter isActiveInstance l)).
Proof. induction l as [|i l IH]; simpl; [done|]. destruct (isActiveInstance i); simpl; lia. Qed.

Lemma filter_and {A} (p q : A -> bool) l : List.filter q (List.filter p l) = List.filter (fun x => p x && q x) l.
Proof. induction l as [|x l IH]; simpl; [done|]. destruct (p x); simpl; [|done]. destruct (q x); by rewrite IH. Qed.

Lemma active_size dep db :
  activeInstanceCount (live_instances dep db) = Z.of_nat (size (keys_of dep isActiveInstance db)).
Proof.
  rewrite active_filter. f_equal. unfold live_instances, rows. rewrite filter_and.
  fold (rows (fun x => col_eq (inst_DeploymentID x) dep && inst_live x && isActiveInstance x) (db_instances db)).
  rewrite rows_size. unfold keys_of. by rewrite size_dom.
Qed.

Lemma active_perm l l' : l ≡ₚ l' -> activeInstanceCount l = activeInstanceCount l'.
Proof. induction 1; simpl; lia. Qed.

Lemma active_shrinks dep db db' :
  shrinks db db' -> activeInstanceCount (live_instances dep db') <= activeInstanceCount (live_instances dep db).
Proof.
  intros Hsh. rewrite !active_size. apply inj_le, subseteq_size. eapply keys_shrink; [done|]. auto.
Qed.

Lemma remaining_bound dep db : (remaining dep db <= 2 * length (live_instances dep db))%nat.
Proof.
  unfold remaining, live_instances. rewrite rows_size, <- size_dom.
  assert (keys_of dep (vm_running db) db ⊆ keys_of dep always db) as HV.
  { intros k (r & Hk & H1 & H2 & _)%elem_of_keys_of. apply elem_of_keys_of. eauto 10. }
  apply subseteq_size in HV.
  assert (keys_of dep always db = dom (filter (fun '(_, r) => col_eq (inst_DeploymentID r) dep && inst_live r = true) (db_instances db))) as Heq.
  { apply set_eq. intros k. rewrite elem_of_keys_of, elem_of_dom. split.
    - intros (r & Hk & H1 & H2 & _). exists r. apply map_lookup_filter_Some. by rewrite H1, H2.
    - intros [r Hr]. apply map_lookup_filter_Some in Hr as [Hk [H1 H2]%andb_true_iff]. eauto 10. }
  rewrite <- Heq. lia.
Qed.

(** ** The loop *)

Lemma pick_victim_elem m l v : pick_victim m l = Some v -> v ∈ l.
Proof.
  unfold pick_victim. destruct (List.find _ l) as [x|] eqn:E; intros H; simplify_eq.
  - apply find_some in E as [Hin _]. by apply list_elem_of_In.
  - destruct l as [|y l]; simpl in H; simplify_eq. constructor.
Qed.

Section down.
Context {env : Env} {S : Sorter} (d : Deployer) (Hq : quiet env) (dep : pgUUID) (target : Z).

Definition scale_down_round (st : list DeploymentInstance * option (gmap UUID string))
    : M (list DeploymentInstance * option (gmap UUID string) + list DeploymentInstance) :=
  let '(list, status) := st in
  if target <? activeInstanceCount list then
    let! statusMap := (match status with Some m => ret m | None => serverStatusByIDs list end) in
    match pick_victim statusMap (sort_by newest_first list) with
    | None => ret (inr list)
    | Some victim =>
        do! cleanupInstance d victim ;
        let! list' := query (DeploymentInstanceFindByDeploymentID dep) in
        ret (inl (list', None))
    end
  else ret (inr list).

(** The listing matches the database. *)
Definition listed (l : list DeploymentInstance) (w : World) : Prop :=
  db_wf (w_db w) /\ l ≡ₚ live_instances dep (w_db w).

(** The servers of listed instances exist, so their statuses can be loaded. *)
Lemma status_loads l w :
  Forall (fun i => fk (db_servers (w_db w)) (inst_ServerID i) = true) l ->
  exists m w', serverStatusByIDs l w = (Ret m, w') /\ w_db w' = w_db w.
Proof.
  unfold serverStatusByIDs. generalize (∅ : gmap UUID string). revert w.
  induction l as [|i l IH]; intros w m Hl; simpl; [by eauto|]. apply Forall_cons in Hl as [Hi Hl].
  assert (forall w', w_db w' = w_db w -> Forall (fun i => fk (db_servers (w_db w')) (inst_ServerID i) = true) l)
    as Hl' by (by intros w' ->).
  destruct (isActiveInstance i); simpl; [|rewrite (bind_ret _ _ _ m w) by done; by apply IH].
  destruct (inst_ServerID i) as [id|] eqn:Es; [|rewrite (bind_ret _ _ _ m w) by done; by apply IH].
  destruct (m !! id) eqn:Em; [rewrite (bind_ret _ _ _ m w) by done; by apply IH|].
  simpl in Hi. destruct (db_servers (w_db w) !! id) as [srv|] eqn:Esrv; [|done].
  erewrite bind_ret by (erewrite bind_ret; [reflexivity|]; apply wrap_ret;
    rewrite quiet_query by done; unfold ServerFindByID; simpl; by rewrite Esrv).
  destruct (IH (tick w) (<[id:=srv_Status srv]> m)) as (m' & w' & H & ?); [by apply Hl'|eauto].
Qed.

Lemma listed_loads l w : listed l w -> exists m w', serverStatusByIDs l w = (Ret m, w') /\ w_db w' = w_db w.
Proof.
  intros [Hwf Hl]. apply status_loads, Forall_forall. intros i Hi. rewrite Hl in Hi.
  apply elem_of_rows in Hi as [_ [k Hk]]. destruct (wf_instances _ Hwf k i Hk) as [_ Hok].
  unfold instance_ok in Hok. repeat (apply andb_true_iff in Hok as [Hok ?]). done.
Qed.

(** Removing one victim and listing again. *)
Lemma victim_round victim l w :
  listed l w -> victim ∈ l ->
  exists l' w', (do! cleanupInstance d victim ;
                 let! list' := query (DeploymentInstanceFindByDeploymentID dep) in
                 ret (inl (A := list DeploymentInstance * option (gmap UUID string)) (B := list DeploymentInstance) (list', None))) w
      = (Ret (inl (l', None)), w') /\
    listed l' w' /\ (remaining dep (w_db w') < remaining dep (w_db w))%nat.
Proof.
  intros [Hwf Hl] Hin. rewrite Hl in Hin. apply elem_of_rows in Hin as [[Hdep Hlive]%andb_true_iff [k Hk]].
  destruct (wf_instances _ Hwf k victim Hk) as [Hid _].
  destruct (cleanup_retires d Hq victim k Hid w Hwf (ex_intro _ _ Hk)) as (w1 & H1 & Hret).
  assert (w1 = (cleanupInstance d victim w).2) as E1 by (by rewrite H1).
  rewrite (bind_ret _ _ _ _ _ H1). unfold bind. rewrite quiet_query by done.
  eexists _, _. split; [reflexivity|]. simpl. split.
  - split; simpl; [|apply sort_by_perm]. rewrite E1. apply runs_wf; [apply runs_cleanup|done].
  - eapply remaining_decreases; [|done..]. rewrite E1. apply cleanup_shrinks.
Qed.

Lemma scale_down_round_cases st w :
  listed st.1 w ->
  (activeInstanceCount st.1 <= Z.max 0 target /\ exists w', scale_down_round st w = (Ret (inr st.1), w') /\
     listed st.1 w') \/
  (exists l w', scale_down_round st w = (Ret (inl (l, None)), w') /\ listed l w' /\
     (remaining dep (w_db w') < remaining dep (w_db w))%nat).
Proof.
  destruct st as [l status]. simpl. intros Hl. unfold scale_down_round.
  destruct (target <? activeInstanceCount l) eqn:E; [|apply Z.ltb_ge in E; left; split; [lia|eauto]].
  set (load := match status with Some m => ret m | None => serverStatusByIDs l end).
  assert (exists m w1, load w = (Ret m, w1) /\ w_db w1 = w_db w) as (m & w1 & El & Hdb)
    by (unfold load; destruct status; [by eauto|by apply listed_loads]).
  rewrite (bind_ret _ _ _ _ _ El).
  destruct (pick_victim m (sort_by newest_first l)) as [victim|] eqn:Ev.
  - right. apply pick_victim_elem in Ev. rewrite sort_by_elem in Ev.
    rewrite <- Hdb. apply (victim_round victim l w1); [|done]. unfold listed in *. by rewrite Hdb.
  - left. assert (l = []) as ->.
    { unfold pick_victim in Ev. destruct (List.find _ _); [done|].
      destruct (sort_by newest_first l) eqn:Es; [|done]. apply Permutation_nil. rewrite <- (sort_by_perm newest_first l).
      by rewrite Es. }
    split; [simpl; lia|]. exists w1. split; [done|]. unfold listed in *. by rewrite Hdb.
Qed.

Lemma scale_down_loop_ends fuel st w :
  listed st.1 w -> (remaining dep (w_db w) < fuel)%nat ->
  exists l w', scale_down_loop d fuel dep target st w = (Ret l, w') /\ listed l w' /\
     activeInstanceCount l <= Z.max 0 target.
Proof.
  unfold scale_down_loop. fold scale_down_round. revert st w.
  induction fuel as [|fuel IH]; intros st w Hl Hfuel; [lia|]. cbn [loop]. unfold bind.
  destruct (scale_down_round_cases st w Hl) as [[Hact (w' & -> & Hl')]|(l & w' & -> & Hl' & Hdec)].
  - eauto 10.
  - apply (IH (l, None) w'); [done|lia].
Qed.

End down.

(** ** The whole operation *)

Section excess.
Context {env : Env} {S : Sorter} (d : Deployer) (Hq : quiet env).

Lemma prune_shrinks l keep w : shrinks (w_db w) (w_db (pruneWarmPoolInstances d l keep w).2).
Proof.
  apply (runs_preorder (fun A s => exists inst, cleanup_stmt inst A s) shrinks).
  - intros db db' (A & s & t & a & [inst Hs] & H). apply (cleanup_step_shrinks inst). by exists A, s, t, a.
  - unfold pruneWarmPoolInstances. case_match; [apply runs_ret|]. apply runs_for_each. intros x.
    apply (runs_weaken (delete_stmt x)); [|apply runs_delete_only]. intros. exists x. by constructor.
Qed.

Lemma excess_ends fuel dep l target init w :
  listed dep l w -> (2 * length l < fuel)%nat ->
  exists l' w', scaleDownExcess d fuel dep l target init w = (Ret l', w') /\ listed dep l' w' /\
     activeInstanceCount l' <= Z.max 0 target.
Proof.
  intros Hl Hfuel. unfold scaleDownExcess.
  assert (remaining dep (w_db w) < fuel)%nat as Hrem.
  { pose proof (remaining_bound dep (w_db w)) as Hb. destruct Hl as [_ Hl].
    rewrite <- (Permutation_length Hl) in Hb. lia. }
  destruct (scale_down_loop_ends d Hq dep target fuel (l, Some init) w Hl Hrem)
    as (l1 & w1 & Hw1 & [Hwf1 Hl1] & Hact).
  rewrite (bind_ret _ _ _ _ _ Hw1).
  assert (returns (retainedWarmPoolBudget d dep)) as Hb by (unfold retainedWarmPoolBudget; solve_returns).
  assert (w_db (retainedWarmPoolBudget d dep w1).2 = w_db w1) as Hdb
    by (apply runs_none; unfold retainedWarmPoolBudget; solve_runs).
  destruct (Hb w1) as (keep & w2 & Hw2). rewrite Hw2 in Hdb. simpl in Hdb. rewrite (bind_ret _ _ _ _ _ Hw2).
  assert (returns (pruneWarmPoolInstances d l1 keep)) as Hp.
  { unfold pruneWarmPoolInstances. case_match; [apply returns_ret|]. apply returns_for_each. intros x w0.
    eexists _, _. apply delete_returns. }
  rewrite (after_step _ _ _ Hp). rewrite quiet_query by done. eexists _, _.
  split; [reflexivity|]. simpl.
  assert (activeInstanceCount (live_instances dep (w_db (pruneWarmPoolInstances d l1 keep w2).2)) <= Z.max 0 target) as Hle.
  { etrans; [apply active_shrinks, prune_shrinks|]. rewrite Hdb. by rewrite <- (active_perm _ _ Hl1). }
  split; [|by rewrite (active_perm _ _ (sort_by_perm _ _))].
  split; simpl; [|apply sort_by_perm]. apply runs_wf; [apply runs_prune|]. by rewrite Hdb.
Qed.

End excess.

(** Scaling down comes to an end and succeeds: when the database answers,
    keeps the constraints of the schema, and the list given is the deployment's
    current one, twice its length plus one rounds are enough, and the answer is
    a current listing of the deployment with at most the target number of
    active instances. *)
Theorem scale_down_terminates (env : Env) (S : Sorter) (d : Deployer) (fuel : nat) (dep : pgUUID)
    (l : list DeploymentInstance) (target : Z) (init : gmap UUID string) (w : World) :
  quiet env -> db_wf (w_db w) -> l ≡ₚ live_instances dep (w_db w) -> (2 * length l < fuel)%nat ->
  exists l' w', scaleDownExcess d fuel dep l target init w = (Ret l', w') /\
     l' ≡ₚ live_instances dep (w_db w') /\ activeInstanceCount l' <= Z.max 0 target.
Proof.
  intros Hq Hwf Hl Hfuel. destruct (excess_ends d Hq fuel dep l target init w (conj Hwf Hl) Hfuel)
    as (l' & w' & H & [_ Hl'] & Ha). eauto.
Qed.

Lemma scale_down_terminates_witness :
  exists l' w', scaleDownExcess sample_deployer 7 (Some 10%N) (live_instances (Some 10%N) sample_db) 1 ∅ sample_world = (Ret l', w') /\
     l' ≡ₚ live_instances (Some 10%N) (w_db w') /\ activeInstanceCount l' <= Z.max 0 1.
Proof.
  apply (scale_down_terminates _ _ sample_deployer 7 (Some 10%N) (live_instances (Some 10%N) sample_db) 1 ∅
           sample_world sample_quiet sample_wf); [done|]. vm_compute. lia.
Defined.
