(* ===== verification/LifecycleProofs.v ===== *)
(** * Properties of the deployment decisions

    Bounds of the replica targets, the warm-pool promotion, the runtime
    environment, the restart budget and the environment of a service. *)

From S2P Require Import Prelude NetAddr Text Models Runtime Effects Queries Logic EventLogic TableFacts Lifecycle Sample.


(** ** Replica targets *)

(** The clamp as a minimum of a maximum. *)
Lemma clamp_eq proj n :
  clampDesiredReplicaCount proj n =
  if proj_MaxInstanceCount proj <=? 0 then 0
  else Z.min (proj_MaxInstanceCount proj) (Z.max (Z.max 1 (proj_MinInstanceCount proj)) n).
Proof.
  unfold clampDesiredReplicaCount, nonZeroReplicaFloor.
  destruct (Z.leb_spec (proj_MaxInstanceCount proj) 0); [done|].
  assert ((if 1 <? proj_MinInstanceCount proj then proj_MinInstanceCount proj else 1) =
          Z.max 1 (proj_MinInstanceCount proj)) as ->
    by (destruct (Z.ltb_spec 1 (proj_MinInstanceCount proj)); lia).
  cbv zeta. set (f := Z.max 1 (proj_MinInstanceCount proj)). assert (1 <= f) by lia.
  assert ((if n <? f then f else n) = Z.max f n) as -> by (destruct (Z.ltb_spec n f); lia).
  destruct (Z.ltb_spec (proj_MaxInstanceCount proj) (Z.max f n)) as [H1|H1].
  - destruct (Z.ltb_spec (proj_MaxInstanceCount proj) 0); lia.
  - destruct (Z.ltb_spec (Z.max f n) 0); lia.
Qed.

Lemma clamp_bounds proj n :
  0 <= clampDesiredReplicaCount proj n /\
  (0 < proj_MaxInstanceCount proj ->
   1 <= clampDesiredReplicaCount proj n <= proj_MaxInstanceCount proj /\
   (proj_MinInstanceCount proj <= proj_MaxInstanceCount proj ->
    proj_MinInstanceCount proj <= clampDesiredReplicaCount proj n) /\
   (Z.max 1 (proj_MinInstanceCount proj) <= n <= proj_MaxInstanceCount proj ->
    clampDesiredReplicaCount proj n = n)).
Proof. rewrite clamp_eq. destruct (Z.leb_spec (proj_MaxInstanceCount proj) 0); lia. Qed.

(** The replica target of a production deployment is never negative and
    never above the project's maximum; it is zero only when the project is
    scaled to zero and no wake-up is pending, or when the maximum is not
    positive; otherwise it respects the project's minimum, and a wanted count
    between minimum and maximum is taken as it is. *)
Theorem production_replica_bounds (proj : Project) (service : option Service) (dep : Deployment) :
  dep_DeploymentKind dep = "production" ->
  let n := effectiveReplicaCount proj service dep in
  0 <= n <= Z.max 0 (proj_MaxInstanceCount proj) /\
  (n = 0 <-> proj_MaxInstanceCount proj <= 0 \/ (proj_ScaledToZero proj = true /\ dep_WakeRequestedAt dep = None)) /\
  (0 < n -> proj_MinInstanceCount proj <= proj_MaxInstanceCount proj -> proj_MinInstanceCount proj <= n) /\
  (0 < n -> Z.max 1 (proj_MinInstanceCount proj) <= serviceDesiredReplicaCount proj service <= proj_MaxInstanceCount proj ->
   n = serviceDesiredReplicaCount proj service).
Proof.
  intros Hk. cbv zeta. unfold effectiveReplicaCount. rewrite Hk. simpl.
  set (sd := serviceDesiredReplicaCount proj service).
  pose proof (clamp_bounds proj sd) as [H0 H1].
  assert (proj_MaxInstanceCount proj <= 0 -> clampDesiredReplicaCount proj sd = 0) as H2.
  { intros Hm. unfold clampDesiredReplicaCount. by rewrite (proj2 (Z.leb_le _ _) Hm). }
  destruct (dep_WakeRequestedAt dep) as [t|]; [rewrite bool_decide_eq_true_2 by eauto|
    rewrite bool_decide_eq_false_2 by (by intros [? ?]); destruct (proj_ScaledToZero proj)];
    (destruct (Z.le_gt_cases (proj_MaxInstanceCount proj) 0) as [Hm|Hm]; [specialize (H2 Hm)|specialize (H1 Hm)]);
    (split; [lia|]); (split; [split; [intros; lia||(left; lia)||(right; done)|intros [?|[? ?]]; lia||done]|]); lia.
Qed.

(** A preview runs at least one replica, and exactly the wanted number when
    that is positive, unless it was scaled to zero and nothing woke it. *)
Theorem preview_replica_bounds (proj : Project) (service : option Service) (dep : Deployment) :
  dep_DeploymentKind dep = "preview" ->
  effectiveReplicaCount proj service dep =
  if dep_PreviewScaledToZero dep && negb (bool_decide (is_Some (dep_WakeRequestedAt dep))) then 0
  else Z.max 1 (serviceDesiredReplicaCount proj service).
Proof.
  intros Hk. unfold effectiveReplicaCount. rewrite Hk. simpl.
  assert (forall n, (if n <? 1 then 1 else n) = Z.max 1 n) as Hmax.
  { intros n. destruct (n <? 1) eqn:E; [apply Z.ltb_lt in E|apply Z.ltb_ge in E]; lia. }
  rewrite Hmax. by destruct (dep_PreviewScaledToZero dep), (bool_decide _).
Qed.

(** ** Warm pool *)

Definition warm_count (l : list DeploymentInstance) : Z := Z.of_nat (length (List.filter isWarmPoolInstance l)).

Lemma warm_candidates_length l deficit :
  0 <= deficit -> Z.of_nat (length (warm_candidates l deficit)) = Z.min deficit (warm_count l).
Proof.
  revert deficit; induction l as [|i l IH]; intros deficit Hd; unfold warm_count in *; simpl; [lia|].
  destruct (deficit =? 0) eqn:E; [apply Z.eqb_eq in E; subst; simpl; lia|apply Z.eqb_neq in E].
  destruct (isWarmPoolInstance i); simpl; [|by apply IH]. rewrite Nat2Z.inj_succ, IH by lia. lia.
Qed.

Lemma warm_candidates_warm l deficit id :
  id ∈ warm_candidates l deficit -> exists i, i ∈ l /\ isWarmPoolInstance i = true /\ inst_ID i = id.
Proof.
  revert deficit; induction l as [|i l IH]; intros deficit; simpl; [by intros ?%not_elem_of_nil|].
  destruct (deficit =? 0); [by intros ?%not_elem_of_nil|].
  destruct (isWarmPoolInstance i) eqn:E.
  - intros [->|Hin]%elem_of_cons; [exists i; by repeat constructor|].
    destruct (IH _ Hin) as (x & ? & ?). exists x. split; [by constructor|done].
  - intros Hin. destruct (IH _ Hin) as (x & ? & ?). exists x. split; [by constructor|done].
Qed.

(** Promotion from the warm pool fills the gap to the wanted number of
    active instances exactly, as far as the pool reaches: it promotes the
    smaller of the gap and the pool's size, and only warm instances. *)
Theorem promotion_fills_gap (l : list DeploymentInstance) (desired : Z) :
  Z.of_nat (length (warmPoolPromotionCandidates l desired)) =
    Z.min (Z.max 0 (desired - activeInstanceCount l)) (warm_count l) /\
  forall id, id ∈ warmPoolPromotionCandidates l desired ->
    exists i, i ∈ l /\ isWarmPoolInstance i = true /\ inst_ID i = id.
Proof.
  unfold warmPoolPromotionCandidates. destruct (_ <=? 0) eqn:E; [apply Z.leb_le in E|apply Z.leb_gt in E].
  - split; [unfold warm_count; simpl; lia|by intros ? ?%not_elem_of_nil].
  - split; [|apply warm_candidates_warm]. rewrite warm_candidates_length by lia. lia.
Qed.

(** ** Runtime environment *)

(** The environment passed to an instance has one entry NAME=value per
    variable, in order; without a decoder it exists exactly when no value is
    encrypted, so an encrypted value never reaches an instance undecrypted. *)
Theorem runtime_env_plain (vars : list EnvironmentVariable) :
  buildRuntimeEnv vars None =
  match List.find (fun v => IsEncryptedProjectSecretValue (ev_Value v)) vars with
  | Some v => inl (ErrMsg ("decrypt project secret " +:+ ev_Name v +:+ ": no secret decoder configured"))
  | None => inr ((fun v => ev_Name v +:+ "=" +:+ ev_Value v) <$> vars)
  end.
Proof.
  induction vars as [|v vars IH]; simpl; [done|]. destruct (IsEncryptedProjectSecretValue (ev_Value v)); [done|].
  rewrite IH. by destruct (List.find _ vars).
Qed.

(** ** Restart budget *)

(** An instance that is not healthy is held back exactly when it has been
    restarted at least three times and the last restart is less than five
    minutes ago. *)
Theorem restart_budget_exact (inst : DeploymentInstance) (now : Time) :
  restartBudgetExceeded inst false now = true <->
  exists last, inst_LastRestartAt inst = Some last /\ 3 <= inst_RestartCount inst /\ now < last + 5 * Minute.
Proof.
  unfold restartBudgetExceeded, maxRestartCount, restartBudgetSeconds, Before, Minute, Second.
  destruct (inst_LastRestartAt inst) as [last|]; [|split; [done|by intros (? & ? & _)]]. simpl.
  destruct (inst_RestartCount inst <? 3) eqn:E; [apply Z.ltb_lt in E|apply Z.ltb_ge in E].
  - split; [done|]. intros (? & _ & ? & _). lia.
  - rewrite Z.ltb_lt. split; [intros; exists last; split; [done|]; lia|]. intros (? & [= <-] & _ & ?). lia.
Qed.

(** ** Witnesses *)

Lemma production_replica_bounds_witness :
  let n := effectiveReplicaCount sample_project (Some (sample_service 20 "web"))
             (sample_deployment 10 20 None None None None) in
  0 <= n <= 3 /\ n = 1.
Proof.
  pose proof (production_replica_bounds sample_project (Some (sample_service 20 "web"))
    (sample_deployment 10 20 None None None None) eq_refl) as (H & _ & _ & H4).
  split; [exact H|]. apply H4; [vm_compute; reflexivity|vm_compute; split; discriminate].
Defined.

Lemma preview_replica_bounds_witness :
  let dep := mkDeployment (Some 14%N) (Some 1%N) (Some 20%N) None None None None "" "" "preview"
               None None false false None None None None None None None in
  effectiveReplicaCount sample_project None dep = 1.
Proof. apply (preview_replica_bounds sample_project None). reflexivity. Defined.

(** * The environment of a service

    The query EnvironmentVariableFindEffectiveByServiceID, whose rows
    [prepareImageAndEnv] turns into the environment of an instance. *)

(** ** DISTINCT ON *)

Section distinct.
Context {A K : Type} `{EqDecision K} (key : A -> K) (le : A -> A -> Prop).

Lemma distinct_on_spec seen l :
  NoDup (key <$> distinct_on key seen l) /\
  (forall x, x ∈ distinct_on key seen l -> x ∈ l /\ key x ∉ seen) /\
  (forall x, x ∈ l -> key x ∈ seen \/ key x ∈ (key <$> distinct_on key seen l)).
Proof.
  revert seen; induction l as [|x l IH]; intros seen; simpl.
  { split; [constructor|]. split; [by intros ? ?%not_elem_of_nil|by intros ? ?%not_elem_of_nil]. }
  case_bool_decide as E.
  - destruct (IH seen) as (H1 & H2 & H3). split; [done|]. split.
    + intros y Hy. destruct (H2 y Hy). split; [by right|done].
    + intros y [->|Hy]%elem_of_cons; [by left|auto].
  - destruct (IH (key x :: seen)) as (H1 & H2 & H3). split; [|split].
    + rewrite fmap_cons. constructor; [|done]. intros (y & Hy & Hin)%list_elem_of_fmap.
      destruct (H2 y Hin) as [_ Hn]. apply Hn. rewrite <- Hy. by left.
    + intros y [->|Hy]%elem_of_cons; [split; [by left|done]|]. destruct (H2 y Hy) as [? Hn].
      split; [by right|]. intros ?. apply Hn. by right.
    + intros y [->|Hy]%elem_of_cons; [right; rewrite fmap_cons; by left|].
      destruct (H3 y Hy) as [[->|Hs]%elem_of_cons|Hin]; [right; rewrite fmap_cons; by left|by left|].
      right. rewrite fmap_cons. by right.
Qed.

(** Of the rows of one key in an ordered list, the first is kept. *)
Lemma distinct_on_first seen l x y :
  StronglySorted le l -> (forall a, le a a) ->
  x ∈ distinct_on key seen l -> y ∈ l -> key y = key x -> le x y.
Proof.
  intros Hs Hrefl. revert seen. induction Hs as [|a l Hs IH Ha]; intros seen; simpl; [by intros ?%not_elem_of_nil|].
  case_bool_decide as E.
  - intros Hx [->|Hy]%elem_of_cons Hk; [|by eapply IH].
    destruct (distinct_on_spec seen l) as (_ & H2 & _). destruct (H2 x Hx) as [_ []]. by rewrite <- Hk.
  - intros [->|Hx]%elem_of_cons [->|Hy]%elem_of_cons Hk; [done| | |by eapply IH].
    + rewrite Forall_forall in Ha. auto.
    + destruct (distinct_on_spec (key a :: seen) l) as (_ & H2 & _). destruct (H2 x Hx) as [_ []]. rewrite Hk. by left.
Qed.

End distinct.

(** ** The order of the rows *)

(** Own rows first. *)
Definition own_rank (service : pgUUID) (e : EnvironmentVariable) : Z := if col_eq e.(ev_ServiceID) service then 0 else 1.

Lemma effective_le_spec service a b :
  ev_effective_le service a b <->
  (ev_Name a <> ev_Name b /\ String.le (ev_Name a) (ev_Name b)) \/
  (ev_Name a = ev_Name b /\ (own_rank service a < own_rank service b \/
     own_rank service a = own_rank service b /\ time_le (ev_UpdatedAt b) (ev_UpdatedAt a) = true)).
Proof.
  unfold ev_effective_le, String.le. fold (own_rank service a). fold (own_rank service b).
  destruct (String.eqb_spec (ev_Name a) (ev_Name b)) as [Hn|Hn].
  - rewrite Is_true_true, orb_true_iff, andb_true_iff, Z.ltb_lt, Z.eqb_eq. naive_solver.
  - naive_solver.
Qed.

Lemma effective_le_total service a b : ev_effective_le service a b || ev_effective_le service b a.
Proof.
  apply orb_True. rewrite !effective_le_spec.
  destruct (decide (ev_Name a = ev_Name b)) as [Hn|Hn].
  - destruct (Z.lt_total (own_rank service a) (own_rank service b)) as [?|[?|?]]; [left; right; auto| |right; right; auto].
    destruct (time_le_total (ev_UpdatedAt b) (ev_UpdatedAt a)); [left|right]; right; auto.
  - destruct (total String.le (ev_Name a) (ev_Name b)); [left; left; auto|right; left; auto].
Qed.

Lemma effective_le_trans service a b c :
  ev_effective_le service a b -> ev_effective_le service b c -> ev_effective_le service a c.
Proof.
  rewrite !effective_le_spec.
  intros [[Hn Hl]|(Hn & Ho)] [[Hn' Hl']|(Hn' & Ho')].
  - left. split; [|by etrans]. intros E. rewrite E in Hl. apply Hn. rewrite E. by apply (anti_symm String.le).
  - left. by rewrite <- Hn'.
  - left. by rewrite Hn.
  - right. split; [congruence|]. destruct Ho as [?|[? ?]], Ho' as [?|[? ?]]; [left; lia..|].
    right. split; [congruence|by eapply time_le_trans].
Qed.

Lemma effective_le_refl service a : ev_effective_le service a a.
Proof. pose proof (effective_le_total service a a) as H. by apply orb_True in H as [H|H]. Qed.

(** The environment of a service has exactly one variable of each name that
    the project or the service defines, and a variable of the service takes the
    place of a project default of the same name. *)
Theorem effective_env_overrides (S : Sorter) (k : UUID) (svc : Service) (t : Time) (db : Db) (l : list EnvironmentVariable) :
  db_services db !! k = Some svc ->
  EnvironmentVariableFindEffectiveByServiceID (Some k) t db = inr l ->
  let applies e := (exists id, db_env db !! id = Some e) /\ col_eq (ev_ProjectID e) (svc_ProjectID svc) = true /\
                   (ev_ServiceID e = Some k \/ ev_ServiceID e = None) in
  NoDup (ev_Name <$> l) /\
  (forall e, e ∈ l -> applies e) /\
  (forall e, applies e -> ev_Name e ∈ (ev_Name <$> l)) /\
  (forall e own, e ∈ l -> applies own -> ev_Name own = ev_Name e -> ev_ServiceID own = Some k -> ev_ServiceID e = Some k).
Proof.
  intros Hk H. cbv zeta. unfold EnvironmentVariableFindEffectiveByServiceID in H. simpl in H. rewrite Hk in H.
  injection H as <-. set (rs := rows _ _).
  assert (forall e, e ∈ sort_by (ev_effective_le (Some k)) rs <-> (exists id, db_env db !! id = Some e) /\
    col_eq (ev_ProjectID e) (svc_ProjectID svc) = true /\ (ev_ServiceID e = Some k \/ ev_ServiceID e = None)) as Hrows.
  { intros e. rewrite sort_by_elem. unfold rs. rewrite elem_of_rows, andb_true_iff, orb_true_iff.
    assert (col_eq (ev_ServiceID e) (Some k) = true <-> ev_ServiceID e = Some k) as ->.
    { destruct (ev_ServiceID e); simpl; [rewrite bool_decide_eq_true|]; naive_solver. }
    assert (is_null (ev_ServiceID e) = true <-> ev_ServiceID e = None) as -> by (by destruct (ev_ServiceID e)).
    naive_solver. }
  destruct (distinct_on_spec ev_Name [] (sort_by (ev_effective_le (Some k)) rs)) as (H1 & H2 & H3).
  split; [done|]. split; [|split].
  - intros e He. apply Hrows. by apply H2.
  - intros e He. apply Hrows in He. destruct (H3 e He) as [?%not_elem_of_nil|]; done.
  - intros e own He Hown Hn Hs. apply Hrows in Hown.
    pose proof (distinct_on_first ev_Name (fun a b => Is_true (ev_effective_le (Some k) a b)) [] _ e own
      (sort_by_sorted _ rs (effective_le_total _) (effective_le_trans _)) (effective_le_refl _) He Hown Hn) as Hle.
    apply effective_le_spec in Hle as [[Hne _]|(_ & Hr)]; [congruence|].
    unfold own_rank in Hr. rewrite Hs in Hr. simpl in Hr. rewrite bool_decide_eq_true_2 in Hr by done.
    destruct (col_eq (ev_ServiceID e) (Some k)) eqn:E; [|lia].
    destruct (ev_ServiceID e); simpl in E; [apply bool_decide_eq_true in E; congruence|done].
Qed.

(** ** Witness *)

Definition sample_variable (id : N) (service : pgUUID) (name value : string) : EnvironmentVariable :=
  mkEnvironmentVariable (Some id) (Some 1%N) service name value (Some 1) (Some 1).

(** A project default and a variable of service 20 of the same name. *)
Definition variables_db : Db :=
  mkDb ∅ ∅ ∅ ∅ {[ 1%N := sample_variable 1 None "PORT" "80"; 2%N := sample_variable 2 (Some 20%N) "PORT" "8080";
                 3%N := sample_variable 3 None "MODE" "prod" ]}
    ∅ ∅ ∅ ∅ ∅ ∅ ∅ (db_services sample_db) ∅ ∅ ∅ empty_ext.

Lemma effective_env_overrides_witness :
  let l := [sample_variable 3 None "MODE" "prod"; sample_variable 2 (Some 20%N) "PORT" "8080"] in
  EnvironmentVariableFindEffectiveByServiceID (Some 20%N) 0 variables_db = inr l /\ NoDup (ev_Name <$> l).
Proof.
  cbv zeta. assert (EnvironmentVariableFindEffectiveByServiceID (Some 20%N) 0 variables_db =
    inr [sample_variable 3 None "MODE" "prod"; sample_variable 2 (Some 20%N) "PORT" "8080"]) as H by (vm_compute; reflexivity).
  split; [exact H|].
  exact (proj1 (effective_env_overrides insertion_sorter 20%N (sample_service 20 "web") 0 variables_db _ eq_refl H)).
Defined.
