(* ===== verification/Termination.v ===== *)
(** * Reconciliation ends

    A logic of total correctness for computations with fuel, and the proof that
    reconciling a deployment comes to an end when the database answers. *)

From S2P Require Import Prelude NetAddr Text Models Runtime Effects Queries Logic EventLogic TableFacts Lifecycle Volumes Instances InstanceReconcile Scaling Deploy DeployTrace Integrity DeploySafety Sample Removal Retirement ScalingProofs.

(** ** Total correctness with fuel *)

Section ends.
Context {env : Env}.

(** From a database in [P], with any fuel from some amount on, [m] has one and
    the same outcome: an error, or a value and a database in [Q]. *)
Definition ends {A} (P : Db -> Prop) (m : nat -> M A) (Q : A -> Db -> Prop) : Prop :=
  forall w, P (w_db w) -> exists n o w', (forall fuel, (n <= fuel)%nat -> m fuel w = (o, w')) /\
    match o with Ret a => Q a (w_db w') | Err _ => True | Panic | Diverge => False end.

Lemma ends_bind {A B} P (R : A -> Db -> Prop) (Q : B -> Db -> Prop) (m : nat -> M A) (k : nat -> A -> M B) :
  ends P m R -> (forall a, ends (R a) (fun fuel => k fuel a) Q) -> ends P (fun fuel => bind (m fuel) (k fuel)) Q.
Proof.
  intros Hm Hk w Hw. destruct (Hm w Hw) as (n & o & w1 & H1 & Ho).
  destruct o as [a|e| |]; [|exists n, (Err e), w1|done|done].
  - destruct (Hk a w1 Ho) as (n2 & o2 & w2 & H2 & Ho2). exists (n `max` n2)%nat, o2, w2. split; [|done].
    intros fuel Hf. rewrite (bind_ret _ _ _ _ _ (H1 fuel ltac:(lia))). apply H2. lia.
  - split; [|done]. intros fuel Hf. unfold bind. by rewrite H1.
Qed.

Lemma ends_wrap {A} P (Q : A -> Db -> Prop) (m : nat -> M A) ctx :
  ends P m Q -> ends P (fun fuel => wrap ctx (m fuel)) Q.
Proof.
  intros Hm w Hw. destruct (Hm w Hw) as (n & o & w1 & H1 & Ho).
  exists n, (match o with Err e => Err (ErrWrap ctx e) | o => o end), w1.
  split; [|by destruct o]. intros fuel Hf. unfold wrap. rewrite (H1 fuel Hf). by destruct o.
Qed.

(** A computation without fuel that settles. *)
Lemma ends_settled {A} P (Q : A -> Db -> Prop) (m : M A) :
  settles m -> (forall w a w', P (w_db w) -> m w = (Ret a, w') -> Q a (w_db w')) -> ends P (fun _ => m) Q.
Proof.
  intros Hs HQ w Hw. exists O, (m w).1, (m w).2. split; [by destruct (m w)|].
  specialize (Hs w). destruct (m w) as [[a|e| |] w'] eqn:E; simpl in *; try done. eauto.
Qed.

Lemma ends_ret {A} P (Q : A -> Db -> Prop) (a : A) : (forall db, P db -> Q a db) -> ends P (fun _ => ret a) Q.
Proof. intros H. apply ends_settled; [apply np_ret|]. intros w a' w' Hw [= <- <-]. auto. Qed.

(** A computation that only reads keeps every condition on the database. *)
Lemma ends_reading {A} P (m : M A) : settles m -> runs no_stmt m -> ends P (fun _ => m) (fun _ => P).
Proof.
  intros Hs Hr. apply ends_settled; [done|]. intros w a w' Hw E.
  pose proof (runs_none m w Hr) as Hdb. rewrite E in Hdb. simpl in Hdb. by rewrite Hdb.
Qed.

(** A step of the deployer keeps the constraints of the schema. *)
Lemma ends_step {A} (m : M A) : settles m -> dep_runs m -> ends db_wf (fun _ => m) (fun _ => db_wf).
Proof.
  intros Hs Hr. apply ends_settled; [done|]. intros w a w' Hw E.
  pose proof (runs_wf m w Hr Hw) as Hwf. by rewrite E in Hwf.
Qed.

Lemma ends_conseq {A} (P P' : Db -> Prop) (Q Q' : A -> Db -> Prop) m :
  (forall db, P db -> P' db) -> (forall a db, Q' a db -> Q a db) -> ends P' m Q' -> ends P m Q.
Proof.
  intros HP HQ H w Hw. destruct (H w (HP _ Hw)) as (n & o & w' & ? & Ho). exists n, o, w'. split; [done|].
  destruct o; auto.
Qed.

End ends.

(** ** The deployer *)

(** A loop that ended has the same outcome with more fuel. *)
Lemma loop_more {X R} (body : X -> M (X + R)) fuel fuel' x w r w' :
  loop fuel body x w = (Ret r, w') -> (fuel <= fuel')%nat -> loop fuel' body x w = (Ret r, w').
Proof.
  revert fuel' x w; induction fuel as [|fuel IH]; intros [|fuel'] x w H Hle; try done; [lia|].
  cbn [loop] in *. apply bind_inv in H as (y & w1 & H1 & H2). rewrite (bind_ret _ _ _ _ _ H1).
  destruct y; [|done]. apply IH; [done|lia].
Qed.

Section deployer.
Context {env : Env} {S : Sorter} {U : Unicode} (d : Deployer) (Hq : quiet env).

(** The listing is the deployment's current one. *)
Definition current (dep : pgUUID) (l : list DeploymentInstance) (db : Db) : Prop :=
  db_wf db /\ l ≡ₚ live_instances dep db.

Lemma ends_list dep : ends db_wf (fun _ => query (DeploymentInstanceFindByDeploymentID dep)) (current dep).
Proof.
  apply ends_settled; [solve_np|]. intros w l w' Hw E.
  rewrite quiet_query in E by done. injection E as <- <-. split; [done|]. apply sort_by_perm.
Qed.
Lemma ends_listing dep ctx :
  ends db_wf (fun _ => wrap ctx (query (DeploymentInstanceFindByDeploymentID dep))) (current dep).
Proof. apply (ends_wrap _ _ (fun _ => _)), ends_list. Qed.

Lemma ends_excess dep l target init :
  ends (current dep l) (fun fuel => scaleDownExcess d fuel dep l target init) (current dep).
Proof.
  intros w Hl. set (n := Datatypes.S (2 * length l)).
  destruct (excess_ends d Hq n dep l target init w Hl ltac:(lia)) as (l' & w' & H & Hl' & _).
  exists n, (Ret l'), w'. split; [|done]. intros fuel Hf. unfold scaleDownExcess in *.
  apply bind_inv in H as (l1 & w1 & H1 & H2).
  rewrite (bind_ret _ _ _ _ _ (loop_more _ _ _ _ _ _ _ H1 Hf)). done.
Qed.

Lemma runs_attempts_none n url : runs no_stmt (healthCheck_attempts n url).
Proof. induction n; simpl; unfold probe; solve_runs. Qed.

Lemma current_wf dep l db : current dep l db -> db_wf db.
Proof. by intros []. Qed.

Lemma np_ensure_up_settles id n : settles (ensureInstanceCountUp d id n).
Proof.
  intros w. destruct (ensure_up_spec d id n w) as [[H _]|[e H]]; cbv zeta in H; by rewrite H.
Qed.

(** The rest of a computation that keeps the constraints. *)
Lemma ends_from_current {A} dep l (m : M A) : settles m -> dep_runs m -> ends (current dep l) (fun _ => m) (fun _ => db_wf).
Proof. intros Hs Hr. apply (ends_conseq _ db_wf _ (fun _ => db_wf)); [apply current_wf|auto|by apply ends_step]. Qed.

Lemma ends_ready_off P l m : ends P (fun _ => countReadyOffDrainingServers d l m) (fun _ => P).
Proof.
  apply ends_reading; [apply np_ready_off|].
  unfold countReadyOffDrainingServers, ready_off_draining, healthCheckVMFromHost, healthCheck.
  pose proof runs_attempts_none. solve_runs.
Qed.

Lemma ends_removal dep l m n :
  ends (current dep l) (fun _ => removeInstancesOnDrainingServers d dep l m n) (current dep).
Proof.
  apply (ends_bind _ (fun _ => current dep l)).
  { apply ends_ready_off. }
  intros ready. destruct (ready <? n); [by apply ends_ret|].
  destruct (List.filter _ l) as [|x r]; [by apply ends_ret|].
  eapply ends_bind; [apply ends_from_current; [solve_np|apply runs_for_each; intros; apply runs_delete]|]. intros ?.
  eapply ends_bind; [apply (ends_list dep)|]. intros l'. eapply ends_bind; [apply ends_reading; [solve_np|solve_runs]|]. intros ?. by apply ends_ret.
Qed.

Lemma ends_statuses P ctx l : ends P (fun _ => wrap ctx (serverStatusByIDs l)) (fun _ => P).
Proof. apply ends_reading; [apply np_wrap, np_status_by|]. unfold serverStatusByIDs. solve_runs. Qed.

Lemma ends_retire rc :
  ends db_wf (fun fuel => retireDrainingInstances d fuel rc) (fun _ => db_wf).
Proof.
  unfold retireDrainingInstances. eapply ends_bind; [apply ends_listing|]. intros l.
  eapply ends_bind; [apply ends_statuses|]. intros statusMap. cbv zeta.
  eapply ends_bind; [apply ends_ready_off|]. intros ready.
  apply (ends_bind _ (fun '(l', _, _) => current (dep_ID (rc_dep rc)) l')).
  - destruct (_ && _); [|by apply ends_ret].
    eapply ends_bind; [apply (ends_wrap _ _ (fun _ => _)), ends_removal|]. intros l'.
    eapply ends_bind; [apply ends_statuses|]. intros m. by apply ends_ret.
  - intros [[l' m] n]. destruct (_ && _); [|apply ends_ret, current_wf].
    apply ends_wrap. eapply ends_conseq; [| |apply ends_excess]; [auto|]. intros ? ?. apply current_wf.
Qed.

Section with_runtime.
Hypothesis Hrt : is_Some (d_rt d).

Lemma ends_surge rc l id :
  ends (current (dep_ID (rc_dep rc)) l) (fun fuel => surgeAndReconcile d fuel rc l id) (fun _ => db_wf).
Proof.
  unfold surgeAndReconcile. eapply ends_bind; [apply ends_statuses|]. intros m. cbv zeta.
  eapply ends_bind; [apply ends_wrap, ends_excess|]. intros l'.
  apply ends_from_current; [|solve_runs].
  pose proof np_ensure_up_settles. pose proof (fun rc ref src id l => np_each (dv := false) d Hrt rc ref src id l). solve_np.
Qed.

Lemma ends_instances rc id : ends db_wf (fun fuel => reconcileInstances d fuel rc id) (fun _ => db_wf).
Proof.
  unfold reconcileInstances. cbv zeta. eapply ends_bind; [apply ends_listing|]. intros l.
  eapply ends_bind; [apply ends_from_current; [apply np_repair|apply runs_repair]|]. intros ?.
  eapply ends_bind; [apply ends_listing|]. intros l'. destruct (rc_desired rc =? 0).
  - apply ends_from_current; [solve_np|solve_runs].
  - eapply ends_bind; [apply ends_surge|]. intros [l2|]; [|by apply ends_ret].
    eapply ends_bind; [apply ends_retire|]. intros ?. apply ends_step; [|solve_runs].
    pose proof (fun l => np_count_ready (dv := false) d Hrt l). solve_np.
Qed.

End with_runtime.

Lemma ends_converge id dep p s n v : ends db_wf (fun fuel => converge d fuel id dep p s n v) (fun _ => db_wf).
Proof.
  unfold converge.
  eapply ends_bind; [apply ends_step; unfold ensureBuild; [solve_np|solve_runs]|].
  intros [dep1 []]; [by apply ends_ret|].
  eapply ends_bind; [apply ends_step; unfold resolveProjectVolume; [solve_np|solve_runs]|].
  intros [mount []]; [by apply ends_ret|].
  eapply ends_bind; [apply ends_step; unfold syncDeploymentImage; [solve_np|solve_runs]|]. intros dep2.
  destruct (d_rt d) eqn:Hrt; [|apply ends_step; [solve_np|solve_runs]].
  eapply ends_bind; [apply ends_step; unfold prepareImageAndEnv; [solve_np|solve_runs]|]. intros [ref vars].
  apply ends_instances. by rewrite Hrt.
Qed.

Lemma ends_reconcile id : ends db_wf (fun fuel => ReconcileDeployment d fuel id) (fun _ => db_wf).
Proof.
  unfold ReconcileDeployment. do 4 (eapply ends_bind; [apply ends_step; [solve_np|solve_runs]|]; intros ?; cbv zeta).
  repeat case_match; first [apply ends_converge|apply ends_step; unfold failPreviewVolumeDeployment; [solve_np|solve_runs]].
Qed.

End deployer.

(** C1: Reconciling a deployment comes to an end when the database answers and
    keeps the constraints of the schema, whatever the runtime, the probes and
    the clock do: with any fuel from some amount on it has one and the same
    outcome, which is success or an error, never a panic. *)
Theorem reconcile_terminates (env : Env) (S : Sorter) (U : Unicode) (d : Deployer) (id : UUID) (w : World) :
  quiet env -> db_wf (w_db w) ->
  exists n o w', (forall fuel, (n <= fuel)%nat -> ReconcileDeployment d fuel id w = (o, w')) /\
    (o = Ret tt \/ exists e, o = Err e).
Proof.
  intros Hq Hwf. destruct (ends_reconcile d Hq id w Hwf) as (n & o & w' & H & Ho). exists n, o, w'.
  split; [done|]. destruct o as [[]|e| |]; [by left|right; by exists e|done|done].
Qed.

Lemma reconcile_terminates_witness :
  exists n o w', (forall fuel, (n <= fuel)%nat -> ReconcileDeployment sample_deployer fuel 13%N sample_world = (o, w')) /\
    (o = Ret tt \/ exists e, o = Err e).
Proof.
  apply (reconcile_terminates sample_env insertion_sorter sample_unicode sample_deployer 13%N sample_world
           sample_quiet sample_wf).
Defined.
