(* ===== verification/Promotion.v ===== *)
(** * Promotion

    A deployment is marked running only after enough ready instances of it were
    counted: the trace of [ReconcileDeployment] up to the promotion never
    touches the running marks. *)

From S2P Require Import Prelude NetAddr Text Models Runtime Effects Queries Logic EventLogic TableFacts Lifecycle Volumes Instances InstanceReconcile Scaling Deploy DeployTrace Integrity DeploySafety Sample Removal Retirement.

(** The running marks of all deployments. *)
Definition running_marks (db : Db) : gmap UUID (option Time) := dep_RunningAt <$> db_deployments db.

Lemma marks_update k r r' (m : gmap UUID Deployment) :
  m !! k = Some r -> dep_RunningAt r' = dep_RunningAt r ->
  dep_RunningAt <$> <[k := r']> m = dep_RunningAt <$> m.
Proof.
  intros Hk He. rewrite fmap_insert, He. apply insert_id. by rewrite lookup_fmap, Hk.
Qed.

Ltac head_of t := lazymatch t with ?f _ => head_of f | _ => t end.
(** Unfolds the statement that was executed. *)
Ltac unfold_stmt H := match type of H with ?x = _ => let h := head_of x in unfold h in H end.

(** Only [DeploymentMarkRunning] changes them. *)
Lemma unmarked_step d d' : db_step (deployer_stmt false) d d' -> running_marks d' = running_marks d.
Proof.
  intros (A & s & t & a & Hs & H). unfold running_marks.
  destruct Hs; try done; unfold_stmt H; try (unfold update_volume in H);
    repeat (case_match; try done); simplify_eq; try done; invert_stmt; try done; by apply (marks_update k r).
Qed.

(** A step that returned kept the constraints. *)
Lemma step_wf {env : Env} {A} (m : M A) w a w' :
  dep_runs m -> m w = (Ret a, w') -> db_wf (w_db w) -> db_wf (w_db w').
Proof. intros Hr E Hwf. pose proof (runs_wf m w Hr Hwf) as H. by rewrite E in H. Qed.

Lemma row_inv {R} (t : gmap UUID R) (id : pgUUID) r :
  first_row (option_list (row_at t id)) = inr r -> exists k, id = Some k /\ t !! k = Some r.
Proof. destruct id as [k|]; [|done]. simpl. destruct (t !! k) eqn:E; intros [= <-]. eauto. Qed.

(** The rows [ReconcileDeployment] reads first. *)
Definition reconciled_rows (db : Db) (id : UUID) (dep : Deployment) (proj : Project) (service : option Service) : Prop :=
  db_deployments db !! id = Some dep /\
  (exists p, dep_ProjectID dep = Some p /\ db_projects db !! p = Some proj) /\
  match dep_ServiceID dep with
  | Some s => exists svc, service = Some svc /\ db_services db !! s = Some svc
  | None => service = None
  end.

Section promotion.
Context {env : Env} {S : Sorter} {U : Unicode} (d : Deployer).

Lemma unmarked {A} (m : M A) w :
  runs (deployer_stmt false) m -> running_marks (w_db (m w).2) = running_marks (w_db w).
Proof. apply runs_same, unmarked_step. Qed.

(** Steps of the deployer that mark nothing. *)
Definition unmarking : relation Db := rtc (db_step (deployer_stmt false)).

(** What holds from a database on holds from those before it. *)
Definition inherited (P : Db -> World -> Prop) : Prop := forall db db' w', unmarking db db' -> P db' w' -> P db w'.

(** Running a first part that marks nothing. *)
Lemma unmarked_then {A B} (m : M A) (k : A -> M B) w (P : Db -> World -> Prop) :
  inherited P -> runs (deployer_stmt false) m ->
  (forall a w1, m w = (Ret a, w1) -> running_marks (w_db (k a w1).2) = running_marks (w_db w1) \/ P (w_db w1) (k a w1).2) ->
  running_marks (w_db (bind m k w).2) = running_marks (w_db w) \/ P (w_db w) (bind m k w).2.
Proof.
  intros HP Hm Hk. pose proof (unmarked m w Hm) as He. specialize (Hm w). unfold bind.
  destruct (m w) as [[a|e| |] w1]; simpl in *; try (by left).
  destruct (Hk a w1 eq_refl) as [H|H]; [left; by rewrite H|right]. by eapply HP.
Qed.

(** What the reconciliation does once enough instances are ready. *)
Definition finish (rc : reconcileContext) : M unit :=
  do! (match (rc_dep rc).(dep_WakeRequestedAt) with
       | Some _ => wrap "clear wake" (exec (DeploymentClearWakeRequested (dep_ID (rc_dep rc))))
       | None => ret tt
       end) ;
  promoteDeployment d rc.

(** The run that began at the database [db] ends in [w'] by promoting the
    deployment from the world in which the counting of ready instances, on a
    listing of the deployment's instances made in the run, left it. *)
Definition ready_counted (dep : pgUUID) (target : Z) (db : Db) (w' : World) : Prop :=
  exists rc w1 l n w2, dep_ID (rc_dep rc) = dep /\ unmarking db (w_db w1) /\
    query (DeploymentInstanceFindByDeploymentID dep) w1 = (Ret l, tick w1) /\
    countInstancesReady d l (tick w1) = (Ret n, w2) /\ target <= n /\ w' = (finish rc w2).2.

Lemma counted_inherited dep target : inherited (ready_counted dep target).
Proof.
  intros db db' w' Hs (rc & w1 & l & n & w2 & H1 & H2 & H3). exists rc, w1, l, n, w2. split; [done|]. split; [by etrans|done].
Qed.

Lemma zero_or_counted (F : Prop) dep target : inherited (fun db w' => F \/ ready_counted dep target db w').
Proof. intros db db' w' Hs [?|Hc]; [by left|right]. by eapply counted_inherited. Qed.

Lemma instances_promote fuel rc id w :
  running_marks (w_db (reconcileInstances d fuel rc id w).2) = running_marks (w_db w) \/
  (rc_desired rc = 0 \/ ready_counted (dep_ID (rc_dep rc)) (rc_desired rc) (w_db w) (reconcileInstances d fuel rc id w).2).
Proof.
  set (P := fun db w' => rc_desired rc = 0 \/ ready_counted (dep_ID (rc_dep rc)) (rc_desired rc) db w').
  assert (inherited P) as HP by apply zero_or_counted.
  unfold reconcileInstances. cbv zeta. do 3 (apply (unmarked_then _ _ _ P HP); [solve_runs|intros ? ? _]).
  destruct (rc_desired rc =? 0) eqn:E0; [right; left; lia|].
  apply (unmarked_then _ _ _ P HP); [solve_runs|]. intros [l|] wa _; [|by left].
  apply (unmarked_then _ _ _ P HP); [solve_runs|intros ? wb _].
  set (Q := fun (_ : Db) w' => P (w_db wb) w'). assert (inherited Q) as HQ by (intros ? ? ? _ H; exact H).
  apply (unmarked_then _ _ _ Q HQ); [solve_runs|intros l3 wc Hl].
  apply (unmarked_then _ _ _ Q HQ); [solve_runs|intros n wd Hn].
  destruct (n <? rc_desired rc) eqn:En; [left; apply unmarked; solve_runs|].
  right; right. pose proof (wrap_ret_inv _ _ _ _ _ Hl) as Hq. apply read_inv in Hl as [_ ->].
  exists rc, wb, l3, n, wd. split_and!; [done|reflexivity|done|done|lia|done].
Qed.

(** The image is written to the deployment's own row. *)
Lemma sync_image_id dep dep' w w' :
  db_wf (w_db w) -> syncDeploymentImage dep w = (Ret dep', w') -> dep_ID dep' = dep_ID dep.
Proof.
  unfold syncDeploymentImage. intros Hwf H. apply bind_inv in H as (build & w1 & H1 & H).
  assert (w_db w1 = w_db w) as Hw.
  { apply read_inv in H1 as [_ ->]. done. }
  case_match; [|by injection H as <-].
  apply wrap_ret_inv, exec_ret_inv in H. rewrite Hw in H. unfold DeploymentUpdateImage in H. invert_stmt. simpl.
  by destruct (wf_deployments _ Hwf k r) as [-> _].
Qed.

Lemma build_same dep dep' id w w' : ensureBuild d dep id w = (Ret (dep', false), w') -> dep' = dep.
Proof.
  unfold ensureBuild. intros H. repeat (case_match; simplify_eq; try done);
    repeat (apply bind_inv in H as (? & ? & ? & H)); repeat (case_match; simplify_eq; try done);
    repeat (apply bind_inv in H as (? & ? & ? & H)); by injection H as <-.
Qed.

Lemma converge_promotes fuel id dep p s n v w :
  db_wf (w_db w) ->
  running_marks (w_db (converge d fuel id dep p s n v w).2) = running_marks (w_db w) \/
  (n = 0 \/ ready_counted (dep_ID dep) n (w_db w) (converge d fuel id dep p s n v w).2).
Proof.
  intros Hwf. set (P := fun db w' => n = 0 \/ ready_counted (dep_ID dep) n db w').
  assert (inherited P) as HP by apply zero_or_counted.
  unfold converge. apply (unmarked_then _ _ _ P HP); [solve_runs|]. intros [dep1 []] wa Ha; [by left|].
  pose proof (build_same _ _ _ _ _ Ha) as ->.
  apply (unmarked_then _ _ _ P HP); [solve_runs|]. intros [mount []] wb Hb; [by left|].
  apply (unmarked_then _ _ _ P HP); [solve_runs|]. intros dep2 wc Hc.
  assert (db_wf (w_db wb)) as Hwfb.
  { eapply step_wf; [|exact Hb|]; [solve_runs|]. eapply step_wf; [|exact Ha|]; [solve_runs|done]. }
  destruct (d_rt d); [|by left]. apply (unmarked_then _ _ _ P HP); [solve_runs|]. intros [ref vars] we _.
  unfold P. rewrite <- (sync_image_id _ _ _ _ Hwfb Hc). apply (instances_promote fuel (mkRC dep2 p s n mount ref vars)).
Qed.

(** The volume that was loaded is the row the lookup finds. *)
Lemma volume_found dep vol mnt w w' :
  wrap "fetch project volume" (projectVolumeForDeployment dep) w = (Ret (Some (vol, mnt)), w') ->
  finds_volume (w_db w) dep vol.
Proof.
  intros H%wrap_ret_inv. unfold projectVolumeForDeployment in H. apply bind_inv in H as ([e|x] & w1 & H1 & H).
  { case_match; by simplify_eq. }
  case_match; simplify_eq. unfold finds_volume. injection H as -> _ _. unfold attempt in H1.
  destruct (dep_ServiceID dep);
    match type of H1 with context [query ?f w] => destruct (query_cases f w) as [(y & Hy & Hq)|(e & Hq & _)] end;
    rewrite Hq in H1; by simplify_eq.
Qed.

(** The three fetches. *)
Lemma fetched_rows id dep proj svc w wa wb wc :
  wrap "fetch deployment" (query (DeploymentFirstByID (ToPgtype id))) w = (Ret dep, wa) ->
  wrap "fetch project" (query (ProjectFirstByID dep.(dep_ProjectID))) wa = (Ret proj, wb) ->
  (match dep.(dep_ServiceID) with
   | Some _ => let! s := wrap "fetch service" (query (ServiceFirstByID dep.(dep_ServiceID))) in ret (Some s)
   | None => ret None
   end) wb = (Ret svc, wc) ->
  reconciled_rows (w_db w) id dep proj svc /\ w_db wc = w_db w.
Proof.
  intros [Ha ->]%read_inv [Hb ->]%read_inv Hc.
  apply row_inv in Ha as (k & Hk & Ha). apply row_inv in Hb as (p & Hp & Hb).
  unfold ToPgtype in Hk. case_decide; simplify_eq. unfold reconciled_rows.
  destruct (dep_ServiceID dep) as [s|] eqn:Es.
  - apply bind_inv in Hc as (x & w1 & [Hx ->]%read_inv & Hc). injection Hc as <- <-.
    apply row_inv in Hx as (k2 & [= <-] & Hx). eauto 10.
  - injection Hc as <- <-. eauto 10.
Qed.

End promotion.

(** C4: In every environment, reconciling a deployment leaves the running marks
    of all deployments as they were, unless the one reconciled is live and either
    its replica target is zero or the run ended by promoting it from the very
    world in which it had just listed the instances of the deployment and counted
    at least as many ready ones as the target (one at most when a volume is
    mounted), with no running mark changed before. *)
Theorem promotion_requires_readiness (env : Env) (S : Sorter) (U : Unicode) (d : Deployer) (fuel : nat)
    (id : UUID) (w : World) :
  db_wf (w_db w) ->
  let w' := (ReconcileDeployment d fuel id w).2 in
  running_marks (w_db w') = running_marks (w_db w) \/
  exists dep proj service target,
    reconciled_rows (w_db w) id dep proj service /\ dep_live dep = true /\
    (target = effectiveReplicaCount proj service dep \/ (target = Z.min 1 (effectiveReplicaCount proj service dep) /\ exists vol, finds_volume (w_db w) dep vol)) /\
    (target = 0 \/ ready_counted d (dep_ID dep) target (w_db w) w').
Proof.
  intros Hwf. cbv zeta.
  set (target_of := fun dep proj svc target => target = effectiveReplicaCount proj svc dep \/ (target = Z.min 1 (effectiveReplicaCount proj svc dep) /\ exists vol, finds_volume (w_db w) dep vol)).
  set (P := fun db w' => exists dep proj service target,
    reconciled_rows (w_db w) id dep proj service /\ dep_live dep = true /\ target_of dep proj service target /\
    (target = 0 \/ ready_counted d (dep_ID dep) target db w')).
  assert (inherited P) as HP.
  { intros db db' w' Hs (dep & proj & svc & target & H1 & H2 & H3 & H4). exists dep, proj, svc, target.
    split_and!; [done|done|done|]. by eapply (zero_or_counted d (target = 0)). }
  change (running_marks (w_db (ReconcileDeployment d fuel id w).2) = running_marks (w_db w) \/ P (w_db w) (ReconcileDeployment d fuel id w).2).
  unfold ReconcileDeployment. apply (unmarked_then _ _ _ P HP); [solve_runs|]. intros dep wa Ha.
  apply (unmarked_then _ _ _ P HP); [solve_runs|]. intros proj wb Hb.
  apply (unmarked_then _ _ _ P HP); [solve_runs|]. intros svc wc Hc.
  apply (unmarked_then _ _ _ P HP); [solve_runs|]. intros v we He. cbv zeta.
  destruct (fetched_rows id dep proj svc w wa wb wc Ha Hb Hc) as [Hrows Hdb].
  assert (db_wf (w_db we)) as Hwfe by (eapply step_wf; [|exact He|by rewrite Hdb]; solve_runs).
  assert (forall m target, target_of dep proj svc target ->
    let r := (if negb (dep_live dep) then reconcileTerminalDeployment d dep
              else converge d fuel id dep proj svc target m) we in
    running_marks (w_db r.2) = running_marks (w_db we) \/ P (w_db we) r.2) as Hrest.
  { intros m target Ht. cbv zeta. destruct (dep_live dep) eqn:El; simpl; [|left; apply unmarked; solve_runs].
    destruct (converge_promotes d fuel id dep proj svc target m we Hwfe) as [H|H]; [by left|right].
    exists dep, proj, svc, target. auto. }
  destruct v as [[vol mnt]|]; [|apply Hrest; by left].
  destruct (String.eqb _ _); [left; apply unmarked; solve_runs|]. apply Hrest.
  destruct (1 <? effectiveReplicaCount proj svc dep) eqn:E1; [right; split; [lia|]|left; lia].
  exists vol. rewrite <- Hdb. by apply (volume_found dep vol mnt wc we).
Qed.

(** Deployment 13 of the sample is promoted after its instance was counted ready. *)
Lemma promotion_requires_readiness_witness :
  let w' := (ReconcileDeployment sample_deployer 10 13%N sample_world).2 in
  running_marks (w_db w') = running_marks sample_db \/
  exists dep proj service target,
    reconciled_rows sample_db 13 dep proj service /\ dep_live dep = true /\
    (target = effectiveReplicaCount proj service dep \/ (target = Z.min 1 (effectiveReplicaCount proj service dep) /\ exists vol, finds_volume sample_db dep vol)) /\
    (target = 0 \/ ready_counted sample_deployer (dep_ID dep) target sample_db w').
Proof.
  apply (promotion_requires_readiness sample_env insertion_sorter sample_unicode sample_deployer 10 13%N sample_world sample_wf).
Defined.
