(* ===== verification/InstanceProofs.v ===== *)
(** * Starting an instance

    [startNewInstance] of internal/deploy/deploy_instance.go: a start that fails
    is undone. *)

From S2P Require Import Prelude NetAddr Text Models Runtime Effects Queries Logic EventLogic TableFacts Lifecycle Volumes Instances InstanceReconcile Scaling Deploy DeployTrace Integrity DeploySafety Sample Removal Retirement.

(** The statements of a start other than the creation of the VM row. *)
Inductive start_stmt : forall A, writes A -> Prop :=
  | ss_status id st : start_stmt _ (DeploymentInstanceUpdateStatus id st)
  | ss_attach id vm st : start_stmt _ (DeploymentInstanceAttachVM id vm st)
  | ss_vm_status id st : start_stmt _ (VMUpdateStatus id st)
  | ss_vm_delete id : start_stmt _ (VMSoftDelete id)
  | ss_volume p s vm : start_stmt _ (ProjectVolumeAttachVM p s vm).

#[local] Hint Constructors start_stmt : runs.

Lemma start_stmt_deployer A s : start_stmt A s -> deployer_stmt true A s.
Proof. intros []; [apply ds_update_status|apply ds_attach_vm|apply ds_vm_status|apply ds_vm_delete|apply ds_vol_attach]. Qed.

(** They add no VM and leave instances alive. *)
Definition starts_more (db db' : Db) : Prop :=
  dom (db_vms db') = dom (db_vms db) /\
  rows_rel (fun i i' => inst_live i' = inst_live i) (db_instances db) (db_instances db').

#[local] Instance starts_more_preorder : PreOrder starts_more.
Proof.
  split.
  - intros db. split; [done|]. intros k i Hi. eauto.
  - intros a b c [H1 H2] [H3 H4]. split; [congruence|]. intros k i Hi.
    destruct (H2 k i Hi) as (i2 & Hi2 & E2). destruct (H4 k i2 Hi2) as (i3 & Hi3 & E3).
    exists i3. split; [done|congruence].
Qed.

Lemma start_step db db' : db_step start_stmt db db' -> starts_more db db'.
Proof.
  assert (forall k i i' (m : gmap UUID DeploymentInstance), m !! k = Some i -> inst_live i' = inst_live i ->
    rows_rel (fun i i' => inst_live i' = inst_live i) m (<[k := i']> m)) as Hrow.
  { intros k i i' m Hk He j x Hj. destruct (decide (k = j)) as [->|Hne].
    - rewrite lookup_insert_eq. simplify_eq. eauto.
    - rewrite lookup_insert_ne by done. eauto. }
  assert (forall k v v' (m : gmap UUID Vm), m !! k = Some v -> dom (<[k := v']> m) = dom m) as Hdom.
  { intros k v v' m Hk. rewrite dom_insert_L. apply elem_of_dom_2 in Hk. set_solver. }
  intros (A & s & t & a & Hs & H). destruct Hs;
    unfold DeploymentInstanceUpdateStatus, DeploymentInstanceAttachVM, VMUpdateStatus, VMSoftDelete,
      ProjectVolumeAttachVM, update_volume in H; invert_stmt; simpl in *; try reflexivity; split; simpl; try done; eauto;
    intros j x Hj; eauto.
Qed.

Section start.
Context {env : Env} {S : Sorter} (d : Deployer) (Hq : quiet env).

Lemma start_more {A} (m : M A) w : runs start_stmt m -> starts_more (w_db w) (w_db (m w).2).
Proof. apply (runs_preorder start_stmt starts_more), start_step. Qed.

Lemma start_wf {A} (m : M A) w : runs start_stmt m -> db_wf (w_db w) -> db_wf (w_db (m w).2).
Proof. intros Hm. apply runs_wf. eapply runs_weaken; [apply start_stmt_deployer|done]. Qed.

Lemma start_keeps_vm {A} (m : M A) w v y :
  runs start_stmt m -> db_vms (w_db w) !! v = Some y -> exists x, db_vms (w_db (m w).2) !! v = Some x /\ vm_evolves y x.
Proof. intros Hm. apply runs_keep_vm. eapply runs_weaken; [apply start_stmt_deployer|done]. Qed.

(** A VM that was soft-deleted is not alive. *)
Lemma deleted_vm v w x :
  db_wf (w_db w) -> db_vms (w_db (ignore (exec (VMSoftDelete (Some v))) w).2) !! v = Some x ->
  is_null (vm_DeletedAt x) = false.
Proof.
  intros Hwf Hx. assert (is_Some (db_vms (w_db w) !! v)) as [y Hy].
  { apply elem_of_dom. destruct (start_more (ignore (exec (VMSoftDelete (Some v)))) w) as [<- _]; [solve_runs|].
    by apply elem_of_dom_2 in Hx. }
  destruct (vm_delete_done Hq v y w Hwf Hy) as (x2 & Hx2 & Hdel). by simplify_eq.
Qed.

Variables (rt : Runtime) (inst : DeploymentInstance) (k : UUID).
Hypothesis Hid : inst_ID inst = Some k.

(** The start from [w0] is under way: the instance is alive and of the live VMs
    at most [vm] is new. *)
Record starting (w0 w : World) (vm : pgUUID) : Prop := {
  st_wf : db_wf (w_db w);
  st_live : exists r, db_instances (w_db w) !! k = Some r /\ inst_live r = true;
  st_vms : forall v x, db_vms (w_db w) !! v = Some x -> is_null (vm_DeletedAt x) = true ->
    is_Some (db_vms (w_db w0) !! v) \/ vm = Some v;
  st_log : log_grows (fun _ => True) w0 w
}.

(** It was undone: the instance is marked failed, no VM row is new and alive,
    and the runtime was told to stop. *)
Record undone (w0 w : World) : Prop := {
  un_failed : exists r, db_instances (w_db w) !! k = Some r /\ inst_Status r = "failed";
  un_vms : forall v x, db_vms (w_db w) !! v = Some x -> is_null (vm_DeletedAt x) = true ->
    is_Some (db_vms (w_db w0) !! v);
  un_stopped : exists new, w_log w = new ++ w_log w0 /\ EvStop k ∈ new
}.

Lemma starting_step {A} (m : M A) w0 w vm :
  starting w0 w vm -> runs start_stmt m -> emits (fun _ => True) m -> starting w0 (m w).2 vm.
Proof.
  intros [Hwf (r & Hr & Hl) Hv Hlog] Hm He. destruct (start_more m w Hm) as [Hdom Hrows]. split.
  - by apply start_wf.
  - destruct (Hrows k r Hr) as (r' & Hr' & E). exists r'. split; [done|congruence].
  - intros v x Hx Hn. assert (is_Some (db_vms (w_db w) !! v)) as [y Hy].
    { apply elem_of_dom. rewrite <- Hdom. by apply elem_of_dom_2 in Hx. }
    apply (Hv v y Hy). destruct (is_null (vm_DeletedAt y)) eqn:E; [done|].
    destruct (start_keeps_vm m w v y Hm Hy) as (x' & Hx' & Hev). simplify_eq.
    by rewrite (ve_deleted _ _ Hev E) in Hn.
  - etrans; [done|apply He].
Qed.

(** An update of a live instance with a status of the schema succeeds. *)
Lemma status_updated w st :
  db_wf (w_db w) -> (exists r, db_instances (w_db w) !! k = Some r /\ inst_live r = true) ->
  in_list ["pending"; "starting"; "running"; "failed"; "stopped"] st = true ->
  exists r w', exec (DeploymentInstanceUpdateStatus (inst_ID inst) st) w = (Ret r, w') /\
    db_instances (w_db w') !! k = Some r /\ inst_Status r = st /\ db_vms (w_db w') = db_vms (w_db w) /\ w_log w' = w_log w.
Proof.
  intros Hwf (r & Hr & Hl) Hst. rewrite quiet_exec by done.
  unfold DeploymentInstanceUpdateStatus, returning, update_row. rewrite Hid. simpl. rewrite Hr, Hl.
  destruct (wf_instances _ Hwf k r Hr) as [_ Hok].
  assert (instance_ok (w_db w) k (set_inst_UpdatedAt (Some (sql_now w)) (set_inst_Status st r)) = true) as ->.
  { unfold t_instances in Hok. simpl in Hok. unfold instance_ok in *. rewrite !andb_true_iff in *. simpl.
    destruct Hok as [[[[[? ?] ?] ?] ?] ?]. by repeat split. }
  eexists _, _. split; [reflexivity|]. simpl. by rewrite lookup_insert_eq.
Qed.

Lemma mark_failed_done w :
  db_wf (w_db w) -> (exists r, db_instances (w_db w) !! k = Some r /\ inst_live r = true) ->
  exists w', mark_failed inst w = (Ret tt, w') /\
    (exists r, db_instances (w_db w') !! k = Some r /\ inst_Status r = "failed") /\
    db_vms (w_db w') = db_vms (w_db w) /\ w_log w' = w_log w.
Proof.
  intros Hwf Hl. destruct (status_updated w "failed" Hwf Hl eq_refl) as (r & w' & H & Hr & Hs & Hv & Hlog).
  exists w'. unfold mark_failed. rewrite settles_ignore by apply np_exec. rewrite H. simpl. eauto 10.
Qed.

(** The runtime is told to stop. *)
Lemma stop_logged w0 w vm :
  starting w0 w vm ->
  starting w0 (ignore (rt_stop rt k) w).2 vm /\
  exists new, w_log (ignore (rt_stop rt k) w).2 = new ++ w_log w0 /\ EvStop k ∈ new.
Proof.
  intros Hst. split; [apply starting_step; [done|unfold rt_stop; solve_runs|unfold rt_stop; solve_emits]|].
  destruct (st_log _ _ _ Hst) as (l & Hl & _). exists (EvStop k :: l). split; [|by left].
  unfold rt_stop, ignore, attempt, bind, extern. simpl. rewrite <- Hl. by destruct (rt_Stop rt _ k).
Qed.

Lemma stop_returns : returns (ignore (rt_stop rt k)).
Proof. apply returns_ignore. unfold rt_stop. solve_np. Qed.

Lemma undo_undoes w0 w vm :
  starting w0 w vm -> exists w', undo_start rt inst vm w = (Ret tt, w') /\ undone w0 w'.
Proof.
  intros Hst. unfold undo_start. rewrite Hid. change (FromPgtype (Some k)) with k.
  rewrite (after_step _ _ _ stop_returns).
  destruct (stop_logged w0 w vm Hst) as [Hst1 (new & Hnew & Hin)]. set (w1 := (ignore (rt_stop rt k) w).2) in *.
  assert (returns (ignore (exec (VMSoftDelete vm)))) as H2 by solve_returns.
  rewrite (after_step _ _ _ H2). set (w2 := (ignore (exec (VMSoftDelete vm)) w1).2).
  assert (starting w0 w2 vm) as Hst2 by (apply starting_step; [done|solve_runs|solve_emits]).
  destruct (mark_failed_done w2 (st_wf _ _ _ Hst2) (st_live _ _ _ Hst2)) as (w' & H & Hf & Hv & Hlog).
  exists w'. split; [done|]. split; [done| |].
  - intros v x Hx Hn. rewrite Hv in Hx. destruct (st_vms _ _ _ Hst2 v x Hx Hn) as [Hold| ->]; [done|].
    by rewrite (deleted_vm v w1 x (st_wf _ _ _ Hst1) Hx) in Hn.
  - exists new. rewrite Hlog. split; [|done]. rewrite <- Hnew. unfold w2.
    rewrite settles_ignore by apply np_exec. simpl. rewrite quiet_exec by done. by destruct (VMSoftDelete _ _ _) as [|[]].
Qed.

(** The same when no VM row was created. *)
Lemma stop_and_fail {A} e w0 w :
  starting w0 w None ->
  exists w', (do! ignore (rt_stop rt k) ; do! mark_failed inst ; throw (A := A) e) w = (Err e, w') /\ undone w0 w'.
Proof.
  intros Hst. rewrite (after_step _ _ _ stop_returns).
  destruct (stop_logged w0 w None Hst) as [Hst1 (new & Hnew & Hin)].
  destruct (mark_failed_done _ (st_wf _ _ _ Hst1) (st_live _ _ _ Hst1)) as (w' & H & Hf & Hv & Hlog).
  exists w'. rewrite (bind_ret _ _ _ _ _ H). split; [done|]. split; [done| |].
  - rewrite Hv. intros v x Hx Hn. by destruct (st_vms _ _ _ Hst1 v x Hx Hn).
  - exists new. by rewrite Hlog.
Qed.

(** A step whose failure is undone. *)
Lemma or_undo_cases {A} (m : M A) ctx w0 w vm :
  settles m -> runs start_stmt m -> emits (fun _ => True) m -> starting w0 w vm ->
  (exists a w', or_undo rt inst vm ctx m w = (Ret a, w') /\ starting w0 w' vm) \/
  (exists e w', or_undo rt inst vm ctx m w = (Err e, w') /\ undone w0 w').
Proof.
  intros Hs Hm He Hst. pose proof (starting_step m w0 w vm Hst Hm He) as Hst'. unfold or_undo.
  specialize (Hs w). destruct (m w) as [[a|e| |] w1] eqn:E; simpl in Hs, Hst'; [| |done|done].
  - left. exists a, w1. split; [|done]. by rewrite (bind_ret _ _ _ _ _ (attempt_ret _ _ _ _ E)).
  - right. rewrite (bind_ret _ _ _ _ _ (attempt_err _ _ _ _ E)).
    destruct (undo_undoes w0 w1 vm Hst') as (w' & H & Hun). rewrite (bind_ret _ _ _ _ _ H). by eexists _, _.
Qed.

(** A step of the start: whatever follows it starts from a start under way. *)
Lemma starting_then {A B} (m : M A) (f : A -> M B) w0 w vm (P : outcome B * World -> Prop) :
  settles m -> runs start_stmt m -> emits (fun _ => True) m -> starting w0 w vm ->
  (forall a w', m w = (Ret a, w') -> starting w0 w' vm -> P (f a w')) ->
  (forall e w', starting w0 w' vm -> P (Err e, w')) -> P (bind m f w).
Proof.
  intros Hs Hm He Hst HR HE. pose proof (starting_step m w0 w vm Hst Hm He) as Hst'. specialize (Hs w).
  unfold bind. destruct (m w) as [[a|e| |] w1] eqn:E; simpl in Hs, Hst'; [by apply HR|by apply HE|done|done].
Qed.

Lemma starting_weaken w0 w vm : starting w0 w None -> starting w0 w vm.
Proof. intros [? ? Hv ?]. split; try done. intros v x Hx Hn. destruct (Hv v x Hx Hn) as [|]; [by left|done]. Qed.

Lemma create_vm_cases args w0 w :
  starting w0 w None ->
  (exists x w', exec (VMCreate args) w = (Ret x, w') /\ starting w0 w' (vmc_ID args)) \/
  (exists e w', exec (VMCreate args) w = (Err e, w') /\ starting w0 w' None).
Proof.
  intros [Hwf (r & Hr & Hl) Hv Hlog]. assert (dep_runs (exec (VMCreate args))) as Hrun by solve_runs.
  pose proof (runs_wf _ w Hrun Hwf) as Hwf'. rewrite quiet_exec in * by done.
  destruct (VMCreate args (sql_now w) (w_db w)) as [e|[x db']] eqn:E; [right|left]; eexists _, _; (split; [reflexivity|]).
  - split; try done. by exists r.
  - unfold VMCreate in E. invert_stmt. split; simpl in *; [done|by exists r| |done].
    rewrite H. intros v y Hy Hn. destruct (decide (k0 = v)) as [->|Hne]; [by right|].
    rewrite lookup_insert_ne in Hy by done. by left; destruct (Hv v y Hy Hn).
Qed.

(** The VM row is created and attached, or no new row is left alive. *)
Lemma persist_cases image server vst ist addr cpus mem vars meta w0 w :
  starting w0 w None ->
  (exists vmID w', persistInstanceVMMetadata (inst_ID inst) image server vst ist addr cpus mem vars meta w = (Ret vmID, w') /\
     starting w0 w' (ToPgtype vmID)) \/
  (exists e w', persistInstanceVMMetadata (inst_ID inst) image server vst ist addr cpus mem vars meta w = (Err e, w') /\
     starting w0 w' None).
Proof.
  intros Hst. unfold persistInstanceVMMetadata.
  match goal with |- context [bind ?m ?f w] => eapply (starting_then m f w0 w None
    (fun r => (exists vmID w', r = (Ret vmID, w') /\ starting w0 w' (ToPgtype vmID)) \/
              (exists e w', r = (Err e, w') /\ starting w0 w' None))) end; [solve_np|solve_runs|solve_emits|done| |by eauto].
  intros i w1 _ Hst1. destruct (inst_VmID i) as [vm|]; [left; eexists _, _; split; [done|by apply starting_weaken]|].
  destruct image as [img|]; [|right; by eexists _, _].
  destruct (parseRuntimeAddress addr) as [e|[ip port]]; [right; by eexists _, _|].
  set (vmID := env_uuid (w_step w1)). rewrite (bind_ret new_uuid _ w1 vmID (tick w1) eq_refl).
  assert (starting w0 (tick w1) None) as Hst2 by (destruct Hst1; by split).
  match goal with |- context [wrap _ (exec (VMCreate ?args))] =>
    destruct (create_vm_cases args w0 (tick w1) Hst2) as [(x & w3 & Hx & Hst3)|(e & w3 & Hx & Hst3)] end.
  2: { right. eexists _, _. split; [|exact Hst3]. unfold bind, wrap. by rewrite Hx. }
  rewrite (bind_ret _ _ _ _ _ (wrap_ret _ _ _ _ _ Hx)). change (starting w0 w3 (ToPgtype vmID)) in Hst3.
  assert (starting w0 (exec (DeploymentInstanceAttachVM (inst_ID inst) (ToPgtype vmID) ist) w3).2 (ToPgtype vmID)) as Hst4
    by (apply starting_step; [done|solve_runs|solve_emits]).
  assert (settles (exec (DeploymentInstanceAttachVM (inst_ID inst) (ToPgtype vmID) ist))) as Hs by apply np_exec.
  specialize (Hs w3). destruct (exec (DeploymentInstanceAttachVM _ _ _) w3) as [[y|e| |] w4] eqn:E4; simpl in Hs, Hst4; [| |done|done].
  - left. exists vmID, w4. split; [|done]. by rewrite (bind_ret _ _ _ _ _ (attempt_ret _ _ _ _ E4)).
  - right. rewrite (bind_ret _ _ _ _ _ (attempt_err _ _ _ _ E4)).
    assert (returns (ignore (exec (VMSoftDelete (ToPgtype vmID))))) as Hret by solve_returns.
    rewrite (after_step _ _ _ Hret). eexists _, _. split; [reflexivity|].
    pose proof (starting_step (ignore (exec (VMSoftDelete (ToPgtype vmID)))) w0 w4 _ Hst4 ltac:(solve_runs) ltac:(solve_emits)) as [H1 H2 Hv H4].
    split; [done..| |done]. intros v z Hz Hn. destruct (Hv v z Hz Hn) as [|Hvm]; [by left|]. rewrite Hvm in Hz.
    by rewrite (deleted_vm v w4 z (st_wf _ _ _ Hst4) Hz) in Hn.
Qed.

(** A launch the runtime refused: the instance is marked failed, no VM is new. *)
Definition refused (w0 w : World) : Prop :=
  (exists r, db_instances (w_db w) !! k = Some r /\ inst_Status r = "failed") /\
  (forall v x, db_vms (w_db w) !! v = Some x -> is_null (vm_DeletedAt x) = true -> is_Some (db_vms (w_db w0) !! v)).

Lemma refuse {A} e w0 w :
  starting w0 w None -> exists w', (do! mark_failed inst ; throw (A := A) e) w = (Err e, w') /\ refused w0 w'.
Proof.
  intros [Hwf Hl Hv _]. destruct (mark_failed_done w Hwf Hl) as (w' & H & Hf & Hvm & _).
  exists w'. rewrite (bind_ret _ _ _ _ _ H). split; [done|]. split; [done|]. rewrite Hvm.
  intros v x Hx Hn. by destruct (Hv v x Hx Hn).
Qed.

Lemma called {A} e (f : nat -> A) w0 w : starting w0 w None -> starting w0 (extern e f w).2 None.
Proof. intros Hst. apply starting_step; [done|solve_runs|by apply em_extern]. Qed.

Lemma cold_start_cases si ctx w0 w :
  starting w0 w None ->
  (exists a w', cold_start rt si inst ctx w = (Ret a, w') /\ starting w0 w' None) \/
  (exists e w', cold_start rt si inst ctx w = (Err e, w') /\ refused w0 w').
Proof.
  intros Hst. unfold cold_start. rewrite (bind_ret _ _ _ _ _ (eq_refl : extern _ _ w = (Ret _, _))).
  pose proof (called (EvStart si) (fun n => rt_Start rt n si) w0 w Hst) as Hst1. simpl in Hst1.
  destruct (rt_Start rt (w_step w) si) as [e|ip]; [right; eexists; by apply refuse|left].
  match goal with |- context [bind ?m ?f ?w1] =>
    assert (returns m) as Hr by (unfold fillLiveMigrationMetadata; solve_returns);
    pose proof (starting_step m w0 w1 None Hst1 ltac:(unfold fillLiveMigrationMetadata; solve_runs)
      ltac:(unfold fillLiveMigrationMetadata; solve_emits)) as Hst2; destruct (Hr w1) as (meta & w2 & H2) end.
  rewrite H2 in Hst2. rewrite (bind_ret _ _ _ _ _ H2). by eexists _, _.
Qed.

Lemma launch_cases si ref src mode w0 w :
  starting w0 w None ->
  (exists a w', launchInstance rt si ref src inst mode w = (Ret a, w') /\ starting w0 w' None) \/
  (exists e w', launchInstance rt si ref src inst mode w = (Err e, w') /\ refused w0 w').
Proof.
  intros Hst. unfold launchInstance. case_match; [|by apply cold_start_cases].
  rewrite (bind_ret _ _ _ _ _ (eq_refl : extern _ _ w = (Ret _, _))).
  pose proof (called (EvStartClone si ref (FromPgtype src)) (fun n => rt_StartClone rt n si ref (FromPgtype src)) w0 w Hst)
    as Hst1. simpl in Hst1.
  destruct (rt_StartClone rt (w_step w) si ref (FromPgtype src)) as [e|[ip meta]]; [|left; by eexists _, _].
  destruct (is_not_running e); [by apply cold_start_cases|right; eexists; by apply refuse].
Qed.

Lemma attempts_silent n url :
  runs start_stmt (healthCheck_attempts n url) /\ emits (fun _ => True) (healthCheck_attempts n url).
Proof. induction n as [|n [IH1 IH2]]; simpl; unfold probe; (split; [solve_runs|solve_emits]). Qed.

(** Waiting for health changes no row. *)
Lemma wait_silent url t :
  runs start_stmt (waitHealthCheckLocalForwarded url t) /\ emits (fun _ => True) (waitHealthCheckLocalForwarded url t).
Proof.
  pose proof (fun n u => proj1 (attempts_silent n u)). pose proof (fun n u => proj2 (attempts_silent n u)).
  unfold waitHealthCheckLocalForwarded, healthCheckLocalForwarded, healthCheck. split; [solve_runs|solve_emits].
Qed.

(** The steps after the VM row exists. *)
Lemma finish_cases dep (vol : option PersistentVolumeMount) ip vm w0 w :
  starting w0 w vm ->
  let r := (let! healthy := (if requiresExternalHealthCheck rt.(rt_Name)
                             then waitHealthCheckLocalForwarded ip healthCheckTimeout else ret true) in
            if negb healthy then do! undo_start rt inst vm ; throw (ErrMsg "health check failed")
            else
              do! or_undo rt inst vm "mark vm running" (exec (VMUpdateStatus vm "running")) ;
              do! or_undo rt inst vm "mark deployment instance running"
                    (exec (DeploymentInstanceUpdateStatus inst.(inst_ID) "running")) ;
              match vol with
              | Some _ =>
                  do! or_undo rt inst vm "attach project volume to vm"
                        (exec (ProjectVolumeAttachVM dep.(dep_ProjectID) inst.(inst_ServerID) vm)) ;
                  publishProjectVolumeEvents d dep.(dep_ProjectID)
              | None => ret tt
              end) w in
  match r with (Ret _, _) => True | (Err _, w') => undone w0 w' | _ => False end.
Proof.
  intros Hst. cbv zeta. set (h := if requiresExternalHealthCheck _ then _ else _).
  assert (returns h) as Hr by (unfold h; destruct (requiresExternalHealthCheck _); [apply wait_health_returns|apply returns_ret]).
  destruct (Hr w) as (healthy & w1 & H1). rewrite (bind_ret _ _ _ _ _ H1).
  assert (starting w0 w1 vm) as Hst1.
  { pose proof (starting_step h w0 w vm Hst) as Hs. rewrite H1 in Hs.
    apply Hs; unfold h; destruct (requiresExternalHealthCheck _); try apply wait_silent; [solve_runs|solve_emits]. }
  destruct healthy; simpl.
  2: { destruct (undo_undoes w0 w1 vm Hst1) as (w' & H & Hun). by rewrite (bind_ret _ _ _ _ _ H). }
  destruct (or_undo_cases (exec (VMUpdateStatus vm "running")) "mark vm running" w0 w1 vm)
    as [(x & w2 & H2 & Hst2)|(e & w2 & H2 & Hun)]; [apply np_exec|solve_runs|solve_emits|done| |by rewrite (bind_err _ _ _ _ _ H2)].
  rewrite (bind_ret _ _ _ _ _ H2).
  destruct (or_undo_cases (exec (DeploymentInstanceUpdateStatus (inst_ID inst) "running")) "mark deployment instance running" w0 w2 vm)
    as [(y & w3 & H3 & Hst3)|(e & w3 & H3 & Hun)]; [apply np_exec|solve_runs|solve_emits|done| |by rewrite (bind_err _ _ _ _ _ H3)].
  rewrite (bind_ret _ _ _ _ _ H3). destruct vol as [m|]; [|done].
  destruct (or_undo_cases (exec (ProjectVolumeAttachVM (dep_ProjectID dep) (inst_ServerID inst) vm)) "attach project volume to vm" w0 w3 vm)
    as [(z & w4 & H4 & Hst4)|(e & w4 & H4 & Hun)]; [apply np_exec|solve_runs|solve_emits|done| |by rewrite (bind_err _ _ _ _ _ H4)].
  rewrite (bind_ret _ _ _ _ _ H4).
  assert (returns (publishProjectVolumeEvents d (dep_ProjectID dep))) as Hp
    by (unfold publishProjectVolumeEvents; solve_returns).
  by destruct (Hp w4) as (u & w5 & ->).
Qed.

End start.


(** ** Witness *)

(** A new instance of deployment 13 on this server. *)
Definition pending_instance : DeploymentInstance :=
  mkDeploymentInstance (Some 76%N) (Some 13%N) (Some 30%N) None "active" None "pending" 0 None None (Some 1) (Some 1).
Definition pending_db : Db := set_instances (<[ 76%N := pending_instance ]> (db_instances sample_db)) sample_db.
Definition pending_world : World := mkWorld pending_db 2000 0 None [].

Lemma pending_wf : db_wf pending_db.
Proof. apply db_wfb_spec. vm_compute. reflexivity. Qed.

(** Every probe is answered with an error status. *)
Definition failing_env : Env := quiet_env (fun n => (1000 + N.of_nat n)%N) (fun _ _ => HttpStatus 500).

Definition failing_start : outcome unit * World :=
  startNewInstance (env := failing_env) sample_deployer (sample_deployment 13 20 (Some 50%N) (Some 40%N) None None)
    pending_instance "registry/shop:v1" [] "" None None pending_world.

