(* ===== verification/Evacuation.v ===== *)
(** * Placement

    [removeInstancesOnDrainingServers] of internal/deploy/deploy_evacuation.go
    takes no instance away before enough others are ready, and
    [findLeastLoadedCloudHypervisorServer] of project_volumes.go places a volume
    on the least loaded eligible server. *)

From S2P Require Import Prelude NetAddr Text Models Runtime Effects Queries Logic EventLogic TableFacts Lifecycle Volumes Instances InstanceReconcile Scaling Deploy DeployTrace Integrity DeploySafety Sample Removal Retirement ScalingProofs Termination Promotion.

(** ** Evacuation *)

Section evacuation.
Context {env : Env} {S : Sorter} (d : Deployer).

(** Deleting a list of instances leaves the rows of all others as they are. *)
Lemma deletions_keep l w k :
  (forall x, x ∈ l -> inst_ID x <> Some k) ->
  db_instances (w_db (for_each l (deleteInstancePermanently d) w).2) !! k = db_instances (w_db w) !! k.
Proof.
  revert w; induction l as [|x l IH]; intros w Hl; simpl; [done|].
  unfold bind. rewrite delete_returns. rewrite IH by (intros y Hy; apply Hl; by right).
  apply (delete_touches d x w). apply Hl. by left.
Qed.

Lemma deletions_return l : returns (for_each l (deleteInstancePermanently d)).
Proof. apply returns_for_each. intros x w. eexists _, _. apply delete_returns. Qed.

Lemma ready_off_reads l m : runs no_stmt (countReadyOffDrainingServers d l m).
Proof.
  unfold countReadyOffDrainingServers, ready_off_draining, healthCheckVMFromHost, healthCheck.
  pose proof runs_attempts_none. solve_runs.
Qed.

End evacuation.

(** In every environment, leaving the draining servers touches instances
    only after at least the wanted number of ready instances was counted on
    other servers, and then only active instances whose server is draining;
    every other instance row stays as it is. *)
Theorem evacuation_after_replacement (env : Env) (S : Sorter) (d : Deployer) (dep : pgUUID)
    (l : list DeploymentInstance) (statusMap : gmap UUID string) (desired : Z) (w : World) :
  let w' := (removeInstancesOnDrainingServers d dep l statusMap desired w).2 in
  db_instances (w_db w') = db_instances (w_db w) \/
  (exists n w1, countReadyOffDrainingServers d l statusMap w = (Ret n, w1) /\ desired <= n) /\
  forall k, (forall x, x ∈ l -> inst_ID x = Some k -> isActiveInstance x && on_draining statusMap x = false) ->
    db_instances (w_db w') !! k = db_instances (w_db w) !! k.
Proof.
  cbv zeta. unfold removeInstancesOnDrainingServers.
  pose proof (runs_none _ w (ready_off_reads d l statusMap)) as Hdb.
  destruct (countReadyOffDrainingServers d l statusMap w) as [[n|e| |] w1] eqn:En; simpl in Hdb;
    try (left; unfold bind; rewrite En; simpl; by rewrite Hdb).
  rewrite (bind_ret _ _ _ _ _ En). destruct (n <? desired) eqn:Elt; [left; simpl; by rewrite Hdb|]. apply Z.ltb_ge in Elt.
  set (rem := List.filter _ l).
  assert (forall k, (forall x, x ∈ l -> inst_ID x = Some k -> isActiveInstance x && on_draining statusMap x = false) ->
    forall x, x ∈ rem -> inst_ID x <> Some k) as Hrem.
  { intros k Hk x Hx. apply list_elem_of_In, filter_In in Hx as [Hx Hb]. intros Hid.
    rewrite <- list_elem_of_In in Hx. by rewrite (Hk x Hx Hid) in Hb. }
  clearbody rem. destruct rem as [|x0 r0]; [left; simpl; by rewrite Hdb|].
  right. split; [by eauto|]. intros k Hk. cbv zeta. rewrite (after_step _ _ _ (deletions_return d (x0 :: r0))).
  rewrite <- Hdb, <- (deletions_keep d (x0 :: r0) w1 k) by (by apply Hrem).
  set (w2 := (for_each (x0 :: r0) _ w1).2). f_equal. f_equal.
  apply (runs_none (let! list := query (DeploymentInstanceFindByDeploymentID dep) in
    do! when d.(d_serverScheduler) (for_each (remove_dups (FromPgtype ∘ inst_ServerID <$> x0 :: r0)) (fun sid =>
      let! t := now in emit (EvSchedule SchedServers sid t))) ; ret list) w2). solve_runs.
Qed.

(** ** Placement of volumes *)

Lemma compare_le a b : (strings_Compare a b <=? 0) = String.leb a b.
Proof. unfold strings_Compare, String.leb. by destruct (a ?= b)%string. Qed.

Lemma candidate_le_total a b : candidate_le a b || candidate_le b a.
Proof.
  destruct a as [sa la], b as [sb lb]. unfold candidate_le, After, Before. rewrite !compare_le.
  set (ta := default 0 (srv_LastHeartbeatAt sa)). set (tb := default 0 (srv_LastHeartbeatAt sb)).
  destruct (Z.eqb_spec la lb) as [->|Hne]; simpl.
  - rewrite Z.eqb_refl. simpl. destruct (Z.ltb_spec tb ta), (Z.ltb_spec ta tb); try done; try lia.
    destruct (String.leb_total (srv_Hostname sa) (srv_Hostname sb)) as [->| ->]; [done|by rewrite orb_true_r].
  - rewrite (proj2 (Z.eqb_neq lb la)) by lia. simpl. destruct (Z.ltb_spec la lb), (Z.ltb_spec lb la); simpl; try done; lia.
Qed.

Lemma candidate_le_spec sa la sb lb :
  candidate_le (sa, la) (sb, lb) <->
  la < lb \/ la = lb /\ (default 0 (srv_LastHeartbeatAt sb) < default 0 (srv_LastHeartbeatAt sa) \/
    default 0 (srv_LastHeartbeatAt sb) = default 0 (srv_LastHeartbeatAt sa) /\ String.le (srv_Hostname sa) (srv_Hostname sb)).
Proof.
  unfold candidate_le, After, Before, String.le. rewrite compare_le.
  set (ta := default 0 (srv_LastHeartbeatAt sa)). set (tb := default 0 (srv_LastHeartbeatAt sb)).
  destruct (Z.eqb_spec la lb) as [->|Hne]; simpl.
  - destruct (Z.ltb_spec tb ta); simpl; [split; [auto|done]|].
    destruct (Z.ltb_spec ta tb); simpl; [split; [done|lia]|]. split; [intros; right; split; [done|]; right; split; [lia|done]|].
    intros [?|[_ [?|[_ ?]]]]; [lia|lia|done].
  - destruct (Z.ltb_spec la lb); simpl; [split; [auto|done]|]. split; [done|lia].
Qed.

Lemma candidate_le_trans a b c : candidate_le a b -> candidate_le b c -> candidate_le a c.
Proof.
  destruct a as [sa la], b as [sb lb], c as [sc lc]. rewrite !candidate_le_spec.
  intros [?|[-> [?|[Hab Hs]]]] [?|[-> [?|[Hbc Hs']]]]; try (left; lia); right; (split; [done|]); try (left; lia).
  right. split; [lia|]. by etrans.
Qed.

(** The live active instances of a server. *)
Definition server_load (db : Db) (s : Server) : Z :=
  Z.of_nat (length (rows (fun r => col_eq r.(inst_ServerID) s.(srv_ID) && inst_live r &&
                                   String.eqb r.(inst_Role) "active") db.(db_instances))).

Section placement.
Context {env : Env} {S : Sorter}.

(** The candidates are the eligible servers with their loads. *)
Lemma candidates_inv (ok : Server -> bool) servers acc w cands w' :
  fold_each (fun acc server =>
    if ok server then
      let! load := query (DeploymentInstanceActiveCountByServerID server.(srv_ID)) in ret (acc ++ [(server, load)])
    else ret acc) servers acc w = (Ret cands, w') ->
  cands = acc ++ ((fun s => (s, server_load (w_db w) s)) <$> List.filter ok servers).
Proof.
  revert acc w; induction servers as [|s servers IH]; intros acc w H; simpl in *; [injection H as <- _; by rewrite app_nil_r|].
  apply bind_inv in H as (acc1 & w1 & H1 & H). destruct (ok s); simpl.
  - apply bind_inv in H1 as (n & w2 & [Hn ->]%query_inv & H1). injection H1 as <- <-.
    apply IH in H. rewrite H, <- (assoc_L (++)). injection Hn as <-. done.
  - injection H1 as <- <-. by apply IH in H.
Qed.

Lemma least_candidate (l : list (Server * Z)) s n rest :
  sort_by candidate_le l = (s, n) :: rest -> (s, n) ∈ l /\ forall s' n', (s', n') ∈ l -> n <= n'.
Proof.
  intros H. pose proof (sort_by_sorted candidate_le l candidate_le_total candidate_le_trans) as Hs. rewrite H in Hs.
  split; [apply (sort_by_elem candidate_le); rewrite H; by left|].
  intros s' n' Hin. rewrite <- (sort_by_elem candidate_le), H in Hin.
  apply elem_of_cons in Hin as [[= -> ->]|Hin]; [lia|]. apply StronglySorted_inv in Hs as [_ Hs].
  rewrite Forall_forall in Hs. specialize (Hs _ Hin). apply candidate_le_spec in Hs. lia.
Qed.

End placement.

(** In every environment, the server chosen for a volume is one of the
    cluster's servers that is active, has a heartbeat of the last three minutes
    and a healthy cloud-hypervisor worker, and no such server carries fewer live
    active instances. *)
Theorem volume_server_least_loaded (env : Env) (S : Sorter) (w w' : World) (srv : Server) :
  findLeastLoadedCloudHypervisorServer w = (Ret srv, w') ->
  exists statuses, statuses ≡ₚ (snd <$> map_to_list (db_statuses (w_db w))) /\
    let ok := volume_server_eligible (runtime_by_server statuses) (w_now (tick (tick w)) - volumeServerHeartbeatCutoff) in
    srv ∈ rows ok (db_servers (w_db w)) /\
    forall k other, db_servers (w_db w) !! k = Some other -> ok other = true ->
      server_load (w_db w) srv <= server_load (w_db w) other.
Proof.
  unfold findLeastLoadedCloudHypervisorServer. intros H.
  apply bind_inv in H as (servers & w1 & [Hs ->]%query_inv & H).
  apply bind_inv in H as (statuses & w2 & [Ht ->]%query_inv & H).
  rewrite (bind_ret now _ _ _ _ eq_refl) in H. cbv zeta in H.
  apply bind_inv in H as (cands & w3 & Hc%candidates_inv & H). simpl in Hc.
  destruct (sort_by candidate_le cands) as [|[s n] rest] eqn:E; [done|]. injection H as -> _.
  exists statuses. injection Hs as <-. injection Ht as <-. split; [apply sort_by_perm|]. cbv zeta.
  apply least_candidate in E as [Hin Hmin]. rewrite Hc in Hin, Hmin.
  set (ok := volume_server_eligible _ _) in *.
  assert (forall s, s ∈ List.filter ok (sort_by (fun a b => time_le (srv_CreatedAt a) (srv_CreatedAt b))
    (rows always (db_servers (w_db w)))) <-> s ∈ rows ok (db_servers (w_db w))) as Hrows.
  { intros s. rewrite list_elem_of_In, filter_In, <- list_elem_of_In, sort_by_elem, !elem_of_rows. naive_solver. }
  apply list_elem_of_fmap in Hin as (x & [= -> ->] & Hx). split; [by apply Hrows|].
  intros k other Hk Hok. apply (Hmin other). apply list_elem_of_fmap. exists other. split; [done|].
  apply Hrows, elem_of_rows. eauto.
Qed.

(** Two workers: server 30 carries four active instances, server 33 none. *)
Definition worker_row (server : N) : ServerComponentStatus :=
  mkServerComponentStatus (Some server) "worker" "healthy" (Some 1) (Some 1) None ""
    (JObject [("runtime", JString "cloud-hypervisor")]) (Some 1) (Some 1).

Definition workers_db : Db :=
  mkDb ∅ ∅ (db_instances sample_db) ∅ ∅ ∅ ∅ ∅ ∅ ∅
    (<[ 33%N := sample_server 33 "active" 1000 ]> (db_servers sample_db))
    {[ (30%N, "worker") := worker_row 30; (33%N, "worker") := worker_row 33 ]} ∅ ∅ ∅ ∅ empty_ext.

Definition workers_world : World := mkWorld workers_db 2000 0 None [].

Lemma volume_server_least_loaded_witness :
  (findLeastLoadedCloudHypervisorServer workers_world).1 = Ret (sample_server 33 "active" 1000) /\
  exists statuses, statuses ≡ₚ (snd <$> map_to_list (db_statuses workers_db)) /\
    let ok := volume_server_eligible (runtime_by_server statuses) (2000 - volumeServerHeartbeatCutoff) in
    sample_server 33 "active" 1000 ∈ rows ok (db_servers workers_db) /\
    forall k other, db_servers workers_db !! k = Some other -> ok other = true ->
      server_load workers_db (sample_server 33 "active" 1000) <= server_load workers_db other.
Proof.
  assert ((findLeastLoadedCloudHypervisorServer workers_world).1 = Ret (sample_server 33 "active" 1000)) as H
    by (vm_compute; reflexivity).
  split; [exact H|]. destruct (findLeastLoadedCloudHypervisorServer workers_world) as [o w'] eqn:E. simpl in H. subst o.
  exact (volume_server_least_loaded sample_env insertion_sorter workers_world w' (sample_server 33 "active" 1000) E).
Defined.
