(* ===== verification/NameProofs.v ===== *)
(** * Names and addresses

    The slugs and host names of internal/preview/naming.go, and the two parsers
    of runtime addresses (internal/deploy/runtime_address.go and
    internal/migrationreconcile/reconcile.go). *)

From S2P Require Import Prelude NetAddr Text Models Sample.

(** ** Addresses *)

(** The deployer's parser of runtime addresses is the migration handler's
    parser followed by a range check on the port, so a port the deployer stores
    always survives the conversion to 32 bits; without the check it does not:
    the migration handler stores port 1 for port 4294967297. *)
Theorem address_parsers_agree (raw : string) :
  parseRuntimeAddress raw =
    match migration_parseRuntimeAddress raw with
    | inr (ip, port) => if (port <? 1) || (65535 <? port) then inl (port_out_of_range port) else inr (ip, port)
    | inl e => inl e
    end /\
  (forall ip port, parseRuntimeAddress raw = inr (ip, port) -> 1 <= port <= 65535 /\ wrap32 port = port) /\
  (exists ip port, migration_parseRuntimeAddress "10.0.0.1:4294967297" = inr (ip, port) /\
                   port = 4294967297 /\ wrap32 port = 1).
Proof.
  assert (parseRuntimeAddress raw =
    match migration_parseRuntimeAddress raw with
    | inr (ip, port) => if (port <? 1) || (65535 <? port) then inl (port_out_of_range port) else inr (ip, port)
    | inl e => inl e
    end) as Heq by (unfold parseRuntimeAddress, migration_parseRuntimeAddress; cbv zeta; by repeat case_match).
  split; [done|]. rewrite Heq. split.
  - intros ip port. destruct (migration_parseRuntimeAddress raw) as [e|[a p]]; [done|].
    destruct (Z.ltb_spec p 1), (Z.ltb_spec 65535 p); simpl; try done. intros [= -> ->].
    split; [lia|]. unfold wrap32. rewrite Z.mod_small; lia.
  - eexists _, _. split; [vm_compute; reflexivity|]. split; reflexivity.
Qed.

(** ** Slugs *)

Lemma string_app_assoc (a b c : string) : (a +:+ b) +:+ c = a +:+ (b +:+ c).
Proof. induction a as [|x a IH]; [done|]. exact (f_equal (String x) IH). Qed.
Lemma string_length_app (a b : string) : String.length (a +:+ b) = (String.length a + String.length b)%nat.
Proof. induction a as [|x a IH]; [done|]. exact (f_equal S IH). Qed.
Lemma length_bytes_of s : length (bytes_of s) = String.length s.
Proof. unfold bytes_of, str_bytes. rewrite length_fmap. induction s as [|x s IH]; simpl; [done|]. by rewrite IH. Qed.

Lemma bytes_round l : Forall (fun b => b < 256)%N l -> bytes_of (of_bytes l) = l.
Proof.
  intros Hl. unfold bytes_of, of_bytes, str_bytes, str_of_bytes.
  rewrite String.list_ascii_of_string_of_list_ascii. induction Hl as [|b l Hb Hl IH]; [done|].
  rewrite !fmap_cons, IH, Ascii.N_ascii_embedding by done. done.
Qed.

Lemma slug_byte_small b : slug_byte b = true -> (b < 256)%N.
Proof. unfold slug_byte, in_range. rewrite !orb_true_iff, !andb_true_iff, !N.leb_le, N.eqb_eq. lia. Qed.

Lemma replace_runs_slug inside l : Forall (fun b => slug_byte b = true) (replace_runs inside l).
Proof.
  revert inside; induction l as [|b l IH]; intros inside; simpl; [constructor|].
  destruct (slug_byte b) eqn:E; [by constructor|]. destruct inside; [done|by constructor].
Qed.

Lemma trim_left_suffix c l : exists p, l = p ++ trim_left c l.
Proof.
  induction l as [|b l [p IH]]; simpl; [by exists []|]. destruct (b =? c)%N; [|by exists []].
  exists (b :: p). simpl. by rewrite <- IH.
Qed.
Lemma trim_left_head c l b l' : trim_left c l = b :: l' -> b <> c.
Proof.
  induction l as [|x l IH]; simpl; [done|]. destruct (x =? c)%N eqn:E; [done|]. intros [= <- _]. by apply N.eqb_neq.
Qed.
Lemma trim_left_all c l : trim_left c l = [] -> forall b, b ∈ l -> b = c.
Proof.
  induction l as [|x l IH]; simpl; [by intros _ b ?%not_elem_of_nil|]. destruct (x =? c)%N eqn:E; [|done].
  intros H b [->|Hb]%elem_of_cons; [by apply N.eqb_eq|]. by apply IH.
Qed.
Lemma trim_right_prefix c l : exists q, l = trim_right c l ++ q.
Proof.
  destruct (trim_left_suffix c (rev l)) as [p Hp]. exists (rev p). unfold trim_right.
  rewrite <- rev_app_distr, <- Hp. by rewrite rev_involutive.
Qed.
Lemma trim_right_last c l b : last (trim_right c l) = Some b -> b <> c.
Proof.
  unfold trim_right. destruct (trim_left c (rev l)) as [|x r] eqn:E; simpl; [done|].
  rewrite last_snoc. intros [= <-]. by apply trim_left_head in E.
Qed.

(** A DNS label: letters, digits and inner hyphens. *)
Definition dns_bytes (l : list N) : Prop :=
  Forall (fun b => slug_byte b = true) l /\ (forall b l', l = b :: l' -> b <> 45%N) /\
  (forall b, last l = Some b -> b <> 45%N).

Lemma trim_dns l : Forall (fun b => slug_byte b = true) l -> dns_bytes (trim 45 l).
Proof.
  intros Hl. unfold trim. destruct (trim_left_suffix 45 l) as [p Hp]. rewrite Hp in Hl. apply Forall_app in Hl as [_ Hl].
  destruct (trim_right_prefix 45 (trim_left 45 l)) as [q Hq]. split; [|split].
  - rewrite Hq in Hl. by apply Forall_app in Hl as [? _].
  - intros b l' E. rewrite E in Hq. by apply trim_left_head in Hq.
  - apply trim_right_last.
Qed.

Lemma cut_dns l : dns_bytes l -> dns_bytes (trim_right 45 (take 40 l)).
Proof.
  intros (Hl & Hh & _). destruct (trim_right_prefix 45 (take 40 l)) as [q Hq]. split; [|split].
  - apply (Forall_take _ 40) in Hl. rewrite Hq in Hl. by apply Forall_app in Hl as [? _].
  - intros b l' E. rewrite E in Hq. destruct l as [|x l]; [done|]. injection Hq as -> _. by apply (Hh b l).
  - apply trim_right_last.
Qed.

Section slugs.
Context {U : Unicode}.

Lemma slug_spec name :
  let l := bytes_of (SlugProjectName name) in dns_bytes l /\ (1 <= length l <= 40)%nat.
Proof.
  cbv zeta. unfold SlugProjectName. cbv zeta.
  pose proof (trim_dns _ (replace_runs_slug false (bytes_of (ToLower (TrimSpace name))))) as Hd.
  destruct (trim 45 (replace_runs false (bytes_of (ToLower (TrimSpace name))))) as [|b l].
  { vm_compute. split; [|lia]. split; [repeat constructor|]. split; [intros ? ? [= <- _]; done|intros ? [= <-]; done]. }
  set (s := if (40 <? length (b :: l))%nat then _ else _).
  assert (dns_bytes s /\ (1 <= length s <= 40)%nat) as [Hs Hlen].
  { unfold s. destruct (Nat.ltb_spec 40 (length (b :: l))) as [Hlt|Hge]; [|simpl in *; split; [done|lia]].
    split; [by apply cut_dns|]. destruct (trim_right_prefix 45 (take 40 (b :: l))) as [q Hq].
    pose proof (length_take_le (b :: l) 40 ltac:(lia)) as Ht. rewrite Hq, length_app in Ht.
    split; [|lia]. destruct (trim_right 45 (take 40 (b :: l))) as [|x r] eqn:E; simpl; [|lia]. exfalso.
    unfold trim_right in E. destruct (trim_left 45 (rev (take 40 (b :: l)))) as [|y r] eqn:E2;
      [|simpl in E; by destruct (rev r)].
    apply (proj1 (proj2 Hd) b l eq_refl), (trim_left_all _ _ E2 b), list_elem_of_In. rewrite <- in_rev. by left. }
  rewrite bytes_round; [done|]. eapply Forall_impl; [apply Hs|]. intros x. apply slug_byte_small.
Qed.

End slugs.

(** The slug of every name is a DNS label of one to forty bytes: lower-case
    letters, digits and hyphens, the first and the last not a hyphen. *)
Theorem slug_dns_label (U : Unicode) (name : string) :
  let l := bytes_of (SlugProjectName name) in
  (1 <= length l <= 40)%nat /\ Forall (fun b => slug_byte b = true) l /\
  (forall b l', l = b :: l' -> b <> 45%N) /\ (forall b, last l = Some b -> b <> 45%N).
Proof. destruct (slug_spec name) as [(H1 & H2 & H3) H4]. auto. Qed.

(** The first label of a generated production host name is the two slugs
    joined by a hyphen and has at most 81 bytes; names of forty letters reach
    81, more than the 63 bytes the domain name system allows in a label. *)
Theorem production_label_length (U : Unicode) (service project base : string) :
  base_domain base <> "" ->
  (exists label, ProductionServiceHostname service project base = label +:+ "." +:+ base_domain base /\
     label = SlugServiceName service +:+ "-" +:+ SlugProjectName project /\
     (String.length label <= 81)%nat) /\
  (let name := of_bytes (replicate 40 97%N) in
   String.length (SlugServiceName name +:+ "-" +:+ SlugProjectName name) = 81%nat).
Proof.
  intros Hb. split; [|vm_compute; reflexivity]. eexists. split; [|split; [reflexivity|]].
  - unfold ProductionServiceHostname. cbv zeta. rewrite (proj2 (String.eqb_neq _ _) Hb). by rewrite !string_app_assoc.
  - rewrite !string_length_app. unfold SlugServiceName.
    change (String.length "-") with 1%nat.
    pose proof (slug_spec service) as [_ Hs]. pose proof (slug_spec project) as [_ Hp].
    rewrite length_bytes_of in Hs, Hp. lia.
Qed.

Lemma production_label_length_witness :
  (exists label, ProductionServiceHostname "Web" "My Shop" ".Example.COM." = label +:+ "." +:+ base_domain ".Example.COM." /\
     label = SlugServiceName "Web" +:+ "-" +:+ SlugProjectName "My Shop" /\ (String.length label <= 81)%nat) /\
  (let name := of_bytes (replicate 40 97%N) in
   String.length (SlugServiceName name +:+ "-" +:+ SlugProjectName name) = 81%nat).
Proof. apply (production_label_length sample_unicode "Web" "My Shop" ".Example.COM."). vm_compute. discriminate. Defined.

Example sample_hostname : ProductionServiceHostname "Web" "My Shop!" ".Example.COM." = "web-my-shop.example.com".
Proof. vm_compute. reflexivity. Qed.
