(* ===== verification/Float64.v ===== *)
(** * 64-bit floating point

    Go's float64 as the IEEE 754 binary64 data of the Standard Library's
    [SpecFloat]: arithmetic rounds to nearest, ties to even.  The conversion of
    a value outside the range of int32 is implementation-specific in Go; it is
    the class [Arch]. *)

From S2P Require Import Prelude.
From Stdlib Require Export SpecFloat.
#[global] Open Scope Z_scope.

Abbreviation float64 := spec_float (only parsing).

Definition f64_add (x y : float64) : float64 := SFadd 53 1024 x y.
Definition f64_mul (x y : float64) : float64 := SFmul 53 1024 x y.
Definition f64_div (x y : float64) : float64 := SFdiv 53 1024 x y.

(** [x < y] and [x == y]; both are false when one is not a number. *)
Definition f64_lt (x y : float64) : bool := SFltb x y.
Definition f64_eq (x y : float64) : bool := SFeqb x y.

(** [float64(n)]. *)
Definition f64_of_int (n : Z) : float64 := binary_normalize 53 1024 n 0 false.

(** The integers next to [m * 2^e] from below and from above, for [e < 0]. *)
Definition scaled_floor (m e : Z) : Z := m / 2 ^ (- e).
Definition scaled_ceil (m e : Z) : Z := - ((- m) / 2 ^ (- e)).

(** [math.Ceil]: zeros, infinities and integers are kept, and so is the sign. *)
Definition f64_ceil (x : float64) : float64 :=
  match x with
  | S754_finite s m e =>
      if 0 <=? e then x
      else binary_normalize 53 1024 (if s then - scaled_floor (Zpos m) e else scaled_ceil (Zpos m) e) 0 s
  | _ => x
  end.

(** The integer part, towards zero. *)
Definition f64_trunc (x : float64) : option Z :=
  match x with
  | S754_zero _ => Some 0
  | S754_finite s m e =>
      let n := if 0 <=? e then Zpos m * 2 ^ e else scaled_floor (Zpos m) e in
      Some (if s then - n else n)
  | _ => None
  end.

Class Arch := {
  arch_int32 : float64 -> Z;
  arch_int32_range : forall x, min_int32 <= arch_int32 x <= max_int32
}.

(** [int32(x)]. *)
Definition f64_int32 `{Arch} (x : float64) : Z :=
  match f64_trunc x with
  | Some n => if (min_int32 <=? n) && (n <=? max_int32) then n else arch_int32 x
  | None => arch_int32 x
  end.

Lemma f64_int32_range `{Arch} x : min_int32 <= f64_int32 x <= max_int32.
Proof.
  unfold f64_int32. destruct (f64_trunc x) as [n|]; [|apply arch_int32_range].
  destruct (Z.leb_spec min_int32 n), (Z.leb_spec n max_int32); simpl; try apply arch_int32_range. lia.
Qed.

(** amd64: the conversion instruction answers the smallest integer. *)
#[export] Instance amd64 : Arch.
Proof. refine {| arch_int32 _ := min_int32 |}. intros _. vm_compute. split; discriminate. Defined.

Example ceil_samples :
  (f64_int32 (f64_ceil (f64_div (f64_of_int 121) (f64_of_int 60))) = 3) /\
  (f64_int32 (f64_ceil (f64_div (f64_of_int 120) (f64_of_int 60))) = 2) /\
  (f64_int32 (f64_ceil (f64_div (f64_of_int (-30)) (f64_of_int 60))) = 0) /\
  (f64_int32 (f64_of_int (2 ^ 31)) = min_int32).
Proof. vm_compute. repeat split. Qed.
