(* ===== verification/Autoscale.v ===== *)
(** * Autoscaler

    internal/autoscale/autoscale.go: the replica target of a service from its
    HTTP requests and CPU samples, and the two sweeps that write it.

    The tables project_http_usage_rollups and instance_usage_samples are filled
    by other processes while a sweep runs; their rows at a given time are the
    class [Metering].  The statements over them are translated like those of
    [Queries].  A sweep first opens a connection and tries the cluster-wide
    advisory lock; whether this process got it is the argument [leader]. *)

From S2P Require Import Prelude NetAddr Models Runtime Effects Queries Float64.

(** ** Usage tables *)

Record ProjectHttpUsageRollup := mkRollup {
  hr_ID : pgUUID;
  hr_ServerID : pgUUID;
  hr_ProjectID : pgUUID;
  hr_DeploymentID : pgUUID;
  hr_BucketStart : option Time;
  hr_RequestCount : Z;
  hr_Status2xx : Z;
  hr_Status4xx : Z;
  hr_Status5xx : Z;
  hr_BytesIn : Z;
  hr_BytesOut : Z;
  hr_UpdatedAt : option Time
}.

Record InstanceUsageSample := mkSample {
  us_ID : pgUUID;
  us_ServerID : pgUUID;
  us_ProjectID : pgUUID;
  us_DeploymentID : pgUUID;
  us_DeploymentInstanceID : pgUUID;
  us_SampledAt : option Time;
  us_CpuNanosCumulative : Z;
  us_CpuPercent : option float64;
  us_MemoryRssBytes : Z;
  us_DiskReadBytes : Z;
  us_DiskWriteBytes : Z;
  us_Source : string
}.

Class Metering := {
  rollups_at : Time -> list ProjectHttpUsageRollup;
  samples_at : Time -> list InstanceUsageSample
}.

(** A timestamp parameter keeps microseconds. *)
Definition pg_timestamp (t : Time) : Time := t - t mod 1000.

(** [col >= $n] and [col <= $n] on a timestamp column. *)
Definition time_ge_col (col : option Time) (t : Time) : bool := match col with Some c => pg_timestamp t <=? c | None => false end.
Definition time_le_col (col : option Time) (t : Time) : bool := match col with Some c => c <=? pg_timestamp t | None => false end.

Record HTTPUsageRow := mkHTTPUsageRow {
  hu_BucketStart : option Time;
  hu_RequestCount : Z;
  hu_Status2xx : Z;
  hu_Status4xx : Z;
  hu_Status5xx : Z;
  hu_BytesIn : Z;
  hu_BytesOut : Z
}.

Definition sum_of {A} (f : A -> Z) (l : list A) : Z := foldr (fun x acc => f x + acc) 0 l.

(** One row per bucket with the sums of its group. *)
Definition usage_group (l : list ProjectHttpUsageRollup) (b : option Time) : HTTPUsageRow :=
  let g := List.filter (fun r => bool_decide (r.(hr_BucketStart) = b)) l in
  mkHTTPUsageRow b (sum_of hr_RequestCount g) (sum_of hr_Status2xx g) (sum_of hr_Status4xx g)
    (sum_of hr_Status5xx g) (sum_of hr_BytesIn g) (sum_of hr_BytesOut g).

Definition int8 (z : Z) : bool := (min_int64 <=? z) && (z <=? max_int64).

Definition usage_row_fits (r : HTTPUsageRow) : bool :=
  forallb int8 [hu_RequestCount r; hu_Status2xx r; hu_Status4xx r; hu_Status5xx r; hu_BytesIn r; hu_BytesOut r].

Section autoscale.
Context {env : Env} {S : Sorter} {metering : Metering} {arch : Arch}.

(** SUM of a bigint column is a numeric; the cast back to bigint can fail. *)
Definition ProjectHTTPUsageRollupsAggregatedByDeployment (project deployment : pgUUID) (from to : Time)
    : reads (list HTTPUsageRow) := fun now _ =>
  let sel := List.filter (fun r => col_eq r.(hr_ProjectID) project && col_eq r.(hr_DeploymentID) deployment &&
                                   time_ge_col r.(hr_BucketStart) from && time_le_col r.(hr_BucketStart) to)
               (rollups_at now) in
  let groups := usage_group sel <$> sort_by time_le (distinct_on id [] (hr_BucketStart <$> sel)) in
  if forallb usage_row_fits groups then inr groups else inl (ErrExternal "bigint out of range").

(** ORDER BY deployment_instance_id, sampled_at DESC. *)
Definition sample_le (a b : InstanceUsageSample) : bool :=
  let ka := FromPgtype a.(us_DeploymentInstanceID) in
  let kb := FromPgtype b.(us_DeploymentInstanceID) in
  (ka <? kb)%N || ((ka =? kb)%N && time_le b.(us_SampledAt) a.(us_SampledAt)).

Definition InstanceUsageLatestPerInstanceByDeployment (project deployment : pgUUID) (since : Time)
    : reads (list InstanceUsageSample) := fun now d =>
  let joined s :=
    match row_at d.(db_instances) s.(us_DeploymentInstanceID) with
    | None => false
    | Some di =>
        is_null di.(inst_DeletedAt) && String.eqb di.(inst_Status) "running" && not_null di.(inst_VmID) &&
        match row_at d.(db_deployments) di.(inst_DeploymentID) with
        | None => false
        | Some dp => is_null dp.(dep_DeletedAt) && col_eq dp.(dep_ProjectID) s.(us_ProjectID) &&
                     col_eq dp.(dep_ID) deployment
        end
    end in
  inr (distinct_on us_DeploymentInstanceID []
        (sort_by sample_le
          (List.filter (fun s => joined s && col_eq s.(us_ProjectID) project && time_ge_col s.(us_SampledAt) since)
             (samples_at now)))).

(** ** The target of one service *)

Definition httpWindowMinutes : Z := 3.
Definition httpBurstWindowMinutes : Z := 1.
Definition httpScaleUpRequestsPerMinute : float64 := f64_of_int 60.
Definition cpuScaleUpPercentTotal : float64 := f64_of_int 65.
Definition httpScaleDownRequestsPerMinute : float64 := f64_of_int 25.
Definition cpuScaleDownPercentTotal : float64 := f64_of_int 35.
Definition cpuLookback : Duration := 2 * Minute.
Definition scaleDownCooldown : Duration := 5 * Minute.

Definition nonZeroFloor (proj : Project) : Z :=
  if proj.(proj_MaxInstanceCount) <=? 0 then 0
  else if 1 <? proj.(proj_MinInstanceCount) then proj.(proj_MinInstanceCount)
  else 1.

Definition autoscale_serviceDesiredReplicaCount (proj : Project) (service : option Service) : Z :=
  match service with
  | Some s => if 0 <? s.(svc_DesiredInstanceCount) then s.(svc_DesiredInstanceCount)
              else proj.(proj_DesiredInstanceCount)
  | None => proj.(proj_DesiredInstanceCount)
  end.

Definition shouldSkipAutoscale (service : option Service) (avgRequestsPerMinute : float64) (hasCPU : bool) : bool :=
  match service with
  | Some s => (s.(svc_DesiredInstanceCount) =? 0) && f64_eq avgRequestsPerMinute (f64_of_int 0) && negb hasCPU
  | None => false
  end.

Definition clampCurrentTarget (proj : Project) (service : option Service) : Z :=
  if proj.(proj_MaxInstanceCount) <=? 0 then 0
  else
    let target := autoscale_serviceDesiredReplicaCount proj service in
    let floor := nonZeroFloor proj in
    let target := if target <? floor then floor else target in
    let target := if proj.(proj_MaxInstanceCount) <? target then proj.(proj_MaxInstanceCount) else target in
    if target <? 0 then 0 else target.

Definition targetFromMetrics (proj : Project) (avgRequestsPerMinute totalCPUPercent : float64) (hasCPU : bool) : Z :=
  if proj.(proj_MaxInstanceCount) <=? 0 then 0
  else
    let floor := nonZeroFloor proj in
    let httpTarget := f64_int32 (f64_ceil (f64_div avgRequestsPerMinute httpScaleUpRequestsPerMinute)) in
    let cpuTarget := if hasCPU then f64_int32 (f64_ceil (f64_div totalCPUPercent cpuScaleUpPercentTotal)) else 0 in
    let target := floor in
    let target := if target <? httpTarget then httpTarget else target in
    let target := if target <? cpuTarget then cpuTarget else target in
    if proj.(proj_MaxInstanceCount) <? target then proj.(proj_MaxInstanceCount) else target.

Definition shouldStepDown (current : Z) (avgRequestsPerMinute totalCPUPercent : float64) (hasCPU : bool) : bool :=
  if current <=? 1 then false
  else
    let httpOK := f64_lt avgRequestsPerMinute (f64_mul (f64_of_int (current - 1)) httpScaleDownRequestsPerMinute) in
    let cpuOK := if hasCPU then f64_lt totalCPUPercent (f64_mul (f64_of_int (current - 1)) cpuScaleDownPercentTotal)
                 else true in
    httpOK && cpuOK.

Definition shouldHoldScaleDown (proj : Project) (now : Time) : bool :=
  match proj.(proj_LastRequestAt) with
  | Some t => time_Sub now t <? scaleDownCooldown
  | None => false
  end.

Definition ComputeDesiredInstanceCount (proj : Project) (service : option Service)
    (avgRequestsPerMinute totalCPUPercent : float64) (hasCPU : bool) : Z :=
  let current := clampCurrentTarget proj service in
  if proj.(proj_MaxInstanceCount) <=? 0 then 0
  else
    let floor := nonZeroFloor proj in
    let upTarget := targetFromMetrics proj avgRequestsPerMinute totalCPUPercent hasCPU in
    if current <? upTarget then upTarget
    else if current <? floor then floor
    else if (floor <? current) && shouldStepDown current avgRequestsPerMinute totalCPUPercent hasCPU then
      let next := current - 1 in
      if next <? floor then floor else next
    else current.

(** ** Sweeps *)

(** [reconciler] tells whether a scheduler is configured. *)
Definition scheduleDeploymentNow (reconciler : bool) (dep : Deployment) : M unit :=
  match dep.(dep_ID) with
  | Some id => if negb reconciler then ret tt else let! t := now in emit (EvSchedule SchedDeployments id t)
  | None => ret tt
  end.

(** [Time.Truncate(time.Minute)], which counts from the zero time. *)
Definition truncate_minute (t : Time) : Time := t - t mod Minute.

(** [Duration.Minutes]. *)
Definition duration_minutes (d : Duration) : float64 :=
  f64_add (f64_of_int (Z.quot d Minute)) (f64_div (f64_of_int (Z.rem d Minute)) (f64_of_int Minute)).

(** The bounds of the HTTP window: the current minute is part of it in the
    fast sweep only. *)
Definition http_window (now : Time) (windowMinutes : Z) (scaleUpOnly : bool) : Time * Time :=
  let bucketMinute := truncate_minute now in
  (bucketMinute - windowMinutes * Minute, if scaleUpOnly then bucketMinute else bucketMinute - Nanosecond).

Definition avg_rpm (now : Time) (windowMinutes : Z) (scaleUpOnly : bool) (requestCount : Z) : float64 :=
  if scaleUpOnly then
    let elapsedMin := duration_minutes (time_Sub now (http_window now windowMinutes scaleUpOnly).1) in
    let minElapsedMin := f64_div (f64_of_int 1) (f64_of_int 60) in
    let elapsedMin := if f64_lt elapsedMin minElapsedMin then minElapsedMin else elapsedMin in
    f64_div (f64_of_int requestCount) elapsedMin
  else f64_div (f64_of_int requestCount) (f64_of_int windowMinutes).

Definition add_cpu (acc : float64 * bool) (row : InstanceUsageSample) : float64 * bool :=
  match row.(us_CpuPercent) with
  | Some c => (f64_add acc.1 c, true)
  | None => acc
  end.

(** The decision for one service, once its usage is read. *)
Definition next_target (proj : Project) (svc : Service) (now : Time) (scaleUpOnly : bool)
    (avgRPM totalCPU : float64) (hasCPU : bool) : option Z :=
  if shouldSkipAutoscale (Some svc) avgRPM hasCPU then None
  else
    let current := clampCurrentTarget proj (Some svc) in
    let next := ComputeDesiredInstanceCount proj (Some svc) avgRPM totalCPU hasCPU in
    if scaleUpOnly && (next <=? current) then None
    else if negb scaleUpOnly && (next <? current) && shouldHoldScaleDown proj now then None
    else if next =? current then None
    else Some next.

(** The body of the loop over the services of a project. *)
Definition autoscale_service (reconciler : bool) (now : Time) (windowMinutes : Z) (scaleUpOnly : bool)
    (proj : Project) (svc : Service) : M unit :=
  let (httpWindowStart, httpWindowInclusiveEnd) := http_window now windowMinutes scaleUpOnly in
  let! d := attempt (query (DeploymentLatestRunningByServiceID svc.(svc_ID))) in
  match d with
  | inl _ => ret tt
  | inr dep =>
      let! h := attempt (query (ProjectHTTPUsageRollupsAggregatedByDeployment proj.(proj_ID) dep.(dep_ID)
                                  httpWindowStart httpWindowInclusiveEnd)) in
      match h with
      | inl _ => ret tt
      | inr httpRows =>
          let requestCount := foldl (fun acc row => wrap64 (acc + row.(hu_RequestCount))) 0 httpRows in
          let avgRPM := avg_rpm now windowMinutes scaleUpOnly requestCount in
          let! c := (if scaleUpOnly then ret (inr [])
                     else attempt (query (InstanceUsageLatestPerInstanceByDeployment proj.(proj_ID) dep.(dep_ID)
                                            (now - cpuLookback)))) in
          match c with
          | inl _ => ret tt
          | inr cpuRows =>
              let (totalCPU, hasCPU) := foldl add_cpu (f64_of_int 0, false) cpuRows in
              match next_target proj svc now scaleUpOnly avgRPM totalCPU hasCPU with
              | None => ret tt
              | Some next =>
                  let! u := attempt (exec (ServiceSetDesiredInstanceCount svc.(svc_ID) next)) in
                  match u with
                  | inl _ => ret tt
                  | inr _ => scheduleDeploymentNow reconciler dep
                  end
              end
          end
      end
  end.

(** [store] tells whether the store is not nil. *)
Definition runAutoscaleSweepWithWindow (store reconciler : bool) (now : Time) (windowMinutes : Z)
    (scaleUpOnly : bool) : M unit :=
  if negb store then ret tt
  else
    let! p := attempt (query ProjectFindAll) in
    match p with
    | inl _ => ret tt
    | inr projects =>
        for_each projects (fun proj =>
          if (proj.(proj_MaxInstanceCount) <=? 0) || proj.(proj_ScaledToZero) then ret tt
          else
            let! s := attempt (query (ServiceListByProjectID proj.(proj_ID))) in
            match s with
            | inl _ => ret tt
            | inr services => for_each services (autoscale_service reconciler now windowMinutes scaleUpOnly proj)
            end)
    end.

Definition runAutoscaleSweep (store reconciler : bool) (now : Time) : M unit :=
  runAutoscaleSweepWithWindow store reconciler now httpWindowMinutes false.

Definition runAutoscaleFastSweep (store reconciler : bool) (now : Time) : M unit :=
  runAutoscaleSweepWithWindow store reconciler now httpBurstWindowMinutes true.

Definition RunOnce (leader reconciler : bool) : M unit :=
  if negb leader then ret tt else let! t := now in runAutoscaleSweep true reconciler t.

Definition RunFastOnce (leader reconciler : bool) : M unit :=
  if negb leader then ret tt else let! t := now in runAutoscaleFastSweep true reconciler t.

End autoscale.
