(* ===== verification/AutoscaleProofs.v ===== *)
(** * Autoscaler: theorems

    The target stays within the project's bounds and moves down by one at a
    time, the deployer runs exactly the target, and a sweep writes nothing but
    the targets of services, each of which wakes the deployment it concerns. *)

From S2P Require Import Prelude NetAddr Text Models Runtime Effects Queries Logic EventLogic TableFacts Lifecycle Integrity Sample LifecycleProofs Float64 Autoscale.

(** ** Targets *)

Section target.
Context {arch : Arch} (proj : Project).

Hypothesis Hmax : 1 <= proj_MaxInstanceCount proj.
Hypothesis Hmin : proj_MinInstanceCount proj <= proj_MaxInstanceCount proj.

Lemma floor_spec : nonZeroFloor proj = Z.max 1 (proj_MinInstanceCount proj).
Proof using Hmax. unfold nonZeroFloor. destruct (Z.leb_spec (proj_MaxInstanceCount proj) 0), (Z.ltb_spec 1 (proj_MinInstanceCount proj)); lia. Qed.

(** The two packages clamp alike. *)
Lemma clamp_agrees svc :
  clampCurrentTarget proj svc = clampDesiredReplicaCount proj (serviceDesiredReplicaCount proj svc).
Proof using. reflexivity. Qed.

Lemma clamp_spec n :
  clampDesiredReplicaCount proj n = Z.min (proj_MaxInstanceCount proj) (Z.max (Z.max 1 (proj_MinInstanceCount proj)) n).
Proof using Hmax. rewrite clamp_eq. destruct (Z.leb_spec (proj_MaxInstanceCount proj) 0); [lia|done]. Qed.

Lemma metrics_target_spec rpm cpu has :
  targetFromMetrics proj rpm cpu has =
    Z.min (proj_MaxInstanceCount proj)
      (Z.max (Z.max (Z.max 1 (proj_MinInstanceCount proj)) (f64_int32 (f64_ceil (f64_div rpm httpScaleUpRequestsPerMinute))))
             (if has then f64_int32 (f64_ceil (f64_div cpu cpuScaleUpPercentTotal)) else 0)).
Proof using Hmax Hmin.
  unfold targetFromMetrics. rewrite floor_spec. generalize (f64_int32 (f64_ceil (f64_div rpm httpScaleUpRequestsPerMinute))).
  generalize (if has then f64_int32 (f64_ceil (f64_div cpu cpuScaleUpPercentTotal)) else 0). intros c h. cbv zeta.
  set (fl := Z.max 1 _). destruct (Z.leb_spec (proj_MaxInstanceCount proj) 0); [lia|].
  replace (if fl <? h then h else fl) with (Z.max fl h) by (destruct (Z.ltb_spec fl h); lia).
  replace (if Z.max fl h <? c then c else Z.max fl h) with (Z.max (Z.max fl h) c) by (destruct (Z.ltb_spec (Z.max fl h) c); lia).
  destruct (Z.ltb_spec (proj_MaxInstanceCount proj) (Z.max (Z.max fl h) c)); lia.
Qed.

Lemma compute_spec svc rpm cpu has :
  let current := clampCurrentTarget proj svc in
  let up := targetFromMetrics proj rpm cpu has in
  ComputeDesiredInstanceCount proj svc rpm cpu has =
    if current <? up then up
    else if (Z.max 1 (proj_MinInstanceCount proj) <? current) && shouldStepDown current rpm cpu has then current - 1
    else current.
Proof using Hmax Hmin.
  cbv zeta. unfold ComputeDesiredInstanceCount. rewrite floor_spec, clamp_agrees, clamp_spec.
  set (n := serviceDesiredReplicaCount proj svc).
  set (current := Z.min _ _).
  assert (Z.max 1 (proj_MinInstanceCount proj) <= current) by (unfold current; lia).
  destruct (Z.leb_spec (proj_MaxInstanceCount proj) 0); [lia|]. destruct (current <? _); [done|].
  destruct (Z.ltb_spec current (Z.max 1 (proj_MinInstanceCount proj))); [lia|].
  destruct (Z.ltb_spec (Z.max 1 (proj_MinInstanceCount proj)) current); [|done].
  destruct (shouldStepDown _ _ _ _); [|done]. simpl. destruct (Z.ltb_spec (current - 1) (Z.max 1 (proj_MinInstanceCount proj))); lia.
Qed.

Lemma compute_bounds svc rpm cpu has :
  let current := clampCurrentTarget proj svc in
  let next := ComputeDesiredInstanceCount proj svc rpm cpu has in
  Z.max 1 (proj_MinInstanceCount proj) <= next <= proj_MaxInstanceCount proj /\
  (next < current -> next = current - 1 /\ shouldStepDown current rpm cpu has = true) /\
  (current < next -> next = targetFromMetrics proj rpm cpu has) /\
  (targetFromMetrics proj rpm cpu has <= next \/ next = current - 1).
Proof using Hmax Hmin.
  cbv zeta. rewrite compute_spec, clamp_agrees, clamp_spec. cbv zeta.
  set (n := serviceDesiredReplicaCount proj svc). set (current := Z.min _ _).
  assert (Z.max 1 (proj_MinInstanceCount proj) <= current <= proj_MaxInstanceCount proj) by (unfold current; lia).
  assert (Z.max 1 (proj_MinInstanceCount proj) <= targetFromMetrics proj rpm cpu has <= proj_MaxInstanceCount proj)
    by (rewrite metrics_target_spec; lia).
  destruct (Z.ltb_spec current (targetFromMetrics proj rpm cpu has)); [lia|].
  destruct (Z.ltb_spec (Z.max 1 (proj_MinInstanceCount proj)) current); simpl; [|lia].
  destruct (shouldStepDown _ _ _ _); lia.
Qed.

End target.

(** ** Sweeps *)

Section sweep.
Context {env : Env} {S : Sorter} {metering : Metering} {arch : Arch}.
Context (reconciler : bool) (t0 : Time) (window : Z) (up : bool).

(** Some answers of statements that were lost from [w] to [w'], and for each the
    service it concerned. *)
Definition lost_answers (lost : gmap nat UUID) (w w' : World) : Prop :=
  forall n k, lost !! n = Some k -> (w_step w <= n < w_step w')%nat /\ exists msg, env_fault n = FailAfter msg.

(** [svc'] is [svc] with a new target, [k] being its key. *)
Definition autoscaled (proj : Project) (svc svc' : Service) : Prop :=
  exists next t rpm cpu has,
    svc' = set_svc_UpdatedAt (Some t) (set_svc_DesiredInstanceCount next svc) /\
    next_target proj svc t0 up rpm cpu has = Some next.

(** The deployment that runs the service was handed to the reconciler. *)
Definition woken (k : UUID) (w : World) : Prop :=
  exists dep id t, DeploymentLatestRunningByServiceID (Some k) 0 (w_db w) = inr dep /\ dep_ID dep = Some id /\
    EvSchedule SchedDeployments id t ∈ w_log w.

(** From [w] to [w'] only services changed, and those of [p] as permitted; a
    deployment not handed over has a lost answer to account for it. *)
Record swept (p : Service -> Project -> Prop) (lost : gmap nat UUID) (w w' : World) : Prop := {
  sw_step : (w_step w <= w_step w')%nat;
  sw_lost : lost_answers lost w w';
  sw_db : w_db w' = set_services (db_services (w_db w')) (w_db w);
  sw_log : exists new, w_log w' = new ++ w_log w;
  sw_rows : forall k, db_services (w_db w') !! k = db_services (w_db w) !! k \/
    exists svc svc' proj, db_services (w_db w) !! k = Some svc /\ db_services (w_db w') !! k = Some svc' /\
      p svc proj /\ autoscaled proj svc svc' /\ (reconciler = true -> woken k w' \/ exists n, lost !! n = Some k)
}.

Lemma set_services_same d : set_services (db_services d) d = d.
Proof. by destruct d. Qed.
Lemma set_services_twice m m' d : set_services m (set_services m' d) = set_services m d.
Proof. done. Qed.
Lemma get_set_services m d : db_services (set_services m d) = m.
Proof. done. Qed.

Lemma swept_same p w w' : (w_step w <= w_step w')%nat -> w_db w' = w_db w -> w_log w' = w_log w -> swept p ∅ w w'.
Proof.
  intros Hs Hd Hl. split; [done|by intros n k|rewrite Hd; by rewrite set_services_same|by exists []|]. intros k. left. by rewrite Hd.
Qed.

Lemma woken_later p lost k w w' : swept p lost w w' -> woken k w -> woken k w'.
Proof.
  intros [_ _ Hd [new Hl] _] (dep & id & t & H1 & H2 & H3). exists dep, id, t. rewrite Hd, Hl. split; [exact H1|]. split; [done|]. apply elem_of_app. by right.
Qed.

(** A row of the first part is not one of the second. *)
Lemma swept_trans (p q r : Service -> Project -> Prop) l1 l2 w w1 w2 :
  swept p l1 w w1 -> swept q l2 w1 w2 ->
  (forall k svc svc' proj proj', db_services (w_db w) !! k = Some svc -> p svc proj -> autoscaled proj svc svc' ->
     db_services (w_db w1) !! k = Some svc' -> q svc' proj' -> False) ->
  (forall svc proj, p svc proj \/ q svc proj -> r svc proj) ->
  swept r (l1 ∪ l2) w w2.
Proof.
  intros H1 H2 Hdis Hr. pose proof H2 as [Hs2 Ho2 Hd2 [n2 Hl2] Hk2]. destruct H1 as [Hs1 Ho1 Hd1 [n1 Hl1] Hk1].
  assert (forall k, (exists n, l2 !! n = Some k) -> exists n, (l1 ∪ l2) !! n = Some k) as Hlost2.
  { intros k (n & Hn). exists n. apply lookup_union_Some_raw. right. split; [|done]. destruct (l1 !! n) as [k'|] eqn:E; [|done].
    apply Ho1 in E as [??]. apply Ho2 in Hn as [??]. lia. }
  assert (forall k, (exists n, l1 !! n = Some k) -> exists n, (l1 ∪ l2) !! n = Some k) as Hlost1.
  { intros k (n & Hn). exists n. apply lookup_union_Some_raw. by left. }
  split.
  - lia.
  - intros n k [Hn|[_ Hn]]%lookup_union_Some_raw; [apply Ho1 in Hn as [? ?]|apply Ho2 in Hn as [? ?]]; (split; [lia|done]).
  - rewrite Hd2, Hd1 at 1. by rewrite set_services_twice.
  - exists (n2 ++ n1). by rewrite Hl2, Hl1, app_assoc.
  - intros k. destruct (Hk1 k) as [E1|(svc & svc' & proj & A1 & A2 & A3 & A4 & A5)].
    + destruct (Hk2 k) as [E2|(svc & svc' & proj & B1 & B2 & B3 & B4 & B5)]; [left; congruence|].
      right. exists svc, svc', proj. split; [congruence|]. split; [done|]. split; [auto|]. split; [done|]. intros Hrec. destruct (B5 Hrec); auto.
    + right. exists svc, svc', proj. split; [done|].
      destruct (Hk2 k) as [E2|(s & s' & proj' & B1 & B2 & B3 & B4 & B5)].
      * split; [congruence|]. split; [auto|]. split; [done|]. intros Hrec. destruct (A5 Hrec); [left; by eapply woken_later|auto].
      * exfalso. assert (s = svc') as -> by congruence. eauto.
Qed.

Lemma attempt_query {A} (f : reads A) w :
  exists r, attempt (query f) w = (Ret r, tick w) /\ forall a, r = inr a -> f (sql_now w) (w_db w) = inr a.
Proof.
  destruct (query_cases f w) as [(x & Hx & Hq)|(e & Hq & _)].
  - exists (inr x). split; [by apply attempt_ret|]. by intros a [= <-].
  - exists (inl e). split; [by apply attempt_err|done].
Qed.

(** The update of one target: its row is written or not, and the answer can
    be lost only by a fault. *)
Lemma set_target_cases svc k next w :
  db_services (w_db w) !! k = Some svc ->
  let svc' := set_svc_UpdatedAt (Some (sql_now w)) (set_svc_DesiredInstanceCount next svc) in
  let w' := tick (set_db (set_services (<[k := svc']> (db_services (w_db w))) (w_db w)) w) in
  (exists e, attempt (exec (ServiceSetDesiredInstanceCount (Some k) next)) w = (Ret (inl e), tick w)) \/
  (exists e msg, attempt (exec (ServiceSetDesiredInstanceCount (Some k) next)) w = (Ret (inl e), w') /\ env_fault (w_step w) = FailAfter msg) \/
  attempt (exec (ServiceSetDesiredInstanceCount (Some k) next)) w = (Ret (inr tt), w').
Proof.
  intros Hk. cbv zeta. unfold attempt, exec, ServiceSetDesiredInstanceCount, executing, update_row. simpl. rewrite Hk. simpl.
  destruct (env_fault (w_step w)) as [|m|m] eqn:Ef; [|by eauto|]; destruct (service_ok _ _ _); simpl; eauto.
  right. left. eexists _, _. split; done.
Qed.

Lemma swept_one p lost proj svc svc' k w w' :
  db_services (w_db w) !! k = Some svc -> w_db w' = set_services (<[k := svc']> (db_services (w_db w))) (w_db w) ->
  (w_step w <= w_step w')%nat -> lost_answers lost w w' -> (exists new, w_log w' = new ++ w_log w) -> p svc proj -> autoscaled proj svc svc' ->
  (reconciler = true -> woken k w' \/ exists n, lost !! n = Some k) -> swept p lost w w'.
Proof.
  intros Hk Hd Hs Ho Hl Hp Ha Hw. split; [done|done|rewrite Hd; done|done|]. intros j. rewrite Hd, get_set_services.
  destruct (decide (k = j)) as [<-|Hne]; [right|left; by rewrite lookup_insert_ne].
  exists svc, svc', proj. rewrite lookup_insert_eq. auto.
Qed.

Definition deployments_keyed (d : Db) : Prop := forall k r, db_deployments d !! k = Some r -> dep_ID r = Some k.

Lemma latest_running_keyed d id t dep :
  deployments_keyed d -> DeploymentLatestRunningByServiceID id t d = inr dep -> exists k, dep_ID dep = Some k.
Proof.
  intros Hd. unfold DeploymentLatestRunningByServiceID, first_row. destruct (sort_by _ _) as [|x l] eqn:E; [done|].
  intros [= ->]. assert (dep ∈ dep :: l) as H by constructor. rewrite <- E, sort_by_elem, elem_of_rows in H.
  destruct H as (_ & k & Hk). eauto.
Qed.

Lemma service_swept proj svc k w :
  db_services (w_db w) !! k = Some svc -> svc_ID svc = Some k -> deployments_keyed (w_db w) ->
  exists lost w', autoscale_service reconciler t0 window up proj svc w = (Ret tt, w') /\
             swept (fun s p => s = svc /\ p = proj) lost w w'.
Proof.
  intros Hk Hid Hdep. unfold autoscale_service. rewrite Hid. cbv zeta. destruct (http_window t0 window up) as [from to].
  destruct (attempt_query (DeploymentLatestRunningByServiceID (Some k)) w) as (d & Hd & Hdv). rewrite (bind_ret _ _ _ _ _ Hd).
  destruct d as [e|dep]; [eexists ∅, _; split; [done|apply swept_same; [simpl; lia|done|done]]|]. specialize (Hdv dep eq_refl).
  destruct (attempt_query (ProjectHTTPUsageRollupsAggregatedByDeployment (proj_ID proj) (dep_ID dep) from to) (tick w)) as (h & Hh & _).
  rewrite (bind_ret _ _ _ _ _ Hh). destruct h as [e|rows]; [eexists ∅, _; split; [done|apply swept_same; [simpl; lia|done|done]]|]. cbv zeta.
  set (rpm := avg_rpm _ _ _ _).
  match goal with |- context [bind ?m _ (tick (tick w))] =>
    assert (exists c w1, m (tick (tick w)) = (Ret c, w1) /\ w_db w1 = w_db w /\ w_log w1 = w_log w /\ (w_step w <= w_step w1)%nat) as (c & w1 & Hc & Hd1 & Hl1 & Hst1) end.
  { destruct up; [eexists _, _; split_and!; [done|done|done|simpl; lia]|].
    destruct (attempt_query (InstanceUsageLatestPerInstanceByDeployment (proj_ID proj) (dep_ID dep) (t0 - cpuLookback)) (tick (tick w)))
      as (c & Hc & _). eexists _, _; split_and!; [exact Hc|done|done|simpl; lia]. }
  rewrite (bind_ret _ _ _ _ _ Hc). destruct c as [e|cpus]; [eexists ∅, _; split; [done|apply swept_same; [simpl; lia|done|done]]|].
  destruct (foldl add_cpu _ cpus) as [cpu has].
  destruct (next_target proj svc t0 up rpm cpu has) as [next|] eqn:En; [|eexists ∅, _; split; [done|apply swept_same; [simpl; lia|done|done]]].
  rewrite <- Hd1 in Hk.
  set (svc' := set_svc_UpdatedAt (Some (sql_now w1)) (set_svc_DesiredInstanceCount next svc)).
  assert (autoscaled proj svc svc') as Ha by (by exists next, (sql_now w1), rpm, cpu, has).
  destruct (set_target_cases svc k next w1 Hk) as [[e Hu]|[(e & msg & Hu & Hlost)|Hu]]; rewrite (bind_ret _ _ _ _ _ Hu).
  - eexists ∅, _. split; [done|]. apply swept_same; [simpl; lia|done|done].
  - eexists {[ w_step w1 := k ]}, _. split; [done|]. eapply swept_one; [by rewrite <- Hd1|simpl; by rewrite Hd1|simpl; lia| |by exists []|done|done|].
    + intros n k' [<- <-]%lookup_singleton_Some. split; [simpl; lia|eauto].
    + intros _. right. exists (w_step w1). apply lookup_singleton_eq.
  - destruct (latest_running_keyed _ _ _ _ Hdep Hdv) as [id Hdid]. unfold scheduleDeploymentNow. rewrite Hdid.
    destruct reconciler eqn:Er; simpl.
    + eexists ∅, _. split; [reflexivity|]. eapply swept_one; [by rewrite <- Hd1|simpl; by rewrite Hd1|simpl; lia|by intros n k'| |done|done|].
      * simpl. rewrite Hl1. by eexists [_].
      * intros _. left. eexists dep, id, _. simpl. rewrite Hd1. split; [exact Hdv|]. split; [done|]. constructor.
    + eexists ∅, _. split; [reflexivity|]. eapply swept_one; [by rewrite <- Hd1|simpl; by rewrite Hd1|simpl; lia|by intros n k'|by exists []|done|done|].
      intros ?. congruence.
Qed.

(** ** Loops *)

Definition services_keyed (d : Db) : Prop := forall k r, db_services d !! k = Some r -> svc_ID r = Some k.
Definition projects_keyed (d : Db) : Prop := forall k r, db_projects d !! k = Some r -> proj_ID r = Some k.

Lemma autoscaled_ids proj svc svc' :
  autoscaled proj svc svc' -> svc_ID svc' = svc_ID svc /\ svc_ProjectID svc' = svc_ProjectID svc.
Proof. by intros (n & t & rpm & cpu & has & -> & _). Qed.

Lemma swept_keyed p lost w w' : swept p lost w w' -> services_keyed (w_db w) -> services_keyed (w_db w').
Proof.
  intros [_ _ _ _ Hk] H k r Hr. destruct (Hk k) as [E|(svc & svc' & proj & H1 & H2 & _ & Ha & _)].
  - apply H. congruence.
  - assert (svc' = r) as <- by congruence. destruct (autoscaled_ids _ _ _ Ha) as [-> _]. auto.
Qed.

Lemma swept_deployments p lost w w' : swept p lost w w' -> db_deployments (w_db w') = db_deployments (w_db w).
Proof. intros [_ _ -> _ _]. done. Qed.

Lemma services_swept proj l w :
  NoDup (svc_ID <$> l) -> deployments_keyed (w_db w) ->
  (forall svc, svc ∈ l -> exists k, svc_ID svc = Some k /\ db_services (w_db w) !! k = Some svc) ->
  exists lost w', for_each l (autoscale_service reconciler t0 window up proj) w = (Ret tt, w') /\
             swept (fun s p => s ∈ l /\ p = proj) lost w w'.
Proof.
  revert w. induction l as [|x l IH]; intros w Hnd Hdep Hl; simpl.
  { exists ∅, w. split; [done|]. by apply swept_same. }
  rewrite fmap_cons in Hnd. apply NoDup_cons in Hnd as [Hx Hnd].
  destruct (Hl x) as (k & Hid & Hk); [by left|].
  destruct (service_swept proj x k w Hk Hid Hdep) as (l1 & w1 & Hw1 & Hs1).
  rewrite (bind_ret _ _ _ _ _ Hw1).
  destruct (IH w1) as (l2 & w2 & Hw2 & Hs2); [done| | |].
  - intros j r. rewrite (swept_deployments _ _ _ _ Hs1). apply Hdep.
  - intros svc Hsvc. destruct (Hl svc) as (j & Hj & Hrow); [by right|]. exists j. split; [done|].
    destruct (sw_rows _ _ _ _ Hs1 j) as [->|(s & s' & p & H1 & _ & [-> _] & _)]; [done|].
    exfalso. apply Hx. apply list_elem_of_fmap. exists svc. rewrite Hrow in H1. injection H1 as ->. auto.
  - exists (l1 ∪ l2), w2. split; [done|]. eapply swept_trans; [exact Hs1|exact Hs2| |].
    + intros j svc svc' p p' _ [-> _] [Hi _]%autoscaled_ids _ [Hin _]. apply Hx. apply list_elem_of_fmap. eauto.
    + intros svc p [[-> ->]|[? ->]]; split; [by left|done|by right|done].
Qed.

(** The projects a sweep looks at. *)
Definition scalable (proj : Project) : bool := negb ((proj_MaxInstanceCount proj <=? 0) || proj_ScaledToZero proj).

Definition of_projects (l : list Project) (s : Service) (p : Project) : Prop :=
  p ∈ l /\ scalable p = true /\ col_eq (svc_ProjectID s) (proj_ID p) = true.

Lemma projects_swept l w :
  NoDup (proj_ID <$> l) -> deployments_keyed (w_db w) -> services_keyed (w_db w) ->
  exists lost w', for_each l (fun proj =>
          if (proj.(proj_MaxInstanceCount) <=? 0) || proj.(proj_ScaledToZero) then ret tt
          else
            let! s := attempt (query (ServiceListByProjectID proj.(proj_ID))) in
            match s with
            | inl _ => ret tt
            | inr services => for_each services (autoscale_service reconciler t0 window up proj)
            end) w = (Ret tt, w') /\ swept (of_projects l) lost w w'.
Proof.
  revert w. induction l as [|x l IH]; intros w Hnd Hdep Hkey; cbn [for_each].
  { exists ∅, w. split; [done|]. by apply swept_same. }
  rewrite fmap_cons in Hnd. apply NoDup_cons in Hnd as [Hx Hnd].
  match goal with |- context [bind ?m _ w] =>
    assert (exists l1 w1, m w = (Ret tt, w1) /\ swept (of_projects [x]) l1 w w1) as (l1 & w1 & Hw1 & Hs1) end.
  { fold (scalable x). destruct ((proj_MaxInstanceCount x <=? 0) || proj_ScaledToZero x) eqn:Esc.
    { exists ∅, w. split; [done|]. by apply swept_same. }
    destruct (attempt_query (ServiceListByProjectID (proj_ID x)) w) as (r & Hr & Hv). rewrite (bind_ret _ _ _ _ _ Hr).
    destruct r as [e|svcs]; [eexists ∅, _; split; [done|apply swept_same; [simpl; lia|done|done]]|]. specialize (Hv svcs eq_refl). injection Hv as <-.
    set (rs := rows _ _) in *.
    destruct (services_swept x (sort_by (fun a b => (svc_IsPrimary a && negb (svc_IsPrimary b)) ||
        (Bool.eqb (svc_IsPrimary a) (svc_IsPrimary b) && time_le (svc_CreatedAt a) (svc_CreatedAt b))) rs) (tick w)) as (l1 & w1 & Hw1 & Hs1).
    - rewrite sort_by_perm. by apply rows_nodup.
    - done.
    - intros svc. rewrite sort_by_elem. unfold rs. rewrite elem_of_rows. intros (_ & k & Hk). eauto.
    - exists (∅ ∪ l1), w1. split; [exact Hw1|]. eapply (swept_trans (fun _ _ => False)); [apply (swept_same _ w (tick w)); [simpl; lia|done|done]|exact Hs1|done|].
      intros s p [[]|[Hs ->]]. rewrite sort_by_elem in Hs. unfold rs in Hs. rewrite elem_of_rows in Hs. destruct Hs as [Hs _].
      split; [by left|]. split; [|done]. unfold scalable. by rewrite Esc. }
  rewrite (bind_ret _ _ _ _ _ Hw1).
  destruct (IH w1 Hnd) as (l2 & w2 & Hw2 & Hs2).
  { intros j r. rewrite (swept_deployments _ _ _ _ Hs1). apply Hdep. }
  { by eapply swept_keyed. }
  exists (l1 ∪ l2), w2. split; [done|]. eapply swept_trans; [exact Hs1|exact Hs2| |].
  - intros j svc svc' p p' _ (Hp%list_elem_of_singleton & _ & Hc) [_ Hi]%autoscaled_ids _ (Hin & _ & Hc'). subst p.
    apply Hx. apply list_elem_of_fmap. exists p'. split; [|done]. rewrite Hi in Hc'.
    destruct (svc_ProjectID svc), (proj_ID x), (proj_ID p'); simpl in Hc, Hc'; try done.
    apply bool_decide_eq_true in Hc, Hc'. congruence.
  - intros s p [(Hp%list_elem_of_singleton & ? & ?)|(Hin & ? & ?)]; split; [subst; by left|done|by right|done].
Qed.

End sweep.

(** C39: For a project that allows at least one replica and respects the
    constraint that the minimum is not above the maximum, whatever the metrics
    and the conversions of floating point answer: the autoscaler's current
    target is what the deployer runs, and its next target is what the deployer
    will run; it lies between the project's bounds, is at least one, goes up
    only to what the metrics ask for, and goes down by one replica at a time
    and only when the load fits the smaller number. *)
Theorem autoscale_target (arch : Arch) (proj : Project) (svc : Service) (dep : Deployment) (rpm cpu : float64) (has : bool) :
  1 <= proj_MaxInstanceCount proj -> proj_MinInstanceCount proj <= proj_MaxInstanceCount proj ->
  dep_DeploymentKind dep = "production" -> proj_ScaledToZero proj = false ->
  let current := clampCurrentTarget proj (Some svc) in
  let next := ComputeDesiredInstanceCount proj (Some svc) rpm cpu has in
  effectiveReplicaCount proj (Some svc) dep = current /\
  effectiveReplicaCount proj (Some (set_svc_DesiredInstanceCount next svc)) dep = next /\
  Z.max 1 (proj_MinInstanceCount proj) <= next <= proj_MaxInstanceCount proj /\
  (current < next -> next = targetFromMetrics proj rpm cpu has) /\
  (next < current -> next = current - 1 /\ shouldStepDown current rpm cpu has = true) /\
  (targetFromMetrics proj rpm cpu has <= next \/ next = current - 1).
Proof.
  intros Hmax Hmin Hkind Hz. cbv zeta.
  destruct (compute_bounds proj Hmax Hmin (Some svc) rpm cpu has) as (H1 & H2 & H3 & H4).
  set (next := ComputeDesiredInstanceCount _ _ _ _ _) in *.
  assert (forall s, effectiveReplicaCount proj s dep = clampDesiredReplicaCount proj (serviceDesiredReplicaCount proj s)) as He.
  { intros s. unfold effectiveReplicaCount. rewrite Hkind, Hz. simpl. by case_bool_decide. }
  rewrite !He, clamp_agrees. split; [done|]. split; [|by rewrite clamp_agrees in *].
  rewrite clamp_spec by done. unfold serviceDesiredReplicaCount. simpl.
  destruct (Z.ltb_spec 0 next); lia.
Qed.

(** A project of one to five replicas. *)
Definition autoscale_project : Project :=
  mkProject (Some 1%N) (Some 2%N) "shop" "" 0 "" "" "" 1 1 5 None false false false (Some 1) (Some 1).
Definition autoscale_svc : Service :=
  mkService (Some 20%N) (Some 1%N) "web" "web" "" "" 2 false true true (Some 1) (Some 1).
Definition autoscale_dep : Deployment :=
  mkDeployment (Some 10%N) (Some 1%N) (Some 20%N) None None None None "abc" "main" "production"
    None None false false (Some 5) None None None None (Some 1) (Some 1).

Lemma autoscale_target_witness :
  let next := ComputeDesiredInstanceCount (arch := amd64) autoscale_project (Some autoscale_svc) (f64_of_int 200) (f64_of_int 0) false in
  next = 4 /\ effectiveReplicaCount autoscale_project (Some (set_svc_DesiredInstanceCount next autoscale_svc)) autoscale_dep = next.
Proof.
  pose proof (autoscale_target amd64 autoscale_project autoscale_svc autoscale_dep (f64_of_int 200) (f64_of_int 0) false
    ltac:(vm_compute; discriminate) ltac:(vm_compute; discriminate) eq_refl eq_refl) as (_ & H & _).
  split; [vm_compute; reflexivity|exact H].
Defined.

(** C38: In every environment a sweep ends without an error and changes nothing
    but the targets of services.  A service whose target changed belongs to a
    project that may run and is not scaled to zero; its new target lies between
    the project's bounds; the fast sweep only raises it, the slow one lowers it
    by one at most and never within five minutes of a request; and, when there
    is a reconciler, the deployment that runs the service was handed to it,
    except for one service at most for each answer of the database that was lost
    during the sweep. *)
Theorem autoscale_sweep_effect (env : Env) (S : Sorter) (metering : Metering) (arch : Arch) (reconciler : bool)
    (t : Time) (window : Z) (up : bool) (w : World) :
  services_keyed (w_db w) -> projects_keyed (w_db w) -> deployments_keyed (w_db w) ->
  (forall k p, db_projects (w_db w) !! k = Some p -> proj_MinInstanceCount p <= proj_MaxInstanceCount p) ->
  exists lost w', runAutoscaleSweepWithWindow true reconciler t window up w = (Ret tt, w') /\ lost_answers lost w w' /\
    w_db w' = set_services (db_services (w_db w')) (w_db w) /\
    forall k, db_services (w_db w') !! k = db_services (w_db w) !! k \/
      exists svc pk proj next u,
        db_services (w_db w) !! k = Some svc /\
        db_services (w_db w') !! k = Some (set_svc_UpdatedAt (Some u) (set_svc_DesiredInstanceCount next svc)) /\
        svc_ProjectID svc = Some pk /\ db_projects (w_db w) !! pk = Some proj /\ scalable proj = true /\
        Z.max 1 (proj_MinInstanceCount proj) <= next <= proj_MaxInstanceCount proj /\
        (let current := clampCurrentTarget proj (Some svc) in
         if up then current < next
         else next <> current /\ (next < current -> next = current - 1 /\ shouldHoldScaleDown proj t = false)) /\
        (reconciler = true -> woken k w' \/ exists n, lost !! n = Some k).
Proof.
  intros Hs Hp Hd Hmin. unfold runAutoscaleSweepWithWindow. simpl.
  destruct (attempt_query ProjectFindAll w) as (r & Hr & Hv). rewrite (bind_ret _ _ _ _ _ Hr).
  destruct r as [e|projects].
  { eexists ∅, _. split; [done|]. split; [by intros n k|]. simpl. split; [by rewrite set_services_same|by left]. }
  specialize (Hv projects eq_refl). injection Hv as <-. set (l := sort_by _ _).
  destruct (projects_swept reconciler t window up l (tick w)) as (lost & w' & Hw' & Hsw); [|done|done|].
  { unfold l. rewrite sort_by_perm. by apply rows_nodup. }
  exists lost, w'. split; [exact Hw'|]. destruct Hsw as [_ Ho Hdb _ Hrows].
  split; [intros n k Hn; apply Ho in Hn as [? ?]; split; [simpl in *; lia|done]|]. split; [exact Hdb|]. intros k.
  destruct (Hrows k) as [?|(svc & svc' & proj & H1 & H2 & (Hin & Hsc & Hc) & (next & u & rpm & cpu & has & -> & Hn) & Hwk)]; [by left|right].
  unfold l in Hin. rewrite sort_by_elem, elem_of_rows in Hin. destruct Hin as (_ & pk & Hpk). simpl in Hpk.
  exists svc, pk, proj, next, u. repeat (split; [done|]). split.
  { rewrite (Hp pk proj Hpk) in Hc. destruct (svc_ProjectID svc); simpl in Hc; [|done]. apply bool_decide_eq_true in Hc. by subst. }
  split; [done|]. split; [done|].
  assert (1 <= proj_MaxInstanceCount proj) as Hmax.
  { unfold scalable in Hsc. apply negb_true_iff, orb_false_iff in Hsc as [Hsc _]. apply Z.leb_gt in Hsc. lia. }
  destruct (compute_bounds proj Hmax (Hmin pk proj Hpk) (Some svc) rpm cpu has) as (B1 & B2 & _ & _).
  unfold next_target in Hn. destruct (shouldSkipAutoscale _ _ _); [done|]. cbv zeta in *.
  set (nx := ComputeDesiredInstanceCount _ _ _ _ _) in *. set (cur := clampCurrentTarget _ _) in *.
  destruct up; simpl in Hn.
  - destruct (Z.leb_spec nx cur); [done|]. destruct (nx =? cur); [done|]. injection Hn as <-. split; [exact B1|]. split; [lia|done].
  - destruct ((nx <? cur) && shouldHoldScaleDown proj t) eqn:Eh; [done|]. destruct (Z.eqb_spec nx cur); [done|]. injection Hn as <-.
    split; [done|]. split; [|done]. split; [done|]. intros Hlt. split; [apply (B2 Hlt)|].
    destruct (Z.ltb_spec nx cur); [|lia]. by destruct (shouldHoldScaleDown proj t).
Qed.

(** One hundred requests in the last minute at minute 100. *)
Definition busy_now : Time := 100 * Minute + 30 * Second.
#[local] Instance busy_metering : Metering :=
  {| rollups_at _ := [mkRollup (Some 90%N) (Some 30%N) (Some 1%N) (Some 10%N) (Some (99 * Minute)) 100 100 0 0 0 0 None;
                      mkRollup (Some 91%N) (Some 30%N) (Some 1%N) (Some 10%N) (Some (100 * Minute)) 60 60 0 0 0 0 None];
     samples_at _ := [] |}.

Lemma autoscale_sweep_effect_witness :
  exists w', runAutoscaleFastSweep true true busy_now sample_world = (Ret tt, w') /\
    (exists svc, db_services (w_db w') !! 20%N = Some svc /\ svc_DesiredInstanceCount svc = 2) /\
    db_services (w_db w') !! 21%N = db_services sample_db !! 21%N /\
    w_db w' = set_services (db_services (w_db w')) sample_db.
Proof.
  destruct (autoscale_sweep_effect sample_env insertion_sorter busy_metering amd64 true busy_now 1 true sample_world) as (lost & w' & Hw' & _ & Hdb & _);
    try (apply map_Forall_to_list; vm_compute; repeat constructor; discriminate).
  exists w'. split; [exact Hw'|]. split; [|split; [|exact Hdb]].
  - apply (f_equal snd) in Hw'. simpl in Hw'. rewrite <- Hw'. vm_compute. eexists. split; reflexivity.
  - apply (f_equal snd) in Hw'. simpl in Hw'. rewrite <- Hw'. vm_compute. reflexivity.
Defined.
