(* ===== verification/VolumeQueries.v ===== *)
(** * SQL statements of the volume operations

    The statements of internal/database/queries/queries.sql.go on
    project_volume_operations and project_volume_backups, those on
    project_volumes that only the API and the operations issue, and the lookups
    of projects and services by organization. *)

From S2P Require Import Prelude NetAddr Models Runtime Queries.

(** ** Constraints *)

Definition operation_active (r : ProjectVolumeOperation) : bool := in_list ["pending"; "running"] r.(vo_Status).

(** schema.sql, project_volume_operations. *)
Definition operation_ok (d : Db) (k : UUID) (r : ProjectVolumeOperation) : bool :=
  fk_required d.(db_volumes) r.(vo_ProjectVolumeID) && fk d.(db_servers) r.(vo_ServerID) &&
  in_list ["backup"; "restore"; "move"; "repair"] r.(vo_Kind) &&
  in_list ["pending"; "running"; "succeeded"; "failed"] r.(vo_Status).

(** schema.sql, project_volume_backups. *)
Definition backup_ok (d : Db) (k : UUID) (r : ProjectVolumeBackup) : bool :=
  fk_required d.(db_volumes) r.(vb_ProjectVolumeID) &&
  in_list ["manual"; "scheduled"; "pre_delete"] r.(vb_Kind) &&
  in_list ["pending"; "running"; "succeeded"; "failed"] r.(vb_Status) && (0 <=? r.(vb_SizeBytes)).

Definition t_operations := mkTable db_volume_operations set_volume_operations operation_ok "project_volume_operations".
Definition t_backups := mkTable db_volume_backups set_volume_backups backup_ok "project_volume_backups".

(** project_volumes.project_id is UNIQUE, and so is service_id among the rows
    that are not deleted: checked where a row is inserted or revived. *)
Definition volume_unique (d : Db) (k : UUID) (r : ProjectVolume) : bool :=
  forallb (fun o => negb (col_eq o.(vol_ProjectID) r.(vol_ProjectID)) &&
                    negb (is_null o.(vol_DeletedAt) && is_null r.(vol_DeletedAt) && col_eq o.(vol_ServiceID) r.(vol_ServiceID)))
    (snd <$> map_to_list (delete k d.(db_volumes))).

Definition t_new_volumes :=
  mkTable db_volumes set_volumes (fun d k r => volume_ok d k r && volume_unique d k r) "project_volumes".

Section statements.
Context {S : Sorter}.

(** ** project_volumes *)

Definition ProjectVolumeFindByID (id : pgUUID) : reads ProjectVolume := fun _ d =>
  first_row (List.filter (fun r => is_null r.(vol_DeletedAt)) (option_list (row_at d.(db_volumes) id))).

Definition ProjectVolumeFindAnyByProjectID (project : pgUUID) : reads ProjectVolume := fun _ d =>
  first_row (rows (fun r => col_eq r.(vol_ProjectID) project) d.(db_volumes)).

Definition ProjectVolumeUpdateStatusAndHealth (project : pgUUID) (status health lastError : string)
    : writes ProjectVolume := fun now d =>
  update_volume project
    (fun r => set_vol_UpdatedAt (Some now) (set_vol_LastError lastError (set_vol_Health health (set_vol_Status status r)))) d.

(** The parameters ProjectVolumeUpdateSpec and ProjectVolumeRevive share. *)
Record VolumeSpec := mkVolumeSpec {
  vs_SizeGb : Z;
  vs_Filesystem : string;
  vs_BackupSchedule : string;
  vs_BackupRetentionCount : Z;
  vs_PreDeleteBackupEnabled : bool
}.

Definition set_vol_spec (p : VolumeSpec) (r : ProjectVolume) : ProjectVolume :=
  set_vol_PreDeleteBackupEnabled p.(vs_PreDeleteBackupEnabled)
    (set_vol_BackupRetentionCount p.(vs_BackupRetentionCount)
      (set_vol_BackupSchedule p.(vs_BackupSchedule)
        (set_vol_Filesystem p.(vs_Filesystem) (set_vol_SizeGb p.(vs_SizeGb) r)))).

Definition ProjectVolumeUpdateSpec (project : pgUUID) (p : VolumeSpec) : writes ProjectVolume := fun now d =>
  update_volume project (fun r => set_vol_UpdatedAt (Some now) (set_vol_spec p r)) d.

(** A row without a server and a VM, detached, of unknown health. *)
Definition reset_volume (r : ProjectVolume) : ProjectVolume :=
  set_vol_LastError "" (set_vol_Health "unknown" (set_vol_Status "detached"
    (set_vol_AttachedVmID None (set_vol_ServerID None r)))).

Definition ProjectVolumeRevive (project : pgUUID) (p : VolumeSpec) : writes ProjectVolume := fun now d =>
  returning (update_row t_new_volumes
    (key_where (fun r => col_eq r.(vol_ProjectID) project) d.(db_volumes)) always
    (fun r => set_vol_UpdatedAt (Some now) (set_vol_DeletedAt None (reset_volume (set_vol_spec p r)))) d).

Definition ProjectVolumeSoftDelete (project : pgUUID) : writes unit := fun now d =>
  executing (update_row t_volumes (key_where (volume_of_project project) d.(db_volumes)) always
    (fun r => set_vol_UpdatedAt (Some now) (set_vol_DeletedAt (Some now) (reset_volume r))) d).

Definition ProjectVolumeCreate (id project service : pgUUID) (mountPath : string) (p : VolumeSpec)
    : writes ProjectVolume := fun now d =>
  insert_row t_new_volumes id
    (mkProjectVolume id project service None None mountPath p.(vs_SizeGb) p.(vs_Filesystem) "detached" "unknown"
       p.(vs_BackupSchedule) p.(vs_BackupRetentionCount) p.(vs_PreDeleteBackupEnabled) "" None (Some now) (Some now)) d.

(** ** project_volume_operations *)

Definition ProjectVolumeOperationCreate (id volume server : pgUUID) (kind : string) (request : json)
    : writes ProjectVolumeOperation := fun now d =>
  insert_row t_operations id
    (mkProjectVolumeOperation id volume server kind "pending" request (JObject []) "" None None None
       (Some now) (Some now)) d.

Definition ProjectVolumeOperationFindByID (id : pgUUID) : reads ProjectVolumeOperation := fun _ d =>
  first_row (option_list (row_at (db_volume_operations d) id)).

Definition ProjectVolumeOperationFindCurrentByVolumeID (volume : pgUUID) : reads ProjectVolumeOperation := fun _ d =>
  first_row (sort_by (fun a b => time_le b.(vo_CreatedAt) a.(vo_CreatedAt))
    (rows (fun r => col_eq r.(vo_ProjectVolumeID) volume && operation_active r) (db_volume_operations d))).

(** [created_at < NOW() - $1 seconds]. *)
Definition older_than (col : option Time) (now : Time) (seconds : Z) : bool :=
  match col with Some t => t <? now - seconds * Second | None => false end.

Definition ProjectVolumeOperationFindStalePending (seconds : Z) : reads (list ProjectVolumeOperation) := fun now d =>
  inr (sort_by (fun a b => time_le a.(vo_CreatedAt) b.(vo_CreatedAt))
    (rows (fun r => String.eqb r.(vo_Status) "pending" && older_than r.(vo_CreatedAt) now seconds) (db_volume_operations d))).

Definition ProjectVolumeOperationFindStaleRunning (seconds : Z) : reads (list ProjectVolumeOperation) := fun now d =>
  inr (sort_by (fun a b => time_le a.(vo_StartedAt) b.(vo_StartedAt))
    (rows (fun r => String.eqb r.(vo_Status) "running" && older_than r.(vo_StartedAt) now seconds) (db_volume_operations d))).

Definition ProjectVolumeOperationUpdateRunning (id : pgUUID) : writes ProjectVolumeOperation := fun now d =>
  returning (update_row t_operations id always
    (fun r => mkProjectVolumeOperation r.(vo_ID) r.(vo_ProjectVolumeID) r.(vo_ServerID) r.(vo_Kind) "running"
       r.(vo_RequestMetadata) r.(vo_ResultMetadata) "" (Some now) r.(vo_CompletedAt) r.(vo_FailedAt)
       r.(vo_CreatedAt) (Some now)) d).

(** [CASE WHEN $2 = s THEN NOW() ELSE col END]. *)
Definition stamp (status s : string) (now : Time) (col : option Time) : option Time :=
  if String.eqb status s then Some now else col.

(** [CASE WHEN $2 = 'running' AND started_at IS NULL THEN NOW() ELSE started_at END]. *)
Definition stamp_start (status : string) (now : Time) (col : option Time) : option Time :=
  if String.eqb status "running" && is_null col then Some now else col.

Definition ProjectVolumeOperationUpdateState (id server : pgUUID) (status : string) (request result : json)
    (error : string) : writes ProjectVolumeOperation := fun now d =>
  returning (update_row t_operations id always
    (fun r => mkProjectVolumeOperation r.(vo_ID) r.(vo_ProjectVolumeID) server r.(vo_Kind) status request result error
       (stamp_start status now r.(vo_StartedAt)) (stamp status "succeeded" now r.(vo_CompletedAt))
       (stamp status "failed" now r.(vo_FailedAt)) r.(vo_CreatedAt) (Some now)) d).

(** ** project_volume_backups *)

Definition ProjectVolumeBackupCreate (id volume : pgUUID) (kind : string) (metadata : json)
    : writes ProjectVolumeBackup := fun now d =>
  insert_row t_backups id
    (mkProjectVolumeBackup id volume kind "" "" 0 "pending" "" metadata None None None (Some now) (Some now)) d.

Definition ProjectVolumeBackupFindByID (id : pgUUID) : reads ProjectVolumeBackup := fun _ d =>
  first_row (option_list (row_at (db_volume_backups d) id)).

(** [JOIN project_volumes v ... WHERE v.project_id = $1 AND v.deleted_at IS NULL]. *)
Definition backup_of_project (d : Db) (project : pgUUID) (r : ProjectVolumeBackup) : bool :=
  match row_at d.(db_volumes) r.(vb_ProjectVolumeID) with
  | Some v => volume_of_project project v
  | None => false
  end.

Definition ProjectVolumeBackupFindByProjectID (project : pgUUID) : reads (list ProjectVolumeBackup) := fun _ d =>
  inr (sort_by (fun a b => time_le b.(vb_CreatedAt) a.(vb_CreatedAt))
    (rows (backup_of_project d project) (db_volume_backups d))).

(** ORDER BY completed_at DESC, created_at DESC. *)
Definition completed_le (a b : ProjectVolumeBackup) : bool :=
  if bool_decide (a.(vb_CompletedAt) = b.(vb_CompletedAt)) then time_le b.(vb_CreatedAt) a.(vb_CreatedAt)
  else time_le b.(vb_CompletedAt) a.(vb_CompletedAt).

Definition ProjectVolumeBackupFindLastSuccessfulByProjectID (project : pgUUID) : reads ProjectVolumeBackup := fun _ d =>
  first_row (sort_by completed_le
    (rows (fun r => backup_of_project d project r && String.eqb r.(vb_Status) "succeeded") (db_volume_backups d))).

Definition ProjectVolumeBackupUpdateState (id : pgUUID) (status url key : string) (size : Z) (error : string)
    (metadata : json) : writes ProjectVolumeBackup := fun now d =>
  returning (update_row t_backups id always
    (fun r => mkProjectVolumeBackup r.(vb_ID) r.(vb_ProjectVolumeID) r.(vb_Kind) url key size status error metadata
       (stamp_start status now r.(vb_StartedAt)) (stamp status "succeeded" now r.(vb_CompletedAt))
       (stamp status "failed" now r.(vb_FailedAt)) r.(vb_CreatedAt) (Some now)) d).

Definition ProjectVolumeBackupDeleteByID (id : pgUUID) : writes unit := fun _ d =>
  inr (tt, match id with Some k => set_volume_backups (delete k (db_volume_backups d)) d | None => d end).

(** ** projects and services of an organization *)

Definition ProjectFirstByIDAndOrg (id org : pgUUID) : reads Project := fun _ d =>
  first_row (List.filter (fun r => col_eq r.(proj_OrgID) org) (option_list (row_at d.(db_projects) id))).

Definition ServiceFirstByIDAndOrg (id org : pgUUID) : reads Service := fun _ d =>
  first_row (List.filter
    (fun s => match row_at d.(db_projects) s.(svc_ProjectID) with
              | Some p => col_eq p.(proj_OrgID) org
              | None => false
              end) (option_list (row_at d.(db_services) id))).

Definition ServicePrimaryByProjectID (project : pgUUID) : reads Service := fun _ d =>
  first_row (rows (fun r => col_eq r.(svc_ProjectID) project && r.(svc_IsPrimary)) d.(db_services)).

End statements.
