(* ===== verification/Codecs.v ===== *)
(** * Base64, hashes, hexadecimal digits and UUID texts

    Go's [base64.StdEncoding]: the standard alphabet with padding.  Decoding
    skips carriage returns and line feeds, wants complete groups and accepts
    padding at the end only.  Then crypto/sha256, crypto/hmac and encoding/hex,
    and the texts of UUIDs. *)

From S2P Require Import Prelude NetAddr Text.



Definition alphabet64 : list N :=
  bytes_of "ABCDEFGHIJKLMNOPQRSTUVWXYZabcdefghijklmnopqrstuvwxyz0123456789+/".

Definition enc64 (n : N) : N := default 0%N (alphabet64 !! N.to_nat n).

Fixpoint index_of (b : N) (l : list N) (i : N) : option N :=
  match l with
  | [] => None
  | x :: l' => if (x =? b)%N then Some i else index_of b l' (i + 1)%N
  end.

Definition dec64 (b : N) : option N := index_of b alphabet64 0.

Definition pad64 : N := 61.

(** The four characters of three bytes. *)
Definition quantum (a b c : N) : list N :=
  let v := (a * 65536 + b * 256 + c)%N in
  [enc64 (v / 262144); enc64 (v / 4096 mod 64); enc64 (v / 64 mod 64); enc64 (v mod 64)]%N.

Fixpoint encode64 (l : list N) : list N :=
  match l with
  | a :: b :: c :: l' => quantum a b c ++ encode64 l'
  | [a; b] => take 3 (quantum a b 0) ++ [pad64]
  | [a] => take 2 (quantum a 0 0) ++ [pad64; pad64]
  | [] => []
  end.

(** The bytes of up to four decoded characters; the bits left over are dropped. *)
Definition group64 (w x y z : N) : list N :=
  let v := (w * 262144 + x * 4096 + y * 64 + z)%N in [v / 65536; v / 256 mod 256; v mod 256]%N.

Fixpoint decode_groups (l : list N) : option (list N) :=
  match l with
  | [] => Some []
  | c1 :: c2 :: c3 :: c4 :: l' =>
      match dec64 c1, dec64 c2, dec64 c3, dec64 c4 with
      | Some w, Some x, Some y, Some z => (group64 w x y z ++.) <$> decode_groups l'
      | Some w, Some x, Some y, None =>
          if (c4 =? pad64)%N && bool_decide (l' = []) then Some (take 2 (group64 w x y 0)) else None
      | Some w, Some x, None, None =>
          if (c3 =? pad64)%N && (c4 =? pad64)%N && bool_decide (l' = []) then Some (take 1 (group64 w x 0 0)) else None
      | _, _, _, _ => None
      end
  | _ => None
  end.

Definition line_break (b : N) : bool := (b =? 10)%N || (b =? 13)%N.

Definition decode64 (l : list N) : option (list N) :=
  decode_groups (List.filter (fun b => negb (line_break b)) l).

Definition EncodeToString (l : list N) : string := of_bytes (encode64 l).
Definition DecodeString (s : string) : option (list N) := decode64 (bytes_of s).

(** ** Encoding and decoding are inverse *)

Definition is_byte (b : N) : Prop := (b < 256)%N.

Definition below64 : list N := N.of_nat <$> seq 0 64.

Lemma below64_elem n : (n < 64)%N -> n ∈ below64.
Proof.
  intros H. apply list_elem_of_fmap. exists (N.to_nat n). rewrite N2Nat.id. split; [done|].
  apply elem_of_seq. lia.
Qed.

Lemma enc64_checked :
  Forall (fun n => dec64 (enc64 n) = Some n /\ line_break (enc64 n) = false /\ (enc64 n < 256)%N) below64.
Proof. vm_compute. repeat constructor. Qed.

Lemma enc64_spec n : (n < 64)%N -> dec64 (enc64 n) = Some n /\ line_break (enc64 n) = false /\ (enc64 n < 256)%N.
Proof. intros H. pose proof enc64_checked as Hc. rewrite Forall_forall in Hc. by apply Hc, below64_elem. Qed.

Lemma dec_enc n : (n < 64)%N -> dec64 (enc64 n) = Some n.
Proof. intros H. apply (proj1 (enc64_spec n H)). Qed.

Lemma quantum_parts a b c :
  is_byte a -> is_byte b -> is_byte c ->
  let v := (a * 65536 + b * 256 + c)%N in
  (v / 262144 < 64 /\ v / 4096 mod 64 < 64 /\ v / 64 mod 64 < 64 /\ v mod 64 < 64)%N /\
  group64 (v / 262144) (v / 4096 mod 64) (v / 64 mod 64) (v mod 64) = [a; b; c].
Proof.
  intros Ha Hb Hc v. unfold is_byte in *. unfold group64.
  assert (v / 262144 * 262144 + v / 4096 mod 64 * 4096 + v / 64 mod 64 * 64 + v mod 64 = v)%N as ->
    by (subst v; zify; Z.to_euclidean_division_equations; lia).
  assert (v / 65536 = a /\ v / 256 mod 256 = b /\ v mod 256 = c)%N as (-> & -> & ->)
    by (subst v; repeat split; zify; Z.to_euclidean_division_equations; lia).
  split; [|done]. subst v. repeat split; zify; Z.to_euclidean_division_equations; lia.
Qed.

#[local] Arguments pad64 : simpl never.
#[local] Arguments dec64 : simpl never.
#[local] Arguments enc64 : simpl never.
#[local] Arguments group64 : simpl never.
#[local] Arguments N.div : simpl never.
#[local] Arguments N.modulo : simpl never.
#[local] Arguments N.mul : simpl never.
#[local] Arguments N.add : simpl never.

Lemma encode64_bytes l : Forall is_byte l -> Forall (fun b => line_break b = false /\ is_byte b) (encode64 l).
Proof.
  revert l. fix IH 1. intros [|a [|b [|c l]]] H; simpl.
  - constructor.
  - apply Forall_cons in H as [Ha _]. destruct (quantum_parts a 0 0) as [(H1 & H2 & _) _]; [done..|].
    repeat constructor; try apply enc64_spec; done.
  - apply Forall_cons in H as [Ha [Hb _]%Forall_cons]. destruct (quantum_parts a b 0) as [(H1 & H2 & H3 & _) _]; [done..|].
    repeat constructor; try apply enc64_spec; done.
  - apply Forall_cons in H as [Ha [Hb [Hc Hl]%Forall_cons]%Forall_cons].
    destruct (quantum_parts a b c) as [(H1 & H2 & H3 & H4) _]; [done..|].
    repeat (constructor; [split; apply enc64_spec; done|]). apply IH, Hl.
Qed.

Lemma decode_encode_groups l : Forall is_byte l -> decode_groups (encode64 l) = Some l.
Proof.
  revert l. fix IH 1. intros [|a [|b [|c l]]] H; [done|..].
  - apply Forall_cons in H as [Ha _]. destruct (quantum_parts a 0 0) as [(H1 & H2 & _) Hg]; [done..|]. simpl.
    rewrite !dec_enc by done. simpl.
    assert (((a * 65536 + 0 * 256 + 0) / 64 mod 64 = 0 /\ (a * 65536 + 0 * 256 + 0) mod 64 = 0)%N) as [E1 E2]
      by (split; zify; Z.to_euclidean_division_equations; lia).
    rewrite E1, E2 in Hg. unfold group64 in Hg. injection Hg as Hg _ _. by rewrite Hg.
  - apply Forall_cons in H as [Ha [Hb _]%Forall_cons]. destruct (quantum_parts a b 0) as [(H1 & H2 & H3 & _) Hg]; [done..|].
    simpl. rewrite !dec_enc by done.
    simpl.
    assert (((a * 65536 + b * 256 + 0) mod 64 = 0)%N) as E by (zify; Z.to_euclidean_division_equations; lia).
    rewrite E in Hg. unfold group64 in Hg. injection Hg as Hg1 Hg2 _. by rewrite Hg1, Hg2.
  - apply Forall_cons in H as [Ha [Hb [Hc Hl]%Forall_cons]%Forall_cons].
    destruct (quantum_parts a b c) as [(H1 & H2 & H3 & H4) Hg]; [done..|].
    simpl. rewrite !dec_enc by done.
    rewrite (IH l Hl). simpl. unfold group64 in Hg. injection Hg as Hg1 Hg2 Hg3. by rewrite Hg1, Hg2, Hg3.
Qed.

Lemma filter_all {A} (p : A -> bool) l : Forall (fun x => p x = true) l -> List.filter p l = l.
Proof. induction 1 as [|x l Hx _ IH]; simpl; [done|]. by rewrite Hx, IH. Qed.

Lemma bytes_of_of_bytes l : Forall is_byte l -> bytes_of (of_bytes l) = l.
Proof.
  intros H. unfold bytes_of, of_bytes, str_bytes, str_of_bytes.
  rewrite String.list_ascii_of_string_of_list_ascii, <- list_fmap_compose.
  rewrite <- (list_fmap_id l) at 2. apply list_fmap_ext. intros i b Hb. simpl.
  apply Ascii.N_ascii_embedding. rewrite Forall_forall in H. apply H. by eapply list_elem_of_lookup_2.
Qed.

Lemma of_bytes_bytes_of s : of_bytes (bytes_of s) = s.
Proof.
  unfold bytes_of, of_bytes, str_bytes, str_of_bytes. rewrite <- list_fmap_compose.
  rewrite (list_fmap_ext _ id) by (intros; apply Ascii.ascii_N_embedding).
  rewrite list_fmap_id. apply String.string_of_list_ascii_of_string.
Qed.

Lemma bytes_of_bytes s : Forall is_byte (bytes_of s).
Proof.
  unfold bytes_of. apply Forall_fmap, Forall_forall. intros c _. simpl. apply Ascii.N_ascii_bounded.
Qed.

Lemma decode_encode l : Forall is_byte l -> DecodeString (EncodeToString l) = Some l.
Proof.
  intros H. unfold DecodeString, EncodeToString. pose proof (encode64_bytes l H) as Hb.
  rewrite bytes_of_of_bytes by (eapply Forall_impl; [exact Hb|naive_solver]).
  unfold decode64. rewrite filter_all; [by apply decode_encode_groups|].
  eapply Forall_impl; [exact Hb|]. intros b [-> _]. done.
Qed.

Example encode_samples :
  EncodeToString (bytes_of "Man") = "TWFu" /\ EncodeToString (bytes_of "Ma") = "TWE=" /\
  EncodeToString (bytes_of "M") = "TQ==" /\ DecodeString "TWE=" = Some (bytes_of "Ma") /\ DecodeString "TWE" = None.
Proof. vm_compute. repeat split. Qed.

(** * SHA-256, HMAC and hexadecimal digits

    What the code uses of crypto/sha256, crypto/hmac and encoding/hex, on lists
    of bytes. *)

(** ** SHA-256 (FIPS 180-4) *)

Definition two32 : N := 4294967296.

Definition add32 (x y : N) : N := ((x + y) mod two32)%N.
Definition not32 (x : N) : N := (two32 - 1 - x)%N.
Definition rotr (n x : N) : N := N.lor (N.shiftr x n) (N.shiftl x (32 - n) mod two32).

(** The constants: the first 32 bits of the fractional parts of the roots of the
    first primes. *)
Fixpoint cube_root (bits : nat) (n r : N) : N :=
  match bits with
  | O => r
  | S i => let r' := (r + 2 ^ N.of_nat i)%N in cube_root i n (if (r' ^ 3 <=? n)%N then r' else r)
  end.

Definition divides_none (n : nat) : bool := forallb (fun k => negb (n mod k =? 0)%nat) (seq 2 (n - 2)).
Definition primes : list N := N.of_nat <$> List.filter divides_none (seq 2 310).

Definition sha_K : list N := Eval vm_compute in (fun p => (cube_root 40 (p * 2 ^ 96) 0 mod two32)%N) <$> primes.
Definition sha_H : list N := Eval vm_compute in (fun p => (N.sqrt (p * 2 ^ 64) mod two32)%N) <$> take 8 primes.

Record sha_state := mkSha { sh_a : N; sh_b : N; sh_c : N; sh_d : N; sh_e : N; sh_f : N; sh_g : N; sh_h : N }.

Definition sha_init : sha_state :=
  Eval vm_compute in
    match sha_H with [a; b; c; d; e; f; g; h] => mkSha a b c d e f g h | _ => mkSha 0 0 0 0 0 0 0 0 end.

Definition big_sigma0 (x : N) : N := N.lxor (N.lxor (rotr 2 x) (rotr 13 x)) (rotr 22 x).
Definition big_sigma1 (x : N) : N := N.lxor (N.lxor (rotr 6 x) (rotr 11 x)) (rotr 25 x).
Definition sigma0 (x : N) : N := N.lxor (N.lxor (rotr 7 x) (rotr 18 x)) (N.shiftr x 3).
Definition sigma1 (x : N) : N := N.lxor (N.lxor (rotr 17 x) (rotr 19 x)) (N.shiftr x 10).
Definition sha_ch (x y z : N) : N := N.lxor (N.land x y) (N.land (not32 x) z).
Definition sha_maj (x y z : N) : N := N.lxor (N.lxor (N.land x y) (N.land x z)) (N.land y z).

Definition sha_round (s : sha_state) (kw : N) : sha_state :=
  let t1 := add32 (add32 (add32 s.(sh_h) (big_sigma1 s.(sh_e))) (sha_ch s.(sh_e) s.(sh_f) s.(sh_g))) kw in
  let t2 := add32 (big_sigma0 s.(sh_a)) (sha_maj s.(sh_a) s.(sh_b) s.(sh_c)) in
  mkSha (add32 t1 t2) s.(sh_a) s.(sh_b) s.(sh_c) (add32 s.(sh_d) t1) s.(sh_e) s.(sh_f) s.(sh_g).

Definition be_word (l : list N) : N := foldl (fun acc b => (acc * 256 + b)%N) 0%N l.
Definition be_bytes (len : nat) (x : N) : list N :=
  (fun i => (N.shiftr x (8 * N.of_nat (len - 1 - i)) mod 256)%N) <$> seq 0 len.

(** The message schedule: [window] holds the last sixteen words. *)
Fixpoint sha_rounds (ks window : list N) (s : sha_state) : sha_state :=
  match ks, window with
  | k :: ks', w0 :: rest =>
      let next := add32 (add32 (sigma1 (default 0%N (window !! 14%nat))) (default 0%N (window !! 9%nat)))
                        (add32 (sigma0 (default 0%N (window !! 1%nat))) w0) in
      sha_rounds ks' (rest ++ [next]) (sha_round s (add32 k w0))
  | _, _ => s
  end.

(** [n] pieces of [size] elements. *)
Fixpoint pieces (n size : nat) (l : list N) : list (list N) :=
  match n with O => [] | S n' => take size l :: pieces n' size (drop size l) end.

Definition sha_block (s : sha_state) (block : list N) : sha_state :=
  let r := sha_rounds sha_K (be_word <$> pieces 16 4 block) s in
  mkSha (add32 s.(sh_a) r.(sh_a)) (add32 s.(sh_b) r.(sh_b)) (add32 s.(sh_c) r.(sh_c)) (add32 s.(sh_d) r.(sh_d))
        (add32 s.(sh_e) r.(sh_e)) (add32 s.(sh_f) r.(sh_f)) (add32 s.(sh_g) r.(sh_g)) (add32 s.(sh_h) r.(sh_h)).

Definition sha_pad (msg : list N) : list N :=
  let len := length msg in
  msg ++ [128%N] ++ replicate (63 - (len + 8) mod 64) 0%N ++ be_bytes 8 (8 * N.of_nat len).

Definition sha256 (msg : list N) : list N :=
  let padded := sha_pad msg in
  let s := foldl sha_block sha_init (pieces (length padded / 64) 64 padded) in
  mjoin (be_bytes 4 <$> [s.(sh_a); s.(sh_b); s.(sh_c); s.(sh_d); s.(sh_e); s.(sh_f); s.(sh_g); s.(sh_h)]).

(** ** HMAC (RFC 2104) *)

Definition hmac_key (key : list N) : list N :=
  let k := if (64 <? length key)%nat then sha256 key else key in
  k ++ replicate (64 - length k) 0%N.

Definition hmac_sha256 (key msg : list N) : list N :=
  let k := hmac_key key in
  sha256 ((N.lxor 0x5c <$> k) ++ sha256 ((N.lxor 0x36 <$> k) ++ msg)).

(** ** Hexadecimal digits *)

Definition fromHexChar (c : N) : option N :=
  if ((48 <=? c) && (c <=? 57))%N then Some (c - 48)%N
  else if ((97 <=? c) && (c <=? 102))%N then Some (c - 87)%N
  else if ((65 <=? c) && (c <=? 70))%N then Some (c - 55)%N
  else None.

(** hex.DecodeString: an odd number of digits is an error. *)
Fixpoint hex_Decode (l : list N) : option (list N) :=
  match l with
  | [] => Some []
  | a :: b :: l' =>
      match fromHexChar a, fromHexChar b, hex_Decode l' with
      | Some x, Some y, Some r => Some ((x * 16 + y)%N :: r)
      | _, _, _ => None
      end
  | [_] => None
  end.

Definition toHexChar (d : N) : N := if (d <? 10)%N then (48 + d)%N else (87 + d)%N.
Definition hex_Encode (l : list N) : list N := l ≫= (fun b => [toHexChar (b / 16); toHexChar (b mod 16)])%N.

(** The test vectors of the standards: the digest of "abc", and the HMAC of
    "what do ya want for nothing?" with the key "Jefe" (RFC 4231, case 2). *)
Example sha256_abc :
  sha256 [97; 98; 99]%N = be_bytes 32 0xba7816bf8f01cfea414140de5dae2223b00361a396177a9cb410ff61f20015ad.
Proof. vm_compute. reflexivity. Qed.

Example hmac_jefe :
  hmac_sha256 (bytes_of "Jefe") (bytes_of "what do ya want for nothing?")
  = be_bytes 32 0x5bdcc146bf60754e6a042426089575c75a003f089d2739839dec58b964ec3843.
Proof. vm_compute. reflexivity. Qed.

(** * UUID texts

    [uuid.Parse] belongs to github.com/google/uuid, so it is a parameter with
    its documented behaviour: it reads back what [UUID.String] writes, and its
    answer is a value of sixteen bytes. *)

Definition uuid_bound : N := 2 ^ 128.

Class UuidParser := {
  uuid_Parse : string -> option UUID;
  uuid_Parse_String u : (u < uuid_bound)%N -> uuid_Parse (uuid_String u) = Some u;
  uuid_Parse_bound s u : uuid_Parse s = Some u -> (u < uuid_bound)%N
}.

(** ** A parser of the canonical form *)

Definition hex_of (c : N) : option N :=
  if (48 <=? c)%N && (c <=? 57)%N then Some (c - 48)%N
  else if (97 <=? c)%N && (c <=? 102)%N then Some (c - 87)%N
  else None.

Fixpoint hex_value (s : string) (acc : N) : option N :=
  match s with
  | "" => Some acc
  | String c s' =>
      if (Ascii.N_of_ascii c =? 45)%N then hex_value s' acc
      else match hex_of (Ascii.N_of_ascii c) with Some d => hex_value s' (acc * 16 + d)%N | None => None end
  end.

Definition canonical_Parse (s : string) : option UUID :=
  match hex_value s 0 with
  | Some u => if (u <? uuid_bound)%N && String.eqb (uuid_String u) s then Some u else None
  | None => None
  end.

Lemma hex_digits_app k n acc s : hex_digits k n acc +:+ s = hex_digits k n (acc +:+ s).
Proof. revert n acc. induction k as [|k IH]; intros n acc; simpl; [done|]. by rewrite IH. Qed.

Lemma hex_digit_checked :
  forallb (fun n => let c := Ascii.N_of_ascii (hex_digit n) in
                    negb (c =? 45)%N && bool_decide (hex_of c = Some n)) (N.of_nat <$> seq 0 16) = true.
Proof. vm_compute. done. Qed.

Lemma hex_digit_spec n :
  (n < 16)%N -> (Ascii.N_of_ascii (hex_digit n) =? 45)%N = false /\ hex_of (Ascii.N_of_ascii (hex_digit n)) = Some n.
Proof.
  intros Hn. pose proof hex_digit_checked as H. rewrite forallb_forall in H.
  specialize (H n). apply andb_true_iff in H as [H1 H2].
  - by apply negb_true_iff in H1; apply bool_decide_eq_true in H2.
  - apply list_elem_of_In, list_elem_of_fmap. exists (N.to_nat n). rewrite N2Nat.id. split; [done|]. apply elem_of_seq. lia.
Qed.

Lemma hex_value_digits k n s a :
  hex_value (hex_digits k n s) a = hex_value s (a * 16 ^ N.of_nat k + n mod 16 ^ N.of_nat k)%N.
Proof.
  revert n s a. induction k as [|k IH]; intros n s a; simpl hex_digits.
  - simpl. by rewrite N.mod_1_r, N.mul_1_r, N.add_0_r.
  - rewrite IH. cbn [hex_value]. destruct (hex_digit_spec (n mod 16)) as [-> ->]; [by apply N.mod_lt|].
    f_equal. rewrite Nat2N.inj_succ, N.pow_succ_r'. rewrite N.Div0.mod_mul_r. lia.
Qed.

Lemma hex_value_dash s a : hex_value ("" +:+ "-" +:+ s) a = hex_value s a.
Proof. done. Qed.

Lemma uuid_String_value u : (u < uuid_bound)%N -> hex_value (uuid_String u) 0 = Some u.
Proof.
  unfold uuid_bound. intros Hu. unfold uuid_String. cbv zeta. rewrite !hex_digits_app.
  do 4 rewrite hex_value_digits, hex_value_dash. rewrite hex_value_digits. cbn [hex_value].
  f_equal. rewrite !N.shiftr_div_pow2. rewrite N.div_1_r.
  change (N.of_nat 8) with 8%N. change (N.of_nat 4) with 4%N. change (N.of_nat 12) with 12%N.
  change (16 ^ 8)%N with (2 ^ 32)%N. change (16 ^ 4)%N with (2 ^ 16)%N. change (16 ^ 12)%N with (2 ^ 48)%N.
  rewrite (N.mod_small (u / 2 ^ 96)) by (apply N.Div0.div_lt_upper_bound; exact Hu).
  change (2 ^ 96)%N with (2 ^ 80 * 2 ^ 16)%N. change (2 ^ 80)%N with (2 ^ 64 * 2 ^ 16)%N.
  change (2 ^ 64)%N with (2 ^ 48 * 2 ^ 16)%N. rewrite <- !N.Div0.div_div.
  pose proof (N.Div0.div_mod u (2 ^ 48)) as H1. pose proof (N.Div0.div_mod (u / 2 ^ 48) (2 ^ 16)) as H2.
  pose proof (N.Div0.div_mod (u / 2 ^ 48 / 2 ^ 16) (2 ^ 16)) as H3.
  pose proof (N.Div0.div_mod (u / 2 ^ 48 / 2 ^ 16 / 2 ^ 16) (2 ^ 16)) as H4. clear Hu. revert H1 H2 H3 H4.
  generalize (u / 2 ^ 48 / 2 ^ 16 / 2 ^ 16 / 2 ^ 16)%N, (u / 2 ^ 48 / 2 ^ 16 / 2 ^ 16 mod 2 ^ 16)%N,
    (u / 2 ^ 48 / 2 ^ 16 mod 2 ^ 16)%N, (u / 2 ^ 48 mod 2 ^ 16)%N, (u mod 2 ^ 48)%N.
  generalize (u / 2 ^ 48 / 2 ^ 16 / 2 ^ 16)%N. generalize (u / 2 ^ 48 / 2 ^ 16)%N. generalize (u / 2 ^ 48)%N. lia.
Qed.

Lemma canonical_Parse_String u : (u < uuid_bound)%N -> canonical_Parse (uuid_String u) = Some u.
Proof.
  intros Hu. unfold canonical_Parse. rewrite uuid_String_value by done.
  apply N.ltb_lt in Hu. by rewrite Hu, String.eqb_refl.
Qed.

Lemma canonical_Parse_bound s u : canonical_Parse s = Some u -> (u < uuid_bound)%N.
Proof.
  unfold canonical_Parse. destruct (hex_value s 0) as [v|]; [|done].
  destruct (N.ltb_spec v uuid_bound) as [H|_]; cbn [andb]; [|intros [=]].
  destruct (String.eqb (uuid_String v) s); intros [=]. by subst.
Qed.

Definition canonical_uuid : UuidParser :=
  {| uuid_Parse := canonical_Parse;
     uuid_Parse_String := canonical_Parse_String;
     uuid_Parse_bound := canonical_Parse_bound |}.

(** ** Texts without white space around them *)

(** A byte no encoding of white space starts or ends with. *)
Definition graphic (c : Ascii.ascii) : bool := let n := Ascii.N_of_ascii c in (32 <? n)%N && (n <? 128)%N.

Lemma strip_graphic ws c l :
  Forall (fun p => match p with h :: _ => ((h <=? 32) || (128 <=? h))%N | [] => false end = true) ws ->
  graphic c = true -> strip_any ws (c :: l) = None.
Proof.
  intros H Hc. unfold graphic in Hc. apply andb_true_iff in Hc as [H1%N.ltb_lt H2%N.ltb_lt].
  induction H as [|[|h p] ws Hp _ IH]; simpl; [done|done|]. apply orb_true_iff in Hp.
  rewrite !N.leb_le in Hp. by rewrite decide_False by lia.
Qed.

Lemma trim_front_graphic n ws l :
  Forall (fun p => match p with h :: _ => ((h <=? 32) || (128 <=? h))%N | [] => false end = true) ws ->
  match l with c :: _ => graphic c = true | [] => True end -> trim_front n ws l = l.
Proof.
  intros H Hl. destruct l as [|c l].
  - destruct n; simpl; [done|]. assert (strip_any ws [] = None) as ->; [|done].
    induction H as [|[|h p] ws Hp _ IH]; simpl; done.
  - destruct n; simpl; [done|]. by rewrite strip_graphic.
Qed.

(** No encoding of white space starts or ends with a graphic byte. *)
Lemma white_space_ends :
  let outside p := match p with h :: _ => ((h <=? 32) || (128 <=? h))%N | [] => false end = true in
  Forall outside white_space /\ Forall outside (map (@rev N) white_space).
Proof. split; apply List.Forall_forall, forallb_forall; vm_compute; done. Qed.

(** A text that starts and ends with a graphic byte is trimmed already. *)
Lemma TrimSpace_graphic s :
  match str_bytes s with c :: _ => graphic c = true | [] => True end ->
  match rev (str_bytes s) with c :: _ => graphic c = true | [] => True end -> TrimSpace s = s.
Proof.
  intros H1 H2. destruct white_space_ends as [W1 W2]. unfold TrimSpace.
  rewrite (trim_front_graphic _ white_space) by done. rewrite trim_front_graphic by done. rewrite rev_involutive.
  apply String.string_of_list_ascii_of_string.
Qed.

Lemma str_bytes_app s t : str_bytes (s +:+ t) = str_bytes s ++ str_bytes t.
Proof. unfold str_bytes. induction s as [|c s IH]; simpl; [done|]. by rewrite IH. Qed.

(** The bytes of a UUID's text: hexadecimal digits and dashes. *)
Definition hex_dash (c : Ascii.ascii) : bool :=
  let n := Ascii.N_of_ascii c in
  (n =? 45)%N || ((48 <=? n)%N && (n <=? 57)%N) || ((97 <=? n)%N && (n <=? 102)%N).

Lemma hex_dash_graphic c : hex_dash c = true -> graphic c = true.
Proof. unfold hex_dash, graphic. rewrite !orb_true_iff, !andb_true_iff, N.eqb_eq, !N.leb_le, !N.ltb_lt. lia. Qed.

Lemma hex_digit_dash n : (n < 16)%N -> hex_dash (hex_digit n) = true.
Proof.
  intros Hn. assert (forallb (fun n => hex_dash (hex_digit n)) (N.of_nat <$> seq 0 16) = true) as H by by vm_compute.
  rewrite forallb_forall in H. apply H. apply list_elem_of_In, list_elem_of_fmap. exists (N.to_nat n).
  rewrite N2Nat.id. split; [done|]. apply elem_of_seq. lia.
Qed.

Lemma hex_digits_dash k n acc :
  Forall (fun c => hex_dash c = true) (str_bytes acc) -> Forall (fun c => hex_dash c = true) (str_bytes (hex_digits k n acc)).
Proof.
  revert n acc. induction k as [|k IH]; intros n acc H; simpl; [done|]. apply IH.
  constructor; [|done]. apply hex_digit_dash. by apply N.mod_lt.
Qed.

Lemma uuid_String_dash u : Forall (fun c => hex_dash c = true) (str_bytes (uuid_String u)).
Proof.
  unfold uuid_String. cbv zeta. rewrite !str_bytes_app.
  repeat (apply Forall_app; split); try (apply hex_digits_dash; constructor); by repeat constructor.
Qed.

Lemma uuid_String_graphic u : Forall (fun c => graphic c = true) (str_bytes (uuid_String u)).
Proof. eapply Forall_impl; [apply uuid_String_dash|]. apply hex_dash_graphic. Qed.

Lemma TrimSpace_graphics s : Forall (fun c => graphic c = true) (str_bytes s) -> TrimSpace s = s.
Proof.
  intros H. apply TrimSpace_graphic.
  - by destruct H.
  - apply Forall_rev in H. by destruct H.
Qed.

Lemma TrimSpace_uuid u : TrimSpace (uuid_String u) = uuid_String u.
Proof. apply TrimSpace_graphics, uuid_String_graphic. Qed.

Lemma uuid_String_nonempty u : uuid_String u <> "".
Proof. unfold uuid_String. cbv zeta. by rewrite hex_digits_app. Qed.
