(* ===== verification/Secrets.v ===== *)
(** * Secrets

    internal/config/crypto.go, project_secrets.go and secrets.go: encryption of
    cluster secrets and of project secrets, the text envelope of the latter, and
    the backfill that rewrites values stored in plain text.

    AES-256-GCM and the source of random bytes are the class [Crypto]; its law
    is that opening a sealed text with the key and the nonce it was sealed with
    gives the text back. *)

From S2P Require Import Prelude NetAddr Text Models Runtime Effects Queries Lifecycle Codecs.

Definition NonceSize : nat := 12.

Class Crypto := {
  gcm_Seal : list N -> list N -> list N -> list N;
  gcm_Open : list N -> list N -> list N -> option (list N);
  rand_nonce : nat -> error + list N;
  gcm_Open_Seal : forall key nonce plain, gcm_Open key nonce (gcm_Seal key nonce plain) = Some plain;
  gcm_Seal_bytes : forall key nonce plain, Forall is_byte plain -> Forall is_byte (gcm_Seal key nonce plain);
  rand_nonce_size : forall n nonce, rand_nonce n = inr nonce -> length nonce = NonceSize /\ Forall is_byte nonce
}.

Section secrets.
Context {env : Env} {S : Sorter} {crypto : Crypto}.

Definition key_size_error (key : list N) : error :=
  ErrMsg ("cluster secret key: want 32 bytes, got " +:+ pretty (length key)).

(** [io.ReadFull(rand.Reader, nonce)]. *)
Definition read_nonce : M (list N) := fun w =>
  match rand_nonce w.(w_step) with
  | inl e => (Err e, tick w)
  | inr nonce => (Ret nonce, tick w)
  end.

Definition encryptSecretBytes (key plaintext : list N) : M (list N) :=
  if negb (length key =? 32)%nat then throw (key_size_error key)
  else
    let! nonce := read_nonce in
    ret (nonce ++ gcm_Seal key nonce plaintext).

Definition decryptSecretBytes (key ciphertext : list N) : error + list N :=
  if negb (length key =? 32)%nat then inl (key_size_error key)
  else if (length ciphertext =? 0)%nat then inr []
  else if (length ciphertext <? NonceSize)%nat then inl (ErrMsg "cluster secret: ciphertext too short")
  else
    match gcm_Open key (take NonceSize ciphertext) (drop NonceSize ciphertext) with
    | Some plain => inr plain
    | None => inl (ErrExternal "cipher: message authentication failed")
    end.

Definition EncryptClusterSecret (key plaintext : list N) : M (list N) :=
  if (length plaintext =? 0)%nat then throw (ErrMsg "cluster secret: empty plaintext")
  else encryptSecretBytes key plaintext.

Definition DecryptClusterSecret (key ciphertext : list N) : error + list N := decryptSecretBytes key ciphertext.

Definition EncryptProjectSecretValue (key : list N) (plaintext : string) : M string :=
  let! ct := encryptSecretBytes key (bytes_of plaintext) in
  ret (projectSecretEnvelopePrefix +:+ EncodeToString ct).

(** [s[n:]]. *)
Fixpoint str_drop (n : nat) (s : string) : string :=
  match n, s with
  | Datatypes.S n', String _ s' => str_drop n' s'
  | _, _ => s
  end.

Definition DecryptProjectSecretValue (key : list N) (stored : string) : error + string :=
  if String.eqb stored "" then inr ""
  else if negb (IsEncryptedProjectSecretValue stored) then inr stored
  else
    let raw := str_drop (String.length projectSecretEnvelopePrefix) stored in
    if String.eqb raw "" then inl (ErrMsg "project secret: missing ciphertext")
    else
      match DecodeString raw with
      | None => inl (ErrWrap "project secret: decode envelope" (ErrExternal "illegal base64 data"))
      | Some ct =>
          match decryptSecretBytes key ct with
          | inl e => inl (ErrWrap "project secret: decrypt" e)
          | inr plain => inr (of_bytes plain)
          end
      end.

(** [decryptSecretInto]: the value it stores in [*dest]. *)
Definition decryptSecretInto (masterKey : list N) (key : string) : M string :=
  let! r := attempt (query (ClusterSecretGet key)) in
  match r with
  | inl e => if is_no_rows e then ret "" else throw (ErrWrap ("get cluster secret " +:+ go_quote key) e)
  | inr ct =>
      if (length ct =? 0)%nat then ret ""
      else
        match DecryptClusterSecret masterKey ct with
        | inl e => throw (ErrWrap ("decrypt cluster secret " +:+ go_quote key) e)
        | inr plain => ret (of_bytes plain)
        end
  end.

Definition DecryptSecretPlaintext (masterKey : list N) (key : string) : M string := decryptSecretInto masterKey key.

(** manager.go: the manager's key applied. *)
Definition EncryptBytes (masterKey plaintext : list N) : M (list N) :=
  if (length plaintext =? 0)%nat then ret [] else EncryptClusterSecret masterKey plaintext.
Definition DecryptBytes (masterKey ciphertext : list N) : error + list N :=
  if (length ciphertext =? 0)%nat then inr [] else DecryptClusterSecret masterKey ciphertext.

(** The backfill answers the number of rows it updated also with an error. *)
Fixpoint backfill_rows (masterKey : list N) (rows : list EnvironmentVariable) (updated : Z) : M (Z * option error) :=
  match rows with
  | [] => ret (updated, None)
  | row :: rows' =>
      if IsEncryptedProjectSecretValue row.(ev_Value) then
        match DecryptProjectSecretValue masterKey row.(ev_Value) with
        | inl e => ret (updated, Some (ErrWrap ("validate project secret " +:+ row.(ev_Name)) e))
        | inr _ => backfill_rows masterKey rows' updated
        end
      else
        let! enc := attempt (EncryptProjectSecretValue masterKey row.(ev_Value)) in
        match enc with
        | inl e => ret (updated, Some (ErrWrap ("encrypt project secret " +:+ row.(ev_Name)) e))
        | inr enc =>
            let! u := attempt (exec (EnvironmentVariableUpdateValue row.(ev_ID) enc)) in
            match u with
            | inl e => ret (updated, Some (ErrWrap ("update project secret " +:+ row.(ev_Name)) e))
            | inr _ => backfill_rows masterKey rows' (updated + 1)
            end
        end
  end.

Definition BackfillProjectSecrets (masterKey : list N) : M (Z * option error) :=
  let! r := attempt (query EnvironmentVariableFindAll) in
  match r with
  | inl e => ret (0, Some (ErrWrap "list project secrets" e))
  | inr rows => backfill_rows masterKey rows 0
  end.

End secrets.
