(* ===== verification/SecretsProofs.v ===== *)
(** * Properties of secrets

    A project secret survives encryption, storage and decryption up to the
    environment of an instance, and the backfill never changes what a stored
    value means. *)

From S2P Require Import Prelude NetAddr Text Models Runtime Effects Queries Logic EventLogic TableFacts Lifecycle Sample Codecs Secrets.

Lemma has_prefix_app p s : HasPrefix (p +:+ s) p = true.
Proof. induction p as [|c p IH]; [by destruct s|]. simpl. by rewrite Ascii.eqb_refl. Qed.
Lemma str_drop_app p s : str_drop (String.length p) (p +:+ s) = s.
Proof. induction p as [|c p IH]; [by destruct s|done]. Qed.

Section roundtrip.
Context {env : Env} {S : Sorter} {crypto : Crypto} (key : list N).

Lemma read_nonce_db w : w_db (read_nonce w).2 = w_db w.
Proof. unfold read_nonce. by destruct (rand_nonce _). Qed.

Lemma encrypt_inv plain w ct w' :
  Forall is_byte plain -> encryptSecretBytes key plain w = (Ret ct, w') ->
  Forall is_byte ct /\ ct <> [] /\ decryptSecretBytes key ct = inr plain /\ w_db w' = w_db w.
Proof.
  intros Hp. unfold encryptSecretBytes, decryptSecretBytes. destruct (length key =? 32)%nat; simpl; [|done].
  intros H. apply bind_inv in H as (nonce & w1 & Hn & H). injection H as <- <-.
  pose proof (read_nonce_db w) as Hdb. rewrite Hn in Hdb. simpl in Hdb.
  unfold read_nonce in Hn. destruct (rand_nonce (w_step w)) as [e|n'] eqn:E; [done|]. injection Hn as -> _.
  destruct (rand_nonce_size _ _ E) as [Hlen Hb].
  split; [apply Forall_app; split; [done|by apply gcm_Seal_bytes]|].
  split; [intros Hnil; apply (f_equal length) in Hnil; rewrite length_app, Hlen in Hnil; discriminate|].
  split; [|done]. rewrite length_app, Hlen.
  destruct (Nat.eqb_spec (NonceSize + length (gcm_Seal key nonce plain)) 0); [unfold NonceSize in *; lia|].
  destruct (Nat.ltb_spec (NonceSize + length (gcm_Seal key nonce plain)) NonceSize); [lia|].
  rewrite <- Hlen, take_app_length, drop_app_length. by rewrite gcm_Open_Seal.
Qed.

Lemma encoded_not_empty l : Forall is_byte l -> l <> [] -> EncodeToString l <> "".
Proof. intros Hb Hne E. pose proof (decode_encode l Hb) as H. rewrite E in H. by injection H. Qed.

Lemma envelope_inv plain w stored w' :
  EncryptProjectSecretValue key plain w = (Ret stored, w') ->
  IsEncryptedProjectSecretValue stored = true /\ DecryptProjectSecretValue key stored = inr plain /\ w_db w' = w_db w.
Proof.
  unfold EncryptProjectSecretValue. intros H. apply bind_inv in H as (ct & w1 & Hct & H). injection H as <- <-.
  destruct (encrypt_inv _ _ _ _ (bytes_of_bytes plain) Hct) as (Hb & Hne & Hdec & Hdb).
  assert (IsEncryptedProjectSecretValue (projectSecretEnvelopePrefix +:+ EncodeToString ct) = true) as He by apply has_prefix_app.
  split; [done|]. split; [|done]. unfold DecryptProjectSecretValue. rewrite He, str_drop_app. simpl.
  destruct (String.eqb_spec (EncodeToString ct) "") as [E|_]; [by destruct (encoded_not_empty ct)|].
  rewrite decode_encode, Hdec by done. by rewrite of_bytes_bytes_of.
Qed.

Lemma envelope_total plain nonce w :
  length key = 32%nat -> rand_nonce (w_step w) = inr nonce ->
  exists stored, EncryptProjectSecretValue key plain w = (Ret stored, tick w).
Proof.
  intros Hk Hn. unfold EncryptProjectSecretValue, encryptSecretBytes. rewrite Hk. simpl.
  unfold bind, read_nonce. rewrite Hn. simpl. eauto.
Qed.

(** What a stored value stands for: legacy values stand for themselves. *)
Definition meaning (r : EnvironmentVariable) : error + string := DecryptProjectSecretValue key r.(ev_Value).

Lemma legacy_meaning r : IsEncryptedProjectSecretValue (ev_Value r) = false -> meaning r = inr (ev_Value r).
Proof.
  intros H. unfold meaning, DecryptProjectSecretValue. rewrite H.
  by destruct (String.eqb_spec (ev_Value r) "") as [->|].
Qed.

(** [d'] holds the rows of [d], each with the same meaning; encrypted rows are
    untouched. *)
Definition same_meaning (d d' : Db) : Prop :=
  d' = set_env (db_env d') d /\
  forall k r, db_env d !! k = Some r ->
    exists v t, db_env d' !! k = Some (set_ev_UpdatedAt t (set_ev_Value v r)) /\
      DecryptProjectSecretValue key v = meaning r /\
      (IsEncryptedProjectSecretValue (ev_Value r) = true -> v = ev_Value r) .

Definition env_keyed (d : Db) : Prop := forall k r, db_env d !! k = Some r -> ev_ID r = Some k.

Lemma same_meaning_refl d : same_meaning d d.
Proof.
  split; [by destruct d|]. intros k r Hk. exists (ev_Value r), (ev_UpdatedAt r). split; [by destruct r|done].
Qed.

Lemma update_value_step d0 d d' k r enc t x :
  same_meaning d0 d -> db_env d0 !! k = Some r -> IsEncryptedProjectSecretValue (ev_Value r) = false ->
  DecryptProjectSecretValue key enc = meaning r -> IsEncryptedProjectSecretValue enc = true ->
  EnvironmentVariableUpdateValue (Some k) enc t d = inr (x, d') -> same_meaning d0 d'.
Proof.
  intros [Hd H] Hk Hleg Hm He Hu. unfold EnvironmentVariableUpdateValue in Hu.
  apply returning_inv in Hu as (k' & r' & [= <-] & Hr' & _ & _ & _ & ->). simpl.
  destruct (H k r Hk) as (v & t' & Hv & _). simpl in Hr'. rewrite Hv in Hr'. injection Hr' as <-.
  split; [rewrite Hd; done|]. intros j rj Hj. cbn. destruct (decide (j = k)) as [->|Hne].
  - rewrite lookup_insert_eq. rewrite Hk in Hj. injection Hj as <-. exists enc, (Some t). split; [done|]. split; [done|].
    intros ?. congruence.
  - rewrite lookup_insert_ne by done. by apply H.
Qed.

(** The rows [l] still to visit are rows of the first database, and all others
    are encrypted. *)
Lemma backfill_rows_spec d0 l n w :
  env_keyed d0 -> same_meaning d0 (w_db w) -> (forall r, r ∈ l -> exists k, db_env d0 !! k = Some r) ->
  (forall k r, db_env (w_db w) !! k = Some r -> IsEncryptedProjectSecretValue (ev_Value r) = true \/
     exists r0, r0 ∈ l /\ ev_ID r0 = Some k) ->
  exists m e w', backfill_rows key l n w = (Ret (m, e), w') /\ same_meaning d0 (w_db w') /\
    (e = None -> forall k r, db_env (w_db w') !! k = Some r -> IsEncryptedProjectSecretValue (ev_Value r) = true).
Proof.
  intros Hkey. revert n w. induction l as [|r0 l IH]; intros n w Hs Hl Hrest; simpl.
  { eexists _, _, _. split; [done|]. split; [done|]. intros _ k r Hk.
    destruct (Hrest k r Hk) as [?|(r0 & []%not_elem_of_nil & _)]. done. }
  destruct (Hl r0) as [k0 Hk0]; [by left|]. pose proof (Hkey _ _ Hk0) as Hid.
  destruct (IsEncryptedProjectSecretValue (ev_Value r0)) eqn:Ee.
  - destruct (DecryptProjectSecretValue key (ev_Value r0)); [by eexists _, _, _|].
    apply IH; [done|intros; apply Hl; by right|]. intros k r Hk.
    destruct (Hrest k r Hk) as [?|(r1 & [->|Hin]%elem_of_cons & Hr1)]; [by left| |by eauto].
    left. rewrite Hid in Hr1. injection Hr1 as ->. destruct Hs as [_ Hs].
    destruct (Hs k r0 Hk0) as (v & t & Hv & _ & Heq). rewrite Hk in Hv. injection Hv as ->. simpl. by rewrite Heq.
  - unfold bind at 1, attempt at 1.
    destruct (EncryptProjectSecretValue key (ev_Value r0) w) as [[enc|e| |] w1] eqn:Eenc.
    2: { eexists _, _, _. split; [done|]. split; [|done]. revert Eenc. unfold EncryptProjectSecretValue, encryptSecretBytes.
         destruct (length key =? 32)%nat; simpl; [|by intros [= _ <-]]. unfold bind, read_nonce.
         by destruct (rand_nonce (w_step w)); intros [=]; subst. }
    2, 3: revert Eenc; unfold EncryptProjectSecretValue, encryptSecretBytes;
      destruct (length key =? 32)%nat; simpl; [|done]; unfold bind, read_nonce; by destruct (rand_nonce (w_step w)).
    destruct (envelope_inv _ _ _ _ Eenc) as (He & Hdec & Hdb). rewrite Hid.
    assert (DecryptProjectSecretValue key enc = meaning r0) as Hm by (by rewrite legacy_meaning).
    unfold bind at 1, attempt at 1, exec.
    destruct (EnvironmentVariableUpdateValue (Some k0) enc (sql_now w1) (w_db w1)) as [e|[x d']] eqn:Eu.
    { assert (same_meaning d0 (w_db w1)) by (by rewrite Hdb). destruct (env_fault (w_step w1)); by eexists _, _, _. }
    assert (same_meaning d0 d') as Hs' by (eapply update_value_step; [rewrite <- Hdb in Hs; exact Hs|done..]).
    destruct (env_fault (w_step w1)) as [|msg|msg]; [|by eexists _, _, _; rewrite <- Hdb in Hs|by eexists _, _, _].
    apply IH; [done|intros; apply Hl; by right|]. intros k r Hk. cbn in Hk.
    unfold EnvironmentVariableUpdateValue in Eu. apply returning_inv in Eu as (k' & r' & [= <-] & Hr' & _ & _ & _ & ->).
    simpl in Hk. destruct (decide (k = k0)) as [->|Hne].
    + left. rewrite lookup_insert_eq in Hk. injection Hk as <-. done.
    + rewrite lookup_insert_ne, Hdb in Hk by done. destruct (Hrest k r Hk) as [?|(r1 & [->|Hin]%elem_of_cons & Hr1)]; [by left| |by eauto].
      rewrite Hid in Hr1. injection Hr1 as ->. done.
Qed.

End roundtrip.

(** C31: A project secret survives storage.  With a key of 32 bytes and random
    bytes at hand, encryption answers an envelope that decryption with the same
    key turns back into the value, and that reaches the environment of an
    instance as the plain value; without a decoder no instance gets it. *)
Theorem project_secret_roundtrip (env : Env) (crypto : Crypto) (key : list N) (plaintext : string) (ev : EnvironmentVariable)
    (nonce : list N) (w : World) :
  length key = 32%nat -> rand_nonce (w_step w) = inr nonce ->
  exists stored, EncryptProjectSecretValue key plaintext w = (Ret stored, tick w) /\
    DecryptProjectSecretValue key stored = inr plaintext /\
    buildRuntimeEnv [set_ev_Value stored ev] (Some (DecryptProjectSecretValue key)) = inr [ev_Name ev +:+ "=" +:+ plaintext] /\
    exists e, buildRuntimeEnv [set_ev_Value stored ev] None = inl e.
Proof.
  intros Hk Hn. destruct (envelope_total key plaintext nonce w Hk Hn) as [stored Hs]. exists stored. split; [done|].
  destruct (envelope_inv key _ _ _ _ Hs) as (He & Hd & _). split; [done|]. simpl. rewrite Hd, He. eauto.
Qed.

(** A cipher that reverses the text. *)
#[export] Instance sample_crypto : Crypto.
Proof.
  refine {| gcm_Seal _ _ p := reverse p; gcm_Open _ _ c := Some (reverse c); rand_nonce _ := inr (replicate 12 7%N) |}.
  - intros. by rewrite reverse_involutive.
  - intros. by apply Forall_reverse.
  - intros n nonce [= <-]. split; [done|]. by repeat constructor.
Defined.

Definition sample_key : list N := replicate 32 1%N.

Definition secret_row (id : N) (value : string) : EnvironmentVariable :=
  mkEnvironmentVariable (Some id) (Some 1%N) None "TOKEN" value (Some 1) (Some 1).

Lemma project_secret_roundtrip_witness :
  exists stored, EncryptProjectSecretValue sample_key "s3cr3t" sample_world = (Ret stored, tick sample_world) /\
    DecryptProjectSecretValue sample_key stored = inr "s3cr3t" /\
    buildRuntimeEnv [set_ev_Value stored (secret_row 1 "")] (Some (DecryptProjectSecretValue sample_key)) = inr ["TOKEN=s3cr3t"].
Proof.
  destruct (project_secret_roundtrip sample_env sample_crypto sample_key "s3cr3t" (secret_row 1 "") (replicate 12 7%N) sample_world
    eq_refl eq_refl) as (stored & H1 & H2 & H3 & _). exists stored. auto.
Defined.

(** C32: In every environment, wherever a statement fails, the backfill of
    project secrets changes nothing but the stored values, and no value changes
    its meaning: each row decrypts to what it decrypted to before, and a value
    that was already encrypted is not touched.  When it reports no error, every
    value is encrypted. *)
Theorem backfill_keeps_secrets (env : Env) (S : Sorter) (crypto : Crypto) (key : list N) (w : World) :
  env_keyed (w_db w) ->
  exists n e w', BackfillProjectSecrets key w = (Ret (n, e), w') /\ same_meaning key (w_db w) (w_db w') /\
    (e = None -> forall k r, db_env (w_db w') !! k = Some r -> IsEncryptedProjectSecretValue (ev_Value r) = true).
Proof.
  intros Hkey. unfold BackfillProjectSecrets.
  destruct (query_cases EnvironmentVariableFindAll w) as [(l & Hl & Hq)|(e & Hq & _)].
  2: { erewrite bind_ret by (by apply attempt_err). eexists _, _, _. split; [done|]. split; [apply same_meaning_refl|done]. }
  erewrite bind_ret by (by apply attempt_ret). injection Hl as <-.
  apply backfill_rows_spec; [done|apply same_meaning_refl| |].
  - intros r. rewrite sort_by_elem, elem_of_rows. intros (_ & k & Hk). eauto.
  - intros k r Hk. right. exists r. rewrite sort_by_elem, elem_of_rows. split; [|by apply Hkey]. split; [done|]. by exists k.
Qed.

Definition secrets_world : World := mkWorld (set_env {[ 1%N := secret_row 1 "plain" ]} sample_db) 2000 0 None [].

Lemma backfill_keeps_secrets_witness :
  exists n e w', BackfillProjectSecrets sample_key secrets_world = (Ret (n, e), w') /\ n = 1 /\ e = None /\
    same_meaning sample_key (w_db secrets_world) (w_db w').
Proof.
  destruct (backfill_keeps_secrets sample_env insertion_sorter sample_crypto sample_key secrets_world) as (n & e & w' & H & Hs & _).
  { apply map_Forall_to_list. vm_compute. repeat constructor. }
  exists n, e, w'. split; [exact H|]. apply (f_equal fst) in H. vm_compute in H. injection H as <- <-. auto.
Defined.
