(* ===== verification/Config.v ===== *)
(** * Configuration

    internal/config/keys.go and snapshot.go: the settings of the cluster and of
    a server as a [Snapshot], with [time.ParseDuration] and
    [strconv.ParseInt]. *)

From S2P Require Import Prelude NetAddr Text Models Runtime Effects Queries Logic EventLogic Lifecycle Float64 Codecs Secrets Sample Deploy SecretsProofs.

(** ** time.ParseDuration *)

Definition two63 : N := 2 ^ 63.

(** [leadingInt]: the value and the rest, or an overflow. *)
Fixpoint leadingInt (x : N) (l : list N) : option (N * list N) :=
  match l with
  | c :: l' =>
      if in_range 48 57 c then
        if (two63 / 10 <? x)%N then None
        else
          let x' := (x * 10 + (c - 48))%N in
          if (two63 <? x')%N then None else leadingInt x' l'
      else Some (x, l)
  | [] => Some (x, [])
  end.

(** [leadingFraction]: digits that would overflow are skipped. *)
Fixpoint leadingFraction (x : N) (scale : float64) (overflow : bool) (l : list N) : N * float64 * list N :=
  match l with
  | c :: l' =>
      if in_range 48 57 c then
        if overflow then leadingFraction x scale true l'
        else if ((two63 - 1) / 10 <? x)%N then leadingFraction x scale true l'
        else
          let y := (x * 10 + (c - 48))%N in
          if (two63 <? y)%N then leadingFraction x scale true l'
          else leadingFraction y (f64_mul scale (f64_of_int 10)) false l'
      else (x, scale, l)
  | [] => (x, scale, [])
  end.

Definition number_byte (c : N) : bool := (c =? 46)%N || in_range 48 57 c.

Fixpoint split_unit (l : list N) : list N * list N :=
  match l with
  | c :: l' => if number_byte c then ([], l) else let '(u, r) := split_unit l' in (c :: u, r)
  | [] => ([], [])
  end.

Definition unitMap (u : list N) : option N :=
  if bool_decide (u = bytes_of "ns") then Some 1%N
  else if bool_decide (u = bytes_of "us") || bool_decide (u = [194; 181; 115]%N) || bool_decide (u = [206; 188; 115]%N)
  then Some 1000%N
  else if bool_decide (u = bytes_of "ms") then Some 1000000%N
  else if bool_decide (u = bytes_of "s") then Some 1000000000%N
  else if bool_decide (u = bytes_of "m") then Some 60000000000%N
  else if bool_decide (u = bytes_of "h") then Some 3600000000000%N
  else None.

(** [uint64(x)] of a float64 that is not negative and below 2^64. *)
Definition f64_uint64 (x : float64) : N := Z.to_N (default 0 (f64_trunc x)).

(** One element, number and unit: the nanoseconds and the rest. *)
Definition parse_element (l : list N) : option (N * list N) :=
  match l with
  | c :: _ =>
      if negb (number_byte c) then None
      else
        match leadingInt 0 l with
        | None => None
        | Some (v, l1) =>
            let pre := negb (length l1 =? length l)%nat in
            let '(f, scale, l2, post) :=
              match l1 with
              | c1 :: l1' =>
                  if (c1 =? 46)%N then
                    let '(f, scale, l2) := leadingFraction 0 (f64_of_int 1) false l1' in
                    (f, scale, l2, negb (length l2 =? length l1')%nat)
                  else (0%N, f64_of_int 1, l1, false)
              | [] => (0%N, f64_of_int 1, l1, false)
              end in
            if negb pre && negb post then None
            else
              let '(u, l3) := split_unit l2 in
              match unitMap u with
              | None => None
              | Some unit =>
                  if (two63 / unit <? v)%N then None
                  else
                    let v := (v * unit)%N in
                    let v := if (0 <? f)%N
                             then (v + f64_uint64 (f64_mul (f64_of_int (Z.of_N f)) (f64_div (f64_of_int (Z.of_N unit)) scale)))%N
                             else v in
                    if (two63 <? v)%N then None else Some (v, l3)
              end
        end
  | [] => None
  end.

(** An element takes at least one byte, so the length bounds the elements. *)
Fixpoint parse_elements (fuel : nat) (d : N) (l : list N) : option N :=
  match l, fuel with
  | [], _ => Some d
  | _, O => None
  | _, S fuel' =>
      match parse_element l with
      | None => None
      | Some (v, l') => if (two63 <? d + v)%N then None else parse_elements fuel' (d + v)%N l'
      end
  end.

Definition ParseDuration (s : string) : option Duration :=
  let l := bytes_of s in
  let '(neg, l) := match l with
                   | c :: l' => if (c =? 45)%N then (true, l') else if (c =? 43)%N then (false, l') else (false, l)
                   | [] => (false, l)
                   end in
  if bool_decide (l = [48%N]) then Some 0
  else if (length l =? 0)%nat then None
  else
    match parse_elements (length l) 0 l with
    | None => None
    | Some d => if neg then Some (- Z.of_N d)
                else if (two63 - 1 <? d)%N then None else Some (Z.of_N d)
    end.

Example durations :
  ParseDuration "90s" = Some (90 * Second) /\ ParseDuration "1h30m" = Some (90 * Minute) /\
  ParseDuration "1.5s" = Some (1500 * Millisecond) /\ ParseDuration "-2m" = Some (-2 * Minute) /\
  ParseDuration "0" = Some 0 /\ ParseDuration "5" = None /\ ParseDuration ".s" = None /\
  ParseDuration "9223372036854775808ns" = None /\ ParseDuration "3000000h" = None.
Proof. vm_compute. repeat split. Qed.

(** ** Keys *)

Definition SettingRegistryURL : string := "registry_url".
Definition SettingRegistryUsername : string := "registry_username".
Definition SettingEdgeHTTPSAddr : string := "edge_https_addr".
Definition SettingEdgeHTTPAddr : string := "edge_http_addr".
Definition SettingACMEEmail : string := "acme_email".
Definition SettingACMEStaging : string := "acme_staging".
Definition SettingColdStartTimeout : string := "cold_start_timeout".
Definition SettingScaleToZeroIdleSeconds : string := "scale_to_zero_idle_seconds".
Definition SettingVolumeBackupS3Bucket : string := "volume_backup_s3_bucket".
Definition SettingVolumeBackupS3Region : string := "volume_backup_s3_region".
Definition SettingVolumeBackupS3Endpoint : string := "volume_backup_s3_endpoint".
Definition SettingVolumeBackupS3Prefix : string := "volume_backup_s3_prefix".
Definition SettingRemoteVMBaseDomain : string := "remote_vm_base_domain".
Definition SettingPreviewRetentionAfterCloseSecs : string := "preview_retention_after_close_seconds".
Definition SettingPreviewIdleSeconds : string := "preview_idle_scale_seconds".

Definition SecretGitHubToken : string := "github_token".
Definition SecretRegistryPassword : string := "registry_password".
Definition SecretVolumeBackupS3AccessKeyID : string := "volume_backup_s3_access_key_id".
Definition SecretVolumeBackupS3SecretAccessKey : string := "volume_backup_s3_secret_access_key".
Definition SecretInterServerProxySharedKey : string := "inter_server_proxy_shared_key".

(** ** Snapshot *)

Record Snapshot := mkSnapshot {
  sn_GitHubToken : string;
  sn_RegistryURL : string;
  sn_RegistryUsername : string;
  sn_RegistryPassword : string;
  sn_VolumeBackupS3AccessKeyID : string;
  sn_VolumeBackupS3SecretAccessKey : string;
  sn_VolumeBackupS3Bucket : string;
  sn_VolumeBackupS3Region : string;
  sn_VolumeBackupS3Endpoint : string;
  sn_VolumeBackupS3Prefix : string;
  sn_EdgeHTTPSAddr : string;
  sn_EdgeHTTPAddr : string;
  sn_ACMEEmail : string;
  sn_ACMEStaging : bool;
  sn_ColdStartTimeout : Duration;
  sn_ColdStartTimeoutSet : bool;
  sn_ScaleToZeroIdleSeconds : Z;
  sn_ServiceBaseDomain : string;
  sn_PreviewBaseDomain : string;
  sn_RemoteVMBaseDomain : string;
  sn_PreviewRetentionAfterCloseSeconds : Z;
  sn_PreviewIdleSeconds : Z;
  sn_InterServerProxySharedKey : string;
  sn_ServerRuntimeOverride : string;
  sn_ServerAdvertiseHost : string;
  sn_ServerCloudHypervisorBin : string;
  sn_ServerCloudHypervisorKernelPath : string;
  sn_ServerCloudHypervisorInitramfsPath : string;
  sn_ServerCloudHypervisorStateDir : string
}.

Definition defaultColdStartTimeout : Duration := 2 * Minute.

Definition DefaultSnapshot : Snapshot :=
  mkSnapshot "" "kindling" "" "" "" "" "" "" "" "" "" ":80" "" false defaultColdStartTimeout false 300 "" "" "" 3600 300
    "" "" "" "" "" "" "".

(** [strings.Trim(s, cut)] for one byte. *)
Fixpoint trim_left_byte (cut : N) (l : list N) : list N :=
  match l with c :: l' => if (c =? cut)%N then trim_left_byte cut l' else l | [] => [] end.
Definition trim_byte (cut : N) (s : string) : string :=
  of_bytes (reverse (trim_left_byte cut (reverse (trim_left_byte cut (bytes_of s))))).

(** [strconv.ParseInt(v, 10, 64)] agrees with [strconv.Atoi] on 64-bit platforms. *)
Definition parse_setting (v : string) (least dflt : Z) : Z :=
  match Atoi v with Some n => if least <=? n then n else dflt | None => dflt end.

(** [settings[key]], trimmed; later rows overwrite earlier ones. *)
Definition setting_of (rows : list (string * string)) (key : string) : string :=
  TrimSpace (default "" (foldl (fun m '(k, v) => <[k := v]> m) (∅ : gmap string string) rows !! key)).

Section load.
Context {env : Env} {S : Sorter} {U : Unicode} {crypto : Crypto}.

Definition LoadSnapshot (serverID : UUID) (masterKey : list N) : M Snapshot :=
  let! rows := query ClusterSettingsAll in
  let setting := setting_of rows in
  let registryURL := setting SettingRegistryURL in
  let edgeHTTP := setting SettingEdgeHTTPAddr in
  let coldStart := match ParseDuration (setting SettingColdStartTimeout) with
                   | Some d => if 0 <? d then Some d else None
                   | None => None
                   end in
  let! st := attempt (query (ServerSettingGet (Some serverID))) in
  let! server := (match st with
                  | inl e => if is_no_rows e then ret None else throw e
                  | inr s => ret (Some s)
                  end) in
  let server_setting (f : ServerSetting -> string) := match server with Some s => TrimSpace (f s) | None => "" end in
  let! gitHubToken := decryptSecretInto masterKey SecretGitHubToken in
  let! registryPassword := decryptSecretInto masterKey SecretRegistryPassword in
  let! accessKeyID := decryptSecretInto masterKey SecretVolumeBackupS3AccessKeyID in
  let! secretAccessKey := decryptSecretInto masterKey SecretVolumeBackupS3SecretAccessKey in
  let! proxyKey := decryptSecretInto masterKey SecretInterServerProxySharedKey in
  ret (mkSnapshot gitHubToken
    (if String.eqb registryURL "" then "kindling" else registryURL)
    (setting SettingRegistryUsername) registryPassword accessKeyID secretAccessKey
    (setting SettingVolumeBackupS3Bucket) (setting SettingVolumeBackupS3Region)
    (setting SettingVolumeBackupS3Endpoint) (trim_byte 47 (setting SettingVolumeBackupS3Prefix))
    (setting SettingEdgeHTTPSAddr) (if String.eqb edgeHTTP "" then ":80" else edgeHTTP)
    (setting SettingACMEEmail) (in_list ["1"; "true"; "yes"; "on"] (ToLower (setting SettingACMEStaging)))
    (default defaultColdStartTimeout coldStart) (bool_decide (is_Some coldStart))
    (parse_setting (setting SettingScaleToZeroIdleSeconds) 1 300)
    (setting SettingServiceBaseDomain) (setting SettingPreviewBaseDomain) (setting SettingRemoteVMBaseDomain)
    (parse_setting (setting SettingPreviewRetentionAfterCloseSecs) 0 3600)
    (parse_setting (setting SettingPreviewIdleSeconds) 1 300) proxyKey
    (server_setting ss_RuntimeOverride) (server_setting ss_AdvertiseHost) (server_setting ss_CloudHypervisorBin)
    (server_setting ss_CloudHypervisorKernelPath) (server_setting ss_CloudHypervisorInitramfsPath)
    (server_setting ss_CloudHypervisorStateDir)).

(** manager.go: the snapshot published after a reload, and the reload's error. *)
Definition Reload (serverID : UUID) (masterKey : list N) (snap : Snapshot) : M (Snapshot * option error) :=
  let! r := attempt (LoadSnapshot serverID masterKey) in
  match r with
  | inl e => ret (snap, Some (ErrWrap "load config snapshot" e))
  | inr s => ret (s, None)
  end.

End load.

(** ** Well-formed snapshots *)

Record snapshot_ok (s : Snapshot) : Prop := {
  ok_cold : 0 < sn_ColdStartTimeout s <= max_int64;
  ok_idle : 0 < sn_ScaleToZeroIdleSeconds s <= max_int64;
  ok_retention : 0 <= sn_PreviewRetentionAfterCloseSeconds s <= max_int64;
  ok_preview_idle : 0 < sn_PreviewIdleSeconds s <= max_int64;
  ok_http : sn_EdgeHTTPAddr s <> "";
  ok_registry : sn_RegistryURL s <> ""
}.

Lemma parse_duration_bound s d : ParseDuration s = Some d -> d <= max_int64.
Proof.
  unfold ParseDuration. destruct (match bytes_of s with [] => _ | _ => _ end) as [neg l].
  case_bool_decide; [intros [= <-]; unfold max_int64; lia|]. destruct (length l =? 0)%nat; [done|].
  destruct (parse_elements _ _ _) as [n|]; [|done]. destruct neg; [intros [= <-]; unfold max_int64; lia|].
  destruct (N.ltb_spec (two63 - 1) n) as [|Hn]; [done|]. intros [= <-]. unfold two63 in Hn. unfold max_int64. lia.
Qed.

Lemma atoi_bound s n : Atoi s = Some n -> n <= max_int64.
Proof.
  unfold Atoi. destruct (str_bytes s) as [|c l]; [done|]. destruct (byte_is 45 c).
  - destruct (match l with [] => _ | _ => _ end) as [m|]; simpl; [|done]. case_match; [|done]. intros [= <-]. unfold max_int64. lia.
  - destruct (match (if byte_is 43 c then l else c :: l) with [] => _ | _ => _ end) as [m|]; simpl; [|done].
    destruct (Z.leb_spec (Z.of_N m) max_int64); [|done]. by intros [= <-].
Qed.

Lemma parse_setting_bounds v least dflt : least <= dflt <= max_int64 -> least <= parse_setting v least dflt <= max_int64.
Proof.
  intros H. unfold parse_setting. destruct (Atoi v) as [n|] eqn:E; [|lia]. apply atoi_bound in E.
  destruct (Z.leb_spec least n); lia.
Qed.

(** C33: The configuration a server works with is always well-formed: whatever
    the settings contain and whichever statement fails, the cold-start timeout
    and the idle times are positive, the retention is not negative, all fit
    their 64 bits, and the listen address and the registry are never empty. *)
Theorem snapshot_always_ok (env : Env) (S : Sorter) (U : Unicode) (crypto : Crypto) (serverID : UUID) (masterKey : list N)
    (snap : Snapshot) (w : World) :
  snapshot_ok snap ->
  snapshot_ok DefaultSnapshot /\
  exists s e w', Reload serverID masterKey snap w = (Ret (s, e), w') /\ snapshot_ok s /\ w_db w' = w_db w.
Proof.
  intros Hok. split; [split; vm_compute; (split; congruence) || discriminate|].
  assert (runs no_stmt (LoadSnapshot serverID masterKey)) as Hr.
  { unfold LoadSnapshot, decryptSecretInto. solve_runs. }
  assert (forall s w1, LoadSnapshot serverID masterKey w = (Ret s, w1) -> snapshot_ok s) as Hs.
  { unfold LoadSnapshot. intros s w1 H. repeat (apply bind_inv in H as (? & ? & _ & H)). injection H as <- _.
    split; simpl.
    - destruct (ParseDuration _) as [d|] eqn:E; simpl; [|unfold defaultColdStartTimeout, Minute, Second, max_int64; lia].
      apply parse_duration_bound in E. destruct (Z.ltb_spec 0 d); simpl; [lia|unfold defaultColdStartTimeout, Minute, Second, max_int64; lia].
    - pose proof (parse_setting_bounds (setting_of x SettingScaleToZeroIdleSeconds) 1 300). unfold max_int64 in *. lia.
    - apply parse_setting_bounds; unfold max_int64; lia.
    - pose proof (parse_setting_bounds (setting_of x SettingPreviewIdleSeconds) 1 300). unfold max_int64 in *. lia.
    - by destruct (String.eqb_spec (setting_of x SettingEdgeHTTPAddr) "").
    - by destruct (String.eqb_spec (setting_of x SettingRegistryURL) ""). }
  assert (safe false (LoadSnapshot serverID masterKey)) as Hsafe by (unfold LoadSnapshot, decryptSecretInto; solve_np).
  specialize (Hsafe w). pose proof (runs_none _ w Hr) as Hdb. unfold Reload, bind, attempt.
  destruct (LoadSnapshot serverID masterKey w) as [[s|e| |] w1] eqn:E; try done.
  - exists s, None, w1. split; [done|]. split; [by eapply Hs|done].
  - exists snap, (Some (ErrWrap "load config snapshot" e)), w1. by split.
Qed.

Lemma snapshot_always_ok_witness :
  exists s e w', Reload (crypto := sample_crypto) 30%N sample_key DefaultSnapshot sample_world = (Ret (s, e), w') /\ snapshot_ok s.
Proof.
  destruct (snapshot_always_ok sample_env insertion_sorter sample_unicode sample_crypto 30%N sample_key DefaultSnapshot sample_world)
    as (_ & s & e & w' & H & Hs & _); [split; vm_compute; (split; congruence) || discriminate|].
  exists s, e, w'. auto.
Defined.
