(* ===== verification/Paths.v ===== *)
(** * Paths

    [path.Clean], [path.Join] and [filepath.Dir] of the standard library, on
    bytes, and what a cleaned rooted path looks like. *)

From S2P Require Import Prelude NetAddr Text Codecs.

Definition slash : N := 47.
Definition seg_dot : list N := [46%N].
Definition seg_dotdot : list N := [46; 46]%N.

(** The parts between the separators; the empty path is one empty part. *)
Fixpoint split_byte (c : N) (l : list N) : list (list N) :=
  match l with
  | [] => [[]]
  | b :: l' =>
      if (b =? c)%N then [] :: split_byte c l'
      else match split_byte c l' with s :: ss => (b :: s) :: ss | [] => [[b]] end
  end.

Fixpoint join_byte (c : N) (ss : list (list N)) : list N :=
  match ss with
  | [] => []
  | [s] => s
  | s :: ss' => s ++ c :: join_byte c ss'
  end.

(** One element of the path against the elements kept so far, the last first:
    empty elements and [.] vanish, [..] takes back the element before it, and
    stays only where a path that is not rooted has none. *)
Definition clean_step (rooted : bool) (stack : list (list N)) (seg : list N) : list (list N) :=
  if bool_decide (seg = []) || bool_decide (seg = seg_dot) then stack
  else if bool_decide (seg = seg_dotdot) then
    match stack with
    | s :: stack' => if bool_decide (s = seg_dotdot) then seg :: stack else stack'
    | [] => if rooted then [] else [seg]
    end
  else seg :: stack.

Definition clean_segments (rooted : bool) (l : list N) : list (list N) :=
  reverse (foldl (clean_step rooted) [] (split_byte slash l)).

Definition path_Clean (s : string) : string :=
  match bytes_of s with
  | [] => "."
  | b :: _ =>
      let rooted := (b =? slash)%N in
      let body := join_byte slash (clean_segments rooted (bytes_of s)) in
      if rooted then of_bytes (slash :: body)
      else match body with [] => "." | _ => of_bytes body end
  end.

(** [path.Join]: leading empty elements are ignored. *)
Fixpoint path_Join (elems : list string) : string :=
  match elems with
  | [] => ""
  | e :: es => if String.eqb e "" then path_Join es else path_Clean (String.concat "/" elems)
  end.

(** [path[:i+1]] for the last separator [i]; empty without one. *)
Fixpoint upto_last_slash (l : list N) : list N :=
  match l with
  | [] => []
  | b :: l' =>
      match upto_last_slash l' with
      | [] => if (b =? slash)%N then [b] else []
      | p => b :: p
      end
  end.

Definition filepath_Dir (s : string) : string := path_Clean (of_bytes (upto_last_slash (bytes_of s))).

Example paths :
  path_Clean "/a/./b//../c/" = "/a/c" /\ path_Clean "/../a" = "/a" /\ path_Clean "../a/../../b" = "../../b" /\
  path_Clean "a/.." = "." /\ path_Clean "/." = "/" /\ path_Join ["";  "a"; ""; "../b"] = "b" /\
  path_Join [""; ""] = "" /\ filepath_Dir "/data/volumes/x.qcow2" = "/data/volumes" /\ filepath_Dir "x" = ".".
Proof. vm_compute. repeat split. Qed.

(** ** Cleaned paths *)

Lemma split_byte_free c l : Forall (fun s => c ∉ s) (split_byte c l).
Proof.
  induction l as [|b l IH]; simpl; [apply Forall_singleton, not_elem_of_nil|].
  destruct (N.eqb_spec b c); [constructor; [apply not_elem_of_nil|done]|].
  destruct (split_byte c l) as [|s ss]; [repeat constructor; set_solver|].
  inversion IH; subst. constructor; [set_solver|done].
Qed.

(** An element a cleaned rooted path can have. *)
Record plain_segment (s : list N) : Prop := {
  seg_nonempty : s <> [];
  seg_no_dot : s <> seg_dot;
  seg_no_dotdot : s <> seg_dotdot;
  seg_no_slash : slash ∉ s
}.

Lemma clean_step_plain stack s :
  Forall plain_segment stack -> slash ∉ s -> Forall plain_segment (clean_step true stack s).
Proof.
  intros Hs Hn. unfold clean_step. repeat case_bool_decide; simpl; try done.
  - destruct Hs as [|s' stack' Hs' Hss]; [constructor|]. case_bool_decide; [|done]. by destruct Hs'.
  - constructor; [by split|done].
Qed.

Lemma clean_segments_plain l : Forall plain_segment (clean_segments true l).
Proof.
  unfold clean_segments. apply Forall_reverse. pose proof (split_byte_free slash l) as H.
  assert (Forall plain_segment []) as Hs by constructor. revert H Hs. generalize (@nil (list N)).
  induction (split_byte slash l) as [|s ss IH]; intros st H Hs; simpl; [done|]. inversion H; subst.
  apply IH; [done|]. by apply clean_step_plain.
Qed.

Lemma split_free c s : c ∉ s -> split_byte c s = [s].
Proof.
  induction s as [|b s IH]; intros H; simpl; [done|].
  destruct (N.eqb_spec b c) as [->|]; [set_solver|]. rewrite IH by set_solver. done.
Qed.

Lemma split_app c s l : c ∉ s -> split_byte c (s ++ c :: l) = s :: split_byte c l.
Proof.
  induction s as [|b s IH]; intros H; simpl; [by rewrite N.eqb_refl|].
  destruct (N.eqb_spec b c) as [->|]; [set_solver|]. by rewrite IH by set_solver.
Qed.

(** Splitting takes back what joining made. *)
Lemma split_join c ss : ss <> [] -> Forall (fun s => c ∉ s) ss -> split_byte c (join_byte c ss) = ss.
Proof.
  induction ss as [|s ss IH]; intros Hne H; [done|]. inversion H; subst.
  destruct ss as [|s' ss]; [by apply split_free|].
  change (join_byte c (s :: s' :: ss)) with (s ++ c :: join_byte c (s' :: ss)). rewrite split_app by done. by rewrite IH.
Qed.

Lemma clean_pushes r ss st : Forall plain_segment ss -> foldl (clean_step r) st ss = reverse ss ++ st.
Proof.
  revert st. induction ss as [|s ss IH]; intros st H; simpl; [done|]. inversion H as [|? ? [H1 H2 H3 H4]]; subst.
  unfold clean_step at 2. rewrite !bool_decide_eq_false_2 by done. simpl. rewrite IH by done.
  by rewrite reverse_cons, <- app_assoc.
Qed.

Lemma clean_of_plain ss : Forall plain_segment ss -> clean_segments true (slash :: join_byte slash ss) = ss.
Proof.
  intros H. unfold clean_segments. simpl. destruct ss as [|s ss]; [done|].
  rewrite split_join; [|done|eapply Forall_impl; [exact H|]; by intros ? []].
  rewrite clean_pushes by done. rewrite app_nil_r. apply reverse_involutive.
Qed.

Lemma join_is_byte ss : Forall (Forall is_byte) ss -> Forall is_byte (join_byte slash ss).
Proof.
  induction ss as [|s ss IH]; intros H; simpl; [constructor|]. inversion H; subst.
  destruct ss; [done|]. apply Forall_app. split; [done|]. constructor; [done|]. auto.
Qed.

Lemma split_is_byte c l : Forall is_byte l -> Forall (Forall is_byte) (split_byte c l).
Proof.
  induction 1 as [|b l Hb Hl IH]; simpl; [by repeat constructor|]. destruct (b =? c)%N; [by constructor|].
  destruct (split_byte c l); [repeat constructor; done|]. inversion IH; subst. by repeat constructor.
Qed.

Lemma clean_is_byte r l : Forall is_byte l -> Forall (Forall is_byte) (clean_segments r l).
Proof.
  intros H. apply (split_is_byte slash) in H. unfold clean_segments. apply Forall_reverse.
  assert (Forall (Forall is_byte) []) as Hs by constructor. revert H Hs. generalize (@nil (list N)).
  induction (split_byte slash l) as [|s ss IH]; intros st H Hs; simpl; [done|]. inversion H; subst.
  apply IH; [done|]. unfold clean_step. repeat case_bool_decide; simpl; try done.
  - destruct Hs as [|s' stack' Hs' Hss]; [destruct r; by repeat constructor|]. case_bool_decide; by repeat constructor.
  - by constructor.
Qed.

(** The path with the elements [ss] under the root. *)
Definition rooted_path (ss : list (list N)) : string := of_bytes (slash :: join_byte slash ss).

Lemma bytes_of_nil s : bytes_of s = [] -> s = "".
Proof. intros H. by rewrite <- (of_bytes_bytes_of s), H. Qed.

Lemma bytes_of_rooted ss : Forall (Forall is_byte) ss -> bytes_of (rooted_path ss) = slash :: join_byte slash ss.
Proof. intros H. apply bytes_of_of_bytes. constructor; [done|]. by apply join_is_byte. Qed.

(** A rooted path cleans to a path of plain elements, *)
Lemma path_Clean_rooted s :
  HasPrefix s "/" = true ->
  exists ss, path_Clean s = rooted_path ss /\ Forall plain_segment ss /\ Forall (Forall is_byte) ss.
Proof.
  intros H. destruct s as [|a s]; [done|].
  change (HasPrefix (String a s) "/") with (if Ascii.eqb (Ascii.ascii_of_N 47) a then HasPrefix s "" else false) in H.
  destruct (Ascii.eqb_spec (Ascii.ascii_of_N 47) a) as [<-|]; [|done].
  exists (clean_segments true (bytes_of (String (Ascii.ascii_of_N 47) s))). split; [done|].
  split; [apply clean_segments_plain|]. apply clean_is_byte, bytes_of_bytes.
Qed.

(** and such a path is clean already. *)
Lemma path_Clean_plain ss :
  Forall plain_segment ss -> Forall (Forall is_byte) ss -> path_Clean (rooted_path ss) = rooted_path ss.
Proof.
  intros Hp Hb. unfold path_Clean. rewrite bytes_of_rooted by done. rewrite N.eqb_refl.
  by rewrite clean_of_plain.
Qed.

(** Joining plain elements needs no cleaning. *)
Lemma bytes_of_app s t : bytes_of (s +:+ t) = bytes_of s ++ bytes_of t.
Proof. unfold bytes_of. by rewrite str_bytes_app, fmap_app. Qed.

Lemma bytes_of_concat es : bytes_of (String.concat "/" es) = join_byte slash (bytes_of <$> es).
Proof.
  induction es as [|e es IH]; [done|]. destruct es as [|e' es]; [done|].
  change (String.concat "/" (e :: e' :: es)) with (e +:+ "/" +:+ String.concat "/" (e' :: es)).
  rewrite !bytes_of_app, IH. done.
Qed.

Lemma path_Join_plain es :
  es <> [] -> Forall (fun e => plain_segment (bytes_of e)) es -> path_Join es = String.concat "/" es.
Proof.
  intros Hne H. destruct H as [|e es He Hes]; [done|].
  assert (Forall plain_segment (bytes_of <$> e :: es)) as Hp by (apply Forall_fmap; by constructor).
  assert (bytes_of e <> []) as Hb by apply He. cbn [path_Join].
  destruct (String.eqb_spec e "") as [->|_]; [done|]. unfold path_Clean. rewrite bytes_of_concat.
  remember (join_byte slash (bytes_of <$> e :: es)) as l eqn:El.
  assert (split_byte slash l = bytes_of <$> e :: es) as Hs.
  { subst l. apply split_join; [done|]. eapply Forall_impl; [exact Hp|]. by intros ? []. }
  destruct l as [|b l].
  { destruct es as [|e' es]; simpl in El; [by destruct He|]. by destruct (bytes_of e). }
  assert (b <> slash) as Hbs.
  { intros ->. simpl in Hs. apply (f_equal head) in Hs. simpl in Hs. congruence. }
  apply N.eqb_neq in Hbs as ->. unfold clean_segments. rewrite Hs, clean_pushes by done.
  rewrite app_nil_r, reverse_involutive, <- El. rewrite El, <- bytes_of_concat. by rewrite of_bytes_bytes_of.
Qed.

(** ** Paths below a directory *)

Lemma split_rooted ss l : Forall plain_segment ss ->
  foldl (clean_step true) [] (split_byte slash ((slash :: join_byte slash ss) ++ slash :: l)) = foldl (clean_step true) (reverse ss) (split_byte slash l).
Proof.
  intros Hp. assert (Forall (fun s => slash ∉ s) ss) as Hf by (eapply Forall_impl; [exact Hp|]; by intros ? []).
  assert (forall st, foldl (clean_step true) st (split_byte slash (join_byte slash ss ++ slash :: l)) = foldl (clean_step true) (reverse ss ++ st) (split_byte slash l)) as H.
  { induction ss as [|s ss IH]; intros st; [done|]. inversion Hp as [|? ? Hs Hss]; inversion Hf as [|? ? Hs' Hss']; subst.
    assert (clean_step true st s = s :: st) as Hpush. { pose proof (clean_pushes true [s] st) as E. simpl in E. rewrite E; [done|by constructor]. }
    destruct ss as [|s' ss].
    - simpl. rewrite split_app by done. simpl. by rewrite Hpush.
    - change (join_byte slash (s :: s' :: ss)) with (s ++ slash :: join_byte slash (s' :: ss)). rewrite <- app_assoc. simpl app. rewrite split_app by done.
      cbn [foldl]. rewrite Hpush, IH by done. change (s :: s' :: ss) with ([s] ++ s' :: ss). by rewrite reverse_app, <- app_assoc. }
  simpl. rewrite H. by rewrite app_nil_r.
Qed.

(** Joining to a clean rooted path goes on from its elements. *)
Lemma path_Join_below ss p : Forall plain_segment ss -> Forall (Forall is_byte) ss ->
  path_Join [rooted_path ss; p] = rooted_path (reverse (foldl (clean_step true) (reverse ss) (split_byte slash (bytes_of p)))).
Proof.
  intros Hp Hb. cbn [path_Join]. destruct (String.eqb_spec (rooted_path ss) "") as [E|_].
  { apply (f_equal bytes_of) in E. rewrite bytes_of_rooted in E by done. done. }
  unfold path_Clean. assert (bytes_of (String.concat "/" [rooted_path ss; p]) = (slash :: join_byte slash ss) ++ slash :: bytes_of p) as ->.
  { rewrite bytes_of_concat. change (bytes_of <$> [rooted_path ss; p]) with [bytes_of (rooted_path ss); bytes_of p]. by rewrite bytes_of_rooted. }
  change ((slash :: join_byte slash ss) ++ slash :: bytes_of p) with (slash :: (join_byte slash ss ++ slash :: bytes_of p)) at 1. cbv iota beta. rewrite N.eqb_refl. cbv zeta iota.
  unfold rooted_path, clean_segments. by rewrite split_rooted.
Qed.

(** The elements never go above where they started, [n] levels down. *)
Fixpoint stays_below (n : nat) (segs : list (list N)) : bool :=
  match segs with
  | [] => true
  | s :: segs' =>
      if bool_decide (s = []) || bool_decide (s = seg_dot) then stays_below n segs'
      else if bool_decide (s = seg_dotdot) then match n with O => false | S m => stays_below m segs' end
      else stays_below (S n) segs'
  end.

Lemma stays_below_clean segs : forall tail ss, Forall (fun s => s <> seg_dotdot) tail -> stays_below (length tail) segs = true ->
  exists tail', foldl (clean_step true) (tail ++ ss) segs = tail' ++ ss.
Proof.
  induction segs as [|s segs IH]; intros tail ss Ht Hs; [by exists tail|]. cbn [foldl stays_below] in *. unfold clean_step at 2.
  destruct (bool_decide (s = []) || bool_decide (s = seg_dot)); [by apply IH|]. destruct (bool_decide (s = seg_dotdot)) eqn:E.
  - destruct Ht as [|x tail Hx Ht]; [done|]. simpl app. cbv iota beta. rewrite bool_decide_eq_false_2 by done. by apply IH.
  - apply bool_decide_eq_false in E. change (s :: tail ++ ss) with ((s :: tail) ++ ss). apply IH; [by constructor|done].
Qed.
