(* ===== verification/Json.v ===== *)
(** * JSON

    First [json.Unmarshal] of a JSON value into a struct with string, boolean
    and pointer fields, and [json.Marshal] with [omitempty]: a key names the
    field whose name it equals up to case folding; [null] leaves a field alone;
    a value of the wrong kind is skipped and the first such error is the call's
    error; unknown keys are ignored.  Then [json.Unmarshal] from bytes. *)

From S2P Require Import Prelude NetAddr Text Models.


(** The folding of encoding/json: ASCII letters to upper case, and the two
    code points outside ASCII whose simple folding has an ASCII letter. *)
Definition fold_rune (r : N) : N :=
  if in_range 97 122 r then (r - 32)%N
  else if (r =? 8490)%N then 75%N
  else if (r =? 383)%N then 83%N
  else r.

Definition fold_name (s : string) : list N := fold_rune <$> runes s.

(** The kind an [UnmarshalTypeError] names. *)
Definition json_kind (j : json) : string :=
  match j with
  | JNull => "null"
  | JBool _ => "bool"
  | JNumber _ => "number"
  | JString _ => "string"
  | JArray _ => "array"
  | JObject _ => "object"
  end.

(** A field: how a value changes the struct, or the kind and the Go type of
    the mismatch. *)
Definition field_decoder (A : Type) : Type := json -> A -> (string * string) + A.

Definition string_field {A} (set : string -> A -> A) : field_decoder A := fun j a =>
  match j with JNull => inr a | JString s => inr (set s a) | _ => inl (json_kind j, "string") end.

Definition bool_field {A} (set : bool -> A -> A) : field_decoder A := fun j a =>
  match j with JNull => inr a | JBool b => inr (set b a) | _ => inl (json_kind j, "bool") end.

(** Pointers: [null] stores nil. *)
Definition string_ptr {A} (set : option string -> A -> A) : field_decoder A := fun j a =>
  match j with JNull => inr (set None a) | JString s => inr (set (Some s) a) | _ => inl (json_kind j, "string") end.

Definition bool_ptr {A} (set : option bool -> A -> A) : field_decoder A := fun j a =>
  match j with JNull => inr (set None a) | JBool b => inr (set (Some b) a) | _ => inl (json_kind j, "bool") end.

Definition int32_ptr {A} (set : option Z -> A -> A) : field_decoder A := fun j a =>
  match j with
  | JNull => inr (set None a)
  | JNumber s =>
      match Atoi s with
      | Some n => if (min_int32 <=? n) && (n <=? max_int32) then inr (set (Some n) a) else inl ("number " +:+ s, "int32")
      | None => inl ("number " +:+ s, "int32")
      end
  | _ => inl (json_kind j, "int32")
  end.

Record GoStruct (A : Type) := mkStruct {
  gs_type : string;
  gs_name : string;
  gs_fields : list (string * field_decoder A)
}.
Arguments mkStruct {A}.
Arguments gs_type {A}.
Arguments gs_name {A}.
Arguments gs_fields {A}.

Definition find_field {D} (fields : list (string * D)) (key : string) : option (string * D) :=
  List.find (fun f => bool_decide (fold_name key = fold_name f.1)) fields.

Fixpoint decode_object {A} (st : GoStruct A) (fs : list (string * json)) (a : A) (err : option string) : A * option string :=
  match fs with
  | [] => (a, err)
  | (k, v) :: fs' =>
      match find_field st.(gs_fields) k with
      | None => decode_object st fs' a err
      | Some (name, dec) =>
          match dec v a with
          | inr a' => decode_object st fs' a' err
          | inl (kind, type) =>
              decode_object st fs' a
                (Some (default ("json: cannot unmarshal " +:+ kind +:+ " into Go struct field " +:+ st.(gs_name) +:+ "." +:+
                                name +:+ " of type " +:+ type) err))
          end
      end
  end.

(** The struct after the call, and the error. *)
Definition json_Unmarshal {A} (st : GoStruct A) (j : json) (a : A) : A * option string :=
  match j with
  | JNull => (a, None)
  | JObject fs => decode_object st fs a None
  | _ => (a, Some ("json: cannot unmarshal " +:+ json_kind j +:+ " into Go value of type " +:+ st.(gs_type)))
  end.

(** ** Marshalling *)

(** Invalid bytes become U+FFFD. *)
Fixpoint valid_fuel (fuel : nat) (l : list N) : list N :=
  match fuel, l with
  | S fuel', _ :: l' =>
      match decode_rune l with
      | Some (_, w) => take w l ++ valid_fuel fuel' (drop w l)
      | None => [239; 191; 189]%N ++ valid_fuel fuel' l'
      end
  | _, _ => []
  end.

Definition valid_text (s : string) : string := let l := bytes_of s in of_bytes (valid_fuel (length l) l).

(** The field of an [omitempty] string, boolean and integer. *)
Definition opt_string (name s : string) : list (string * json) :=
  if String.eqb s "" then [] else [(name, JString (valid_text s))].
Definition opt_bool (name : string) (b : bool) : list (string * json) := if b then [(name, JBool true)] else [].
Definition opt_int (name : string) (n : Z) : list (string * json) :=
  if n =? 0 then [] else [(name, JNumber (pretty n))].

(** * JSON texts

    [json.Unmarshal] from bytes: the syntax encoding/json accepts, with its
    limit on nesting, and the decoding of a value into nested structs, slices,
    strings and integers.  Of a decoding error only its presence is kept. *)

(** ** Tokens *)

Definition is_space (c : N) : bool := ((c =? 32) || (c =? 9) || (c =? 10) || (c =? 13))%N.

Fixpoint skip_space (l : list N) : list N :=
  match l with c :: l' => if is_space c then skip_space l' else l | [] => [] end.

Definition is_digit (c : N) : bool := in_range 48 57 c.

Fixpoint span_digits (l : list N) : list N * list N :=
  match l with
  | c :: l' => if is_digit c then let '(d, r) := span_digits l' in (c :: d, r) else ([], l)
  | [] => ([], [])
  end.

(** One digit or more. *)
Definition digits1 (l : list N) : option (list N * list N) :=
  match span_digits l with ([], _) => None | p => Some p end.

(** The digits before the point: no leading zeros. *)
Definition integer_part (l : list N) : option (list N * list N) :=
  match l with
  | c :: l' => if (c =? 48)%N then Some ([c], l') else digits1 l
  | [] => None
  end.

Definition fraction_part (l : list N) : option (list N * list N) :=
  match l with
  | c :: l' => if (c =? 46)%N then '(d, r) ← digits1 l'; Some (c :: d, r) else Some ([], l)
  | [] => Some ([], [])
  end.

Definition exponent_part (l : list N) : option (list N * list N) :=
  match l with
  | c :: l' =>
      if ((c =? 101) || (c =? 69))%N then
        match l' with
        | s :: l'' => if ((s =? 43) || (s =? 45))%N then '(d, r) ← digits1 l''; Some (c :: s :: d, r)
                      else '(d, r) ← digits1 l'; Some (c :: d, r)
        | [] => None
        end
      else Some ([], l)
  | [] => Some ([], [])
  end.

Definition scan_number (l : list N) : option (list N * list N) :=
  let '(sign, l0) := match l with c :: l' => if (c =? 45)%N then ([c], l') else ([], l) | [] => ([], []) end in
  '(i, l1) ← integer_part l0; '(f, l2) ← fraction_part l1; '(e, l3) ← exponent_part l2;
  Some (sign ++ i ++ f ++ e, l3).

(** *** Strings *)

Definition simple_escape (c : N) : option N :=
  if ((c =? 34) || (c =? 92) || (c =? 47))%N then Some c
  else if (c =? 98)%N then Some 8%N
  else if (c =? 102)%N then Some 12%N
  else if (c =? 110)%N then Some 10%N
  else if (c =? 114)%N then Some 13%N
  else if (c =? 116)%N then Some 9%N
  else None.

Definition hex_digit (c : N) : option N :=
  if in_range 48 57 c then Some (c - 48)%N
  else if in_range 97 102 c then Some (c - 87)%N
  else if in_range 65 70 c then Some (c - 55)%N
  else None.

Definition hex4 (a b c d : N) : option N :=
  w ← hex_digit a; x ← hex_digit b; y ← hex_digit c; z ← hex_digit d; Some (((w * 16 + x) * 16 + y) * 16 + z)%N.

(** [utf16.DecodeRune]; [None] is U+FFFD. *)
Definition surrogate_pair (hi lo : N) : option N :=
  if in_range 55296 56319 hi && in_range 56320 57343 lo
  then Some ((hi - 55296) * 1024 + (lo - 56320) + 65536)%N else None.

Definition prepend (bs : list N) (r : option (list N * list N)) : option (list N * list N) :=
  '(s, l) ← r; Some (bs ++ s, l).

(** The bytes of a string after its opening quote, with escapes resolved: a
    surrogate that is not the first of a pair becomes U+FFFD. *)
Fixpoint scan_string (l : list N) : option (list N * list N) :=
  match l with
  | [] => None
  | c :: l1 =>
      if (c =? 34)%N then Some ([], l1)
      else if (c <? 32)%N then None
      else if negb (c =? 92)%N then prepend [c] (scan_string l1)
      else
        match l1 with
        | e :: ((h1 :: h2 :: h3 :: h4 :: l6) as l2) =>
            match simple_escape e with
            | Some b => prepend [b] (scan_string l2)
            | None =>
                if negb (e =? 117)%N then None
                else
                  match hex4 h1 h2 h3 h4 with
                  | None => None
                  | Some u =>
                      if negb (in_range 55296 57343 u) then prepend (encode_rune u) (scan_string l6)
                      else
                        match l6 with
                        | b :: v :: g1 :: g2 :: g3 :: g4 :: l12 =>
                            match (if (b =? 92)%N && (v =? 117)%N then hex4 g1 g2 g3 g4 else None) ≫= surrogate_pair u with
                            | Some r => prepend (encode_rune r) (scan_string l12)
                            | None => prepend (encode_rune 65533) (scan_string l6)
                            end
                        | _ => prepend (encode_rune 65533) (scan_string l6)
                        end
                  end
            end
        | e :: l2 => match simple_escape e with Some b => prepend [b] (scan_string l2) | None => None end
        | [] => None
        end
  end.

(** Invalid UTF-8 in the text becomes U+FFFD. *)
Definition text_of (bs : list N) : string := valid_text (of_bytes bs).

Fixpoint strip (p l : list N) : option (list N) :=
  match p, l with
  | [], _ => Some l
  | a :: p', b :: l' => if (a =? b)%N then strip p' l' else None
  | _, _ => None
  end.

(** ** Values *)

Definition maxNestingDepth : N := 10000.

Definition parse_scalar (l : list N) : option (json * list N) :=
  match strip (bytes_of "true") l with
  | Some r => Some (JBool true, r)
  | None =>
      match strip (bytes_of "false") l with
      | Some r => Some (JBool false, r)
      | None =>
          match strip (bytes_of "null") l with
          | Some r => Some (JNull, r)
          | None => '(d, r) ← scan_number l; Some (JNumber (of_bytes d), r)
          end
      end
  end.

(** A key and its colon. *)
Definition parse_key (l : list N) : option (string * list N) :=
  match skip_space l with
  | c :: l1 =>
      if (c =? 34)%N then
        '(k, l2) ← scan_string l1;
        match skip_space l2 with
        | c2 :: l3 => if (c2 =? 58)%N then Some (text_of k, l3) else None
        | [] => None
        end
      else None
  | [] => None
  end.

(** What follows an element: a comma or the closing bracket. *)
Definition separator (close : N) (l : list N) : option (bool * list N) :=
  match skip_space l with
  | c :: l' => if (c =? 44)%N then Some (true, l') else if (c =? close)%N then Some (false, l') else None
  | [] => None
  end.

(** An empty list right after the opening bracket. *)
Definition closes (close : N) (l : list N) : option (list N) :=
  match skip_space l with c :: l' => if (c =? close)%N then Some l' else None | [] => None end.

Fixpoint parse_value (fuel : nat) (depth : N) (l : list N) : option (json * list N) :=
  match fuel with
  | O => None
  | S f =>
      match skip_space l with
      | [] => None
      | c :: l1 =>
          if (c =? 34)%N then '(s, r) ← scan_string l1; Some (JString (text_of s), r)
          else if (c =? 91)%N then
            if (maxNestingDepth <=? depth)%N then None
            else match closes 93 l1 with
                 | Some r => Some (JArray [], r)
                 | None => '(items, r) ← parse_items f (depth + 1) l1; Some (JArray items, r)
                 end
          else if (c =? 123)%N then
            if (maxNestingDepth <=? depth)%N then None
            else match closes 125 l1 with
                 | Some r => Some (JObject [], r)
                 | None => '(fs, r) ← parse_members f (depth + 1) l1; Some (JObject fs, r)
                 end
          else parse_scalar (c :: l1)
      end
  end
with parse_items (fuel : nat) (depth : N) (l : list N) : option (list json * list N) :=
  match fuel with
  | O => None
  | S f =>
      '(v, l1) ← parse_value f depth l;
      '(more, l2) ← separator 93 l1;
      if (more : bool) then '(vs, r) ← parse_items f depth l2; Some (v :: vs, r) else Some ([v], l2)
  end
with parse_members (fuel : nat) (depth : N) (l : list N) : option (list (string * json) * list N) :=
  match fuel with
  | O => None
  | S f =>
      '(k, l0) ← parse_key l;
      '(v, l1) ← parse_value f depth l0;
      '(more, l2) ← separator 125 l1;
      if (more : bool) then '(vs, r) ← parse_members f depth l2; Some ((k, v) :: vs, r) else Some ([(k, v)], l2)
  end.

(** The whole text is one value. *)
Definition json_parse (l : list N) : option json :=
  '(v, r) ← parse_value (Datatypes.S (2 * length l)) 0 l;
  match skip_space r with [] => Some v | _ => None end.

(** ** Decoding *)

(** A decoder answers the new value and whether it met no error. *)
Definition payload (A : Type) : Type := json -> A -> A * bool.

Definition text_payload : payload string := fun j s =>
  match j with JNull => (s, true) | JString s' => (s', true) | _ => (s, false) end.

(** Signed integers between the bounds; a literal with a fraction or an
    exponent does not parse. *)
Definition int_payload (lo hi : Z) : payload Z := fun j n =>
  match j with
  | JNull => (n, true)
  | JNumber s => match Atoi s with
                 | Some m => if (lo <=? m) && (m <=? hi) then (m, true) else (n, false)
                 | None => (n, false)
                 end
  | _ => (n, false)
  end.

(** Elements are decoded over those already there. *)
Fixpoint decode_items {A} (p : payload A) (zero : A) (items : list json) (old : list A) : list A * bool :=
  match items with
  | [] => ([], true)
  | j :: items' =>
      let '(x, ok) := p j (default zero (head old)) in
      let '(xs, oks) := decode_items p zero items' (tail old) in
      (x :: xs, ok && oks)
  end.

Definition slice_payload {A} (p : payload A) (zero : A) : payload (list A) := fun j old =>
  match j with
  | JNull => ([], true)
  | JArray items => decode_items p zero items old
  | _ => (old, false)
  end.

Definition field {A B} (get : A -> B) (set : B -> A -> A) (p : payload B) : payload A := fun j a =>
  let '(b, ok) := p j (get a) in (set b a, ok).

Fixpoint decode_fields {A} (fields : list (string * payload A)) (fs : list (string * json)) (a : A) : A * bool :=
  match fs with
  | [] => (a, true)
  | (k, v) :: fs' =>
      match find_field fields k with
      | None => decode_fields fields fs' a
      | Some (_, p) =>
          let '(a', ok) := p v a in
          let '(a'', oks) := decode_fields fields fs' a' in (a'', ok && oks)
      end
  end.

Definition struct_payload {A} (fields : list (string * payload A)) : payload A := fun j a =>
  match j with
  | JNull => (a, true)
  | JObject fs => decode_fields fields fs a
  | _ => (a, false)
  end.

(** [json.Unmarshal(body, &v)], [None] on an error. *)
Definition unmarshal {A} (p : payload A) (zero : A) (body : list N) : option A :=
  j ← json_parse body; let '(a, ok) := p j zero in if (ok : bool) then Some a else None.

(** ** The fuel is enough *)

Lemma skip_space_length l : (length (skip_space l) <= length l)%nat.
Proof. induction l as [|c l IH]; simpl; [done|]. case_match; simpl; lia. Qed.

Lemma span_digits_length l : (length (span_digits l).2 <= length l)%nat.
Proof. induction l as [|c l IH]; simpl; [done|]. case_match; [|done]. destruct (span_digits l); simpl in *. lia. Qed.

Lemma digits1_length l d r : digits1 l = Some (d, r) -> (length r < length l)%nat.
Proof.
  unfold digits1. destruct l as [|c l]; simpl; [done|]. destruct (is_digit c) eqn:E; [|done].
  pose proof (span_digits_length l). destruct (span_digits l). intros [= <- <-]. simpl in *. lia.
Qed.

(** Splits a chain of options into the facts of its steps. *)
Ltac split_chain :=
  repeat match goal with
  | H : Some _ = Some _ |- _ => injection H as ?; subst
  | H : None = Some _ |- _ => discriminate H
  | H : (_ ≫= _) = Some _ |- _ => apply bind_Some in H as ([? ?] & ? & ?)
  | H : context [match ?x with _ => _ end] |- _ => destruct x eqn:?
  end.

Lemma scan_number_length l d r : scan_number l = Some (d, r) -> (length r < length l)%nat.
Proof.
  intros H. unfold scan_number in H.
  destruct (match l with c :: l' => if (c =? 45)%N then ([c], l') else ([], l) | [] => ([], []) end) as [sign l0] eqn:E0.
  assert (length l0 <= length l)%nat by (destruct l; simpl in E0; [|case_match]; simplify_eq; simpl; lia).
  apply bind_Some in H as ([i l1] & H1 & H). apply bind_Some in H as ([f l2] & H2 & H). apply bind_Some in H as ([e l3] & H3 & H).
  injection H as <- <-.
  assert (length l1 < length l0)%nat.
  { unfold integer_part in H1. destruct l0; [done|]. case_match; [simplify_eq; simpl; lia|by apply digits1_length in H1]. }
  assert (length l2 <= length l1)%nat.
  { unfold fraction_part in H2. clear H3. split_chain; simpl in *; try lia;
      match goal with H : digits1 _ = Some _ |- _ => apply digits1_length in H end; simpl in *; lia. }
  assert (length l3 <= length l2)%nat; [|lia].
  unfold exponent_part in H3. split_chain; simpl in *; try lia;
    match goal with H : digits1 _ = Some _ |- _ => apply digits1_length in H end; simpl in *; lia.
Qed.

Lemma prepend_inv bs o s r : prepend bs o = Some (s, r) -> exists s', o = Some (s', r).
Proof. unfold prepend. intros H. split_chain. eauto. Qed.

Lemma scan_string_length l : forall s r, scan_string l = Some (s, r) -> (length r < length l)%nat.
Proof.
  induction l as [l IH] using (induction_ltof1 _ length); unfold ltof in IH. intros s r H.
  destruct l as [|c l1]; [done|]. cbn [scan_string] in H.
  repeat case_match; simplify_eq; simpl; try lia;
    match goal with H : prepend _ _ = Some _ |- _ => apply prepend_inv in H as (s' & H); apply IH in H; simpl in *; lia end.
Qed.

Lemma strip_length p l r : strip p l = Some r -> (length r + length p = length l)%nat.
Proof.
  revert l. induction p as [|a p IH]; intros l H; simpl in H; [simplify_eq; simpl; lia|].
  destruct l; [done|]. case_match; [|done]. apply IH in H. simpl. lia.
Qed.

Lemma parse_scalar_length l v r : parse_scalar l = Some (v, r) -> (length r < length l)%nat.
Proof.
  unfold parse_scalar. intros H. repeat case_match; simplify_eq;
    try match goal with H : strip _ _ = Some _ |- _ => apply strip_length in H; simpl in H; lia end.
  split_chain. by eapply scan_number_length.
Qed.

Lemma parse_key_length l k r : parse_key l = Some (k, r) -> (length r < length l)%nat.
Proof.
  unfold parse_key. pose proof (skip_space_length l). intros H1. split_chain.
  match goal with H : scan_string _ = Some _ |- _ => apply scan_string_length in H end.
  match goal with H : skip_space ?x = _ :: _, H' : (_ < _)%nat |- _ => pose proof (skip_space_length x) as Hs; rewrite H in Hs end.
  simpl in *. lia.
Qed.

Lemma separator_length close l more r : separator close l = Some (more, r) -> (length r < length l)%nat.
Proof. unfold separator. pose proof (skip_space_length l). intros H1. split_chain; simpl in *; lia. Qed.

Lemma closes_length close l r : closes close l = Some r -> (length r < length l)%nat.
Proof. unfold closes. pose proof (skip_space_length l). intros H1. repeat case_match; simplify_eq; simpl in *; lia. Qed.

(** A value, a list of elements and a list of members use up some of the text. *)
Lemma parse_consumes f :
  (forall d l v r, parse_value f d l = Some (v, r) -> (length r < length l)%nat) /\
  (forall d l vs r, parse_items f d l = Some (vs, r) -> (length r < length l)%nat) /\
  (forall d l vs r, parse_members f d l = Some (vs, r) -> (length r < length l)%nat).
Proof.
  induction f as [|f (IHv & IHi & IHm)]; [done|]. split_and!; intros d l v r H; cbn in H.
  - pose proof (skip_space_length l) as Hl. destruct (skip_space l) as [|c l1]; [done|]. simpl in Hl.
    repeat case_match; simplify_eq; split_chain;
      repeat match goal with
      | H : scan_string _ = Some _ |- _ => apply scan_string_length in H
      | H : closes _ _ = Some _ |- _ => apply closes_length in H
      | H : parse_items _ _ _ = Some _ |- _ => apply IHi in H
      | H : parse_members _ _ _ = Some _ |- _ => apply IHm in H
      | H : parse_scalar _ = Some _ |- _ => apply parse_scalar_length in H; simpl in H
      end; lia.
  - apply bind_Some in H as ([x l1] & H1 & H). apply bind_Some in H as ([more l2] & H2 & H).
    apply IHv in H1. apply separator_length in H2. destruct more; [|simplify_eq; lia].
    apply bind_Some in H as ([xs l3] & H3 & H). apply IHi in H3. simplify_eq. lia.
  - apply bind_Some in H as ([k l0] & H0 & H). apply bind_Some in H as ([x l1] & H1 & H). apply bind_Some in H as ([more l2] & H2 & H).
    apply parse_key_length in H0. apply IHv in H1. apply separator_length in H2. destruct more; [|simplify_eq; lia].
    apply bind_Some in H as ([xs l3] & H3 & H). apply IHm in H3. simplify_eq. lia.
Qed.

Lemma bind_same {A B} (o : option A) (g h : A -> option B) :
  (forall x, o = Some x -> g x = h x) -> (o ≫= g) = (o ≫= h).
Proof. destruct o; simpl; auto. Qed.

Lemma parse_value_S f d l :
  parse_value (Datatypes.S f) d l =
  match skip_space l with
  | [] => None
  | c :: l1 =>
      if (c =? 34)%N then '(s, r) ← scan_string l1; Some (JString (text_of s), r)
      else if (c =? 91)%N then
        if (maxNestingDepth <=? d)%N then None
        else match closes 93 l1 with Some r => Some (JArray [], r)
             | None => '(items, r) ← parse_items f (d + 1) l1; Some (JArray items, r) end
      else if (c =? 123)%N then
        if (maxNestingDepth <=? d)%N then None
        else match closes 125 l1 with Some r => Some (JObject [], r)
             | None => '(fs, r) ← parse_members f (d + 1) l1; Some (JObject fs, r) end
      else parse_scalar (c :: l1)
  end.
Proof. reflexivity. Qed.

Lemma parse_items_S f d l :
  parse_items (Datatypes.S f) d l =
  ('(v, l1) ← parse_value f d l; '(more, l2) ← separator 93 l1;
   if (more : bool) then '(vs, r) ← parse_items f d l2; Some (v :: vs, r) else Some ([v], l2)).
Proof. reflexivity. Qed.

Lemma parse_members_S f d l :
  parse_members (Datatypes.S f) d l =
  ('(k, l0) ← parse_key l; '(v, l1) ← parse_value f d l0; '(more, l2) ← separator 125 l1;
   if (more : bool) then '(vs, r) ← parse_members f d l2; Some ((k, v) :: vs, r) else Some ([(k, v)], l2)).
Proof. reflexivity. Qed.

(** Twice the length of the text and one is enough: more fuel changes nothing. *)
Lemma parse_enough f :
  (forall d l, (2 * length l < f)%nat -> parse_value (Datatypes.S f) d l = parse_value f d l) /\
  (forall d l, (2 * length l + 1 < f)%nat -> parse_items (Datatypes.S f) d l = parse_items f d l) /\
  (forall d l, (2 * length l + 1 < f)%nat -> parse_members (Datatypes.S f) d l = parse_members f d l).
Proof.
  induction f as [|f (IHv & IHi & IHm)]; [split_and!; intros; lia|]. destruct (parse_consumes f) as (Cv & _ & _). split_and!; intros d l Hf.
  - rewrite (parse_value_S f), (parse_value_S (Datatypes.S f)). pose proof (skip_space_length l) as Hl.
    destruct (skip_space l) as [|c l1]; [done|]. simpl in Hl. by rewrite IHi, IHm by lia.
  - rewrite (parse_items_S f), (parse_items_S (Datatypes.S f)), IHv by lia.
    apply bind_same. intros [v l1] Hv. apply bind_same. intros [[] l2] Hs; [|done].
    apply Cv in Hv. apply separator_length in Hs. by rewrite IHi by lia.
  - rewrite (parse_members_S f), (parse_members_S (Datatypes.S f)). apply bind_same. intros [k l0] Hk. apply parse_key_length in Hk.
    rewrite IHv by lia. apply bind_same. intros [v l1] Hv. apply bind_same. intros [[] l2] Hs; [|done].
    apply Cv in Hv. apply separator_length in Hs. by rewrite IHm by lia.
Qed.

Lemma parse_fuel f d l : (2 * length l < f)%nat -> parse_value f d l = parse_value (Datatypes.S (2 * length l)) d l.
Proof.
  intros H. replace f with (Datatypes.S (2 * length l) + (f - Datatypes.S (2 * length l)))%nat by lia.
  induction (f - Datatypes.S (2 * length l))%nat as [|n IH]; [by rewrite Nat.add_0_r|].
  rewrite Nat.add_succ_r. rewrite (proj1 (parse_enough _)) by lia. exact IH.
Qed.

(** Texts with apostrophes for quotation marks. *)
Definition quoted (s : string) : list N := (fun c => if (c =? 39)%N then 34%N else c) <$> bytes_of s.

Example parse_sample :
  json_parse (quoted "{'a': [1, -2.5e3, true], 'b\u0041\n': null} ") =
  Some (JObject [("a", JArray [JNumber "1"; JNumber "-2.5e3"; JBool true]); ("bA" +:+ String (Ascii.ascii_of_N 10) "", JNull)]).
Proof. vm_compute. reflexivity. Qed.

Example parse_rejects : json_parse <$> (quoted <$> ["01"; "[1,]"; "{'a':1,}"; "1 2"; ""; "nul"]) = replicate 6 None.
Proof. vm_compute. reflexivity. Qed.
