(* ===== verification/VolumeOps.v ===== *)
(** * Volume operations

    The backup, restore, move and repair operations of a project volume:
    internal/volumeops/handler.go and internal/volumebackup/store.go.

    The host's files, qemu-img, the AWS SDK and its S3 client are parameters
    ([VolumeIO]): their answers depend on the number of the call, and each call
    is an event of the log with its outcome. *)

From S2P Require Import Prelude NetAddr Text Models Runtime Effects Queries Lifecycle Volumes Codecs Secrets Float64 Config VolumeQueries Paths Json.

(** The answers of the calls: [None] is success; an error of the file system
    carries [os.IsNotExist], an error of a command its output. *)
Class VolumeIO := {
  os_Stat : nat -> string -> option (bool * string);
  os_MkdirAll : nat -> string -> option string;
  os_CreateTemp : nat -> string -> string + N;
  os_Close : nat -> string -> option string;
  os_Rename : nat -> string -> string -> option string;
  os_Remove : nat -> string -> option (bool * string);
  os_Open : nat -> string -> option string;
  os_FileSize : nat -> string -> string + Z;
  os_Create : nat -> string -> option string;
  io_Copy : nat -> string -> option string;
  qemu_img_info : nat -> string -> option (string * string);
  qemu_img_check : nat -> string -> option (string * string);
  aws_LoadDefaultConfig : nat -> option string;
  s3_PutObject : nat -> string -> option string;
  s3_GetObject : nat -> string -> option string;
  s3_DeleteObject : nat -> string -> option string
}.

Definition call_ok {E} (r : option E) : bool := match r with None => true | Some _ => false end.

(** ** The object store (internal/volumebackup/store.go) *)

Record S3Store := mkS3Store {
  s3_bucket : string;
  s3_prefix : string
}.

(** [strings.Trim(s, "/")]. *)
Definition trim_slashes (s : string) : string := trim_byte slash s.

Definition BackupObjectKey (volumeID backupID : UUID) : string :=
  path_Join ["project-volumes"; uuid_String volumeID; "backups"; uuid_String backupID +:+ ".qcow2"].

Definition MoveObjectKey (operationID : UUID) : string :=
  path_Join ["project-volumes"; "moves"; uuid_String operationID +:+ ".qcow2"].

Definition S3Store_objectKey (s : S3Store) (objectKey : string) : string :=
  let key := trim_slashes (TrimSpace objectKey) in
  if String.eqb s.(s3_prefix) "" then key else path_Join [s.(s3_prefix); key].

Definition Configured (s : S3Store) : bool := negb (String.eqb s.(s3_bucket) "").

Section store.
Context {env : Env} {VIO : VolumeIO}.

(** A call that answers [None] or an error's text. *)
Definition io_call {E} (ev : bool -> IO) (f : nat -> option E) : M (option E) :=
  extern_io (fun r => ev (call_ok r)) f.

(** The same, with the error returned through [fmt.Errorf]. *)
Definition io_try (ctx : string) (ev : bool -> IO) (f : nat -> option string) : M unit :=
  let! r := io_call ev f in
  match r with None => ret tt | Some msg => throw (ErrWrap ctx (ErrExternal msg)) end.

Definition NewStoreFromSnapshot (snap : Snapshot) : M S3Store :=
  if String.eqb (TrimSpace snap.(sn_VolumeBackupS3Bucket)) "" then throw (ErrMsg "volume backup bucket is not configured")
  else if String.eqb (TrimSpace snap.(sn_VolumeBackupS3Region)) "" then throw (ErrMsg "volume backup region is not configured")
  else if String.eqb (TrimSpace snap.(sn_VolumeBackupS3AccessKeyID)) "" ||
          String.eqb (TrimSpace snap.(sn_VolumeBackupS3SecretAccessKey)) ""
  then throw (ErrMsg "volume backup access key is not configured")
  else
    do! io_try "load s3 config" IoLoadConfig aws_LoadDefaultConfig ;
    ret (mkS3Store (TrimSpace snap.(sn_VolumeBackupS3Bucket))
           (trim_slashes (TrimSpace snap.(sn_VolumeBackupS3Prefix)))).

Definition UploadFile (s : S3Store) (objectKey srcPath : string) : M (string * Z) :=
  if negb (Configured s) then throw (ErrMsg "backup store is not configured")
  else
    do! io_try "open source file" (IoOpen srcPath) (fun n => os_Open n srcPath) ;
    let! info := extern_io (fun r => IoFileInfo srcPath (match r with inr _ => true | inl _ => false end))
                   (fun n => os_FileSize n srcPath) in
    match info with
    | inl msg => throw (ErrWrap "stat source file" (ErrExternal msg))
    | inr size =>
        let key := S3Store_objectKey s objectKey in
        do! io_try "upload to s3" (IoPutObject s.(s3_bucket) key srcPath) (fun n => s3_PutObject n key) ;
        ret ("s3://" +:+ s.(s3_bucket) +:+ "/" +:+ key, size)
    end.

Definition DownloadFile (s : S3Store) (objectKey dstPath : string) : M unit :=
  if negb (Configured s) then throw (ErrMsg "backup store is not configured")
  else
    let key := S3Store_objectKey s objectKey in
    do! io_try "download from s3" (IoGetObject s.(s3_bucket) key) (fun n => s3_GetObject n key) ;
    do! io_try "create destination file" (IoCreate dstPath) (fun n => os_Create n dstPath) ;
    io_try "write downloaded backup" (IoCopyObject s.(s3_bucket) key dstPath) (fun n => io_Copy n dstPath).

Definition DeleteObject (s : S3Store) (objectKey : string) : M unit :=
  if negb (Configured s) then throw (ErrMsg "backup store is not configured")
  else
    let key := S3Store_objectKey s objectKey in
    io_try "delete s3 object" (IoDeleteObject s.(s3_bucket) key) (fun n => s3_DeleteObject n key).

End store.

(** ** Requests and results *)

Record operationRequest := mkOperationRequest {
  or_BackupID : string;
  or_BackupKind : string;
  or_TargetServerID : string;
  or_SourceServerID : string;
  or_Stage : string;
  or_StorageKey : string;
  or_DeleteAfter : bool
}.

Definition zero_request : operationRequest := mkOperationRequest "" "" "" "" "" "" false.

Definition set_or_BackupID (v : string) (r : operationRequest) : operationRequest :=
  mkOperationRequest v r.(or_BackupKind) r.(or_TargetServerID) r.(or_SourceServerID) r.(or_Stage) r.(or_StorageKey) r.(or_DeleteAfter).
Definition set_or_BackupKind (v : string) (r : operationRequest) : operationRequest :=
  mkOperationRequest r.(or_BackupID) v r.(or_TargetServerID) r.(or_SourceServerID) r.(or_Stage) r.(or_StorageKey) r.(or_DeleteAfter).
Definition set_or_TargetServerID (v : string) (r : operationRequest) : operationRequest :=
  mkOperationRequest r.(or_BackupID) r.(or_BackupKind) v r.(or_SourceServerID) r.(or_Stage) r.(or_StorageKey) r.(or_DeleteAfter).
Definition set_or_SourceServerID (v : string) (r : operationRequest) : operationRequest :=
  mkOperationRequest r.(or_BackupID) r.(or_BackupKind) r.(or_TargetServerID) v r.(or_Stage) r.(or_StorageKey) r.(or_DeleteAfter).
Definition set_or_Stage (v : string) (r : operationRequest) : operationRequest :=
  mkOperationRequest r.(or_BackupID) r.(or_BackupKind) r.(or_TargetServerID) r.(or_SourceServerID) v r.(or_StorageKey) r.(or_DeleteAfter).
Definition set_or_StorageKey (v : string) (r : operationRequest) : operationRequest :=
  mkOperationRequest r.(or_BackupID) r.(or_BackupKind) r.(or_TargetServerID) r.(or_SourceServerID) r.(or_Stage) v r.(or_DeleteAfter).
Definition set_or_DeleteAfter (v : bool) (r : operationRequest) : operationRequest :=
  mkOperationRequest r.(or_BackupID) r.(or_BackupKind) r.(or_TargetServerID) r.(or_SourceServerID) r.(or_Stage) r.(or_StorageKey) v.

(** The struct tags. *)
Definition operationRequest_struct : GoStruct operationRequest :=
  mkStruct "volumeops.operationRequest" "operationRequest"
    [("backup_id", string_field set_or_BackupID); ("backup_kind", string_field set_or_BackupKind);
     ("target_server_id", string_field set_or_TargetServerID); ("source_server_id", string_field set_or_SourceServerID);
     ("stage", string_field set_or_Stage); ("storage_key", string_field set_or_StorageKey);
     ("delete_after", bool_field set_or_DeleteAfter)].

(** A [jsonb] column is never empty, so the empty case does not arise. *)
Definition decodeOperationRequest (raw : json) : string + operationRequest :=
  match json_Unmarshal operationRequest_struct raw zero_request with
  | (_, Some e) => inl e
  | (req, None) => inr req
  end.

Definition marshal_request (r : operationRequest) : json :=
  JObject (opt_string "backup_id" r.(or_BackupID) ++ opt_string "backup_kind" r.(or_BackupKind) ++
           opt_string "target_server_id" r.(or_TargetServerID) ++ opt_string "source_server_id" r.(or_SourceServerID) ++
           opt_string "stage" r.(or_Stage) ++ opt_string "storage_key" r.(or_StorageKey) ++
           opt_bool "delete_after" r.(or_DeleteAfter)).

Record operationResult := mkOperationResult {
  ot_BackupID : string;
  ot_TargetServerID : string;
  ot_StorageKey : string;
  ot_StorageURL : string;
  ot_SizeBytes : Z
}.

Definition mustJSON (r : operationResult) : json :=
  JObject (opt_string "backup_id" r.(ot_BackupID) ++ opt_string "target_server_id" r.(ot_TargetServerID) ++
           opt_string "storage_key" r.(ot_StorageKey) ++ opt_string "storage_url" r.(ot_StorageURL) ++
           opt_int "size_bytes" r.(ot_SizeBytes)).

(** ** The handler *)

Definition defaultStalePendingAfter : Duration := 2 * Minute.
Definition defaultStaleRunningAfter : Duration := 45 * Minute.

(** [h_cfg] is nil, or a manager whose snapshot may not be loaded yet. *)
Record Handler := mkHandler {
  h_q : bool;
  h_cfg : option (option Snapshot);
  h_serverID : UUID
}.

Section handler.
Context {env : Env} {S : Sorter} {UP : UuidParser} {VIO : VolumeIO} (h : Handler).

Definition localVolumeHealth (path : string) : M (string * string) :=
  let! st := io_call (IoStat path) (fun n => os_Stat n path) in
  match st with
  | Some (true, _) => ret ("missing", "persistent volume disk is missing at " +:+ path)
  | Some (false, e) => ret ("degraded", "stat persistent volume disk: " +:+ e)
  | None =>
      let! info := io_call (IoImageInfo path) (fun n => qemu_img_info n path) in
      match info with
      | Some (out, e) => ret ("corrupt", "qemu-img info: " +:+ TrimSpace out +:+ ": " +:+ e)
      | None => ret ("healthy", "")
      end
  end.

(** The name [os.CreateTemp] makes of the pattern [.kindling-volume-*]. *)
Definition temp_name (dir : string) (random : N) : string := dir +:+ "/.kindling-volume-" +:+ pretty random.

Definition remove_file (path : string) : M unit :=
  do! io_call (IoRemove path) (fun n => os_Remove n path) ; ret tt.

Definition downloadToPath (store : S3Store) (storageKey dstPath : string) : M unit :=
  if String.eqb (TrimSpace storageKey) "" then throw (ErrMsg "storage key is required")
  else
    let dir := filepath_Dir dstPath in
    do! io_try "create destination directory" (IoMkdir dir) (fun n => os_MkdirAll n dir) ;
    let! tmp := extern_io (fun r => match r with inr k => IoCreateTemp (temp_name dir k) true | inl _ => IoCreateTemp dir false end)
                  (fun n => os_CreateTemp n dir) in
    match tmp with
    | inl msg => throw (ErrWrap "create temp volume file" (ErrExternal msg))
    | inr k =>
        let tmpPath := temp_name dir k in
        let! closed := io_call (IoClose tmpPath) (fun n => os_Close n tmpPath) in
        match closed with
        | Some msg => do! remove_file tmpPath ; throw (ErrWrap "close temp volume file" (ErrExternal msg))
        | None =>
            let! r := attempt (do! wrap "download backup file" (DownloadFile store storageKey tmpPath) ;
                               io_try "replace destination volume" (IoRename tmpPath dstPath)
                                 (fun n => os_Rename n tmpPath dstPath)) in
            do! remove_file tmpPath ;
            of_sum r
        end
    end.

Definition completeOperation (op : ProjectVolumeOperation) (vol : ProjectVolume) (result : operationResult)
    (status health lastError : string) : M unit :=
  do! wrap "update completed operation"
        (exec (ProjectVolumeOperationUpdateState op.(vo_ID) op.(vo_ServerID) "succeeded" op.(vo_RequestMetadata)
                 (mustJSON result) "")) ;
  do! wrap "update volume status"
        (exec (ProjectVolumeUpdateStatusAndHealth vol.(vol_ProjectID) status health (TrimSpace lastError))) ;
  ret tt.

(** What the failed volume's health and status become. *)
Definition failed_health (vol : ProjectVolume) (health : string) : string :=
  let nextHealth := TrimSpace health in
  let nextHealth := if String.eqb nextHealth "" then vol.(vol_Health) else nextHealth in
  if String.eqb nextHealth "" || String.eqb nextHealth "unknown" then "degraded" else nextHealth.

Definition failed_status (nextHealth : string) : string :=
  if String.eqb nextHealth "missing" || String.eqb nextHealth "corrupt" then "unavailable" else "detached".

Definition fail_backup (backupID message : string) : M unit :=
  if String.eqb backupID "" then ret tt
  else
    match uuid_Parse backupID with
    | None => ret tt
    | Some id =>
        let! b := attempt (query (ProjectVolumeBackupFindByID (ToPgtype id))) in
        match b with
        | inl _ => ret tt
        | inr backup =>
            ignore (exec (ProjectVolumeBackupUpdateState backup.(vb_ID) "failed" backup.(vb_StorageUrl) backup.(vb_StorageKey)
                            backup.(vb_SizeBytes) message backup.(vb_Metadata)))
        end
    end.

Definition failOperation (op : ProjectVolumeOperation) (vol : ProjectVolume) (message health backupID : string) : M unit :=
  let message := TrimSpace message in
  let message := if String.eqb message "" then "volume operation failed" else message in
  do! fail_backup backupID message ;
  do! wrap "update failed operation"
        (exec (ProjectVolumeOperationUpdateState op.(vo_ID) op.(vo_ServerID) "failed" op.(vo_RequestMetadata)
                 op.(vo_ResultMetadata) message)) ;
  let nextHealth := failed_health vol health in
  do! wrap "update volume status after failure"
        (exec (ProjectVolumeUpdateStatusAndHealth vol.(vol_ProjectID) (failed_status nextHealth) nextHealth message)) ;
  ret tt.

Definition backupStore : M S3Store :=
  match h.(h_cfg) with
  | Some (Some snap) => NewStoreFromSnapshot snap
  | _ => throw (ErrMsg "volume backup store is not configured")
  end.

(** [int32] counts the backups kept. *)
Definition trim_one (vol : ProjectVolume) (store : S3Store) (kept : Z) (backup : ProjectVolumeBackup) : M Z :=
  if negb (String.eqb backup.(vb_Status) "succeeded") then ret kept
  else
    let kept := wrap32 (kept + 1) in
    if kept <=? vol.(vol_BackupRetentionCount) then ret kept
    else
      let key := TrimSpace backup.(vb_StorageKey) in
      do! when (negb (String.eqb key "")) (wrap "delete expired backup object" (DeleteObject store key)) ;
      do! wrap "delete expired backup record" (exec (ProjectVolumeBackupDeleteByID backup.(vb_ID))) ;
      ret kept.

Definition trimBackups (vol : ProjectVolume) (store : S3Store) : M unit :=
  if vol.(vol_BackupRetentionCount) <=? 0 then ret tt
  else
    let! backups := wrap "list backups for trim" (query (ProjectVolumeBackupFindByProjectID vol.(vol_ProjectID))) in
    do! fold_each (trim_one vol store) backups 0 ;
    ret tt.

Definition is_attached (vol : ProjectVolume) : bool :=
  negb (is_null vol.(vol_AttachedVmID)) || String.eqb vol.(vol_Status) "attached".

(** [if err := m; err != nil { return h.failOperation(...) }]. *)
Definition or_fail {A} (m : M A) (on_err : error -> M unit) (k : A -> M unit) : M unit :=
  let! r := attempt m in
  match r with inl e => on_err e | inr a => k a end.

(** The end of a backup that deletes the volume. *)
Definition delete_after_backup (op : ProjectVolumeOperation) (vol : ProjectVolume) (req : operationRequest)
    (path : string) (result : operationResult) : M unit :=
  let! removed := io_call (IoRemove path) (fun n => os_Remove n path) in
  match removed with
  | Some (false, e) =>
      failOperation op vol ("delete local volume after backup: " +:+ e) "degraded" req.(or_BackupID)
  | _ =>
      do! wrap "update operation state after backup"
            (exec (ProjectVolumeOperationUpdateState op.(vo_ID) op.(vo_ServerID) "succeeded" op.(vo_RequestMetadata)
                     (mustJSON result) "")) ;
      exec (ProjectVolumeSoftDelete vol.(vol_ProjectID))
  end.

(** The backup itself, once its row is found. *)
Definition run_backup_of (op : ProjectVolumeOperation) (vol : ProjectVolume) (req : operationRequest) (backupID : UUID)
    (store : S3Store) (backup : ProjectVolumeBackup) : M unit :=
  let path := PersistentVolumePath (FromPgtype vol.(vol_ID)) in
  let! '(health, healthErr) := localVolumeHealth path in
  if negb (String.eqb healthErr "") then failOperation op vol healthErr health req.(or_BackupID)
  else
    let key := BackupObjectKey (FromPgtype vol.(vol_ID)) backupID in
    or_fail (UploadFile store key path)
      (fun e => failOperation op vol ("upload backup: " +:+ error_Error e) "degraded" req.(or_BackupID))
      (fun '(storageURL, sizeBytes) =>
         or_fail (exec (ProjectVolumeBackupUpdateState backup.(vb_ID) "succeeded" storageURL key sizeBytes ""
                          backup.(vb_Metadata)))
           (fun e => failOperation op vol ("mark backup succeeded: " +:+ error_Error e) "degraded" req.(or_BackupID))
           (fun _ =>
              or_fail (trimBackups vol store)
                (fun e => failOperation op vol ("trim backups: " +:+ error_Error e) "degraded" req.(or_BackupID))
                (fun _ =>
                   let result := mkOperationResult req.(or_BackupID) "" key storageURL sizeBytes in
                   if req.(or_DeleteAfter) then delete_after_backup op vol req path result
                   else completeOperation op vol result "detached" "healthy" ""))).

Definition runBackup (op : ProjectVolumeOperation) (vol : ProjectVolume) : M unit :=
  match decodeOperationRequest op.(vo_RequestMetadata) with
  | inl e => failOperation op vol ("decode backup request: " +:+ e) "" ""
  | inr req =>
      if is_attached vol then failOperation op vol "detach the volume before creating a backup" "" ""
      else if is_null vol.(vol_ServerID) then failOperation op vol "volume is not pinned to a server" "" ""
      else
        match uuid_Parse (TrimSpace req.(or_BackupID)) with
        | None => failOperation op vol "backup operation is missing a backup id" "" ""
        | Some backupID =>
            or_fail backupStore (fun e => failOperation op vol (error_Error e) "" "") (fun store =>
              or_fail (query (ProjectVolumeBackupFindByID (ToPgtype backupID)))
                (fun e => failOperation op vol ("load backup: " +:+ error_Error e) "" "")
                (fun backup =>
                   or_fail (exec (ProjectVolumeBackupUpdateState backup.(vb_ID) "running" backup.(vb_StorageUrl)
                                    backup.(vb_StorageKey) backup.(vb_SizeBytes) "" backup.(vb_Metadata)))
                     (fun e => failOperation op vol ("mark backup running: " +:+ error_Error e) "" "")
                     (fun _ => run_backup_of op vol req backupID store backup)))
        end
  end.

Definition runRestore (op : ProjectVolumeOperation) (vol : ProjectVolume) : M unit :=
  match decodeOperationRequest op.(vo_RequestMetadata) with
  | inl e => failOperation op vol ("decode restore request: " +:+ e) "" ""
  | inr req =>
      if is_attached vol then failOperation op vol "detach the volume before restoring it" "" ""
      else
        match uuid_Parse (TrimSpace req.(or_BackupID)) with
        | None => failOperation op vol "restore operation is missing a backup id" "" ""
        | Some backupID =>
            match uuid_Parse (TrimSpace req.(or_TargetServerID)) with
            | None => failOperation op vol "restore operation is missing a target server" "" ""
            | Some targetServerID =>
                or_fail backupStore (fun e => failOperation op vol (error_Error e) "" "") (fun store =>
                  or_fail (query (ProjectVolumeBackupFindByID (ToPgtype backupID)))
                    (fun e => failOperation op vol ("load backup: " +:+ error_Error e) "" "")
                    (fun backup =>
                       if negb (String.eqb backup.(vb_Status) "succeeded") ||
                          String.eqb (TrimSpace backup.(vb_StorageKey)) ""
                       then failOperation op vol "backup is not ready to restore" "" ""
                       else
                         let path := PersistentVolumePath (FromPgtype vol.(vol_ID)) in
                         or_fail (downloadToPath store backup.(vb_StorageKey) path)
                           (fun e => failOperation op vol ("restore backup: " +:+ error_Error e) "degraded" "")
                           (fun _ =>
                              or_fail (exec (ProjectVolumeAssignServer vol.(vol_ProjectID) (ToPgtype targetServerID)))
                                (fun e => failOperation op vol ("pin restored volume server: " +:+ error_Error e) "degraded" "")
                                (fun _ =>
                                   completeOperation op vol
                                     (mkOperationResult req.(or_BackupID) req.(or_TargetServerID) backup.(vb_StorageKey)
                                        backup.(vb_StorageUrl) backup.(vb_SizeBytes)) "detached" "healthy" ""))))
            end
        end
  end.

(** The upload stage: the source server stores the disk and hands the
    operation to the target. *)
Definition move_upload (op : ProjectVolumeOperation) (vol : ProjectVolume) (req : operationRequest)
    (targetServerID : UUID) (store : S3Store) : M unit :=
  let path := PersistentVolumePath (FromPgtype vol.(vol_ID)) in
  let! '(health, healthErr) := localVolumeHealth path in
  if negb (String.eqb healthErr "") then failOperation op vol healthErr health ""
  else
    let trimmed := TrimSpace req.(or_StorageKey) in
    let key := if String.eqb trimmed "" then MoveObjectKey (FromPgtype op.(vo_ID)) else trimmed in
    let req := if String.eqb trimmed "" then set_or_StorageKey key req else req in
    or_fail (UploadFile store key path)
      (fun e => failOperation op vol ("upload volume for move: " +:+ error_Error e) "degraded" "")
      (fun '(storageURL, sizeBytes) =>
         do! wrap "update move operation state"
               (exec (ProjectVolumeOperationUpdateState op.(vo_ID) (ToPgtype targetServerID) "pending"
                        (marshal_request (set_or_Stage "download" req))
                        (mustJSON (mkOperationResult "" req.(or_TargetServerID) key storageURL sizeBytes)) "")) ;
         ret tt).

(** The download stage: the target server fetches the disk and takes over the
    volume. *)
Definition move_download (op : ProjectVolumeOperation) (vol : ProjectVolume) (req : operationRequest)
    (targetServerID : UUID) (store : S3Store) : M unit :=
  let path := PersistentVolumePath (FromPgtype vol.(vol_ID)) in
  or_fail (downloadToPath store req.(or_StorageKey) path)
    (fun e => failOperation op vol ("download moved volume: " +:+ error_Error e) "degraded" "")
    (fun _ =>
       or_fail (DeleteObject store req.(or_StorageKey))
         (fun e => failOperation op vol ("delete move staging object: " +:+ error_Error e) "degraded" "")
         (fun _ =>
            or_fail (exec (ProjectVolumeAssignServer vol.(vol_ProjectID) (ToPgtype targetServerID)))
              (fun e => failOperation op vol ("pin moved volume server: " +:+ error_Error e) "degraded" "")
              (fun _ =>
                 completeOperation op vol
                   (mkOperationResult "" req.(or_TargetServerID) req.(or_StorageKey) "" 0) "detached" "healthy" ""))).

(** The defaults of the source server and of the stage. *)
Definition move_request (vol : ProjectVolume) (req : operationRequest) : operationRequest :=
  let req := if String.eqb (TrimSpace req.(or_SourceServerID)) ""
             then set_or_SourceServerID (pguuid_ToString vol.(vol_ServerID)) req else req in
  if String.eqb (TrimSpace req.(or_Stage)) "" then set_or_Stage "upload" req else req.

Definition runMove (op : ProjectVolumeOperation) (vol : ProjectVolume) : M unit :=
  match decodeOperationRequest op.(vo_RequestMetadata) with
  | inl e => failOperation op vol ("decode move request: " +:+ e) "" ""
  | inr req =>
      if is_attached vol then failOperation op vol "detach the volume before moving it" "" ""
      else
        let req := move_request vol req in
        match uuid_Parse (TrimSpace req.(or_TargetServerID)) with
        | None => failOperation op vol "move operation is missing a target server" "" ""
        | Some targetServerID =>
            if String.eqb (TrimSpace req.(or_SourceServerID)) (uuid_String targetServerID)
            then failOperation op vol "volume is already pinned to that server" "" ""
            else
              or_fail backupStore (fun e => failOperation op vol (error_Error e) "" "") (fun store =>
                if String.eqb req.(or_Stage) "upload" then move_upload op vol req targetServerID store
                else if String.eqb req.(or_Stage) "download" then move_download op vol req targetServerID store
                else failOperation op vol ("unsupported move stage " +:+ go_quote req.(or_Stage)) "" "")
        end
  end.

Definition runRepair (op : ProjectVolumeOperation) (vol : ProjectVolume) : M unit :=
  if is_attached vol then failOperation op vol "detach the volume before repairing it" "" ""
  else
    let path := PersistentVolumePath (FromPgtype vol.(vol_ID)) in
    let! '(health, healthErr) := localVolumeHealth path in
    if negb (String.eqb healthErr "") && String.eqb health "missing" then failOperation op vol healthErr health ""
    else
      let! r := io_call (IoImageRepair path) (fun n => qemu_img_check n path) in
      match r with
      | Some (out, e) => failOperation op vol ("qemu-img check: " +:+ TrimSpace out +:+ ": " +:+ e) "corrupt" ""
      | None => completeOperation op vol (mkOperationResult "" "" "" "" 0) "detached" "healthy" ""
      end.

(** The handler repeats the deployer's test of a server's runtime. *)
Definition handler_serverSupportsCloudHypervisor (serverID : pgUUID) : M bool := serverSupportsCloudHypervisor serverID.

Definition operationServerHealthy (serverID : pgUUID) : M (bool * string) :=
  match serverID with
  | None => ret (false, "volume operation has no assigned server")
  | Some _ =>
      let! r := attempt (query (ServerFindByID serverID)) in
      match r with
      | inl e => ret (false, "assigned server lookup failed: " +:+ error_Error e)
      | inr server =>
          let name := uuid_String (FromPgtype server.(srv_ID)) in
          if negb (String.eqb server.(srv_Status) "active") then
            ret (false, "assigned server " +:+ name +:+ " is " +:+ server.(srv_Status))
          else
            let! ch := handler_serverSupportsCloudHypervisor server.(srv_ID) in
            if ch then ret (true, "")
            else ret (false, "assigned server " +:+ name +:+ " is not a cloud-hypervisor worker")
      end
  end.

Definition isStaleRunning (op : ProjectVolumeOperation) : M bool :=
  match op.(vo_StartedAt) with
  | Some started =>
      if String.eqb op.(vo_Status) "running" then
        let! t := now in ret (defaultStaleRunningAfter <? time_Sub t started)
      else ret false
  | None => ret false
  end.

(** The operation of its kind. *)
Definition run_kind (op : ProjectVolumeOperation) (vol : ProjectVolume) : M unit :=
  if String.eqb op.(vo_Kind) "backup" then runBackup op vol
  else if String.eqb op.(vo_Kind) "restore" then runRestore op vol
  else if String.eqb op.(vo_Kind) "move" then runMove op vol
  else if String.eqb op.(vo_Kind) "repair" then runRepair op vol
  else failOperation op vol ("unsupported volume operation kind " +:+ go_quote op.(vo_Kind)) "" "".

(** Marks a pending operation as running, then runs it. *)
Definition start_operation (op : ProjectVolumeOperation) (vol : ProjectVolume) : M unit :=
  let! op := (if String.eqb op.(vo_Status) "pending"
              then wrap "mark operation running" (exec (ProjectVolumeOperationUpdateRunning op.(vo_ID)))
              else ret op) in
  run_kind op vol.

(** An operation of another server: left alone while that server is healthy. *)
Definition watch_operation (op : ProjectVolumeOperation) (vol : ProjectVolume) : M unit :=
  let! '(serverHealthy, serverMessage) := operationServerHealthy op.(vo_ServerID) in
  if serverHealthy && String.eqb op.(vo_Status) "pending" then ret tt
  else if serverHealthy && String.eqb op.(vo_Status) "running" then ret tt
  else failOperation op vol serverMessage "" "".

Definition Reconcile (operationID : UUID) : M unit :=
  if negb h.(h_q) then ret tt
  else
    let! r := attempt (query (ProjectVolumeOperationFindByID (ToPgtype operationID))) in
    match r with
    | inl e => if is_no_rows e then ret tt else throw (ErrWrap "fetch volume operation" e)
    | inr op =>
        if String.eqb op.(vo_Status) "succeeded" || String.eqb op.(vo_Status) "failed" then ret tt
        else
          let! v := attempt (query (ProjectVolumeFindByID op.(vo_ProjectVolumeID))) in
          match v with
          | inl e => if is_no_rows e then ret tt else throw (ErrWrap "fetch volume" e)
          | inr vol =>
              let! stale := isStaleRunning op in
              if stale then failOperation op vol "volume operation timed out" "" ""
              else
                match op.(vo_ServerID) with
                | Some server =>
                    if bool_decide (server = h.(h_serverID)) then start_operation op vol else watch_operation op vol
                | None => start_operation op vol
                end
          end
    end.

(** [q == nil || sched == nil]. *)
Definition QueueRecoverableOperations (q sched : bool) : M unit :=
  if negb q || negb sched then ret tt
  else
    let schedule (op : ProjectVolumeOperation) : M unit :=
      match op.(vo_ID) with
      | Some id => let! t := now in emit (EvSchedule SchedVolumeOperations id t)
      | None => ret tt
      end in
    let! pending := wrap "find stale pending operations"
                      (query (ProjectVolumeOperationFindStalePending (defaultStalePendingAfter / Second))) in
    do! for_each pending schedule ;
    let! running := wrap "find stale running operations"
                      (query (ProjectVolumeOperationFindStaleRunning (defaultStaleRunningAfter / Second))) in
    for_each running schedule.

End handler.
