(* ===== verification/StorageLogic.v ===== *)
(** * Disks and objects

    What the calls of the log do to the servers' disks and to the object store,
    and a Hoare logic for handlers over the database and that storage.

    A call that failed may have taken effect where the real call can: an upload
    or a deletion whose answer was lost, a download cut short. *)

From S2P Require Import Prelude NetAddr Text Models Runtime Effects Queries Logic EventLogic.

(** The contents of the files of every server, and of the objects of every
    bucket; a content is a number. *)
Record Storage := mkStorage {
  st_disks : gmap (UUID * string) N;
  st_objects : gmap (string * string) N
}.

Definition put_disk (me : UUID) (path : string) (c : N) (s : Storage) : Storage :=
  mkStorage (<[(me, path) := c]> s.(st_disks)) s.(st_objects).
Definition del_disk (me : UUID) (path : string) (s : Storage) : Storage :=
  mkStorage (delete (me, path) s.(st_disks)) s.(st_objects).
Definition put_object (bucket key : string) (c : N) (s : Storage) : Storage :=
  mkStorage s.(st_disks) (<[(bucket, key) := c]> s.(st_objects)).
Definition del_object (bucket key : string) (s : Storage) : Storage :=
  mkStorage s.(st_disks) (delete (bucket, key) s.(st_objects)).

(** One call made on the server [me]. *)
Definition io_step (me : UUID) (io : IO) (s s' : Storage) : Prop :=
  match io with
  | IoCreateTemp p true => s.(st_disks) !! (me, p) = None /\ exists c, s' = put_disk me p c s
  | IoCreate p true => exists c, s' = put_disk me p c s
  | IoRename p q true => exists c, s.(st_disks) !! (me, p) = Some c /\ s' = put_disk me q c (del_disk me p s)
  | IoRemove p true => s' = del_disk me p s
  | IoImageRepair p _ => s' = s \/ exists c, s' = put_disk me p c s
  | IoPutObject b k p true => exists c, s.(st_disks) !! (me, p) = Some c /\ s' = put_object b k c s
  | IoPutObject b k p false => s' = s \/ exists c, s.(st_disks) !! (me, p) = Some c /\ s' = put_object b k c s
  | IoCopyObject b k p true => exists c, s.(st_objects) !! (b, k) = Some c /\ s' = put_disk me p c s
  | IoCopyObject b k p false => s' = s \/ exists c, s' = put_disk me p c s
  | IoDeleteObject b k true => s' = del_object b k s
  | IoDeleteObject b k false => s' = s \/ s' = del_object b k s
  | _ => s' = s
  end.

Definition event_step (me : UUID) (e : Event) (s s' : Storage) : Prop :=
  match e with EvIO io => io_step me io s s' | _ => s' = s end.

(** The events of a run, the latest first, as the log has them. *)
Fixpoint replay (me : UUID) (evs : list Event) (s s' : Storage) : Prop :=
  match evs with
  | [] => s' = s
  | e :: evs' => exists s1, replay me evs' s s1 /\ event_step me e s1 s'
  end.

Lemma replay_app me evs2 evs1 s s' :
  replay me (evs2 ++ evs1) s s' <-> exists s1, replay me evs1 s s1 /\ replay me evs2 s1 s'.
Proof.
  revert s'. induction evs2 as [|e evs2 IH]; intros s'; simpl.
  - split; [eauto|]. by intros (s1 & H & ->).
  - split.
    + intros (s2 & H & He). apply IH in H as (s1 & H1 & H2). eauto.
    + intros (s1 & H1 & s2 & H2 & He). exists s2. split; [|done]. apply IH. eauto.
Qed.

(** ** Triples *)

Create HintDb storage discriminated.

Section triple.
Context {env : Env} (me : UUID).

(** The run only adds events to the log; from a state of [P], in every storage
    they can lead to, [Q] holds of the result, or [X] when there is none. *)
Record htriple {A} (P : Db -> Storage -> Prop) (m : M A) (Q : A -> Db -> Storage -> Prop) (X : Db -> Storage -> Prop) : Prop := {
  ht_grows : emits (fun _ => True) m;
  ht_run w s evs s' :
    P (w_db w) s -> w_log (m w).2 = evs ++ w_log w -> replay me evs s s' ->
    match (m w).1 with Ret a => Q a (w_db (m w).2) s' | _ => X (w_db (m w).2) s' end
}.

Implicit Types P X : Db -> Storage -> Prop.

Lemma ht_conseq {A} P P' (m : M A) (Q Q' : A -> Db -> Storage -> Prop) X X' :
  htriple P' m Q' X' ->
  (forall d s, P d s -> P' d s) -> (forall a d s, Q' a d s -> Q a d s) -> (forall d s, X' d s -> X d s) ->
  htriple P m Q X.
Proof.
  intros [Hg H] HP HQ HX. split; [done|]. intros w s evs s' Hw Hl Hr.
  specialize (H w s evs s' (HP _ _ Hw) Hl Hr). destruct ((m w).1); auto.
Qed.

Lemma ht_pre {A} P P' (m : M A) Q X : htriple P' m Q X -> (forall d s, P d s -> P' d s) -> htriple P m Q X.
Proof. intros H HP. eapply ht_conseq; eauto. Qed.

Lemma ht_post {A} P (m : M A) (Q Q' : A -> Db -> Storage -> Prop) X :
  htriple P m Q' X -> (forall a d s, Q' a d s -> Q a d s) -> htriple P m Q X.
Proof. intros H HQ. eapply ht_conseq; eauto. Qed.

Lemma log_nil (l evs : list Event) : l = evs ++ l -> evs = [].
Proof. intros H. apply (f_equal length) in H. rewrite length_app in H. destruct evs; simpl in *; [done|lia]. Qed.

Lemma log_cons e (l evs : list Event) : e :: l = evs ++ l -> evs = [e].
Proof.
  intros H. change (e :: l) with ([e] ++ l) in H. by apply app_inv_tail in H.
Qed.

(** A run that leaves the log and the database alone. *)
Lemma ht_pure {A} P (m : M A) (Q : A -> Db -> Storage -> Prop) X :
  (forall w, w_log (m w).2 = w_log w /\ w_db (m w).2 = w_db w) ->
  (forall w s, P (w_db w) s -> match (m w).1 with Ret a => Q a (w_db w) s | _ => X (w_db w) s end) ->
  htriple P m Q X.
Proof.
  intros Hm H. split; [intros w; apply log_same, Hm|]. intros w s evs s' Hw Hl Hr.
  destruct (Hm w) as [Hl' Hd]. rewrite Hl' in Hl. apply log_nil in Hl as ->. simpl in Hr. subst s'.
  rewrite Hd. by apply H.
Qed.

Lemma ht_ret {A} P (a : A) (Q : A -> Db -> Storage -> Prop) X : (forall d s, P d s -> Q a d s) -> htriple P (ret a) Q X.
Proof. intros H. apply ht_pure; [done|]. intros w s Hw. simpl. auto. Qed.

Lemma ht_throw {A} P e (Q : A -> Db -> Storage -> Prop) X : (forall d s, P d s -> X d s) -> htriple P (throw e) Q X.
Proof. intros H. apply ht_pure; [done|]. intros w s Hw. simpl. auto. Qed.

Lemma ht_now P Q X : (forall t d s, P d s -> Q t d s) -> htriple P now Q X.
Proof. intros H. apply ht_pure; [done|]. intros w s Hw. simpl. auto. Qed.

Lemma ht_bind {A B} P (m : M A) (k : A -> M B) R Q X :
  htriple P m R X -> (forall a, htriple (R a) (k a) Q X) -> htriple P (bind m k) Q X.
Proof.
  intros [Gm Hm] Hk. split; [apply em_bind; [done|]; intros a; apply (Hk a)|].
  intros w s evs s' Hw Hl Hr. destruct (Gm w) as (evs1 & Hl1 & _). specialize (Hm w s evs1).
  unfold bind in *. destruct (m w) as [[a|e| |] w1] eqn:E; simpl in *;
    try (rewrite Hl1 in Hl; apply app_inv_tail in Hl as <-; by apply Hm).
  destruct (Hk a) as [Gk HK]. destruct (Gk w1) as (evs2 & Hl2 & _). rewrite Hl2, Hl1, app_assoc in Hl.
  apply app_inv_tail in Hl as <-. apply replay_app in Hr as (s1 & Hr1 & Hr2).
  apply (HK w1 s1 evs2); auto.
Qed.

Lemma ht_attempt {A} P (m : M A) (Q : error + A -> Db -> Storage -> Prop) X :
  htriple P m (fun a => Q (inr a)) (fun d s => X d s /\ forall e, Q (inl e) d s) -> htriple P (attempt m) Q X.
Proof.
  intros [Gm Hm]. split; [by apply em_attempt|]. intros w s evs s' Hw Hl Hr. specialize (Hm w s evs s' Hw).
  unfold attempt in *. destruct (m w) as [[a|e| |] w1]; simpl in *; try (by apply Hm); by apply Hm in Hl as [??].
Qed.

Lemma ht_wrap {A} P ctx (m : M A) Q X : htriple P m Q X -> htriple P (wrap ctx m) Q X.
Proof.
  intros [Gm Hm]. split; [by apply em_wrap|]. intros w s evs s' Hw Hl Hr. specialize (Hm w s evs s' Hw).
  unfold wrap in *. destruct (m w) as [[a|e| |] w1]; simpl in *; by apply Hm.
Qed.

Lemma ht_query {A} P (f : reads A) (Q : A -> Db -> Storage -> Prop) X :
  (forall d s, P d s -> X d s) -> (forall t a d s, P d s -> f t d = inr a -> Q a d s) -> htriple P (query f) Q X.
Proof.
  intros HX HQ. apply ht_pure; [intros w; unfold query; repeat case_match; done|].
  intros w s Hw. unfold query. repeat case_match; simpl in *; simplify_eq; eauto.
Qed.

Lemma ht_exec {A} P (f : writes A) (Q : A -> Db -> Storage -> Prop) X :
  (forall d s, P d s -> X d s) ->
  (forall t a d d' s, P d s -> f t d = inr (a, d') -> Q a d' s /\ X d' s) -> htriple P (exec f) Q X.
Proof.
  intros HX HQ. split; [apply em_exec|]. intros w s evs s' Hw Hl Hr.
  assert (w_log (exec f w).2 = w_log w) as Hlog by (unfold exec; repeat case_match; done).
  rewrite Hlog in Hl. apply log_nil in Hl as ->. simpl in Hr. subst s'.
  unfold exec. repeat case_match; simpl in *; simplify_eq; eauto; by eapply HQ.
Qed.

Lemma ht_extern_io {A} P (ev : A -> IO) f (Q : A -> Db -> Storage -> Prop) X :
  (forall r d s s', P d s -> io_step me (ev r) s s' -> Q r d s') -> htriple P (extern_io ev f) Q X.
Proof.
  intros H. split; [by apply em_extern_io|]. intros w s evs s' Hw Hl Hr. simpl in *.
  apply log_cons in Hl as ->. simpl in Hr. destruct Hr as (s1 & -> & Hs). eauto.
Qed.

Lemma ht_emit P e (Q : unit -> Db -> Storage -> Prop) X :
  (forall d s s', P d s -> event_step me e s s' -> Q tt d s') -> htriple P (emit e) Q X.
Proof.
  intros H. split; [by apply em_emit|]. intros w s evs s' Hw Hl Hr. simpl in *.
  apply log_cons in Hl as ->. simpl in Hr. destruct Hr as (s1 & -> & Hs). eauto.
Qed.

Lemma ht_when P b m (Q : unit -> Db -> Storage -> Prop) X :
  (forall d s, P d s -> Q tt d s) -> htriple P m Q X -> htriple P (when b m) Q X.
Proof. intros H Hm. destruct b; [done|]. by apply ht_ret. Qed.

Lemma ht_ignore {A} P (m : M A) J X :
  htriple P m (fun _ => J) (fun d s => X d s /\ J d s) -> htriple P (ignore m) (fun _ => J) X.
Proof.
  intros Hm. eapply ht_bind; [|intros a; apply ht_ret; intros d s H; exact H].
  apply ht_attempt. eapply ht_conseq; eauto. simpl. intros d s [H1 H2]. auto.
Qed.

Lemma ht_fold_each {A B} (J : B -> Db -> Storage -> Prop) X (f : B -> A -> M B) l :
  (forall b x, x ∈ l -> htriple (J b) (f b x) J X) -> forall b, htriple (J b) (fold_each f l b) J X.
Proof.
  induction l as [|x l IH]; intros H b; simpl; [by apply ht_ret|].
  eapply ht_bind; [apply H; constructor|]. intros b'. apply IH. intros. apply H. by constructor.
Qed.

End triple.
