(* ===== verification/VolumeMove.v ===== *)
(** * Moving a volume

    The stored form of an operation, and the data of a volume during a move,
    over any number of runs of the handler on any servers, whatever fails. *)

From S2P Require Import Prelude NetAddr Text Models Runtime Effects Queries Logic EventLogic TableFacts Lifecycle Volumes VolumeQueries Codecs Secrets Config Paths Json VolumeOps StorageLogic.


(** ** Texts *)

Lemma valid_fuel_ascii fuel l :
  (length l <= fuel)%nat -> Forall (fun b => (b < 128)%N) l -> valid_fuel fuel l = l.
Proof.
  revert fuel. induction l as [|b l IH]; intros fuel Hf H; [by destruct fuel|].
  destruct fuel as [|fuel]; simpl in Hf; [lia|]. inversion H as [|? ? Hb Hl]; subst. simpl.
  apply N.ltb_lt in Hb. rewrite Hb. simpl. rewrite drop_0. f_equal. apply IH; [lia|done].
Qed.

Lemma valid_text_ascii s : Forall (fun b => (b < 128)%N) (bytes_of s) -> valid_text s = s.
Proof.
  intros H. unfold valid_text. rewrite valid_fuel_ascii by done. apply of_bytes_bytes_of.
Qed.

Lemma bytes_graphic s :
  Forall (fun c => graphic c = true) (str_bytes s) -> Forall (fun b => (b < 128)%N) (bytes_of s).
Proof.
  intros H. unfold bytes_of. apply Forall_fmap. eapply Forall_impl; [exact H|]. intros c Hc. simpl.
  unfold graphic in Hc. apply andb_true_iff in Hc as [_ Hc]. by apply N.ltb_lt.
Qed.

Lemma valid_uuid u : valid_text (uuid_String u) = uuid_String u.
Proof. apply valid_text_ascii, bytes_graphic, uuid_String_graphic. Qed.

(** ** Requests *)

Lemma decode_opt_string {A} (st : GoStruct A) name set s fs a err :
  find_field (gs_fields st) name = Some (name, string_field set) -> valid_text s = s ->
  (s = "" -> set "" a = a) -> decode_object st (opt_string name s ++ fs) a err = decode_object st fs (set s a) err.
Proof.
  intros Hf Hs H0. unfold opt_string. destruct (String.eqb_spec s "") as [->|Hne].
  - by rewrite H0.
  - simpl. by rewrite Hf, Hs.
Qed.

Lemma decode_opt_bool {A} (st : GoStruct A) name set b fs a err :
  find_field (gs_fields st) name = Some (name, bool_field set) ->
  (b = false -> set false a = a) -> decode_object st (opt_bool name b ++ fs) a err = decode_object st fs (set b a) err.
Proof. intros Hf H0. destruct b; simpl; [by rewrite Hf|by rewrite H0]. Qed.

(** The strings of a request that [json.Marshal] leaves as they are. *)
Definition request_text (r : operationRequest) : Prop :=
  Forall (fun s => valid_text s = s)
    [or_BackupID r; or_BackupKind r; or_TargetServerID r; or_SourceServerID r; or_Stage r; or_StorageKey r].

Lemma decode_marshal r : request_text r -> decodeOperationRequest (marshal_request r) = inr r.
Proof.
  intros H. unfold request_text in H. rewrite !Forall_cons in H. destruct H as (H1 & H2 & H3 & H4 & H5 & H6 & _).
  unfold decodeOperationRequest, marshal_request, json_Unmarshal.
  rewrite <- (app_nil_r (opt_bool _ _)). destruct r as [b k t s g key d]; simpl in *.
  rewrite (decode_opt_string _ _ set_or_BackupID) by done. rewrite (decode_opt_string _ _ set_or_BackupKind) by done.
  rewrite (decode_opt_string _ _ set_or_TargetServerID) by done. rewrite (decode_opt_string _ _ set_or_SourceServerID) by done.
  rewrite (decode_opt_string _ _ set_or_Stage) by done. rewrite (decode_opt_string _ _ set_or_StorageKey) by done.
  by rewrite (decode_opt_bool _ _ set_or_DeleteAfter).
Qed.

(** ** Object keys *)

Lemma plain_ascii s :
  Forall (fun c => graphic c = true /\ Ascii.N_of_ascii c <> slash) (str_bytes s) -> s <> "" -> s <> "." -> s <> ".." ->
  plain_segment (bytes_of s).
Proof.
  intros H H0 H1 H2. split.
  - intros E. apply H0. by rewrite <- (of_bytes_bytes_of s), E.
  - intros E. apply H1. by rewrite <- (of_bytes_bytes_of s), E.
  - intros E. apply H2. by rewrite <- (of_bytes_bytes_of s), E.
  - unfold bytes_of. intros (c & Hc & Hin)%list_elem_of_fmap. rewrite Forall_forall in H. by destruct (H _ Hin).
Qed.

Lemma hex_dash_plain c : hex_dash c = true -> graphic c = true /\ Ascii.N_of_ascii c <> slash.
Proof.
  intros H. split; [by apply hex_dash_graphic|]. unfold hex_dash in H. unfold slash.
  rewrite !orb_true_iff, !andb_true_iff, N.eqb_eq, !N.leb_le in H. lia.
Qed.

Lemma uuid_String_head u : exists c s, uuid_String u = String c s /\ hex_dash c = true.
Proof.
  pose proof (uuid_String_dash u) as H. destruct (uuid_String u) as [|c s] eqn:E; [by destruct (uuid_String_nonempty u)|].
  exists c, s. split; [done|]. simpl in H. by inversion H.
Qed.

(** The file name of a disk or an object. *)
Lemma disk_name_plain u : plain_segment (bytes_of (uuid_String u +:+ ".qcow2")).
Proof.
  destruct (uuid_String_head u) as (c & s & E & Hc). apply plain_ascii.
  - rewrite str_bytes_app. apply Forall_app. split.
    + eapply Forall_impl; [apply uuid_String_dash|]. apply hex_dash_plain.
    + repeat constructor; done.
  - by rewrite E.
  - rewrite E. simpl. by destruct s.
  - rewrite E. simpl. intros [= -> _]. done.
Qed.

Lemma uuid_plain u : plain_segment (bytes_of (uuid_String u)).
Proof.
  destruct (uuid_String_head u) as (c & s & E & Hc). apply plain_ascii.
  - eapply Forall_impl; [apply uuid_String_dash|]. apply hex_dash_plain.
  - by rewrite E.
  - rewrite E. intros [= -> _]. done.
  - rewrite E. intros [= -> _]. done.
Qed.

Lemma MoveObjectKey_eq o : MoveObjectKey o = "project-volumes/moves/" +:+ uuid_String o +:+ ".qcow2".
Proof.
  unfold MoveObjectKey. rewrite path_Join_plain; [done|done|].
  rewrite !Forall_cons. split_and!; [| |apply disk_name_plain|constructor];
    (apply plain_ascii; [by repeat constructor|done..]).
Qed.

Lemma BackupObjectKey_eq v b :
  BackupObjectKey v b = "project-volumes/" +:+ uuid_String v +:+ "/backups/" +:+ uuid_String b +:+ ".qcow2".
Proof.
  unfold BackupObjectKey. rewrite path_Join_plain; [done|done|].
  rewrite !Forall_cons. split_and!; [|apply uuid_plain| |apply disk_name_plain|constructor];
    (apply plain_ascii; [by repeat constructor|done..]).
Qed.

(** * Moving a volume

    The data of a volume during a move, over any number of runs of the handler
    on any servers, whatever fails. *)

(** ** Temporary files *)

Lemma pretty_N_char_digit n : Ascii.N_of_ascii (pretty_N_char n) <> slash.
Proof. unfold slash, pretty_N_char. repeat case_match; by vm_compute. Qed.

Lemma pretty_N_go_digits n acc :
  Forall (fun a => Ascii.N_of_ascii a <> slash) (str_bytes acc) ->
  Forall (fun a => Ascii.N_of_ascii a <> slash) (str_bytes (pretty_N_go n acc)).
Proof.
  revert acc. induction n as [n IH] using (well_founded_induction N.lt_wf_0). intros acc H.
  destruct (decide (0 < n)%N) as [Hn|Hn].
  - rewrite pretty_N_go_step by done. apply IH; [by apply N.div_lt|]. constructor; [apply pretty_N_char_digit|done].
  - assert (n = 0)%N as -> by lia. by rewrite pretty_N_go_0.
Qed.

Lemma pretty_N_no_slash (n : N) : slash ∉ bytes_of (pretty n).
Proof.
  assert (Forall (fun a => Ascii.N_of_ascii a <> slash) (str_bytes (pretty n))) as H.
  { unfold pretty, pretty_N. case_decide; [by repeat constructor|]. apply pretty_N_go_digits. constructor. }
  unfold bytes_of. intros (a & Ha & Hin)%list_elem_of_fmap. rewrite Forall_forall in H. by destruct (H _ Hin).
Qed.

Lemma split_nonempty c l : split_byte c l <> [].
Proof. destruct l as [|b l]; simpl; [done|]. destruct (b =? c)%N; [done|]. by destruct (split_byte c l). Qed.

Lemma split_last c a b : c ∉ b -> exists ss, ss <> [] /\ split_byte c (a ++ c :: b) = ss ++ [b].
Proof.
  intros Hb. induction a as [|x a (ss & Hne & IH)]; simpl.
  - rewrite N.eqb_refl, split_free by done. by exists [[]].
  - destruct (N.eqb_spec x c); rewrite IH.
    + by exists ([] :: ss).
    + destruct ss as [|y ss]; [done|]. by exists ((x :: y) :: ss).
Qed.

(** The name of a temporary file is never the name of a disk. *)
Lemma temp_not_disk D dir k v : temp_name D k <> dir +:+ "/" +:+ uuid_String v +:+ ".qcow2".
Proof.
  intros H. apply (f_equal bytes_of) in H. unfold temp_name in H.
  destruct (split_last slash (bytes_of dir) (bytes_of (uuid_String v +:+ ".qcow2"))) as (ss2 & _ & E2);
    [apply disk_name_plain|].
  destruct (split_last slash (bytes_of D) (bytes_of (".kindling-volume-" +:+ pretty k))) as (ss1 & _ & E1).
  { rewrite bytes_of_app. intros [Hin|Hin]%elem_of_app; [|by apply pretty_N_no_slash in Hin].
    apply (bool_decide_eq_true_2 _) in Hin. by vm_compute in Hin. }
  assert (bytes_of D ++ slash :: bytes_of (".kindling-volume-" +:+ pretty k) =
          bytes_of dir ++ slash :: bytes_of (uuid_String v +:+ ".qcow2")) as H'.
  { rewrite (bytes_of_app D), (bytes_of_app dir) in H. exact H. }
  apply (f_equal (split_byte slash)) in H'. rewrite E1, E2 in H'. apply app_inj_tail in H' as [_ H'].
  destruct (uuid_String_head v) as (a & s & E & Ha). rewrite E in H'. revert Ha. unfold hex_dash.
  apply (f_equal head) in H'. simpl in H'. injection H' as <-. done.
Qed.

(** ** Triples of the handler's building blocks *)

Section blocks.
Context {env : Env} (me : UUID).
Implicit Types P X : Db -> Storage -> Prop.

Lemma ht_io_call {E} P ev (f : nat -> option E) (Q : option E -> Db -> Storage -> Prop) X :
  (forall r d s s', P d s -> io_step me (ev (call_ok r)) s s' -> Q r d s') -> htriple me P (io_call ev f) Q X.
Proof. intros H. by apply ht_extern_io. Qed.

Lemma ht_io_try P ctx ev f (Q : unit -> Db -> Storage -> Prop) X :
  (forall d s s', P d s -> io_step me (ev true) s s' -> Q tt d s') ->
  (forall d s s', P d s -> io_step me (ev false) s s' -> X d s') -> htriple me P (io_try ctx ev f) Q X.
Proof.
  intros H1 H2. eapply (ht_bind me P _ _ (fun r d s => match r with None => Q tt d s | Some _ => X d s end)).
  - apply ht_io_call. intros [e|] d s s' HP Hs; simpl in Hs; eauto.
  - intros [e|]; [by apply ht_throw|by apply ht_ret].
Qed.

Lemma ht_or_fail {A} P (m : M A) on_err k R E (Q : unit -> Db -> Storage -> Prop) X :
  htriple me P m R E -> (forall d s, E d s -> X d s) -> (forall e, htriple me E (on_err e) Q X) ->
  (forall a, htriple me (R a) (k a) Q X) -> htriple me P (or_fail m on_err k) Q X.
Proof.
  intros Hm HX He Hk. eapply (ht_bind me P _ _ (fun r => match r with inl _ => E | inr a => R a end)).
  - apply ht_attempt. eapply ht_conseq; eauto.
  - intros [e|a]; auto.
Qed.

(** Every call the handler makes only adds to the log. *)
Lemma grows_io_call {E} ev (f : nat -> option E) : emits (fun _ => True) (io_call ev f).
Proof. unfold io_call. solve_emits. Qed.
Lemma grows_io_try ctx ev f : emits (fun _ => True) (io_try ctx ev f).
Proof. unfold io_try. pose proof (@grows_io_call). solve_emits. Qed.
#[local] Hint Resolve grows_io_call grows_io_try : emits.

Lemma grows_or_fail {A} (m : M A) on_err k :
  emits (fun _ => True) m -> (forall e, emits (fun _ => True) (on_err e)) -> (forall a, emits (fun _ => True) (k a)) ->
  emits (fun _ => True) (or_fail m on_err k).
Proof. intros. unfold or_fail. solve_emits. Qed.

Lemma grows_fail {S : Sorter} {UP : UuidParser} op vol msg health b : emits (fun _ => True) (failOperation op vol msg health b).
Proof. unfold failOperation, fail_backup. solve_emits. Qed.
Lemma grows_complete {S : Sorter} op vol r st he e : emits (fun _ => True) (completeOperation op vol r st he e).
Proof. unfold completeOperation. solve_emits. Qed.
Lemma grows_health {VIO : VolumeIO} q : emits (fun _ => True) (localVolumeHealth q).
Proof. unfold localVolumeHealth. solve_emits. Qed.
Lemma grows_upload {VIO : VolumeIO} st key q : emits (fun _ => True) (UploadFile st key q).
Proof. unfold UploadFile. solve_emits. Qed.
Lemma grows_delete {VIO : VolumeIO} st key : emits (fun _ => True) (DeleteObject st key).
Proof. unfold DeleteObject. solve_emits. Qed.
Lemma grows_download {VIO : VolumeIO} st key q : emits (fun _ => True) (downloadToPath st key q).
Proof. unfold downloadToPath, remove_file, DownloadFile. solve_emits. Qed.
Lemma grows_store {VIO : VolumeIO} h : emits (fun _ => True) (backupStore h).
Proof. unfold backupStore, NewStoreFromSnapshot. solve_emits. Qed.

(** A case distinction on a fact of the precondition. *)
Lemma ht_fact {A} (F : Prop) P (m : M A) Q X :
  emits (fun _ => True) m -> (forall d s, P d s -> F) -> (F -> htriple me P m Q X) -> htriple me P m Q X.
Proof. intros Hg HF H. split; [done|]. intros w s evs s' Hw. eapply H; eauto. Qed.

Lemma ht_ex {A B} (R : B -> Db -> Storage -> Prop) (m : M A) Q X :
  emits (fun _ => True) m -> (forall b, htriple me (R b) m Q X) -> htriple me (fun d s => exists b, R b d s) m Q X.
Proof. intros Hg H. split; [done|]. intros w s evs s' (b & Hb). by eapply H. Qed.

End blocks.

#[export] Hint Resolve grows_io_call grows_io_try grows_fail grows_complete grows_health grows_upload grows_delete
  grows_download grows_store : emits.
#[export] Hint Extern 2 (emits _ (or_fail _ _ _)) => (apply grows_or_fail; intros; solve_emits) : emits.

Lemma grows_move_upload {env : Env} {S : Sorter} {UP : UuidParser} {VIO : VolumeIO} op vol r t st :
  emits (fun _ => True) (move_upload op vol r t st).
Proof. unfold move_upload. solve_emits. Qed.
Lemma grows_move_download {env : Env} {S : Sorter} {UP : UuidParser} {VIO : VolumeIO} op vol r t st :
  emits (fun _ => True) (move_download op vol r t st).
Proof. unfold move_download. solve_emits. Qed.
#[export] Hint Resolve grows_move_upload grows_move_download : emits.
Lemma grows_move {env : Env} {S : Sorter} {UP : UuidParser} {VIO : VolumeIO} h op vol : emits (fun _ => True) (runMove h op vol).
Proof. unfold runMove. solve_emits. Qed.
#[export] Hint Resolve grows_move : emits.

Lemma grows_trim {env : Env} {S : Sorter} {VIO : VolumeIO} vol st : emits (fun _ => True) (trimBackups vol st).
Proof. unfold trimBackups, trim_one. solve_emits. Qed.
Lemma grows_delete_after {env : Env} {S : Sorter} {UP : UuidParser} {VIO : VolumeIO} op vol r q res :
  emits (fun _ => True) (delete_after_backup op vol r q res).
Proof. unfold delete_after_backup. solve_emits. Qed.
#[export] Hint Resolve grows_trim grows_delete_after : emits.
Lemma grows_backup_of {env : Env} {S : Sorter} {UP : UuidParser} {VIO : VolumeIO} op vol r b st row :
  emits (fun _ => True) (run_backup_of op vol r b st row).
Proof. unfold run_backup_of. solve_emits. Qed.
#[export] Hint Resolve grows_backup_of : emits.
Lemma grows_backup {env : Env} {S : Sorter} {UP : UuidParser} {VIO : VolumeIO} h op vol : emits (fun _ => True) (runBackup h op vol).
Proof. unfold runBackup. solve_emits. Qed.
Lemma grows_restore {env : Env} {S : Sorter} {UP : UuidParser} {VIO : VolumeIO} h op vol : emits (fun _ => True) (runRestore h op vol).
Proof. unfold runRestore. solve_emits. Qed.
Lemma grows_repair {env : Env} {S : Sorter} {UP : UuidParser} {VIO : VolumeIO} op vol : emits (fun _ => True) (runRepair op vol).
Proof. unfold runRepair. solve_emits. Qed.
#[export] Hint Resolve grows_backup grows_restore grows_repair : emits.
Lemma grows_start {env : Env} {S : Sorter} {UP : UuidParser} {VIO : VolumeIO} h op vol : emits (fun _ => True) (start_operation h op vol).
Proof. unfold start_operation, run_kind. solve_emits. Qed.
Lemma grows_watch {env : Env} {S : Sorter} {UP : UuidParser} op vol : emits (fun _ => True) (watch_operation op vol).
Proof. unfold watch_operation, operationServerHealthy, handler_serverSupportsCloudHypervisor, serverSupportsCloudHypervisor. solve_emits. Qed.
Lemma grows_stale {env : Env} op : emits (fun _ => True) (isStaleRunning op).
Proof. unfold isStaleRunning. solve_emits. Qed.
#[export] Hint Resolve grows_start grows_watch grows_stale : emits.

(** ** The state of a move *)

Inductive phase := Uploading | Downloading | Finished.

Section move.
Context {S : Sorter} {UP : UuidParser} (snap : Snapshot) (dir : string) (v p o t source : UUID) (c : N).
Hypothesis Ht : t <> uuid_Nil /\ (t < uuid_bound)%N.

Definition disk_path : string := dir +:+ "/" +:+ uuid_String v +:+ ".qcow2".

(** The store every handler builds from the shared configuration. *)
Definition shared_store : S3Store :=
  mkS3Store (TrimSpace (sn_VolumeBackupS3Bucket snap)) (trim_slashes (TrimSpace (sn_VolumeBackupS3Prefix snap))).

Definition upload_request : operationRequest :=
  mkOperationRequest "" "" (uuid_String t) (uuid_String source) "upload" "" false.
Definition download_request : operationRequest :=
  mkOperationRequest "" "" (uuid_String t) (uuid_String source) "download" (MoveObjectKey o) false.

Definition staging : string * string := (s3_bucket shared_store, S3Store_objectKey shared_store (MoveObjectKey o)).

(** The volume is the project's only one and is pinned to [srv], whose disk
    holds the data. *)
Record volume_at (srv : UUID) (d : Db) (s : Storage) : Prop := {
  va_row : exists r, db_volumes d !! v = Some r /\ vol_ID r = Some v /\ vol_ProjectID r = Some p /\ vol_ServerID r = Some srv;
  va_only : forall k r, db_volumes d !! k = Some r -> vol_ProjectID r = Some p -> k = v;
  va_data : st_disks s !! (srv, disk_path) = Some c
}.

(** The operation's row: assigned to the pinned server while it uploads, to the
    target while it downloads, and then the staging object, where it exists,
    holds the data; a succeeded move has pinned the volume to the target. *)
Definition operation_at (ph : phase) (srv : UUID) (ro : ProjectVolumeOperation) (s : Storage) : Prop :=
  vo_ID ro = Some o /\ vo_ProjectVolumeID ro = Some v /\ vo_Kind ro = "move" /\
  match ph with
  | Uploading => operation_active ro = true /\ vo_ServerID ro = Some srv /\ vo_RequestMetadata ro = marshal_request upload_request
  | Downloading => operation_active ro = true /\ vo_ServerID ro = Some t /\ vo_RequestMetadata ro = marshal_request download_request /\
                   (forall x, st_objects s !! staging = Some x -> x = c)
  | Finished => vo_Status ro ∈ ["succeeded"; "failed"] /\ (vo_Status ro = "succeeded" -> srv = t)
  end.

(** In the phase [ph], pinned to [srv], with the operation's row satisfying [R]. *)
Definition move_in (ph : phase) (srv : UUID) (R : ProjectVolumeOperation -> Prop) (d : Db) (s : Storage) : Prop :=
  volume_at srv d s /\ exists ro, db_volume_operations d !! o = Some ro /\ operation_at ph srv ro s /\ R ro.

Definition any_row (ro : ProjectVolumeOperation) : Prop := True.

Definition move_ok (d : Db) (s : Storage) : Prop := exists ph srv, move_in ph srv any_row d s.

Lemma move_in_ok ph srv R d s : move_in ph srv R d s -> move_ok d s.
Proof. intros (Hv & ro & Ho & Hro & _). exists ph, srv. split; [done|]. by exists ro. Qed.

(** ** Statements *)

Lemma key_where_found {R} (q : R -> bool) (m : gmap UUID R) k :
  key_where q m = Some k -> exists r, m !! k = Some r /\ q r = true.
Proof.
  unfold key_where. destruct (List.filter _ _) as [|[k' r] l] eqn:E; [done|]. intros [= <-].
  assert (In (k', r) (List.filter (fun '(_, r) => q r) (map_to_list m))) as Hin by (rewrite E; by left).
  apply filter_In in Hin as [Hin Hq]. apply list_elem_of_In, elem_of_map_to_list in Hin. eauto.
Qed.

(** An update of the project's volume that pins it to a server with the data. *)
Lemma update_volume_at srv srv' f d d' x s :
  volume_at srv d s -> update_volume (Some p) f d = inr (x, d') ->
  (forall r, vol_ID (f r) = vol_ID r /\ vol_ProjectID (f r) = vol_ProjectID r /\
             (vol_ServerID r = Some srv -> vol_ServerID (f r) = Some srv')) ->
  st_disks s !! (srv', disk_path) = Some c ->
  volume_at srv' d' s /\ db_volume_operations d' = db_volume_operations d.
Proof.
  intros [(r & Hr & Hid & Hp & Hs) Honly Hc] H Hf Hd.
  apply returning_inv in H as (k & r0 & Hk & Hr0 & _ & _ & -> & ->). cbn in Hr0.
  apply key_where_found in Hk as (r1 & Hr1 & Hq). rewrite Hr0 in Hr1. injection Hr1 as <-.
  assert (k = v) as ->.
  { apply (Honly k r0 Hr0). unfold volume_of_project, col_eq in Hq. destruct (vol_ProjectID r0); [|done].
    apply andb_true_iff in Hq as [Hq _]. apply bool_decide_eq_true in Hq. by subst. }
  rewrite Hr in Hr0. injection Hr0 as <-. destruct (Hf r) as (F1 & F2 & F3). split; [|done]. split; [| |done].
  - exists (f r). cbn. rewrite lookup_insert_eq. split; [done|]. rewrite F1, F2, F3 by done. done.
  - intros k' r'. cbn. intros Hk' Hp'. destruct (decide (k' = v)) as [->|Hne]; [done|].
    rewrite lookup_insert_ne in Hk' by done. by apply (Honly k' r').
Qed.

Lemma update_status_move ph srv R status health msg now d d' x s :
  move_in ph srv R d s -> ProjectVolumeUpdateStatusAndHealth (Some p) status health msg now d = inr (x, d') ->
  move_in ph srv R d' s.
Proof.
  intros (Hv & Ho) H. destruct (update_volume_at srv srv _ d d' x s Hv H) as [Hv' He]; [done|apply Hv|].
  split; [done|]. by rewrite He.
Qed.

Lemma assign_server_move R now d d' x srv s :
  move_in Downloading srv R d s -> st_disks s !! (t, disk_path) = Some c ->
  ProjectVolumeAssignServer (Some p) (Some t) now d = inr (x, d') -> move_in Downloading t R d' s.
Proof.
  intros (Hv & ro & Ho & Hro & HR) Hd H. destruct (update_volume_at srv t _ d d' x s Hv H) as [Hv' He]; [done|done|].
  split; [done|]. exists ro. rewrite He. auto.
Qed.

(** Updates of the operation's row leave the volumes alone. *)
Lemma update_state_move ph ph' srv R server status req res err now d d' x s :
  move_in ph srv R d s -> ProjectVolumeOperationUpdateState (Some o) server status req res err now d = inr (x, d') ->
  (forall ro, operation_at ph srv ro s -> vo_Status x = status /\ vo_ServerID x = server /\ vo_RequestMetadata x = req ->
     vo_ID x = Some o -> vo_ProjectVolumeID x = Some v -> vo_Kind x = "move" -> operation_at ph' srv x s) ->
  move_in ph' srv (fun ro => ro = x) d' s.
Proof.
  intros (Hv & ro & Ho & Hro & HR) H Hx.
  apply returning_inv in H as (k & r & [= <-] & Hr & _ & _ & -> & ->). cbn in Hr. rewrite Ho in Hr. injection Hr as <-.
  split; [by destruct Hv|]. eexists. cbn. rewrite lookup_insert_eq. split; [done|]. split; [|done].
  destruct Hro as (H1 & H2 & H3 & H4). apply (Hx ro); try done.
Qed.

Lemma update_running_move ph srv R now d d' x s :
  move_in ph srv R d s -> ph <> Finished -> ProjectVolumeOperationUpdateRunning (Some o) now d = inr (x, d') ->
  move_in ph srv (fun ro => ro = x) d' s.
Proof.
  intros (Hv & ro & Ho & Hro & HR) Hph H.
  apply returning_inv in H as (k & r & [= <-] & Hr & _ & _ & -> & ->). cbn in Hr. rewrite Ho in Hr. injection Hr as <-.
  split; [by destruct Hv|]. eexists. cbn. rewrite lookup_insert_eq. split; [done|]. split; [|done].
  destruct Hro as (H1 & H2 & H3 & H4). split_and!; try done. destruct ph; [| |done].
  - destruct H4 as (_ & ? & ?). done.
  - destruct H4 as (_ & ? & ? & ?). done.
Qed.

(** ** Storage *)

Lemma move_in_storage ph srv R d s s' :
  move_in ph srv R d s -> st_disks s' !! (srv, disk_path) = Some c ->
  (forall x, st_objects s' !! staging = Some x -> st_objects s !! staging = Some x \/ x = c) -> move_in ph srv R d s'.
Proof.
  intros ([Hr Ho Hd] & ro & Hro & (H1 & H2 & H3 & H4) & HR) Hd' Hobj. split; [by split|]. exists ro. split; [done|]. split; [|done].
  split_and!; try done. destruct ph; [done| |done]. destruct H4 as (?&?&?&Hx). split_and!; try done.
  intros x Hs. destruct (Hobj x Hs); auto.
Qed.

Lemma put_other me q x srv : (me, q) <> (srv, disk_path) -> forall s, st_disks (put_disk me q x s) !! (srv, disk_path) = st_disks s !! (srv, disk_path).
Proof. intros Hne s. cbn. by apply lookup_insert_ne. Qed.

Lemma del_other me q srv : (me, q) <> (srv, disk_path) -> forall s, st_disks (del_disk me q s) !! (srv, disk_path) = st_disks s !! (srv, disk_path).
Proof. intros Hne s. cbn. by apply lookup_delete_ne. Qed.

(** ** The handler *)

Section handler.
Context {env : Env} {VIO : VolumeIO} (me : UUID) (Hdir : env_volume_dir = dir).

Abbreviation keeps P m := (htriple me P m (fun _ => move_ok) move_ok).

Lemma disk_path_eq : PersistentVolumePath v = disk_path.
Proof. unfold PersistentVolumePath. by rewrite Hdir. Qed.

Lemma fail_keeps ph srv R op vol msg health :
  vo_ID op = Some o -> vol_ProjectID vol = Some p -> keeps (move_in ph srv R) (failOperation op vol msg health "").
Proof.
  intros Hop Hvol. unfold failOperation. cbv zeta. rewrite Hop, Hvol.
  assert (forall ro s, operation_at ph srv ro s -> forall x, vo_Status x = "failed" -> vo_ID x = Some o ->
            vo_ProjectVolumeID x = Some v -> vo_Kind x = "move" -> operation_at Finished srv x s) as Hfin.
  { intros ro s Hro x Hst H1 H2 H3. split_and!; try done; rewrite Hst; [set_solver|done]. }
  eapply (ht_bind _ _ _ _ (fun _ => move_in ph srv R)); [by apply ht_ret|intros _].
  eapply (ht_bind _ _ _ _ (fun _ => move_in Finished srv any_row)).
  - apply ht_wrap, ht_exec; [apply move_in_ok|]. intros now x d d' s H HU.
    assert (move_in Finished srv (fun ro => ro = x) d' s) as H'.
    { eapply update_state_move; [exact H|exact HU|]. intros ro Hro (?&?&?) ???. by eapply Hfin. }
    split; [|by eapply move_in_ok]. destruct H' as (?&ro'&?&?&_). split; [done|]. by exists ro'.
  - intros _. eapply (ht_bind _ _ _ _ (fun _ => move_ok)); [|intros _; by apply ht_ret].
    apply ht_wrap, ht_exec; [apply move_in_ok|]. intros now x d d' s H HU.
    eapply update_status_move in HU; [|exact H]. split; by eapply move_in_ok.
Qed.

Lemma health_keeps P q : htriple me P (localVolumeHealth q) (fun _ => P) P.
Proof.
  unfold localVolumeHealth.
  eapply ht_bind; [apply (ht_io_call _ _ _ _ (fun _ => P)); by intros r d s s' Hd ->|].
  intros [[[] e]|]; try by apply ht_ret.
  eapply ht_bind; [apply (ht_io_call _ _ _ _ (fun _ => P)); by intros r d s s' Hd ->|].
  intros [[]|]; by apply ht_ret.
Qed.

Lemma store_keeps P : htriple me P (NewStoreFromSnapshot snap) (fun st d s => P d s /\ st = shared_store) P.
Proof.
  unfold NewStoreFromSnapshot. repeat (case_match; [by apply ht_throw|]).
  eapply (ht_bind _ _ _ _ (fun _ => P)); [apply ht_io_try; by intros d s s' Hd ->|].
  intros _. by apply ht_ret.
Qed.

(** What the upload leaves in the staging object is the data of the disk. *)
Lemma upload_keeps R :
  htriple me (move_in Uploading me R) (UploadFile shared_store (MoveObjectKey o) disk_path)
    (fun _ d s => move_in Uploading me R d s /\ st_objects s !! staging = Some c) (move_in Uploading me R).
Proof.
  unfold UploadFile. case_match; [by apply ht_throw|].
  eapply (ht_bind _ _ _ _ (fun _ => move_in Uploading me R)); [apply ht_io_try; by intros d s s' Hd ->|intros _].
  eapply (ht_bind _ _ _ _ (fun _ => move_in Uploading me R)); [apply ht_extern_io; intros r d s s' Hm Hs; destruct r; simpl in Hs; by subst|].
  intros [e|size]; [by apply ht_throw|].
  assert (forall d s x, move_in Uploading me R d s -> st_disks s !! (me, disk_path) = Some x ->
            move_in Uploading me R d (put_object staging.1 staging.2 x s) /\ x = c) as Hput.
  { intros d s x Hm Hx. assert (x = c) as -> by (destruct Hm as ([??Hd]&_); congruence). split; [|done].
    eapply move_in_storage; [exact Hm|done|]. cbn. rewrite lookup_insert_eq. intros ? [= ->]. by right. }
  eapply (ht_bind _ _ _ _ (fun _ d s => move_in Uploading me R d s /\ st_objects s !! staging = Some c)); [|intros _; by apply ht_ret].
  apply ht_io_try.
  - intros d s s' Hm (x & Hx & ->). destruct (Hput d s x Hm Hx) as [H' ->]. split; [done|]. cbn. apply lookup_insert_eq.
  - intros d s s' Hm [->|(x & Hx & ->)]; [done|]. by apply Hput.
Qed.

(** Temporary files are no disks. *)
Lemma temp_put D k x ph srv R d s : move_in ph srv R d s -> move_in ph srv R d (put_disk me (temp_name D k) x s).
Proof.
  intros Hm. eapply move_in_storage; [exact Hm| |by left]. rewrite put_other; [apply Hm|].
  intros [= _ E]. by apply temp_not_disk in E.
Qed.

Lemma temp_del D k ph srv R d s : move_in ph srv R d s -> move_in ph srv R d (del_disk me (temp_name D k) s).
Proof.
  intros Hm. eapply move_in_storage; [exact Hm| |by left]. rewrite del_other; [apply Hm|].
  intros [= _ E]. by apply temp_not_disk in E.
Qed.

Lemma remove_temp D k (Q : Db -> Storage -> Prop) X :
  (forall d s, Q d s -> Q d (del_disk me (temp_name D k) s)) -> htriple me Q (remove_file (temp_name D k)) (fun _ => Q) X.
Proof.
  intros HQ. unfold remove_file. eapply (ht_bind _ _ _ _ (fun _ => Q)); [|intros _; by apply ht_ret].
  apply ht_io_call. intros r d s s' HP Hs; destruct r as [[]|]; simpl in Hs; subst; auto.
Qed.

(** The file fetched from the staging object holds the data. *)
Lemma fetch_keeps D k srv R :
  htriple me (move_in Downloading srv R) (DownloadFile shared_store (MoveObjectKey o) (temp_name D k))
    (fun _ d s => move_in Downloading srv R d s /\ st_disks s !! (me, temp_name D k) = Some c) (move_in Downloading srv R).
Proof.
  unfold DownloadFile. case_match; [by apply ht_throw|].
  eapply (ht_bind _ _ _ _ (fun _ => move_in Downloading srv R)); [apply ht_io_try; by intros d s s' Hd ->|intros _].
  eapply (ht_bind _ _ _ _ (fun _ => move_in Downloading srv R)).
  { apply ht_io_try; [intros d s s' Hm (x & ->); by apply temp_put|by intros d s s' Hd ->]. }
  intros _. apply ht_io_try.
  - intros d s s' Hm (x & Hx & ->). assert (x = c) as ->.
    { destruct Hm as (_ & ro & _ & (_&_&_&_&_&_&Hobj) & _). by apply Hobj. }
    split; [by apply temp_put|]. cbn. apply lookup_insert_eq.
  - intros d s s' Hm [->|(x & ->)]; [done|by apply temp_put].
Qed.

(** The disk is written only with the data of the staging object. *)
Lemma replace_keeps D k srv R :
  htriple me (fun d s => move_in Downloading srv R d s /\ st_disks s !! (me, temp_name D k) = Some c)
    (io_try "replace destination volume" (IoRename (temp_name D k) disk_path) (fun n => os_Rename n (temp_name D k) disk_path))
    (fun _ d s => move_in Downloading srv R d s /\ st_disks s !! (me, disk_path) = Some c) (move_in Downloading srv R).
Proof.
  apply ht_io_try; [|by intros d s s' [H1 _] ->].
  intros d s s' [Hm Hk] (x & Hx & ->). rewrite Hk in Hx. injection Hx as <-. split; [|cbn; apply lookup_insert_eq].
  eapply move_in_storage; [exact Hm| |by left]. cbn. destruct (decide (srv = me)) as [->|Hne]; [apply lookup_insert_eq|].
  rewrite lookup_insert_ne by congruence. rewrite lookup_delete_ne by congruence. apply Hm.
Qed.

Lemma download_keeps srv R :
  htriple me (move_in Downloading srv R) (downloadToPath shared_store (MoveObjectKey o) disk_path)
    (fun _ d s => move_in Downloading srv R d s /\ st_disks s !! (me, disk_path) = Some c) (move_in Downloading srv R).
Proof.
  unfold downloadToPath. case_match; [by apply ht_throw|]. set (D := filepath_Dir disk_path).
  set (P := move_in Downloading srv R). set (G := fun d s => P d s /\ st_disks s !! (me, disk_path) = Some c).
  assert (forall k d s, P d s -> P d (del_disk me (temp_name D k) s)) as Hdel by (intros; by apply temp_del).
  eapply (ht_bind _ _ _ _ (fun _ => P)); [apply ht_io_try; by intros d s s' Hd ->|intros _].
  eapply (ht_bind _ _ _ _ (fun _ => P)).
  { apply ht_extern_io. intros [e|k] d s s' Hm Hs; simpl in Hs; [by subst|]. destruct Hs as (_ & x & ->). by apply temp_put. }
  intros [e|k]; [by apply ht_throw|].
  eapply (ht_bind _ _ _ _ (fun _ => P)); [apply ht_io_call; by intros r d s s' Hd ->|]. intros [e|].
  { eapply (ht_bind _ _ _ _ (fun _ => P)); [apply remove_temp, Hdel|]. intros u. by apply ht_throw. }
  eapply (ht_bind _ _ _ _ (fun r d s => match r with inl _ => P d s | inr _ => G d s end)).
  - apply ht_attempt. apply (ht_conseq me _ P _ _ (fun _ => G) _ P); [|done..|auto].
    eapply ht_bind; [apply ht_wrap, fetch_keeps|]. intros u. apply replace_keeps.
  - intros r. eapply (ht_bind _ _ _ _ (fun _ d s => match r with inl _ => P d s | inr _ => G d s end)).
    + apply remove_temp. intros d s. destruct r; [apply Hdel|]. intros [Hm Hd]. split; [by apply Hdel|].
      rewrite del_other; [done|]. intros [= E]. by apply temp_not_disk in E.
    + intros _. destruct r; [by apply ht_throw|by apply ht_ret].
Qed.

Lemma update_done_move srv R server status req res err now d d' x s ph :
  move_in ph srv R d s -> ProjectVolumeOperationUpdateState (Some o) server status req res err now d = inr (x, d') ->
  status = "failed" \/ (status = "succeeded" /\ srv = t) -> move_in Finished srv any_row d' s.
Proof.
  intros H HU Hst.
  assert (move_in Finished srv (fun ro => ro = x) d' s) as (Hv & ro & Ho & Hro & _); [|split; [done|by exists ro]].
  eapply update_state_move; [exact H|exact HU|]. intros ro _ (Hs & _) H1 H2 H3. split_and!; try done.
  - rewrite Hs. destruct Hst as [->|[-> _]]; set_solver.
  - rewrite Hs. by destruct Hst as [->|[-> ->]].
Qed.

Lemma complete_keeps R op vol result status health msg :
  vo_ID op = Some o -> vol_ProjectID vol = Some p ->
  keeps (move_in Downloading t R) (completeOperation op vol result status health msg).
Proof.
  intros Hop Hvol. unfold completeOperation. rewrite Hop, Hvol.
  eapply (ht_bind _ _ _ _ (fun _ => move_in Finished t any_row)).
  - apply ht_wrap, ht_exec; [apply move_in_ok|]. intros now x d d' s H HU.
    eapply update_done_move in HU; [|exact H|by right]. split; [done|by eapply move_in_ok].
  - intros _. eapply (ht_bind _ _ _ _ (fun _ => move_ok)); [|intros _; by apply ht_ret].
    apply ht_wrap, ht_exec; [apply move_in_ok|]. intros now x d d' s H HU.
    eapply update_status_move in HU; [|exact H]. split; by eapply move_in_ok.
Qed.

Lemma ToPgtype_t : ToPgtype t = Some t.
Proof. unfold ToPgtype. by rewrite decide_False by apply Ht. Qed.

Lemma ToPgtype_o_key op : vo_ID op = Some o -> MoveObjectKey (FromPgtype (vo_ID op)) = MoveObjectKey o.
Proof. by intros ->. Qed.

(** The upload hands the operation over only after the object is stored. *)
Lemma move_upload_keeps R op vol :
  vo_ID op = Some o -> vol_ID vol = Some v -> vol_ProjectID vol = Some p ->
  keeps (move_in Uploading me R) (move_upload op vol upload_request t shared_store).
Proof.
  intros Hop Hid Hvol. unfold move_upload. rewrite Hid, Hop. simpl FromPgtype. rewrite disk_path_eq.
  eapply (ht_bind _ _ _ _ (fun _ => move_in Uploading me R)).
  { eapply ht_conseq; [apply (health_keeps (move_in Uploading me R))|done..|apply move_in_ok]. }
  intros [health msg]. case_match; [by apply fail_keeps|]. cbn [or_StorageKey upload_request]. change (TrimSpace "") with "".
  rewrite String.eqb_refl. cbv zeta.
  eapply (ht_or_fail _ _ _ _ _ _ (move_in Uploading me R)); [apply upload_keeps|apply move_in_ok|intros e; by apply fail_keeps|].
  intros [url size]. eapply (ht_bind _ _ _ _ (fun _ => move_ok)); [|intros _; by apply ht_ret].
  apply ht_wrap, ht_exec; [intros d s [Hm _]; by eapply move_in_ok|]. intros now x d d' s [Hm Hobj] HU.
  assert (move_ok d' s); [|done]. apply (move_in_ok Downloading me (fun ro => ro = x)).
  eapply update_state_move; [exact Hm|exact HU|]. intros ro _ (Hs & Hsrv & Hreq) Hx1 Hx2 Hx3. split_and!; try done.
  - unfold operation_active. by rewrite Hs.
  - by rewrite Hsrv, ToPgtype_t.
  - rewrite Hobj. by intros y [= ->].
Qed.

Lemma delete_keeps (P : Db -> Storage -> Prop) key :
  (forall d s b k, P d s -> P d (del_object b k s)) -> htriple me P (DeleteObject shared_store key) (fun _ => P) P.
Proof.
  intros Hdel. unfold DeleteObject. case_match; [by apply ht_throw|].
  apply ht_io_try; [by intros d s s' Hd ->; apply Hdel|]. intros d s s' Hd [->| ->]; [done|by apply Hdel].
Qed.

(** The download pins the volume to the target only with the data on its disk. *)
Lemma move_download_keeps srv R op vol :
  me = t -> vo_ID op = Some o -> vol_ID vol = Some v -> vol_ProjectID vol = Some p ->
  keeps (move_in Downloading srv R) (move_download op vol download_request t shared_store).
Proof.
  intros Hme Hop Hid Hvol. unfold move_download. rewrite Hid, Hvol. simpl FromPgtype. rewrite disk_path_eq, ToPgtype_t.
  eapply (ht_or_fail _ _ _ _ _ _ (move_in Downloading srv R)); [apply download_keeps|apply move_in_ok|intros e; by apply fail_keeps|].
  intros u. set (G := fun d s => move_in Downloading srv R d s /\ st_disks s !! (me, disk_path) = Some c).
  assert (forall d s, G d s -> move_in Downloading srv R d s) as HG by by intros d s [].
  eapply (ht_or_fail _ _ _ _ _ (fun _ => G) G).
  - apply delete_keeps. intros d s b k [Hm Hd]. split; [|done]. eapply move_in_storage; [exact Hm|apply Hm|].
    cbn. intros x [_ Hx]%lookup_delete_Some. by left.
  - intros d s Hd. eapply move_in_ok, HG, Hd.
  - intros e. eapply ht_pre; [by apply fail_keeps|exact HG].
  - intros _. eapply (ht_or_fail _ _ _ _ _ (fun _ => move_in Downloading t R) (fun d s => exists srv, move_in Downloading srv R d s)).
    + apply ht_exec; [intros d s Hd; exists srv; by apply HG|]. intros now x d d' s [Hm Hd] HU. rewrite Hme in Hd.
      eapply assign_server_move in HU; [|exact Hm|done]. eauto.
    + intros d s (srv' & Hm). by eapply move_in_ok.
    + intros e. apply ht_ex; [eapply ht_grows, (fail_keeps Downloading srv R); done|]. intros srv'. by apply fail_keeps.
    + intros _. by apply complete_keeps.
Qed.

Lemma upload_request_text : request_text upload_request.
Proof. unfold request_text. rewrite !Forall_cons. split_and!; [reflexivity|reflexivity|apply valid_uuid|apply valid_uuid|reflexivity|reflexivity|constructor]. Qed.

Lemma download_request_text : request_text download_request.
Proof.
  assert (valid_text (MoveObjectKey o) = MoveObjectKey o) as E.
  2: { unfold request_text. rewrite !Forall_cons. split_and!; [reflexivity|reflexivity|apply valid_uuid|apply valid_uuid|reflexivity|exact E|constructor]. }
  rewrite MoveObjectKey_eq. apply valid_text_ascii, bytes_graphic.
  rewrite !str_bytes_app. repeat (apply Forall_app; split); [|apply uuid_String_graphic|]; by repeat constructor.
Qed.

Lemma target_parses : uuid_Parse (TrimSpace (uuid_String t)) = Some t.
Proof. rewrite TrimSpace_uuid. apply uuid_Parse_String, Ht. Qed.

Lemma move_request_same vol r : or_SourceServerID r = uuid_String source -> TrimSpace (or_Stage r) <> "" -> move_request vol r = r.
Proof.
  intros Hs Hg. unfold move_request. rewrite Hs, TrimSpace_uuid.
  destruct (String.eqb_spec (uuid_String source) "") as [E|_]; [by destruct (uuid_String_nonempty source)|].
  by destruct (String.eqb_spec (TrimSpace (or_Stage r)) "").
Qed.

Lemma runMove_keeps q ph srv op vol :
  vo_ServerID op = Some me -> ph <> Finished -> vol_ID vol = Some v -> vol_ProjectID vol = Some p ->
  keeps (move_in ph srv (fun ro => ro = op)) (runMove (mkHandler q (Some (Some snap)) me) op vol).
Proof.
  intros Hsrv Hact Hid Hvol.
  apply (ht_fact _ (exists s, operation_at ph srv op s)); [solve_emits| |].
  { intros d s (_ & ro & _ & Hro & ->). by exists s. }
  intros (s & Hop & _ & _ & Hph). unfold runMove.
  destruct ph; [| |done].
  - destruct Hph as (_ & Hs & ->). assert (srv = me) as -> by congruence.
    rewrite decode_marshal by apply upload_request_text. case_match; [by apply fail_keeps|].
    rewrite move_request_same by done. cbn [or_TargetServerID upload_request]. rewrite target_parses.
    case_match; [by apply fail_keeps|]. unfold backupStore. cbn [h_cfg].
    eapply ht_or_fail; [apply store_keeps|apply move_in_ok|intros e; by apply fail_keeps|].
    intros st. apply (ht_fact _ (st = shared_store)); [solve_emits|by intros d s' [_ ?]|].
    intros ->. eapply ht_pre; [by apply move_upload_keeps|]. by intros d s' [? _].
  - destruct Hph as (_ & Hs & -> & _). assert (me = t) as Hme by congruence.
    rewrite decode_marshal by apply download_request_text. case_match; [by apply fail_keeps|].
    rewrite move_request_same by done. cbn [or_TargetServerID download_request]. rewrite target_parses.
    case_match; [by apply fail_keeps|]. unfold backupStore. cbn [h_cfg].
    eapply ht_or_fail; [apply store_keeps|apply move_in_ok|intros e; by apply fail_keeps|].
    intros st. apply (ht_fact _ (st = shared_store)); [solve_emits|by intros d s' [_ ?]|].
    intros ->. eapply ht_pre; [by apply move_download_keeps|]. by intros d s' [? _].
Qed.

(** The operation read from the database, not final yet. *)
Definition found (op : ProjectVolumeOperation) (d : Db) (s : Storage) : Prop :=
  exists ph srv, move_in ph srv (fun ro => ro = op) d s /\ ph <> Finished.

Lemma found_ok op d s : found op d s -> move_ok d s.
Proof. intros (ph & srv & Hm & _). by eapply move_in_ok. Qed.

Lemma fail_found op vol msg health :
  vo_ID op = Some o -> vol_ProjectID vol = Some p -> keeps (found op) (failOperation op vol msg health "").
Proof.
  intros Hop Hvol. apply ht_ex; [solve_emits|]. intros ph. apply ht_ex; [solve_emits|]. intros srv.
  eapply ht_pre; [by apply (fail_keeps ph srv (fun ro => ro = op))|]. by intros d s [? _].
Qed.

Lemma start_keeps q op vol :
  vo_ID op = Some o -> vo_Kind op = "move" -> vo_ServerID op = Some me -> vol_ID vol = Some v -> vol_ProjectID vol = Some p ->
  keeps (found op) (start_operation (mkHandler q (Some (Some snap)) me) op vol).
Proof.
  intros Hop Hk Hs Hid Hp. apply ht_ex; [solve_emits|]. intros ph. apply ht_ex; [solve_emits|]. intros srv.
  apply (ht_fact _ (ph <> Finished)); [solve_emits|by intros d s [_ ?]|]. intros Hph. unfold start_operation.
  eapply (ht_bind _ _ _ _ (fun op' d s => move_in ph srv (fun ro => ro = op') d s /\ vo_Kind op' = "move" /\ vo_ServerID op' = Some me)).
  - case_match; [|by apply ht_ret; intros d s [? _]]. rewrite Hop. apply ht_wrap, ht_exec; [intros d s [Hm _]; by eapply move_in_ok|].
    intros now x d d' s [Hm _] HU. pose proof HU as HU'. eapply update_running_move in HU; [|exact Hm|done].
    split; [|by eapply move_in_ok]. split; [done|].
    apply returning_inv in HU' as (k & r & [= <-] & Hr & _ & _ & -> & _). cbn in Hr |- *.
    destruct Hm as (_ & ro & Ho & _ & ->). rewrite Ho in Hr. injection Hr as <-. done.
  - intros op'. apply (ht_fact _ (vo_Kind op' = "move" /\ vo_ServerID op' = Some me)); [unfold run_kind; solve_emits|by intros d s (_ & ?)|].
    intros [Hk' Hs']. unfold run_kind. rewrite Hk'. eapply ht_pre; [by apply (runMove_keeps q ph srv)|]. by intros d s [? _].
Qed.

Lemma watch_keeps op vol :
  vo_ID op = Some o -> vol_ProjectID vol = Some p -> keeps (found op) (watch_operation op vol).
Proof.
  intros Hop Hp. unfold watch_operation. eapply (ht_bind _ _ _ _ (fun _ => found op)).
  - unfold operationServerHealthy. case_match; [|by apply ht_ret].
    eapply (ht_bind _ _ _ _ (fun _ => found op)).
    { apply ht_attempt, ht_query; [|done]. intros d s Hf. split; [by eapply found_ok|done]. }
    intros [e|srv]; [by apply ht_ret|]. case_match; [by apply ht_ret|].
    eapply (ht_bind _ _ _ _ (fun _ => found op)); [|intros b; case_match; by apply ht_ret].
    unfold handler_serverSupportsCloudHypervisor, serverSupportsCloudHypervisor. eapply (ht_bind _ _ _ _ (fun _ => found op)).
    + apply ht_attempt, ht_query; [|done]. intros d s Hf. split; [by eapply found_ok|done].
    + intros [e|l]; by apply ht_ret.
  - intros [b msg]. do 2 (case_match; [apply ht_ret, found_ok|]). by apply fail_found.
Qed.

(** Any run of the handler on any server keeps the move's invariant. *)
Lemma reconcile_keeps q : keeps move_ok (Reconcile (mkHandler q (Some (Some snap)) me) o).
Proof.
  unfold Reconcile. case_match; [by apply ht_ret|].
  eapply (ht_bind _ _ _ _ (fun r => match r with inl _ => move_ok | inr op => fun d s => exists ph srv, move_in ph srv (fun ro => ro = op) d s end)).
  { apply ht_attempt, ht_query; [auto|]. intros now op d s (ph & srv & Hv & ro & Ho & Hro & _) Hq. exists ph, srv.
    split; [done|]. exists ro. split; [done|]. split; [done|]. unfold ProjectVolumeOperationFindByID in Hq.
    unfold ToPgtype in Hq. case_decide; simpl in Hq; [done|]. rewrite Ho in Hq. simpl in Hq. congruence. }
  intros [e|op]; [case_match; [by apply ht_ret|by apply ht_throw]|]. case_match eqn:Hst.
  { apply ht_ret. intros d s (ph & srv & Hm). by eapply move_in_ok. }
  apply ht_pre with (P' := found op).
  2: { intros d s (ph & srv & Hm). exists ph, srv. split; [done|]. intros ->. destruct Hm as (_ & ro & _ & (_&_&_&Hf&_) & ->).
       apply orb_false_iff in Hst as [H1%String.eqb_neq H2%String.eqb_neq]. set_solver. }
  eapply (ht_bind _ _ _ _ (fun r d s => found op d s /\ forall vol, r = inr vol -> vol_ID vol = Some v /\ vol_ProjectID vol = Some p)).
  { apply ht_attempt, ht_query; [intros d s Hf; split; [by eapply found_ok|]; intros; by split|].
    intros now vol d s Hf Hq. split; [done|]. intros vol' [= <-].
    destruct Hf as (ph & srv & ([(r & Hr & Hid & Hp & _) _ _] & ro & _ & (_ & Hpv & _) & ->) & _).
    unfold ProjectVolumeFindByID in Hq. rewrite Hpv in Hq. simpl in Hq. rewrite Hr in Hq. simpl in Hq.
    case_match; simpl in Hq; [|done]. injection Hq as <-. done. }
  intros [e|vol].
  { case_match; [apply ht_ret|apply ht_throw]; intros d s [Hf _]; by eapply found_ok. }
  apply (ht_fact _ (vo_ID op = Some o /\ vo_Kind op = "move" /\ vo_ServerID op <> None /\ vol_ID vol = Some v /\ vol_ProjectID vol = Some p));
    [solve_emits| |].
  { intros d s [(ph & srv & (_ & ro & _ & (Hid & _ & Hk & Hph) & ->) & Hne) Hv]. destruct (Hv vol eq_refl). split_and!; try done.
    destruct ph; [| |done]; by destruct Hph as (_ & -> & _). }
  intros (Hop & Hk & Hs & Hid & Hp). apply ht_pre with (P' := found op); [|by intros d s [? _]].
  eapply (ht_bind _ _ _ _ (fun _ => found op)).
  { unfold isStaleRunning. repeat case_match; try by apply ht_ret. eapply ht_bind; [by apply (ht_now _ _ (fun _ => found op))|]. intros ?. by apply ht_ret. }
  intros [|]; [by apply fail_found|]. destruct (vo_ServerID op) as [server|] eqn:Hsv; [|done].
  case_bool_decide; [|by apply watch_keeps]. subst. by apply start_keeps.
Qed.

End handler.
End move.
