(* ===== verification/VolumeBackup.v ===== *)
(** * Backups and their retention

    A backup that deletes the volume removes the disk only once the data is
    stored under a backup that is marked succeeded, and the retention does not
    take that backup away. *)

From S2P Require Import Prelude NetAddr Text Models Runtime Effects Queries Logic EventLogic TableFacts Lifecycle Volumes Codecs Secrets Config VolumeQueries Paths Json VolumeOps StorageLogic VolumeMove.

(** ** Order of the backups *)

Definition newer_first (a b : ProjectVolumeBackup) : bool := time_le b.(vb_CreatedAt) a.(vb_CreatedAt).

Lemma newer_first_total x y : newer_first x y || newer_first y x.
Proof.
  unfold newer_first, time_le. destruct (vb_CreatedAt x) as [a|], (vb_CreatedAt y) as [b|]; simpl; try done.
  destruct (Z.leb_spec b a); simpl; [done|]. apply Is_true_true, Z.leb_le. lia.
Qed.

Lemma newer_first_trans x y z : newer_first x y -> newer_first y z -> newer_first x z.
Proof.
  unfold newer_first, time_le.
  destruct (vb_CreatedAt x), (vb_CreatedAt y), (vb_CreatedAt z); simpl; try done.
  rewrite !Is_true_true, !Z.leb_le. lia.
Qed.

(** What precedes an element of a sorted list is at least as new. *)
Lemma sorted_before {S : Sorter} l l1 x l2 y :
  sort_by newer_first l = l1 ++ x :: l2 -> y ∈ l1 -> newer_first y x.
Proof.
  intros H Hy. pose proof (sort_by_sorted newer_first l newer_first_total newer_first_trans) as Hs. rewrite H in Hs.
  clear H. induction l1 as [|z l1 IH]; simpl in *; [set_solver|]. inversion Hs as [|? ? Hs' Hf]; subst.
  apply elem_of_cons in Hy as [->|Hy]; [|auto]. rewrite List.Forall_forall in Hf. apply Hf, in_elt.
Qed.

(** ** A backup that deletes the volume *)

Section delete_after.
Context {S : Sorter} {UP : UuidParser} (snap : Snapshot) (dir : string) (v o b : UUID) (c : N).
Context {env : Env} {VIO : VolumeIO} (me : UUID) (Hdir : env_volume_dir = dir) (Hb : b <> uuid_Nil /\ (b < uuid_bound)%N).

Abbreviation store := (shared_store snap).

Definition backup_key : string := BackupObjectKey v b.
Definition backup_object : string * string := (s3_bucket store, S3Store_objectKey store backup_key).

(** The backup is marked succeeded and its object holds the data. *)
Definition stored (d : Db) (s : Storage) : Prop :=
  exists rb, db_volume_backups d !! b = Some rb /\ vb_Status rb = "succeeded" /\ vb_StorageKey rb = backup_key /\
    st_objects s !! backup_object = Some c.

Definition on_disk (s : Storage) : Prop := st_disks s !! (me, disk_path dir v) = Some c.

(** The rows of the backups carry their keys; the succeeded ones among the
    others are older than this one, and none of the others has its object. *)
Record newest_backup (d : Db) : Prop := {
  nb_keyed : forall k r, db_volume_backups d !! k = Some r -> vb_ID r = Some k;
  nb_older : forall k r rb, db_volume_backups d !! k = Some r -> k <> b -> vb_Status r = "succeeded" ->
    db_volume_backups d !! b = Some rb -> newer_first r rb = false;
  nb_object : forall k r, db_volume_backups d !! k = Some r -> k <> b ->
    S3Store_objectKey store (TrimSpace (vb_StorageKey r)) <> S3Store_objectKey store backup_key
}.

Definition safe (d : Db) (s : Storage) : Prop := on_disk s \/ stored d s.
Definition kept_on_disk (d : Db) (s : Storage) : Prop := newest_backup d /\ on_disk s.
Definition kept_twice (d : Db) (s : Storage) : Prop := kept_on_disk d s /\ stored d s.

Lemma kept_safe d s : kept_on_disk d s -> safe d s.
Proof. intros [_ ?]. by left. Qed.

(** Statements on other tables. *)
Lemma same_backups (J : Db -> Storage -> Prop) {A} (f : writes A) (Q : A -> Db -> Storage -> Prop) X :
  (forall t a d d', f t d = inr (a, d') -> db_volume_backups d' = db_volume_backups d) ->
  (forall d d' s, db_volume_backups d' = db_volume_backups d -> J d s -> J d' s) ->
  (forall d s a, J d s -> Q a d s) -> (forall d s, J d s -> X d s) -> htriple me J (exec f) Q X.
Proof. intros Hf HJ HQ HX. apply ht_exec; [done|]. intros t a d d' s Hd Hr. apply Hf in Hr. split; [apply HQ|apply HX]; by eapply HJ. Qed.

Lemma kept_same d d' s : db_volume_backups d' = db_volume_backups d -> kept_on_disk d s -> kept_on_disk d' s.
Proof. intros E [[H1 H2 H3] H4]. split; [|done]. split; by rewrite E. Qed.

Lemma safe_same d d' s : db_volume_backups d' = db_volume_backups d -> safe d s -> safe d' s.
Proof. intros E [H|H]; [by left|right]. unfold stored. by rewrite E. Qed.

Lemma on_disk_same (d d' : Db) s : db_volume_backups d' = db_volume_backups d -> on_disk s -> on_disk s.
Proof. done. Qed.

Lemma operation_state_backups id server status req res err t x d d' :
  ProjectVolumeOperationUpdateState id server status req res err t d = inr (x, d') -> db_volume_backups d' = db_volume_backups d.
Proof. intros H. apply returning_inv in H as (k & r & _ & _ & _ & _ & _ & ->). done. Qed.

Lemma update_volume_backups project f x d d' :
  update_volume project f d = inr (x, d') -> db_volume_backups d' = db_volume_backups d.
Proof. intros H. apply returning_inv in H as (k & r & _ & _ & _ & _ & _ & ->). done. Qed.

(** A failure leaves the disk alone. *)
Lemma fail_on_disk op vol msg health bid :
  htriple me (fun _ => on_disk) (failOperation op vol msg health bid) (fun _ => safe) safe.
Proof.
  set (J := fun (_ : Db) => on_disk). assert (forall d s, J d s -> safe d s) as HJ by (intros; by left).
  unfold failOperation. cbv zeta. eapply (ht_bind _ _ _ _ (fun _ => J)).
  - unfold fail_backup. case_match; [by apply ht_ret|]. destruct (uuid_Parse bid); [|by apply ht_ret].
    eapply (ht_bind _ _ _ _ (fun _ => J)); [apply ht_attempt, ht_query; auto|].
    intros [e|backup]; [by apply ht_ret|]. apply ht_ignore, ht_exec; intros; by split; auto.
  - intros _. eapply (ht_bind _ _ _ _ (fun _ => J)); [apply ht_wrap, ht_exec; intros; auto; by split; auto|].
    intros _. eapply (ht_bind _ _ _ _ (fun _ => J)); [apply ht_wrap, ht_exec; intros; auto; by split; auto|].
    intros _. by apply ht_ret.
Qed.

Lemma fail_safe op vol msg health bid : htriple me kept_on_disk (failOperation op vol msg health bid) (fun _ => safe) safe.
Proof. eapply ht_pre; [apply fail_on_disk|]. by intros d s []. Qed.

(** ** Retention *)

(** A row the retention may delete. *)
Definition other_backup (x : ProjectVolumeBackup) : Prop :=
  vb_ID x <> Some b /\ S3Store_objectKey store (TrimSpace (vb_StorageKey x)) <> S3Store_objectKey store backup_key.

Lemma delete_other x d d' s :
  kept_twice d s -> vb_ID x <> Some b -> ProjectVolumeBackupDeleteByID (vb_ID x) 0 d = inr (tt, d') -> kept_twice d' s.
Proof.
  intros [[[H1 H2 H3] H4] (rb & Hrb & Hst)] Hx [= <-]. destruct (vb_ID x) as [k|]; [|by split; [split; [split|]|exists rb]].
  assert (k <> b) as Hk by congruence.
  assert (forall i, db_volume_backups (set_volume_backups (delete k (db_volume_backups d)) d) !! i = delete k (db_volume_backups d) !! i) as E by done.
  split; [split; [split|done]|].
  - intros i r. rewrite E. intros [_ Hi]%lookup_delete_Some. by apply H1.
  - intros i r rb' Hi Hne Hs Hb'. rewrite E in Hi, Hb'. apply lookup_delete_Some in Hi as [_ Hi], Hb' as [_ Hb'].
    by eapply H2.
  - intros i r. rewrite E. intros [_ Hi]%lookup_delete_Some. by apply H3.
  - exists rb. rewrite E, lookup_delete_ne by done. done.
Qed.

Lemma trim_other vol kept x :
  other_backup x -> htriple me kept_twice (trim_one vol store kept x) (fun _ => kept_twice) (fun _ => on_disk).
Proof.
  intros [Hid Hkey]. assert (forall d s, kept_twice d s -> on_disk s) as Hdisk by by intros d s [[_ ?] _].
  unfold trim_one. case_match; [by apply ht_ret|]. cbv zeta. case_match; [by apply ht_ret|].
  eapply (ht_bind _ _ _ _ (fun _ => kept_twice)).
  - apply ht_when; [done|]. apply ht_wrap. unfold DeleteObject. case_match; [by apply ht_throw|].
    assert (forall d s, kept_twice d s ->
              kept_twice d (del_object (s3_bucket store) (S3Store_objectKey store (TrimSpace (vb_StorageKey x))) s)) as Hdel.
    { intros d s [[H3 H4] (rb & Hrb & Hs & Hk & Ho)]. split; [by split|]. exists rb. split_and!; try done. cbn.
      rewrite lookup_delete_ne; [done|]. intros [= E]. by apply Hkey. }
    apply ht_io_try; [intros d s s' Hm ->; by apply Hdel|]. intros d s s' Hm [->| ->]; by eapply Hdisk; eauto.
  - intros _. eapply (ht_bind _ _ _ _ (fun _ => kept_twice)); [|intros _; by apply ht_ret].
    apply ht_wrap, ht_exec; [done|]. intros t [] d d' s Hm HU. assert (kept_twice d' s) as H' by by eapply delete_other.
    split; [done|]. by eapply Hdisk.
Qed.

Lemma trim_others vol l kept :
  Forall other_backup l -> htriple me kept_twice (fold_each (trim_one vol store) l kept) (fun _ => kept_twice) (fun _ => on_disk).
Proof.
  intros Hl. apply (ht_fold_each _ (fun _ => kept_twice)). intros b' x Hx. apply trim_other. rewrite Forall_forall in Hl. auto.
Qed.

(** The list of the backups: this one is absent, or the first that succeeded. *)
Definition listed_first (l : list ProjectVolumeBackup) : Prop :=
  Forall other_backup l \/
  exists l1 x l2, l = l1 ++ x :: l2 /\ Forall other_backup (l1 ++ l2) /\ Forall (fun y => vb_Status y <> "succeeded") l1.

Lemma trim_listed vol l :
  0 < vol_BackupRetentionCount vol -> listed_first l ->
  htriple me kept_twice (fold_each (trim_one vol store) l 0) (fun _ => kept_twice) (fun _ => on_disk).
Proof.
  intros Hn [Hl|(l1 & x & l2 & -> & Ho & Hs)]; [by apply trim_others|]. apply Forall_app in Ho as [_ Ho].
  induction Hs as [|y l1 Hy _ IH]; simpl.
  - eapply (ht_bind _ _ _ _ (fun _ => kept_twice)); [|intros k; by apply trim_others].
    unfold trim_one. case_match; [by apply ht_ret|]. cbv zeta. change (wrap32 (0 + 1)) with 1.
    destruct (Z.leb_spec 1 (vol_BackupRetentionCount vol)); [by apply ht_ret|lia].
  - unfold trim_one at 1. destruct (String.eqb_spec (vb_Status y) "succeeded"); [done|]. simpl.
    eapply (ht_bind _ _ _ _ (fun k d s => kept_twice d s /\ k = 0)); [by apply ht_ret|].
    intros k. apply (ht_fact _ (k = 0)); [unfold trim_one; solve_emits|by intros d s [_ ?]|]. intros ->.
    eapply ht_pre; [exact IH|]. by intros d s [? _].
Qed.

(** The statement's answer is such a list. *)
Lemma backups_listed project t d s l :
  kept_twice d s -> ProjectVolumeBackupFindByProjectID project t d = inr l -> listed_first l.
Proof.
  intros [[[H1 H2 H3] _] (rb & Hrb & _)] [= <-].
  set (rs := rows (backup_of_project d project) (db_volume_backups d)).
  change (sort_by _ rs) with (sort_by newer_first rs).
  assert (forall x, x ∈ sort_by newer_first rs -> exists k, db_volume_backups d !! k = Some x /\ vb_ID x = Some k) as Hrow.
  { intros x. rewrite sort_by_elem. intros [_ (k & Hk)]%elem_of_rows. eauto. }
  assert (NoDup (vb_ID <$> sort_by newer_first rs)) as Hnd.
  { rewrite (sort_by_perm newer_first rs). by apply rows_nodup. }
  assert (forall x, x ∈ sort_by newer_first rs -> vb_ID x <> Some b -> other_backup x) as Hoth.
  { intros x Hx Hid. split; [done|]. destruct (Hrow x Hx) as (k & Hk & Hk'). apply (H3 k); [done|congruence]. }
  destruct (decide (Some b ∈ vb_ID <$> sort_by newer_first rs)) as [Hin|Hout].
  - right. assert (rb ∈ sort_by newer_first rs) as Hrb'.
    { apply list_elem_of_fmap in Hin as (x & Hx & Hin). destruct (Hrow x Hin) as (k & Hk & Hk'). congruence. }
    clear Hin. rename Hrb' into Hin. apply list_elem_of_split in Hin as (l1 & l2 & E). exists l1, rb, l2. split; [done|].
    rewrite E, fmap_app, fmap_cons in Hnd. apply NoDup_app in Hnd as (_ & Hd & [Hn _]%NoDup_cons).
    assert (forall y, y ∈ l1 ++ l2 -> vb_ID y <> Some b) as Hne.
    { intros y Hy Hid. rewrite (H1 b rb Hrb) in Hd, Hn. apply elem_of_app in Hy as [Hy|Hy].
      - apply (Hd (Some b)); [rewrite <- Hid; by apply list_elem_of_fmap_2|]. by left.
      - apply Hn. rewrite <- Hid. by apply list_elem_of_fmap_2. }
    split.
    + apply Forall_forall. intros y Hy. apply Hoth; [rewrite E; set_solver|auto].
    + apply Forall_forall. intros y Hy Hst. pose proof (sorted_before _ _ _ _ y E Hy) as Hle.
      destruct (Hrow y) as (k & Hk & Hk'); [rewrite E; set_solver|].
      rewrite (H2 k y rb Hk) in Hle; [done| |done|done]. intros ->. apply (Hne y); [set_solver|done].
  - left. apply Forall_forall. intros x Hx. apply Hoth; [done|]. intros Hid. apply Hout.
    rewrite <- Hid. by apply list_elem_of_fmap_2.
Qed.

Lemma trim_keeps vol :
  htriple me kept_twice (trimBackups vol store) (fun _ => kept_twice) (fun _ => on_disk).
Proof.
  assert (forall d s, kept_twice d s -> on_disk s) as Hdisk by by intros d s [[_ ?] _].
  unfold trimBackups. destruct (Z.leb_spec (vol_BackupRetentionCount vol) 0); [by apply ht_ret|].
  eapply (ht_bind _ _ _ _ (fun l d s => kept_twice d s /\ listed_first l)).
  - apply ht_wrap, ht_query; [done|]. intros t l d s Hk Hq. split; [done|]. by eapply backups_listed.
  - intros l. eapply (ht_bind _ _ _ _ (fun _ => kept_twice)); [|intros k; by apply ht_ret].
    apply (ht_fact _ (listed_first l)); [unfold trim_one; solve_emits|by intros d s [_ ?]|]. intros Hl.
    eapply ht_pre; [by apply trim_listed|]. by intros d s [? _].
Qed.

(** ** The backup *)

Lemma update_backup_kept status url key size err meta t x d d' :
  newest_backup d -> ProjectVolumeBackupUpdateState (Some b) status url key size err meta t d = inr (x, d') ->
  newest_backup d' /\ db_volume_backups d' !! b = Some x /\ vb_Status x = status /\ vb_StorageKey x = key.
Proof.
  intros [H1 H2 H3] H. apply returning_inv in H as (k & r & [= <-] & Hr & _ & _ & -> & ->). cbn in Hr.
  split; [|split; [cbn; apply lookup_insert_eq|done]]. split; cbn.
  - intros k r'. rewrite lookup_insert_Some. intros [[<- <-]|[_ Hk]]; [by apply (H1 b r)|auto].
  - intros k r' rb Hk Hne Hs. rewrite lookup_insert_eq. intros [= <-]. rewrite lookup_insert_ne in Hk by done.
    by apply (H2 k r' r).
  - intros k r' Hk Hne. rewrite lookup_insert_ne in Hk by done. eauto.
Qed.

Lemma upload_stored :
  htriple me kept_on_disk (UploadFile store backup_key (disk_path dir v))
    (fun _ d s => kept_on_disk d s /\ st_objects s !! backup_object = Some c) kept_on_disk.
Proof.
  unfold UploadFile. case_match; [by apply ht_throw|].
  eapply (ht_bind _ _ _ _ (fun _ => kept_on_disk)); [apply ht_io_try; by intros d s s' Hd ->|intros _].
  eapply (ht_bind _ _ _ _ (fun _ => kept_on_disk)); [apply ht_extern_io; intros r d s s' Hm Hs; destruct r; simpl in Hs; by subst|].
  intros [e|size]; [by apply ht_throw|].
  eapply (ht_bind _ _ _ _ (fun _ d s => kept_on_disk d s /\ st_objects s !! backup_object = Some c)); [|intros _; by apply ht_ret].
  apply ht_io_try.
  - intros d s s' [Hn Hd] (x & Hx & ->). assert (x = c) as -> by (unfold on_disk in Hd; congruence).
    split; [by split|]. cbn. apply lookup_insert_eq.
  - intros d s s' [Hn Hd] [->|(x & Hx & ->)]; by split.
Qed.

(** The disk goes only where the data is stored. *)
Lemma delete_after_safe op vol req result :
  htriple me kept_twice (delete_after_backup op vol req (disk_path dir v) result) (fun _ => safe) safe.
Proof.
  unfold delete_after_backup. assert (forall d s, stored d s -> safe d s) as Hst by by right.
  eapply (ht_bind _ _ _ _ (fun r => match r with Some (false, _) => kept_on_disk | _ => stored end)).
  - apply ht_io_call. intros [[[] e]|] d s s' [Hk Hs] Hio; simpl in Hio; subst; try done.
  - assert (forall d d' s, db_volume_backups d' = db_volume_backups d -> stored d s -> stored d' s) as Hsame.
    { intros d d' s E (rb & H). exists rb. by rewrite E. }
    assert (htriple me stored (do! wrap "update operation state after backup"
              (exec (ProjectVolumeOperationUpdateState op.(vo_ID) op.(vo_ServerID) "succeeded" op.(vo_RequestMetadata)
                     (mustJSON result) "")) ; exec (ProjectVolumeSoftDelete vol.(vol_ProjectID))) (fun _ => safe) safe) as H.
    { eapply (ht_bind _ _ _ _ (fun _ => stored)).
      - apply ht_wrap. apply (same_backups stored); [intros; by eapply operation_state_backups|done..].
      - intros _. apply (same_backups stored); [|exact Hsame|intros; by right|exact Hst].
        intros t [] d d' HU. apply executing_inv in HU as [->|(k & r & _ & _ & _ & _ & ->)]; done. }
    intros [[[] e]|]; [exact H|apply fail_safe|exact H].
Qed.

Lemma complete_safe op vol result status health msg :
  htriple me kept_on_disk (completeOperation op vol result status health msg) (fun _ => safe) safe.
Proof.
  unfold completeOperation. eapply (ht_bind _ _ _ _ (fun _ => kept_on_disk)).
  - apply ht_wrap. apply (same_backups kept_on_disk);
      [intros; by eapply operation_state_backups|intros; by eapply kept_same|done|apply kept_safe].
  - intros _. eapply (ht_bind _ _ _ _ (fun _ => safe)); [|intros _; by apply ht_ret].
    apply ht_wrap. apply (same_backups kept_on_disk);
      [intros t a d d' HU; by eapply update_volume_backups|intros; by eapply kept_same|intros; by apply kept_safe|apply kept_safe].
Qed.

Lemma run_backup_of_safe op vol req backup :
  vol_ID vol = Some v -> vb_ID backup = Some b ->
  htriple me kept_on_disk (run_backup_of op vol req b store backup) (fun _ => safe) safe.
Proof.
  intros Hv Hbk. unfold run_backup_of. rewrite Hv, Hbk. simpl FromPgtype. rewrite (disk_path_eq dir v Hdir).
  eapply (ht_bind _ _ _ _ (fun _ => kept_on_disk)).
  { eapply ht_conseq; [apply (health_keeps me kept_on_disk)|done|done|apply kept_safe]. }
  intros [health msg]. case_match; [apply fail_safe|].
  eapply ht_or_fail; [apply upload_stored|apply kept_safe|intros e; apply fail_safe|]. intros [url size].
  eapply (ht_or_fail _ _ _ _ _ (fun _ => kept_twice) kept_on_disk).
  - apply ht_exec; [by intros d s []|]. intros t x d d' s [[Hn Hd] Ho] HU.
    destruct (update_backup_kept _ _ _ _ _ _ _ _ _ _ Hn HU) as (Hn' & Hx & Hs & Hk).
    split; [split; [by split|]|by split]. exists x. auto.
  - apply kept_safe.
  - intros e. apply fail_safe.
  - intros _. eapply ht_or_fail; [apply trim_keeps|intros d s; by left|intros e; apply fail_on_disk|].
    intros u. cbn beta. case_match; [apply delete_after_safe|].
    eapply ht_pre; [apply complete_safe|]. by intros d s [].
Qed.

(** The requests this holds for: a backup of [b], with or without the deletion. *)
Definition backup_request (kind : string) (delete : bool) : operationRequest :=
  mkOperationRequest (uuid_String b) kind "" "" "" "" delete.

Lemma runBackup_safe q kind delete op vol :
  valid_text kind = kind -> vo_RequestMetadata op = marshal_request (backup_request kind delete) -> vol_ID vol = Some v ->
  htriple me kept_on_disk (runBackup (mkHandler q (Some (Some snap)) me) op vol) (fun _ => safe) safe.
Proof.
  intros Hkind Hreq Hv. unfold runBackup. rewrite Hreq, decode_marshal.
  2: { unfold request_text. rewrite !Forall_cons. split_and!; [apply valid_uuid|exact Hkind|reflexivity..|constructor]. }
  do 2 (case_match; [apply fail_safe|]). cbn [or_BackupID backup_request]. rewrite TrimSpace_uuid.
  rewrite uuid_Parse_String by apply Hb.
  eapply ht_or_fail; [apply store_keeps|apply kept_safe|intros e; apply fail_safe|]. intros st.
  apply (ht_fact _ (st = store)); [solve_emits|by intros d s [_ ?]|]. intros ->.
  eapply (ht_or_fail _ _ _ _ _ (fun row d s => kept_on_disk d s /\ vb_ID row = Some b) kept_on_disk).
  - apply ht_query; [by intros d s []|]. intros t row d s [Hk _] Hq. split; [done|].
    unfold ProjectVolumeBackupFindByID, ToPgtype in Hq. rewrite decide_False in Hq by apply Hb. simpl in Hq.
    destruct (db_volume_backups d !! b) as [r|] eqn:E; simpl in Hq; [|done]. injection Hq as <-. by apply Hk.
  - apply kept_safe.
  - intros e. apply fail_safe.
  - intros row. apply (ht_fact _ (vb_ID row = Some b)); [solve_emits|by intros d s [_ ?]|]. intros Hrow.
    eapply (ht_or_fail _ _ _ _ _ (fun _ => kept_on_disk) kept_on_disk).
    + rewrite Hrow. apply ht_exec; [by intros d s []|]. intros t x d d' s [[Hn Hd] _] HU.
      apply update_backup_kept in HU as [Hn' _]; [|done]. by split.
    + apply kept_safe.
    + intros e. apply fail_safe.
    + intros _. by apply run_backup_of_safe.
Qed.

(** ** The handler *)

(** The operation is a backup of [b] of the volume [v]. *)
Definition is_backup (op : ProjectVolumeOperation) : Prop :=
  vo_Kind op = "backup" /\ vo_ProjectVolumeID op = Some v /\
  exists kind delete, valid_text kind = kind /\ vo_RequestMetadata op = marshal_request (backup_request kind delete).

Record backup_pending (d : Db) (s : Storage) : Prop := {
  bp_kept : kept_on_disk d s;
  bp_operation : forall ro, db_volume_operations d !! o = Some ro -> vo_ID ro = Some o /\ is_backup ro;
  bp_volume : forall r, db_volumes d !! v = Some r -> vol_ID r = Some v
}.

Lemma pending_safe d s : backup_pending d s -> safe d s.
Proof. intros []. by apply kept_safe. Qed.

Lemma fail_pending op vol msg health bid : htriple me backup_pending (failOperation op vol msg health bid) (fun _ => safe) safe.
Proof. eapply ht_pre; [apply fail_safe|]. by intros d s []. Qed.

Lemma start_safe q op vol :
  vo_ID op = Some o -> is_backup op -> vol_ID vol = Some v ->
  htriple me backup_pending (start_operation (mkHandler q (Some (Some snap)) me) op vol) (fun _ => safe) safe.
Proof.
  intros Hid Hop Hv. unfold start_operation.
  eapply (ht_bind _ _ _ _ (fun op' d s => kept_on_disk d s /\ is_backup op')).
  - case_match; [|by apply ht_ret; intros d s []]. rewrite Hid. apply ht_wrap, ht_exec; [apply pending_safe|].
    intros t x d d' s [Hk Ho Hvv] HU. apply returning_inv in HU as (k & r & [= <-] & Hr & _ & _ & -> & ->).
    assert (forall d', db_volume_backups d' = db_volume_backups d -> kept_on_disk d' s) as Hk' by (intros; by eapply kept_same).
    split; [|by apply kept_safe, Hk']. split; [by apply Hk'|]. by apply Ho in Hr as [_ Hr].
  - intros op'. apply (ht_fact _ (is_backup op')); [unfold run_kind; solve_emits|by intros d s [_ ?]|].
    intros (Hk & _ & kind & delete & Hkind & Hreq). unfold run_kind. rewrite Hk.
    eapply ht_pre; [by eapply runBackup_safe|]. by intros d s [].
Qed.

Lemma watch_safe op vol : htriple me backup_pending (watch_operation op vol) (fun _ => safe) safe.
Proof.
  unfold watch_operation. eapply (ht_bind _ _ _ _ (fun _ => backup_pending)).
  - unfold operationServerHealthy, handler_serverSupportsCloudHypervisor, serverSupportsCloudHypervisor.
    case_match; [|by apply ht_ret].
    eapply (ht_bind _ _ _ _ (fun _ => backup_pending)); [apply ht_attempt, ht_query; [|done]|].
    { intros d s Hp. split; [by apply pending_safe|done]. }
    intros [e|srv]; [by apply ht_ret|]. case_match; [by apply ht_ret|].
    eapply (ht_bind _ _ _ _ (fun _ => backup_pending)); [|intros ch; case_match; by apply ht_ret].
    eapply (ht_bind _ _ _ _ (fun _ => backup_pending)); [apply ht_attempt, ht_query; [|done]|intros [e|l]; by apply ht_ret].
    intros d s Hp. split; [by apply pending_safe|done].
  - intros [ok msg]. do 2 (case_match; [apply ht_ret, pending_safe|]). apply fail_pending.
Qed.

Lemma reconcile_backup q :
  htriple me backup_pending (Reconcile (mkHandler q (Some (Some snap)) me) o) (fun _ => safe) safe.
Proof.
  unfold Reconcile. case_match; [apply ht_ret, pending_safe|].
  eapply (ht_bind _ _ _ _ (fun r d s => backup_pending d s /\ forall op, r = inr op -> vo_ID op = Some o /\ is_backup op)).
  { apply ht_attempt, ht_query; [intros d s Hp; split; [by apply pending_safe|done]|].
    intros t op d s Hp Hq. split; [done|]. intros ? [= <-]. unfold ProjectVolumeOperationFindByID, ToPgtype in Hq.
    case_decide; simpl in Hq; [done|]. destruct (db_volume_operations d !! o) as [ro|] eqn:E; simpl in Hq; [|done].
    injection Hq as <-. by apply Hp. }
  intros [e|op]; [case_match; [apply ht_ret|apply ht_throw]; intros d s [Hp _]; by apply pending_safe|].
  apply (ht_fact _ (vo_ID op = Some o /\ is_backup op)); [solve_emits|by intros d s [_ Hop]; apply Hop|]. intros [Hid Hop].
  case_match; [apply ht_ret; intros d s [Hp _]; by apply pending_safe|].
  eapply (ht_bind _ _ _ _ (fun r d s => backup_pending d s /\ forall vol, r = inr vol -> vol_ID vol = Some v)).
  { apply ht_attempt, ht_query; [intros d s [Hp _]; split; [by apply pending_safe|done]|].
    intros t vol d s [Hp _] Hq. split; [done|]. intros ? [= <-]. destruct Hop as (_ & Hpv & _).
    unfold ProjectVolumeFindByID in Hq. rewrite Hpv in Hq. simpl in Hq. destruct (db_volumes d !! v) as [r|] eqn:E; [|done].
    simpl in Hq. case_match; simpl in Hq; [|done]. injection Hq as <-. by apply (bp_volume d s). }
  intros [e|vol]; [case_match; [apply ht_ret|apply ht_throw]; intros d s [Hp _]; by apply pending_safe|].
  apply (ht_fact _ (vol_ID vol = Some v)); [solve_emits|by intros d s [_ Hv]; apply Hv|]. intros Hv.
  apply ht_pre with (P' := backup_pending); [|by intros d s [? _]].
  eapply (ht_bind _ _ _ _ (fun _ => backup_pending)).
  { unfold isStaleRunning. repeat case_match; try by apply ht_ret.
    eapply ht_bind; [by apply (ht_now _ _ (fun _ => backup_pending))|]. intros ?. by apply ht_ret. }
  intros [|]; [apply fail_pending|]. destruct (vo_ServerID op); [case_bool_decide|]; [by apply start_safe|apply watch_safe|by apply start_safe].
Qed.

End delete_after.
