(* ===== verification/VolumeSafety.v ===== *)
(** * Safety of the volume operations

    A sample of volumes with their disks and objects, and the theorems that moves
    and backups keep the data. *)

From S2P Require Import Prelude NetAddr Text Models Runtime Effects Queries Logic EventLogic TableFacts Lifecycle Volumes Sample VolumeQueries Codecs Secrets Config Paths Json VolumeOps StorageLogic VolumeMove VolumeBackup.

(** What a call does when failed calls have no effect and new files are empty. *)
Definition io_exec (me : UUID) (io : IO) (s : Storage) : option Storage :=
  match io with
  | IoCreateTemp p true => match s.(st_disks) !! (me, p) with None => Some (put_disk me p 0 s) | Some _ => None end
  | IoCreate p true => Some (put_disk me p 0 s)
  | IoRename p q true => (fun c => put_disk me q c (del_disk me p s)) <$> s.(st_disks) !! (me, p)
  | IoRemove p true => Some (del_disk me p s)
  | IoPutObject b k p true => (fun c => put_object b k c s) <$> s.(st_disks) !! (me, p)
  | IoCopyObject b k p true => (fun c => put_disk me p c s) <$> s.(st_objects) !! (b, k)
  | IoDeleteObject b k true => Some (del_object b k s)
  | _ => Some s
  end.

Fixpoint run_io (me : UUID) (evs : list Event) (s : Storage) : option Storage :=
  match evs with
  | [] => Some s
  | e :: evs' =>
      match run_io me evs' s with
      | Some s1 => match e with EvIO io => io_exec me io s1 | _ => Some s1 end
      | None => None
      end
  end.

Lemma io_exec_step me io s s' : io_exec me io s = Some s' -> io_step me io s s'.
Proof.
  destruct io; simpl; try destruct ok; intros H; simplify_eq/=; eauto.
  - destruct (st_disks s !! _) eqn:E; simplify_eq. eauto.
  - apply fmap_Some in H as (c & Hc & ->). eauto.
  - apply fmap_Some in H as (c & Hc & ->). eauto.
  - apply fmap_Some in H as (c & Hc & ->). eauto.
Qed.

Lemma run_io_replay me evs s s' : run_io me evs s = Some s' -> replay me evs s s'.
Proof.
  revert s'. induction evs as [|e evs IH]; intros s' H; simpl in *; [congruence|].
  destruct (run_io me evs s) as [s1|]; [|done]. exists s1. split; [auto|].
  destruct e; simpl in *; try congruence. by apply io_exec_step.
Qed.

(** Every call succeeds. *)
#[export] Instance sample_io : VolumeIO :=
  {| os_Stat _ _ := None; os_MkdirAll _ _ := None; os_CreateTemp n _ := inr (N.of_nat n); os_Close _ _ := None;
     os_Rename _ _ _ := None; os_Remove _ _ := None; os_Open _ _ := None; os_FileSize _ _ := inr 4096; os_Create _ _ := None;
     io_Copy _ _ := None; qemu_img_info _ _ := None; qemu_img_check _ _ := None; aws_LoadDefaultConfig _ := None;
     s3_PutObject _ _ := None; s3_GetObject _ _ := None; s3_DeleteObject _ _ := None |}.

(** The default configuration with a bucket. *)
Definition sample_snapshot : Snapshot :=
  mkSnapshot "" "kindling" "" "" "AKIA" "secret" "volumes" "eu-central-1" "" "prod" "" ":80" "" false (2 * Minute) false 300
    "" "" "" 3600 300 "" "" "" "" "" "" "".

Definition sample_volume (status : string) (retention : Z) : ProjectVolume :=
  mkProjectVolume (Some 80%N) (Some 1%N) (Some 20%N) (Some 30%N) None "/data" 5 "ext4" status "healthy" "manual" retention false ""
    None (Some 1) (Some 1).

Definition sample_operation (kind : string) (server : N) (request : operationRequest) : ProjectVolumeOperation :=
  mkProjectVolumeOperation (Some 90%N) (Some 80%N) (Some server) kind "pending" (marshal_request request) (JObject []) ""
    None None None (Some 1) (Some 1).

Definition sample_backup (id : N) (status key : string) (created : Time) : ProjectVolumeBackup :=
  mkProjectVolumeBackup (Some id) (Some 80%N) "manual" "" key 0 status "" (JObject []) None None None (Some created) (Some created).

Definition volume_db (vol : ProjectVolume) (op : ProjectVolumeOperation) (backups : list (N * ProjectVolumeBackup)) : Db :=
  set_volumes {[ 80%N := vol ]}
    (set_volume_operations {[ 90%N := op ]} (set_volume_backups (list_to_map backups) sample_db)).

Definition sample_handler (me : UUID) : Handler := mkHandler true (Some (Some sample_snapshot)) me.

Definition volume_path : string := "/data/volumes/00000000-0000-0000-0000-000000000050.qcow2".

(** The world after a run of the handler on a server, and what it did to the
    storage. *)
Definition run_operation {UP : UuidParser} (me : UUID) (d : Db) (s : Storage) : Db * option Storage :=
  let w := (Reconcile (sample_handler me) 90%N (mkWorld d 2000 0 None [])).2 in (w_db w, run_io me (w_log w) s).

(** * The data of a volume

    A move never loses a volume's data, a pre-delete backup removes the disk
    only once the data is stored, and the retention keeps the newest backups. *)

(** ** Moves *)

(** One run of the handler: on any server, in any environment, with the shared
    configuration; [evs] are the events it added to the log. *)
Definition move_step {S : Sorter} {UP : UuidParser} (snap : Snapshot) (dir : string) (o : UUID) (x y : Db * Storage) : Prop :=
  exists (env : Env) (VIO : VolumeIO) (q : bool) (me : UUID) (w : World) (evs : list Event),
    env_volume_dir = dir /\ w_db w = x.1 /\
    let w' := (Reconcile (mkHandler q (Some (Some snap)) me) o w).2 in
    w_db w' = y.1 /\ w_log w' = evs ++ w_log w /\ replay me evs x.2 y.2.

(** C6: However often and wherever a move is reconciled, and whatever fails in
    between, the volume stays pinned to a server whose disk holds its data; and
    once the operation has succeeded, that server is the target. *)
Theorem move_keeps_data (S : Sorter) (UP : UuidParser) (snap : Snapshot) (dir : string) (v p o t source : UUID) (c : N)
    (x y : Db * Storage) :
  t <> uuid_Nil -> (t < uuid_bound)%N -> move_ok snap dir v p o t source c x.1 x.2 -> rtc (move_step snap dir o) x y ->
  exists r srv, db_volumes y.1 !! v = Some r /\ vol_ServerID r = Some srv /\ st_disks y.2 !! (srv, disk_path dir v) = Some c /\
    forall ro, db_volume_operations y.1 !! o = Some ro -> vo_Status ro = "succeeded" -> srv = t.
Proof.
  intros Ht Hb Hok Hr. assert (move_ok snap dir v p o t source c y.1 y.2) as (ph & srv & [(r & Hv & _ & _ & Hs) _ Hd] & ro & Ho & Hro & _).
  { induction Hr as [|x y z (env & VIO & q & me & w & evs & Hdir & Hx & Hy & Hl & Hp) _ IH]; [done|]. apply IH. clear IH.
    destruct (reconcile_keeps snap dir v p o t source c (conj Ht Hb) me Hdir q) as [_ H].
    rewrite <- Hx in Hok. specialize (H w x.2 evs y.2 Hok Hl Hp). rewrite <- Hy. by destruct (Reconcile _ _ w) as [[] ?]. }
  exists r, srv. split_and!; try done. intros ro' Ho' Hst. rewrite Ho in Ho'. injection Ho' as <-.
  destruct Hro as (_ & _ & _ & Hph). destruct ph.
  - destruct Hph as (Ha & _). unfold operation_active in Ha. by rewrite Hst in Ha.
  - destruct Hph as (Ha & _). unfold operation_active in Ha. by rewrite Hst in Ha.
  - by apply Hph.
Qed.

Definition sample_move : Db :=
  volume_db (sample_volume "restoring" 7) (sample_operation "move" 30 (upload_request 31 30)) [].
Definition sample_disks : Storage := mkStorage {[ (30%N, volume_path) := 7%N ]} ∅.

Lemma run_operation_step {UP : UuidParser} me d s d' s' :
  run_operation me d s = (d', Some s') -> move_step sample_snapshot "/data/volumes" 90 (d, s) (d', s').
Proof.
  unfold run_operation. intros [= <- H]. exists sample_env, sample_io, true, me, (mkWorld d 2000 0 None []). eexists.
  split; [done|]. split; [done|]. split; [done|]. split; [by rewrite app_nil_r|]. by apply run_io_replay.
Qed.

(** The source uploads, then the target downloads. *)
Definition two_runs {UP : UuidParser} : option (Db * Storage) :=
  match run_operation 30 sample_move sample_disks with
  | (d1, Some s1) => match run_operation 31 d1 s1 with (d2, Some s2) => Some (d2, s2) | _ => None end
  | _ => None
  end.

Lemma two_runs_steps {UP : UuidParser} y :
  two_runs = Some y -> rtc (move_step sample_snapshot "/data/volumes" 90) (sample_move, sample_disks) y.
Proof.
  unfold two_runs. destruct (run_operation 30 _ _) as [d1 [s1|]] eqn:E1; [|done].
  destruct (run_operation 31 _ _) as [d2 [s2|]] eqn:E2; [|done]. intros [= <-].
  eapply rtc_l; [exact (run_operation_step _ _ _ _ _ E1)|]. eapply rtc_l; [exact (run_operation_step _ _ _ _ _ E2)|]. apply rtc_refl.
Qed.

Lemma move_keeps_data_witness :
  exists y, rtc (move_step (UP := canonical_uuid) sample_snapshot "/data/volumes" 90) (sample_move, sample_disks) y /\
    (vo_Status <$> db_volume_operations y.1 !! 90%N) = Some "succeeded" /\
    exists r srv, db_volumes y.1 !! 80%N = Some r /\ vol_ServerID r = Some srv /\ st_disks y.2 !! (srv, disk_path "/data/volumes" 80) = Some 7%N /\
      forall ro, db_volume_operations y.1 !! 90%N = Some ro -> vo_Status ro = "succeeded" -> srv = 31%N.
Proof.
  assert (match two_runs (UP := canonical_uuid) with
          | Some y => bool_decide ((vo_Status <$> db_volume_operations y.1 !! 90%N) = Some "succeeded")
          | None => false
          end = true) as Hst by (vm_compute; reflexivity).
  destruct (two_runs (UP := canonical_uuid)) as [y|] eqn:E; [|discriminate Hst].
  apply two_runs_steps in E as Hr. apply bool_decide_eq_true in Hst. exists y. split; [exact Hr|]. split; [exact Hst|].
  apply (move_keeps_data _ canonical_uuid sample_snapshot "/data/volumes" 80 1 90 31 30 7 (sample_move, sample_disks)).
  - done.
  - done.
  - exists Uploading, 30%N. split.
    + split.
      * exists (sample_volume "restoring" 7). vm_compute. repeat split.
      * intros k r H _. change (db_volumes (sample_move, sample_disks).1) with ({[ 80%N := sample_volume "restoring" 7 ]} : gmap N ProjectVolume) in H.
        by apply lookup_singleton_Some in H as [<- _].
      * vm_compute. reflexivity.
    + exists (sample_operation "move" 30 (upload_request 31 30)). split; [vm_compute; reflexivity|].
      split; [|exact I]. vm_compute. repeat split.
  - exact Hr.
Defined.

(** ** Backups *)

(** C7: Whatever fails while a backup operation runs on the server that holds
    the volume's disk, with or without the deletion of the volume afterwards,
    the data is not lost: the disk still holds it, or the backup is marked
    succeeded and its object in the store holds it. *)
Theorem backup_keeps_data (S : Sorter) (UP : UuidParser) (env : Env) (VIO : VolumeIO) (snap : Snapshot) (v o b : UUID) (c : N)
    (q : bool) (me : UUID) (w : World) (s s' : Storage) (evs : list Event) :
  b <> uuid_Nil -> (b < uuid_bound)%N -> backup_pending snap env_volume_dir v o b c me (w_db w) s ->
  let w' := (Reconcile (mkHandler q (Some (Some snap)) me) o w).2 in
  w_log w' = evs ++ w_log w -> replay me evs s s' ->
  st_disks s' !! (me, disk_path env_volume_dir v) = Some c \/
  exists rb, db_volume_backups (w_db w') !! b = Some rb /\ vb_Status rb = "succeeded" /\
    st_objects s' !! (s3_bucket (shared_store snap), S3Store_objectKey (shared_store snap) (vb_StorageKey rb)) = Some c.
Proof.
  intros Hn Hb Hp w' Hl Hr.
  assert (safe snap env_volume_dir v b c me (w_db w') s') as [H|(rb & H1 & H2 & H3 & H4)].
  - destruct (reconcile_backup snap env_volume_dir v o b c me eq_refl (conj Hn Hb) q) as [_ H].
    specialize (H w s evs s' Hp Hl Hr). unfold w'. by destruct (Reconcile _ _ w) as [[] ?].
  - by left.
  - right. exists rb. rewrite H3. auto.
Qed.

(** A volume deleted with a backup, retention one, and an older backup. *)
Definition sample_delete : Db :=
  volume_db (sample_volume "deleting" 1) (sample_operation "backup" 30 (backup_request 91 "pre_delete" true))
    [(91%N, sample_backup 91 "pending" "" 500); (92%N, sample_backup 92 "succeeded" "old.qcow2" 100)].
Definition sample_delete_world : World := mkWorld sample_delete 2000 0 None [].
Definition sample_delete_storage : Storage :=
  mkStorage {[ (30%N, volume_path) := 7%N ]} {[ ("volumes", "prod/old.qcow2") := 6%N ]}.

Lemma sample_backups_rows k r :
  db_volume_backups sample_delete !! k = Some r ->
  (k = 91%N /\ r = sample_backup 91 "pending" "" 500) \/ (k = 92%N /\ r = sample_backup 92 "succeeded" "old.qcow2" 100).
Proof.
  intros H. apply elem_of_list_to_map_2 in H. rewrite !elem_of_cons, elem_of_nil in H. naive_solver.
Qed.

Lemma sample_delete_pending :
  backup_pending sample_snapshot "/data/volumes" 80 90 91 7 30 sample_delete sample_delete_storage.
Proof.
  split; [split; [split|]| |].
  - intros k r [[-> ->]|[-> ->]]%sample_backups_rows; reflexivity.
  - intros k r rb [[-> ->]|[-> ->]]%sample_backups_rows Hk Hs Hb; [by destruct Hk|].
    apply sample_backups_rows in Hb as [[_ ->]|[E _]]; [reflexivity|discriminate E].
  - intros k r [[-> ->]|[-> ->]]%sample_backups_rows Hk; [by destruct Hk|]. vm_compute. discriminate.
  - vm_compute. reflexivity.
  - intros ro H. change (db_volume_operations sample_delete) with ({[ 90%N := sample_operation "backup" 30 (backup_request 91 "pre_delete" true) ]} : gmap N ProjectVolumeOperation) in H.
    apply lookup_singleton_Some in H as [_ <-]. split; [done|]. split; [done|]. split; [done|]. exists "pre_delete", true.
    split; [vm_compute; reflexivity|done].
  - intros r H. change (db_volumes sample_delete) with ({[ 80%N := sample_volume "deleting" 1 ]} : gmap N ProjectVolume) in H.
    by apply lookup_singleton_Some in H as [_ <-].
Qed.

Lemma backup_keeps_data_witness :
  let w' := (Reconcile (UP := canonical_uuid) (sample_handler 30) 90%N sample_delete_world).2 in
  exists s', run_io 30 (w_log w') sample_delete_storage = Some s' /\
    (st_disks s' !! (30%N, disk_path "/data/volumes" 80) = Some 7%N \/
     exists rb, db_volume_backups (w_db w') !! 91%N = Some rb /\ vb_Status rb = "succeeded" /\
       st_objects s' !! ("volumes", S3Store_objectKey (shared_store sample_snapshot) (vb_StorageKey rb)) = Some 7%N).
Proof.
  intros w'.
  assert (match run_io 30 (w_log w') sample_delete_storage with Some _ => true | None => false end = true) as Hrun
    by (vm_compute; reflexivity).
  destruct (run_io 30 (w_log w') sample_delete_storage) as [s'|] eqn:E; [|discriminate Hrun].
  exists s'. split; [reflexivity|]. apply run_io_replay in E.
  apply (backup_keeps_data insertion_sorter canonical_uuid sample_env sample_io sample_snapshot 80 90 91 7 true 30 sample_delete_world
           sample_delete_storage s' (w_log w')); [done|done|exact sample_delete_pending|symmetry; apply app_nil_r|exact E].
Defined.

(** The statement that ends the operation fails once, then the operation is
    reconciled again: the disk is gone, so the retry marks as failed the only
    backup that holds the data. *)
Definition lost_answer : Env :=
  {| env_fault n := if (n =? 16)%nat then FailBefore "connection reset" else NoFault; env_delay _ := 0%N;
     env_uuid n := (1000 + N.of_nat n)%N; env_http _ _ := HttpStatus 200; env_volume_dir := "/data/volumes" |}.

Definition disk_gone : VolumeIO :=
  {| os_Stat _ _ := Some (true, "no such file"); os_MkdirAll _ _ := None; os_CreateTemp n _ := inr (N.of_nat n); os_Close _ _ := None;
     os_Rename _ _ _ := None; os_Remove _ _ := None; os_Open _ _ := None; os_FileSize _ _ := inr 4096; os_Create _ _ := None;
     io_Copy _ _ := None; qemu_img_info _ _ := None; qemu_img_check _ _ := None; aws_LoadDefaultConfig _ := None;
     s3_PutObject _ _ := None; s3_GetObject _ _ := None; s3_DeleteObject _ _ := None |}.

Example retried_delete_fails_backup :
  let w1 := (Reconcile (env := lost_answer) (UP := canonical_uuid) (sample_handler 30) 90%N sample_delete_world).2 in
  let w2 := (Reconcile (UP := canonical_uuid) (VIO := disk_gone) (sample_handler 30) 90%N w1).2 in
  (vb_Status <$> db_volume_backups (w_db w1) !! 91%N) = Some "succeeded" /\
  (st_disks <$> run_io 30 (w_log w1) sample_delete_storage) = Some ∅ /\
  (vb_Status <$> db_volume_backups (w_db w2) !! 91%N) = Some "failed" /\
  (vol_DeletedAt <$> db_volumes (w_db w2) !! 80%N) = Some None /\
  (vol_Status <$> db_volumes (w_db w2) !! 80%N) = Some "unavailable".
Proof. vm_compute. repeat split. Qed.

(** * What the retention deletes

    Without failures, trimming deletes exactly the succeeded backups beyond the
    newest ones the policy keeps. *)

Definition succeeded_backup (r : ProjectVolumeBackup) : bool := String.eqb (vb_Status r) "succeeded".

(** The succeeded backups of a project beyond the [n] newest. *)
Definition expired {S : Sorter} (d : Db) (project : pgUUID) (n : Z) : list ProjectVolumeBackup :=
  drop (Z.to_nat n) (List.filter succeeded_backup
    (sort_by newer_first (rows (backup_of_project d project) (db_volume_backups d)))).

Definition delete_backup (m : gmap UUID ProjectVolumeBackup) (x : ProjectVolumeBackup) : gmap UUID ProjectVolumeBackup :=
  match vb_ID x with Some k => delete k m | None => m end.

Lemma delete_backups_lookup l m k :
  foldl delete_backup m l !! k = if decide (Some k ∈ vb_ID <$> l) then None else m !! k.
Proof.
  revert m. induction l as [|x l IH]; intros m; simpl; [done|]. rewrite IH.
  destruct (decide (Some k ∈ vb_ID <$> l)) as [H|H].
  - rewrite decide_True by set_solver. done.
  - unfold delete_backup. destruct (vb_ID x) as [j|]; [|rewrite decide_False by set_solver; done].
    destruct (decide (j = k)) as [->|Hne]; [rewrite decide_True by set_solver; apply lookup_delete_eq|].
    rewrite decide_False by set_solver. by apply lookup_delete_ne.
Qed.

Section trim.
Context {env : Env} {S : Sorter} {VIO : VolumeIO} (Hq : quiet env) (vol : ProjectVolume) (st : S3Store).
Hypothesis Hdel : forall n key, s3_DeleteObject n key = None.
Hypothesis Hst : Configured st = true.

Lemma delete_ret key w : exists w', DeleteObject st key w = (Ret tt, w') /\ w_db w' = w_db w.
Proof.
  unfold DeleteObject. rewrite Hst. simpl. unfold io_try, io_call, bind, extern_io. rewrite Hdel. eauto.
Qed.

Lemma exec_ret {A} (f : writes A) w a d :
  f (sql_now w) (w_db w) = inr (a, d) -> exec f w = (Ret a, tick (set_db d w)).
Proof. intros H. unfold exec. rewrite Hq, H. done. Qed.

Lemma trim_one_ret kept x w :
  0 <= kept < max_int32 ->
  exists w', trim_one vol st kept x w = (Ret (if succeeded_backup x then kept + 1 else kept), w') /\
    db_volume_backups (w_db w') =
      if succeeded_backup x && (vol_BackupRetentionCount vol <? kept + 1)
      then delete_backup (db_volume_backups (w_db w)) x else db_volume_backups (w_db w).
Proof.
  intros Hk. unfold trim_one, succeeded_backup. destruct (String.eqb (vb_Status x) "succeeded"); simpl; [|by exists w].
  assert (wrap32 (kept + 1) = kept + 1) as ->.
  { unfold wrap32. unfold max_int32 in Hk. rewrite Z.mod_small by lia. lia. }
  destruct (Z.ltb_spec (vol_BackupRetentionCount vol) (kept + 1)) as [Hlt|Hge].
  - destruct (Z.leb_spec (kept + 1) (vol_BackupRetentionCount vol)); [lia|].
    assert (exists w1, when (negb (String.eqb (TrimSpace (vb_StorageKey x)) ""))
              (wrap "delete expired backup object" (DeleteObject st (TrimSpace (vb_StorageKey x)))) w = (Ret tt, w1) /\ w_db w1 = w_db w)
      as (w1 & H1 & E1).
    { destruct (negb _); simpl; [|by exists w]. destruct (delete_ret (TrimSpace (vb_StorageKey x)) w) as (w1 & H1 & E1).
      exists w1. split; [by apply wrap_ret|done]. }
    rewrite (bind_ret _ _ _ _ _ H1).
    erewrite bind_ret; [|apply wrap_ret, exec_ret; reflexivity]. eexists. split; [reflexivity|].
    cbn. rewrite E1. unfold delete_backup. by destruct (vb_ID x).
  - destruct (Z.leb_spec (kept + 1) (vol_BackupRetentionCount vol)); [|lia]. by exists w.
Qed.

Lemma trim_fold_ret l kept w :
  0 <= kept -> kept + Z.of_nat (length l) < max_int32 -> 0 <= vol_BackupRetentionCount vol ->
  exists k' w', fold_each (trim_one vol st) l kept w = (Ret k', w') /\
    db_volume_backups (w_db w') =
      foldl delete_backup (db_volume_backups (w_db w))
        (drop (Z.to_nat (vol_BackupRetentionCount vol - kept)) (List.filter succeeded_backup l)).
Proof.
  intros Hk Hl Hn. revert kept w Hk Hl. induction l as [|x l IH]; intros kept w Hk Hl; simpl.
  { exists kept, w. by rewrite drop_nil. }
  simpl in Hl. destruct (trim_one_ret kept x w) as (w1 & H1 & E1); [lia|]. rewrite (bind_ret _ _ _ _ _ H1).
  destruct (IH (if succeeded_backup x then kept + 1 else kept) w1) as (k' & w2 & H2 & E2); [destruct (succeeded_backup x); lia..|].
  exists k', w2. split; [done|]. rewrite E2, E1. destruct (succeeded_backup x); simpl; [|done].
  destruct (Z.ltb_spec (vol_BackupRetentionCount vol) (kept + 1)).
  - replace (Z.to_nat (vol_BackupRetentionCount vol - kept)) with 0%nat by lia.
    by replace (Z.to_nat (vol_BackupRetentionCount vol - (kept + 1))) with 0%nat by lia.
  - by replace (Z.to_nat (vol_BackupRetentionCount vol - kept))
      with (Datatypes.S (Z.to_nat (vol_BackupRetentionCount vol - (kept + 1)))) by lia.
Qed.

End trim.

(** Without failures, trimming keeps the newest succeeded backups up to the
    retention count and every backup that has not succeeded, and deletes
    exactly the others of the project; a count of zero or less keeps all. *)
Theorem trim_exact (env : Env) (S : Sorter) (VIO : VolumeIO) (vol : ProjectVolume) (st : S3Store) (w : World) :
  quiet env -> (forall n key, s3_DeleteObject n key = None) -> Configured st = true ->
  Z.of_nat (size (db_volume_backups (w_db w))) < max_int32 ->
  exists w', trimBackups vol st w = (Ret tt, w') /\
    forall k, db_volume_backups (w_db w') !! k =
      if decide (0 < vol_BackupRetentionCount vol /\
                 Some k ∈ vb_ID <$> expired (w_db w) (vol_ProjectID vol) (vol_BackupRetentionCount vol))
      then None else db_volume_backups (w_db w) !! k.
Proof.
  intros Hq Hdel Hst Hsz. unfold trimBackups. destruct (Z.leb_spec (vol_BackupRetentionCount vol) 0) as [Hn|Hn].
  { exists w. split; [done|]. intros k. by rewrite decide_False by lia. }
  set (l := sort_by newer_first (rows (backup_of_project (w_db w) (vol_ProjectID vol)) (db_volume_backups (w_db w)))).
  assert (wrap "list backups for trim" (query (ProjectVolumeBackupFindByProjectID (vol_ProjectID vol))) w = (Ret l, tick w)) as H1.
  { apply wrap_ret. unfold query. by rewrite Hq. }
  rewrite (bind_ret _ _ _ _ _ H1).
  assert (length l <= size (db_volume_backups (w_db w)))%nat as Hlen.
  { unfold l. rewrite sort_by_length. unfold rows. etrans; [apply List.filter_length_le|]. rewrite length_fmap.
    by rewrite length_map_to_list. }
  destruct (trim_fold_ret Hq vol st Hdel Hst l 0 (tick w)) as (k' & w2 & H2 & E2); [lia|lia|lia|].
  rewrite (bind_ret _ _ _ _ _ H2). exists w2. split; [done|]. intros k. rewrite E2, delete_backups_lookup, Z.sub_0_r.
  fold l in E2. change (drop _ (List.filter succeeded_backup l)) with (expired (w_db w) (vol_ProjectID vol) (vol_BackupRetentionCount vol)).
  destruct (decide (Some k ∈ _)) as [H|H]; [by rewrite decide_True|]. rewrite decide_False by tauto. done.
Qed.

Lemma trim_exact_witness :
  let d := volume_db (sample_volume "detached" 1) (sample_operation "backup" 30 zero_request)
             [(91%N, sample_backup 91 "succeeded" "new.qcow2" 500); (92%N, sample_backup 92 "succeeded" "old.qcow2" 100);
              (93%N, sample_backup 93 "failed" "" 50)] in
  let w := mkWorld d 2000 0 None [] in
  exists w', trimBackups (sample_volume "detached" 1) (mkS3Store "volumes" "prod") w = (Ret tt, w') /\
    (vb_ID <$> db_volume_backups (w_db w') !! 91%N) = Some (Some 91%N) /\ db_volume_backups (w_db w') !! 92%N = None /\
    (vb_ID <$> db_volume_backups (w_db w') !! 93%N) = Some (Some 93%N).
Proof.
  intros d w. destruct (trim_exact sample_env insertion_sorter sample_io (sample_volume "detached" 1) (mkS3Store "volumes" "prod") w)
    as (w' & H & E); [done|done|done|vm_compute; reflexivity|].
  exists w'. split; [exact H|]. rewrite !E.
  assert (vb_ID <$> expired (w_db w) (Some 1%N) 1 = [Some 92%N]) as Hex by (vm_compute; reflexivity).
  cbn [vol_ProjectID vol_BackupRetentionCount sample_volume]. rewrite Hex.
  rewrite decide_False by set_solver. rewrite decide_True by (split; [lia|set_solver]). rewrite decide_False by set_solver.
  split_and!; vm_compute; reflexivity.
Defined.
