(* ===== verification/Api.v ===== *)
(** * The REST API: requests, responses and authorization

    internal/rpc/principal.go, authz.go, errors.go, service_request.go and
    [projectForRequest] of project_secrets_api.go.

    A request is what the handlers read of it: the authenticated principal, if
    the middleware found one, the path value [id], and the body as the JSON
    value it starts with ([None] where it is no JSON).  A handler answers with
    one response.  Timestamps in response bodies are kept as times, before
    their RFC 3339 formatting. *)

From S2P Require Import Prelude NetAddr Text Models Runtime Effects Queries VolumeQueries Codecs.

(** auth.Principal. *)
Record Principal := mkPrincipal {
  pr_UserID : UUID;
  pr_Email : string;
  pr_PlatformAdmin : bool;
  pr_OrgID : UUID;
  pr_OrgRole : string;
  pr_SessionID : UUID;
  pr_APIKeyID : UUID;
  pr_OrganizationID : pgUUID
}.

Record Request := mkRequest {
  rq_principal : option Principal;
  rq_id : string;
  rq_body : option json
}.

(** A response: an error envelope, a body, or a bare status. *)
Inductive Response (B : Type) :=
  | RespError (status : Z) (code message : string)
  | RespJSON (status : Z) (body : B)
  | RespStatus (status : Z).
Arguments RespError {B}.
Arguments RespJSON {B}.
Arguments RespStatus {B}.

Definition StatusOK : Z := 200.
Definition StatusAccepted : Z := 202.
Definition StatusNoContent : Z := 204.
Definition StatusBadRequest : Z := 400.
Definition StatusUnauthorized : Z := 401.
Definition StatusForbidden : Z := 403.
Definition StatusNotFound : Z := 404.
Definition StatusConflict : Z := 409.
Definition StatusInternalServerError : Z := 500.

(** httputil.WriteAPIError; every caller here passes a code and a message. *)
Definition writeAPIError {B} (status : Z) (code message : string) : Response B := RespError status code message.

Definition writeAPIErrorFromErr {B} (status : Z) (code : string) (e : error) : Response B :=
  RespError status (if String.eqb code "" then "internal_error" else code) (error_Error e).

(** A step of a handler: the response it ended with, or the value to go on with. *)
Definition step_of (B A : Type) : Type := M (Response B + A).

Definition next {B A} (a : A) : step_of B A := ret (inr a).
Definition reply {B A} (r : Response B) : step_of B A := ret (inl r).

(** [x, ok := m; if !ok { return }]. *)
Definition hbind {B A C} (m : step_of B A) (k : A -> step_of B C) : step_of B C :=
  let! r := m in match r with inl resp => ret (inl resp) | inr a => k a end.

Notation "'let?' x ':=' m 'in' k" := (hbind m (fun x => k))
  (at level 10, x name, m at level 100, k at level 200) : kindling_scope.
Notation "'let?' ' p ':=' m 'in' k" := (hbind m (fun x => match x with p => k end))
  (at level 10, p pattern, m at level 100, k at level 200) : kindling_scope.

(** [x, err := m; if err != nil { on_err(err); return }]. *)
Definition or_reply {B A} (m : M A) (on_err : error -> Response B) : step_of B A :=
  let! r := attempt m in match r with inl e => ret (inl (on_err e)) | inr a => ret (inr a) end.

(** The whole handler always ends with a response. *)
Definition handle {B} (m : step_of B (Response B)) : M (Response B) :=
  let! r := m in match r with inl resp | inr resp => ret resp end.

(** ** Authorization *)

Definition mustPrincipal {B} (r : Request) : step_of B Principal :=
  match r.(rq_principal) with
  | Some p => next p
  | None => reply (writeAPIError StatusUnauthorized "unauthorized" "authentication required")
  end.

Definition orgRoleCanManage (role : string) : bool := String.eqb role "owner" || String.eqb role "admin".

Definition requireOrgAdmin {B} (p : Principal) : step_of B unit :=
  if orgRoleCanManage p.(pr_OrgRole) then next tt
  else reply (writeAPIError StatusForbidden "forbidden" "owner or admin role required").

(** ** The project and the service of a request *)

Record serviceRequestContext := mkServiceContext {
  sc_ID : pgUUID;
  sc_Service : Service;
  sc_Project : Project
}.

Section requests.
Context {env : Env} {S : Sorter} {UP : UuidParser}.

Definition parseUUID (s : string) : option pgUUID := Some <$> uuid_Parse s.

Definition projectForRequest {B} (r : Request) (orgID : pgUUID) : step_of B (pgUUID * Project) :=
  match parseUUID r.(rq_id) with
  | None => reply (writeAPIError StatusBadRequest "invalid_id" "invalid project id")
  | Some projectID =>
      let? project := or_reply (query (ProjectFirstByIDAndOrg projectID orgID))
                        (fun _ => writeAPIError StatusNotFound "not_found" "project not found") in
      next (projectID, project)
  end.

Definition serviceForRequest {B} (r : Request) (orgID : pgUUID) : step_of B serviceRequestContext :=
  match parseUUID r.(rq_id) with
  | None => reply (writeAPIError StatusBadRequest "invalid_id" "invalid service id")
  | Some serviceID =>
      let? service := or_reply (query (ServiceFirstByIDAndOrg serviceID orgID))
                        (fun _ => writeAPIError StatusNotFound "not_found" "service not found") in
      let? project := or_reply (query (ProjectFirstByID service.(svc_ProjectID)))
                        (writeAPIErrorFromErr StatusInternalServerError "service_project") in
      next (mkServiceContext serviceID service project)
  end.

End requests.
