(* ===== verification/VolumeApi.v ===== *)
(** * The REST API of project volumes

    internal/rpc/project_volumes.go and project_volume_ops.go: the handlers of
    a project's volume and of a service's volume. *)

From S2P Require Import Prelude NetAddr Text Models Runtime Effects Queries Lifecycle Volumes Codecs Secrets Config VolumeQueries Paths Json VolumeOps Api.

(** ** Response bodies *)

Record projectVolumeBackupPolicyOut := mkPolicyOut {
  bpo_Schedule : string;
  bpo_RetentionCount : Z;
  bpo_PreDeleteBackupEnabled : bool
}.

Record projectVolumeOperationOut := mkOperationOut {
  voo_ID : string;
  voo_Kind : string;
  voo_Status : string;
  voo_ServerID : option string;
  voo_TargetServerID : option string;
  voo_BackupID : option string;
  voo_Error : string;
  voo_StartedAt : option Time;
  voo_CompletedAt : option Time;
  voo_FailedAt : option Time;
  voo_CreatedAt : option Time;
  voo_UpdatedAt : option Time
}.

Record projectVolumeBackupOut := mkBackupOut {
  vbo_ID : string;
  vbo_Kind : string;
  vbo_Status : string;
  vbo_StorageURL : string;
  vbo_SizeBytes : Z;
  vbo_Error : string;
  vbo_StartedAt : option Time;
  vbo_CompletedAt : option Time;
  vbo_FailedAt : option Time;
  vbo_CreatedAt : option Time;
  vbo_UpdatedAt : option Time
}.

Record projectVolumeOut := mkVolumeOut {
  pvo_ID : string;
  pvo_ProjectID : string;
  pvo_ServerID : option string;
  pvo_AttachedVMID : option string;
  pvo_MountPath : string;
  pvo_SizeGB : Z;
  pvo_Filesystem : string;
  pvo_Status : string;
  pvo_Health : string;
  pvo_BackupPolicy : projectVolumeBackupPolicyOut;
  pvo_CurrentOperation : option projectVolumeOperationOut;
  pvo_LastSuccessfulBackupAt : option Time;
  pvo_LastError : string;
  pvo_CreatedAt : option Time;
  pvo_UpdatedAt : option Time
}.

Inductive VolumeBody :=
  | BodyVolume (v : projectVolumeOut)
  | BodyOperation (o : projectVolumeOperationOut)
  | BodyBackups (l : list projectVolumeBackupOut).

Definition optionalUUIDString (u : pgUUID) : option string := uuid_String <$> u.

Definition projectVolumeToOut (v : ProjectVolume) : projectVolumeOut :=
  mkVolumeOut (pguuid_ToString v.(vol_ID)) (pguuid_ToString v.(vol_ProjectID)) (optionalUUIDString v.(vol_ServerID))
    (optionalUUIDString v.(vol_AttachedVmID)) v.(vol_MountPath) v.(vol_SizeGb) v.(vol_Filesystem) v.(vol_Status) v.(vol_Health)
    (mkPolicyOut v.(vol_BackupSchedule) v.(vol_BackupRetentionCount) v.(vol_PreDeleteBackupEnabled)) None None
    (TrimSpace v.(vol_LastError)) v.(vol_CreatedAt) v.(vol_UpdatedAt).

(** The two fields of the request the API shows: target server and backup. *)
Definition meta_struct : GoStruct (string * string) :=
  mkStruct "struct" ""
    [("backup_id", string_field (fun v m => (v, m.2))); ("target_server_id", string_field (fun v m => (m.1, v)))].

Definition nonempty (s : string) : option string := if String.eqb s "" then None else Some s.

Definition projectVolumeOperationToOut (op : ProjectVolumeOperation) : projectVolumeOperationOut :=
  let '(backup, target) := (json_Unmarshal meta_struct op.(vo_RequestMetadata) ("", "")).1 in
  mkOperationOut (pguuid_ToString op.(vo_ID)) op.(vo_Kind) op.(vo_Status) (optionalUUIDString op.(vo_ServerID))
    (nonempty (TrimSpace target)) (nonempty (TrimSpace backup)) (TrimSpace op.(vo_Error))
    op.(vo_StartedAt) op.(vo_CompletedAt) op.(vo_FailedAt) op.(vo_CreatedAt) op.(vo_UpdatedAt).

Definition projectVolumeBackupToOut (b : ProjectVolumeBackup) : projectVolumeBackupOut :=
  mkBackupOut (pguuid_ToString b.(vb_ID)) b.(vb_Kind) b.(vb_Status) (TrimSpace b.(vb_StorageUrl)) b.(vb_SizeBytes)
    (TrimSpace b.(vb_Error)) b.(vb_StartedAt) b.(vb_CompletedAt) b.(vb_FailedAt) b.(vb_CreatedAt) b.(vb_UpdatedAt).

(** ** Normalization *)

Definition normalizeProjectVolumeMountPath (raw : string) : string + string :=
  let mountPath := TrimSpace raw in
  let mountPath := if String.eqb mountPath "" then "/data" else mountPath in
  if negb (HasPrefix mountPath "/") then inl "mount_path must be absolute"
  else
    let clean := path_Clean mountPath in
    if String.eqb clean "/" then inl "mount_path cannot be /" else inr clean.

Definition normalizeProjectVolumeBackupSchedule (raw : string) : string + string :=
  let schedule := TrimSpace raw in
  let schedule := if String.eqb schedule "" then "manual" else schedule in
  if in_list ["off"; "manual"; "daily"; "weekly"] schedule then inr schedule
  else inl "backup_schedule must be one of off, manual, daily, weekly".

Definition normalizeProjectVolumeBackupRetention (raw : option Z) : string + Z :=
  let retention := default 7 raw in
  if retention <=? 0 then inl "backup_retention_count must be at least 1" else inr retention.

(** A server without a row reads the zero status. *)
Definition server_status (servers : list Server) (id : UUID) : string :=
  default "" (foldl (fun m srv => match srv.(srv_ID) with Some k => <[k := srv.(srv_Status)]> m | None => m end)
                (∅ : gmap UUID string) servers !! id).

Definition hasCloudHypervisorWorker (rows : list ServerComponentStatus) (servers : list Server) : bool :=
  existsb (fun row =>
    healthy_worker row &&
    match row.(scs_ServerID) with
    | Some sid => String.eqb (server_status servers sid) "active" && String.eqb (worker_runtime row) "cloud-hypervisor"
    | None => false
    end) rows.

Definition samePgUUID (a b : pgUUID) : bool :=
  match a, b with Some x, Some y => bool_decide (x = y) | _, _ => false end.

(** rpc/deployment_compat.go: unlike the deployer's, without trimming. *)
Definition rpc_isProjectVolumeTransitionalStatus (status : string) : bool :=
  in_list ["backing_up"; "restoring"; "repairing"; "deleting"] status.

(** The body of PUT: absent and null fields are nil pointers. *)
Record putVolumeRequest := mkPutRequest {
  pu_MountPath : option string;
  pu_SizeGB : option Z;
  pu_BackupSchedule : option string;
  pu_BackupRetentionCount : option Z;
  pu_PreDeleteBackupEnabled : option bool
}.

Definition put_struct : GoStruct putVolumeRequest :=
  mkStruct "struct" ""
    [("mount_path", string_ptr (fun v r => mkPutRequest v r.(pu_SizeGB) r.(pu_BackupSchedule) r.(pu_BackupRetentionCount) r.(pu_PreDeleteBackupEnabled)));
     ("size_gb", int32_ptr (fun v r => mkPutRequest r.(pu_MountPath) v r.(pu_BackupSchedule) r.(pu_BackupRetentionCount) r.(pu_PreDeleteBackupEnabled)));
     ("backup_schedule", string_ptr (fun v r => mkPutRequest r.(pu_MountPath) r.(pu_SizeGB) v r.(pu_BackupRetentionCount) r.(pu_PreDeleteBackupEnabled)));
     ("backup_retention_count", int32_ptr (fun v r => mkPutRequest r.(pu_MountPath) r.(pu_SizeGB) r.(pu_BackupSchedule) v r.(pu_PreDeleteBackupEnabled)));
     ("pre_delete_backup_enabled", bool_ptr (fun v r => mkPutRequest r.(pu_MountPath) r.(pu_SizeGB) r.(pu_BackupSchedule) r.(pu_BackupRetentionCount) v))].

(** [json.NewDecoder(r.Body).Decode(&req)]. *)
Definition decode_body {A B} (st : GoStruct A) (zero : A) (r : Request) : step_of B A :=
  match r.(rq_body) with
  | None => reply (writeAPIError StatusBadRequest "invalid_json" "invalid JSON body")
  | Some j =>
      match json_Unmarshal st j zero with
      | (req, None) => next req
      | (_, Some _) => reply (writeAPIError StatusBadRequest "invalid_json" "invalid JSON body")
      end
  end.

Definition or_invalid {A B} (r : string + A) : step_of B A :=
  match r with inr a => next a | inl msg => reply (writeAPIError StatusBadRequest "validation_error" msg) end.

(** ** The API *)

(** [a.cfg] may be nil or without a snapshot, [a.dashboardEvents] may be nil. *)
Record API := mkAPI {
  api_cfg : option (option Snapshot);
  api_events : bool
}.

(** Volume operations as the API writes them: without a storage key. *)
Record projectVolumeOperationRequest := mkVolumeOperationRequest {
  pr_BackupID : string;
  pr_BackupKind : string;
  pr_TargetServerID : string;
  pr_SourceServerID : string;
  pr_Stage : string;
  pr_DeleteAfter : bool
}.

Definition marshal_volume_request (r : projectVolumeOperationRequest) : json :=
  JObject (opt_string "backup_id" r.(pr_BackupID) ++ opt_string "backup_kind" r.(pr_BackupKind) ++
           opt_string "target_server_id" r.(pr_TargetServerID) ++ opt_string "source_server_id" r.(pr_SourceServerID) ++
           opt_string "stage" r.(pr_Stage) ++ opt_bool "delete_after" r.(pr_DeleteAfter)).

Definition volumeOpsHeartbeatCutoff : Duration := 3 * Minute.

(** The validated fields of PUT. *)
Record putValues := mkPutValues {
  pv_SizeGB : Z;
  pv_MountPath : string;
  pv_BackupSchedule : string;
  pv_BackupRetentionCount : Z;
  pv_PreDeleteBackupEnabled : bool
}.

Definition pgTextStringPtr (v : option string) : string := default "" v.

Section api.
Context {env : Env} {S : Sorter} {UP : UuidParser} {VIO : VolumeIO} (a : API).

Abbreviation step A := (step_of VolumeBody A).

(** TopicProject, TopicProjectDeployments and TopicDeployments, TopicServers. *)
Definition publishProjectVolumeTopics (projectID : UUID) : M unit :=
  when a.(api_events) (do! emit (EvPublishProject projectID) ; emit EvPublishServers).

Definition projectVolumeToOutCtx (v : ProjectVolume) : M projectVolumeOut :=
  let out := projectVolumeToOut v in
  let! op := attempt (query (ProjectVolumeOperationFindCurrentByVolumeID v.(vol_ID))) in
  let! backup := attempt (query (ProjectVolumeBackupFindLastSuccessfulByProjectID v.(vol_ProjectID))) in
  ret (mkVolumeOut out.(pvo_ID) out.(pvo_ProjectID) out.(pvo_ServerID) out.(pvo_AttachedVMID) out.(pvo_MountPath) out.(pvo_SizeGB)
         out.(pvo_Filesystem) out.(pvo_Status) out.(pvo_Health) out.(pvo_BackupPolicy)
         (match op with inr o => Some (projectVolumeOperationToOut o) | inl _ => None end)
         (match backup with inr b => b.(vb_CompletedAt) | inl _ => None end)
         out.(pvo_LastError) out.(pvo_CreatedAt) out.(pvo_UpdatedAt)).

Definition reply_volume (v : ProjectVolume) : step (Response VolumeBody) :=
  let! out := projectVolumeToOutCtx v in next (RespJSON StatusOK (BodyVolume out)).

(** [ErrNoRows] is 404, any other error 500. *)
Definition volume_error (noun code : string) (e : error) : Response VolumeBody :=
  if is_no_rows e then writeAPIError StatusNotFound "not_found" (noun +:+ " volume not found")
  else writeAPIErrorFromErr StatusInternalServerError code e.

Definition serviceVolumeContextForRequest (r : Request) (orgID : pgUUID) : step (serviceRequestContext * option ProjectVolume) :=
  let? ctx := serviceForRequest r orgID in
  let! v := attempt (query (ProjectVolumeFindByServiceID ctx.(sc_ID))) in
  match v with
  | inr vol => next (ctx, Some vol)
  | inl e => if is_no_rows e then next (ctx, None)
             else reply (writeAPIErrorFromErr StatusInternalServerError "get_service_volume" e)
  end.

(** [if vol == nil]: the service has no volume. *)
Definition service_volume (vol : option ProjectVolume) : step ProjectVolume :=
  match vol with
  | Some v => next v
  | None => reply (writeAPIError StatusNotFound "not_found" "service volume not found")
  end.

Definition getProjectVolume (r : Request) : M (Response VolumeBody) := handle (
  let? p := mustPrincipal r in
  let? '(projectID, _) := projectForRequest r p.(pr_OrganizationID) in
  let? vol := or_reply (query (ProjectVolumeFindByProjectID projectID)) (volume_error "project" "get_project_volume") in
  reply_volume vol).

Definition getServiceVolume (r : Request) : M (Response VolumeBody) := handle (
  let? p := mustPrincipal r in
  let? '(_, vol) := serviceVolumeContextForRequest r p.(pr_OrganizationID) in
  let? vol := service_volume vol in
  reply_volume vol).

(** ** PUT *)

(** The checks of the body, in order. *)
Definition validate_put (req : putVolumeRequest) (project : Project) : step putValues :=
  let sizeGB := default 5 req.(pu_SizeGB) in
  if sizeGB <=? 0 then reply (writeAPIError StatusBadRequest "validation_error" "size_gb must be at least 1")
  else
    let? mountPath := or_invalid (normalizeProjectVolumeMountPath (pgTextStringPtr req.(pu_MountPath))) in
    let? backupSchedule := or_invalid (normalizeProjectVolumeBackupSchedule (pgTextStringPtr req.(pu_BackupSchedule))) in
    let? backupRetentionCount := or_invalid (normalizeProjectVolumeBackupRetention req.(pu_BackupRetentionCount)) in
    if 1 <? project.(proj_MaxInstanceCount) then
      reply (writeAPIError StatusBadRequest "validation_error" "persistent volumes require max_instance_count <= 1")
    else next (mkPutValues sizeGB mountPath backupSchedule backupRetentionCount (default false req.(pu_PreDeleteBackupEnabled))).

Definition require_worker (code : string) : step unit :=
  let? servers := or_reply (query ServerFindAll) (writeAPIErrorFromErr StatusInternalServerError code) in
  let? statuses := or_reply (query ServerComponentStatusFindAll) (writeAPIErrorFromErr StatusInternalServerError code) in
  if hasCloudHypervisorWorker statuses servers then next tt
  else reply (writeAPIError StatusConflict "volume_unavailable" "no active cloud-hypervisor worker is available").

(** The stored policy stands in for the fields the body leaves out. *)
Definition merged_spec (req : putVolumeRequest) (vals : putValues) (vol : ProjectVolume) : VolumeSpec :=
  mkVolumeSpec vals.(pv_SizeGB) "ext4"
    (match req.(pu_BackupSchedule) with None => vol.(vol_BackupSchedule) | Some _ => vals.(pv_BackupSchedule) end)
    (match req.(pu_BackupRetentionCount) with None => vol.(vol_BackupRetentionCount) | Some _ => vals.(pv_BackupRetentionCount) end)
    (match req.(pu_PreDeleteBackupEnabled) with None => vol.(vol_PreDeleteBackupEnabled) | Some _ => vals.(pv_PreDeleteBackupEnabled) end).

Definition check_existing (vals : putValues) (vol : ProjectVolume) : step unit :=
  if negb (String.eqb vol.(vol_MountPath) vals.(pv_MountPath)) then
    reply (writeAPIError StatusBadRequest "validation_error" "mount_path is immutable after creation")
  else if vals.(pv_SizeGB) <? vol.(vol_SizeGb) then
    reply (writeAPIError StatusBadRequest "validation_error" "size_gb cannot shrink an existing volume")
  else next tt.

Definition update_volume_spec (code : string) (projectID : pgUUID) (req : putVolumeRequest) (vals : putValues) (vol : ProjectVolume)
    : step ProjectVolume :=
  let? _ := check_existing vals vol in
  if String.eqb vol.(vol_Status) "attached" && negb (vals.(pv_SizeGB) =? vol.(vol_SizeGb)) then
    reply (writeAPIError StatusConflict "volume_attached" "detach the volume before resizing it")
  else or_reply (exec (ProjectVolumeUpdateSpec projectID (merged_spec req vals vol)))
         (writeAPIErrorFromErr StatusInternalServerError code).

Definition revive_volume (code : string) (projectID : pgUUID) (req : putVolumeRequest) (vals : putValues) (anyVol : ProjectVolume)
    : step ProjectVolume :=
  let? _ := check_existing vals anyVol in
  or_reply (exec (ProjectVolumeRevive projectID (merged_spec req vals anyVol)))
    (writeAPIErrorFromErr StatusInternalServerError code).

Definition create_volume (code : string) (projectID serviceID : pgUUID) (vals : putValues) : step ProjectVolume :=
  let! id := new_uuid in
  or_reply (exec (ProjectVolumeCreate (Some id) projectID serviceID vals.(pv_MountPath)
                    (mkVolumeSpec vals.(pv_SizeGB) "ext4" vals.(pv_BackupSchedule) vals.(pv_BackupRetentionCount)
                       vals.(pv_PreDeleteBackupEnabled))))
    (writeAPIErrorFromErr StatusInternalServerError code).

Definition zero_put : putVolumeRequest := mkPutRequest None None None None None.

Definition putProjectVolume (r : Request) : M (Response VolumeBody) := handle (
  let code := "put_project_volume" in
  let? p := mustPrincipal r in
  let? _ := requireOrgAdmin p in
  let? '(projectID, project) := projectForRequest r p.(pr_OrganizationID) in
  let? service := or_reply (query (ServicePrimaryByProjectID projectID))
                    (writeAPIErrorFromErr StatusInternalServerError "project_primary_service") in
  let? req := decode_body put_struct zero_put r in
  let? vals := validate_put req project in
  let? _ := require_worker code in
  let! v := attempt (query (ProjectVolumeFindByProjectID projectID)) in
  let? vol :=
    (match v with
     | inr vol => update_volume_spec code projectID req vals vol
     | inl e =>
         if is_no_rows e then
           let! anyv := attempt (query (ProjectVolumeFindAnyByProjectID projectID)) in
           match anyv with
           | inr anyVol => revive_volume code projectID req vals anyVol
           | inl anyErr =>
               if is_no_rows anyErr then create_volume code projectID service.(svc_ID) vals
               else reply (writeAPIErrorFromErr StatusInternalServerError code anyErr)
           end
         else reply (writeAPIErrorFromErr StatusInternalServerError code e)
     end) in
  do! publishProjectVolumeTopics (FromPgtype projectID) ;
  reply_volume vol).

Definition putServiceVolume (r : Request) : M (Response VolumeBody) := handle (
  let code := "put_service_volume" in
  let? p := mustPrincipal r in
  let? _ := requireOrgAdmin p in
  let? '(ctx, activeVol) := serviceVolumeContextForRequest r p.(pr_OrganizationID) in
  let projectID := ctx.(sc_Project).(proj_ID) in
  let? req := decode_body put_struct zero_put r in
  let? vals := validate_put req ctx.(sc_Project) in
  let? _ := require_worker code in
  let? vol :=
    (match activeVol with
     | Some vol => update_volume_spec code projectID req vals vol
     | None =>
         let! anyv := attempt (query (ProjectVolumeFindAnyByProjectID projectID)) in
         match anyv with
         | inr anyVol =>
             if not_null anyVol.(vol_ServiceID) && negb (samePgUUID anyVol.(vol_ServiceID) ctx.(sc_ID)) then
               reply (writeAPIError StatusConflict "volume_owned_by_other_service"
                        "this project already has a persistent volume attached to another service")
             else revive_volume code projectID req vals anyVol
         | inl anyErr =>
             if is_no_rows anyErr then create_volume code projectID ctx.(sc_ID) vals
             else reply (writeAPIErrorFromErr StatusInternalServerError code anyErr)
         end
     end) in
  do! publishProjectVolumeTopics (FromPgtype projectID) ;
  reply_volume vol).

(** ** Operations *)

Definition ensureVolumeBackupStoreConfigured : option string :=
  match a.(api_cfg) with
  | Some (Some snap) =>
      if String.eqb (TrimSpace snap.(sn_VolumeBackupS3Bucket)) "" || String.eqb (TrimSpace snap.(sn_VolumeBackupS3Region)) "" ||
         String.eqb (TrimSpace snap.(sn_VolumeBackupS3AccessKeyID)) "" || String.eqb (TrimSpace snap.(sn_VolumeBackupS3SecretAccessKey)) ""
      then Some "volume backup object storage is not configured" else None
  | _ => Some "volume backup object storage is not configured"
  end.

Definition require_store : step unit :=
  match ensureVolumeBackupStoreConfigured with
  | Some e => reply (writeAPIError StatusConflict "backup_store_unavailable" e)
  | None => next tt
  end.

(** Neither attached nor busy, and no operation under way. *)
Definition volume_idle (vol : ProjectVolume) (attached_msg code : string) : step unit :=
  if String.eqb vol.(vol_Status) "attached" || not_null vol.(vol_AttachedVmID) then
    reply (writeAPIError StatusConflict "volume_attached" attached_msg)
  else if rpc_isProjectVolumeTransitionalStatus vol.(vol_Status) then
    reply (writeAPIError StatusConflict "volume_busy" "another volume operation is already in progress")
  else
    let! op := attempt (query (ProjectVolumeOperationFindCurrentByVolumeID vol.(vol_ID))) in
    match op with
    | inr _ => reply (writeAPIError StatusConflict "volume_busy" "another volume operation is already in progress")
    | inl e => if is_no_rows e then next tt else reply (writeAPIErrorFromErr StatusInternalServerError code e)
    end.

Definition projectVolumeReadyForOperation (projectID : pgUUID) (action : string) : step ProjectVolume :=
  let code := action +:+ "_project_volume" in
  let? vol := or_reply (query (ProjectVolumeFindByProjectID projectID)) (volume_error "project" code) in
  let? _ := volume_idle vol "detach the volume before starting this operation" code in
  next vol.

Definition serviceVolumeReadyForOperation (r : Request) (orgID : pgUUID) (action : string) : step (serviceRequestContext * ProjectVolume) :=
  let? '(ctx, vol) := serviceVolumeContextForRequest r orgID in
  let? vol := service_volume vol in
  let? _ := volume_idle vol "detach the volume before starting this operation" (action +:+ "_service_volume") in
  next (ctx, vol).

Definition enqueueProjectVolumeOperation (vol : ProjectVolume) (serverID : pgUUID) (kind : string)
    (req : projectVolumeOperationRequest) (volumeStatus : string) : M ProjectVolumeOperation :=
  let! id := new_uuid in
  let! op := exec (ProjectVolumeOperationCreate (Some id) vol.(vol_ID) serverID kind (marshal_volume_request req)) in
  do! exec (ProjectVolumeUpdateStatusAndHealth vol.(vol_ProjectID) volumeStatus vol.(vol_Health) "") ;
  ret op.

(** The tail of every operation handler. *)
Definition enqueue_and_reply (code : string) (projectID : pgUUID) (vol : ProjectVolume) (serverID : pgUUID) (kind : string)
    (req : projectVolumeOperationRequest) (volumeStatus : string) : step (Response VolumeBody) :=
  let? op := or_reply (enqueueProjectVolumeOperation vol serverID kind req volumeStatus)
               (writeAPIErrorFromErr StatusInternalServerError code) in
  do! publishProjectVolumeTopics (FromPgtype projectID) ;
  next (RespJSON StatusAccepted (BodyOperation (projectVolumeOperationToOut op))).

Definition require_pinned (vol : ProjectVolume) : step unit :=
  if is_null vol.(vol_ServerID) then reply (writeAPIError StatusConflict "volume_unavailable" "volume is not pinned to a worker yet")
  else next tt.

Definition create_backup (code kind : string) (vol : ProjectVolume) : step ProjectVolumeBackup :=
  let! id := new_uuid in
  or_reply (exec (ProjectVolumeBackupCreate (Some id) vol.(vol_ID) kind (JObject [])))
    (writeAPIErrorFromErr StatusInternalServerError code).

(** A backup that the volume's server takes before it deletes the volume. *)
Definition pre_delete_backup (code : string) (projectID : pgUUID) (vol : ProjectVolume) : step (Response VolumeBody) :=
  if is_null vol.(vol_ServerID) then
    reply (writeAPIError StatusConflict "backup_store_unavailable" "volume must be pinned to a worker before a pre-delete backup can run")
  else
    let? _ := require_store in
    let? backup := create_backup code "pre_delete" vol in
    enqueue_and_reply code projectID vol vol.(vol_ServerID) "backup"
      (mkVolumeOperationRequest (pguuid_ToString backup.(vb_ID)) "pre_delete" "" "" "" true) "deleting".

(** [os.Remove] on the host of the API, then the row. *)
Definition delete_volume (code : string) (projectID : pgUUID) (vol : ProjectVolume) : step (Response VolumeBody) :=
  let path := PersistentVolumePath (FromPgtype vol.(vol_ID)) in
  let! removed := io_call (IoRemove path) (fun n => os_Remove n path) in
  match removed with
  | Some (false, e) => reply (writeAPIErrorFromErr StatusInternalServerError code (ErrExternal e))
  | _ =>
      let? _ := or_reply (exec (ProjectVolumeSoftDelete projectID)) (writeAPIErrorFromErr StatusInternalServerError code) in
      do! publishProjectVolumeTopics (FromPgtype projectID) ;
      next (RespStatus StatusNoContent)
  end.

Definition deleteProjectVolume (r : Request) : M (Response VolumeBody) := handle (
  let code := "delete_project_volume" in
  let? p := mustPrincipal r in
  let? _ := requireOrgAdmin p in
  let? '(projectID, _) := projectForRequest r p.(pr_OrganizationID) in
  let? vol := or_reply (query (ProjectVolumeFindByProjectID projectID)) (volume_error "project" code) in
  let? _ := volume_idle vol "detach the volume before deleting it" code in
  if vol.(vol_PreDeleteBackupEnabled) then pre_delete_backup code projectID vol
  else delete_volume code projectID vol).

Definition deleteServiceVolume (r : Request) : M (Response VolumeBody) := handle (
  let code := "delete_service_volume" in
  let? p := mustPrincipal r in
  let? _ := requireOrgAdmin p in
  let? '(ctx, vol) := serviceVolumeContextForRequest r p.(pr_OrganizationID) in
  let? vol := service_volume vol in
  let? _ := volume_idle vol "detach the volume before deleting it" code in
  if vol.(vol_PreDeleteBackupEnabled) then pre_delete_backup code ctx.(sc_Project).(proj_ID) vol
  else delete_volume code ctx.(sc_Project).(proj_ID) vol).

(** ** Backups *)

Definition backups_of (vol : ProjectVolume) (backups : list ProjectVolumeBackup) : list projectVolumeBackupOut :=
  projectVolumeBackupToOut <$> List.filter (fun b => bool_decide (b.(vb_ProjectVolumeID) = vol.(vol_ID))) backups.

Definition listProjectVolumeBackups (r : Request) : M (Response VolumeBody) := handle (
  let code := "list_project_volume_backups" in
  let? p := mustPrincipal r in
  let? '(projectID, _) := projectForRequest r p.(pr_OrganizationID) in
  let? vol := or_reply (query (ProjectVolumeFindByProjectID projectID)) (volume_error "project" code) in
  let? backups := or_reply (query (ProjectVolumeBackupFindByProjectID projectID)) (writeAPIErrorFromErr StatusInternalServerError code) in
  next (RespJSON StatusOK (BodyBackups (backups_of vol backups)))).

Definition listServiceVolumeBackups (r : Request) : M (Response VolumeBody) := handle (
  let? p := mustPrincipal r in
  let? '(ctx, vol) := serviceVolumeContextForRequest r p.(pr_OrganizationID) in
  let? vol := service_volume vol in
  let? backups := or_reply (query (ProjectVolumeBackupFindByProjectID ctx.(sc_Project).(proj_ID)))
                    (writeAPIErrorFromErr StatusInternalServerError "list_service_volume_backups") in
  next (RespJSON StatusOK (BodyBackups (backups_of vol backups)))).

Definition post_backup (code : string) (projectID : pgUUID) (vol : ProjectVolume) : step (Response VolumeBody) :=
  let? _ := require_pinned vol in
  let? _ := require_store in
  let? backup := create_backup code "manual" vol in
  enqueue_and_reply code projectID vol vol.(vol_ServerID) "backup"
    (mkVolumeOperationRequest (pguuid_ToString backup.(vb_ID)) "manual" "" "" "" false) "backing_up".

Definition postProjectVolumeBackup (r : Request) : M (Response VolumeBody) := handle (
  let? p := mustPrincipal r in
  let? _ := requireOrgAdmin p in
  let? '(projectID, _) := projectForRequest r p.(pr_OrganizationID) in
  let? vol := projectVolumeReadyForOperation projectID "backup" in
  post_backup "create_project_volume_backup" projectID vol).

Definition postServiceVolumeBackup (r : Request) : M (Response VolumeBody) := handle (
  let? p := mustPrincipal r in
  let? _ := requireOrgAdmin p in
  let? '(ctx, vol) := serviceVolumeReadyForOperation r p.(pr_OrganizationID) "backup" in
  post_backup "create_service_volume_backup" ctx.(sc_Project).(proj_ID) vol).

(** ** Target servers *)

(** The comparator's queries: a load that cannot be read counts as zero. *)
Definition compare_workers (left right : Server) : M Z :=
  let! la := attempt (query (DeploymentInstanceActiveCountByServerID left.(srv_ID))) in
  let! lb := attempt (query (DeploymentInstanceActiveCountByServerID right.(srv_ID))) in
  let loadA := match la with inr n => n | inl _ => 0 end in
  let loadB := match lb with inr n => n | inl _ => 0 end in
  ret (if negb (loadA =? loadB) then if loadA <? loadB then -1 else 1
       else strings_Compare left.(srv_Hostname) right.(srv_Hostname)).

(** [slices.SortFunc] with a comparator that queries: the insertion sort Go
    uses for at most twelve elements, which moves an element left past the
    sorted prefix (here reversed) while it compares below. *)
Fixpoint insert_left (x : Server) (prefix : list Server) : M (list Server) :=
  match prefix with
  | [] => ret [x]
  | y :: prefix' =>
      let! c := compare_workers x y in
      if c <? 0 then let! rest := insert_left x prefix' in ret (y :: rest)
      else ret (x :: y :: prefix')
  end.

Definition sort_workers (l : list Server) : M (list Server) :=
  let! sorted := fold_each (fun prefix x => insert_left x prefix) l [] in ret (reverse sorted).

Definition active_worker (runtimes : gmap UUID string) (cutoff : Time) (srv : Server) : bool :=
  match srv.(srv_ID), srv.(srv_LastHeartbeatAt) with
  | Some id, Some beat =>
      String.eqb srv.(srv_Status) "active" && negb (Before beat cutoff) && bool_decide (runtimes !! id = Some "cloud-hypervisor")
  | _, _ => false
  end.

Definition activeCloudHypervisorWorkers : M (list Server) :=
  let! servers := query ServerFindAll in
  let! statuses := query ServerComponentStatusFindAll in
  let! t := now in
  sort_workers (List.filter (active_worker (runtime_by_server statuses) (t - volumeOpsHeartbeatCutoff)) servers).

(** The choice among the sorted workers. *)
Definition choose_target (servers : list Server) (requestedID : string) (currentServerID : pgUUID) (preferCurrent : bool)
    : string + Server :=
  match servers with
  | [] => inl "no active cloud-hypervisor worker is available"
  | first :: others =>
      let fallback :=
        match others with
        | second :: _ =>
            if negb preferCurrent && not_null currentServerID && bool_decide (first.(srv_ID) = currentServerID) then second else first
        | [] => first
        end in
      if negb (String.eqb requestedID "") then
        match uuid_Parse requestedID with
        | None => inl "target_server_id must be a valid UUID"
        | Some target =>
            match List.find (fun srv => bool_decide (srv.(srv_ID) = Some target)) servers with
            | Some srv => inr srv
            | None => inl "target server is not an active cloud-hypervisor worker"
            end
        end
      else if preferCurrent && not_null currentServerID then
        inr (default fallback (List.find (fun srv => bool_decide (srv.(srv_ID) = currentServerID)) servers))
      else inr fallback
  end.

Definition selectProjectVolumeTargetServer (requestedID : string) (currentServerID : pgUUID) (preferCurrent : bool) : M Server :=
  let! servers := activeCloudHypervisorWorkers in
  of_sum (match choose_target servers requestedID currentServerID preferCurrent with inl e => inl (ErrMsg e) | inr srv => inr srv end).

Definition select_target (requestedID : string) (currentServerID : pgUUID) (preferCurrent : bool) : step Server :=
  or_reply (selectProjectVolumeTargetServer requestedID currentServerID preferCurrent)
    (fun e => writeAPIError StatusConflict "volume_unavailable" (error_Error e)).

(** ** Restore, move and repair *)

Definition post_restore (noun code : string) (projectID : pgUUID) (vol : ProjectVolume) (r : Request) : step (Response VolumeBody) :=
  let? _ := require_store in
  let? '(backup_id, target_id) := decode_body meta_struct ("", "") r in
  match uuid_Parse (TrimSpace backup_id) with
  | None => reply (writeAPIError StatusBadRequest "validation_error" "backup_id is required")
  | Some backupID =>
      let? backup := or_reply (query (ProjectVolumeBackupFindByID (Some backupID)))
                       (fun e => if is_no_rows e then writeAPIError StatusNotFound "not_found" "backup not found"
                                 else writeAPIErrorFromErr StatusInternalServerError code e) in
      if negb (bool_decide (backup.(vb_ProjectVolumeID) = vol.(vol_ID))) then
        reply (writeAPIError StatusBadRequest "validation_error" ("backup does not belong to this " +:+ noun +:+ " volume"))
      else
        let? targetServer := select_target (TrimSpace target_id) vol.(vol_ServerID) true in
        enqueue_and_reply code projectID vol targetServer.(srv_ID) "restore"
          (mkVolumeOperationRequest (uuid_String backupID) "" (pguuid_ToString targetServer.(srv_ID)) "" "" false) "restoring"
  end.

Definition postProjectVolumeRestore (r : Request) : M (Response VolumeBody) := handle (
  let? p := mustPrincipal r in
  let? _ := requireOrgAdmin p in
  let? '(projectID, _) := projectForRequest r p.(pr_OrganizationID) in
  let? vol := projectVolumeReadyForOperation projectID "restore" in
  post_restore "project" "restore_project_volume" projectID vol r).

Definition postServiceVolumeRestore (r : Request) : M (Response VolumeBody) := handle (
  let? p := mustPrincipal r in
  let? _ := requireOrgAdmin p in
  let? '(ctx, vol) := serviceVolumeReadyForOperation r p.(pr_OrganizationID) "restore" in
  post_restore "service" "restore_service_volume" ctx.(sc_Project).(proj_ID) vol r).

(** The body of a move names the target only. *)
Definition target_struct : GoStruct string := mkStruct "struct" "" [("target_server_id", string_field (fun v _ => v))].

Definition post_move (code : string) (projectID : pgUUID) (vol : ProjectVolume) (r : Request) : step (Response VolumeBody) :=
  let? _ := require_pinned vol in
  let? _ := require_store in
  let? target_id := decode_body target_struct "" r in
  let? targetServer := select_target (TrimSpace target_id) vol.(vol_ServerID) false in
  if bool_decide (targetServer.(srv_ID) = vol.(vol_ServerID)) then
    reply (writeAPIError StatusBadRequest "validation_error" "volume is already pinned to that server")
  else
    enqueue_and_reply code projectID vol vol.(vol_ServerID) "move"
      (mkVolumeOperationRequest "" "" (pguuid_ToString targetServer.(srv_ID)) (pguuid_ToString vol.(vol_ServerID)) "upload" false)
      "restoring".

Definition postProjectVolumeMove (r : Request) : M (Response VolumeBody) := handle (
  let? p := mustPrincipal r in
  let? _ := requireOrgAdmin p in
  let? '(projectID, _) := projectForRequest r p.(pr_OrganizationID) in
  let? vol := projectVolumeReadyForOperation projectID "move" in
  post_move "move_project_volume" projectID vol r).

Definition postServiceVolumeMove (r : Request) : M (Response VolumeBody) := handle (
  let? p := mustPrincipal r in
  let? _ := requireOrgAdmin p in
  let? '(ctx, vol) := serviceVolumeReadyForOperation r p.(pr_OrganizationID) "move" in
  post_move "move_service_volume" ctx.(sc_Project).(proj_ID) vol r).

Definition post_repair (code : string) (projectID : pgUUID) (vol : ProjectVolume) : step (Response VolumeBody) :=
  let? _ := require_pinned vol in
  enqueue_and_reply code projectID vol vol.(vol_ServerID) "repair" (mkVolumeOperationRequest "" "" "" "" "" false) "repairing".

Definition postProjectVolumeRepair (r : Request) : M (Response VolumeBody) := handle (
  let? p := mustPrincipal r in
  let? _ := requireOrgAdmin p in
  let? '(projectID, _) := projectForRequest r p.(pr_OrganizationID) in
  let? vol := projectVolumeReadyForOperation projectID "repair" in
  post_repair "repair_project_volume" projectID vol).

Definition postServiceVolumeRepair (r : Request) : M (Response VolumeBody) := handle (
  let? p := mustPrincipal r in
  let? _ := requireOrgAdmin p in
  let? '(ctx, vol) := serviceVolumeReadyForOperation r p.(pr_OrganizationID) "repair" in
  post_repair "repair_service_volume" ctx.(sc_Project).(proj_ID) vol).

(** rpc/volumes/volumes.go: the routes and their handlers. *)
Definition volume_routes : list (string * (Request -> M (Response VolumeBody))) :=
  [("GET /api/projects/{id}/volume", getProjectVolume);
   ("PUT /api/projects/{id}/volume", putProjectVolume);
   ("DELETE /api/projects/{id}/volume", deleteProjectVolume);
   ("GET /api/projects/{id}/volume/backups", listProjectVolumeBackups);
   ("POST /api/projects/{id}/volume/backups", postProjectVolumeBackup);
   ("POST /api/projects/{id}/volume/restore", postProjectVolumeRestore);
   ("POST /api/projects/{id}/volume/move", postProjectVolumeMove);
   ("POST /api/projects/{id}/volume/repair", postProjectVolumeRepair);
   ("GET /api/services/{id}/volume", getServiceVolume);
   ("PUT /api/services/{id}/volume", putServiceVolume);
   ("DELETE /api/services/{id}/volume", deleteServiceVolume);
   ("GET /api/services/{id}/volume/backups", listServiceVolumeBackups);
   ("POST /api/services/{id}/volume/backups", postServiceVolumeBackup);
   ("POST /api/services/{id}/volume/restore", postServiceVolumeRestore);
   ("POST /api/services/{id}/volume/move", postServiceVolumeMove);
   ("POST /api/services/{id}/volume/repair", postServiceVolumeRepair)].

End api.
