(* ===== verification/DbLogic.v ===== *)
(** * Hoare logics for the database

    [triple P m Q X]: from a database of [P], a run of [m] that answers [a] ends
    in [Q a], and any other run in [X], whatever the environment does.
    Then the logic of total correctness for environments without faults. *)

From S2P Require Import Prelude NetAddr Text Models Runtime Effects Queries Logic EventLogic TableFacts VolumeQueries Codecs Api.

Section triple.
Context {env : Env}.

Definition triple {A} (P : Db -> Prop) (m : M A) (Q : A -> Db -> Prop) (X : Db -> Prop) : Prop :=
  forall w, P (w_db w) -> match (m w).1 with Ret a => Q a (w_db (m w).2) | _ => X (w_db (m w).2) end.

Implicit Types P X : Db -> Prop.

Lemma tr_conseq {A} P P' (m : M A) (Q Q' : A -> Db -> Prop) X X' :
  triple P' m Q' X' -> (forall d, P d -> P' d) -> (forall a d, Q' a d -> Q a d) -> (forall d, X' d -> X d) -> triple P m Q X.
Proof. intros H HP HQ HX w Hw. specialize (H w (HP _ Hw)). destruct ((m w).1); auto. Qed.

Lemma tr_pre {A} P P' (m : M A) Q X : triple P' m Q X -> (forall d, P d -> P' d) -> triple P m Q X.
Proof. intros H HP. by eapply tr_conseq. Qed.

(** A fact of the precondition. *)
Lemma tr_fact {A} (F : Prop) P (m : M A) Q X : (forall d, P d -> F) -> (F -> triple P m Q X) -> triple P m Q X.
Proof. intros HF H w Hw. apply H; [by eapply HF|done]. Qed.

Lemma tr_and {A} (F : Prop) P (m : M A) Q X : (F -> triple P m Q X) -> triple (fun d => P d /\ F) m Q X.
Proof. intros H w [Hw HF]. by apply H. Qed.

Lemma tr_ret {A} P (a : A) (Q : A -> Db -> Prop) X : (forall d, P d -> Q a d) -> triple P (ret a) Q X.
Proof. intros H w Hw. by apply H. Qed.

Lemma tr_throw {A} P e (Q : A -> Db -> Prop) X : (forall d, P d -> X d) -> triple P (throw e) Q X.
Proof. intros H w Hw. by apply H. Qed.

Lemma tr_bind {A B} P (m : M A) (k : A -> M B) R Q X :
  triple P m R X -> (forall a, triple (R a) (k a) Q X) -> triple P (bind m k) Q X.
Proof.
  intros Hm Hk w Hw. specialize (Hm w Hw). unfold bind. destruct (m w) as [[a|e| |] w1]; simpl in *; auto. by apply Hk.
Qed.

Lemma tr_attempt {A} P (m : M A) (Q : error + A -> Db -> Prop) X :
  triple P m (fun a => Q (inr a)) (fun d => X d /\ forall e, Q (inl e) d) -> triple P (attempt m) Q X.
Proof. intros Hm w Hw. specialize (Hm w Hw). unfold attempt. destruct (m w) as [[] w1]; simpl in *; [done|by destruct Hm|by destruct Hm|by destruct Hm]. Qed.

Lemma tr_wrap {A} P ctx (m : M A) Q X : triple P m Q X -> triple P (wrap ctx m) Q X.
Proof. intros Hm w Hw. specialize (Hm w Hw). unfold wrap. by destruct (m w) as [[] w1]. Qed.

Lemma tr_query {A} P (f : reads A) (Q : A -> Db -> Prop) X :
  (forall d, P d -> X d) -> (forall t a d, P d -> f t d = inr a -> Q a d) -> triple P (query f) Q X.
Proof. intros HX HQ w Hw. unfold query. repeat case_match; simpl in *; simplify_eq; eauto. Qed.

Lemma tr_exec {A} P (f : writes A) (Q : A -> Db -> Prop) X :
  (forall d, P d -> X d) -> (forall t a d d', P d -> f t d = inr (a, d') -> Q a d' /\ X d') -> triple P (exec f) Q X.
Proof. intros HX HQ w Hw. unfold exec. repeat case_match; simpl in *; simplify_eq; eauto; by eapply HQ. Qed.

(** What leaves the database alone. *)
Lemma tr_reading {A} P (m : M A) (Q : A -> Db -> Prop) X :
  runs no_stmt m -> (forall d, P d -> X d) -> (forall a d, P d -> Q a d) -> triple P m Q X.
Proof.
  intros Hm HX HQ w Hw. rewrite (runs_none m w Hm). destruct ((m w).1); auto.
Qed.

(** ** Handlers of the API *)

Section handlers.
Context {B : Type}.

(** [E r]: the handler ended with the response [r]. *)
Definition htr {A} P (m : step_of B A) (Q : A -> Db -> Prop) (E : Response B -> Db -> Prop) X : Prop :=
  triple P m (fun r d => match r with inl resp => E resp d | inr a => Q a d end) X.

Lemma htr_next {A} P (a : A) (Q : A -> Db -> Prop) E X : (forall d, P d -> Q a d) -> htr P (next a) Q E X.
Proof. intros H. by apply tr_ret. Qed.

Lemma htr_reply {A} P r (Q : A -> Db -> Prop) E X : (forall d, P d -> E r d) -> htr P (reply r) Q E X.
Proof. intros H. by apply tr_ret. Qed.

Lemma htr_bind {A C} P (m : step_of B A) (k : A -> step_of B C) R Q E X :
  htr P m R E X -> (forall a, htr (R a) (k a) Q E X) -> htr P (hbind m k) Q E X.
Proof.
  intros Hm Hk. eapply tr_bind; [exact Hm|]. intros [r|a]; [by apply tr_ret|apply Hk].
Qed.

Lemma htr_or_reply {A} P (m : M A) on_err (Q : A -> Db -> Prop) E X :
  triple P m Q (fun d => X d /\ forall e, E (on_err e) d) -> htr P (or_reply m on_err) Q E X.
Proof.
  intros Hm. eapply (tr_bind P _ _ (fun r d => match r with inl e => E (on_err e) d | inr a => Q a d end)).
  - apply tr_attempt. eapply tr_conseq; eauto.
  - intros [e|a]; by apply tr_ret.
Qed.

Lemma htr_m {A C} P (m : M A) (k : A -> step_of B C) R Q E X :
  triple P m R X -> (forall a, htr (R a) (k a) Q E X) -> htr P (bind m k) Q E X.
Proof. intros Hm Hk. by eapply tr_bind. Qed.

Lemma tr_handle P (m : step_of B (Response B)) E X :
  htr P m E E X -> triple P (handle m) E X.
Proof. intros Hm. eapply tr_bind; [exact Hm|]. intros [r|r]; by apply tr_ret. Qed.

End handlers.

End triple.

(** ** The first steps of every handler *)

(** The project belongs to the principal's organization. *)
Definition owned (p : Principal) (d : Db) (project : pgUUID) : Prop :=
  exists k pr org, project = Some k /\ db_projects d !! k = Some pr /\ proj_OrgID pr = Some org /\ pr_OrganizationID p = Some org.

Definition projects_keyed (d : Db) : Prop := forall k p, db_projects d !! k = Some p -> proj_ID p = Some k.

Lemma org_cols (col : pgUUID) org : col_eq col org = true -> exists o, col = Some o /\ org = Some o.
Proof. unfold col_eq. destruct col, org; try done. intros H%bool_decide_eq_true. subst. eauto. Qed.

Lemma first_row_elem {R} (l : list R) x : first_row l = inr x -> x ∈ l.
Proof. destruct l; simpl; intros H; simplify_eq. constructor. Qed.

Lemma first_row_none {R} (l : list R) e : first_row l = inl e -> l = [].
Proof. by destruct l. Qed.

Lemma first_of_filter {R} (q : R -> bool) (o : option R) x : first_row (List.filter q (option_list o)) = inr x -> o = Some x /\ q x = true.
Proof. destruct o as [y|]; simpl; [|done]. destruct (q y) eqn:E; [|done]. by intros [= ->]. Qed.

Section steps.
Context {env : Env} {S : Sorter} {UP : UuidParser} {B : Type} (r : Request) (d0 : Db) (eff : Db -> Prop) (Heff : eff d0).

Abbreviation start := (fun d : Db => d = d0).
Abbreviation hs P m Q := (htr (B := B) P m Q (fun _ => eff) eff).

Lemma start_kept d : start d -> eff d.
Proof. by intros ->. Qed.

Lemma htr_principal : hs start (mustPrincipal r) (fun p d => start d /\ rq_principal r = Some p).
Proof. unfold mustPrincipal. destruct (rq_principal r) as [p|] eqn:E; [by apply htr_next|apply htr_reply, start_kept]. Qed.

Lemma htr_admin p : hs start (requireOrgAdmin p) (fun _ d => start d /\ orgRoleCanManage (pr_OrgRole p) = true).
Proof. unfold requireOrgAdmin. case_match; [by apply htr_next|apply htr_reply, start_kept]. Qed.

Lemma htr_read {A} (f : reads A) on_err : hs start (or_reply (query f) on_err) (fun x d => start d /\ exists t, f t d0 = inr x).
Proof. apply htr_or_reply, tr_query; [intros d ->; by split|]. intros t x d -> H. eauto. Qed.

(** Steps that only read. *)
Lemma htr_reading {A} (m : step_of B A) : runs no_stmt m -> hs start m (fun _ => start).
Proof. intros Hm. apply tr_reading; [done|apply start_kept|]. intros [resp|x] d Hd; [by apply start_kept|done]. Qed.

Lemma project_owned p id t pr : ProjectFirstByIDAndOrg id (pr_OrganizationID p) t d0 = inr pr -> owned p d0 id.
Proof.
  intros [Hrow (o & H1 & H2)%org_cols]%first_of_filter. destruct id as [k|]; [|done]. by exists k, pr, o.
Qed.

Lemma htr_project p : hs start (projectForRequest r (pr_OrganizationID p)) (fun x d => start d /\ owned p d0 x.1).
Proof.
  unfold projectForRequest. destruct (parseUUID _) as [id|]; [|apply htr_reply, start_kept].
  eapply htr_bind; [apply htr_read|]. intros pr. apply tr_and. intros (t & H). apply htr_next. intros d Hd. split; [done|]. by eapply project_owned.
Qed.

Lemma service_owned p id t svc :
  ServiceFirstByIDAndOrg id (pr_OrganizationID p) t d0 = inr svc ->
  exists s k pr, id = Some s /\ db_services d0 !! s = Some svc /\ svc_ProjectID svc = Some k /\ db_projects d0 !! k = Some pr /\ owned p d0 (Some k).
Proof.
  intros [Hrow Hc]%first_of_filter. destruct id as [s|]; [|done]. destruct (row_at (db_projects d0) (svc_ProjectID svc)) as [pr|] eqn:Ep; [|done].
  destruct (svc_ProjectID svc) as [k|]; [|done]. apply org_cols in Hc as (o & H1 & H2). exists s, k, pr. split_and!; try done. by exists k, pr, o.
Qed.

End steps.

(** * Total correctness on the database

    The counterpart of the triples of [DbLogic] when no statement fails: a
    computation ends with a value or an error, never with a panic or without
    fuel, and the database is then as stated. *)

(** ** Statements that succeed *)

Lemma insert_row_ok {R} (t : Table R) k r d :
  t_get t d !! k = None -> t_ok t d k r = true -> insert_row t (Some k) r d = inr (r, t_set t (<[k := r]> (t_get t d)) d).
Proof. intros H1 H2. unfold insert_row. by rewrite H1, H2. Qed.

Lemma executing_ok {R} (t : Table R) k r guard f d :
  t_get t d !! k = Some r -> guard r = true -> t_ok t d k (f r) = true ->
  executing (update_row t (Some k) guard f d) = inr (tt, t_set t (<[k := f r]> (t_get t d)) d).
Proof. intros H1 H2 H3. unfold executing, update_row. by rewrite H1, H2, H3. Qed.

Section total.
Context {env : Env} (Hq : quiet env).

Definition total {A} (P : Db -> Prop) (m : M A) (Q : A -> Db -> Prop) (X : error -> Db -> Prop) : Prop :=
  forall w, P (w_db w) ->
    match (m w).1 with
    | Ret a => Q a (w_db (m w).2)
    | Err e => X e (w_db (m w).2)
    | _ => False
    end.

(** Ends with a value. *)
Abbreviation ends P m Q := (total P m Q (fun _ _ => False)).

Implicit Types P : Db -> Prop.

Lemma tot_conseq {A} P P' (m : M A) (Q Q' : A -> Db -> Prop) X X' :
  total P' m Q' X' -> (forall d, P d -> P' d) -> (forall a d, Q' a d -> Q a d) -> (forall e d, X' e d -> X e d) -> total P m Q X.
Proof. intros H HP HQ HX w Hw. specialize (H w (HP _ Hw)). destruct ((m w).1); auto. Qed.

Lemma tot_ret {A} P (a : A) (Q : A -> Db -> Prop) X : (forall d, P d -> Q a d) -> total P (ret a) Q X.
Proof. intros H w Hw. by apply H. Qed.

Lemma tot_throw {A} P e (Q : A -> Db -> Prop) (X : error -> Db -> Prop) : (forall d, P d -> X e d) -> total P (throw e) Q X.
Proof. intros H w Hw. by apply H. Qed.

Lemma tot_bind {A B} P (m : M A) (k : A -> M B) R Q X :
  total P m R X -> (forall a, total (R a) (k a) Q X) -> total P (bind m k) Q X.
Proof.
  intros Hm Hk w Hw. specialize (Hm w Hw). unfold bind. destruct (m w) as [[a|e| |] w1]; simpl in *; auto. by apply Hk.
Qed.

Lemma tot_attempt {A} P (m : M A) (Q : error + A -> Db -> Prop) X :
  total P m (fun a => Q (inr a)) (fun e => Q (inl e)) -> total P (attempt m) Q X.
Proof. intros Hm w Hw. specialize (Hm w Hw). unfold attempt. by destruct (m w) as [[] w1]. Qed.

Lemma tot_ignore {A} P (m : M A) (Q : Db -> Prop) X :
  total P m (fun _ => Q) (fun _ => Q) -> total P (ignore m) (fun _ => Q) X.
Proof.
  intros Hm. eapply (tot_bind _ _ _ (fun _ => Q)); [by apply tot_attempt|]. intros a. by apply tot_ret.
Qed.

Lemma tot_wrap {A} P ctx (m : M A) Q (X : error -> Db -> Prop) :
  total P m Q (fun e => X (ErrWrap ctx e)) -> total P (wrap ctx m) Q X.
Proof. intros Hm w Hw. specialize (Hm w Hw). unfold wrap. by destruct (m w) as [[] w1]. Qed.

Lemma tot_and {A} (F : Prop) P (m : M A) Q X : (F -> total P m Q X) -> total (fun d => P d /\ F) m Q X.
Proof. intros H w [Hw HF]. by apply H. Qed.

(** Only the facts known of the state decide which computation follows. *)
Lemma tot_fact {A} (F : Prop) P (m : M A) Q X : (forall d, P d -> F) -> (F -> total P m Q X) -> total P m Q X.
Proof. intros HF H w Hw. apply H; [by eapply HF|done]. Qed.

Lemma tot_query {A} P (f : reads A) (Q : A -> Db -> Prop) (X : error -> Db -> Prop) :
  (forall t d, P d -> match f t d with inl e => X e d | inr a => Q a d end) -> total P (query f) Q X.
Proof. intros H w Hw. rewrite quiet_query by done. specialize (H (sql_now w) _ Hw). by destruct (f _ _). Qed.

Lemma tot_exec {A} P (f : writes A) (Q : A -> Db -> Prop) (X : error -> Db -> Prop) :
  (forall t d, P d -> match f t d with inl e => X e d | inr (a, d') => Q a d' end) -> total P (exec f) Q X.
Proof. intros H w Hw. rewrite quiet_exec by done. specialize (H (sql_now w) _ Hw). by destruct (f _ _) as [|[]]. Qed.

Lemma tot_new_uuid P (Q : UUID -> Db -> Prop) X : (forall n d, P d -> Q (env_uuid n) d) -> total P new_uuid Q X.
Proof. intros H w Hw. by apply H. Qed.

Lemma tot_emit P e (Q : unit -> Db -> Prop) X : (forall d, P d -> Q tt d) -> total P (emit e) Q X.
Proof. intros H w Hw. by apply H. Qed.

Lemma tot_when P b (m : M unit) (Q : unit -> Db -> Prop) X :
  (b = true -> total P m Q X) -> (b = false -> forall d, P d -> Q tt d) -> total P (when b m) Q X.
Proof. destruct b; intros H1 H2; [by apply H1|]. apply tot_ret. by apply H2. Qed.

Lemma tot_for_each {A} P (l : list A) (f : A -> M unit) X :
  (forall x, total P (f x) (fun _ => P) X) -> total P (for_each l f) (fun _ => P) X.
Proof.
  intros Hf. induction l as [|x l IH]; simpl; [by apply tot_ret|]. by eapply (tot_bind _ _ _ (fun _ => P)).
Qed.

End total.

(** Ends with a value. *)
Abbreviation ends P m Q := (total P m Q (fun _ _ => False)).
