(* ===== verification/VolumeApiEffect.v ===== *)
(** * What the volume API does to the database

    One relation for all routes: which rows a request may create or change, on
    whose behalf, and in which state of the volume. *)

From S2P Require Import Prelude NetAddr Text Models Runtime Effects Queries Logic EventLogic TableFacts Lifecycle Volumes Codecs Secrets Config VolumeQueries Paths Json VolumeOps StorageLogic VolumeMove Api VolumeApi DbLogic.

(** The volumes as the schema and the API maintain them: rows under their ids,
    one per project, each of a service of that project (schema.sql fills in the
    service of older rows). *)
Record volumes_wf (d : Db) : Prop := {
  vw_keyed : forall k r, db_volumes d !! k = Some r -> vol_ID r = Some k;
  vw_unique : forall k1 k2 r1 r2 p, db_volumes d !! k1 = Some r1 -> db_volumes d !! k2 = Some r2 ->
    vol_ProjectID r1 = Some p -> vol_ProjectID r2 = Some p -> k1 = k2;
  vw_service : forall k r s svc, db_volumes d !! k = Some r -> vol_ServiceID r = Some s ->
    db_services d !! s = Some svc -> vol_ProjectID r = svc_ProjectID svc;
  vw_has_service : forall k r, db_volumes d !! k = Some r -> vol_ServiceID r <> None;
  vw_projects : projects_keyed d
}.

(** What may become of a volume: never smaller, never elsewhere mounted, and
    not resized while it is attached. *)
Record grown (r r' : ProjectVolume) : Prop := {
  gr_ID : vol_ID r' = vol_ID r;
  gr_ProjectID : vol_ProjectID r' = vol_ProjectID r;
  gr_ServiceID : vol_ServiceID r' = vol_ServiceID r;
  gr_MountPath : vol_MountPath r' = vol_MountPath r;
  gr_SizeGb : vol_SizeGb r <= vol_SizeGb r';
  gr_attached : vol_DeletedAt r = None -> vol_Status r = "attached" -> vol_SizeGb r' = vol_SizeGb r
}.

(** Detached, and without an operation under way. *)
Record idle (d : Db) (r : ProjectVolume) : Prop := {
  id_status : vol_Status r <> "attached";
  id_vm : vol_AttachedVmID r = None;
  id_operations : forall o ro, db_volume_operations d !! o = Some ro -> vo_ProjectVolumeID ro = vol_ID r -> operation_active ro = false
}.

Definition owned_volume (p : Principal) (d : Db) (v : pgUUID) (r : ProjectVolume) : Prop :=
  vol_ID r = v /\ (exists k, v = Some k /\ db_volumes d !! k = Some r) /\ owned p d (vol_ProjectID r).

(** The tables of volumes, operations and backups of [d], the others of [d0]. *)
Definition volume_tables (d d0 : Db) : Db :=
  set_volume_backups (db_volume_backups d) (set_volume_operations (db_volume_operations d) (set_volumes (db_volumes d) d0)).

Lemma volume_tables_refl d : d = volume_tables d d.
Proof. destruct d as [? ? ? ? ? ? ? ? ? ? ? ? ? ? ? ? []]. reflexivity. Qed.
Lemma volume_tables_volumes m d d0 : d = volume_tables d d0 -> set_volumes m d = volume_tables (set_volumes m d) d0.
Proof. intros E. rewrite E. reflexivity. Qed.
Lemma volume_tables_operations m d d0 : d = volume_tables d d0 -> set_volume_operations m d = volume_tables (set_volume_operations m d) d0.
Proof. intros E. rewrite E. reflexivity. Qed.
Lemma volume_tables_backups m d d0 : d = volume_tables d d0 -> set_volume_backups m d = volume_tables (set_volume_backups m d) d0.
Proof. intros E. rewrite E. reflexivity. Qed.

Record effect (p : Principal) (d0 d : Db) : Prop := {
  ef_volumes : forall k, db_volumes d !! k = db_volumes d0 !! k \/
    exists r', db_volumes d !! k = Some r' /\ owned p d0 (vol_ProjectID r') /\ forall r, db_volumes d0 !! k = Some r -> grown r r';
  ef_operations : forall o ro, db_volume_operations d !! o = Some ro -> db_volume_operations d0 !! o = None ->
    vo_Status ro = "pending" /\ exists r, owned_volume p d0 (vo_ProjectVolumeID ro) r /\ idle d0 r;
  ef_operations_kept : forall o ro, db_volume_operations d0 !! o = Some ro -> db_volume_operations d !! o = Some ro;
  ef_operations_single : forall o1 o2 r1 r2, db_volume_operations d !! o1 = Some r1 -> db_volume_operations d !! o2 = Some r2 ->
    db_volume_operations d0 !! o1 = None -> db_volume_operations d0 !! o2 = None -> o1 = o2;
  ef_backups : forall b rb, db_volume_backups d !! b = Some rb -> db_volume_backups d0 !! b = None ->
    exists r, owned_volume p d0 (vb_ProjectVolumeID rb) r;
  ef_backups_kept : forall b rb, db_volume_backups d0 !! b = Some rb -> db_volume_backups d !! b = Some rb;
  ef_frame : d = volume_tables d d0;
  ef_admin : orgRoleCanManage (pr_OrgRole p) = true
}.

(** Nothing, or an effect of an administrator of the organization. *)
Definition api_effect (r : Request) (d0 d : Db) : Prop :=
  d = d0 \/ exists p, rq_principal r = Some p /\ effect p d0 d.

(** ** Statements *)

Section statements.
Context {S : Sorter} (p : Principal) (d0 : Db) (Hwf : volumes_wf d0) (Hadmin : orgRoleCanManage (pr_OrgRole p) = true).

Lemma effect_refl : effect p d0 d0.
Proof. split; try done; intros; first [by left | congruence | apply volume_tables_refl]. Qed.

(** A change of the project's volume. *)
Lemma effect_volume q project d d' k r r' :
  effect p d0 d -> db_volumes d = db_volumes d0 -> owned p d0 project ->
  (forall v, q v = true -> col_eq (vol_ProjectID v) project = true) ->
  key_where q (db_volumes d) = Some k -> db_volumes d !! k = Some r ->
  (key_where q (db_volumes d0) = Some k -> db_volumes d0 !! k = Some r -> q r = true -> grown r r') ->
  d' = set_volumes (<[k := r']> (db_volumes d)) d -> effect p d0 d'.
Proof.
  intros [E1 E2 E3 E4 E5 E6 E7 E8] Hd Ho Hq Hk Hr Hf ->. rewrite Hd in Hk, Hr.
  pose proof (key_where_found _ _ _ Hk) as (r1 & Hr1 & Hqr). assert (r1 = r) as -> by congruence.
  pose proof (Hf Hk Hr Hqr) as Hg. split; try done; [|by apply volume_tables_volumes]. intros k'. cbn. rewrite Hd.
  destruct (decide (k' = k)) as [->|Hne]; [|left; by rewrite lookup_insert_ne].
  right. exists r'. rewrite lookup_insert_eq. split; [done|]. split.
  - apply Hq in Hqr. unfold col_eq in Hqr. rewrite (gr_ProjectID _ _ Hg). destruct (vol_ProjectID r) as [x|], project as [y|]; try done.
    apply bool_decide_eq_true in Hqr as ->. done.
  - intros r2 Hr2. assert (r2 = r) as -> by congruence. done.
Qed.

Lemma effect_update_volume project f d d' x :
  effect p d0 d -> db_volumes d = db_volumes d0 -> update_volume project f d = inr (x, d') -> owned p d0 project ->
  (forall k r, key_where (volume_of_project project) (db_volumes d0) = Some k -> db_volumes d0 !! k = Some r ->
     volume_of_project project r = true -> grown r (f r)) -> effect p d0 d'.
Proof.
  intros He Hd H Ho Hf. apply returning_inv in H as (k & r & Hk & Hr & _ & _ & _ & ->).
  eapply (effect_volume (volume_of_project project) project d _ k r (f r)); try done; [|by intros; eapply Hf].
  by intros v [Hc _]%andb_true_iff.
Qed.

Lemma effect_new_volume id r d d' (x : ProjectVolume) :
  effect p d0 d -> db_volumes d = db_volumes d0 -> owned p d0 (vol_ProjectID r) ->
  insert_row t_new_volumes id r d = inr (x, d') -> effect p d0 d'.
Proof.
  intros [E1 E2 E3 E4 E5 E6 E7 E8] Hd Ho H. apply insert_row_inv in H as (k & -> & Hk & _ & _ & ->). cbn in Hk.
  split; try done; [|by apply volume_tables_volumes]. intros k'. cbn. destruct (decide (k' = k)) as [->|Hne]; [|left; rewrite lookup_insert_ne by done; by rewrite Hd].
  right. exists r. rewrite lookup_insert_eq. split; [done|]. split; [done|]. intros r2 Hr2. rewrite Hd in Hk. congruence.
Qed.

Lemma effect_new_operation id r d d' (x : ProjectVolumeOperation) v :
  effect p d0 d -> db_volume_operations d = db_volume_operations d0 -> vo_Status r = "pending" ->
  owned_volume p d0 (vo_ProjectVolumeID r) v -> idle d0 v -> insert_row t_operations id r d = inr (x, d') ->
  effect p d0 d' /\ db_volumes d' = db_volumes d.
Proof.
  intros [E1 E2 E3 E4 E5 E6 E7 E8] Hd Hs Hv Hi H. apply insert_row_inv in H as (k & -> & Hk & _ & _ & ->). cbn in Hk.
  split; [|done]. rewrite Hd in Hk.
  assert (forall o ro, db_volume_operations (t_set t_operations (<[k := r]> (t_get t_operations d)) d) !! o = Some ro ->
            (o = k /\ ro = r) \/ db_volume_operations d0 !! o = Some ro) as Hrow.
  { intros o ro. cbn. rewrite Hd, lookup_insert_Some. naive_solver. }
  split; try done.
  - intros o ro [[-> ->]|H0]%Hrow Hnone; [|congruence]. split; [done|]. by exists v.
  - intros o ro H0. cbn. rewrite Hd. rewrite lookup_insert_ne; [done|]. intros ->. congruence.
  - intros o1 o2 r1 r2 [[-> _]|H1]%Hrow [[-> _]|H2]%Hrow N1 N2; congruence.
  - by apply volume_tables_operations.
Qed.

Lemma effect_new_backup id r d d' (x : ProjectVolumeBackup) v :
  effect p d0 d -> db_volume_backups d = db_volume_backups d0 -> owned_volume p d0 (vb_ProjectVolumeID r) v ->
  insert_row t_backups id r d = inr (x, d') ->
  effect p d0 d' /\ db_volumes d' = db_volumes d /\ db_volume_operations d' = db_volume_operations d.
Proof.
  intros [E1 E2 E3 E4 E5 E6 E7 E8] Hd Hv H. apply insert_row_inv in H as (k & -> & Hk & _ & _ & ->). cbn in Hk.
  split; [|done]. rewrite Hd in Hk. split; try done.
  - intros b rb. cbn. rewrite Hd, lookup_insert_Some. intros [[-> <-]|[_ H0]] Hnone; [by exists v|congruence].
  - intros b rb H0. cbn. rewrite Hd, lookup_insert_ne; [done|]. intros ->. congruence.
  - by apply volume_tables_backups.
Qed.

End statements.

(** ** Reads *)

Section reads.
Context {env : Env} {S : Sorter}.

(** A read answers from the database; only its answer is "no rows". *)
Lemma tr_try {A} (P : Db -> Prop) (f : reads A) X :
  triple P (attempt (query f))
    (fun r d => P d /\ match r with inr x => exists t, f t d = inr x | inl e => is_no_rows e = true -> exists t, f t d = inl e end) X.
Proof.
  intros w Hw. unfold attempt, query. destruct (env_fault (w_step w)); simpl; try done.
  destruct (f (sql_now w) (w_db w)) as [e|x] eqn:E; simpl; eauto.
Qed.

(** The volume a lookup by project finds is the one an update by project changes. *)
Lemma first_row_key {R} (q : R -> bool) (m : gmap UUID R) x :
  first_row (rows q m) = inr x -> exists k, key_where q m = Some k /\ m !! k = Some x /\ q x = true.
Proof.
  unfold rows, key_where. intros H.
  assert (forall l : list (UUID * R), first_row (List.filter q (snd <$> l)) = inr x ->
            exists k, fst <$> head (List.filter (fun '(_, r) => q r) l) = Some k /\ (k, x) ∈ l /\ q x = true) as Hl.
  { intros l. induction l as [|[k y] l IH]; simpl; [done|]. destruct (q y) eqn:Hy; simpl.
    - intros [= ->]. exists k. split; [done|]. split; [constructor|done].
    - intros Hf. destruct (IH Hf) as (k' & ? & ? & ?). exists k'. split; [done|]. split; [by constructor|done]. }
  destruct (Hl _ H) as (k & Hk & Hin & Hq). exists k. split; [done|]. split; [|done]. by apply elem_of_map_to_list.
Qed.

End reads.

(** ** The steps of the handlers *)

Section handlers.
Context {env : Env} {S : Sorter} {UP : UuidParser} {VIO : VolumeIO} (a : API) (r : Request) (d0 : Db) (Hwf : volumes_wf d0).

Abbreviation eff := (api_effect r d0).
Abbreviation start := (fun d : Db => d = d0).
Abbreviation hh P m Q := (htr (B := VolumeBody) P m Q (fun _ => eff) eff).

Lemma start_eff d : start d -> eff d.
Proof. by left. Qed.
Lemma start_eff' (F : Prop) d : start d /\ F -> eff d.
Proof. intros [? _]. by left. Qed.

Lemma eff_start : eff d0.
Proof. by left. Qed.

Lemma principal_step : hh start (mustPrincipal r) (fun p d => start d /\ rq_principal r = Some p).
Proof. apply htr_principal, eff_start. Qed.

Lemma admin_step p : hh start (requireOrgAdmin p) (fun _ d => start d /\ orgRoleCanManage (pr_OrgRole p) = true).
Proof. apply htr_admin, eff_start. Qed.

Lemma hh_read {A} (f : reads A) on_err :
  hh start (or_reply (query f) on_err) (fun x d => start d /\ exists t, f t d0 = inr x).
Proof. apply htr_read, eff_start. Qed.

Lemma project_step p :
  hh start (projectForRequest r (pr_OrganizationID p)) (fun x d => start d /\ owned p d0 x.1).
Proof. apply htr_project, eff_start. Qed.

(** The service, its project and the organization. *)
Definition service_ctx (p : Principal) (ctx : serviceRequestContext) : Prop :=
  owned p d0 (proj_ID (sc_Project ctx)) /\
  exists s svc, sc_ID ctx = Some s /\ db_services d0 !! s = Some svc /\ svc_ProjectID svc = proj_ID (sc_Project ctx).

Lemma service_step p :
  hh start (serviceForRequest r (pr_OrganizationID p)) (fun ctx d => start d /\ service_ctx p ctx).
Proof.
  unfold serviceForRequest, parseUUID. destruct (uuid_Parse _) as [id|]; [|apply htr_reply, start_eff]. simpl.
  eapply htr_bind; [apply hh_read|]. intros svc. apply tr_and. intros (t & H).
  eapply htr_bind; [apply hh_read|]. intros pr. apply tr_and. intros (t' & H'). apply htr_next. intros d Hd. split; [done|].
  apply service_owned in H as (s & k & pr' & [= <-] & Hs & Hk & Hp & Ho). unfold ProjectFirstByID in H'. rewrite Hk in H'. simpl in H'. rewrite Hp in H'.
  injection H' as ->. pose proof (vw_projects d0 Hwf k pr Hp) as Hid. unfold service_ctx. simpl. rewrite Hid. split; [done|]. by exists id, svc.
Qed.

(** A volume of the project [project], read in the first state. *)
Definition volume_row (p : Principal) (project : pgUUID) (vol : ProjectVolume) : Prop :=
  owned_volume p d0 (vol_ID vol) vol /\ vol_ProjectID vol = project /\ vol_DeletedAt vol = None.

Lemma volume_row_of p project vol k :
  owned p d0 project -> db_volumes d0 !! k = Some vol -> vol_ProjectID vol = project -> vol_DeletedAt vol = None -> volume_row p project vol.
Proof.
  intros Ho Hk Hp Hd. split; [|done]. split; [done|]. split; [|by rewrite Hp]. exists k. split; [|done]. by apply (vw_keyed d0 Hwf).
Qed.

Lemma find_volume_row p project t vol :
  owned p d0 project -> ProjectVolumeFindByProjectID project t d0 = inr vol -> volume_row p project vol.
Proof.
  intros Ho H. apply first_row_elem, elem_of_rows in H as [Hq (k & Hk)]. unfold volume_of_project in Hq.
  apply andb_true_iff in Hq as [Hc Hn]. apply org_cols in Hc as (o & H1 & ->).
  eapply volume_row_of; eauto. by destruct (vol_DeletedAt vol).
Qed.

Lemma service_volume_step p :
  hh start (serviceVolumeContextForRequest r (pr_OrganizationID p))
    (fun x d => start d /\ service_ctx p x.1 /\ (forall vol, x.2 = Some vol -> volume_row p (proj_ID (sc_Project x.1)) vol) /\
                (x.2 = None -> exists t e, ProjectVolumeFindByServiceID (sc_ID x.1) t d0 = inl e)).
Proof.
  unfold serviceVolumeContextForRequest. eapply htr_bind; [apply service_step|]. intros ctx. apply tr_and. intros Hctx.
  eapply htr_m; [apply (tr_try start)|]. intros [e|vol]; simpl.
  - case_match; [|apply htr_reply; intros d [Hd _]; by left]. apply htr_next. intros d [-> He]. split_and!; try done.
    intros _. destruct (He eq_refl) as (t & H'). by exists t, e.
  - apply (tr_fact (exists t, ProjectVolumeFindByServiceID (sc_ID ctx) t d0 = inr vol)); [by intros d [-> H]|]. intros (t & H).
    apply htr_next. intros d [Hd _]. split; [done|]. split; [done|]. split; [|done]. intros ? [= <-]. simpl.
    destruct Hctx as (Ho & s & svc & Hs & Hsvc & Hpr). apply first_row_elem, elem_of_rows in H as [Hq (k & Hk)].
    apply andb_true_iff in Hq as [Hc Hn]. rewrite Hs in Hc. apply org_cols in Hc as (s' & H1 & [= <-]).
    eapply volume_row_of; [done|exact Hk| |by destruct (vol_DeletedAt vol)]. rewrite <- Hpr. by eapply (vw_service d0 Hwf).
Qed.

Lemma idle_step vol msg code p project :
  volume_row p project vol -> hh start (volume_idle vol msg code) (fun _ d => start d /\ idle d0 vol).
Proof.
  intros Hrow. unfold volume_idle. destruct (String.eqb_spec (vol_Status vol) "attached"); simpl; [apply htr_reply, start_eff|].
  destruct (vol_AttachedVmID vol) eqn:Evm; simpl; [apply htr_reply, start_eff|]. case_match; [apply htr_reply, start_eff|].
  eapply htr_m; [apply (tr_try start)|]. intros [e|op]; simpl; [|apply htr_reply; intros d [Hd _]; by left].
  destruct (is_no_rows e); [|apply htr_reply; intros d [Hd _]; by left]. apply htr_next. intros d [-> He]. split; [done|].
  destruct (He eq_refl) as (t & Hf). split; [done|done|]. intros o ro Ho Hv.
  apply first_row_none in Hf. destruct (operation_active ro) eqn:Ea; [|done]. exfalso.
  assert (ro ∈ rows (fun x => col_eq (vo_ProjectVolumeID x) (vol_ID vol) && operation_active x) (db_volume_operations d0)) as Hin.
  { apply elem_of_rows. split; [|by exists o]. rewrite Hv, Ea. destruct Hrow as [(_ & (k & -> & _) & _) _]. simpl.
    by rewrite bool_decide_eq_true_2. }
  rewrite <- (sort_by_elem (fun a b => time_le (vo_CreatedAt b) (vo_CreatedAt a))) in Hin.
  fold (db_volume_operations d0) in Hf. rewrite Hf in Hin. set_solver.
Qed.

(** ** Writes *)

Lemma eff_of p d : rq_principal r = Some p -> effect p d0 d -> eff d.
Proof. intros. right. by exists p. Qed.

(** The tail of the operation handlers, with the backup already inserted or not. *)
Lemma enqueue_step p code project vol server kind req status :
  rq_principal r = Some p -> volume_row p project vol -> idle d0 vol ->
  hh (fun d => effect p d0 d /\ db_volumes d = db_volumes d0 /\ db_volume_operations d = db_volume_operations d0)
     (enqueue_and_reply a code project vol server kind req status) (fun _ => eff).
Proof.
  intros Hp (Hv & Hpr & _) Hi. unfold enqueue_and_reply.
  set (P := fun d => effect p d0 d /\ db_volumes d = db_volumes d0 /\ db_volume_operations d = db_volume_operations d0).
  eapply (htr_bind _ _ _ (fun _ => eff)).
  - apply htr_or_reply. unfold enqueueProjectVolumeOperation.
    apply (tr_conseq _ P _ _ (fun _ => eff) _ eff); [|done|done|intros d Hd; split; auto].
    eapply (tr_bind _ _ _ (fun _ => P)); [apply tr_reading; [solve_runs|intros d [H _]; by eapply eff_of|done]|]. intros id.
    eapply (tr_bind _ _ _ (fun _ d => effect p d0 d /\ db_volumes d = db_volumes d0)).
    + apply tr_exec; [intros d [H _]; by eapply eff_of|]. intros t x d d' (He & Hd & Ho) H.
      unfold ProjectVolumeOperationCreate in H. apply (effect_new_operation p d0 _ _ _ _ _ vol) in H as [He' Hd']; [|done..]. split; [by rewrite Hd'|by eapply eff_of].
    + intros op. eapply (tr_bind _ _ _ (fun _ => eff)); [|intros; by apply tr_ret].
      apply tr_exec; [intros d [H _]; by eapply eff_of|]. intros t x d d' (He & Hd) H.
      assert (effect p d0 d') as He'; [|split; by eapply eff_of].
      apply (effect_update_volume _ _ _ _ _ _ _ He Hd H); [apply Hv|]. intros k r' _ _ _. by split.
  - intros op. eapply (htr_m _ _ _ (fun _ => eff)); [|intros; by apply htr_next].
    apply tr_reading; [unfold publishProjectVolumeTopics; solve_runs|done|done].
Qed.

(** Steps that only read. *)
Lemma reading_step {A} (m : step_of VolumeBody A) : runs no_stmt m -> hh start m (fun _ => start).
Proof. apply htr_reading, eff_start. Qed.

Abbreviation fresh p := (fun d => effect p d0 d /\ db_volumes d = db_volumes d0 /\ db_volume_operations d = db_volume_operations d0).

Lemma backup_step p code kind project vol :
  rq_principal r = Some p -> orgRoleCanManage (pr_OrgRole p) = true -> volume_row p project vol ->
  hh start (create_backup code kind vol) (fun _ => fresh p).
Proof.
  intros Hp Ha (Hv & _). unfold create_backup. eapply (htr_m _ _ _ (fun _ => start)).
  { apply tr_reading; [solve_runs|by left|done]. }
  intros id. apply htr_or_reply, tr_exec; [intros d Hd; split; [by left|]; intros; by left|].
  intros t x d d' -> H. unfold ProjectVolumeBackupCreate in H.
  apply (effect_new_backup p d0 _ _ _ _ _ vol) in H as (He & Hd & Ho); [|by apply effect_refl|done|done].
  split; [done|]. split; [by eapply eff_of|]. intros. by eapply eff_of.
Qed.

Lemma start_fresh p d : orgRoleCanManage (pr_OrgRole p) = true -> start d -> fresh p d.
Proof. intros Ha ->. split; [by apply effect_refl|done]. Qed.

Lemma select_target_reads id current prefer : runs no_stmt (select_target id current prefer).
Proof.
  assert (forall x prefix, runs no_stmt (insert_left x prefix)) as Hi.
  { intros x prefix. induction prefix as [|y prefix IH]; simpl; [solve_runs|].
    unfold compare_workers. solve_runs. }
  unfold select_target, or_reply, selectProjectVolumeTargetServer, activeCloudHypervisorWorkers, sort_workers. solve_runs.
Qed.

(** Handlers of operations, once the volume is known to be idle. *)
Section operations.
Context (p : Principal) (Hp : rq_principal r = Some p) (Ha : orgRoleCanManage (pr_OrgRole p) = true).
Context (code : string) (project : pgUUID) (vol : ProjectVolume) (Hrow : volume_row p project vol) (Hidle : idle d0 vol).

Lemma enqueue_start server kind req status :
  hh start (enqueue_and_reply a code project vol server kind req status) (fun _ => eff).
Proof. eapply tr_pre; [by eapply enqueue_step|]. intros d. by apply start_fresh. Qed.

Lemma post_backup_step : hh start (post_backup a code project vol) (fun _ => eff).
Proof.
  unfold post_backup. eapply htr_bind; [apply reading_step; unfold require_pinned; solve_runs|]. intros ?.
  eapply htr_bind; [apply reading_step; unfold require_store; solve_runs|]. intros ?.
  eapply htr_bind; [by eapply backup_step|]. intros b. by eapply enqueue_step.
Qed.

Lemma post_restore_step noun : hh start (post_restore a noun code project vol r) (fun _ => eff).
Proof.
  unfold post_restore. eapply htr_bind; [apply reading_step; unfold require_store; solve_runs|]. intros ?.
  eapply htr_bind; [apply reading_step; unfold decode_body; solve_runs|]. intros [b t].
  case_match; [|apply htr_reply, start_eff]. eapply htr_bind; [apply reading_step; unfold or_reply; solve_runs|]. intros bk.
  case_match; [apply htr_reply, start_eff|]. eapply htr_bind; [apply reading_step, select_target_reads|]. intros srv. apply enqueue_start.
Qed.

Lemma post_move_step : hh start (post_move a code project vol r) (fun _ => eff).
Proof.
  unfold post_move. eapply htr_bind; [apply reading_step; unfold require_pinned; solve_runs|]. intros ?.
  eapply htr_bind; [apply reading_step; unfold require_store; solve_runs|]. intros ?.
  eapply htr_bind; [apply reading_step; unfold decode_body; solve_runs|]. intros t.
  eapply htr_bind; [apply reading_step, select_target_reads|]. intros srv.
  case_match; [apply htr_reply, start_eff|]. apply enqueue_start.
Qed.

Lemma post_repair_step : hh start (post_repair a code project vol) (fun _ => eff).
Proof.
  unfold post_repair. eapply htr_bind; [apply reading_step; unfold require_pinned; solve_runs|]. intros ?. apply enqueue_start.
Qed.

Lemma pre_delete_step : hh start (pre_delete_backup a code project vol) (fun _ => eff).
Proof.
  unfold pre_delete_backup. case_match; [apply htr_reply, start_eff|].
  eapply htr_bind; [apply reading_step; unfold require_store; solve_runs|]. intros ?.
  eapply htr_bind; [by eapply backup_step|]. intros b. by eapply enqueue_step.
Qed.

Lemma publish_step (P : Db -> Prop) id : (forall d, P d -> eff d) -> triple P (publishProjectVolumeTopics a id) (fun _ => P) eff.
Proof. intros HP. apply tr_reading; [unfold publishProjectVolumeTopics; solve_runs|done|done]. Qed.

Lemma delete_step : hh start (delete_volume a code project vol) (fun _ => eff).
Proof.
  unfold delete_volume. eapply (htr_m _ _ _ (fun _ => start)).
  { apply tr_reading; [unfold io_call; solve_runs|by left|done]. }
  assert (hh start (let? _ := or_reply (exec (ProjectVolumeSoftDelete project)) (writeAPIErrorFromErr StatusInternalServerError code) in
                    do! publishProjectVolumeTopics a (FromPgtype project) ; next (RespStatus (B := VolumeBody) StatusNoContent)) (fun _ => eff)) as H.
  { eapply (htr_bind _ _ _ (fun _ => eff)).
    - apply htr_or_reply, tr_exec; [intros d Hd; split; [by left|]; intros; by left|]. intros t x d d' -> HU.
      assert (eff d') as He; [|by split; [|split]].
      apply executing_inv in HU as [->|(k & v & Hk & Hv & _ & _ & ->)]; [by left|]. eapply eff_of; [done|].
      refine (effect_volume p d0 (volume_of_project project) project d0 _ k v _ (effect_refl p d0 Ha) eq_refl _ _ Hk Hv _ eq_refl).
      + destruct Hrow as ((_ & _ & Ho) & Hpr & _). by rewrite <- Hpr.
      + by intros v' [Hc _]%andb_true_iff.
      + intros _ _ _. by split.
    - intros _. eapply (htr_m _ _ _ (fun _ => eff)); [by apply publish_step|]. intros _. by apply htr_next. }
  intros [[[] e]|]; [exact H|apply htr_reply, start_eff|exact H].
Qed.

End operations.

(** ** PUT *)

Section put.
Context (p : Principal) (Hp : rq_principal r = Some p) (Ha : orgRoleCanManage (pr_OrgRole p) = true).
Context (code : string) (project : pgUUID) (Ho : owned p d0 project) (req : putVolumeRequest) (vals : putValues).

(** Past the checks of an existing volume. *)
Definition checked (vol : ProjectVolume) : Prop :=
  vol_MountPath vol = pv_MountPath vals /\ vol_SizeGb vol <= pv_SizeGB vals.

Lemma check_step vol : hh start (check_existing vals vol) (fun _ d => start d /\ checked vol).
Proof.
  unfold check_existing. destruct (String.eqb_spec (vol_MountPath vol) (pv_MountPath vals)); simpl; [|apply htr_reply, start_eff].
  destruct (Z.ltb_spec (pv_SizeGB vals) (vol_SizeGb vol)); [apply htr_reply, start_eff|]. apply htr_next. intros d ->.
  split; [done|]. by split.
Qed.

Lemma update_spec_step vol k :
  key_where (volume_of_project project) (db_volumes d0) = Some k -> db_volumes d0 !! k = Some vol ->
  hh start (update_volume_spec code project req vals vol) (fun _ => eff).
Proof.
  intros Hk Hv. unfold update_volume_spec. eapply htr_bind; [apply check_step|]. intros ?. apply tr_and. intros [Hm Hs].
  destruct (_ && _) eqn:Hat; [apply htr_reply, start_eff|].
  apply htr_or_reply, tr_exec; [intros d Hd; split; [by left|]; intros; by left|]. intros t x d d' -> HU.
  assert (effect p d0 d') as He.
  { eapply (effect_update_volume p d0 project _ d0 d' x (effect_refl p d0 Ha) eq_refl HU Ho).
    intros k' r' Hk' Hr' _. assert (r' = vol) as -> by congruence. split; try done. simpl. intros _ Hst. rewrite Hst in Hat. simpl in Hat.
    apply negb_false_iff, Z.eqb_eq in Hat. done. }
  split; [by eapply eff_of|]. split; [by eapply eff_of|]. intros. by eapply eff_of.
Qed.

Lemma revive_step vol k :
  key_where (fun v => col_eq (vol_ProjectID v) project) (db_volumes d0) = Some k -> db_volumes d0 !! k = Some vol ->
  vol_DeletedAt vol <> None -> hh start (revive_volume code project req vals vol) (fun _ => eff).
Proof.
  intros Hk Hv Hdel. unfold revive_volume. eapply htr_bind; [apply check_step|]. intros ?. apply tr_and. intros [Hm Hs].
  apply htr_or_reply, tr_exec; [intros d Hd; split; [by left|]; intros; by left|]. intros t x d d' -> HU.
  assert (effect p d0 d') as He.
  { unfold ProjectVolumeRevive in HU. apply returning_inv in HU as (k' & r' & Hk' & Hr' & _ & _ & _ & ->). cbn in Hr'.
    refine (effect_volume p d0 (fun v => col_eq (vol_ProjectID v) project) project d0 _ k' r' _ (effect_refl p d0 Ha) eq_refl Ho _ Hk' Hr' _ eq_refl);
      [done|].
    intros _ _ _. assert (r' = vol) as -> by congruence. by split. }
  split; [by eapply eff_of|]. split; [by eapply eff_of|]. intros. by eapply eff_of.
Qed.

Lemma create_step service : hh start (create_volume code project service vals) (fun _ => eff).
Proof.
  unfold create_volume. eapply (htr_m _ _ _ (fun _ => start)); [apply tr_reading; [solve_runs|by left|done]|]. intros id.
  apply htr_or_reply, tr_exec; [intros d Hd; split; [by left|]; intros; by left|]. intros t x d d' -> HU.
  unfold ProjectVolumeCreate in HU. apply (effect_new_volume p d0) in HU as He; [|by apply effect_refl|done|done].
  split; [by eapply eff_of|]. split; [by eapply eff_of|]. intros. by eapply eff_of.
Qed.

(** The lookups of the project's volume agree with the keys the updates use. *)
Lemma any_volume_key t vol :
  ProjectVolumeFindAnyByProjectID project t d0 = inr vol ->
  exists k, key_where (fun v => col_eq (vol_ProjectID v) project) (db_volumes d0) = Some k /\ db_volumes d0 !! k = Some vol.
Proof. intros H. apply first_row_key in H as (k & ? & ? & _). eauto. Qed.

Lemma validate_reads pr : runs no_stmt (validate_put req pr).
Proof. unfold validate_put, or_invalid, hbind, next, reply. solve_runs. Qed.

Lemma worker_reads c : runs no_stmt (require_worker c).
Proof. unfold require_worker, or_reply, hbind, next, reply. solve_runs. Qed.

Lemma reply_volume_step vol : hh eff (reply_volume vol) (fun _ => eff).
Proof.
  unfold reply_volume. eapply (htr_m _ _ _ (fun _ => eff)); [|intros; by apply htr_next].
  apply tr_reading; [unfold projectVolumeToOutCtx; solve_runs|done|done].
Qed.

Lemma put_tail vol : hh eff (do! publishProjectVolumeTopics a (FromPgtype project) ; reply_volume vol) (fun _ => eff).
Proof. eapply (htr_m _ _ _ (fun _ => eff)); [by apply publish_step|]. intros ?. apply reply_volume_step. Qed.

End put.

(** ** The routes *)

(** Principal, administrator, project. *)
Lemma admin_project_step {A} (k : pgUUID -> Project -> step_of VolumeBody A) Q :
  (forall p project pr, rq_principal r = Some p -> orgRoleCanManage (pr_OrgRole p) = true -> owned p d0 project ->
     hh start (k project pr) Q) ->
  hh start (let? p := mustPrincipal r in let? _ := requireOrgAdmin p in
            let? '(project, pr) := projectForRequest r p.(pr_OrganizationID) in k project pr) Q.
Proof.
  intros Hk. eapply htr_bind; [apply principal_step|]. intros p. apply tr_and. intros Hp.
  eapply htr_bind; [apply admin_step|]. intros ?. apply tr_and. intros Ha.
  eapply htr_bind; [apply project_step|]. intros [project pr]. apply tr_and. intros Ho. by eapply Hk.
Qed.

Lemma admin_service_step {A} (k : serviceRequestContext -> option ProjectVolume -> step_of VolumeBody A) Q :
  (forall p ctx vol, rq_principal r = Some p -> orgRoleCanManage (pr_OrgRole p) = true -> service_ctx p ctx ->
     (forall v, vol = Some v -> volume_row p (proj_ID (sc_Project ctx)) v) -> hh start (k ctx vol) Q) ->
  hh start (let? p := mustPrincipal r in let? _ := requireOrgAdmin p in
            let? '(ctx, vol) := serviceVolumeContextForRequest r p.(pr_OrganizationID) in k ctx vol) Q.
Proof.
  intros Hk. eapply htr_bind; [apply principal_step|]. intros p. apply tr_and. intros Hp.
  eapply htr_bind; [apply admin_step|]. intros ?. apply tr_and. intros Ha.
  eapply htr_bind; [apply service_volume_step|]. intros [ctx vol]. apply tr_and. intros (Hc & Hv & _). by eapply Hk.
Qed.

(** The volume of the project, idle. *)
Lemma ready_step p project action :
  owned p d0 project ->
  hh start (projectVolumeReadyForOperation project action) (fun vol d => start d /\ volume_row p project vol /\ idle d0 vol).
Proof.
  intros Ho. unfold projectVolumeReadyForOperation. eapply htr_bind; [apply hh_read|]. intros vol. apply tr_and. intros (t & H).
  apply (find_volume_row p) in H as Hrow; [|done]. eapply htr_bind; [by eapply idle_step|]. intros ?. apply tr_and. intros Hi.
  by apply htr_next.
Qed.

Lemma service_ready_step {A} p ctx vol msg code (k : ProjectVolume -> step_of VolumeBody A) Q :
  (forall v, vol = Some v -> volume_row p (proj_ID (sc_Project ctx)) v) ->
  (forall v, volume_row p (proj_ID (sc_Project ctx)) v -> idle d0 v -> hh start (k v) Q) ->
  hh start (let? v := service_volume vol in let? _ := volume_idle v msg code in k v) Q.
Proof.
  intros Hv Hk. eapply (htr_bind _ _ _ (fun v d => start d /\ volume_row p (proj_ID (sc_Project ctx)) v)).
  - destruct vol as [v|]; simpl; [apply htr_next; auto|apply htr_reply, start_eff].
  - intros v. apply tr_and. intros Hrow. eapply htr_bind; [by eapply idle_step|]. intros ?. apply tr_and. intros Hi. by apply Hk.
Qed.

Definition route_ok (h : Request -> M (Response VolumeBody)) : Prop := triple start (h r) (fun _ => eff) eff.

Lemma reading_route h : runs no_stmt (h r) -> route_ok h.
Proof. intros H. apply tr_reading; [done|by left|by left]. Qed.

Lemma project_operation action (k : pgUUID -> ProjectVolume -> step_of VolumeBody (Response VolumeBody)) :
  (forall p project vol, rq_principal r = Some p -> orgRoleCanManage (pr_OrgRole p) = true -> volume_row p project vol -> idle d0 vol ->
     hh start (k project vol) (fun _ => eff)) ->
  triple start (handle (let? p := mustPrincipal r in let? _ := requireOrgAdmin p in
     let? '(project, _) := projectForRequest r p.(pr_OrganizationID) in
     let? vol := projectVolumeReadyForOperation project action in k project vol)) (fun _ => eff) eff.
Proof.
  intros Hk. apply (tr_handle _ _ (fun _ => eff)).
  apply (admin_project_step (fun project _ => let? vol := projectVolumeReadyForOperation project action in k project vol)).
  intros p project pr Hp Ha Ho. eapply htr_bind; [by eapply ready_step|]. intros vol. apply tr_and. intros [Hrow Hi]. by eapply Hk.
Qed.

Lemma service_operation action (k : serviceRequestContext -> ProjectVolume -> step_of VolumeBody (Response VolumeBody)) :
  (forall p ctx vol, rq_principal r = Some p -> orgRoleCanManage (pr_OrgRole p) = true ->
     volume_row p (proj_ID (sc_Project ctx)) vol -> idle d0 vol -> hh start (k ctx vol) (fun _ => eff)) ->
  triple start (handle (let? p := mustPrincipal r in let? _ := requireOrgAdmin p in
     let? '(ctx, vol) := serviceVolumeReadyForOperation r p.(pr_OrganizationID) action in k ctx vol)) (fun _ => eff) eff.
Proof.
  intros Hk. apply (tr_handle _ _ (fun _ => eff)). eapply htr_bind; [apply principal_step|]. intros p. apply tr_and. intros Hp.
  eapply htr_bind; [apply admin_step|]. intros ?. apply tr_and. intros Ha.
  eapply (htr_bind _ _ _ (fun x d => start d /\ volume_row p (proj_ID (sc_Project x.1)) x.2 /\ idle d0 x.2)).
  - unfold serviceVolumeReadyForOperation. eapply htr_bind; [apply service_volume_step|]. intros [ctx vol]. apply tr_and. intros (Hc & Hv & _).
    eapply service_ready_step; [exact Hv|]. intros v Hrow Hi. by apply htr_next.
  - intros [ctx vol]. apply tr_and. intros [Hrow Hi]. by eapply Hk.
Qed.

Lemma find_project_volume_step p project code :
  owned p d0 project ->
  hh start (or_reply (query (ProjectVolumeFindByProjectID project)) (volume_error "project" code))
    (fun vol d => start d /\ volume_row p project vol).
Proof.
  intros Ho. eapply tr_conseq; [apply hh_read|done| |done]. intros [resp|vol] d; [done|]. intros [Hd (t & H)].
  split; [done|]. by eapply find_volume_row.
Qed.

Lemma delete_project_route : route_ok (deleteProjectVolume a).
Proof.
  apply (tr_handle _ _ (fun _ => eff)).
  apply (admin_project_step (fun projectID _ =>
    let? vol := or_reply (query (ProjectVolumeFindByProjectID projectID)) (volume_error "project" "delete_project_volume") in
    let? _ := volume_idle vol "detach the volume before deleting it" "delete_project_volume" in
    if vol.(vol_PreDeleteBackupEnabled) then pre_delete_backup a "delete_project_volume" projectID vol
    else delete_volume a "delete_project_volume" projectID vol)).
  intros p project pr Hp Ha Ho. eapply htr_bind; [by eapply find_project_volume_step|]. intros vol. apply tr_and. intros Hrow.
  eapply htr_bind; [by eapply idle_step|]. intros ?. apply tr_and. intros Hi.
  case_match; [by eapply pre_delete_step|by eapply delete_step].
Qed.

Lemma delete_service_route : route_ok (deleteServiceVolume a).
Proof.
  apply (tr_handle _ _ (fun _ => eff)).
  apply (admin_service_step (fun ctx vol =>
    let? vol := service_volume vol in
    let? _ := volume_idle vol "detach the volume before deleting it" "delete_service_volume" in
    if vol.(vol_PreDeleteBackupEnabled) then pre_delete_backup a "delete_service_volume" ctx.(sc_Project).(proj_ID) vol
    else delete_volume a "delete_service_volume" ctx.(sc_Project).(proj_ID) vol)).
  intros p ctx vol Hp Ha Hc Hv. eapply service_ready_step; [exact Hv|]. intros v Hrow Hi.
  case_match; [by eapply pre_delete_step|by eapply delete_step].
Qed.

(** A volume found deleted where no active one exists. *)
Lemma any_deleted project t1 t2 e vol :
  ProjectVolumeFindByProjectID project t1 d0 = inl e -> ProjectVolumeFindAnyByProjectID project t2 d0 = inr vol ->
  vol_DeletedAt vol <> None.
Proof.
  intros H1 H2 Hd. apply first_row_none in H1. apply first_row_elem, elem_of_rows in H2 as [Hq (k & Hk)].
  assert (vol ∈ rows (volume_of_project project) (db_volumes d0)) as Hin.
  { apply elem_of_rows. split; [unfold volume_of_project; by rewrite Hq, Hd|eauto]. }
  rewrite H1 in Hin. set_solver.
Qed.

Lemma put_project_route : route_ok (putProjectVolume a).
Proof.
  apply (tr_handle _ _ (fun _ => eff)). unfold putProjectVolume. cbv zeta.
  eapply htr_bind; [apply principal_step|]. intros p. apply tr_and. intros Hp.
  eapply htr_bind; [apply admin_step|]. intros ?. apply tr_and. intros Ha.
  eapply htr_bind; [apply project_step|]. intros [project pr]. apply tr_and. intros Ho. simpl in Ho.
  eapply htr_bind; [apply reading_step; unfold or_reply; solve_runs|]. intros svc.
  eapply htr_bind; [apply reading_step; unfold decode_body; solve_runs|]. intros req.
  eapply htr_bind; [apply reading_step, validate_reads|]. intros vals.
  eapply htr_bind; [apply reading_step, worker_reads|]. intros ?.
  eapply htr_m; [apply (tr_try start)|]. intros v.
  eapply (htr_bind _ _ _ (fun _ => eff)); [|intros vol; by eapply put_tail].
  destruct v as [e|vol].
  - destruct (is_no_rows e) eqn:He; [|apply htr_reply; intros d [Hd _]; by left].
    apply (tr_fact (exists t, ProjectVolumeFindByProjectID project t d0 = inl e)); [intros d [-> Hx]; auto|]. intros (t1 & H1).
    apply tr_pre with (P' := start); [|by intros d [? _]]. eapply htr_m; [apply (tr_try start)|]. intros [e2|vol].
    + case_match; [|apply htr_reply; intros d [Hd _]; by left]. apply tr_pre with (P' := start); [|by intros d [? _]]. by eapply create_step.
    + apply (tr_fact (exists t, ProjectVolumeFindAnyByProjectID project t d0 = inr vol)); [by intros d [-> Hx]|]. intros (t2 & H2).
      apply tr_pre with (P' := start); [|by intros d [? _]]. destruct (any_volume_key project t2 vol H2) as (k & Hk & Hv).
      eapply revive_step; eauto. by eapply any_deleted.
  - apply (tr_fact (exists t, ProjectVolumeFindByProjectID project t d0 = inr vol)); [by intros d [-> Hx]|]. intros (t & H1).
    apply tr_pre with (P' := start); [|by intros d [? _]]. apply first_row_key in H1 as (k & Hk & Hv & _). by eapply update_spec_step.
Qed.

(** The service's active volume is the one an update by its project changes. *)
Lemma active_key p project vol :
  volume_row p project vol -> exists k, key_where (volume_of_project project) (db_volumes d0) = Some k /\ db_volumes d0 !! k = Some vol.
Proof.
  intros ((_ & (k & Hid & Hk) & kp & pr & org & Hpk & _) & Hpr & Hdel).
  assert (vol ∈ rows (volume_of_project project) (db_volumes d0)) as Hin.
  { apply elem_of_rows. split; [|eauto]. unfold volume_of_project. rewrite Hdel, <- Hpr.
    rewrite Hpk. simpl. by rewrite bool_decide_eq_true_2. }
  destruct (rows (volume_of_project project) (db_volumes d0)) as [|y l] eqn:E; [set_solver|].
  destruct (first_row_key (volume_of_project project) (db_volumes d0) y) as (k' & Hk' & Hy & Hq); [by rewrite E|].
  exists k'. split; [done|]. apply andb_true_iff in Hq as [Hq _]. apply org_cols in Hq as (x & H1 & H2).
  assert (k' = k) as -> by (eapply (vw_unique d0 Hwf); [exact Hy|exact Hk|exact H1|congruence]). done.
Qed.

Lemma no_service_volume s k vol t e :
  ProjectVolumeFindByServiceID (Some s) t d0 = inl e -> db_volumes d0 !! k = Some vol -> vol_DeletedAt vol = None ->
  vol_ServiceID vol = Some s -> False.
Proof.
  intros H Hk Hd Hs. apply first_row_none in H.
  assert (vol ∈ rows (fun r => col_eq (vol_ServiceID r) (Some s) && is_null (vol_DeletedAt r)) (db_volumes d0)) as Hin.
  { apply elem_of_rows. split; [|eauto]. rewrite Hs, Hd. simpl. by rewrite bool_decide_eq_true_2. }
  rewrite H in Hin. set_solver.
Qed.

Lemma put_service_route : route_ok (putServiceVolume a).
Proof.
  apply (tr_handle _ _ (fun _ => eff)). unfold putServiceVolume. cbv zeta.
  eapply htr_bind; [apply principal_step|]. intros p. apply tr_and. intros Hp.
  eapply htr_bind; [apply admin_step|]. intros ?. apply tr_and. intros Ha.
  eapply htr_bind; [apply service_volume_step|]. intros [ctx vol]. apply tr_and. intros (Hc & Hvol & Hnone). simpl in Hc, Hvol, Hnone.
  pose proof Hc as (Ho & s & svc & Hs & Hsvc & Hspr).
  eapply htr_bind; [apply reading_step; unfold decode_body; solve_runs|]. intros req.
  eapply htr_bind; [apply reading_step, validate_reads|]. intros vals.
  eapply htr_bind; [apply reading_step, worker_reads|]. intros ?.
  eapply (htr_bind _ _ _ (fun _ => eff)); [|intros v; by eapply put_tail].
  destruct vol as [vol|].
  - destruct (active_key p (proj_ID (sc_Project ctx)) vol) as (k & Hk & Hv); [by apply Hvol|]. by eapply update_spec_step.
  - eapply htr_m; [apply (tr_try start)|]. intros [e2|vol].
    + case_match; [|apply htr_reply; intros d [Hd _]; by left]. apply tr_pre with (P' := start); [|by intros d [? _]]. by eapply create_step.
    + apply (tr_fact (exists t, ProjectVolumeFindAnyByProjectID (proj_ID (sc_Project ctx)) t d0 = inr vol)); [by intros d [-> Hx]|].
      intros (t2 & H2). apply tr_pre with (P' := start); [|by intros d [? _]].
      destruct (any_volume_key (proj_ID (sc_Project ctx)) t2 vol H2) as (k & Hk & Hv).
      destruct (_ && _) eqn:Hother; [apply htr_reply, start_eff|]. eapply revive_step; eauto. intros Hdel.
      destruct (Hnone eq_refl) as (t & e & Hn). eapply (no_service_volume s k vol); eauto; [by rewrite <- Hs|].
      pose proof (vw_has_service d0 Hwf k vol Hv) as Hsome. destruct (vol_ServiceID vol) as [s'|]; [|done]. rewrite Hs in Hother. simpl in Hother.
      apply negb_false_iff, bool_decide_eq_true in Hother. by subst.
Qed.

(** ** All routes *)

Lemma get_project_route : route_ok getProjectVolume.
Proof.
  apply reading_route. unfold getProjectVolume, handle, mustPrincipal, projectForRequest, reply_volume, projectVolumeToOutCtx, or_reply,
    hbind, next, reply. solve_runs.
Qed.

Lemma list_project_route : route_ok listProjectVolumeBackups.
Proof.
  apply reading_route. unfold listProjectVolumeBackups, handle, mustPrincipal, projectForRequest, or_reply, hbind, next, reply. solve_runs.
Qed.

Lemma get_service_route : route_ok getServiceVolume.
Proof.
  apply reading_route. unfold getServiceVolume, handle, mustPrincipal, serviceVolumeContextForRequest, serviceForRequest, service_volume,
    reply_volume, projectVolumeToOutCtx, or_reply, hbind, next, reply. solve_runs.
Qed.

Lemma list_service_route : route_ok listServiceVolumeBackups.
Proof.
  apply reading_route. unfold listServiceVolumeBackups, handle, mustPrincipal, serviceVolumeContextForRequest, serviceForRequest,
    service_volume, or_reply, hbind, next, reply. solve_runs.
Qed.

Lemma routes_ok : Forall (fun x => route_ok x.2) (volume_routes a).
Proof.
  unfold volume_routes. rewrite !Forall_cons. cbn [snd]. split_and!; [..|constructor].
  - apply get_project_route.
  - apply put_project_route.
  - apply delete_project_route.
  - apply list_project_route.
  - apply (project_operation "backup" (post_backup a "create_project_volume_backup")). intros. by eapply post_backup_step.
  - apply (project_operation "restore" (fun pr v => post_restore a "project" "restore_project_volume" pr v r)). intros. by eapply post_restore_step.
  - apply (project_operation "move" (fun pr v => post_move a "move_project_volume" pr v r)). intros. by eapply post_move_step.
  - apply (project_operation "repair" (post_repair a "repair_project_volume")). intros. by eapply post_repair_step.
  - apply get_service_route.
  - apply put_service_route.
  - apply delete_service_route.
  - apply list_service_route.
  - apply (service_operation "backup" (fun c v => post_backup a "create_service_volume_backup" (proj_ID (sc_Project c)) v)). intros. by eapply post_backup_step.
  - apply (service_operation "restore" (fun c v => post_restore a "service" "restore_service_volume" (proj_ID (sc_Project c)) v r)).
    intros. by eapply post_restore_step.
  - apply (service_operation "move" (fun c v => post_move a "move_service_volume" (proj_ID (sc_Project c)) v r)). intros. by eapply post_move_step.
  - apply (service_operation "repair" (fun c v => post_repair a "repair_service_volume" (proj_ID (sc_Project c)) v)). intros. by eapply post_repair_step.
Qed.

End handlers.
