(* ===== verification/VolumeApiProofs.v ===== *)
(** * The guarantees of the volume API

    Tenant isolation, one operation at a time, volumes that never shrink, mount
    paths, the choice of target servers, and the hand-over of a move to the
    volume operations. *)

From S2P Require Import Prelude NetAddr Text Models Runtime Effects Queries Logic EventLogic TableFacts Lifecycle Volumes Codecs Secrets Config VolumeQueries Paths Json VolumeOps StorageLogic VolumeMove Api VolumeApi DbLogic VolumeApiEffect Sample VolumeSafety.

(** A run of a route, whatever its outcome. *)
Lemma route_effect (env : Env) (S : Sorter) (UP : UuidParser) (VIO : VolumeIO) a path h r w :
  (path, h) ∈ volume_routes a -> volumes_wf (w_db w) -> api_effect r (w_db w) (w_db (h r w).2).
Proof.
  intros Hin Hwf. pose proof (routes_ok a r (w_db w) Hwf) as H. rewrite Forall_forall in H. specialize (H _ Hin w eq_refl).
  simpl in H. by destruct ((h r w).1).
Qed.

(** C8: A request to the volume API touches nothing of another organization:
    volumes of projects the principal's organization does not own are
    unchanged, all existing operations and backups are kept as they are, new
    ones belong to volumes it owns, and no other table changes; a request
    without a principal, or from a member who is neither owner nor admin,
    changes nothing at all. *)
Theorem volume_api_isolated (env : Env) (S : Sorter) (UP : UuidParser) (VIO : VolumeIO) (a : API) (path : string)
    (h : Request -> M (Response VolumeBody)) (r : Request) (w : World) :
  (path, h) ∈ volume_routes a -> volumes_wf (w_db w) ->
  let d := w_db w in
  let d' := w_db (h r w).2 in
  ((forall p, rq_principal r = Some p -> orgRoleCanManage (pr_OrgRole p) = false) -> d' = d) /\
  (forall k vol, db_volumes d !! k = Some vol -> (forall p, rq_principal r = Some p -> ~ owned p d (vol_ProjectID vol)) ->
     db_volumes d' !! k = Some vol) /\
  (forall k vol, db_volumes d' !! k = Some vol -> db_volumes d !! k = None ->
     exists p, rq_principal r = Some p /\ owned p d (vol_ProjectID vol)) /\
  (db_volume_operations d ⊆ db_volume_operations d' /\ db_volume_backups d ⊆ db_volume_backups d') /\
  (forall o ro, db_volume_operations d' !! o = Some ro -> db_volume_operations d !! o = Some ro \/
     exists p vol, rq_principal r = Some p /\ owned_volume p d (vo_ProjectVolumeID ro) vol) /\
  (forall b rb, db_volume_backups d' !! b = Some rb -> db_volume_backups d !! b = Some rb \/
     exists p vol, rq_principal r = Some p /\ owned_volume p d (vb_ProjectVolumeID rb) vol) /\
  d' = volume_tables d' d.
Proof.
  intros Hin Hwf d d'. destruct (route_effect env S UP VIO a path h r w Hin Hwf) as [E|(p & Hp & E)].
  { subst d'. rewrite E. split_and!; auto; [|apply volume_tables_refl]. intros k vol Hk Hn. unfold d in Hk, Hn. congruence. }
  fold d d' in E. destruct E as [E1 E2 E3 E4 E5 E6 E7 E8]. split_and!; [| | | | | | |done].
  - intros H. apply H in Hp. congruence.
  - intros k vol Hk Hno. destruct (E1 k) as [->|(r' & Hr' & Ho & Hg)]; [done|]. destruct (Hno p Hp).
    by rewrite <- (gr_ProjectID _ _ (Hg vol Hk)).
  - intros k vol Hk Hn. exists p. split; [done|]. destruct (E1 k) as [He|(r' & Hr' & Ho & _)]; [rewrite He, Hn in Hk; discriminate|]. rewrite Hr' in Hk. by injection Hk as <-.
  - apply map_subseteq_spec, E3.
  - apply map_subseteq_spec, E6.
  - intros o ro Ho. destruct (db_volume_operations d !! o) as [ro'|] eqn:Eo; [left; apply E3 in Eo as Eo'; congruence|].
    right. destruct (E2 o ro Ho Eo) as (_ & vol & Hv & _). eauto.
  - intros b rb Hb. destruct (db_volume_backups d !! b) as [rb'|] eqn:Eb; [left; apply E6 in Eb as Eb'; congruence|].
    right. destruct (E5 b rb Hb Eb) as (vol & Hv). eauto.
Qed.

(** At most one operation of a volume is pending or running. *)
Definition one_active (d : Db) : Prop :=
  forall o1 o2 r1 r2 v, db_volume_operations d !! o1 = Some r1 -> db_volume_operations d !! o2 = Some r2 ->
    operation_active r1 = true -> operation_active r2 = true ->
    vo_ProjectVolumeID r1 = Some v -> vo_ProjectVolumeID r2 = Some v -> o1 = o2.

(** C9: No request makes a volume have two operations under way, and an
    operation is only enqueued for a volume that is not attached. *)
Theorem one_operation_at_a_time (env : Env) (S : Sorter) (UP : UuidParser) (VIO : VolumeIO) (a : API) (path : string)
    (h : Request -> M (Response VolumeBody)) (r : Request) (w : World) :
  (path, h) ∈ volume_routes a -> volumes_wf (w_db w) -> one_active (w_db w) ->
  let d' := w_db (h r w).2 in
  one_active d' /\
  forall o ro, db_volume_operations d' !! o = Some ro -> db_volume_operations (w_db w) !! o = None ->
    exists v vol, vo_ProjectVolumeID ro = Some v /\ db_volumes (w_db w) !! v = Some vol /\ vol_Status vol <> "attached" /\
      vol_AttachedVmID vol = None.
Proof.
  intros Hin Hwf Hone d'. destruct (route_effect env S UP VIO a path h r w Hin Hwf) as [E|(p & Hp & E)].
  { subst d'. rewrite E. split; [done|]. congruence. }
  fold d' in E. destruct E as [E1 E2 E3 E4 E5 E6 E7 E8].
  assert (forall o1 o2 r1 r2 v, db_volume_operations d' !! o1 = Some r1 -> db_volume_operations (w_db w) !! o1 = None ->
            db_volume_operations (w_db w) !! o2 = Some r2 -> operation_active r2 = true ->
            vo_ProjectVolumeID r1 = Some v -> vo_ProjectVolumeID r2 = Some v -> False) as Hmix.
  { intros o1 o2 r1 r2 v H1 N1 H2 A2 V1 V2. destruct (E2 o1 r1 H1 N1) as (_ & vol & (Hid & _) & Hi).
    rewrite (id_operations _ _ Hi o2 r2 H2) in A2; [done|]. congruence. }
  split.
  - intros o1 o2 r1 r2 v H1 H2 A1 A2 V1 V2.
    destruct (db_volume_operations (w_db w) !! o1) as [r1'|] eqn:N1, (db_volume_operations (w_db w) !! o2) as [r2'|] eqn:N2.
    + apply E3 in N1 as N1', N2 as N2'. rewrite N1' in H1. rewrite N2' in H2. simplify_eq. by eapply Hone.
    + apply E3 in N1 as N1'. rewrite N1' in H1. simplify_eq. destruct (Hmix o2 o1 r2 r1 v); done.
    + apply E3 in N2 as N2'. rewrite N2' in H2. simplify_eq. destruct (Hmix o1 o2 r1 r2 v); done.
    + by eapply E4.
  - intros o ro Ho No. destruct (E2 o ro Ho No) as (_ & vol & (_ & (k & Hk & Hv) & _) & Hi). exists k, vol.
    split_and!; [done|done|apply Hi..].
Qed.

(** No request shrinks a volume, changes its mount path or gives it to
    another project or service, and none resizes a volume that is attached. *)
Theorem volumes_never_shrink (env : Env) (S : Sorter) (UP : UuidParser) (VIO : VolumeIO) (a : API) (path : string)
    (h : Request -> M (Response VolumeBody)) (r : Request) (w : World) (k : UUID) (vol : ProjectVolume) :
  (path, h) ∈ volume_routes a -> volumes_wf (w_db w) -> db_volumes (w_db w) !! k = Some vol ->
  exists vol', db_volumes (w_db (h r w).2) !! k = Some vol' /\
    vol_ProjectID vol' = vol_ProjectID vol /\ vol_ServiceID vol' = vol_ServiceID vol /\
    vol_MountPath vol' = vol_MountPath vol /\ vol_SizeGb vol <= vol_SizeGb vol' /\
    (vol_DeletedAt vol = None -> vol_Status vol = "attached" -> vol_SizeGb vol' = vol_SizeGb vol).
Proof.
  intros Hin Hwf Hk. destruct (route_effect env S UP VIO a path h r w Hin Hwf) as [->|(p & Hp & E)].
  { exists vol. split_and!; done. }
  destruct (ef_volumes _ _ _ E k) as [->|(vol' & Hv & _ & Hg)]; [exists vol; split_and!; done|].
  exists vol'. destruct (Hg vol Hk). split_and!; done.
Qed.

(** ** Mount paths *)

(** The mount path the API stores is absolute and clean, below the root and
    without empty, [.] or [..] elements, and cleaning it again changes nothing;
    a path is refused only when it is not absolute or cleans to the root. *)
Theorem mount_path_clean (raw : string) :
  match normalizeProjectVolumeMountPath raw with
  | inr p => exists ss, ss <> [] /\ Forall plain_segment ss /\ p = rooted_path ss /\ path_Clean p = p
  | inl _ => TrimSpace raw <> "" /\ (HasPrefix (TrimSpace raw) "/" = false \/ path_Clean (TrimSpace raw) = "/")
  end.
Proof.
  unfold normalizeProjectVolumeMountPath. cbv zeta. set (m := if String.eqb (TrimSpace raw) "" then "/data" else TrimSpace raw).
  assert (HasPrefix m "/" = false \/ path_Clean m = "/" -> TrimSpace raw <> "" /\ m = TrimSpace raw) as Hne.
  { unfold m. destruct (String.eqb_spec (TrimSpace raw) ""); [|done]. intros [H|H]; by vm_compute in H. }
  destruct (bool_dec (HasPrefix m "/") true) as [Hp|Hp%not_true_is_false]; rewrite Hp; cbn [negb].
  - destruct (String.eqb_spec (path_Clean m) "/") as [E|E]; [destruct (Hne (or_intror E)) as [H1 H2]; split; [done|]; rewrite <- H2; by right|].
    destruct (path_Clean_rooted m Hp) as (ss & Hc & Hs & Hb). exists ss. rewrite Hc in E |- *.
    split; [intros ->; by destruct E|]. split; [done|]. split; [done|]. by apply path_Clean_plain.
  - destruct (Hne (or_introl Hp)) as [H1 E]. split; [done|]. rewrite <- E. by left.
Qed.

(** ** Target servers and the start of a move *)

(** An active worker that runs cloud-hypervisor. *)
Definition ch_worker {S : Sorter} (d : Db) (srv : Server) : Prop :=
  (exists k, db_servers d !! k = Some srv) /\ srv_ID srv <> None /\ srv_Status srv = "active" /\
  exists k statuses, srv_ID srv = Some k /\ ServerComponentStatusFindAll 0 d = inr statuses /\
    runtime_by_server statuses !! k = Some "cloud-hypervisor".

Section targets.
Context {env : Env} {S : Sorter} {UP : UuidParser} (d0 : Db).

Abbreviation start := (fun d : Db => d = d0).
Abbreviation answers m Q := (triple start m (fun x d => d = d0 /\ Q x) start).

Lemma answers_reading {A} (m : M A) : runs no_stmt m -> answers m (fun _ => True).
Proof. intros Hm. by apply tr_reading. Qed.

Lemma insert_left_members x prefix : answers (insert_left x prefix) (fun l => forall y, y ∈ l -> y = x \/ y ∈ prefix).
Proof.
  induction prefix as [|z prefix IH]; simpl; [apply tr_ret; intros d Hd; split; [done|]; set_solver|].
  eapply tr_bind; [apply answers_reading; unfold compare_workers; solve_runs|]. intros c. apply tr_and. intros _.
  case_match; [|apply tr_ret; intros d Hd; split; [done|]; set_solver].
  eapply tr_bind; [exact IH|]. intros l. apply tr_and. intros Hl. apply tr_ret. intros d Hd. split; [done|].
  intros y [->|Hy]%elem_of_cons; [set_solver|]. destruct (Hl y Hy); set_solver.
Qed.

Lemma sort_members l : answers (sort_workers l) (fun l' => forall y, y ∈ l' -> y ∈ l).
Proof.
  unfold sort_workers. eapply (tr_bind _ _ _ (fun l' d => d = d0 /\ forall y, y ∈ l' -> y ∈ l)).
  - assert (forall ls acc, (forall y, y ∈ acc \/ y ∈ ls -> y ∈ l) ->
              answers (fold_each (fun prefix x => insert_left x prefix) ls acc) (fun l' => forall y, y ∈ l' -> y ∈ l)) as H.
    { intros ls. induction ls as [|x ls IH]; intros acc Hacc; simpl; [apply tr_ret; intros d Hd; split; [done|]; auto|].
      eapply tr_bind; [apply insert_left_members|]. intros acc'. apply tr_and. intros Ha. apply IH.
      intros y [Hy|Hy]; [destruct (Ha y Hy) as [->|]|]; apply Hacc; set_solver. }
    apply H. intros y [Hy|Hy]; [by apply not_elem_of_nil in Hy|done].
  - intros l'. apply tr_and. intros H. apply tr_ret. intros d Hd. split; [done|]. intros y Hy. apply H. by apply elem_of_reverse.
Qed.

Lemma workers_active : answers activeCloudHypervisorWorkers (fun l => forall srv, srv ∈ l -> ch_worker d0 srv).
Proof.
  unfold activeCloudHypervisorWorkers.
  eapply (tr_bind _ _ _ (fun l d => d = d0 /\ exists t, ServerFindAll t d0 = inr l)); [apply tr_query; [done|]; intros t l d -> H; eauto|].
  intros servers. apply tr_and. intros (t1 & H1).
  eapply (tr_bind _ _ _ (fun l d => d = d0 /\ ServerComponentStatusFindAll 0 d0 = inr l)); [apply tr_query; [done|]; intros t l d -> H; by split|].
  intros statuses. apply tr_and. intros H2. eapply tr_bind; [apply answers_reading; solve_runs|]. intros now. apply tr_and. intros _.
  eapply tr_conseq; [apply sort_members|done| |done]. intros l d [Hd Hl]. split; [done|]. intros srv Hs. apply Hl in Hs.
  apply list_elem_of_In, filter_In in Hs as [Hin Ha]. apply list_elem_of_In in Hin. injection H1 as <-.
  rewrite sort_by_elem in Hin. apply elem_of_rows in Hin as [_ Hk]. unfold active_worker in Ha.
  destruct (srv_ID srv) as [k|] eqn:Ek; [|done]. destruct (srv_LastHeartbeatAt srv); [|done].
  apply andb_true_iff in Ha as [[Hst _]%andb_true_iff Hr]. apply String.eqb_eq in Hst. apply bool_decide_eq_true in Hr.
  split; [done|]. rewrite Ek. split; [done|]. split; [done|]. by exists k, statuses.
Qed.

Lemma choose_member servers id current prefer srv : choose_target servers id current prefer = inr srv -> srv ∈ servers.
Proof.
  unfold choose_target. destruct servers as [|x l]; [done|].
  cbv zeta. set (fallback := match l with [] => x | second :: _ => _ end). assert (fallback ∈ x :: l) as Hf.
  { unfold fallback. destruct l; [set_solver|]. case_match; set_solver. }
  clearbody fallback. intros H. repeat case_match; simplify_eq; try done.
  - by apply list_elem_of_In, (find_some _ _ H2).
  - destruct (List.find _ _) as [y|] eqn:E; simpl; [|done]. by apply list_elem_of_In, (find_some _ _ E).
Qed.

Lemma select_target_worker id current prefer :
  answers (selectProjectVolumeTargetServer id current prefer) (ch_worker d0).
Proof.
  unfold selectProjectVolumeTargetServer. eapply tr_bind; [apply workers_active|]. intros l. apply tr_and. intros Hl.
  destruct (choose_target _ _ _ _) as [e|srv] eqn:E; simpl; [by apply tr_throw|]. apply tr_ret. intros d Hd. split; [done|].
  by apply Hl, (choose_member _ _ _ _ _ E).
Qed.

End targets.

(** The state in which an accepted move leaves the database: the volume pinned
    where it was, and one new operation that the volume operations start from. *)
Definition move_started {S : Sorter} {UP : UuidParser} (d0 d : Db) : Prop :=
  exists v p o t source srv, ch_worker d0 srv /\ srv_ID srv = Some t /\ t <> source /\
    db_volume_operations d0 !! o = None /\
    (vol_ServerID <$> db_volumes d0 !! v) = Some (Some source) /\
    forall snap dir c st, st_disks st !! (source, disk_path dir v) = Some c -> move_ok snap dir v p o t source c d st.

Section moves.
Context {env : Env} {S : Sorter} {UP : UuidParser} {VIO : VolumeIO} (a : API) (r : Request) (d0 : Db) (Hwf : volumes_wf d0).

Abbreviation start := (fun d : Db => d = d0).
Abbreviation post := (fun d : Db => d = d0 \/ move_started d0 d).
Abbreviation hp P m Q := (htr (B := VolumeBody) P m Q (fun _ => post) post).

(** A reading step keeps the facts the relation of all routes gives it. *)
Lemma reading_facts {A} (m : step_of VolumeBody A) Q :
  runs no_stmt m -> htr start m Q (fun _ => api_effect r d0) (api_effect r d0) -> hp start m Q.
Proof.
  intros Hm H w Hw. specialize (H w Hw). pose proof (runs_none m w Hm) as Hd. simpl in *.
  destruct ((m w).1) as [[resp|x]| | |]; try done; left; congruence.
Qed.

Lemma enqueue_move code project vol source t srv p :
  volume_row d0 p project vol -> vol_ServerID vol = Some source -> srv_ID srv = Some t -> t <> source -> ch_worker d0 srv ->
  hp start (enqueue_and_reply a code project vol (Some source) "move"
              (mkVolumeOperationRequest "" "" (uuid_String t) (uuid_String source) "upload" false) "restoring") (fun _ => post).
Proof.
  intros ((_ & (v & Hid & Hv) & (pk & pr & org & Hproj & _)) & _ & _) Hsrc Ht Hne Hw.
  set (created := fun d => exists o, db_volume_operations d0 !! o = None /\ db_volumes d = db_volumes d0 /\
         forall snap dir c st, st_disks st !! (source, disk_path dir v) = Some c -> move_in snap dir v pk o t source c Uploading source any_row d st).
  assert (forall o, db_volume_operations d0 !! o = None -> (forall d,
    (forall snap dir c st, st_disks st !! (source, disk_path dir v) = Some c -> move_in snap dir v pk o t source c Uploading source any_row d st) -> post d))
    as Hpost.
  { intros o Ho d H. right. exists v, pk, o, t, source, srv. split_and!; try done; [by rewrite Hv; simpl; rewrite Hsrc|].
    intros. eapply move_in_ok. by apply H. }
  unfold enqueue_and_reply. eapply (htr_bind _ _ _ (fun _ => post)).
  - apply htr_or_reply. apply (tr_conseq _ start _ _ (fun _ => post) _ post); [|done|done|intros d Hd; split; auto].
    unfold enqueueProjectVolumeOperation.
    eapply (tr_bind _ _ _ (fun _ => start)); [apply tr_reading; [solve_runs|by left|done]|]. intros id.
    eapply (tr_bind _ _ _ (fun _ => created)).
    + apply tr_exec; [by left|]. intros ti x d d' -> H. unfold ProjectVolumeOperationCreate in H.
      apply insert_row_inv in H as (o & [= ->] & Hnone & _ & -> & ->).
      assert (forall snap dir c st, st_disks st !! (source, disk_path dir v) = Some c ->
        move_in snap dir v pk o t source c Uploading source any_row (t_set t_operations (<[o := mkProjectVolumeOperation (Some o) (vol_ID vol) (Some source) "move" "pending"
            (marshal_volume_request (mkVolumeOperationRequest "" "" (uuid_String t) (uuid_String source) "upload" false)) (JObject []) ""
            None None None (Some ti) (Some ti)]> (t_get t_operations d0)) d0) st) as Hm.
      { intros snap dir c st Hst. split.
        - split; [by exists vol|  |done]. intros k r' Hk Hp. eapply (vw_unique d0 Hwf); [exact Hk|exact Hv|exact Hp|exact Hproj].
        - eexists. split; [apply lookup_insert_eq|]. split; [|done]. split_and!; done. }
      split; [by exists o|by eapply Hpost].
    + intros op. eapply (tr_bind _ _ _ (fun _ => post)); [|intros; by apply tr_ret].
      apply tr_exec; [intros d (o & Ho & _ & H); by eapply Hpost|]. intros ti x d d' (o & Ho & Hd & H) HU.
      assert (post d') as Hp'; [|by split]. apply (Hpost o Ho). intros snap dir c st Hst.
      destruct (H snap dir c st Hst) as (Hva & ro & Hro & Hop & _). unfold ProjectVolumeUpdateStatusAndHealth in HU. rewrite Hproj in HU.
      eapply update_volume_at in HU as [Hva' Hops]; [|exact Hva|by intros|exact Hst].
      split; [exact Hva'|]. exists ro. by rewrite Hops.
  - intros op. eapply (htr_m _ _ _ (fun _ => post)); [|intros; by apply htr_next].
    apply tr_reading; [unfold publishProjectVolumeTopics; solve_runs|done|done].
Qed.

Lemma post_move_starts code project vol p :
  volume_row d0 p project vol -> hp start (post_move a code project vol r) (fun _ => post).
Proof.
  intros Hrow. unfold post_move, require_pinned. destruct (vol_ServerID vol) as [source|] eqn:Es; simpl; [|apply htr_reply; by left].
  eapply (htr_bind _ _ _ (fun _ => start)); [by apply htr_next|]. intros _.
  eapply (htr_bind _ _ _ (fun _ => start)); [apply reading_facts, reading_step; unfold require_store; solve_runs|]. intros ?.
  eapply (htr_bind _ _ _ (fun _ => start)); [apply reading_facts, reading_step; unfold decode_body; solve_runs|]. intros target.
  eapply (htr_bind _ _ _ (fun srv d => d = d0 /\ ch_worker d0 srv)).
  - apply htr_or_reply. eapply tr_conseq; [apply (select_target_worker d0)|by intros|by intros|]. intros d Hd. split; [by left|]. intros. by left.
  - intros srv. apply tr_and. intros Hw. destruct (bool_decide (srv_ID srv = Some source)) eqn:E; [apply htr_reply; by left|].
    apply bool_decide_eq_false in E. pose proof Hw as (_ & _ & _ & t & _ & Ht & _). rewrite Ht. eapply enqueue_move; eauto. congruence.
Qed.

Lemma project_move_starts : triple start (postProjectVolumeMove a r) (fun _ => post) post.
Proof.
  apply (tr_handle _ _ (fun _ => post)). unfold postProjectVolumeMove.
  eapply htr_bind; [apply reading_facts, principal_step; unfold mustPrincipal; solve_runs|]. intros p. apply tr_and. intros Hp.
  eapply (htr_bind _ _ _ (fun _ => start)); [apply reading_facts, reading_step; unfold requireOrgAdmin; solve_runs|]. intros ?.
  eapply htr_bind; [apply reading_facts, project_step; unfold projectForRequest, or_reply, hbind, next, reply; solve_runs|].
  intros [project pr]. apply tr_and. intros Ho.
  eapply htr_bind; [apply reading_facts; [|by eapply (ready_step r d0 Hwf p project)]|].
  { unfold projectVolumeReadyForOperation, volume_idle, or_reply, hbind, next, reply. solve_runs. }
  intros vol. apply tr_and. intros [Hrow _]. by eapply post_move_starts.
Qed.

Lemma service_move_starts : triple start (postServiceVolumeMove a r) (fun _ => post) post.
Proof.
  apply (tr_handle _ _ (fun _ => post)). unfold postServiceVolumeMove.
  eapply htr_bind; [apply reading_facts, principal_step; unfold mustPrincipal; solve_runs|]. intros p. apply tr_and. intros Hp.
  eapply (htr_bind _ _ _ (fun _ => start)); [apply reading_facts, reading_step; unfold requireOrgAdmin; solve_runs|]. intros ?.
  unfold serviceVolumeReadyForOperation.
  eapply (htr_bind _ _ _ (fun x d => d = d0 /\ volume_row d0 p (proj_ID (sc_Project x.1)) x.2)).
  - eapply htr_bind; [apply reading_facts; [|by eapply (service_volume_step r d0 Hwf p)]|].
    { unfold serviceVolumeContextForRequest, serviceForRequest, or_reply, hbind, next, reply. solve_runs. }
    intros [ctx vol]. apply tr_and. intros (_ & Hv & _).
    eapply (htr_bind _ _ _ (fun v d => d = d0 /\ volume_row d0 p (proj_ID (sc_Project ctx)) v)).
    + destruct vol as [v|]; simpl; [apply htr_next; auto|apply htr_reply; by left].
    + intros v. apply tr_and. intros Hrow. eapply (htr_bind _ _ _ (fun _ => start)); [|by intros; apply htr_next].
      apply reading_facts, reading_step; unfold volume_idle, next, reply; solve_runs.
  - intros [ctx vol]. apply tr_and. intros Hrow. by eapply post_move_starts.
Qed.

End moves.

(** C10: Asking for a move changes nothing, or enqueues one operation, towards an
    active cloud-hypervisor worker other than the volume's server, from which
    the volume operations carry the data over: the new state is one that every
    later reconciliation keeps safe. *)
Theorem move_request_starts (env : Env) (S : Sorter) (UP : UuidParser) (VIO : VolumeIO) (a : API) (r : Request) (w : World)
    (h : Request -> M (Response VolumeBody)) :
  h ∈ [postProjectVolumeMove a; postServiceVolumeMove a] -> volumes_wf (w_db w) ->
  let d' := w_db (h r w).2 in
  d' = w_db w \/ move_started (w_db w) d'.
Proof.
  intros Hh Hwf d'.
  assert (triple (fun d => d = w_db w) (h r) (fun _ d => d = w_db w \/ move_started (w_db w) d) (fun d => d = w_db w \/ move_started (w_db w) d)) as H.
  { apply elem_of_cons in Hh as [->|[->|[]%not_elem_of_nil]%elem_of_cons]; [by apply project_move_starts|by apply service_move_starts]. }
  specialize (H w eq_refl). unfold d'. by destruct ((h r w).1).
Qed.

(** ** A request *)

Definition api_worker (id : N) : ServerComponentStatus :=
  mkServerComponentStatus (Some id) "worker" "healthy" (Some 1000) (Some 1000) None "" (JObject [("runtime", JString "cloud-hypervisor")])
    (Some 1) (Some 1).

(** The small cluster with two workers and a detached volume on the first. *)
Definition api_db : Db :=
  let d := volume_db (sample_volume "detached" 7)
             (mkProjectVolumeOperation (Some 90%N) (Some 80%N) (Some 30%N) "repair" "succeeded" (JObject []) (JObject []) "" None None None (Some 1) (Some 1)) [] in
  mkDb d.(db_builds) d.(db_deployments) d.(db_instances) d.(db_domains) d.(db_env) d.(db_images) d.(db_migrations) d.(db_previews)
    d.(db_projects) d.(db_volumes)
    {[ 30%N := sample_server 30 "active" 1000; 31%N := sample_server 31 "active" 1000 ]}
    {[ (30%N, "worker") := api_worker 30; (31%N, "worker") := api_worker 31 ]}
    d.(db_services) d.(db_endpoints) d.(db_vms) d.(db_settings) d.(db_ext).

Definition api_world : World := mkWorld api_db 2000 0 None [].
Definition sample_api : API := mkAPI (Some (Some sample_snapshot)) true.

(** The owner of the organization asks to move the volume of project 1. *)
Definition api_move_request : Request :=
  mkRequest (Some (mkPrincipal 5%N "owner@acme.test" false 2%N "owner" 6%N 0%N (Some 2%N)))
    "00000000-0000-0000-0000-000000000001" (Some (JObject [])).

#[local] Existing Instance canonical_uuid.

Definition moved_db : Db := w_db (postProjectVolumeMove sample_api api_move_request api_world).2.

Lemma api_db_wf : volumes_wf api_db.
Proof.
  assert (forall k r, db_volumes api_db !! k = Some r -> k = 80%N /\ r = sample_volume "detached" 7) as Hv.
  { intros k r H. change (db_volumes api_db) with ({[ 80%N := sample_volume "detached" 7 ]} : gmap N ProjectVolume) in H.
    by apply lookup_singleton_Some in H as [<- <-]. }
  split.
  - by intros k r [-> ->]%Hv.
  - intros k1 k2 r1 r2 p [-> _]%Hv [-> _]%Hv. done.
  - intros k r s svc [-> ->]%Hv. intros [= <-] H. vm_compute in H. by injection H as <-.
  - by intros k r [-> ->]%Hv.
  - intros k p H. change (db_projects api_db) with ({[ 1%N := sample_project ]} : gmap N Project) in H.
    by apply lookup_singleton_Some in H as [<- <-].
Qed.

Lemma move_route : ("POST /api/projects/{id}/volume/move", postProjectVolumeMove sample_api) ∈ volume_routes sample_api.
Proof. unfold volume_routes. do 6 apply list_elem_of_further. apply list_elem_of_here. Qed.

(** The request is accepted: one new operation, the volume still on its server. *)
Lemma move_request_accepted :
  bool_decide ((fun x => (vo_Kind x, vo_Status x, vo_ServerID x)) <$> (snd <$> map_to_list (db_volume_operations moved_db))
    = [("repair", "succeeded", Some 30%N); ("move", "pending", Some 30%N)]) = true.
Proof. vm_compute. reflexivity. Qed.

Definition new_operation : ProjectVolumeOperation :=
  default (mkProjectVolumeOperation None None None "" "" (JObject []) (JObject []) "" None None None None None)
    (db_volume_operations moved_db !! 1007%N).

Lemma new_operation_row : db_volume_operations moved_db !! 1007%N = Some new_operation /\ db_volume_operations api_db !! 1007%N = None.
Proof. split; vm_compute; reflexivity. Qed.

Lemma volume_api_isolated_witness :
  exists p vol, rq_principal api_move_request = Some p /\ owned_volume p api_db (vo_ProjectVolumeID new_operation) vol.
Proof.
  destruct (volume_api_isolated sample_env insertion_sorter canonical_uuid sample_io sample_api _ _ api_move_request api_world move_route api_db_wf)
    as (_ & _ & _ & _ & H & _).
  destruct new_operation_row as [H1 H2]. destruct (H 1007%N new_operation H1) as [H3|H3]; [|exact H3].
  change (db_volume_operations api_db !! 1007%N = Some new_operation) in H3. congruence.
Defined.

Lemma api_db_one_active : one_active api_db.
Proof.
  intros o1 o2 r1 r2 v H1 _ A1. change (db_volume_operations api_db) with
    ({[ 90%N := mkProjectVolumeOperation (Some 90%N) (Some 80%N) (Some 30%N) "repair" "succeeded" (JObject []) (JObject []) "" None None None (Some 1) (Some 1) ]}
      : gmap N ProjectVolumeOperation) in H1.
  apply lookup_singleton_Some in H1 as [_ <-]. discriminate A1.
Qed.

Lemma one_operation_at_a_time_witness :
  one_active moved_db /\ exists v vol, vo_ProjectVolumeID new_operation = Some v /\ db_volumes api_db !! v = Some vol /\ vol_Status vol <> "attached".
Proof.
  destruct (one_operation_at_a_time sample_env insertion_sorter canonical_uuid sample_io sample_api _ _ api_move_request api_world move_route api_db_wf
    api_db_one_active) as [H1 H2]. split; [exact H1|].
  destruct new_operation_row as [H3 H4]. destruct (H2 1007%N new_operation H3 H4) as (v & vol & E1 & E2 & E3 & _). exists v, vol.
  split; [exact E1|]. split; [exact E2|exact E3].
Defined.

Lemma volumes_never_shrink_witness :
  exists vol', db_volumes moved_db !! 80%N = Some vol' /\ vol_MountPath vol' = "/data" /\ 5 <= vol_SizeGb vol'.
Proof.
  destruct (volumes_never_shrink sample_env insertion_sorter canonical_uuid sample_io sample_api _ _ api_move_request api_world 80%N
    (sample_volume "detached" 7) move_route api_db_wf) as (vol' & H1 & _ & _ & H2 & H3 & _); [reflexivity|].
  exists vol'. split; [exact H1|]. split; [exact H2|exact H3].
Defined.

Lemma move_request_starts_witness : move_started api_db moved_db.
Proof.
  destruct (move_request_starts sample_env insertion_sorter canonical_uuid sample_io sample_api api_move_request api_world
    (postProjectVolumeMove sample_api) (list_elem_of_here _ _) api_db_wf) as [H|H]; [|exact H].
  destruct new_operation_row as [H1 H2]. change (moved_db = api_db) in H. rewrite H in H1. congruence.
Defined.
