(* ===== verification/GithubActions.v ===== *)
(** * GitHub repositories, runner labels and integrations

    [NormalizeRepo] of internal/githubapi/githubapi.go and
    internal/githubactions/integration.go. *)

From S2P Require Import Prelude NetAddr Text Models Runtime Queries Secrets Json.

(** ** Strings *)

Definition TrimPrefix (s p : string) : string := if HasPrefix s p then str_drop (String.length p) s else s.

Definition str_rev (s : string) : string := str_of_bytes (reverse (str_bytes s)).
Definition TrimSuffix (s p : string) : string := str_rev (TrimPrefix (str_rev s) (str_rev p)).

(** [strings.SplitN(s, "/", 2)[0]]. *)
Fixpoint before_slash (s : string) : string :=
  match s with
  | EmptyString => EmptyString
  | String c s' => if Ascii.eqb c (Ascii.ascii_of_N 47) then EmptyString else String c (before_slash s')
  end.

(** A representative of a rune's folding orbit outside ASCII. *)
Class UnicodeFold := { fold_other : N -> N }.

Section folding.
Context {UF : UnicodeFold}.

(** Two runes outside ASCII fold to a letter: the Kelvin sign and the long s. *)
Definition fold_orbit (r : N) : N :=
  if in_range 65 90 r then (r + 32)%N
  else if (r <? 128)%N then r
  else if (r =? 8490)%N then 107%N
  else if (r =? 383)%N then 115%N
  else fold_other r.

Definition EqualFold (s t : string) : bool := bool_decide (fold_orbit <$> runes s = fold_orbit <$> runes t).

End folding.

(** ** internal/githubapi *)

Definition NormalizeRepo (repo : string) : string :=
  let repo := TrimSpace repo in
  let repo := TrimPrefix repo "https://github.com/" in
  let repo := TrimPrefix repo "http://github.com/" in
  let repo := TrimPrefix repo "github.com/" in
  let repo := TrimSuffix repo ".git" in
  TrimSpace repo.

(** ** Integrations *)

Definition ProviderModeActionsRunner : string := "actions_runner".
Definition LabelSelfHosted : string := "self-hosted".
Definition LabelKindling : string := "kindling".
Definition LabelLinux : string := "linux".
Definition LabelX64 : string := "x64".
Definition LabelARM64 : string := "arm64".
Definition LabelMicroVM : string := "microvm".
Definition LabelLarge : string := "large".

Record ProviderMetadata := mkProviderMetadata {
  pm_Mode : string;
  pm_OrgLogin : string;
  pm_AppID : Z;
  pm_InstallationID : Z;
  pm_RunnerGroupID : Z;
  pm_DefaultLabels : list string
}.

Record ProviderCredentials := mkProviderCredentials {
  pc_AppPrivateKeyPEM : string;
  pc_WebhookSecret : string
}.

Record Integration := mkIntegration {
  in_Connection : OrgProviderConnection;
  in_Metadata : ProviderMetadata;
  in_Credentials : ProviderCredentials
}.

Record RunnerTarget := mkRunnerTarget {
  rt_Labels : list string;
  rt_OS : string;
  rt_Arch : string;
  rt_RequireMicroVM : bool;
  rt_Size : string
}.

Definition int64_payload : payload Z := int_payload min_int64 max_int64.
Definition strings_payload : payload (list string) := slice_payload text_payload "".

(** The struct tags. *)
Definition metadata_payload : payload ProviderMetadata :=
  struct_payload
    [("mode", field pm_Mode (fun v m => mkProviderMetadata v m.(pm_OrgLogin) m.(pm_AppID) m.(pm_InstallationID) m.(pm_RunnerGroupID) m.(pm_DefaultLabels)) text_payload);
     ("org_login", field pm_OrgLogin (fun v m => mkProviderMetadata m.(pm_Mode) v m.(pm_AppID) m.(pm_InstallationID) m.(pm_RunnerGroupID) m.(pm_DefaultLabels)) text_payload);
     ("app_id", field pm_AppID (fun v m => mkProviderMetadata m.(pm_Mode) m.(pm_OrgLogin) v m.(pm_InstallationID) m.(pm_RunnerGroupID) m.(pm_DefaultLabels)) int64_payload);
     ("installation_id", field pm_InstallationID (fun v m => mkProviderMetadata m.(pm_Mode) m.(pm_OrgLogin) m.(pm_AppID) v m.(pm_RunnerGroupID) m.(pm_DefaultLabels)) int64_payload);
     ("runner_group_id", field pm_RunnerGroupID (fun v m => mkProviderMetadata m.(pm_Mode) m.(pm_OrgLogin) m.(pm_AppID) m.(pm_InstallationID) v m.(pm_DefaultLabels)) int64_payload);
     ("default_labels", field pm_DefaultLabels (fun v m => mkProviderMetadata m.(pm_Mode) m.(pm_OrgLogin) m.(pm_AppID) m.(pm_InstallationID) m.(pm_RunnerGroupID) v) strings_payload)].

Definition credentials_payload : payload ProviderCredentials :=
  struct_payload
    [("app_private_key_pem", field pc_AppPrivateKeyPEM (fun v c => mkProviderCredentials v c.(pc_WebhookSecret)) text_payload);
     ("webhook_secret", field pc_WebhookSecret (fun v c => mkProviderCredentials c.(pc_AppPrivateKeyPEM) v) text_payload)].

Section integrations.
Context {U : Unicode}.

(** The first occurrence of every label, trimmed and in lower case. *)
Definition normalizeLabels (labels : list string) : list string :=
  foldl (fun out label =>
    let label := TrimSpace (ToLower label) in
    if String.eqb label "" || existsb (String.eqb label) out then out else out ++ [label]) [] labels.

(** A [jsonb] column is never empty. *)
Definition ParseProviderMetadata (raw : json) : string + ProviderMetadata :=
  match metadata_payload raw (mkProviderMetadata "" "" 0 0 0 []) with
  | (_, false) => inl "parse GitHub Actions metadata"
  | (m, true) =>
      inr (mkProviderMetadata (TrimSpace (ToLower m.(pm_Mode))) (TrimSpace m.(pm_OrgLogin)) m.(pm_AppID) m.(pm_InstallationID)
             m.(pm_RunnerGroupID) (normalizeLabels m.(pm_DefaultLabels)))
  end.

Definition ParseProviderCredentials (raw : list N) : string + ProviderCredentials :=
  let trimmed := TrimSpace (of_bytes raw) in
  if String.eqb trimmed "" then inl "missing GitHub Actions credentials"
  else
    let parsed :=
      if HasPrefix trimmed "{" then unmarshal credentials_payload (mkProviderCredentials "" "") (bytes_of trimmed)
      else Some (mkProviderCredentials trimmed "") in
    match parsed with
    | None => inl "parse GitHub Actions credentials"
    | Some creds =>
        let creds := mkProviderCredentials (TrimSpace creds.(pc_AppPrivateKeyPEM)) (TrimSpace creds.(pc_WebhookSecret)) in
        if String.eqb creds.(pc_AppPrivateKeyPEM) "" then inl "GitHub Actions credentials are missing app_private_key_pem"
        else inr creds
    end.

Definition IntegrationFromConnection (conn : OrgProviderConnection) (decryptedCredentials : list N) : string + Integration :=
  match ParseProviderMetadata conn.(opc_Metadata) with
  | inl e => inl e
  | inr meta =>
      if negb (String.eqb meta.(pm_Mode) ProviderModeActionsRunner)
      then inl "provider connection is not configured for GitHub Actions runners"
      else
        match ParseProviderCredentials decryptedCredentials with
        | inl e => inl e
        | inr creds =>
            if String.eqb (TrimSpace meta.(pm_OrgLogin)) "" then inl "GitHub Actions metadata is missing org_login"
            else if meta.(pm_AppID) <=? 0 then inl "GitHub Actions metadata is missing app_id"
            else if meta.(pm_InstallationID) <=? 0 then inl "GitHub Actions metadata is missing installation_id"
            else inr (mkIntegration conn meta creds)
        end
  end.

Definition ResolveIntegrationForOwner {UF : UnicodeFold} (integrations : list Integration) (owner : string) : option Integration :=
  let owner := TrimSpace (ToLower owner) in
  if String.eqb owner "" then None
  else List.find (fun i => EqualFold (TrimSpace i.(in_Metadata).(pm_OrgLogin)) owner ||
                           EqualFold (TrimSpace i.(in_Connection).(opc_ExternalSlug)) owner) integrations.

(** The labels in order: an unknown one is an error. *)
Fixpoint target_of (labels : list string) (t : RunnerTarget) : string + RunnerTarget :=
  match labels with
  | [] => inr t
  | label :: labels' =>
      if in_list [LabelSelfHosted; LabelKindling; LabelLinux; LabelMicroVM] label then target_of labels' t
      else if String.eqb label LabelX64 || String.eqb label LabelARM64 then
        target_of labels' (mkRunnerTarget t.(rt_Labels) t.(rt_OS) label t.(rt_RequireMicroVM) t.(rt_Size))
      else if String.eqb label LabelLarge then
        target_of labels' (mkRunnerTarget t.(rt_Labels) t.(rt_OS) t.(rt_Arch) t.(rt_RequireMicroVM) LabelLarge)
      else inl ("unsupported Kindling runner label " +:+ go_quote label)
  end.

Definition ResolveRunnerTarget (rawLabels defaultLabels : list string) : string + RunnerTarget :=
  let all := normalizeLabels (defaultLabels ++ rawLabels) in
  match target_of all (mkRunnerTarget all LabelLinux LabelX64 true "") with
  | inl e => inl e
  | inr target =>
      if negb (in_list all LabelSelfHosted) then inl ("GitHub Actions job must include " +:+ go_quote LabelSelfHosted +:+ " label")
      else if negb (in_list all LabelKindling) then inl ("GitHub Actions job must include " +:+ go_quote LabelKindling +:+ " label")
      else if negb (String.eqb target.(rt_OS) LabelLinux) then inl ("unsupported runner operating system " +:+ go_quote target.(rt_OS))
      else inr target
  end.

End integrations.

Example normalize_repo_sample :
  NormalizeRepo <$> [" https://github.com/acme/shop.git "; "github.com/acme/shop"; "acme/shop"] = replicate 3 "acme/shop".
Proof. vm_compute. reflexivity. Qed.
