(* ===== verification/EventQueries.v ===== *)
(** * SQL statements of the webhooks, of CI jobs and of the edge

    The statements of internal/database/queries/queries.sql.go that the GitHub
    webhook, the CI job service and the edge proxy issue. *)

From S2P Require Import Prelude NetAddr Text Models Runtime Queries Json.


(** ** Constraints *)

(** schema.sql, preview_environments: UNIQUE (project_id, provider, pr_number). *)
Definition preview_ok (d : Db) (k : UUID) (r : PreviewEnvironment) : bool :=
  fk_required d.(db_projects) r.(pe_ProjectID) && fk d.(db_services) r.(pe_ServiceID) &&
  String.eqb r.(pe_Provider) "github" && int4 r.(pe_PrNumber) &&
  forallb (fun o => negb (col_eq o.(pe_ProjectID) r.(pe_ProjectID) && String.eqb o.(pe_Provider) r.(pe_Provider) &&
                          (o.(pe_PrNumber) =? r.(pe_PrNumber))))
    (snd <$> map_to_list (delete k d.(db_previews))).

Definition t_previews := mkTable db_previews set_previews preview_ok "preview_environments".

(** schema.sql, ci_jobs, with idx_ci_jobs_github_external_job_unique. *)
Definition ci_job_ok (d : Db) (k : UUID) (r : CiJob) : bool :=
  fk_required d.(db_projects) r.(ci_ProjectID) &&
  in_list ["queued"; "running"; "successful"; "failed"; "canceled"] r.(ci_Status) &&
  in_list ["local_workflow_run"; "github_actions_runner"] r.(ci_Source) &&
  fk (db_connections d) r.(ci_ProviderConnectionID) && fk d.(db_servers) r.(ci_ProcessingBy) &&
  (negb (String.eqb r.(ci_Source) "github_actions_runner") || (r.(ci_ExternalWorkflowJobID) =? 0) ||
   forallb (fun o => negb (String.eqb o.(ci_Source) "github_actions_runner" && (o.(ci_ExternalWorkflowJobID) =? r.(ci_ExternalWorkflowJobID))))
     (snd <$> map_to_list (delete k (db_ci_jobs d)))).

Definition ci_log_ok (d : Db) (k : UUID) (r : CiJobLog) : bool := fk_required (db_ci_jobs d) r.(cil_CiJobID).

Definition t_ci_jobs := mkTable db_ci_jobs set_ci_jobs ci_job_ok "ci_jobs".
Definition t_ci_logs := mkTable db_ci_logs set_ci_logs ci_log_ok "ci_job_logs".

Section statements.
Context {S : Sorter}.

(** No ORDER BY and no unique index: any matching row may come first. *)
Definition any_order {R} (l : list R) : list R := sort_by (fun _ _ => true) l.

Definition ProjectFindByGitHubRepo (repo : string) : reads Project := fun _ d =>
  first_row (any_order (rows (fun r => String.eqb r.(proj_GithubRepository) repo) d.(db_projects))).

Definition DeploymentCreate (id project service build image promoted : pgUUID) (commit branch kind : string) (pe : pgUUID)
    : writes Deployment := fun now d =>
  insert_row t_deployments id
    (mkDeployment id project service build image None promoted commit branch kind pe None false false
       None None None None None (Some now) (Some now)) d.

(** ** preview_environments *)

Definition PreviewEnvironmentByProjectAndPR (project : pgUUID) (provider : string) (pr : Z) : reads PreviewEnvironment := fun _ d =>
  first_row (rows (fun r => col_eq r.(pe_ProjectID) project && String.eqb r.(pe_Provider) provider && (r.(pe_PrNumber) =? pr))
               d.(db_previews)).

Definition PreviewEnvironmentCreate (id project service : pgUUID) (provider : string) (pr : Z) (branch sha stable : string)
    : writes PreviewEnvironment := fun now d =>
  insert_row t_previews id
    (mkPreviewEnvironment id project service provider pr branch sha None stable None None (Some now) (Some now)) d.

Definition PreviewEnvironmentReopen (id : pgUUID) (branch sha : string) : writes PreviewEnvironment := fun now d =>
  returning (update_row t_previews id always
    (fun r => mkPreviewEnvironment r.(pe_ID) r.(pe_ProjectID) r.(pe_ServiceID) r.(pe_Provider) r.(pe_PrNumber) branch sha
                r.(pe_LatestDeploymentID) r.(pe_StableDomainName) None None r.(pe_CreatedAt) (Some now)) d).

Definition PreviewEnvironmentMarkClosed (id : pgUUID) (expires : option Time) : writes PreviewEnvironment := fun now d =>
  returning (update_row t_previews id always
    (fun r => mkPreviewEnvironment r.(pe_ID) r.(pe_ProjectID) r.(pe_ServiceID) r.(pe_Provider) r.(pe_PrNumber) r.(pe_HeadBranch)
                r.(pe_HeadSha) r.(pe_LatestDeploymentID) r.(pe_StableDomainName) (Some now) expires r.(pe_CreatedAt) (Some now)) d).

Definition PreviewEnvironmentSetLatestDeployment (id dep : pgUUID) : writes unit := fun now d =>
  executing (update_row t_previews id always
    (fun r => mkPreviewEnvironment r.(pe_ID) r.(pe_ProjectID) r.(pe_ServiceID) r.(pe_Provider) r.(pe_PrNumber) r.(pe_HeadBranch)
                r.(pe_HeadSha) dep r.(pe_StableDomainName) r.(pe_ClosedAt) r.(pe_ExpiresAt) r.(pe_CreatedAt) (Some now)) d).

(** ** org_provider_connections *)

Definition connection_le (a b : OrgProviderConnection) : bool :=
  if String.eqb a.(opc_Provider) b.(opc_Provider) then String.leb a.(opc_DisplayLabel) b.(opc_DisplayLabel)
  else String.leb a.(opc_Provider) b.(opc_Provider).

Definition OrgProviderConnectionListByOrg (org : pgUUID) : reads (list OrgProviderConnection) := fun _ d =>
  inr (sort_by connection_le (rows (fun r => col_eq r.(opc_OrganizationID) org) (db_connections d))).

(** ** ci_jobs *)

Definition CIJobFirstByExternalWorkflowJobID (id : Z) : reads CiJob := fun _ d =>
  first_row (any_order (rows (fun r => String.eqb r.(ci_Source) "github_actions_runner" && (r.(ci_ExternalWorkflowJobID) =? id))
                          (db_ci_jobs d))).

Definition CIJobFirstByID (id : pgUUID) : reads CiJob := fun _ d => first_row (option_list (row_at (db_ci_jobs d) id)).

(** The parameters of CIJobCreateGitHubRunner. *)
Record RunnerJob := mkRunnerJob {
  rj_Status : string;
  rj_WorkflowName : string;
  rj_WorkflowFile : string;
  rj_SelectedJobID : string;
  rj_EventName : string;
  rj_InputValues : json;
  rj_InputArchivePath : string;
  rj_ProviderConnectionID : pgUUID;
  rj_ExternalRepo : string;
  rj_ExternalInstallationID : Z;
  rj_ExternalWorkflowJobID : Z;
  rj_ExternalWorkflowRunID : Z;
  rj_ExternalRunAttempt : Z;
  rj_ExternalHtmlUrl : string;
  rj_RunnerLabels : json;
  rj_RunnerName : string;
  rj_RequireMicrovm : bool;
  rj_WorkspaceDir : string;
  rj_ErrorMessage : string
}.

Definition CIJobCreateGitHubRunner (id project : pgUUID) (j : RunnerJob) : writes CiJob := fun now d =>
  insert_row t_ci_jobs id
    (mkCiJob id project j.(rj_Status) "github_actions_runner" j.(rj_WorkflowName) j.(rj_WorkflowFile) j.(rj_SelectedJobID)
       j.(rj_EventName) j.(rj_InputValues) j.(rj_InputArchivePath) j.(rj_ProviderConnectionID) j.(rj_ExternalRepo)
       j.(rj_ExternalInstallationID) j.(rj_ExternalWorkflowJobID) j.(rj_ExternalWorkflowRunID) j.(rj_ExternalRunAttempt)
       j.(rj_ExternalHtmlUrl) j.(rj_RunnerLabels) j.(rj_RunnerName) j.(rj_RequireMicrovm) "" j.(rj_WorkspaceDir) None None
       j.(rj_ErrorMessage) None None None (Some now) (Some now)) d.

Definition CIJobMarkRunning (id : pgUUID) (workspace backend : string) : writes unit := fun now d =>
  executing (update_row t_ci_jobs id always
    (fun r => set_ci_UpdatedAt (Some now) (set_ci_StartedAt (Some now) (set_ci_ExecutionBackend backend
                (set_ci_WorkspaceDir workspace (set_ci_Status "running" r))))) d).

Definition CIJobMarkSuccessful (id : pgUUID) (code : option Z) : writes unit := fun now d =>
  executing (update_row t_ci_jobs id always
    (fun r => set_ci_UpdatedAt (Some now) (set_ci_FinishedAt (Some now) (set_ci_ExitCode code (set_ci_Status "successful" r)))) d).

Definition CIJobMarkFailed (id : pgUUID) (code : option Z) (message : string) : writes unit := fun now d =>
  executing (update_row t_ci_jobs id always
    (fun r => set_ci_UpdatedAt (Some now) (set_ci_FinishedAt (Some now) (set_ci_ErrorMessage message
                (set_ci_ExitCode code (set_ci_Status "failed" r))))) d).

Definition CIJobMarkCanceled (id : pgUUID) : writes unit := fun now d =>
  executing (update_row t_ci_jobs id always
    (fun r => set_ci_UpdatedAt (Some now) (set_ci_FinishedAt (Some now) (set_ci_CanceledAt (Some now) (set_ci_Status "canceled" r)))) d).

Definition CIJobLogCreate (id job : pgUUID) (message level : string) : writes unit := fun now d =>
  match insert_row t_ci_logs id (mkCiJobLog id job message level (Some now)) d with
  | inl e => inl e
  | inr (_, d') => inr (tt, d')
  end.

End statements.

(** * Statements on CI jobs

    The lease of ci_jobs and the rows of ci_job_artifacts, from
    internal/database/queries/queries.sql.go; creation, marks and logs are with
    the statements of the webhook. *)

(** schema.sql, ci_job_artifacts. *)
Definition ci_artifact_ok (d : Db) (k : UUID) (r : CiJobArtifact) : bool := fk_required (db_ci_jobs d) r.(cia_CiJobID).
Definition t_ci_artifacts := mkTable db_ci_artifacts set_ci_artifacts ci_artifact_ok "ci_job_artifacts".

(** A queued job, free or already leased to the same server. *)
Definition lease_free (server : pgUUID) (r : CiJob) : bool :=
  String.eqb r.(ci_Status) "queued" && (negb (not_null r.(ci_ProcessingBy)) || col_eq r.(ci_ProcessingBy) server).

Definition CIJobClaimLease (id server : pgUUID) : writes CiJob := fun now d =>
  returning (update_row t_ci_jobs id (lease_free server)
    (fun r => set_ci_UpdatedAt (Some now) (set_ci_ProcessingBy server r)) d).

Definition CIJobReleaseLease (id server : pgUUID) : writes unit := fun now d =>
  executing (update_row t_ci_jobs id (fun r => col_eq r.(ci_ProcessingBy) server)
    (fun r => set_ci_UpdatedAt (Some now) (set_ci_ProcessingBy None r)) d).

Definition CIJobArtifactDeleteByJobID (job : pgUUID) : writes unit := fun _ d =>
  inr (tt, set_ci_artifacts (filter (fun '(_, r) => col_eq r.(cia_CiJobID) job = false) (db_ci_artifacts d)) d).

Definition CIJobArtifactCreate (id job : pgUUID) (name path : string) : writes unit := fun now d =>
  match insert_row t_ci_artifacts id (mkCiJobArtifact id job name path (Some now)) d with
  | inl e => inl e
  | inr (_, d') => inr (tt, d')
  end.

(** * Statements of the edge proxy

    The routes of verified domains and the marks of requests and wake-ups, from
    internal/database/queries/queries.sql.go. *)

(** Only columns without constraints are written. *)
Definition t_projects := mkTable db_projects set_projects (fun _ _ _ => true) "projects".

(** ** Marks *)

Definition DeploymentPreviewClearScaledToZero (id : pgUUID) : writes unit := fun now d =>
  executing (update_row t_deployments id always (fun r => set_dep_UpdatedAt (Some now) (set_dep_PreviewScaledToZero false r)) d).

Definition ProjectClearScaledToZero (id : pgUUID) : writes unit := fun now d =>
  executing (update_row t_projects id always (fun r => set_proj_UpdatedAt (Some now) (set_proj_ScaledToZero false r)) d).

Definition DeploymentRequestWake (id : pgUUID) : writes Deployment := fun now d =>
  returning (update_row t_deployments id dep_live
    (fun r => set_dep_UpdatedAt (Some now) (set_dep_WakeRequestedAt (Some (default now r.(dep_WakeRequestedAt))) r)) d).

Definition DeploymentPreviewUpdateLastRequestAt (id : pgUUID) : writes unit := fun now d =>
  executing (update_row t_deployments id (fun r => String.eqb r.(dep_DeploymentKind) "preview")
    (fun r => set_dep_UpdatedAt (Some now) (set_dep_PreviewLastRequestAt (Some now) r)) d).

Definition ProjectUpdateLastRequestAt (id : pgUUID) : writes unit := fun now d =>
  executing (update_row t_projects id always (fun r => set_proj_UpdatedAt (Some now) (set_proj_LastRequestAt (Some now) r)) d).

(** ** Routes *)

(** The VM joined to a running active instance: alive and running. *)
Definition running_vm (d : Db) (i : DeploymentInstance) : option Vm :=
  match row_at d.(db_vms) i.(inst_VmID) with
  | Some v => if is_null v.(vm_DeletedAt) && String.eqb v.(vm_Status) "running" then Some v else None
  | None => None
  end.

Definition instance_running (i : DeploymentInstance) : bool :=
  is_null i.(inst_DeletedAt) && String.eqb i.(inst_Role) "active" && String.eqb i.(inst_Status) "running".

Definition running_instances (d : Db) (dep : pgUUID) : list DeploymentInstance :=
  rows (fun i => col_eq i.(inst_DeploymentID) dep && instance_running i) d.(db_instances).

Record RouteFindActiveRow := mkRouteRow {
  rr_DomainName : string;
  rr_ProjectID : pgUUID;
  rr_DeploymentID : pgUUID;
  rr_RedirectTo : option string;
  rr_RedirectStatusCode : option Z;
  rr_DeploymentKind : string;
  rr_VmIp : option Addr;
  rr_VmPort : option Z;
  rr_ServerID : pgUUID;
  rr_VmID : pgUUID
}.

Definition route_row (dom : Domain) (kind : string) (v : option Vm) : RouteFindActiveRow :=
  mkRouteRow dom.(dom_DomainName) dom.(dom_ProjectID) dom.(dom_DeploymentID) dom.(dom_RedirectTo) dom.(dom_RedirectStatusCode) kind
    (vm_IpAddress <$> v) (v ≫= vm_Port) (v ≫= vm_ServerID) (v ≫= vm_ID).

(** The LEFT JOINs of one domain: a row per running instance of its live
    deployment, or one row without. *)
Definition domain_routes (d : Db) (dom : Domain) : list RouteFindActiveRow :=
  match row_at d.(db_deployments) dom.(dom_DeploymentID) with
  | Some dep =>
      match (if dep_live dep then running_instances d dep.(dep_ID) else []) with
      | [] => [route_row dom dep.(dep_DeploymentKind) None]
      | instances => (fun i => route_row dom dep.(dep_DeploymentKind) (running_vm d i)) <$> instances
      end
  | None => [route_row dom "production" None]
  end.

Section statements.
Context {S : Sorter}.

Definition RouteFindActive : reads (list RouteFindActiveRow) := fun _ d =>
  inr (any_order (rows (fun r => not_null r.(dom_VerifiedAt)) d.(db_domains) ≫= domain_routes d)).

Record DomainEdgeLookupRow := mkDomainEdgeLookupRow {
  el_DomainID : pgUUID;
  el_ProjectID : pgUUID;
  el_DeploymentID : pgUUID;
  el_DomainKind : string;
  el_RedirectTo : option string;
  el_RedirectStatusCode : option Z;
  el_DeploymentWakeRequestedAt : option Time;
  el_DeploymentKind : option string;
  el_PreviewClosedAt : option Time;
  el_RunningBackendCount : Z
}.

Definition edge_lookup_row (d : Db) (dom : Domain) : DomainEdgeLookupRow :=
  let dep := match row_at d.(db_deployments) dom.(dom_DeploymentID) with
             | Some dep => if is_null dep.(dep_DeletedAt) then Some dep else None
             | None => None
             end in
  mkDomainEdgeLookupRow dom.(dom_ID) dom.(dom_ProjectID) dom.(dom_DeploymentID) dom.(dom_DomainKind) dom.(dom_RedirectTo)
    dom.(dom_RedirectStatusCode) (dep ≫= dep_WakeRequestedAt) (dep_DeploymentKind <$> dep)
    (row_at d.(db_previews) dom.(dom_PreviewEnvironmentID) ≫= pe_ClosedAt)
    (Z.of_nat (length (omap (running_vm d) (running_instances d dom.(dom_DeploymentID))))).

Definition DomainEdgeLookup (name : string) : reads DomainEdgeLookupRow := fun _ d =>
  match first_row (rows (fun r => String.eqb r.(dom_DomainName) name && not_null r.(dom_VerifiedAt)) d.(db_domains)) with
  | inl e => inl e
  | inr dom => inr (edge_lookup_row d dom)
  end.

Definition DomainVerified (name : string) : reads (option Time) := fun _ d =>
  match first_row (rows (fun r => String.eqb r.(dom_DomainName) name) d.(db_domains)) with
  | inl e => inl e
  | inr dom => inr dom.(dom_VerifiedAt)
  end.

End statements.
