(* ===== verification/WorkerDns.v ===== *)
(** * Private names of the workers

    internal/workerdns/resolver.go and server.go, internal/shared/netnames: the
    names NAME.SERVICE.PROJECT.ENVIRONMENT.ORGANIZATION.kindling.internal, who
    asks, and which addresses they get.  The messages of the DNS library are
    kept as far as the code reads and writes them; its [Fqdn], the exchange with
    an upstream resolver, LOWER of the database and the Unicode tables outside
    ASCII are parameters. *)

From S2P Require Import Prelude NetAddr Text Models Runtime Effects Queries Json GithubActions EventQueries.

(** ** Names (internal/shared/netnames) *)

(** [unicode.IsLetter] and [unicode.IsDigit] outside ASCII. *)
Class UnicodeLetters := { other_letter : N -> bool; other_digit : N -> bool }.

Definition rune_IsSpace (r : N) : bool :=
  in_range 9 13 r || (r =? 32)%N || (r =? 133)%N || (r =? 160)%N || (r =? 5760)%N || in_range 8192 8202 r ||
  (r =? 8232)%N || (r =? 8233)%N || (r =? 8239)%N || (r =? 8287)%N || (r =? 12288)%N.

Section labels.
Context {U : Unicode} {L : UnicodeLetters}.

Definition IsLetter (r : N) : bool := if (r <? 128)%N then is_alpha r else other_letter r.
Definition IsDigit (r : N) : bool := if (r <? 128)%N then in_range 48 57 r else other_digit r.

(** The loop of [NormalizeLabel]: the bytes written and [lastHyphen]. *)
Definition label_step (st : list N * bool) (r : N) : list N * bool :=
  let '(b, lastHyphen) := st in
  if IsLetter r || IsDigit r then (b ++ encode_rune r, false)
  else if (r =? 45)%N || (r =? 95)%N || rune_IsSpace r then
    if (length b =? 0)%nat || lastHyphen then st else (b ++ [45%N], true)
  else st.

Definition NormalizeLabel (raw : string) : string :=
  of_bytes (trim 45%N (foldl label_step ([], false) (runes (TrimSpace (ToLower raw)))).1).

Definition PrivateDNSName (endpoint service project env org : string) : string :=
  let parts := [NormalizeLabel endpoint; NormalizeLabel service; NormalizeLabel project; NormalizeLabel env; NormalizeLabel org; "kindling"; "internal"] in
  String.concat "." (List.filter (fun p => negb (String.eqb p "")) parts).

End labels.

(** ** Statements *)

Definition addr_le (a b : Addr) : bool :=
  match a, b with
  | AddrZero, _ => true
  | _, AddrZero => false
  | Addr4 x, Addr4 y => (x <=? y)%N
  | Addr4 _, Addr6 _ _ => true
  | Addr6 _ _, Addr4 _ => false
  | Addr6 x _, Addr6 y _ => (x <=? y)%N
  end.

(** LOWER of the database, by its collation. *)
Class SqlText := { sql_lower : string -> string }.

Section statements.
Context {S : Sorter} {Q : SqlText}.

Definition VMFindByIPAddress (ip : Addr) : reads Vm := fun _ d =>
  first_row (sort_by (fun a b => time_le b.(vm_CreatedAt) a.(vm_CreatedAt))
    (rows (fun r => bool_decide (r.(vm_IpAddress) = ip) && is_null r.(vm_DeletedAt)) d.(db_vms))).

Definition DeploymentFindByVMID (vm : pgUUID) : reads Deployment := fun _ d =>
  first_row (any_order (omap (fun i =>
    match row_at d.(db_deployments) i.(inst_DeploymentID) with
    | Some dep => if is_null dep.(dep_DeletedAt) then Some dep else None
    | None => None
    end) (rows (fun i => col_eq i.(inst_VmID) vm && is_null i.(inst_DeletedAt)) d.(db_instances)))).

Definition OrganizationByID (id : pgUUID) : reads Organization := fun _ d =>
  first_row (option_list (row_at (db_organizations d) id)).

Record ServiceEndpointDNSLookupCandidatesRow := mkDNSCandidate {
  dc_Endpoint : ServiceEndpoint;
  dc_ServiceID : pgUUID;
  dc_ServiceSlug : string;
  dc_ProjectID : pgUUID;
  dc_ProjectName : string;
  dc_OrganizationID : pgUUID;
  dc_OrganizationSlug : string;
  dc_order : option Time * option Time * option Time
}.

(** One endpoint joined to its service, project and organization. *)
Definition dns_candidate (d : Db) (service org : string) (se : ServiceEndpoint) : option ServiceEndpointDNSLookupCandidatesRow :=
  s ← row_at d.(db_services) se.(sep_ServiceID);
  p ← row_at d.(db_projects) s.(svc_ProjectID);
  o ← row_at (db_organizations d) p.(proj_OrgID);
  if String.eqb s.(svc_Slug) service && String.eqb o.(org_Slug) org then
    Some (mkDNSCandidate se s.(svc_ID) s.(svc_Slug) p.(proj_ID) p.(proj_Name) o.(org_ID) o.(org_Slug)
            (p.(proj_CreatedAt), s.(svc_CreatedAt), se.(sep_CreatedAt)))
  else None.

(** ORDER BY of three times. *)
Definition time_lt (a b : option Time) : bool := time_le a b && negb (time_le b a).
Definition times_le (a b : option Time * option Time * option Time) : bool :=
  let '(a1, a2, a3) := a in let '(b1, b2, b3) := b in
  time_lt a1 b1 || (time_le a1 b1 && (time_lt a2 b2 || (time_le a2 b2 && time_le a3 b3))).

Definition ServiceEndpointDNSLookupCandidates (endpoint service org : string) : reads (list ServiceEndpointDNSLookupCandidatesRow) := fun _ d =>
  inr (sort_by (fun a b => times_le a.(dc_order) b.(dc_order))
    (omap (dns_candidate d service org) (rows (fun se => String.eqb (sql_lower se.(sep_Name)) (sql_lower endpoint)) d.(db_endpoints)))).

Definition PreviewEnvironmentsByProjectAndPRNumber (project : pgUUID) (pr : Z) : reads (list PreviewEnvironment) := fun _ d =>
  inr (sort_by (fun a b => time_le b.(pe_UpdatedAt) a.(pe_UpdatedAt))
    (rows (fun r => col_eq r.(pe_ProjectID) project && (r.(pe_PrNumber) =? pr)) d.(db_previews))).

Definition DeploymentLatestRunningPreviewByServiceAndPreviewEnvironmentID (service pe : pgUUID) : reads Deployment := fun _ d =>
  first_row (sort_by (fun a b => time_le b.(dep_RunningAt) a.(dep_RunningAt))
    (rows (fun r => col_eq r.(dep_ServiceID) service && col_eq r.(dep_PreviewEnvironmentID) pe &&
                    String.eqb r.(dep_DeploymentKind) "preview" && not_null r.(dep_RunningAt) && dep_live r) d.(db_deployments))).

Definition DeploymentRunningBackendIPs (dep : pgUUID) : reads (list Addr) := fun _ d =>
  inr (sort_by addr_le (remove_dups (vm_IpAddress <$> omap (running_vm d) (running_instances d dep)))).

End statements.

(** ** The resolver (resolver.go) *)

Definition privateDomainSuffix : string := "kindling.internal.".
Definition answerTTLSeconds : Z := 5.

Inductive Rcode := RcodeSuccess | RcodeFormatError | RcodeServerFailure | RcodeNameError | RcodeRefused.
Inductive Qtype := TypeA | TypeANY | TypeAAAA | TypeOther (code : N).

(** An A record of the class IN. *)
Record DnsA := mkDnsA { a_Name : string; a_Ttl : Z; a_A : Addr }.

Record Resolution := mkResolution { res_Handled : bool; res_Rcode : Rcode; res_Answers : list DnsA }.

Record callerIdentity := mkCaller {
  ca_OrganizationID : UUID;
  ca_ProjectID : UUID;
  ca_EnvSlug : string;
  ca_PreviewEnvironmentID : UUID;
  ca_HasPreviewEnvironment : bool
}.

Record endpointCandidate := mkCandidate {
  cd_ServiceID : UUID;
  cd_ProjectID : UUID;
  cd_OrganizationID : UUID;
  cd_ProjectName : string
}.

Record internalName := mkInternalName {
  in_Endpoint : string;
  in_Service : string;
  in_Project : string;
  in_Environment : string;
  in_Organization : string
}.

Definition no_name : internalName := mkInternalName "" "" "" "" "".

Definition HasSuffix (s p : string) : bool := HasPrefix (str_rev s) (str_rev p).

(** [strings.Split(s, ".")]. *)
Fixpoint split_dots (l : list Ascii.ascii) : list (list Ascii.ascii) :=
  match l with
  | [] => [[]]
  | c :: l' =>
      if byte_is 46 c then [] :: split_dots l'
      else match split_dots l' with p :: ps => (c :: p) :: ps | [] => [[c]] end
  end.
Definition Split_dot (s : string) : list string := str_of_bytes <$> split_dots (str_bytes s).

Definition Is4 (a : Addr) : bool := match a with Addr4 _ => true | _ => false end.

(** [dns.Fqdn] of the DNS library. *)
Class DnsLibrary := { Fqdn : string -> string }.

Section resolver.
Context {env : Env} {S : Sorter} {U : Unicode} {UF : UnicodeFold} {L : UnicodeLetters} {Q : SqlText} {D : DnsLibrary}.

(** [None]: not a private name.  A private name of another shape has no parts. *)
Definition parseInternalName (qname : string) : option internalName :=
  let fqdn := Fqdn (TrimSpace (ToLower qname)) in
  if negb (HasSuffix fqdn privateDomainSuffix) then None
  else
    match Split_dot (TrimSuffix fqdn ".") with
    | [p0; p1; p2; p3; p4; _; _] =>
        if existsb (fun p => String.eqb (TrimSpace p) "") [p0; p1; p2; p3; p4] then Some no_name
        else Some (mkInternalName p0 p1 p2 p3 p4)
    | _ => Some no_name
    end.

(** The only candidate of the project's name. *)
Definition selectEndpointCandidate (candidates : list endpointCandidate) (normalizedProject : string) : option endpointCandidate :=
  match List.filter (fun c => String.eqb (NormalizeLabel c.(cd_ProjectName)) normalizedProject) candidates with
  | [c] => Some c
  | _ => None
  end.

Definition parsePreviewEnvSlug (envSlug : string) : option Z :=
  if negb (HasPrefix envSlug "pr-") then None
  else
    let raw := TrimPrefix envSlug "pr-" in
    if String.eqb raw "" then None
    else match Atoi raw with Some n => if n <=? 0 then None else Some (wrap32 n) | None => None end.

Definition answersForIPv4 (qname : string) (ips : list Addr) : list DnsA :=
  let name := Fqdn (TrimSpace qname) in
  (fun ip => mkDnsA name answerTTLSeconds ip) <$> List.filter Is4 ips.

(** [nil, false, nil] on no rows. *)
Definition or_none {A} (m : M A) : M (option A) :=
  let! r := attempt m in
  match r with
  | inr a => ret (Some a)
  | inl e => if is_no_rows e then ret None else throw e
  end.

Definition LookupCallerByIP (ip : Addr) : M (option callerIdentity) :=
  let! vm := or_none (query (VMFindByIPAddress ip)) in
  match vm with
  | None => ret None
  | Some vm =>
      let! dep := or_none (query (DeploymentFindByVMID (ToPgtype (FromPgtype vm.(vm_ID))))) in
      match dep with
      | None => ret None
      | Some dep =>
          let! project := query (ProjectFirstByID dep.(dep_ProjectID)) in
          let! org := query (OrganizationByID project.(proj_OrgID)) in
          let orgID := FromPgtype org.(org_ID) in
          let projectID := FromPgtype project.(proj_ID) in
          if EqualFold dep.(dep_DeploymentKind) "preview" then
            if is_null dep.(dep_PreviewEnvironmentID) then ret None
            else
              let! pe := query (PreviewEnvironmentByID dep.(dep_PreviewEnvironmentID)) in
              ret (Some (mkCaller orgID projectID
                (if 0 <? pe.(pe_PrNumber) then "pr-" +:+ pretty pe.(pe_PrNumber) else "preview") (FromPgtype pe.(pe_ID)) true))
          else ret (Some (mkCaller orgID projectID "prod" uuid_Nil false))
      end
  end.

Definition LookupEndpointCandidates (endpoint service org : string) : M (list endpointCandidate) :=
  let! rows := query (ServiceEndpointDNSLookupCandidates endpoint service org) in
  ret ((fun r => mkCandidate (FromPgtype r.(dc_ServiceID)) (FromPgtype r.(dc_ProjectID)) (FromPgtype r.(dc_OrganizationID)) r.(dc_ProjectName)) <$> rows).

Definition LookupPreviewEnvironmentsByProjectAndPR (projectID : UUID) (pr : Z) : M (list UUID) :=
  let! rows := query (PreviewEnvironmentsByProjectAndPRNumber (ToPgtype projectID) pr) in
  ret ((fun r => FromPgtype r.(pe_ID)) <$> rows).

Definition deployment_id (m : M Deployment) : M (option UUID) :=
  let! dep := or_none m in
  ret ((fun d => FromPgtype d.(dep_ID)) <$> dep).

Definition LookupLatestRunningProductionDeployment (serviceID : UUID) : M (option UUID) :=
  deployment_id (query (DeploymentLatestRunningByServiceID (ToPgtype serviceID))).

Definition LookupLatestRunningPreviewDeployment (serviceID pe : UUID) : M (option UUID) :=
  deployment_id (query (DeploymentLatestRunningPreviewByServiceAndPreviewEnvironmentID (ToPgtype serviceID) (ToPgtype pe))).

Definition resolveDeployment (caller : callerIdentity) (candidate : endpointCandidate) (envSlug : string) : M (option UUID) :=
  if String.eqb envSlug "prod" then LookupLatestRunningProductionDeployment candidate.(cd_ServiceID)
  else
    match parsePreviewEnvSlug envSlug with
    | None => ret None
    | Some pr =>
        if negb caller.(ca_HasPreviewEnvironment) then ret None
        else
          let! envs := wrap "lookup preview environments" (LookupPreviewEnvironmentsByProjectAndPR candidate.(cd_ProjectID) pr) in
          let id := if existsb (fun e => (e =? caller.(ca_PreviewEnvironmentID))%N) envs then caller.(ca_PreviewEnvironmentID) else uuid_Nil in
          if (id =? uuid_Nil)%N then ret None
          else LookupLatestRunningPreviewDeployment candidate.(cd_ServiceID) id
    end.

Definition handled (code : Rcode) (answers : list DnsA) : Resolution := mkResolution true code answers.

Definition Resolve (sourceIP : Addr) (qname : string) (qtype : Qtype) : M Resolution :=
  match parseInternalName qname with
  | None => ret (mkResolution false RcodeSuccess [])
  | Some target =>
      let! caller := wrap "lookup caller" (LookupCallerByIP sourceIP) in
      match caller with
      | None => ret (handled RcodeNameError [])
      | Some caller =>
          let! candidates := wrap "lookup endpoint candidates"
            (LookupEndpointCandidates target.(in_Endpoint) target.(in_Service) target.(in_Organization)) in
          match selectEndpointCandidate candidates target.(in_Project) with
          | None => ret (handled RcodeNameError [])
          | Some candidate =>
              if negb (caller.(ca_OrganizationID) =? candidate.(cd_OrganizationID))%N then ret (handled RcodeNameError [])
              else if negb (String.eqb caller.(ca_EnvSlug) target.(in_Environment)) then ret (handled RcodeNameError [])
              else
                let! dep := resolveDeployment caller candidate target.(in_Environment) in
                match dep with
                | None => ret (handled RcodeServerFailure [])
                | Some dep =>
                    let! ips := wrap "lookup backend ips" (query (DeploymentRunningBackendIPs (ToPgtype dep))) in
                    if (length ips =? 0)%nat then ret (handled RcodeServerFailure [])
                    else
                      match qtype with
                      | TypeA | TypeANY =>
                          let answers := answersForIPv4 qname ips in
                          if (length answers =? 0)%nat then ret (handled RcodeServerFailure []) else ret (handled RcodeSuccess answers)
                      | _ => ret (handled RcodeSuccess [])
                      end
                end
          end
      end
  end.

End resolver.

(** ** The server (server.go) *)

(** A [net.Addr]: the bytes of an IP, or another address by its string. *)
Inductive RemoteAddr :=
  | UDPAddr (ip : list N)
  | TCPAddr (ip : list N)
  | OtherAddr (text : string).

Definition be_number (l : list N) : N := foldl (fun acc b => acc * 256 + b)%N 0%N l.

(** [netip.AddrFromSlice] and [Addr.Unmap]. *)
Definition AddrFromSlice (l : list N) : option Addr :=
  match length l with
  | 4%nat => Some (Addr4 (be_number l))
  | 16%nat => Some (Addr6 (be_number l) "")
  | _ => None
  end.

Definition Unmap (a : Addr) : Addr :=
  match a with
  | Addr6 ip zone => if (ip / 2 ^ 32 =? 65535)%N then Addr4 (ip mod 2 ^ 32) else a
  | _ => a
  end.

Definition remoteAddrIP (addr : RemoteAddr) : option Addr :=
  match addr with
  | UDPAddr ip | TCPAddr ip => Unmap <$> AddrFromSlice ip
  | OtherAddr text =>
      match SplitHostPort text with
      | Some (host, _) => Unmap <$> ParseAddr host
      | None => None
      end
  end.

Definition networkForRemoteAddr (addr : RemoteAddr) : string := match addr with TCPAddr _ => "tcp" | _ => "udp" end.

(** [netip.Prefix.Contains] of a valid prefix. *)
Definition prefix_contains (p : Addr * N) (a : Addr) : bool :=
  match p, a with
  | (Addr4 x, bits), Addr4 y => (N.shiftr (N.lxor x y) (32 - bits) =? 0)%N
  | (Addr6 x _, bits), Addr6 y zone => String.eqb zone "" && (N.shiftr (N.lxor x y) (128 - bits) =? 0)%N
  | _, _ => false
  end.

Definition normalizeUpstreams (raw : list string) : list string :=
  let raw := match raw with [] => ["1.1.1.1:53"; "8.8.8.8:53"] | _ => raw end in
  omap (fun u =>
    let u := TrimSpace u in
    if String.eqb u "" then None
    else Some (match SplitHostPort u with Some _ => u | None => JoinHostPort u "53" end)) raw.

(** The configuration of [NewServer]; [None] is the zero prefix. *)
Record DnsConfig := mkDnsConfig {
  dns_AllowedClientPrefix : option (Addr * N);
  dns_Upstreams : list string
}.

(** The answer to a client: a reply of this server, or the upstream's message
    with the request's id. *)
Inductive DnsReply (Msg : Type) :=
  | DnsRefusal (code : Rcode)
  | DnsAuthoritative (code : Rcode) (answers : list DnsA)
  | DnsForwarded (id : N) (m : Msg).
Arguments DnsRefusal {Msg}.
Arguments DnsAuthoritative {Msg}.
Arguments DnsForwarded {Msg}.

Section server.
Context {env : Env} {S : Sorter} {U : Unicode} {UF : UnicodeFold} {L : UnicodeLetters} {Q : SqlText} {D : DnsLibrary}.
(** The exchange with an upstream over a network, a message or an error. *)
Context {Msg : Type} (exchange : nat -> string -> string -> option Msg).

Definition call_upstream (network upstream : string) : M (option Msg) := fun w => (Ret (exchange w.(w_step) network upstream), tick w).

(** The loop over the upstreams. *)
Fixpoint forward (network : string) (upstreams : list string) : M (option Msg) :=
  match upstreams with
  | [] => ret None
  | u :: us =>
      let! r := call_upstream network u in
      match r with Some m => ret (Some m) | None => forward network us end
  end.

Definition ServeDNS (cfg : DnsConfig) (from : RemoteAddr) (id : N) (questions : list (string * Qtype)) : M (DnsReply Msg) :=
  match remoteAddrIP from with
  | None => ret (DnsRefusal RcodeRefused)
  | Some sourceIP =>
      if match cfg.(dns_AllowedClientPrefix) with Some p => negb (prefix_contains p sourceIP) | None => false end then ret (DnsRefusal RcodeRefused)
      else
        match questions with
        | [] => ret (DnsRefusal RcodeFormatError)
        | (name, qtype) :: _ =>
            let! r := attempt (Resolve sourceIP name qtype) in
            match r with
            | inl _ => ret (DnsRefusal RcodeServerFailure)
            | inr resolution =>
                if resolution.(res_Handled) then ret (DnsAuthoritative resolution.(res_Rcode) resolution.(res_Answers))
                else
                  let! resp := forward (networkForRemoteAddr from) (normalizeUpstreams cfg.(dns_Upstreams)) in
                  match resp with
                  | Some m => ret (DnsForwarded id m)
                  | None => ret (DnsRefusal RcodeServerFailure)
                  end
            end
        end
  end.

End server.
