(* ===== verification/DnsNames.v ===== *)
(** * Private names are read back

    [PrivateDNSName] of internal/shared/netnames makes the names that
    [parseInternalName] of the worker DNS takes apart: the labels of ASCII names
    survive the round. *)

From S2P Require Import Prelude NetAddr Text Codecs Secrets SecretsProofs NameProofs Json GithubActions Runtime Effects Queries WorkerDns.

(** ** ASCII *)

Definition ascii (s : string) : Prop := Forall (fun b => b < 128)%N (bytes_of s).

Lemma str_of_str_bytes s : str_of_bytes (str_bytes s) = s.
Proof. apply String.string_of_list_ascii_of_string. Qed.
Lemma str_bytes_of l : str_bytes (str_of_bytes l) = l.
Proof. apply String.list_ascii_of_string_of_list_ascii. Qed.

Lemma of_bytes_of s : of_bytes (bytes_of s) = s.
Proof.
  unfold of_bytes, bytes_of. rewrite <- list_fmap_compose. rewrite <- (str_of_str_bytes s) at 2. f_equal.
  induction (str_bytes s) as [|c l IH]; [done|]. rewrite fmap_cons, IH. simpl. by rewrite Ascii.ascii_N_embedding.
Qed.

Lemma bytes_app a b : bytes_of (a +:+ b) = bytes_of a ++ bytes_of b.
Proof. unfold bytes_of, str_bytes. induction a as [|c a IH]; [done|]. exact (f_equal (cons _) IH). Qed.

Lemma runes_ascii s : ascii s -> runes s = bytes_of s.
Proof.
  unfold ascii, runes. generalize (bytes_of s). intros l Hl. induction Hl as [|b l Hb Hl IH]; [done|]. simpl.
  rewrite (proj2 (N.ltb_lt _ _) Hb). simpl. by rewrite drop_0, IH.
Qed.

Section names.
Context {U : Unicode} {L : UnicodeLetters}.

Lemma lower_small r : (r < 128)%N -> (ToLower_rune r < 128)%N /\ in_range 65 90 (ToLower_rune r) = false.
Proof.
  intros Hr. unfold ToLower_rune, in_range. destruct (N.leb_spec 65 r), (N.leb_spec r 90); simpl; rewrite ?(proj2 (N.ltb_lt _ _) Hr); (split; [lia|]);
    rewrite andb_false_iff, !N.leb_gt; lia.
Qed.

Lemma lower_ascii s : ascii s -> bytes_of (ToLower s) = ToLower_rune <$> bytes_of s.
Proof.
  intros Hs. unfold ToLower. rewrite runes_ascii by done. assert (mjoin ((fun r => encode_rune (ToLower_rune r)) <$> bytes_of s) = ToLower_rune <$> bytes_of s) as ->.
  { induction Hs as [|b l Hb Hl IH]; [done|]. transitivity (encode_rune (ToLower_rune b) ++ mjoin ((fun r => encode_rune (ToLower_rune r)) <$> l)); [done|].
    rewrite IH. unfold encode_rune. by rewrite (proj2 (N.ltb_lt _ _) (proj1 (lower_small b Hb))). }
  apply bytes_round, Forall_fmap. eapply Forall_impl; [exact Hs|]. intros b Hb. simpl. pose proof (lower_small b Hb). lia.
Qed.

(** ** Trimming *)

Lemma bytes_strip_suffix p l l' : bytes_strip p l = Some l' -> exists q, l = q ++ l'.
Proof.
  revert l. induction p as [|b p IH]; intros l; simpl; [intros [= ->]; by exists []|]. destruct l as [|c l]; [done|]. case_decide; [|done].
  intros (q & ->)%IH. by exists (c :: q).
Qed.

Lemma strip_any_suffix ws l l' : strip_any ws l = Some l' -> exists q, l = q ++ l'.
Proof.
  induction ws as [|p ws IH]; simpl; [done|]. destruct (bytes_strip p l) eqn:E; [|done]. intros [= ->]. by eapply bytes_strip_suffix.
Qed.

Lemma trim_front_suffix n ws l : exists q, l = q ++ trim_front n ws l.
Proof.
  revert l. induction n as [|n IH]; intros l; simpl; [by exists []|]. destruct (strip_any ws l) as [l'|] eqn:E; [|by exists []].
  apply strip_any_suffix in E as (q & ->). destruct (IH l') as (q' & Hq). exists (q ++ q'). by rewrite <- app_assoc, <- Hq.
Qed.

Lemma trim_space_infix s : exists p q, str_bytes s = p ++ str_bytes (TrimSpace s) ++ q.
Proof.
  unfold TrimSpace. rewrite str_bytes_of. destruct (trim_front_suffix (length (str_bytes s)) white_space (str_bytes s)) as (p & Hp).
  set (front := trim_front _ white_space _) in *.
  destruct (trim_front_suffix (length front) (map (@rev N) white_space) (rev front)) as (q & Hq).
  exists p, (rev q). rewrite <- rev_app_distr, <- Hq, rev_involutive. done.
Qed.

(** No encoding starts with the byte. *)
Lemma strip_none ws c l : forallb (fun p => match p with x :: _ => negb (Ascii.N_of_ascii c =? x)%N | [] => false end) ws = true -> strip_any ws (c :: l) = None.
Proof.
  induction ws as [|[|x p] ws IH]; simpl; [done|done|]. intros [Hx Hw]%andb_prop. apply negb_true_iff, N.eqb_neq in Hx. rewrite decide_False by done. auto.
Qed.

Definition solid (c : Ascii.ascii) : bool :=
  forallb (fun p => match p with x :: _ => negb (Ascii.N_of_ascii c =? x)%N | [] => false end) (white_space ++ map (@rev N) white_space).

Lemma trim_front_none n ws l : strip_any ws l = None -> trim_front n ws l = l.
Proof. destruct n; simpl; [done|]. by intros ->. Qed.

Lemma strip_solid l : Forall (fun c => solid c = true) l -> strip_any white_space l = None /\ strip_any (map (@rev N) white_space) l = None.
Proof.
  intros Hl. destruct Hl as [|c l Hc Hl]; [done|]. unfold solid in Hc. rewrite forallb_app in Hc. apply andb_prop in Hc as [H1 H2].
  split; by apply strip_none.
Qed.

Lemma trim_space_solid s : Forall (fun c => solid c = true) (str_bytes s) -> TrimSpace s = s.
Proof.
  intros Hs. destruct (strip_solid _ Hs) as [H1 _]. destruct (strip_solid (rev (str_bytes s))) as [_ H2]; [by apply Forall_rev|].
  unfold TrimSpace. cbv zeta. rewrite (trim_front_none _ _ _ H1), (trim_front_none _ _ _ H2). by rewrite rev_involutive, str_of_str_bytes.
Qed.

(** ** Labels and names *)

(** The bytes of private names. *)
Definition name_byte (b : N) : bool := slug_byte b || (b =? 46)%N.

Lemma name_byte_cases b : name_byte b = true -> (b < 128)%N /\ ToLower_rune b = b /\ solid (Ascii.ascii_of_N b) = true.
Proof.
  intros Hb. assert (b < 128)%N as Hlt. { unfold name_byte, slug_byte, in_range in Hb. rewrite !orb_true_iff, !andb_true_iff, !N.leb_le, !N.eqb_eq in Hb. lia. }
  split; [done|]. assert (forallb (fun n => implb (name_byte n) (negb (in_range 65 90 n) && solid (Ascii.ascii_of_N n))) (N.of_nat <$> seq 0 128) = true) as Hall by (vm_compute; reflexivity).
  rewrite forallb_forall in Hall. 
  assert (List.In b (N.of_nat <$> seq 0 128)) as Hin. { apply list_elem_of_In, list_elem_of_fmap. exists (N.to_nat b). split; [lia|]. apply elem_of_seq. lia. }
  specialize (Hall b Hin). rewrite Hb in Hall. apply andb_prop in Hall as [H1 H2]. split; [|done].
  unfold ToLower_rune. apply negb_true_iff in H1. rewrite H1. by rewrite (proj2 (N.ltb_lt _ _) Hlt).
Qed.

Definition name_string (s : string) : Prop := Forall (fun b => name_byte b = true) (bytes_of s).

Lemma name_app a b : name_string (a +:+ b) <-> name_string a /\ name_string b.
Proof. unfold name_string. rewrite bytes_app. apply Forall_app. Qed.

Lemma lower_name s : name_string s -> ToLower s = s.
Proof.
  intros Hs. rewrite <- (of_bytes_of (ToLower s)), lower_ascii.
  - rewrite <- (of_bytes_of s) at 2. f_equal. induction Hs as [|b l Hb Hl IH]; [done|]. rewrite fmap_cons, IH. f_equal. by apply name_byte_cases.
  - eapply Forall_impl; [exact Hs|]. intros b Hb. by apply name_byte_cases.
Qed.

Lemma trim_name s : name_string s -> TrimSpace s = s.
Proof.
  intros Hs. apply trim_space_solid. unfold name_string, bytes_of in Hs. rewrite Forall_fmap in Hs. eapply Forall_impl; [exact Hs|].
  intros c Hc. simpl in Hc. apply name_byte_cases in Hc as (_ & _ & H). by rewrite Ascii.ascii_N_embedding in H.
Qed.

(** The loop writes letters, digits and hyphens. *)
Lemma label_loop l b h : Forall (fun r => (r < 128)%N /\ in_range 65 90 r = false) l -> Forall (fun x => slug_byte x = true) b ->
  Forall (fun x => slug_byte x = true) (foldl label_step (b, h) l).1.
Proof.
  intros Hl. revert b h. induction Hl as [|r l [Hr Hu] Hl IH]; intros b h Hb; [done|]. simpl foldl.
  destruct (IsLetter r || IsDigit r) eqn:E.
  - apply IH, Forall_app. split; [done|]. unfold encode_rune. rewrite (proj2 (N.ltb_lt _ _) Hr). repeat constructor.
    unfold IsLetter, IsDigit in E. rewrite (proj2 (N.ltb_lt _ _) Hr) in E. unfold is_alpha in E. unfold slug_byte.
    fold (in_range 97 122 r) in E. fold (in_range 65 90 r) in E. rewrite Hu, orb_false_r in E. by rewrite E.
  - destruct ((r =? 45)%N || (r =? 95)%N || rune_IsSpace r); [|by apply IH]. destruct ((length b =? 0)%nat || h); [by apply IH|]. apply IH, Forall_app. split; [done|]. by repeat constructor.
Qed.

Lemma label_bytes raw : ascii raw -> Forall (fun b => slug_byte b = true) (bytes_of (NormalizeLabel raw)).
Proof.
  intros Hraw. assert (Forall (fun r => (r < 128)%N /\ in_range 65 90 r = false) (bytes_of (TrimSpace (ToLower raw)))) as Hl.
  { destruct (trim_space_infix (ToLower raw)) as (p & q & E). apply (f_equal (fmap Ascii.N_of_ascii)) in E. rewrite !fmap_app in E.
    assert (Forall (fun r => (r < 128)%N /\ in_range 65 90 r = false) (bytes_of (ToLower raw))) as H.
    { rewrite lower_ascii by done. apply Forall_fmap. eapply Forall_impl; [exact Hraw|]. intros b Hb. by apply lower_small. }
    unfold bytes_of in H at 1. rewrite E in H. by apply Forall_app in H as [_ [H _]%Forall_app]. }
  unfold NormalizeLabel. rewrite runes_ascii; [|eapply Forall_impl; [exact Hl|]; by intros b [? _]].
  pose proof (trim_dns _ (label_loop _ [] false Hl (Forall_nil_2 _))) as [H _]. rewrite bytes_round; [done|].
  eapply Forall_impl; [exact H|]. intros b. apply slug_byte_small.
Qed.

End names.

(** ** Suffixes and dots *)

Lemma str_of_bytes_app a b : str_of_bytes (a ++ b) = str_of_bytes a +:+ str_of_bytes b.
Proof. unfold str_of_bytes. induction a as [|c a IH]; [done|]. exact (f_equal (String c) IH). Qed.

Lemma str_rev_app a b : str_rev (a +:+ b) = str_rev b +:+ str_rev a.
Proof. unfold str_rev. by rewrite str_bytes_app, reverse_app, str_of_bytes_app. Qed.

Lemma str_rev_rev s : str_rev (str_rev s) = s.
Proof. unfold str_rev. by rewrite str_bytes_of, reverse_involutive, str_of_str_bytes. Qed.

Lemma HasPrefix_drop p : forall s, HasPrefix s p = true -> s = p +:+ str_drop (String.length p) s.
Proof.
  induction p as [|c p IH]; intros s E; [by destruct s|]. destruct s as [|d s]; [done|]. cbn [HasPrefix] in E.
  destruct (Ascii.eqb_spec c d) as [->|]; [|done]. cbn [String.length str_drop]. change (String d s = String d (p +:+ str_drop (String.length p) s)). f_equal. by apply IH.
Qed.

Lemma has_prefix_iff s p : HasPrefix s p = true <-> exists rest, s = p +:+ rest.
Proof. split; [intros H; exists (str_drop (String.length p) s); by apply HasPrefix_drop|intros [rest ->]; apply has_prefix_app]. Qed.

Lemma has_suffix_app a b : HasSuffix (a +:+ b) b = true.
Proof. unfold HasSuffix. rewrite str_rev_app. apply has_prefix_app. Qed.

Lemma trim_suffix_app a b : TrimSuffix (a +:+ b) b = a.
Proof. unfold TrimSuffix, TrimPrefix. rewrite str_rev_app, has_prefix_app, str_drop_app. apply str_rev_rev. Qed.

Lemma split_dots_app l dot r : Forall (fun c => byte_is 46 c = false) l -> byte_is 46 dot = true -> split_dots (l ++ dot :: r) = l :: split_dots r.
Proof. intros Hl Hd. induction Hl as [|c l Hc Hl IH]; simpl; [by rewrite Hd|]. by rewrite Hc, IH. Qed.

Lemma split_dots_one l : Forall (fun c => byte_is 46 c = false) l -> split_dots l = [l].
Proof. induction 1 as [|c l Hc Hl IH]; simpl; [done|]. by rewrite Hc, IH. Qed.

Definition dotless (s : string) : Prop := Forall (fun c => byte_is 46 c = false) (str_bytes s).

Lemma split_dot_cons s r : dotless s -> Split_dot (s +:+ "." +:+ r) = s :: Split_dot r.
Proof.
  intros Hs. unfold Split_dot. rewrite str_bytes_app. change (str_bytes ("." +:+ r)) with (Ascii.ascii_of_N 46 :: str_bytes r).
  rewrite split_dots_app by done. rewrite fmap_cons. by rewrite str_of_str_bytes.
Qed.

Lemma split_dot_one s : dotless s -> Split_dot s = [s].
Proof. intros Hs. unfold Split_dot. rewrite split_dots_one by done. simpl. by rewrite str_of_str_bytes. Qed.

Lemma slug_name s : Forall (fun b => slug_byte b = true) (bytes_of s) -> name_string s /\ dotless s.
Proof.
  intros Hs. split.
  - eapply Forall_impl; [exact Hs|]. intros b Hb. simpl in Hb. unfold name_byte. by rewrite Hb.
  - unfold dotless. unfold bytes_of in Hs. rewrite Forall_fmap in Hs. eapply Forall_impl; [exact Hs|]. intros c Hc. simpl in Hc. unfold byte_is.
    apply N.eqb_neq. intros E. by rewrite E in Hc.
Qed.

(** ** The round *)

Section round.
Context {U : Unicode} {L : UnicodeLetters} {D : DnsLibrary} (Hfqdn : forall s, HasSuffix s "." = false -> Fqdn s = s +:+ ".").

(** Labels taken apart again. *)
Lemma parse_labels e s p v o :
  Forall (fun l => Forall (fun b => slug_byte b = true) (bytes_of l) /\ l <> "") [e; s; p; v; o] ->
  parseInternalName (e +:+ "." +:+ s +:+ "." +:+ p +:+ "." +:+ v +:+ "." +:+ o +:+ ".kindling.internal") = Some (mkInternalName e s p v o).
Proof.
  intros Hall. set (name := e +:+ _).
  assert (Forall (fun l => (name_string l /\ dotless l) /\ l <> "") [e; s; p; v; o]) as H.
  { eapply Forall_impl; [exact Hall|]. intros l [Hl Hne]. split; [by apply slug_name|done]. }
  rewrite !Forall_cons in H. destruct H as (([He He'] & Ne) & ([Hs Hs'] & Ns) & ([Hp Hp'] & Np) & ([Hv Hv'] & Nv) & ([Ho Ho'] & No) & _). clear Hall.
  assert (name_string name) as Hname.
  { unfold name. repeat (apply name_app; split; [done|]; apply name_app; split; [by repeat constructor|]). apply name_app. split; [done|]. by repeat constructor. }
  assert (exists pre, name = pre +:+ ".kindling.internal") as (pre & Hpre).
  { exists (e +:+ "." +:+ s +:+ "." +:+ p +:+ "." +:+ v +:+ "." +:+ o). unfold name. by rewrite !string_app_assoc. }
  assert (Fqdn name = name +:+ ".") as Ef.
  { apply Hfqdn. rewrite Hpre. unfold HasSuffix. by rewrite str_rev_app. }
  unfold parseInternalName. rewrite lower_name, trim_name by done. rewrite Ef. cbv zeta.
  assert (HasSuffix (name +:+ ".") privateDomainSuffix = true) as ->.
  { rewrite Hpre. replace ((pre +:+ ".kindling.internal") +:+ ".") with ((pre +:+ ".") +:+ privateDomainSuffix) by (by rewrite !string_app_assoc). apply has_suffix_app. }
  rewrite trim_suffix_app. cbn [negb]. unfold name. rewrite !split_dot_cons by done.
  assert (Split_dot (o +:+ ".kindling.internal") = [o; "kindling"; "internal"]) as ->.
  { change ".kindling.internal" with ("." +:+ "kindling.internal"). by rewrite split_dot_cons. }
  cbn [existsb]. rewrite !trim_name by done. rewrite !(proj2 (String.eqb_neq _ "")) by done. done.
Qed.

(** The private name of a service's endpoint is read back: for ASCII names
    whose labels are not empty, [parseInternalName] of [PrivateDNSName] gives
    the five labels, each as [NormalizeLabel] made it. *)
Theorem private_name_roundtrip (endpoint service project environment org : string) :
  Forall (fun n => ascii n /\ NormalizeLabel n <> "") [endpoint; service; project; environment; org] ->
  parseInternalName (PrivateDNSName endpoint service project environment org) =
  Some (mkInternalName (NormalizeLabel endpoint) (NormalizeLabel service) (NormalizeLabel project) (NormalizeLabel environment) (NormalizeLabel org)).
Proof.
  intros H. rewrite <- parse_labels.
  - rewrite !Forall_cons in H. destruct H as ([_ H1] & [_ H2] & [_ H3] & [_ H4] & [_ H5] & _). unfold PrivateDNSName. cbn [List.filter].
    rewrite !(proj2 (String.eqb_neq _ "")) by done. done.
  - rewrite !Forall_cons in *. destruct H as ([? ?] & [? ?] & [? ?] & [? ?] & [? ?] & _). split_and!; try done; by apply label_bytes.
Qed.

End round.

(** ** Example *)

Definition sample_letters : UnicodeLetters := {| other_letter _ := false; other_digit _ := false |}.
Definition sample_dns : DnsLibrary := {| Fqdn s := if HasSuffix s "." then s else s +:+ "." |}.
Definition name_unicode : Unicode := {| lower_rune r := r |}.

Lemma private_name_roundtrip_witness :
  let U := name_unicode in let L := sample_letters in let D := sample_dns in
  PrivateDNSName "HTTP" "web" " My Shop_2 " "prod" "acme" = "http.web.my-shop-2.prod.acme.kindling.internal" /\
  parseInternalName (PrivateDNSName "HTTP" "web" " My Shop_2 " "prod" "acme") = Some (mkInternalName "http" "web" "my-shop-2" "prod" "acme").
Proof.
  intros U L D. split; [vm_compute; reflexivity|].
  refine (eq_trans (private_name_roundtrip _ "HTTP" "web" " My Shop_2 " "prod" "acme" _) _).
  - intros s Hs. unfold Fqdn. simpl. by rewrite Hs.
  - repeat constructor; discriminate.
  - vm_compute. reflexivity.
Defined.
