(* ===== verification/Webhook.v ===== *)
(** * GitHub webhooks

    internal/webhook/github.go: the signature check, pushes that create
    deployments, pull requests that open and close preview environments, and
    workflow jobs, which go to the CI service behind the interface of the
    handler. *)

From S2P Require Import Prelude NetAddr Text Models Runtime Effects Queries Lifecycle Deploy PreviewCleanup Codecs Secrets Config VolumeQueries Json Api GithubActions EventQueries.

(** ** Payloads *)

Record pushCommit := mkPushCommit {
  pc_Added : list string;
  pc_Modified : list string;
  pc_Removed : list string
}.

Record pushEvent := mkPushEvent {
  pu_Ref : string;
  pu_After : string;
  pu_Commits : list pushCommit;
  pu_FullName : string
}.

Record pullRequestEvent := mkPullRequestEvent {
  pre_Action : string;
  pre_Number : Z;
  pre_HeadRef : string;
  pre_HeadSha : string;
  pre_FullName : string
}.

Record workflowJobEvent := mkWorkflowJobEvent {
  wj_Action : string;
  wj_FullName : string;
  wj_OrgLogin : string;
  wj_InstallationID : Z;
  wj_ID : Z;
  wj_RunID : Z;
  wj_RunAttempt : Z;
  wj_HTMLURL : string;
  wj_Status : string;
  wj_Conclusion : string;
  wj_Name : string;
  wj_WorkflowName : string;
  wj_Event : string;
  wj_Labels : list string
}.

Definition push_commit_payload : payload pushCommit :=
  struct_payload
    [("added", field pc_Added (fun v c => mkPushCommit v c.(pc_Modified) c.(pc_Removed)) strings_payload);
     ("modified", field pc_Modified (fun v c => mkPushCommit c.(pc_Added) v c.(pc_Removed)) strings_payload);
     ("removed", field pc_Removed (fun v c => mkPushCommit c.(pc_Added) c.(pc_Modified) v) strings_payload)].

(** A struct whose only field is a string. *)
Definition nested_text (name : string) : payload string := struct_payload [(name, text_payload)].

Definition push_payload : payload pushEvent :=
  struct_payload
    [("ref", field pu_Ref (fun v p => mkPushEvent v p.(pu_After) p.(pu_Commits) p.(pu_FullName)) text_payload);
     ("after", field pu_After (fun v p => mkPushEvent p.(pu_Ref) v p.(pu_Commits) p.(pu_FullName)) text_payload);
     ("commits", field pu_Commits (fun v p => mkPushEvent p.(pu_Ref) p.(pu_After) v p.(pu_FullName))
                   (slice_payload push_commit_payload (mkPushCommit [] [] [])));
     ("repository", field pu_FullName (fun v p => mkPushEvent p.(pu_Ref) p.(pu_After) p.(pu_Commits) v) (nested_text "full_name"))].

Definition head_payload : payload (string * string) :=
  struct_payload [("ref", field fst (fun v p => (v, p.2)) text_payload); ("sha", field snd (fun v p => (p.1, v)) text_payload)].

Definition pull_request_payload : payload pullRequestEvent :=
  struct_payload
    [("action", field pre_Action (fun v p => mkPullRequestEvent v p.(pre_Number) p.(pre_HeadRef) p.(pre_HeadSha) p.(pre_FullName)) text_payload);
     ("number", field pre_Number (fun v p => mkPullRequestEvent p.(pre_Action) v p.(pre_HeadRef) p.(pre_HeadSha) p.(pre_FullName)) int64_payload);
     ("pull_request", field (fun p => (p.(pre_HeadRef), p.(pre_HeadSha)))
                        (fun v p => mkPullRequestEvent p.(pre_Action) p.(pre_Number) v.1 v.2 p.(pre_FullName))
                        (struct_payload [("head", head_payload)]));
     ("repository", field pre_FullName (fun v p => mkPullRequestEvent p.(pre_Action) p.(pre_Number) p.(pre_HeadRef) p.(pre_HeadSha) v)
                      (nested_text "full_name"))].

(** The object [workflow_job] of the event. *)
Definition workflow_job_payload : payload workflowJobEvent :=
  struct_payload
    [("id", field wj_ID (fun v e => mkWorkflowJobEvent e.(wj_Action) e.(wj_FullName) e.(wj_OrgLogin) e.(wj_InstallationID) v e.(wj_RunID) e.(wj_RunAttempt) e.(wj_HTMLURL) e.(wj_Status) e.(wj_Conclusion) e.(wj_Name) e.(wj_WorkflowName) e.(wj_Event) e.(wj_Labels)) int64_payload);
     ("run_id", field wj_RunID (fun v e => mkWorkflowJobEvent e.(wj_Action) e.(wj_FullName) e.(wj_OrgLogin) e.(wj_InstallationID) e.(wj_ID) v e.(wj_RunAttempt) e.(wj_HTMLURL) e.(wj_Status) e.(wj_Conclusion) e.(wj_Name) e.(wj_WorkflowName) e.(wj_Event) e.(wj_Labels)) int64_payload);
     ("run_attempt", field wj_RunAttempt (fun v e => mkWorkflowJobEvent e.(wj_Action) e.(wj_FullName) e.(wj_OrgLogin) e.(wj_InstallationID) e.(wj_ID) e.(wj_RunID) v e.(wj_HTMLURL) e.(wj_Status) e.(wj_Conclusion) e.(wj_Name) e.(wj_WorkflowName) e.(wj_Event) e.(wj_Labels)) (int_payload min_int32 max_int32));
     ("html_url", field wj_HTMLURL (fun v e => mkWorkflowJobEvent e.(wj_Action) e.(wj_FullName) e.(wj_OrgLogin) e.(wj_InstallationID) e.(wj_ID) e.(wj_RunID) e.(wj_RunAttempt) v e.(wj_Status) e.(wj_Conclusion) e.(wj_Name) e.(wj_WorkflowName) e.(wj_Event) e.(wj_Labels)) text_payload);
     ("status", field wj_Status (fun v e => mkWorkflowJobEvent e.(wj_Action) e.(wj_FullName) e.(wj_OrgLogin) e.(wj_InstallationID) e.(wj_ID) e.(wj_RunID) e.(wj_RunAttempt) e.(wj_HTMLURL) v e.(wj_Conclusion) e.(wj_Name) e.(wj_WorkflowName) e.(wj_Event) e.(wj_Labels)) text_payload);
     ("conclusion", field wj_Conclusion (fun v e => mkWorkflowJobEvent e.(wj_Action) e.(wj_FullName) e.(wj_OrgLogin) e.(wj_InstallationID) e.(wj_ID) e.(wj_RunID) e.(wj_RunAttempt) e.(wj_HTMLURL) e.(wj_Status) v e.(wj_Name) e.(wj_WorkflowName) e.(wj_Event) e.(wj_Labels)) text_payload);
     ("name", field wj_Name (fun v e => mkWorkflowJobEvent e.(wj_Action) e.(wj_FullName) e.(wj_OrgLogin) e.(wj_InstallationID) e.(wj_ID) e.(wj_RunID) e.(wj_RunAttempt) e.(wj_HTMLURL) e.(wj_Status) e.(wj_Conclusion) v e.(wj_WorkflowName) e.(wj_Event) e.(wj_Labels)) text_payload);
     ("workflow_name", field wj_WorkflowName (fun v e => mkWorkflowJobEvent e.(wj_Action) e.(wj_FullName) e.(wj_OrgLogin) e.(wj_InstallationID) e.(wj_ID) e.(wj_RunID) e.(wj_RunAttempt) e.(wj_HTMLURL) e.(wj_Status) e.(wj_Conclusion) e.(wj_Name) v e.(wj_Event) e.(wj_Labels)) text_payload);
     ("event", field wj_Event (fun v e => mkWorkflowJobEvent e.(wj_Action) e.(wj_FullName) e.(wj_OrgLogin) e.(wj_InstallationID) e.(wj_ID) e.(wj_RunID) e.(wj_RunAttempt) e.(wj_HTMLURL) e.(wj_Status) e.(wj_Conclusion) e.(wj_Name) e.(wj_WorkflowName) v e.(wj_Labels)) text_payload);
     ("labels", field wj_Labels (fun v e => mkWorkflowJobEvent e.(wj_Action) e.(wj_FullName) e.(wj_OrgLogin) e.(wj_InstallationID) e.(wj_ID) e.(wj_RunID) e.(wj_RunAttempt) e.(wj_HTMLURL) e.(wj_Status) e.(wj_Conclusion) e.(wj_Name) e.(wj_WorkflowName) e.(wj_Event) v) strings_payload)].

Definition workflow_payload : payload workflowJobEvent :=
  struct_payload
    [("action", field wj_Action (fun v e => mkWorkflowJobEvent v e.(wj_FullName) e.(wj_OrgLogin) e.(wj_InstallationID) e.(wj_ID) e.(wj_RunID) e.(wj_RunAttempt) e.(wj_HTMLURL) e.(wj_Status) e.(wj_Conclusion) e.(wj_Name) e.(wj_WorkflowName) e.(wj_Event) e.(wj_Labels)) text_payload);
     ("repository", field wj_FullName (fun v e => mkWorkflowJobEvent e.(wj_Action) v e.(wj_OrgLogin) e.(wj_InstallationID) e.(wj_ID) e.(wj_RunID) e.(wj_RunAttempt) e.(wj_HTMLURL) e.(wj_Status) e.(wj_Conclusion) e.(wj_Name) e.(wj_WorkflowName) e.(wj_Event) e.(wj_Labels)) (nested_text "full_name"));
     ("organization", field wj_OrgLogin (fun v e => mkWorkflowJobEvent e.(wj_Action) e.(wj_FullName) v e.(wj_InstallationID) e.(wj_ID) e.(wj_RunID) e.(wj_RunAttempt) e.(wj_HTMLURL) e.(wj_Status) e.(wj_Conclusion) e.(wj_Name) e.(wj_WorkflowName) e.(wj_Event) e.(wj_Labels)) (nested_text "login"));
     ("installation", field wj_InstallationID (fun v e => mkWorkflowJobEvent e.(wj_Action) e.(wj_FullName) e.(wj_OrgLogin) v e.(wj_ID) e.(wj_RunID) e.(wj_RunAttempt) e.(wj_HTMLURL) e.(wj_Status) e.(wj_Conclusion) e.(wj_Name) e.(wj_WorkflowName) e.(wj_Event) e.(wj_Labels)) (struct_payload [("id", int64_payload)]));
     ("workflow_job", workflow_job_payload)].

Definition zero_push : pushEvent := mkPushEvent "" "" [] "".
Definition zero_pull_request : pullRequestEvent := mkPullRequestEvent "" 0 "" "" "".
Definition zero_workflow_job : workflowJobEvent := mkWorkflowJobEvent "" "" "" 0 0 0 0 "" "" "" "" "" "" [].

(** [genericWebhookPayload]: the repository of any event. *)
Definition generic_payload : payload string := struct_payload [("repository", nested_text "full_name")].

(** ** Which services a push concerns *)

Definition maxPushCommitsInWebhook : Z := 2048.

(** [None]: the changed files are not known. *)
Definition pushChangedFiles (push : pushEvent) : option (list string) :=
  let n := Z.of_nat (length push.(pu_Commits)) in
  if n =? 0 then None
  else if maxPushCommitsInWebhook <=? n then None
  else
    let files := push.(pu_Commits) ≫= (fun c => c.(pc_Added) ++ c.(pc_Modified) ++ c.(pc_Removed)) in
    if (length files =? 0)%nat then None else Some files.

Definition rootDirectoryMatchesChangedFiles (rootDir : string) (files : list string) : bool :=
  let rootDir := TrimSpace rootDir in
  if String.eqb rootDir "" || String.eqb rootDir "/" then (0 <? length files)%nat
  else
    let prefix := TrimSuffix (TrimPrefix rootDir "/") "/" in
    if String.eqb prefix "" then (0 <? length files)%nat
    else
      existsb (fun file =>
        let file := TrimPrefix (TrimSpace file) "/" in
        String.eqb file (TrimSuffix (prefix +:+ "/") "/") || HasPrefix file (prefix +:+ "/")) files.

Definition shouldCreateDeploymentForRoot (rootDirectory : string) (buildOnlyOnRootChanges : bool) (push : pushEvent) : bool :=
  if negb buildOnlyOnRootChanges then true
  else match pushChangedFiles push with
       | None => true
       | Some changedFiles => rootDirectoryMatchesChangedFiles rootDirectory changedFiles
       end.

Definition shouldCreateDeploymentForPush (project : Project) (push : pushEvent) : bool :=
  shouldCreateDeploymentForRoot project.(proj_RootDirectory) project.(proj_BuildOnlyOnRootChanges) push.

Definition shouldCreateDeploymentForService (service : Service) (push : pushEvent) : bool :=
  shouldCreateDeploymentForRoot service.(svc_RootDirectory) service.(svc_BuildOnlyOnRootChanges) push.

(** ** Signatures *)

(** [None]: the signature is right; otherwise the status and the message. *)
Definition enforceSignature (body : list N) (signature secret : string) : option (Z * string) :=
  if String.eqb (TrimSpace secret) "" then Some (StatusUnauthorized, "webhook secret not configured")
  else if String.eqb signature "" then Some (StatusUnauthorized, "missing X-Hub-Signature-256")
  else if negb (HasPrefix signature "sha256=") then Some (StatusUnauthorized, "invalid signature prefix")
  else
    match hex_Decode (bytes_of (TrimPrefix signature "sha256=")) with
    | None => Some (StatusUnauthorized, "malformed signature hex")
    | Some sig =>
        if bool_decide (sig = hmac_sha256 (bytes_of secret) body) then None else Some (StatusForbidden, "signature mismatch")
    end.

Definition verifySignature (payload : list N) (signature secret : string) : bool :=
  if negb (HasPrefix signature "sha256=") then false
  else match hex_Decode (bytes_of (TrimPrefix signature "sha256=")) with
       | None => false
       | Some sig => bool_decide (sig = hmac_sha256 (bytes_of secret) payload)
       end.

(** ** The handler *)

(** internal/ci: what the CI service is told, and answers. *)
Record GitHubWorkflowJobEvent := mkGitHubWorkflowJobEvent {
  ge_Action : string;
  ge_RepoFullName : string;
  ge_OrgLogin : string;
  ge_WorkflowName : string;
  ge_JobName : string;
  ge_EventName : string;
  ge_WorkflowJobID : Z;
  ge_WorkflowRunID : Z;
  ge_RunAttempt : Z;
  ge_HTMLURL : string;
  ge_Labels : list string;
  ge_InstallationID : Z;
  ge_Conclusion : string
}.

Record GitHubWorkflowJobHandleResult := mkHandleResult {
  hr_Job : option CiJob;
  hr_ShouldSchedule : bool;
  hr_Ignored : bool;
  hr_Reason : string
}.

(** The master key of the configuration, the schedulers that are set, and the
    CI service. *)
Record WebhookHandler := mkWebhookHandler {
  wh_cfg : option (list N);
  wh_deploymentReconciler : bool;
  wh_ciJobReconciler : bool;
  wh_ciJobService : option (GitHubWorkflowJobEvent -> M GitHubWorkflowJobHandleResult)
}.

(** The request: its method, its body ([None] when reading it failed) and the
    headers X-GitHub-Event and X-Hub-Signature-256. *)
Record HookRequest := mkHookRequest {
  hq_method : string;
  hq_body : option (list N);
  hq_event : string;
  hq_signature : string
}.

Record createdDeployment := mkCreatedDeployment {
  cd_ServiceID : string;
  cd_ServiceName : string;
  cd_DeploymentID : string
}.

Record skippedService := mkSkippedService {
  sks_ServiceID : string;
  sks_ServiceName : string;
  sks_RootDirectory : string
}.

(** Bodies: plain texts, and the maps encoded as JSON. *)
Inductive HookBody :=
  | HookText (text : string)
  | HookPush (project commit : string) (created : list createdDeployment) (skipped : list skippedService)
  | HookClosed (status : string) (expires : Time) (deployments : Z) (env : pgUUID)
  | HookPreview (deployment : pgUUID) (project : string) (pr : Z) (commit stable_host : string).

Definition StatusCreated : Z := 201.
Definition StatusMethodNotAllowed : Z := 405.
Definition StatusServiceUnavailable : Z := 503.

Definition http_Error (status : Z) (text : string) : Response HookBody := RespJSON status (HookText text).
Definition internal_error (e : error) : Response HookBody := http_Error StatusInternalServerError "internal error".

Section handler.
Context {env : Env} {S : Sorter} {U : Unicode} {UF : UnicodeFold} {crypto : Crypto} (h : WebhookHandler).

Abbreviation step A := (step_of HookBody A).

Definition previewBaseDomain : M string :=
  let! r := attempt (query (ClusterSettingGet SettingPreviewBaseDomain)) in
  ret (match r with inl _ => "" | inr v => TrimSpace v end).

Definition previewRetentionSeconds : M Z :=
  let! r := attempt (query (ClusterSettingGet SettingPreviewRetentionAfterCloseSecs)) in
  ret (match r with
       | inl _ => 3600
       | inr v => match Atoi (TrimSpace v) with Some n => if n <? 0 then 3600 else n | None => 3600 end
       end).

(** The integrations of the connections that decrypt and parse. *)
Definition github_integrations (cfg : option (list N)) (rows : list OrgProviderConnection) : list Integration :=
  rows ≫= (fun row =>
    match cfg with
    | Some key =>
        if negb (String.eqb (TrimSpace (ToLower row.(opc_Provider))) "github") then []
        else
          match DecryptBytes key row.(opc_CredentialsCiphertext) with
          | inl _ => []
          | inr plain => match IntegrationFromConnection row plain with inl _ => [] | inr i => [i] end
          end
    | None => []
    end).

Definition resolveWorkflowJobSecret (event : workflowJobEvent) (project : Project) : M string :=
  let! rows := query (OrgProviderConnectionListByOrg project.(proj_OrgID)) in
  let owner := TrimSpace event.(wj_OrgLogin) in
  let owner := if String.eqb owner "" then TrimSpace (before_slash (NormalizeRepo event.(wj_FullName))) else owner in
  match ResolveIntegrationForOwner (github_integrations h.(wh_cfg) rows) owner with
  | None => throw ErrNoRows
  | Some i => ret (TrimSpace i.(in_Credentials).(pc_WebhookSecret))
  end.

(** [json.Unmarshal(body, &v)] or 400. *)
Definition decode_payload {A} (p : payload A) (zero : A) (body : list N) : step A :=
  match unmarshal p zero body with
  | Some a => next a
  | None => reply (http_Error StatusBadRequest "invalid JSON")
  end.

(** *** Workflow jobs *)

Definition job_event (event : workflowJobEvent) : GitHubWorkflowJobEvent :=
  mkGitHubWorkflowJobEvent (TrimSpace event.(wj_Action)) (NormalizeRepo event.(wj_FullName)) (TrimSpace event.(wj_OrgLogin))
    (TrimSpace event.(wj_WorkflowName)) (TrimSpace event.(wj_Name)) (TrimSpace event.(wj_Event)) event.(wj_ID) event.(wj_RunID)
    event.(wj_RunAttempt) (TrimSpace event.(wj_HTMLURL)) event.(wj_Labels) event.(wj_InstallationID) (TrimSpace event.(wj_Conclusion)).

Definition handleWorkflowJob (body : list N) : step (Response HookBody) :=
  match h.(wh_ciJobService) with
  | None => reply (http_Error StatusServiceUnavailable "ci workflow job handler unavailable")
  | Some service =>
      let? event := decode_payload workflow_payload zero_workflow_job body in
      let? result := or_reply (service (job_event event)) (fun e => http_Error StatusInternalServerError (error_Error e)) in
      if result.(hr_Ignored) then next (RespJSON StatusOK (HookText ("ignored: " +:+ result.(hr_Reason))))
      else
        do! (match result.(hr_Job) with
             | Some job => when (result.(hr_ShouldSchedule) && h.(wh_ciJobReconciler))
                             (let! t := now in emit (EvSchedule SchedCIJobs (FromPgtype job.(ci_ID)) t))
             | None => ret tt
             end) ;
        next (RespJSON StatusOK (HookText "ok"))
  end.

(** *** Pushes *)

Definition push_service (project : Project) (branch : string) (push : pushEvent)
    (acc : list createdDeployment * list skippedService) (service : Service) : M (list createdDeployment * list skippedService) :=
  let '(created, skipped) := acc in
  if negb (shouldCreateDeploymentForService service push) then
    ret (created, skipped ++ [mkSkippedService (uuid_String (FromPgtype service.(svc_ID))) service.(svc_Name) service.(svc_RootDirectory)])
  else
    let! id := new_uuid in
    let! dep := exec (DeploymentCreate (Some id) project.(proj_ID) service.(svc_ID) None None None push.(pu_After) branch "production" None) in
    ret (created ++ [mkCreatedDeployment (uuid_String (FromPgtype service.(svc_ID))) service.(svc_Name)
                       (uuid_String (FromPgtype dep.(dep_ID)))], skipped).

Definition handlePush (body : list N) (project : Project) : step (Response HookBody) :=
  let? push := decode_payload push_payload zero_push body in
  let branch := TrimPrefix push.(pu_Ref) "refs/heads/" in
  if negb (String.eqb branch "main") && negb (String.eqb branch "master") then
    reply (RespJSON StatusOK (HookText ("ignored branch: " +:+ branch)))
  else
    let? services := or_reply (query (ServiceListByProjectID project.(proj_ID))) internal_error in
    let? '(created, skipped) := or_reply (fold_each (push_service project branch push) services ([], [])) internal_error in
    next (RespJSON (if (length created =? 0)%nat then StatusOK else StatusCreated)
            (HookPush project.(proj_Name) push.(pu_After) created skipped)).

(** *** Pull requests *)

Definition handlePullRequestClosed (project : Project) (prNumber : Z) : step (Response HookBody) :=
  let! found := attempt (query (PreviewEnvironmentByProjectAndPR project.(proj_ID) "github" prNumber)) in
  match found with
  | inl e => if is_no_rows e then next (RespJSON StatusOK (HookText "no preview environment for PR"))
             else reply (internal_error e)
  | inr pe =>
      let! retention := previewRetentionSeconds in
      let! t := now in
      let expires := t + wrap64 (retention * Second) in
      let? _ := or_reply (exec (PreviewEnvironmentMarkClosed pe.(pe_ID) (Some expires))) internal_error in
      let? deps := or_reply (StopEnvironmentDeployments h.(wh_deploymentReconciler) pe.(pe_ID)) internal_error in
      let n := Z.of_nat (length deps) in
      if retention =? 0 then
        let? _ := or_reply (exec (PreviewEnvironmentDelete pe.(pe_ID))) internal_error in
        next (RespJSON StatusOK (HookClosed "deleted" expires n pe.(pe_ID)))
      else next (RespJSON StatusOK (HookClosed "closing" expires n pe.(pe_ID)))
  end.

(** The environment of the pull request: found and reopened, or created. *)
Definition preview_environment (project : Project) (service : Service) (prNum : Z) (headBranch sha stableHost : string)
    : step PreviewEnvironment :=
  let! existing := attempt (query (PreviewEnvironmentByProjectAndPR project.(proj_ID) "github" prNum)) in
  match existing with
  | inl e =>
      if is_no_rows e then
        let! id := new_uuid in
        or_reply (exec (PreviewEnvironmentCreate (Some id) project.(proj_ID) service.(svc_ID) "github" prNum headBranch sha stableHost))
          internal_error
      else reply (internal_error e)
  | inr pe => or_reply (exec (PreviewEnvironmentReopen pe.(pe_ID) headBranch sha)) internal_error
  end.

(** The stable host name points to the new deployment. *)
Definition stable_domain (project : Project) (service : Service) (dep pe : pgUUID) (stableHost : string) : step unit :=
  let! found := attempt (query (DomainFindByPreviewEnvironmentAndKind pe "preview_stable")) in
  match found with
  | inl e =>
      if is_no_rows e then
        let! id := new_uuid in
        let? _ := or_reply (exec (DomainCreatePreview (Some id) project.(proj_ID) service.(svc_ID) dep stableHost "preview_stable" pe))
                    internal_error in
        next tt
      else reply (internal_error e)
  | inr dom => or_reply (exec (DomainUpdateDeploymentForDomainID dom.(dom_ID) dep)) internal_error
  end.

Definition handlePullRequestSync (project : Project) (payload : pullRequestEvent) (baseDomain : string) : step (Response HookBody) :=
  let headBranch := TrimPrefix payload.(pre_HeadRef) "refs/heads/" in
  let sha := TrimSpace payload.(pre_HeadSha) in
  if String.eqb sha "" then reply (http_Error StatusBadRequest "missing head sha")
  else
    let prNum := wrap32 payload.(pre_Number) in
    let? service := or_reply (query (ServicePrimaryByProjectID project.(proj_ID))) internal_error in
    let stableHost := StableHostname payload.(pre_Number) service.(svc_Slug) project.(proj_Name) baseDomain in
    if String.eqb stableHost "" then reply (http_Error StatusBadRequest "invalid preview base domain")
    else
      let? pe := preview_environment project service prNum headBranch sha stableHost in
      let! id := new_uuid in
      let? dep := or_reply (exec (DeploymentCreate (Some id) project.(proj_ID) service.(svc_ID) None None None sha headBranch "preview" pe.(pe_ID)))
                    internal_error in
      let? _ := or_reply (exec (PreviewEnvironmentSetLatestDeployment pe.(pe_ID) dep.(dep_ID))) internal_error in
      let? _ := stable_domain project service dep.(dep_ID) pe.(pe_ID) stableHost in
      next (RespJSON StatusCreated (HookPreview dep.(dep_ID) project.(proj_Name) prNum sha stableHost)).

Definition handlePullRequest (body : list N) (project : Project) : step (Response HookBody) :=
  let? payload := decode_payload pull_request_payload zero_pull_request body in
  let! baseDomain := previewBaseDomain in
  if String.eqb (TrimSpace baseDomain) "" then
    next (RespJSON StatusOK (HookText "preview disabled: set cluster_settings.preview_base_domain"))
  else
    let action := ToLower (TrimSpace payload.(pre_Action)) in
    if String.eqb action "closed" then handlePullRequestClosed project (wrap32 payload.(pre_Number))
    else if in_list ["opened"; "reopened"; "synchronize"] action then handlePullRequestSync project payload baseDomain
    else next (RespJSON StatusOK (HookText ("ignored PR action: " +:+ action))).

(** *** Requests *)

Definition webhook_secret (event : string) (body : list N) (project : Project) : step string :=
  if String.eqb event "workflow_job" then
    let? wjEvent := decode_payload workflow_payload zero_workflow_job body in
    or_reply (resolveWorkflowJobSecret wjEvent project)
      (fun e => if is_no_rows e then http_Error StatusUnauthorized "webhook secret not configured" else internal_error e)
  else next project.(proj_GithubWebhookSecret).

Definition dispatch (event : string) (body : list N) (project : Project) : step (Response HookBody) :=
  if String.eqb event "push" then handlePush body project
  else if String.eqb event "pull_request" then handlePullRequest body project
  else if String.eqb event "workflow_job" then handleWorkflowJob body
  else next (RespJSON StatusOK (HookText ("ignored event: " +:+ event))).

Definition ServeHTTP (r : HookRequest) : M (Response HookBody) := handle (
  if negb (String.eqb r.(hq_method) "POST") then reply (http_Error StatusMethodNotAllowed "method not allowed")
  else
    match r.(hq_body) with
    | None => reply (http_Error StatusBadRequest "read body failed")
    | Some body =>
        let event := r.(hq_event) in
        if String.eqb event "" then reply (http_Error StatusBadRequest "missing X-GitHub-Event")
        else
          let? fullName := decode_payload generic_payload "" body in
          let repoFullName := TrimSpace fullName in
          if String.eqb repoFullName "" then reply (http_Error StatusBadRequest "missing repository")
          else
            let? project := or_reply (query (ProjectFindByGitHubRepo (NormalizeRepo repoFullName)))
                              (fun e => if is_no_rows e then http_Error StatusNotFound "project not found" else internal_error e) in
            let? secret := webhook_secret event body project in
            match enforceSignature body r.(hq_signature) secret with
            | Some (status, text) => reply (http_Error status text)
            | None => dispatch event body project
            end
    end).

End handler.
