(* ===== verification/WebhookProofs.v ===== *)
(** * The guarantees of the webhook

    Nothing happens without a valid signature; a push creates one deployment for
    every service it concerns; a pull request's environment, deployment and host
    name belong together. *)

From S2P Require Import Prelude NetAddr Text Models Runtime Effects Queries Logic EventLogic TableFacts Lifecycle Deploy PreviewCleanup Codecs Secrets Config VolumeQueries Paths Json Api DbLogic GithubActions EventQueries Webhook NameProofs WorkerDns DnsNames Sample.

(** ** Steps without effect *)

Section silent.
Context {env : Env}.

(** No statement that writes, and no call out of the process. *)
Definition silent {A} (m : M A) : Prop := runs no_stmt m /\ emits (fun _ => False) m.

Lemma silent_same {A} (m : M A) w : silent m -> w_db (m w).2 = w_db w /\ w_log (m w).2 = w_log w.
Proof.
  intros [Hr He]. split; [by apply runs_none|]. destruct (He w) as (new & Hnew & Hall). rewrite Hnew.
  destruct new as [|e new]; [done|]. by apply Forall_cons in Hall as [[] _].
Qed.

(** A silent step ends the handler without effect, or its value goes on in the
    same state. *)
Lemma silent_step {B A C} (m : step_of B A) (k : A -> step_of B C) w :
  silent m ->
  (exists a w1, m w = (Ret (inr a), w1) /\ w_db w1 = w_db w /\ w_log w1 = w_log w /\ hbind m k w = k a w1) \/
  (w_db (hbind m k w).2 = w_db w /\ w_log (hbind m k w).2 = w_log w).
Proof.
  intros Hm. destruct (silent_same m w Hm) as [Hd Hl]. unfold hbind, bind.
  destruct (m w) as [[[resp|a]| e| | ] w1] eqn:E; simpl in *; auto. left. exists a, w1. done.
Qed.

Lemma hbind_next {B A C} (a : A) (k : A -> step_of B C) w : hbind (next a) k w = k a w.
Proof. done. Qed.

Lemma or_reply_ret {B A C} (m : M A) (on_err : error -> Response B) (k : A -> step_of B C) w a w1 :
  m w = (Ret a, w1) -> hbind (or_reply m on_err) k w = k a w1.
Proof. unfold hbind, or_reply, bind, attempt, ret. by intros ->. Qed.

Lemma or_reply_inv {B A} (m : M A) (on_err : error -> Response B) w a w1 :
  or_reply m on_err w = (Ret (inr a), w1) -> m w = (Ret a, w1).
Proof. unfold or_reply, bind, attempt, ret. destruct (m w) as [[] ?]; intros [=]; by subst. Qed.

End silent.

Ltac solve_silent := split; [solve_runs|solve_emits].

(** The next step of a handler, silent by [tac]. *)
Ltac silent_case tac pat :=
  match goal with |- context [hbind ?m ?k ?w] => destruct (silent_step m k w ltac:(tac)) as pat end.

(** ** Authenticity *)

Section authentic.
Context {env : Env} {S : Sorter} {U : Unicode} {UF : UnicodeFold} {crypto : Crypto} (h : WebhookHandler).

(** The secrets that may sign an event of a project: the project's own, or for
    workflow jobs that of an integration of its organization. *)
Definition secret_for (d : Db) (event : string) (project : Project) (secret : string) : Prop :=
  if String.eqb event "workflow_job" then
    exists rows i t, OrgProviderConnectionListByOrg (proj_OrgID project) t d = inr rows /\ i ∈ github_integrations (wh_cfg h) rows /\
      secret = TrimSpace (pc_WebhookSecret (in_Credentials i))
  else secret = proj_GithubWebhookSecret project.

(** The signature of the request is the HMAC of its body under such a secret of
    a project connected to the repository the body names. *)
Definition authentic (d : Db) (r : HookRequest) : Prop :=
  hq_method r = "POST" /\
  exists body fullName k project secret,
    hq_body r = Some body /\ unmarshal generic_payload "" body = Some fullName /\
    db_projects d !! k = Some project /\ proj_GithubRepository project = NormalizeRepo (TrimSpace fullName) /\
    secret_for d (hq_event r) project secret /\ TrimSpace secret <> "" /\
    HasPrefix (hq_signature r) "sha256=" = true /\
    hex_Decode (bytes_of (TrimPrefix (hq_signature r) "sha256=")) = Some (hmac_sha256 (bytes_of secret) body).

Lemma enforce_ok body sig secret :
  enforceSignature body sig secret = None ->
  TrimSpace secret <> "" /\ HasPrefix sig "sha256=" = true /\
  hex_Decode (bytes_of (TrimPrefix sig "sha256=")) = Some (hmac_sha256 (bytes_of secret) body).
Proof.
  unfold enforceSignature. intros H. destruct (String.eqb_spec (TrimSpace secret) ""); [done|].
  destruct (String.eqb sig ""); [done|]. destruct (HasPrefix sig "sha256="); simpl in H; [|done].
  destruct (hex_Decode _) as [s|]; [|done]. case_bool_decide; [|done]. by subst.
Qed.

Lemma secret_silent event body project : silent (webhook_secret h event body project).
Proof.
  unfold webhook_secret, decode_payload, resolveWorkflowJobSecret, or_reply, hbind, next, reply. solve_silent.
Qed.

Lemma secret_found event body project w s w1 :
  webhook_secret h event body project w = (Ret (inr s), w1) -> secret_for (w_db w) event project s.
Proof.
  unfold webhook_secret, secret_for. destruct (String.eqb event "workflow_job"); [|by intros [=]].
  unfold decode_payload, hbind. destruct (unmarshal _ _ body) as [e|]; [|by intros [=]]. simpl. unfold bind at 1; simpl.
  intros H%or_reply_inv. unfold resolveWorkflowJobSecret in H. apply bind_inv in H as (rows & w2 & Hq & H).
  apply query_inv in Hq as (Hq & ->). destruct (ResolveIntegrationForOwner _ _) as [i|] eqn:E; [|done].
  injection H as <- <-. exists rows, i, (sql_now w). split; [done|]. split; [|done].
  unfold ResolveIntegrationForOwner in E. case_match; [done|]. apply find_some in E as [E _]. by apply list_elem_of_In.
Qed.

Lemma project_found repo t d p : ProjectFindByGitHubRepo repo t d = inr p -> exists k, db_projects d !! k = Some p /\ proj_GithubRepository p = repo.
Proof.
  unfold ProjectFindByGitHubRepo, any_order. intros H.
  assert (p ∈ sort_by (fun _ _ => true) (rows (fun r => String.eqb (proj_GithubRepository r) repo) (db_projects d))) as Hin.
  { destruct (sort_by _ _); [done|]. injection H as ->. constructor. }
  rewrite sort_by_elem in Hin. apply elem_of_rows in Hin as [Hr (k & Hk)]. apply String.eqb_eq in Hr. eauto.
Qed.

End authentic.

(** C16: A request to the webhook has no effect at all, neither on the database
    nor on anything outside the process, unless it is a POST whose body names a
    connected repository and whose signature is the HMAC-SHA256 of that body
    under a secret, not blank, that belongs to the project. *)
Theorem webhook_authentic (env : Env) (S : Sorter) (U : Unicode) (UF : UnicodeFold) (crypto : Crypto) (h : WebhookHandler)
    (r : HookRequest) (w : World) :
  let w' := (ServeHTTP h r w).2 in
  authentic h (w_db w) r \/ (w_db w' = w_db w /\ w_log w' = w_log w).
Proof.
  cbv zeta. assert (forall m : step_of HookBody (Response HookBody),
    authentic h (w_db w) r \/ (w_db (m w).2 = w_db w /\ w_log (m w).2 = w_log w) ->
    authentic h (w_db w) r \/ (w_db (handle m w).2 = w_db w /\ w_log (handle m w).2 = w_log w)) as Hh.
  { intros m [H|H]; [by left|]. right. unfold handle, bind. destruct (m w) as [[[]| | |] w1]; done. }
  apply Hh. clear Hh. unfold ServeHTTP.
  destruct (String.eqb_spec (hq_method r) "POST") as [Hmethod|]; simpl; [|by right].
  destruct (hq_body r) as [body|] eqn:Hbody; [|by right]. case_match; [by right|].
  unfold decode_payload. destruct (unmarshal generic_payload "" body) as [fullName|] eqn:Hgen; [|by right].
  rewrite hbind_next. case_match; [by right|].
  silent_case ltac:(unfold or_reply; solve_silent) ipattern:([(p & w1 & Hp & Hd1 & Hl1 & ->)|H1]); [|by right].
  apply or_reply_inv, query_inv in Hp as (Hp & _). apply project_found in Hp as (k & Hk & Hrepo).
  silent_case ltac:(apply secret_silent) ipattern:([(s & w2 & Hs & Hd2 & Hl2 & ->)|[H1 H2]]); [|right; by rewrite H1, H2].
  apply secret_found in Hs. rewrite Hd1 in Hs.
  destruct (enforceSignature body (hq_signature r) s) as [[status text]|] eqn:Es; [right; simpl; by rewrite Hd2, Hl2|].
  left. split; [done|]. apply enforce_ok in Es as (E1 & E2 & E3). by exists body, fullName, k, p, s.
Qed.

(** ** Pushes *)

(** *** Which services a push concerns *)

(** A changed file is the root directory, or lies below it. *)
Definition within_root (root file : string) : Prop :=
  let root := TrimSpace root in
  let file := TrimPrefix (TrimSpace file) "/" in
  root = "" \/ root = "/" \/
  exists dir, dir = TrimSuffix (TrimPrefix root "/") "/" /\ (dir = "" \/ file = dir \/ exists rest, file = dir +:+ "/" +:+ rest).

(** The files of a push, all commits together. *)
Definition push_files (push : pushEvent) : list string :=
  pu_Commits push ≫= (fun c => pc_Added c ++ pc_Modified c ++ pc_Removed c).

(** A service is built on every push unless it asks for changes below its root
    directory; the files of a push without commits, with as many as the payload
    can hold, or without files are not known, and then it is built too. *)
Definition concerns (push : pushEvent) (s : Service) : Prop :=
  svc_BuildOnlyOnRootChanges s = false \/
  pu_Commits push = [] \/ (2048 <= length (pu_Commits push))%nat \/ push_files push = [] \/
  exists file, file ∈ push_files push /\ within_root (svc_RootDirectory s) file.

Lemma root_matches root files :
  files <> [] -> rootDirectoryMatchesChangedFiles root files = true <-> exists file, file ∈ files /\ within_root root file.
Proof.
  intros Hf. assert (exists file, file ∈ files) as [f0 Hf0] by (destruct files as [|f ?]; [done|exists f; constructor]).
  assert ((0 <? length files)%nat = true) as Hl by (apply Nat.ltb_lt; destruct files; simpl; [done|lia]).
  unfold rootDirectoryMatchesChangedFiles, within_root. cbv zeta. set (root' := TrimSpace root).
  destruct (String.eqb_spec root' "") as [E|N1]; [rewrite Hl; split; [intros _; exists f0; auto|done]|].
  destruct (String.eqb_spec root' "/") as [E|N2]; [rewrite Hl; split; [intros _; exists f0; auto|done]|]. cbn [orb].
  set (dir := TrimSuffix (TrimPrefix root' "/") "/"). destruct (String.eqb_spec dir "") as [E|N3].
  { rewrite Hl. split; [intros _; exists f0; split; [done|]; do 2 right; exists dir; auto|done]. }
  rewrite existsb_exists. setoid_rewrite list_elem_of_In. split.
  - intros (f & Hin & [H|H]%orb_prop).
    + rewrite trim_suffix_app in H. apply String.eqb_eq in H. exists f. split; [done|]. do 2 right. exists dir. auto.
    + apply has_prefix_iff in H as [rest H]. exists f. split; [done|]. do 2 right. exists dir. split; [done|]. do 2 right. exists rest.
      by rewrite H, string_app_assoc.
  - intros (f & Hin & [H|[H|(dir' & -> & [H|[H|[rest H]]])]]); [by destruct N1|by destruct N2|by destruct N3| |]; exists f; (split; [done|]); apply orb_true_iff.
    + left. rewrite trim_suffix_app. by apply String.eqb_eq.
    + right. apply has_prefix_iff. exists rest. by rewrite H, string_app_assoc.
Qed.

Lemma should_create_concerns push s : shouldCreateDeploymentForService s push = true <-> concerns push s.
Proof.
  unfold shouldCreateDeploymentForService, shouldCreateDeploymentForRoot, concerns, pushChangedFiles, maxPushCommitsInWebhook. cbv zeta.
  fold (push_files push). destruct (svc_BuildOnlyOnRootChanges s); simpl; [|split; auto].
  destruct (Z.eqb_spec (Z.of_nat (length (pu_Commits push))) 0) as [E|N]; [split; [intros _; right; left; destruct (pu_Commits push); simpl in E; [done|lia]|done]|].
  destruct (Z.leb_spec 2048 (Z.of_nat (length (pu_Commits push)))) as [L|L]; [split; [intros _; do 2 right; left; lia|done]|].
  destruct (Nat.eqb_spec (length (push_files push)) 0) as [E|Nf]; [split; [intros _; do 3 right; left; by destruct (push_files push)|done]|].
  rewrite root_matches by (intros E; by rewrite E in Nf). split; [auto 6|].
  intros [?|[E|[?|[E|?]]]]; [done|by rewrite E in N|lia|by rewrite E in Nf|done].
Qed.

#[local] Instance concerns_dec push s : Decision (concerns push s).
Proof. refine (cast_if (decide (shouldCreateDeploymentForService s push = true))); by rewrite <- should_create_concerns. Defined.

(** The services a push concerns, in their order. *)
Definition concerned (push : pushEvent) (services : list Service) : list Service := filter (concerns push) services.

Lemma selected_concerned push services : List.filter (fun s => shouldCreateDeploymentForService s push) services = concerned push services.
Proof.
  induction services as [|s services IH]; [done|]. unfold concerned. rewrite filter_cons. simpl. pose proof (should_create_concerns push s) as [H1 H2].
  unfold concerned in IH. destruct (shouldCreateDeploymentForService s push), (decide (concerns push s)) as [Hc|Hc]; rewrite IH; try done; [by destruct Hc; apply H1|by apply H2 in Hc].
Qed.

Section pushes.
Context {env : Env} {S : Sorter} (project : Project) (branch : string) (push : pushEvent) (d0 : Db).

Definition push_row (t : Time) (k : UUID) (s : Service) : Deployment :=
  mkDeployment (Some k) (proj_ID project) (svc_ID s) None None None None (pu_After push) branch "production" None None false false
    None None None None None (Some t) (Some t).

(** One new deployment for each of the services [sel], and nothing else. *)
Record pushed (sel : list Service) (ids : list UUID) (d : Db) : Prop := {
  pd_frame : d = set_deployments (db_deployments d) d0;
  pd_ids : NoDup ids;
  pd_rows : Forall2 (fun s k => db_deployments d0 !! k = None /\ exists t, db_deployments d !! k = Some (push_row t k s)) sel ids;
  pd_old : forall k r, db_deployments d0 !! k = Some r -> db_deployments d !! k = Some r;
  pd_new : forall k r, db_deployments d !! k = Some r -> db_deployments d0 !! k = Some r \/ k ∈ ids
}.

Lemma pushed_start : pushed [] [] d0.
Proof. split; try done; [by destruct d0|constructor|auto]. Qed.

Lemma pushed_more sel ids d s t x d' k :
  pushed sel ids d -> insert_row t_deployments (Some k) (push_row t k s) d = inr (x, d') ->
  pushed (sel ++ [s]) (ids ++ [k]) d' /\ x = push_row t k s.
Proof.
  intros [H1 H2 H3 H4 H5] H. apply insert_row_inv in H as (k' & [= <-] & Hk & _ & -> & ->). cbn in Hk. split; [|done].
  assert (k ∉ ids) as Hnew.
  { intros Hin. apply list_elem_of_lookup in Hin as (i & Hi). destruct (Forall2_lookup_r _ _ _ _ _ H3 Hi) as (s' & _ & _ & t' & Ht). congruence. }
  assert (db_deployments d0 !! k = None) as H0.
  { destruct (db_deployments d0 !! k) as [r|] eqn:E; [|done]. apply H4 in E. congruence. }
  assert (forall m, set_deployments m d = set_deployments m d0) as Hframe by (intros m; rewrite H1; done).
  split; cbn.
  - apply Hframe.
  - apply NoDup_app. split; [done|]. split; [set_solver|apply NoDup_singleton].
  - apply Forall2_app; [|constructor; [|constructor]].
    + eapply Forall2_impl; [exact H3|]. intros s' k' (Hn & t' & Ht). split; [done|]. exists t'. rewrite lookup_insert_ne; [done|].
      intros ->. congruence.
    + split; [done|]. exists t. by rewrite lookup_insert_eq.
  - intros k' r Hr. rewrite lookup_insert_ne; [by apply H4|]. intros ->. congruence.
  - intros k' r. rewrite lookup_insert_Some. intros [[-> _]|[_ Hr]]; [set_solver|]. destruct (H5 _ _ Hr); set_solver.
Qed.

Abbreviation selected := (concerned push).

Lemma selected_cons s services :
  selected (s :: services) = if shouldCreateDeploymentForService s push then s :: selected services else selected services.
Proof. rewrite <- !selected_concerned. done. Qed.

Definition after (sel : list Service) (d : Db) : Prop := exists ids, pushed sel ids d.

Lemma push_loop services : forall acc sel,
  triple (after sel) (fold_each (push_service project branch push) services acc)
    (fun acc' d => after (sel ++ selected services) d /\ length acc'.1 = (length acc.1 + length (selected services))%nat)
    (fun d => exists sel', sel' `prefix_of` sel ++ selected services /\ after sel' d).
Proof.
  induction services as [|s services IH]; intros [created skipped] sel.
  { apply tr_ret. intros d Hd. simpl. rewrite app_nil_r. split; [done|lia]. }
  rewrite selected_cons. cbn [fold_each]. unfold push_service at 1. destruct (shouldCreateDeploymentForService s push) eqn:Hs; cbn [negb].
  - eapply (tr_bind _ _ _ (fun acc' d => after (sel ++ [s]) d /\ length acc'.1 = Datatypes.S (length created))).
    + eapply (tr_bind _ _ _ (fun _ => after sel)).
      { apply tr_reading; [solve_runs|intros d Hd; exists sel; split; [by apply prefix_app_r|done]|done]. }
      intros id. eapply (tr_bind _ _ _ (fun _ => after (sel ++ [s]))).
      * apply tr_exec; [intros d Hd; exists sel; split; [by apply prefix_app_r|done]|].
        intros t x d d' (ids & Hp) H. apply (pushed_more sel ids d s t) in H as [H _]; [|done].
        assert (after (sel ++ [s]) d') as Ha by (by exists (ids ++ [id])). split; [done|]. exists (sel ++ [s]). split; [|done].
        exists (selected services). by rewrite <- app_assoc.
      * intros dep. apply tr_ret. intros d Hd. split; [done|]. cbn. rewrite length_app. simpl. lia.
    + intros acc'. apply tr_and. intros Hl. eapply tr_conseq; [apply IH|done| |].
      * intros acc'' d. cbn. rewrite <- app_assoc. intros [H1 H2]. split; [done|]. lia.
      * intros d. by rewrite <- app_assoc.
  - eapply (tr_bind _ _ _ (fun acc' d => after sel d /\ acc'.1 = created)); [by apply tr_ret|].
    intros acc'. apply tr_and. intros Hl. eapply tr_conseq; [apply IH|done| |done].
    intros acc'' d [H1 H2]. split; [done|]. rewrite Hl in H2. exact H2.
Qed.

(** *** Without failures *)

(** Ids drawn from the [n]-th call on are new. *)
Definition fresh_deployments (n : nat) (d : Db) : Prop :=
  (forall i, (n <= i)%nat -> db_deployments d !! env_uuid i = None) /\
  (forall i j, (n <= i)%nat -> (n <= j)%nat -> env_uuid i = env_uuid j -> i = j).

Lemma push_one acc s w :
  quiet env -> fresh_deployments (w_step w) (w_db w) -> fk_required (db_projects (w_db w)) (proj_ID project) = true ->
  fk (db_services (w_db w)) (svc_ID s) = true ->
  exists acc' w', push_service project branch push acc s w = (Ret acc', w') /\ fresh_deployments (w_step w') (w_db w') /\
    db_projects (w_db w') = db_projects (w_db w) /\ db_services (w_db w') = db_services (w_db w).
Proof.
  intros Hq Hfresh Hp Hs. destruct acc as [created skipped]. unfold push_service. destruct (negb _); [by eexists _, w|].
  rewrite (bind_ret _ _ _ (env_uuid (w_step w)) (tick w)) by done.
  assert (DeploymentCreate (Some (env_uuid (w_step w))) (proj_ID project) (svc_ID s) None None None (pu_After push) branch "production" None
            (sql_now (tick w)) (w_db w) =
          inr (push_row (sql_now (tick w)) (env_uuid (w_step w)) s,
               set_deployments (<[env_uuid (w_step w) := push_row (sql_now (tick w)) (env_uuid (w_step w)) s]> (db_deployments (w_db w))) (w_db w))) as Hc.
  { unfold DeploymentCreate, insert_row. cbn [t_deployments t_get t_ok t_set]. rewrite (proj1 Hfresh) by done.
    unfold deployment_ok. cbn [dep_ProjectID dep_ServiceID dep_BuildID dep_ImageID dep_VmID dep_PreviewEnvironmentID dep_DeploymentKind].
    by rewrite Hp, Hs. }
  unfold bind at 1. rewrite quiet_exec by done. change (w_db (tick w)) with (w_db w). rewrite Hc.
  eexists _, _. split; [done|]. split; [|done]. destruct Hfresh as [H1 H2]. split; cbn.
  - intros i Hi. rewrite lookup_insert_ne; [apply H1; lia|]. intros E. apply H2 in E; lia.
  - intros i j Hi Hj. apply H2; lia.
Qed.

Lemma push_loop_returns services : forall acc w,
  quiet env -> fresh_deployments (w_step w) (w_db w) -> fk_required (db_projects (w_db w)) (proj_ID project) = true ->
  Forall (fun s => fk (db_services (w_db w)) (svc_ID s) = true) services ->
  exists acc' w', fold_each (push_service project branch push) services acc w = (Ret acc', w').
Proof.
  induction services as [|s services IH]; intros acc w Hq Hf Hp Hs; [by eexists _, _|].
  apply Forall_cons in Hs as [Hs Hss]. destruct (push_one acc s w Hq Hf Hp Hs) as (acc' & w1 & H1 & Hf1 & Hd1 & Hs1).
  cbn [fold_each]. rewrite (bind_ret _ _ _ acc' w1) by done. apply IH; [done|done|by rewrite Hd1|by rewrite Hs1].
Qed.

End pushes.

(** C18: A push to main or master adds to the database one production deployment
    of its commit for each service it concerns (one built on every push, or one
    whose root directory is or contains a changed file, or every one when the
    changed files are not known), in order and at most, and nothing else; and
    when the database answers, the ids drawn are new and the rows are in place,
    exactly one for each of them. *)
Theorem push_deploys (env : Env) (S : Sorter) (body : list N) (project : Project) (push : pushEvent) (services : list Service) (w : World) :
  unmarshal push_payload zero_push body = Some push ->
  let branch := TrimPrefix (pu_Ref push) "refs/heads/" in
  branch = "main" \/ branch = "master" ->
  ServiceListByProjectID (proj_ID project) 0 (w_db w) = inr services ->
  let r := handlePush body project w in
  (exists sel ids, sel `prefix_of` concerned push services /\ pushed project branch push (w_db w) sel ids (w_db r.2)) /\
  (quiet env -> fresh_deployments (w_step w) (w_db w) -> fk_required (db_projects (w_db w)) (proj_ID project) = true ->
   Forall (fun s => fk (db_services (w_db w)) (svc_ID s) = true) services ->
   exists ids created skipped,
     r.1 = Ret (inr (RespJSON (if (length created =? 0)%nat then StatusOK else StatusCreated)
                       (HookPush (proj_Name project) (pu_After push) created skipped))) /\
     pushed project branch push (w_db w) (concerned push services) ids (w_db r.2) /\ length created = length (concerned push services)).
Proof.
  intros Hpush branch Hbranch Hserv r.
  assert (handlePush body project =
    (let? services := or_reply (query (ServiceListByProjectID (proj_ID project))) internal_error in
     let? '(created, skipped) := or_reply (fold_each (push_service project branch push) services ([], [])) internal_error in
     next (RespJSON (if (length created =? 0)%nat then StatusOK else StatusCreated) (HookPush (proj_Name project) (pu_After push) created skipped)))) as Hh.
  { unfold handlePush, decode_payload. rewrite Hpush.
    match goal with |- hbind (next ?a) ?k = _ => change (hbind (next a) k) with (k a) end. cbv beta zeta. fold branch.
    destruct Hbranch as [Hb|Hb]; rewrite Hb; reflexivity. }
  set (d0 := w_db w). set (after' := fun d => exists sel ids, sel `prefix_of` concerned push services /\ pushed project branch push d0 sel ids d).
  assert (after' d0) as H0 by (exists [], []; split; [apply prefix_nil|apply pushed_start]).
  assert (htr (fun d => d = d0) (handlePush body project)
    (fun resp d => exists ids created skipped, resp = RespJSON (if (length created =? 0)%nat then StatusOK else StatusCreated)
                       (HookPush (proj_Name project) (pu_After push) created skipped) /\
       pushed project branch push d0 (concerned push services) ids d /\ length created = length (concerned push services))
    (fun _ => after') after') as Ht.
  { rewrite Hh. eapply (htr_bind _ _ _ (fun l d => d = d0 /\ l = services)).
    - apply htr_or_reply, tr_query; [by intros d ->|]. intros t l d -> H. split; [done|]. change (ServiceListByProjectID (proj_ID project) 0 d0 = inr l) in H.
      fold d0 in Hserv. congruence.
    - intros l. apply tr_and. intros ->.
      eapply (htr_bind _ _ _ (fun acc d => (exists ids, pushed project branch push d0 (concerned push services) ids d) /\
        length acc.1 = length (concerned push services))).
      + apply htr_or_reply. eapply tr_conseq; [apply (push_loop project branch push d0 services ([], []) [])| | |].
        * intros d ->. exists []. apply pushed_start.
        * intros acc d. simpl. auto.
        * intros d (sel & Hpre & ids & Hp). simpl in Hpre. split; [|intros _]; by exists sel, ids.
      + intros [created skipped]. apply tr_and. intros Hl. apply htr_next. intros d (ids & Hp). by exists ids, created, skipped. }
  specialize (Ht w eq_refl). fold r in Ht. split.
  - destruct (r.1) as [[resp|resp]| | |]; try exact Ht. destruct Ht as (ids & created & skipped & _ & Hp & _). by exists (concerned push services), ids.
  - intros Hq Hf Hp Hs.
    assert (exists resp, r.1 = Ret (inr resp)) as [resp Hr].
    { unfold r. rewrite Hh. rewrite (or_reply_ret _ _ _ _ services (tick w)) by (by apply quiet_read).
      destruct (push_loop_returns project branch push services ([], []) (tick w)) as ([created skipped] & w' & Hw'); [done| |done|done|].
      { destruct Hf as [F1 F2]. split; [intros i Hi; apply F1|intros i j Hi Hj; apply F2]; simpl in *; lia. }
      rewrite (or_reply_ret _ _ _ _ _ _ Hw'). by eexists. }
    rewrite Hr in Ht. destruct Ht as (ids & created & skipped & -> & Hp' & Hl). by exists ids, created, skipped.
Qed.

Definition sample_push : list N :=
  quoted "{'ref':'refs/heads/main','after':'abc123','repository':{'full_name':'acme/shop'},'commits':[{'modified':['web/index.ts']}]}".

Lemma sample_deployments_small k : (100 <= k)%N -> db_deployments sample_db !! k = None.
Proof. intros H. unfold sample_db. cbn [db_deployments]. rewrite !lookup_insert_ne by lia. apply lookup_singleton_ne. lia. Qed.

Lemma sample_ids_fresh : fresh_deployments (w_step sample_world) (w_db sample_world).
Proof.
  split.
  - intros i _. apply sample_deployments_small. change (env_uuid i) with (1000 + N.of_nat i)%N. lia.
  - intros i j _ _ H. change (1000 + N.of_nat i = 1000 + N.of_nat j)%N in H. lia.
Qed.

Definition sample_push_event : pushEvent := default zero_push (unmarshal push_payload zero_push sample_push).
Definition sample_services : list Service :=
  match ServiceListByProjectID (proj_ID sample_project) 0 sample_db with inr l => l | inl _ => [] end.

Lemma push_deploys_witness :
  exists ids created skipped,
    (handlePush sample_push sample_project sample_world).1 =
      Ret (inr (RespJSON StatusCreated (HookPush "Shop" "abc123" created skipped))) /\ length created = 2%nat /\
    pushed sample_project "main" sample_push_event sample_db (concerned sample_push_event sample_services) ids
      (w_db (handlePush sample_push sample_project sample_world).2).
Proof.
  assert (length (concerned sample_push_event sample_services) = 2%nat) as Hsel by (vm_compute; reflexivity).
  destruct (push_deploys sample_env insertion_sorter sample_push sample_project sample_push_event sample_services sample_world) as [_ H].
  - vm_compute. reflexivity.
  - left. vm_compute. reflexivity.
  - vm_compute. reflexivity.
  - destruct H as (ids & created & skipped & Hr & Hp & Hl).
    + intros n. reflexivity.
    + apply sample_ids_fresh.
    + vm_compute. reflexivity.
    + unfold sample_services. vm_compute. repeat constructor.
    + exists ids, created, skipped. rewrite Hsel in Hl. rewrite Hl in Hr. split; [exact Hr|]. split; [exact Hl|exact Hp].
Defined.
