(* ===== verification/PreviewProofs.v ===== *)
(** * Pull requests and their preview environments

    [handlePullRequestSync] of internal/webhook/github.go: an opened or updated
    pull request leaves its environment, its newest deployment and its stable
    host name pointing at each other, and touches nothing else. *)

From S2P Require Import Prelude NetAddr Text Models Runtime Effects Queries Logic EventLogic TableFacts Lifecycle Deploy PreviewCleanup Codecs Secrets Config VolumeQueries Json Api DbLogic GithubActions EventQueries Webhook WebhookProofs Sample.

Section sync.
Context {env : Env} {S : Sorter} (project : Project) (prNum : Z) (headBranch sha stableHost : string) (d0 : Db).

(** Rows lie under their ids. *)
Record previews_keyed (d : Db) : Prop := {
  pk_previews : forall k r, db_previews d !! k = Some r -> pe_ID r = Some k;
  pk_domains : forall k r, db_domains d !! k = Some r -> dom_ID r = Some k
}.
Hypothesis Hkeyed : previews_keyed d0.

Definition put_row {R} (o : option (UUID * R)) (m : gmap UUID R) : gmap UUID R :=
  match o with Some (k, r) => <[k := r]> m | None => m end.

(** One environment changed or added, perhaps a deployment and a domain. *)
Definition sync_state (kpe : UUID) (pe : PreviewEnvironment) (dep : option (UUID * Deployment)) (dom : option (UUID * Domain)) : Db :=
  set_domains (put_row dom (db_domains d0))
    (set_deployments (put_row dep (db_deployments d0)) (set_previews (<[kpe := pe]> (db_previews d0)) d0)).

(** The environment of the pull request, open at the given commit. *)
Record sync_env (kpe : UUID) (pe : PreviewEnvironment) : Prop := {
  se_id : pe_ID pe = Some kpe;
  se_project : col_eq (pe_ProjectID pe) (proj_ID project) = true;
  se_pr : pe_PrNumber pe = prNum;
  se_branch : pe_HeadBranch pe = headBranch;
  se_sha : pe_HeadSha pe = sha;
  se_open : pe_ClosedAt pe = None /\ pe_ExpiresAt pe = None;
  se_same : forall r, db_previews d0 !! kpe = Some r ->
    col_eq (pe_ProjectID r) (proj_ID project) = true /\ pe_Provider r = "github" /\ pe_PrNumber r = prNum
}.

(** A new preview deployment of that environment. *)
Record sync_dep (kpe kdep : UUID) (dep : Deployment) : Prop := {
  sd_new : db_deployments d0 !! kdep = None;
  sd_id : dep_ID dep = Some kdep;
  sd_project : dep_ProjectID dep = proj_ID project;
  sd_commit : dep_GithubCommit dep = sha;
  sd_kind : dep_DeploymentKind dep = "preview";
  sd_env : dep_PreviewEnvironmentID dep = Some kpe
}.

(** The stable domain of that environment: new, or the one it had. *)
Record sync_dom (kpe kdep kdom : UUID) (dom : Domain) : Prop := {
  sm_env : dom_PreviewEnvironmentID dom = Some kpe;
  sm_kind : dom_DomainKind dom = "preview_stable";
  sm_dep : dom_DeploymentID dom = Some kdep;
  sm_same : forall r, db_domains d0 !! kdom = Some r -> dom_PreviewEnvironmentID r = Some kpe /\ dom_DomainKind r = "preview_stable"
}.

Definition env_at (pe : PreviewEnvironment) (d : Db) : Prop :=
  exists kpe, d = sync_state kpe pe None None /\ sync_env kpe pe.

Definition dep_at (kpe kdep : UUID) (d : Db) : Prop :=
  exists pe dep, d = sync_state kpe pe (Some (kdep, dep)) None /\ sync_env kpe pe /\ sync_dep kpe kdep dep.

Definition latest_at (kpe kdep : UUID) (d : Db) : Prop :=
  exists pe dep, d = sync_state kpe pe (Some (kdep, dep)) None /\ sync_env kpe pe /\ sync_dep kpe kdep dep /\
    pe_LatestDeploymentID pe = Some kdep.

Definition complete (kdep : UUID) (d : Db) : Prop :=
  exists kpe pe dep kdom dom, d = sync_state kpe pe (Some (kdep, dep)) (Some (kdom, dom)) /\ sync_env kpe pe /\
    sync_dep kpe kdep dep /\ pe_LatestDeploymentID pe = Some kdep /\ sync_dom kpe kdep kdom dom.

(** Whatever happens: rows of this pull request only. *)
Definition touched (d : Db) : Prop :=
  d = d0 \/ (exists pe, env_at pe d) \/ (exists kpe kdep, dep_at kpe kdep d) \/ (exists kdep, complete kdep d).

Abbreviation start := (fun d : Db => d = d0).
Abbreviation hs P m Q := (htr (B := HookBody) P m Q (fun _ => touched) touched).

Lemma touched_start d : d = d0 -> touched d.
Proof. by left. Qed.
Lemma touched_env pe d : env_at pe d -> touched d.
Proof. right. left. eauto. Qed.
Lemma touched_dep kpe kdep d : dep_at kpe kdep d -> touched d.
Proof. right. right. left. eauto. Qed.
Lemma latest_dep kpe kdep d : latest_at kpe kdep d -> dep_at kpe kdep d.
Proof. intros (pe & dep & H1 & H2 & H3 & _). by exists pe, dep. Qed.

Lemma reads_step {A} (P : Db -> Prop) (m : M A) : runs no_stmt m -> (forall d, P d -> touched d) -> triple P m (fun _ => P) touched.
Proof. intros Hm HP. by apply tr_reading. Qed.

Lemma env_step service : hs start (preview_environment project service prNum headBranch sha stableHost) env_at.
Proof.
  unfold preview_environment. eapply (htr_m _ _ _ (fun r d => d = d0 /\ match r with
       | inr pe => exists t, PreviewEnvironmentByProjectAndPR (proj_ID project) "github" prNum t d0 = inr pe | inl _ => True end)).
  { apply tr_attempt, tr_query; [intros d Hd; split; [by left|done]|]. intros t x d -> H. eauto. }
  intros [e|r].
  - apply (tr_pre _ start); [|by intros d [? _]]. destruct (is_no_rows e); [|apply htr_reply; by left].
    eapply (htr_m _ _ _ (fun _ => start)); [by apply reads_step; [solve_runs|left]|]. intros id.
    apply htr_or_reply, tr_exec; [intros d Hd; split; [by left|]; intros; by left|].
    intros t x d d' -> H. unfold PreviewEnvironmentCreate in H. apply insert_row_inv in H as (k & [= ->] & Hk & Hok & -> & ->). cbn in Hk.
    assert (env_at (mkPreviewEnvironment (Some k) (proj_ID project) (svc_ID service) "github" prNum headBranch sha None stableHost None None (Some t) (Some t))
      (t_set t_previews (<[k := mkPreviewEnvironment (Some k) (proj_ID project) (svc_ID service) "github" prNum headBranch sha None stableHost None None (Some t) (Some t)]>
         (t_get t_previews d0)) d0)) as He.
    { exists k. split; [done|]. split; try done; [|by rewrite Hk]. cbn. unfold preview_ok, fk_required in Hok. cbn in Hok.
      destruct (proj_ID project); [simpl; by apply bool_decide_eq_true|done]. }
    split; [done|]. split; [by eapply touched_env|]. intros. by eapply touched_env.
  - apply (tr_and _ start). intros (t0 & Hf). apply htr_or_reply, tr_exec; [intros d Hd; split; [by left|]; intros; by left|].
    intros t x d d' -> H. unfold PreviewEnvironmentReopen in H. apply returning_inv in H as (k & r' & Hid & Hr' & _ & _ & -> & ->). cbn in Hr'.
    unfold PreviewEnvironmentByProjectAndPR in Hf.
    assert (r ∈ rows (fun r => col_eq (pe_ProjectID r) (proj_ID project) && String.eqb (pe_Provider r) "github" && (pe_PrNumber r =? prNum)) (db_previews d0)) as Hin.
    { destruct (rows _ _); [done|]. injection Hf as ->. constructor. }
    apply elem_of_rows in Hin as [Hq (k0 & Hk0)]. apply (pk_previews d0 Hkeyed) in Hk0 as Hk0'. rewrite Hid in Hk0'. injection Hk0' as <-.
    rewrite Hk0 in Hr'. injection Hr' as <-.
    apply andb_true_iff in Hq as [[Hq1 Hq2]%andb_true_iff Hq3%Z.eqb_eq]. apply String.eqb_eq in Hq2.
    match goal with |- env_at ?x ?d /\ _ => assert (env_at x d) as He end.
    { exists k. split; [done|]. split; try done. intros r' Hr'. rewrite Hk0 in Hr'. by injection Hr' as <-. }
    split; [done|]. split; [by eapply touched_env|]. intros. by eapply touched_env.
Qed.


(** [x] is the value and the end state both of success and of an answer lost. *)
Lemma exec_step {A} (P : Db -> Prop) (f : writes A) (Q : A -> Db -> Prop) on_err :
  (forall d, P d -> touched d) -> (forall t x d d', P d -> f t d = inr (x, d') -> Q x d') -> (forall x d, Q x d -> touched d) ->
  hs P (or_reply (exec f) on_err) Q.
Proof.
  intros HP HQ HT. apply htr_or_reply, tr_exec; [intros d Hd; split; [|intros _]; by apply HP|].
  intros t x d d' Hd H. assert (Q x d') as Hx by (by eapply HQ). split; [done|]. split; [|intros _]; by eapply HT.
Qed.

Lemma dep_step id service pe :
  hs (env_at pe)
     (or_reply (exec (DeploymentCreate (Some id) (proj_ID project) (svc_ID service) None None None sha headBranch "preview" (pe_ID pe))) internal_error)
     (fun dep d => exists kpe kdep, pe_ID pe = Some kpe /\ dep_ID dep = Some kdep /\ dep_at kpe kdep d).
Proof.
  apply exec_step; [apply touched_env| |].
  - intros t x d d' (kpe & -> & He) H. unfold DeploymentCreate in H. apply insert_row_inv in H as (k & [= ->] & Hk & _ & -> & ->). cbn in Hk.
    exists kpe, k. pose proof (se_id _ _ He) as Hid. split; [done|]. split; [done|].
    eexists pe, _. split; [reflexivity|]. split; [done|]. by split.
  - intros x d (kpe & kdep & _ & _ & H). by eapply touched_dep.
Qed.

Lemma latest_step kpe kdep :
  hs (dep_at kpe kdep) (or_reply (exec (PreviewEnvironmentSetLatestDeployment (Some kpe) (Some kdep))) internal_error)
     (fun _ => latest_at kpe kdep).
Proof.
  apply exec_step; [apply touched_dep| |intros _ d H; by eapply touched_dep, latest_dep].
  intros t x d d' (pe & dep & -> & He & Hd) H. unfold PreviewEnvironmentSetLatestDeployment in H.
  eapply (executing_present _ kpe pe) in H; [|cbn; by rewrite lookup_insert_eq|done]. subst d'. cbn beta.
  set (pe' := mkPreviewEnvironment _ _ _ _ _ _ _ _ _ _ _ _ _).
  exists pe', dep. split; [|split; [|split; [done|]]].
  - unfold sync_state. cbn -[pe']. by rewrite insert_insert_eq.
  - destruct He. by split.
  - done.
Qed.

Lemma touched_complete kdep d : complete kdep d -> touched d.
Proof. right. right. right. eauto. Qed.

Lemma latest_domains kpe kdep d : latest_at kpe kdep d -> db_domains d = db_domains d0.
Proof. by intros (pe & dep & -> & _). Qed.

Lemma domain_complete kpe kdep kdom dom d d' :
  latest_at kpe kdep d -> sync_dom kpe kdep kdom dom -> d' = set_domains (<[kdom := dom]> (db_domains d)) d -> complete kdep d'.
Proof. intros (pe & dep & -> & He & Hd & Hl) Hdom ->. exists kpe, pe, dep, kdom, dom. done. Qed.

Lemma domain_step service kpe kdep :
  hs (latest_at kpe kdep) (stable_domain project service (Some kdep) (Some kpe) stableHost) (fun _ => complete kdep).
Proof.
  unfold stable_domain.
  eapply (htr_m _ _ _ (fun r d => latest_at kpe kdep d /\ match r with
       | inr dom => exists k, db_domains d0 !! k = Some dom /\ dom_PreviewEnvironmentID dom = Some kpe /\ dom_DomainKind dom = "preview_stable"
       | inl _ => True end)).
  { apply tr_attempt, tr_query; [intros d Hd; split; [by eapply touched_dep, latest_dep|done]|]. intros t x d Hd H. split; [done|].
    unfold DomainFindByPreviewEnvironmentAndKind in H. rewrite (latest_domains _ _ _ Hd) in H.
    assert (x ∈ rows (fun r => col_eq (dom_PreviewEnvironmentID r) (Some kpe) && String.eqb (dom_DomainKind r) "preview_stable") (db_domains d0)) as Hin.
    { destruct (rows _ _); [done|]. injection H as ->. constructor. }
    apply elem_of_rows in Hin as [[Hq1 Hq2%String.eqb_eq]%andb_true_iff (k & Hk)]. exists k. split; [done|]. split; [|done].
    destruct (dom_PreviewEnvironmentID x); [|done]. simpl in Hq1. by apply bool_decide_eq_true in Hq1 as ->. }
  intros [e|dom].
  - apply (tr_pre _ (latest_at kpe kdep)); [|by intros d [? _]].
    destruct (is_no_rows e); [|apply htr_reply; intros d Hd; by eapply touched_dep, latest_dep].
    eapply (htr_m _ _ _ (fun _ => latest_at kpe kdep)).
    { apply reads_step; [solve_runs|]. intros d Hd. by eapply touched_dep, latest_dep. }
    intros id. eapply (htr_bind _ _ _ (fun _ => complete kdep)); [|intros; by apply htr_next].
    apply exec_step; [intros d Hd; by eapply touched_dep, latest_dep| |by intros; eapply touched_complete].
    intros t x d d' Hd H. unfold DomainCreatePreview in H. apply insert_row_inv in H as (k & [= ->] & Hk & _ & -> & ->). cbn in Hk.
    rewrite (latest_domains _ _ _ Hd) in Hk. eapply domain_complete; [done| |reflexivity]. by split; try (rewrite Hk).
  - apply tr_and. intros (k & Hk & Hpe & Hkind).
    apply exec_step; [intros d Hd; by eapply touched_dep, latest_dep| |by intros; eapply touched_complete].
    intros t x d d' Hd H. unfold DomainUpdateDeploymentForDomainID in H. rewrite (pk_domains d0 Hkeyed k dom Hk) in H.
    eapply (executing_present _ k dom) in H; [|cbn; by rewrite (latest_domains _ _ _ Hd)|done].
    eapply domain_complete; [done| |exact H]. split; try done. intros r Hr. rewrite Hk in Hr. by injection Hr as <-.
Qed.

End sync.

(** ** The handler *)

Section handler.
Context {env : Env} {S : Sorter} (project : Project) (payload : pullRequestEvent) (baseDomain : string) (d0 : Db) (Hkeyed : previews_keyed d0).
Let sha := TrimSpace (pre_HeadSha payload).
Let branch := TrimPrefix (pre_HeadRef payload) "refs/heads/".
Let prNum := wrap32 (pre_Number payload).
Abbreviation touched' := (touched project prNum branch sha d0).
Abbreviation complete' := (complete project prNum branch sha d0).

Lemma sync_handler :
  htr (fun d => d = d0) (handlePullRequestSync project payload baseDomain)
    (fun resp d => exists kdep host, resp = RespJSON StatusCreated (HookPreview (Some kdep) (proj_Name project) prNum sha host) /\ complete' kdep d)
    (fun _ => touched') touched'.
Proof.
  unfold handlePullRequestSync. fold sha branch prNum. cbv zeta. destruct (String.eqb sha ""); [apply htr_reply; by left|].
  eapply (htr_bind _ _ _ (fun _ d => d = d0)).
  { apply htr_or_reply, tr_query; [|by intros]. intros d Hd. split; [|intros _]; by left. }
  intros service. set (host := StableHostname _ _ _ _). destruct (String.eqb host ""); [apply htr_reply; by left|].
  eapply htr_bind; [by apply env_step|]. intros pe. cbv beta.
  eapply (htr_m _ _ _ (fun _ => env_at project prNum branch sha d0 pe)).
  { apply reads_step; [solve_runs|]. intros d Hd. by eapply touched_env. }
  intros id. eapply htr_bind; [by apply dep_step|]. intros dep. cbv beta.
  eapply tr_pre; [|intros d H; exact H]. intros w (kpe & kdep & -> & -> & Hw). revert w Hw.
  change (htr (dep_at project prNum branch sha d0 kpe kdep)
    (let? _ := or_reply (exec (PreviewEnvironmentSetLatestDeployment (Some kpe) (Some kdep))) internal_error in
     let? _ := stable_domain project service (Some kdep) (Some kpe) host in
     next (RespJSON StatusCreated (HookPreview (Some kdep) (proj_Name project) prNum sha host)))
    (fun resp d => exists kdep host, resp = RespJSON StatusCreated (HookPreview (Some kdep) (proj_Name project) prNum sha host) /\ complete' kdep d)
    (fun _ => touched') touched').
  eapply htr_bind; [by apply latest_step|]. intros []. eapply htr_bind; [by apply domain_step|]. intros [].  
  apply htr_next. intros d Hd. by exists kdep, host.
Qed.

(** *** The first event of a pull request *)

(** The project and its primary service are in place, the pull request has no
    environment, its host name is free and the ids to be drawn are unused. *)
Record first_event (service : Service) (n : nat) : Prop := {
  fe_sha : String.eqb sha "" = false;
  fe_service : ServicePrimaryByProjectID (proj_ID project) 0 d0 = inr service;
  fe_project : fk_required (db_projects d0) (proj_ID project) = true;
  fe_fk : fk (db_services d0) (svc_ID service) = true;
  fe_host : String.eqb (StableHostname (pre_Number payload) (svc_Slug service) (proj_Name project) baseDomain) "" = false;
  fe_none : forall k r, db_previews d0 !! k = Some r ->
    col_eq (pe_ProjectID r) (proj_ID project) && String.eqb (pe_Provider r) "github" && (pe_PrNumber r =? prNum) = false;
  fe_free : forall k r, db_domains d0 !! k = Some r ->
    String.eqb (dom_DomainName r) (StableHostname (pre_Number payload) (svc_Slug service) (proj_Name project) baseDomain) = false;
  fe_preview : forall i, (n <= i)%nat -> db_previews d0 !! env_uuid i = None;
  fe_deployment : forall i, (n <= i)%nat -> db_deployments d0 !! env_uuid i = None;
  fe_domain : forall i, (n <= i)%nat -> db_domains d0 !! env_uuid i = None;
  fe_unused : forall i k r, (n <= i)%nat -> db_domains d0 !! k = Some r -> col_eq (dom_PreviewEnvironmentID r) (Some (env_uuid i)) = false
}.

Lemma wrap32_int4 z : int4 (wrap32 z) = true.
Proof. unfold int4, wrap32, min_int32, max_int32. pose proof (Z.mod_pos_bound (z + 2 ^ 31) (2 ^ 32)). apply andb_true_iff. split; apply Z.leb_le; lia. Qed.

Lemma forallb_others {R} (p : R -> bool) (m : gmap UUID R) k :
  (forall k' r, m !! k' = Some r -> p r = true) -> forallb p (snd <$> map_to_list (delete k m)) = true.
Proof.
  intros H. apply forallb_forall. intros r Hr. apply list_elem_of_In, list_elem_of_fmap in Hr as ([k' r'] & -> & Hr%elem_of_map_to_list).
  apply lookup_delete_Some in Hr as [_ Hr]. by eapply H.
Qed.

Lemma quiet_reply {B A C} (Hq : quiet env) (f : writes A) on_err (k : A -> step_of B C) w a d' :
  f (sql_now w) (w_db w) = inr (a, d') -> hbind (or_reply (exec f) on_err) k w = k a (tick (set_db d' w)).
Proof. intros H. apply or_reply_ret. by rewrite quiet_exec, H. Qed.

(** The row of this pull request is the only one. *)
Lemma preview_row_ok service n d k r :
  first_event service n -> db_projects d = db_projects d0 -> db_services d = db_services d0 ->
  delete k (db_previews d) = delete k (db_previews d0) ->
  pe_ProjectID r = proj_ID project /\ pe_ServiceID r = svc_ID service /\ pe_Provider r = "github" /\ pe_PrNumber r = prNum ->
  preview_ok d k r = true.
Proof.
  intros Hf Hp Hs Hpe (H1 & H2 & H3 & H4). unfold preview_ok. rewrite H1, H2, H3, H4, Hp, Hs, Hpe, (fe_project _ _ Hf), (fe_fk _ _ Hf).
  unfold prNum at 1. rewrite wrap32_int4. simpl. apply forallb_others. intros k' o Ho. by rewrite (fe_none _ _ Hf k' o Ho).
Qed.

Lemma first_environment service w host (Hq : quiet env) (Hw : w_db w = d0) (Hf : first_event service (w_step w)) :
  exists n pe w1, (w_step w <= n)%nat /\ (w_step w <= w_step w1)%nat /\ pe_ID pe = Some (env_uuid n) /\
    (pe_ProjectID pe = proj_ID project /\ pe_ServiceID pe = svc_ID service /\ pe_Provider pe = "github" /\ pe_PrNumber pe = prNum) /\
    w_db w1 = set_previews (<[env_uuid n := pe]> (db_previews d0)) d0 /\
    preview_environment project service prNum branch sha host w = (Ret (inr pe), w1).
Proof.
  set (n := Datatypes.S (w_step w)). set (w2 := tick (tick w)).
  set (pe := mkPreviewEnvironment (Some (env_uuid n)) (proj_ID project) (svc_ID service) "github" prNum branch sha None host None None
               (Some (sql_now w2)) (Some (sql_now w2))).
  exists n, pe, (tick (set_db (set_previews (<[env_uuid n := pe]> (db_previews d0)) d0) w2)).
  split; [lia|]. split; [simpl; lia|]. split; [done|]. split; [done|]. split; [done|].
  unfold preview_environment, PreviewEnvironmentByProjectAndPR, bind, attempt. rewrite quiet_query by done. rewrite Hw.
  rewrite (rows_nil _ _ (fe_none _ _ Hf)). cbn [first_row is_no_rows]. unfold new_uuid, or_reply, bind, attempt. rewrite quiet_exec by done.
  unfold PreviewEnvironmentCreate. rewrite insert_row_ok; simpl; rewrite Hw.
  - done.
  - apply (fe_preview _ _ Hf). lia.
  - by apply (preview_row_ok service (w_step w)).
Qed.

(** What the domain needs of the state it is created in. *)
Lemma first_domain service n pe dep w host (Hq : quiet env) (Hf : first_event service n) :
  (n <= pe)%nat -> (n <= w_step w)%nat ->
  host = StableHostname (pre_Number payload) (svc_Slug service) (proj_Name project) baseDomain ->
  db_domains (w_db w) = db_domains d0 -> db_projects (w_db w) = db_projects d0 -> db_services (w_db w) = db_services d0 ->
  fk (db_deployments (w_db w)) dep = true -> fk (db_previews (w_db w)) (Some (env_uuid pe)) = true ->
  exists w', stable_domain project service dep (Some (env_uuid pe)) host w = (Ret (inr tt), w').
Proof.
  intros Hpe Hn Hhost Hd Hp Hs Hdep Hprev. eexists. unfold stable_domain, DomainFindByPreviewEnvironmentAndKind, bind, attempt.
  rewrite quiet_query by done. rewrite Hd. rewrite rows_nil.
  2:{ intros k r Hr. by rewrite (fe_unused _ _ Hf _ _ _ Hpe Hr). }
  cbn [first_row is_no_rows]. unfold new_uuid. unfold DomainCreatePreview. erewrite quiet_reply; [reflexivity|done|].
  apply insert_row_ok; simpl; [rewrite Hd; apply (fe_domain _ _ Hf); lia|]. unfold domain_ok. cbn [dom_ProjectID dom_ServiceID dom_DeploymentID dom_PreviewEnvironmentID dom_DomainKind dom_DomainName].
  rewrite Hp, Hs, Hdep, Hd, (fe_project _ _ Hf), (fe_fk _ _ Hf). simpl in Hprev |- *. rewrite Hprev. simpl.
  apply forallb_others. intros k r Hr. by rewrite Hhost, (fe_free _ _ Hf k r Hr).
Qed.

Lemma first_returns service w (Hq : quiet env) (Hw : w_db w = d0) (Hf : first_event service (w_step w)) :
  exists resp, (handlePullRequestSync project payload baseDomain w).1 = Ret (inr resp).
Proof.
  unfold handlePullRequestSync. fold sha branch prNum. cbv zeta. rewrite (fe_sha _ _ Hf).
  rewrite (or_reply_ret _ _ _ _ service (tick w)) by (apply quiet_read; [done|]; rewrite Hw; exact (fe_service _ _ Hf)).
  rewrite (fe_host _ _ Hf). set (host := StableHostname _ _ _ _).
  assert (first_event service (w_step (tick w))) as Hf' by (destruct Hf; split; try done; simpl; intros; eauto with lia).
  destruct (first_environment service (tick w) host Hq Hw Hf') as (n & pe & w1 & Hn & Hs & Hid & Hpe & Hdb & He).
  unfold hbind at 1. rewrite (bind_ret _ _ _ (inr pe) w1 He). rewrite (bind_ret _ _ _ (env_uuid (w_step w1)) (tick w1)) by done.
  unfold DeploymentCreate at 1. erewrite quiet_reply; [|done|].
  2:{ apply insert_row_ok; simpl; rewrite Hdb; [apply (fe_deployment _ _ Hf'); lia|]. unfold deployment_ok. simpl.
      rewrite (fe_project _ _ Hf), (fe_fk _ _ Hf), Hid. simpl. by rewrite lookup_insert_eq. }
  cbn [dep_ID]. rewrite Hid. change (w_db (tick w1)) with (w_db w1). rewrite Hdb. unfold PreviewEnvironmentSetLatestDeployment.
  erewrite quiet_reply; [|done|].
  2:{ apply (executing_ok _ _ pe); [cbn; by rewrite lookup_insert_eq|done|].
      apply (preview_row_ok service (w_step (tick w))); try done. cbn. by rewrite delete_insert_eq. }
  match goal with |- context [hbind _ _ ?x] => destruct (first_domain service (w_step (tick w)) n (Some (env_uuid (w_step w1))) x host Hq Hf') as (w' & Hw') end;
    try done; [simpl in *; lia|simpl; by rewrite lookup_insert_eq|simpl; by rewrite lookup_insert_eq|].
  unfold hbind. rewrite (bind_ret _ _ _ _ _ Hw'). by eexists.
Qed.

End handler.

(** C17: An opened or updated pull request changes nothing but its own preview
    environment, one new preview deployment of the head commit and the stable
    domain of that environment, whatever the database does. An answer of
    success names the deployment, and then the environment is open at the head
    commit and has it as its latest deployment, and the domain leads to it. In
    particular the first event of a pull request succeeds when nothing fails. *)
Theorem preview_sync_consistent (env : Env) (S : Sorter) (project : Project) (payload : pullRequestEvent) (baseDomain : string) (w : World) :
  previews_keyed (w_db w) ->
  let r := handlePullRequestSync project payload baseDomain w in
  let prNum := wrap32 (pre_Number payload) in
  let branch := TrimPrefix (pre_HeadRef payload) "refs/heads/" in
  let sha := TrimSpace (pre_HeadSha payload) in
  touched project prNum branch sha (w_db w) (w_db r.2) /\
  (forall resp, r.1 = Ret (inr resp) -> exists kdep host,
     resp = RespJSON StatusCreated (HookPreview (Some kdep) (proj_Name project) prNum sha host) /\
     complete project prNum branch sha (w_db w) kdep (w_db r.2)) /\
  (forall service, quiet env -> first_event project payload baseDomain (w_db w) service (w_step w) -> exists resp, r.1 = Ret (inr resp)).
Proof.
  intros Hk r prNum branch sha. pose proof (sync_handler project payload baseDomain (w_db w) Hk w eq_refl) as H. fold r in H. split; [|split].
  - destruct r.1 as [[resp|resp]| | |]; try exact H. destruct H as (kdep & host & _ & Hc). by eapply touched_complete.
  - intros resp Hr. by rewrite Hr in H.
  - intros service Hq Hf. by apply (first_returns project payload baseDomain (w_db w) service w).
Qed.

Definition sample_pull_request : pullRequestEvent := mkPullRequestEvent "opened" 7 "feature" "abc123" "acme/shop".

Definition sample_primary : Service :=
  match ServicePrimaryByProjectID (proj_ID sample_project) 0 sample_db with inr s => s | inl _ => sample_service 20 "web" end.

Lemma sample_first_event : first_event sample_project sample_pull_request "preview.example.com" sample_db sample_primary 0.
Proof.
  split; try (by vm_compute); try (intros; apply lookup_empty); try (intros *; rewrite lookup_empty; discriminate).
  - intros i _. apply sample_deployments_small. change (env_uuid i) with (1000 + N.of_nat i)%N. lia.
Qed.

Lemma preview_sync_witness :
  exists kdep host,
    (handlePullRequestSync sample_project sample_pull_request "preview.example.com" sample_world).1 =
      Ret (inr (RespJSON StatusCreated (HookPreview (Some kdep) "Shop" 7 "abc123" host))) /\
    complete sample_project 7 "feature" "abc123" sample_db kdep
      (w_db (handlePullRequestSync sample_project sample_pull_request "preview.example.com" sample_world).2).
Proof.
  destruct (preview_sync_consistent sample_env insertion_sorter sample_project sample_pull_request "preview.example.com" sample_world)
    as (_ & Hok & Hret).
  - split; intros k r; cbn; rewrite lookup_empty; discriminate.
  - destruct (Hret sample_primary) as (resp & Hr); [intros n; reflexivity|apply sample_first_event|].
    destruct (Hok resp Hr) as (kdep & host & -> & Hc). exists kdep, host. split; [exact Hr|exact Hc].
Defined.
