(* ===== verification/CiJobs.v ===== *)
(** * CI jobs

    internal/ci/service.go and internal/ci/github_runner.go: the jobs that
    GitHub's workflow_job events create and the runs of jobs. GitHub's API, the
    runner in its virtual machine, the workflow files with their compiler, and
    the unpacking of archives are parameters: calls that may do anything, also
    to the database, which other processes share. *)

From S2P Require Import Prelude NetAddr Text Models Runtime Effects Queries Codecs Secrets Config VolumeQueries Json Api GithubActions EventQueries Webhook.

(** ** What the service uses *)

Record JITConfig := mkJITConfig {
  jit_EncodedJITConfig : string;
  jit_RunnerID : Z;
  jit_RunnerURL : string
}.

(** internal/githubactions/client.go: [Client]. *)
Record Client := mkClient {
  gc_GenerateJITConfig : Integration -> string -> list string -> M JITConfig;
  gc_DeleteRunner : Integration -> Z -> M unit
}.

(** [Run] takes the registration, the runner's name, the target and the
    callback for the lines it logs. *)
Record GitHubRunnerProvisioner := mkProvisioner {
  gp_Backend : string;
  gp_SupportsTarget : RunnerTarget -> option error;
  gp_Run : JITConfig -> string -> RunnerTarget -> (string -> M unit) -> M unit
}.

Record ArtifactInfo := mkArtifactInfo { ar_Name : string; ar_Path : string }.

(** The bytes of the line begun. *)
Record lineLogWriter := mkLineLogWriter { lw_buf : list N }.

(** [Run] takes the plan and the writer with its [Write]; it answers the
    writer, the artifacts and the error. *)
Record WorkflowRunner {Plan : Type} := mkWorkflowRunner {
  wr_Backend : string;
  wr_Run : Plan -> (list N -> lineLogWriter -> M lineLogWriter) -> lineLogWriter -> M (lineLogWriter * list ArtifactInfo * option error)
}.
Arguments WorkflowRunner : clear implicits.

(** The service, with [js_unpack] for the workspace of a job's archive and
    [js_canceled] for [runCtx.Err() != nil] at a moment. *)
Record JobService {Workflow Plan : Type} := mkJobService {
  js_cfg : option (list N);
  js_serverID : UUID;
  js_publish : bool;
  js_publishJob : bool;
  js_ghClient : option Client;
  js_ghRunner : option GitHubRunnerProvisioner;
  js_unpack : CiJob -> M string;
  js_Resolve : string -> string -> error + Workflow;
  js_Compile : Workflow -> string -> string -> list (string * string) -> string -> error + Plan;
  js_NewWorkflowRunner : bool -> error + WorkflowRunner Plan;
  js_canceled : nat -> bool
}.
Arguments JobService : clear implicits.

(** [defer cleanup]. *)
Definition deferring {A} (cleanup : M unit) (m : M A) : M A := fun w =>
  match m w with
  | (Diverge, w1) => (Diverge, w1)
  | (r, w1) => (r, (cleanup w1).2)
  end.

(** ** Helpers *)

Definition isTerminalStatus (status : string) : bool := in_list ["successful"; "failed"; "canceled"] status.

(** compile.go. *)
Definition firstNonEmpty (values : list string) : string :=
  default "" (List.find (fun v => negb (String.eqb (TrimSpace v) "")) values).

Definition firstNonZero (values : list Z) : Z := default 0 (List.find (fun v => 0 <? v) values).

Definition ownerFromEvent (repo orgLogin : string) : string :=
  if negb (String.eqb (TrimSpace orgLogin) "") then TrimSpace orgLogin
  else TrimSpace (before_slash (NormalizeRepo repo)).

(** [json.Unmarshal] into a map of strings: a value that is no string leaves the
    empty one, a repeated key keeps its last value. *)
Definition decodeInputMap (raw : json) : list (string * string) :=
  match raw with
  | JObject fs =>
      foldl (fun out '(k, v) =>
        List.filter (fun '(k', _) => negb (String.eqb k' k)) out ++ [(k, match v with JString s => s | _ => "" end)]) [] fs
  | _ => []
  end.

Section labels.
Context {U : Unicode}.

(** The same as the labels' normal form in integration.go. *)
Definition normalizeRunnerLabels (labels : list string) : list string := normalizeLabels labels.

Definition hasRequiredGitHubRunnerLabels (labels : list string) : bool :=
  in_list (normalizeRunnerLabels labels) LabelSelfHosted && in_list (normalizeRunnerLabels labels) LabelKindling.

(** The labels that decode, also when others do not. *)
Definition parseRunnerLabels (raw : json) : list string := normalizeRunnerLabels (strings_payload raw []).1.

(** [json.Marshal(labels)]. *)
Definition labels_json (labels : list string) : json :=
  match labels with [] => JNull | _ => JArray (JString <$> normalizeRunnerLabels labels) end.

End labels.

(** ** The writer of a run's output *)

(** [strings.TrimRight(s, "\r")]. *)
Fixpoint drop_cr (l : list N) : list N :=
  match l with [] => [] | c :: l' => if (c =? 13)%N then drop_cr l' else l end.
Definition TrimRight_cr (l : list N) : list N := reverse (drop_cr (reverse l)).

Definition blank (l : list N) : bool := String.eqb (TrimSpace (of_bytes l)) "".

Fixpoint Write (fn : string -> M unit) (p : list N) (w : lineLogWriter) : M lineLogWriter :=
  match p with
  | [] => ret w
  | b :: p' =>
      if (b =? 10)%N then
        let line := TrimRight_cr w.(lw_buf) in
        do! when (negb (blank line)) (fn (of_bytes line)) ;
        Write fn p' (mkLineLogWriter [])
      else Write fn p' (mkLineLogWriter (w.(lw_buf) ++ [b]))
  end.

Definition Flush (fn : string -> M unit) (w : lineLogWriter) : M lineLogWriter :=
  do! when (negb (blank w.(lw_buf))) (fn (of_bytes (TrimRight_cr w.(lw_buf)))) ;
  ret (mkLineLogWriter []).

(** ** The service *)

Section service.
Context {env : Env} {S : Sorter} {U : Unicode} {UF : UnicodeFold} {crypto : Crypto} {Workflow Plan : Type} (s : JobService Workflow Plan).

Definition publishProject (projectID : UUID) : M unit :=
  when (s.(js_publish) && negb (projectID =? uuid_Nil)%N) (emit (EvPublishProject projectID)).

Definition publishCIJob (jobID : UUID) : M unit :=
  when (s.(js_publishJob) && negb (jobID =? uuid_Nil)%N) (emit (EvPublishCIJob jobID)).

Definition log (jobID : pgUUID) (level message : string) : M unit :=
  let! id := new_uuid in
  do! exec (CIJobLogCreate (ToPgtype id) jobID message level) ;
  publishCIJob (FromPgtype jobID).

(** The project's page and the job's. *)
Definition publish_both (project job : pgUUID) : M unit :=
  do! publishProject (FromPgtype project) ; publishCIJob (FromPgtype job).

(** The call cancels the run of the job, when this process has one. *)
Definition cancelRunningJob (jobID : UUID) : M unit := emit (EvCancelCIJob jobID).

(** [runCtx.Err() != nil]. *)
Definition run_canceled : M bool := fun w => (Ret (s.(js_canceled) w.(w_step)), tick w).

Definition Cancel (jobID : UUID) : M unit :=
  let! job := query (CIJobFirstByID (ToPgtype jobID)) in
  do! cancelRunningJob jobID ;
  do! exec (CIJobMarkCanceled (ToPgtype jobID)) ;
  do! publishProject (FromPgtype job.(ci_ProjectID)) ;
  publishCIJob jobID.

(** *** Events of GitHub *)

Definition githubIntegrationForProject (project : Project) (owner : string) : M Integration :=
  let! rows := wrap "list org provider connections" (query (OrgProviderConnectionListByOrg project.(proj_OrgID))) in
  match ResolveIntegrationForOwner (github_integrations s.(js_cfg) rows) owner with
  | Some i => ret i
  | None => throw (ErrMsg ("no GitHub Actions runner integration is configured for " +:+ owner))
  end.

Definition githubIntegrationForJob (project : Project) (job : CiJob) : M Integration :=
  let! integration := githubIntegrationForProject project (ownerFromEvent job.(ci_ExternalRepo) "") in
  if not_null job.(ci_ProviderConnectionID) && negb (bool_decide (integration.(in_Connection).(opc_ID) = job.(ci_ProviderConnectionID))) then
    let! rows := query (OrgProviderConnectionListByOrg project.(proj_OrgID)) in
    match List.find (fun row => bool_decide (row.(opc_ID) = job.(ci_ProviderConnectionID))) rows with
    | Some row =>
        deref s.(js_cfg) (fun key =>
          let! plain := of_sum (DecryptBytes key row.(opc_CredentialsCiphertext)) in
          match IntegrationFromConnection row plain with
          | inl e => throw (ErrMsg e)
          | inr i => ret i
          end)
    | None => ret integration
    end
  else ret integration.

Definition createGitHubWorkflowJob (project : Project) (integration : Integration) (event : GitHubWorkflowJobEvent) : M CiJob :=
  let! jobID := new_uuid in
  exec (CIJobCreateGitHubRunner (ToPgtype jobID) project.(proj_ID)
    (mkRunnerJob "queued" (firstNonEmpty [TrimSpace event.(ge_WorkflowName); "GitHub Actions"]) "" (TrimSpace event.(ge_JobName))
       (TrimSpace event.(ge_EventName)) (JObject []) "" integration.(in_Connection).(opc_ID) (NormalizeRepo event.(ge_RepoFullName))
       (firstNonZero [event.(ge_InstallationID); integration.(in_Metadata).(pm_InstallationID)]) event.(ge_WorkflowJobID)
       event.(ge_WorkflowRunID) event.(ge_RunAttempt) (TrimSpace event.(ge_HTMLURL)) (labels_json event.(ge_Labels))
       ("kindling-" +:+ pretty event.(ge_WorkflowRunID) +:+ "-" +:+ pretty event.(ge_WorkflowJobID)) true "" "")).

Definition finishGitHubWorkflowJob (job : CiJob) (conclusion : string) : M unit :=
  let c := TrimSpace (ToLower conclusion) in
  if in_list [""; "success"; "neutral"] c then exec (CIJobMarkSuccessful job.(ci_ID) (Some 0))
  else if in_list ["cancelled"; "canceled"; "skipped"] c then exec (CIJobMarkCanceled job.(ci_ID))
  else exec (CIJobMarkFailed job.(ci_ID) (Some 1)
               (firstNonEmpty [TrimSpace job.(ci_ErrorMessage); "GitHub workflow job concluded with " +:+ TrimSpace conclusion])).

Definition ignored (reason : string) : GitHubWorkflowJobHandleResult := mkHandleResult None false true reason.

(** The job of the event: found, or created. *)
Definition job_of_event (project : Project) (integration : Integration) (event : GitHubWorkflowJobEvent) : M CiJob :=
  let! found := attempt (query (CIJobFirstByExternalWorkflowJobID event.(ge_WorkflowJobID))) in
  match found with
  | inr job => ret job
  | inl e => if is_no_rows e then createGitHubWorkflowJob project integration event else throw e
  end.

(** The switch on the action. *)
Definition act_on_event (project : Project) (event : GitHubWorkflowJobEvent) (job : CiJob) : M GitHubWorkflowJobHandleResult :=
  let action := TrimSpace (ToLower event.(ge_Action)) in
  if String.eqb action "queued" then
    do! ignore (log job.(ci_ID) "info" "Received GitHub workflow_job queued event") ;
    do! publish_both project.(proj_ID) job.(ci_ID) ;
    ret (mkHandleResult (Some job) (negb (isTerminalStatus job.(ci_Status))) false "")
  else if String.eqb action "in_progress" then
    do! ignore (log job.(ci_ID) "info" "Received GitHub workflow_job in_progress event") ;
    do! when (negb (isTerminalStatus job.(ci_Status)))
          (exec (CIJobMarkRunning job.(ci_ID) job.(ci_WorkspaceDir)
                   (firstNonEmpty [TrimSpace job.(ci_ExecutionBackend); "github_actions_runner"]))) ;
    do! publish_both project.(proj_ID) job.(ci_ID) ;
    ret (mkHandleResult (Some job) false false "")
  else if String.eqb action "completed" then
    do! ignore (log job.(ci_ID) "info" ("Received GitHub workflow_job completed event (" +:+ TrimSpace event.(ge_Conclusion) +:+ ")")) ;
    do! finishGitHubWorkflowJob job event.(ge_Conclusion) ;
    do! cancelRunningJob (FromPgtype job.(ci_ID)) ;
    do! publish_both project.(proj_ID) job.(ci_ID) ;
    ret (mkHandleResult (Some job) false false "")
  else ret (ignored "unsupported workflow_job action").

Definition HandleGitHubWorkflowJobEvent (event : GitHubWorkflowJobEvent) : M GitHubWorkflowJobHandleResult :=
  let repo := NormalizeRepo event.(ge_RepoFullName) in
  if String.eqb repo "" then ret (ignored "missing repository")
  else if negb (hasRequiredGitHubRunnerLabels event.(ge_Labels)) then ret (ignored "job is not targeted at Kindling runners")
  else
    let! found := attempt (query (ProjectFindByGitHubRepo repo)) in
    match found with
    | inl e => if is_no_rows e then ret (ignored "repository is not connected to a Kindling project") else throw e
    | inr project =>
        let! found := attempt (githubIntegrationForProject project (ownerFromEvent repo event.(ge_OrgLogin))) in
        match found with
        | inl e => ret (ignored (error_Error e))
        | inr integration =>
            let! job := job_of_event project integration event in
            act_on_event project event job
        end
    end.

(** *** Runs *)

Definition failGitHubRunnerJob (job : CiJob) (e : error) : M unit :=
  do! ignore (log job.(ci_ID) "error" (error_Error e)) ;
  do! exec (CIJobMarkFailed job.(ci_ID) (Some 1) (error_Error e)) ;
  publish_both job.(ci_ProjectID) job.(ci_ID).

(** A job whose cancellation was asked for is marked; otherwise [body] runs
    with the lease, which is given back at the end. *)
Definition with_lease (job : CiJob) (body : CiJob -> M unit) : M unit :=
  if isTerminalStatus job.(ci_Status) then ret tt
  else if not_null job.(ci_CanceledAt) then
    do! exec (CIJobMarkCanceled job.(ci_ID)) ;
    publish_both job.(ci_ProjectID) job.(ci_ID)
  else
    let! claimed := attempt (exec (CIJobClaimLease job.(ci_ID) (ToPgtype s.(js_serverID)))) in
    match claimed with
    | inl ErrNoRows => ret tt
    | inl e => throw e
    | inr job => deferring (ignore (exec (CIJobReleaseLease job.(ci_ID) (ToPgtype s.(js_serverID))))) (body job)
    end.

(** After the runner has ended. *)
Definition after_runner (client : Client) (integration : Integration) (jit : JITConfig) (job : CiJob) (ended : error + unit) : M unit :=
  let! current := attempt (query (CIJobFirstByID job.(ci_ID))) in
  if match current with inr c => isTerminalStatus c.(ci_Status) | inl _ => false end then ret tt
  else
    let! canceled := run_canceled in
    if canceled then ret tt
    else
      match ended with
      | inl e =>
          do! ignore (client.(gc_DeleteRunner) integration jit.(jit_RunnerID)) ;
          failGitHubRunnerJob job e
      | inr _ =>
          do! ignore (log job.(ci_ID) "info" "Runner session exited; awaiting GitHub completion webhook") ;
          publish_both job.(ci_ProjectID) job.(ci_ID)
      end.

Definition run_github_job (job : CiJob) : M unit :=
  let! project := wrap "load project for GitHub runner job" (query (ProjectFirstByID job.(ci_ProjectID))) in
  let! integration := attempt (githubIntegrationForJob project job) in
  match integration with
  | inl e => failGitHubRunnerJob job e
  | inr integration =>
      match ResolveRunnerTarget (parseRunnerLabels job.(ci_RunnerLabels)) integration.(in_Metadata).(pm_DefaultLabels) with
      | inl e => failGitHubRunnerJob job (ErrMsg e)
      | inr target =>
          match s.(js_ghRunner) with
          | None => failGitHubRunnerJob job (ErrMsg "GitHub runner provisioner is not configured")
          | Some runner =>
              match runner.(gp_SupportsTarget) target with
              | Some e => failGitHubRunnerJob job e
              | None =>
                  match s.(js_ghClient) with
                  | None => failGitHubRunnerJob job (ErrMsg "GitHub runner client is not configured")
                  | Some client =>
                      let name := TrimSpace job.(ci_RunnerName) in
                      do! ignore (log job.(ci_ID) "info" ("Preparing GitHub runner " +:+ name)) ;
                      let! jit := attempt (client.(gc_GenerateJITConfig) integration name target.(rt_Labels)) in
                      match jit with
                      | inl e => failGitHubRunnerJob job e
                      | inr jit =>
                          do! ignore (log job.(ci_ID) "info" "Received GitHub runner registration token") ;
                          do! exec (CIJobMarkRunning job.(ci_ID) job.(ci_WorkspaceDir) runner.(gp_Backend)) ;
                          do! publish_both job.(ci_ProjectID) job.(ci_ID) ;
                          let! ended := attempt (runner.(gp_Run) jit name target (fun line => ignore (log job.(ci_ID) "info" line))) in
                          after_runner client integration jit job ended
                      end
                  end
              end
          end
      end
  end.

Definition reconcileGitHubRunnerJob (job : CiJob) : M unit := with_lease job run_github_job.

Definition prepareWorkspace (job : CiJob) : M string :=
  if String.eqb (TrimSpace job.(ci_InputArchivePath)) "" then throw (ErrMsg "ci job has no input archive")
  else s.(js_unpack) job.

(** [_ = s.q.CIJobMarkFailed], the pages, and the end without an error. *)
Definition fail_workflow (job : CiJob) (e : error) : M unit :=
  do! ignore (exec (CIJobMarkFailed job.(ci_ID) (Some 1) (error_Error e))) ;
  publish_both job.(ci_ProjectID) job.(ci_ID).

Definition replaceArtifacts (jobID : pgUUID) (artifacts : list ArtifactInfo) : M unit :=
  do! exec (CIJobArtifactDeleteByJobID jobID) ;
  do! for_each artifacts (fun a =>
        let! id := new_uuid in
        exec (CIJobArtifactCreate (ToPgtype id) jobID a.(ar_Name) a.(ar_Path))) ;
  publishCIJob (FromPgtype jobID).

(** The switch on how the run ended. *)
Definition finish_workflow (job : CiJob) (runErr : option error) : M unit :=
  let! canceled := run_canceled in
  if canceled || not_null job.(ci_CanceledAt) then
    do! ignore (log job.(ci_ID) "info" "Job canceled") ;
    ignore (exec (CIJobMarkCanceled job.(ci_ID)))
  else
    match runErr with
    | Some e =>
        do! ignore (log job.(ci_ID) "error" (error_Error e)) ;
        ignore (exec (CIJobMarkFailed job.(ci_ID) (Some 1) (error_Error e)))
    | None =>
        do! ignore (log job.(ci_ID) "info" "Job completed successfully") ;
        ignore (exec (CIJobMarkSuccessful job.(ci_ID) (Some 0)))
    end.

Definition run_workflow (job : CiJob) : M unit :=
  let! prepared := attempt (prepareWorkspace job) in
  match prepared with
  | inl e => fail_workflow job e
  | inr workDir =>
      match s.(js_Resolve) workDir job.(ci_WorkflowName) with
      | inl e => fail_workflow job e
      | inr workflow =>
          match s.(js_Compile) workflow job.(ci_SelectedJobID) job.(ci_EventName) (decodeInputMap job.(ci_InputValues)) workDir with
          | inl e => fail_workflow job e
          | inr plan =>
              match s.(js_NewWorkflowRunner) job.(ci_RequireMicrovm) with
              | inl e =>
                  do! ignore (log job.(ci_ID) "error" (error_Error e)) ;
                  fail_workflow job e
              | inr runner =>
                  let line := fun text => ignore (log job.(ci_ID) "info" text) in
                  do! ignore (log job.(ci_ID) "info" ("Starting workflow " +:+ job.(ci_WorkflowName))) ;
                  do! ignore (log job.(ci_ID) "info" ("Execution backend: " +:+ runner.(wr_Backend))) ;
                  do! exec (CIJobMarkRunning job.(ci_ID) workDir runner.(wr_Backend)) ;
                  do! publish_both job.(ci_ProjectID) job.(ci_ID) ;
                  let! '(writer, artifacts, runErr) := runner.(wr_Run) plan (Write line) (mkLineLogWriter []) in
                  let! _ := Flush line writer in
                  do! ignore (replaceArtifacts job.(ci_ID) artifacts) ;
                  do! finish_workflow job runErr ;
                  publish_both job.(ci_ProjectID) job.(ci_ID)
              end
          end
      end
  end.

Definition Reconcile (jobID : UUID) : M unit :=
  let! job := wrap "fetch ci job" (query (CIJobFirstByID (ToPgtype jobID))) in
  if String.eqb job.(ci_Source) "github_actions_runner" then reconcileGitHubRunnerJob job
  else with_lease job run_workflow.

End service.
