(* ===== verification/CiEvents.v ===== *)
(** * Events of GitHub's workflow jobs

    An event touches its own job only and never restarts a finished one. *)

From S2P Require Import Prelude NetAddr Text Models Runtime Effects Queries Logic EventLogic TableFacts Codecs Secrets Config VolumeQueries Json Api DbLogic GithubActions EventQueries Webhook CiJobs WebhookProofs.

(** ** Rows of jobs *)

(** The same job: what a run or an event may change are its status and what
    goes with it. *)
Record same_job (r r' : CiJob) : Prop := {
  sj_id : ci_ID r' = ci_ID r;
  sj_project : ci_ProjectID r' = ci_ProjectID r;
  sj_source : ci_Source r' = ci_Source r;
  sj_name : ci_WorkflowName r' = ci_WorkflowName r;
  sj_job : ci_SelectedJobID r' = ci_SelectedJobID r;
  sj_inputs : ci_InputValues r' = ci_InputValues r;
  sj_connection : ci_ProviderConnectionID r' = ci_ProviderConnectionID r;
  sj_repo : ci_ExternalRepo r' = ci_ExternalRepo r;
  sj_external : ci_ExternalWorkflowJobID r' = ci_ExternalWorkflowJobID r;
  sj_labels : ci_RunnerLabels r' = ci_RunnerLabels r;
  sj_runner : ci_RunnerName r' = ci_RunnerName r;
  sj_microvm : ci_RequireMicrovm r' = ci_RequireMicrovm r
}.

#[export] Instance same_job_preorder : PreOrder same_job.
Proof. split; [by intros r; split|]. intros r1 r2 r3 [] []. split; congruence. Qed.

(** Rows lie under their ids. *)
Definition jobs_keyed (d : Db) : Prop := forall k r, db_ci_jobs d !! k = Some r -> ci_ID r = Some k.

(** The fields the schema's constraints speak of. *)
Lemma job_row_ok d k r r' :
  ci_job_ok d k r = true -> same_job r r' -> fk (db_servers d) (ci_ProcessingBy r') = true ->
  in_list ["queued"; "running"; "successful"; "failed"; "canceled"] (ci_Status r') = true -> ci_job_ok d k r' = true.
Proof.
  intros H [] Hp Hs. unfold ci_job_ok in *. rewrite !andb_true_iff in H. rewrite !andb_true_iff.
  destruct H as [[[[[H1 H2] H3] H4] H5] H6]. by rewrite sj_project0, sj_source0, sj_connection0, sj_external0.
Qed.

(** The job's row is there and satisfies the constraints. *)
Definition job_at (k : UUID) (J : CiJob -> Prop) (d : Db) : Prop :=
  exists r, db_ci_jobs d !! k = Some r /\ ci_job_ok d k r = true /\ J r.

Section totals.
Context {env : Env} (Hq : quiet env) {Workflow Plan : Type} (s : JobService Workflow Plan).

Lemma tot_mark k (J J' : CiJob -> Prop) (g : Time -> CiJob -> CiJob) guard (f : writes unit) X :
  (forall t d, f t d = executing (update_row t_ci_jobs (Some k) guard (g t) d)) ->
  (forall r, J r -> guard r = true) -> (forall t r, J r -> J' (g t r)) -> (forall t r, J r -> same_job r (g t r)) ->
  (forall t r, J r -> ci_ProcessingBy (g t r) = None \/ ci_ProcessingBy (g t r) = ci_ProcessingBy r) ->
  (forall t r, J r -> ci_Status (g t r) = ci_Status r \/
     in_list ["queued"; "running"; "successful"; "failed"; "canceled"] (ci_Status (g t r)) = true) ->
  total (job_at k J) (exec f) (fun _ => job_at k J') X.
Proof.
  intros Hf Hg HJ Hsame Hp Hst. apply tot_exec; [done|]. intros t d (r & Hr & Hok & Hj).
  assert (ci_job_ok d k (g t r) = true) as Hok'.
  { unfold ci_job_ok in Hok. rewrite !andb_true_iff in Hok. apply (job_row_ok d k r); [by unfold ci_job_ok; rewrite !andb_true_iff|by apply Hsame| |].
    - destruct (Hp t r Hj) as [->| ->]; [done|]. tauto.
    - destruct (Hst t r Hj) as [->|]; [|done]. tauto. }
  rewrite Hf, (executing_ok _ k r) by auto. exists (g t r). split; [apply lookup_insert_eq|]. split; [|by apply HJ].
  unfold ci_job_ok in Hok' |- *. cbn. by rewrite delete_insert_eq.
Qed.

Lemma tot_publish P project job X : total P (publish_both s project job) (fun _ => P) X.
Proof.
  unfold publish_both, publishProject, publishCIJob. eapply (tot_bind _ _ _ (fun _ => P)); [|intros _]; apply tot_when; try done; intros _;
    by apply tot_emit.
Qed.

Lemma tot_log k J job level text X : total (job_at k J) (ignore (log s job level text)) (fun _ => job_at k J) X.
Proof.
  apply tot_ignore. unfold log. eapply (tot_bind _ _ _ (fun _ => job_at k J)); [by apply tot_new_uuid|]. intros id.
  eapply (tot_bind _ _ _ (fun _ => job_at k J)); [|intros _; apply tot_when; [intros _; by apply tot_emit|done]].
  apply tot_exec; [done|]. intros t d Hd. unfold CIJobLogCreate. destruct (insert_row _ _ _ _) as [e|[y d']] eqn:E; [done|].
  apply insert_row_inv in E as (k' & _ & _ & _ & _ & ->). exact Hd.
Qed.

End totals.

(** ** Events *)

Section events.
Context {env : Env} {S : Sorter} {U : Unicode} {UF : UnicodeFold} {crypto : Crypto} {Workflow Plan : Type} (s : JobService Workflow Plan)
        (event : GitHubWorkflowJobEvent) (d0 : Db) (Hkeyed : jobs_keyed d0).

Definition action : string := TrimSpace (ToLower (ge_Action event)).

Definition conclusion_status : string :=
  let c := TrimSpace (ToLower (ge_Conclusion event)) in
  if in_list [""; "success"; "neutral"] c then "successful"
  else if in_list ["cancelled"; "canceled"; "skipped"] c then "canceled" else "failed".

(** The job of the event. *)
Definition event_job (r : CiJob) : Prop :=
  ci_Source r = "github_actions_runner" /\ ci_ExternalWorkflowJobID r = ge_WorkflowJobID event.

(** What the event does to its job. *)
Inductive event_step (r : CiJob) : CiJob -> Prop :=
  | es_same : event_step r r
  | es_running r' : action = "in_progress" -> isTerminalStatus (ci_Status r) = false -> same_job r r' ->
      ci_Status r' = "running" -> event_step r r'
  | es_finished r' : action = "completed" -> same_job r r' -> ci_Status r' = conclusion_status ->
      not_null (ci_FinishedAt r') = true -> event_step r r'.

(** The row the event found or created. *)
Definition origin (k : UUID) (r : CiJob) : Prop :=
  ci_ID r = Some k /\ event_job r /\
  (db_ci_jobs d0 !! k = Some r \/
   db_ci_jobs d0 !! k = None /\ ci_Status r = "queued" /\ forall k' r', db_ci_jobs d0 !! k' = Some r' -> ~ event_job r').

(** One row of ci_jobs and further logs, nothing else. *)
Definition event_state (k : UUID) (r : CiJob) (d : Db) : Prop :=
  d = set_ci_logs (db_ci_logs d) (set_ci_jobs (<[k := r]> (db_ci_jobs d0)) d0) /\ db_ci_logs d0 ⊆ db_ci_logs d.

Definition event_effect (d : Db) : Prop :=
  d = d0 \/ exists k r r', origin k r /\ event_step r r' /\ event_state k r' d.

Abbreviation tr P m Q := (triple P m Q event_effect).

Lemma effect_of k r r' d : origin k r -> event_step r r' -> event_state k r' d -> event_effect d.
Proof. intros. right. eauto 10. Qed.

Lemma event_state_jobs k r d : event_state k r d -> db_ci_jobs d = <[k := r]> (db_ci_jobs d0).
Proof. by intros [-> _]. Qed.

(** A statement on the event's row. *)
Lemma event_update k r guard f d x d' :
  event_state k r d -> guard r = true -> executing (update_row t_ci_jobs (Some k) guard f d) = inr (x, d') -> event_state k (f r) d'.
Proof.
  intros [Hd Hl] Hg H. eapply (executing_present _ k r) in H; [|rewrite Hd; apply lookup_insert_eq|done]. subst d'.
  rewrite Hd in Hl |- *. cbn in *. split; [|done]. unfold set_ci_jobs, set_ci_logs, set_ext. cbn. by rewrite insert_insert_eq.
Qed.

Lemma log_step k r0 r job level text : origin k r0 -> event_step r0 r ->
  tr (event_state k r) (ignore (log s job level text)) (fun _ => event_state k r).
Proof.
  intros Ho Hs. assert (forall d, event_state k r d -> event_effect d) as He by (intros; by eapply effect_of).
  unfold ignore. eapply (tr_bind _ _ _ (fun _ => event_state k r)); [|intros x; by apply tr_ret].
  apply tr_attempt. unfold log. eapply (tr_bind _ _ _ (fun _ => event_state k r)).
  { apply tr_reading; [solve_runs| |done]. intros d Hd. split; [by apply He|done]. }
  intros id. eapply (tr_bind _ _ _ (fun _ => event_state k r)).
  - apply tr_exec; [intros d Hd; split; [by apply He|done]|]. intros t x d d' Hd H. assert (event_state k r d') as Hd'.
    { unfold CIJobLogCreate in H. destruct (insert_row _ _ _ _) as [|[y d2]] eqn:E; simplify_eq.
      apply insert_row_inv in E as (k' & _ & Hk & _ & _ & ->). cbn in Hk. destruct Hd as [Hd Hl]. rewrite Hd in Hk, Hl |- *. cbn in *.
      split; [done|]. etrans; [exact Hl|]. by apply insert_subseteq. }
    split; [done|]. split; [by apply He|done].
  - intros _. unfold publishCIJob. apply tr_reading; [solve_runs| |done]. intros d Hd. split; [by apply He|done].
Qed.

Lemma event_start k r : db_ci_jobs d0 !! k = Some r -> event_state k r d0.
Proof. intros H. unfold event_state. rewrite insert_id by done. split; [|done]. by destruct d0 as [????????????????[]]. Qed.

(** The job of the event is found when there is one. *)
Lemma find_event_job t :
  match CIJobFirstByExternalWorkflowJobID (ge_WorkflowJobID event) t d0 with
  | inr job => exists k, db_ci_jobs d0 !! k = Some job /\ event_job job
  | inl e => is_no_rows e = true /\ forall k r, db_ci_jobs d0 !! k = Some r -> ~ event_job r
  end.
Proof.
  unfold CIJobFirstByExternalWorkflowJobID, any_order. set (p := fun r => _ && _).
  pose proof (sort_by_elem (fun _ _ => true) (rows p (db_ci_jobs d0))) as Hsort. destruct (sort_by _ _) as [|job l]; simpl.
  - split; [done|]. intros k r Hr [Hs He]. assert (r ∈ rows p (db_ci_jobs d0)) as Hin.
    { apply elem_of_rows. split; [|eauto]. unfold p. rewrite Hs, He. by rewrite Z.eqb_refl. }
    apply Hsort in Hin. set_solver.
  - assert (job ∈ rows p (db_ci_jobs d0)) as Hin by (apply Hsort; constructor).
    apply elem_of_rows in Hin as [[H1%String.eqb_eq H2%Z.eqb_eq]%andb_true_iff (k & Hk)]. by exists k.
Qed.

Lemma job_step project integration :
  tr (fun d => d = d0) (job_of_event project integration event) (fun job d => exists k, origin k job /\ event_state k job d).
Proof.
  unfold job_of_event. eapply (tr_bind _ _ _ (fun r d => d = d0 /\ match r with
    | inr job => exists k, db_ci_jobs d0 !! k = Some job /\ event_job job
    | inl e => is_no_rows e = true -> forall k' r', db_ci_jobs d0 !! k' = Some r' -> ~ event_job r' end)).
  { intros w Hw. unfold attempt, query. rewrite Hw. pose proof (find_event_job (sql_now w)) as Hf.
    destruct (env_fault _); simpl; try (split; [done|]; intros; discriminate). destruct (CIJobFirstByExternalWorkflowJobID _ _ _); simpl; [|done].
    split; [done|]. intros _. apply Hf. }
  intros [e|job]; apply tr_and.
  - intros Hnone. destruct (is_no_rows e); [|by apply tr_throw; left]. specialize (Hnone eq_refl).
    unfold createGitHubWorkflowJob. eapply (tr_bind _ _ _ (fun _ d => d = d0)); [apply tr_reading; [solve_runs|by left|done]|].
    intros id. apply tr_exec; [by left|]. intros t x d d' -> H. unfold CIJobCreateGitHubRunner in H.
    apply insert_row_inv in H as (k & Hid & Hk & _ & -> & ->). cbn in Hk. rewrite Hid.
    set (row := mkCiJob _ _ _ _ _ _ _ _ _ _ _ _ _ _ _ _ _ _ _ _ _ _ _ _ _ _ _ _ _ _).
    assert (origin k row) as Ho by (split; [done|]; split; [done|]; right; done).
    assert (event_state k row (t_set t_ci_jobs (<[k := row]> (t_get t_ci_jobs d0)) d0)) as He by (split; [by destruct d0 as [????????????????[]]|done]).
    split; [by exists k|]. eapply effect_of; [done|apply es_same|done].
  - intros (k & Hk & Hj). apply tr_ret. intros d ->. exists k. split; [|by apply event_start]. split; [by apply Hkeyed|]. split; [done|by left].
Qed.

Lemma mark_step k r (g : Time -> CiJob -> CiJob) (f : writes unit) :
  origin k r -> (forall t, event_step r (g t r)) -> (forall t d, f t d = executing (update_row t_ci_jobs (Some k) always (g t) d)) ->
  tr (event_state k r) (exec f) (fun _ d => exists r', event_step r r' /\ event_state k r' d).
Proof.
  intros Ho Hg Hf. apply tr_exec; [intros d Hd; eapply effect_of; [done|apply es_same|done]|].
  intros t x d d' Hd H. rewrite Hf in H. eapply event_update in H; [|done|done]. split; [by exists (g t r)|]. by eapply effect_of.
Qed.

Lemma finish_step k job :
  action = "completed" -> origin k job ->
  tr (event_state k job) (finishGitHubWorkflowJob job (ge_Conclusion event)) (fun _ d => exists r', event_step job r' /\ event_state k r' d).
Proof.
  intros Ha Ho. unfold finishGitHubWorkflowJob. rewrite (proj1 Ho). cbv zeta.
  repeat case_match; (eapply mark_step; [done| |reflexivity]); intros t; (apply es_finished; [done|by split| |done]); simpl;
    unfold conclusion_status; by repeat case_match.
Qed.

(** What the handler answers of the job. *)
Definition event_answer (res : GitHubWorkflowJobHandleResult) (d : Db) : Prop :=
  event_effect d /\
  (hr_Ignored res = false -> exists k r r', hr_Job res = Some r /\ origin k r /\ event_step r r' /\ event_state k r' d /\
     hr_ShouldSchedule res = (String.eqb action "queued" && negb (isTerminalStatus (ci_Status r)))).

Lemma publish_reads project job : runs no_stmt (publish_both s project job).
Proof. unfold publish_both, publishProject, publishCIJob. solve_runs. Qed.

(** The end of a branch: the pages are told, the answer is given. *)
Lemma answer_step k r project res : origin k r -> hr_Job res = Some r ->
  hr_ShouldSchedule res = (String.eqb action "queued" && negb (isTerminalStatus (ci_Status r))) ->
  tr (fun d => exists r', event_step r r' /\ event_state k r' d) (do! publish_both s project (ci_ID r) ; ret res) event_answer.
Proof.
  intros Ho Hj Hs. set (P := fun d => _). assert (forall d, P d -> event_effect d) as HP by (intros d (r' & H1 & H2); by eapply effect_of).
  eapply (tr_bind _ _ _ (fun _ => P)); [by apply tr_reading; [apply publish_reads| |]|].
  intros _. apply tr_ret. intros d Hd. split; [by apply HP|]. intros _. destruct Hd as (r' & H1 & H2). by exists k, r, r'.
Qed.

Lemma act_step k job project : origin k job -> tr (event_state k job) (act_on_event s project event job) event_answer.
Proof.
  intros Ho. unfold act_on_event. cbv zeta. fold action.
  assert (forall d, event_state k job d -> exists r', event_step job r' /\ event_state k r' d) as Hsame by (intros d Hd; exists job; split; [apply es_same|done]).
  destruct (String.eqb_spec action "queued") as [Ha|Hnq]; [|destruct (String.eqb_spec action "in_progress") as [Ha|Hni];
    [|destruct (String.eqb_spec action "completed") as [Ha|Hnc]]].
  - eapply tr_bind; [eapply log_step; [done|apply es_same]|]. intros []. eapply tr_pre; [|exact Hsame]. apply answer_step; [done|done|by rewrite Ha].
  - eapply tr_bind; [eapply log_step; [done|apply es_same]|]. intros [].
    eapply (tr_bind _ _ _ (fun _ d => exists r', event_step job r' /\ event_state k r' d)).
    + unfold when. destruct (isTerminalStatus (ci_Status job)) eqn:Et; simpl; [by apply tr_ret|]. rewrite (proj1 Ho).
      eapply mark_step; [done| |reflexivity]. intros t. apply es_running; [done|done|by split|done].
    + intros []. apply answer_step; [done|done|by rewrite Ha].
  - eapply tr_bind; [eapply log_step; [done|apply es_same]|]. intros []. eapply tr_bind; [by apply finish_step|]. intros [].
    eapply (tr_bind _ _ _ (fun _ d => exists r', event_step job r' /\ event_state k r' d)).
    { apply tr_reading; [unfold cancelRunningJob; solve_runs| |done]. intros d (r' & H1 & H2). by eapply effect_of. }
    intros []. apply answer_step; [done|done|by rewrite Ha].
  - apply tr_ret. intros d Hd. split; [|done]. eapply effect_of; [done|apply es_same|done].
Qed.

Lemma handle_step : tr (fun d => d = d0) (HandleGitHubWorkflowJobEvent s event) event_answer.
Proof.
  assert (forall d reason, d = d0 -> event_answer (ignored reason) d) as Hi by (intros d reason ->; split; [by left|done]).
  unfold HandleGitHubWorkflowJobEvent. cbv zeta. repeat (case_match; [by apply tr_ret; intros; apply Hi|]).
  eapply (tr_bind _ _ _ (fun _ d => d = d0)); [apply tr_reading; [solve_runs|by left|done]|].
  intros [e|project]; [case_match; [by apply tr_ret; intros; apply Hi|by apply tr_throw; left]|].
  eapply (tr_bind _ _ _ (fun _ d => d = d0)); [apply tr_reading; [unfold githubIntegrationForProject; solve_runs|by left|done]|].
  intros [e|integration]; [by apply tr_ret; intros; apply Hi|]. eapply tr_bind; [apply job_step|].
  intros job. apply (tr_fact (exists k, origin k job)); [intros d (k & Ho & _); eauto|]. intros (k0 & Ho0).
  eapply tr_pre; [by apply (act_step k0)|]. intros d (k & Ho & Hd). assert (k = k0) as -> by (destruct Ho, Ho0; congruence). done.
Qed.

(** *** Without failures *)

(** The event is for a runner of a connected project with an integration. *)
Record event_ready (project : Project) (integration : Integration) : Prop := {
  er_repo : String.eqb (NormalizeRepo (ge_RepoFullName event)) "" = false;
  er_labels : hasRequiredGitHubRunnerLabels (ge_Labels event) = true;
  er_project : ProjectFindByGitHubRepo (NormalizeRepo (ge_RepoFullName event)) 0 d0 = inr project;
  er_integration : exists rows, OrgProviderConnectionListByOrg (proj_OrgID project) 0 d0 = inr rows /\
    ResolveIntegrationForOwner (github_integrations (js_cfg s) rows)
      (ownerFromEvent (NormalizeRepo (ge_RepoFullName event)) (ge_OrgLogin event)) = Some integration;
  er_action : in_list ["queued"; "in_progress"; "completed"] action = true;
  er_fk : fk_required (db_projects d0) (proj_ID project) = true /\ fk (db_connections d0) (opc_ID (in_Connection integration)) = true;
  er_jobs : forall k r, db_ci_jobs d0 !! k = Some r -> ci_job_ok d0 k r = true;
  er_fresh : forall n, env_uuid n <> uuid_Nil /\ db_ci_jobs d0 !! env_uuid n = None
}.

Abbreviation there k := (job_at k (fun _ => True)).

Lemma act_ends (Hq : quiet env) k job project : ci_ID job = Some k -> in_list ["queued"; "in_progress"; "completed"] action = true ->
  ends (there k) (act_on_event s project event job) (fun res _ => hr_Ignored res = false).
Proof.
  intros Hid Ha. unfold act_on_event. cbv zeta. fold action.
  assert (forall res, hr_Ignored res = false ->
    ends (there k) (do! publish_both s (proj_ID project) (ci_ID job) ; ret res) (fun res _ => hr_Ignored res = false)) as Hend.
  { intros res Hres. eapply (tot_bind _ _ _ (fun _ => there k)); [apply tot_publish|]. intros _. by apply tot_ret. }
  assert (forall g (f : writes unit), (forall t d, f t d = executing (update_row t_ci_jobs (Some k) always (g t) d)) ->
    (forall t r, same_job r (g t r)) -> (forall t r, ci_ProcessingBy (g t r) = ci_ProcessingBy r) ->
    (forall t r, in_list ["queued"; "running"; "successful"; "failed"; "canceled"] (ci_Status (g t r)) = true) ->
    ends (there k) (exec f) (fun _ => there k)) as Hmark.
  { intros g f Hf Hs Hp Hst. eapply (tot_mark Hq k _ _ g always f); eauto. }
  destruct (String.eqb action "queued") eqn:E1; [|destruct (String.eqb action "in_progress") eqn:E2; [|destruct (String.eqb action "completed") eqn:E3]].
  - eapply tot_bind; [by apply tot_log|]. intros []. by apply Hend.
  - eapply tot_bind; [by apply tot_log|]. intros []. eapply (tot_bind _ _ _ (fun _ => there k)); [|intros []; by apply Hend].
    apply tot_when; [|done]. intros _. rewrite Hid. eapply Hmark; [reflexivity|by intros; split|done|done].
  - eapply tot_bind; [by apply tot_log|]. intros []. eapply (tot_bind _ _ _ (fun _ => there k)).
    { unfold finishGitHubWorkflowJob. rewrite Hid. cbv zeta. repeat case_match; (eapply Hmark; [reflexivity|by intros; split|done|done]). }
    intros []. eapply (tot_bind _ _ _ (fun _ => there k)); [by apply tot_emit|]. intros []. by apply Hend.
  - unfold in_list in Ha. simpl in Ha. rewrite E1, E2, E3 in Ha. discriminate.
Qed.

Lemma handle_ends (Hq : quiet env) project integration : event_ready project integration ->
  ends (fun d => d = d0) (HandleGitHubWorkflowJobEvent s event) (fun res _ => hr_Ignored res = false).
Proof.
  intros [H1 H2 H3 (rows & Hrows & Hint) H5 [H6 H6'] H7 H8]. unfold HandleGitHubWorkflowJobEvent. rewrite H1, H2. cbv zeta. simpl.
  eapply (tot_bind _ _ _ (fun r d => d = d0 /\ r = inr project)).
  { apply tot_attempt, tot_query; [done|]. intros t d ->. change (ProjectFindByGitHubRepo (NormalizeRepo (ge_RepoFullName event)) t d0)
      with (ProjectFindByGitHubRepo (NormalizeRepo (ge_RepoFullName event)) 0 d0). by rewrite H3. }
  intros r. apply tot_and. intros ->. eapply (tot_bind _ _ _ (fun r d => d = d0 /\ r = inr integration)).
  { apply tot_attempt. unfold githubIntegrationForProject. eapply (tot_bind _ _ _ (fun l d => d = d0 /\ l = rows)).
    - apply tot_wrap, tot_query; [done|]. intros t d ->. change (OrgProviderConnectionListByOrg (proj_OrgID project) t d0)
        with (OrgProviderConnectionListByOrg (proj_OrgID project) 0 d0). by rewrite Hrows.
    - intros l. apply tot_and. intros ->. rewrite Hint. by apply tot_ret. }
  intros r. apply tot_and. intros ->. eapply (tot_bind _ _ _ (fun job d => exists k, ci_ID job = Some k /\ there k d)).
  - unfold job_of_event. eapply (tot_bind _ _ _ (fun r d => d = d0 /\ match r with
      | inr job => exists k, db_ci_jobs d0 !! k = Some job
      | inl e => is_no_rows e = true /\ forall k' r', db_ci_jobs d0 !! k' = Some r' -> ~ event_job r' end)).
    { apply tot_attempt, tot_query; [done|]. intros t d ->. pose proof (find_event_job t) as Hf.
      destruct (CIJobFirstByExternalWorkflowJobID _ _ _); [done|]. split; [done|]. destruct Hf as (k & Hk & _). eauto. }
    intros [e|job]; apply tot_and; [intros [-> Hnone]|intros (k & Hk)].
    + unfold createGitHubWorkflowJob. eapply (tot_bind _ _ _ (fun id d => d = d0 /\ exists n, id = env_uuid n)); [apply tot_new_uuid; eauto|].
      intros id. apply tot_and. intros (n & ->). destruct (H8 n) as [Hn Hfree]. apply tot_exec; [done|]. intros t d ->.
      unfold CIJobCreateGitHubRunner, ToPgtype. rewrite decide_False by done. set (row := mkCiJob _ _ _ _ _ _ _ _ _ _ _ _ _ _ _ _ _ _ _ _ _ _ _ _ _ _ _ _ _ _).
      assert (forall d, db_projects d = db_projects d0 -> db_connections d = db_connections d0 ->
        delete (env_uuid n) (db_ci_jobs d) = delete (env_uuid n) (db_ci_jobs d0) -> ci_job_ok d (env_uuid n) row = true) as Hok.
      { intros d Hd1 Hd2 Hd3. unfold ci_job_ok. cbn [row ci_ProjectID ci_Status ci_Source ci_ProviderConnectionID ci_ProcessingBy ci_ExternalWorkflowJobID
          rj_Status rj_ProviderConnectionID rj_ExternalWorkflowJobID].
        rewrite Hd1, Hd2, Hd3, H6, H6'. simpl. apply orb_true_iff. right. apply forallb_forall. intros r Hr.
        apply list_elem_of_In, list_elem_of_fmap in Hr as ([k' r'] & -> & Hr%elem_of_map_to_list). apply lookup_delete_Some in Hr as [_ Hr].
        apply negb_true_iff, not_true_iff_false. intros [E1%String.eqb_eq E2%Z.eqb_eq]%andb_true_iff. by apply (Hnone k' r' Hr). }
      rewrite insert_row_ok; [|done|by apply Hok]. exists (env_uuid n). split; [done|]. exists row. split; [apply lookup_insert_eq|].
      split; [|done]. apply Hok; [done|done|]. cbn. by rewrite delete_insert_eq.
    + apply tot_ret. intros d ->. exists k. split; [by apply Hkeyed|]. exists job. split; [done|]. split; [by apply H7|done].
  - intros job. apply (tot_fact (exists k, ci_ID job = Some k)); [intros d (k & Hk & _); eauto|]. intros (k0 & Hk0).
    eapply tot_conseq; [by apply (act_ends Hq k0)| |done|done]. intros d (k & Hk & Hd). assert (k = k0) as -> by congruence. done.
Qed.

End events.

(** C27: Whatever the database does, an event of GitHub changes at most one row
    of ci_jobs, the one of its workflow job, which it creates, queued, only when
    there is none, and adds logs, and nothing else. A job that has finished is
    changed only by the event that it completed, which sets the status of the
    conclusion; a run is asked for only by a queued event and not for a finished
    job. When no statement fails, an event with an action the service supports
    and the labels it requires, of a project connected to the repository whose
    integration matches, is taken. *)
Theorem workflow_event_effect (env : Env) (S : Sorter) (U : Unicode) (UF : UnicodeFold) (crypto : Crypto) (Workflow Plan : Type)
    (s : JobService Workflow Plan) (event : GitHubWorkflowJobEvent) (w : World) :
  jobs_keyed (w_db w) ->
  let r := HandleGitHubWorkflowJobEvent s event w in
  event_effect event (w_db w) (w_db r.2) /\
  (forall res, r.1 = Ret res -> event_answer event (w_db w) res (w_db r.2)) /\
  (forall project integration, quiet env -> event_ready s event (w_db w) project integration ->
     exists res, r.1 = Ret res /\ hr_Ignored res = false).
Proof.
  intros Hk r. pose proof (handle_step s event (w_db w) Hk w eq_refl) as H. fold r in H. split; [|split].
  - destruct r.1; try exact H. apply H.
  - intros res Hr. by rewrite Hr in H.
  - intros project integration Hq Hready. pose proof (handle_ends s event (w_db w) Hk Hq project integration Hready w eq_refl) as He.
    fold r in He. destruct r.1 as [res| | |]; [|done..]. by exists res.
Qed.
