(* ===== verification/CiRuns.v ===== *)
(** * Runs of CI jobs

    A job runs only under its lease, gives the lease back and, when it is a
    local workflow, ends finished. *)

From S2P Require Import Prelude NetAddr Text Models Runtime Effects Queries Logic EventLogic TableFacts Codecs Secrets SecretsProofs Config VolumeQueries Json Api DbLogic GithubActions EventQueries Webhook CiJobs CiEvents WebhookProofs Sample.

(** ** Leases *)

(** The statements on job [k] by [server]. *)
Inductive job_stmt (k : UUID) (server : pgUUID) : forall A, writes A -> Prop :=
  | js_running dir backend : job_stmt k server _ (CIJobMarkRunning (Some k) dir backend)
  | js_successful code : job_stmt k server _ (CIJobMarkSuccessful (Some k) code)
  | js_failed code text : job_stmt k server _ (CIJobMarkFailed (Some k) code text)
  | js_cancel : job_stmt k server _ (CIJobMarkCanceled (Some k))
  | js_release : job_stmt k server _ (CIJobReleaseLease (Some k) server)
  | js_log id text level : job_stmt k server _ (CIJobLogCreate id (Some k) text level)
  | js_artifact id name path : job_stmt k server _ (CIJobArtifactCreate id (Some k) name path)
  | js_no_artifacts : job_stmt k server _ (CIJobArtifactDeleteByJobID (Some k)).
#[export] Hint Constructors job_stmt : runs.

(** What the calls out of the service may do to the database: statements of
    [allowed], the runners given that what they are handed does no more. *)
Record calls_run {env : Env} {Workflow Plan : Type} (allowed : forall A, writes A -> Prop) (s : JobService Workflow Plan) : Prop := {
  cr_unpack : forall job, runs allowed (js_unpack s job);
  cr_jit : forall client i name labels, js_ghClient s = Some client -> runs allowed (gc_GenerateJITConfig client i name labels);
  cr_delete : forall client i id, js_ghClient s = Some client -> runs allowed (gc_DeleteRunner client i id);
  cr_github : forall runner jit name target line, js_ghRunner s = Some runner -> (forall text, runs allowed (line text)) ->
    runs allowed (gp_Run runner jit name target line);
  cr_workflow : forall b runner plan write buf, js_NewWorkflowRunner s b = inr runner -> (forall bytes w, runs allowed (write bytes w)) ->
    runs allowed (wr_Run runner plan write buf)
}.

Section leases.
Context {env : Env} {S : Sorter} {U : Unicode} {UF : UnicodeFold} {crypto : Crypto} {Workflow Plan : Type} (s : JobService Workflow Plan)
        (k : UUID) (Hcalls : calls_run (job_stmt k (ToPgtype (js_serverID s))) s).
Abbreviation allowed := (job_stmt k (ToPgtype (js_serverID s))).

Lemma runs_deferring {A} (P : forall A, writes A -> Prop) cleanup (m : M A) : runs P cleanup -> runs P m -> runs P (deferring cleanup m).
Proof.
  intros Hc Hm w. unfold deferring. specialize (Hm w). destruct (m w) as [[] w1]; simpl in *; try (etrans; [exact Hm|]; by apply Hc); done.
Qed.

Lemma runs_publish_job project job : runs allowed (publish_both s project job).
Proof. unfold publish_both, publishProject, publishCIJob. solve_runs. Qed.

Lemma runs_log_job level text : runs allowed (log s (Some k) level text).
Proof. unfold log, publishCIJob. solve_runs. Qed.
#[local] Hint Resolve runs_publish_job runs_log_job : runs.

Lemma runs_fail_job job e : ci_ID job = Some k -> runs allowed (failGitHubRunnerJob s job e).
Proof. intros Hid. unfold failGitHubRunnerJob. rewrite Hid. solve_runs. Qed.

Lemma runs_write (fn : string -> M unit) p : (forall text, runs allowed (fn text)) -> forall w, runs allowed (Write fn p w).
Proof. intros Hfn. induction p as [|b p IH]; intros w; simpl; [solve_runs|]. case_match; solve_runs. Qed.

Lemma runs_run_canceled : runs allowed (run_canceled s).
Proof. intros w. apply rtc_refl. Qed.
#[local] Hint Resolve runs_run_canceled : runs.

Lemma runs_github_job job : ci_ID job = Some k -> runs allowed (run_github_job s job).
Proof.
  intros Hid. pose proof (runs_fail_job job) as Hf. unfold run_github_job, githubIntegrationForJob, githubIntegrationForProject, after_runner.
  rewrite Hid in *. destruct Hcalls. solve_runs; try (apply cr_github0; [done|]; intros; solve_runs).
Qed.

Lemma runs_workflow job : ci_ID job = Some k -> runs allowed (run_workflow s job).
Proof.
  intros Hid. destruct Hcalls. assert (forall artifacts, runs allowed (replaceArtifacts s (Some k) artifacts)) as Hr
    by (intros artifacts; unfold replaceArtifacts, publishCIJob; solve_runs).
  assert (forall e, runs allowed (fail_workflow s job e)) as Hf by (intros e; unfold fail_workflow; rewrite Hid; solve_runs).
  unfold run_workflow, prepareWorkspace, finish_workflow, Flush. rewrite Hid in *. cbv zeta. solve_runs.
  eapply cr_workflow0; [done|]. intros. apply runs_write. intros. solve_runs.
Qed.

(** The rows the statements may touch. *)
Record job_effect (d0 d : Db) : Prop := {
  je_frame : d = set_ci_artifacts (db_ci_artifacts d) (set_ci_logs (db_ci_logs d) (set_ci_jobs (db_ci_jobs d) d0));
  je_others : forall k', k' <> k -> db_ci_jobs d !! k' = db_ci_jobs d0 !! k';
  je_same : forall r, db_ci_jobs d0 !! k = Some r -> exists r', db_ci_jobs d !! k = Some r' /\ same_job r r';
  je_logs : db_ci_logs d0 ⊆ db_ci_logs d;
  je_artifacts : forall ka a, cia_CiJobID a <> Some k -> db_ci_artifacts d !! ka = Some a <-> db_ci_artifacts d0 !! ka = Some a
}.

#[local] Instance job_effect_preorder : PreOrder job_effect.
Proof.
  split.
  - intros d. split; try done; [by destruct d as [????????????????[]]|by intros r Hr; exists r].
  - intros d1 d2 d3 [F1 O1 S1 L1 A1] [F2 O2 S2 L2 A2]. split.
    + rewrite F2, F1. by destruct d1 as [????????????????[]].
    + intros k' Hk. by rewrite O2, O1.
    + intros r Hr. destruct (S1 r Hr) as (r1 & Hr1 & Hs1). destruct (S2 r1 Hr1) as (r2 & Hr2 & Hs2). exists r2. split; [done|]. by etrans.
    + by etrans.
    + intros ka a Ha. by rewrite A2, A1.
Qed.

Lemma job_row_effect d r r' : db_ci_jobs d !! k = Some r -> same_job r r' -> job_effect d (set_ci_jobs (<[k := r']> (db_ci_jobs d)) d).
Proof.
  intros Hr Hs. split; try done.
  - intros k' Hk. cbn. by rewrite lookup_insert_ne.
  - intros r1 Hr1. exists r'. split; [apply lookup_insert_eq|]. rewrite Hr in Hr1. by injection Hr1 as <-.
Qed.

(** A statement on the job's row. *)
Lemma job_update d guard (f : CiJob -> CiJob) x d' :
  (forall r, same_job r (f r)) -> executing (update_row t_ci_jobs (Some k) guard f d) = inr (x, d') -> job_effect d d'.
Proof.
  intros Hf H. apply executing_inv in H as [->|(k' & r & [= <-] & Hr & _ & _ & ->)]; [reflexivity|]. by apply (job_row_effect d r).
Qed.

Lemma job_stmt_effect d d' : db_step allowed d d' -> job_effect d d'.
Proof.
  intros (A & f & t & a & Hs & H). destruct Hs; try (eapply job_update; [|exact H]; by intros r; split).
  - unfold CIJobLogCreate in H. destruct (insert_row _ _ _ _) as [|[y d2]] eqn:E; simplify_eq.
    apply insert_row_inv in E as (k' & _ & Hk & _ & _ & ->). cbn in Hk. split; try done; [by intros r Hr; exists r|].
    by apply insert_subseteq.
  - unfold CIJobArtifactCreate in H. destruct (insert_row _ _ _ _) as [|[y d2]] eqn:E; simplify_eq.
    apply insert_row_inv in E as (k' & _ & Hk & _ & _ & ->). cbn in Hk. split; try done; [by intros r Hr; exists r|].
    intros ka a Ha. cbn. destruct (decide (ka = k')) as [->|Hne]; [|by rewrite lookup_insert_ne]. rewrite lookup_insert_eq, Hk. split; [|done].
    intros [= <-]. by destruct Ha.
  - unfold CIJobArtifactDeleteByJobID in H. injection H as <- <-. split; try done; [by intros r Hr; exists r|].
    intros ka a Ha. cbn. rewrite map_lookup_filter_Some. split; [by intros [? _]|]. intros Hka. split; [done|].
    destruct (cia_CiJobID a); [|done]. simpl. apply bool_decide_eq_false. congruence.
Qed.

(** Whoever reconciles the job: nothing, the mark of a cancellation that was
    asked for, or a run of a queued job whose lease was free. *)
Definition lease_effect (d0 d : Db) : Prop :=
  d = d0 \/
  exists r, db_ci_jobs d0 !! k = Some r /\ isTerminalStatus (ci_Status r) = false /\ job_effect d0 d /\
    (not_null (ci_CanceledAt r) = true /\ (exists r', db_ci_jobs d !! k = Some r' /\ ci_Status r' = "canceled") /\ db_ci_logs d = db_ci_logs d0 \/
     not_null (ci_CanceledAt r) = false /\ ci_Status r = "queued" /\
       (ci_ProcessingBy r = None \/ ci_ProcessingBy r = ToPgtype (js_serverID s))).

Lemma lease_free_inv server r : lease_free server r = true -> ci_Status r = "queued" /\ (ci_ProcessingBy r = None \/ ci_ProcessingBy r = server).
Proof.
  unfold lease_free. intros [H1%String.eqb_eq H2%orb_true_iff]%andb_true_iff. split; [done|].
  destruct (ci_ProcessingBy r) as [x|]; [right|by left]. destruct H2 as [H2|H2]; [done|].
  destruct server; [|done]. simpl in H2. by apply bool_decide_eq_true in H2 as ->.
Qed.

Lemma lease_step d0 job body : db_ci_jobs d0 !! k = Some job -> ci_ID job = Some k ->
  (forall job', ci_ID job' = Some k -> runs allowed (body job')) ->
  triple (fun d => d = d0) (with_lease s job body) (fun _ => lease_effect d0) (lease_effect d0).
Proof.
  intros Hjob Hid Hbody. unfold with_lease. destruct (isTerminalStatus (ci_Status job)) eqn:Et; [by apply tr_ret; left|].
  destruct (not_null (ci_CanceledAt job)) eqn:Ec.
  - eapply (tr_bind _ _ _ (fun _ => lease_effect d0)); [|intros _; apply tr_reading; [unfold publish_both, publishProject, publishCIJob; solve_runs|done|done]].
    apply tr_exec; [by left|]. intros t x d d' -> H. assert (lease_effect d0 d') as Hl; [|done]. right. exists job. split; [done|]. split; [done|].
    unfold CIJobMarkCanceled in H. rewrite Hid in H. split; [eapply job_update; [|exact H]; by intros r; split|]. left. split; [done|].
    eapply (executing_present _ k job) in H; [|done|done]. subst d'. split; [|done]. eexists. split; [apply lookup_insert_eq|done].
  - set (I := fun d => job_effect d0 d /\ lease_free (ToPgtype (js_serverID s)) job = true).
    assert (forall d, I d -> lease_effect d0 d) as HI by (intros d [H1 H2%lease_free_inv]; right; exists job; auto 10).
    eapply (tr_bind _ _ _ (fun r d => match r with inl _ => lease_effect d0 d | inr job' => I d /\ ci_ID job' = Some k end)).
    { apply tr_attempt, tr_exec; [intros d ->; split; [|intros _]; by left|]. intros t x d d' -> H. unfold CIJobClaimLease in H. rewrite Hid in H.
      apply returning_inv in H as (k' & r & [= <-] & Hr & Hg & _ & -> & ->). cbn in Hr. rewrite Hjob in Hr. injection Hr as <-.
      match goal with |- (I ?d /\ _) /\ _ => assert (I d) as Hd end.
      { split; [|done]. by apply (job_row_effect d0 job). }
      split; [done|]. split; [by apply HI|]. intros _. by apply HI. }
    intros [e|job']; [destruct e; by first [apply tr_ret|apply tr_throw]|]. apply tr_and. intros Hid'.
    intros w Hw. assert (I (w_db (deferring (ignore (exec (CIJobReleaseLease (ci_ID job') (ToPgtype (js_serverID s))))) (body job') w).2)) as Hw'.
    { apply (runs_invariant allowed I); [|apply runs_deferring; [rewrite Hid'; solve_runs|by apply Hbody]|done].
      intros d d' Hs [H1 H2]. split; [|done]. etrans; [exact H1|]. by apply job_stmt_effect. }
    destruct (deferring _ _ w).1; by apply HI.
Qed.

Lemma reconcile_step d0 : k <> uuid_Nil -> jobs_keyed d0 ->
  triple (fun d => d = d0) (Reconcile s k) (fun _ => lease_effect d0) (lease_effect d0).
Proof.
  intros Hk Hkeyed. unfold Reconcile, ToPgtype. rewrite decide_False by done.
  eapply (tr_bind _ _ _ (fun job d => d = d0 /\ db_ci_jobs d0 !! k = Some job)).
  { apply tr_wrap, tr_query; [by left|]. intros t job d -> H. unfold CIJobFirstByID in H. simpl in H.
    destruct (db_ci_jobs d0 !! k); simpl in H; [|done]. by injection H as ->. }
  intros job. apply tr_and. intros Hjob. pose proof (Hkeyed k job Hjob) as Hid.
  destruct (String.eqb _ _); [unfold reconcileGitHubRunnerJob|]; apply lease_step; try done; [apply runs_github_job|apply runs_workflow].
Qed.

End leases.

(** C28: Whatever fails, reconciling a CI job changes nothing when the job has
    finished, is no longer queued or is leased to another server, except that it
    marks a job whose cancellation was asked for; otherwise it changes the row
    of this job, its logs and its artifacts and nothing else, and keeps what the
    job is. The calls it makes may themselves issue statements on the job, as
    the events of GitHub do while its runner is at work. *)
Theorem ci_lease_exclusive (env : Env) (S : Sorter) (U : Unicode) (UF : UnicodeFold) (crypto : Crypto) (Workflow Plan : Type)
    (s : JobService Workflow Plan) (jobID : UUID) (w : World) :
  jobID <> uuid_Nil -> jobs_keyed (w_db w) -> calls_run (job_stmt jobID (ToPgtype (js_serverID s))) s ->
  lease_effect s jobID (w_db w) (w_db (Reconcile s jobID w).2).
Proof.
  intros Hk Hkeyed Hcalls. pose proof (reconcile_step s jobID Hcalls (w_db w) Hk Hkeyed w eq_refl) as H. by destruct (Reconcile s jobID w).1.
Qed.

(** *** Runs that come to an end *)

(** Every call out of the service ends, with an error or without, and leaves the
    database alone; a runner does so given that the lines it is told to log do. *)
Record calls_end {env : Env} {Workflow Plan : Type} (s : JobService Workflow Plan) : Prop := {
  ce_unpack : forall P job, total P (js_unpack s job) (fun _ => P) (fun _ => P);
  ce_jit : forall P client i name labels, js_ghClient s = Some client ->
    total P (gc_GenerateJITConfig client i name labels) (fun _ => P) (fun _ => P);
  ce_delete : forall P client i id, js_ghClient s = Some client -> total P (gc_DeleteRunner client i id) (fun _ => P) (fun _ => P);
  ce_github : forall P runner jit name target line, js_ghRunner s = Some runner ->
    (forall text, ends P (line text) (fun _ => P)) -> total P (gp_Run runner jit name target line) (fun _ => P) (fun _ => P);
  ce_workflow : forall P b runner plan write buf, js_NewWorkflowRunner s b = inr runner ->
    (forall bytes w, ends P (write bytes w) (fun _ => P)) -> ends P (wr_Run runner plan write buf) (fun _ => P)
}.

Lemma tot_deferring {env : Env} {A} (P : Db -> Prop) cleanup (m : M A) (Q Q' : A -> Db -> Prop) (X X' : error -> Db -> Prop) :
  total P m Q X -> (forall a, ends (Q a) cleanup (fun _ => Q' a)) -> (forall e, ends (X e) cleanup (fun _ => X' e)) ->
  total P (deferring cleanup m) Q' X'.
Proof.
  intros Hm HQ HX w Hw. specialize (Hm w Hw). unfold deferring. destruct (m w) as [[a|e| |] w1]; simpl in *; try done.
  - specialize (HQ a w1 Hm). by destruct (cleanup w1) as [[] w2].
  - specialize (HX e w1 Hm). by destruct (cleanup w1) as [[] w2].
Qed.

Section settle.
Context {env : Env} (Hq : quiet env) {S : Sorter} {U : Unicode} {UF : UnicodeFold} {crypto : Crypto} {Workflow Plan : Type}
        (s : JobService Workflow Plan) (Hcalls : calls_end s) (k : UUID) (job : CiJob) (Hid : ci_ID job = Some k).

(** The job under the lease of this server, with a status in [l]. *)
Definition leased (l : list string) (r : CiJob) : Prop :=
  same_job job r /\ ci_ProcessingBy r = ToPgtype (js_serverID s) /\ in_list l (ci_Status r) = true.

Abbreviation at_ l := (job_at k (leased l)).

Lemma at_weaken l l' d : (forall x, in_list l x = true -> in_list l' x = true) -> at_ l d -> at_ l' d.
Proof. intros Hl (r & Hr & Hok & H1 & H2 & H3). exists r. split; [done|]. split; [done|]. split; [done|]. split; [done|by apply Hl]. Qed.

Lemma in_list_one a x : in_list [a] x = true -> x = a.
Proof. unfold in_list. simpl. rewrite orb_false_r. intros H. by apply String.eqb_eq in H. Qed.

(** A mark on the job's row. *)
Lemma tot_status l st g (f : writes unit) X :
  (forall t d, f t d = executing (update_row t_ci_jobs (Some k) always (g t) d)) ->
  (forall t r, same_job r (g t r) /\ ci_ProcessingBy (g t r) = ci_ProcessingBy r /\ ci_Status (g t r) = st) ->
  in_list ["queued"; "running"; "successful"; "failed"; "canceled"] st = true ->
  total (at_ l) (exec f) (fun _ => at_ [st]) X.
Proof.
  intros Hf Hg Hst. eapply (tot_mark Hq k _ _ g always f); [done|done| | | |].
  - intros t r (H1 & H2 & H3). destruct (Hg t r) as (G1 & G2 & G3). split; [by etrans|]. split; [by rewrite G2|]. rewrite G3. unfold in_list. simpl.
    by rewrite String.eqb_refl.
  - intros t r _. apply Hg.
  - intros t r _. right. apply Hg.
  - intros t r _. right. destruct (Hg t r) as (_ & _ & ->). done.
Qed.

Lemma tot_fail l e : ends (at_ l) (failGitHubRunnerJob s job e) (fun _ => at_ ["failed"]).
Proof.
  unfold failGitHubRunnerJob. rewrite Hid. eapply tot_bind; [by apply tot_log|]. intros [].
  eapply (tot_bind _ _ _ (fun _ => at_ ["failed"])); [|intros []; apply tot_publish]. eapply tot_status; [reflexivity|by intros; split_and!|done].
Qed.

Lemma tot_fail_workflow l e : ends (at_ l) (fail_workflow s job e) (fun _ => at_ ["failed"]).
Proof.
  unfold fail_workflow. rewrite Hid. eapply (tot_bind _ _ _ (fun _ => at_ ["failed"])); [|intros []; apply tot_publish].
  eapply tot_ignore. eapply tot_status; [reflexivity|by intros; split_and!|done].
Qed.

Lemma no_integration owner : ResolveIntegrationForOwner [] owner = None.
Proof. unfold ResolveIntegrationForOwner. cbv zeta. by destruct (String.eqb _ _). Qed.

(** The calls that only read. *)
Lemma tot_integration P project : total P (githubIntegrationForJob s project job) (fun _ => P) (fun _ => P).
Proof.
  unfold githubIntegrationForJob. eapply (tot_bind _ _ _ (fun _ d => P d /\ js_cfg s <> None)).
  - unfold githubIntegrationForProject. eapply (tot_bind _ _ _ (fun _ => P)).
    + by apply tot_wrap, tot_query; [|intros t d Hd; unfold OrgProviderConnectionListByOrg].
    + intros rows. destruct (js_cfg s) as [key|] eqn:Ecfg; [case_match; [by apply tot_ret|by apply tot_throw]|].
      assert (github_integrations None rows = []) as -> by (unfold github_integrations; by induction rows).
      rewrite no_integration. by apply tot_throw.
  - intros i. apply tot_and. intros Hcfg. case_match; [|by apply tot_ret].
    eapply (tot_bind _ _ _ (fun _ => P)); [by apply tot_query; [|intros t d Hd; unfold OrgProviderConnectionListByOrg]|].
    intros rows. case_match; [|by apply tot_ret]. destruct (js_cfg s) as [key|]; [|done]. unfold deref.
    destruct (DecryptBytes _ _); [by apply (tot_throw P)|]. eapply (tot_bind _ _ _ (fun _ => P)); [by apply tot_ret|]. intros plain.
    case_match; [by apply tot_throw|by apply tot_ret].
Qed.

Lemma tot_project l : ends (at_ l) (wrap "load project for GitHub runner job" (query (ProjectFirstByID (ci_ProjectID job)))) (fun _ => at_ l).
Proof.
  apply tot_wrap, tot_query; [done|]. intros t d Hd. pose proof Hd as (r & _ & Hok & [Hs _]). unfold ci_job_ok in Hok.
  rewrite !andb_true_iff in Hok. destruct Hok as [[[[[Hp _] _] _] _] _]. rewrite (sj_project _ _ Hs) in Hp. unfold ProjectFirstByID.
  destruct (ci_ProjectID job) as [p|]; [|done]. simpl in *. by destruct (db_projects d !! p).
Qed.

Lemma tot_after client integration jit ended : js_ghClient s = Some client ->
  ends (at_ ["running"]) (after_runner s client integration jit job ended) (fun _ => at_ ["failed"; "running"]).
Proof.
  intros Hc. assert (forall l d, in_list ["failed"; "running"] l = true -> at_ [l] d -> at_ ["failed"; "running"] d) as Hw.
  { intros l d Hl. apply at_weaken. by intros x ->%in_list_one. }
  unfold after_runner. eapply (tot_bind _ _ _ (fun _ => at_ ["running"])).
  { apply tot_attempt, tot_query; [done|]. intros t d Hd. by case_match. }
  intros cur. case_match; [apply tot_ret; intros d; by apply Hw|].
  eapply (tot_bind _ _ _ (fun _ => at_ ["running"])); [by intros w Hw0|]. intros canceled. destruct canceled; [apply tot_ret; intros d; by apply Hw|].
  destruct ended as [e|].
  - eapply (tot_bind _ _ _ (fun _ => at_ ["running"])); [apply tot_ignore; by apply (ce_delete s Hcalls)|]. intros [].
    eapply tot_conseq; [by apply tot_fail|done| |done]. intros a d. by apply Hw.
  - eapply (tot_bind _ _ _ (fun _ => at_ ["running"])); [by apply tot_log|]. intros []. eapply tot_conseq; [apply (tot_publish s (at_ ["running"]) _ _ (fun _ _ => False))|done| |done].
    intros a d. by apply Hw.
Qed.

Lemma tot_github : ends (at_ ["queued"]) (run_github_job s job) (fun _ => at_ ["failed"; "running"]).
Proof.
  assert (forall l e, ends (at_ l) (failGitHubRunnerJob s job e) (fun _ => at_ ["failed"; "running"])) as Hfail.
  { intros l e. eapply tot_conseq; [apply tot_fail|done| |done]. intros a d. apply at_weaken. by intros x ->%in_list_one. }
  unfold run_github_job. eapply tot_bind; [by apply tot_project|]. intros project. cbv beta.
  eapply (tot_bind _ _ _ (fun _ => at_ ["queued"])); [apply tot_attempt, tot_integration|]. intros [e|integration]; [apply Hfail|].
  destruct (ResolveRunnerTarget _ _) as [e|target]; [apply Hfail|]. destruct (js_ghRunner s) as [runner|] eqn:Er; [|apply Hfail].
  destruct (gp_SupportsTarget runner target); [apply Hfail|]. destruct (js_ghClient s) as [client|] eqn:Ec; [|apply Hfail]. cbv zeta.
  eapply (tot_bind _ _ _ (fun _ => at_ ["queued"])); [by apply tot_log|]. intros [].
  eapply (tot_bind _ _ _ (fun _ => at_ ["queued"])); [apply tot_attempt; by apply (ce_jit s Hcalls)|]. intros [e|jit]; [apply Hfail|].
  eapply (tot_bind _ _ _ (fun _ => at_ ["queued"])); [by apply tot_log|]. intros []. rewrite Hid.
  eapply (tot_bind _ _ _ (fun _ => at_ ["running"])); [eapply tot_status; [reflexivity|by intros; split_and!|done]|]. intros [].
  eapply (tot_bind _ _ _ (fun _ => at_ ["running"])); [apply tot_publish|]. intros [].
  eapply (tot_bind _ _ _ (fun _ => at_ ["running"])); [|intros ended; by apply tot_after].
  apply tot_attempt. apply (ce_github s Hcalls); [done|]. intros text. by apply tot_log.
Qed.

Abbreviation finished := ["successful"; "failed"; "canceled"].

Lemma finished_weaken st d : in_list finished st = true -> at_ [st] d -> at_ finished d.
Proof. intros Hst. apply at_weaken. by intros x ->%in_list_one. Qed.

Lemma tot_write P (fn : string -> M unit) p : (forall text, ends P (fn text) (fun _ => P)) -> forall w, ends P (Write fn p w) (fun _ => P).
Proof.
  intros Hfn. induction p as [|b p IH]; intros w; simpl; [by apply tot_ret|]. case_match; [|apply IH].
  eapply (tot_bind _ _ _ (fun _ => P)); [by apply tot_when|]. intros _. apply IH.
Qed.

Lemma tot_artifacts l artifacts : ends (at_ l) (ignore (replaceArtifacts s (Some k) artifacts)) (fun _ => at_ l).
Proof.
  apply tot_ignore. unfold replaceArtifacts. eapply (tot_bind _ _ _ (fun _ => at_ l)); [by apply tot_exec|]. intros [].
  eapply (tot_bind _ _ _ (fun _ => at_ l)); [|intros []; apply tot_when; [intros _; by apply tot_emit|done]].
  apply tot_for_each. intros a. eapply (tot_bind _ _ _ (fun _ => at_ l)); [by apply tot_new_uuid|]. intros id. apply tot_exec; [done|].
  intros t d Hd. unfold CIJobArtifactCreate. destruct (insert_row _ _ _ _) as [e|[y d']] eqn:E; [done|].
  apply insert_row_inv in E as (k' & _ & _ & _ & _ & ->). exact Hd.
Qed.

Lemma tot_finish l runErr : ends (at_ l) (finish_workflow s job runErr) (fun _ => at_ finished).
Proof.
  unfold finish_workflow. rewrite Hid. eapply (tot_bind _ _ _ (fun _ => at_ l)); [by intros w Hw0|]. intros canceled.
  assert (forall st g (f : writes unit), in_list finished st = true ->
    (forall t d, f t d = executing (update_row t_ci_jobs (Some k) always (g t) d)) ->
    (forall t r, same_job r (g t r) /\ ci_ProcessingBy (g t r) = ci_ProcessingBy r /\ ci_Status (g t r) = st) ->
    ends (at_ l) (ignore (exec f)) (fun _ => at_ finished)) as Hmark.
  { intros st g f Hst Hf Hg. apply tot_ignore. eapply tot_conseq; [eapply (tot_status l st g f (fun _ _ => False)); [done|done|]|done| |done].
    - unfold in_list in *. simpl in *. repeat (destruct (String.eqb st _); [by rewrite ?orb_true_r|]). done.
    - intros a d. by apply finished_weaken. }
  repeat case_match; (eapply (tot_bind _ _ _ (fun _ => at_ l)); [by apply tot_log|]); intros [].
  - by apply (Hmark "canceled" _ _ eq_refl (fun _ _ => eq_refl)).
  - by apply (Hmark "failed" _ _ eq_refl (fun _ _ => eq_refl)).
  - by apply (Hmark "successful" _ _ eq_refl (fun _ _ => eq_refl)).
Qed.

Lemma tot_workflow : ends (at_ ["queued"]) (run_workflow s job) (fun _ => at_ finished).
Proof.
  assert (forall l e, ends (at_ l) (fail_workflow s job e) (fun _ => at_ finished)) as Hfail.
  { intros l e. eapply tot_conseq; [apply tot_fail_workflow|done| |done]. intros a d. by apply finished_weaken. }
  unfold run_workflow. eapply (tot_bind _ _ _ (fun _ => at_ ["queued"])).
  { apply tot_attempt. unfold prepareWorkspace. case_match; [by apply tot_throw|apply (ce_unpack s Hcalls)]. }
  intros [e|workDir]; [apply Hfail|]. destruct (js_Resolve _ _ _); [apply Hfail|]. destruct (js_Compile _ _ _ _ _ _); [apply Hfail|].
  destruct (js_NewWorkflowRunner _ _) as [e|runner] eqn:Er.
  { eapply (tot_bind _ _ _ (fun _ => at_ ["queued"])); [by apply tot_log|]. intros []. apply Hfail. }
  cbv zeta. rewrite Hid. eapply (tot_bind _ _ _ (fun _ => at_ ["queued"])); [by apply tot_log|]. intros [].
  eapply (tot_bind _ _ _ (fun _ => at_ ["queued"])); [by apply tot_log|]. intros [].
  eapply (tot_bind _ _ _ (fun _ => at_ ["running"])); [eapply tot_status; [reflexivity|by intros; split_and!|done]|]. intros [].
  eapply (tot_bind _ _ _ (fun _ => at_ ["running"])); [apply tot_publish|]. intros [].
  eapply (tot_bind _ _ _ (fun _ => at_ ["running"])).
  { eapply (ce_workflow s Hcalls); [done|]. intros bytes lw. apply tot_write. intros text. by apply tot_log. }
  intros [[writer artifacts] runErr]. eapply (tot_bind _ _ _ (fun _ => at_ ["running"])).
  { unfold Flush. eapply (tot_bind _ _ _ (fun _ => at_ ["running"])); [apply tot_when; [intros _; by apply tot_log|done]|]. intros []. by apply tot_ret. }
  intros _. eapply (tot_bind _ _ _ (fun _ => at_ ["running"])); [apply tot_artifacts|]. intros [].
  eapply (tot_bind _ _ _ (fun _ => at_ finished)); [apply tot_finish|]. intros []. apply tot_publish.
Qed.

(** The lease is given back. *)
Lemma tot_release l : js_serverID s <> uuid_Nil ->
  ends (at_ l) (ignore (exec (CIJobReleaseLease (Some k) (ToPgtype (js_serverID s)))))
    (fun _ => job_at k (fun r => same_job job r /\ ci_ProcessingBy r = None /\ in_list l (ci_Status r) = true)).
Proof.
  intros Hs. unfold ToPgtype. rewrite decide_False by done. apply tot_ignore.
  eapply (tot_mark Hq k _ _ (fun t r => set_ci_UpdatedAt (Some t) (set_ci_ProcessingBy None r)) (fun r => col_eq (ci_ProcessingBy r) (Some (js_serverID s)))).
  - done.
  - intros r (_ & Hp & _). rewrite Hp. unfold ToPgtype. rewrite decide_False by done. by apply bool_decide_eq_true.
  - intros t r (H1 & _ & H3). split; [|done]. etrans; [exact H1|by split].
  - intros t r _. by split.
  - by left.
  - by left.
Qed.

End settle.

Section settles.
Context {env : Env} (Hq : quiet env) {S : Sorter} {U : Unicode} {UF : UnicodeFold} {crypto : Crypto} {Workflow Plan : Type}
        (s : JobService Workflow Plan) (Hcalls : calls_end s) (k : UUID) (job : CiJob) (Hid : ci_ID job = Some k).

(** A queued job of this server's, or free, that nobody canceled; the server is
    registered. *)
Record startable (d : Db) : Prop := {
  st_row : db_ci_jobs d !! k = Some job;
  st_ok : ci_job_ok d k job = true;
  st_free : lease_free (ToPgtype (js_serverID s)) job = true;
  st_canceled : ci_CanceledAt job = None;
  st_server : fk_required (db_servers d) (ToPgtype (js_serverID s)) = true
}.

Definition settled (l : list string) (r : CiJob) : Prop := same_job job r /\ ci_ProcessingBy r = None /\ in_list l (ci_Status r) = true.

Lemma tot_with_lease l body :
  (forall job', ci_ID job' = Some k -> ends (job_at k (leased s job' ["queued"])) (body job') (fun _ => job_at k (leased s job' l))) ->
  ends startable (with_lease s job body) (fun _ => job_at k (settled l)).
Proof.
  intros Hbody. apply (tot_fact (lease_free (ToPgtype (js_serverID s)) job = true /\ ci_CanceledAt job = None /\ js_serverID s <> uuid_Nil)).
  { intros d []. split; [done|]. split; [done|]. intros E. rewrite E in *. done. }
  intros (Hfree & Hc & Hserver). unfold with_lease.
  assert (ci_Status job = "queued") as Hst by (unfold lease_free in Hfree; apply andb_true_iff in Hfree as [Hs _]; by apply String.eqb_eq in Hs).
  rewrite Hst, Hc. simpl.
  eapply (tot_bind _ _ _ (fun r d => match r with inl _ => False | inr job' => job_at k (leased s job' ["queued"]) d /\ (ci_ID job' = Some k /\ same_job job job') end)).
  - apply tot_attempt, tot_exec; [done|]. intros t d [Hr Hok _ _ Hsv]. unfold CIJobClaimLease, returning, update_row. rewrite Hid. cbn [t_get t_ci_jobs].
    rewrite Hr, Hfree. set (r' := set_ci_UpdatedAt _ _).
    assert (same_job job r') as Hsame by (by split).
    assert (ci_job_ok d k r' = true) as Hok'.
    { apply (job_row_ok d k job); [done|done| |]; simpl; [|by rewrite Hst]. by destruct (ToPgtype _). }
    cbn [t_ok t_ci_jobs]. rewrite Hok'. split; [|by split; [rewrite (sj_id _ _ Hsame)|]].
    exists r'. split; [apply lookup_insert_eq|]. split; [unfold ci_job_ok in Hok' |- *; cbn; by rewrite delete_insert_eq|].
    split; [reflexivity|]. split; [done|]. simpl. by rewrite Hst.
  - intros [e|job']; [by intros w []|]. apply tot_and. intros [Hid' Hsame']. eapply tot_deferring; [by apply Hbody| |by intros e w []].
    intros a. rewrite Hid'. eapply tot_conseq; [by apply (tot_release Hq s k job')|done| |done].
    intros _ d (r & Hr & Hok & H1 & H2 & H3). exists r. split; [done|]. split; [done|]. split; [by etrans|done].
Qed.

Lemma tot_reconcile :
  k <> uuid_Nil ->
  ends startable (Reconcile s k)
    (fun _ => job_at k (settled (if String.eqb (ci_Source job) "github_actions_runner" then ["failed"; "running"] else ["successful"; "failed"; "canceled"]))).
Proof.
  intros Hk. unfold Reconcile. eapply (tot_bind _ _ _ (fun r d => startable d /\ r = job)).
  { apply tot_wrap, tot_query; [done|]. intros t d Hd. unfold CIJobFirstByID, ToPgtype. rewrite decide_False by done. simpl.
    by rewrite (st_row d Hd). }
  intros r. apply tot_and. intros ->. destruct (String.eqb _ _).
  - apply tot_with_lease. intros job' Hid'. by apply tot_github.
  - apply tot_with_lease. intros job' Hid'. by apply tot_workflow.
Qed.

End settles.

(** When no statement fails and the calls out of the service come to an end,
    with or without an error, reconciling a queued job that is free and not
    canceled succeeds and gives the lease back; a local workflow has then
    finished, and the job of a GitHub runner has failed or waits, running, for
    the event that it completed. *)
Theorem ci_job_settles (env : Env) (S : Sorter) (U : Unicode) (UF : UnicodeFold) (crypto : Crypto) (Workflow Plan : Type)
    (s : JobService Workflow Plan) (jobID : UUID) (job : CiJob) (w : World) :
  quiet env -> calls_end s -> jobID <> uuid_Nil -> ci_ID job = Some jobID -> startable s jobID job (w_db w) ->
  let r := Reconcile s jobID w in
  r.1 = Ret tt /\ exists row, db_ci_jobs (w_db r.2) !! jobID = Some row /\ same_job job row /\ ci_ProcessingBy row = None /\
    if String.eqb (ci_Source job) "github_actions_runner" then ci_Status row = "failed" \/ ci_Status row = "running"
    else isTerminalStatus (ci_Status row) = true.
Proof.
  intros Hq Hcalls Hk Hid Hstart r. pose proof (tot_reconcile Hq s Hcalls jobID job Hid Hk w Hstart) as H. fold r in H.
  destruct r.1 as [[]| | |]; try done. split; [done|]. destruct H as (row & Hrow & _ & Hs & Hp & Hst). exists row. split; [done|]. split; [done|]. split; [done|].
  destruct (String.eqb _ _); [|done]. unfold in_list in Hst. simpl in Hst. rewrite orb_false_r in Hst. apply orb_true_iff in Hst as [H|H]; apply String.eqb_eq in H; auto.
Qed.

(** ** A sample *)

#[export] Instance sample_fold : UnicodeFold := {| fold_other r := r |}.

(** The connection of the organization to GitHub, its credentials encrypted. *)
Definition sample_credentials : list N :=
  match (EncryptBytes sample_key (quoted "{'app_private_key_pem':'pem','webhook_secret':'s3cret'}") sample_world).1 with Ret ct => ct | _ => [] end.

Definition sample_connection : OrgProviderConnection :=
  mkOrgProviderConnection (Some 90%N) (Some 2%N) "github" "acme" "Acme" sample_credentials
    (JObject [("mode", JString "actions_runner"); ("org_login", JString "acme"); ("app_id", JNumber "7"); ("installation_id", JNumber "8")])
    (Some 1) (Some 1).

Definition sample_ci_job : CiJob :=
  mkCiJob (Some 80%N) (Some 1%N) "queued" "local_workflow_run" "ci" "" "build" "push" (JObject []) "/archives/80.tar.gz" None "" 0 0 0 0 "" JNull "" false
    "" "" None None "" None None None (Some 1) (Some 1).

Definition sample_ci_db : Db := set_ci_jobs {[ 80%N := sample_ci_job ]} (set_connections {[ 90%N := sample_connection ]} sample_db).
Definition sample_ci_world : World := mkWorld sample_ci_db 2000 0 None [].

(** A runner that prints a line and leaves an artifact. *)
Definition sample_runner : WorkflowRunner unit :=
  mkWorkflowRunner unit "local" (fun _ write buf =>
    let! buf := write (bytes_of "tests passed" ++ [10%N]) buf in ret (buf, [mkArtifactInfo "report" "/work/report"], None)).

Definition sample_ci : JobService unit unit :=
  mkJobService unit unit (Some sample_key) 30%N true true None None (fun _ => ret "/work") (fun _ _ => inr tt) (fun _ _ _ _ _ => inr tt)
    (fun _ => inr sample_runner) (fun _ => false).

Definition sample_event : GitHubWorkflowJobEvent :=
  mkGitHubWorkflowJobEvent "queued" "acme/shop" "acme" "CI" "build" "push" 42 41 1 "" ["self-hosted"; "Kindling"] 8 "".

Lemma sample_jobs_keyed : jobs_keyed sample_ci_db.
Proof. intros k r. cbn. rewrite lookup_singleton_Some. by intros [<- <-]. Qed.

Lemma workflow_event_witness :
  exists res, (HandleGitHubWorkflowJobEvent sample_ci sample_event sample_ci_world).1 = Ret res /\ hr_Ignored res = false /\
    event_answer sample_event sample_ci_db res (w_db (HandleGitHubWorkflowJobEvent sample_ci sample_event sample_ci_world).2).
Proof.
  destruct (workflow_event_effect sample_env insertion_sorter sample_unicode sample_fold sample_crypto unit unit sample_ci sample_event sample_ci_world
    sample_jobs_keyed) as (_ & H1 & H2).
  destruct (H2 sample_project (default (mkIntegration sample_connection (mkProviderMetadata "" "" 0 0 0 []) (mkProviderCredentials "" ""))
    (head (github_integrations (Some sample_key) [sample_connection])))) as (res & Hr & Hi).
  - intros n. reflexivity.
  - split.
    + vm_compute. reflexivity.
    + vm_compute. reflexivity.
    + vm_compute. reflexivity.
    + exists [sample_connection]. split; vm_compute; reflexivity.
    + vm_compute. reflexivity.
    + split; vm_compute; reflexivity.
    + intros k r. cbn. rewrite lookup_singleton_Some. intros [<- <-]. vm_compute. reflexivity.
    + intros n. change (env_uuid n) with (1000 + N.of_nat n)%N. split; [unfold uuid_Nil; lia|]. cbn. apply lookup_singleton_None. lia.
  - exists res. split; [exact Hr|]. split; [exact Hi|apply (H1 res Hr)].
Defined.

Lemma sample_calls_run allowed : calls_run allowed sample_ci.
Proof.
  split; simpl; try done; [intros; solve_runs|]. intros b runner plan write buf [= <-] Hw. simpl. apply runs_bind; [apply Hw|]. intros. solve_runs.
Qed.

Lemma ci_lease_witness : lease_effect sample_ci 80%N sample_ci_db (w_db (Reconcile sample_ci 80%N sample_ci_world).2).
Proof.
  apply (ci_lease_exclusive sample_env insertion_sorter sample_unicode sample_fold sample_crypto unit unit sample_ci 80%N sample_ci_world).
  - discriminate.
  - apply sample_jobs_keyed.
  - apply sample_calls_run.
Defined.

Lemma sample_calls_end : calls_end sample_ci.
Proof.
  split; simpl; try done; [intros; by apply tot_ret|]. intros P b runner plan write buf [= <-] Hw. simpl.
  eapply (tot_bind _ _ _ (fun _ => P)); [apply Hw|]. intros. by apply tot_ret.
Qed.

Lemma ci_settles_witness :
  (Reconcile sample_ci 80%N sample_ci_world).1 = Ret tt /\
  exists row, db_ci_jobs (w_db (Reconcile sample_ci 80%N sample_ci_world).2) !! 80%N = Some row /\ isTerminalStatus (ci_Status row) = true.
Proof.
  destruct (ci_job_settles sample_env insertion_sorter sample_unicode sample_fold sample_crypto unit unit sample_ci 80%N sample_ci_job sample_ci_world)
    as (H1 & row & H2 & _ & _ & H3).
  - intros n. reflexivity.
  - apply sample_calls_end.
  - discriminate.
  - reflexivity.
  - split; vm_compute; reflexivity.
  - split; [exact H1|]. exists row. split; [exact H2|exact H3].
Defined.
