(* ===== verification/EdgeProxy.v ===== *)
(** * The edge proxy

    internal/edgeproxy/edgeproxy.go: the table of routes, the handler of
    requests with its retry, and the wake-up of deployments scaled to zero. The
    forwarding of a request to a backend is a call whose outcome is arbitrary;
    what other processes do while a request waits is a computation; the usage
    counters and the TLS library are left out. *)

From S2P Require Import Prelude NetAddr Text Models Runtime Effects Queries Json GithubActions EventQueries.

(** ** Configuration *)

(** Durations in nanoseconds. *)
Definition defaultColdStartTimeout : Duration := 120 * Second.
Definition defaultHTTPSWriteTimeout : Duration := 30 * Second.
Definition coldStartMargin : Duration := 15 * Second.
Definition coldStartLookupPollInterval : Duration := 200 * Millisecond.

(** [New]: the wait for a cold start and the write timeout of HTTPS. *)
Definition edge_timeouts (configured : Duration) : Duration * Duration :=
  let cold := if configured <=? 0 then defaultColdStartTimeout else configured in
  let https :=
    if (0 <? configured) && (defaultHTTPSWriteTimeout <? wrap64 (cold + coldStartMargin)) then wrap64 (cold + coldStartMargin)
    else defaultHTTPSWriteTimeout in
  (cold, https).

Section control.
Context {U : Unicode}.

(** The first occurrence of every host, trimmed and in lower case. *)
Definition normalizeControlPlaneHosts (hosts : list string) : list string :=
  foldl (fun out h =>
    let h := ToLower (TrimSpace h) in
    if String.eqb h "" || existsb (String.eqb h) out then out else out ++ [h]) [] hosts.

End control.

(** ** Routes *)

Record Backend := mkBackend { be_IP : string; be_Port : Z }.

Record Route := mkRoute {
  ro_ProjectID : pgUUID;
  ro_DeploymentID : pgUUID;
  ro_DeploymentKind : string;
  ro_Backends : list Backend;
  ro_RedirectTo : string;
  ro_RedirectStatusCode : Z
}.

(** The maps [loadRoutes] builds. *)
Record route_maps := mkRouteMaps {
  rm_redirects : gmap string Route;
  rm_seen : gmap string (gset UUID);
  rm_backends : gmap string (list Backend);
  rm_project : gmap string pgUUID;
  rm_deployment : gmap string pgUUID;
  rm_kind : gmap string string
}.

Definition empty_maps : route_maps := mkRouteMaps ∅ ∅ ∅ ∅ ∅ ∅.

Section routes.
Context (serverID : pgUUID).

Definition route_backend (row : RouteFindActiveRow) (ip : Addr) : Backend :=
  mkBackend (if not_null row.(rr_ServerID) && not_null serverID && bool_decide (row.(rr_ServerID) = serverID) then "127.0.0.1" else Addr_String ip)
    (default 0 row.(rr_VmPort)).

(** The body of the loop over the rows. *)
Definition add_row (m : route_maps) (row : RouteFindActiveRow) : route_maps :=
  let h := row.(rr_DomainName) in
  match row.(rr_RedirectTo) with
  | Some target =>
      mkRouteMaps (<[h := mkRoute row.(rr_ProjectID) row.(rr_DeploymentID) row.(rr_DeploymentKind) [] target (default 0 row.(rr_RedirectStatusCode))]> m.(rm_redirects))
        m.(rm_seen) m.(rm_backends) m.(rm_project) m.(rm_deployment) m.(rm_kind)
  | None =>
      match row.(rr_VmIp) with
      | None => m
      | Some ip =>
          if bool_decide (ip = AddrZero) then m
          else
            let seen := default ∅ (m.(rm_seen) !! h) in
            let add seen :=
              mkRouteMaps m.(rm_redirects) (<[h := seen]> m.(rm_seen))
                (<[h := default [] (m.(rm_backends) !! h) ++ [route_backend row ip]]> m.(rm_backends))
                (<[h := row.(rr_ProjectID)]> m.(rm_project)) (<[h := row.(rr_DeploymentID)]> m.(rm_deployment))
                (if String.eqb row.(rr_DeploymentKind) "" then m.(rm_kind) else <[h := row.(rr_DeploymentKind)]> m.(rm_kind)) in
            match row.(rr_VmID) with
            | None => add seen
            | Some k => if bool_decide (k ∈ seen) then m else add ({[ k ]} ∪ seen)
            end
      end
  end.

(** Redirects first, then the hosts with backends. *)
Definition routes_of (m : route_maps) : gmap string Route :=
  m.(rm_redirects) ∪
  map_imap (fun h bes =>
    match bes with
    | [] => None
    | _ => Some (mkRoute (default None (m.(rm_project) !! h)) (default None (m.(rm_deployment) !! h)) (default "" (m.(rm_kind) !! h)) bes "" 0)
    end) m.(rm_backends).

Definition build_routes (rows : list RouteFindActiveRow) : gmap string Route := routes_of (foldl add_row empty_maps rows).

End routes.

(** ** The service *)

(** The state all requests share: the routes, the counter of [pickBackend] (a
    uint64) and the times of the last scale hints. *)
Record EdgeState := mkEdgeState {
  es_routes : gmap string Route;
  es_backendRR : Z;
  es_scaleHintLast : gmap UUID Time
}.

Definition set_routes (v : gmap string Route) (st : EdgeState) : EdgeState := mkEdgeState v st.(es_backendRR) st.(es_scaleHintLast).

(** [ed_proxy]: the outcome of forwarding to a URL, a status or an error.
    [ed_canceled]: whether the request's context is done.  [ed_others]: what
    happens while a request sleeps, in the cluster (a deployment starts) and in
    this process (other requests, the refresh of the routes). *)
Record Edge := mkEdge {
  ed_serverID : UUID;
  ed_coldStartTimeout : Duration;
  ed_controlPlaneHosts : list string;
  ed_apiBackend : bool;
  ed_wakeDeployment : bool;
  ed_scaleHintDeployment : bool;
  ed_scaleHintMinInterval : Duration;
  ed_proxy : nat -> string -> error + Z;
  ed_canceled : nat -> bool;
  ed_others : EdgeState -> M EdgeState
}.

(** What the client gets: a redirect, an error, the control plane's answer or a
    backend's. *)
Inductive EdgeReply :=
  | EdgeRedirect (target : string) (code : Z)
  | EdgeError (code : Z) (text : string)
  | EdgeControlPlane
  | EdgeProxied (b : Backend) (status : Z).

Section edge.
Context {env : Env} {S : Sorter} {UF : UnicodeFold} (s : Edge).

Definition loadRoutes (st : EdgeState) : M (option error * EdgeState) :=
  let! r := attempt (query RouteFindActive) in
  match r with
  | inl e => ret (Some (ErrWrap "load active routes" e), st)
  | inr rows => ret (None, set_routes (build_routes (ToPgtype s.(ed_serverID)) rows) st)
  end.

(** The request's context is done. *)
Definition ctx_done : M bool := fun w => (Ret (s.(ed_canceled) w.(w_step)), tick w).

Definition pickBackend (route : Route) (st : EdgeState) : option Backend * EdgeState :=
  match route.(ro_Backends) with
  | [] => (None, st)
  | _ =>
      let c := (st.(es_backendRR) + 1) mod 2 ^ 64 in
      let i := (c - 1) mod 2 ^ 64 mod Z.of_nat (length route.(ro_Backends)) in
      (route.(ro_Backends) !! Z.to_nat i, mkEdgeState st.(es_routes) c st.(es_scaleHintLast))
  end.

(** A goroutine of its own in the source. *)
Definition recordRequestActivity (kind : string) (projectID deploymentID : pgUUID) : M unit :=
  if EqualFold kind "preview" then
    when (not_null deploymentID) (ignore (exec (DeploymentPreviewUpdateLastRequestAt deploymentID)))
  else when (not_null projectID) (ignore (exec (ProjectUpdateLastRequestAt projectID))).

Definition maybeDeploymentScaleHint (deploymentID : UUID) (st : EdgeState) : M EdgeState :=
  if negb s.(ed_scaleHintDeployment) || (deploymentID =? uuid_Nil)%N then ret st
  else
    let! t := now in
    let recent := match st.(es_scaleHintLast) !! deploymentID with
                  | Some last => t - last <? s.(ed_scaleHintMinInterval)
                  | None => false
                  end in
    if recent then ret st
    else
      do! emit (EvSchedule SchedDeployments deploymentID t) ;
      ret (mkEdgeState st.(es_routes) st.(es_backendRR) (<[deploymentID := t]> st.(es_scaleHintLast))).

Definition backend_url (b : Backend) : string := "http://" +:+ b.(be_IP) +:+ ":" +:+ pretty b.(be_Port).

Definition proxyToBackend (url : string) : M (error + Z) := extern (EvProxy url) (fun n => s.(ed_proxy) n url).

Definition bad_gateway : EdgeReply := EdgeError 502 "Bad Gateway".

(** The loop of [reverseProxy] with the retries left: the end of the request, or
    the status with the backend and the route used. *)
Fixpoint proxy_loop (retries : nat) (host : string) (route : Route) (st : EdgeState)
    : M ((EdgeReply + (Backend * Z * Route)) * EdgeState) :=
  match pickBackend route st with
  | (None, st) => ret (inl (EdgeError 404 "Service Not Found"), st)
  | (Some be, st) =>
      let! r := proxyToBackend (backend_url be) in
      match r with
      | inr status => ret (inr (be, status, route), st)
      | inl _ =>
          match retries with
          | O => ret (inl bad_gateway, st)
          | Datatypes.S retries' =>
              let! done := ctx_done in
              if done then ret (inl bad_gateway, st)
              else
                let! '(e, st) := loadRoutes st in
                match e with
                | Some _ => ret (inl bad_gateway, st)
                | None =>
                    match st.(es_routes) !! host with
                    | Some route' =>
                        if (length route'.(ro_Backends) =? 0)%nat then ret (inl bad_gateway, st)
                        else proxy_loop retries' host route' st
                    | None => ret (inl bad_gateway, st)
                    end
                end
          end
      end
  end.

Definition reverseProxy (host : string) (route : Route) (st : EdgeState) : M (EdgeReply * EdgeState) :=
  do! recordRequestActivity route.(ro_DeploymentKind) route.(ro_ProjectID) route.(ro_DeploymentID) ;
  let! '(r, st) := proxy_loop 1 host route st in
  match r with
  | inl reply => ret (reply, st)
  | inr (be, status, current) =>
      if (200 <=? status) && (status <? 300) && negb (length current.(ro_Backends) =? 0)%nat && not_null route.(ro_DeploymentID) &&
         negb (EqualFold current.(ro_DeploymentKind) "preview") then
        let! st := maybeDeploymentScaleHint (FromPgtype route.(ro_DeploymentID)) st in
        ret (EdgeProxied be status, st)
      else ret (EdgeProxied be status, st)
  end.

Definition redirect_code (code : Z) : Z := if (code <? 300) || (399 <? code) then 301 else code.

Definition serveRedirect (route : Route) : EdgeReply := EdgeRedirect route.(ro_RedirectTo) (redirect_code route.(ro_RedirectStatusCode)).

Definition previewLookupShouldReturnGone (lookup : DomainEdgeLookupRow) : bool :=
  not_null lookup.(el_PreviewClosedAt) && HasPrefix lookup.(el_DomainKind) "preview_".

Definition requestColdStart (lookup : DomainEdgeLookupRow) : M unit :=
  do! recordRequestActivity (default "" lookup.(el_DeploymentKind)) lookup.(el_ProjectID) lookup.(el_DeploymentID) ;
  do! (if bool_decide (lookup.(el_DeploymentKind) = Some "preview")
       then wrap "clear preview scaled_to_zero" (exec (DeploymentPreviewClearScaledToZero lookup.(el_DeploymentID)))
       else wrap "clear scaled_to_zero" (exec (ProjectClearScaledToZero lookup.(el_ProjectID)))) ;
  do! wrap "request wake" (exec (DeploymentRequestWake lookup.(el_DeploymentID))) ;
  when s.(ed_wakeDeployment) (let! t := now in emit (EvSchedule SchedDeployments (FromPgtype lookup.(el_DeploymentID)) t)).

(** A route of the host with backends. *)
Definition route_ready (host : string) (st : EdgeState) : option Route :=
  match st.(es_routes) !! host with
  | Some route => if (length route.(ro_Backends) =? 0)%nat then None else Some route
  | None => None
  end.

(** One round of [waitForBackend]. *)
Definition wait_round (host : string) (deadline : Time) (st : EdgeState) : M (EdgeState + (option Route * EdgeState)) :=
  let! t := now in
  if negb (t <? deadline) then ret (inr (None, st))
  else
    match route_ready host st with
    | Some route => ret (inr (Some route, st))
    | None =>
        let! lookup := attempt (query (DomainEdgeLookup host)) in
        let! '(found, st) :=
          (match lookup with
           | inr l => if 0 <? l.(el_RunningBackendCount) then let! '(_, st) := loadRoutes st in ret (route_ready host st, st) else ret (None, st)
           | inl _ => ret (None, st)
           end) in
        match found with
        | Some route => ret (inr (Some route, st))
        | None =>
            let! t := now in
            let wait := if deadline - t <? coldStartLookupPollInterval then deadline - t else coldStartLookupPollInterval in
            if wait <=? 0 then ret (inr (None, st))
            else
              let! done := ctx_done in
              if done then ret (inr (None, st))
              else do! sleep wait ; let! st := s.(ed_others) st in ret (inl st)
        end
    end.

(** A round sleeps for the poll interval, the last one for what is left. *)
Definition cold_rounds : nat := Datatypes.S (Z.to_nat (s.(ed_coldStartTimeout) / coldStartLookupPollInterval) + 1).

Definition waitForBackend (host : string) (st : EdgeState) : M (option Route * EdgeState) :=
  let! t := now in
  loop cold_rounds (wait_round host (t + s.(ed_coldStartTimeout))) st.

(** The path of a host without a usable route. *)
Definition cold_path (host : string) (st : EdgeState) : M (EdgeReply * EdgeState) :=
  let! found := attempt (query (DomainEdgeLookup host)) in
  match found with
  | inl e => ret (if is_no_rows e then EdgeError 404 "Service Not Found" else EdgeError 500 "Internal Server Error", st)
  | inr lookup =>
      match lookup.(el_RedirectTo) with
      | Some target => ret (EdgeRedirect target (redirect_code (default 0 lookup.(el_RedirectStatusCode))), st)
      | None =>
          if previewLookupShouldReturnGone lookup then ret (EdgeError 410 "Preview Environment Gone", st)
          else if is_null lookup.(el_DeploymentID) then ret (EdgeError 404 "Service Not Found", st)
          else
            let! '(ready, st) :=
              (if 0 <? lookup.(el_RunningBackendCount) then let! '(_, st) := loadRoutes st in ret (route_ready host st, st)
               else ret (None, st)) in
            match ready with
            | Some route => reverseProxy host route st
            | None =>
                let! woken := attempt (requestColdStart lookup) in
                match woken with
                | inl _ => ret (EdgeError 500 "Internal Server Error", st)
                | inr _ =>
                    let! '(ready, st) := waitForBackend host st in
                    match ready with
                    | Some route => reverseProxy host route st
                    | None =>
                        let! done := ctx_done in
                        ret (if done then EdgeError 408 "Request Timeout" else EdgeError 503 "Service Unavailable", st)
                    end
                end
            end
      end
  end.

(** [r.Host] without its port. *)
Definition request_host (hostport : string) : string :=
  match SplitHostPort hostport with Some (host, _) => host | None => hostport end.

Definition serveHTTPS (hostport : string) (st : EdgeState) : M (EdgeReply * EdgeState) :=
  let host := request_host hostport in
  if s.(ed_apiBackend) && existsb (fun h => negb (String.eqb h "") && EqualFold host h) s.(ed_controlPlaneHosts) then ret (EdgeControlPlane, st)
  else
    match st.(es_routes) !! host with
    | Some route =>
        if negb (String.eqb route.(ro_RedirectTo) "") then ret (serveRedirect route, st)
        else if negb (length route.(ro_Backends) =? 0)%nat then reverseProxy host route st
        else cold_path host st
    | None => cold_path host st
    end.

Definition serveHTTP (hostport uri : string) : EdgeReply := EdgeRedirect ("https://" +:+ hostport +:+ uri) 301.

(** The decision whether a certificate is obtained for a name. *)
Definition DecisionFunc (name : string) : M bool :=
  if existsb (fun h => negb (String.eqb h "") && EqualFold name h) s.(ed_controlPlaneHosts) then ret true
  else
    let! r := attempt (query (DomainVerified name)) in
    ret (match r with inl _ => false | inr _ => true end).

End edge.
