(* ===== verification/EdgeRoutes.v ===== *)
(** * The routes of the edge proxy

    The table [loadRoutes] builds holds for every verified domain what the
    database says: its redirect, or each running VM of its deployment once. *)

From S2P Require Import Prelude NetAddr Text Models Runtime Effects Queries Logic EventLogic TableFacts Json GithubActions EventQueries EdgeProxy Sample.

(** ** The loop over the rows *)

Section rows.
Context (serverID : pgUUID) (h : string).

(** A row that gives the host a backend. *)
Definition proxied (row : RouteFindActiveRow) : Prop :=
  rr_DomainName row = h /\ rr_RedirectTo row = None /\ exists ip, rr_VmIp row = Some ip /\ ip <> AddrZero.

(** A row with a VM has the VM's id and the kind of a deployment. *)
Definition row_complete (row : RouteFindActiveRow) : Prop :=
  rr_DeploymentKind row <> "" /\ (not_null (rr_VmIp row) = true -> not_null (rr_VmID row) = true).

Definition row_backend (row : RouteFindActiveRow) : Backend := route_backend serverID row (default AddrZero (rr_VmIp row)).

(** After [l], the maps at the host: [sel] are the rows taken. *)
Record host_inv (l sel : list RouteFindActiveRow) (m : route_maps) : Prop := {
  hi_redirect : match rm_redirects m !! h with
    | Some r => exists row target, row ∈ l /\ rr_DomainName row = h /\ rr_RedirectTo row = Some target /\
        r = mkRoute (rr_ProjectID row) (rr_DeploymentID row) (rr_DeploymentKind row) [] target (default 0 (rr_RedirectStatusCode row))
    | None => forall row, row ∈ l -> rr_DomainName row = h -> rr_RedirectTo row = None
    end;
  hi_sel : forall row, row ∈ sel -> row ∈ l /\ proxied row;
  hi_nodup : NoDup (rr_VmID <$> sel);
  hi_all : forall row, row ∈ l -> proxied row -> rr_VmID row ∈ rr_VmID <$> sel;
  hi_seen : forall k, k ∈ default ∅ (rm_seen m !! h) <-> Some k ∈ rr_VmID <$> sel;
  hi_backends : rm_backends m !! h = match sel with [] => None | _ => Some (row_backend <$> sel) end;
  hi_last : forall row, last sel = Some row ->
    rm_project m !! h = Some (rr_ProjectID row) /\ rm_deployment m !! h = Some (rr_DeploymentID row) /\ rm_kind m !! h = Some (rr_DeploymentKind row)
}.

Lemma inv_start : host_inv [] [] empty_maps.
Proof.
  split; try done.
  - unfold empty_maps. cbn. rewrite lookup_empty. by intros row Hr%not_elem_of_nil.
  - by intros row Hr%not_elem_of_nil.
  - constructor.
  - by intros row Hr%not_elem_of_nil.
  - intros k. cbn. rewrite lookup_empty. simpl. set_solver.
Qed.

(** A row that changes nothing at the host. *)
Lemma inv_skip l sel m m' row :
  host_inv l sel m -> ~ (rr_DomainName row = h /\ rr_RedirectTo row <> None) -> (proxied row -> rr_VmID row ∈ rr_VmID <$> sel) ->
  rm_redirects m' !! h = rm_redirects m !! h -> rm_seen m' !! h = rm_seen m !! h -> rm_backends m' !! h = rm_backends m !! h ->
  rm_project m' !! h = rm_project m !! h -> rm_deployment m' !! h = rm_deployment m !! h -> rm_kind m' !! h = rm_kind m !! h ->
  host_inv (l ++ [row]) sel m'.
Proof.
  intros [H1 H2 H3 H4 H5 H6 H7] Hr Hp E1 E2 E3 E4 E5 E6. split; rewrite ?E1, ?E2, ?E3, ?E4, ?E5, ?E6; try done.
  - destruct (rm_redirects m !! h).
    + destruct H1 as (row' & target & Hin & H1). exists row', target. split; [set_solver|done].
    + intros row' [Hin| ->%list_elem_of_singleton]%elem_of_app; [by apply H1|]. intros Hh. destruct (rr_RedirectTo row) eqn:E; [|done]. by destruct Hr.
  - intros row' Hin. destruct (H2 row' Hin). split; [set_solver|done].
  - intros row' [Hin| ->%list_elem_of_singleton]%elem_of_app; [by apply H4|done].
Qed.

Lemma inv_step l sel m row : row_complete row -> host_inv l sel m -> exists sel', host_inv (l ++ [row]) sel' (add_row serverID m row).
Proof.
  intros [Hkind Hid] Hi. unfold add_row. cbv zeta. destruct (rr_RedirectTo row) as [target|] eqn:Er.
  - exists sel. destruct (decide (rr_DomainName row = h)) as [Hh|Hh].
    + destruct Hi as [H1 H2 H3 H4 H5 H6 H7]. split; cbn; try done.
      * rewrite Hh, lookup_insert_eq. exists row, target. split; [set_solver|done].
      * intros row' Hin. destruct (H2 row' Hin). split; [set_solver|done].
      * intros row' [Hin| ->%list_elem_of_singleton]%elem_of_app; [by apply H4|]. intros (_ & E & _). congruence.
    + apply (inv_skip l sel m); try done; [by intros [? _]|by intros [? _]|]. cbn. by rewrite lookup_insert_ne.
  - assert (~ (rr_DomainName row = h /\ rr_RedirectTo row <> None)) as Hno by (rewrite Er; by intros [_ ?]).
    destruct (rr_VmIp row) as [ip|] eqn:Eip.
    2:{ exists sel. apply (inv_skip l sel m); try done. intros (_ & _ & ip & Hip & _). congruence. }
    case_bool_decide as Hz.
    { exists sel. apply (inv_skip l sel m); try done. intros (_ & _ & ip' & Hip & Hne). congruence. }
    destruct (rr_VmID row) as [k|] eqn:Ek; [|by specialize (Hid eq_refl)]. rewrite (proj2 (String.eqb_neq _ _) Hkind).
    destruct (decide (rr_DomainName row = h)) as [Hh|Hh].
    2:{ exists sel. case_bool_decide; (apply (inv_skip l sel m); try done; [by intros [? _]|..]); cbn; by rewrite lookup_insert_ne. }
    rewrite Hh. case_bool_decide as Hseen.
    + exists sel. apply (inv_skip l sel m); try done. intros _. rewrite Ek. by apply (hi_seen _ _ _ Hi).
    + exists (sel ++ [row]). destruct Hi as [H1 H2 H3 H4 H5 H6 H7].
      assert (proxied row) as Hp by (split; [done|]; split; [done|]; by exists ip).
      assert (row_backend row = route_backend serverID row ip) as Hb by (unfold row_backend; by rewrite Eip).
      split; cbn.
      * destruct (rm_redirects m !! h).
        -- destruct H1 as (row' & target & Hin & H1). exists row', target. split; [set_solver|done].
        -- intros row' [Hin| ->%list_elem_of_singleton]%elem_of_app; [by apply H1|done].
      * intros row' [Hin| ->%list_elem_of_singleton]%elem_of_app; [destruct (H2 row' Hin)|]; (split; [set_solver|done]).
      * rewrite fmap_app. apply NoDup_app. split; [done|]. split; [|apply NoDup_singleton]. intros x Hx ->%list_elem_of_singleton.
        rewrite Ek in Hx. apply H5 in Hx. done.
      * intros row' [Hin| ->%list_elem_of_singleton]%elem_of_app Hp'; rewrite fmap_app; set_solver.
      * intros k'. rewrite lookup_insert_eq, fmap_app. simpl. rewrite elem_of_union, H5, elem_of_app, elem_of_singleton, list_elem_of_singleton, Ek.
        split; [intros [->|?]; auto|]. intros [?|[= ->]]; auto.
      * rewrite lookup_insert_eq, fmap_app, H6. simpl. rewrite Hb. destruct sel; simpl; [done|]. destruct sel; done.
      * intros row'. rewrite last_snoc. intros [= <-]. by rewrite !lookup_insert_eq.
Qed.

Lemma inv_all l : Forall row_complete l -> exists sel, host_inv l sel (foldl (add_row serverID) empty_maps l).
Proof.
  induction l as [|row l IH] using rev_ind; [exists []; apply inv_start|]. intros [Hl Hr]%Forall_app.
  destruct (IH Hl) as (sel & Hsel). rewrite foldl_app. simpl. eapply inv_step; [by inversion Hr|exact Hsel].
Qed.

End rows.

(** ** What the database says of a host *)

Section routed.
Context (serverID : pgUUID) (d : Db).

(** The VMs that run the deployment a domain points at. *)
Definition serving (dom : Domain) (v : Vm) : Prop :=
  exists dep i, row_at (db_deployments d) (dom_DeploymentID dom) = Some dep /\ dep_live dep = true /\
    i ∈ running_instances d (dep_ID dep) /\ running_vm d i = Some v /\ vm_IpAddress v <> AddrZero.

Definition vm_backend (v : Vm) : Backend :=
  mkBackend (if not_null (vm_ServerID v) && not_null serverID && bool_decide (vm_ServerID v = serverID) then "127.0.0.1" else Addr_String (vm_IpAddress v))
    (default 0 (vm_Port v)).

Definition domain_kind_of (dom : Domain) : string :=
  match row_at (db_deployments d) (dom_DeploymentID dom) with Some dep => dep_DeploymentKind dep | None => "production" end.

(** The verified domain of the name redirects, or its deployment's VMs serve. *)
Inductive routed (h : string) : Route -> Prop :=
  | routed_redirect k dom target :
      db_domains d !! k = Some dom -> dom_DomainName dom = h -> not_null (dom_VerifiedAt dom) = true -> dom_RedirectTo dom = Some target ->
      routed h (mkRoute (dom_ProjectID dom) (dom_DeploymentID dom) (domain_kind_of dom) [] target (default 0 (dom_RedirectStatusCode dom)))
  | routed_backends k dom vms :
      db_domains d !! k = Some dom -> dom_DomainName dom = h -> not_null (dom_VerifiedAt dom) = true -> dom_RedirectTo dom = None ->
      vms <> [] -> NoDup (vm_ID <$> vms) -> (forall v, v ∈ vms <-> serving dom v) ->
      routed h (mkRoute (dom_ProjectID dom) (dom_DeploymentID dom) (domain_kind_of dom) (vm_backend <$> vms) "" 0).

(** The constraints of the schema the table relies on. *)
Record route_keys : Prop := {
  rk_names : forall k1 k2 d1 d2, db_domains d !! k1 = Some d1 -> db_domains d !! k2 = Some d2 -> dom_DomainName d1 = dom_DomainName d2 -> k1 = k2;
  rk_vms : forall k v, db_vms d !! k = Some v -> vm_ID v = Some k;
  rk_kinds : forall k r, db_deployments d !! k = Some r -> dep_DeploymentKind r <> ""
}.

Context (Hk : route_keys).

Lemma running_vm_key i v : running_vm d i = Some v -> exists k, db_vms d !! k = Some v /\ vm_ID v = Some k.
Proof.
  unfold running_vm, row_at. intros H. repeat case_match; simplify_eq. eexists. split; [done|]. by eapply rk_vms.
Qed.

(** The rows of one domain. *)
Lemma domain_routes_in dom row : row ∈ domain_routes d dom ->
  row = route_row dom (domain_kind_of dom) None \/
  exists dep i, row_at (db_deployments d) (dom_DeploymentID dom) = Some dep /\ dep_live dep = true /\
    i ∈ running_instances d (dep_ID dep) /\ row = route_row dom (domain_kind_of dom) (running_vm d i).
Proof.
  unfold domain_routes, domain_kind_of. destruct (row_at _ _) as [dep|]; [|intros ->%list_elem_of_singleton; by left].
  destruct (dep_live dep) eqn:Hl; [|intros ->%list_elem_of_singleton; by left].
  destruct (running_instances d (dep_ID dep)) as [|i l] eqn:E; [intros ->%list_elem_of_singleton; by left|].
  intros (i' & -> & Hi)%list_elem_of_fmap. right. exists dep, i'. by rewrite E.
Qed.

Lemma domain_routes_vm dom v : serving dom v -> route_row dom (domain_kind_of dom) (Some v) ∈ domain_routes d dom.
Proof.
  intros (dep & i & Hd & Hl & Hi & Hv & _). unfold domain_routes, domain_kind_of. rewrite Hd, Hl.
  destruct (running_instances d (dep_ID dep)) as [|i0 l] eqn:E; [by apply not_elem_of_nil in Hi|].
  rewrite <- Hv. apply list_elem_of_fmap. exists i. done.
Qed.

Lemma domain_routes_some dom : exists row, row ∈ domain_routes d dom /\ exists v, row = route_row dom (domain_kind_of dom) v.
Proof.
  unfold domain_routes, domain_kind_of. destruct (row_at _ _) as [dep|]; [|eexists; split; [by left|by exists None]].
  destruct (if dep_live dep then _ else _) as [|i l]; eexists; (split; [by left|by eexists]).
Qed.

Lemma domain_routes_complete dom row : row ∈ domain_routes d dom -> row_complete row.
Proof.
  intros Hrow. assert (exists v, row = route_row dom (domain_kind_of dom) v /\ forall x, v = Some x -> not_null (vm_ID x) = true) as (v & -> & Hv).
  { destruct (domain_routes_in dom row Hrow) as [->|(dep & i & _ & _ & _ & ->)]; eexists; (split; [done|]); [done|].
    intros x (k & _ & E)%running_vm_key. by rewrite E. }
  split; simpl.
  - unfold domain_kind_of. destruct (row_at _ _) as [dep|] eqn:E; [|done]. unfold row_at in E. destruct (dom_DeploymentID dom); [|done].
    by eapply rk_kinds.
  - destruct v as [x|]; [|done]. intros _. by apply Hv.
Qed.

End routed.

(** ** The table is what the database says *)

Section exact.
Context {S : Sorter} (serverID : pgUUID) (d : Db) (Hk : route_keys d).

Lemma route_rows t l row : RouteFindActive t d = inr l ->
  row ∈ l <-> exists k dom, db_domains d !! k = Some dom /\ not_null (dom_VerifiedAt dom) = true /\ row ∈ domain_routes d dom.
Proof.
  unfold RouteFindActive, any_order. intros [= <-]. rewrite sort_by_elem, list_elem_of_bind. split.
  - intros (dom & Hrow & (Hv & k & Hd)%elem_of_rows). eauto.
  - intros (k & dom & Hd & Hv & Hrow). exists dom. split; [done|]. apply elem_of_rows. eauto.
Qed.

(** A row taken at a host is a VM that serves the host's domain. *)
Lemma proxied_serving k dom h row : db_domains d !! k = Some dom -> row ∈ domain_routes d dom -> proxied h row ->
  dom_DomainName dom = h /\ dom_RedirectTo dom = None /\
  exists v, row = route_row dom (domain_kind_of d dom) (Some v) /\ serving d dom v.
Proof.
  intros Hd Hrow (Hh & Hr & ip & Hip & Hne). destruct (domain_routes_in d dom row Hrow) as [->|(dep & i & H1 & H2 & H3 & ->)]; [done|].
  destruct (running_vm d i) as [v|] eqn:E; [|done]. simpl in *. split; [done|]. split; [done|]. exists v. split; [done|].
  exists dep, i. split; [done|]. split; [done|]. split; [done|]. split; [done|]. congruence.
Qed.

Lemma serving_key dom v : serving d dom v -> exists k, db_vms d !! k = Some v /\ vm_ID v = Some k.
Proof. intros (dep & i & _ & _ & _ & Hv & _). by eapply running_vm_key. Qed.

(** The rows taken at a host, as VMs of its domain. *)
Lemma selected_vms k dom h t l sel : db_domains d !! k = Some dom -> dom_DomainName dom = h -> RouteFindActive t d = inr l ->
  (forall row, row ∈ sel -> row ∈ l /\ proxied h row) ->
  exists vms, sel = (fun v => route_row dom (domain_kind_of d dom) (Some v)) <$> vms /\ Forall (serving d dom) vms.
Proof.
  intros Hd Hn Hl. induction sel as [|row sel IH]; intros Hsel; [by exists []|].
  destruct IH as (vms & -> & Hvms); [intros; apply Hsel; by right|].
  destruct (Hsel row) as [Hin Hp]; [by left|]. apply (route_rows t l row Hl) in Hin as (k' & dom' & Hd' & _ & Hrow).
  destruct (proxied_serving k' dom' h row Hd' Hrow Hp) as (Hn' & _ & v & -> & Hv).
  assert (k' = k) as -> by (eapply rk_names; eauto; congruence). rewrite Hd in Hd'. injection Hd' as <-.
  exists (v :: vms). split; [done|]. by constructor.
Qed.

Lemma serving_row k dom v t l : db_domains d !! k = Some dom -> not_null (dom_VerifiedAt dom) = true -> dom_RedirectTo dom = None ->
  serving d dom v -> RouteFindActive t d = inr l ->
  let row := route_row dom (domain_kind_of d dom) (Some v) in row ∈ l /\ proxied (dom_DomainName dom) row.
Proof.
  intros Hd Hver Hr Hv Hl. split.
  - apply (route_rows t l _ Hl). exists k, dom. split; [done|]. split; [done|]. by apply domain_routes_vm.
  - split; [done|]. split; [done|]. exists (vm_IpAddress v). split; [done|]. by destruct Hv as (? & ? & _ & _ & _ & _ & ?).
Qed.

(** The route made of the rows taken. *)
Lemma taken_routed h l m sel t : RouteFindActive t d = inr l -> host_inv serverID h l sel m -> sel <> [] ->
  routed serverID d h (mkRoute (default None (rm_project m !! h)) (default None (rm_deployment m !! h)) (default "" (rm_kind m !! h)) (row_backend serverID <$> sel) "" 0).
Proof.
  intros Hl [_ H2 H3 H4 _ _ H7] Hne. destruct (last sel) as [row|] eqn:Hlast; [|by apply last_None in Hlast].
  destruct (H7 row eq_refl) as (-> & -> & ->). apply last_Some_elem_of in Hlast. destruct (H2 _ Hlast) as [Hin Hp].
  apply (route_rows t l row Hl) in Hin as (k & dom & Hd & Hv & Hrow). destruct (proxied_serving k dom h row Hd Hrow Hp) as (Hn & Hr & v0 & -> & Hv0).
  destruct (selected_vms k dom h t l sel Hd Hn Hl H2) as (vms & Hsel & Hvms). subst sel. simpl.
  rewrite <- list_fmap_compose in *. apply (routed_backends serverID d h k dom vms); try done; [by intros ->|].
  intros v. split; [intros Hin; by eapply Forall_forall in Hvms|]. intros Hs.
  destruct (serving_row k dom v t l Hd Hv Hr Hs Hl) as [Hin Hp']. rewrite Hn in Hp'.
  specialize (H4 _ Hin Hp'). apply list_elem_of_fmap in H4 as (v' & Hid & Hin'). simpl in Hid.
  destruct (serving_key dom v Hs) as (kv & Hkv & Ev). pose proof (proj1 (Forall_forall _ _) Hvms v' Hin') as Hs'.
  destruct (serving_key dom v' Hs') as (kv' & Hkv' & Ev'). congruence.
Qed.

Lemma build_exact t l h : RouteFindActive t d = inr l ->
  match build_routes serverID l !! h with Some r => routed serverID d h r | None => forall r, ~ routed serverID d h r end.
Proof.
  intros Hl. destruct (inv_all serverID h l) as (sel & Hinv).
  { apply Forall_forall. intros row (k & dom & _ & _ & Hrow)%(route_rows t l row Hl). by eapply domain_routes_complete. }
  pose proof Hinv as [H1 _ _ H4 _ H6 _].
  unfold build_routes, routes_of. set (m := foldl _ _ _) in *. rewrite lookup_union, map_lookup_imap.
  destruct (rm_redirects m !! h) as [r|].
  { rewrite union_Some_l. destruct H1 as (row & target & Hin & Hh & Hr & ->).
    apply (route_rows t l row Hl) in Hin as (k & dom & Hd & Hv & Hrow).
    assert (exists v, row = route_row dom (domain_kind_of d dom) v) as (v & ->).
    { destruct (domain_routes_in d dom row Hrow) as [->|(? & ? & _ & _ & _ & ->)]; eauto. }
    by eapply routed_redirect. }
  rewrite (left_id_L None (∪)), H6. destruct (decide (sel = [])) as [->|Hne].
  - simpl. intros r [k dom target Hd Hn Hv Hr|k dom vms Hd Hn Hv Hr Hne _ Hvms].
    + destruct (domain_routes_some d dom) as (row & Hrow & v & ->).
      assert (route_row dom (domain_kind_of d dom) v ∈ l) as Hin by (apply (route_rows t l _ Hl); eauto).
      specialize (H1 _ Hin Hn). simpl in H1. congruence.
    + destruct vms as [|v vms]; [done|]. destruct (serving_row k dom v t l Hd Hv Hr (proj1 (Hvms v) ltac:(by left)) Hl) as [Hin Hp].
      rewrite Hn in Hp. by apply (H4 _ Hin), not_elem_of_nil in Hp.
  - pose proof (taken_routed h l m sel t Hl Hinv Hne) as Hrt. destruct sel; [done|]. exact Hrt.
Qed.

End exact.

(** A load that succeeds. *)
Lemma load_inv {env : Env} {S : Sorter} (s : Edge) (st st' : EdgeState) (w w1 : World) :
  loadRoutes s st w = (Ret (None, st'), w1) ->
  w_db w1 = w_db w /\ exists t l, RouteFindActive t (w_db w) = inr l /\ st' = set_routes (build_routes (ToPgtype (ed_serverID s)) l) st.
Proof.
  unfold loadRoutes, bind, attempt, query. destruct (env_fault (w_step w)); intros H; try done. injection H as <- <-. split; [done|]. by eexists (sql_now w), _.
Qed.

(** C19: In every environment, a load of the routes that succeeds leaves a table
    that is exactly what the database says: a host has a route if and only if a
    verified domain of that name redirects, or has a live deployment with a
    running VM; the route's backends are the running VMs of the deployment, each
    once, this server's own by the loopback address. A load that fails keeps
    the table; neither changes the database. *)
Theorem routes_exact {env : Env} {S : Sorter} (s : Edge) (st : EdgeState) (w : World) :
  route_keys (w_db w) ->
  match loadRoutes s st w with
  | (Ret (None, st'), w') =>
      w_db w' = w_db w /\ es_backendRR st' = es_backendRR st /\ es_scaleHintLast st' = es_scaleHintLast st /\
      forall h, match es_routes st' !! h with
                | Some r => routed (ToPgtype (ed_serverID s)) (w_db w) h r
                | None => forall r, ~ routed (ToPgtype (ed_serverID s)) (w_db w) h r
                end
  | (Ret (Some _, st'), w') => st' = st /\ w_db w' = w_db w
  | _ => False
  end.
Proof.
  intros Hk. unfold loadRoutes, bind, attempt, query. destruct (env_fault (w_step w)); [|done..].
  split; [done|]. split; [done|]. split; [done|]. intros h. by eapply (build_exact _ _ Hk (sql_now w)).
Qed.

(** The sample's first service behind a domain, and a redirect to it. *)
Definition sample_domain (id : N) (dep : pgUUID) (name : string) (redirect : option string) : Domain :=
  mkDomain (Some id) (Some 1%N) (Some 20%N) dep name "" (Some 5) redirect None "production" None (Some 1) (Some 1).

Definition edge_db : Db :=
  set_domains {[ 90%N := sample_domain 90 (Some 10%N) "shop.example.com" None; 91%N := sample_domain 91 None "www.example.com" (Some "https://shop.example.com") ]} sample_db.

Definition edge_world : World := mkWorld edge_db 2000 0 None [].

Definition edge_state : EdgeState := mkEdgeState ∅ 0 ∅.

(** The edge of server 30; every backend answers. *)
Definition sample_edge : Edge :=
  mkEdge 30%N defaultColdStartTimeout ["api.example.com"] true true true (2 * Second) (fun _ _ => inr 200) (fun _ => false) ret.

Lemma edge_keys : route_keys edge_db.
Proof.
  split.
  - intros k1 k2 d1 d2 H1 H2 Hn.
    assert (map_Forall (fun k r => dom_DomainName r = if decide (k = 90%N) then "shop.example.com" else "www.example.com") (db_domains edge_db) /\           map_Forall (fun k _ => k = 90%N \/ k = 91%N) (db_domains edge_db)) as [F1 F2].
    { split; apply map_Forall_to_list; vm_compute; repeat constructor; (by left) || (by right). }
    pose proof (F1 _ _ H1) as G1. pose proof (F1 _ _ H2) as G2. simpl in G1, G2. rewrite G1, G2 in Hn.
    destruct (F2 _ _ H1) as [->| ->], (F2 _ _ H2) as [->| ->]; done.
  - change (map_Forall (fun k v => vm_ID v = Some k) (db_vms edge_db)). apply map_Forall_to_list. vm_compute. repeat constructor.
  - change (map_Forall (fun _ r => dep_DeploymentKind r <> "") (db_deployments edge_db)). apply map_Forall_to_list. vm_compute. repeat constructor; discriminate.
Qed.

(** The table of the sample: both VMs of the deployment, that of server 30 by
    the loopback address, and the redirect. *)
Lemma routes_exact_witness :
  (match (loadRoutes sample_edge edge_state edge_world).1 with
   | Ret (None, st) =>
       (be_IP <$> default [] (ro_Backends <$> (es_routes st !! "shop.example.com"))) ≡ₚ ["127.0.0.1"; "10.0.0.5"] /\
       (ro_RedirectTo <$> es_routes st !! "www.example.com") = Some "https://shop.example.com"
   | _ => False
   end) /\
  match loadRoutes sample_edge edge_state edge_world with
  | (Ret (None, st'), w') =>
      forall h, match es_routes st' !! h with
                | Some r => routed (ToPgtype (ed_serverID sample_edge)) (w_db edge_world) h r
                | None => forall r, ~ routed (ToPgtype (ed_serverID sample_edge)) (w_db edge_world) h r
                end
  | _ => False
  end.
Proof.
  split; [vm_compute; by repeat constructor|].
  pose proof (routes_exact sample_edge edge_state edge_world edge_keys) as H. revert H.
  assert (exists st w, loadRoutes sample_edge edge_state edge_world = (Ret (None, st), w)) as (st & w & ->) by (by eexists _, _).
  intros (_ & _ & _ & H). exact H.
Defined.
