(* ===== verification/EdgeServe.v ===== *)
(** * Requests at the edge

    Every request gets an answer, whatever fails while it is served; a request
    for a deployment scaled to zero wakes it so that the deployer starts it; the
    hosts of a closed preview answer that it is gone. *)

From S2P Require Import Prelude NetAddr Text Models Runtime Effects Queries Logic EventLogic DbLogic TableFacts DeploySafety Lifecycle LifecycleProofs Json GithubActions EventQueries WebhookProofs EdgeProxy Sample EdgeRoutes.

(** ** Every request is answered *)

(** The others answer, and the clock does not run backwards. *)
Definition others_answer (s : Edge) : Prop :=
  forall st w, exists st' w', ed_others s st w = (Ret st', w') /\ w_now w <= w_now w'.

Section answers.
Context {env : Env} {S : Sorter} {UF : UnicodeFold} (s : Edge) (Hothers : others_answer s).

Lemma returns_load st : returns (loadRoutes s st).
Proof. unfold loadRoutes. solve_returns. Qed.
Lemma returns_done : returns (ctx_done s).
Proof. intros w. by eexists _, _. Qed.
Hint Resolve returns_load returns_done : returns.

Lemma returns_activity kind p dep : returns (recordRequestActivity kind p dep).
Proof. unfold recordRequestActivity. solve_returns. Qed.
Lemma returns_hint dep st : returns (maybeDeploymentScaleHint s dep st).
Proof. unfold maybeDeploymentScaleHint. solve_returns. Qed.
Hint Resolve returns_activity returns_hint : returns.

Lemma returns_proxy_loop n host route st : returns (proxy_loop s n host route st).
Proof. revert route st. induction n as [|n IH]; intros route st; simpl; unfold proxyToBackend; solve_returns. Qed.
Hint Resolve returns_proxy_loop : returns.

Lemma returns_reverse host route st : returns (reverseProxy s host route st).
Proof. unfold reverseProxy. solve_returns. Qed.
Hint Resolve returns_reverse : returns.

Lemma settles_cold lookup : settles (requestColdStart s lookup).
Proof. unfold requestColdStart, recordRequestActivity. solve_np. Qed.

Lemma clock_attempt_query {A} (f : reads A) : clock_on (attempt (query f)).
Proof. intros w. unfold attempt, query. repeat case_match; simplify_eq; simpl; lia. Qed.

Lemma clock_load st : clock_on (loadRoutes s st).
Proof. apply clock_bind; [apply clock_attempt_query|]. intros [e|rows] w; simpl; lia. Qed.

(** A round ends the wait, or sleeps for the poll interval or up to the deadline. *)
Lemma cold_round_cases host deadline st w :
  (exists r w', wait_round s host deadline st w = (Ret (inr r), w')) \/
  (w_now w < deadline /\ exists st' w', wait_round s host deadline st w = (Ret (inl st'), w') /\ Z.min deadline (w_now w + coldStartLookupPollInterval) <= w_now w').
Proof.
  unfold wait_round. rewrite (bind_ret now _ w (w_now w) w eq_refl). destruct (Z.ltb_spec (w_now w) deadline) as [Hlt|Hge]; simpl; [|left; by eexists _, _].
  destruct (route_ready host st) as [route|]; [left; by eexists _, _|].
  destruct (returns_attempt (query (DomainEdgeLookup host)) (np_query _) w) as (lookup & w1 & H1).
  pose proof (clock_attempt_query (DomainEdgeLookup host) w) as Hc1. rewrite H1 in Hc1. rewrite (bind_ret _ _ _ _ _ H1). simpl in Hc1.
  match goal with |- context [bind ?m _ w1] => assert (returns m /\ clock_on m) as [Hr Hc] end.
  { destruct lookup as [e|l]; [split; [apply returns_ret|intros ?; simpl; lia]|].
    destruct (0 <? el_RunningBackendCount l); [|split; [apply returns_ret|intros ?; simpl; lia]].
    split; [solve_returns|]. apply clock_bind; [apply clock_load|]. intros [e st'] w'; simpl; lia. }
  destruct (Hr w1) as ([found st1] & w2 & H2). specialize (Hc w1). rewrite H2 in Hc. rewrite (bind_ret _ _ _ _ _ H2). simpl in Hc.
  destruct found as [route|]; [left; by eexists _, _|]. rewrite (bind_ret now _ w2 (w_now w2) w2 eq_refl). cbv zeta.
  set (wait := if deadline - w_now w2 <? _ then _ else _).
  assert (Z.min (deadline - w_now w2) coldStartLookupPollInterval <= wait) as Hwait. { unfold wait; destruct (Z.ltb_spec (deadline - w_now w2) coldStartLookupPollInterval). 2: lia. lia. }
  destruct (wait <=? 0) eqn:Ewait; [left; by eexists _, _|]. apply Z.leb_gt in Ewait.
  destruct (returns_done w2) as (done & w3 & H3). rewrite (bind_ret _ _ _ _ _ H3). injection H3 as _ <-.
  destruct done; [left; by eexists _, _|]. right. split; [done|].
  set (w4 := (sleep wait (tick w2)).2). rewrite (bind_ret (sleep wait) _ _ tt w4 eq_refl).
  destruct (Hothers st1 w4) as (st' & w5 & H5 & Hc5). rewrite (bind_ret _ _ _ _ _ H5). eexists _, _. split; [done|].
  unfold w4, sleep in Hc5. simpl in Hc5. lia.
Qed.

Lemma wait_loop host deadline fuel st w :
  deadline - w_now w < Z.of_nat fuel * coldStartLookupPollInterval ->
  exists r w', loop (Datatypes.S fuel) (wait_round s host deadline) st w = (Ret r, w').
Proof.
  revert st w. induction fuel as [|fuel IH]; intros st w Hw;
    (destruct (cold_round_cases host deadline st w) as [(r & w' & H)|(Hlt & st' & w' & H & Hadv)];
     cbn [loop]; rewrite (bind_ret _ _ _ _ _ H); [by eexists _, _|]); [lia|].
  destruct fuel as [|fuel]; [|apply IH; unfold coldStartLookupPollInterval, Millisecond in *; lia].
  destruct (cold_round_cases host deadline st' w') as [(r & w2 & H2)|(Hlt2 & _)]; [|lia].
  cbn [loop]. rewrite (bind_ret _ _ _ _ _ H2). by eexists _, _.
Qed.

Lemma returns_wait host st : returns (waitForBackend s host st).
Proof.
  intros w. unfold waitForBackend. rewrite (bind_ret now _ w (w_now w) w eq_refl). unfold cold_rounds. apply wait_loop.
  unfold coldStartLookupPollInterval, Millisecond.
  pose proof (Z.div_mod (ed_coldStartTimeout s) (200 * 1000000) ltac:(lia)).
  pose proof (Z.mod_pos_bound (ed_coldStartTimeout s) (200 * 1000000) ltac:(lia)). lia.
Qed.
Hint Resolve returns_wait : returns.

Lemma returns_cold_path host st : returns (cold_path s host st).
Proof.
  unfold cold_path. returns_step; [returns_step|]. destruct a as [e|lookup]; [solve_returns|].
  do 3 (case_match; [solve_returns|]). returns_step; [solve_returns|]. destruct a as [[route|] st1]; [solve_returns|].
  returns_step; [apply returns_attempt, settles_cold|]. solve_returns.
Qed.

Lemma returns_serve hostport st : returns (serveHTTPS s hostport st).
Proof. pose proof returns_cold_path. unfold serveHTTPS. solve_returns; auto. Qed.

End answers.

(** The handler of a request always returns: whatever calls fail, however long
    they take and whatever others do while it waits for a deployment to start,
    within the rounds its wait is given. Whether the answer still reaches the
    client depends on the write timeout of the server. *)
Theorem request_answered {env : Env} {S : Sorter} {UF : UnicodeFold} (s : Edge) (hostport : string) (st : EdgeState) (w : World) :
  others_answer s -> exists reply st' w', serveHTTPS s hostport st w = (Ret (reply, st'), w').
Proof. intros Ho. destruct (returns_serve s Ho hostport st w) as ([reply st'] & w' & H). eauto. Qed.

(** ** Waking a deployment *)

Section waking.
Context {env : Env} {S : Sorter} {UF : UnicodeFold} (s : Edge) (k kp : UUID) (dep : Deployment) (proj : Project).

Let preview : bool := String.eqb (dep_DeploymentKind dep) "preview".

(** The deployment and the project, as far as marks leave them, with the mark
    of the scale to zero cleared when [cleared], and a wake-up when [woken]. *)
Definition marked (cleared woken : bool) (d : Db) : Prop :=
  exists dep' proj', db_deployments d !! k = Some dep' /\ db_projects d !! kp = Some proj' /\
    dep_live dep' = true /\ dep_DeploymentKind dep' = dep_DeploymentKind dep /\ proj_MaxInstanceCount proj' = proj_MaxInstanceCount proj /\
    (cleared = true -> (if preview then dep_PreviewScaledToZero dep' else proj_ScaledToZero proj') = false) /\
    (woken = true -> is_Some (dep_WakeRequestedAt dep')).

Lemma marked_weaken c v d : marked c v d -> marked false false d.
Proof. intros (dep' & proj' & H1 & H2 & H3 & H4 & H5 & _). exists dep', proj'. by split_and!. Qed.

(** A statement on the row of the deployment, or of the project, that keeps
    what [marked] reads besides the two marks. *)
Lemma marked_deployment c v c' v' d f dep0 :
  marked c v d -> db_deployments d !! k = Some dep0 -> (dep_live (f dep0) = dep_live dep0 /\ dep_DeploymentKind (f dep0) = dep_DeploymentKind dep0) ->
  (c' = true -> preview = true -> (c = true -> dep_PreviewScaledToZero dep0 = false) -> dep_PreviewScaledToZero (f dep0) = false) ->
  (c' = true -> preview = false -> c = true) ->
  (v' = true -> (v = true -> is_Some (dep_WakeRequestedAt dep0)) -> is_Some (dep_WakeRequestedAt (f dep0))) ->
  marked c' v' (set_deployments (<[k := f dep0]> (db_deployments d)) d).
Proof.
  intros (dep' & proj' & H1 & H2 & H3 & H4 & H5 & H6 & H7) Hdep [F1 F2] Hc Hc' Hv. rewrite H1 in Hdep. injection Hdep as ->. exists (f dep0), proj'. cbn.
  rewrite lookup_insert_eq. split; [done|]. split; [done|]. split; [congruence|]. split; [congruence|]. split; [done|]. split; [|by intros; apply Hv].
  intros E. destruct preview; [|by apply H6, Hc']. apply Hc; auto.
Qed.

Lemma marked_project c v c' d f proj0 :
  marked c v d -> db_projects d !! kp = Some proj0 -> proj_MaxInstanceCount (f proj0) = proj_MaxInstanceCount proj0 ->
  (c' = true -> preview = false -> (c = true -> proj_ScaledToZero proj0 = false) -> proj_ScaledToZero (f proj0) = false) ->
  (c' = true -> preview = true -> c = true) ->
  marked c' v (set_projects (<[kp := f proj0]> (db_projects d)) d).
Proof.
  intros (dep' & proj' & H1 & H2 & H3 & H4 & H5 & H6 & H7) Hp Hm Hc Hc'. rewrite H2 in Hp. injection Hp as ->. exists dep', (f proj0). cbn.
  rewrite lookup_insert_eq. split; [done|]. split; [done|]. split; [done|]. split; [done|]. split; [congruence|]. split; [|done].
  intros E. destruct preview; [by apply H6, Hc'|]. apply Hc; auto.
Qed.

Lemma marked_activity kind : triple (marked false false) (recordRequestActivity kind (Some kp) (Some k)) (fun _ => marked false false) (marked false false).
Proof.
  unfold recordRequestActivity. simpl.
  assert (forall f : writes unit, (forall t a d d', marked false false d -> f t d = inr (a, d') -> marked false false d') ->
    triple (marked false false) (ignore (exec f)) (fun _ => marked false false) (marked false false)) as Hig.
  { intros f Hf. eapply (tr_bind _ _ _ (fun _ => marked false false)); [|intros; by apply tr_ret]. apply tr_attempt, tr_exec; [auto|].
    intros t a d d' Hd E. assert (marked false false d') by (by eapply Hf). auto. }
  destruct (EqualFold kind "preview"); apply Hig; intros t a d d' Hd [->|(k' & r & [= <-] & Hr & _ & _ & ->)]%executing_inv; try done.
  - by apply (marked_deployment false false false false d (fun r => set_dep_UpdatedAt (Some t) (set_dep_PreviewLastRequestAt (Some t) r)) r).
  - by apply (marked_project false false false d (fun r => set_proj_UpdatedAt (Some t) (set_proj_LastRequestAt (Some t) r)) r).
Qed.

Lemma marked_cold dom d0 : dom_DeploymentID dom = Some k -> dom_ProjectID dom = Some kp -> db_deployments d0 !! k = Some dep ->
  marked false false d0 ->
  triple (fun d => d = d0) (requestColdStart s (edge_lookup_row d0 dom)) (fun _ => marked true true) (marked false false).
Proof.
  intros Hk Hkp Hdep Hm. unfold requestColdStart, edge_lookup_row. cbv zeta. cbn. rewrite Hk, Hkp. cbn. rewrite Hdep.
  assert (dep_live dep = true) as Hlive. { destruct Hm as (? & ? & ? & _ & ? & _). congruence. }
  assert (is_null (dep_DeletedAt dep) = true) as ->. { unfold dep_live in Hlive. by apply andb_prop in Hlive as [_ ?]. }
  apply (tr_bind _ _ _ (fun _ => marked false false)). { eapply tr_pre; [apply marked_activity|]. by intros ? ->. }
  intros []. cbn. apply (tr_bind _ _ _ (fun _ => marked true false)).
  { case_bool_decide as Hkind; (apply tr_wrap, tr_exec; [done|]; intros t [] d d' Hd E; cut (marked true false d'); [eauto using marked_weaken|]).
    - pose proof Hd as (dep' & proj' & H1 & H2 & _). rewrite (executing_present t_deployments k dep' always _ d tt d' H1 eq_refl E).
      apply (marked_deployment false false true false d (fun r => set_dep_UpdatedAt (Some t) (set_dep_PreviewScaledToZero false r)) dep'); try done.
      intros _ Hp. unfold preview in Hp. injection Hkind as Hkind. by rewrite Hkind in Hp.
    - pose proof Hd as (dep' & proj' & H1 & H2 & _). rewrite (executing_present t_projects kp proj' always _ d tt d' H2 eq_refl E).
      apply (marked_project false false true d (fun r => set_proj_UpdatedAt (Some t) (set_proj_ScaledToZero false r)) proj'); try done.
      intros _ Hp. unfold preview in Hp. apply String.eqb_eq in Hp. congruence. }
  intros []. apply (tr_bind _ _ _ (fun _ => marked true true)).
  { apply tr_wrap, tr_exec; [eauto using marked_weaken|]. intros t x d d' Hd (k' & r & [= <-] & Hr & _ & _ & _ & ->)%returning_inv.
    assert (marked true true (set_deployments (<[k := set_dep_UpdatedAt (Some t) (set_dep_WakeRequestedAt (Some (default t (dep_WakeRequestedAt r))) r)]> (db_deployments d)) d)) as Hd'.
    { eapply (marked_deployment true false true true d (fun r => set_dep_UpdatedAt (Some t) (set_dep_WakeRequestedAt (Some (default t (dep_WakeRequestedAt r))) r))); eauto. }
    split; [done|by eapply marked_weaken]. }
  intros x. apply tr_reading; [solve_runs| |done]. apply marked_weaken.
Qed.

(** A deployment with its mark cleared has replicas, with or without the mark of the wake-up. *)
Lemma marked_replicas d dep' proj' service :
  db_deployments d !! k = Some dep' -> db_projects d !! kp = Some proj' -> marked true true d ->
  dep_DeploymentKind dep = "preview" \/ 0 < proj_MaxInstanceCount proj ->
  1 <= effectiveReplicaCount proj' service dep' /\ 1 <= effectiveReplicaCount proj' service (set_dep_WakeRequestedAt None dep').
Proof.
  intros E1 E2 (dep1 & proj1 & H1 & H2 & H3 & H4 & H5 & H6 & H7) Hmax. simplify_eq. specialize (H6 eq_refl). specialize (H7 eq_refl).
  unfold effectiveReplicaCount. cbn. rewrite H4. fold preview. rewrite bool_decide_eq_true_2 by done. cbn.
  destruct preview eqn:Ep; rewrite H6.
  - split; destruct (Z.ltb_spec (serviceDesiredReplicaCount proj' service) 1); lia.
  - assert (0 < proj_MaxInstanceCount proj') as Hp by (destruct Hmax as [Hk|?]; [unfold preview in Ep; by rewrite Hk in Ep|lia]).
    destruct (clamp_bounds proj' (serviceDesiredReplicaCount proj' service)) as [_ Hc]. specialize (Hc Hp). lia.
Qed.

End waking.

(** A project without room for instances keeps its production deployments at none. *)
Lemma no_room proj service dep : dep_DeploymentKind dep <> "preview" -> proj_MaxInstanceCount proj <= 0 -> effectiveReplicaCount proj service dep = 0.
Proof.
  intros Hk Hm. unfold effectiveReplicaCount. rewrite (proj2 (String.eqb_neq _ _) Hk). unfold clampDesiredReplicaCount.
  rewrite (proj2 (Z.leb_le _ _) Hm). by repeat case_match.
Qed.

(** C25: A cold start that succeeds has woken the deployment: whatever the
    environment does, once the edge goes on to wait, the deployment is still
    live, the deployer's replica count for it is at least one, with the wake-up
    and after the deployer has cleared it, when it is a preview or the project
    allows any instances (else it is none), and its reconciliation is scheduled
    when the edge was given a way to do so. A cold start that fails ends with an
    error and left the deployment live. *)
Theorem cold_start_wakes {env : Env} {S : Sorter} {UF : UnicodeFold} (s : Edge) (dom : Domain) (k kp : UUID) (dep : Deployment) (proj : Project) (w : World) :
  dom_DeploymentID dom = Some k -> dom_ProjectID dom = Some kp ->
  db_deployments (w_db w) !! k = Some dep -> dep_live dep = true -> db_projects (w_db w) !! kp = Some proj ->
  let '(r, w') := requestColdStart s (edge_lookup_row (w_db w) dom) w in
  exists dep' proj', db_deployments (w_db w') !! k = Some dep' /\ dep_live dep' = true /\ db_projects (w_db w') !! kp = Some proj' /\
  match r with
  | Ret _ =>
      (forall service,
        (dep_DeploymentKind dep = "preview" \/ 0 < proj_MaxInstanceCount proj ->
         1 <= effectiveReplicaCount proj' service dep' /\ 1 <= effectiveReplicaCount proj' service (set_dep_WakeRequestedAt None dep')) /\
        (dep_DeploymentKind dep <> "preview" -> proj_MaxInstanceCount proj <= 0 -> effectiveReplicaCount proj' service dep' = 0)) /\
      (ed_wakeDeployment s = true -> EvSchedule SchedDeployments k (w_now w') ∈ w_log w')
  | Err _ => True
  | _ => False
  end.
Proof.
  intros Hk Hkp Hdep Hlive Hproj.
  assert (marked k kp dep proj false false (w_db w)) as Hm by (exists dep, proj; by split_and!).
  pose proof (marked_cold s k kp dep proj dom (w_db w) Hk Hkp Hdep Hm w eq_refl) as Htr.
  pose proof (settles_cold s (edge_lookup_row (w_db w) dom) w) as Hset.
  destruct (requestColdStart s (edge_lookup_row (w_db w) dom) w) as [[[]|e| |] w'] eqn:E; simpl in Hset; try done; simpl in Htr.
  - pose proof Htr as (dep' & proj' & H1 & H2 & H3 & H4 & H5 & _). exists dep', proj'. split_and!; try done.
    + intros service. split; [by apply (marked_replicas k kp dep proj (w_db w'))|]. intros Hn Hmax. apply no_room; [by rewrite H4|by rewrite H5].
    + intros Hw. unfold requestColdStart in E. apply bind_inv in E as (? & w1 & _ & E). apply bind_inv in E as (? & w2 & _ & E).
      apply bind_inv in E as (? & w3 & _ & E). rewrite Hw in E. cbn in E. rewrite Hk in E. injection E as <-. cbn. by left.
  - destruct Htr as (dep' & proj' & H1 & H2 & H3 & _). exists dep', proj'. by split_and!.
Qed.

(** ** Closed previews *)

Section gone.
Context (d : Db) (Hkeys : route_keys d) (k : UUID) (dom : Domain) (Hdom : db_domains d !! k = Some dom) (Hver : not_null (dom_VerifiedAt dom) = true)
  (Hred : dom_RedirectTo dom = None).

(** A host whose domain has no redirect and no live deployment has no route. *)
Lemma no_route serverID r : (forall dep, row_at (db_deployments d) (dom_DeploymentID dom) = Some dep -> dep_live dep = false) ->
  ~ routed serverID d (dom_DomainName dom) r.
Proof.
  intros Hdead Hr. assert (exists k' dom', db_domains d !! k' = Some dom' /\ dom_DomainName dom' = dom_DomainName dom /\
    (dom_RedirectTo dom' <> None \/ exists v, serving d dom' v)) as (k' & dom' & Hd' & Hn & Hc).
  { destruct Hr as [k' dom' target Hd' Hn _ Ht|k' dom' vms Hd' Hn _ _ Hne _ Hv]; exists k', dom'; (split; [done|]; split; [done|]).
    - left. congruence.
    - right. destruct vms as [|v vms]; [done|]. exists v. apply Hv. by left. }
  assert (k' = k) as -> by (by eapply rk_names). rewrite Hdom in Hd'. injection Hd' as <-. destruct Hc as [Hc|(v & dep & i & Hrow & Hl & _)]; [done|].
  specialize (Hdead dep Hrow). congruence.
Qed.

Lemma edge_lookup {S : Sorter} t : DomainEdgeLookup (dom_DomainName dom) t d = inr (edge_lookup_row d dom).
Proof.
  unfold DomainEdgeLookup. set (p := fun r => _ && _). destruct (rows p (db_domains d)) as [|x l] eqn:E.
  - assert (dom ∈ rows p (db_domains d)) as Hin. { apply elem_of_rows. unfold p. rewrite String.eqb_refl, Hver. eauto. }
    rewrite E in Hin. by apply not_elem_of_nil in Hin.
  - assert (x ∈ rows p (db_domains d)) as [Hp [k' Hx]]%elem_of_rows by (rewrite E; by left).
    unfold p in Hp. apply andb_prop in Hp as [Hn%String.eqb_eq _]. assert (k' = k) as -> by (by eapply rk_names). simpl. congruence.
Qed.

End gone.

(** Once a preview is closed and its deployment stopped, a reload of the
    routes shuts its hosts: whatever the environment does, a request is
    answered with 410 Gone, or with 500 when the database cannot be asked, and
    nothing is written, woken or forwarded, also while VMs of the deployment
    still run. *)
Theorem closed_preview_gone {env : Env} {S : Sorter} {UF : UnicodeFold} (s : Edge) (hostport : string) (st st' : EdgeState) (w w1 : World)
    (k kv : UUID) (dom : Domain) (pe : PreviewEnvironment) :
  route_keys (w_db w) -> db_domains (w_db w) !! k = Some dom -> dom_DomainName dom = request_host hostport ->
  not_null (dom_VerifiedAt dom) = true -> dom_RedirectTo dom = None -> HasPrefix (dom_DomainKind dom) "preview_" = true ->
  dom_PreviewEnvironmentID dom = Some kv -> db_previews (w_db w) !! kv = Some pe -> not_null (pe_ClosedAt pe) = true ->
  (forall dep, row_at (db_deployments (w_db w)) (dom_DeploymentID dom) = Some dep -> dep_live dep = false) ->
  existsb (fun h => negb (String.eqb h "") && EqualFold (request_host hostport) h) (ed_controlPlaneHosts s) = false ->
  loadRoutes s st w = (Ret (None, st'), w1) ->
  exists reply w2, serveHTTPS s hostport st' w1 = (Ret (reply, st'), w2) /\ w_db w2 = w_db w /\ w_log w2 = w_log w1 /\
    (reply = EdgeError 410 "Preview Environment Gone" \/ reply = EdgeError 500 "Internal Server Error") /\
    (quiet env -> reply = EdgeError 410 "Preview Environment Gone").
Proof.
  intros Hkeys Hdom Hname Hver Hred Hpre Hpv Hpe Hclosed Hdead Hcp Hload.
  apply load_inv in Hload as (Hdb & t & l & Hl & Hst). pose proof (build_exact (ToPgtype (ed_serverID s)) (w_db w) Hkeys t l (request_host hostport) Hl) as Hroutes.
  unfold serveHTTPS. rewrite Hcp, andb_false_r. rewrite <- Hname in *.
  assert (es_routes st' !! dom_DomainName dom = build_routes (ToPgtype (ed_serverID s)) l !! dom_DomainName dom) as -> by (by rewrite Hst).
  destruct (build_routes _ l !! _) as [r|]; [by apply (no_route (w_db w) Hkeys k dom Hdom Hred) in Hroutes|].
  unfold cold_path, bind, attempt, query. rewrite Hdb, (edge_lookup (w_db w) Hkeys k dom Hdom Hver).
  assert (previewLookupShouldReturnGone (edge_lookup_row (w_db w) dom) = true) as Hgone.
  { unfold previewLookupShouldReturnGone, edge_lookup_row. cbv zeta. cbn. rewrite Hpv. cbn. rewrite Hpe. cbn. by rewrite Hclosed, Hpre. }
  destruct (env_fault (w_step w1)) eqn:Ef.
  - change (el_RedirectTo (edge_lookup_row (w_db w) dom)) with (dom_RedirectTo dom). rewrite Hred, Hgone. eexists _, _. split; [done|].
    simpl. split_and!; auto.
  - eexists _, _. split; [done|]. simpl. split_and!; auto. intros Hq. by rewrite Hq in Ef.
  - eexists _, _. split; [done|]. simpl. split_and!; auto. intros Hq. by rewrite Hq in Ef.
Qed.

(** ** Backends in turn *)

Fixpoint picks (n : nat) (route : Route) (st : EdgeState) : list (option Backend) :=
  match n with
  | O => []
  | Datatypes.S n => let '(b, st) := pickBackend route st in b :: picks n route st
  end.

Lemma pick_next route st : ro_Backends route <> [] -> 0 <= es_backendRR st < 2 ^ 64 - 1 ->
  pickBackend route st =
  (ro_Backends route !! Z.to_nat (es_backendRR st mod Z.of_nat (length (ro_Backends route))), mkEdgeState (es_routes st) (es_backendRR st + 1) (es_scaleHintLast st)).
Proof.
  intros Hne Hc. unfold pickBackend. destruct (ro_Backends route) as [|b l]; [done|].
  rewrite (Z.mod_small (es_backendRR st + 1)) by lia. rewrite (Z.mod_small (_ + 1 - 1)) by lia. by replace (es_backendRR st + 1 - 1) with (es_backendRR st) by lia.
Qed.

Lemma picks_lookup n route st i : ro_Backends route <> [] -> 0 <= es_backendRR st -> es_backendRR st + Z.of_nat n < 2 ^ 64 -> (i < n)%nat ->
  picks n route st !! i = Some (ro_Backends route !! rotate_nat_add (Z.to_nat (es_backendRR st)) i (length (ro_Backends route))).
Proof.
  revert st i. induction n as [|n IH]; intros st i Hne H0 Hn Hi; [lia|]. simpl. rewrite pick_next by (try done; lia).
  destruct i as [|i]; simpl.
  - f_equal. f_equal. unfold rotate_nat_add. f_equal. f_equal. lia.
  - rewrite IH; simpl; try done; try lia. f_equal. f_equal. unfold rotate_nat_add. f_equal. f_equal. lia.
Qed.

(** The edge takes the backends of a route in turn: as many picks as the
    route has backends, from any counter that does not run over, take every
    backend once. *)
Theorem backends_in_turn (route : Route) (st : EdgeState) :
  0 <= es_backendRR st -> es_backendRR st + Z.of_nat (length (ro_Backends route)) < 2 ^ 64 ->
  picks (length (ro_Backends route)) route st = Some <$> rotate (Z.to_nat (es_backendRR st)) (ro_Backends route) /\
  picks (length (ro_Backends route)) route st ≡ₚ Some <$> ro_Backends route.
Proof.
  intros H0 Hn. assert (picks (length (ro_Backends route)) route st = Some <$> rotate (Z.to_nat (es_backendRR st)) (ro_Backends route)) as Hp.
  { destruct (decide (ro_Backends route = [])) as [E|Hne]; [by rewrite E; destruct (Z.to_nat _)|]. apply list_eq. intros i. rewrite list_lookup_fmap.
    destruct (decide (i < length (ro_Backends route))%nat) as [Hi|Hi].
    - rewrite picks_lookup by done. rewrite lookup_rotate_r by done.
      assert (rotate_nat_add (Z.to_nat (es_backendRR st)) i (length (ro_Backends route)) < length (ro_Backends route))%nat as [x Hx]%lookup_lt_is_Some.
      { apply rotate_nat_add_lt. lia. }
      by rewrite Hx.
    - rewrite !lookup_ge_None_2; [done|rewrite length_rotate; lia|].
      assert (forall m st, length (picks m route st) = m) as ->; [|lia]. intros m. induction m; intros; simpl; [done|]. destruct (pickBackend route st0). simpl. by rewrite IHm. }
  split; [done|]. rewrite Hp. apply fmap_Permutation. unfold rotate. rewrite (Permutation_app_comm (drop _ _)). by rewrite take_drop.
Qed.

(** ** Certificates *)

(** A certificate is obtained for the control plane's hosts and for the name of
    any domain row, verified or not: the statement asks for the row alone. *)
Lemma certificate_decision {env : Env} {S : Sorter} {UF : UnicodeFold} (s : Edge) (name : string) (w : World) :
  quiet env ->
  exists b w', DecisionFunc s name w = (Ret b, w') /\ w_db w' = w_db w /\
    (b = true <-> (exists h, h ∈ ed_controlPlaneHosts s /\ h <> "" /\ EqualFold name h = true) \/
                  (exists k dom, db_domains (w_db w) !! k = Some dom /\ dom_DomainName dom = name)).
Proof.
  intros Hq. unfold DecisionFunc.
  assert (existsb (fun h => negb (String.eqb h "") && EqualFold name h) (ed_controlPlaneHosts s) = true <->
    exists h, h ∈ ed_controlPlaneHosts s /\ h <> "" /\ EqualFold name h = true) as Hcp.
  { rewrite existsb_exists. setoid_rewrite <- list_elem_of_In. setoid_rewrite andb_true_iff. setoid_rewrite negb_true_iff. by setoid_rewrite String.eqb_neq. }
  destruct (existsb _ _) eqn:E.
  - exists true, w. split_and!; [done..|]. split; [|done]. intros _. left. by apply Hcp.
  - unfold bind, attempt. rewrite quiet_query by done. unfold DomainVerified. set (p := fun r => String.eqb (dom_DomainName r) name).
    destruct (rows p (db_domains (w_db w))) as [|x l] eqn:Er; simpl; eexists _, _; (split; [done|]; split; [done|]).
    + split; [done|]. intros [?%Hcp|(k & dom & Hk & Hn)]; [done|]. assert (dom ∈ rows p (db_domains (w_db w))) as Hin.
      { apply elem_of_rows. split; [|eauto]. unfold p. by rewrite Hn, String.eqb_refl. }
      rewrite Er in Hin. by apply not_elem_of_nil in Hin.
    + split; [|done]. intros _. right. assert (x ∈ rows p (db_domains (w_db w))) as [Hp [k Hk]]%elem_of_rows by (rewrite Er; by left).
      exists k, x. split; [done|]. by apply String.eqb_eq.
Qed.

(** ** Examples *)

Definition edge_fold : UnicodeFold := {| fold_other r := r |}.
#[local] Existing Instance edge_fold.

(** The deployment of the sample is up, so the request is forwarded. *)
Lemma request_answered_witness :
  (exists st, (serveHTTPS sample_edge "shop.example.com:443" edge_state edge_world).1 = Ret (EdgeProxied (mkBackend "127.0.0.1" 3000) 200, st)) /\
  exists reply st' w', serveHTTPS sample_edge "shop.example.com:443" edge_state edge_world = (Ret (reply, st'), w').
Proof.
  split; [by eexists|]. apply (request_answered sample_edge). intros st w. exists st, w. split; [done|reflexivity].
Defined.

(** Its project was scaled to zero. *)
Definition idle_project : Project := set_proj_ScaledToZero true sample_project.
Definition idle_world : World := mkWorld (set_projects {[ 1%N := idle_project ]} edge_db) 2000 0 None [].

Lemma cold_start_wakes_witness :
  let dom := sample_domain 90 (Some 10%N) "shop.example.com" None in
  let dep := sample_deployment 10 20 (Some 50%N) (Some 40%N) (Some 5) None in
  effectiveReplicaCount idle_project None dep = 0 /\
  exists dep' proj' w', requestColdStart sample_edge (edge_lookup_row (w_db idle_world) dom) idle_world = (Ret tt, w') /\
    db_deployments (w_db w') !! 10%N = Some dep' /\ db_projects (w_db w') !! 1%N = Some proj' /\
    1 <= effectiveReplicaCount proj' None dep' /\ 1 <= effectiveReplicaCount proj' None (set_dep_WakeRequestedAt None dep').
Proof.
  intros dom dep. split; [reflexivity|].
  pose proof (cold_start_wakes sample_edge dom 10%N 1%N dep idle_project idle_world eq_refl eq_refl eq_refl eq_refl eq_refl) as H.
  assert (exists w', requestColdStart sample_edge (edge_lookup_row (w_db idle_world) dom) idle_world = (Ret tt, w')) as [w' Hw] by (eexists; reflexivity).
  rewrite Hw in H. destruct H as (dep' & proj' & H1 & _ & H2 & H3 & _). exists dep', proj', w'. split; [done|]. split; [done|]. split; [done|]. apply (proj1 (H3 None)). by right.
Defined.

(** A closed preview on the stopped deployment, of which a VM still runs. *)
Definition closed_preview : PreviewEnvironment :=
  mkPreviewEnvironment (Some 95%N) (Some 1%N) (Some 20%N) "github" 7 "feature" "abcdef0123" (Some 12%N) "pr-7.example.com" (Some 1500) None (Some 1) (Some 1).
Definition preview_domain : Domain :=
  mkDomain (Some 92%N) (Some 1%N) (Some 20%N) (Some 12%N) "pr-7.example.com" "" (Some 5) None None "preview_stable" (Some 95%N) (Some 1) (Some 1).
Definition closed_world : World :=
  mkWorld (set_domains {[ 92%N := preview_domain ]} (set_previews {[ 95%N := closed_preview ]} sample_db)) 2000 0 None [].

Lemma closed_keys : route_keys (w_db closed_world).
Proof.
  split.
  - intros k1 k2 d1 d2 H1 H2 _. assert (map_Forall (fun k _ => k = 92%N) (db_domains (w_db closed_world))) as F.
    { apply map_Forall_to_list. vm_compute. by repeat constructor. }
    by rewrite (F _ _ H1), (F _ _ H2).
  - exact (rk_vms _ edge_keys).
  - exact (rk_kinds _ edge_keys).
Qed.

Lemma closed_preview_gone_witness :
  length (running_instances (w_db closed_world) (Some 12%N)) = 1%nat /\
  exists st w1, loadRoutes sample_edge edge_state closed_world = (Ret (None, st), w1) /\
  exists reply w2, serveHTTPS sample_edge "pr-7.example.com:443" st w1 = (Ret (reply, st), w2) /\ w_db w2 = w_db closed_world /\
  reply = EdgeError 410 "Preview Environment Gone".
Proof.
  split; [reflexivity|].
  assert (exists st w1, loadRoutes sample_edge edge_state closed_world = (Ret (None, st), w1)) as (st & w1 & Hl) by (by eexists _, _).
  exists st, w1. split; [done|].
  destruct (closed_preview_gone sample_edge "pr-7.example.com:443" edge_state st closed_world w1 92%N 95%N preview_domain closed_preview
    closed_keys eq_refl eq_refl eq_refl eq_refl eq_refl eq_refl eq_refl eq_refl ltac:(intros dep [= <-]; reflexivity) eq_refl Hl)
    as (reply & w2 & H1 & H2 & _ & _ & H4).
  exists reply, w2. split; [done|]. split; [done|]. apply H4. by intros n.
Defined.

Lemma backends_in_turn_witness :
  let b n := mkBackend "10.0.0.1" n in
  let route := mkRoute None None "production" [b 1; b 2; b 3] "" 0 in
  picks 3 route (mkEdgeState ∅ 7 ∅) = [Some (b 2); Some (b 3); Some (b 1)] /\
  picks 3 route (mkEdgeState ∅ 7 ∅) ≡ₚ Some <$> [b 1; b 2; b 3].
Proof.
  intros b route. split; [reflexivity|]. apply (backends_in_turn route (mkEdgeState ∅ 7 ∅)); simpl; lia.
Defined.
