(* ===== verification/WorkerDnsProofs.v ===== *)
(** * Private names stay private

    An answer of the worker DNS holds only addresses of running VMs of the
    caller's own organization and environment, and the private name of a service
    is read back as the labels it was made of. *)

From S2P Require Import Prelude NetAddr Text Models Runtime Effects Queries Logic EventLogic DbLogic TableFacts NameProofs Json GithubActions EventQueries WorkerDns DnsNames Sample.

(** ** Who may know whom *)

(** The VM at an address: of the live ones that have it, the one created last. *)
Definition vm_at (d : Db) (ip : Addr) (k : UUID) (v : Vm) : Prop :=
  db_vms d !! k = Some v /\ vm_IpAddress v = ip /\ vm_DeletedAt v = None /\
  forall k' v', db_vms d !! k' = Some v' -> vm_IpAddress v' = ip -> vm_DeletedAt v' = None -> time_le (vm_CreatedAt v') (vm_CreatedAt v) = true.

(** It runs an instance of a deployment, of a project of an organization. *)
Definition asks_from (d : Db) (ip : Addr) (dep : Deployment) (o : UUID) : Prop :=
  exists k v ki i proj, vm_at d ip k v /\
    db_instances d !! ki = Some i /\ inst_VmID i = Some k /\ inst_DeletedAt i = None /\
    row_at (db_deployments d) (inst_DeploymentID i) = Some dep /\ dep_DeletedAt dep = None /\
    row_at (db_projects d) (dep_ProjectID dep) = Some proj /\ proj_OrgID proj = Some o.

(** A running VM of a live deployment, of a service of a project of an organization. *)
Definition answers_from (d : Db) (ip : Addr) (dep : Deployment) (o : UUID) : Prop :=
  exists k i v svc proj, db_deployments d !! k = Some dep /\ dep_live dep = true /\
    i ∈ running_instances d (Some k) /\ running_vm d i = Some v /\ vm_IpAddress v = ip /\
    row_at (db_services d) (dep_ServiceID dep) = Some svc /\ row_at (db_projects d) (svc_ProjectID svc) = Some proj /\ proj_OrgID proj = Some o.

(** Both in production, or both in one preview environment. *)
Definition same_environment {UF : UnicodeFold} (dep0 dep : Deployment) : Prop :=
  if EqualFold (dep_DeploymentKind dep0) "preview"
  then dep_DeploymentKind dep = "preview" /\ exists pe, dep_PreviewEnvironmentID dep0 = Some pe /\ dep_PreviewEnvironmentID dep = Some pe
  else dep_DeploymentKind dep = "production".

(** The id of a row is its key. *)
Record dns_keys (d : Db) : Prop := {
  dk_organizations : forall k r, db_organizations d !! k = Some r -> org_ID r = Some k;
  dk_deployments : forall k r, db_deployments d !! k = Some r -> dep_ID r = Some k;
  dk_services : forall k r, db_services d !! k = Some r -> svc_ID r = Some k;
  dk_previews : forall k r, db_previews d !! k = Some r -> pe_ID r = Some k;
  dk_vms : forall k r, db_vms d !! k = Some r -> vm_ID r = Some k
}.

Lemma to_from_pg id k : ToPgtype (FromPgtype id) = Some k -> id = Some k.
Proof. unfold ToPgtype. case_decide as H; [done|]. destruct id; [simpl; congruence|by destruct H]. Qed.

Lemma to_pg_some n k : ToPgtype n = Some k -> n = k.
Proof. unfold ToPgtype. case_decide; congruence. Qed.

Lemma first_row_in {R} (l : list R) r : first_row l = inr r -> r ∈ l.
Proof. destruct l; simpl; [done|]. intros [= ->]. by left. Qed.

Lemma first_at {R} (m : gmap UUID R) id r : first_row (option_list (row_at m id)) = inr r -> row_at m id = Some r.
Proof. destruct (row_at m id); simpl; [by intros [= ->]|done]. Qed.

Section isolation.
Context {env : Env} {S : Sorter} {U : Unicode} {UF : UnicodeFold} {L : UnicodeLetters} {Q : SqlText} {D : DnsLibrary}.
Context (d0 : Db) (Hk : dns_keys d0).

(** Reads of the one database. *)
Definition reading {A} (m : M A) (post : A -> Prop) : Prop := triple (fun d => d = d0) m (fun a d => d = d0 /\ post a) (fun d => d = d0).

Lemma rd_ret {A} (a : A) (post : A -> Prop) : post a -> reading (ret a) post.
Proof. intros H. apply tr_ret. by intros d ->. Qed.

Lemma rd_throw {A} e (post : A -> Prop) : reading (throw e) post.
Proof. by apply tr_throw. Qed.

Lemma rd_bind {A B} (m : M A) (k : A -> M B) (mid : A -> Prop) (post : B -> Prop) :
  reading m mid -> (forall a, mid a -> reading (k a) post) -> reading (bind m k) post.
Proof.
  intros Hm Hkk. eapply tr_bind; [exact Hm|]. intros a w [Hd Ha]. by apply (Hkk a Ha).
Qed.

Lemma rd_query {A} (f : reads A) (post : A -> Prop) : (forall t a, f t d0 = inr a -> post a) -> reading (query f) post.
Proof. intros H. apply tr_query; [done|]. intros t a d -> E. eauto. Qed.

Lemma rd_wrap {A} ctx (m : M A) (post : A -> Prop) : reading m post -> reading (wrap ctx m) post.
Proof. apply tr_wrap. Qed.

Lemma rd_or_none {A} (f : reads A) (post : A -> Prop) : (forall t a, f t d0 = inr a -> post a) ->
  reading (or_none (query f)) (fun r => forall a, r = Some a -> post a).
Proof.
  intros H. unfold or_none. apply (rd_bind _ _ (fun r => forall a, r = inr a -> post a)).
  - apply tr_attempt. eapply tr_conseq; [apply (rd_query f post H)|done|..]; simpl.
    + intros a d [-> Ha]. split; [done|]. by intros b [= <-].
    + intros d ->. by split.
  - intros [e|a] Ha; [|apply rd_ret; intros b [= <-]; by apply Ha]. destruct (is_no_rows e); [by apply rd_ret|apply rd_throw].
Qed.

(** ** The caller *)

Lemma newest_vm ip t v : VMFindByIPAddress ip t d0 = inr v -> exists k, vm_at d0 ip k v.
Proof.
  unfold VMFindByIPAddress. set (le := fun a b : Vm => _). set (l := rows _ _).
  assert (StronglySorted (fun x y => Is_true (le x y)) (sort_by le l)) as Hs.
  { apply sort_by_sorted; intros *; unfold le; rewrite ?Is_true_true, ?orb_true_iff; [apply time_le_total|]. intros; by eapply time_le_trans. }
  assert (forall x, x ∈ sort_by le l <-> x ∈ l) as Hin by (intros x; apply sort_by_elem).
  destruct (sort_by le l) as [|x rest]; [done|]. intros [= ->]. apply StronglySorted_inv in Hs as [_ Hs].
  assert (forall x, x ∈ l <-> (vm_IpAddress x = ip /\ vm_DeletedAt x = None) /\ exists k, db_vms d0 !! k = Some x) as Hl.
  { intros x. unfold l. rewrite elem_of_rows, andb_true_iff, bool_decide_eq_true. destruct (vm_DeletedAt x); simpl; naive_solver. }
  assert (v ∈ l) as Hv by (apply Hin; by left). apply Hl in Hv as [[H1 H2] [kv Hkv]]. exists kv. split_and!; [done..|].
  intros k' v' H3 H4 H5. assert (v' ∈ v :: rest) as Hv' by (apply Hin, Hl; eauto). apply elem_of_cons in Hv' as [->|Hv'].
  - by destruct (time_le_total (vm_CreatedAt v) (vm_CreatedAt v)).
  - rewrite Forall_forall in Hs. apply Is_true_true. by apply (Hs v').
Qed.

Definition caller_ok (ip : Addr) (c : callerIdentity) : Prop :=
  exists dep, asks_from d0 ip dep (ca_OrganizationID c) /\
    (if EqualFold (dep_DeploymentKind dep) "preview"
     then ca_EnvSlug c <> "prod" /\ dep_PreviewEnvironmentID dep = Some (ca_PreviewEnvironmentID c)
     else ca_EnvSlug c = "prod").

Lemma caller_lookup ip : reading (LookupCallerByIP ip) (fun r => forall c, r = Some c -> caller_ok ip c).
Proof.
  unfold LookupCallerByIP.
  eapply (rd_bind _ _ (fun r => forall v, r = Some v -> exists k, vm_at d0 ip k v)).
  { apply rd_or_none. intros t v. apply newest_vm. }
  intros [v|] Hv; [|by apply rd_ret]. destruct (Hv v eq_refl) as (kv & Hv0). pose proof Hv0 as (Hv1 & _). clear Hv.
  eapply (rd_bind _ _ (fun r => forall dep, r = Some dep -> exists ki i, db_instances d0 !! ki = Some i /\ inst_VmID i = Some kv /\ inst_DeletedAt i = None /\
    row_at (db_deployments d0) (inst_DeploymentID i) = Some dep /\ dep_DeletedAt dep = None)).
  { apply rd_or_none. intros t dep Hdep%first_row_in. unfold any_order in Hdep. rewrite sort_by_elem in Hdep.
    apply list_elem_of_omap in Hdep as (i & Hi & Hdep). apply elem_of_rows in Hi as [[Hvm Hn]%andb_prop [ki Hi]].
    exists ki, i. rewrite (dk_vms d0 Hk kv v Hv1) in Hvm. unfold ToPgtype in Hvm. simpl in Hvm.
    unfold col_eq in Hvm. destruct (inst_VmID i) as [ki'|] eqn:Ei; [|done]. case_decide; [done|]. apply bool_decide_eq_true in Hvm. subst.
    destruct (row_at _ _) as [dep'|] eqn:Er; [|done]. destruct (is_null (dep_DeletedAt dep')) eqn:En; [|done]. injection Hdep as ->.
    split_and!; try done; [by destruct (inst_DeletedAt i)|by destruct (dep_DeletedAt dep)]. }
  intros [dep|] Hdep; [|by apply rd_ret]. destruct (Hdep dep eq_refl) as (ki & i & Hi1 & Hi2 & Hi3 & Hd1 & Hd2). clear Hdep.
  eapply (rd_bind _ _ (fun proj => row_at (db_projects d0) (dep_ProjectID dep) = Some proj)). { apply rd_query. by intros t a H%first_at. }
  intros proj Hproj. eapply (rd_bind _ _ (fun org => row_at (db_organizations d0) (proj_OrgID proj) = Some org)). { apply rd_query. by intros t a H%first_at. }
  intros org Horg. cbv zeta.
  assert (asks_from d0 ip dep (FromPgtype (org_ID org))) as Hasks.
  { exists kv, v, ki, i, proj. split_and!; try done. unfold row_at in Horg. destruct (proj_OrgID proj); [|done]. by rewrite (dk_organizations d0 Hk _ _ Horg). }
  destruct (EqualFold (dep_DeploymentKind dep) "preview") eqn:Ek.
  - destruct (dep_PreviewEnvironmentID dep) as [kp|] eqn:Ep; [|by apply rd_ret]. simpl.
    eapply (rd_bind _ _ (fun pe => db_previews d0 !! kp = Some pe)). { apply rd_query. by intros t a H%first_at. }
    intros pe Hpe. apply rd_ret. intros c [= <-]. exists dep. rewrite Ek. split; [done|]. rewrite (dk_previews d0 Hk _ _ Hpe). split; [|done].
    simpl. by destruct (0 <? pe_PrNumber pe).
  - apply rd_ret. intros c [= <-]. exists dep. by rewrite Ek.
Qed.

(** ** The service asked for *)

Definition candidate_ok (c : endpointCandidate) : Prop :=
  exists svc proj, db_services d0 !! cd_ServiceID c = Some svc /\ row_at (db_projects d0) (svc_ProjectID svc) = Some proj /\
    proj_OrgID proj = Some (cd_OrganizationID c).

Lemma candidates_lookup e s o : reading (LookupEndpointCandidates e s o) (fun l => forall c, c ∈ l -> candidate_ok c).
Proof.
  unfold LookupEndpointCandidates.
  eapply (rd_bind _ _ (fun l => forall r, r ∈ l -> exists se, dns_candidate d0 s o se = Some r)).
  { apply rd_query. intros t l [= <-] r. rewrite sort_by_elem. intros (se & _ & Hse)%list_elem_of_omap. eauto. }
  intros l Hl. apply rd_ret. intros c (r & -> & Hr)%list_elem_of_fmap. destruct (Hl r Hr) as (se & Hse). clear Hl Hr.
  unfold dns_candidate in Hse. destruct (row_at (db_services d0) _) as [svc|] eqn:E1; [|done]. simpl in Hse.
  destruct (row_at (db_projects d0) _) as [proj|] eqn:E2; [|done]. simpl in Hse. destruct (row_at (db_organizations d0) _) as [org|] eqn:E3; [|done]. simpl in Hse.
  destruct (_ && _); [|done]. injection Hse as <-. exists svc, proj. simpl. unfold row_at in E1, E3.
  destruct (sep_ServiceID se) as [ks|]; [|done]. destruct (proj_OrgID proj) as [ko|] eqn:Eo; [|done].
  rewrite (dk_services d0 Hk _ _ E1), (dk_organizations d0 Hk _ _ E3). done.
Qed.

Lemma selected_in l p c : selectEndpointCandidate l p = Some c -> c ∈ l.
Proof.
  unfold selectEndpointCandidate. destruct (List.filter _ l) as [|x [|]] eqn:E; [done| |done]. intros [= ->].
  assert (List.In c [c]) as Hin by (by left). rewrite <- E in Hin. apply filter_In in Hin as [Hin _]. by apply list_elem_of_In.
Qed.

(** ** Its deployment *)

Definition target_ok (caller : callerIdentity) (cand : endpointCandidate) (envSlug : string) (k : UUID) : Prop :=
  exists dep, db_deployments d0 !! k = Some dep /\ dep_live dep = true /\ dep_ServiceID dep = Some (cd_ServiceID cand) /\
    (if String.eqb envSlug "prod" then dep_DeploymentKind dep = "production"
     else dep_DeploymentKind dep = "preview" /\ dep_PreviewEnvironmentID dep = Some (ca_PreviewEnvironmentID caller)).

Lemma col_eq_pg c n : col_eq c (ToPgtype n) = true -> c = Some n.
Proof.
  unfold col_eq. destruct c as [a|]; [|done]. destruct (ToPgtype n) as [b|] eqn:E; [|done]. intros ->%bool_decide_eq_true. by rewrite (to_pg_some n b E).
Qed.

Lemma deployment_lookup f (post : UUID -> Prop) :
  (forall t dep, f t d0 = inr dep -> exists k, db_deployments d0 !! k = Some dep /\ post k) ->
  reading (deployment_id (query f)) (fun r => forall k, r = Some k -> post k).
Proof.
  intros H. unfold deployment_id. eapply (rd_bind _ _ (fun r => forall dep, r = Some dep -> exists k, db_deployments d0 !! k = Some dep /\ post k)); [by apply rd_or_none|]. intros o Ho. apply rd_ret. intros k.
  destruct o as [dep|]; [|done]. destruct (Ho dep eq_refl) as (k' & Hk' & Hp). simpl. rewrite (dk_deployments d0 Hk _ _ Hk'). by intros [= <-].
Qed.

Lemma resolve_deployment caller cand slug :
  reading (resolveDeployment caller cand slug) (fun r => forall k, r = Some k -> target_ok caller cand slug k).
Proof.
  unfold resolveDeployment, target_ok. destruct (String.eqb slug "prod").
  - apply deployment_lookup. intros t dep Hdep%first_row_in. rewrite sort_by_elem in Hdep. apply elem_of_rows in Hdep as [Hp [k Hdep]].
    rewrite !andb_true_iff in Hp. destruct Hp as [[[H1%col_eq_pg H2%String.eqb_eq] H3] H4]. exists k. split; [done|]. by exists dep.
  - destruct (parsePreviewEnvSlug slug) as [pr|]; [|by apply rd_ret]. destruct (negb _); [by apply rd_ret|].
    eapply (rd_bind _ _ (fun _ => True)).
    { apply rd_wrap. eapply (rd_bind _ _ (fun _ => True)); [by apply rd_query|]. intros; by apply rd_ret. }
    intros envs _. cbv zeta. set (id := if existsb _ envs then _ else _). destruct (N.eqb_spec id uuid_Nil) as [|Hid]; [by apply rd_ret|].
    assert (id = ca_PreviewEnvironmentID caller) as -> by (unfold id in *; by destruct (existsb _ _)).
    apply deployment_lookup. intros t dep Hdep%first_row_in. rewrite sort_by_elem in Hdep. apply elem_of_rows in Hdep as [Hp [k Hdep]].
    rewrite !andb_true_iff in Hp. destruct Hp as [[[[H1%col_eq_pg H2%col_eq_pg] H3%String.eqb_eq] H4] H5]. exists k. split; [done|]. by exists dep.
Qed.

(** ** The answer *)

(** One client, and every answer for it. *)
Definition private_answers (ip : Addr) (answers : list DnsA) : Prop :=
  answers = [] \/ exists dep0 o, asks_from d0 ip dep0 o /\
    forall a, a ∈ answers -> exists dep, answers_from d0 (a_A a) dep o /\ same_environment dep0 dep.

Lemma resolve_private ip qname qtype : reading (Resolve ip qname qtype) (fun r => private_answers ip (res_Answers r)).
Proof.
  assert (forall h c, reading (ret (mkResolution h c [])) (fun r => private_answers ip (res_Answers r))) as Hnone.
  { intros h c. apply rd_ret. by left. }
  unfold Resolve, handled. destruct (parseInternalName qname) as [target|]; [|by apply Hnone].
  eapply rd_bind; [apply rd_wrap, caller_lookup|]. simpl. intros [caller|] Hcaller; [|by apply Hnone].
  destruct (Hcaller caller eq_refl) as (dep0 & Hasks & Henv). clear Hcaller.
  eapply rd_bind; [apply rd_wrap, candidates_lookup|]. simpl. intros l Hl.
  destruct (selectEndpointCandidate l (in_Project target)) as [cand|] eqn:Esel; [|by apply Hnone].
  apply selected_in in Esel. destruct (Hl cand Esel) as (svc & proj & Hsvc & Hproj & Horg). clear Hl Esel.
  destruct (N.eqb_spec (ca_OrganizationID caller) (cd_OrganizationID cand)) as [Eorg|]; [|by apply Hnone].
  destruct (String.eqb_spec (ca_EnvSlug caller) (in_Environment target)) as [Eenv|]; [|by apply Hnone]. simpl.
  eapply rd_bind; [apply resolve_deployment|]. simpl. intros [k|] Hdep; [|by apply Hnone].
  destruct (Hdep k eq_refl) as (dep & Hd1 & Hd2 & Hd3 & Hd4). clear Hdep.
  eapply (rd_bind _ _ (fun l => forall a, a ∈ l -> answers_from d0 a dep (cd_OrganizationID cand))).
  { apply rd_wrap, rd_query. intros t ips [= <-] a. rewrite sort_by_elem, elem_of_remove_dups. intros (v & -> & Hv)%list_elem_of_fmap.
    apply list_elem_of_omap in Hv as (i & Hi & Hv).
    assert (ToPgtype k = Some k) as Ek. { unfold ToPgtype in *. case_decide; [|done]. apply elem_of_rows in Hi as [[Hc _]%andb_prop _]. by destruct (inst_DeploymentID i). }
    rewrite Ek in Hi. exists k, i, v, svc, proj. rewrite Hd3. by split_and!. }
  intros ips Hips. destruct (_ =? 0)%nat; [by apply Hnone|].
  assert (same_environment dep0 dep) as Hsame.
  { unfold same_environment. rewrite <- Eenv in Hd4. destruct (EqualFold _ _).
    - destruct Henv as [Hne Hpe]. rewrite (proj2 (String.eqb_neq _ _) Hne) in Hd4. destruct Hd4. split; [done|]. eauto.
    - by rewrite Henv in Hd4. }
  assert (reading (if (length (answersForIPv4 qname ips) =? 0)%nat then ret (mkResolution true RcodeServerFailure [])
    else ret (mkResolution true RcodeSuccess (answersForIPv4 qname ips))) (fun r => private_answers ip (res_Answers r))) as Hfin.
  { destruct (_ =? 0)%nat; [by apply Hnone|]. apply rd_ret. right. exists dep0, (ca_OrganizationID caller). split; [done|]. intros a (x & -> & Hx)%list_elem_of_fmap. apply list_elem_of_In, filter_In in Hx as [Hx%list_elem_of_In _].
    exists dep. split; [|done]. simpl. rewrite Eorg. by apply Hips. }
  destruct qtype; [exact Hfin|exact Hfin|by apply Hnone|by apply Hnone].
Qed.

End isolation.

(** ** The server *)

Section server.
Context {env : Env} {S : Sorter} {U : Unicode} {UF : UnicodeFold} {L : UnicodeLetters} {Q : SqlText} {D : DnsLibrary}.
Context {Msg : Type} (exchange : nat -> string -> string -> option Msg).

Lemma np_or_none {A} (f : reads A) : settles (or_none (query f)).
Proof. unfold or_none. solve_np. Qed.
Hint Resolve np_or_none : safe.

Lemma settles_resolve ip qname qtype : settles (Resolve ip qname qtype).
Proof.
  unfold Resolve, LookupCallerByIP, LookupEndpointCandidates, resolveDeployment, LookupPreviewEnvironmentsByProjectAndPR,
    LookupLatestRunningProductionDeployment, LookupLatestRunningPreviewDeployment, deployment_id.
  solve_np.
Qed.

Lemma returns_forward network us : returns (forward exchange network us).
Proof.
  induction us as [|u us IH]; simpl; [apply returns_ret|]. apply returns_bind; [intros w; by eexists _, _|].
  intros [m|]; [apply returns_ret|done].
Qed.

Lemma returns_serve_dns cfg from id questions : returns (ServeDNS exchange cfg from id questions).
Proof.
  unfold ServeDNS. destruct (remoteAddrIP from) as [ip|]; [|apply returns_ret]. destruct (match dns_AllowedClientPrefix cfg with Some p => _ | None => _ end); [apply returns_ret|].
  destruct questions as [|[name qtype] rest]; [apply returns_ret|]. apply returns_bind; [apply returns_attempt, settles_resolve|].
  intros [e|r]; [apply returns_ret|]. destruct (res_Handled r); [apply returns_ret|].
  apply returns_bind; [apply returns_forward|]. intros [m|]; apply returns_ret.
Qed.

(** What a reply may hold. *)
Definition reply_ok (d0 : Db) (cfg : DnsConfig) (from : RemoteAddr) (r : DnsReply Msg) : Prop :=
  match r with
  | DnsAuthoritative _ answers =>
      exists ip, remoteAddrIP from = Some ip /\ (forall p, dns_AllowedClientPrefix cfg = Some p -> prefix_contains p ip = true) /\
        private_answers d0 ip answers
  | _ => True
  end.

Lemma forward_reads d0 network us : reading d0 (forward exchange network us) (fun _ => True).
Proof.
  induction us as [|u us IH]; simpl; [by apply rd_ret|]. apply (rd_bind d0 _ _ (fun _ => True)).
  - intros w Hw. simpl. by split.
  - intros [m|] _; [by apply rd_ret|done].
Qed.

Lemma serve_private d0 cfg from id questions : dns_keys d0 -> reading d0 (ServeDNS exchange cfg from id questions) (reply_ok d0 cfg from).
Proof.
  intros Hk. unfold ServeDNS, reply_ok. destruct (remoteAddrIP from) as [ip|] eqn:Eip; [|by apply rd_ret].
  destruct (match dns_AllowedClientPrefix cfg with Some p => _ | None => _ end) eqn:Ep; [by apply rd_ret|].
  destruct questions as [|[name qtype] rest]; [by apply rd_ret|].
  apply (rd_bind d0 _ _ (fun r => forall x, r = inr x -> private_answers d0 ip (res_Answers x))).
  { apply tr_attempt. eapply tr_conseq; [apply (resolve_private d0 Hk ip name qtype)|done|..]; simpl.
    - intros r d [-> Hr]. split; [done|]. by intros x [= <-].
    - intros d ->. by split. }
  intros [e|x] Hx; [by apply rd_ret|]. destruct (res_Handled x).
  - apply rd_ret. exists ip. split; [done|]. split; [|by apply Hx]. intros p Hp. rewrite Hp in Ep. by apply negb_false_iff.
  - apply (rd_bind d0 _ _ (fun _ => True)); [apply forward_reads|]. intros [m|] _; by apply rd_ret.
Qed.

End server.

(** C24: The worker DNS keeps organizations and environments apart: in every
    environment, every question is answered; an answer of private names goes
    only to a client in the allowed prefix, and all addresses in it are for one
    client, the instance that runs on the live VM created last of those with the
    client's address: each is that of a running VM, of a live deployment, whose
    project belongs to the organization of that client, in production when the
    client runs in production and in the client's own preview environment when
    it runs in one. Nothing is written. *)
Theorem dns_isolation {env : Env} {S : Sorter} {U : Unicode} {UF : UnicodeFold} {L : UnicodeLetters} {Q : SqlText} {D : DnsLibrary} {Msg : Type}
    (exchange : nat -> string -> string -> option Msg) (cfg : DnsConfig) (from : RemoteAddr) (id : N) (questions : list (string * Qtype)) (w : World) :
  dns_keys (w_db w) ->
  exists reply w', ServeDNS exchange cfg from id questions w = (Ret reply, w') /\ w_db w' = w_db w /\
  match reply with
  | DnsAuthoritative _ answers =>
      exists ip, remoteAddrIP from = Some ip /\ (forall p, dns_AllowedClientPrefix cfg = Some p -> prefix_contains p ip = true) /\
        (answers = [] \/ exists dep0 o, asks_from (w_db w) ip dep0 o /\
           forall a, a ∈ answers -> exists dep, answers_from (w_db w) (a_A a) dep o /\ same_environment dep0 dep)
  | _ => True
  end.
Proof.
  intros Hk. destruct (returns_serve_dns exchange cfg from id questions w) as (reply & w' & E). exists reply, w'. split; [done|].
  pose proof (serve_private exchange (w_db w) cfg from id questions Hk w eq_refl) as H. rewrite E in H. exact H.
Qed.

(** ** Example *)

(** The sample's organization, an address of its own for every VM, and an
    endpoint of the first service. *)
Definition dns_vm (id server : N) : Vm :=
  mkVm (Some id) (Some server) (Some 40%N) "running" "cloud-hypervisor" None "rootfs" None 1 512
    (Addr4 (167772160 + id)) (Some 3000) None None (Some 1) (Some 1).
Definition dns_endpoint : ServiceEndpoint :=
  mkServiceEndpoint (Some 96%N) (Some 20%N) "http" "tcp" 3000 "private" (Addr4 1) "" None None (Some 1) (Some 1).
Definition set_endpoints (v : gmap UUID ServiceEndpoint) (d : Db) : Db :=
  mkDb d.(db_builds) d.(db_deployments) d.(db_instances) d.(db_domains) d.(db_env)
    d.(db_images) d.(db_migrations) d.(db_previews) d.(db_projects) d.(db_volumes)
    d.(db_servers) d.(db_statuses) d.(db_services) v d.(db_vms) d.(db_settings) d.(db_ext).
Definition dns_db : Db :=
  set_organizations {[ 2%N := mkOrganization (Some 2%N) "Acme" "acme" "" (Some 1) (Some 1) ]}
    (set_endpoints {[ 96%N := dns_endpoint ]}
      (set_vms {[ 60%N := dns_vm 60 30; 61%N := dns_vm 61 31; 62%N := dns_vm 62 30; 64%N := dns_vm 64 30 ]} sample_db)).
Definition dns_world : World := mkWorld dns_db 2000 0 None [].

Definition dns_fold : UnicodeFold := {| fold_other r := r |}.
Definition dns_lower : SqlText := {| sql_lower := ToLower |}.
Definition dns_config : DnsConfig := mkDnsConfig (Some (Addr4 167772160, 24%N)) [].

Lemma sample_dns_keys : dns_keys dns_db.
Proof.
  split.
  - change (map_Forall (fun k r => org_ID r = Some k) (db_organizations dns_db)). apply map_Forall_to_list. vm_compute. repeat constructor.
  - change (map_Forall (fun k r => dep_ID r = Some k) (db_deployments dns_db)). apply map_Forall_to_list. vm_compute. repeat constructor.
  - change (map_Forall (fun k r => svc_ID r = Some k) (db_services dns_db)). apply map_Forall_to_list. vm_compute. repeat constructor.
  - intros k r H. done.
  - change (map_Forall (fun k r => vm_ID r = Some k) (db_vms dns_db)). apply map_Forall_to_list. vm_compute. repeat constructor.
Qed.

(** The VM of the second service asks for the first: both running VMs of the
    live deployment, not that of the stopped one. *)
Lemma dns_isolation_witness :
  let UF := dns_fold in let L := sample_letters in let Q := dns_lower in let D := sample_dns in
  exists answers, (ServeDNS (fun _ _ _ => @None unit) dns_config (UDPAddr [10; 0; 0; 64]%N) 7 [("http.web.shop.prod.acme.kindling.internal.", TypeA)] dns_world).1
    = Ret (DnsAuthoritative RcodeSuccess answers) /\ (a_A <$> answers) = [Addr4 167772220; Addr4 167772221] /\
  exists ip, remoteAddrIP (UDPAddr [10; 0; 0; 64]%N) = Some ip /\
    exists dep0 o, asks_from dns_db ip dep0 o /\ forall a, a ∈ answers -> exists dep, answers_from dns_db (a_A a) dep o /\ same_environment dep0 dep.
Proof.
  intros UF L Q D.
  destruct (dns_isolation (fun _ _ _ => @None unit) dns_config (UDPAddr [10; 0; 0; 64]%N) 7 [("http.web.shop.prod.acme.kindling.internal.", TypeA)] dns_world sample_dns_keys)
    as (reply & w' & E & _ & H).
  assert (exists answers, (ServeDNS (fun _ _ _ => @None unit) dns_config (UDPAddr [10; 0; 0; 64]%N) 7 [("http.web.shop.prod.acme.kindling.internal.", TypeA)] dns_world).1
    = Ret (DnsAuthoritative RcodeSuccess answers) /\ (a_A <$> answers) = [Addr4 167772220; Addr4 167772221]) as (answers & Hr & Ha).
  { eexists. split; vm_compute; reflexivity. }
  rewrite E in Hr. injection Hr as ->. destruct H as (ip & Hip & _ & H). exists answers. split; [by rewrite E|]. split; [done|]. exists ip. split; [done|].
  destruct H as [->|H]; [discriminate Ha|exact H].
Defined.
