(* ===== verification/Background.v ===== *)
(** * Background sweeps and server registration

    cmd/kindling: serve_background.go (dead servers, orphaned builds, idle
    projects, polling of repositories), startup_recovery.go,
    server_registration.go and the allowed prefix of serve_internal_dns.go, with
    the statements they use.  The loops call a sweep at every tick of a timer.
    Sweeps of one process at a time first open a connection and try an advisory
    lock; whether that succeeded is the argument [leader]. *)

From S2P Require Import Prelude NetAddr Text Models Runtime Effects Queries Json GithubActions EventQueries WorkerDns.

(** ** Statements *)

(** A server heard of in the last three minutes. *)
Definition server_heard (d : Db) (now : Time) (id : pgUUID) : bool :=
  match row_at d.(db_servers) id with
  | Some s => match s.(srv_LastHeartbeatAt) with Some t => now - 3 * Minute <? t | None => false end
  | None => false
  end.

(** The table builds has no column deleted_at, which the statement names, so
    PostgreSQL refuses it. *)
Definition BuildResetForRetry (id : pgUUID) : writes Build := fun _ _ =>
  inl (ErrExternal "column deleted_at does not exist").

Section statements.
Context {S : Sorter}.

Definition BuildResetOrphaned : reads (list Build) := fun now d =>
  inr (any_order (rows (fun b => not_null b.(bld_ProcessingBy) && String.eqb b.(bld_Status) "building" && negb (server_heard d now b.(bld_ProcessingBy)))
    d.(db_builds))).

Definition BuildResetStale (seconds : Z) : reads (list Build) := fun now d =>
  inr (any_order (rows (fun b => in_list ["pending"; "building"] b.(bld_Status) &&
      match b.(bld_UpdatedAt) with Some t => t <? now - seconds * Second | None => false end &&
      (is_null b.(bld_ProcessingBy) || negb (server_heard d now b.(bld_ProcessingBy)))) d.(db_builds))).

(** Idle since [idleSeconds]. *)
Definition project_idle (now : Time) (idleSeconds : Z) (p : Project) : bool :=
  p.(proj_ScaleToZeroEnabled) && (0 <? p.(proj_MaxInstanceCount)) && negb p.(proj_ScaledToZero) &&
  match p.(proj_LastRequestAt) with Some t => t <? now - idleSeconds * Second | None => false end.

Definition ProjectsFindForIdleScaleDown (idleSeconds : Z) : reads (list Project) := fun now d =>
  inr (take 100 (sort_by (fun a b => time_le a.(proj_LastRequestAt) b.(proj_LastRequestAt)) (rows (project_idle now idleSeconds) d.(db_projects)))).

Definition ProjectMarkScaledToZero (id : pgUUID) : writes unit := fun now d =>
  executing (update_row t_projects id
    (fun p => p.(proj_ScaleToZeroEnabled) && (0 <? p.(proj_MaxInstanceCount)) && negb p.(proj_ScaledToZero))
    (fun p => set_proj_UpdatedAt (Some now) (set_proj_ScaledToZero true p)) d).

Definition DeploymentLatestRunningByProjectID (project : pgUUID) : reads Deployment := fun _ d =>
  first_row (sort_by (fun a b => time_le b.(dep_RunningAt) a.(dep_RunningAt))
    (rows (fun r => col_eq r.(dep_ProjectID) project && String.eqb r.(dep_DeploymentKind) "production" && not_null r.(dep_RunningAt) && dep_live r)
      d.(db_deployments))).

Definition DeploymentLatestSuccessfulForProject (project service : pgUUID) : reads Deployment := fun _ d =>
  first_row (sort_by (fun a b => time_le b.(dep_RunningAt) a.(dep_RunningAt))
    (rows (fun r => col_eq r.(dep_ProjectID) project && col_eq r.(dep_ServiceID) service && String.eqb r.(dep_DeploymentKind) "production" &&
                    not_null r.(dep_RunningAt) && dep_live r) d.(db_deployments))).

Definition ProjectFindAllWithGitHub : reads (list Project) := fun _ d =>
  inr (sort_by (fun a b => time_le b.(proj_CreatedAt) a.(proj_CreatedAt))
    (rows (fun p => negb (String.eqb p.(proj_GithubRepository) "")) d.(db_projects))).

(** The VM joined to an instance, when alive. *)
Definition live_vm (d : Db) (i : DeploymentInstance) : option Vm :=
  match row_at d.(db_vms) i.(inst_VmID) with Some v => if is_null v.(vm_DeletedAt) then Some v else None | None => None end.

(** A live instance on the server, or whose VM is there. *)
Definition instance_of_server (d : Db) (server : pgUUID) (i : DeploymentInstance) : bool :=
  is_null i.(inst_DeletedAt) &&
  (col_eq i.(inst_ServerID) server || match live_vm d i with Some v => col_eq v.(vm_ServerID) server | None => false end).

Definition DeploymentFindRecoverableByServerID (server : pgUUID) : reads (list Deployment) := fun _ d =>
  inr (sort_by (fun a b => time_le a.(dep_CreatedAt) b.(dep_CreatedAt))
    (rows (fun r => dep_live r && negb (length (rows (fun i => col_eq i.(inst_DeploymentID) r.(dep_ID) && instance_of_server d server i) d.(db_instances)) =? 0)%nat)
      d.(db_deployments))).

Record RetainedRow := mkRetainedRow { rt_DeploymentInstanceID : pgUUID; rt_VmID : pgUUID; rt_SnapshotRef : option string }.

Definition DeploymentInstanceRetainedStateByServerID (server : pgUUID) : reads (list RetainedRow) := fun _ d =>
  inr (any_order (omap (fun i =>
    match row_at d.(db_deployments) i.(inst_DeploymentID) with
    | Some dep => if dep_live dep then Some (mkRetainedRow i.(inst_ID) i.(inst_VmID) (live_vm d i ≫= vm_SnapshotRef)) else None
    | None => None
    end) (rows (fun i => col_eq i.(inst_ServerID) server && is_null i.(inst_DeletedAt)) d.(db_instances)))).

End statements.

(** ** The inet type of PostgreSQL *)

Definition addr_bits (a : Addr) : option (N * Z) := match a with Addr4 x => Some (x, 32) | Addr6 x _ => Some (x, 128) | AddrZero => None end.

(** The leading [n] of [w] bits. *)
Definition leading (w n : Z) (x : N) : N := N.shiftr x (Z.to_N (w - n)).

(** The order of inet: the family, the common network bits, the length of the
    mask, the address. *)
Definition inet_lt (a b : Addr * Z) : bool :=
  match addr_bits a.1, addr_bits b.1 with
  | Some (x, w), Some (y, v) =>
      if w =? v then
        let n := Z.min a.2 b.2 in
        ((leading w n x <? leading w n y)%N) ||
        ((leading w n x =? leading w n y)%N && ((a.2 <? b.2) || ((a.2 =? b.2) && (x <? y)%N)))
      else w <? v
  | None, Some _ => true
  | _, _ => false
  end.

Definition inet_max (l : list (Addr * Z)) : option (Addr * Z) :=
  foldl (fun m x => match m with None => Some x | Some y => if inet_lt y x then Some x else m end) None l.

(** [inet + 1]; out of range it fails. *)
Definition inet_succ (a : Addr * Z) : option (Addr * Z) :=
  match a.1 with
  | Addr4 x => if (x + 1 <? 2 ^ 32)%N then Some (Addr4 (x + 1), a.2) else None
  | Addr6 x z => if (x + 1 <? 2 ^ 128)%N then Some (Addr6 (x + 1) z, a.2) else None
  | AddrZero => None
  end.

(** [::CIDR] sets the bits right of the mask to zero. *)
Definition clear_host (w n : Z) (x : N) : N := (N.shiftl (leading w n x) (Z.to_N (w - n)))%N.
Definition to_cidr (a : Addr * Z) : Addr * Z :=
  match a.1 with
  | Addr4 x => (Addr4 (clear_host 32 a.2 x), a.2)
  | Addr6 x z => (Addr6 (clear_host 128 a.2 x) z, a.2)
  | AddrZero => a
  end.

Definition first_range : Addr * Z := (Addr4 167772160, 20).

Section registration_statements.
Context {S : Sorter}.

Definition ServerAllocateIPRange : reads (Addr * Z) := fun _ d =>
  match inet_max (srv_IpRange <$> any_order (rows always d.(db_servers))) with
  | None => inr first_range
  | Some m => match inet_succ m with Some a => inr (to_cidr a) | None => inl (ErrExternal "result is out of range") end
  end.

Definition ServerRegister (id : pgUUID) (hostname internalIP : string) (ipRange : Addr * Z) : writes Server := fun now d =>
  match row_at d.(db_servers) id with
  | None => insert_row t_servers id (mkServer id hostname internalIP ipRange (Addr4 0) "" "" "active" (Some now) (Some now) (Some now)) d
  | Some _ =>
      returning (update_row t_servers id always
        (fun r => set_srv_UpdatedAt (Some now) (set_srv_LastHeartbeatAt (Some now) (set_srv_Status (heartbeat_status r.(srv_Status))
          (set_srv_InternalIp internalIP (set_srv_Hostname hostname r))))) d)
  end.

End registration_statements.

(** ** Registration (server_registration.go) *)

Definition set_server_settings (v : gmap UUID ServerSetting) (d : Db) : Db :=
  set_ext (mkExt d.(db_ext).(x_volume_operations) d.(db_ext).(x_volume_backups) d.(db_ext).(x_secrets) v d.(db_ext).(x_connections)
    d.(db_ext).(x_ci_jobs) d.(db_ext).(x_ci_logs) d.(db_ext).(x_ci_artifacts) d.(db_ext).(x_organizations) d.(db_ext).(x_build_logs) d.(db_ext).(x_accounts)) d.

Definition ServerSettingEnsure (server : pgUUID) : writes unit := fun now d =>
  match server with
  | None => inl (ErrConstraint "server_settings_server_id_not_null")
  | Some k =>
      match d.(db_ext).(x_server_settings) !! k with
      | Some _ => inr (tt, d)
      | None =>
          match d.(db_servers) !! k with
          | Some _ => inr (tt, set_server_settings (<[k := mkServerSetting (Some k) "" "" 0 "" "" "" "" (Some now)]> d.(db_ext).(x_server_settings)) d)
          | None => inl (ErrConstraint "server_settings_server_id_fkey")
          end
      end
  end.

(** [strings.Trim(s, "[]")]. *)
Definition is_bracket (c : Ascii.ascii) : bool := byte_is 91 c || byte_is 93 c.
Fixpoint trim_brackets_left (l : list Ascii.ascii) : list Ascii.ascii :=
  match l with c :: l' => if is_bracket c then trim_brackets_left l' else l | [] => [] end.
Definition Trim_brackets (s : string) : string :=
  str_of_bytes (rev (trim_brackets_left (rev (trim_brackets_left (str_bytes s))))).

Definition normalizeHostForLoopbackCheck (host : string) : string := TrimSuffix (Trim_brackets (TrimSpace host)) ".".

(** [net.ParseIP]: an address without a zone, an IPv4 one in either form. *)
Definition ParseIP (s : string) : option Addr :=
  match ParseAddr s with
  | Some (Addr6 x zone) => if String.eqb zone "" then Some (Unmap (Addr6 x zone)) else None
  | r => r
  end.

Definition IsLoopback (a : Addr) : bool :=
  match a with Addr4 x => (x / 2 ^ 24 =? 127)%N | Addr6 x _ => (x =? 1)%N | AddrZero => false end.
Definition IsUnspecified (a : Addr) : bool :=
  match a with Addr4 x | Addr6 x _ => (x =? 0)%N | AddrZero => false end.

(** [strings.Split(s, ",")]. *)
Fixpoint split_commas (l : list Ascii.ascii) : list (list Ascii.ascii) :=
  match l with
  | [] => [[]]
  | c :: l' =>
      if byte_is 44 c then [] :: split_commas l'
      else match split_commas l' with p :: ps => (c :: p) :: ps | [] => [[c]] end
  end.
Definition Split_comma (s : string) : list string := str_of_bytes <$> split_commas (str_bytes s).

Section hosts.
Context {U : Unicode}.

Definition isLoopbackOrUnspecifiedIP (raw : string) : bool :=
  let host := normalizeHostForLoopbackCheck raw in
  if in_list [""; "localhost"] (ToLower host) then true
  else match ParseIP host with Some ip => IsLoopback ip || IsUnspecified ip | None => false end.

Definition isLoopbackLikeHost (host : string) : bool :=
  let host := normalizeHostForLoopbackCheck host in
  if HasPrefix host "/" then true else isLoopbackOrUnspecifiedIP host.

End hosts.

Section registration.
Context {env : Env} {S : Sorter} {U : Unicode}.

Definition FindServerByID (serverID : UUID) : M (option Server) := or_none (query (ServerFindByID (Some serverID))).

Definition CountOtherServers (serverID : UUID) : M Z :=
  let! servers := query ServerFindAll in
  ret (Z.of_nat (length (List.filter (fun s => negb (bool_decide (s.(srv_ID) = Some serverID))) servers))).

Definition RegisterExistingServer (serverID : UUID) (hostname internalIP : string) (ipRange : Addr * Z) : M Server :=
  exec (ServerRegister (Some serverID) hostname internalIP ipRange).

Definition AllocateAndRegisterServer (serverID : UUID) (hostname internalIP : string) : M Server :=
  transaction "begin tx" (fun e => throw (ErrWrap "commit" e))
    (do! wrap "advisory lock" (query (AdvisoryLock "ServerAllocateIPRange")) ;
     let! ipRange := wrap "allocate IP range" (query ServerAllocateIPRange) in
     wrap "register server" (exec (ServerRegister (Some serverID) hostname internalIP ipRange))).

Definition EnsureServerSettings (serverID : UUID) : M unit := exec (ServerSettingEnsure (Some serverID)).

Definition registerServer (serverID : UUID) (host internalIP : string) : M Server :=
  let! existing := wrap "find existing server" (FindServerByID serverID) in
  let! otherCount := wrap "count existing servers" (CountOtherServers serverID) in
  if (0 <? otherCount) && isLoopbackOrUnspecifiedIP internalIP then
    throw (ErrMsg ("multi-server registration requires a non-loopback internal IP; got " +:+ go_quote internalIP))
  else
    let! server :=
      (match existing with
       | Some s => wrap "re-register server" (RegisterExistingServer serverID host internalIP s.(srv_IpRange))
       | None => wrap "allocate and register server" (AllocateAndRegisterServer serverID host internalIP)
       end) in
    do! wrap "ensure server settings" (EnsureServerSettings serverID) ;
    ret server.

(** [dbHost]: the host of the database URL as pgx parses it, or its error. *)
Definition validateSharedDatabaseEntryPoint (serverID : UUID) (dbHost : error + string) : M unit :=
  let! otherCount := wrap "count existing servers" (CountOtherServers serverID) in
  if otherCount =? 0 then ret tt
  else
    match dbHost with
    | inl e => throw (ErrWrap "parse database URL" e)
    | inr host =>
        if existsb (fun h => let h := TrimSpace h in negb (String.eqb h "") && negb (isLoopbackLikeHost h)) (Split_comma host) then ret tt
        else throw (ErrMsg ("multi-server cluster requires a shared non-local database entrypoint; got " +:+ go_quote host))
    end.

Definition resolveInternalDNSAllowedPrefix (serverID : UUID) : M (Addr * Z) :=
  let! server := wrap "find server" (FindServerByID serverID) in
  match server with
  | None => throw (ErrMsg ("server " +:+ uuid_String serverID +:+ " not registered"))
  | Some s => ret s.(srv_IpRange)
  end.

End registration.

(** ** Sweeps (serve_background.go) *)

Definition buildRecoveryStuckTimeout : Duration := 15 * Minute.
Definition deadServerDetectionInterval : Duration := 30 * Second.

(** GitHub's answers: the default branch of a repository and the commit of a
    ref, by the number of the call. *)
Record GitHub := mkGitHub {
  gh_branch : nat -> string -> error + string;
  gh_commit : nat -> string -> string -> error + string
}.

Section sweeps.
Context {env : Env} {S : Sorter}.

(** The rows of a query in a loop; an error of the query ends the sweep. *)
Definition sweep {A} (q : M (list A)) (f : A -> M unit) : M unit :=
  let! r := attempt q in
  match r with inl _ => ret tt | inr l => for_each l f end.

(** One server of the sweep. *)
Definition detect_dead (srv : Server) : M unit :=
  let sid := srv.(srv_ID) in
  let! current := attempt (query (ServerFindByID sid)) in
  match current with
  | inl _ => ret tt
  | inr current =>
      let! t := now in
      if negb (String.eqb current.(srv_Status) "active") ||
         match current.(srv_LastHeartbeatAt) with Some beat => time_Sub t beat <=? deadServerDetectionInterval | None => true end
      then ret tt
      else
        let! vms := attempt (query (DeploymentInstanceVMIDsByServerID sid)) in
        match vms with
        | inl _ => ret tt
        | inr vms =>
            do! for_each vms (fun vid => when (not_null vid) (ignore (exec (VMSoftDelete vid)))) ;
            let! r := attempt (exec (DeploymentInstanceResetForDeadServer sid)) in
            match r with
            | inl _ => ret tt
            | inr _ => ignore (exec (ServerUpdateStatus sid "dead"))
            end
        end
  end.

Definition runDeadServerDetectionOnce (leader : bool) : M unit :=
  if negb leader then ret tt else sweep (query ServerFindDead) detect_dead.

(** [sched]: a scheduler of builds is configured. *)
Definition reset_build (sched : bool) (b : Build) : M unit :=
  let! r := attempt (exec (BuildResetForRetry b.(bld_ID))) in
  match r with
  | inl _ => ret tt
  | inr _ => when sched (let! t := now in emit (EvSchedule SchedBuilds (FromPgtype b.(bld_ID)) t))
  end.

Definition runBuildRecoveryOnce (leader sched : bool) : M unit :=
  if negb leader then ret tt
  else
    let! orphaned := attempt (query BuildResetOrphaned) in
    match orphaned with
    | inl _ => ret tt
    | inr orphaned =>
        do! for_each orphaned (reset_build sched) ;
        sweep (query (BuildResetStale (Z.quot buildRecoveryStuckTimeout Second))) (reset_build sched)
    end.

Definition scale_down_idle (p : Project) : M unit :=
  let! r := attempt (exec (ProjectMarkScaledToZero p.(proj_ID))) in
  match r with
  | inl _ => ret tt
  | inr _ =>
      let! dep := attempt (query (DeploymentLatestRunningByProjectID p.(proj_ID))) in
      match dep with
      | inl _ => ret tt
      | inr dep => let! t := now in emit (EvSchedule SchedDeployments (FromPgtype dep.(dep_ID)) t)
      end
  end.

Definition runIdleScaleDownOnce (leader : bool) (idleSeconds : Z) : M unit :=
  if negb leader then ret tt else sweep (query (ProjectsFindForIdleScaleDown idleSeconds)) scale_down_idle.

(** internal/githubapi. *)
Definition ResolveCommit (gh : GitHub) (repo ref : string) : M string :=
  let repo := NormalizeRepo repo in
  if String.eqb repo "" then throw (ErrMsg "empty repository")
  else
    let! ref :=
      (if String.eqb ref "" then
         let! r := extern (EvResolveCommit repo) (fun n => gh.(gh_branch) n repo) in
         let! branch := of_sum r in
         if String.eqb branch "" then throw (ErrMsg "could not determine default branch") else ret branch
       else ret ref) in
    let! r := extern (EvResolveCommit repo) (fun n => gh.(gh_commit) n repo ref) in
    let! sha := of_sum r in
    let sha := TrimSpace sha in
    if String.eqb sha "" then throw (ErrMsg "empty commit sha from GitHub") else ret sha.

(** One service of a project at a commit. *)
Definition poll_service (sched : bool) (proj : Project) (headSHA : string) (svc : Service) : M unit :=
  let! latest := attempt (query (DeploymentLatestSuccessfulForProject proj.(proj_ID) svc.(svc_ID))) in
  let deploy :=
    (let! id := new_uuid in
     let! dep := attempt (exec (DeploymentCreate (Some id) proj.(proj_ID) svc.(svc_ID) None None None headSHA "main" "production" None)) in
     match dep with
     | inl _ => ret tt
     | inr dep => when sched (let! t := now in emit (EvSchedule SchedDeployments (FromPgtype dep.(dep_ID)) t))
     end) in
  match latest with
  | inl e => if is_no_rows e then deploy else ret tt
  | inr dep => if String.eqb dep.(dep_GithubCommit) headSHA then ret tt else deploy
  end.

Definition poll_project (gh : GitHub) (sched : bool) (proj : Project) : M unit :=
  let repo := TrimSpace proj.(proj_GithubRepository) in
  if String.eqb repo "" then ret tt
  else
    let! head := attempt (ResolveCommit gh repo "") in
    match head with
    | inl _ => ret tt
    | inr headSHA => sweep (query (ServiceListByProjectID proj.(proj_ID))) (poll_service sched proj headSHA)
    end.

Definition runWebhookPollingOnce (gh : GitHub) (sched : bool) : M unit := sweep (query ProjectFindAllWithGitHub) (poll_project gh sched).

(** ** Startup recovery (startup_recovery.go) *)

(** [recover]: the runtime's answer, by the number of the call. *)
Definition recoverWorkerRetainedState (serverID : UUID) (recover : option (nat -> option error)) : M unit :=
  match recover with
  | None => ret tt
  | Some recover =>
      if (serverID =? uuid_Nil)%N then ret tt
      else
        let! rows := wrap "retained state rows" (query (DeploymentInstanceRetainedStateByServerID (Some serverID))) in
        let ids := omap rt_DeploymentInstanceID rows in
        let refs := List.filter (fun r => negb (String.eqb (TrimSpace r) "")) (omap rt_SnapshotRef rows) in
        let! e := extern (EvRecoverState ids refs) recover in
        do! wrap "recover cloud-hypervisor retained state" (of_error e) ;
        for_each rows (fun row =>
          if is_null row.(rt_VmID) then ret tt
          else
            let! vm := attempt (query (VMFirstByID row.(rt_VmID))) in
            match vm with
            | inl _ => ret tt
            | inr vm =>
                if negb (String.eqb vm.(vm_Status) "suspending") then ret tt
                else do! wrap "normalize retained vm to suspended" (exec (VMUpdateStatus row.(rt_VmID) "suspended")) ; ret tt
            end)
  end.

(** [sched] and [notify]: a scheduler and a listener for routes are configured. *)
Definition queueStartupRecovery (serverID : UUID) (sched notify : bool) : M Z :=
  if negb sched || (serverID =? uuid_Nil)%N then ret 0
  else
    let! rows := wrap "recoverable deployments" (query (DeploymentFindRecoverableByServerID (Some serverID))) in
    let rows := List.filter (fun d => not_null d.(dep_ID)) rows in
    do! for_each rows (fun dep => let! t := now in emit (EvSchedule SchedDeployments (FromPgtype dep.(dep_ID)) t)) ;
    let queued := Z.of_nat (length rows) in
    do! when ((0 <? queued) && notify) (emit EvNotifyRoute) ;
    ret queued.

End sweeps.
