(* ===== verification/BackgroundProofs.v ===== *)
(** * What the background sweeps do

    A server is declared dead only when its heartbeat is stale and only after
    nothing runs on it any more; the recovery of builds changes nothing; a new
    server gets the address range of an old one; polling deploys a commit again
    and again until one of its deployments runs. *)

From S2P Require Import Prelude NetAddr Text Models Runtime Effects Queries Logic EventLogic DbLogic TableFacts Integrity DeploySafety AutoscaleProofs Json GithubActions EventQueries WebhookProofs WorkerDns WorkerDnsProofs Background Sample.

(** ** Row by row *)

(** The tables have the same keys, and related rows. *)
Definition row_wise {R} (rel : UUID -> R -> R -> Prop) (m m' : gmap UUID R) : Prop :=
  forall k, match m !! k, m' !! k with Some r, Some r' => rel k r r' | None, None => True | _, _ => False end.

Lemma row_wise_refl {R} (rel : UUID -> R -> R -> Prop) m : (forall k r, rel k r r) -> row_wise rel m m.
Proof. intros H k. by destruct (m !! k). Qed.

Lemma row_wise_insert {R} (rel : UUID -> R -> R -> Prop) m m' k r x :
  row_wise rel m m' -> m' !! k = Some r -> (forall r0, m !! k = Some r0 -> rel k r0 r -> rel k r0 x) -> row_wise rel m (<[k := x]> m').
Proof.
  intros H Hk Hx j. specialize (H j). destruct (decide (k = j)) as [->|Hne].
  - rewrite lookup_insert_eq. rewrite Hk in H. destruct (m !! j) eqn:E; [|done]. by apply Hx.
  - by rewrite lookup_insert_ne.
Qed.

Lemma row_wise_fmap {R} (rel : UUID -> R -> R -> Prop) m m' (f : R -> R) :
  row_wise rel m m' -> (forall k r0 r, m !! k = Some r0 -> m' !! k = Some r -> rel k r0 r -> rel k r0 (f r)) -> row_wise rel m (f <$> m').
Proof.
  intros H Hf j. specialize (H j). rewrite lookup_fmap. destruct (m !! j) eqn:E, (m' !! j) eqn:E'; simpl; try done. by eapply Hf.
Qed.

Lemma row_wise_old {R} (rel : UUID -> R -> R -> Prop) m m' k r' : row_wise rel m m' -> m' !! k = Some r' -> exists r, m !! k = Some r /\ rel k r r'.
Proof. intros H Hk. specialize (H k). rewrite Hk in H. destruct (m !! k); [eauto|done]. Qed.

(** ** Dead servers *)

Section dead.
Context {env : Env} {S : Sorter} (d0 : Db) (t0 : Time).

(** Active and not heard of for thirty seconds. *)
Definition stale (k : UUID) : Prop :=
  exists r beat, db_servers d0 !! k = Some r /\ srv_Status r = "active" /\ srv_LastHeartbeatAt r = Some beat /\ beat < t0 - 30 * Second.

(** A live instance on a stale server. *)
Definition stranded (i : DeploymentInstance) : Prop := inst_live i = true /\ exists s, inst_ServerID i = Some s /\ stale s.

Definition server_rel (k : UUID) (r r' : Server) : Prop :=
  r' = r \/ (stale k /\ exists t, r' = set_srv_UpdatedAt (Some t) (set_srv_Status "dead" r)).

Definition instance_rel (k : UUID) (i i' : DeploymentInstance) : Prop :=
  i' = i \/ (stranded i /\ exists t, i' = set_inst_UpdatedAt (Some t) (set_inst_LastRestartAt None (set_inst_RestartCount 0 (inst_unassign i)))).

Definition vm_rel (k : UUID) (v v' : Vm) : Prop :=
  v' = v \/ (exists t, v' = set_vm_UpdatedAt (Some t) (set_vm_DeletedAt (Some t) v)) /\
            exists ki i, db_instances d0 !! ki = Some i /\ stranded i /\ inst_VmID i = Some k.

(** No live instance is left on a server. *)
Definition vacated (k : UUID) (d : Db) : Prop := forall ki i, db_instances d !! ki = Some i -> inst_live i = true -> inst_ServerID i <> Some k.

Record sweeping (d : Db) : Prop := {
  sw_servers : row_wise server_rel (db_servers d0) (db_servers d);
  sw_instances : row_wise instance_rel (db_instances d0) (db_instances d);
  sw_vms : row_wise vm_rel (db_vms d0) (db_vms d);
  sw_dead : forall k r, db_servers d !! k = Some r -> db_servers d0 !! k <> Some r -> vacated k d;
  sw_rest : set_servers ∅ (set_instances ∅ (set_vms ∅ d)) = set_servers ∅ (set_instances ∅ (set_vms ∅ d0))
}.

Lemma sweeping_start : sweeping d0.
Proof. split; try done; try (apply row_wise_refl; by left). Qed.

(** An instance on a server still there is as it was. *)
Lemma sweeping_instance d ki i s : sweeping d -> db_instances d !! ki = Some i -> inst_ServerID i = Some s -> db_instances d0 !! ki = Some i.
Proof.
  intros Hd Hi Hs. destruct (row_wise_old _ _ _ _ _ (sw_instances d Hd) Hi) as (i0 & Hi0 & [->|(_ & t & ->)]); [done|]. done.
Qed.

Lemma sweeping_vm ki i k : db_instances d0 !! ki = Some i -> stranded i -> inst_VmID i = Some k ->
  triple sweeping (ignore (exec (VMSoftDelete (Some k)))) (fun _ => sweeping) sweeping.
Proof.
  intros Hi Hs Hvm. eapply (tr_bind _ _ _ (fun _ => sweeping)); [|intros; by apply tr_ret]. apply tr_attempt, tr_exec; [auto|].
  intros t a d d' Hd [->|(k' & v & [= <-] & Hv & _ & _ & ->)]%executing_inv; [auto|].
  assert (sweeping (set_vms (<[k := set_vm_UpdatedAt (Some t) (set_vm_DeletedAt (Some t) v)]> (db_vms d)) d)) as Hd'; [|cbn; auto].
  destruct Hd as [H1 H2 H3 H4 H5]. split; try done.
  cbn. eapply row_wise_insert; [done|done|]. intros v0 Hv0 Hrel. right. split; [|eauto]. exists t. destruct Hrel as [->|[[t1 ->] _]]; done.
Qed.

Lemma sweeping_reset k d t a d' : stale k -> sweeping d -> DeploymentInstanceResetForDeadServer (Some k) t d = inr (a, d') -> sweeping d' /\ vacated k d'.
Proof.
  intros Hk Hd E. unfold DeploymentInstanceResetForDeadServer in E. apply update_where_inv in E as [_ ->]. cbn.
  set (f := fun r => if col_eq (inst_ServerID r) (Some k) && inst_live r then set_inst_UpdatedAt (Some t) (set_inst_LastRestartAt None (set_inst_RestartCount 0 (inst_unassign r))) else r).
  assert (forall i, f i = i \/ f i = set_inst_UpdatedAt (Some t) (set_inst_LastRestartAt None (set_inst_RestartCount 0 (inst_unassign i))) /\ inst_live i = true /\ inst_ServerID i = Some k) as Hf.
  { intros i. unfold f. destruct (col_eq (inst_ServerID i) (Some k) && inst_live i) eqn:Ep; [|by left]. right. split; [done|]. apply andb_prop in Ep as [Ec El].
    split; [done|]. unfold col_eq in Ec. destruct (inst_ServerID i); [|done]. apply bool_decide_eq_true in Ec. by subst. }
  assert (forall j i, inst_live (f i) = true -> inst_ServerID (f i) = Some j -> f i = i /\ j <> k) as Hlive.
  { intros j i Hl Hs. destruct (Hf i) as [E|(E & _)]; [|by rewrite E in Hs]. split; [done|]. intros ->.
    rewrite E in Hl, Hs. unfold f in E. rewrite Hs in E. simpl in E. rewrite bool_decide_eq_true_2 in E by done. rewrite Hl in E. simpl in E.
    rewrite <- E in Hs. done. }
  split.
  - destruct Hd as [H1 H2 H3 H4 H5]. split; try done; cbn.
    + eapply row_wise_fmap; [done|]. intros ki i0 i Hi0 Hi Hrel. destruct (Hf i) as [->|(-> & Hl & Hs)]; [done|].
      destruct Hrel as [->|(_ & t1 & ->)]; [|done]. right. split; [split; [done|eauto]|eauto].
    + intros j r Hj Hne ki i. cbn. rewrite lookup_fmap. intros (i1 & Hi1 & ->)%fmap_Some. intros Hl Hs. destruct (Hlive j i1 Hl Hs) as [E _]. rewrite E in *.
      by eapply (H4 j r Hj Hne ki i1).
  - intros ki i. cbn. rewrite lookup_fmap. intros (i1 & Hi1 & ->)%fmap_Some Hl Hs. by destruct (Hlive k i1 Hl Hs).
Qed.

Lemma sweeping_mark k d t a d' : stale k -> sweeping d -> vacated k d -> ServerUpdateStatus (Some k) "dead" t d = inr (a, d') -> sweeping d'.
Proof.
  intros Hk Hd Hv E. apply executing_inv in E as [->|(k' & r & [= <-] & Hr & _ & _ & ->)]; [done|]. cbn.
  destruct Hd as [H1 H2 H3 H4 H5]. split; try done; cbn.
  - eapply row_wise_insert; [done|done|]. intros r0 Hr0 Hrel. right. split; [done|]. exists t. destruct Hrel as [->|(_ & t1 & ->)]; done.
  - intros j x. destruct (decide (k = j)) as [->|Hne]; [done|]. rewrite lookup_insert_ne by done. apply H4.
Qed.

(** ** One server of the sweep *)

Lemma tr_for_each_in {A} (P : Db -> Prop) (l : list A) (f : A -> M unit) :
  (forall x, x ∈ l -> triple P (f x) (fun _ => P) P) -> triple P (for_each l f) (fun _ => P) P.
Proof.
  induction l as [|x l IH]; simpl; intros Hf; [by apply tr_ret|]. eapply (tr_bind _ _ _ (fun _ => P)); [apply Hf; by left|].
  intros _. apply IH. intros y Hy. apply Hf. by right.
Qed.

Lemma sweeping_detect k srv : stale k -> srv_ID srv = Some k -> triple sweeping (detect_dead srv) (fun _ => sweeping) sweeping.
Proof.
  intros Hk Hid. unfold detect_dead. rewrite Hid. cbv zeta.
  eapply (tr_bind _ _ _ (fun _ => sweeping)). { apply tr_attempt, tr_query; auto. }
  intros [e|current]; [by apply tr_ret|]. eapply (tr_bind _ _ _ (fun _ => sweeping)). { by intros w Hw. }
  intros t. destruct (_ || _); [by apply tr_ret|].
  eapply (tr_bind _ _ _ (fun r d => sweeping d /\ forall vms, r = inr vms -> forall v, v ∈ vms -> exists ki i, db_instances d0 !! ki = Some i /\ stranded i /\ inst_VmID i = v)).
  { apply tr_attempt, tr_query; [intros d Hd; split; [done|]; by intros e|].
    intros t' vms d Hd [= <-]. split; [done|]. intros vms [= <-] v (i & -> & Hi)%list_elem_of_fmap.
    apply elem_of_rows in Hi as [[[Hc Hl]%andb_prop _]%andb_prop [ki Hi]]. exists ki, i.
    unfold col_eq in Hc. destruct (inst_ServerID i) as [s|] eqn:Es; [|done]. apply bool_decide_eq_true in Hc. subst s.
    split; [by eapply sweeping_instance|]. split; [|done]. split; [done|eauto]. }
  intros [e|vms]; [apply tr_ret; by intros d [? _]|]. apply tr_and. intros Hvms. specialize (Hvms vms eq_refl).
  eapply (tr_bind _ _ _ (fun _ => sweeping)).
  { apply tr_for_each_in. intros v Hv. destruct (Hvms v Hv) as (ki & i & Hi & Hs & Hiv). destruct v as [v|]; simpl; [|by apply tr_ret].
    by eapply sweeping_vm. }
  intros []. eapply (tr_bind _ _ _ (fun r d => sweeping d /\ (forall x, r = inr x -> vacated k d))).
  { apply tr_attempt, tr_exec; [intros d Hd; split; [done|]; by intros e|]. intros t' a d d' Hd E.
    destruct (sweeping_reset k d t' a d' Hk Hd E) as [H1 H2]. auto. }
  intros [e|x]; [apply tr_ret; by intros d [? _]|].
  eapply (tr_bind _ _ _ (fun _ => sweeping)); [|intros; by apply tr_ret].
  apply tr_attempt, tr_exec; [intros d [Hd _]; auto|]. intros t' a d d' [Hd Hv] E.
  assert (sweeping d') by (by eapply (sweeping_mark k d t' a); [..|apply (Hv x)|]). auto.
Qed.

(** ** Without failures the server ends dead *)

Context (Hq : quiet env) (Hfk : forall ki i, db_instances d0 !! ki = Some i -> fk_required (db_deployments d0) (inst_DeploymentID i) = true).

Lemma sweeping_fk d ki i : sweeping d -> db_instances d !! ki = Some i -> fk_required (db_deployments d) (inst_DeploymentID i) = true.
Proof.
  intros Hd Hi. destruct (row_wise_old _ _ _ _ _ (sw_instances d Hd) Hi) as (i0 & Hi0 & Hrel).
  pose proof (f_equal db_deployments (sw_rest d Hd)) as E. cbn in E. rewrite E.
  assert (inst_DeploymentID i = inst_DeploymentID i0) as -> by (by destruct Hrel as [->|(_ & t & ->)]). by eapply Hfk.
Qed.

Lemma reset_succeeds k d t : sweeping d -> exists d', DeploymentInstanceResetForDeadServer (Some k) t d = inr (tt, d') /\ db_servers d' = db_servers d.
Proof.
  intros Hd. unfold DeploymentInstanceResetForDeadServer, update_where. rewrite (proj2 (forallb_forall _ _)); [by eexists|].
  intros [ki i] Hin%list_elem_of_In%elem_of_map_to_list. apply orb_true_iff. right. unfold t_instances, t_ok, instance_ok. cbn.
  rewrite (sweeping_fk d ki i Hd Hin). done.
Qed.

Lemma vm_deletes_keep vms w : let m := for_each vms (fun vid => when (not_null vid) (ignore (exec (VMSoftDelete vid)))) in
  exists w', m w = (Ret tt, w') /\ w_now w <= w_now w' /\ db_servers (w_db w') = db_servers (w_db w).
Proof.
  cbv zeta. revert w. induction vms as [|v vms IH]; intros w; simpl; [exists w; split; [done|]; split; [lia|done]|].
  assert (exists w1, when (not_null v) (ignore (exec (VMSoftDelete v))) w = (Ret tt, w1) /\ w_now w <= w_now w1 /\ db_servers (w_db w1) = db_servers (w_db w)) as (w1 & H1 & H2 & H3).
  { destruct v as [v|]; simpl; [|exists w; split; [done|]; split; [lia|done]]. unfold ignore, bind, attempt. rewrite quiet_exec by done.
    destruct (VMSoftDelete (Some v) (sql_now w) (w_db w)) as [e|[a d]] eqn:E; simpl; (eexists; split; [done|]; simpl; split; [lia|]); [done|].
    apply executing_inv in E as [->|(k & r & _ & _ & _ & _ & ->)]; done. }
  rewrite (bind_ret _ _ _ _ _ H1). destruct (IH w1) as (w' & -> & H4 & H5). exists w'. split; [done|]. split; [lia|congruence].
Qed.

Lemma detect_marks k srv r w : stale k -> srv_ID srv = Some k -> t0 <= w_now w -> sweeping (w_db w) -> db_servers d0 !! k = Some r -> db_servers (w_db w) !! k = Some r ->
  exists w' t, detect_dead srv w = (Ret tt, w') /\ w_now w <= w_now w' /\
    db_servers (w_db w') = <[k := set_srv_UpdatedAt (Some t) (set_srv_Status "dead" r)]> (db_servers (w_db w)).
Proof.
  intros (r0 & beat & Hr0 & Hst & Hb & Hold) Hid Ht Hd Hr Hcur. rewrite Hr in Hr0. injection Hr0 as <-. unfold detect_dead. rewrite Hid. cbv zeta.
  assert (ServerFindByID (Some k) (sql_now w) (w_db w) = inr r) as Hq1 by (by apply server_by_id).
  rewrite (bind_ret _ _ _ (inr r) (tick w)); [|unfold attempt; by rewrite (quiet_read Hq _ _ _ Hq1)].
  rewrite (bind_ret now _ _ (w_now (tick w)) (tick w) eq_refl). rewrite Hst, Hb.
  assert ((time_Sub (w_now (tick w)) beat <=? deadServerDetectionInterval) = false) as ->.
  { apply Z.leb_gt. unfold time_Sub, deadServerDetectionInterval, min_int64, max_int64. simpl. unfold Second in *. lia. }
  change (negb (String.eqb "active" "active") || false) with false. cbv iota.
  set (vms := inst_VmID <$> rows (fun i => col_eq i.(inst_ServerID) (Some k) && inst_live i && not_null i.(inst_VmID)) (db_instances (w_db w))).
  rewrite (bind_ret _ _ _ (inr vms) (tick (tick w))); [|unfold attempt; by rewrite quiet_query].
  destruct (vm_deletes_keep vms (tick (tick w))) as (w1 & H1 & H2 & H3). rewrite (bind_ret _ _ _ _ _ H1).
  assert (sweeping (w_db w1)) as Hd1.
  { assert (triple sweeping (for_each vms (fun vid => when (not_null vid) (ignore (exec (VMSoftDelete vid))))) (fun _ => sweeping) sweeping) as Hv.
    { apply tr_for_each_in. intros v (i & -> & Hi)%list_elem_of_fmap. apply elem_of_rows in Hi as [[[Hc Hl]%andb_prop _]%andb_prop [ki Hi]].
      destruct (inst_VmID i) as [v|] eqn:Ev; simpl; [|by apply tr_ret]. unfold col_eq in Hc. destruct (inst_ServerID i) as [s|] eqn:Es; [|done].
      apply bool_decide_eq_true in Hc. subst s. eapply (sweeping_vm ki i); [by eapply sweeping_instance|split; [done|]; exists k; split; [done|]; by exists r, beat|done]. }
    specialize (Hv (tick (tick w)) Hd). by rewrite H1 in Hv. }
  destruct (reset_succeeds k (w_db w1) (sql_now w1) Hd1) as (d2 & Hreset & Hs2).
  rewrite (bind_ret _ _ _ (inr tt) (tick (set_db d2 w1))); [|unfold attempt; rewrite quiet_exec by done; by rewrite Hreset].
  assert (db_servers (w_db w1) = db_servers (w_db w)) as E1 by done.
  assert (ServerUpdateStatus (Some k) "dead" (sql_now (tick (set_db d2 w1))) d2 =
    inr (tt, set_servers (<[k := set_srv_UpdatedAt (Some (sql_now (tick (set_db d2 w1)))) (set_srv_Status "dead" r)]> (db_servers d2)) d2)) as Hmark.
  { unfold ServerUpdateStatus. apply (executing_ok t_servers k r always); [|done|done]. cbn. by rewrite Hs2, E1. }
  eexists _, _. split; [unfold ignore, bind, attempt; rewrite quiet_exec by done; cbn [w_db tick set_db]; rewrite Hmark; done|]. cbn.
  split; [simpl in H2; lia|]. by rewrite Hs2, E1.
Qed.

End dead.

(** The servers the sweep looks at. *)
Lemma dead_rows d t srv l : (forall k r, db_servers d !! k = Some r -> srv_ID r = Some k) -> ServerFindDead t d = inr l -> srv ∈ l ->
  exists k, srv_ID srv = Some k /\ db_servers d !! k = Some srv /\ stale d t k.
Proof.
  intros Hkeys [= <-] [[Hst%String.eqb_eq Hb]%andb_prop [k Hk]]%elem_of_rows. exists k. split; [by apply Hkeys|]. split; [done|].
  destruct (srv_LastHeartbeatAt srv) as [beat|] eqn:E; [|done]. exists srv, beat. split; [done|]. split; [done|]. split; [done|]. by apply Z.ltb_lt.
Qed.

Lemma stale_rows d t k r l : db_servers d !! k = Some r -> stale d t k -> ServerFindDead t d = inr l -> r ∈ l.
Proof.
  intros Hk (r0 & beat & Hr & Hst & Hb & Hold) [= <-]. rewrite Hk in Hr. injection Hr as <-. apply elem_of_rows. split; [|eauto].
  rewrite Hst, Hb. simpl. by apply Z.ltb_lt.
Qed.

(** Each server of the list ends dead. *)
Lemma detect_all {env : Env} {S : Sorter} d0 t0 (Hq : quiet env)
    (Hfk : forall ki i, db_instances d0 !! ki = Some i -> fk_required (db_deployments d0) (inst_DeploymentID i) = true) l w :
  NoDup (srv_ID <$> l) -> (forall srv, srv ∈ l -> exists k, srv_ID srv = Some k /\ db_servers d0 !! k = Some srv /\ stale d0 t0 k) ->
  t0 <= w_now w -> sweeping d0 t0 (w_db w) -> (forall srv k, srv ∈ l -> srv_ID srv = Some k -> db_servers (w_db w) !! k = Some srv) ->
  exists w', for_each l detect_dead w = (Ret tt, w') /\
    (forall srv k, srv ∈ l -> srv_ID srv = Some k -> srv_Status <$> db_servers (w_db w') !! k = Some "dead") /\
    (forall k, Some k ∉ srv_ID <$> l -> db_servers (w_db w') !! k = db_servers (w_db w) !! k).
Proof.
  revert w. induction l as [|srv l IH]; intros w Hnd Hl Ht Hd Hcur; simpl.
  { exists w. split; [done|]. split; [by intros ? ? ?%not_elem_of_nil|done]. }
  destruct (Hl srv ltac:(by left)) as (k & Hid & Hk & Hst). rewrite fmap_cons in Hnd. apply NoDup_cons in Hnd as [Hnin Hnd].
  destruct (detect_marks d0 t0 Hq Hfk k srv srv w Hst Hid Ht Hd Hk (Hcur srv k ltac:(by left) Hid)) as (w1 & t & H1 & Ht1 & Hs1).
  rewrite (bind_ret _ _ _ _ _ H1). pose proof (sweeping_detect d0 t0 k srv Hst Hid w Hd) as Hd1. rewrite H1 in Hd1. simpl in Hd1.
  destruct (IH w1 Hnd) as (w' & H2 & H3 & H4); [intros; apply Hl; by right|lia|done| |].
  { intros srv' k' Hin Hid'. rewrite Hs1, lookup_insert_ne; [apply Hcur; [by right|done]|]. intros ->. apply Hnin. rewrite Hid, <- Hid'. apply list_elem_of_fmap. eauto. }
  exists w'. split; [done|]. split.
  - intros srv' k' [->|Hin]%elem_of_cons Hid'; [|by apply (H3 srv')]. rewrite Hid in Hid'. injection Hid' as <-. rewrite (H4 k) by (by rewrite <- Hid).
    by rewrite Hs1, lookup_insert_eq.
  - intros k' Hk'. apply not_elem_of_cons in Hk' as [Hne Hk']. rewrite H4 by done. rewrite Hs1, lookup_insert_ne; [done|]. intros ->. by rewrite Hid in Hne.
Qed.

(** C26: The sweep for dead servers, in every environment, declares a server dead
    only when it was active and its heartbeat is more than thirty seconds old,
    and only once no live instance is left on it; it resets only instances of
    such servers, soft-deletes only VMs of such instances, and changes nothing
    else. When this process holds the advisory lock, no statement fails and the
    time of the statements is not ahead of the process's clock, every such
    server ends dead. *)
Theorem dead_servers_swept (env : Env) (S : Sorter) (leader : bool) (w : World) :
  (forall k r, db_servers (w_db w) !! k = Some r -> srv_ID r = Some k) ->
  (forall k i, db_instances (w_db w) !! k = Some i -> fk_required (db_deployments (w_db w)) (inst_DeploymentID i) = true) ->
  sweeping (w_db w) (sql_now w) (w_db (runDeadServerDetectionOnce leader w).2) /\
  (quiet env -> leader = true -> sql_now w <= w_now w ->
   (runDeadServerDetectionOnce leader w).1 = Ret tt /\
   forall k, stale (w_db w) (sql_now w) k -> srv_Status <$> db_servers (w_db (runDeadServerDetectionOnce leader w).2) !! k = Some "dead").
Proof.
  intros Hkeys Hfk. unfold runDeadServerDetectionOnce. destruct leader; cbn [negb]; [|split; [apply sweeping_start|done]]. unfold sweep.
  destruct (attempt_query ServerFindDead w) as (r & Hr & Hv). rewrite (bind_ret _ _ _ _ _ Hr). destruct r as [e|l].
  { split; [apply sweeping_start|]. intros Hq _ _. unfold attempt in Hr. by rewrite quiet_query in Hr. }
  specialize (Hv l eq_refl). split.
  - assert (triple (sweeping (w_db w) (sql_now w)) (for_each l detect_dead) (fun _ => sweeping (w_db w) (sql_now w)) (sweeping (w_db w) (sql_now w))) as Hl.
    { apply tr_for_each_in. intros srv Hin. destruct (dead_rows _ _ _ _ Hkeys Hv Hin) as (k & Hid & _ & Hst). by eapply sweeping_detect. }
    specialize (Hl (tick w) (sweeping_start _ _)). by destruct ((for_each l detect_dead (tick w)).1).
  - intros Hq _ Ht. destruct (detect_all (w_db w) (sql_now w) Hq Hfk l (tick w)) as (w' & Hw' & Hdead & _).
    + injection Hv as <-. by apply (rows_nodup srv_ID).
    + intros srv Hin. by eapply dead_rows.
    + simpl. lia.
    + apply sweeping_start.
    + intros srv k Hin Hid. destruct (dead_rows _ _ _ _ Hkeys Hv Hin) as (k' & Hid' & Hk' & _). simpl. congruence.
    + rewrite Hw'. split; [done|]. intros k Hst. pose proof Hst as (r & _ & Hr' & _). apply (Hdead r); [by eapply stale_rows|by apply Hkeys].
Qed.

(** ** Builds *)

Lemma reset_refused {env : Env} sched b w : exists w', reset_build sched b w = (Ret tt, w') /\ w_db w' = w_db w /\ w_log w' = w_log w.
Proof.
  unfold reset_build, bind, attempt, exec. destruct (env_fault (w_step w)); simpl; eexists; (split; [done|]); done.
Qed.

Lemma reset_all_refused {env : Env} sched l w : exists w', for_each l (reset_build sched) w = (Ret tt, w') /\ w_db w' = w_db w /\ w_log w' = w_log w.
Proof.
  revert w. induction l as [|b l IH]; intros w; simpl; [by exists w|]. destruct (reset_refused sched b w) as (w1 & H1 & H2 & H3).
  rewrite (bind_ret _ _ _ _ _ H1). destruct (IH w1) as (w' & -> & H4 & H5). exists w'. split; [done|]. split; congruence.
Qed.

(** The recovery of builds recovers none: its UPDATE names a column the
    table does not have, so in every environment the sweep ends without an
    error, resets no orphaned or stale build and wakes no reconciler. *)
Theorem build_recovery_inert (env : Env) (S : Sorter) (leader sched : bool) (w : World) :
  exists w', runBuildRecoveryOnce leader sched w = (Ret tt, w') /\ w_db w' = w_db w /\ w_log w' = w_log w.
Proof.
  unfold runBuildRecoveryOnce. destruct leader; cbn [negb]; [|by exists w].
  destruct (attempt_query BuildResetOrphaned w) as (r & Hr & _). rewrite (bind_ret _ _ _ _ _ Hr). destruct r as [e|l]; [by exists (tick w)|].
  destruct (reset_all_refused sched l (tick w)) as (w1 & H1 & H2 & H3). rewrite (bind_ret _ _ _ _ _ H1). unfold sweep.
  destruct (attempt_query (BuildResetStale (Z.quot buildRecoveryStuckTimeout Second)) w1) as (r & Hr' & _). rewrite (bind_ret _ _ _ _ _ Hr').
  destruct r as [e|l']; [by exists (tick w1)|]. destruct (reset_all_refused sched l' (tick w1)) as (w' & -> & H4 & H5). exists w'. split; [done|]. simpl in *; split; congruence.
Qed.

(** ** Address ranges *)

(** An IPv4 range as a cidr column holds it: no bits right of the mask, which
    leaves some. *)
Definition cidr4 (a : Addr * Z) : Prop := exists x, a.1 = Addr4 x /\ (x < 2 ^ 32)%N /\ 0 <= a.2 < 32 /\ clear_host 32 a.2 x = x.

Lemma inet_max_in l m : inet_max l = Some m -> m ∈ l.
Proof.
  unfold inet_max. assert (forall l acc, foldl (fun m x => match m with None => Some x | Some y => if inet_lt y x then Some x else m end) acc l = Some m ->
    acc = Some m \/ m ∈ l) as H.
  { clear l. induction l as [|x l IH]; intros acc Hm; simpl in Hm; [by left|]. destruct (IH _ Hm) as [E|E]; [|right; by right].
    destruct acc as [y|]; [|right; injection E as ->; by left]. destruct (inet_lt y x); [right; injection E as ->; by left|by left]. }
  intros Hm. by destruct (H l None Hm).
Qed.

Lemma inet_max_some l : l <> [] -> exists m, inet_max l = Some m.
Proof.
  unfold inet_max. assert (forall l y, exists m, foldl (fun m x => match m with None => Some x | Some y => if inet_lt y x then Some x else m end) (Some y) l = Some m) as H.
  { clear l. induction l as [|x l IH]; intros y; simpl; [eauto|]. destruct (inet_lt y x); apply IH. }
  destruct l as [|x l]; [done|]. intros _. apply H.
Qed.

(** The next address lies in the same range, and clearing the host bits gives
    the range back. *)
Lemma next_range a : cidr4 a -> exists b, inet_succ a = Some b /\ to_cidr b = a.
Proof.
  intros (x & Hx & Hlt & Hb & Hc). destruct a as [a n]. simpl in *. subst a. unfold inet_succ. simpl.
  assert (exists q, x = (q * 2 ^ Z.to_N (32 - n))%N) as (q & Hq). { exists (leading 32 n x). unfold clear_host in Hc. by rewrite N.shiftl_mul_pow2 in Hc. }
  assert (exists p, (2 ^ Z.to_N (32 - n) = 2 * p)%N /\ (0 < p)%N /\ exists z, (2 ^ 32 = z * (2 * p))%N) as (p & Hp & Hp0 & z & Hz).
  { exists (2 ^ (Z.to_N (32 - n) - 1))%N. assert (Z.to_N (32 - n) = N.succ (Z.to_N (32 - n) - 1))%N as E by lia. split_and!.
    - rewrite E at 1. apply N.pow_succ_r'.
    - apply N.neq_0_lt_0, N.pow_nonzero. lia.
    - exists (2 ^ Z.to_N n)%N. rewrite <- N.pow_succ_r', <- E, <- N.pow_add_r. f_equal. lia. }
  rewrite Hp in Hq. assert (x + 1 < 2 ^ 32)%N as Hs by (rewrite Hz in *; nia). rewrite (proj2 (N.ltb_lt _ _) Hs). eexists. split; [done|].
  unfold to_cidr. simpl. f_equal. f_equal. unfold clear_host, leading. rewrite N.shiftr_div_pow2, N.shiftl_mul_pow2, Hp, Hq.
  rewrite N.div_add_l by lia. rewrite N.div_small by lia. lia.
Qed.

(** A transaction that answered, when a failed commit is an error. *)
Lemma transaction_inv {env : Env} {A} ctx (on_commit : error -> error) (body : M A) w a w' :
  transaction ctx (fun e => throw (on_commit e)) body w = (Ret a, w') -> exists w1, body (set_tx (Some (w_now w)) (tick w)) = (Ret a, w1).
Proof.
  unfold transaction. destruct (env_fault (w_step w)); try done. destruct (body _) as [[b|e| |] w1]; try done.
  destruct (env_fault _); intros H; try done. injection H as -> _. eauto.
Qed.

Lemma register_row {env : Env} id host ip range w server w' : db_servers (w_db w) !! id = None ->
  exec (ServerRegister (Some id) host ip range) w = (Ret server, w') -> srv_IpRange server = range.
Proof.
  intros Hn E%exec_ret_inv. unfold ServerRegister in E. simpl in E. rewrite Hn in E. by injection E as <- _.
Qed.

Lemma allocate_shares {env : Env} {S : Sorter} id host ip w server w' :
  (forall k r, db_servers (w_db w) !! k = Some r -> cidr4 (srv_IpRange r)) -> db_servers (w_db w) <> ∅ -> db_servers (w_db w) !! id = None ->
  AllocateAndRegisterServer id host ip w = (Ret server, w') -> exists k r, db_servers (w_db w) !! k = Some r /\ srv_IpRange server = srv_IpRange r.
Proof.
  intros Hc Hne Hn (w1 & E)%transaction_inv. apply bind_inv in E as (u & w2 & E1 & E). apply read_inv in E1 as [_ ->].
  apply bind_inv in E as (range & w3 & E1 & E). apply read_inv in E1 as [Hr ->]. apply wrap_ret_inv, register_row in E; [|done]. rewrite E. clear E.
  unfold ServerAllocateIPRange in Hr. simpl in Hr. set (l := srv_IpRange <$> _) in Hr.
  assert (forall m, m ∈ l -> exists k r, db_servers (w_db w) !! k = Some r /\ m = srv_IpRange r) as Hl.
  { intros m (r & -> & Hin)%list_elem_of_fmap. unfold any_order in Hin. rewrite sort_by_elem in Hin. apply elem_of_rows in Hin as [_ [k Hk]]. eauto. }
  destruct (inet_max_some l) as (m & Hm).
  { intros El. apply map_choose in Hne as (k & r & Hk). assert (srv_IpRange r ∈ l) as Hin; [|rewrite El in Hin; by apply not_elem_of_nil in Hin].
    apply list_elem_of_fmap. exists r. split; [done|]. unfold any_order. rewrite sort_by_elem. apply elem_of_rows. eauto. }
  rewrite Hm in Hr. destruct (Hl m (inet_max_in l m Hm)) as (k & r & Hk & ->). destruct (next_range _ (Hc k r Hk)) as (b & Hb & Hcb).
  rewrite Hb in Hr. injection Hr as <-. eauto.
Qed.

(** A new server gets the address range of a server that is registered
    already: the largest range plus one, as a cidr, is the largest range. In
    every environment, when a cluster with servers registers another, the range
    it returns is that of an old server. *)
Theorem new_server_shares_range (env : Env) (S : Sorter) (U : Unicode) (id : UUID) (host ip : string) (w w' : World) (server : Server) :
  (forall k r, db_servers (w_db w) !! k = Some r -> cidr4 (srv_IpRange r)) -> db_servers (w_db w) <> ∅ -> db_servers (w_db w) !! id = None ->
  registerServer id host ip w = (Ret server, w') ->
  exists k r, db_servers (w_db w) !! k = Some r /\ srv_IpRange server = srv_IpRange r.
Proof.
  intros Hc Hne Hn E. apply bind_inv in E as (existing & w1 & E1 & E). apply wrap_ret_inv in E1. unfold FindServerByID, or_none in E1.
  assert (existing = None /\ w_db w1 = w_db w) as [-> Hw1].
  { unfold bind, attempt, query in E1. destruct (env_fault (w_step w)); simpl in E1; [|done..]. unfold ServerFindByID in E1. simpl in E1. rewrite Hn in E1. simpl in E1. by injection E1 as <- <-. }
  apply bind_inv in E as (n & w2 & E1' & E). apply wrap_ret_inv, bind_inv in E1' as (servers & w3 & E3 & E4). apply query_inv in E3 as [_ ->]. injection E4 as _ <-.
  destruct (_ && _); [done|]. apply bind_inv in E as (server' & w4 & E5 & E). apply bind_inv in E as (u & w5 & _ & E). injection E as -> _.
  apply wrap_ret_inv in E5. rewrite <- Hw1 in *. apply (allocate_shares id host ip (tick w1) server w4); done.
Qed.

(** ** Idle projects *)

Definition idle_rel (t0 : Time) (idleSeconds : Z) (k : UUID) (p p' : Project) : Prop :=
  p' = p \/ (project_idle t0 idleSeconds p = true /\ exists t, p' = set_proj_UpdatedAt (Some t) (set_proj_ScaledToZero true p)).

(** The sweep over idle projects, in every environment, scales to zero only
    projects that allow it and whose last request is older than the idle time,
    and changes nothing else. *)
Theorem idle_sweep_effect (env : Env) (S : Sorter) (leader : bool) (idleSeconds : Z) (w : World) :
  (forall k p, db_projects (w_db w) !! k = Some p -> proj_ID p = Some k) ->
  let d' := w_db (runIdleScaleDownOnce leader idleSeconds w).2 in
  row_wise (idle_rel (sql_now w) idleSeconds) (db_projects (w_db w)) (db_projects d') /\ set_projects ∅ d' = set_projects ∅ (w_db w).
Proof.
  intros Hkeys. cbv zeta. set (d0 := w_db w) in *. set (t0 := sql_now w).
  set (I := fun d => row_wise (idle_rel t0 idleSeconds) (db_projects d0) (db_projects d) /\ set_projects ∅ d = set_projects ∅ d0).
  assert (I d0) as H0 by (split; [apply row_wise_refl; by left|done]). unfold runIdleScaleDownOnce. destruct leader; cbn [negb]; [|done]. unfold sweep.
  destruct (attempt_query (ProjectsFindForIdleScaleDown idleSeconds) w) as (r & Hr & Hv). rewrite (bind_ret _ _ _ _ _ Hr). destruct r as [e|l]; [done|].
  specialize (Hv l eq_refl). assert (triple I (for_each l scale_down_idle) (fun _ => I) I) as Hl; [|specialize (Hl (tick w) H0); by destruct ((for_each l _ _).1)].
  apply tr_for_each_in. intros p Hp. injection Hv as <-. apply elem_of_take in Hp as (i & Hp & _). apply list_elem_of_lookup_2 in Hp. rewrite sort_by_elem in Hp.
  apply elem_of_rows in Hp as [Hidle [k Hk]]. unfold scale_down_idle. rewrite (Hkeys k p Hk). eapply (tr_bind _ _ _ (fun _ => I)).
  - apply tr_attempt, tr_exec; [auto|]. intros t a d d' [H1 H2] [->|(k' & r & [= <-] & Hr' & Hg & _ & ->)]%executing_inv; [by repeat split|].
    assert (I (set_projects (<[k := set_proj_UpdatedAt (Some t) (set_proj_ScaledToZero true r)]> (db_projects d)) d)); [|cbn; auto]. split; [|done].
    cbn. eapply row_wise_insert; [done|done|]. intros r0 Hr0 Hrel. assert (r0 = p) as -> by (unfold d0 in *; congruence). right. split; [done|].
    exists t. destruct Hrel as [->|(_ & t1 & ->)]; done.
  - intros [e|[]]; [by apply tr_ret|]. apply tr_reading; [solve_runs|done|done].
Qed.

(** ** Polling *)

Section polling.
Context {env : Env} {S : Sorter} (Hq : quiet env) (sched : bool) (proj : Project) (svc : Service) (kp ks : UUID) (head : string).
Context (Hproj : proj_ID proj = Some kp) (Hsvc : svc_ID svc = Some ks).

(** No running deployment of the service is at the commit. *)
Definition not_deployed (d : Db) : Prop :=
  forall k r, db_deployments d !! k = Some r -> dep_ServiceID r = Some ks -> is_Some (dep_RunningAt r) -> dep_GithubCommit r <> head.

Definition has_rows (d : Db) : Prop := is_Some (db_projects d !! kp) /\ is_Some (db_services d !! ks).

Definition polled_row (id : UUID) (t : Time) : Deployment :=
  mkDeployment (Some id) (Some kp) (Some ks) None None None None head "main" "production" None None false false None None None None None (Some t) (Some t).

Lemma poll_deploys w : not_deployed (w_db w) -> has_rows (w_db w) -> db_deployments (w_db w) !! env_uuid (Datatypes.S (w_step w)) = None ->
  exists w' t, poll_service sched proj head svc w = (Ret tt, w') /\ (w_step w < w_step w')%nat /\
    w_db w' = set_deployments (<[env_uuid (Datatypes.S (w_step w)) := polled_row (env_uuid (Datatypes.S (w_step w))) t]> (db_deployments (w_db w))) (w_db w).
Proof.
  intros Hnot [[p Hp] [s Hs]] Hfresh. unfold poll_service. rewrite Hproj, Hsvc. set (id := env_uuid (Datatypes.S (w_step w))) in *.
  destruct (attempt_query (DeploymentLatestSuccessfulForProject (Some kp) (Some ks)) w) as (r & Hr & Hv). rewrite (bind_ret _ _ _ _ _ Hr). cbv zeta.
  assert (exists w' t, (let! id := new_uuid in
     let! dep := attempt (exec (DeploymentCreate (Some id) (Some kp) (Some ks) None None None head "main" "production" None)) in
     match dep with
     | inl _ => ret tt
     | inr dep => when sched (let! t := now in emit (EvSchedule SchedDeployments (FromPgtype dep.(dep_ID)) t))
     end) (tick w) = (Ret tt, w') /\ (w_step w < w_step w')%nat /\ w_db w' = set_deployments (<[id := polled_row id t]> (db_deployments (w_db w))) (w_db w)) as Hdep.
  { rewrite (bind_ret new_uuid _ (tick w) id (tick (tick w)) eq_refl).
    assert (DeploymentCreate (Some id) (Some kp) (Some ks) None None None head "main" "production" None (sql_now (tick (tick w))) (w_db w) =
      inr (polled_row id (sql_now (tick (tick w))), set_deployments (<[id := polled_row id (sql_now (tick (tick w)))]> (db_deployments (w_db w))) (w_db w))) as Hc.
    { unfold DeploymentCreate. apply (insert_row_ok t_deployments); [done|]. cbn. unfold deployment_ok. cbn. by rewrite Hp, Hs. }
    unfold bind, attempt. rewrite quiet_exec by done. cbn [w_db tick]. rewrite Hc.
    destruct sched; eexists _, (sql_now (tick (tick w))); (split; [reflexivity|]); simpl; (split; [lia|done]). }
  destruct r as [e|dep].
  - assert (is_no_rows e = true) as ->; [|exact Hdep]. unfold attempt in Hr. rewrite quiet_query in Hr by done.
    unfold DeploymentLatestSuccessfulForProject, first_row in Hr. destruct (sort_by _ _); [|done]. by injection Hr as <-.
  - specialize (Hv dep eq_refl). apply first_row_in in Hv. rewrite sort_by_elem in Hv. apply elem_of_rows in Hv as [Hc [k Hk]].
    rewrite !andb_true_iff in Hc. destruct Hc as [[[[_ Hc] _] Hrun] _]. unfold col_eq in Hc. destruct (dep_ServiceID dep) as [s'|] eqn:Es; [|done].
    apply bool_decide_eq_true in Hc. subst s'. rewrite (proj2 (String.eqb_neq _ _)); [exact Hdep|]. eapply Hnot; [exact Hk|done|].
    destruct (dep_RunningAt dep); [eauto|done].
Qed.

(** Polling deploys a commit again and again: as long as no deployment of
    the service at the commit is running, also when one is being built or has
    failed, every sweep adds another, so two sweeps in a row leave two new
    deployments of the same commit. *)
Theorem polling_repeats (w : World) :
  (forall n, db_deployments (w_db w) !! env_uuid n = None) -> (forall m n, env_uuid m = env_uuid n -> m = n) ->
  not_deployed (w_db w) -> has_rows (w_db w) ->
  exists w' k1 k2 t1 t2, (do! poll_service sched proj head svc ; poll_service sched proj head svc) w = (Ret tt, w') /\ k1 <> k2 /\
    db_deployments (w_db w) !! k1 = None /\ db_deployments (w_db w) !! k2 = None /\
    db_deployments (w_db w') !! k1 = Some (polled_row k1 t1) /\ db_deployments (w_db w') !! k2 = Some (polled_row k2 t2).
Proof.
  intros Hfresh Hinj Hnot Hrows. destruct (poll_deploys w Hnot Hrows (Hfresh _)) as (w1 & t1 & H1 & Hstep & Hd1). rewrite (bind_ret _ _ _ _ _ H1).
  assert (env_uuid (Datatypes.S (w_step w)) <> env_uuid (Datatypes.S (w_step w1))) as Hne by (intros E%Hinj; lia).
  destruct (poll_deploys w1) as (w2 & t2 & H2 & _ & Hd2).
  - rewrite Hd1. intros k r. cbn. destruct (decide (env_uuid (Datatypes.S (w_step w)) = k)) as [<-|Hk].
    + rewrite lookup_insert_eq. intros [= <-] _ [t Ht]. done.
    + rewrite lookup_insert_ne by done. apply Hnot.
  - by rewrite Hd1.
  - rewrite Hd1. cbn. by rewrite lookup_insert_ne.
  - exists w2, (env_uuid (Datatypes.S (w_step w))), (env_uuid (Datatypes.S (w_step w1))), t1, t2. split; [done|]. split; [done|]. split; [done|]. split; [done|].
    rewrite Hd2, Hd1. cbn. rewrite lookup_insert_eq, lookup_insert_ne, lookup_insert_eq by done. done.
Qed.

End polling.

(** ** Examples *)

(** Long after the last heartbeat of the sample's servers. *)
Definition late_world : World := mkWorld sample_db (100 * Second) 0 None [].

Lemma sample_servers_keyed k r : db_servers sample_db !! k = Some r -> srv_ID r = Some k.
Proof. revert k r. change (map_Forall (fun k r => srv_ID r = Some k) (db_servers sample_db)). apply map_Forall_to_list. vm_compute. repeat constructor. Qed.

Lemma sample_instance_fk k i : db_instances sample_db !! k = Some i -> fk_required (db_deployments sample_db) (inst_DeploymentID i) = true.
Proof.
  revert k i. change (map_Forall (fun _ i => fk_required (db_deployments sample_db) (inst_DeploymentID i) = true) (db_instances sample_db)).
  apply map_Forall_to_list. vm_compute. repeat constructor.
Qed.

(** The active server of the sample dies, and its instances are to be placed again. *)
Lemma dead_servers_swept_witness :
  srv_Status <$> db_servers (w_db (runDeadServerDetectionOnce true late_world).2) !! 30%N = Some "dead" /\
  vacated 30%N (w_db (runDeadServerDetectionOnce true late_world).2).
Proof.
  destruct (dead_servers_swept sample_env insertion_sorter true late_world sample_servers_keyed sample_instance_fk) as [Hs Hq].
  assert (srv_Status <$> db_servers (w_db (runDeadServerDetectionOnce true late_world).2) !! 30%N = Some "dead") as Hdead.
  { apply Hq; [by intros n|done|apply Z.le_refl|]. exists (sample_server 30 "active" 1000), 1000. by split_and!. }
  split; [exact Hdead|]. destruct (db_servers (w_db (runDeadServerDetectionOnce true late_world).2) !! 30%N) as [r|] eqn:E; [|done].
  apply (sw_dead _ _ _ Hs 30%N r E). intros H. assert (srv_Status r = "active") as Ha by (vm_compute in H; by injection H as <-). simpl in Hdead. rewrite Ha in Hdead. discriminate.
Defined.

(** One server with the first range. *)
Definition one_server : Server := mkServer (Some 30%N) "host-30" "10.1.0.1" first_range (Addr4 0) "" "" "active" (Some 1) (Some 1) (Some 1).
Definition range_world : World := mkWorld (set_servers {[ 30%N := one_server ]} sample_db) 2000 0 None [].

Lemma new_server_shares_range_witness :
  exists server w', registerServer 33%N "host-33" "10.1.0.2" range_world = (Ret server, w') /\ srv_ID server = Some 33%N /\
  exists k r, db_servers (w_db range_world) !! k = Some r /\ srv_IpRange server = srv_IpRange r.
Proof.
  assert (exists server w', registerServer 33%N "host-33" "10.1.0.2" range_world = (Ret server, w') /\ srv_ID server = Some 33%N) as (server & w' & E & Hid).
  { eexists _, _. split; [vm_compute; reflexivity|reflexivity]. }
  exists server, w'. split; [done|]. split; [done|].
  apply (new_server_shares_range sample_env insertion_sorter sample_unicode 33%N "host-33" "10.1.0.2" range_world w' server); [|done|reflexivity|done].
  change (map_Forall (fun _ r => cidr4 (srv_IpRange r)) (db_servers (w_db range_world))). apply map_Forall_to_list. cbn.
  rewrite map_to_list_singleton. repeat constructor. exists 167772160%N. by split_and!.
Defined.

Lemma polling_repeats_witness :
  let svc := sample_service 20 "web" in
  exists w' k1 k2 t1 t2, (do! poll_service true sample_project "fedcba" svc ; poll_service true sample_project "fedcba" svc) sample_world = (Ret tt, w') /\ k1 <> k2 /\
    db_deployments (w_db w') !! k1 = Some (polled_row 1 20 "fedcba" k1 t1) /\ db_deployments (w_db w') !! k2 = Some (polled_row 1 20 "fedcba" k2 t2).
Proof.
  intros svc. destruct (polling_repeats (env := sample_env) ltac:(by intros n) true sample_project svc 1%N 20%N "fedcba" eq_refl eq_refl sample_world)
    as (w' & k1 & k2 & t1 & t2 & H1 & H2 & _ & _ & H3 & H4).
  - intros n. destruct (db_deployments (w_db sample_world) !! env_uuid n) as [r|] eqn:E; [|done]. exfalso.
    assert (map_Forall (fun k (_ : Deployment) => (k < 1000)%N) (db_deployments sample_db)) as Hk by (apply map_Forall_to_list; vm_compute; repeat constructor).
    specialize (Hk _ _ E). simpl in Hk. lia.
  - intros m n. simpl. lia.
  - intros k r Hk _ _. assert (map_Forall (fun _ r => dep_GithubCommit r = "abcdef0123") (db_deployments sample_db)) as Hc
      by (apply map_Forall_to_list; vm_compute; repeat constructor).
    specialize (Hc _ _ Hk). simpl in Hc. rewrite Hc. discriminate.
  - split; by eexists.
  - exists w', k1, k2, t1, t2. done.
Defined.

(** Loopback and unspecified addresses, with their spellings. *)
Example loopback_hosts :
  isLoopbackOrUnspecifiedIP " [::1] " = true /\ isLoopbackOrUnspecifiedIP "LOCALHOST." = true /\ isLoopbackOrUnspecifiedIP "127.3.0.1" = true /\
  isLoopbackOrUnspecifiedIP "::ffff:127.0.0.1" = true /\ isLoopbackOrUnspecifiedIP "10.0.0.1" = false /\ isLoopbackLikeHost "/var/run/postgresql" = true.
Proof. vm_compute. by split_and!. Qed.
