(* ===== verification/CiWorkflow.v ===== *)
(** * CI workflows: files and plans

    internal/ci/workflow.go and internal/ci/compile.go: the workflow files of a
    repository, their triggers and inputs, and the plan of a run with its jobs
    in an order that respects their needs.  The YAML library and the file system
    are parameters. *)

From S2P Require Import Prelude NetAddr Text Models Runtime Effects Queries Codecs Paths Json GithubActions EventQueries CiJobs WorkerDns.

(** ** Results of functions without effects *)

Definition obind {A B} (m : outcome A) (k : A -> outcome B) : outcome B :=
  match m with Ret a => k a | Err e => Err e | Panic => Panic | Diverge => Diverge end.
Notation "'let*' x ':=' m 'in' k" := (obind m (fun x => k))
  (at level 10, x name, m at level 100, k at level 200) : kindling_scope.

(** [fmt.Errorf("ctx: %w", err)] on an error. *)
Definition owrap {A} (ctx : string) (m : outcome A) : outcome A :=
  match m with Err e => Err (ErrWrap ctx e) | r => r end.

(** A range loop with an accumulator that an error ends. *)
Fixpoint ofold {A B} (f : A -> B -> outcome B) (l : list A) (b : B) : outcome B :=
  match l with [] => Ret b | x :: l' => let* b' := f x b in ofold f l' b' end.

(** A range loop that collects a value per element. *)
Fixpoint omapM {A B} (f : nat -> A -> outcome B) (i : nat) (l : list A) : outcome (list B) :=
  match l with
  | [] => Ret []
  | x :: l' => let* y := f i x in let* ys := omapM f (Datatypes.S i) l' in Ret (y :: ys)
  end.

Abbreviation strmap := (gmap string string) (only parsing).

(** [m[k]], the empty string where the key is missing. *)
Definition get (m : strmap) (k : string) : string := default "" (m !! k).

(** [path/filepath.Base]. *)
Fixpoint drop_slashes (l : list N) : list N :=
  match l with b :: l' => if (b =? slash)%N then drop_slashes l' else l | [] => [] end.
Definition filepath_Base (s : string) : string :=
  match bytes_of s with
  | [] => "."
  | l =>
      match drop_slashes (reverse l) with
      | [] => "/"
      | r => of_bytes (default r (last (split_byte slash (reverse r))))
      end
  end.

(** [sort.Strings]. *)
Definition string_le (a b : string) : bool := negb (strings_Compare a b =? 1).
Definition sort_strings {S : Sorter} (l : list string) : list string := sort_by string_le l.

(** ** Data *)

Record WorkflowTriggers := mkTriggers { wt_Push : bool; wt_PullRequest : bool; wt_WorkflowDispatch : bool }.

Record WorkflowDispatchInput := mkDispatchInput {
  di_Description : string;
  di_Default : string;
  di_Type : string;
  di_Required : bool
}.

Record WorkflowRunDefaults := mkRunDefaults { rd_WorkingDirectory : string; rd_Shell : string }.

Record WorkflowStep := mkStep {
  ws_ID : string;
  ws_Name : string;
  ws_If : string;
  ws_Uses : string;
  ws_Run : string;
  ws_WorkingDirectory : string;
  ws_Env : strmap;
  ws_With : strmap
}.

Record WorkflowJob := mkWorkflowJob {
  wj_ID : string;
  wj_Name : string;
  wj_Needs : list string;
  wj_If : string;
  wj_RunsOn : list string;
  wj_Env : strmap;
  wj_Defaults : WorkflowRunDefaults;
  wj_Outputs : strmap;
  wj_Steps : list WorkflowStep
}.

Record Workflow := mkWorkflow {
  wf_Filepath : string;
  wf_Filename : string;
  wf_Stem : string;
  wf_Name : string;
  wf_Triggers : WorkflowTriggers;
  wf_Jobs : gmap string WorkflowJob;
  wf_DispatchInput : gmap string WorkflowDispatchInput
}.

(** ** YAML *)

(** A yaml.Node by its kind; the content of a mapping alternates keys and
    values.  [NoNode] is the zero value. *)
Inductive yaml_Node :=
  | NoNode
  | ScalarNode (value : string)
  | SequenceNode (content : list yaml_Node)
  | MappingNode (content : list (yaml_Node * yaml_Node))
  | OtherNode (kind : Z).

Definition node_Kind (n : yaml_Node) : Z :=
  match n with NoNode => 0 | SequenceNode _ => 2 | MappingNode _ => 4 | ScalarNode _ => 8 | OtherNode k => k end.
Definition node_Value (n : yaml_Node) : string := match n with ScalarNode v => v | _ => "" end.

(** The spec of an input as it decodes; [Default] is printed by fmt.Sprint. *)
Record InputSpec := mkInputSpec { is_Description : string; is_Default : option string; is_Type : string; is_Required : bool }.

(** A job and a file as the library decodes them, with the nodes it hands to
    [UnmarshalYAML]. *)
Record RawJob := mkRawJob {
  rj_Name : string;
  rj_Needs : option yaml_Node;
  rj_If : string;
  rj_RunsOn : option yaml_Node;
  rj_Env : strmap;
  rj_Defaults : WorkflowRunDefaults;
  rj_Outputs : strmap;
  rj_Steps : list WorkflowStep
}.
Record RawWorkflow := mkRawWorkflow { rw_Name : string; rw_On : yaml_Node; rw_Jobs : gmap string RawJob }.

(** gopkg.in/yaml.v3. *)
Class Yaml := {
  decode_string : yaml_Node -> error + string;
  decode_strings : yaml_Node -> error + list string;
  decode_input : yaml_Node -> error + InputSpec;
  unmarshal_workflow : string -> error + RawWorkflow;
  unmarshal_filters : string -> error + gmap string (list string)
}.

(** What the resolver asks of the file system. *)
Class WorkflowFS := {
  fs_Abs : string -> error + string;
  fs_IsDir : string -> error + bool;
  fs_ReadDir : string -> error + list (string * bool);
  fs_ReadFile : string -> error + string
}.

Definition of_either {A} (r : error + A) : outcome A := match r with inl e => Err e | inr a => Ret a end.

(** ** Triggers and files (workflow.go) *)

Section files.
Context {Y : Yaml} {FS : WorkflowFS} {S : Sorter} {U : Unicode} {UF : UnicodeFold}.

Definition StringOrSlice_UnmarshalYAML (value : yaml_Node) : outcome (list string) :=
  match value with
  | ScalarNode _ =>
      let* single := of_either (decode_string value) in
      Ret (if String.eqb (TrimSpace single) "" then [] else [single])
  | SequenceNode _ => of_either (decode_strings value)
  | NoNode => Ret []
  | _ => Err (ErrMsg ("expected string or string list, got yaml kind " +:+ pretty (node_Kind value)))
  end.

Definition set_trigger (event : string) (t : WorkflowTriggers) : WorkflowTriggers :=
  let event := TrimSpace event in
  if String.eqb event "push" then mkTriggers true t.(wt_PullRequest) t.(wt_WorkflowDispatch)
  else if String.eqb event "pull_request" then mkTriggers t.(wt_Push) true t.(wt_WorkflowDispatch)
  else if String.eqb event "workflow_dispatch" then mkTriggers t.(wt_Push) t.(wt_PullRequest) true
  else t.

Definition no_triggers : WorkflowTriggers := mkTriggers false false false.

Definition triggerSet (events : list string) : WorkflowTriggers := foldl (fun t e => set_trigger e t) no_triggers events.

(** One entry of [inputs]. *)
Definition parse_input (entry : yaml_Node * yaml_Node) (inputs : gmap string WorkflowDispatchInput) : outcome (gmap string WorkflowDispatchInput) :=
  let* spec := of_either (decode_input entry.2) in
  Ret (<[TrimSpace (node_Value entry.1) :=
    mkDispatchInput spec.(is_Description) (default "" spec.(is_Default)) spec.(is_Type) spec.(is_Required)]> inputs).

Definition parseDispatchInputs (node : yaml_Node) : outcome (gmap string WorkflowDispatchInput) :=
  match node with
  | MappingNode content =>
      ofold (fun entry inputs =>
        match entry.2 with
        | MappingNode specs =>
            if String.eqb (TrimSpace (node_Value entry.1)) "inputs" then ofold parse_input specs inputs else Ret inputs
        | _ => Ret inputs
        end) content ∅
  | _ => Ret ∅
  end.

(** One event of a mapping: the inputs of [workflow_dispatch] replace others. *)
Definition parse_event (entry : yaml_Node * yaml_Node) (acc : WorkflowTriggers * gmap string WorkflowDispatchInput) :
    outcome (WorkflowTriggers * gmap string WorkflowDispatchInput) :=
  let key := TrimSpace (node_Value entry.1) in
  let triggers := set_trigger key acc.1 in
  if String.eqb key "workflow_dispatch" then
    let* inputs := parseDispatchInputs entry.2 in Ret (triggers, inputs)
  else Ret (triggers, acc.2).

Definition parseWorkflowTriggers (node : yaml_Node) : outcome (WorkflowTriggers * gmap string WorkflowDispatchInput) :=
  match node with
  | NoNode => Ret (no_triggers, ∅)
  | ScalarNode _ => let* event := of_either (decode_string node) in Ret (triggerSet [event], ∅)
  | SequenceNode _ => let* events := of_either (decode_strings node) in Ret (triggerSet events, ∅)
  | MappingNode content => ofold parse_event content (no_triggers, ∅)
  | OtherNode k => Err (ErrMsg ("unsupported on: yaml kind " +:+ pretty k))
  end.

Definition name_step (i : nat) (s : WorkflowStep) : WorkflowStep :=
  if String.eqb (TrimSpace s.(ws_Name)) "" then
    let name :=
      if negb (String.eqb (TrimSpace s.(ws_Uses)) "") then s.(ws_Uses)
      else if negb (String.eqb (TrimSpace s.(ws_Run)) "") then "run"
      else "step-" +:+ pretty (Z.of_nat i + 1) in
    mkStep s.(ws_ID) name s.(ws_If) s.(ws_Uses) s.(ws_Run) s.(ws_WorkingDirectory) s.(ws_Env) s.(ws_With)
  else s.

Definition string_list (o : option yaml_Node) : outcome (list string) :=
  match o with Some n => StringOrSlice_UnmarshalYAML n | None => Ret [] end.

(** A decoded job, with the names that default to ids. *)
Definition load_job (id : string) (j : RawJob) : outcome WorkflowJob :=
  let* needs := string_list j.(rj_Needs) in
  let* runsOn := string_list j.(rj_RunsOn) in
  Ret (mkWorkflowJob id (if String.eqb (TrimSpace j.(rj_Name)) "" then id else j.(rj_Name)) needs j.(rj_If) runsOn
    j.(rj_Env) j.(rj_Defaults) j.(rj_Outputs) (imap name_step j.(rj_Steps))).

Definition load_jobs (jobs : gmap string RawJob) : outcome (gmap string WorkflowJob) :=
  ofold (fun '(id, j) out => let* job := load_job id j in Ret (<[id := job]> out)) (any_order (map_to_list jobs)) ∅.

Definition loadWorkflow (path : string) : outcome Workflow :=
  let* data := owrap ("read workflow " +:+ path) (of_either (fs_ReadFile path)) in
  let* raw := owrap ("parse workflow " +:+ path) (of_either (unmarshal_workflow data)) in
  let* jobs := owrap ("parse workflow " +:+ path) (load_jobs raw.(rw_Jobs)) in
  let filename := filepath_Base path in
  let stem := TrimSuffix (TrimSuffix filename ".yaml") ".yml" in
  let name := if String.eqb (TrimSpace raw.(rw_Name)) "" then stem else raw.(rw_Name) in
  let* on := owrap ("parse workflow triggers " +:+ path) (parseWorkflowTriggers raw.(rw_On)) in
  Ret (mkWorkflow path filename stem name on.1 jobs on.2).

Definition FindRepoRoot_loop : nat -> string -> string -> outcome string :=
  fix go fuel abs dir :=
    match fuel with
    | O => Diverge
    | Datatypes.S n =>
        if match fs_IsDir (path_Join [dir; ".github"; "workflows"]) with inr true => true | _ => false end then Ret dir
        else
          let parent := filepath_Dir dir in
          if String.eqb parent dir then Err (ErrMsg ("no .github/workflows found from " +:+ abs +:+ " upward"))
          else go n abs parent
    end.

(** Each round drops at least a byte of the path, so its length bounds them. *)
Definition FindRepoRoot (start : string) : outcome string :=
  let start := if String.eqb (TrimSpace start) "" then "." else start in
  let* abs := owrap "abs path" (of_either (fs_Abs start)) in
  let* isDir := of_either (fs_IsDir abs) in
  let abs := if isDir then abs else filepath_Dir abs in
  FindRepoRoot_loop (Datatypes.S (Datatypes.S (String.length abs))) abs abs.

Definition workflow_le (a b : Workflow) : bool :=
  if String.eqb a.(wf_Name) b.(wf_Name) then string_le a.(wf_Filename) b.(wf_Filename) else string_le a.(wf_Name) b.(wf_Name).

Definition List_workflows (repoRoot : string) : outcome (list Workflow) :=
  let dir := path_Join [repoRoot; ".github"; "workflows"] in
  let* entries := owrap "read workflows dir" (of_either (fs_ReadDir dir)) in
  let* workflows := ofold (fun entry out =>
      if entry.2 || negb (HasSuffix entry.1 ".yml" || HasSuffix entry.1 ".yaml") then Ret out
      else let* wf := loadWorkflow (path_Join [dir; entry.1]) in Ret (out ++ [wf])) entries [] in
  Ret (sort_by workflow_le workflows).

Definition appendUniqueWorkflow (l : list Workflow) (wf : Workflow) : list Workflow :=
  if existsb (fun e => String.eqb e.(wf_Filepath) wf.(wf_Filepath)) l then l else l ++ [wf].

Definition matches_exactly (workflowRef : string) (wf : Workflow) : bool :=
  EqualFold wf.(wf_Stem) workflowRef || EqualFold wf.(wf_Name) workflowRef || EqualFold wf.(wf_Filename) workflowRef.

Definition match_workflow (workflowRef ref : string) (matches : list Workflow) (wf : Workflow) : list Workflow :=
  let matches := if matches_exactly workflowRef wf then matches ++ [wf] else matches in
  if String.eqb (ToLower wf.(wf_Stem)) ref || String.eqb (ToLower wf.(wf_Name)) ref then appendUniqueWorkflow matches wf else matches.

Definition describe (wf : Workflow) : string := wf.(wf_Stem) +:+ " (" +:+ wf.(wf_Name) +:+ ")".

Definition Resolve_workflow (repoRoot workflowRef : string) : outcome Workflow :=
  let* workflows := List_workflows repoRoot in
  let ref := TrimSpace (ToLower workflowRef) in
  if String.eqb ref "" then Err (ErrMsg "workflow reference is required")
  else
    match foldl (match_workflow workflowRef ref) [] workflows with
    | [] => Err (ErrMsg ("workflow " +:+ go_quote workflowRef +:+ " not found; available: " +:+ String.concat ", " (describe <$> workflows)))
    | [wf] => Ret wf
    | matches => Err (ErrMsg ("workflow " +:+ go_quote workflowRef +:+ " is ambiguous: " +:+ String.concat ", " (describe <$> matches)))
    end.

End files.

(** ** Plans (compile.go) *)

Record CompileRequest := mkCompileRequest {
  cr_Workflow : Workflow;
  cr_JobID : string;
  cr_Event : string;
  cr_Inputs : strmap;
  cr_RepoRoot : string
}.

Inductive StepKind :=
  | StepKindRun | StepKindCheckout | StepKindSetupGo | StepKindSetupNode | StepKindUploadArtifact
  | StepKindDownloadArtifact | StepKindCache | StepKindPathsFilter | StepKindSSHAgent.

Definition kind_name (k : StepKind) : string :=
  match k with
  | StepKindRun => "run" | StepKindCheckout => "checkout" | StepKindSetupGo => "setup_go" | StepKindSetupNode => "setup_node"
  | StepKindUploadArtifact => "upload_artifact" | StepKindDownloadArtifact => "download_artifact" | StepKindCache => "cache"
  | StepKindPathsFilter => "paths_filter" | StepKindSSHAgent => "ssh_agent"
  end.

Record CompiledStep := mkCompiledStep {
  cs_ID : string;
  cs_Name : string;
  cs_If : string;
  cs_Kind : StepKind;
  cs_Uses : string;
  cs_Run : string;
  cs_WorkingDirectory : string;
  cs_Env : strmap;
  cs_With : strmap
}.

Record CompiledJob := mkCompiledJob {
  cj_ID : string;
  cj_Name : string;
  cj_Needs : list string;
  cj_If : string;
  cj_Outputs : strmap;
  cj_Env : strmap;
  cj_Steps : list CompiledStep
}.

Record ExecutionPlan := mkPlan {
  ep_WorkflowName : string;
  ep_WorkflowFile : string;
  ep_Event : string;
  ep_RepoRoot : string;
  ep_Inputs : strmap;
  ep_Jobs : list CompiledJob
}.

(** *** The order of the jobs *)

(** The variables the closure [visit] shares. *)
Record dfs := mkDfs { d_visited : gset string; d_temp : gset string; d_out : list string }.

Section order.
Context {S : Sorter} (jobs : gmap string WorkflowJob).

Fixpoint visit (fuel : nat) (id : string) (st : dfs) : outcome dfs :=
  match fuel with
  | O => Diverge
  | Datatypes.S n =>
      if decide (id ∈ st.(d_visited)) then Ret st
      else if decide (id ∈ st.(d_temp)) then Err (ErrMsg ("cycle detected at job " +:+ id))
      else
        match jobs !! id with
        | None => Err (ErrMsg ("job " +:+ id +:+ " not found"))
        | Some job =>
            let st := mkDfs st.(d_visited) ({[id]} ∪ st.(d_temp)) st.(d_out) in
            let* st := ofold (visit n) (sort_strings job.(wj_Needs)) st in
            Ret (mkDfs ({[id]} ∪ st.(d_visited)) (st.(d_temp) ∖ {[id]}) (st.(d_out) ++ [id]))
        end
  end.

Definition job_ids : list string := sort_strings (any_order (map_to_list jobs).*1).

(** The ids on the path are distinct ids of jobs, but for the last one. *)
Definition topoSortJobs (roots : list string) : outcome (list string) :=
  let roots := match roots with [] => job_ids | _ => roots end in
  let* st := ofold (visit (Datatypes.S (size jobs))) roots (mkDfs ∅ ∅ []) in
  Ret st.(d_out).

End order.

Section compile.
Context {S : Sorter} {U : Unicode}.

Definition resolveJobOrder (workflow : Workflow) (selectedJob : string) : outcome (list string) :=
  if negb (String.eqb (TrimSpace selectedJob) "") then
    match workflow.(wf_Jobs) !! selectedJob with
    | None => Err (ErrMsg ("job " +:+ go_quote selectedJob +:+ " not found in workflow " +:+ workflow.(wf_Name)))
    | Some _ => topoSortJobs workflow.(wf_Jobs) [selectedJob]
    end
  else topoSortJobs workflow.(wf_Jobs) (job_ids workflow.(wf_Jobs)).

(** [s[:i]] for the first byte [c], or all of [s]. *)
Definition before_byte (c : N) (s : string) : string := str_of_bytes (cut_byte c (str_bytes s)).1.

Definition normalizeUses (uses : string) : string := before_byte 64 (TrimSpace (ToLower uses)).

Definition action_kind (base : string) : option StepKind :=
  if String.eqb base "actions/checkout" then Some StepKindCheckout
  else if String.eqb base "actions/setup-go" then Some StepKindSetupGo
  else if String.eqb base "actions/setup-node" then Some StepKindSetupNode
  else if String.eqb base "actions/upload-artifact" then Some StepKindUploadArtifact
  else if String.eqb base "actions/download-artifact" then Some StepKindDownloadArtifact
  else if String.eqb base "actions/cache" then Some StepKindCache
  else if String.eqb base "dorny/paths-filter" then Some StepKindPathsFilter
  else if String.eqb base "webfactory/ssh-agent" then Some StepKindSSHAgent
  else None.

(** The kinds' names have no hyphens, which the id would replace. *)
Definition compileStep (job : WorkflowJob) (idx : nat) (step : WorkflowStep) : outcome CompiledStep :=
  let compiled (kind : StepKind) :=
    let id := TrimSpace step.(ws_ID) in
    mkCompiledStep (if String.eqb id "" then kind_name kind +:+ "_" +:+ pretty (Z.of_nat idx + 1) else id)
      step.(ws_Name) (TrimSpace step.(ws_If)) kind (TrimSpace step.(ws_Uses)) step.(ws_Run)
      (firstNonEmpty [TrimSpace step.(ws_WorkingDirectory); TrimSpace job.(wj_Defaults).(rd_WorkingDirectory)])
      step.(ws_Env) step.(ws_With) in
  if negb (String.eqb (TrimSpace step.(ws_Run)) "") then Ret (compiled StepKindRun)
  else if String.eqb (TrimSpace step.(ws_Uses)) "" then Err (ErrMsg "step must define run or uses")
  else
    match action_kind (normalizeUses step.(ws_Uses)) with
    | Some kind => Ret (compiled kind)
    | None => Err (ErrMsg ("unsupported action " +:+ go_quote step.(ws_Uses)))
    end.

Definition defaultWorkflowEvent (workflow : Workflow) : string :=
  let t := workflow.(wf_Triggers) in
  if t.(wt_WorkflowDispatch) then "workflow_dispatch"
  else if t.(wt_Push) then "push"
  else if t.(wt_PullRequest) then "pull_request"
  else "".

(** Defaults that are set, and what the request gives over them. *)
Definition merge_inputs (dispatch : gmap string WorkflowDispatchInput) (given : strmap) : strmap :=
  given ∪ omap (fun spec => if String.eqb spec.(di_Default) "" then None else Some spec.(di_Default)) dispatch.

Definition missing_input (dispatch : gmap string WorkflowDispatchInput) (inputs : strmap) : option string :=
  fst <$> List.find (fun '(name, spec) => spec.(di_Required) && String.eqb (TrimSpace (get inputs name)) "")
    (any_order (map_to_list dispatch)).

(** The zero value, which a missing key of the map gives. *)
Definition zero_job : WorkflowJob := mkWorkflowJob "" "" [] "" [] ∅ (mkRunDefaults "" "") ∅ [].

Definition compile_job (jobs : gmap string WorkflowJob) (jobID : string) : outcome CompiledJob :=
  let job := default zero_job (jobs !! jobID) in
  let* steps := omapM (fun i step =>
      owrap ("job " +:+ jobID +:+ " step " +:+ go_quote step.(ws_Name)) (compileStep job i step)) 0 job.(wj_Steps) in
  Ret (mkCompiledJob job.(wj_ID) job.(wj_Name) job.(wj_Needs) (TrimSpace job.(wj_If)) job.(wj_Outputs) job.(wj_Env) steps).

Definition Compile (req : CompileRequest) : outcome ExecutionPlan :=
  let workflow := req.(cr_Workflow) in
  let event := TrimSpace req.(cr_Event) in
  let event := if String.eqb event "" then defaultWorkflowEvent workflow else event in
  if String.eqb event "" then Err (ErrMsg ("could not determine default event for workflow " +:+ workflow.(wf_Name)))
  else
    let inputs := merge_inputs workflow.(wf_DispatchInput) req.(cr_Inputs) in
    match missing_input workflow.(wf_DispatchInput) inputs with
    | Some name => Err (ErrMsg ("workflow input " +:+ go_quote name +:+ " is required"))
    | None =>
        let* jobOrder := resolveJobOrder workflow req.(cr_JobID) in
        let* compiled := omapM (fun _ id => compile_job workflow.(wf_Jobs) id) 0 jobOrder in
        Ret (mkPlan workflow.(wf_Name) (filepath_Base workflow.(wf_Filepath)) event req.(cr_RepoRoot) inputs compiled)
    end.

End compile.
