(* ===== verification/CiOrder.v ===== *)
(** * The order of CI jobs

    The depth-first search of [topoSortJobs] ends, succeeds exactly when the
    needs it follows are defined and free of cycles, and then lists the jobs it
    reaches once each, every job after those it needs. *)

From S2P Require Import Prelude NetAddr Text Models Runtime Effects Queries Codecs Paths Json GithubActions EventQueries CiJobs WorkerDns CiWorkflow.
From stdpp Require Import relations.

(** ** Results *)

Lemma obind_ret {A B} (m : outcome A) (k : A -> outcome B) b : obind m k = Ret b -> exists a, m = Ret a /\ k a = Ret b.
Proof. destruct m; try discriminate. simpl. eauto. Qed.

Lemma obind_err {A B} (m : outcome A) (k : A -> outcome B) e : obind m k = Err e -> m = Err e \/ exists a, m = Ret a /\ k a = Err e.
Proof. destruct m; try discriminate; simpl; [eauto|]. intros [= ->]. by left. Qed.

(** A range loop keeps an invariant that its body keeps. *)
Lemma ofold_ret_from {A B} (f : A -> B -> outcome B) (I : list A -> B -> Prop) l r : forall d b b',
  l = d ++ r -> I d b -> (forall l1 x l2 b1 b2, l = l1 ++ x :: l2 -> I l1 b1 -> f x b1 = Ret b2 -> I (l1 ++ [x]) b2) ->
  ofold f r b = Ret b' -> I l b'.
Proof.
  induction r as [|x r IH]; intros d b b' -> Hd Hstep E; simpl in E.
  - injection E as <-. by rewrite app_nil_r.
  - apply obind_ret in E as (b1 & E1 & E). eapply (IH (d ++ [x])); [by rewrite <- app_assoc| |done|done]. by eapply Hstep.
Qed.

Lemma ofold_ret {A B} (f : A -> B -> outcome B) (I : list A -> B -> Prop) l b b' :
  I [] b -> (forall l1 x l2 b1 b2, l = l1 ++ x :: l2 -> I l1 b1 -> f x b1 = Ret b2 -> I (l1 ++ [x]) b2) ->
  ofold f l b = Ret b' -> I l b'.
Proof. by apply ofold_ret_from. Qed.

Lemma ofold_err {A B} (f : A -> B -> outcome B) (I : B -> Prop) l b e :
  I b -> (forall x b1 b2, x ∈ l -> I b1 -> f x b1 = Ret b2 -> I b2) -> ofold f l b = Err e ->
  exists x b1, x ∈ l /\ I b1 /\ f x b1 = Err e.
Proof.
  revert b. induction l as [|x l IH]; intros b H0 Hstep E; simpl in E; [done|]. apply obind_err in E as [E|(b1 & E1 & E)].
  - exists x, b. repeat split; [by left|done|done].
  - destruct (IH b1) as (y & b2 & Hy & H2 & H3); [eapply Hstep; [by left|done|done]| |done|].
    + intros. eapply Hstep; [by right|done|done].
    + exists y, b2. repeat split; [by right|done|done].
Qed.

(** Where the body ends, with a result that keeps the invariant or an error, so does the loop. *)
Lemma ofold_ends {A B} (f : A -> B -> outcome B) (I : B -> Prop) l b :
  I b -> (forall x b1, x ∈ l -> I b1 -> (exists b2, f x b1 = Ret b2 /\ I b2) \/ exists e, f x b1 = Err e) ->
  (exists b', ofold f l b = Ret b' /\ I b') \/ exists e, ofold f l b = Err e.
Proof.
  revert b. induction l as [|x l IH]; intros b H0 Hstep; simpl; [left; by exists b|].
  destruct (Hstep x b) as [(b2 & -> & H2)|[e ->]]; [by left|done| |right; by exists e]. simpl.
  apply IH; [done|]. intros. by apply Hstep; [right|].
Qed.

(** ** The search *)

Section search.
Context {S : Sorter} (jobs : gmap string WorkflowJob).

(** Job [a] needs job [b]. *)
Definition job_needs (a b : string) : Prop := exists job, jobs !! a = Some job /\ b ∈ wj_Needs job.

(** Every job of the list is defined and comes after those it needs. *)
Definition topological (out : list string) : Prop :=
  forall l1 x l2, out = l1 ++ x :: l2 -> is_Some (jobs !! x) /\ forall d, job_needs x d -> d ∈ l1.

Record dfs_ok (st : dfs) : Prop := {
  ok_visited : forall x, x ∈ d_visited st <-> x ∈ d_out st;
  ok_nodup : NoDup (d_out st);
  ok_topological : topological (d_out st);
  ok_temp : forall x, x ∈ d_temp st -> is_Some (jobs !! x) /\ x ∉ d_visited st
}.

Lemma topological_snoc out x job :
  topological out -> jobs !! x = Some job -> (forall d, d ∈ wj_Needs job -> d ∈ out) -> topological (out ++ [x]).
Proof.
  intros Ht Hx Hd l1 y l2 E. destruct l2 as [|z l2] using rev_ind.
  - apply app_inj_tail in E as [<- ->]. split; [eauto|]. intros d (job' & Hj & Hin). rewrite Hx in Hj. injection Hj as <-. auto.
  - rewrite app_comm_cons, app_assoc in E. apply app_inj_tail in E as [-> _]. by eapply Ht.
Qed.

(** What a call adds: jobs its id reaches, and the id itself. *)
Record adds (id : string) (st st' : dfs) : Prop := {
  ad_temp : d_temp st' = d_temp st;
  ad_out : exists l, d_out st' = d_out st ++ l /\ forall x, x ∈ l -> rtc job_needs id x;
  ad_self : id ∈ d_out st'
}.

Lemma sort_strings_elem l x : x ∈ sort_strings l <-> x ∈ l.
Proof. apply sort_by_elem. Qed.

(** The invariant of the loop over the needs of [id]. *)
Definition needs_inv (id : string) (st0 : dfs) (ds : list string) (st : dfs) : Prop :=
  dfs_ok st /\ d_temp st = d_temp st0 /\ (exists l, d_out st = d_out st0 ++ l /\ forall x, x ∈ l -> tc job_needs id x) /\
  forall d, d ∈ ds -> d ∈ d_out st.

Lemma visit_ret n id st st' : visit jobs n id st = Ret st' -> dfs_ok st -> dfs_ok st' /\ adds id st st'.
Proof.
  revert id st st'. induction n as [|n IH]; intros id st st' E Hok; [done|]. simpl in E.
  case_decide as Hv. { injection E as <-. split; [done|]. split; [done| |by apply Hok]. exists []. rewrite app_nil_r. split; [done|]. by intros x ?%not_elem_of_nil. }
  case_decide as Ht; [done|]. destruct (jobs !! id) as [job|] eqn:Ej; [|done].
  apply obind_ret in E as (st2 & E & [= <-]). set (st1 := mkDfs _ ({[id]} ∪ d_temp st) _) in E.
  apply (ofold_ret _ (needs_inv id st1)) in E as ([Hv2 Hn2 Ht2 Htmp2] & Htemp & (l & Hl & Hreach) & Hall).
  - simpl in *. assert (id ∉ d_out st2) as Hnew. { rewrite <- Hv2. apply Htmp2. rewrite Htemp. set_solver. }
    split; [split|split]; simpl.
    + intros x. rewrite elem_of_union, elem_of_singleton, elem_of_app, list_elem_of_singleton, Hv2. tauto.
    + apply NoDup_app. split; [done|]. split; [|apply NoDup_singleton]. intros x Hx Hx'. apply list_elem_of_singleton in Hx' as ->. done.
    + eapply topological_snoc; [done|done|]. intros d Hd. apply Hall. by rewrite sort_strings_elem.
    + intros x Hx. assert (x ∈ d_temp st2) as Hx2 by set_solver. destruct (Htmp2 x Hx2) as [H1 H2]. split; [done|]. set_solver.
    + rewrite Htemp. apply set_eq. intros x. set_solver.
    + exists (l ++ [id]). rewrite Hl, <- app_assoc. split; [done|]. intros x [Hx|Hx]%elem_of_app; [by apply tc_rtc, Hreach|]. apply list_elem_of_singleton in Hx as ->. done.
    + apply elem_of_app. right. by apply list_elem_of_singleton.
  - split; [|split; [done|split]].
    + destruct Hok as [H1 H2 H3 H4]. split; simpl; [done|done|done|]. intros x [Hx|Hx]%elem_of_union; [|by apply H4]. apply elem_of_singleton in Hx as ->. split; [eauto|done].
    + exists []. rewrite app_nil_r. split; [done|]. by intros x ?%not_elem_of_nil.
    + by intros d ?%not_elem_of_nil.
  - intros l1 d l2 s1 s2 El (H1 & H2 & (l & Hl & Hr) & H3) Ed. destruct (IH _ _ _ Ed H1) as [Hok2 [Ha1 (l' & Hl' & Hr') Ha3]].
    assert (job_needs id d) as Hd. { exists job. split; [done|]. rewrite <- sort_strings_elem, El. set_solver. }
    split; [done|]. split; [congruence|]. split.
    + exists (l ++ l'). rewrite Hl', Hl, app_assoc. split; [done|]. intros x [Hx|Hx]%elem_of_app; [by apply Hr|]. eapply tc_rtc_r; [by apply tc_once|by apply Hr'].
    + intros x [Hx|Hx]%elem_of_app; [|by apply list_elem_of_singleton in Hx as ->]. rewrite Hl'. apply elem_of_app. left. by apply H3.
Qed.

(** An error names a missing job or a job that needs itself. *)
Definition job_error (id : string) (e : error) : Prop :=
  exists y, rtc job_needs id y /\
    ((jobs !! y = None /\ e = ErrMsg ("job " +:+ y +:+ " not found")) \/ (tc job_needs y y /\ e = ErrMsg ("cycle detected at job " +:+ y))).

Lemma visit_err n id st e :
  visit jobs n id st = Err e -> dfs_ok st -> (forall t, t ∈ d_temp st -> tc job_needs t id) -> job_error id e.
Proof.
  revert id st. induction n as [|n IH]; intros id st E Hok Hpath; [done|]. simpl in E.
  case_decide as Hv; [done|]. case_decide as Ht. { injection E as <-. exists id. split; [done|]. right. split; [by apply Hpath|done]. }
  destruct (jobs !! id) as [job|] eqn:Ej. 2:{ injection E as <-. exists id. split; [done|]. by left. }
  apply obind_err in E as [E|(a & _ & E)]; [|done].
  apply (ofold_err _ (fun s => dfs_ok s /\ d_temp s = {[id]} ∪ d_temp st)) in E as (d & s1 & Hd & [H1 H2] & E).
  - rewrite sort_strings_elem in Hd. assert (job_needs id d) as Hn by (exists job; done).
    destruct (IH d s1 E H1) as (y & Hy & Hcase).
    + intros t. rewrite H2, elem_of_union, elem_of_singleton. intros [->|Ht']; [by apply tc_once|]. eapply tc_r; [by apply Hpath|done].
    + exists y. split; [by eapply rtc_l|done].
  - split; [|done]. destruct Hok as [H1 H2 H3 H4]. split; simpl; [done|done|done|]. intros x [Hx|Hx]%elem_of_union; [|by apply H4]. apply elem_of_singleton in Hx as ->. split; [eauto|done].
  - intros x s1 s2 _ [H1 H2] Ex. destruct (visit_ret _ _ _ _ Ex H1) as [H3 [H4 _ _]]. split; [done|congruence].
Qed.

(** Enough fuel: one more than the jobs that are not on the path. *)
Lemma visit_ends n id st : dfs_ok st -> (size (dom jobs ∖ d_temp st) < n)%nat -> (exists st', visit jobs n id st = Ret st') \/ exists e, visit jobs n id st = Err e.
Proof.
  revert id st. induction n as [|n IH]; intros id st Hok Hn; [lia|]. simpl. case_decide as Hv; [left; by eexists|]. case_decide as Ht; [right; by eexists|].
  destruct (jobs !! id) as [job|] eqn:Ej; [|right; by eexists]. set (st1 := mkDfs _ ({[id]} ∪ d_temp st) _).
  assert (dfs_ok st1) as Hok1.
  { destruct Hok as [H1 H2 H3 H4]. split; simpl; [done|done|done|]. intros x [Hx|Hx]%elem_of_union; [|by apply H4]. apply elem_of_singleton in Hx as ->. split; [eauto|done]. }
  assert (id ∈ dom jobs ∖ d_temp st) as Hid. { apply elem_of_difference. split; [by apply elem_of_dom_2 in Ej|done]. }
  assert (size (dom jobs ∖ d_temp st1) < n)%nat as Hsize.
  { apply Nat.lt_le_trans with (size (dom jobs ∖ d_temp st)); [|lia]. apply subset_size. simpl. split; [set_solver|]. intros H. specialize (H id Hid). set_solver. }
  destruct (ofold_ends (visit jobs n) (fun s => dfs_ok s /\ d_temp s = d_temp st1) (sort_strings (wj_Needs job)) st1) as [(st2 & -> & _)|[e ->]].
  - done.
  - intros x s _ [H1 H2]. destruct (IH x s H1) as [[s' E]|?]; [by rewrite H2| |by right]. left. exists s'. split; [done|].
    destruct (visit_ret _ _ _ _ E H1) as [H3 [H4 _ _]]. split; [done|congruence].
  - left. by eexists.
  - right. by eexists.
Qed.

(** ** The whole search *)

Lemma tc_first {A} (R : relation A) x y : tc R x y -> exists z, R x z /\ rtc R z y.
Proof. intros [??|? z ? H1 H2]; [eauto using rtc_refl|]. exists z. split; [done|by apply tc_rtc]. Qed.

(** A topological list is closed under needs and has no job on a cycle. *)
Lemma topological_closed out x y : topological out -> x ∈ out -> rtc job_needs x y -> y ∈ out.
Proof.
  intros Ht Hx H. induction H as [|x y z Hxy _ IH]; [done|]. apply IH. apply list_elem_of_split in Hx as (l1 & l2 & ->).
  destruct (Ht l1 x l2 eq_refl) as [_ H]. apply elem_of_app. left. by apply H.
Qed.

Lemma topological_acyclic out x : topological out -> x ∈ out -> ~ tc job_needs x x.
Proof.
  intros Ht Hx Hc. revert out Ht Hx. assert (forall k out y, length out = k -> topological out -> y ∈ out -> ~ tc job_needs y y) as H; [|intros; by eapply H].
  induction k as [k IH] using lt_wf_ind. intros out y Hk Ht Hy Hcyc. apply list_elem_of_split in Hy as (l1 & l2 & ->).
  assert (topological l1) as Ht1. { intros a z b ->. eapply (Ht a z (b ++ y :: l2)). by rewrite <- app_assoc. }
  apply tc_first in Hcyc as (z & Hyz & Hzy).
  assert (z ∈ l1) as Hz by (by apply (Ht l1 y l2 eq_refl)).
  assert (y ∈ l1) as Hy1 by (by eapply topological_closed).
  apply (IH (length l1)) with (out := l1) (y := y); [rewrite length_app in Hk; simpl in Hk; lia|done|done|done|]. by eapply tc_rtc_r; [apply tc_once|].
Qed.

Lemma empty_ok : dfs_ok (mkDfs ∅ ∅ []).
Proof.
  split; simpl.
  - intros x. rewrite elem_of_empty. split; [done|]. by intros ?%not_elem_of_nil.
  - constructor.
  - intros [|? l1] x l2 E; discriminate.
  - intros x Hx. by apply elem_of_empty in Hx.
Qed.

Definition reached (roots : list string) (x : string) : Prop := exists r, r ∈ roots /\ rtc job_needs r x.

Lemma search_ret n roots st :
  ofold (visit jobs n) roots (mkDfs ∅ ∅ []) = Ret st ->
  NoDup (d_out st) /\ topological (d_out st) /\ forall x, x ∈ d_out st <-> reached roots x.
Proof.
  intros E. apply (ofold_ret _ (fun rs s => dfs_ok s /\ (forall r, r ∈ rs -> r ∈ d_out s) /\ forall x, x ∈ d_out s -> reached roots x)) in E as (Hok & Hr & Hx).
  - destruct Hok. split; [done|]. split; [done|]. intros x. split; [apply Hx|]. intros (r & Hin & H). eapply topological_closed; [done| |done]. by apply Hr.
  - split; [apply empty_ok|]. split; intros x ?%not_elem_of_nil; done.
  - intros l1 r l2 s1 s2 El (H1 & H2 & H3) Er. destruct (visit_ret _ _ _ _ Er H1) as [H4 [_ (l & Hl & Hreach) Hself]]. split; [done|]. split.
    + intros x [Hx|Hx]%elem_of_app; [|by apply list_elem_of_singleton in Hx as ->]. rewrite Hl. apply elem_of_app. left. auto.
    + rewrite Hl. intros x [Hx|Hx]%elem_of_app; [auto|]. exists r. split; [rewrite El; set_solver|auto].
Qed.

Lemma search_err n roots e : ofold (visit jobs n) roots (mkDfs ∅ ∅ []) = Err e -> exists r, r ∈ roots /\ job_error r e.
Proof.
  intros E. apply (ofold_err _ (fun s => dfs_ok s /\ d_temp s = ∅)) in E as (r & s & Hr & [H1 H2] & E).
  - exists r. split; [done|]. eapply visit_err; [done|done|]. rewrite H2. by intros t ?%elem_of_empty.
  - split; [apply empty_ok|done].
  - intros x s1 s2 _ [H1 H2] Ex. destruct (visit_ret _ _ _ _ Ex H1) as [H3 [H4 _ _]]. split; [done|congruence].
Qed.

Lemma search_ends n roots : (size jobs < n)%nat ->
  (exists st, ofold (visit jobs n) roots (mkDfs ∅ ∅ []) = Ret st) \/ exists e, ofold (visit jobs n) roots (mkDfs ∅ ∅ []) = Err e.
Proof.
  intros Hn. destruct (ofold_ends (visit jobs n) (fun s => dfs_ok s /\ d_temp s = ∅) roots (mkDfs ∅ ∅ [])) as [(st & H & _)|H]; [split; [apply empty_ok|done]| |by left; exists st|by right].
  intros x s _ [H1 H2]. destruct (visit_ends n x s H1) as [[s' E]|?]; [|left|by right].
  - rewrite H2, difference_empty_L, size_dom. done.
  - exists s'. split; [done|]. destruct (visit_ret _ _ _ _ E H1) as [H3 [H4 _ _]]. split; [done|congruence].
Qed.

End search.

(** A job that stops the search: undefined, or needed by itself. *)
Definition bad_job (jobs : gmap string WorkflowJob) (y : string) : Prop := jobs !! y = None \/ tc (job_needs jobs) y y.

Definition bad_job_message (jobs : gmap string WorkflowJob) (y : string) : string :=
  match jobs !! y with Some _ => "cycle detected at job " +:+ y | None => "job " +:+ y +:+ " not found" end.

(** C21: The order of a workflow's jobs. The search always ends, and the number
    of jobs bounds its depth. It succeeds exactly when every job that the roots
    reach through [needs] is defined and none needs itself, however indirectly;
    then it lists these jobs, each once and after all it needs. Otherwise the
    error names a missing job or one on a cycle. *)
Theorem jobs_in_order (S : Sorter) (jobs : gmap string WorkflowJob) (roots : list string) :
  roots <> [] ->
  (exists out, topoSortJobs jobs roots = Ret out /\ NoDup out /\ topological jobs out /\
     (forall x, x ∈ out <-> reached jobs roots x) /\ forall y, reached jobs roots y -> ~ bad_job jobs y) \/
  (exists y, topoSortJobs jobs roots = Err (ErrMsg (bad_job_message jobs y)) /\ reached jobs roots y /\ bad_job jobs y).
Proof.
  intros Hne. unfold topoSortJobs. assert (match roots with [] => job_ids jobs | _ => roots end = roots) as -> by (by destruct roots).
  destruct (search_ends jobs (Datatypes.S (size jobs)) roots) as [[st E]|[e E]]; [lia| |]; rewrite E; simpl.
  - left. destruct (search_ret jobs _ _ _ E) as (H1 & H2 & H3). exists (d_out st). do 4 (split; [done|]). intros y Hy [Hb|Hb]; apply H3 in Hy.
    + pose proof Hy as (l1 & l2 & El)%list_elem_of_split. destruct (H2 _ _ _ El) as [[j Hj] _]. congruence.
    + by eapply topological_acyclic.
  - right. destruct (search_err jobs _ _ _ E) as (r & Hr & y & Hy & Hcase). exists y. assert (reached jobs roots y) by (by exists r).
    unfold bad_job_message, bad_job. destruct Hcase as [[Hj ->]|[Hc ->]]; [rewrite Hj; by auto|].
    pose proof Hc as (z & (j & Hj & _) & _)%tc_first. rewrite Hj. auto.
Qed.

(** ** Plans *)

(** The jobs of a file carry their keys as ids. *)
Definition keyed (jobs : gmap string WorkflowJob) : Prop := forall id job, jobs !! id = Some job -> wj_ID job = id.

Lemma load_keyed {Y : Yaml} {FS : WorkflowFS} {S : Sorter} path wf : loadWorkflow path = Ret wf -> keyed (wf_Jobs wf).
Proof.
  unfold loadWorkflow. intros (data & _ & E)%obind_ret. apply obind_ret in E as (raw & _ & E). apply obind_ret in E as (jobs & Ej & E).
  apply obind_ret in E as (on & _ & [= <-]). simpl. destruct (load_jobs (rw_Jobs raw)) as [jobs'| | |] eqn:El; try discriminate. injection Ej as ->.
  unfold load_jobs in El. apply (ofold_ret _ (fun _ m => keyed m)) in El; [done|done|].
  intros l1 [id j] l2 m1 m2 _ Hm (job & Ejob & [= <-])%obind_ret. unfold load_job in Ejob.
  apply obind_ret in Ejob as (needs & _ & Ejob). apply obind_ret in Ejob as (runs & _ & [= <-]).
  intros id' job'. destruct (decide (id = id')) as [<-|Hne]; [rewrite lookup_insert_eq|rewrite lookup_insert_ne by done; apply Hm]. by intros [= <-].
Qed.

Lemma omapM_ret {A B} (f : nat -> A -> outcome B) l : forall i ys, omapM f i l = Ret ys -> Forall2 (fun x y => exists j, f j x = Ret y) l ys.
Proof.
  induction l as [|x l IH]; intros i ys E; simpl in E; [injection E as <-; constructor|].
  apply obind_ret in E as (y & Ey & E). apply obind_ret in E as (ys' & Eys & [= <-]). constructor; [eauto|by eapply IH].
Qed.

Lemma compile_job_ret {S : Sorter} {U : Unicode} jobs id j :
  keyed jobs -> is_Some (jobs !! id) -> compile_job jobs id = Ret j -> cj_ID j = id /\ exists job, jobs !! id = Some job /\ cj_Needs j = wj_Needs job.
Proof.
  intros Hk [job Hj]. unfold compile_job. rewrite Hj. simpl. intros (steps & _ & [= <-])%obind_ret. simpl. split; [by apply Hk|eauto].
Qed.

Lemma order_of_plan {S : Sorter} wf sel out : resolveJobOrder wf sel = Ret out ->
  NoDup out /\ topological (wf_Jobs wf) out /\ forall x, x ∈ out <-> reached (wf_Jobs wf) (if String.eqb (TrimSpace sel) "" then job_ids (wf_Jobs wf) else [sel]) x.
Proof.
  unfold resolveJobOrder. destruct (String.eqb (TrimSpace sel) ""); simpl.
  - unfold topoSortJobs. intros (st & E & [= <-])%obind_ret.
    assert (match job_ids (wf_Jobs wf) with [] => job_ids (wf_Jobs wf) | _ :: _ => job_ids (wf_Jobs wf) end = job_ids (wf_Jobs wf)) as Er by (by destruct (job_ids _)).
    rewrite Er in E. by apply search_ret in E.
  - destruct (wf_Jobs wf !! sel); [|done]. unfold topoSortJobs. intros (st & E & [= <-])%obind_ret. by apply search_ret in E.
Qed.

Lemma compile_rows {S : Sorter} {U : Unicode} jobs ids i rows : keyed jobs -> Forall (fun id => is_Some (jobs !! id)) ids ->
  omapM (fun _ id => compile_job jobs id) i ids = Ret rows ->
  cj_ID <$> rows = ids /\ Forall (fun j => exists job, jobs !! cj_ID j = Some job /\ cj_Needs j = wj_Needs job) rows.
Proof.
  intros Hk Hids E%omapM_ret. induction E as [|id j ids rows [n Hj] _ IH]; [split; constructor|]. inversion Hids as [|? ? Hid Hids']; subst.
  destruct (IH Hids') as [IH1 IH2]. destruct (compile_job_ret _ _ _ Hk Hid Hj) as (H1 & job & H2 & H3). split; [by rewrite fmap_cons, H1, IH1|].
  constructor; [|done]. exists job. by rewrite H1.
Qed.

(** The jobs of a plan have distinct ids and come after those they need. *)
Lemma compile_ordered {S : Sorter} {U : Unicode} req plan : keyed (wf_Jobs (cr_Workflow req)) -> Compile req = Ret plan ->
  NoDup (cj_ID <$> ep_Jobs plan) /\ forall l1 j l2, ep_Jobs plan = l1 ++ j :: l2 -> forall d, d ∈ cj_Needs j -> d ∈ cj_ID <$> l1.
Proof.
  intros Hk. unfold Compile. cbv zeta. set (event := if String.eqb (TrimSpace (cr_Event req)) "" then _ else _). destruct (String.eqb event ""); [done|].
  destruct (missing_input _ _); [done|]. intros (order & Eo & E)%obind_ret. apply obind_ret in E as (rows & Er & [= <-]).
  simpl. apply order_of_plan in Eo as (Hnd & Htop & _).
  assert (Forall (fun id => is_Some (wf_Jobs (cr_Workflow req) !! id)) order) as Hall.
  { apply Forall_forall. intros id (l1 & l2 & El)%list_elem_of_split. by destruct (Htop _ _ _ El). }
  destruct (compile_rows _ _ _ _ Hk Hall Er) as [Hids Hrows]. split; [by rewrite Hids|]. intros l1 j l2 El d Hd.
  rewrite El, Forall_app, Forall_cons in Hrows. destruct Hrows as (_ & (job & Hj & Hn) & _).
  assert (order = (cj_ID <$> l1) ++ cj_ID j :: (cj_ID <$> l2)) as Eorder by (by rewrite <- Hids, El, fmap_app).
  destruct (Htop _ _ _ Eorder) as [_ Hneeds]. apply Hneeds. exists job. split; [done|]. by rewrite <- Hn.
Qed.

(** ** Examples *)

(** Two jobs of which the second needs the first, and a cycle. *)
Definition sample_job (id : string) (needs : list string) : WorkflowJob :=
  mkWorkflowJob id id needs "" [] ∅ (mkRunDefaults "" "") ∅ [mkStep "" "hello" "" "" "echo hello" "" ∅ ∅].
Definition sample_jobs : gmap string WorkflowJob := <["build" := sample_job "build" []]> {[ "test" := sample_job "test" ["build"] ]}.
Definition cyclic_jobs : gmap string WorkflowJob := <["build" := sample_job "build" ["test"]]> {[ "test" := sample_job "test" ["build"] ]}.

Lemma jobs_in_order_witness :
  topoSortJobs sample_jobs ["test"] = Ret ["build"; "test"] /\
  exists y, topoSortJobs cyclic_jobs ["test"] = Err (ErrMsg (bad_job_message cyclic_jobs y)) /\ bad_job cyclic_jobs y.
Proof.
  split; [vm_compute; reflexivity|].
  destruct (jobs_in_order insertion_sorter cyclic_jobs ["test"]) as [(out & E & _)|(y & H1 & _ & H2)]; [discriminate| |].
  - exfalso. vm_compute in E. discriminate.
  - exists y. split; [exact H1|exact H2].
Defined.

(** ** The root of a repository *)

Lemma upto_last_slash_app l s : slash ∉ s -> upto_last_slash (l ++ slash :: s) = l ++ [slash].
Proof.
  intros Hs. assert (upto_last_slash s = []) as E. { induction s as [|b s IH]; [done|]. simpl. rewrite IH by set_solver. destruct (N.eqb_spec b slash); [set_solver|done]. }
  induction l as [|b l IH]; simpl; [by rewrite E|]. rewrite IH. by destruct l.
Qed.

Lemma join_snoc ss s : ss <> [] -> join_byte slash (ss ++ [s]) = join_byte slash ss ++ slash :: s.
Proof.
  induction ss as [|x ss IH]; [done|]. intros _. destruct ss as [|y ss]; [done|].
  change (join_byte slash ((x :: y :: ss) ++ [s])) with (x ++ slash :: join_byte slash ((y :: ss) ++ [s])). rewrite IH by done.
  change (join_byte slash (x :: y :: ss)) with (x ++ slash :: join_byte slash (y :: ss)). by rewrite <- app_assoc.
Qed.

Lemma Dir_rooted ss s : Forall plain_segment (ss ++ [s]) -> Forall (Forall is_byte) (ss ++ [s]) -> filepath_Dir (rooted_path (ss ++ [s])) = rooted_path ss.
Proof.
  intros Hp Hb. unfold filepath_Dir. rewrite bytes_of_rooted by done. apply Forall_app in Hp as [Hp Hs]. apply Forall_app in Hb as [Hb _].
  inversion Hs as [|? ? [_ _ _ Hslash] _]; subst. destruct ss as [|x ss].
  - change (slash :: join_byte slash ([] ++ [s])) with ([] ++ slash :: s). rewrite upto_last_slash_app by done. reflexivity.
  - rewrite join_snoc by done. change (slash :: (join_byte slash (x :: ss) ++ slash :: s)) with ((slash :: join_byte slash (x :: ss)) ++ slash :: s).
    rewrite upto_last_slash_app by done. unfold path_Clean. rewrite bytes_of_of_bytes.
    + change ((slash :: join_byte slash (x :: ss)) ++ [slash]) with (slash :: (join_byte slash (x :: ss) ++ [slash])) at 1. cbv iota beta. rewrite N.eqb_refl. cbv zeta iota.
      unfold rooted_path, clean_segments. rewrite split_rooted by done. simpl. unfold clean_step. simpl. by rewrite reverse_involutive.
    + apply Forall_app. split; [|by repeat constructor]. constructor; [done|by apply join_is_byte].
Qed.

Lemma segments_length ss : Forall plain_segment ss -> (length ss <= length (slash :: join_byte slash ss))%nat.
Proof.
  induction 1 as [|s ss [Hs _ _ _] _ IH]; simpl; [lia|]. destruct ss as [|y ss]; [simpl; lia|].
  change (join_byte slash (s :: y :: ss)) with (s ++ slash :: join_byte slash (y :: ss)). rewrite length_app. destruct s; [done|]. simpl in *. lia.
Qed.

(** The nearest directory with workflows, upwards from a clean path. *)
Lemma FindRepoRoot_upwards {FS : WorkflowFS} abs n ss : Forall plain_segment ss -> Forall (Forall is_byte) ss -> (length ss < n)%nat ->
  (exists l r, ss = l ++ r /\ FindRepoRoot_loop n abs (rooted_path ss) = Ret (rooted_path l) /\ fs_IsDir (path_Join [rooted_path l; ".github"; "workflows"]) = inr true) \/
  FindRepoRoot_loop n abs (rooted_path ss) = Err (ErrMsg ("no .github/workflows found from " +:+ abs +:+ " upward")).
Proof.
  revert ss. induction n as [|n IH]; intros ss Hp Hb Hn; [lia|]. cbn [FindRepoRoot_loop].
  destruct (fs_IsDir (path_Join [rooted_path ss; ".github"; "workflows"])) as [e|[]] eqn:E.
  2:{ left. exists ss, []. by rewrite app_nil_r. }
  all: destruct ss as [|s ss] using rev_ind; [right; reflexivity|]; rewrite Dir_rooted by done;
    (destruct (String.eqb_spec (rooted_path ss) (rooted_path (ss ++ [s]))) as [_|_]; [by right|]);
    rewrite length_app in Hn; simpl in Hn; apply Forall_app in Hp as [Hp _]; apply Forall_app in Hb as [Hb _];
    (destruct (IH ss Hp Hb) as [(l & r & -> & H1 & H2)|H]; [lia| |by right]);
    left; exists l, (r ++ [s]); rewrite app_assoc; done.
Qed.

(** The search for the repository's root ends: the length of the path is fuel
    enough, for every clean path that the file system calls absolute. *)
Lemma FindRepoRoot_ends {FS : WorkflowFS} start :
  (forall s p, fs_Abs s = inr p -> exists ss, p = rooted_path ss /\ Forall plain_segment ss /\ Forall (Forall is_byte) ss) -> FindRepoRoot start <> Diverge.
Proof.
  intros Habs. unfold FindRepoRoot. cbv zeta. destruct (fs_Abs _) as [e|p] eqn:E; [done|]. cbn [of_either owrap obind].
  destruct (Habs _ _ E) as (ss & -> & Hp & Hb). destruct (fs_IsDir (rooted_path ss)) as [e|isDir]; [done|]. cbn [of_either obind].
  assert (exists ss', (if isDir : bool then rooted_path ss else filepath_Dir (rooted_path ss)) = rooted_path ss' /\ Forall plain_segment ss' /\ Forall (Forall is_byte) ss') as (ss' & -> & Hp' & Hb').
  { destruct isDir; [by exists ss|]. destruct ss as [|s ss] using rev_ind; [by exists []|]. exists ss. rewrite Dir_rooted by done. apply Forall_app in Hp as [Hp _], Hb as [Hb _]. done. }
  destruct (FindRepoRoot_upwards (rooted_path ss') (Datatypes.S (Datatypes.S (String.length (rooted_path ss')))) ss' Hp' Hb') as [(l & r & _ & -> & _)| ->]; [|done..].
  pose proof (segments_length ss' Hp') as H. rewrite <- bytes_of_rooted in H by done. unfold bytes_of, str_bytes in H. rewrite length_fmap in H.
  assert (forall x, length (String.list_ascii_of_string x) = String.length x) as Hlen by (induction x; simpl; congruence). rewrite Hlen in H. lia.
Qed.
