(* ===== verification/CiRunner.v ===== *)
(** * CI workflows: expressions and runs

    internal/ci/runner.go and internal/ci/adapters.go: the expressions of a
    workflow, the environment of its steps and the run of a plan on the host.
    The host's processes and files are calls of a [RunnerHost], which may do
    anything; copies of trees are among them. *)

From S2P Require Import Prelude NetAddr Text Models Runtime Effects Queries Codecs Secrets Paths Json GithubActions EventQueries CiJobs WorkerDns CiWorkflow.

(** ** Strings *)

(** [s] around the first occurrence of [sub], which is not empty. *)
Fixpoint cut_at (sub s : string) : option (string * string) :=
  if HasPrefix s sub then Some ("", str_drop (String.length sub) s)
  else match s with
       | EmptyString => None
       | String c s' => (fun p => (String c p.1, p.2)) <$> cut_at sub s'
       end.

(** [strings.Trim] with a cutset of single bytes. *)
Fixpoint trim_set (set : list N) (l : list N) : list N :=
  match l with b :: l' => if bool_decide (b ∈ set) then trim_set set l' else l | [] => [] end.
Definition strings_Trim (s : string) (set : list N) : string :=
  of_bytes (reverse (trim_set set (reverse (trim_set set (bytes_of s))))).

(** [strings.ReplaceAll] of a byte. *)
Definition replace_byte (old new : N) (s : string) : string := of_bytes ((fun b => if (b =? old)%N then new else b) <$> bytes_of s).

(** [key, value] around the first byte [c] of [s]. *)
Definition cut_string (c : N) (s : string) : option (string * string) :=
  match cut_byte c (str_bytes s) with (k, Some v) => Some (str_of_bytes k, str_of_bytes v) | (_, None) => None end.

(** The lines of [bufio.Scanner] up to one that is too long, and whether it met one. *)
Definition maxTokenSize : nat := Z.to_nat 65536.
Definition drop_end_cr (l : list N) : list N := match reverse l with 13%N :: r => reverse r | _ => l end.
Fixpoint short_lines (ls : list (list N)) : list string * bool :=
  match ls with
  | [] => ([], false)
  | x :: ls' =>
      if (maxTokenSize <=? length x)%nat then ([], true)
      else let '(out, long) := short_lines ls' in (of_bytes (drop_end_cr x) :: out, long)
  end.
Definition scan_lines (s : string) : list string * bool :=
  let ls := split_byte 10 (bytes_of s) in
  short_lines (match last ls with Some [] => take (length ls - 1) ls | _ => ls end).

(** ** State of an evaluation *)

Record stepState := mkStepState { st_Outputs : strmap }.
Record jobState := mkJobState { js_Result : string; js_Outputs : strmap }.

(** What [hashFiles] finds: the matches of a pattern, each with its content, or
    nothing for a directory or a file that is gone. *)
Definition glob_view : Type := string -> error + list (string * option (error + string)).

Record evalContext := mkEval {
  ev_repoRoot : string;
  ev_plan : ExecutionPlan;
  ev_steps : gmap string stepState;
  ev_needs : gmap string jobState;
  ev_getenv : string -> string;
  ev_glob : glob_view
}.

(** ** Expressions *)

Definition sq : N := 39.
Definition dq : N := 34.

Definition quoted_by (q : N) (s : string) : bool :=
  match bytes_of s, last (bytes_of s) with b :: _, Some e => (b =? q)%N && (e =? q)%N | _, _ => false end.

Definition lookupValue (path : string) (ev : evalContext) : string :=
  if String.eqb path "github.workspace" then ev.(ev_repoRoot)
  else if String.eqb path "github.workflow" then ev.(ev_plan).(ep_WorkflowName)
  else if String.eqb path "github.event_name" then ev.(ev_plan).(ep_Event)
  else if HasPrefix path "github.event.inputs." then get ev.(ev_plan).(ep_Inputs) (TrimPrefix path "github.event.inputs.")
  else if HasPrefix path "steps." then
    match Split_dot path with
    | [_; id; what; key] => if String.eqb what "outputs" then get (default (mkStepState ∅) (ev.(ev_steps) !! id)).(st_Outputs) key else ""
    | _ => ""
    end
  else if HasPrefix path "needs." then
    match Split_dot path with
    | _ :: id :: what :: rest =>
        let job := default (mkJobState "" ∅) (ev.(ev_needs) !! id) in
        if String.eqb what "result" then job.(js_Result)
        else if String.eqb what "outputs" then match rest with [key] => get job.(js_Outputs) key | _ => "" end
        else ""
    | _ => ""
    end
  else if HasPrefix path "secrets." then ev.(ev_getenv) (TrimPrefix path "secrets.")
  else if HasPrefix path "vars." then ev.(ev_getenv) (TrimPrefix path "vars.")
  else "".

(** The bytes hashed: of every file its name and its content. *)
Definition hash_input (matches : list (string * option (error + string))) : outcome (list N) :=
  ofold (fun '(name, data) acc =>
    match data with
    | None => Ret acc
    | Some (inl e) => Err e
    | Some (inr content) => Ret (acc ++ bytes_of name ++ bytes_of content)
    end) matches [].

(** The text between the first opening and the last closing parenthesis. *)
Definition call_argument (expr : string) : option string :=
  match cut_byte 40 (str_bytes expr) with
  | (_, Some rest) => (fun p => str_of_bytes p.1) <$> cut_last 41 rest
  | _ => None
  end.

Definition evalHashFiles (expr : string) (ev : evalContext) : outcome string :=
  match call_argument expr with
  | None => Err (ErrMsg ("invalid hashFiles expression " +:+ go_quote expr))
  | Some arg =>
      let arg := strings_Trim (TrimSpace arg) [sq; dq] in
      let* matches := of_either (ev.(ev_glob) (path_Join [ev.(ev_repoRoot); arg])) in
      let* bytes := hash_input matches in
      Ret (of_bytes (hex_Encode (sha256 bytes)))
  end.

Definition evalScalar (expr : string) (ev : evalContext) : outcome string :=
  let expr := TrimSpace expr in
  if String.eqb expr "" then Ret ""
  else if quoted_by sq expr then Ret (strings_Trim expr [sq])
  else if quoted_by dq expr then Ret (strings_Trim expr [dq])
  else if HasPrefix expr "hashFiles(" then evalHashFiles expr ev
  else Ret (lookupValue expr ev).

(** *** Interpolation *)

(** The loop scans its own result again, so nothing in the code bounds it. *)
Fixpoint interpolateString (fuel : nat) (input : string) (eval : string -> outcome string) (out : string) : outcome string :=
  match fuel with
  | O => Diverge
  | Datatypes.S n =>
      match cut_at "${{" out with
      | None => Ret out
      | Some (before, rest) =>
          match cut_at "}}" rest with
          | None => Err (ErrMsg ("unterminated expression in " +:+ go_quote input))
          | Some (expr, after) =>
              let* value := eval (TrimSpace expr) in
              interpolateString n input eval (before +:+ value +:+ after)
          end
      end
  end.

Definition interpolateValue (fuel : nat) (value : string) (ev : evalContext) : outcome string :=
  interpolateString fuel value (fun expr => evalScalar (TrimSpace expr) ev) value.

(** *** Conditions *)

Inductive token_kind := TSym | TOp | TString | TIdent.
Record token := mkToken { tk_kind : token_kind; tk_text : string }.

(** The bytes that end an identifier: white space, parentheses and operators. *)
Definition ends_ident (c : Ascii.ascii) : bool := bool_decide (Ascii.N_of_ascii c ∈ [32; 9; 13; 10; 40; 41; 38; 124; 61; 33]%N).

Fixpoint span_bytes (p : Ascii.ascii -> bool) (s : string) : string * string :=
  match s with
  | String c s' => if p c then (EmptyString, s) else let '(a, b) := span_bytes p s' in (String c a, b)
  | EmptyString => (EmptyString, EmptyString)
  end.

Definition is_op (op : string) : bool := in_list ["&&"; "||"; "=="; "!="] op.

(** A round reads at least a byte. *)
Fixpoint tokenize_fuel (fuel : nat) (expr s : string) : outcome (list token) :=
  match fuel, s with
  | O, _ | _, EmptyString => Ret []
  | Datatypes.S n, String c s' =>
      let b := Ascii.N_of_ascii c in
      if bool_decide (b ∈ [32; 9; 10; 13]%N) then tokenize_fuel n expr s'
      else if bool_decide (b ∈ [40; 41]%N) then
        let* ts := tokenize_fuel n expr s' in Ret (mkToken TSym (String c "") :: ts)
      else if bool_decide (b ∈ [38; 124; 61; 33]%N) then
        match s' with
        | String d s'' =>
            if is_op (String c (String d "")) then
              let* ts := tokenize_fuel n expr s'' in Ret (mkToken TOp (String c (String d "")) :: ts)
            else Err (ErrMsg ("unsupported operator near " +:+ go_quote s))
        | EmptyString => Err (ErrMsg ("unsupported operator near " +:+ go_quote s))
        end
      else if bool_decide (b ∈ [sq; dq]) then
        match span_bytes (Ascii.eqb c) s' with
        | (text, String _ rest) => let* ts := tokenize_fuel n expr rest in Ret (mkToken TString text :: ts)
        | (_, EmptyString) => Err (ErrMsg ("unterminated string in " +:+ go_quote expr))
        end
      else
        let '(text, rest) := span_bytes ends_ident s in
        let* ts := tokenize_fuel n expr rest in Ret (mkToken TIdent (TrimSpace text) :: ts)
  end.

Definition tokenize (expr : string) : outcome (list token) := tokenize_fuel (String.length expr) expr expr.

Section conditions.
Context {U : Unicode} (ev : evalContext).

Definition truthy (value : string) : bool :=
  let v := TrimSpace (ToLower value) in
  negb (String.eqb v "") && negb (String.eqb v "false") && negb (String.eqb v "0") && negb (String.eqb v "null").

(** [p.match(text)] on the tokens that are left; it does not look at the kind. *)
Definition match_text (text : string) (ts : list token) : option (list token) :=
  match ts with t :: ts' => if String.eqb t.(tk_text) text then Some ts' else None | [] => None end.

Definition parseValue (ts : list token) : outcome (string * list token) :=
  match ts with
  | [] => Err (ErrMsg "unexpected end of expression")
  | t :: ts' =>
      match t.(tk_kind) with
      | TString => Ret (t.(tk_text), ts')
      | TIdent => let* v := evalScalar t.(tk_text) ev in Ret (v, ts')
      | _ => Err (ErrMsg ("unexpected token " +:+ go_quote t.(tk_text)))
      end
  end.

(** What follows the left operand. *)
Definition parse_comparison (left : string) (ts : list token) : outcome (bool * list token) :=
  match match_text "==" ts with
  | Some ts => let* r := parseValue ts in Ret (String.eqb left r.1, r.2)
  | None =>
      match match_text "!=" ts with
      | Some ts => let* r := parseValue ts in Ret (negb (String.eqb left r.1), r.2)
      | None => Ret (truthy left, ts)
      end
  end.

(** The functions of the parser and their loops: [OrRest] and [AndRest] are the
    loops of [parseOr] and [parseAnd] with the value so far. *)
Inductive rule := parseOr | parseAnd | parsePrimary | OrRest (value : bool) | AndRest (value : bool).

Fixpoint boolParser (fuel : nat) (r : rule) (ts : list token) : outcome (bool * list token) :=
  match fuel with
  | O => Diverge
  | Datatypes.S n =>
      match r with
      | parseOr => let* l := boolParser n parseAnd ts in boolParser n (OrRest l.1) l.2
      | OrRest value =>
          match match_text "||" ts with
          | Some ts' => let* right := boolParser n parseAnd ts' in boolParser n (OrRest (value || right.1)) right.2
          | None => Ret (value, ts)
          end
      | parseAnd => let* l := boolParser n parsePrimary ts in boolParser n (AndRest l.1) l.2
      | AndRest value =>
          match match_text "&&" ts with
          | Some ts' => let* right := boolParser n parsePrimary ts' in boolParser n (AndRest (value && right.1)) right.2
          | None => Ret (value, ts)
          end
      | parsePrimary =>
          match match_text "(" ts with
          | Some ts' =>
              let* v := boolParser n parseOr ts' in
              match match_text ")" v.2 with Some ts'' => Ret (v.1, ts'') | None => Err (ErrMsg "missing )") end
          | None =>
              match match_text "always" ts with
              | Some ts' =>
                  match match_text "(" ts' with
                  | Some ts'' => match match_text ")" ts'' with Some ts3 => Ret (true, ts3) | None => Err (ErrMsg "always() missing )") end
                  | None => Ret (true, ts')
                  end
              | None => let* l := parseValue ts in parse_comparison l.1 l.2
              end
          end
      end
  end.

(** Four calls for each token, as many nested ones at the end, are enough. *)
Definition parser_fuel (ts : list token) : nat := (4 * length ts + 4)%nat.

Definition evalBool (expr : string) : outcome bool :=
  let* tokens := tokenize expr in
  let* v := boolParser (parser_fuel tokens) parseOr tokens in
  match v.2 with
  | [] => Ret v.1
  | t :: _ => Err (ErrMsg ("unexpected token " +:+ go_quote t.(tk_text)))
  end.

Definition shouldSkipExpr (expr : string) : outcome bool :=
  let expr := TrimSpace expr in
  if String.eqb expr "" then Ret false else let* ok := evalBool expr in Ret (negb ok).

End conditions.

(** ** The environment of a step *)

(** A map that may be nil: writing to a nil map panics. *)
Definition gomap : Type := option strmap.
Definition contents (m : gomap) : strmap := default ∅ m.

Definition cloneMap (m : strmap) : gomap := if decide (m = ∅) then None else Some m.

Definition mergeEnv (dst : gomap) (src : strmap) : outcome gomap :=
  match dst with
  | Some m => Ret (Some (src ∪ m))
  | None => if decide (src = ∅) then Ret None else Panic
  end.

Definition hostEnvAllowlist : list string := ["PATH"; "HOME"; "LANG"; "USER"; "SHELL"; "TERM"; "TMPDIR"].

(** One pair of the host: [i <= 0] also skips an empty key. *)
Definition host_pair (out : strmap) (kv : string) : strmap :=
  match cut_string 61 kv with
  | Some (key, value) => if negb (String.eqb key "") && in_list hostEnvAllowlist key then <[key := value]> out else out
  | None => out
  end.

Definition buildBaseEnvFrom (hostPairs : list string) (overrides : strmap) : strmap := overrides ∪ foldl host_pair ∅ hostPairs.

Section environments.
Context {S : Sorter} (fuel : nat).

(** One variable; after an error the rest stays as it is. *)
Definition interpolate_var (ev : evalContext) (kv : string * string) (acc : strmap * option error) : outcome (strmap * option error) :=
  match acc.2 with
  | Some _ => Ret acc
  | None =>
      match interpolateValue fuel kv.2 ev with
      | Ret v => Ret (<[kv.1 := v]> acc.1, None)
      | Err e => Ret (acc.1, Some e)
      | Panic => Panic
      | Diverge => Diverge
      end
  end.

(** The environment as it is left, and the error. *)
Definition interpolateEnv (env : gomap) (ev : evalContext) : outcome (gomap * option error) :=
  match env with
  | None => Ret (None, None)
  | Some m => let* r := ofold (interpolate_var ev) (any_order (map_to_list m)) (m, None) in Ret (Some r.1, r.2)
  end.

Definition buildProcessEnv (base extra sshEnv : strmap) (ev : evalContext) : outcome gomap :=
  let* out := mergeEnv (cloneMap base) sshEnv in
  let* out := mergeEnv out extra in
  let* r := interpolateEnv out ev in
  Ret r.1.

(** The environment of a step: a copy of the job's with its own over it. *)
Definition step_env (jobEnv : gomap) (stepEnv : strmap) (ev : evalContext) : outcome (gomap * option error) :=
  let* env := mergeEnv (cloneMap (contents jobEnv)) stepEnv in
  interpolateEnv env ev.

Definition mapToEnv (env : strmap) : list string :=
  (fun key => key +:+ "=" +:+ get env key) <$> sort_strings (any_order (map_to_list env).*1).

Definition evaluateJobOutputs (outputs : strmap) (ev : evalContext) : outcome strmap :=
  ofold (fun '(key, expr) out => let* v := interpolateValue fuel expr ev in Ret (<[key := v]> out)) (any_order (map_to_list outputs)) ∅.

End environments.

(** ** Output files, names and filters *)

Definition output_line (out : strmap) (line : string) : strmap :=
  match cut_string 61 line with
  | Some (key, value) => if String.eqb key "" then out else <[key := value]> out
  | None => out
  end.

Definition too_long : error := ErrExternal "bufio.Scanner: token too long".

(** [file] is the content, or the error of opening it. *)
Definition parseOutputFile (file : error + string) : outcome strmap :=
  let* content := of_either file in
  let '(lines, long) := scan_lines content in
  if long : bool then Err too_long else Ret (foldl output_line ∅ lines).

Definition sanitizeName (name : string) : string :=
  let name := replace_byte 32 95 (replace_byte 47 95 (TrimSpace name)) in
  if String.eqb name "" then "artifact" else name.

(** The changed files of [git status --porcelain]. *)
Definition changed_file (line : string) : list string :=
  if (String.length line <? 4)%nat then []
  else let path := TrimSpace (str_drop 3 line) in if String.eqb path "" then [] else [path].

Definition gitChangedFiles (status : error + string) : outcome (list string) :=
  let* out := owrap "git status" (of_either status) in
  let '(lines, long) := scan_lines out in
  if long : bool then Err too_long else Ret (lines ≫= changed_file).

(** *** [filepath.Match] *)

(** A character of a bracket expression, and what follows it. *)
Definition class_rune (l : list N) : option (N * list N) :=
  match l with
  | 45%N :: _ | 93%N :: _ | [] => None
  | 92%N :: l' => match decode_rune l' with Some (r, n) => Some (r, drop n l') | None => None end
  | _ => match decode_rune l with Some (r, n) => Some (r, drop n l) | None => None end
  end.

(** The ranges of a bracket expression up to its end; at least one. *)
Fixpoint class_ranges (fuel : nat) (r : N) (l : list N) (found nonempty : bool) : option (bool * list N) :=
  match fuel with
  | O => None
  | Datatypes.S n =>
      match l with
      | 93%N :: l' => if nonempty then Some (found, l') else None
      | _ =>
          match class_rune l with
          | None => None
          | Some (lo, 45%N :: l') =>
              match class_rune l' with
              | Some (hi, l'') => class_ranges n r l'' (found || ((lo <=? r) && (r <=? hi))%N) true
              | None => None
              end
          | Some (lo, l') => class_ranges n r l' (found || (lo =? r)%N) true
          end
      end
  end.

(** [utf8.DecodeRuneInString]: an invalid encoding is one byte wide. *)
Definition rune_at (l : list N) : N * nat := default (65533%N, 1%nat) (decode_rune l).

(** Whether the pattern is well formed and matches all of the name; a star or a
    question mark does not match a slash. *)
Fixpoint glob_match (fuel : nat) (pat name : list N) : bool :=
  match fuel with
  | O => false
  | Datatypes.S n =>
      match pat with
      | [] => match name with [] => true | _ => false end
      | 42%N :: pat' =>
          glob_match n pat' name || match name with c :: name' => negb (c =? slash)%N && glob_match n pat name' | [] => false end
      | 63%N :: pat' =>
          match name with
          | c :: _ => if (c =? slash)%N then false else glob_match n pat' (drop (rune_at name).2 name)
          | [] => false
          end
      | 91%N :: pat' =>
          match name with
          | [] => false
          | _ =>
              let '(r, k) := rune_at name in
              let '(negated, pat') := match pat' with 94%N :: p => (true, p) | _ => (false, pat') end in
              match class_ranges (Datatypes.S (length pat')) r pat' false false with
              | Some (found, rest) => negb (Bool.eqb found negated) && glob_match n rest (drop k name)
              | None => false
              end
          end
      | 92%N :: pat' =>
          match pat', name with
          | p :: pat'', c :: name' => (p =? c)%N && glob_match n pat'' name'
          | _, _ => false
          end
      | p :: pat' => match name with c :: name' => (p =? c)%N && glob_match n pat' name' | [] => false end
      end
  end.

Definition filepath_Match (pattern name : string) : bool :=
  glob_match (Datatypes.S (String.length pattern + String.length name)) (bytes_of pattern) (bytes_of name).

Definition path_selected (pattern file : string) : bool :=
  filepath_Match pattern file ||
  (HasSuffix pattern "/**" &&
   let prefix := TrimPrefix (TrimSuffix pattern "/**") "./" in
   HasPrefix file (prefix +:+ "/") || String.eqb file prefix).

Definition filter_output (changedFiles patterns : list string) : string :=
  if existsb (fun file => existsb (fun pattern => path_selected pattern file) patterns) changedFiles then "true" else "false".

Definition evaluatePathsFilter {Y : Yaml} (filtersYAML : string) (changedFiles : list string) : outcome strmap :=
  let* parsed := owrap "parse paths-filter config" (of_either (unmarshal_filters filtersYAML)) in
  Ret (filter_output changedFiles <$> parsed).

(** The variables of the agent's output; the scanner's error is not looked at. *)
Definition agent_line (env : strmap) (line : string) : strmap :=
  foldl (fun env key =>
    if HasPrefix line (key +:+ "=") then <[key := before_byte 59 (TrimPrefix line (key +:+ "="))]> env else env)
    env ["SSH_AUTH_SOCK"; "SSH_AGENT_PID"].
Definition parseSSHAgentOutput (out : string) : strmap := foldl agent_line ∅ (scan_lines out).1.

(** ** The host *)

Inductive stat_result := StatOK | StatNotExist | StatError (e : error).

(** os, os/exec and the copies of trees, which may do anything; a command
    answers with the bytes it wrote and its error. *)
Class RunnerHost := {
  rh_environ : list string;
  rh_getenv : string -> string;
  rh_glob : M glob_view;
  rh_MkdirTemp : M (error + string);
  rh_UserHomeDir : error + string;
  rh_MkdirAll : string -> M (option error);
  rh_LookPath : string -> M bool;
  rh_Stat : string -> M stat_result;
  rh_RemoveAll : string -> M unit;
  rh_copyPath : string -> string -> M (option error);
  rh_copyArtifactContents : string -> string -> M (option error);
  rh_git_status : string -> M (error + string);
  rh_CreateTemp : M (error + string);
  rh_bash : string -> list string -> string -> M (list N * option error);
  rh_output_file : string -> M (error + string);
  rh_ssh_agent : list string -> M (error + string);
  rh_ssh_add : list string -> string -> M (list N * option error);
  rh_ssh_kill : list string -> M unit
}.

(** ** Runs *)

Record JobRunResult := mkJobRunResult { jr_ID : string; jr_Name : string; jr_Result : string; jr_Outputs : strmap }.

Record RunResult := mkRunResult {
  rr_Jobs : list JobRunResult;
  rr_Artifacts : list ArtifactInfo;
  rr_ArtifactRoot : string;
  rr_Backend : string
}.

(** The variables of a run: the writer, the results, the environment of the
    ssh agent, the artifacts and the cache, and the deferred calls. *)
Record runState := mkRunState {
  rs_writer : lineLogWriter;
  rs_needs : gmap string jobState;
  rs_results : list JobRunResult;
  rs_sshEnv : strmap;
  rs_info : strmap;
  rs_entries : list (string * string);
  rs_deferred : list (list string);
  rs_sshCleanup : option (list string)
}.

(** How a run ends early: with an error, with or without the results so far, or
    by a panic. *)
Inductive ending := EndErr (with_result : bool) (e : error) | EndPanic | EndDiverge.

Definition R (A : Type) : Type := runState -> M (runState * (ending + A)).

Definition rret {A} (a : A) : R A := fun st => ret (st, inr a).
Definition rend {A} (e : ending) : R A := fun st => ret (st, inl e).
Definition rbind {A B} (m : R A) (k : A -> R B) : R B := fun st =>
  let! r := m st in match r.2 with inl e => ret (r.1, inl e) | inr a => k a r.1 end.
Notation "'let+' x ':=' m 'in' k" := (rbind m (fun x => k))
  (at level 10, x name, m at level 100, k at level 200) : kindling_scope.
Notation "'do+' m ';' k" := (rbind m (fun _ => k))
  (at level 10, m at level 100, k at level 200) : kindling_scope.

Definition lift {A} (m : M A) : R A := fun st => let! a := m in ret (st, inr a).
Definition gets {A} (f : runState -> A) : R A := fun st => ret (st, inr (f st)).
Definition modify (f : runState -> runState) : R unit := fun st => ret (f st, inr tt).

(** A function without effects, whose error ends the run as [on_err] says. *)
Definition pure {A} (on_err : error -> ending) (m : outcome A) : R A :=
  match m with Ret a => rret a | Err e => rend (on_err e) | Panic => rend EndPanic | Diverge => rend EndDiverge end.

Section runs.
Context {env : Env} {S : Sorter} {U : Unicode} {Y : Yaml} {H : RunnerHost}.
Context (fuel : nat) (plan : ExecutionPlan) (write : list N -> lineLogWriter -> M lineLogWriter).

Definition print (bytes : list N) : R unit := fun st =>
  let! w := write bytes st.(rs_writer) in
  ret (mkRunState w st.(rs_needs) st.(rs_results) st.(rs_sshEnv) st.(rs_info) st.(rs_entries) st.(rs_deferred) st.(rs_sshCleanup), inr tt).
Definition println (s : string) : R unit := print (bytes_of s ++ [10%N]).

Definition set_info (name path : string) (st : runState) : runState :=
  mkRunState st.(rs_writer) st.(rs_needs) st.(rs_results) st.(rs_sshEnv) (<[name := path]> st.(rs_info)) st.(rs_entries) st.(rs_deferred) st.(rs_sshCleanup).
Definition track (key path : string) (st : runState) : runState :=
  mkRunState st.(rs_writer) st.(rs_needs) st.(rs_results) st.(rs_sshEnv) st.(rs_info) (st.(rs_entries) ++ [(key, path)]) st.(rs_deferred) st.(rs_sshCleanup).
Definition defer (cleanup : option (list string)) (st : runState) : runState :=
  match cleanup with
  | Some c => mkRunState st.(rs_writer) st.(rs_needs) st.(rs_results) st.(rs_sshEnv) st.(rs_info) st.(rs_entries) (c :: st.(rs_deferred)) st.(rs_sshCleanup)
  | None => st
  end.
Definition set_ssh (sshEnv : strmap) (cleanup : option (list string)) (st : runState) : runState :=
  mkRunState st.(rs_writer) st.(rs_needs) st.(rs_results) sshEnv st.(rs_info) st.(rs_entries) st.(rs_deferred) cleanup.
Definition add_result (id name result : string) (outputs : strmap) (st : runState) : runState :=
  mkRunState st.(rs_writer) (<[id := mkJobState result outputs]> st.(rs_needs)) (st.(rs_results) ++ [mkJobRunResult id name result outputs])
    st.(rs_sshEnv) st.(rs_info) st.(rs_entries) st.(rs_deferred) st.(rs_sshCleanup).

(** The context in which a job or a step is evaluated. *)
Definition context (steps : gmap string stepState) : R evalContext := fun st =>
  let! glob := rh_glob in
  ret (st, inr (mkEval plan.(ep_RepoRoot) plan steps st.(rs_needs) rh_getenv glob)).

(** An error of a step, as a value. *)
Definition failing {A} (m : outcome A) : R (error + A) :=
  match m with Ret a => rret (inr a) | Err e => rret (inl e) | Panic => rend EndPanic | Diverge => rend EndDiverge end.

(** [x, err := m; if err != nil { return nil, nil, err }] in a step. *)
Definition sbind {A B} (m : R (error + A)) (k : A -> R (error + B)) : R (error + B) :=
  let+ r := m in match r with inl e => rret (inl e) | inr a => k a end.
Notation "'let@' x ':=' m 'in' k" := (sbind m (fun x => k))
  (at level 10, x name, m at level 100, k at level 200) : kindling_scope.

Definition of_call {A} (m : M (error + A)) : R (error + A) := lift m.
Definition of_status (ctx : error -> error) (m : M (option error)) : R (error + unit) :=
  let+ r := lift m in rret (match r with Some e => inl (ctx e) | None => inr tt end).

Definition under_root (path : string) : string := if HasPrefix path "/" then path else path_Join [plan.(ep_RepoRoot); path].

(** *** Artifacts and cache *)

Definition artifact_path (root name : string) : string := path_Join [root; sanitizeName name].

Definition artifacts_Save (root name src : string) : R (error + unit) :=
  let dst := artifact_path root name in
  do+ lift (rh_RemoveAll dst) ;
  let@ _ := of_status (fun e => e) (rh_copyPath src dst) in
  do+ modify (set_info name dst) ;
  rret (inr tt).

Definition artifacts_List (info : strmap) : list ArtifactInfo :=
  sort_by (fun a b => string_le a.(ar_Name) b.(ar_Name)) ((fun '(name, path) => mkArtifactInfo name path) <$> any_order (map_to_list info)).

(** [restore] and [save]: a missing source is no error. *)
Definition replace_tree (src dst : string) : M (option error) :=
  let! st := rh_Stat src in
  match st with
  | StatNotExist => ret None
  | StatError e => ret (Some e)
  | StatOK => do! rh_RemoveAll dst ; rh_copyPath src dst
  end.
Definition cache_restore (root key dst : string) : M (option error) := replace_tree (path_Join [root; sanitizeName key]) dst.
Definition cache_save (root key src : string) : M (option error) := replace_tree src (path_Join [root; sanitizeName key]).

(** *** Steps *)

Definition startSSHAgent (key : string) (env : strmap) : R (error + (list string * strmap)) :=
  if String.eqb (TrimSpace key) "" then rret (inl (ErrMsg "ssh-private-key is required"))
  else
    let+ r := lift (rh_ssh_agent (mapToEnv env)) in
    match r with
    | inl e => rret (inl (ErrWrap "start ssh-agent" e))
    | inr out =>
        let agentEnv := parseSSHAgentOutput out in
        let vars := ["SSH_AUTH_SOCK=" +:+ get agentEnv "SSH_AUTH_SOCK"; "SSH_AGENT_PID=" +:+ get agentEnv "SSH_AGENT_PID"] in
        if String.eqb (get agentEnv "SSH_AUTH_SOCK") "" || String.eqb (get agentEnv "SSH_AGENT_PID") "" then
          rret (inl (ErrMsg "ssh-agent did not return SSH_AUTH_SOCK and SSH_AGENT_PID"))
        else
          let+ a := lift (rh_ssh_add (mapToEnv env ++ vars) key) in
          do+ print a.1 ;
          match a.2 with
          | Some e => rret (inl (ErrWrap "ssh-add" e))
          | None => rret (inr (vars, agentEnv))
          end
    end.

Definition runCommandStep (step : CompiledStep) (env : strmap) (ev : evalContext) : R (error + strmap) :=
  let@ commandText := failing (interpolateValue fuel step.(cs_Run) ev) in
  let workingDir := TrimSpace step.(cs_WorkingDirectory) in
  let workingDir := if String.eqb workingDir "" then plan.(ep_RepoRoot) else under_root workingDir in
  let@ _ := of_status (fun e => e) (rh_MkdirAll workingDir) in
  let@ output := of_call rh_CreateTemp in
  let vars := mapToEnv env ++ ["GITHUB_OUTPUT=" +:+ output; "GITHUB_WORKSPACE=" +:+ plan.(ep_RepoRoot)] in
  let+ r := lift (rh_bash workingDir vars commandText) in
  do+ print r.1 ;
  match r.2 with
  | Some e => rret (inl e)
  | None => let+ file := lift (rh_output_file output) in failing (parseOutputFile file)
  end.

(** What a step leaves: its outputs, its cleanup and its environment. *)
Record stepResult := mkStepResult { sr_outputs : strmap; sr_cleanup : option (list string); sr_env : gomap }.

Definition plain_result (env : gomap) : R (error + stepResult) := rret (inr (mkStepResult ∅ None env)).

Definition tool (name : string) : R (error + unit) :=
  let+ found := lift (rh_LookPath name) in
  rret (if found : bool then inr tt else inl (ErrMsg (name +:+ " not found on PATH"))).

Definition runStep (artifactRoot cacheRoot : string) (step : CompiledStep) (env : gomap) (ev : evalContext) : R (error + stepResult) :=
  let value name := failing (interpolateValue fuel (get step.(cs_With) name) ev) in
  match step.(cs_Kind) with
  | StepKindCheckout => plain_result env
  | StepKindSetupGo => let@ _ := tool "go" in plain_result env
  | StepKindSetupNode => let@ _ := tool "node" in let@ _ := tool "npm" in plain_result env
  | StepKindUploadArtifact =>
      let@ name := value "name" in
      let@ pathValue := value "path" in
      if String.eqb (TrimSpace name) "" || String.eqb (TrimSpace pathValue) "" then rret (inl (ErrMsg "upload-artifact requires name and path"))
      else
        let+ r := artifacts_Save artifactRoot name (under_root pathValue) in
        match r with inl e => rret (inl (ErrWrap ("save artifact " +:+ name) e)) | inr _ => plain_result env end
  | StepKindDownloadArtifact =>
      let@ name := value "name" in
      let@ target := value "path" in
      let target := if String.eqb (TrimSpace target) "" then "." else target in
      let+ info := gets rs_info in
      match info !! name with
      | None => rret (inl (ErrMsg ("artifact " +:+ go_quote name +:+ " not found")))
      | Some src =>
          let@ _ := of_status (ErrWrap ("restore artifact " +:+ name)) (rh_copyArtifactContents src (under_root target)) in plain_result env
      end
  | StepKindCache =>
      let@ pathValue := value "path" in
      let@ keyValue := value "key" in
      if String.eqb (TrimSpace pathValue) "" || String.eqb (TrimSpace keyValue) "" then rret (inl (ErrMsg "actions/cache requires path and key"))
      else
        let@ _ := of_status (fun e => e) (cache_restore cacheRoot keyValue (path_Join [plan.(ep_RepoRoot); pathValue])) in
        do+ modify (track keyValue pathValue) ;
        plain_result env
  | StepKindPathsFilter =>
      let@ filters := value "filters" in
      let+ status := lift (rh_git_status plan.(ep_RepoRoot)) in
      let@ changed := failing (gitChangedFiles status) in
      let@ outputs := failing (evaluatePathsFilter filters changed) in
      rret (inr (mkStepResult outputs None env))
  | StepKindSSHAgent =>
      let@ key := value "ssh-private-key" in
      let@ agent := startSSHAgent key (contents env) in
      let+ env' := pure (EndErr false) (mergeEnv env agent.2) in
      rret (inr (mkStepResult ∅ (Some agent.1) env'))
  | StepKindRun =>
      let@ outputs := runCommandStep step (contents env) ev in
      rret (inr (mkStepResult outputs None env))
  end.

(** *** Jobs *)

Definition step_error (job : CompiledJob) (step : CompiledStep) (what : string) : error -> ending :=
  fun e => EndErr false (ErrWrap ("job " +:+ job.(cj_ID) +:+ " step " +:+ step.(cs_Name) +:+ " " +:+ what) e).

(** One step of a job; [steps] are the outputs of those before it. *)
Definition run_step (artifactRoot cacheRoot : string) (job : CompiledJob) (jobEnv : gomap) (step : CompiledStep) (steps : gmap string stepState) :
    R (gmap string stepState) :=
  let+ stepCtx := context steps in
  let+ skip := pure (step_error job step "if") (shouldSkipExpr stepCtx step.(cs_If)) in
  if skip : bool then do+ println ("----> Step " +:+ step.(cs_Name) +:+ " skipped") ; rret steps
  else
    do+ println ("----> Step " +:+ step.(cs_Name)) ;
    let+ e := pure (step_error job step "env") (step_env fuel jobEnv step.(cs_Env) stepCtx) in
    do+ pure (step_error job step "env") (match e.2 with Some err => Err err | None => Ret tt end) ;
    let+ r := runStep artifactRoot cacheRoot step e.1 stepCtx in
    match r with
    | inl err =>
        do+ modify (add_result job.(cj_ID) job.(cj_Name) "failure" ∅) ;
        rend (EndErr true (ErrWrap ("job " +:+ job.(cj_ID) +:+ " step " +:+ step.(cs_Name)) err))
    | inr res =>
        do+ modify (defer res.(sr_cleanup)) ;
        do+ modify (fun st => match step.(cs_Kind) with StepKindSSHAgent => set_ssh (contents res.(sr_env)) res.(sr_cleanup) st | _ => st end) ;
        rret (if String.eqb step.(cs_ID) "" then steps else <[step.(cs_ID) := mkStepState res.(sr_outputs)]> steps)
    end.

Fixpoint run_steps (artifactRoot cacheRoot : string) (job : CompiledJob) (jobEnv : gomap) (l : list CompiledStep) (steps : gmap string stepState) :
    R (gmap string stepState) :=
  match l with
  | [] => rret steps
  | step :: l' => let+ steps := run_step artifactRoot cacheRoot job jobEnv step steps in run_steps artifactRoot cacheRoot job jobEnv l' steps
  end.

(** The cache is saved after every job, errors dropped. *)
Definition save_entries (cacheRoot : string) (entries : list (string * string)) : M unit :=
  for_each entries (fun '(key, path) => do! cache_save cacheRoot key (path_Join [plan.(ep_RepoRoot); path]) ; ret tt).

Definition run_job (artifactRoot cacheRoot : string) (baseEnv : strmap) (job : CompiledJob) : R unit :=
  let wrong what := fun e => EndErr false (ErrWrap ("job " +:+ job.(cj_ID) +:+ " " +:+ what) e) in
  let+ jobCtx := context ∅ in
  let+ skip := pure (wrong "if") (shouldSkipExpr jobCtx job.(cj_If)) in
  if skip : bool then
    do+ modify (add_result job.(cj_ID) job.(cj_Name) "skipped" ∅) ;
    println ("==> Job " +:+ job.(cj_ID) +:+ " skipped")
  else
    do+ println ("==> Job " +:+ job.(cj_ID) +:+ " (" +:+ job.(cj_Name) +:+ ")") ;
    let+ sshEnv := gets rs_sshEnv in
    let+ jobEnv := pure (EndErr false) (buildProcessEnv fuel baseEnv job.(cj_Env) sshEnv jobCtx) in
    let+ steps := run_steps artifactRoot cacheRoot job jobEnv job.(cj_Steps) ∅ in
    let+ jobCtx := context steps in
    let+ outputs := pure (wrong "outputs") (evaluateJobOutputs fuel job.(cj_Outputs) jobCtx) in
    do+ modify (add_result job.(cj_ID) job.(cj_Name) "success" outputs) ;
    let+ entries := gets rs_entries in
    lift (save_entries cacheRoot entries).

Fixpoint run_jobs (artifactRoot cacheRoot : string) (baseEnv : strmap) (jobs : list CompiledJob) : R unit :=
  match jobs with
  | [] => rret tt
  | job :: jobs' => do+ run_job artifactRoot cacheRoot baseEnv job ; run_jobs artifactRoot cacheRoot baseEnv jobs'
  end.

Definition newCacheStore : M (error + string) :=
  match rh_UserHomeDir with
  | inl e => ret (inl e)
  | inr home =>
      let root := path_Join [home; ".kindling"; "ci-cache"] in
      let! r := rh_MkdirAll root in ret (match r with Some e => inl e | None => inr root end)
  end.

Definition Backend_local : string := "local_host".
Definition no_result : RunResult := mkRunResult [] [] "" "".
Definition result_of (root : string) (st : runState) : RunResult := mkRunResult st.(rs_results) (artifacts_List st.(rs_info)) root Backend_local.

(** The deferred calls: the last step's cleanup first, the agent's at the end. *)
Definition run_deferred (st : runState) : M unit :=
  do! for_each st.(rs_deferred) rh_ssh_kill ;
  match st.(rs_sshCleanup) with Some c => rh_ssh_kill c | None => ret tt end.

Definition Run (optsEnv : strmap) (writer : lineLogWriter) : M (lineLogWriter * RunResult * option error) :=
  let! artifacts := rh_MkdirTemp in
  match artifacts with
  | inl e => ret (writer, no_result, Some e)
  | inr artifactRoot =>
      let! cache := newCacheStore in
      match cache with
      | inl e => ret (writer, no_result, Some e)
      | inr cacheRoot =>
          let! r := run_jobs artifactRoot cacheRoot (buildBaseEnvFrom rh_environ optsEnv) plan.(ep_Jobs)
                      (mkRunState writer ∅ [] ∅ ∅ [] [] None) in
          let st := r.1 in
          match r.2 with
          | inl EndDiverge => diverge
          | inl EndPanic => do! run_deferred st ; panic
          | inl (EndErr with_result e) =>
              do! run_deferred st ; ret (st.(rs_writer), if with_result : bool then result_of artifactRoot st else no_result, Some e)
          | inr _ => do! run_deferred st ; ret (st.(rs_writer), result_of artifactRoot st, None)
          end
      end
  end.

End runs.

(** [LocalWorkflowRunner] as the job service uses it, without variables of its own. *)
Definition LocalWorkflowRunner {env : Env} {S : Sorter} {U : Unicode} {Y : Yaml} {H : RunnerHost} (fuel : nat) : WorkflowRunner ExecutionPlan :=
  mkWorkflowRunner _ Backend_local (fun plan write writer =>
    let! r := Run fuel plan write ∅ writer in ret (r.1.1, r.1.2.(rr_Artifacts), r.2)).
