(* ===== verification/CiRunnerProofs.v ===== *)
(** * Expressions and runs of CI workflows

    The conditions of a workflow mean what their grammar says; interpolation
    ends unless a value brings expressions back in; what the environment of a
    step holds of the host's; the order and the results of a run. *)

From S2P Require Import Prelude NetAddr Text Models Runtime Effects Queries Logic EventLogic Sample Codecs Secrets Paths Json GithubActions EventQueries CiJobs WorkerDns DnsNames CiWorkflow CiOrder CiRunner.

(** ** The grammar of conditions *)

Inductive operand := Literal (s : string) | Name (s : string).

(** Left-associative chains of [||] over chains of [&&]. *)
Inductive or_expr :=
  | Or1 (a : and_expr)
  | OrMore (o : or_expr) (a : and_expr)
with and_expr :=
  | And1 (p : primary)
  | AndMore (a : and_expr) (p : primary)
with primary :=
  | Paren (o : or_expr)
  | Always (call : bool)
  | Truthy (v : operand)
  | Equal (v w : operand)
  | Differ (v w : operand).

Scheme or_expr_mut := Induction for or_expr Sort Prop
  with and_expr_mut := Induction for and_expr Sort Prop
  with primary_mut := Induction for primary Sort Prop.
Combined Scheme condition_ind from or_expr_mut, and_expr_mut, primary_mut.

(** Its meaning: all operands are evaluated, also those that cannot matter. *)
Section meaning.
Context {U : Unicode} (ev : evalContext).

Definition operand_value (v : operand) : outcome string :=
  match v with Literal s => Ret s | Name s => evalScalar s ev end.

Fixpoint or_value (o : or_expr) : outcome bool :=
  match o with
  | Or1 a => and_value a
  | OrMore o a => let* x := or_value o in let* y := and_value a in Ret (x || y)
  end
with and_value (a : and_expr) : outcome bool :=
  match a with
  | And1 p => primary_value p
  | AndMore a p => let* x := and_value a in let* y := primary_value p in Ret (x && y)
  end
with primary_value (p : primary) : outcome bool :=
  match p with
  | Paren o => or_value o
  | Always _ => Ret true
  | Truthy v => let* x := operand_value v in Ret (truthy x)
  | Equal v w => let* x := operand_value v in let* y := operand_value w in Ret (String.eqb x y)
  | Differ v w => let* x := operand_value v in let* y := operand_value w in Ret (negb (String.eqb x y))
  end.

End meaning.

(** Its tokens. *)
Definition operand_token (v : operand) : token := match v with Literal s => mkToken TString s | Name s => mkToken TIdent s end.

Fixpoint or_tokens (o : or_expr) : list token :=
  match o with
  | Or1 a => and_tokens a
  | OrMore o a => or_tokens o ++ mkToken TOp "||" :: and_tokens a
  end
with and_tokens (a : and_expr) : list token :=
  match a with
  | And1 p => primary_tokens p
  | AndMore a p => and_tokens a ++ mkToken TOp "&&" :: primary_tokens p
  end
with primary_tokens (p : primary) : list token :=
  match p with
  | Paren o => mkToken TSym "(" :: or_tokens o ++ [mkToken TSym ")"]
  | Always call => mkToken TIdent "always" :: (if call then [mkToken TSym "("; mkToken TSym ")"] else [])
  | Truthy v => [operand_token v]
  | Equal v w => [operand_token v; mkToken TOp "=="; operand_token w]
  | Differ v w => [operand_token v; mkToken TOp "!="; operand_token w]
  end.

(** A name: bytes that neither end it nor open a literal, without white space
    (of any alphabet) around it. *)
Definition name_text (s : string) : bool :=
  negb (String.eqb s "") && String.eqb (TrimSpace s) s &&
  forallb (fun c => negb (ends_ident c) && negb (bool_decide (Ascii.N_of_ascii c ∈ [sq; dq]))) (str_bytes s).

(** The texts of a list of tokens: white space anywhere between them, literals
    in quotes of either kind that do not occur in them, and a name ended by the
    end of the text or a byte that cannot belong to it. *)
Inductive spells : list token -> string -> Prop :=
  | spells_end : spells [] ""
  | spells_space c ts s : Ascii.N_of_ascii c ∈ [32; 9; 10; 13]%N -> spells ts s -> spells ts (String c s)
  | spells_sym x ts s : x ∈ ["("; ")"] -> spells ts s -> spells (mkToken TSym x :: ts) (x +:+ s)
  | spells_op x ts s : x ∈ ["&&"; "||"; "=="; "!="] -> spells ts s -> spells (mkToken TOp x :: ts) (x +:+ s)
  | spells_literal q x ts s : Ascii.N_of_ascii q ∈ [sq; dq] -> q ∉ str_bytes x -> spells ts s ->
      spells (mkToken TString x :: ts) (String q (x +:+ String q s))
  | spells_name x ts s : name_text x = true -> match s with EmptyString => True | String c _ => ends_ident c = true end -> spells ts s ->
      spells (mkToken TIdent x :: ts) (x +:+ s).

(** The operand a primary starts with must not read as a parenthesis or as
    [always]. *)
Definition first_ok (v : operand) : bool :=
  negb (String.eqb (tk_text (operand_token v)) "(") && negb (String.eqb (tk_text (operand_token v)) "always").

Fixpoint or_ok (o : or_expr) : bool :=
  match o with Or1 a => and_ok a | OrMore o a => or_ok o && and_ok a end
with and_ok (a : and_expr) : bool :=
  match a with And1 p => primary_ok p | AndMore a p => and_ok a && primary_ok p end
with primary_ok (p : primary) : bool :=
  match p with
  | Paren o => or_ok o
  | Always _ => true
  | Truthy v | Equal v _ | Differ v _ => first_ok v
  end.

(** ** The parser has fuel enough *)

Section parser.
Context {U : Unicode} (ev : evalContext).

Definition rank (r : rule) : nat := match r with parseOr => 3 | parseAnd => 2 | _ => 1 end.
Definition measure (r : rule) (ts : list token) : nat := (4 * length ts + rank r)%nat.
Definition consumes (r : rule) : nat := match r with OrRest _ | AndRest _ => 0 | _ => 1 end.

Lemma match_text_length x ts ts' : match_text x ts = Some ts' -> length ts = Datatypes.S (length ts').
Proof. destruct ts as [|t ts]; simpl; [done|]. case_match; [|done]. by intros [= ->]. Qed.

Lemma parseValue_length ts v ts' : parseValue ev ts = Ret (v, ts') -> length ts = Datatypes.S (length ts').
Proof.
  destruct ts as [|t ts]; simpl; [done|]. destruct (tk_kind t); try discriminate; [by intros [= _ ->]|].
  by intros (x & _ & [= _ ->])%obind_ret.
Qed.

Lemma comparison_length l ts v ts' : parse_comparison ev l ts = Ret (v, ts') -> (length ts' <= length ts)%nat.
Proof.
  unfold parse_comparison. destruct (match_text "==" ts) as [ts1|] eqn:E1.
  - apply match_text_length in E1. intros ([x ts2] & E%parseValue_length & [= _ ->])%obind_ret. simpl in *. lia.
  - destruct (match_text "!=" ts) as [ts1|] eqn:E2; [|intros [= _ ->]; lia].
    apply match_text_length in E2. intros ([x ts2] & E%parseValue_length & [= _ ->])%obind_ret. simpl in *. lia.
Qed.

Lemma parser_consumes n : forall r ts v ts', boolParser ev n r ts = Ret (v, ts') -> (length ts' + consumes r <= length ts)%nat.
Proof.
  induction n as [|n IH]; intros r ts v ts' E; [done|]. destruct r; simpl in *.
  - apply obind_ret in E as ([x ts1] & E1%IH & E2%IH). simpl in *. lia.
  - apply obind_ret in E as ([x ts1] & E1%IH & E2%IH). simpl in *. lia.
  - destruct (match_text "(" ts) as [ts1|] eqn:E1.
    { apply match_text_length in E1. apply obind_ret in E as ([x ts2] & E2%IH & E). simpl in *.
      destruct (match_text ")" ts2) as [ts3|] eqn:E3; [|done]. apply match_text_length in E3. injection E as _ <-. lia. }
    destruct (match_text "always" ts) as [ts1|] eqn:E2.
    { apply match_text_length in E2. destruct (match_text "(" ts1) as [ts2|] eqn:E3; [|injection E as _ <-; lia]. apply match_text_length in E3.
      destruct (match_text ")" ts2) as [ts3|] eqn:E4; [|done]. apply match_text_length in E4. injection E as _ <-. lia. }
    apply obind_ret in E as ([x ts1] & E3%parseValue_length & E4%comparison_length). simpl in *. lia.
  - destruct (match_text "||" ts) as [ts1|] eqn:E1; [|injection E as _ <-; lia]. apply match_text_length in E1.
    apply obind_ret in E as ([x ts2] & E2%IH & E3%IH). simpl in *. lia.
  - destruct (match_text "&&" ts) as [ts1|] eqn:E1; [|injection E as _ <-; lia]. apply match_text_length in E1.
    apply obind_ret in E as ([x ts2] & E2%IH & E3%IH). simpl in *. lia.
Qed.

(** Two calls in a row give the same with the fuel of either. *)
Lemma sequence_enough n m r ts (k : bool -> rule) :
  boolParser ev n r ts = boolParser ev m r ts ->
  (forall v ts', (length ts' + consumes r <= length ts)%nat -> boolParser ev n (k v) ts' = boolParser ev m (k v) ts') ->
  (let* x := boolParser ev n r ts in boolParser ev n (k x.1) x.2) = (let* x := boolParser ev m r ts in boolParser ev m (k x.1) x.2).
Proof.
  intros -> Hk. destruct (boolParser ev m r ts) as [[v ts']| | |] eqn:E; try done. simpl. apply Hk. by apply parser_consumes in E.
Qed.

Lemma parser_enough n : forall m r ts, (measure r ts <= n)%nat -> (measure r ts <= m)%nat -> boolParser ev n r ts = boolParser ev m r ts.
Proof.
  unfold measure. induction n as [|n IH]; intros m r ts Hn Hm; [destruct r; simpl in Hn; lia|].
  destruct m as [|m]; [destruct r; simpl in Hm; lia|]. destruct r; simpl in *.
  - apply sequence_enough; [apply IH; simpl; lia|]. intros; apply IH; simpl in *; lia.
  - apply sequence_enough; [apply IH; simpl; lia|]. intros; apply IH; simpl in *; lia.
  - destruct (match_text "(" ts) as [ts1|] eqn:E1; [|done]. apply match_text_length in E1. rewrite (IH m); [done|simpl; lia..].
  - destruct (match_text "||" ts) as [ts1|] eqn:E1; [|done]. apply match_text_length in E1.
    apply (sequence_enough n m parseAnd ts1 (fun x => OrRest (value || x))); [apply IH; simpl; lia|]. intros; apply IH; simpl in *; lia.
  - destruct (match_text "&&" ts) as [ts1|] eqn:E1; [|done]. apply match_text_length in E1.
    apply (sequence_enough n m parsePrimary ts1 (fun x => AndRest (value && x))); [apply IH; simpl; lia|]. intros; apply IH; simpl in *; lia.
Qed.

(** The parser with its own fuel, and the equations of its rules. *)
Definition parse (r : rule) (ts : list token) : outcome (bool * list token) := boolParser ev (measure r ts) r ts.

Lemma parse_of n r ts : (measure r ts <= n)%nat -> boolParser ev n r ts = parse r ts.
Proof. intros H. by apply parser_enough. Qed.

Lemma sequence_parse n r ts (k : bool -> rule) :
  (measure r ts <= n)%nat -> (forall v ts', (length ts' + consumes r <= length ts)%nat -> (measure (k v) ts' <= n)%nat) ->
  (let* x := boolParser ev n r ts in boolParser ev n (k x.1) x.2) = (let* x := parse r ts in parse (k x.1) x.2).
Proof.
  intros Hr Hk. rewrite parse_of by done. destruct (parse r ts) as [[v ts']| | |] eqn:E; try done. simpl. apply parse_of, Hk. by apply parser_consumes in E.
Qed.

Lemma parse_or ts : parse parseOr ts = let* x := parse parseAnd ts in parse (OrRest x.1) x.2.
Proof.
  unfold parse at 1, measure. replace (4 * length ts + rank parseOr)%nat with (Datatypes.S (4 * length ts + 2)) by (simpl; lia).
  apply (sequence_parse _ _ _ OrRest); unfold measure; simpl; lia.
Qed.

Lemma parse_and ts : parse parseAnd ts = let* x := parse parsePrimary ts in parse (AndRest x.1) x.2.
Proof.
  unfold parse at 1, measure. replace (4 * length ts + rank parseAnd)%nat with (Datatypes.S (4 * length ts + 1)) by (simpl; lia).
  apply (sequence_parse _ _ _ AndRest); unfold measure; simpl; lia.
Qed.

Lemma parse_or_rest v ts :
  parse (OrRest v) ts = match match_text "||" ts with Some ts' => let* x := parse parseAnd ts' in parse (OrRest (v || x.1)) x.2 | None => Ret (v, ts) end.
Proof.
  unfold parse at 1, measure. replace (4 * length ts + rank (OrRest v))%nat with (Datatypes.S (4 * length ts)) by (simpl; lia).
  simpl. destruct (match_text "||" ts) as [ts1|] eqn:E; [|done]. apply match_text_length in E.
  apply (sequence_parse _ _ _ (fun x => OrRest (v || x))); unfold measure; simpl; lia.
Qed.

Lemma parse_and_rest v ts :
  parse (AndRest v) ts = match match_text "&&" ts with Some ts' => let* x := parse parsePrimary ts' in parse (AndRest (v && x.1)) x.2 | None => Ret (v, ts) end.
Proof.
  unfold parse at 1, measure. replace (4 * length ts + rank (AndRest v))%nat with (Datatypes.S (4 * length ts)) by (simpl; lia).
  simpl. destruct (match_text "&&" ts) as [ts1|] eqn:E; [|done]. apply match_text_length in E.
  apply (sequence_parse _ _ _ (fun x => AndRest (v && x))); unfold measure; simpl; lia.
Qed.

(** What may follow a chain: the end, a closing parenthesis, [||] and, within a
    chain of [||], also [&&]. *)
Definition follows (texts : list string) (rest : list token) : Prop :=
  match rest with [] => True | t :: _ => tk_text t ∈ texts end.

Lemma follows_match texts rest x : follows texts rest -> x ∉ texts -> match_text x rest = None.
Proof. destruct rest as [|t rest]; simpl; [done|]. intros Ht Hx. case_match eqn:E; [|done]. apply String.eqb_eq in E. congruence. Qed.

Lemma parseValue_operand v rest : parseValue ev (operand_token v :: rest) = let* x := operand_value ev v in Ret (x, rest).
Proof. by destruct v. Qed.

Lemma match_first v rest x : first_ok v = true -> x = "(" \/ x = "always" -> match_text x (operand_token v :: rest) = None.
Proof.
  unfold first_ok. rewrite !andb_true_iff, !negb_true_iff. intros [H1 H2] Hx. simpl. destruct Hx as [-> | ->]; by rewrite ?H1, ?H2.
Qed.

Lemma parser_primary n ts : match_text "(" ts = None -> match_text "always" ts = None ->
  boolParser ev (Datatypes.S n) parsePrimary ts = let* l := parseValue ev ts in parse_comparison ev l.1 l.2.
Proof. intros H1 H2. simpl. by rewrite H1, H2. Qed.

(** A comparison, or an operand on its own. *)
Lemma parse_primary_operand v rest : first_ok v = true ->
  parse parsePrimary (operand_token v :: rest) = let* x := operand_value ev v in parse_comparison ev x rest.
Proof.
  intros Hv. unfold parse. replace (measure _ _) with (Datatypes.S (4 * length (operand_token v :: rest))) by (unfold measure; simpl; lia).
  rewrite parser_primary by (apply match_first; auto). rewrite parseValue_operand. by destruct (operand_value ev v).
Qed.

Lemma parse_paren rest : parse parsePrimary (mkToken TSym "(" :: rest) =
  let* v := parse parseOr rest in match match_text ")" v.2 with Some ts => Ret (v.1, ts) | None => Err (ErrMsg "missing )") end.
Proof.
  unfold parse at 1. replace (measure _ _) with (Datatypes.S (4 * length rest + 4)) by (unfold measure; simpl; lia). simpl.
  by rewrite parse_of by (unfold measure; simpl; lia).
Qed.

Lemma parse_grammar :
  (forall o, or_ok o = true -> forall rest, follows [")"; "||"] rest ->
     parse parseOr (or_tokens o ++ rest) = let* v := or_value ev o in parse (OrRest v) rest) /\
  (forall a, and_ok a = true -> forall rest, follows [")"; "||"; "&&"] rest ->
     parse parseAnd (and_tokens a ++ rest) = let* v := and_value ev a in parse (AndRest v) rest) /\
  (forall p, primary_ok p = true -> forall rest, follows [")"; "||"; "&&"] rest ->
     parse parsePrimary (primary_tokens p ++ rest) = let* v := primary_value ev p in Ret (v, rest)).
Proof.
  assert (forall v rest, follows [")"; "||"] rest -> parse (AndRest v) rest = Ret (v, rest)) as Hend.
  { intros v rest Hr. rewrite parse_and_rest, (follows_match _ _ "&&" Hr); [done|]. rewrite !not_elem_of_cons. repeat split; try discriminate. apply not_elem_of_nil. }
  assert (forall rest, follows [")"; "||"] rest -> follows [")"; "||"; "&&"] rest) as Hweak.
  { intros [|t rest] H; simpl in *; [done|]. set_solver. }
  apply condition_ind; simpl.
  - intros a IH Ha rest Hr. rewrite parse_or, IH by auto. destruct (and_value ev a) as [v| | |]; [|done..]. simpl. by rewrite Hend.
  - intros o IHo a IHa [Ho Ha]%andb_true_iff rest Hr. rewrite <- app_assoc, IHo; [|done|simpl; set_solver]. destruct (or_value ev o) as [v| | |]; [|done..]. simpl.
    rewrite parse_or_rest. simpl. rewrite IHa by auto. destruct (and_value ev a) as [x| | |]; [|done..]. simpl. by rewrite Hend.
  - intros p IH Hp rest Hr. rewrite parse_and, IH by auto. destruct (primary_value ev p); done.
  - intros a IHa p IHp [Ha Hp]%andb_true_iff rest Hr. rewrite <- app_assoc, IHa; [|done|simpl; set_solver]. destruct (and_value ev a) as [v| | |]; [|done..]. simpl.
    rewrite parse_and_rest. simpl. rewrite IHp by auto. by destruct (primary_value ev p).
  - intros o IH Ho rest Hr. rewrite parse_paren, <- app_assoc, IH; [|done|simpl; set_solver]. destruct (or_value ev o) as [v| | |]; [|done..].
    cbn [obind]. by rewrite parse_or_rest.
  - intros call _ rest Hr. destruct call; [done|]. unfold parse, measure. simpl.
    rewrite (follows_match _ _ "(" Hr); [done|]. rewrite !not_elem_of_cons. repeat split; try discriminate. apply not_elem_of_nil.
  - intros v Hv rest Hr. rewrite parse_primary_operand by done. destruct (operand_value ev v) as [x| | |]; [|done..]. simpl. unfold parse_comparison.
    rewrite !(follows_match _ _ _ Hr); [done|..]; rewrite !not_elem_of_cons; repeat split; try discriminate; apply not_elem_of_nil.
  - intros v w Hv rest Hr. rewrite parse_primary_operand by done. destruct (operand_value ev v) as [x| | |]; try done.
    simpl obind. unfold parse_comparison. change (match_text "==" _) with (Some (operand_token w :: rest)). cbv iota beta. rewrite parseValue_operand. by destruct (operand_value ev w).
  - intros v w Hv rest Hr. rewrite parse_primary_operand by done. destruct (operand_value ev v) as [x| | |]; try done.
    simpl obind. unfold parse_comparison. change (match_text "==" _) with (@None (list token)). change (match_text "!=" _) with (Some (operand_token w :: rest)). cbv iota beta.
    rewrite parseValue_operand. by destruct (operand_value ev w).
Qed.

End parser.

(** ** The tokens of a text *)

Lemma span_app p s rest : forallb (fun c => negb (p c)) (str_bytes s) = true -> match rest with EmptyString => True | String c _ => p c = true end ->
  span_bytes p (s +:+ rest) = (s, rest).
Proof.
  induction s as [|c s IH]; simpl; intros H Hr.
  - destruct rest as [|c rest]; [done|]. simpl. by rewrite Hr.
  - apply andb_true_iff in H as [H1%negb_true_iff H2]. rewrite H1, IH; done.
Qed.

Lemma not_special c : ends_ident c = false -> bool_decide (Ascii.N_of_ascii c ∈ [sq; dq]) = false ->
  bool_decide (Ascii.N_of_ascii c ∈ [32; 9; 10; 13]%N) = false /\ bool_decide (Ascii.N_of_ascii c ∈ [40; 41]%N) = false /\
  bool_decide (Ascii.N_of_ascii c ∈ [38; 124; 61; 33]%N) = false.
Proof. unfold ends_ident. rewrite !bool_decide_eq_false. set_solver. Qed.

Lemma in_list_cases l x : in_list l x = true -> In x l.
Proof. unfold in_list. intros (y & Hy & ->%String.eqb_eq)%existsb_exists. done. Qed.

Lemma append_cons c a b : String c a +:+ b = String c (a +:+ b).
Proof. done. Qed.
Lemma append_nil a : "" +:+ a = a.
Proof. done. Qed.

Lemma length_append a b : String.length (a +:+ b) = (String.length a + String.length b)%nat.
Proof. induction a as [|c a IH]; [done|]. rewrite append_cons. simpl. by rewrite IH. Qed.

Lemma append_assoc a b c : (a +:+ b) +:+ c = a +:+ (b +:+ c).
Proof. induction a as [|x a IH]; [done|]. by rewrite !append_cons, IH. Qed.

(** The reading of one token. *)
Section one_token.
Context (expr rest : string) (ts : list token).
Hypothesis Hrest : forall m, (String.length rest <= m)%nat -> tokenize_fuel m expr rest = Ret ts.

Lemma read_space c n : Ascii.N_of_ascii c ∈ [32; 9; 10; 13]%N -> (String.length (String c rest) <= n)%nat -> tokenize_fuel n expr (String c rest) = Ret ts.
Proof.
  intros Hc Hn. destruct n as [|n]; [simpl in Hn; lia|]. cbn [tokenize_fuel]. rewrite bool_decide_eq_true_2 by done. apply Hrest. simpl in Hn. lia.
Qed.

Lemma read_sym x n : x ∈ ["("; ")"] -> (String.length (x +:+ rest) <= n)%nat -> tokenize_fuel n expr (x +:+ rest) = Ret (mkToken TSym x :: ts).
Proof.
  intros Hx%list_elem_of_In Hn. destruct n as [|n]; [rewrite length_append in Hn; destruct Hx as [<-|[<-|[]]]; simpl in Hn; lia|].
  assert (tokenize_fuel n expr rest = Ret ts) as H by (apply Hrest; rewrite length_append in Hn; destruct Hx as [<-|[<-|[]]]; simpl in Hn; lia).
  destruct Hx as [<-|[<-|[]]]; rewrite ?append_cons, append_nil; cbn; by rewrite H.
Qed.

Lemma read_op x n : x ∈ ["&&"; "||"; "=="; "!="] -> (String.length (x +:+ rest) <= n)%nat -> tokenize_fuel n expr (x +:+ rest) = Ret (mkToken TOp x :: ts).
Proof.
  intros Hx%list_elem_of_In Hn. destruct n as [|n]; [rewrite length_append in Hn; destruct Hx as [<-|[<-|[<-|[<-|[]]]]]; simpl in Hn; lia|].
  assert (tokenize_fuel n expr rest = Ret ts) as H by (apply Hrest; rewrite length_append in Hn; destruct Hx as [<-|[<-|[<-|[<-|[]]]]]; simpl in Hn; lia).
  destruct Hx as [<-|[<-|[<-|[<-|[]]]]]; rewrite ?append_cons, append_nil; cbn; by rewrite H.
Qed.

Lemma read_string q x n : Ascii.N_of_ascii q ∈ [sq; dq] -> q ∉ str_bytes x -> (String.length (String q (x +:+ String q rest)) <= n)%nat ->
  tokenize_fuel n expr (String q (x +:+ String q rest)) = Ret (mkToken TString x :: ts).
Proof.
  intros Hq Hx Hn. destruct n as [|n]; [simpl in Hn; lia|]. cbn [tokenize_fuel].
  assert (forall l, l ## [sq; dq] -> bool_decide (Ascii.N_of_ascii q ∈ l) = false) as Hnot.
  { intros l Hl. apply bool_decide_eq_false. intros Hin. by apply (Hl _ Hin). }
  rewrite !Hnot by (unfold sq, dq; set_solver). rewrite bool_decide_eq_true_2 by done.
  rewrite (span_app _ x (String q rest)); [|apply forallb_forall; intros c Hc; apply negb_true_iff, Ascii.eqb_neq; intros <-; apply Hx; by apply list_elem_of_In|apply Ascii.eqb_refl].
  rewrite Hrest; [done|]. cbn [String.length] in Hn. rewrite length_append in Hn. simpl in Hn. lia.
Qed.

Lemma read_name x n : name_text x = true -> match rest with EmptyString => True | String c _ => ends_ident c = true end ->
  (String.length (x +:+ rest) <= n)%nat -> tokenize_fuel n expr (x +:+ rest) = Ret (mkToken TIdent x :: ts).
Proof.
  unfold name_text. rewrite !andb_true_iff, negb_true_iff. intros [[Hne Htrim%String.eqb_eq] Hall] Hend Hn.
  destruct x as [|c x]; [done|]. destruct n as [|n]; [simpl in Hn; lia|].
  assert (ends_ident c = false /\ bool_decide (Ascii.N_of_ascii c ∈ [sq; dq]) = false) as [Hc1 Hc2].
  { simpl in Hall. rewrite !andb_true_iff, !negb_true_iff in Hall. tauto. }
  assert (span_bytes ends_ident (String c x +:+ rest) = (String c x, rest)) as Hspan.
  { apply span_app; [|done]. apply forallb_forall. intros d Hd. rewrite forallb_forall in Hall. specialize (Hall d Hd). by apply andb_true_iff in Hall as [? _]. }
  destruct (not_special c Hc1 Hc2) as (H1 & H2 & H3). change (String c x +:+ rest) with (String c (x +:+ rest)) in *.
  cbn [tokenize_fuel]. rewrite H1, H2, H3, Hc2, Hspan, Htrim. rewrite Hrest; [done|]. cbn [String.length] in Hn. rewrite length_append in Hn. simpl in Hn. lia.
Qed.

End one_token.

Lemma tokenize_spelled expr ts s : spells ts s -> forall n, (String.length s <= n)%nat -> tokenize_fuel n expr s = Ret ts.
Proof.
  induction 1; intros n Hn; [by destruct n|eapply read_space|by eapply read_sym|by eapply read_op|by eapply read_string|by eapply read_name]; done.
Qed.

(** ** Conditions *)

(** C22: A condition means what its grammar says. The code evaluates while it
    parses; on every text of a condition (chains of [||] over chains of [&&]
    over comparisons, operands, [always] and parentheses, spaced in any way) it
    gives exactly the value of the grammar, errors included, provided no primary
    starts with an operand that reads as an opening parenthesis or as [always]. *)
Theorem condition_value (U : Unicode) (ev : evalContext) (o : or_expr) (text : string) :
  or_ok o = true -> spells (or_tokens o) text -> evalBool ev text = or_value ev o.
Proof.
  intros Ho Ht. unfold evalBool, tokenize. rewrite (tokenize_spelled _ _ _ Ht) by done. cbn [obind].
  rewrite (parse_of ev) by (unfold parser_fuel, measure; simpl; lia). rewrite <- (app_nil_r (or_tokens o)).
  rewrite (proj1 (parse_grammar ev)) by done. destruct (or_value ev o) as [v| | |]; [|done..]. cbn [obind]. by rewrite parse_or_rest.
Qed.

(** Literals are not told from operators: these conditions are errors. *)
Example literals_read_as_operators (U : Unicode) (ev : evalContext) :
  evalBool ev "'(' == '('" = Err (ErrMsg ("unexpected token " +:+ go_quote "==")) /\
  evalBool ev "'always' == github.workflow" = Err (ErrMsg ("unexpected token " +:+ go_quote "==")).
Proof. done. Qed.

(** ** Interpolation *)

(** The opening braces of a text. *)
Definition brace : N := 123.
Definition count_braces (l : list N) : nat := length (List.filter (N.eqb brace) l).
Definition braces (s : string) : nat := count_braces (bytes_of s).

Lemma count_app l r : count_braces (l ++ r) = (count_braces l + count_braces r)%nat.
Proof. unfold count_braces. by rewrite List.filter_app, length_app. Qed.

Lemma count_cons b l : count_braces (b :: l) = ((if (brace =? b)%N then 1 else 0) + count_braces l)%nat.
Proof. unfold count_braces. cbn [List.filter]. by destruct (brace =? b)%N. Qed.

Lemma braces_app s t : braces (s +:+ t) = (braces s + braces t)%nat.
Proof. unfold braces. by rewrite bytes_of_app, count_app. Qed.

Lemma cut_at_spec sub s a b : cut_at sub s = Some (a, b) -> s = a +:+ sub +:+ b.
Proof.
  assert (forall p t, HasPrefix t p = true -> t = p +:+ str_drop (String.length p) t) as Hp.
  { induction p as [|c p IH]; intros t H; [done|]. destruct t as [|d t]; [done|]. simpl in H. destruct (Ascii.eqb_spec c d) as [->|]; [|done].
    rewrite append_cons. f_equal. by apply IH. }
  revert a b. induction s as [|c s IH]; intros a b; cbn [cut_at].
  - destruct (HasPrefix "" sub) eqn:E; [|done]. intros [= <- <-]. by apply Hp.
  - destruct (HasPrefix (String c s) sub) eqn:E; [intros [= <- <-]; by apply Hp|]. destruct (cut_at sub s) as [[x y]|] eqn:Ec; [|done]. simpl. intros [= <- <-].
    rewrite append_cons. f_equal. by apply IH.
Qed.

(** An evaluation that adds no braces to those of the expression. *)
Definition adds_none (eval : string -> outcome string) : Prop :=
  forall e, (exists v, eval e = Ret v /\ (braces v <= braces e)%nat) \/ exists err, eval e = Err err.

Lemma trim_braces s : (braces (TrimSpace s) <= braces s)%nat.
Proof.
  destruct (trim_space_infix s) as (p & q & E). unfold braces, bytes_of. rewrite E, !fmap_app, !count_app. lia.
Qed.

Lemma interpolation_step before rest expr after value :
  cut_at "}}" rest = Some (expr, after) -> (braces value <= braces expr)%nat ->
  (braces (before +:+ value +:+ after) + 2 <= braces (before +:+ "${{" +:+ rest))%nat.
Proof.
  intros H Hv. apply cut_at_spec in H as ->. rewrite !braces_app. change (braces "${{") with 2%nat. lia.
Qed.

Lemma interpolate_ends input eval : adds_none eval -> forall n out, (braces out < n)%nat ->
  (exists r, interpolateString n input eval out = Ret r /\ cut_at "${{" r = None) \/ exists e, interpolateString n input eval out = Err e.
Proof.
  intros Heval. induction n as [|n IH]; intros out Hn; [lia|]. cbn [interpolateString]. destruct (cut_at "${{" out) as [[before rest]|] eqn:E; [|left; by exists out].
  destruct (cut_at "}}" rest) as [[expr after]|] eqn:E2; [|right; by eexists].
  destruct (Heval (TrimSpace expr)) as [(v & -> & Hv)|[err ->]]; [|right; by eexists]. cbn [obind]. apply IH. apply cut_at_spec in E as ->.
  pose proof (trim_braces expr). pose proof (interpolation_step before rest expr after v E2). lia.
Qed.

(** Every value that an expression can look up is free of opening braces. *)
Definition no_braces (m : strmap) : Prop := forall k v, m !! k = Some v -> braces v = 0%nat.
Record clean_context (ev : evalContext) : Prop := {
  cc_root : braces (ev_repoRoot ev) = 0%nat;
  cc_name : braces (ep_WorkflowName (ev_plan ev)) = 0%nat;
  cc_event : braces (ep_Event (ev_plan ev)) = 0%nat;
  cc_inputs : no_braces (ep_Inputs (ev_plan ev));
  cc_steps : forall k s, ev_steps ev !! k = Some s -> no_braces (st_Outputs s);
  cc_needs : forall k j, ev_needs ev !! k = Some j -> braces (js_Result j) = 0%nat /\ no_braces (js_Outputs j);
  cc_getenv : forall k, braces (ev_getenv ev k) = 0%nat
}.

Lemma get_no_braces m k : no_braces m -> braces (get m k) = 0%nat.
Proof. unfold get. destruct (m !! k) as [v|] eqn:E; [|done]. intros H. by apply (H k). Qed.

Lemma lookup_no_braces ev path : clean_context ev -> braces (lookupValue path ev) = 0%nat.
Proof.
  intros [H1 H2 H3 H4 H5 H6 H7]. unfold lookupValue. repeat (case_match; try done); try by apply get_no_braces.
  - destruct (ev_steps ev !! _) as [ss|] eqn:Es; simpl; [|done]. apply get_no_braces. by eapply H5.
  - destruct (ev_needs ev !! _) as [j|] eqn:Ej; simpl; [|done]. by destruct (H6 _ _ Ej).
  - destruct (ev_needs ev !! _) as [j|] eqn:Ej; simpl; [|done]. apply get_no_braces. by destruct (H6 _ _ Ej).
Qed.

Lemma hex_no_braces l : Forall is_byte l -> count_braces (hex_Encode l) = 0%nat.
Proof.
  assert (forall d, (d < 16)%N -> (brace =? toHexChar d)%N = false) as Hd.
  { intros d H. apply N.eqb_neq. unfold toHexChar, brace. destruct (d <? 10)%N eqn:E; [apply N.ltb_lt in E; lia|lia]. }
  unfold hex_Encode. induction 1 as [|b l Hb _ IH]; [done|]. cbn [mbind list_bind]. rewrite count_app, IH, !count_cons.
  rewrite !Hd; [done|by apply N.mod_lt|]. apply N.Div0.div_lt_upper_bound. unfold is_byte in Hb. lia.
Qed.

Lemma sha256_bytes msg : Forall is_byte (sha256 msg).
Proof.
  unfold sha256. apply Forall_join. apply Forall_fmap, Forall_true. intros x. cbv beta. unfold compose, be_bytes. apply Forall_fmap, Forall_true. intros i. by apply N.mod_lt.
Qed.

Lemma hex_of_bytes l : Forall is_byte l -> Forall is_byte (hex_Encode l).
Proof.
  unfold hex_Encode. induction 1 as [|b l Hb _ IH]; [constructor|]. cbn [mbind list_bind]. apply Forall_app. split; [|done].
  assert (forall d, (d < 16)%N -> is_byte (toHexChar d)) as Hd by (intros d H; unfold is_byte, toHexChar; destruct (d <? 10)%N; lia).
  repeat constructor; apply Hd; [apply N.Div0.div_lt_upper_bound; unfold is_byte in Hb; lia|by apply N.mod_lt].
Qed.

Lemma trim_set_braces set l : (count_braces (trim_set set l) <= count_braces l)%nat /\ (Forall is_byte l -> Forall is_byte (trim_set set l)).
Proof.
  induction l as [|b l [IH1 IH2]]; [done|]. simpl. case_bool_decide; [|done]. split.
  - rewrite count_cons. lia.
  - intros Hl. apply IH2. by inversion Hl.
Qed.

Lemma count_reverse l : count_braces (reverse l) = count_braces l.
Proof. induction l as [|b l IH]; [done|]. rewrite reverse_cons, count_app, IH, !count_cons. change (count_braces []) with 0%nat. lia. Qed.

Lemma strings_Trim_braces s set : (braces (strings_Trim s set) <= braces s)%nat.
Proof.
  unfold strings_Trim, braces. set (l := trim_set set (bytes_of s)).
  destruct (trim_set_braces set (bytes_of s)) as [H1 H2]. specialize (H2 (bytes_of_bytes s)). fold l in H1, H2.
  destruct (trim_set_braces set (reverse l)) as [H3 H4]. rewrite bytes_of_of_bytes.
  - rewrite count_reverse. rewrite count_reverse in H3. lia.
  - rewrite Forall_reverse. apply H4. by rewrite Forall_reverse.
Qed.

Lemma scalar_adds_none ev : clean_context ev -> adds_none (fun e => evalScalar (TrimSpace e) ev).
Proof.
  intros Hev e. pose proof (trim_braces e). pose proof (trim_braces (TrimSpace e)). unfold evalScalar. set (x := TrimSpace (TrimSpace e)) in *.
  repeat case_match.
  - left. eexists. split; [done|]. change (braces "") with 0%nat. lia.
  - left. eexists. split; [done|]. pose proof (strings_Trim_braces x [sq]). lia.
  - left. eexists. split; [done|]. pose proof (strings_Trim_braces x [dq]). lia.
  - unfold evalHashFiles. destruct (call_argument x); [|right; by eexists]. destruct (ev_glob ev _) as [err|l]; [right; by eexists|]. cbn [obind of_either].
    destruct (hash_input l) as [bs|err| |] eqn:Eh; [|right; by eexists|exfalso..].
    + left. eexists. split; [done|]. unfold braces. rewrite bytes_of_of_bytes by (apply hex_of_bytes, sha256_bytes). rewrite hex_no_braces by apply sha256_bytes. lia.
    + revert Eh. unfold hash_input. generalize (@nil N). induction l as [|[m [[?|?]|]] l IH]; intros acc; simpl; try discriminate; apply IH.
    + revert Eh. unfold hash_input. generalize (@nil N). induction l as [|[m [[?|?]|]] l IH]; intros acc; simpl; try discriminate; apply IH.
  - left. eexists. split; [done|]. rewrite lookup_no_braces by done. lia.
Qed.

(** The output of a step that refers to itself. *)
Definition self_reference : string := "${{ steps.a.outputs.b }}".

(** *** Templates *)

(** A text as its author means it: literal parts and expressions. *)
Inductive piece := Text (s : string) | Expr (e : string).

Definition piece_text (p : piece) : string := match p with Text s => s | Expr e => "${{" +:+ e +:+ "}}" end.
Definition template_text (ps : list piece) : string := foldr (fun p s => piece_text p +:+ s) "" ps.

(** Every expression replaced by its value, in order, up to the first error. *)
Fixpoint render (ev : evalContext) (ps : list piece) : outcome string :=
  match ps with
  | [] => Ret ""
  | Text s :: ps => let* t := render ev ps in Ret (s +:+ t)
  | Expr e :: ps => let* v := evalScalar (TrimSpace (TrimSpace e)) ev in let* t := render ev ps in Ret (v +:+ t)
  end.

Definition open_brace : Ascii.ascii := Ascii.ascii_of_N 123.
Definition close_brace : Ascii.ascii := Ascii.ascii_of_N 125.

(** No two opening braces in a row; [after] tells whether one came before. *)
Fixpoint no_doubles (after : bool) (s : string) : bool :=
  match s with
  | EmptyString => true
  | String c s' => let b := Ascii.eqb c open_brace in negb (after && b) && no_doubles b s'
  end.

(** Literals neither start with an opening brace nor hold two in a row;
    expressions hold no braces at all. *)
Definition piece_ok (p : piece) : bool :=
  match p with
  | Text s => no_doubles true s
  | Expr e => forallb (fun c => negb (Ascii.eqb c open_brace) && negb (Ascii.eqb c close_brace)) (str_bytes e)
  end.

Lemma no_doubles_weak after s : no_doubles true s = true -> no_doubles after s = true.
Proof. destruct s as [|c s]; [done|]. simpl. rewrite !andb_true_iff, !negb_true_iff. intros [-> H]. by rewrite andb_false_r. Qed.

Lemma no_doubles_app s t : forall after, no_doubles after s = true -> no_doubles true t = true -> no_doubles after (s +:+ t) = true.
Proof.
  induction s as [|c s IH]; intros after Hs Ht; [by apply no_doubles_weak|]. rewrite append_cons. simpl in *. apply andb_true_iff in Hs as [-> Hs]. by apply IH.
Qed.

Lemma braces_cons c s : braces (String c s) = ((if Ascii.eqb c open_brace then 1 else 0) + braces s)%nat.
Proof.
  unfold braces. change (bytes_of (String c s)) with (Ascii.N_of_ascii c :: bytes_of s). rewrite count_cons. f_equal. unfold brace, open_brace.
  destruct (Ascii.eqb_spec c (Ascii.ascii_of_N 123)) as [->|Hne]; [done|]. destruct (N.eqb_spec 123 (Ascii.N_of_ascii c)) as [E|]; [|done].
  destruct Hne. by rewrite E, Ascii.ascii_N_embedding.
Qed.

Lemma braces_none s : braces s = 0%nat -> forall after, no_doubles after s = true.
Proof.
  induction s as [|c s IH]; intros H after; [done|]. rewrite braces_cons in H. simpl. destruct (Ascii.eqb c open_brace); [lia|].
  rewrite andb_false_r. by apply IH.
Qed.

Lemma expr_braces e : piece_ok (Expr e) = true -> braces e = 0%nat.
Proof.
  unfold piece_ok. induction e as [|c e IH]; [done|]. change (str_bytes (String c e)) with (c :: str_bytes e). cbn [forallb]. rewrite !andb_true_iff, !negb_true_iff. intros [[H _] He].
  by rewrite braces_cons, H, IH.
Qed.

(** Compares the byte [c] with the one looked for. *)
Ltac same_byte c := match goal with |- context [Ascii.eqb ?x c] => destruct (Ascii.eqb_spec x c) as [<-|] end.

(** Nothing opens within such a text, not even with what follows it. *)
Lemma opens_not c s rest : no_doubles false (String c s) = true -> HasPrefix (String c (s +:+ "${{" +:+ rest)) "${{" = false.
Proof.
  intros H. cbn [HasPrefix]. same_byte c; [|done]. destruct s as [|d s]; [done|]. rewrite append_cons. cbn [HasPrefix].
  same_byte d; [|done]. destruct s as [|e s]; [done|]. rewrite append_cons. cbn [HasPrefix].
  same_byte e; [|done]. done.
Qed.

Lemma cut_opening s rest : forall after, no_doubles after s = true -> cut_at "${{" (s +:+ "${{" +:+ rest) = Some (s, rest).
Proof.
  induction s as [|c s IH]; intros after H; [by destruct rest|]. rewrite append_cons. cbn [cut_at].
  rewrite opens_not by (simpl in *; by apply andb_true_iff in H as [_ ->]). simpl in H. apply andb_true_iff in H as [_ H]. by rewrite (IH _ H).
Qed.

Lemma cut_no_opening s : forall after, no_doubles after s = true -> cut_at "${{" s = None.
Proof.
  induction s as [|c s IH]; intros after H; [done|]. cbn [cut_at]. assert (HasPrefix (String c s) "${{" = false) as ->.
  { cbn [HasPrefix]. same_byte c; [|done]. destruct s as [|d s]; [done|]. cbn [HasPrefix].
    same_byte d; [|done]. destruct s as [|e s]; [done|]. cbn [HasPrefix]. same_byte e; [by destruct after|done]. }
  simpl in H. apply andb_true_iff in H as [_ H]. by rewrite (IH _ H).
Qed.

Lemma cut_closing e rest : piece_ok (Expr e) = true -> cut_at "}}" (e +:+ "}}" +:+ rest) = Some (e, rest).
Proof.
  unfold piece_ok. induction e as [|c e IH]; [by destruct rest|]. change (str_bytes (String c e)) with (c :: str_bytes e). cbn [forallb]. rewrite !andb_true_iff, !negb_true_iff. intros [[_ H] He].
  rewrite append_cons. cbn [cut_at]. assert (HasPrefix (String c (e +:+ "}}" +:+ rest)) "}}" = false) as ->.
  { cbn [HasPrefix]. same_byte c; [|done]. done. }
  by rewrite IH.
Qed.

(** The loop with a part already done in front. *)
Lemma render_from input ev : clean_context ev -> forall ps front n,
  forallb piece_ok ps = true -> no_doubles true front = true -> (braces (template_text ps) < n)%nat ->
  interpolateString n input (fun e => evalScalar (TrimSpace e) ev) (front +:+ template_text ps) = let* t := render ev ps in Ret (front +:+ t).
Proof.
  intros Hev. induction ps as [|[s|e] ps IH]; intros front n Hok Hfront Hn.
  - destruct n as [|n]; [lia|]. simpl template_text in *. cbn [interpolateString render obind].
    rewrite (cut_no_opening _ true); [done|]. by apply no_doubles_app.
  - cbn [forallb] in Hok. apply andb_true_iff in Hok as [Hs Hok]. change (template_text (Text s :: ps)) with (s +:+ template_text ps) in *.
    rewrite <- append_assoc, IH; [|done|by apply no_doubles_app|rewrite braces_app in Hn; lia]. cbn [render].
    destruct (render ev ps) as [t| | |]; cbn [obind]; [|done..]. by rewrite append_assoc.
  - cbn [forallb] in Hok. apply andb_true_iff in Hok as [He Hok]. destruct n as [|n]; [lia|].
    change (template_text (Expr e :: ps)) with (("${{" +:+ e +:+ "}}") +:+ template_text ps) in *. rewrite !append_assoc. cbn [interpolateString].
    rewrite (cut_opening _ _ true) by done. rewrite cut_closing by done. cbn [render].
    rewrite !braces_app in Hn. change (braces "${{") with 2%nat in Hn.
    destruct (scalar_adds_none ev Hev (TrimSpace e)) as [(v & Hv & Hb)|[err Herr]]; [|by rewrite Herr].
    rewrite Hv. cbn [obind]. pose proof (trim_braces e). rewrite (expr_braces e He) in *. assert (braces v = 0%nat) as Hv0 by lia.
    rewrite <- append_assoc, IH; [|done|apply no_doubles_app; [done|by apply braces_none]|lia].
    destruct (render ev ps) as [t| | |]; cbn [obind]; [|done..]. by rewrite append_assoc.
Qed.

(** C23: Interpolation, when no value it can look up holds an opening brace, gives
    on a template exactly its literals with every expression replaced by its
    value, or the error of the first expression that has one; on any text it
    ends, after at most as many rounds as the text has braces, in a text without
    openings, or, only when the text has an opening, in an error. Otherwise it
    need not end: the result of an expression is scanned again, so a step's
    output that names itself is expanded for ever. *)
Theorem interpolation_ends (ev : evalContext) (value : string) (fuel : nat) :
  (clean_context ev -> (braces value < fuel)%nat ->
   (forall ps, forallb piece_ok ps = true -> value = template_text ps -> interpolateValue fuel value ev = render ev ps) /\
   ((exists r, interpolateValue fuel value ev = Ret r /\ cut_at "${{" r = None) \/
    exists e, interpolateValue fuel value ev = Err e /\ cut_at "${{" value <> None)) /\
  (get (st_Outputs (default (mkStepState ∅) (ev_steps ev !! "a"))) "b" = self_reference -> interpolateValue fuel self_reference ev = Diverge).
Proof.
  split.
  - intros Hev Hf. split.
    + intros ps Hok ->. unfold interpolateValue. rewrite (render_from _ ev Hev ps "") by done. by destruct (render ev ps).
    + destruct (interpolate_ends value (fun e => evalScalar (TrimSpace e) ev) (scalar_adds_none ev Hev) fuel value Hf) as [H|[e He]]; [by left|].
      right. exists e. split; [done|]. intros Hc. destruct fuel as [|n]; [lia|]. cbn [interpolateString] in He. by rewrite Hc in He.
  - intros Hs. unfold interpolateValue. assert (evalScalar (TrimSpace (TrimSpace " steps.a.outputs.b ")) ev = Ret self_reference) as He.
    { change (TrimSpace (TrimSpace " steps.a.outputs.b ")) with "steps.a.outputs.b". unfold evalScalar. change (TrimSpace "steps.a.outputs.b") with "steps.a.outputs.b".
      cbn -[get]. f_equal. exact Hs. }
    generalize self_reference at 1 as input. intros input. induction fuel as [|n IH]; [done|]. cbn [interpolateString].
    change (cut_at "${{" self_reference) with (Some ("", " steps.a.outputs.b }}")). cbv iota beta.
    change (cut_at "}}" " steps.a.outputs.b }}") with (Some (" steps.a.outputs.b ", "")). cbv iota beta.
    rewrite He. cbn [obind]. change ("" +:+ self_reference +:+ "") with self_reference. apply IH.
Qed.

(** ** The host's variables *)

Lemma cut_byte_spec c l a b : cut_byte c l = (a, Some b) -> exists x, Ascii.N_of_ascii x = c /\ l = a ++ x :: b.
Proof.
  revert a b. induction l as [|x l IH]; intros a b; simpl; [done|]. unfold byte_is. destruct (N.eqb_spec (Ascii.N_of_ascii x) c) as [E|].
  - intros [= <- <-]. by exists x.
  - destruct (cut_byte c l) as [a' b'] eqn:E. intros [= <- ->]. destruct (IH a' b eq_refl) as (y & Hy & ->). exists y. done.
Qed.

Lemma cut_equals s k v : cut_string 61 s = Some (k, v) -> s = k +:+ "=" +:+ v.
Proof.
  unfold cut_string. destruct (cut_byte 61 (str_bytes s)) as [a [b|]] eqn:E; [|done]. intros [= <- <-]. apply cut_byte_spec in E as (x & Hx & E).
  assert (x = Ascii.ascii_of_N 61) as -> by (by rewrite <- Hx, Ascii.ascii_N_embedding).
  transitivity (str_of_bytes (str_bytes s)); [by rewrite str_of_str_bytes|]. rewrite E. clear. unfold str_of_bytes.
  induction a as [|y a IH]; [done|]. simpl. rewrite append_cons. by f_equal.
Qed.

Lemma host_pair_sound pairs : forall m k v, foldl host_pair m pairs !! k = Some v ->
  m !! k = Some v \/ (k ∈ hostEnvAllowlist /\ (k +:+ "=" +:+ v) ∈ pairs).
Proof.
  induction pairs as [|kv pairs IH]; intros m k v; simpl; [by left|]. intros H%IH. destruct H as [H|[H1 H2]]; [|right; split; [done|by right]].
  unfold host_pair in H. destruct (cut_string 61 kv) as [[key value]|] eqn:E; [|by left].
  destruct (negb _ && in_list hostEnvAllowlist key) eqn:Ek; [|by left]. apply andb_true_iff in Ek as [_ Hin]. apply in_list_cases in Hin.
  destruct (decide (key = k)) as [->|Hne]; [|rewrite lookup_insert_ne in H by done; by left]. rewrite lookup_insert_eq in H. injection H as ->.
  right. split; [by apply list_elem_of_In|]. rewrite (cut_equals _ _ _ E). by left.
Qed.

(** What a step sees of the host's environment. The environment a run
    starts from holds, besides what the workflow sets, only variables of the
    allowlist. But the expressions [secrets.K] and [vars.K] give the host's
    variable K whatever it is, allowlist or not, so a workflow reads any
    variable of the process, such as the key of the cluster's secrets. *)
Theorem host_variables (pairs : list string) (overrides : strmap) (ev : evalContext) (K : string) :
  (forall k v, buildBaseEnvFrom pairs overrides !! k = Some v ->
     overrides !! k = Some v \/ (k ∈ hostEnvAllowlist /\ (k +:+ "=" +:+ v) ∈ pairs)) /\
  (Forall (fun c => graphic c = true) (str_bytes K) ->
   evalScalar ("secrets." +:+ K) ev = Ret (ev_getenv ev K) /\ evalScalar ("vars." +:+ K) ev = Ret (ev_getenv ev K)).
Proof.
  split.
  - intros k v. unfold buildBaseEnvFrom. rewrite lookup_union_Some_raw. intros [H|[_ H]]; [by left|].
    destruct (host_pair_sound _ _ _ _ H) as [H'|H']; [done|by right].
  - intros HK. assert (forall p, Forall (fun c => graphic c = true) (str_bytes p) -> TrimSpace (p +:+ K) = p +:+ K) as Ht.
    { intros p Hp. apply TrimSpace_graphics. rewrite str_bytes_app. by apply Forall_app. }
    assert (forall p, TrimPrefix (p +:+ K) p = K) as Hd.
    { intros p. unfold TrimPrefix. assert (HasPrefix (p +:+ K) p = true /\ str_drop (String.length p) (p +:+ K) = K) as [-> ->]; [|done].
      induction p as [|c p IH]; [by destruct K|]. rewrite append_cons. simpl. by rewrite Ascii.eqb_refl. }
    assert (forall q c t, (Ascii.N_of_ascii c =? q)%N = false -> quoted_by q (String c t) = false) as Hq.
    { intros q c t Hc. unfold quoted_by. change (bytes_of (String c t)) with (Ascii.N_of_ascii c :: bytes_of t). cbv iota beta. rewrite Hc. by destruct (last _). }
    assert (forall p c t, p = String c t -> Forall (fun c => graphic c = true) (str_bytes p) -> (Ascii.N_of_ascii c =? sq)%N = false -> (Ascii.N_of_ascii c =? dq)%N = false ->
      HasPrefix (p +:+ K) "hashFiles(" = false -> lookupValue (p +:+ K) ev = ev_getenv ev (TrimPrefix (p +:+ K) p) -> evalScalar (p +:+ K) ev = Ret (ev_getenv ev K)) as H.
    { intros p c t Ep Hp H1 H2 H3 H4. rewrite Hd in H4. unfold evalScalar. rewrite Ht, H3, H4 by done. subst p. rewrite append_cons, !Hq by done. done. }
    split; [apply (H "secrets." _ _ eq_refl)|apply (H "vars." _ _ eq_refl)]; try reflexivity; try (by destruct K); repeat (apply Forall_cons_2; [done|]); by apply Forall_nil_2.
Qed.

(** ** Where artifacts and caches go *)

Lemma replace_byte_bytes old new s : (new < 256)%N -> bytes_of (replace_byte old new s) = ((fun b => if (b =? old)%N then new else b) <$> bytes_of s).
Proof.
  intros Hn. unfold replace_byte. apply bytes_of_of_bytes. apply Forall_fmap. eapply Forall_impl; [apply bytes_of_bytes|]. intros b Hb. simpl. by destruct (b =? old)%N.
Qed.

Lemma sanitize_segment name : (slash ∉ bytes_of (sanitizeName name)) /\ bytes_of (sanitizeName name) <> [].
Proof.
  unfold sanitizeName. set (x := replace_byte 32 95 _). destruct (String.eqb_spec x "") as [_|Hx].
  - split; [|done]. vm_compute. intros H. repeat (apply elem_of_cons in H as [H|H]; [discriminate|]). by apply elem_of_nil in H.
  - split; [|by intros H%bytes_of_nil]. unfold x. rewrite !replace_byte_bytes by done. intros (b & Hb & Hin)%list_elem_of_fmap.
    apply list_elem_of_fmap in Hin as (c & Hc & _). destruct (N.eqb_spec c 47); destruct (N.eqb_spec b 32); unfold slash in Hb; congruence.
Qed.

(** Where a run puts an artifact. Under the root directory of a run, a name
    gives a path one level down, however it is written, unless its cleaned form
    is a dot, which gives the root itself, or two dots: then the path is the
    directory above the root, which the code removes before it copies there.
    The same holds of the keys of the cache. *)
Theorem artifact_paths (ss : list (list N)) (name : string) :
  Forall plain_segment ss -> Forall (Forall is_byte) ss ->
  artifact_path (rooted_path ss) name =
    (let x := bytes_of (sanitizeName name) in
     rooted_path (if decide (x = seg_dot) then ss else if decide (x = seg_dotdot) then take (length ss - 1) ss else ss ++ [x])).
Proof.
  intros Hp Hb. destruct (sanitize_segment name) as [Hs Hne]. cbv zeta. unfold artifact_path. rewrite path_Join_below by done.
  set (x := bytes_of (sanitizeName name)) in *. rewrite split_free by done. cbn [foldl]. unfold clean_step. f_equal.
  rewrite bool_decide_eq_false_2 by done. simpl orb. case_decide as H1; [rewrite bool_decide_eq_true_2 by done; by rewrite reverse_involutive|].
  rewrite bool_decide_eq_false_2 by done. case_decide as H2.
  - rewrite bool_decide_eq_true_2 by done. destruct ss as [|s ss] using rev_ind; [done|]. rewrite reverse_app. simpl.
    apply Forall_app in Hp as [_ Hp]. inversion Hp as [|? ? [_ _ Hdd _] _]; subst. rewrite bool_decide_eq_false_2 by done.
    rewrite reverse_involutive, length_app, take_app_le by (simpl; lia). simpl. by rewrite Nat.add_sub, take_ge.
  - rewrite bool_decide_eq_false_2 by done. by rewrite reverse_cons, reverse_involutive.
Qed.

(** ** The results of a run *)

(** Every end of [m], from a state where [P] holds, is one where [Q] holds. *)
Definition rpost {A} (P : runState -> Prop) (m : R A) (Q : runState -> ending + A -> Prop) : Prop :=
  forall st w st' r w', P st -> m st w = (Ret (st', r), w') -> Q st' r.

Lemma rpost_bind {A B} P (m : R A) (k : A -> R B) (Q : runState -> A -> Prop) (Q' : runState -> ending + B -> Prop) :
  rpost P m (fun st r => match r with inl e => Q' st (inl e) | inr a => Q st a end) ->
  (forall a, rpost (fun st => Q st a) (k a) Q') -> rpost P (rbind m k) Q'.
Proof.
  intros Hm Hk st w st' r w' HP E. unfold rbind, bind in E. destruct (m st w) as [[[st1 r1]| | |] w1] eqn:Em; try discriminate.
  specialize (Hm _ _ _ _ _ HP Em). simpl in E. destruct r1 as [e|a]; [injection E as <- <- <-; done|]. by eapply Hk.
Qed.

Lemma rpost_consequence {A} (P P' : runState -> Prop) (m : R A) (Q Q' : runState -> ending + A -> Prop) :
  rpost P m Q -> (forall st, P' st -> P st) -> (forall st r, Q st r -> Q' st r) -> rpost P' m Q'.
Proof. intros H HP HQ st w st' r w' H0 E. eapply HQ, H; eauto. Qed.

(** A computation that leaves the results alone and does not end the run as a
    step that fails does. *)
Definition reported (st : runState) : list JobRunResult * gmap string jobState := (rs_results st, rs_needs st).
Definition silent {A} (r : ending + A) : Prop := match r with inl (EndErr b _) => b = false | _ => True end.
Definition keeps {A} (m : R A) : Prop := forall rep, rpost (fun st => reported st = rep) m (fun st r => reported st = rep /\ silent r).

Create HintDb runs_keep.

Lemma keeps_bind {A B} (m : R A) (k : A -> R B) : keeps m -> (forall a, keeps (k a)) -> keeps (rbind m k).
Proof.
  intros Hm Hk rep. apply (rpost_bind _ _ _ (fun st _ => reported st = rep)); [|intros a; apply Hk].
  eapply rpost_consequence; [apply (Hm rep)|done|]. intros st [e|a] [H1 H2]; done.
Qed.

Lemma keeps_sbind {A B} (m : R (error + A)) (k : A -> R (error + B)) : keeps m -> (forall a, keeps (k a)) -> keeps (sbind m k).
Proof.
  intros Hm Hk. apply keeps_bind; [done|]. intros [e|a]; [|apply Hk]. intros rep st w st' r w' H E. by injection E as <- <- <-.
Qed.

Lemma keeps_ret {A} (a : A) : keeps (rret a).
Proof. intros rep st w st' r w' H E. by injection E as <- <- <-. Qed.

Lemma keeps_end {A} e : @silent A (inl e) -> keeps (@rend A e).
Proof. intros He rep st w st' r w' H E. by injection E as <- <- <-. Qed.

Lemma keeps_lift {A} (m : M A) : keeps (lift m).
Proof. intros rep st w st' r w' H E. unfold lift, bind in E. destruct (m w) as [[a| | |] w1]; try discriminate. by injection E as <- <- <-. Qed.

Lemma keeps_gets {A} (f : runState -> A) : keeps (gets f).
Proof. intros rep st w st' r w' H E. by injection E as <- <- <-. Qed.

Lemma keeps_modify f : (forall st, reported (f st) = reported st) -> keeps (modify f).
Proof. intros Hf rep st w st' r w' H E. injection E as <- <- <-. by rewrite Hf. Qed.

Lemma keeps_pure {A} on_err (m : outcome A) : (forall e, @silent A (inl (on_err e))) -> keeps (pure on_err m).
Proof. intros He. destruct m; [apply keeps_ret|by apply keeps_end..]. Qed.

Lemma keeps_failing {A} (m : outcome A) : keeps (failing m).
Proof. destruct m; [apply keeps_ret|apply keeps_ret|by apply keeps_end..]. Qed.

#[export] Hint Resolve keeps_ret keeps_lift keeps_gets keeps_failing : runs_keep.

(** Goes through a step of a run; what is left are ends and changes of state. *)
Ltac solve_keeps :=
  repeat first
    [ progress (intros; cbv zeta)
    | solve [eauto with runs_keep]
    | apply keeps_sbind
    | apply keeps_bind
    | apply keeps_pure; done
    | apply keeps_end; done
    | apply keeps_modify; done
    | case_match ].

Section run_results.
Context {env : Env} {S : Sorter} {U : Unicode} {Y : Yaml} {H : RunnerHost}.
Context (fuel : nat) (plan : ExecutionPlan) (write : list N -> lineLogWriter -> M lineLogWriter).

Lemma keeps_print bs : keeps (print write bs).
Proof. intros rep st w st' r w' Hr E. unfold print, bind in E. destruct (write bs (rs_writer st) w) as [[a| | |] w1]; try discriminate. by injection E as <- <- <-. Qed.

Lemma keeps_context steps : keeps (context plan steps).
Proof. intros rep st w st' r w' Hr E. unfold context, bind in E. destruct (rh_glob w) as [[a| | |] w1]; try discriminate. by injection E as <- <- <-. Qed.

Lemma keeps_status ctx m : keeps (of_status ctx m).
Proof. unfold of_status. solve_keeps. Qed.

Lemma keeps_call {A} (m : M (error + A)) : keeps (of_call m).
Proof. apply keeps_lift. Qed.
Hint Resolve keeps_print keeps_context keeps_status keeps_call : runs_keep.

Lemma keeps_agent key e : keeps (startSSHAgent write key e).
Proof. unfold startSSHAgent. solve_keeps. Qed.

Lemma keeps_command step e ev : keeps (runCommandStep fuel plan write step e ev).
Proof. unfold runCommandStep. solve_keeps. Qed.
Hint Resolve keeps_agent keeps_command : runs_keep.

Lemma keeps_step a c step e ev : keeps (runStep fuel plan write a c step e ev).
Proof. unfold runStep, plain_result, tool, artifacts_Save. destruct (cs_Kind step); solve_keeps. Qed.
Hint Resolve keeps_step : runs_keep.

Definition result_row (job : CompiledJob) (r : JobRunResult) (results : list string) : Prop :=
  jr_ID r = cj_ID job /\ jr_Name r = cj_Name job /\ jr_Result r ∈ results.
Definition completed (job : CompiledJob) (r : JobRunResult) : Prop := result_row job r ["success"; "skipped"].

(** From the results [rows]: no change, or the failure of the job [job] added. *)
Definition goes_on {A} (rows : list JobRunResult) (job : CompiledJob) (st : runState) (r : ending + A) : Prop :=
  (rs_results st = rows /\ silent r) \/
  (exists e row, r = inl (EndErr true e) /\ rs_results st = rows ++ [row] /\ result_row job row ["failure"]).

(** A silent part, and then the rest. *)
Lemma goes_on_bind {A B} rows job (m : R A) (k : A -> R B) :
  keeps m -> (forall a, rpost (fun st => rs_results st = rows) (k a) (goes_on rows job)) ->
  rpost (fun st => rs_results st = rows) (rbind m k) (goes_on rows job).
Proof.
  intros Hm Hk. apply (rpost_bind _ _ _ (fun st _ => rs_results st = rows)); [|done].
  intros st w st' r w' Hst E. destruct (Hm (reported st) _ _ _ _ _ eq_refl E) as [[= H1 _] H2]. destruct r as [e|a]; [left|]; rewrite H1; done.
Qed.

Lemma goes_on_keeps {A} rows job (m : R A) : keeps m -> rpost (fun st => rs_results st = rows) m (goes_on rows job).
Proof. intros Hm st w st' r w' Hst E. destruct (Hm (reported st) _ _ _ _ _ eq_refl E) as [[= H1 _] H2]. left. rewrite H1. done. Qed.

Lemma run_step_goes_on a c job jobEnv step steps rows :
  rpost (fun st => rs_results st = rows) (run_step fuel plan write a c job jobEnv step steps) (goes_on rows job).
Proof.
  unfold run_step. apply goes_on_bind; [auto with runs_keep|]. intros ctx. apply goes_on_bind; [by apply keeps_pure|]. intros skip.
  destruct skip; [apply goes_on_keeps; unfold println; solve_keeps|]. apply goes_on_bind; [unfold println; auto with runs_keep|]. intros _.
  apply goes_on_bind; [by apply keeps_pure|]. intros e. apply goes_on_bind; [by apply keeps_pure|]. intros _.
  apply goes_on_bind; [auto with runs_keep|]. intros [err|res].
  - intros st w st' r w' Hst E. injection E as <- <- <-. right. eexists _, _. split; [done|]. simpl. rewrite Hst. split; [done|]. repeat split. by apply list_elem_of_singleton.
  - apply goes_on_keeps, keeps_bind; [|intros; apply keeps_bind; [|intros; apply keeps_ret]]; apply keeps_modify; intros st; [by destruct (sr_cleanup res)|by destruct (cs_Kind step)].
Qed.

Lemma run_steps_goes_on a c job jobEnv l : forall steps rows,
  rpost (fun st => rs_results st = rows) (run_steps fuel plan write a c job jobEnv l steps) (goes_on rows job).
Proof.
  induction l as [|step l IH]; intros steps rows; [apply goes_on_keeps, keeps_ret|]. cbn [run_steps].
  apply (rpost_bind _ _ _ (fun st _ => rs_results st = rows)); [|intros; apply IH].
  eapply rpost_consequence; [apply (run_step_goes_on a c job jobEnv step steps rows)|done|]. intros st [e|s'] [[H1 H2]|(e' & row & H1 & H2 & H3)]; [by left| |done|done].
  right. injection H1 as ->. by exists e', row.
Qed.

(** The job adds a row that says it was completed or failed, or ends the run. *)
Definition job_post (rows : list JobRunResult) (job : CompiledJob) (st : runState) (r : ending + unit) : Prop :=
  match r with
  | inr _ => exists row, rs_results st = rows ++ [row] /\ completed job row
  | inl (EndErr true _) => exists row, rs_results st = rows ++ [row] /\ result_row job row ["failure"]
  | inl _ => True
  end.

Lemma end_post rows job st r : @goes_on unit rows job st (inl r) -> job_post rows job st (inl r).
Proof. intros [[_ H2]|(e & row & [= ->] & H1 & H2)]; [destruct r as [[] e| |]; done|]. by exists row. Qed.

Lemma job_bind {A} rows job (m : R A) (k : A -> R unit) :
  rpost (fun st => rs_results st = rows) m (goes_on rows job) -> (forall a, rpost (fun st => rs_results st = rows) (k a) (job_post rows job)) ->
  rpost (fun st => rs_results st = rows) (rbind m k) (job_post rows job).
Proof.
  intros Hm Hk. apply (rpost_bind _ _ _ (fun st _ => rs_results st = rows)); [|done]. eapply rpost_consequence; [exact Hm|done|].
  intros st [e|a] Hg.
  - apply end_post. destruct Hg as [[H1 H2]|(e' & row & [= ->] & H1 & H2)]; [by left|right; eauto].
  - by destruct Hg as [[H1 _]|(? & ? & ? & _)].
Qed.

(** After the row is added, only silent parts follow. *)
Lemma add_row rows job res outputs (m : R unit) : res ∈ ["success"; "skipped"] -> keeps m ->
  rpost (fun st => rs_results st = rows) (rbind (modify (add_result (cj_ID job) (cj_Name job) res outputs)) (fun _ => m)) (job_post rows job).
Proof.
  intros Hres Hm st w st' r w' Hst E. set (st1 := add_result (cj_ID job) (cj_Name job) res outputs st). assert (m st1 w = (Ret (st', r), w')) as E' by exact E.
  destruct (Hm (reported st1) _ _ _ _ _ eq_refl E') as [[= H1 _] H2]. destruct r as [[[] e| |]|[]]; simpl; try done.
  rewrite H1. unfold st1. simpl. rewrite Hst. eexists. split; [done|]. done.
Qed.

Lemma run_job_post a c base job rows : rpost (fun st => rs_results st = rows) (run_job fuel plan write a c base job) (job_post rows job).
Proof.
  unfold run_job. apply job_bind; [apply goes_on_keeps; auto with runs_keep|]. intros ctx. apply job_bind; [by apply goes_on_keeps, keeps_pure|]. intros skip.
  destruct skip; [apply add_row; [set_solver|unfold println; auto with runs_keep]|]. apply job_bind; [apply goes_on_keeps; unfold println; auto with runs_keep|]. intros _.
  apply job_bind; [apply goes_on_keeps; auto with runs_keep|]. intros ssh. apply job_bind; [by apply goes_on_keeps, keeps_pure|]. intros jobEnv.
  apply job_bind; [apply run_steps_goes_on|]. intros steps. apply job_bind; [apply goes_on_keeps; auto with runs_keep|]. intros ctx'.
  apply job_bind; [by apply goes_on_keeps, keeps_pure|]. intros outputs. apply add_row; [set_solver|]. solve_keeps.
Qed.

(** The rows of a run: of the jobs up to the one that failed, or of all. *)
Definition run_post (rows : list JobRunResult) (jobs : list CompiledJob) (st : runState) (r : ending + unit) : Prop :=
  match r with
  | inr _ => exists l, rs_results st = rows ++ l /\ Forall2 completed jobs l
  | inl (EndErr true _) => exists ok job rest l row, jobs = ok ++ job :: rest /\ rs_results st = rows ++ l ++ [row] /\
      Forall2 completed ok l /\ result_row job row ["failure"]
  | inl _ => True
  end.

Lemma run_jobs_post a c base jobs : forall rows,
  rpost (fun st => rs_results st = rows) (run_jobs fuel plan write a c base jobs) (run_post rows jobs).
Proof.
  induction jobs as [|job jobs IH]; intros rows; cbn [run_jobs].
  { intros st w st' r w' Hst E. injection E as <- <- <-. exists []. rewrite app_nil_r. by split. }
  apply (rpost_bind _ _ _ (fun st _ => exists row, rs_results st = rows ++ [row] /\ completed job row)).
  - eapply rpost_consequence; [apply (run_job_post a c base job rows)|done|]. intros st [[[] e| |]|[]] Hj; simpl in *; try done. destruct Hj as (row & H1 & H2).
    exists [], job, jobs, [], row. by split_and!.
  - intros _ st w st' r w' (row & H1 & H2) E. specialize (IH (rows ++ [row]) st w st' r w' H1 E). destruct r as [[[] e| |]|[]]; simpl in *; try done.
    + destruct IH as (ok & j & rest & l & row' & -> & E1 & Hl & Hr). exists (job :: ok), j, rest, (row :: l), row'.
      rewrite E1, <- app_assoc. split_and!; [done..|by constructor|done].
    + destruct IH as (l & E1 & Hl). exists (row :: l). rewrite E1, <- app_assoc. split; [done|by constructor].
Qed.

End run_results.

(** What a run reports: the completed jobs in the order of the plan, and the one
    that failed; or nothing, when an expression or the host ended it. *)
Definition run_report (jobs : list CompiledJob) (rows : list JobRunResult) (err : option error) : Prop :=
  match err with
  | None => Forall2 completed jobs rows
  | Some _ => rows = [] \/ exists ok job rest l row, jobs = ok ++ job :: rest /\ rows = l ++ [row] /\ Forall2 completed ok l /\ result_row job row ["failure"]
  end.

Lemma run_reports {env : Env} {S : Sorter} {U : Unicode} {Y : Yaml} {H : RunnerHost} fuel plan write opts writer w writer' result err w' :
  Run fuel plan write opts writer w = (Ret (writer', result, err), w') -> run_report (ep_Jobs plan) (rr_Jobs result) err.
Proof.
  unfold Run. intros (a & w1 & _ & E)%bind_inv. destruct a as [e|root]; [injection E as <- <- <- _; by left|].
  apply bind_inv in E as (c & w2 & _ & E). destruct c as [e|cache]; [injection E as <- <- <- _; by left|].
  apply bind_inv in E as ([st r] & w3 & E1 & E). apply run_jobs_post with (rows := []) in E1; [|done]. simpl in E.
  destruct r as [[b e| |]|[]]; try discriminate.
  - apply bind_inv in E as (? & w4 & _ & E). injection E as <- <- <- _. destruct b; [|by left]. destruct E1 as (ok & job & rest & l & row & H1 & H2 & H3).
    right. exists ok, job, rest, l, row. destruct H3 as [H3 H4]; simpl in *; by split_and!.
  - apply bind_inv in E as (? & w4 & _ & E). discriminate.
  - apply bind_inv in E as (? & w4 & _ & E). injection E as <- <- <- _. destruct E1 as (l & H1 & H2). simpl in *. by rewrite H1.
Qed.

(** A row of the report before the one of [id] that says job [d] was completed. *)
Definition reported_before (rows : list JobRunResult) (d id : string) : Prop :=
  exists l1 r l2, rows = l1 ++ r :: l2 /\ jr_ID r = id /\ exists r', r' ∈ l1 /\ jr_ID r' = d /\ jr_Result r' ∈ ["success"; "skipped"].

Lemma completed_rows ok l d : Forall2 completed ok l -> d ∈ cj_ID <$> ok -> exists r, r ∈ l /\ jr_ID r = d /\ jr_Result r ∈ ["success"; "skipped"].
Proof.
  intros Hl (job & -> & Hin)%list_elem_of_fmap. apply list_elem_of_lookup in Hin as [i Hi]. destruct (Forall2_lookup_l _ _ _ _ _ Hl Hi) as (r & Hr & H1 & _ & H3).
  exists r. split; [by eapply list_elem_of_lookup_2|done].
Qed.

Lemma nodup_split {A B} (f : A -> B) l a x b a' y b' : NoDup (f <$> l) -> l = a ++ x :: b -> l = a' ++ y :: b' -> f x = f y -> a = a' /\ x = y.
Proof.
  intros Hnd E1 E2 Hf. assert ((f <$> l) !! length a = Some (f x)) as H1 by (by rewrite E1, list_lookup_fmap, list_lookup_middle).
  assert ((f <$> l) !! length a' = Some (f y)) as H2 by (by rewrite E2, list_lookup_fmap, list_lookup_middle).
  rewrite Hf in H1. pose proof (NoDup_lookup _ _ _ _ Hnd H1 H2) as Hlen. rewrite E1 in E2. apply app_inj_1 in E2 as [-> [= ->]]; done.
Qed.

(** The rows of a report belong to a first part of the jobs, and those before a row are completed. *)
Lemma report_prefix jobs rows err : run_report jobs rows err ->
  exists pre rest, jobs = pre ++ rest /\ jr_ID <$> rows = cj_ID <$> pre /\
    forall l1 j l2, pre = l1 ++ j :: l2 -> exists rows1 r rows2, rows = rows1 ++ r :: rows2 /\ Forall2 completed l1 rows1 /\ jr_ID r = cj_ID j.
Proof.
  assert (forall js rs, Forall2 completed js rs -> jr_ID <$> rs = cj_ID <$> js) as Hids.
  { induction 1 as [|j r js rs [H _] _ IH]; [done|]. by rewrite !fmap_cons, H, IH. }
  assert (forall l1 j l2 rs, Forall2 completed (l1 ++ j :: l2) rs -> exists rows1 r rows2, rs = rows1 ++ r :: rows2 /\ Forall2 completed l1 rows1 /\ jr_ID r = cj_ID j) as Hsplit.
  { intros l1 j l2 rs (r1 & r2 & H1 & H2 & ->)%Forall2_app_inv_l. apply Forall2_cons_inv_l in H2 as (r & r3 & [H2 _] & _ & ->). by exists r1, r, r3. }
  destruct err as [e|]; intros Hr; simpl in Hr.
  - destruct Hr as [->|(ok & job & rest & l & row & -> & -> & Hok & Hrow & _)]; [exists [], jobs; split_and!; try done; by intros [] ? ?|].
    exists (ok ++ [job]), rest. rewrite <- app_assoc. split; [done|]. split; [rewrite !fmap_app, (Hids _ _ Hok); simpl; by rewrite Hrow|].
    intros l1 j l2 E. destruct l2 as [|x l2] using rev_ind.
    + apply app_inj_tail in E as [-> ->]. by exists l, row, [].
    + rewrite app_comm_cons, app_assoc in E. apply app_inj_tail in E as [-> _]. destruct (Hsplit _ _ _ _ Hok) as (rows1 & r & rows2 & -> & H1 & H2).
      exists rows1, r, (rows2 ++ [row]). by rewrite <- app_assoc.
  - exists jobs, []. rewrite app_nil_r. split; [done|]. split; [by apply Hids|]. intros l1 j l2 ->. by apply (Hsplit l1 j l2).
Qed.

(** C20: From a workflow file to the report of its run. Whatever the host does,
    the report of a compiled plan lists jobs in the order of the plan: all of
    them, completed, when the run has no error; those completed and at last the
    one that failed, when a step fails; none when an expression ends the run. A
    job is reported only after every job it needs was completed. *)
Theorem run_respects_needs (env : Env) (S : Sorter) (U : Unicode) (Y : Yaml) (H : RunnerHost) (FS : WorkflowFS)
    (path : string) (req : CompileRequest) (plan : ExecutionPlan) (fuel : nat) (write : list N -> lineLogWriter -> M lineLogWriter)
    (opts : strmap) (writer writer' : lineLogWriter) (result : RunResult) (err : option error) (w w' : World) :
  loadWorkflow path = Ret (cr_Workflow req) -> Compile req = Ret plan ->
  Run fuel plan write opts writer w = (Ret (writer', result, err), w') ->
  run_report (ep_Jobs plan) (rr_Jobs result) err /\
  forall l1 job l2 d, ep_Jobs plan = l1 ++ job :: l2 -> d ∈ cj_Needs job -> cj_ID job ∈ jr_ID <$> rr_Jobs result ->
    reported_before (rr_Jobs result) d (cj_ID job).
Proof.
  intros Hload%load_keyed Hc E%run_reports. split; [done|]. intros l1 job l2 d El Hd Hin. destruct (compile_ordered _ _ Hload Hc) as [Hnd Hord].
  destruct (report_prefix _ _ _ E) as (pre & rest & Ejobs & Hids & Hpre). rewrite Hids in Hin. apply list_elem_of_fmap in Hin as (j & Hj & Hin).
  apply list_elem_of_split in Hin as (p1 & p2 & ->). destruct (Hpre _ _ _ eq_refl) as (rows1 & r & rows2 & Er & Hrows & Hr).
  rewrite <- app_assoc in Ejobs. destruct (nodup_split cj_ID _ _ _ _ _ _ _ Hnd El Ejobs Hj) as [<- <-].
  exists rows1, r, rows2. split; [done|]. split; [done|]. eapply completed_rows; [done|]. by eapply Hord.
Qed.

(** ** Examples *)

(** A context whose host has a key, and one whose step refers to itself. *)
Definition sample_plan : ExecutionPlan := mkPlan "ci" "ci.yml" "push" "/w" ∅ [].
Definition host_env (k : string) : string := if String.eqb k "KINDLING_MASTER_KEY" then "s3cret" else "".
Definition sample_context (steps : gmap string stepState) : evalContext :=
  mkEval "/w" sample_plan steps {[ "build" := mkJobState "success" ∅ ]} host_env (fun _ => inr []).

(** [needs.build.result == 'success' && (always() || 'x')]. *)
Definition sample_condition : or_expr :=
  Or1 (AndMore (And1 (Equal (Name "needs.build.result") (Literal "success"))) (Paren (OrMore (Or1 (And1 (Always true))) (And1 (Truthy (Literal "x")))))).

(** It needs no spaces, and takes quotes of either kind. *)
Definition sample_condition_text : string := "needs.build.result=='success' && (always()||" +:+ String (Ascii.ascii_of_N dq) ("x" +:+ String (Ascii.ascii_of_N dq) ")").

Lemma sample_spelled : spells (or_tokens sample_condition) sample_condition_text.
Proof.
  change sample_condition_text with ("needs.build.result" +:+ "==" +:+ String (Ascii.ascii_of_N sq) ("success" +:+ String (Ascii.ascii_of_N sq)
    (String (Ascii.ascii_of_N 32) ("&&" +:+ String (Ascii.ascii_of_N 32) ("(" +:+ "always" +:+ "(" +:+ ")" +:+ "||" +:+
      String (Ascii.ascii_of_N dq) ("x" +:+ String (Ascii.ascii_of_N dq) (")" +:+ ""))))))).
  cbn [or_tokens and_tokens primary_tokens operand_token sample_condition app].
  repeat (constructor; [first [done | set_solver | vm_compute; set_solver | vm_compute; done]..|]). constructor.
Qed.

Lemma condition_value_witness : evalBool (sample_context ∅) sample_condition_text = Ret true.
Proof. rewrite (condition_value sample_unicode (sample_context ∅) sample_condition); [vm_compute; reflexivity|vm_compute; reflexivity|exact sample_spelled]. Defined.

Lemma sample_clean : clean_context (sample_context ∅).
Proof.
  split; try done.
  - intros k j. simpl. intros [_ <-]%lookup_singleton_Some. split; done.
  - intros k. simpl. unfold host_env. by destruct (String.eqb k _).
Qed.

Lemma interpolation_ends_witness :
  interpolateValue 5 "on ${{ github.event_name }}" (sample_context ∅) = Ret "on push" /\
  interpolateValue 1000 self_reference (sample_context {[ "a" := mkStepState {[ "b" := self_reference ]} ]}) = Diverge.
Proof.
  split.
  - destruct (proj1 (interpolation_ends (sample_context ∅) "on ${{ github.event_name }}" 5)) as [H _]; [exact sample_clean|vm_compute; lia|].
    rewrite (H [Text "on "; Expr " github.event_name "]); vm_compute; reflexivity.
  - apply (proj2 (interpolation_ends (sample_context {[ "a" := mkStepState {[ "b" := self_reference ]} ]}) "" 1000)). vm_compute. reflexivity.
Defined.

Lemma host_variables_witness :
  buildBaseEnvFrom ["PATH=/bin"; "KINDLING_MASTER_KEY=s3cret"] ∅ !! "KINDLING_MASTER_KEY" = None /\
  evalScalar ("secrets." +:+ "KINDLING_MASTER_KEY") (sample_context ∅) = Ret "s3cret".
Proof.
  destruct (host_variables ["PATH=/bin"; "KINDLING_MASTER_KEY=s3cret"] ∅ (sample_context ∅) "KINDLING_MASTER_KEY") as [H1 H2]. split; [vm_compute; reflexivity|].
  destruct H2 as [H2 _]; [|exact H2]. apply List.Forall_forall. intros c Hc. vm_compute in Hc. repeat (destruct Hc as [<-|Hc]; [reflexivity|]). destruct Hc.
Defined.

(** An artifact named by two dots: the directory of all temporary files. *)
Lemma artifact_paths_witness : artifact_path (rooted_path [bytes_of "tmp"; bytes_of "kindling-ci-artifacts-1"]) " .. " = "/tmp".
Proof.
  rewrite (artifact_paths [bytes_of "tmp"; bytes_of "kindling-ci-artifacts-1"] " .. "); [vm_compute; reflexivity|..].
  - repeat constructor; try (vm_compute; discriminate); vm_compute; intros H; repeat (apply elem_of_cons in H as [H|H]; [discriminate|]); by apply elem_of_nil in H.
  - repeat constructor.
Defined.

(** A workflow of two jobs on a host where everything succeeds. *)
Definition sample_raw (needs : option yaml_Node) : RawJob :=
  mkRawJob "" needs "" None ∅ (mkRunDefaults "" "") ∅ [mkStep "" "" "" "" "echo hello" "" ∅ ∅].
#[local] Instance sample_yaml : Yaml := {|
  decode_string n := inr (node_Value n);
  decode_strings n := inr (match n with SequenceNode l => node_Value <$> l | _ => [] end);
  decode_input _ := inl (ErrMsg "no inputs");
  unmarshal_workflow _ := inr (mkRawWorkflow "ci" (ScalarNode "push")
    (<["build" := sample_raw None]> {[ "test" := sample_raw (Some (ScalarNode "build")) ]}));
  unmarshal_filters _ := inr ∅ |}.
#[local] Instance sample_fs : WorkflowFS := {|
  fs_Abs s := inr s; fs_IsDir _ := inr true; fs_ReadDir _ := inr [("ci.yml", false)]; fs_ReadFile _ := inr "" |}.
#[local] Instance sample_host : RunnerHost := {|
  rh_environ := ["PATH=/bin"]; rh_getenv := host_env; rh_glob := ret (fun _ => inr []); rh_MkdirTemp := ret (inr "/tmp/a"); rh_UserHomeDir := inr "/root";
  rh_MkdirAll _ := ret None; rh_LookPath _ := ret true; rh_Stat _ := ret StatOK; rh_RemoveAll _ := ret tt; rh_copyPath _ _ := ret None;
  rh_copyArtifactContents _ _ := ret None; rh_git_status _ := ret (inr ""); rh_CreateTemp := ret (inr "/tmp/o"); rh_bash _ _ _ := ret ([], None);
  rh_output_file _ := ret (inr ""); rh_ssh_agent _ := ret (inl (ErrMsg "no agent")); rh_ssh_add _ _ := ret ([], None); rh_ssh_kill _ := ret tt |}.

Definition sample_workflow : Workflow :=
  Eval vm_compute in match loadWorkflow "/w/.github/workflows/ci.yml" with Ret wf => wf | _ => mkWorkflow "" "" "" "" no_triggers ∅ ∅ end.
Definition sample_request : CompileRequest := mkCompileRequest sample_workflow "" "" ∅ "/w".
Definition compiled_plan : ExecutionPlan := Eval vm_compute in match Compile (U := sample_unicode) sample_request with Ret p => p | _ => sample_plan end.
Definition quiet_write (bs : list N) (lw : lineLogWriter) : M lineLogWriter := ret lw.

Lemma run_respects_needs_witness :
  exists writer' result w', Run (U := sample_unicode) 5 compiled_plan quiet_write ∅ (mkLineLogWriter []) sample_world = (Ret (writer', result, None), w') /\
    jr_ID <$> rr_Jobs result = ["build"; "test"] /\ reported_before (rr_Jobs result) "build" "test".
Proof.
  eexists _, _, _. split; [vm_compute; reflexivity|]. split; [reflexivity|].
  refine (proj2 (run_respects_needs sample_env insertion_sorter sample_unicode sample_yaml sample_host sample_fs "/w/.github/workflows/ci.yml" sample_request compiled_plan 5 quiet_write
    ∅ (mkLineLogWriter []) (mkLineLogWriter []) _ None sample_world _ _ _ _) [hd (mkCompiledJob "" "" [] "" ∅ ∅ []) (ep_Jobs compiled_plan)]
    (List.nth 1 (ep_Jobs compiled_plan) (mkCompiledJob "" "" [] "" ∅ ∅ [])) [] "build" _ _ _); try (vm_compute; reflexivity).
  - vm_compute. by left.
  - vm_compute. right. by left.
Defined.
