(* ===== verification/Builder.v ===== *)
(** * The builder

    internal/builder: builder.go (but prepareBuildContext, which nothing calls),
    detect.go, dockerfiles.go, runner.go and local_runner.go, with
    DownloadTarball of internal/githubapi and the statements they use.  The
    answers of the file system and of GitHub are a [BuildHost]; the runner is
    any computation, and so are the calls of internal/oci below the local one. *)

From S2P Require Import Prelude NetAddr Text Models Runtime Effects Queries Codecs Paths Json GithubActions EventQueries CiJobs WorkerDns.

(** ** Statements *)

Definition set_bld_Status (v : string) (r : Build) : Build :=
  mkBuild r.(bld_ID) r.(bld_ProjectID) r.(bld_ServiceID) v r.(bld_GithubCommit) r.(bld_GithubBranch) r.(bld_ImageID) r.(bld_VmID)
    r.(bld_ProcessingBy) r.(bld_BuildingAt) r.(bld_FailedAt) r.(bld_CreatedAt) r.(bld_UpdatedAt).
Definition set_bld_ImageID (v : pgUUID) (r : Build) : Build :=
  mkBuild r.(bld_ID) r.(bld_ProjectID) r.(bld_ServiceID) r.(bld_Status) r.(bld_GithubCommit) r.(bld_GithubBranch) v r.(bld_VmID)
    r.(bld_ProcessingBy) r.(bld_BuildingAt) r.(bld_FailedAt) r.(bld_CreatedAt) r.(bld_UpdatedAt).
Definition set_bld_VmID (v : pgUUID) (r : Build) : Build :=
  mkBuild r.(bld_ID) r.(bld_ProjectID) r.(bld_ServiceID) r.(bld_Status) r.(bld_GithubCommit) r.(bld_GithubBranch) r.(bld_ImageID) v
    r.(bld_ProcessingBy) r.(bld_BuildingAt) r.(bld_FailedAt) r.(bld_CreatedAt) r.(bld_UpdatedAt).
Definition set_bld_ProcessingBy (v : pgUUID) (r : Build) : Build :=
  mkBuild r.(bld_ID) r.(bld_ProjectID) r.(bld_ServiceID) r.(bld_Status) r.(bld_GithubCommit) r.(bld_GithubBranch) r.(bld_ImageID) r.(bld_VmID)
    v r.(bld_BuildingAt) r.(bld_FailedAt) r.(bld_CreatedAt) r.(bld_UpdatedAt).
Definition set_bld_BuildingAt (v : option Time) (r : Build) : Build :=
  mkBuild r.(bld_ID) r.(bld_ProjectID) r.(bld_ServiceID) r.(bld_Status) r.(bld_GithubCommit) r.(bld_GithubBranch) r.(bld_ImageID) r.(bld_VmID)
    r.(bld_ProcessingBy) v r.(bld_FailedAt) r.(bld_CreatedAt) r.(bld_UpdatedAt).
Definition set_bld_FailedAt (v : option Time) (r : Build) : Build :=
  mkBuild r.(bld_ID) r.(bld_ProjectID) r.(bld_ServiceID) r.(bld_Status) r.(bld_GithubCommit) r.(bld_GithubBranch) r.(bld_ImageID) r.(bld_VmID)
    r.(bld_ProcessingBy) r.(bld_BuildingAt) v r.(bld_CreatedAt) r.(bld_UpdatedAt).
Definition set_bld_UpdatedAt (v : option Time) (r : Build) : Build :=
  mkBuild r.(bld_ID) r.(bld_ProjectID) r.(bld_ServiceID) r.(bld_Status) r.(bld_GithubCommit) r.(bld_GithubBranch) r.(bld_ImageID) r.(bld_VmID)
    r.(bld_ProcessingBy) r.(bld_BuildingAt) r.(bld_FailedAt) r.(bld_CreatedAt) v.

(** schema.sql, builds: only the statements below set the two columns. *)
Definition build_row_ok (d : Db) (k : UUID) (r : Build) : bool :=
  build_ok d k r && fk d.(db_images) r.(bld_ImageID) && fk d.(db_servers) r.(bld_ProcessingBy).
Definition t_build_rows := mkTable db_builds set_builds build_row_ok "builds".

(** schema.sql, build_logs. *)
Definition build_log_ok (d : Db) (_ : UUID) (r : BuildLog) : bool := fk_required d.(db_builds) r.(bl_BuildID).
Definition t_build_logs := mkTable db_build_logs set_build_logs build_log_ok "build_logs".

(** schema.sql, images: registry, repository and tag are unique together. *)
Definition same_image (registry repository tag : string) (r : Image) : bool :=
  String.eqb r.(img_Registry) registry && String.eqb r.(img_Repository) repository && String.eqb r.(img_Tag) tag.
Definition image_ok (d : Db) (k : UUID) (r : Image) : bool :=
  forallb (fun o => negb (same_image r.(img_Registry) r.(img_Repository) r.(img_Tag) o)) (snd <$> map_to_list (delete k d.(db_images))).

Definition set_images (v : gmap UUID Image) (d : Db) : Db :=
  mkDb d.(db_builds) d.(db_deployments) d.(db_instances) d.(db_domains) d.(db_env) v d.(db_migrations) d.(db_previews) d.(db_projects)
    d.(db_volumes) d.(db_servers) d.(db_statuses) d.(db_services) d.(db_endpoints) d.(db_vms) d.(db_settings) d.(db_ext).
Definition t_images := mkTable db_images set_images image_ok "images".

Definition lease_available (server : pgUUID) (r : Build) : bool := is_null r.(bld_ProcessingBy) || col_eq r.(bld_ProcessingBy) server.

Definition BuildClaimLease (id server : pgUUID) : writes Build := fun now d =>
  returning (update_row t_build_rows id (lease_available server)
    (fun r => set_bld_UpdatedAt (Some now) (set_bld_ProcessingBy server r)) d).

Definition BuildReleaseLease (id server : pgUUID) : writes unit := fun now d =>
  executing (update_row t_build_rows id (fun r => col_eq r.(bld_ProcessingBy) server)
    (fun r => set_bld_UpdatedAt (Some now) (set_bld_ProcessingBy None r)) d).

Definition BuildMarkBuilding (id vm : pgUUID) : writes unit := fun now d =>
  executing (update_row t_build_rows id always
    (fun r => set_bld_UpdatedAt (Some now) (set_bld_BuildingAt (Some now) (set_bld_VmID vm (set_bld_Status "building" r)))) d).

Definition BuildMarkFailed (id : pgUUID) : writes unit := fun now d =>
  executing (update_row t_build_rows id always
    (fun r => set_bld_UpdatedAt (Some now) (set_bld_FailedAt (Some now) (set_bld_Status "failed" r))) d).

Definition BuildMarkSuccessful (id image : pgUUID) : writes unit := fun now d =>
  executing (update_row t_build_rows id always
    (fun r => set_bld_UpdatedAt (Some now) (set_bld_ImageID image (set_bld_Status "successful" r))) d).

Definition BuildLogCreate (id build : pgUUID) (message level : string) : writes unit := fun now d =>
  match insert_row t_build_logs id (mkBuildLog id build message level (Some now)) d with
  | inl e => inl e
  | inr (_, d') => inr (tt, d')
  end.

(** The update of a conflicting row sets the column it conflicts on. *)
Definition ImageFindOrCreate (id : pgUUID) (registry repository tag : string) : writes Image := fun now d =>
  match key_where (same_image registry repository tag) d.(db_images) with
  | Some k =>
      returning (update_row t_images (Some k) always
        (fun r => mkImage r.(img_ID) registry r.(img_Repository) r.(img_Tag) r.(img_CreatedAt)) d)
  | None => insert_row t_images id (mkImage id registry repository tag (Some now)) d
  end.

(** ** Frameworks (detect.go, dockerfiles.go) *)

Record frameworkSignals := mkSignals {
  hasNuxtConfig : bool;
  hasNextConfig : bool;
  hasGemfile : bool;
  hasRakefile : bool;
  hasRailsRoutes : bool;
  hasArtisan : bool;
  hasGoMod : bool;
  packageJSON : option (list N);
  gemfileBytes : option (list N);
  composerJSON : option (list N)
}.

(** A [map[string]string], of which only the keys matter here: a null empties
    the map, the members of an object are added to what is there. *)
Definition keys_payload : payload (list string) := fun j old =>
  match j with
  | JNull => ([], true)
  | JObject fs => (old ++ fs.*1, forallb (fun '(_, v) => (text_payload v "").2) fs)
  | _ => (old, false)
  end.

Record packageDeps := mkPackageDeps { pkg_Dependencies : list string; pkg_DevDependencies : list string }.

Definition package_payload : payload packageDeps := struct_payload
  [("dependencies", field pkg_Dependencies (fun v p => mkPackageDeps v p.(pkg_DevDependencies)) keys_payload);
   ("devDependencies", field pkg_DevDependencies (fun v p => mkPackageDeps p.(pkg_Dependencies) v) keys_payload)].

Definition composer_payload : payload (list string) := struct_payload [("require", field (fun r => r) (fun v _ => v) keys_payload)].

Definition or_else (a b : string) : string := if String.eqb a "" then b else a.

(** What the dependencies of package.json say. *)
Definition package_framework (body : list N) : string :=
  match unmarshal package_payload (mkPackageDeps [] []) body with
  | Some pkg =>
      if in_list pkg.(pkg_Dependencies) "nuxt" || in_list pkg.(pkg_DevDependencies) "nuxt" then "nuxt"
      else if in_list pkg.(pkg_Dependencies) "next" || in_list pkg.(pkg_DevDependencies) "next" then "nextjs"
      else ""
  | None => ""
  end.

Definition gemfile_framework (body : list N) : string :=
  let content := of_bytes body in
  if Contains content "'rails'" || Contains content (go_quote "rails") then "rails" else "".

Definition composer_framework (body : list N) : string :=
  match unmarshal composer_payload [] body with
  | Some require => if in_list require "laravel/framework" then "laravel" else ""
  | None => ""
  end.

Definition DetectFramework (s : frameworkSignals) : string :=
  if s.(hasNuxtConfig) then "nuxt"
  else if s.(hasNextConfig) then "nextjs"
  else if s.(hasArtisan) then "laravel"
  else if s.(hasGoMod) then "go"
  else if s.(hasRailsRoutes) || (s.(hasGemfile) && s.(hasRakefile)) then "rails"
  else
    or_else (match s.(packageJSON) with Some body => package_framework body | None => "" end)
      (or_else (match s.(gemfileBytes) with Some body => gemfile_framework body | None => "" end)
        (or_else (match s.(composerJSON) with Some body => composer_framework body | None => "" end)
          (if not_null s.(packageJSON) then "node" else ""))).

(** The templates, with single quotes for the double ones. *)
Definition quoted_text (s : string) : string := of_bytes (quoted s).

Definition dockerfiles : list (string * string) :=
  [("nuxt", quoted_text "FROM node:22-alpine AS build
WORKDIR /app
COPY package*.json ./
RUN npm ci
COPY . .
RUN npm run build

FROM node:22-alpine
WORKDIR /app
COPY --from=build /app/.output .output
EXPOSE 3000
CMD ['node', '.output/server/index.mjs']
");
   ("nextjs", quoted_text "FROM node:22-alpine AS build
WORKDIR /app
COPY package*.json ./
RUN npm ci
COPY . .
RUN npm run build

FROM node:22-alpine
WORKDIR /app
COPY --from=build /app/.next/standalone ./
COPY --from=build /app/.next/static .next/static
COPY --from=build /app/public public
EXPOSE 3000
CMD ['node', 'server.js']
");
   ("rails", quoted_text "FROM ruby:3.3-slim AS build
WORKDIR /app
RUN apt-get update && apt-get install -y build-essential libpq-dev
COPY Gemfile Gemfile.lock ./
RUN bundle install --without development test
COPY . .
RUN bundle exec rails assets:precompile 2>/dev/null || true

FROM ruby:3.3-slim
WORKDIR /app
RUN apt-get update && apt-get install -y libpq5 && rm -rf /var/lib/apt/lists/*
COPY --from=build /usr/local/bundle /usr/local/bundle
COPY --from=build /app .
EXPOSE 3000
CMD ['bundle', 'exec', 'rails', 'server', '-b', '0.0.0.0', '-p', '3000']
");
   ("laravel", quoted_text "FROM php:8.3-cli AS build
WORKDIR /app
RUN apt-get update && apt-get install -y unzip
COPY --from=composer:latest /usr/bin/composer /usr/bin/composer
COPY composer.json composer.lock ./
RUN composer install --no-dev --no-scripts
COPY . .
RUN composer dump-autoload --optimize

FROM php:8.3-cli
WORKDIR /app
COPY --from=build /app .
EXPOSE 3000
CMD ['php', 'artisan', 'serve', '--host=0.0.0.0', '--port=3000']
");
   ("go", quoted_text "FROM golang:1.24-alpine AS build
WORKDIR /app
COPY go.mod go.sum ./
RUN go mod download
COPY . .
RUN CGO_ENABLED=0 go build -o /app/main .

FROM alpine:3.21
WORKDIR /app
COPY --from=build /app/main .
EXPOSE 3000
CMD ['/app/main']
");
   ("node", quoted_text "FROM node:22-alpine
WORKDIR /app
COPY package*.json ./
RUN npm ci --production
COPY . .
EXPOSE 3000
CMD ['npm', 'start']
")].

Definition GetDockerfile (framework : string) : string :=
  match List.find (fun p => String.eqb p.1 framework) dockerfiles with Some p => p.2 | None => "" end.

(** ** The host *)

(** An entry of the archive, as its header says. *)
Record tar_entry := mkEntry { te_Name : string; te_Typeflag : N; te_Mode : Z }.
Definition TypeDir : N := 53.

(** A stream of entries that ends, or breaks off with an error. *)
Record tarball := mkTarball { tb_gzip : option error; tb_entries : list tar_entry; tb_err : option error }.

Inductive tarball_reply :=
  | TransportError (e : error)
  | TarballReply (code : Z) (status body : string) (archive : tarball).

(** The answers of the n-th call: the file system, GitHub, and whether the
    context ended; [bh_request] is the error of a malformed URL. *)
Class BuildHost := {
  bh_MkdirTemp : nat -> error + string;
  bh_MkdirAll : nat -> string -> bool;
  bh_Create : nat -> string -> option error;
  bh_Copy : nat -> string -> option error;
  bh_Chmod : nat -> string -> bool;
  bh_ReadFile : nat -> string -> option (list N);
  bh_WriteFile : nat -> string -> string -> option error;
  bh_RemoveAll : nat -> string -> bool;
  bh_request : string -> option error;
  bh_http : nat -> string -> string -> tarball_reply;
  bh_done : nat -> option error
}.

Section extraction.
Context {env : Env} {H : BuildHost}.

(** ** Unpacking (builder.go) *)

(** The variables of the loop. *)
Record extractState := mkExtract { ex_githubPrefix : string; ex_foundDockerfile : bool; ex_signals : frameworkSignals }.

Definition no_signals : frameworkSignals := mkSignals false false false false false false false None None None.

(** What the name of a file tells. *)
Definition path_signal (path : string) (s : frameworkSignals) : frameworkSignals :=
  let 'mkSignals nuxt next gem rake routes artisan gomod pkg gemf comp := s in
  if negb (Contains path "/") then
    if in_list ["nuxt.config.ts"; "nuxt.config.js"] path then mkSignals true next gem rake routes artisan gomod pkg gemf comp
    else if in_list ["next.config.ts"; "next.config.js"; "next.config.mjs"] path then mkSignals nuxt true gem rake routes artisan gomod pkg gemf comp
    else if String.eqb path "Gemfile" then mkSignals nuxt next true rake routes artisan gomod pkg gemf comp
    else if String.eqb path "Rakefile" then mkSignals nuxt next gem true routes artisan gomod pkg gemf comp
    else if String.eqb path "artisan" then mkSignals nuxt next gem rake routes true gomod pkg gemf comp
    else if String.eqb path "go.mod" then mkSignals nuxt next gem rake routes artisan true pkg gemf comp
    else s
  else if String.eqb path "config/routes.rb" then mkSignals nuxt next gem rake true artisan gomod pkg gemf comp
  else s.

(** The path of an entry below the root directory, if it is kept. *)
Definition entry_path (githubPrefix rootDirPrefix name : string) : option string :=
  let path := TrimPrefix name githubPrefix in
  if String.eqb path "" then None
  else if String.eqb rootDirPrefix "" then Some path
  else if HasPrefix path rootDirPrefix then
    let path := TrimPrefix path rootDirPrefix in if String.eqb path "" then None else Some path
  else None.

Definition github_prefix (githubPrefix name : string) : string :=
  if String.eqb githubPrefix "" && Contains name "/" then before_slash name +:+ "/" else githubPrefix.

(** A call on a path, its error dropped. *)
Definition path_call (ev : string -> bool -> IO) (f : nat -> string -> bool) (path : string) : M unit :=
  do! extern_io (ev path) (fun n => f n path) ; ret tt.

Definition path_try (ev : string -> bool -> IO) (f : nat -> string -> option error) (ctx path : string) : M unit :=
  let! r := extern_io (fun r => ev path (is_null r)) (fun n => f n path) in
  match r with Some e => throw (ErrWrap ctx e) | None => ret tt end.

Definition read_back (path : string) : M (option (list N)) := extern_io (fun r => IoReadFile path (not_null r)) (fun n => bh_ReadFile n path).

(** The files whose content counts are read back. *)
Definition content_signal (path fullPath : string) (s : frameworkSignals) : M frameworkSignals :=
  let 'mkSignals nuxt next gem rake routes artisan gomod pkg gemf comp := s in
  if String.eqb path "package.json" then let! c := read_back fullPath in ret (mkSignals nuxt next gem rake routes artisan gomod c gemf comp)
  else if String.eqb path "Gemfile" then let! c := read_back fullPath in ret (mkSignals nuxt next gem rake routes artisan gomod pkg c comp)
  else if String.eqb path "composer.json" then let! c := read_back fullPath in ret (mkSignals nuxt next gem rake routes artisan gomod pkg gemf c)
  else ret s.

Definition extract_entry (buildDir rootDirPrefix dockerfilePath : string) (st : extractState) (e : tar_entry) : M extractState :=
  let githubPrefix := github_prefix st.(ex_githubPrefix) e.(te_Name) in
  match entry_path githubPrefix rootDirPrefix e.(te_Name) with
  | None => ret (mkExtract githubPrefix st.(ex_foundDockerfile) st.(ex_signals))
  | Some path =>
      let found := st.(ex_foundDockerfile) || String.eqb path dockerfilePath in
      let signals := path_signal path st.(ex_signals) in
      let fullPath := path_Join [buildDir; path] in
      if (e.(te_Typeflag) =? TypeDir)%N then
        do! path_call IoMkdir bh_MkdirAll fullPath ;
        ret (mkExtract githubPrefix found signals)
      else
        do! path_call IoMkdir bh_MkdirAll (filepath_Dir fullPath) ;
        do! path_try IoCreate bh_Create ("create " +:+ path) fullPath ;
        do! path_try IoCopyFile bh_Copy ("write " +:+ path) fullPath ;
        do! when (negb (Z.land e.(te_Mode) 73 =? 0)) (path_call IoChmod bh_Chmod fullPath) ;
        let! signals := content_signal path fullPath signals in
        ret (mkExtract githubPrefix found signals)
  end.

Definition root_prefix (rootDir : string) : string :=
  let p := TrimPrefix rootDir "/" in
  if negb (String.eqb p "") && negb (HasSuffix p "/") then p +:+ "/" else p.

Definition dockerfile_name (dockerfilePath : string) : string := if String.eqb dockerfilePath "" then "Dockerfile" else dockerfilePath.

(** Without a Dockerfile, the template of the framework is written. *)
Definition inject_dockerfile (buildDir dockerfilePath : string) (st : extractState) : M string :=
  if st.(ex_foundDockerfile) then ret ""
  else
    let framework := DetectFramework st.(ex_signals) in
    if String.eqb framework "" then throw (ErrMsg "no Dockerfile found and could not detect framework")
    else
      let content := GetDockerfile framework in
      do! path_try (fun path => IoWriteFile path content) (fun n path => bh_WriteFile n path content)
            "write injected Dockerfile" (path_Join [buildDir; dockerfilePath]) ;
      ret framework.

Definition extractAndDetect (archive : tarball) (buildDir rootDir dockerfilePath : string) : M string :=
  match archive.(tb_gzip) with
  | Some e => throw (ErrWrap "gzip reader" e)
  | None =>
      let dockerfilePath := dockerfile_name dockerfilePath in
      let! st := fold_each (extract_entry buildDir (root_prefix rootDir) dockerfilePath) archive.(tb_entries) (mkExtract "" false no_signals) in
      match archive.(tb_err) with
      | Some e => throw (ErrWrap "read tar" e)
      | None => inject_dockerfile buildDir dockerfilePath st
      end
  end.

(** ** Downloading (githubapi.go) *)

(** [url.PathEscape]: letters, digits and -_.~$&+:=@ stay. *)
Definition path_byte_kept (b : N) : bool :=
  in_range 48 57 b || in_range 65 90 b || in_range 97 122 b || bool_decide (b ∈ [45; 95; 46; 126; 36; 38; 43; 58; 61; 64]%N).
Definition upper_hex (n : N) : N := if (n <? 10)%N then (48 + n)%N else (55 + n)%N.
Definition PathEscape (s : string) : string :=
  of_bytes (bytes_of s ≫= fun b => if path_byte_kept b then [b] else [37; upper_hex (b / 16); upper_hex (b mod 16)]%N).

(** [select] between the end of the context and the timer. *)
Definition wait_or_done (delay : Duration) : M unit := fun w =>
  match bh_done w.(w_step) with Some e => (Err e, tick w) | None => sleep delay w end.

Definition transient (code : Z) : bool := bool_decide (code ∈ [403; 500; 502; 503]).

Definition maxAttempts : nat := 3.

Fixpoint download_attempts (left : nat) (url token : string) (delay : Duration) : M tarball :=
  match left with
  | O => throw (ErrMsg "exceeded max attempts")
  | Datatypes.S n =>
      let again e := if (n =? 0)%nat then throw e else do! wait_or_done delay ; download_attempts n url token (2 * delay) in
      let! r := extern (EvDownload url) (fun k => bh_http k url token) in
      match r with
      | TransportError e => again (ErrWrap "execute github tarball request" e)
      | TarballReply code status body archive =>
          if code =? 200 then ret archive
          else if transient code then
            again (ErrMsg ("github tarball " +:+ status +:+ " after " +:+ pretty (Z.of_nat maxAttempts) +:+ " attempts: " +:+ TrimSpace body))
          else throw (ErrMsg ("github tarball " +:+ status +:+ ": " +:+ TrimSpace body))
      end
  end.

Definition DownloadTarball (token repo ref : string) : M tarball :=
  let repo := NormalizeRepo repo in
  if String.eqb repo "" then throw (ErrMsg "empty repository")
  else
    let ref := TrimSpace ref in
    if String.eqb ref "" then throw (ErrMsg "empty ref")
    else
      let url := "https://api.github.com/repos/" +:+ repo +:+ "/tarball/" +:+ PathEscape ref in
      match bh_request url with
      | Some e => throw (ErrWrap "create github tarball request" e)
      | None => download_attempts maxAttempts url token (5 * Second)
      end.

End extraction.

(** ** Reconciliation (builder.go) *)

Definition buildStuckTimeout : Duration := 15 * Minute.

Record BuilderConfig := mkBuilderConfig {
  bc_GitHubToken : string;
  bc_RegistryURL : string;
  bc_RegistryUsername : string;
  bc_RegistryPassword : string
}.

(** [LogLine] is the second argument of a runner. *)
Record BuildRun := mkBuildRun {
  br_BuildDir : string;
  br_ImageRef : string;
  br_DockerfilePath : string;
  br_RegistryUsername : string;
  br_RegistryPassword : string
}.

Definition BuildRunner : Type := BuildRun -> (string -> M unit) -> M unit.

(** The answer of the provider of the configuration depends on the call. *)
Record Builder := mkBuilder {
  b_getConfig : option (nat -> error + BuilderConfig);
  b_serverID : UUID;
  b_runner : BuildRunner
}.

Definition normalizeRegistryURL (registryURL : string) : string :=
  let registryURL := TrimSpace registryURL in
  if String.eqb registryURL "" then "kindling" else registryURL.

(** The setting of the service, unless it is blank. *)
Definition service_setting (service : option Service) (get : Service -> string) (project_value : string) : string :=
  match service with
  | Some s => if String.eqb (TrimSpace (get s)) "" then project_value else get s
  | None => project_value
  end.

Definition image_tag (commit : string) : string := if (12 <? String.length commit)%nat then str_take 12 commit else commit.

Section builder.
Context {env : Env} {S : Sorter} {U : Unicode} {H : BuildHost} (b : Builder).

Definition oci_repository (project : Project) (service : option Service) : string :=
  let ociRepo := ToLower (NormalizeRepo project.(proj_GithubRepository)) in
  let ociRepo := if String.eqb ociRepo "" then ToLower (TrimSpace project.(proj_GithubRepository)) else ociRepo in
  match service with
  | Some s => if negb s.(svc_IsPrimary) && negb (String.eqb (TrimSpace s.(svc_Slug)) "") then TrimSuffix ociRepo "/" +:+ "/" +:+ s.(svc_Slug) else ociRepo
  | None => ociRepo
  end.

Definition pullConfig : M BuilderConfig :=
  match b.(b_getConfig) with
  | None => throw (ErrMsg "builder: no config provider")
  | Some get => fun w => match get w.(w_step) with inl e => (Err e, tick w) | inr cfg => (Ret cfg, tick w) end
  end.

Definition build_log (build : pgUUID) (level message : string) : M unit :=
  let! id := new_uuid in
  ignore (exec (BuildLogCreate (ToPgtype id) build message level)).

Definition releaseLease (buildID : UUID) : M unit :=
  ignore (exec (BuildReleaseLease (ToPgtype buildID) (ToPgtype b.(b_serverID)))).

(** Logs the error and marks the build failed. *)
Definition fail_build (build : Build) (what : string) (e : error) : M unit :=
  do! build_log build.(bld_ID) "error" (what +:+ ": " +:+ error_Error e) ;
  exec (BuildMarkFailed build.(bld_ID)).

Definition record_image (build : Build) (registryURL ociRepo imageTag : string) : M unit :=
  let! id := new_uuid in
  let! image := wrap "create image record" (exec (ImageFindOrCreate (ToPgtype id) registryURL ociRepo imageTag)) in
  do! wrap "mark successful" (exec (BuildMarkSuccessful build.(bld_ID) image.(img_ID))) ;
  build_log build.(bld_ID) "info" "Build completed successfully".

(** The image, once the source is unpacked. *)
Definition build_image (build : Build) (project : Project) (service : option Service) (cfg : BuilderConfig) (buildDir dockerfilePath : string) : M unit :=
  let imageTag := image_tag build.(bld_GithubCommit) in
  let ociRepo := oci_repository project service in
  let registryURL := normalizeRegistryURL cfg.(bc_RegistryURL) in
  let run := mkBuildRun buildDir (registryURL +:+ "/" +:+ ociRepo +:+ ":" +:+ imageTag) (dockerfile_name dockerfilePath)
               cfg.(bc_RegistryUsername) cfg.(bc_RegistryPassword) in
  let! built := attempt (b.(b_runner) run (build_log build.(bld_ID) "info")) in
  match built with
  | inl e => fail_build build "OCI build failed" e
  | inr _ => record_image build registryURL ociRepo imageTag
  end.

(** The unpacked source, in a directory that is removed at the end. *)
Definition build_source (build : Build) (project : Project) (service : option Service) (cfg : BuilderConfig) (archive : tarball) : M unit :=
  let! dir := extern_io (fun r => IoCreateTemp (match r with inr d => d | inl _ => "" end) (match r with inr _ => true | inl _ => false end)) bh_MkdirTemp in
  match dir with
  | inl e => throw (ErrWrap "create build dir" e)
  | inr buildDir =>
      deferring (path_call IoRemoveAll bh_RemoveAll buildDir)
        (do! build_log build.(bld_ID) "info" "Extracting source..." ;
         let rootDirectory := service_setting service svc_RootDirectory project.(proj_RootDirectory) in
         let dockerfilePath := service_setting service svc_DockerfilePath project.(proj_DockerfilePath) in
         let! extracted := attempt (extractAndDetect archive buildDir rootDirectory dockerfilePath) in
         match extracted with
         | inl e => fail_build build "Failed to extract source" e
         | inr framework =>
             do! when (negb (String.eqb framework "")) (build_log build.(bld_ID) "info" ("No Dockerfile found. Detected framework: " +:+ framework)) ;
             build_image build project service cfg buildDir dockerfilePath
         end)
  end.

(** A build under the lease of this server. *)
Definition build_leased (build : Build) : M unit :=
  do! when (String.eqb build.(bld_Status) "pending") (wrap "mark building" (exec (BuildMarkBuilding build.(bld_ID) None))) ;
  let! project := wrap "fetch project" (query (ProjectFirstByID build.(bld_ProjectID))) in
  let! service := (if not_null build.(bld_ServiceID) then
                     let! s := wrap "fetch service" (query (ServiceFirstByID build.(bld_ServiceID))) in ret (Some s)
                   else ret None) in
  let! cfg := wrap "load builder config" pullConfig in
  do! build_log build.(bld_ID) "info" ("Building " +:+ project.(proj_GithubRepository) +:+ "@" +:+ build.(bld_GithubCommit)) ;
  do! build_log build.(bld_ID) "info" "Downloading source..." ;
  let! downloaded := attempt (DownloadTarball cfg.(bc_GitHubToken) project.(proj_GithubRepository) build.(bld_GithubCommit)) in
  match downloaded with
  | inl e => fail_build build "Failed to download source" e
  | inr archive => build_source build project service cfg archive
  end.

(** A build that has been under way for too long. *)
Definition build_stuck (t : Time) (build : Build) : bool :=
  String.eqb build.(bld_Status) "building" && match build.(bld_BuildingAt) with Some since => buildStuckTimeout <? t - since | None => false end.

Definition ReconcileBuild (buildID : UUID) : M unit :=
  let! build := wrap "fetch build" (query (BuildFirstByID (ToPgtype buildID))) in
  if in_list ["successful"; "failed"] build.(bld_Status) then ret tt
  else
    let! t := now in
    if build_stuck t build then exec (BuildMarkFailed build.(bld_ID))
    else
      let! claimed := attempt (exec (BuildClaimLease build.(bld_ID) (ToPgtype b.(b_serverID)))) in
      match claimed with
      | inl _ => ret tt
      | inr build => deferring (releaseLease buildID) (build_leased build)
      end.

End builder.

(** ** The local runner (local_runner.go) *)

(** internal/oci: the engine, the build and the push. *)
Class Oci := {
  oci_DetectBuildEngine : M string;
  oci_BuildDockerfile : string -> string -> string -> string -> (string -> M unit) -> M unit;
  oci_PushImage : string -> string -> string -> string -> M unit
}.

(** A failed push does not fail the build. *)
Definition LocalBuildRunner {O : Oci} : BuildRunner := fun run logLine =>
  let! engine := wrap "detect build engine" oci_DetectBuildEngine in
  do! logLine ("Building image with " +:+ engine +:+ ": " +:+ run.(br_ImageRef)) ;
  do! logLine "Using local OCI layer cache on this host" ;
  do! wrap "build dockerfile" (oci_BuildDockerfile engine run.(br_BuildDir) run.(br_ImageRef) run.(br_DockerfilePath) logLine) ;
  do! logLine "OCI build completed" ;
  if String.eqb run.(br_RegistryUsername) "" then ret tt
  else
    do! logLine "Pushing image to registry..." ;
    let! pushed := attempt (oci_PushImage engine run.(br_ImageRef) run.(br_RegistryUsername) run.(br_RegistryPassword)) in
    match pushed with
    | inl e => logLine ("Push failed: " +:+ error_Error e)
    | inr _ => logLine "Image pushed successfully"
    end.
