(* ===== verification/BuilderProofs.v ===== *)
(** * Properties of the builder

    What a build may change and when it counts as successful, that it settles,
    and where and how its source is unpacked. *)

From S2P Require Import Prelude NetAddr Text Models Runtime Effects Queries Logic EventLogic TableFacts Codecs Secrets Paths Json Api DbLogic VolumeMove GithubActions EventQueries CiJobs CiRuns WorkerDns DnsNames CiOrder Sample Builder.

(** ** What a build changes *)

(** What stays as it is in the row of a build. *)
Record same_build (r r' : Build) : Prop := {
  sb_id : bld_ID r' = bld_ID r;
  sb_project : bld_ProjectID r' = bld_ProjectID r;
  sb_service : bld_ServiceID r' = bld_ServiceID r;
  sb_commit : bld_GithubCommit r' = bld_GithubCommit r;
  sb_branch : bld_GithubBranch r' = bld_GithubBranch r
}.

#[export] Instance same_build_preorder : PreOrder same_build.
Proof. split; [by intros r; split|]. intros r1 r2 r3 [] []. split; congruence. Qed.

Definition builds_keyed (d : Db) : Prop := forall k r, db_builds d !! k = Some r -> bld_ID r = Some k.

(** The runner touches nothing that its lines do not, and answers only for
    images it has built. *)
Definition runner_sound {env : Env} (b : Builder) (Built : BuildRun -> Prop) : Prop :=
  forall (P : Db -> Prop) run line, (forall text, triple P (line text) (fun _ => P) P) ->
    triple P (b_runner b run line) (fun _ d => P d /\ Built run) P.

Section triples.
Context {env : Env}.

Lemma tr_deferring {A} (F : Db -> Prop) cleanup (m : M A) :
  triple F m (fun _ => F) F -> triple F cleanup (fun _ => F) F -> triple F (deferring cleanup m) (fun _ => F) F.
Proof.
  intros Hm Hc w Hw. specialize (Hm w Hw). unfold deferring. destruct (m w) as [r w1]. simpl in Hm. assert (F (w_db w1)) as H1 by (by destruct r).
  specialize (Hc w1 H1). assert (F (w_db (cleanup w1).2)) as H2 by (by destruct (cleanup w1) as [[] w2]). by destruct r.
Qed.

(** What keeps a state whatever its outcome. *)
Lemma tr_any {A} (P Q : Db -> Prop) (m : M A) : triple P m (fun _ => Q) Q -> forall w, P (w_db w) -> Q (w_db (m w).2).
Proof. intros H w Hw. specialize (H w Hw). by destruct (m w).1. Qed.

End triples.

Lemma runs_wait {env : Env} {H : BuildHost} allowed t : runs allowed (wait_or_done t).
Proof. intros w. unfold wait_or_done. destruct (bh_done _); apply rtc_refl. Qed.
Lemma runs_config {env : Env} allowed b : runs allowed (pullConfig b).
Proof. unfold pullConfig. destruct (b_getConfig b) as [get|]; [|solve_runs]. intros w. destruct (get _); apply rtc_refl. Qed.
Lemma runs_path_try {env : Env} allowed ev f ctx p : runs allowed (path_try ev f ctx p).
Proof. unfold path_try. solve_runs. Qed.
#[export] Hint Resolve runs_wait runs_config runs_path_try : runs.

Lemma runs_download {env : Env} {H : BuildHost} allowed n url token : forall t, runs allowed (download_attempts n url token t).
Proof. induction n as [|n IH]; intros t; cbn [download_attempts]; solve_runs. Qed.

Lemma runs_extract {env : Env} {H : BuildHost} allowed archive dir root df : runs allowed (extractAndDetect archive dir root df).
Proof. unfold extractAndDetect, extract_entry, inject_dockerfile, content_signal, path_call, read_back. solve_runs. Qed.
#[export] Hint Resolve runs_download runs_extract : runs.

Lemma settles_wait {env : Env} {H : BuildHost} t : settles (wait_or_done t).
Proof. intros w. unfold wait_or_done. by destruct (bh_done _). Qed.
#[export] Hint Resolve settles_wait : safe.

Lemma settles_download {env : Env} {H : BuildHost} n url token : forall t, settles (download_attempts n url token t).
Proof. induction n as [|n IH]; intros t; cbn [download_attempts]; solve_np. Qed.

Lemma settles_extract {env : Env} {H : BuildHost} archive dir root df : settles (extractAndDetect archive dir root df).
Proof. unfold extractAndDetect, extract_entry, inject_dockerfile, content_signal, path_call, path_try, read_back. solve_np. Qed.
#[export] Hint Resolve settles_download settles_extract : safe.

(** The row of an image found or created. *)
Lemma image_found {S : Sorter} t d id reg repo tag x d' :
  ImageFindOrCreate id reg repo tag t d = inr (x, d') ->
  d' = set_images (db_images d') d /\ db_images d ⊆ db_images d' /\ same_image reg repo tag x = true /\ exists k, db_images d' !! k = Some x.
Proof.
  unfold ImageFindOrCreate. destruct (key_where _ _) as [k|] eqn:E.
  - apply key_where_found in E as (r & Hr & Hs). intros H%returning_inv. destruct H as (k' & r' & [= <-] & Hr' & _ & _ & -> & ->). cbn in Hr'.
    rewrite Hr in Hr'. injection Hr' as <-. apply andb_true_iff in Hs as [[H1 H2]%andb_true_iff H3]. apply String.eqb_eq in H1, H2, H3.
    assert (mkImage (img_ID r) reg (img_Repository r) (img_Tag r) (img_CreatedAt r) = r) as -> by (destruct r; simpl in *; by subst).
    cbn. rewrite insert_id by done. split; [done|]. split; [done|]. split; [by unfold same_image; rewrite H1, H2, H3, !String.eqb_refl|by exists k].
  - intros (k & -> & Hk & _ & -> & ->)%insert_row_inv. cbn in *. split; [done|]. split; [by apply insert_subseteq|].
    split; [by unfold same_image; simpl; rewrite !String.eqb_refl|]. exists k. apply lookup_insert_eq.
Qed.

Section effects.
Context {env : Env} {S : Sorter} {U : Unicode} {H : BuildHost} (b : Builder) (Built : BuildRun -> Prop) (Hrunner : runner_sound b Built)
        (d0 : Db) (k : UUID) (r0 : Build) (Hr0 : db_builds d0 !! k = Some r0) (Hid : bld_ID r0 = Some k).

(** A new row for the build, and more images and logs. *)
Record build_state (L : Build -> gmap UUID Image -> Prop) (d : Db) : Prop := {
  bs_frame : d = set_build_logs (db_build_logs d) (set_images (db_images d) (set_builds (db_builds d) d0));
  bs_row : exists r, db_builds d = <[k := r]> (db_builds d0) /\ same_build r0 r /\ L r (db_images d);
  bs_images : db_images d0 ⊆ db_images d;
  bs_logs : db_build_logs d0 ⊆ db_build_logs d
}.

(** The image that the build names was built, for this commit and from the
    project's repository as the row of the image says. *)
Definition built_image (r : Build) (images : gmap UUID Image) : Prop :=
  exists ki x run, images !! ki = Some x /\ bld_ImageID r = img_ID x /\ Built run /\
    br_ImageRef run = img_Registry x +:+ "/" +:+ img_Repository x +:+ ":" +:+ img_Tag x /\ img_Tag x = image_tag (bld_GithubCommit r).

(** What the row may have become. *)
Definition build_outcome (r : Build) (images : gmap UUID Image) : Prop :=
  bld_Status r = bld_Status r0 /\ bld_ImageID r = bld_ImageID r0 \/
  bld_Status r = "building" /\ bld_Status r0 = "pending" \/
  bld_Status r = "failed" \/
  bld_Status r = "successful" /\ built_image r images.

Abbreviation outcome_state := (build_state build_outcome).

Lemma outcome_grows r images images' : images ⊆ images' -> build_outcome r images -> build_outcome r images'.
Proof.
  intros Hs [H1|[H1|[H1|[H1 (ki & x & run & H2 & H3)]]]]; [by left|by right; left|by right; right; left|]. right. right. right. split; [done|].
  exists ki, x, run. split; [by eapply lookup_weaken|done].
Qed.

(** A statement on the row of the build. *)
Lemma build_row_state (L L' : Build -> gmap UUID Image -> Prop) d guard (f : Build -> Build) x d' :
  build_state L d -> (forall r, same_build r (f r)) -> (forall r im, L r im -> L' r im) -> (forall r im, same_build r0 r -> L r im -> guard r = true -> L' (f r) im) ->
  executing (update_row t_build_rows (Some k) guard f d) = inr (x, d') -> build_state L' d'.
Proof.
  intros [Hf (r & Hr & Hs & HL) Hi Hl] Hsame H0 H1 E%executing_inv. destruct E as [->|(k' & r1 & [= <-] & Hr1 & Hg & _ & ->)].
  - split; [done| |done|done]. exists r. eauto.
  - cbn in Hr1. rewrite Hr, lookup_insert_eq in Hr1. injection Hr1 as <-. split; [|cbn|done|done].
    + rewrite Hf at 2. by destruct d as [????????????????[]], d0 as [????????????????[]].
    + exists (f r). split; [by rewrite Hr, insert_insert_eq|]. split; [by etrans|by apply H1].
Qed.

Lemma tr_build_row (L L' : Build -> gmap UUID Image -> Prop) guard (g : Time -> Build -> Build) (f : writes unit) :
  (forall t d, f t d = executing (update_row t_build_rows (Some k) guard (g t) d)) -> (forall t r, same_build r (g t r)) ->
  (forall r im, L r im -> L' r im) -> (forall t r im, same_build r0 r -> L r im -> guard r = true -> L' (g t r) im) ->
  triple (build_state L) (exec f) (fun _ => build_state L') (build_state L').
Proof.
  intros Hf Hsame H0 H1. apply tr_exec.
  - intros d [F (r & Hr & Hs & HL) Hi Hl]. split; [done| |done|done]. exists r. eauto.
  - intros t x d d' Hd E. rewrite Hf in E. assert (build_state L' d') as Hd' by (by eapply build_row_state; eauto). done.
Qed.

Lemma tr_build_log L build level text : triple (build_state L) (build_log build level text) (fun _ => build_state L) (build_state L).
Proof.
  unfold build_log. eapply (tr_bind _ _ _ (fun _ => build_state L)); [by apply tr_reading; [solve_runs| |]|]. intros id.
  eapply (tr_bind _ _ _ (fun _ => build_state L)); [|by intros; apply tr_ret]. apply tr_attempt, tr_exec; [done|].
  intros t x d d' [F (r & Hr & Hs & HL) Hi Hl] E. unfold BuildLogCreate in E. destruct (insert_row _ _ _ _) as [|[y d2]] eqn:E2; simplify_eq.
  apply insert_row_inv in E2 as (k' & _ & Hk & _ & _ & ->). cbn in Hk. assert (build_state L (t_set t_build_logs (<[k' := mkBuildLog (ToPgtype id) build text level (Some t)]> (t_get t_build_logs d)) d)); [|done].
  split; cbn; [|by exists r|done|].
  - rewrite F at 2. by destruct d as [????????????????[]], d0 as [????????????????[]].
  - etrans; [exact Hl|]. by apply insert_subseteq.
Qed.

Lemma tr_mark_failed : triple outcome_state (exec (BuildMarkFailed (Some k))) (fun _ => outcome_state) outcome_state.
Proof.
  eapply tr_build_row; [by intros|by intros t r; split|done|]. intros t r im _ _ _. by right; right; left.
Qed.

Lemma tr_fail build what e : bld_ID build = Some k -> triple outcome_state (fail_build build what e) (fun _ => outcome_state) outcome_state.
Proof.
  intros Hb. unfold fail_build. eapply (tr_bind _ _ _ (fun _ => outcome_state)); [apply tr_build_log|]. intros _. rewrite Hb. apply tr_mark_failed.
Qed.

Lemma tr_record build registry repo tag run : bld_ID build = Some k -> same_build r0 build -> Built run -> tag = image_tag (bld_GithubCommit build) ->
  br_ImageRef run = registry +:+ "/" +:+ repo +:+ ":" +:+ tag ->
  triple outcome_state (record_image build registry repo tag) (fun _ => outcome_state) outcome_state.
Proof.
  intros Hb Hsame Hbuilt Htag Href. unfold record_image. eapply (tr_bind _ _ _ (fun _ => outcome_state)); [by apply tr_reading; [solve_runs| |]|]. intros id.
  eapply (tr_bind _ _ _ (fun x => build_state (fun r im => build_outcome r im /\ (exists ki, im !! ki = Some x) /\ same_image registry repo tag x = true))).
  { apply tr_wrap, tr_exec; [done|]. intros t x d d' [F (r & Hr & Hs & HL) Hi Hl] (Fd & Hsub & Hx & Hk)%image_found.
    assert (db_builds d' = db_builds d /\ db_build_logs d' = db_build_logs d) as [E1 E2] by (by rewrite Fd).
    assert (d' = set_build_logs (db_build_logs d') (set_images (db_images d') (set_builds (db_builds d') d0))) as F'.
    { rewrite E1, E2. rewrite Fd at 1. rewrite F at 1. by destruct d0 as [????????????????[]]. }
    assert (build_outcome r (db_images d')) as HL' by (by eapply outcome_grows).
    split; (split; [exact F'| |by etrans|by rewrite E2]); exists r; rewrite E1; (split; [done|]; split; [done|]); [|done].
    split; [done|]. by split. }
  intros x. eapply (tr_bind _ _ _ (fun _ => outcome_state)); [|intros _; rewrite Hb; apply tr_build_log]. apply tr_wrap. rewrite Hb.
  eapply tr_build_row; [by intros|by intros t r; split|by intros r im []|]. intros t r im [_ _ _ Hc _] (_ & [ki Hki] & Hx) _. right. right. right. split; [done|].
  apply andb_true_iff in Hx as [[H1 H2]%andb_true_iff H3]. apply String.eqb_eq in H1, H2, H3.
  exists ki, x, run. split; [done|]. split; [done|]. split; [done|]. rewrite H1, H2, H3. split; [done|]. rewrite Htag. cbn. f_equal.
  destruct Hsame. congruence.
Qed.

Lemma tr_image build project service cfg dir df : bld_ID build = Some k -> same_build r0 build ->
  triple outcome_state (build_image b build project service cfg dir df) (fun _ => outcome_state) outcome_state.
Proof.
  intros Hb Hsame. unfold build_image. cbv zeta. set (run := mkBuildRun _ _ _ _ _).
  eapply (tr_bind _ _ _ (fun r d => outcome_state d /\ match r with inr _ => Built run | inl _ => True end)).
  - apply tr_attempt. eapply tr_conseq; [apply Hrunner; intros text; apply tr_build_log|done|by intros|by intros].
  - intros [e|u]; apply tr_and; intros HB; [by apply tr_fail|by eapply tr_record].
Qed.

Lemma tr_source build project service cfg archive : bld_ID build = Some k -> same_build r0 build ->
  triple outcome_state (build_source b build project service cfg archive) (fun _ => outcome_state) outcome_state.
Proof.
  intros Hb Hsame. unfold build_source. eapply (tr_bind _ _ _ (fun _ => outcome_state)); [by apply tr_reading; [solve_runs| |]|].
  intros [e|dir]; [by apply tr_throw|]. apply tr_deferring; [|by apply tr_reading; [unfold path_call; solve_runs| |]].
  eapply (tr_bind _ _ _ (fun _ => outcome_state)); [apply tr_build_log|]. intros _. cbv zeta.
  eapply (tr_bind _ _ _ (fun _ => outcome_state)); [by apply tr_reading; [solve_runs| |]|]. intros [e|fw]; [by apply tr_fail|].
  eapply (tr_bind _ _ _ (fun _ => outcome_state)); [|intros _; by apply tr_image].
  unfold when. case_match; [apply tr_build_log|by apply tr_ret].
Qed.

Lemma tr_leased build : bld_ID build = Some k -> same_build r0 build -> bld_Status build = bld_Status r0 ->
  triple outcome_state (build_leased b build) (fun _ => outcome_state) outcome_state.
Proof.
  intros Hb Hsame Hst. unfold build_leased. eapply (tr_bind _ _ _ (fun _ => outcome_state)).
  { unfold when. destruct (String.eqb_spec (bld_Status build) "pending") as [Ep|]; [|by apply tr_ret]. apply tr_wrap. rewrite Hb.
    eapply tr_build_row; [by intros|by intros t r; split|done|]. intros t r im _ _ _. right. left. split; [done|congruence]. }
  intros _. eapply (tr_bind _ _ _ (fun _ => outcome_state)); [by apply tr_reading; [solve_runs| |]|]. intros project.
  eapply (tr_bind _ _ _ (fun _ => outcome_state)); [by apply tr_reading; [solve_runs| |]|]. intros service.
  eapply (tr_bind _ _ _ (fun _ => outcome_state)); [by apply tr_reading; [solve_runs| |]|]. intros cfg.
  do 2 (eapply (tr_bind _ _ _ (fun _ => outcome_state)); [apply tr_build_log|intros _]).
  eapply (tr_bind _ _ _ (fun _ => outcome_state)); [by apply tr_reading; [unfold DownloadTarball; solve_runs| |]|].
  intros [e|archive]; [by apply tr_fail|by apply tr_source].
Qed.

(** Under way for more than fifteen minutes. *)
Definition overdue (t : Time) : Prop :=
  bld_Status r0 = "building" /\ exists since, bld_BuildingAt r0 = Some since /\ 15 * Minute < t - since.

Lemma stuck_overdue t : build_stuck t r0 = true -> overdue t.
Proof.
  unfold build_stuck, overdue. intros [->%String.eqb_eq E]%andb_true_iff. split; [done|]. destruct (bld_BuildingAt r0) as [since|]; [|done].
  exists since. split; [done|]. by apply Z.ltb_lt in E.
Qed.

(** No server has leased the build, or this one has. *)
Definition leasable : Prop := bld_ProcessingBy r0 = None \/ bld_ProcessingBy r0 = ToPgtype (b_serverID b).

Lemma available_leasable : lease_available (ToPgtype (b_serverID b)) r0 = true -> leasable.
Proof.
  unfold lease_available, leasable. destruct (bld_ProcessingBy r0) as [k'|]; [|by left]. simpl. intros E. right.
  by destruct (ToPgtype (b_serverID b)); [apply bool_decide_eq_true in E as ->|].
Qed.

(** Nothing happens to a finished build or to one that another server has
    leased, unless it is overdue: then it is marked failed and nothing else. *)
Definition build_effect (t : Time) (d : Db) : Prop :=
  d = d0 \/
  in_list ["successful"; "failed"] (bld_Status r0) = false /\
  (overdue t /\ build_state (fun r im => r = r0 \/ bld_Status r = "failed" /\ bld_ProcessingBy r = bld_ProcessingBy r0) d /\
     db_images d = db_images d0 /\ db_build_logs d = db_build_logs d0 \/
   leasable /\ outcome_state d).

Lemma state_start (L : Build -> gmap UUID Image -> Prop) : L r0 (db_images d0) -> build_state L d0.
Proof.
  intros HL. split; [by destruct d0 as [????????????????[]]| |done|done]. exists r0. by rewrite insert_id.
Qed.

(** What follows the reading of the build, at the time [t]. *)
Lemma tr_reconcile t w0 : k <> uuid_Nil -> w_db w0 = d0 -> t = w_now (tick w0) -> build_effect t (w_db (ReconcileBuild b k w0).2).
Proof.
  intros Hk Hw0 Ht. unfold ReconcileBuild, ToPgtype at 1. rewrite decide_False by done. unfold bind at 1.
  destruct (query_cases (BuildFirstByID (Some k)) w0) as [(r & E & Hq)|(e & Hq & _)]; unfold wrap; rewrite Hq; [|by left].
  unfold BuildFirstByID in E. simpl in E. rewrite Hw0, Hr0 in E. injection E as <-.
  destruct (in_list _ (bld_Status r0)) eqn:Ef; [by left|]. unfold now, bind at 1. rewrite <- Ht.
  apply (tr_any (fun d => d = d0) (build_effect t)); [|done]. destruct (build_stuck t r0) eqn:Es.
  - rewrite Hid. apply stuck_overdue in Es. apply tr_exec; [by left|].
    intros t' x d d' -> E. assert (build_effect t d') as Hd; [|done]. right. split; [done|]. left. split; [done|]. unfold BuildMarkFailed in E.
    pose proof E as E2%executing_inv. destruct E2 as [->|(k' & r & _ & _ & _ & _ & ->)]; [split; [apply state_start; by left|done]|]. split; [|done].
    eapply (build_row_state (fun r im => r = r0)); [by apply state_start| |by left| |exact E]; [by intros r1; split|]. intros r1 im _ -> _. by right.
  - rewrite Hid. set (free := leasable).
    assert (forall d, outcome_state d /\ free -> build_effect t d) as HE by (intros d [Hd Hfree]; right; split; [done|]; by right).
    eapply (tr_bind _ _ _ (fun c d => match c with inl _ => build_effect t d | inr r => (outcome_state d /\ free) /\
       (bld_ID r = Some k /\ same_build r0 r /\ bld_Status r = bld_Status r0) end)).
    + apply tr_attempt, tr_exec; [by intros d ->; split; [left|intros _; left]|]. intros t' r d d' -> E. unfold BuildClaimLease in E.
      apply returning_inv in E as (k' & r1 & [= <-] & Hr1 & Hg & _ & -> & ->). cbn in Hr1. rewrite Hr0 in Hr1. injection Hr1 as <-.
      match goal with |- ((?A /\ _) /\ _) => assert A as Hd end.
      { split; [|by apply available_leasable]. split; [by destruct d0 as [????????????????[]]| |done|done]. eexists. cbn. split; [done|]. split; [by split|]. by left. }
      split; [by split|]. split; [by apply HE|]. intros _. by apply HE.
    + intros [e|r]; [by apply tr_ret|]. apply tr_and. intros (Hrid & Hsame & Hst). intros w [Hw Hfree].
      assert (outcome_state (w_db (deferring (releaseLease b k) (build_leased b r) w).2)) as Hw'.
      { apply (tr_any outcome_state); [|done]. apply tr_deferring; [by apply tr_leased|]. unfold releaseLease, ToPgtype. rewrite decide_False by done.
        eapply (tr_bind _ _ _ (fun _ => outcome_state)); [|by intros; apply tr_ret]. apply tr_attempt.
        eapply tr_conseq; [eapply tr_build_row; [by intros|by intros t' r1; split|done|]|done|done|by intros]. intros t' r1 im _ [HL|[HL|[HL|[HL Hb]]]] _.
        - by left.
        - by right; left.
        - by right; right; left.
        - right. right. right. by split. }
      destruct (deferring _ _ w).1; apply HE; by split.
Qed.

End effects.

(** C29: Whatever fails, reconciling a build changes nothing when the build has
    finished or another server holds its lease, except that it marks a build
    failed that has been under way for more than fifteen minutes by the clock
    after it was read. Otherwise it changes the row of this build, in which it
    keeps what is to be built, and adds images and logs; the build is marked
    successful only with the image of a run that the runner reported built,
    tagged with its commit. *)
Theorem build_recorded (env : Env) (S : Sorter) (U : Unicode) (H : BuildHost) (b : Builder) (Built : BuildRun -> Prop) (buildID : UUID) (w : World) :
  runner_sound b Built -> buildID <> uuid_Nil -> builds_keyed (w_db w) ->
  w_db (ReconcileBuild b buildID w).2 = w_db w \/
  exists r, db_builds (w_db w) !! buildID = Some r /\
    build_effect b Built (w_db w) buildID r (w_now (tick w)) (w_db (ReconcileBuild b buildID w).2).
Proof.
  intros Hrunner Hk Hkeyed. destruct (db_builds (w_db w) !! buildID) as [r|] eqn:Hr.
  - right. exists r. split; [done|]. apply tr_reconcile; [done|done|by apply Hkeyed|done|done|done].
  - left. apply (tr_any (fun d => d = w_db w) (fun d => d = w_db w)); [|done]. unfold ReconcileBuild, ToPgtype at 1. rewrite decide_False by done.
    eapply (tr_bind _ _ _ (fun _ _ => False)); [|by intros r w1 []]. apply tr_wrap, tr_query; [done|]. intros t x d -> E.
    unfold BuildFirstByID in E. simpl in E. by rewrite Hr in E.
Qed.

(** ** Builds settle *)

(** The runner ends, with an error or without, when its lines end. *)
Definition runner_ends {env : Env} (b : Builder) : Prop :=
  forall (P : Db -> Prop) run line, (forall text, ends P (line text) (fun _ => P)) -> total P (b_runner b run line) (fun _ => P) (fun _ => P).

Lemma key_where_none {R} (q : R -> bool) (m : gmap UUID R) k r : key_where q m = None -> m !! k = Some r -> q r = false.
Proof.
  unfold key_where. intros E Hk. destruct (q r) eqn:Hq; [|done]. destruct (List.filter _ _) as [|x l] eqn:Ef; [|done].
  assert ((k, r) ∈ List.filter (fun '(_, r) => q r) (map_to_list m)) as Hin by (apply list_elem_of_In, filter_In; split; [apply list_elem_of_In; by apply elem_of_map_to_list|done]).
  rewrite Ef in Hin. by apply not_elem_of_nil in Hin.
Qed.

Lemma tot_reading {env : Env} (Hq : quiet env) {A} (P : Db -> Prop) (m : M A) : runs no_stmt m -> settles m -> total P m (fun _ => P) (fun _ => P).
Proof. intros Hr Hs w Hw. pose proof (runs_none m w Hr) as E. specialize (Hs w). rewrite E. by destruct (m w).1. Qed.

(** The rows of images lie under their ids and are unique. *)
Definition images_ok (d : Db) : Prop := forall k r, db_images d !! k = Some r -> img_ID r = Some k /\ image_ok d k r = true.

Section settle.
Context {env : Env} (Hq : quiet env) {S : Sorter} {U : Unicode} {H : BuildHost} (b : Builder) (Hrunner : runner_ends b)
        (get : nat -> error + BuilderConfig) (Hget : b_getConfig b = Some get) (Hcfg : forall n, exists cfg, get n = inr cfg)
        (Hdir : forall n, exists dir, bh_MkdirTemp n = inr dir)
        (d0 : Db) (k : UUID) (Himages : images_ok d0) (Hfresh : forall n, env_uuid n <> uuid_Nil /\ db_images d0 !! env_uuid n = None)
        (r0 : Build) (Hid : bld_ID r0 = Some k).
Abbreviation lease := (ToPgtype (b_serverID b)).

(** The row of the build satisfies the schema and [J]. *)
Definition row_is (J : Build -> Prop) (d : Db) : Prop :=
  exists r, db_builds d !! k = Some r /\ build_row_ok d k r = true /\ same_build r0 r /\ J r.

Definition leased_in (l : list string) (r : Build) : Prop := bld_ProcessingBy r = lease /\ in_list l (bld_Status r) = true.

Record open_build (l : list string) (d : Db) : Prop := {
  ob_row : row_is (leased_in l) d;
  ob_projects : db_projects d = db_projects d0;
  ob_services : db_services d = db_services d0;
  ob_images : db_images d = db_images d0
}.

Abbreviation done_build := (row_is (leased_in ["successful"; "failed"])).

(** States that further logs do not change. *)
Definition log_stable (P : Db -> Prop) : Prop := forall d m, P d -> P (set_build_logs m d).

Lemma row_is_logs J : log_stable (row_is J).
Proof. intros d m (r & H1 & H2 & H3). exists r. by split. Qed.
Lemma open_logs l : log_stable (open_build l).
Proof. intros d m [H1 H2 H3 H4]. split; [by apply row_is_logs|done..]. Qed.

Lemma tot_build_log P build level text : log_stable P -> ends P (build_log build level text) (fun _ => P).
Proof.
  intros HP. unfold build_log. eapply (tot_bind _ _ _ (fun _ => P)); [by apply tot_new_uuid|]. intros id. apply tot_ignore, tot_exec; [done|].
  intros t d Hd. unfold BuildLogCreate. destruct (insert_row _ _ _ _) as [|[y d']] eqn:E; [done|].
  apply insert_row_inv in E as (k' & _ & _ & _ & _ & ->). by apply HP.
Qed.

(** The fields the constraints speak of. *)
Lemma build_ok_same d r r' : build_row_ok d k r = true -> same_build r r' ->
  in_list ["pending"; "building"; "successful"; "failed"] (bld_Status r') = true ->
  fk (db_images d) (bld_ImageID r') = true -> fk (db_servers d) (bld_ProcessingBy r') = true -> build_row_ok d k r' = true.
Proof.
  unfold build_row_ok, build_ok. rewrite !andb_true_iff. intros [[[[H1 H2] H3] H4] H5] [] Hs Hi Hp. by rewrite sb_project0, sb_service0.
Qed.

(** A statement on the row. *)
Lemma tot_row (J J' : Build -> Prop) guard (g : Time -> Build -> Build) (f : writes unit) :
  (forall t d, f t d = executing (update_row t_build_rows (Some k) guard (g t) d)) -> (forall r, J r -> guard r = true) ->
  (forall t r, same_build r (g t r)) -> (forall t r, J r -> J' (g t r)) ->
  (forall t r, J r -> in_list ["pending"; "building"; "successful"; "failed"] (bld_Status (g t r)) = true) ->
  (forall t r, bld_ImageID (g t r) = bld_ImageID r) -> (forall t r, bld_ProcessingBy (g t r) = None \/ bld_ProcessingBy (g t r) = bld_ProcessingBy r) ->
  forall t d, row_is J d -> match f t d with inl _ => False | inr (_, d') => row_is J' d' /\ d' = set_builds (db_builds d') d end.
Proof.
  intros Hf Hg Hs HJ Hst Him Hp t d (r & Hr & Hok & Hsame & Hj). assert (build_row_ok d k (g t r) = true) as Hok'.
  { apply (build_ok_same d r); [done|done|by apply Hst| |]; unfold build_row_ok in Hok; rewrite !andb_true_iff in Hok; destruct Hok as [[_ H1] H2].
    - by rewrite Him.
    - by destruct (Hp t r) as [-> | ->]. }
  rewrite Hf, (executing_ok t_build_rows k r) by auto. split; [|done]. exists (g t r). split; [apply lookup_insert_eq|]. split; [exact Hok'|].
  split; [by etrans|by apply HJ].
Qed.

Lemma tot_fail_build l build what e : bld_ID build = Some k -> ends (open_build l) (fail_build build what e) (fun _ => done_build).
Proof.
  intros Hb. unfold fail_build. eapply (tot_bind _ _ _ (fun _ => open_build l)); [apply tot_build_log, open_logs|]. intros _. rewrite Hb.
  apply tot_exec; [done|]. intros t d [Hrow _ _ _].
  pose proof (tot_row (leased_in l) (leased_in ["successful"; "failed"]) always _ (BuildMarkFailed (Some k)) (fun t d => eq_refl) (fun _ _ => eq_refl)) as Ht.
  specialize (Ht ltac:(by intros t1 r; split) ltac:(by intros t1 r [Hl _]; split) ltac:(done) ltac:(done) ltac:(by intros; right) t d Hrow).
  destruct (BuildMarkFailed _ _ _) as [|[x d']]; [done|]. by destruct Ht.
Qed.

(** The image is there, whoever added it. *)
Lemma image_total l t n d reg repo tag : open_build l d ->
  match ImageFindOrCreate (ToPgtype (env_uuid n)) reg repo tag t d with
  | inl _ => False
  | inr (x, d') => row_is (leased_in l) d' /\ exists ki, img_ID x = Some ki /\ db_images d' !! ki = Some x
  end.
Proof.
  intros [(r & Hr & Hok & Hs & HJ) _ _ Him]. destruct (Hfresh n) as [Hn Hfr]. unfold ImageFindOrCreate, ToPgtype. rewrite decide_False by done.
  destruct (key_where _ _) as [ki|] eqn:E.
  - pose proof E as (x & Hx & Hq')%key_where_found. rewrite Him in Hx. destruct (Himages ki x Hx) as [Hki Hiok].
    apply andb_true_iff in Hq' as [[H1 H2]%andb_true_iff H3]. apply String.eqb_eq in H1, H2, H3.
    assert (mkImage (img_ID x) reg (img_Repository x) (img_Tag x) (img_CreatedAt x) = x) as Ex by (destruct x; simpl in *; by subst).
    unfold returning, update_row. cbn [t_get t_ok t_set t_images]. rewrite Him, Hx, Ex. unfold image_ok in Hiok |- *. rewrite Him, Hiok. cbn.
    rewrite insert_id by done. split; [|by exists ki]. exists r. split; [done|]. split; [|done].
    unfold build_row_ok, build_ok in *. cbn. by rewrite Him in Hok.
  - rewrite (insert_row_ok t_images).
    + split; [|eexists; split; [done|]; apply lookup_insert_eq]. exists r. split; [done|]. split; [|done].
      unfold build_row_ok, build_ok in *. cbn. rewrite !andb_true_iff in *. destruct Hok as [[H1 H2] H3]. split; [split; [done|]|done].
      unfold fk in *. destruct (bld_ImageID r) as [ki|]; [|done]. destruct (decide (ki = env_uuid n)) as [->|Hne]; [by rewrite lookup_insert_eq|by rewrite lookup_insert_ne].
    + cbn. by rewrite Him.
    + cbn. unfold image_ok. cbn. apply forallb_forall. intros o Ho%list_elem_of_In. apply list_elem_of_fmap in Ho as ([ko o'] & -> & Ho%elem_of_map_to_list).
      apply lookup_delete_Some in Ho as [_ Ho]. apply (key_where_none _ _ _ _ E) in Ho. simpl. by rewrite Ho.
Qed.

Lemma tot_record l build reg repo tag : bld_ID build = Some k -> ends (open_build l) (record_image build reg repo tag) (fun _ => done_build).
Proof.
  intros Hb. unfold record_image. eapply (tot_bind _ _ _ (fun id d => open_build l d /\ exists n, id = env_uuid n)); [apply tot_new_uuid; eauto|].
  intros id. apply tot_and. intros [n ->].
  eapply (tot_bind _ _ _ (fun x d => row_is (leased_in l) d /\ exists ki, img_ID x = Some ki /\ db_images d !! ki = Some x)).
  { apply tot_wrap, tot_exec; [done|]. intros t d Hd. pose proof (image_total l t n d reg repo tag Hd) as Hi. by destruct (ImageFindOrCreate _ _ _ _ _ _) as [|[x d']]. }
  intros x. eapply (tot_bind _ _ _ (fun _ => done_build)); [|intros _; apply tot_build_log, row_is_logs].
  apply tot_wrap, tot_exec; [done|]. intros t d [(r & Hr & Hok & Hsame & Hp & Hst) (ki & Hki & Hx)]. unfold BuildMarkSuccessful. rewrite Hb, Hki.
  set (r' := set_bld_UpdatedAt (Some t) (set_bld_ImageID (Some ki) (set_bld_Status "successful" r))).
  assert (build_row_ok d k r' = true) as Hok'.
  { apply (build_ok_same d r); [done|by split|done|cbn; by rewrite Hx|]. unfold build_row_ok in Hok. by apply andb_true_iff in Hok as [_ ?]. }
  rewrite (executing_ok t_build_rows k r) by done. exists r'. split; [apply lookup_insert_eq|]. split; [exact Hok'|]. split; [|by split].
  etrans; [exact Hsame|]. by split.
Qed.

Lemma tot_image l build project service cfg dir df : bld_ID build = Some k ->
  ends (open_build l) (build_image b build project service cfg dir df) (fun _ => done_build).
Proof.
  intros Hb. unfold build_image. cbv zeta. eapply (tot_bind _ _ _ (fun _ => open_build l)).
  - apply tot_attempt, Hrunner. intros text. apply tot_build_log, open_logs.
  - intros [e|u]; [by apply tot_fail_build|by apply tot_record].
Qed.

Lemma tot_source l build project service cfg archive : bld_ID build = Some k ->
  ends (open_build l) (build_source b build project service cfg archive) (fun _ => done_build).
Proof.
  intros Hb. unfold build_source. eapply (tot_bind _ _ _ (fun r d => open_build l d /\ exists dir, r = inr dir)).
  { intros w Hw. simpl. split; [done|]. apply Hdir. }
  intros r. apply tot_and. intros [dir ->]. eapply (tot_deferring _ _ _ (fun _ => done_build) _ (fun _ _ => False)); [| |by intros e w []].
  - eapply (tot_bind _ _ _ (fun _ => open_build l)); [apply tot_build_log, open_logs|]. intros _. cbv zeta.
    eapply (tot_bind _ _ _ (fun _ => open_build l)); [apply tot_attempt, tot_reading; [done|solve_runs|solve_np]|]. intros [e|fw]; [by apply tot_fail_build|].
    eapply (tot_bind _ _ _ (fun _ => open_build l)); [|intros _; by apply tot_image].
    apply tot_when; [intros _; apply tot_build_log, open_logs|done].
  - intros _. unfold path_call. intros w Hw. exact Hw.
Qed.

Lemma tot_leased build : bld_ID build = Some k -> same_build r0 build -> bld_Status build = "pending" ->
  ends (open_build ["pending"]) (build_leased b build) (fun _ => done_build).
Proof.
  intros Hb Hsame Hst. unfold build_leased. rewrite Hst. eapply (tot_bind _ _ _ (fun _ => open_build ["building"])).
  { apply tot_wrap, tot_exec; [done|]. intros t d [Hrow Hp Hs Hi]. rewrite Hb.
    pose proof (tot_row (leased_in ["pending"]) (leased_in ["building"]) always _ (BuildMarkBuilding (Some k) None) (fun t d => eq_refl) (fun _ _ => eq_refl)) as Ht.
    specialize (Ht ltac:(by intros t1 r; split) ltac:(by intros t1 r [Hl _]; split) ltac:(done) ltac:(done) ltac:(by intros; right) t d Hrow).
    destruct (BuildMarkBuilding _ _ _ _) as [|[x d']]; [done|]. destruct Ht as [Ht Hf]. split; [done|by rewrite Hf..]. }
  intros _. apply (tot_fact (exists p, row_at (db_projects d0) (bld_ProjectID build) = Some p /\
    (not_null (bld_ServiceID build) = true -> exists s, row_at (db_services d0) (bld_ServiceID build) = Some s))).
  { intros d [(r & Hr & Hok & Hrs & _) Hp Hs _]. unfold build_row_ok, build_ok in Hok. rewrite !andb_true_iff in Hok. destruct Hok as [[[[H1 H2] _] _] _].
    rewrite (sb_project _ _ Hrs), <- (sb_project _ _ Hsame), Hp in H1. rewrite (sb_service _ _ Hrs), <- (sb_service _ _ Hsame), Hs in H2.
    unfold fk_required, fk in *. destruct (bld_ProjectID build) as [kp|]; [|done]. simpl. destruct (db_projects d0 !! kp) as [p|]; [|done]. exists p. split; [done|].
    destruct (bld_ServiceID build) as [ks|]; [|done]. intros _. simpl. destruct (db_services d0 !! ks) as [s|]; [by exists s|done]. }
  intros (p & Hp & Hs). eapply (tot_bind _ _ _ (fun _ => open_build ["building"])).
  { apply tot_wrap, tot_query; [done|]. intros t d Hd. unfold ProjectFirstByID. by rewrite (ob_projects _ _ Hd), Hp. }
  intros project. eapply (tot_bind _ _ _ (fun _ => open_build ["building"])).
  { destruct (not_null (bld_ServiceID build)); [|by apply tot_ret]. destruct Hs as [s Hs]; [done|].
    eapply (tot_bind _ _ _ (fun _ => open_build ["building"])); [|by intros; apply tot_ret]. apply tot_wrap, tot_query; [done|].
    intros t d Hd. unfold ServiceFirstByID. by rewrite (ob_services _ _ Hd), Hs. }
  intros service. eapply (tot_bind _ _ _ (fun _ => open_build ["building"])).
  { apply tot_wrap. unfold pullConfig. rewrite Hget. intros w Hw. destruct (Hcfg (w_step w)) as [cfg ->]. exact Hw. }
  intros cfg. do 2 (eapply (tot_bind _ _ _ (fun _ => open_build ["building"])); [apply tot_build_log, open_logs|intros _]).
  eapply (tot_bind _ _ _ (fun _ => open_build ["building"])).
  { apply tot_attempt, tot_reading; [done|unfold DownloadTarball; solve_runs|unfold DownloadTarball; solve_np]. }
  intros [e|archive]; [by apply tot_fail_build|by apply tot_source].
Qed.

(** A pending build whose lease is free, on a server that is registered. *)
Record buildable (d : Db) : Prop := {
  ba_row : db_builds d !! k = Some r0;
  ba_ok : build_row_ok d k r0 = true;
  ba_pending : bld_Status r0 = "pending";
  ba_free : lease_available lease r0 = true;
  ba_server : b_serverID b <> uuid_Nil;
  ba_registered : fk (db_servers d) lease = true;
  ba_same : d = d0
}.

Lemma tot_reconcile_build : k <> uuid_Nil -> ends buildable (ReconcileBuild b k) (fun _ => row_is (fun r => bld_ProcessingBy r = None /\ in_list ["successful"; "failed"] (bld_Status r) = true)).
Proof.
  intros Hk. unfold ReconcileBuild, ToPgtype at 1. rewrite decide_False by done.
  eapply (tot_bind _ _ _ (fun r d => buildable d /\ r = r0)).
  { apply tot_wrap, tot_query; [done|]. intros t d Hd. unfold BuildFirstByID. simpl. by rewrite (ba_row _ Hd). }
  intros r. apply tot_and. intros ->. apply (tot_fact (bld_Status r0 = "pending" /\ lease = Some (b_serverID b))).
  { intros d []. split; [done|]. unfold ToPgtype. by rewrite decide_False. }
  intros [Hst Hlease]. rewrite Hst. simpl.
  eapply (tot_bind _ _ _ (fun _ => buildable)); [by intros w Hw|]. intros t. unfold build_stuck. rewrite Hst. simpl. rewrite Hid.
  eapply (tot_bind _ _ _ (fun c d => match c with inl _ => False | inr r => open_build ["pending"] d /\ (bld_ID r = Some k /\ same_build r0 r /\ bld_Status r = "pending") end)).
  - apply tot_attempt, tot_exec; [done|]. intros t' d [Hrow Hok _ Hfree Hserver Hreg Hd]. unfold BuildClaimLease, returning, update_row. cbn [t_get t_build_rows].
    rewrite Hrow, Hfree. set (r' := set_bld_UpdatedAt _ _). assert (build_row_ok d k r' = true) as Hok'.
    { apply (build_ok_same d r0); [done|by split|by cbn; rewrite Hst| |done]. unfold build_row_ok in Hok. rewrite !andb_true_iff in Hok. tauto. }
    cbn [t_ok t_build_rows]. rewrite Hok'. split; [|done]. split; cbn; [|by rewrite Hd..].
    exists r'. split; [apply lookup_insert_eq|]. split; [exact Hok'|]. split; [by split|]. split; [done|]. cbn. by rewrite Hst.
  - intros [e|r]; [by intros w []|]. apply tot_and. intros (Hrid & Hsame & Hrst).
    eapply (tot_deferring _ _ _ (fun _ => done_build) _ (fun _ _ => False)); [by apply tot_leased| |by intros e w []]. intros _. unfold releaseLease, ToPgtype. rewrite decide_False by done.
    apply tot_ignore, tot_exec; [done|]. intros t' d Hd.
    pose proof (tot_row (leased_in ["successful"; "failed"]) (fun r => bld_ProcessingBy r = None /\ in_list ["successful"; "failed"] (bld_Status r) = true)
      (fun r => col_eq (bld_ProcessingBy r) lease) _ (BuildReleaseLease (Some k) lease) (fun t d => eq_refl)) as Ht.
    specialize (Ht ltac:(intros r1 [Hl _]; rewrite Hl, Hlease; by apply bool_decide_eq_true) ltac:(by intros t1 r1; split) ltac:(by intros t1 r1 [_ Hl]; split)
      ltac:(intros t1 r1 [_ Hl]; cbn in *; destruct (String.eqb _ "successful"), (String.eqb _ "failed"); by rewrite ?orb_true_r) ltac:(done) ltac:(by intros; left) t' d Hd).
    destruct (BuildReleaseLease _ _ _ _) as [|[x d']]; [done|]. by destruct Ht.
Qed.

End settle.

(** When no statement fails, the configuration can be read, a temporary
    directory can be made and the runner comes to an end, reconciling a pending
    build whose lease is free succeeds: the build is then successful or failed
    and its lease is given back, whatever GitHub, the archive and the file
    system answer. *)
Theorem build_settles (env : Env) (S : Sorter) (U : Unicode) (H : BuildHost) (b : Builder) (get : nat -> error + BuilderConfig)
    (buildID : UUID) (r0 : Build) (w : World) :
  quiet env -> runner_ends b -> b_getConfig b = Some get -> (forall n, exists cfg, get n = inr cfg) -> (forall n, exists dir, bh_MkdirTemp n = inr dir) ->
  images_ok (w_db w) -> (forall n, env_uuid n <> uuid_Nil /\ db_images (w_db w) !! env_uuid n = None) ->
  buildID <> uuid_Nil -> bld_ID r0 = Some buildID -> buildable b (w_db w) buildID r0 (w_db w) ->
  let r := ReconcileBuild b buildID w in
  r.1 = Ret tt /\ exists row, db_builds (w_db r.2) !! buildID = Some row /\ same_build r0 row /\ bld_ProcessingBy row = None /\
    in_list ["successful"; "failed"] (bld_Status row) = true.
Proof.
  intros Hq Hrunner Hget Hcfg Hdir Himages Hfresh Hk Hid Hb r.
  pose proof (tot_reconcile_build Hq b Hrunner get Hget Hcfg Hdir (w_db w) buildID Himages Hfresh r0 Hid Hk w Hb) as Ht. fold r in Ht.
  destruct r.1 as [[]| | |]; try done. split; [done|]. destruct Ht as (row & H1 & _ & H2 & H3 & H4). by exists row.
Qed.

(** ** Unpacking *)

(** Every value a computation answers satisfies [Q]. *)
Definition yields {A} (Q : A -> Prop) (m : M A) : Prop := forall w a w', m w = (Ret a, w') -> Q a.

Lemma yields_bind {A B} (Q : B -> Prop) (m : M A) (k : A -> M B) : (forall a, yields Q (k a)) -> yields Q (bind m k).
Proof. intros Hk w b w' (a & w1 & _ & E)%bind_inv. by eapply Hk. Qed.

Lemma yields_ret {A} (Q : A -> Prop) a : Q a -> yields Q (ret a).
Proof. by intros HQ w a' w' [= <- <-]. Qed.

Ltac solve_yields := repeat first [apply yields_bind; intros | apply yields_ret | case_match].

(** A fold keeps an invariant of its accumulator. *)
Lemma em_fold_inv {env : Env} {A B} (P : Event -> Prop) (I : B -> Prop) (f : B -> A -> M B) l acc :
  I acc -> (forall b x, I b -> x ∈ l -> emits P (f b x) /\ yields I (f b x)) -> emits P (fold_each f l acc).
Proof.
  revert acc. induction l as [|x l IH]; intros acc Ha Hf; simpl; [apply em_ret|]. destruct (Hf acc x Ha) as [He Hy]; [by left|].
  intros w. specialize (He w). unfold bind. destruct (f acc x w) as [[b| | |] w1] eqn:E; simpl in *; try done. etrans; [exact He|].
  apply IH; [by eapply Hy|]. intros. apply Hf; [done|by right].
Qed.

(** Elements of a path that does not go up. *)
Definition no_dotdot (s : string) : Prop := Forall (fun x => x <> seg_dotdot) (split_byte slash (bytes_of s)).

(** The elements that count. *)
Definition kept (s : string) : list (list N) := List.filter (fun x => negb (bool_decide (x = []) || bool_decide (x = seg_dot))) (split_byte slash (bytes_of s)).

Lemma kept_plain s : no_dotdot s -> Forall plain_segment (kept s) /\ Forall (Forall is_byte) (kept s).
Proof.
  intros Hd. pose proof (split_byte_free slash (bytes_of s)) as Hf. pose proof (split_is_byte slash _ (bytes_of_bytes s)) as Hb. unfold no_dotdot, kept in *.
  induction (split_byte slash (bytes_of s)) as [|x l IH]; simpl; [done|]. inversion Hd; inversion Hf; inversion Hb; subst. destruct IH as [IH1 IH2]; [done..|].
  repeat case_bool_decide; simpl; try done. by split; constructor; try done.
Qed.

Lemma clean_kept s st : no_dotdot s -> foldl (clean_step true) st (split_byte slash (bytes_of s)) = reverse (kept s) ++ st.
Proof.
  unfold no_dotdot, kept. generalize (split_byte slash (bytes_of s)). intros l. revert st. induction l as [|x l IH]; intros st Hd; simpl; [done|].
  inversion Hd; subst. rewrite IH by done. unfold clean_step. destruct (bool_decide (x = []) || bool_decide (x = seg_dot)); simpl; [done|].
  rewrite bool_decide_eq_false_2 by done. rewrite reverse_cons, <- app_assoc. done.
Qed.

Section below.
Context (ss : list (list N)) (Hp : Forall plain_segment ss) (Hb : Forall (Forall is_byte) ss).

(** At or below the directory. *)
Definition below (p : string) : Prop := exists tail, p = rooted_path (ss ++ tail).

Lemma join_kept s : no_dotdot s -> path_Join [rooted_path ss; s] = rooted_path (ss ++ kept s).
Proof. intros Hd. rewrite path_Join_below by done. rewrite clean_kept by done. by rewrite reverse_app, !reverse_involutive. Qed.

Lemma join_below s : no_dotdot s -> below (path_Join [rooted_path ss; s]).
Proof. intros Hd. rewrite join_kept by done. by eexists. Qed.

Lemma dir_below s : no_dotdot s ->
  below (filepath_Dir (path_Join [rooted_path ss; s])) \/ filepath_Dir (path_Join [rooted_path ss; s]) = filepath_Dir (rooted_path ss).
Proof.
  intros Hd. rewrite join_kept by done. destruct (kept_plain s Hd) as [Kp Kb]. destruct (kept s) as [|x l _] using rev_ind; [right; by rewrite app_nil_r|left].
  rewrite app_assoc, Dir_rooted; [by exists l|rewrite <- app_assoc; by apply Forall_app|rewrite <- app_assoc; by apply Forall_app].
Qed.

End below.

(** *** The elements of stripped names *)

Lemma split_byte_app c a l : split_byte c (a ++ c :: l) = split_byte c a ++ split_byte c l.
Proof.
  induction a as [|x a IH]; simpl; [by rewrite N.eqb_refl|]. destruct (N.eqb_spec x c); simpl; [by rewrite IH|]. rewrite IH.
  pose proof (split_byte_free c a) as Hf. destruct (split_byte c a) as [|s l'] eqn:E; [|done].
  exfalso. clear -E. destruct a as [|y a]; simpl in E; [done|]. destruct (N.eqb y c); [done|]. by destruct (split_byte c a).
Qed.

(** A prefix of whole elements. *)
Definition whole_prefix (p : string) : Prop := p = "" \/ exists q, p = q +:+ "/".

Lemma trim_no_dotdot name p : whole_prefix p -> no_dotdot name -> no_dotdot (TrimPrefix name p).
Proof.
  unfold TrimPrefix. intros Hw Hd. destruct (HasPrefix name p) eqn:E; [|done]. apply HasPrefix_drop in E. set (rest := str_drop _ name) in *. clearbody rest. subst name.
  destruct Hw as [->|[q ->]]; [done|]. unfold no_dotdot in *. rewrite !bytes_of_app in Hd. change (bytes_of "/") with [slash] in Hd.
  rewrite <- app_assoc in Hd. cbn [app] in Hd. rewrite split_byte_app in Hd. by apply Forall_app in Hd as [_ ?].
Qed.

Lemma github_whole p name : whole_prefix p -> whole_prefix (github_prefix p name).
Proof. intros Hw. unfold github_prefix. case_match; [right; by eexists|done]. Qed.

Lemma root_whole root : whole_prefix (root_prefix root).
Proof.
  unfold root_prefix. set (p := TrimPrefix root "/"). destruct (String.eqb_spec p "") as [->|Hne]; [by left|]. simpl. destruct (HasSuffix p "/") eqn:E; simpl; [|right; by eexists].
  right. unfold HasSuffix in E. apply HasPrefix_drop in E. apply (f_equal str_rev) in E. rewrite str_rev_rev, str_rev_app, str_rev_rev in E. by eexists.
Qed.

Lemma entry_no_dotdot p root name path : whole_prefix p -> no_dotdot name -> entry_path p (root_prefix root) name = Some path -> no_dotdot path.
Proof.
  intros Hp Hn E. unfold entry_path in E. pose proof (trim_no_dotdot name p Hp Hn) as H1. pose proof (trim_no_dotdot _ _ (root_whole root) H1) as H2.
  repeat case_match; simplify_eq; done.
Qed.

(** *** The calls *)

(** The calls on files that unpacking makes: every file is at or below the
    directory, and so is every new directory but for the parent itself. *)
Definition write_below (ss : list (list N)) (e : Event) : Prop :=
  match e with
  | EvIO (IoMkdir p _) => below ss p \/ p = filepath_Dir (rooted_path ss)
  | EvIO (IoCreate p _) | EvIO (IoCopyFile p _) | EvIO (IoWriteFile p _ _) | EvIO (IoReadFile p _) | EvIO (IoChmod p _) => below ss p
  | _ => False
  end.

(** The paths of the entries below the root directory. *)
Fixpoint entry_paths (githubPrefix rootDirPrefix : string) (entries : list tar_entry) : list string :=
  match entries with
  | [] => []
  | e :: l =>
      let p := github_prefix githubPrefix e.(te_Name) in
      option_list (entry_path p rootDirPrefix e.(te_Name)) ++ entry_paths p rootDirPrefix l
  end.

Section unpack.
Context {env : Env} {H : BuildHost}.

Lemma entry_yields dir root df st e :
  yields (fun st' => ex_githubPrefix st' = github_prefix (ex_githubPrefix st) (te_Name e) /\
            ex_foundDockerfile st' = (ex_foundDockerfile st || existsb (fun p => String.eqb p df) (option_list (entry_path (github_prefix (ex_githubPrefix st) (te_Name e)) root (te_Name e)))))
    (extract_entry dir root df st e).
Proof.
  unfold extract_entry. set (p := github_prefix _ _). destruct (entry_path p root (te_Name e)) as [path|]; simpl; [|apply yields_ret; by rewrite orb_false_r].
  rewrite orb_false_r. case_match; solve_yields; done.
Qed.

Lemma entry_emits ss root df st e : Forall plain_segment ss -> Forall (Forall is_byte) ss ->
  whole_prefix (ex_githubPrefix st) -> no_dotdot (te_Name e) -> emits (write_below ss) (extract_entry (rooted_path ss) (root_prefix root) df st e).
Proof.
  intros Hp Hb Hw Hn. unfold extract_entry. pose proof (github_whole _ (te_Name e) Hw) as Hw'. set (p := github_prefix _ _) in *. clearbody p.
  destruct (entry_path p (root_prefix root) (te_Name e)) as [path|] eqn:E; [|solve_emits]. apply entry_no_dotdot in E; [|done|done].
  pose proof (join_below ss Hp Hb path E) as Hj. pose proof (dir_below ss Hp Hb path E) as Hd. cbv zeta. set (full := path_Join _) in *. clearbody full.
  unfold content_signal, path_call, path_try, read_back. solve_emits; simpl; try done. by left.
Qed.

(** Whether a Dockerfile was found is whether an entry has its path. *)
Lemma fold_found dir root df l : forall st,
  yields (fun st' => ex_foundDockerfile st' = (ex_foundDockerfile st || existsb (fun p => String.eqb p df) (entry_paths (ex_githubPrefix st) root l)))
    (fold_each (extract_entry dir root df) l st).
Proof.
  induction l as [|e l IH]; intros st; simpl; [apply yields_ret; by rewrite orb_false_r|]. intros w st' w' (st1 & w1 & E1 & E2)%bind_inv.
  apply entry_yields in E1 as [Ep Ef]. apply IH in E2. by rewrite E2, Ef, Ep, existsb_app, orb_assoc.
Qed.

End unpack.

(** C30: Whatever the archive holds and the file system answers, unpacking the
    source of a build touches only files at or below its directory, provided no
    element of a name in the archive or of the configured path of the
    Dockerfile is two dots. *)
Theorem extraction_below (env : Env) (H : BuildHost) (archive : tarball) (ss : list (list N)) (rootDir dockerfilePath : string) :
  Forall plain_segment ss -> Forall (Forall is_byte) ss -> Forall (fun e => no_dotdot (te_Name e)) (tb_entries archive) -> no_dotdot dockerfilePath ->
  emits (write_below ss) (extractAndDetect archive (rooted_path ss) rootDir dockerfilePath).
Proof.
  intros Hp Hb He Hd. unfold extractAndDetect. destruct (tb_gzip archive); [solve_emits|]. cbv zeta. apply em_bind.
  - apply (em_fold_inv _ (fun st => whole_prefix (ex_githubPrefix st))); [by left|]. intros st e Hw Hin. rewrite Forall_forall in He. split.
    + apply entry_emits; [done|done|done|by apply He].
    + intros w st' w' [E _]%entry_yields. rewrite E. by apply github_whole.
  - intros st. destruct (tb_err archive); [solve_emits|]. unfold inject_dockerfile, path_try.
    assert (below ss (path_Join [rooted_path ss; dockerfile_name dockerfilePath])) as Hj.
    { apply join_below; [done|done|]. unfold dockerfile_name. case_match; [|done]. unfold no_dotdot. vm_compute. by repeat constructor. }
    solve_emits.
Qed.

(** Every framework has a template. *)
Lemma GetDockerfile_ok s : DetectFramework s <> "" -> GetDockerfile (DetectFramework s) <> "".
Proof.
  intros Hne. assert (DetectFramework s ∈ ["nuxt"; "nextjs"; "laravel"; "go"; "rails"; "node"; ""]) as Hin.
  { unfold DetectFramework, or_else, package_framework, gemfile_framework, composer_framework. repeat case_match; set_solver. }
  revert Hne Hin. generalize (DetectFramework s). intros f Hne Hin. repeat (apply elem_of_cons in Hin as [->|Hin]; [first [done|by vm_compute]|]).
  by apply not_elem_of_nil in Hin.
Qed.

(** When the source of a build has been unpacked, it has a Dockerfile at the
    configured path below the root directory: an entry of the archive with this
    name (a file or a directory, the code does not look), and then no framework
    is reported, or the template of the framework that was reported, which is
    not empty and is what the last call wrote. *)
Theorem build_context_complete (env : Env) (H : BuildHost) (archive : tarball) (dir rootDir dockerfilePath framework : string) (w w' : World) :
  extractAndDetect archive dir rootDir dockerfilePath w = (Ret framework, w') ->
  let dockerfile := dockerfile_name dockerfilePath in
  let paths := entry_paths "" (root_prefix rootDir) (tb_entries archive) in
  framework = "" /\ dockerfile ∈ paths \/
  framework <> "" /\ dockerfile ∉ paths /\ GetDockerfile framework <> "" /\
    head (w_log w') = Some (EvIO (IoWriteFile (path_Join [dir; dockerfile]) (GetDockerfile framework) true)).
Proof.
  intros E dockerfile paths. unfold extractAndDetect in E. destruct (tb_gzip archive); [done|]. cbv zeta in E. apply bind_inv in E as (st & w1 & Ef & E).
  apply fold_found in Ef. simpl in Ef. fold dockerfile paths in Ef. destruct (tb_err archive); [done|]. unfold inject_dockerfile in E. fold dockerfile in E.
  destruct (ex_foundDockerfile st).
  - injection E as <- <-. left. split; [done|]. symmetry in Ef. apply existsb_exists in Ef as (p & Hin%list_elem_of_In & Hp%String.eqb_eq). by subst.
  - right. destruct (String.eqb_spec (DetectFramework (ex_signals st)) "") as [|Hne]; [done|]. apply bind_inv in E as (x & w2 & Et & E). injection E as <- <-.
    split; [done|]. split; [|split; [by apply GetDockerfile_ok|]].
    + intros Hin%list_elem_of_In. assert (existsb (fun p => String.eqb p dockerfile) paths = true) as Hx; [|congruence].
      apply existsb_exists. exists dockerfile. split; [done|apply String.eqb_refl].
    + unfold path_try, extern_io, bind in Et. destruct (bh_WriteFile _ _ _); [done|]. by injection Et as <- <-.
Qed.

(** ** A sample *)

Definition sample_entry (name : string) : tar_entry := mkEntry name 48 420.

(** A repository with a Go module. *)
Definition sample_tarball : tarball := mkTarball None [sample_entry "shop-abc/go.mod"; sample_entry "shop-abc/cmd/main.go"] None.

#[export] Instance sample_host : BuildHost := {|
  bh_MkdirTemp _ := inr "/tmp/kindling-build-1";
  bh_MkdirAll _ _ := true;
  bh_Create _ _ := None;
  bh_Copy _ _ := None;
  bh_Chmod _ _ := true;
  bh_ReadFile _ _ := Some [];
  bh_WriteFile _ _ _ := None;
  bh_RemoveAll _ _ := true;
  bh_request _ := None;
  bh_http _ _ _ := TarballReply 200 "200 OK" "" sample_tarball;
  bh_done _ := None
|}.

Definition sample_config (_ : nat) : error + BuilderConfig := inr (mkBuilderConfig "" "registry.example" "" "").
Definition sample_builder : Builder := mkBuilder (Some sample_config) 30%N (fun run line => line ("building " +:+ br_ImageRef run)).

Definition pending_build : Build := set_bld_Status "pending" (set_bld_ImageID None sample_build).
Definition build_world : World := mkWorld (set_builds {[ 50%N := pending_build ]} sample_db) 2000 0 None [].

(** An element of two dots leads out of the directory, in a name of the archive
    or in the configured path of the Dockerfile. *)
Example unpacking_goes_up :
  (w_log (extractAndDetect (mkTarball None [sample_entry "shop-abc/../../../etc/cron.d/job"] None) "/tmp/b" "" "" sample_world).2 =
    [EvIO (IoCopyFile "/etc/cron.d/job" true); EvIO (IoCreate "/etc/cron.d/job" true); EvIO (IoMkdir "/etc/cron.d" true)]) /\
  head (w_log (extractAndDetect sample_tarball "/tmp/b" "" "../../root/Dockerfile" sample_world).2) =
    Some (EvIO (IoWriteFile "/root/Dockerfile" (GetDockerfile "go") true)).
Proof. vm_compute. done. Qed.

Lemma sample_runner_sound (Built : BuildRun -> Prop) : (forall run, Built run) -> runner_sound sample_builder Built.
Proof. intros HB P run line Hline. eapply tr_conseq; [apply Hline|done| |done]. by intros u d Hd. Qed.

Lemma build_recorded_witness :
  w_db (ReconcileBuild sample_builder 50%N build_world).2 = w_db build_world \/
  exists r, db_builds (w_db build_world) !! 50%N = Some r /\
    build_effect sample_builder (fun _ => True) (w_db build_world) 50%N r (w_now (tick build_world)) (w_db (ReconcileBuild sample_builder 50%N build_world).2).
Proof.
  apply (build_recorded sample_env insertion_sorter sample_unicode sample_host sample_builder (fun _ => True) 50%N build_world).
  - apply sample_runner_sound. intros. exact I.
  - discriminate.
  - intros k r. cbn. rewrite lookup_singleton_Some. intros [<- <-]. reflexivity.
Defined.

Lemma build_settles_witness :
  (ReconcileBuild sample_builder 50%N build_world).1 = Ret tt /\
  exists row, db_builds (w_db (ReconcileBuild sample_builder 50%N build_world).2) !! 50%N = Some row /\ same_build pending_build row /\
    bld_ProcessingBy row = None /\ in_list ["successful"; "failed"] (bld_Status row) = true.
Proof.
  apply (build_settles sample_env insertion_sorter sample_unicode sample_host sample_builder sample_config 50%N pending_build build_world).
  - intros n. reflexivity.
  - intros P run line Hline. eapply tot_conseq; [apply Hline|done|by intros|by intros].
  - reflexivity.
  - intros n. by eexists.
  - intros n. by eexists.
  - intros k r. cbn. rewrite lookup_singleton_Some. intros [<- <-]. split; vm_compute; reflexivity.
  - intros n. change (env_uuid n) with (1000 + N.of_nat n)%N. split; [unfold uuid_Nil; lia|]. cbn. apply lookup_singleton_None. lia.
  - discriminate.
  - reflexivity.
  - split; vm_compute; try reflexivity. discriminate.
Defined.

Lemma extraction_below_witness : emits (write_below [bytes_of "tmp"; bytes_of "b"]) (extractAndDetect sample_tarball (rooted_path [bytes_of "tmp"; bytes_of "b"]) "" "").
Proof.
  apply (extraction_below sample_env sample_host).
  - repeat constructor; vm_compute; first [discriminate|set_solver].
  - repeat constructor.
  - repeat constructor; vm_compute; discriminate.
  - repeat constructor; vm_compute; discriminate.
Defined.

Lemma build_context_witness :
  (extractAndDetect sample_tarball "/tmp/b" "" "" sample_world).1 = Ret "go" /\
  head (w_log (extractAndDetect sample_tarball "/tmp/b" "" "" sample_world).2) = Some (EvIO (IoWriteFile "/tmp/b/Dockerfile" (GetDockerfile "go") true)).
Proof.
  split; [vm_compute; reflexivity|].
  destruct (build_context_complete sample_env sample_host sample_tarball "/tmp/b" "" "" "go" sample_world (extractAndDetect sample_tarball "/tmp/b" "" "" sample_world).2) as [[H _]|(_ & _ & _ & H)].
  - vm_compute. reflexivity.
  - discriminate H.
  - exact H.
Defined.
