(* ===== verification/DomainApi.v ===== *)
(** * The API of custom domains

    internal/rpc/domains/domains.go: the handlers, the statements they use and
    what they do: which rows a request may add, remove, verify or point at a
    deployment, that a name is verified only with its TXT record, the form of
    the names, and that a verified domain is served by the edge. *)

From S2P Require Import Prelude NetAddr Text Models Runtime Effects Queries Logic EventLogic TableFacts Codecs VolumeQueries Secrets SecretsProofs NameProofs Json GithubActions EventQueries Api VolumeApi DbLogic EdgeProxy EdgeRoutes WorkerDns DnsNames Background Sample.

(** ** Statements *)

Section queries.
Context {S : Sorter}.

Definition domain_of_project (project : pgUUID) (r : Domain) : bool := col_eq r.(dom_ProjectID) project.
Definition domain_of_service (service : pgUUID) (r : Domain) : bool := col_eq r.(dom_ServiceID) service.
Definition production_domain (r : Domain) : bool := String.eqb r.(dom_DomainKind) "production".

(** ORDER BY domain_name. *)
Definition domain_name_le (a b : Domain) : bool := String.leb a.(dom_DomainName) b.(dom_DomainName).

Definition DomainListByProjectID (project : pgUUID) : reads (list Domain) := fun _ d =>
  inr (sort_by domain_name_le (rows (fun r => domain_of_project project r && production_domain r) d.(db_domains))).

Definition DomainListByServiceID (service : pgUUID) : reads (list Domain) := fun _ d =>
  inr (sort_by domain_name_le (rows (fun r => domain_of_service service r && production_domain r) d.(db_domains))).

Definition DomainFirstByIDAndProject (id project : pgUUID) : reads Domain := fun _ d =>
  first_row (List.filter (domain_of_project project) (option_list (row_at d.(db_domains) id))).

Definition DomainFirstByIDAndService (id service : pgUUID) : reads Domain := fun _ d =>
  first_row (List.filter (domain_of_service service) (option_list (row_at d.(db_domains) id))).

(** [domain_name] is unique; the row starts unverified and without a deployment. *)
Definition DomainCreate (id project service : pgUUID) (name token : string) : writes Domain := fun now d =>
  if existsb (fun r => String.eqb r.(dom_DomainName) name) (rows always d.(db_domains)) then inl (ErrConstraint "domains_domain_name_key")
  else insert_row t_domains id (mkDomain id project service None name token None None None "production" None (Some now) (Some now)) d.

Definition delete_domain (guard : Domain -> bool) (id : pgUUID) (d : Db) : error + (unit * Db) :=
  match row_at d.(db_domains) id, id with
  | Some r, Some k => inr (tt, if guard r then set_domains (delete k d.(db_domains)) d else d)
  | _, _ => inr (tt, d)
  end.

Definition DomainDelete (id project : pgUUID) : writes unit := fun _ d => delete_domain (domain_of_project project) id d.
Definition DomainDeleteByServiceID (id service : pgUUID) : writes unit := fun _ d => delete_domain (domain_of_service service) id d.

Definition verified_row (now : Time) (r : Domain) : Domain :=
  set_dom_UpdatedAt (Some now) (set_dom_VerificationToken "" (set_dom_VerifiedAt (Some now) r)).

Definition DomainSetVerified (id project : pgUUID) : writes Domain := fun now d =>
  returning (update_row t_domains id (domain_of_project project) (verified_row now) d).
Definition DomainSetVerifiedByServiceID (id service : pgUUID) : writes Domain := fun now d =>
  returning (update_row t_domains id (domain_of_service service) (verified_row now) d).

Definition DomainUpdateDeploymentForProject (dep project : pgUUID) : writes unit := fun now d =>
  update_where t_domains (fun r => domain_of_project project r && production_domain r)
    (fun r => set_dom_UpdatedAt (Some now) (set_dom_DeploymentID dep r)) d.

End queries.

(** ** Names and challenges *)

Definition kindlingChallengePrefix : string := "_kindling-challenge.".
Definition domainChallengeRecordName (domain : string) : string := kindlingChallengePrefix +:+ domain.

(** The body of the loop over the labels: the error, if any. *)
Definition check_label (p : string) : option string :=
  if String.eqb p "" || (63 <? String.length p)%nat then Some "invalid domain label"
  else if negb (forallb slug_byte (runes p)) then Some "domain must be ASCII letters, digits, and hyphens per label"
  else if HasPrefix p "-" || HasSuffix p "-" then Some "domain labels cannot start or end with a hyphen"
  else None.

Definition NormalizeDomainName {U : Unicode} (raw : string) : string + string :=
  let s := ToLower (TrimSpace raw) in
  if String.eqb s "" then inl "domain name is required"
  else
    let parts := Split_dot s in
    if (length parts <? 2)%nat then inl "use a fully qualified hostname (e.g. app.example.com)"
    else match omap check_label parts with msg :: _ => inl msg | [] => inr s end.

(** [net.Resolver.LookupTXT]: records, or an error that may say not found. *)
Inductive txt_reply := TxtRecords (txts : list string) | TxtFailed (isNotFound : bool) (e : error).

(** crypto/rand and the resolver, at the n-th call. *)
Class DomainHost := {
  dh_rand : nat -> error + list N;
  dh_LookupTXT : nat -> string -> txt_reply
}.

Definition txt_matches (txts : list string) (want : string) : bool := existsb (fun t => String.eqb (TrimSpace t) (TrimSpace want)) txts.

Record dnsChallengeOut := mkChallengeOut { dc_Type : string; dc_Name : string; dc_Value : string }.

(** [Instructions] is never set. *)
Record projectDomainOut := mkDomainOut {
  do_ID : string;
  do_DomainName : string;
  do_VerifiedAt : option Time;
  do_DeploymentID : option string;
  do_DNSChallenge : option dnsChallengeOut
}.

Inductive DomainBody :=
  | BodyDomains (l : list projectDomainOut)
  | BodyDomain (d : projectDomainOut).

Definition domainToOut (d : Domain) : projectDomainOut :=
  mkDomainOut (uuid_String (FromPgtype d.(dom_ID))) d.(dom_DomainName) d.(dom_VerifiedAt) (uuid_String <$> d.(dom_DeploymentID))
    (if not_null d.(dom_VerifiedAt) || String.eqb d.(dom_VerificationToken) "" then None
     else Some (mkChallengeOut "TXT" (domainChallengeRecordName d.(dom_DomainName)) d.(dom_VerificationToken))).

(** Code 23505 is a violated primary key or unique constraint, which PostgreSQL
    names by their column and these suffixes. *)
Fixpoint IsPgUniqueViolation (e : error) : bool :=
  match e with
  | ErrConstraint what => HasSuffix what "_pkey" || HasSuffix what "_key"
  | ErrWrap _ e => IsPgUniqueViolation e
  | _ => false
  end.

Definition StatusCreated : Z := 201.

(** ** The handlers *)

Section api.
Context {env : Env} {S : Sorter} {U : Unicode} {UP : UuidParser} {H : DomainHost}.

Abbreviation step := (step_of DomainBody).

(** The hexadecimal digits of 24 random bytes. *)
Definition newVerificationToken : M string := fun w =>
  match dh_rand w.(w_step) with
  | inl e => (Err e, tick w)
  | inr b => (Ret (of_bytes (hex_Encode b)), tick w)
  end.

Definition challengeTXTFound (recordName want : string) : M bool :=
  let! r := extern (EvLookupTXT recordName) (fun n => dh_LookupTXT n recordName) in
  match r with
  | TxtFailed true _ => ret false
  | TxtFailed false e => throw e
  | TxtRecords txts => ret (txt_matches txts want)
  end.

Definition serviceAndProjectByIDAndOrg (serviceID orgID : pgUUID) : M (Service * Project) :=
  let! service := query (ServiceFirstByIDAndOrg serviceID orgID) in
  let! project := query (ProjectFirstByID service.(svc_ProjectID)) in
  ret (service, project).

(** The service named in the path, with its id; for projects the handlers do
    what [projectForRequest] does. *)
Definition domain_service (r : Request) (orgID : pgUUID) : step (pgUUID * Service) :=
  match parseUUID r.(rq_id) with
  | None => reply (writeAPIError StatusBadRequest "invalid_id" "invalid service id")
  | Some serviceID =>
      let? '(service, _) := or_reply (serviceAndProjectByIDAndOrg serviceID orgID)
                              (fun _ => writeAPIError StatusNotFound "not_found" "service not found") in
      next (serviceID, service)
  end.

Definition list_domains (code : string) (rows : reads (list Domain)) : step (Response DomainBody) :=
  let? rows := or_reply (query rows) (writeAPIErrorFromErr StatusInternalServerError code) in
  next (RespJSON StatusOK (BodyDomains (domainToOut <$> rows))).

(** The second path value. *)
Definition domain_id (id : string) : step pgUUID :=
  match parseUUID id with
  | None => reply (writeAPIError StatusBadRequest "invalid_domain_id" "invalid domain id")
  | Some domainID => next domainID
  end.

Definition find_domain (row : reads Domain) : step Domain :=
  or_reply (query row) (fun e =>
    if is_no_rows e then writeAPIError StatusNotFound "not_found" "domain not found"
    else writeAPIErrorFromErr StatusInternalServerError "domain_lookup" e).

Definition domain_struct : GoStruct string := mkStruct "struct" "" [("domain_name", string_field (fun v _ => v))].

Definition add_domain (code : string) (projectID serviceID : pgUUID) (r : Request) : step (Response DomainBody) :=
  let? raw := decode_body domain_struct "" r in
  let? domainName := match NormalizeDomainName raw with
                     | inl msg => reply (writeAPIError StatusBadRequest "invalid_domain" msg)
                     | inr name => next name
                     end in
  let? token := or_reply newVerificationToken (writeAPIErrorFromErr StatusInternalServerError "token_generation") in
  let! id := new_uuid in
  let? d := or_reply (exec (DomainCreate (Some id) projectID serviceID domainName token)) (fun e =>
              if IsPgUniqueViolation e then writeAPIError StatusConflict "domain_taken" "that domain is already registered"
              else writeAPIErrorFromErr StatusInternalServerError code e) in
  next (RespJSON StatusCreated (BodyDomain (domainToOut d))).

Definition remove_domain (code : string) (row : reads Domain) (stmt : writes unit) : step (Response DomainBody) :=
  let? _ := find_domain row in
  let? _ := or_reply (exec stmt) (writeAPIErrorFromErr StatusInternalServerError code) in
  next (RespStatus StatusNoContent).

(** Goes on when the domain is pending and its record is found. *)
Definition check_challenge (d : Domain) : step unit :=
  if not_null d.(dom_VerifiedAt) then reply (RespJSON StatusOK (BodyDomain (domainToOut d)))
  else if String.eqb d.(dom_VerificationToken) "" then reply (writeAPIError StatusBadRequest "not_pending" "domain has no pending verification")
  else
    let recordName := domainChallengeRecordName d.(dom_DomainName) in
    let? txtOk := or_reply (challengeTXTFound recordName d.(dom_VerificationToken)) (fun e =>
                    writeAPIError StatusBadRequest "dns_lookup_failed" ("could not resolve DNS: " +:+ error_Error e)) in
    if txtOk : bool then next tt
    else reply (writeAPIError StatusBadRequest "verification_failed" ("TXT record " +:+ recordName +:+ " not found or value does not match")).

(** The row as it is after the domains were pointed at the deployment that
    runs, if one does. *)
Definition point_domains (running : reads Deployment) (stmt : pgUUID -> writes unit) (row : reads Domain) (d : Domain) : M Domain :=
  let! dep := attempt (query running) in
  match dep with
  | inl _ => ret d
  | inr dep =>
      if not_null dep.(dep_RunningAt) then
        do! ignore (exec (stmt dep.(dep_ID))) ;
        let! fresh := attempt (query row) in
        ret (match fresh with inr f => f | inl _ => d end)
      else ret d
  end.

Definition listProjectDomains (r : Request) (_ : string) : M (Response DomainBody) := handle (
  let? p := mustPrincipal r in
  let? '(projectID, _) := projectForRequest r p.(pr_OrganizationID) in
  list_domains "list_domains" (DomainListByProjectID projectID)).

Definition listServiceDomains (r : Request) (_ : string) : M (Response DomainBody) := handle (
  let? p := mustPrincipal r in
  let? '(serviceID, _) := domain_service r p.(pr_OrganizationID) in
  list_domains "list_service_domains" (DomainListByServiceID serviceID)).

Definition createProjectDomain (r : Request) (_ : string) : M (Response DomainBody) := handle (
  let? p := mustPrincipal r in
  let? _ := requireOrgAdmin p in
  let? '(projectID, _) := projectForRequest r p.(pr_OrganizationID) in
  let? service := or_reply (query (ServicePrimaryByProjectID projectID)) (writeAPIErrorFromErr StatusInternalServerError "project_primary_service") in
  add_domain "create_domain" projectID service.(svc_ID) r).

Definition createServiceDomain (r : Request) (_ : string) : M (Response DomainBody) := handle (
  let? p := mustPrincipal r in
  let? _ := requireOrgAdmin p in
  let? '(_, service) := domain_service r p.(pr_OrganizationID) in
  add_domain "create_service_domain" service.(svc_ProjectID) service.(svc_ID) r).

Definition deleteProjectDomain (r : Request) (id : string) : M (Response DomainBody) := handle (
  let? p := mustPrincipal r in
  let? _ := requireOrgAdmin p in
  let? '(projectID, _) := projectForRequest r p.(pr_OrganizationID) in
  let? domainID := domain_id id in
  remove_domain "delete_domain" (DomainFirstByIDAndProject domainID projectID) (DomainDelete domainID projectID)).

Definition deleteServiceDomain (r : Request) (id : string) : M (Response DomainBody) := handle (
  let? p := mustPrincipal r in
  let? _ := requireOrgAdmin p in
  let? '(serviceID, _) := domain_service r p.(pr_OrganizationID) in
  let? domainID := domain_id id in
  remove_domain "delete_service_domain" (DomainFirstByIDAndService domainID serviceID) (DomainDeleteByServiceID domainID serviceID)).

Definition verifyProjectDomain (r : Request) (id : string) : M (Response DomainBody) := handle (
  let? p := mustPrincipal r in
  let? _ := requireOrgAdmin p in
  let? '(projectID, _) := projectForRequest r p.(pr_OrganizationID) in
  let? domainID := domain_id id in
  let? d := find_domain (DomainFirstByIDAndProject domainID projectID) in
  let? _ := check_challenge d in
  let? d := or_reply (exec (DomainSetVerified domainID projectID)) (writeAPIErrorFromErr StatusInternalServerError "verify_domain") in
  let! d := point_domains (DeploymentLatestRunningByProjectID projectID) (fun dep => DomainUpdateDeploymentForProject dep projectID)
              (DomainFirstByIDAndProject domainID projectID) d in
  next (RespJSON StatusOK (BodyDomain (domainToOut d)))).

Definition verifyServiceDomain (r : Request) (id : string) : M (Response DomainBody) := handle (
  let? p := mustPrincipal r in
  let? _ := requireOrgAdmin p in
  let? '(serviceID, service) := domain_service r p.(pr_OrganizationID) in
  let? domainID := domain_id id in
  let? d := find_domain (DomainFirstByIDAndService domainID serviceID) in
  let? _ := check_challenge d in
  let? d := or_reply (exec (DomainSetVerifiedByServiceID domainID serviceID)) (writeAPIErrorFromErr StatusInternalServerError "verify_service_domain") in
  let! d := point_domains (DeploymentLatestRunningByServiceID service.(svc_ID)) (fun dep => DomainUpdateDeploymentForDomainID domainID dep)
              (DomainFirstByIDAndService domainID serviceID) d in
  next (RespJSON StatusOK (BodyDomain (domainToOut d)))).

Definition domain_routes_of_api : list (string * (Request -> string -> M (Response DomainBody))) :=
  [("GET /api/projects/{id}/domains", listProjectDomains);
   ("POST /api/projects/{id}/domains", createProjectDomain);
   ("DELETE /api/projects/{id}/domains/{domain_id}", deleteProjectDomain);
   ("POST /api/projects/{id}/domains/{domain_id}/verify", verifyProjectDomain);
   ("GET /api/services/{id}/domains", listServiceDomains);
   ("POST /api/services/{id}/domains", createServiceDomain);
   ("DELETE /api/services/{id}/domains/{domain_id}", deleteServiceDomain);
   ("POST /api/services/{id}/domains/{domain_id}/verify", verifyServiceDomain)].

End api.

(** ** What a request may do *)

(** The deployment answers for the project: production, running and live. *)
Definition serves (d : Db) (project dep : pgUUID) : Prop :=
  exists k r, dep = Some k /\ db_deployments d !! k = Some r /\ dep_ProjectID r = project /\ dep_DeploymentKind r = "production" /\
    not_null (dep_RunningAt r) = true /\ dep_live r = true.

(** Everything but the verification, the deployment and the time of the update. *)
Record same_domain (r r' : Domain) : Prop := {
  sd_ID : dom_ID r' = dom_ID r;
  sd_ProjectID : dom_ProjectID r' = dom_ProjectID r;
  sd_ServiceID : dom_ServiceID r' = dom_ServiceID r;
  sd_DomainName : dom_DomainName r' = dom_DomainName r;
  sd_RedirectTo : dom_RedirectTo r' = dom_RedirectTo r;
  sd_RedirectStatusCode : dom_RedirectStatusCode r' = dom_RedirectStatusCode r;
  sd_DomainKind : dom_DomainKind r' = dom_DomainKind r;
  sd_PreviewEnvironmentID : dom_PreviewEnvironmentID r' = dom_PreviewEnvironmentID r;
  sd_CreatedAt : dom_CreatedAt r' = dom_CreatedAt r
}.

(** The TXT record of the domain holds its token when it is looked up. *)
Definition challenge_met {H : DomainHost} (r : Domain) : Prop :=
  dom_VerificationToken r <> "" /\
  exists n txts, dh_LookupTXT n (domainChallengeRecordName (dom_DomainName r)) = TxtRecords txts /\ txt_matches txts (dom_VerificationToken r) = true.

Definition confirmed {H : DomainHost} (named : Prop) (r r' : Domain) : Prop :=
  (dom_VerifiedAt r' = dom_VerifiedAt r /\ dom_VerificationToken r' = dom_VerificationToken r) \/
  (named /\ dom_VerifiedAt r = None /\ challenge_met r /\ dom_VerificationToken r' = "").

Inductive row_change {U : Unicode} {H : DomainHost} (p : Principal) (d0 : Db) (named : Prop) : option Domain -> option Domain -> Prop :=
  | change_new r raw :
      owned p d0 (dom_ProjectID r) -> NormalizeDomainName raw = inr (dom_DomainName r) -> dom_DomainKind r = "production" ->
      dom_VerifiedAt r = None -> (forall k r', db_domains d0 !! k = Some r' -> dom_DomainName r' <> dom_DomainName r) ->
      row_change p d0 named None (Some r)
  | change_gone r : owned p d0 (dom_ProjectID r) -> named -> row_change p d0 named (Some r) None
  | change_row r r' :
      owned p d0 (dom_ProjectID r) -> same_domain r r' -> confirmed named r r' ->
      (dom_DeploymentID r' = dom_DeploymentID r \/ serves d0 (dom_ProjectID r) (dom_DeploymentID r')) ->
      row_change p d0 named (Some r) (Some r').

(** [id] names the domain in the path. *)
Record domain_effect {U : Unicode} {H : DomainHost} {UP : UuidParser} (p : Principal) (id : string) (d0 d : Db) : Prop := {
  de_only : d = set_domains (db_domains d) d0;
  de_rows : forall k, db_domains d !! k = db_domains d0 !! k \/ row_change p d0 (uuid_Parse id = Some k) (db_domains d0 !! k) (db_domains d !! k);
  de_admin : orgRoleCanManage (pr_OrgRole p) = true
}.

Definition domain_request_effect {U : Unicode} {H : DomainHost} {UP : UuidParser} (r : Request) (id : string) (d0 d : Db) : Prop :=
  d = d0 \/ exists p, rq_principal r = Some p /\ domain_effect p id d0 d.

(** Rows lie under their ids, and domains and deployments in the project of
    their service (schema.sql fills in the service of older rows). *)
Record domains_wf (d : Db) : Prop := {
  dw_projects : projects_keyed d;
  dw_services : forall k r, db_services d !! k = Some r -> svc_ID r = Some k;
  dw_deployments : forall k r, db_deployments d !! k = Some r -> dep_ID r = Some k;
  dw_domain_service : forall k r s svc, db_domains d !! k = Some r -> dom_ServiceID r = Some s -> db_services d !! s = Some svc ->
    dom_ProjectID r = svc_ProjectID svc;
  dw_deployment_service : forall k r s svc, db_deployments d !! k = Some r -> dep_ServiceID r = Some s -> db_services d !! s = Some svc ->
    dep_ProjectID r = svc_ProjectID svc
}.

Section effects.
Context {S : Sorter} {U : Unicode} {UP : UuidParser} {H : DomainHost} (p : Principal) (id : string) (d0 : Db) (Hwf : domains_wf d0)
        (Hadmin : orgRoleCanManage (pr_OrgRole p) = true).

Lemma set_domains_same m : set_domains m d0 = set_domains (db_domains (set_domains m d0)) d0.
Proof. done. Qed.

Lemma effect_created nid project service name token t x d' raw :
  owned p d0 project -> NormalizeDomainName raw = inr name -> DomainCreate nid project service name token t d0 = inr (x, d') -> domain_effect p id d0 d'.
Proof.
  intros Ho Hn HC. unfold DomainCreate in HC. destruct (existsb _ _) eqn:He; [done|].
  apply insert_row_inv in HC as (k & -> & Hk & _ & _ & ->). split; [done| |done]. intros k'. cbn. cbn in Hk.
  destruct (decide (k' = k)) as [->|Hne]; [|left; by rewrite lookup_insert_ne]. right. rewrite lookup_insert_eq, Hk.
  eapply change_new; [done|exact Hn|done|done|]. intros k1 r1 H1 E. simpl in E.
  assert (existsb (fun r => String.eqb (dom_DomainName r) name) (rows always (db_domains d0)) = true); [|congruence].
  apply existsb_exists. exists r1. split; [|by apply String.eqb_eq]. apply list_elem_of_In, elem_of_rows. split; [done|]. by exists k1.
Qed.

Lemma effect_deleted guard k d' x :
  (forall r, db_domains d0 !! k = Some r -> guard r = true -> owned p d0 (dom_ProjectID r)) -> uuid_Parse id = Some k ->
  delete_domain guard (Some k) d0 = inr (x, d') -> d' = d0 \/ domain_effect p id d0 d'.
Proof.
  intros Hg Hid HD. unfold delete_domain in HD. simpl in HD. destruct (db_domains d0 !! k) as [r|] eqn:Hk; [|left; by injection HD as <- <-].
  injection HD as <- <-. destruct (guard r) eqn:Hr; [|by left]. right. split; [done| |done]. intros k'. cbn.
  destruct (decide (k' = k)) as [->|Hne]; [|left; by rewrite lookup_delete_ne]. right. rewrite lookup_delete_eq, Hk. apply change_gone; [by apply Hg|done].
Qed.

Lemma effect_verified guard k r t x d' :
  db_domains d0 !! k = Some r -> owned p d0 (dom_ProjectID r) -> uuid_Parse id = Some k -> dom_VerifiedAt r = None -> challenge_met r ->
  returning (update_row t_domains (Some k) guard (verified_row t) d0) = inr (x, d') -> domain_effect p id d0 d'.
Proof.
  intros Hk Ho Hid Hv Hc HU. apply returning_inv in HU as (k' & r' & [= <-] & Hk' & _ & _ & _ & ->). cbn in Hk'. simplify_eq.
  split; [done| |done]. intros k1. cbn. destruct (decide (k1 = k)) as [->|Hne]; [|left; by rewrite lookup_insert_ne].
  right. rewrite lookup_insert_eq, Hk. apply change_row; [done|done| |by left]. right. by destruct r.
Qed.

(** Pointing rows at a deployment keeps an effect. *)
Lemma effect_pointed d m :
  domain_effect p id d0 d ->
  (forall k, m !! k = db_domains d !! k \/
     exists r t dep, db_domains d !! k = Some r /\ owned p d0 (dom_ProjectID r) /\ serves d0 (dom_ProjectID r) dep /\
       m !! k = Some (set_dom_UpdatedAt t (set_dom_DeploymentID dep r))) ->
  domain_effect p id d0 (set_domains m d).
Proof.
  intros [E1 E2 _] Hm. split; [rewrite E1; done| |done]. intros k. cbn. destruct (Hm k) as [->|(r & t & dep & Hr & Ho & Hs & ->)]; [apply E2|].
  right. destruct (E2 k) as [E|E].
  - rewrite E in Hr. rewrite Hr. destruct r. apply change_row; [done|done|by left|by right].
  - rewrite Hr in E. inversion E as [r1 raw O N K V F X Y| |r1 r2 O D C P X Y]; subst.
    + destruct r. by eapply change_new.
    + destruct r. apply change_row; [done|by destruct D|exact C|]. right. by rewrite (sd_ProjectID _ _ D) in Hs.
Qed.

Lemma first_sorted {R} (le : R -> R -> bool) (q : R -> bool) (m : gmap UUID R) x :
  first_row (sort_by le (rows q m)) = inr x -> q x = true /\ exists k, m !! k = Some x.
Proof. intros Hx%first_row_elem. rewrite sort_by_elem in Hx. by apply elem_of_rows in Hx. Qed.

Lemma project_serves project t dep :
  DeploymentLatestRunningByProjectID project t d0 = inr dep -> serves d0 project (dep_ID dep).
Proof.
  intros (Hc & k & Hk)%first_sorted. rewrite !andb_true_iff in Hc. destruct Hc as [[[Hp Hkind] Hr] Hl]. apply org_cols in Hp as (o & Hp & ->).
  exists k, dep. split; [by apply (dw_deployments d0 Hwf)|]. split_and!; try done. by apply String.eqb_eq.
Qed.

Lemma service_serves s svc t dep :
  db_services d0 !! s = Some svc -> DeploymentLatestRunningByServiceID (svc_ID svc) t d0 = inr dep -> serves d0 (svc_ProjectID svc) (dep_ID dep).
Proof.
  intros Hs (Hc & k & Hk)%first_sorted. rewrite !andb_true_iff in Hc. destruct Hc as [[[Hp Hkind] Hr] Hl].
  apply org_cols in Hp as (o & Hp & Ho). rewrite (dw_services d0 Hwf s svc Hs) in Ho. injection Ho as <-.
  exists k, dep. split; [by apply (dw_deployments d0 Hwf)|]. split_and!; try done; [by eapply (dw_deployment_service d0 Hwf)|by apply String.eqb_eq].
Qed.

Lemma effect_project_pointed project dep t d x d' :
  domain_effect p id d0 d -> owned p d0 project -> serves d0 project dep -> DomainUpdateDeploymentForProject dep project t d = inr (x, d') ->
  domain_effect p id d0 d'.
Proof.
  intros He Ho Hs HU. apply update_where_inv in HU as [_ ->]. apply effect_pointed; [done|]. intros k. cbn. rewrite lookup_fmap.
  destruct (db_domains d !! k) as [r|] eqn:Hk; simpl; [|by left]. destruct (domain_of_project project r && production_domain r) eqn:Hg; [|by left].
  right. apply andb_true_iff in Hg as [(o & Hp & ->)%org_cols _]. exists r, (Some t), dep. by rewrite Hp.
Qed.

Lemma effect_domain_pointed k r dep t d x d' :
  domain_effect p id d0 d -> db_domains d !! k = Some r -> owned p d0 (dom_ProjectID r) -> serves d0 (dom_ProjectID r) dep ->
  DomainUpdateDeploymentForDomainID (Some k) dep t d = inr (x, d') -> domain_effect p id d0 d'.
Proof.
  intros He Hk Ho Hs HU. apply executing_inv in HU as [->|(k' & r' & [= <-] & Hk' & _ & _ & ->)]; [done|]. cbn in Hk'. simplify_eq.
  apply effect_pointed; [done|]. intros k1. cbn. destruct (decide (k1 = k)) as [->|Hne]; [|left; by rewrite lookup_insert_ne].
  right. exists r, (Some t), dep. by rewrite lookup_insert_eq.
Qed.

End effects.

Section handlers.
Context {env : Env} {S : Sorter} {U : Unicode} {UP : UuidParser} {H : DomainHost} (r : Request) (id : string) (d0 : Db) (Hwf : domains_wf d0).

Abbreviation eff := (domain_request_effect r id d0).
Abbreviation start := (fun d : Db => d = d0).
Abbreviation hd P m Q := (htr (B := DomainBody) P m Q (fun _ => eff) eff).

Lemma eff_same : eff d0.
Proof. by left. Qed.

Lemma eff_some p d : rq_principal r = Some p -> domain_effect p id d0 d -> eff d.
Proof. intros. right. by exists p. Qed.

Lemma step_service p :
  hd start (domain_service r (pr_OrganizationID p))
    (fun x d => start d /\ exists s, x.1 = Some s /\ db_services d0 !! s = Some x.2 /\ owned p d0 (svc_ProjectID x.2)).
Proof.
  unfold domain_service, parseUUID. destruct (uuid_Parse _) as [s|]; [|apply htr_reply, start_kept, eff_same]. simpl.
  eapply (htr_bind _ _ _ (fun x d => start d /\ exists t, ServiceFirstByIDAndOrg (Some s) (pr_OrganizationID p) t d0 = inr x.1)).
  - apply htr_or_reply. unfold serviceAndProjectByIDAndOrg.
    eapply (tr_bind _ _ _ (fun svc d => start d /\ exists t, ServiceFirstByIDAndOrg (Some s) (pr_OrganizationID p) t d0 = inr svc)).
    + apply tr_query; [intros d ->; split; [by left|]; intros; by left|]. intros t x d -> E. eauto.
    + intros svc. eapply (tr_bind _ _ _ (fun _ d => start d /\ exists t, ServiceFirstByIDAndOrg (Some s) (pr_OrganizationID p) t d0 = inr svc)); [|intros pr; by apply tr_ret].
      apply tr_query; [intros d [-> _]; split; [by left|]; intros; by left|done].
  - intros [svc pr]. apply tr_and. intros (t & E). apply htr_next. intros d Hd. split; [done|].
    apply service_owned in E as (s' & k & pr' & [= <-] & Hs & Hk & _ & Ho). simpl in *. exists s. by rewrite Hk.
Qed.

Lemma step_id : hd start (domain_id id) (fun x d => start d /\ exists k, x = Some k /\ uuid_Parse id = Some k).
Proof.
  unfold domain_id, parseUUID. destruct (uuid_Parse id) as [k|]; [|apply htr_reply, start_kept, eff_same]. apply htr_next. eauto.
Qed.

Lemma step_find row : hd start (find_domain row) (fun x d => start d /\ exists t, row t d0 = inr x).
Proof. apply htr_read, eff_same. Qed.

Lemma challenge_triple (P : Db -> Prop) name want :
  triple P (challengeTXTFound name want)
    (fun b d => P d /\ (b = true -> exists n txts, dh_LookupTXT n name = TxtRecords txts /\ txt_matches txts want = true)) P.
Proof.
  unfold challengeTXTFound. eapply (tr_bind _ _ _ (fun x d => P d /\ exists n, x = dh_LookupTXT n name)).
  - intros w Hw. simpl. eauto.
  - intros x. apply tr_and. intros (n & ->). destruct (dh_LookupTXT n name) as [txts|[] e] eqn:E; [|by apply tr_ret|by apply tr_throw].
    apply tr_ret. intros d Hd. split; [done|]. intros Ht. by exists n, txts.
Qed.

Lemma step_challenge dom : hd start (check_challenge dom) (fun _ d => start d /\ dom_VerifiedAt dom = None /\ challenge_met dom).
Proof.
  unfold check_challenge. destruct (dom_VerifiedAt dom) eqn:Ev; simpl; [apply htr_reply, start_kept, eff_same|].
  destruct (String.eqb_spec (dom_VerificationToken dom) "") as [|Hne]; [apply htr_reply, start_kept, eff_same|].
  eapply htr_bind.
  - apply htr_or_reply. eapply tr_conseq; [apply (challenge_triple start)|done|intros b d Hd; exact Hd|]. intros d ->. split; [by left|]. intros. by left.
  - intros found. apply tr_and. intros Hf. destruct found; [|apply htr_reply, start_kept, eff_same]. apply htr_next. intros d Hd.
    split; [done|]. split; [done|]. split; [done|]. by apply Hf.
Qed.

Lemma step_add p code project service :
  rq_principal r = Some p -> orgRoleCanManage (pr_OrgRole p) = true -> owned p d0 project -> hd start (add_domain code project service r) (fun _ => eff).
Proof.
  intros Hp Ha Ho. unfold add_domain. eapply htr_bind; [apply htr_reading; [apply eff_same|unfold decode_body; solve_runs]|]. intros raw.
  eapply (htr_bind _ _ _ (fun name d => start d /\ NormalizeDomainName raw = inr name)).
  { destruct (NormalizeDomainName raw) as [msg|name] eqn:En; [apply htr_reply, start_kept, eff_same|by apply htr_next]. }
  intros name. apply tr_and. intros Hn. eapply (htr_bind _ _ _ (fun _ => start)).
  { apply htr_or_reply. intros w Hw. unfold newVerificationToken. destruct (dh_rand _); simpl; [split; intros; by left|done]. }
  intros token. eapply (htr_m _ _ _ (fun _ => start)); [apply tr_reading; [solve_runs|apply start_kept, eff_same|done]|]. intros nid.
  eapply (htr_bind _ _ _ (fun _ => eff)); [|intros; by apply htr_next]. apply htr_or_reply, tr_exec; [intros d ->; split; [by left|]; intros; by left|].
  intros t x d d' -> HC. assert (eff d'); [|split; [done|]; by split]. eapply eff_some; [done|]. by eapply effect_created.
Qed.

Lemma step_remove p code row stmt :
  rq_principal r = Some p -> (forall t x, row t d0 = inr x -> forall t' y d', stmt t' d0 = inr (y, d') -> d' = d0 \/ domain_effect p id d0 d') ->
  hd start (remove_domain code row stmt) (fun _ => eff).
Proof.
  intros Hp Hs. unfold remove_domain. eapply htr_bind; [apply step_find|]. intros x. apply tr_and. intros (t & Hr).
  eapply (htr_bind _ _ _ (fun _ => eff)); [|intros; by apply htr_next]. apply htr_or_reply, tr_exec; [intros d ->; split; [by left|]; intros; by left|].
  intros t' y d d' -> E. assert (eff d'); [|split; [done|]; by split]. destruct (Hs t x Hr t' y d' E) as [->|He]; [by left|by eapply eff_some].
Qed.

(** Pointing keeps what its statement keeps. *)
Lemma point_step (Q : Db -> Prop) running stmt row dom :
  (forall d, Q d -> eff d) -> (forall d t dep t' x d', Q d -> running t d = inr dep -> stmt (dep_ID dep) t' d = inr (x, d') -> Q d') ->
  triple Q (point_domains running stmt row dom) (fun _ => eff) eff.
Proof.
  intros HQ Hs. unfold point_domains. eapply (tr_bind _ _ _ (fun x d => Q d /\ forall dep, x = inr dep -> exists t, running t d = inr dep)).
  { apply tr_attempt, tr_query; [intros d Hd; split; [by apply HQ|]; by intros|]. intros t x d Hd E. split; [done|]. intros ? [= <-]. eauto. }
  intros [e|dep]; [apply tr_ret; intros d [Hd _]; by apply HQ|]. destruct (not_null _); [|apply tr_ret; intros d [Hd _]; by apply HQ].
  eapply (tr_bind _ _ _ (fun _ => Q)).
  - unfold ignore. eapply (tr_bind _ _ _ (fun _ => Q)); [|intros; by apply tr_ret]. apply tr_attempt, tr_exec.
    + intros d [Hd _]. split; [by apply HQ|done].
    + intros t x d d' [Hd Hr] E. destruct (Hr dep eq_refl) as (t0 & E0). assert (Q d') by (by eapply Hs). split; [done|]. split; [by apply HQ|done].
  - intros _. apply tr_reading; [solve_runs|exact HQ|]. intros a d Hd. by apply HQ.
Qed.

Lemma step_verified p stmt code running point row (Q : Db -> Prop) :
  rq_principal r = Some p -> (forall t x d', stmt t d0 = inr (x, d') -> Q d') -> (forall d, Q d -> eff d) ->
  (forall d t dep t' x d', Q d -> running t d = inr dep -> point (dep_ID dep) t' d = inr (x, d') -> Q d') ->
  hd start
    (let? d := or_reply (exec stmt) (writeAPIErrorFromErr StatusInternalServerError code) in
     let! d := point_domains running point row d in
     next (RespJSON StatusOK (BodyDomain (domainToOut d)))) (fun _ => eff).
Proof.
  intros Hp Hs HQ Hpt. eapply (htr_bind _ _ _ (fun _ => Q)).
  - apply htr_or_reply, tr_exec; [intros d ->; split; [by left|]; intros; by left|]. intros t x d d' -> E.
    assert (Q d') by (by eapply Hs). split; [done|]. split; [by apply HQ|]. intros. by apply HQ.
  - intros dom'. eapply (htr_m _ _ _ (fun _ => eff)); [by apply point_step|]. intros x. by apply htr_next.
Qed.

(** A handler for administrators. *)
Lemma admin_handler (m : Principal -> step_of DomainBody (Response DomainBody)) w :
  (forall p, rq_principal r = Some p -> orgRoleCanManage (pr_OrgRole p) = true -> hd start (m p) (fun _ => eff)) ->
  w_db w = d0 -> eff (w_db (handle (let? p := mustPrincipal r in let? _ := requireOrgAdmin p in m p) w).2).
Proof.
  intros Hm Hw. assert (triple start (handle (let? p := mustPrincipal r in let? _ := requireOrgAdmin p in m p)) (fun _ => eff) eff) as Ht.
  { apply tr_handle. eapply htr_bind; [apply htr_principal, eff_same|]. intros p. apply tr_and. intros Hp.
    eapply htr_bind; [apply htr_admin, eff_same|]. intros []. apply tr_and. intros Ha. by apply Hm. }
  specialize (Ht w Hw). by destruct (_ w).1.
Qed.

End handlers.


(** ** The form of names *)

(** The labels of host names: 1 to 63 letters, digits and hyphens, with no
    hyphen at either end. *)
Definition host_label (p : string) : Prop :=
  p <> "" /\ (String.length p <= 63)%nat /\ Forall (fun b => slug_byte b = true) (bytes_of p) /\ HasPrefix p "-" = false /\ HasSuffix p "-" = false.

Definition host_name (s : string) : Prop := exists ls, s = String.concat "." ls /\ (2 <= length ls)%nat /\ Forall host_label ls.

Lemma in_range_spec lo hi n : in_range lo hi n = true <-> (lo <= n <= hi)%N.
Proof. unfold in_range. rewrite andb_true_iff, !N.leb_le. done. Qed.

(** A rune below 128 is one byte. *)
Lemma decode_small a l r w : decode_rune (a :: l) = Some (r, w) -> (r < 128)%N -> r = a /\ w = 1%nat.
Proof.
  unfold decode_rune. destruct (N.ltb_spec a 128); [by intros [= <- <-]|]. intros E Hr. exfalso.
  repeat (let X := fresh in case_match eqn:X; simplify_eq); rewrite ?andb_true_iff, ?in_range_spec in *; repeat (case_match; simplify_eq); destruct_and?;
    rewrite ?N.eqb_eq, ?N.eqb_neq in *; nia.
Qed.

Lemma slug_small b : slug_byte b = true -> (b < 128)%N.
Proof. unfold slug_byte. rewrite !orb_true_iff, !in_range_spec, N.eqb_eq. lia. Qed.

Lemma runes_slug p : forallb slug_byte (runes p) = true <-> Forall (fun b => slug_byte b = true) (bytes_of p).
Proof.
  split.
  - unfold runes. set (l := bytes_of p). clearbody l. assert (forall n, (length l <= n)%nat -> forallb slug_byte (runes_fuel n l) = true -> Forall (fun b => slug_byte b = true) l) as Hall; [|by apply Hall].
    induction l as [|a l IH]; intros n Hn; [done|]. destruct n as [|n]; [simpl in Hn; lia|]. cbn [runes_fuel].
    destruct (decode_rune (a :: l)) as [[c w]|] eqn:E; [|intros [Hx _]%andb_prop; by vm_compute in Hx].
    intros [Hc Hl]%andb_prop. apply decode_small in E as [-> ->]; [|by apply slug_small]. constructor; [done|]. apply (IH n); [simpl in Hn; lia|]. exact Hl.
  - intros Hp. rewrite runes_ascii; [|eapply Forall_impl; [exact Hp|]; intros b Hb; by apply slug_small]. apply forallb_forall. intros b Hb%list_elem_of_In.
    by eapply (proj1 (Forall_forall _ _) Hp).
Qed.

Lemma check_label_ok p : check_label p = None <-> host_label p.
Proof.
  unfold check_label, host_label. destruct (String.eqb_spec p "") as [|Hne]; simpl; [naive_solver|]. destruct (Nat.ltb_spec 63 (String.length p)); [naive_solver lia|].
  destruct (forallb slug_byte (runes p)) eqn:Hr; simpl.
  - apply runes_slug in Hr. destruct (HasPrefix p "-"), (HasSuffix p "-"); simpl; naive_solver.
  - split; [done|]. intros (_ & _ & Hf & _). apply runes_slug in Hf. congruence.
Qed.

Lemma labels_ok ls : omap check_label ls = [] <-> Forall host_label ls.
Proof.
  induction ls as [|p ls IH]; simpl; [done|]. rewrite Forall_cons, <- IH, <- check_label_ok. destruct (check_label p); simpl; naive_solver.
Qed.

Lemma concat_cons s l ls : String.concat s (l :: ls) = match ls with [] => l | _ => l +:+ s +:+ String.concat s ls end.
Proof. by destruct ls. Qed.

Lemma split_concat ls : ls <> [] -> Forall dotless ls -> Split_dot (String.concat "." ls) = ls.
Proof.
  induction ls as [|l ls IH]; [done|]. intros _ [Hl Hls]%Forall_cons. rewrite concat_cons. destruct ls as [|l' ls]; [by apply split_dot_one|].
  rewrite split_dot_cons by done. by rewrite IH.
Qed.

(** Splitting and joining. *)
Lemma concat_split s : String.concat "." (Split_dot s) = s.
Proof.
  rewrite <- (str_of_str_bytes s) at 2. unfold Split_dot. induction (str_bytes s) as [|c l IH]; [done|]. simpl split_dots.
  assert (exists q qs, split_dots l = q :: qs) as (q & qs & Hq). { destruct l as [|c' l]; simpl; [eauto|]. repeat case_match; eauto. }
  rewrite Hq in IH |- *. destruct (byte_is 46 c) eqn:Hc.
  - rewrite fmap_cons, concat_cons. rewrite fmap_cons in IH |- *. apply N.eqb_eq in Hc. rewrite IH. rewrite <- (Ascii.ascii_N_embedding c), Hc. done.
  - rewrite fmap_cons in IH |- *. rewrite concat_cons in IH |- *. change (str_of_bytes (c :: l)) with (String c (str_of_bytes l)). rewrite <- IH. by destruct (str_of_bytes <$> qs).
Qed.

Lemma host_name_split s : host_name s <-> (2 <= length (Split_dot s))%nat /\ Forall host_label (Split_dot s).
Proof.
  split; [|intros [Hn Hl]; exists (Split_dot s); by rewrite concat_split]. intros (ls & -> & Hn & Hl). rewrite split_concat; [done|destruct ls; simpl in Hn; [lia|done]|].
  eapply Forall_impl; [exact Hl|]. intros p (_ & _ & Hp & _). by apply slug_name.
Qed.

Lemma host_name_string s : host_name s -> name_string s.
Proof.
  intros (ls & -> & _ & Hl). induction ls as [|l ls IH]; [constructor|]. apply Forall_cons in Hl as [(_ & _ & Hp & _) Hl]. rewrite concat_cons.
  destruct ls; [by apply slug_name|]. apply name_app. split; [by apply slug_name|]. apply name_app. split; [repeat constructor|by apply IH].
Qed.

(** A domain name is accepted exactly when it is, trimmed and in lower case,
    two or more labels of 1 to 63 letters, digits and hyphens without a hyphen
    at either end; the name that is kept is this text, and it is accepted
    again as it is. *)
Theorem domain_name_normal (U : Unicode) (raw : string) :
  match NormalizeDomainName raw with
  | inr n => n = ToLower (TrimSpace raw) /\ host_name n /\ NormalizeDomainName n = inr n
  | inl _ => ~ host_name (ToLower (TrimSpace raw))
  end.
Proof.
  assert (forall raw, match NormalizeDomainName raw with inr n => n = ToLower (TrimSpace raw) /\ host_name n | inl _ => ~ host_name (ToLower (TrimSpace raw)) end) as Hspec.
  { intros raw'. unfold NormalizeDomainName. set (s := ToLower (TrimSpace raw')). destruct (String.eqb_spec s "") as [E|Hne].
    - rewrite E, host_name_split. intros [Hn _]. vm_compute in Hn. lia.
    - destruct (Nat.ltb_spec (length (Split_dot s)) 2); [rewrite host_name_split; lia|].
      destruct (omap check_label (Split_dot s)) as [|msg l] eqn:E; [split; [done|]; apply host_name_split; by rewrite <- labels_ok|].
      rewrite host_name_split, <- labels_ok, E. naive_solver. }
  pose proof (Hspec raw) as Hr. destruct (NormalizeDomainName raw) as [msg|n]; [done|]. destruct Hr as [Hn Hh]. split; [done|]. split; [done|].
  specialize (Hspec n). assert (ToLower (TrimSpace n) = n) as E by (by rewrite trim_name, lower_name by by apply host_name_string).
  rewrite E in Hspec. destruct (NormalizeDomainName n); [done|]. by destruct Hspec as [-> _].
Qed.

(** ** A verified domain is served *)

Section served.
Context {env : Env} (Hq : quiet env).

(** A step that goes on. *)
Definition goes {B A} (P : Db -> Prop) (m : step_of B A) (Q : A -> Db -> Prop) : Prop :=
  total P m (fun r d => exists a, r = inr a /\ Q a d) (fun _ _ => False).

Lemma goes_bind {B A C} P (m : step_of B A) (k : A -> step_of B C) R Q : goes P m R -> (forall a, goes (R a) (k a) Q) -> goes P (hbind m k) Q.
Proof.
  intros Hm Hk. eapply tot_bind; [exact Hm|]. intros [resp|a]; [intros w (b & [=] & _)|]. intros w (b & [= <-] & Hw). by apply Hk.
Qed.

Lemma goes_next {B A} (P : Db -> Prop) (a : A) (Q : A -> Db -> Prop) : (forall d, P d -> Q a d) -> goes (B := B) P (next a) Q.
Proof. intros HP. apply tot_ret. eauto. Qed.

Lemma goes_or_reply {B A} P (m : M A) (on_err : error -> Response B) Q : ends P m Q -> goes P (or_reply m on_err) Q.
Proof.
  intros Hm. eapply (tot_bind _ _ _ (fun r d => exists a, r = inr a /\ Q a d)).
  - apply tot_attempt. eapply tot_conseq; [exact Hm|done| |by intros]. intros a d Ha. by exists a.
  - intros r w (a & -> & Hw). by exists a.
Qed.

Lemma goes_handle {B} P (m : step_of B (Response B)) Q : goes P m Q -> ends P (handle m) Q.
Proof. intros Hm. eapply tot_bind; [exact Hm|]. intros r w (a & -> & Hw). exact Hw. Qed.

Lemma tot_ex {A T} (P : T -> Db -> Prop) (m : M A) (Q : A -> Db -> Prop) X : (forall t, total (P t) m Q X) -> total (fun d => exists t, P t d) m Q X.
Proof. intros Hm w (t & Hw). by apply (Hm t). Qed.

(** Reads and writes whose outcome is known. *)
Lemma ends_query {A} (P : Db -> Prop) (f : reads A) (Q : A -> Db -> Prop) X :
  (forall t d, P d -> exists a, f t d = inr a /\ Q a d) -> total P (query f) Q X.
Proof. intros Hf. apply (tot_query Hq). intros t d Hd. by destruct (Hf t d Hd) as (a & -> & HQ). Qed.

Lemma ends_exec {A} (P : Db -> Prop) (f : writes A) (Q : A -> Db -> Prop) X :
  (forall t d, P d -> exists a d', f t d = inr (a, d') /\ Q a d') -> total P (exec f) Q X.
Proof. intros Hf. apply (tot_exec Hq). intros t d Hd. by destruct (Hf t d Hd) as (a & d' & -> & HQ). Qed.

End served.

(** The request names a domain of a service of the administrator's
    organization that waits for its record. *)
Record pending_domain {UP : UuidParser} (p : Principal) (r : Request) (id : string) (d : Db) (s k : UUID) (svc : Service) (dom : Domain) : Prop := {
  pd_principal : rq_principal r = Some p;
  pd_admin : orgRoleCanManage (pr_OrgRole p) = true;
  pd_service_id : uuid_Parse (rq_id r) = Some s;
  pd_service : db_services d !! s = Some svc;
  pd_owned : owned p d (svc_ProjectID svc);
  pd_domain_id : uuid_Parse id = Some k;
  pd_domain : db_domains d !! k = Some dom;
  pd_ok : domain_ok d k dom = true;
  pd_of_service : dom_ServiceID dom = Some s;
  pd_unverified : dom_VerifiedAt dom = None;
  pd_token : dom_VerificationToken dom <> ""
}.

(** The domain is verified and points at the deployment. *)
Record served_domain (d : Db) (k : UUID) (dep : Deployment) (dom dom' : Domain) : Prop := {
  vd_row : db_domains d !! k = Some dom';
  vd_same : same_domain dom dom';
  vd_verified : not_null (dom_VerifiedAt dom') = true;
  vd_deployment : dom_DeploymentID dom' = dep_ID dep
}.

(** Only names and references count for the constraints of a row. *)
Lemma domain_ok_same d d' k m (r r' : Domain) :
  d' = set_domains m d -> delete k m = delete k (db_domains d) -> same_domain r r' ->
  fk (db_deployments d) (dom_DeploymentID r') = true -> domain_ok d k r = true -> domain_ok d' k r' = true.
Proof.
  intros -> Hm [_ E2 E3 E4 _ _ E7 E8 _] Hfk. unfold domain_ok. cbn. rewrite Hm, Hfk, E2, E3, E4, E7, E8, !andb_true_iff. by intros [[[[[? ?] ?] ?] ?] ?].
Qed.

Section verification.
Context {env : Env} (Hq : quiet env) {S : Sorter} {U : Unicode} {UP : UuidParser} {H : DomainHost} (p : Principal) (r : Request) (id : string)
        (d0 : Db) (s k : UUID) (svc : Service) (dom : Domain) (dep : Deployment) (Hwf : domains_wf d0) (Hp : pending_domain p r id d0 s k svc dom)
        (Htxt : forall n, exists txts, dh_LookupTXT n (domainChallengeRecordName (dom_DomainName dom)) = TxtRecords txts /\ txt_matches txts (dom_VerificationToken dom) = true)
        (Hdep : forall t, DeploymentLatestRunningByServiceID (Some s) t d0 = inr dep).

Abbreviation start := (fun d : Db => d = d0).

Lemma goes_service : goes (B := DomainBody) start (domain_service r (pr_OrganizationID p)) (fun x d => d = d0 /\ x = (Some s, svc)).
Proof.
  unfold domain_service, parseUUID. rewrite (pd_service_id _ _ _ _ _ _ _ _ Hp). simpl.
  destruct (pd_owned _ _ _ _ _ _ _ _ Hp) as (kp & pr & org & E1 & E2 & E3 & E4).
  eapply (goes_bind _ _ _ (fun x d => d = d0 /\ x.1 = svc)).
  - apply goes_or_reply. unfold serviceAndProjectByIDAndOrg. eapply (tot_bind _ _ _ (fun x d => d = d0 /\ x = svc)).
    + apply (ends_query Hq). intros t d ->. exists svc. split; [|done]. unfold ServiceFirstByIDAndOrg. simpl.
      rewrite (pd_service _ _ _ _ _ _ _ _ Hp). simpl. rewrite E1. simpl. rewrite E2, E3, E4. simpl. by rewrite bool_decide_eq_true_2.
    + intros x. apply tot_and. intros ->. eapply (tot_bind _ _ _ (fun _ => start)); [|intros pr'; by apply tot_ret]. apply (ends_query Hq). intros t d ->.
      exists pr. split; [|done]. unfold ProjectFirstByID. by rewrite E1; simpl; rewrite E2.
  - intros [x pr']. apply tot_and. intros E. simpl in E. subst x. by apply goes_next.
Qed.

(** The row after the two statements. *)
Definition verified_at (t : Time) : Domain := verified_row t dom.

Lemma verified_same t : same_domain dom (verified_at t).
Proof. unfold verified_at, verified_row. by destruct dom. Qed.

Lemma pointed_same t t' : same_domain dom (set_dom_UpdatedAt t' (set_dom_DeploymentID (dep_ID dep) (verified_at t))).
Proof. unfold verified_at, verified_row. by destruct dom. Qed.

Lemma dep_in_db : fk (db_deployments d0) (dep_ID dep) = true.
Proof.
  assert (serves d0 (svc_ProjectID svc) (dep_ID dep)) as (kd & row & -> & Hkd & _); [|simpl; by rewrite Hkd].
  eapply (service_serves d0 Hwf s svc 0); [apply Hp|]. rewrite (dw_services _ Hwf s svc (pd_service _ _ _ _ _ _ _ _ Hp)). apply Hdep.
Qed.

Lemma of_service dom' : same_domain dom dom' -> domain_of_service (Some s) dom' = true.
Proof. intros []. unfold domain_of_service, col_eq. rewrite sd_ServiceID0, (pd_of_service _ _ _ _ _ _ _ _ Hp). by apply bool_decide_eq_true_2. Qed.

Lemma find_row d dom' t : db_domains d !! k = Some dom' -> same_domain dom dom' -> DomainFirstByIDAndService (Some k) (Some s) t d = inr dom'.
Proof. intros Hk Hs. unfold DomainFirstByIDAndService. simpl. rewrite Hk. simpl. by rewrite of_service. Qed.

Definition at_row (dom' : Domain) (d : Db) : Prop := d = set_domains (<[k := dom']> (db_domains d0)) d0.

(** A statement that edits the row. *)
Lemma edit_row d dom1 dom' guard (f : Domain -> Domain) :
  (d = d0 \/ at_row dom1 d) -> db_domains d !! k = Some dom1 -> guard dom1 = true -> f dom1 = dom' -> same_domain dom dom' ->
  fk (db_deployments d0) (dom_DeploymentID dom') = true ->
  exists d', update_row t_domains (Some k) guard f d = inr (Some dom', d') /\ at_row dom' d'.
Proof.
  intros Hd Hk Hg Hf Hs Hfk. unfold update_row. cbn [t_get t_domains]. rewrite Hk, Hg, Hf. cbn [t_ok t_domains].
  assert (exists m, d = set_domains m d0 /\ delete k m = delete k (db_domains d0) /\ <[k := dom']> m = <[k := dom']> (db_domains d0)) as (m & -> & Hm & Hi).
  { destruct Hd as [->| ->]; [exists (db_domains d0); split; [by destruct d0|done]|]. eexists. split; [done|]. split; [apply delete_insert_eq|apply insert_insert_eq]. }
  rewrite (domain_ok_same d0 (set_domains m d0) k m dom dom'); [|done|done|done|done|apply Hp]. eexists. split; [done|]. unfold at_row. cbn. by rewrite Hi.
Qed.

Lemma ends_pointed t :
  ends (at_row (verified_at t))
    (point_domains (DeploymentLatestRunningByServiceID (svc_ID svc)) (fun dep => DomainUpdateDeploymentForDomainID (Some k) dep)
       (DomainFirstByIDAndService (Some k) (Some s)) (verified_at t))
    (fun x d => served_domain d k dep dom x /\ d = set_domains (db_domains d) d0).
Proof.
  unfold point_domains. rewrite (dw_services _ Hwf s svc (pd_service _ _ _ _ _ _ _ _ Hp)).
  eapply (tot_bind _ _ _ (fun x d => at_row (verified_at t) d /\ x = inr dep)).
  { apply tot_attempt, (ends_query Hq). intros t1 d ->. exists dep. split; [exact (Hdep t1)|done]. }
  intros x. apply tot_and. intros ->. assert (not_null (dep_RunningAt dep) = true) as ->.
  { destruct (first_sorted _ _ _ _ (Hdep 0)) as [Hc _]. rewrite !andb_true_iff in Hc. by destruct Hc as [[_ ?] _]. }
  eapply (tot_bind _ _ _ (fun _ d => exists t', at_row (set_dom_UpdatedAt t' (set_dom_DeploymentID (dep_ID dep) (verified_at t))) d)).
  - apply (tot_ignore _ _ (fun d => exists t', at_row (set_dom_UpdatedAt t' (set_dom_DeploymentID (dep_ID dep) (verified_at t))) d)).
    apply (ends_exec Hq).
    intros t1 d Hd. destruct (edit_row d (verified_at t) (set_dom_UpdatedAt (Some t1) (set_dom_DeploymentID (dep_ID dep) (verified_at t))) always
      (fun r => set_dom_UpdatedAt (Some t1) (set_dom_DeploymentID (dep_ID dep) r))) as (d' & E & Hd'); [by right|rewrite Hd; apply lookup_insert_eq|done|done|apply pointed_same|apply dep_in_db|].
    exists tt, d'. split; [|by exists (Some t1)]. unfold DomainUpdateDeploymentForDomainID, executing. by rewrite E.
  - intros _. eapply (tot_bind _ _ _ (fun x d => exists t', at_row (set_dom_UpdatedAt t' (set_dom_DeploymentID (dep_ID dep) (verified_at t))) d /\
                                       x = inr (set_dom_UpdatedAt t' (set_dom_DeploymentID (dep_ID dep) (verified_at t))))).
    + apply tot_attempt, (ends_query Hq). intros t1 d (t' & Hd). eexists. split; [|by exists t'].
      apply find_row; [rewrite Hd; apply lookup_insert_eq|apply pointed_same].
    + intros x. intros w (t' & Hd & ->). simpl. split; [|by rewrite Hd]. split; [rewrite Hd; apply lookup_insert_eq|apply pointed_same|by destruct dom|by destruct dom].
Qed.

Lemma ends_verified :
  ends start (verifyServiceDomain r id) (fun resp d => exists dom', resp = RespJSON StatusOK (BodyDomain (domainToOut dom')) /\ served_domain d k dep dom dom' /\ d = set_domains (db_domains d) d0).
Proof.
  unfold verifyServiceDomain. apply goes_handle. unfold mustPrincipal, requireOrgAdmin. rewrite (pd_principal _ _ _ _ _ _ _ _ Hp).
  eapply (goes_bind _ _ _ (fun x d => d = d0 /\ x = p)); [by apply goes_next|]. intros x. apply tot_and. intros ->. rewrite (pd_admin _ _ _ _ _ _ _ _ Hp).
  eapply (goes_bind _ _ _ (fun _ => start)); [by apply goes_next|]. intros _.
  eapply goes_bind; [apply goes_service|]. intros x. apply tot_and. intros ->. unfold domain_id, parseUUID. rewrite (pd_domain_id _ _ _ _ _ _ _ _ Hp). simpl.
  eapply (goes_bind _ _ _ (fun x d => d = d0 /\ x = Some k)); [by apply goes_next|]. intros x. apply tot_and. intros ->.
  eapply (goes_bind _ _ _ (fun x d => d = d0 /\ x = dom)).
  { apply goes_or_reply, (ends_query Hq). intros t d ->. exists dom. split; [|done]. apply find_row; [apply Hp|by split]. }
  intros x. apply tot_and. intros ->. unfold check_challenge. rewrite (pd_unverified _ _ _ _ _ _ _ _ Hp). simpl.
  destruct (String.eqb_spec (dom_VerificationToken dom) "") as [E|_]; [by destruct (pd_token _ _ _ _ _ _ _ _ Hp)|].
  eapply (goes_bind _ _ _ (fun _ => start)).
  { eapply (goes_bind _ _ _ (fun x d => d = d0 /\ x = true)); [|intros x; apply tot_and; intros ->; by apply goes_next].
    apply goes_or_reply. unfold challengeTXTFound. eapply (tot_bind _ _ _ (fun x d => d = d0 /\ exists n, x = dh_LookupTXT n (domainChallengeRecordName (dom_DomainName dom)))).
    - intros w Hw. simpl. eauto.
    - intros x. apply tot_and. intros (n & ->). destruct (Htxt n) as (txts & -> & Hm). apply tot_ret. intros d Hd. by rewrite Hm. }
  intros _. eapply (goes_bind _ _ _ (fun x d => exists t, at_row (verified_at t) d /\ x = verified_at t)).
  { apply goes_or_reply, (ends_exec Hq). intros t d ->. destruct (edit_row d0 dom (verified_at t) (domain_of_service (Some s)) (verified_row t)) as (d' & E & Hd');
      [by left|apply Hp|apply of_service; by split|done|apply verified_same| |].
    - unfold verified_at, verified_row. pose proof (pd_ok _ _ _ _ _ _ _ _ Hp) as Hok. unfold domain_ok in Hok. rewrite !andb_true_iff in Hok. by destruct dom, Hok as [[[[_ ?] _] _] _].
    - exists (verified_at t), d'. unfold DomainSetVerifiedByServiceID. rewrite E. split; [done|]. by exists t. }
  intros x. apply tot_ex. intros t. apply tot_and. intros ->.
  eapply (tot_bind (at_row (verified_at t)) _ _ (fun x d => served_domain d k dep dom x /\ d = set_domains (db_domains d) d0)); [apply ends_pointed|].
  intros dom'. apply tot_ret. intros d Hd. eexists. split; [done|]. by exists dom'.
Qed.

End verification.

(** The routes of a domain that is served. *)
Lemma served_routes {S : Sorter} (d0 d : Db) k kd dep dom dom' t i v :
  d = set_domains (db_domains d) d0 -> db_deployments d0 !! kd = Some dep -> dep_ID dep = Some kd -> dep_live dep = true -> served_domain d k dep dom dom' ->
  i ∈ running_instances d0 (dep_ID dep) -> running_vm d0 i = Some v ->
  exists l row, RouteFindActive t d = inr l /\ row ∈ l /\ rr_DomainName row = dom_DomainName dom /\ rr_DeploymentID row = dep_ID dep /\
    rr_VmIp row = Some (vm_IpAddress v) /\ rr_VmID row = vm_ID v.
Proof.
  intros Hd Hkd Hid Hlive [Hk Hs Hv Hdep] Hi Hvm. eexists _, (route_row dom' (dep_DeploymentKind dep) (Some v)). split; [done|]. split.
  - unfold any_order. rewrite sort_by_elem. apply list_elem_of_bind. exists dom'. split; [|apply elem_of_rows; by eauto].
    unfold domain_routes. rewrite Hdep, Hid, Hd. simpl. rewrite Hkd, Hlive, Hid. change (running_instances (set_domains (db_domains d) d0)) with (running_instances d0).
    rewrite Hid in Hi. destruct (running_instances d0 (Some kd)) as [|i0 l] eqn:E; [by apply not_elem_of_nil in Hi|].
    apply (list_elem_of_fmap (fun i => route_row dom' (dep_DeploymentKind dep) (running_vm d0 i)) (i0 :: l)). exists i. by rewrite Hvm.
  - simpl. rewrite (sd_DomainName _ _ Hs). done.
Qed.


(** ** A sample *)

Definition pending_sample : Domain :=
  mkDomain (Some 90%N) (Some 1%N) (Some 20%N) None "shop.example.com" "cafe" None None None "production" None (Some 1) (Some 1).

(** A domain of another service of the project, which points at its deployment. *)
Definition api_sample : Domain :=
  mkDomain (Some 91%N) (Some 1%N) (Some 21%N) (Some 11%N) "api.example.com" "" (Some 1) None None "production" None (Some 1) (Some 1).

#[local] Existing Instance canonical_uuid.

#[export] Instance sample_domain_host : DomainHost :=
  {| dh_rand _ := inr [202%N; 254%N]; dh_LookupTXT _ _ := TxtRecords ["v=spf1"; " cafe "] |}.

Definition domain_world : World := mkWorld (set_domains {[ 90%N := pending_sample; 91%N := api_sample ]} sample_db) 2000 0 None [].
Definition domain_admin : Principal := mkPrincipal 3%N "a@example.com" false 2%N "owner" 0%N 0%N (Some 2%N).
Definition domain_request (id : UUID) : Request := mkRequest (Some domain_admin) (uuid_String id) (Some (JObject [("domain_name", JString " WWW.Example.com ")])).

(** A domain verified through its project: every production domain of the
    project then points at the one deployment that was running last, whichever
    service it belongs to. *)
Example project_domains_repointed :
  let d' := w_db (verifyProjectDomain (domain_request 1%N) (uuid_String 90%N) domain_world).2 in
  dep_ServiceID <$> (row_at (db_deployments d') (Some 11%N)) = Some (Some 21%N) /\
  (dom_ServiceID <$> db_domains d' !! 90%N) = Some (Some 20%N) /\ (dom_DeploymentID <$> db_domains d' !! 90%N) = Some (Some 11%N).
Proof. vm_compute. done. Qed.

(** A name is taken as soon as a row has it, verified or not. *)
Example names_are_reserved :
  fst (createProjectDomain (domain_request 1%N) "" domain_world) =
    Ret (RespJSON StatusCreated (BodyDomain (mkDomainOut (uuid_String 1003%N) "www.example.com" None None
      (Some (mkChallengeOut "TXT" "_kindling-challenge.www.example.com" "cafe"))))) /\
  fst (createProjectDomain (domain_request 1%N) "" (snd (createProjectDomain (domain_request 1%N) "" domain_world))) =
    Ret (RespError StatusConflict "domain_taken" "that domain is already registered").
Proof. vm_compute. done. Qed.

Lemma sample_domains_wf : domains_wf (w_db domain_world).
Proof.
  split; unfold projects_keyed; cbn -[lookup insert singletonM].
  - intros k x. rewrite lookup_singleton_Some. by intros [<- <-].
  - intros k x. rewrite lookup_insert_Some, lookup_singleton_Some. by intros [[<- <-]|[_ [<- <-]]].
  - intros k x. rewrite !lookup_insert_Some, lookup_singleton_Some. naive_solver.
  - intros k x s svc. rewrite !lookup_insert_Some, !lookup_singleton_Some. naive_solver.
  - intros k x s svc. rewrite !lookup_insert_Some, !lookup_singleton_Some. naive_solver.
Qed.


