(* ===== verification/Auth.v ===== *)
(** * Authentication and accounts

    internal/auth (middleware.go, principal.go, trusted_origins.go, token.go,
    apikey.go, workertoken.go, password.go, cookies.go, ids.go,
    worker_agent_ctx.go) and the accounts of internal/rpc (auth_api.go,
    auth_session_helpers.go but the slugs of new organizations, api_keys.go,
    pending_members_api.go), with the statements they use.  A request is what
    net/http parsed of it; bcrypt, the random source and the variables of the
    process are an [AuthHost]. *)

From S2P Require Import Prelude NetAddr Text Models Runtime Effects Queries VolumeQueries Codecs Json GithubActions Api EventQueries Webhook VolumeApi WorkerDns Background DomainApi.

(** ** Statements *)

Definition ac_set (u : gmap UUID User) (s : gmap UUID UserSession) (k : gmap UUID UserApiKey) (m : gmap UUID OrganizationMembership)
    (a : gmap UUID WorkerAgent) (o : gmap UUID OrgOnboarding) (d : Db) : Db := set_accounts (mkAccounts u s k m a o) d.

Definition db_users (d : Db) : gmap UUID User := ac_users (db_accounts d).
Definition db_sessions (d : Db) : gmap UUID UserSession := ac_sessions (db_accounts d).
Definition db_keys (d : Db) : gmap UUID UserApiKey := ac_keys (db_accounts d).
Definition db_memberships (d : Db) : gmap UUID OrganizationMembership := ac_memberships (db_accounts d).
Definition db_agents (d : Db) : gmap UUID WorkerAgent := ac_agents (db_accounts d).
Definition db_onboarding (d : Db) : gmap UUID OrgOnboarding := ac_onboarding (db_accounts d).

Definition set_users (v : gmap UUID User) (d : Db) : Db := ac_set v (db_sessions d) (db_keys d) (db_memberships d) (db_agents d) (db_onboarding d) d.
Definition set_sessions (v : gmap UUID UserSession) (d : Db) : Db := ac_set (db_users d) v (db_keys d) (db_memberships d) (db_agents d) (db_onboarding d) d.
Definition set_keys (v : gmap UUID UserApiKey) (d : Db) : Db := ac_set (db_users d) (db_sessions d) v (db_memberships d) (db_agents d) (db_onboarding d) d.
Definition set_memberships (v : gmap UUID OrganizationMembership) (d : Db) : Db := ac_set (db_users d) (db_sessions d) (db_keys d) v (db_agents d) (db_onboarding d) d.
Definition set_agents (v : gmap UUID WorkerAgent) (d : Db) : Db := ac_set (db_users d) (db_sessions d) (db_keys d) (db_memberships d) v (db_onboarding d) d.
Definition set_onboarding (v : gmap UUID OrgOnboarding) (d : Db) : Db := ac_set (db_users d) (db_sessions d) (db_keys d) (db_memberships d) (db_agents d) v d.

Definition others {R} (k : UUID) (m : gmap UUID R) : list R := snd <$> map_to_list (delete k m).

(** schema.sql: emails, tokens of sessions, of agents and of keys that are not
    revoked, and the users of an organization are unique. *)
Definition user_ok (d : Db) (k : UUID) (r : User) : bool :=
  forallb (fun o => negb (String.eqb o.(usr_Email) r.(usr_Email))) (others k (db_users d)).
Definition session_ok (d : Db) (k : UUID) (r : UserSession) : bool :=
  fk_required (db_users d) r.(ses_UserID) && fk_required (db_organizations d) r.(ses_CurrentOrganizationID) && not_null r.(ses_ExpiresAt) &&
  forallb (fun o => negb (bool_decide (o.(ses_TokenHash) = r.(ses_TokenHash)))) (others k (db_sessions d)).
Definition key_ok (d : Db) (k : UUID) (r : UserApiKey) : bool :=
  fk_required (db_users d) r.(key_UserID) && fk_required (db_organizations d) r.(key_OrganizationID) &&
  (not_null r.(key_RevokedAt) ||
   forallb (fun o => not_null o.(key_RevokedAt) || negb (bool_decide (o.(key_TokenHash) = r.(key_TokenHash)))) (others k (db_keys d))).
Definition membership_ok (d : Db) (k : UUID) (r : OrganizationMembership) : bool :=
  fk_required (db_organizations d) r.(mem_OrganizationID) && fk_required (db_users d) r.(mem_UserID) &&
  in_list ["owner"; "admin"; "member"] r.(mem_Role) && in_list ["active"; "pending"; "rejected"] r.(mem_Status) &&
  forallb (fun o => negb (col_eq o.(mem_OrganizationID) r.(mem_OrganizationID) && col_eq o.(mem_UserID) r.(mem_UserID))) (others k (db_memberships d)).
Definition agent_ok (d : Db) (k : UUID) (r : WorkerAgent) : bool :=
  fk_required (db_organizations d) r.(wa_OrganizationID) &&
  forallb (fun o => negb (bool_decide (o.(wa_ApiTokenHash) = r.(wa_ApiTokenHash)))) (others k (db_agents d)).

Definition t_users := mkTable db_users set_users user_ok "users".
Definition t_sessions := mkTable db_sessions set_sessions session_ok "user_sessions".
Definition t_keys := mkTable db_keys set_keys key_ok "user_api_keys".
Definition t_memberships := mkTable db_memberships set_memberships membership_ok "organization_memberships".
Definition t_agents := mkTable db_agents set_agents agent_ok "worker_agents".

Section queries.
Context {S : Sorter} {Q : SqlText}.

Definition UserCount : reads Z := fun _ d => inr (Z.of_nat (size (db_users d))).
Definition UserByID (id : pgUUID) : reads User := fun _ d => first_row (option_list (row_at (db_users d) id)).
Definition UserByEmail (email : string) : reads User := fun _ d =>
  first_row (any_order (rows (fun r => String.eqb (sql_lower r.(usr_Email)) (sql_lower email)) (db_users d))).

(** A unique violation names the constraint. *)
Definition UserCreate (id : pgUUID) (email hash name : string) (admin : bool) : writes User := fun now d =>
  if existsb (fun r => String.eqb r.(usr_Email) email) (rows always (db_users d)) then inl (ErrConstraint "users_email_key")
  else insert_row t_users id (mkUser id email hash name admin (Some now) (Some now)) d.

Definition UserUpdatePasswordHash (id : pgUUID) (hash : string) : writes unit := fun now d =>
  executing (update_row t_users id always
    (fun r => mkUser r.(usr_ID) r.(usr_Email) hash r.(usr_DisplayName) r.(usr_IsPlatformAdmin) r.(usr_CreatedAt) (Some now)) d).

Definition member_of (user org : pgUUID) (r : OrganizationMembership) : bool := col_eq r.(mem_UserID) user && col_eq r.(mem_OrganizationID) org.

(** Whatever the status. *)
Definition OrganizationMembershipByUserAndOrg (user org : pgUUID) : reads OrganizationMembership := fun _ d =>
  first_row (rows (member_of user org) (db_memberships d)).

Definition OrganizationsForUser (user : pgUUID) : reads (list Organization) := fun _ d =>
  inr (sort_by (fun a b => String.leb a.(org_Name) b.(org_Name))
    (omap (fun m => row_at (db_organizations d) m.(mem_OrganizationID))
      (rows (fun m => col_eq m.(mem_UserID) user && String.eqb m.(mem_Status) "active") (db_memberships d)))).

Definition OrganizationMembershipCreate (id org user : pgUUID) (role : string) : writes OrganizationMembership := fun now d =>
  insert_row t_memberships id (mkMembership id org user role "active" (Some now)) d.

Definition set_mem_Status (v : string) (r : OrganizationMembership) : OrganizationMembership :=
  mkMembership r.(mem_ID) r.(mem_OrganizationID) r.(mem_UserID) r.(mem_Role) v r.(mem_CreatedAt).

Definition pending_member (org user : pgUUID) (r : OrganizationMembership) : bool := member_of user org r && String.eqb r.(mem_Status) "pending".

(** The user and the organization are unique together. *)
Definition OrganizationMembershipUpdatePendingStatus (org user : pgUUID) (status : string) : writes OrganizationMembership := fun _ d =>
  returning (update_row t_memberships (key_where (pending_member org user) (db_memberships d)) always (set_mem_Status status) d).

Record PendingRow := mkPendingRow { pr_member : OrganizationMembership; pr_email : string; pr_display_name : string }.

Definition OrganizationMembershipListPendingByOrg (org : pgUUID) : reads (list PendingRow) := fun _ d =>
  inr (omap (fun m => (fun u => mkPendingRow m u.(usr_Email) u.(usr_DisplayName)) <$> row_at (db_users d) m.(mem_UserID))
    (sort_by (fun a b => time_le a.(mem_CreatedAt) b.(mem_CreatedAt))
      (rows (fun m => col_eq m.(mem_OrganizationID) org && String.eqb m.(mem_Status) "pending") (db_memberships d)))).

Definition session_open (now : Time) (r : UserSession) : bool := match r.(ses_ExpiresAt) with Some t => now <? t | None => false end.

Definition UserSessionByTokenHash (hash : list N) : reads UserSession := fun now d =>
  first_row (rows (fun r => bool_decide (r.(ses_TokenHash) = hash) && session_open now r) (db_sessions d)).

Definition UserSessionCreate (id user : pgUUID) (hash : list N) (org : pgUUID) (expires : Time) : writes UserSession := fun now d =>
  insert_row t_sessions id (mkUserSession id user hash org (Some expires) (Some now)) d.

Definition UserSessionUpdateCurrentOrg (id org : pgUUID) : writes UserSession := fun _ d =>
  returning (update_row t_sessions id always
    (fun r => mkUserSession r.(ses_ID) r.(ses_UserID) r.(ses_TokenHash) org r.(ses_ExpiresAt) r.(ses_CreatedAt)) d).

Definition delete_sessions (p : UserSession -> bool) (d : Db) : error + (unit * Db) :=
  inr (tt, set_sessions (filter (fun '(_, r) => p r = false) (db_sessions d)) d).

Definition UserSessionDelete (id : pgUUID) : writes unit := fun _ d =>
  inr (tt, match id with Some k => set_sessions (delete k (db_sessions d)) d | None => d end).
Definition UserSessionDeleteOthersByTokenHash (user : pgUUID) (hash : list N) : writes unit := fun _ =>
  delete_sessions (fun r => col_eq r.(ses_UserID) user && negb (bool_decide (r.(ses_TokenHash) = hash))).
Definition UserSessionDeleteAllForUser (user : pgUUID) : writes unit := fun _ => delete_sessions (fun r => col_eq r.(ses_UserID) user).

Definition key_open (r : UserApiKey) : bool := is_null r.(key_RevokedAt).

Definition UserApiKeyByTokenHash (hash : list N) : reads UserApiKey := fun _ d =>
  first_row (rows (fun r => bool_decide (r.(key_TokenHash) = hash) && key_open r) (db_keys d)).

Definition UserApiKeyListByUserAndOrg (user org : pgUUID) : reads (list UserApiKey) := fun _ d =>
  inr (sort_by (fun a b => time_le b.(key_CreatedAt) a.(key_CreatedAt))
    (rows (fun r => col_eq r.(key_UserID) user && col_eq r.(key_OrganizationID) org && key_open r) (db_keys d))).

Definition UserApiKeyCreate (id user org : pgUUID) (name : string) (hash : list N) : writes UserApiKey := fun now d =>
  insert_row t_keys id (mkUserApiKey id user org name hash (Some now) None None) d.

Definition set_key_LastUsedAt (v : option Time) (r : UserApiKey) : UserApiKey :=
  mkUserApiKey r.(key_ID) r.(key_UserID) r.(key_OrganizationID) r.(key_Name) r.(key_TokenHash) r.(key_CreatedAt) v r.(key_RevokedAt).
Definition set_key_RevokedAt (v : option Time) (r : UserApiKey) : UserApiKey :=
  mkUserApiKey r.(key_ID) r.(key_UserID) r.(key_OrganizationID) r.(key_Name) r.(key_TokenHash) r.(key_CreatedAt) r.(key_LastUsedAt) v.

Definition UserApiKeyTouchLastUsed (id : pgUUID) : writes unit := fun now d =>
  executing (update_row t_keys id always (set_key_LastUsedAt (Some now)) d).
Definition UserApiKeyRevoke (id user : pgUUID) : writes unit := fun now d =>
  executing (update_row t_keys id (fun r => col_eq r.(key_UserID) user && key_open r) (set_key_RevokedAt (Some now)) d).

Definition WorkerAgentByAPITokenHash (hash : list N) : reads WorkerAgent := fun _ d =>
  first_row (rows (fun r => bool_decide (r.(wa_ApiTokenHash) = hash)) (db_agents d)).

Definition touch_agent (now : Time) (r : WorkerAgent) : WorkerAgent :=
  mkWorkerAgent r.(wa_ID) r.(wa_OrganizationID) r.(wa_EnrollmentTokenID) r.(wa_WorkerPublicKey) r.(wa_ApiTokenHash) r.(wa_Hostname) (Some now)
    r.(wa_DesiredVersion) r.(wa_DesiredStatePayload) r.(wa_ReportedVersionApplied) r.(wa_CreatedAt) (Some now).
Definition WorkerAgentTouchSeen (id : pgUUID) : writes unit := fun now d => executing (update_row t_agents id always (touch_agent now) d).

(** The rows lie under the ids of their organizations. *)
Definition OrgOnboardingEnsure (org : pgUUID) : writes unit := fun now d =>
  match org with
  | None => inl (ErrConstraint "org_onboarding_organization_id_not_null")
  | Some k =>
      match db_onboarding d !! k with
      | Some _ => inr (tt, d)
      | None =>
          if fk_required (db_organizations d) org
          then inr (tt, set_onboarding (<[k := mkOnboarding org None (JObject []) (Some now) (Some now)]> (db_onboarding d)) d)
          else inl (ErrConstraint "org_onboarding_organization_id_fkey")
      end
  end.
Definition OrgOnboardingGet (org : pgUUID) : reads OrgOnboarding := fun _ d => first_row (option_list (row_at (db_onboarding d) org)).

End queries.

(** ** The host *)

(** os.Getenv; at the n-th call the 32 bytes of crypto/rand and the hash of
    bcrypt; bcrypt.CompareHashAndPassword. *)
Class AuthHost := {
  ah_getenv : string -> string;
  ah_rand : nat -> error + list N;
  ah_hash : nat -> string -> error + string;
  ah_check : string -> string -> bool
}.

(** What the code reads of a request; [hr_Header] is Header.Get, [hr_Cookie]
    the session cookie, [hr_id] the path value of the route. *)
Record HttpRequest := mkHttp {
  hr_Method : string;
  hr_Path : string;
  hr_Host : string;
  hr_TLS : bool;
  hr_RemoteAddr : string;
  hr_Header : string -> string;
  hr_Cookie : option string;
  hr_id : string;
  hr_Body : option json
}.

Record WorkerAgentPrincipal := mkAgentPrincipal { wp_AgentID : UUID; wp_OrgID : UUID }.

(** What the middleware stores in the context of the request. *)
Inductive Caller :=
  | Anonymous
  | Member (p : Principal)
  | Agent (p : WorkerAgentPrincipal).

(** The request of the other handlers. *)
Definition as_request (r : HttpRequest) (c : Caller) : Request :=
  mkRequest (match c with Member p => Some p | _ => None end) r.(hr_id) r.(hr_Body).

(** ** Tokens *)

Definition SessionTokenBytes : nat := 32.
Definition APIKeyPrefix : string := "knd_".
Definition WorkerAgentTokenPrefix : string := "kndw_".
Definition HashSessionToken (raw : list N) : list N := sha256 raw.
Definition HashAPIKeyToken (plaintext : string) : list N := sha256 (bytes_of plaintext).
Definition HashWorkerAgentToken (plaintext : string) : list N := sha256 (bytes_of plaintext).

Definition BootstrapOrganizationID : UUID := 0xc000000000004000a000000000000001%N.
Definition sessionDuration : Duration := 30 * 24 * Hour.

(** The bytes of a session cookie. *)
Definition session_bytes (value : string) : option (list N) :=
  match hex_Decode (bytes_of (TrimSpace value)) with
  | Some raw => if (length raw =? SessionTokenBytes)%nat then Some raw else None
  | None => None
  end.

Definition cookie_value (r : HttpRequest) : option string :=
  match r.(hr_Cookie) with Some v => if String.eqb v "" then None else Some v | None => None end.

(** ** Origins *)

(** [url.Parse]: the scheme, in lower case, and [u.Host]. *)
Definition url_Parse {U : Unicode} (s : string) : option (string * string) :=
  match url_Host s, get_scheme (cut_byte 35 (str_bytes s)).1 [] [] with
  | Some host, Some (scheme, _) => Some (ToLower (str_of_bytes scheme), host)
  | _, _ => None
  end.

(** [u.Hostname()]. *)
Definition url_Hostname (host : string) : string :=
  let l := str_bytes host in
  let l := match cut_last 58 l with Some (h, port) => if valid_optional_port (Ascii.ascii_of_N 58 :: port) then h else l | None => l end in
  str_of_bytes (match l with
                | c :: l' => if byte_is 91 c && match last l' with Some e => byte_is 93 e | None => false end then removelast l' else l
                | [] => l
                end).

(** [strings.TrimRight(s, "/")]. *)
Fixpoint drop_slashes (l : list Ascii.ascii) : list Ascii.ascii :=
  match l with c :: l' => if byte_is 47 c then drop_slashes l' else l | [] => [] end.
Definition TrimRight_slash (s : string) : string := str_of_bytes (rev (drop_slashes (rev (str_bytes s)))).

Section origins.
Context {U : Unicode} {UF : UnicodeFold}.

(** [strings.SplitN(strings.TrimSpace(h), " ", 2)]. *)
Definition bearerValue (r : HttpRequest) : option string :=
  let h := r.(hr_Header) "Authorization" in
  if String.eqb h "" then None
  else match cut_byte 32 (str_bytes (TrimSpace h)) with
       | (word, Some rest) => if EqualFold (str_of_bytes word) "Bearer" then Some (TrimSpace (str_of_bytes rest)) else None
       | (_, None) => None
       end.

Definition requiresTrustedOrigin (method : string) : bool := negb (in_list ["GET"; "HEAD"; "OPTIONS"; "TRACE"] method).

Definition RequestUsesHTTPS (r : HttpRequest) : bool := r.(hr_TLS) || EqualFold (r.(hr_Header) "X-Forwarded-Proto") "https".

Definition requestTargetOrigin (r : HttpRequest) : string := (if RequestUsesHTTPS r then "https" else "http") +:+ "://" +:+ r.(hr_Host).

Definition originMatchesTarget (raw target : string) : bool :=
  let raw := TrimSpace raw in
  if String.eqb raw "" then false
  else match url_Parse raw with
       | None => false
       | Some (scheme, host) =>
           if String.eqb scheme "" || String.eqb host "" then false
           else match url_Parse target with
                | None => false
                | Some (want_scheme, want_host) => EqualFold scheme want_scheme && EqualFold host want_host
                end
       end.

Definition OriginMatchesAny (raw : string) (allow : list string) : bool := existsb (originMatchesTarget raw) allow.

Definition hostIsLocal (host : string) : bool :=
  let host := TrimSpace host in
  if String.eqb host "" then false
  else
    let host := match SplitHostPort host with Some (h, _) => h | None => host end in
    in_list ["localhost"; "127.0.0.1"; "::1"] (ToLower (Trim_brackets host)).

Definition loopbackOriginAllowed (r : HttpRequest) (raw : string) : bool :=
  if negb (hostIsLocal r.(hr_Host)) then false
  else match url_Parse (TrimSpace raw) with
       | None => false
       | Some (_, host) => let name := url_Hostname host in if String.eqb name "" then false else hostIsLocal name
       end.

Definition RequestHasTrustedOrigin (r : HttpRequest) (allow : list string) : bool :=
  if negb (requiresTrustedOrigin r.(hr_Method)) then true
  else
    let target := requestTargetOrigin r in
    let origin := r.(hr_Header) "Origin" in
    let referer := r.(hr_Header) "Referer" in
    if negb (String.eqb (TrimSpace origin) "") then
      originMatchesTarget origin target || OriginMatchesAny origin allow || loopbackOriginAllowed r origin
    else if negb (String.eqb (TrimSpace referer) "") then
      originMatchesTarget referer target || OriginMatchesAny referer allow || loopbackOriginAllowed r referer
    else false.

(** The closure [add] of [TrustedOrigins]. *)
Definition add_origin (out : list string) (v : string) : list string :=
  let v := TrimRight_slash (TrimSpace v) in
  if String.eqb v "" || existsb (fun e => EqualFold e v) out then out else out ++ [v].

Definition NormalizePublicBaseURL (s : string) : string := TrimRight_slash (TrimSpace s).

Definition NormalizeDashboardPublicHost (s : string) : string :=
  let s := TrimSpace s in
  if String.eqb s "" then ""
  else if Contains s "://" then
    match url_Parse s with
    | Some (_, host) => let name := url_Hostname host in if String.eqb name "" then "" else ToLower (TrimSuffix name ".")
    | None => ""
    end
  else ToLower (TrimSuffix s ".").

(** Routes without authentication. *)
Definition PublicRoute (r : HttpRequest) : bool :=
  let path := r.(hr_Path) in
  let via method := String.eqb r.(hr_Method) method in
  if via "OPTIONS" then true
  else if in_list ["/healthz"; "/"] path then via "GET"
  else
    HasPrefix path "/webhooks/" ||
    (in_list ["/api/auth/bootstrap"; "/api/auth/login"; "/api/auth/logout"; "/api/worker/v1/enroll"] path && via "POST") ||
    (in_list ["/api/auth/session"; "/api/auth/bootstrap-status"; "/api/auth/providers"; "/install-kindling-worker.sh"] path && via "GET") ||
    (HasPrefix path "/api/auth/providers/" && via "GET" && (HasSuffix path "/start" || HasSuffix path "/callback")).

End origins.

Definition ClusterSettingKeyDashboardPublicHost : string := "dashboard_public_host".
Definition ClusterSettingKeyPublicBaseURL : string := "public_base_url".

Record orgOut := mkOrgOut { oo_ID : string; oo_Name : string; oo_Slug : string }.

(** The payload of an authenticated session. *)
Record sessionOut := mkSessionOut {
  so_UserID : string;
  so_Email : string;
  so_DisplayName : string;
  so_PlatformAdmin : bool;
  so_Organization : orgOut;
  so_Role : string;
  so_Organizations : list orgOut;
  so_APIKey : bool;
  so_DeploymentKind : string;
  so_OnboardingCompleted : bool
}.

Record apiKeyOut := mkKeyOut {
  ko_ID : string;
  ko_Name : string;
  ko_OrganizationID : string;
  ko_CreatedAt : option Time;
  ko_LastUsedAt : option Time;
  ko_Token : option string
}.

(** A cookie that is set carries its value, both whether it is secure. *)
Inductive AuthBody :=
  | BodyOK (cleared : option bool)
  | BodyBootstrapStatus (needs configured : bool)
  | BodyNoSession
  | BodySession (cookie : option (string * bool)) (s : sessionOut)
  | BodyKeys (l : list apiKeyOut)
  | BodyKey (k : apiKeyOut)
  | BodyPending (l : list PendingRow)
  | BodyMembership (user : pgUUID) (status role : string).

Section auth.
Context {env : Env} {S : Sorter} {U : Unicode} {UF : UnicodeFold} {UP : UuidParser} {Q : SqlText} {H : AuthHost}.

Definition TrustedOrigins : M (list string) :=
  let out := fold_left add_origin (Split_comma (ah_getenv "KINDLING_CORS_ORIGINS")) [] in
  let! host := attempt (query (ClusterSettingGet ClusterSettingKeyDashboardPublicHost)) in
  let with_host := match host with
                   | inr v => let host := NormalizeDashboardPublicHost v in
                              inr (if String.eqb host "" then out else add_origin out ("https://" +:+ host))
                   | inl e => if is_no_rows e then inr out else inl out
                   end in
  match with_host with
  | inl out => ret out
  | inr out =>
      let! base := attempt (query (ClusterSettingGet ClusterSettingKeyPublicBaseURL)) in
      ret (match base with inr v => add_origin out (NormalizePublicBaseURL v) | inl _ => out end)
  end.

(** ** The middleware *)

Definition unauthorized {B} : Response B := writeAPIError StatusUnauthorized "unauthorized" "unauthorized".

(** The row of a token: no row is unauthorized, another error internal. *)
Definition token_row {A B} (row : reads A) (what : string) : step_of B A :=
  or_reply (query row) (fun e => match e with ErrNoRows => unauthorized | _ => writeAPIError StatusInternalServerError "internal" what end).

(** The user and the membership behind a token. *)
Definition member_rows {B} (user org : pgUUID) : step_of B (User * OrganizationMembership) :=
  let? u := or_reply (query (UserByID user)) (fun _ => unauthorized) in
  let? mem := or_reply (query (OrganizationMembershipByUserAndOrg user org)) (fun _ => unauthorized) in
  next (u, mem).

Definition key_caller {B} (tok : string) : step_of B Caller :=
  let? keyRow := token_row (UserApiKeyByTokenHash (HashAPIKeyToken tok)) "api key lookup failed" in
  do! ignore (exec (UserApiKeyTouchLastUsed keyRow.(key_ID))) ;
  let? '(u, mem) := member_rows keyRow.(key_UserID) keyRow.(key_OrganizationID) in
  next (Member (mkPrincipal (FromPgtype u.(usr_ID)) u.(usr_Email) u.(usr_IsPlatformAdmin) (FromPgtype keyRow.(key_OrganizationID))
                  mem.(mem_Role) uuid_Nil (FromPgtype keyRow.(key_ID)) keyRow.(key_OrganizationID))).

Definition agent_caller {B} (tok : string) : step_of B Caller :=
  let? wa := token_row (WorkerAgentByAPITokenHash (HashWorkerAgentToken tok)) "worker agent lookup failed" in
  do! ignore (exec (WorkerAgentTouchSeen wa.(wa_ID))) ;
  next (Agent (mkAgentPrincipal (FromPgtype wa.(wa_ID)) (FromPgtype wa.(wa_OrganizationID)))).

Definition trusted_or {B} (r : HttpRequest) : step_of B unit :=
  let! allow := TrustedOrigins in
  if RequestHasTrustedOrigin r allow then next tt
  else reply (writeAPIError StatusForbidden "csrf_forbidden" "request origin is not allowed").

Definition session_caller {B} (r : HttpRequest) : step_of B Caller :=
  match cookie_value r with
  | None => reply unauthorized
  | Some value =>
      let? _ := trusted_or r in
      match session_bytes value with
      | None => reply unauthorized
      | Some raw =>
          let? sess := token_row (UserSessionByTokenHash (HashSessionToken raw)) "session lookup failed" in
          let? '(u, mem) := member_rows sess.(ses_UserID) sess.(ses_CurrentOrganizationID) in
          next (Member (mkPrincipal (FromPgtype u.(usr_ID)) u.(usr_Email) u.(usr_IsPlatformAdmin) (FromPgtype sess.(ses_CurrentOrganizationID))
                          mem.(mem_Role) (FromPgtype sess.(ses_ID)) uuid_Nil sess.(ses_CurrentOrganizationID)))
      end
  end.

Definition authenticate {B} (r : HttpRequest) : step_of B Caller :=
  if PublicRoute r then next Anonymous
  else match bearerValue r with
       | Some tok =>
           if HasPrefix tok APIKeyPrefix then key_caller tok
           else if HasPrefix tok WorkerAgentTokenPrefix then agent_caller tok
           else session_caller r
       | None => session_caller r
       end.

Definition Middleware {B} (handler : HttpRequest -> Caller -> M (Response B)) (r : HttpRequest) : M (Response B) := handle (
  let? c := authenticate r in
  let! resp := handler r c in
  next resp).

(** ** Sessions (auth_session_helpers.go) *)

(** The loop over the organizations: the first the user manages, else the first. *)
Fixpoint choose_org (user : pgUUID) (cands : list Organization) (org : Organization) (role : string) : M (Organization * string) :=
  match cands with
  | [] => ret (org, role)
  | c :: cands =>
      let! mem := query (OrganizationMembershipByUserAndOrg user c.(org_ID)) in
      let '(org, role) := if String.eqb role "" then (c, mem.(mem_Role)) else (org, role) in
      if orgRoleCanManage mem.(mem_Role) then ret (c, mem.(mem_Role)) else choose_org user cands org role
  end.

Definition NewSessionToken : M (list N) := fun w =>
  match ah_rand w.(w_step) with inl e => (Err e, tick w) | inr b => (Ret b, tick w) end.

Definition no_memberships : error := ErrMsg "user has no organization memberships".

Record issued := mkIssued { is_Token : list N; is_Org : Organization; is_Role : string; is_Orgs : list Organization }.

Definition issueSessionForUser (user : User) : M issued :=
  let! orgs := query (OrganizationsForUser user.(usr_ID)) in
  match orgs with
  | [] => throw no_memberships
  | first :: _ =>
      let! '(org, role) := choose_org user.(usr_ID) orgs first "" in
      if String.eqb role "" then throw no_memberships
      else
        let! rawTok := NewSessionToken in
        let! id := new_uuid in
        let! t := now in
        do! exec (UserSessionCreate (Some id) user.(usr_ID) (HashSessionToken rawTok) org.(org_ID) (t + sessionDuration)) ;
        ret (mkIssued rawTok org role orgs)
  end.

Definition session_cookie (r : HttpRequest) (raw : list N) : option (string * bool) := Some (of_bytes (hex_Encode raw), RequestUsesHTTPS r).

(** ** Payloads (auth_api.go) *)

Definition DeploymentKind : string :=
  if String.eqb (ToLower (TrimSpace (ah_getenv "KINDLING_DEPLOYMENT_KIND"))) "hosted" then "hosted" else "self_hosted".

Definition onboardingStateOrgID (currentOrgID : pgUUID) : pgUUID :=
  if String.eqb DeploymentKind "self_hosted" then Some BootstrapOrganizationID else currentOrgID.

Definition organizationJSON (o : Organization) : orgOut := mkOrgOut (uuid_String (FromPgtype o.(org_ID))) o.(org_Name) o.(org_Slug).

(** Whether the onboarding is completed. *)
Definition mergeOnboardingSession (orgID : pgUUID) : M bool :=
  let id := onboardingStateOrgID orgID in
  if negb (not_null id) then ret false
  else
    let! ensured := attempt (exec (OrgOnboardingEnsure id)) in
    match ensured with
    | inl _ => ret false
    | inr _ =>
        let! row := attempt (query (OrgOnboardingGet id)) in
        ret (match row with inr o => not_null o.(ob_CompletedAt) | inl _ => false end)
    end.

Definition session_out (u : User) (org : Organization) (role : string) (orgs : list Organization) (api_key : bool) (orgID : pgUUID) : M sessionOut :=
  let! completed := mergeOnboardingSession orgID in
  ret (mkSessionOut (uuid_String (FromPgtype u.(usr_ID))) u.(usr_Email) u.(usr_DisplayName) u.(usr_IsPlatformAdmin) (organizationJSON org) role
         (organizationJSON <$> orgs) api_key DeploymentKind completed).

Definition authSuccessPayload (u : User) (org : Organization) (role : string) (orgs : list Organization) : M sessionOut :=
  session_out u org role orgs false org.(org_ID).

(** The session of a token whose row was found, if all its rows are there. *)
Definition token_session (user orgID : pgUUID) (api_key : bool) : M (option sessionOut) :=
  let! u := attempt (query (UserByID user)) in
  match u with
  | inl _ => ret None
  | inr u =>
      let! mem := attempt (query (OrganizationMembershipByUserAndOrg user orgID)) in
      match mem with
      | inl _ => ret None
      | inr mem =>
          let! org := attempt (query (OrganizationByID orgID)) in
          match org with
          | inl _ => ret None
          | inr org =>
              let! orgs := attempt (query (OrganizationsForUser user)) in
              let! out := session_out u org mem.(mem_Role) (match orgs with inr l => l | inl _ => [] end) api_key orgID in
              ret (Some out)
          end
      end
  end.

Definition sessionPayload (r : HttpRequest) : M (option sessionOut) :=
  match cookie_value r ≫= session_bytes with
  | None => ret None
  | Some raw =>
      let! sess := attempt (query (UserSessionByTokenHash (HashSessionToken raw))) in
      match sess with
      | inl _ => ret None
      | inr sess => token_session sess.(ses_UserID) sess.(ses_CurrentOrganizationID) false
      end
  end.

Definition sessionPayloadFromAPIKey (r : HttpRequest) : M (option sessionOut) :=
  match bearerValue r with
  | None => ret None
  | Some tok =>
      if negb (HasPrefix tok APIKeyPrefix) then ret None
      else
        let! keyRow := attempt (query (UserApiKeyByTokenHash (HashAPIKeyToken tok))) in
        match keyRow with
        | inl _ => ret None
        | inr keyRow =>
            do! ignore (exec (UserApiKeyTouchLastUsed keyRow.(key_ID))) ;
            token_session keyRow.(key_UserID) keyRow.(key_OrganizationID) true
        end
  end.

(** ** The handlers of auth_api.go *)

Abbreviation step := (step_of AuthBody).

Definition configuredBootstrapToken : string := TrimSpace (ah_getenv "KINDLING_BOOTSTRAP_TOKEN").

Definition authBootstrapStatus (_ : HttpRequest) (_ : Caller) : M (Response AuthBody) := handle (
  let? n := or_reply (query UserCount) (writeAPIErrorFromErr StatusInternalServerError "bootstrap_status") in
  next (RespJSON StatusOK (BodyBootstrapStatus (n =? 0) (negb (String.eqb (TrimSpace (ah_getenv "KINDLING_BOOTSTRAP_TOKEN")) ""))))).

Definition authSession (r : HttpRequest) (_ : Caller) : M (Response AuthBody) :=
  let! out := sessionPayload r in
  match out with
  | Some s => ret (RespJSON StatusOK (BodySession None s))
  | None =>
      let! out := sessionPayloadFromAPIKey r in
      ret (RespJSON StatusOK (match out with Some s => BodySession None s | None => BodyNoSession end))
  end.

Definition hasProxyHeaders (r : HttpRequest) : bool :=
  existsb (fun h => negb (String.eqb (r.(hr_Header) h) "")) ["X-Forwarded-For"; "X-Forwarded-Proto"; "Via"].

Definition parseRequestIP (raw : string) : option Addr :=
  let raw := TrimSpace raw in
  if String.eqb raw "" then None
  else
    let host := if Contains raw ":" then match SplitHostPort raw with Some (h, _) => h | None => raw end else raw in
    ParseIP (Trim_brackets host).

Definition bootstrapRequestAllowed (r : HttpRequest) : bool :=
  let token := configuredBootstrapToken in
  if negb (String.eqb token "") && String.eqb (TrimSpace (r.(hr_Header) "X-Kindling-Bootstrap-Token")) token then true
  else match parseRequestIP r.(hr_RemoteAddr) with
       | None => false
       | Some peer => if negb (IsLoopback peer) then false else negb (hasProxyHeaders r)
       end.

Record credentials := mkCredentials { cr_Email : string; cr_Password : string; cr_DisplayName : string }.

(** The fields of a login, and those of the bootstrap. *)
Definition login_fields : list (string * field_decoder credentials) :=
  [("email", string_field (fun v c => mkCredentials v c.(cr_Password) c.(cr_DisplayName)));
   ("password", string_field (fun v c => mkCredentials c.(cr_Email) v c.(cr_DisplayName)))].
Definition login_struct : GoStruct credentials := mkStruct "struct" "" login_fields.
Definition bootstrap_struct : GoStruct credentials :=
  mkStruct "struct" "" (login_fields ++ [("display_name", string_field (fun v c => mkCredentials c.(cr_Email) c.(cr_Password) v))]).

Definition HashPassword (password : string) : M string := fun w =>
  match ah_hash w.(w_step) password with inl e => (Err e, tick w) | inr h => (Ret h, tick w) end.

Definition invalid {A} (message : string) : step A := reply (writeAPIError StatusBadRequest "validation_error" message).
Definition invalid_credentials {A} (message : string) : step A := reply (writeAPIError StatusUnauthorized "invalid_credentials" message).

Definition authBootstrap (r : HttpRequest) (c : Caller) : M (Response AuthBody) := handle (
  let? n := or_reply (query UserCount) (writeAPIErrorFromErr StatusInternalServerError "bootstrap") in
  if 0 <? n then reply (writeAPIError StatusForbidden "bootstrap_done" "cluster already has users")
  else if negb (bootstrapRequestAllowed r) then
    reply (writeAPIError StatusForbidden "bootstrap_forbidden" "bootstrap requires loopback access or a valid bootstrap token")
  else
    let? req := decode_body bootstrap_struct (mkCredentials "" "" "") (as_request r c) in
    let email := TrimSpace (ToLower req.(cr_Email)) in
    if String.eqb email "" || negb (Contains email "@") then invalid "valid email is required"
    else if (String.length req.(cr_Password) <? 8)%nat then invalid "password must be at least 8 characters"
    else
      let? hash := or_reply (HashPassword req.(cr_Password)) (writeAPIErrorFromErr StatusInternalServerError "hash_password") in
      let! userID := new_uuid in
      let? u := or_reply (exec (UserCreate (Some userID) email hash (TrimSpace req.(cr_DisplayName)) true)) (fun e =>
                  if IsPgUniqueViolation e then writeAPIError StatusConflict "email_taken" "that email is already registered"
                  else writeAPIErrorFromErr StatusInternalServerError "create_user" e) in
      let! memID := new_uuid in
      let? _ := or_reply (exec (OrganizationMembershipCreate (Some memID) (Some BootstrapOrganizationID) (Some userID) "owner"))
                  (writeAPIErrorFromErr StatusInternalServerError "membership") in
      let? s := or_reply (issueSessionForUser u) (writeAPIErrorFromErr StatusInternalServerError "session") in
      let! out := authSuccessPayload u s.(is_Org) s.(is_Role) s.(is_Orgs) in
      next (RespJSON StatusCreated (BodySession (session_cookie r s.(is_Token)) out))).

Definition authLogin (r : HttpRequest) (c : Caller) : M (Response AuthBody) := handle (
  let? req := decode_body login_struct (mkCredentials "" "" "") (as_request r c) in
  let email := TrimSpace (ToLower req.(cr_Email)) in
  if String.eqb email "" || String.eqb req.(cr_Password) "" then invalid "email and password are required"
  else
    let? u := or_reply (query (UserByEmail email)) (fun _ => writeAPIError StatusUnauthorized "invalid_credentials" "invalid email or password") in
    if negb (ah_check u.(usr_PasswordHash) req.(cr_Password)) then invalid_credentials "invalid email or password"
    else
      let? s := or_reply (issueSessionForUser u) (fun e => writeAPIError StatusForbidden "no_org" (error_Error e)) in
      let! out := authSuccessPayload u s.(is_Org) s.(is_Role) s.(is_Orgs) in
      next (RespJSON StatusOK (BodySession (session_cookie r s.(is_Token)) out))).

Definition authLogout (r : HttpRequest) (_ : Caller) : M (Response AuthBody) := handle (
  let? _ := trusted_or r in
  do! match cookie_value r ≫= session_bytes with
      | None => ret tt
      | Some raw =>
          let! sess := attempt (query (UserSessionByTokenHash (HashSessionToken raw))) in
          match sess with inl _ => ret tt | inr sess => ignore (exec (UserSessionDelete sess.(ses_ID))) end
      end ;
  next (RespJSON StatusOK (BodyOK (Some (RequestUsesHTTPS r))))).

Definition switch_struct : GoStruct string := mkStruct "struct" "" [("organization_id", string_field (fun v _ => v))].

Definition not_a_member {B} : Response B := writeAPIError StatusForbidden "forbidden" "not a member of that organization".

Definition authSwitchOrg (r : HttpRequest) (c : Caller) : M (Response AuthBody) := handle (
  let? _ := trusted_or r in
  let? p := mustPrincipal (as_request r c) in
  if negb (p.(pr_APIKeyID) =? uuid_Nil)%N then
    reply (writeAPIError StatusBadRequest "api_key_org_fixed" "organization is fixed for API keys; create another key for a different organization")
  else
    let? orgID := decode_body switch_struct "" (as_request r c) in
    match uuid_Parse (TrimSpace orgID) with
    | None => invalid "organization_id must be a UUID"
    | Some org =>
        let user := Some p.(pr_UserID) in
        let? _ := or_reply (query (OrganizationMembershipByUserAndOrg user (Some org))) (fun _ => not_a_member) in
        let? _ := or_reply (exec (UserSessionUpdateCurrentOrg (Some p.(pr_SessionID)) (Some org))) (writeAPIErrorFromErr StatusInternalServerError "switch_org") in
        let? u := or_reply (query (UserByID user)) (writeAPIErrorFromErr StatusInternalServerError "user_reload") in
        let? orgRow := or_reply (query (OrganizationByID (Some org))) (writeAPIErrorFromErr StatusInternalServerError "org_reload") in
        let? mem := or_reply (query (OrganizationMembershipByUserAndOrg user (Some org))) (writeAPIErrorFromErr StatusInternalServerError "membership") in
        let! orgs := attempt (query (OrganizationsForUser user)) in
        let! out := authSuccessPayload u orgRow mem.(mem_Role) (match orgs with inr l => l | inl _ => [orgRow] end) in
        next (RespJSON StatusOK (BodySession None out))
    end).

Record passwordChange := mkPasswordChange { pc_Current : string; pc_New : string }.
Definition password_struct : GoStruct passwordChange :=
  mkStruct "struct" "" [("current_password", string_field (fun v c => mkPasswordChange v c.(pc_New)));
                        ("new_password", string_field (fun v c => mkPasswordChange c.(pc_Current) v))].

Definition sessionTokenHashFromRequest (r : HttpRequest) : option (list N) := HashSessionToken <$> (cookie_value r ≫= session_bytes).

Definition authChangePassword (r : HttpRequest) (c : Caller) : M (Response AuthBody) := handle (
  let? _ := trusted_or r in
  let? p := mustPrincipal (as_request r c) in
  let? req := decode_body password_struct (mkPasswordChange "" "") (as_request r c) in
  if String.eqb req.(pc_Current) "" || String.eqb req.(pc_New) "" then invalid "current_password and new_password are required"
  else if (String.length req.(pc_New) <? 8)%nat then invalid "new password must be at least 8 characters"
  else
    let user := Some p.(pr_UserID) in
    let? u := or_reply (query (UserByID user)) (writeAPIErrorFromErr StatusInternalServerError "user_lookup") in
    if negb (ah_check u.(usr_PasswordHash) req.(pc_Current)) then invalid_credentials "current password is incorrect"
    else
      let? newHash := or_reply (HashPassword req.(pc_New)) (writeAPIErrorFromErr StatusInternalServerError "hash_password") in
      let? _ := or_reply (exec (UserUpdatePasswordHash user newHash)) (writeAPIErrorFromErr StatusInternalServerError "update_password") in
      let? _ := or_reply (exec (match sessionTokenHashFromRequest r with
                                | Some hash => UserSessionDeleteOthersByTokenHash user hash
                                | None => UserSessionDeleteAllForUser user
                                end)) (writeAPIErrorFromErr StatusInternalServerError "session_revocation_failed") in
      next (RespJSON StatusOK (BodyOK None))).

(** ** API keys (api_keys.go) *)

Definition key_out (k : UserApiKey) (token : option string) : apiKeyOut :=
  mkKeyOut (uuid_String (FromPgtype k.(key_ID))) k.(key_Name) (uuid_String (FromPgtype k.(key_OrganizationID))) k.(key_CreatedAt) k.(key_LastUsedAt) token.

Definition listAPIKeys (r : HttpRequest) (c : Caller) : M (Response AuthBody) := handle (
  let? p := mustPrincipal (as_request r c) in
  let? keys := or_reply (query (UserApiKeyListByUserAndOrg (Some p.(pr_UserID)) p.(pr_OrganizationID)))
                 (writeAPIErrorFromErr StatusInternalServerError "list_api_keys") in
  next (RespJSON StatusOK (BodyKeys ((fun k => key_out k None) <$> keys)))).

(** The text of a new key. *)
Definition NewAPIKeyToken : M string := fun w =>
  match ah_rand w.(w_step) with inl e => (Err e, tick w) | inr b => (Ret (APIKeyPrefix +:+ of_bytes (hex_Encode b)), tick w) end.

Record keyRequest := mkKeyRequest { kr_Name : string; kr_OrganizationID : string }.
Definition key_struct : GoStruct keyRequest :=
  mkStruct "struct" "" [("name", string_field (fun v k => mkKeyRequest v k.(kr_OrganizationID)));
                        ("organization_id", string_field (fun v k => mkKeyRequest k.(kr_Name) v))].

(** The organization of a new key: the current one, or another of the user's. *)
Definition key_organization (p : Principal) (raw : string) : step UUID :=
  if String.eqb (TrimSpace raw) "" then next p.(pr_OrgID)
  else match uuid_Parse (TrimSpace raw) with
       | None => invalid "organization_id must be a UUID"
       | Some parsed =>
           let? _ := or_reply (query (OrganizationMembershipByUserAndOrg (Some p.(pr_UserID)) (Some parsed))) (fun _ => not_a_member) in
           next parsed
       end.

Definition createAPIKey (r : HttpRequest) (c : Caller) : M (Response AuthBody) := handle (
  let? p := mustPrincipal (as_request r c) in
  let? _ := requireOrgAdmin p in
  let? req := decode_body key_struct (mkKeyRequest "" "") (as_request r c) in
  let name := TrimSpace req.(kr_Name) in
  if String.eqb name "" then invalid "name is required"
  else
    let? orgID := key_organization p req.(kr_OrganizationID) in
    let? plain := or_reply NewAPIKeyToken (writeAPIErrorFromErr StatusInternalServerError "token_generation") in
    let! id := new_uuid in
    let? row := or_reply (exec (UserApiKeyCreate (Some id) (Some p.(pr_UserID)) (Some orgID) name (HashAPIKeyToken plain)))
                  (writeAPIErrorFromErr StatusInternalServerError "create_api_key") in
    next (RespJSON StatusCreated (BodyKey (key_out row (Some plain))))).

Definition revokeAPIKey (r : HttpRequest) (c : Caller) : M (Response AuthBody) := handle (
  let? p := mustPrincipal (as_request r c) in
  let? _ := requireOrgAdmin p in
  match uuid_Parse (TrimSpace r.(hr_id)) with
  | None => reply (writeAPIError StatusBadRequest "invalid_id" "invalid api key id")
  | Some keyID =>
      let? _ := or_reply (exec (UserApiKeyRevoke (Some keyID) (Some p.(pr_UserID)))) (writeAPIErrorFromErr StatusInternalServerError "revoke_api_key") in
      next (RespJSON StatusOK (BodyOK None))
  end).

(** ** Pending members (pending_members_api.go) *)

Definition listPendingMembers (r : HttpRequest) (c : Caller) : M (Response AuthBody) := handle (
  let? p := mustPrincipal (as_request r c) in
  let? _ := requireOrgAdmin p in
  let? rows := or_reply (query (OrganizationMembershipListPendingByOrg p.(pr_OrganizationID)))
                 (writeAPIErrorFromErr StatusInternalServerError "list_pending_members") in
  next (RespJSON StatusOK (BodyPending rows))).

Definition decide_member (status code : string) (r : HttpRequest) (c : Caller) : M (Response AuthBody) := handle (
  let? p := mustPrincipal (as_request r c) in
  let? _ := requireOrgAdmin p in
  match parseUUID (TrimSpace r.(hr_id)) with
  | None => reply (writeAPIError StatusBadRequest "invalid_user_id" "invalid user ID")
  | Some userID =>
      let? m := or_reply (exec (OrganizationMembershipUpdatePendingStatus p.(pr_OrganizationID) userID status)) (fun e =>
                  if is_no_rows e then writeAPIError StatusConflict "not_pending" "membership is not in pending state"
                  else writeAPIErrorFromErr StatusNotFound code e) in
      next (RespJSON StatusOK (BodyMembership m.(mem_UserID) m.(mem_Status) m.(mem_Role)))
  end).

Definition approvePendingMember : HttpRequest -> Caller -> M (Response AuthBody) := decide_member "active" "approve_member".
Definition rejectPendingMember : HttpRequest -> Caller -> M (Response AuthBody) := decide_member "rejected" "reject_member".

(** The routes behind the middleware. *)
Definition account_routes : list (string * (HttpRequest -> Caller -> M (Response AuthBody))) :=
  [("GET /api/auth/bootstrap-status", authBootstrapStatus);
   ("GET /api/auth/session", authSession);
   ("POST /api/auth/bootstrap", authBootstrap);
   ("POST /api/auth/login", authLogin);
   ("POST /api/auth/logout", authLogout);
   ("POST /api/auth/switch-org", authSwitchOrg);
   ("PUT /api/auth/password", authChangePassword);
   ("GET /api/auth/api-keys", listAPIKeys);
   ("POST /api/auth/api-keys", createAPIKey);
   ("DELETE /api/auth/api-keys/{id}", revokeAPIKey);
   ("GET /api/org/pending-members", listPendingMembers);
   ("POST /api/org/pending-members/{user_id}/approve", approvePendingMember);
   ("POST /api/org/pending-members/{user_id}/reject", rejectPendingMember)].

End auth.
