(* ===== verification/AuthProofs.v ===== *)
(** * Authentication: who a request speaks for

    What the middleware lets through and what it answers otherwise; the round
    trip from a login to the requests with its cookie; what each request about
    accounts may change. *)

From S2P Require Import Prelude NetAddr Text Models Runtime Effects Queries Logic EventLogic TableFacts Codecs VolumeQueries Json GithubActions EventQueries Api DbLogic Webhook VolumeApi WorkerDns Background DomainApi Auth Sample.

(** ** The middleware *)

(** The use of a token is noted. *)
Inductive stamp (d : Db) : Db -> Prop :=
  | stamp_key k row t : db_keys d !! k = Some row -> stamp d (set_keys (<[k := set_key_LastUsedAt t row]> (db_keys d)) d)
  | stamp_agent k row t : db_agents d !! k = Some row -> stamp d (set_agents (<[k := touch_agent t row]> (db_agents d)) d).

(** Time may have passed and the use of tokens may be noted, no more. *)
Record calm (w w' : World) : Prop := {
  calm_db : rtc stamp (w_db w) (w_db w');
  calm_now : w_now w <= w_now w';
  calm_tx : w_tx w' = w_tx w;
  calm_log : w_log w' = w_log w
}.

#[export] Instance calm_preorder : PreOrder calm.
Proof.
  split; [by split|]. intros w1 w2 w3 [A1 A2 A3 A4] [B1 B2 B3 B4]. split; [by etrans|lia|congruence..].
Qed.

Lemma stamped_rows {X} (f : Db -> X) d d' :
  (forall v d, f (set_keys v d) = f d) -> (forall v d, f (set_agents v d) = f d) -> rtc stamp d d' -> f d' = f d.
Proof. intros Hk Ha. induction 1 as [|d1 d2 d3 H12 _ IH]; [done|]. rewrite IH. destruct H12; [apply Hk|apply Ha]. Qed.

Lemma calm_rows {X} (f : Db -> X) w w' :
  (forall v d, f (set_keys v d) = f d) -> (forall v d, f (set_agents v d) = f d) -> calm w w' -> f (w_db w') = f (w_db w).
Proof. intros Hk Ha Hc. eapply stamped_rows; [done..|apply Hc]. Qed.

Lemma bind_nested {A B C} (m : M A) (k : A -> M B) (j : B -> M C) w : bind (bind m k) j w = bind m (fun a => bind (k a) j) w.
Proof. unfold bind. by destruct (m w) as [[] ?]. Qed.

Section worlds.
Context {env : Env}.

Lemma calm_tick w : calm w (tick w).
Proof. split; [done|simpl; lia|done..]. Qed.

(** A step of a handler that is calm: it answers, or goes on with a value. *)
Definition asks {B A} (w0 : World) (P : Prop) (m : step_of B A) (Q : A -> World -> Prop) (E : Response B -> Prop) : Prop :=
  P -> forall w, calm w0 w -> exists r w1, m w = (Ret r, w1) /\ calm w w1 /\ match r with inl resp => E resp | inr a => Q a w1 end.

Context {B : Type} (w0 : World) (E : Response B -> Prop).

Lemma asks_next {A} (P : Prop) (a : A) (Q : A -> World -> Prop) : (P -> forall w, calm w0 w -> Q a w) -> asks w0 P (next a) Q E.
Proof. intros H HP w Hw. exists (inr a), w. split; [done|]. split; [done|]. by apply H. Qed.

Lemma asks_reply {A} (P : Prop) resp (Q : A -> World -> Prop) : (P -> E resp) -> asks w0 P (reply resp) Q E.
Proof. intros H HP w Hw. exists (inl resp), w. split; [done|]. split; [done|]. by apply H. Qed.

Lemma asks_bind {A C} (P : Prop) (m : step_of B A) (k : A -> step_of B C) (R : A -> Prop) Q :
  asks w0 P m (fun a _ => R a) E -> (forall a, asks w0 (R a) (k a) Q E) -> asks w0 P (hbind m k) Q E.
Proof.
  intros Hm Hk HP w Hw. destruct (Hm HP w Hw) as (r & w1 & H1 & Hc & Hr). unfold hbind. rewrite (bind_ret _ _ _ _ _ H1).
  destruct r as [resp|a]; [by exists (inl resp), w1|]. assert (calm w0 w1) as Hw1 by by etrans.
  destruct (Hk a Hr w1 Hw1) as (r & w2 & H2 & Hc2 & Hr2). exists r, w2. split; [done|]. split; [by etrans|done].
Qed.

Lemma asks_query {A} (P : Prop) (f : reads A) on_err (Q : A -> Prop) :
  (forall w a, P -> calm w0 w -> f (sql_now w) (w_db w) = inr a -> Q a) -> (forall e, E (on_err e)) ->
  asks w0 P (or_reply (query f) on_err) (fun a _ => Q a) E.
Proof.
  intros HQ HE HP w Hw. unfold or_reply, attempt, bind. destruct (query_cases f w) as [(a & Hf & ->)|(e & -> & _)].
  - exists (inr a), (tick w). split; [done|]. split; [apply calm_tick|]. by eapply HQ.
  - exists (inl (on_err e)), (tick w). split; [done|]. split; [apply calm_tick|]. apply HE.
Qed.

Lemma ignored_stamp (s : writes unit) w :
  (forall t d x d', s t d = inr (x, d') -> d' = d \/ stamp d d') -> exists w', ignore (exec s) w = (Ret tt, w') /\ calm w w'.
Proof.
  intros Hs. unfold ignore, attempt, bind, exec.
  destruct (env_fault _); [|by eexists; split; [done|apply calm_tick]|]; destruct (s _ _) as [e|[x d]] eqn:Es;
    (eexists; split; [done|]); try apply calm_tick; apply Hs in Es;
    (transitivity (set_db d w); [|apply calm_tick]); (split; [|done..]); simpl; by destruct Es as [->|Es]; [|apply rtc_once].
Qed.

Lemma asks_stamp {C} (P : Prop) (s : writes unit) (k : step_of B C) Q :
  (forall t d x d', s t d = inr (x, d') -> d' = d \/ stamp d d') -> asks w0 P k Q E -> asks w0 P (do! ignore (exec s) ; k) Q E.
Proof.
  intros Hs Hk HP w Hw. destruct (ignored_stamp s w Hs) as (w1 & H1 & Hc). rewrite (bind_ret _ _ _ _ _ H1).
  assert (calm w0 w1) as Hw1 by by etrans. destruct (Hk HP w1 Hw1) as (r & w2 & H2 & Hc2 & Hr). exists r, w2. split; [done|]. split; [by etrans|done].
Qed.

End worlds.

Lemma touch_key_stamps id t d x d' : UserApiKeyTouchLastUsed id t d = inr (x, d') -> d' = d \/ stamp d d'.
Proof. intros [->|(k & row & _ & Hk & _ & _ & ->)]%executing_inv; [by left|]. right. by eapply stamp_key. Qed.

Lemma touch_agent_stamps id t d x d' : WorkerAgentTouchSeen id t d = inr (x, d') -> d' = d \/ stamp d d'.
Proof. intros [->|(k & row & _ & Hk & _ & _ & ->)]%executing_inv; [by left|]. right. by eapply stamp_agent. Qed.

(** The principal of a user in an organization. *)
Definition member_principal (u : User) (mem : OrganizationMembership) (org : pgUUID) (session key : UUID) : Principal :=
  mkPrincipal (FromPgtype (usr_ID u)) (usr_Email u) (usr_IsPlatformAdmin u) (FromPgtype org) (mem_Role mem) session key org.

(** The user exists and has a membership of the organization. *)
Definition member_in (d : Db) (user org : pgUUID) (u : User) (mem : OrganizationMembership) : Prop :=
  row_at (db_users d) user = Some u /\ (exists k, db_memberships d !! k = Some mem) /\ member_of user org mem = true.

Section middleware.
Context {env : Env} {U : Unicode} {UF : UnicodeFold} {H : AuthHost}.

(** Who a request speaks for, by what it holds and by the rows of the database
    when it arrives. *)
Inductive authentic (r : HttpRequest) (w w' : World) : Caller -> Prop :=
  | authentic_public : PublicRoute r = true -> authentic r w w' Anonymous
  | authentic_key tok k key u mem :
      bearerValue r = Some tok -> HasPrefix tok APIKeyPrefix = true ->
      db_keys (w_db w) !! k = Some key -> key_TokenHash key = sha256 (bytes_of tok) -> key_RevokedAt key = None ->
      member_in (w_db w) (key_UserID key) (key_OrganizationID key) u mem ->
      authentic r w w' (Member (member_principal u mem (key_OrganizationID key) uuid_Nil (FromPgtype (key_ID key))))
  | authentic_agent tok k wa :
      bearerValue r = Some tok -> HasPrefix tok WorkerAgentTokenPrefix = true ->
      db_agents (w_db w) !! k = Some wa -> wa_ApiTokenHash wa = sha256 (bytes_of tok) ->
      authentic r w w' (Agent (mkAgentPrincipal (FromPgtype (wa_ID wa)) (FromPgtype (wa_OrganizationID wa))))
  | authentic_session value raw allow k ses t expires u mem :
      hr_Cookie r = Some value -> hex_Decode (bytes_of (TrimSpace value)) = Some raw -> length raw = 32%nat ->
      (TrustedOrigins w).1 = Ret allow -> RequestHasTrustedOrigin r allow = true ->
      db_sessions (w_db w) !! k = Some ses -> ses_TokenHash ses = sha256 raw ->
      ses_ExpiresAt ses = Some expires -> w_now w <= t <= w_now w' -> t < expires ->
      member_in (w_db w) (ses_UserID ses) (ses_CurrentOrganizationID ses) u mem ->
      authentic r w w' (Member (member_principal u mem (ses_CurrentOrganizationID ses) (FromPgtype (ses_ID ses)) uuid_Nil)).

Definition refused {B} (resp : Response B) : Prop :=
  exists status code message, resp = RespError status code message /\ (status = StatusUnauthorized \/ status = StatusForbidden \/ status = StatusInternalServerError).

Lemma refused_unauthorized {B} : refused (B := B) unauthorized.
Proof. do 3 eexists. split; [done|]. by left. Qed.

Lemma refused_token {B} (what : string) e :
  refused (B := B) match e with ErrNoRows => unauthorized | _ => writeAPIError StatusInternalServerError "internal" what end.
Proof. destruct e; try apply refused_unauthorized; (do 3 eexists; split; [done|]; by right; right). Qed.

Section rows.
Context {B : Type} (w0 : World).

Lemma asks_member (user org : pgUUID) :
  asks (B := B) w0 True (member_rows user org) (fun x _ => member_in (w_db w0) user org x.1 x.2) refused.
Proof.
  unfold member_rows. eapply (asks_bind _ _ _ _ _ (fun u => row_at (db_users (w_db w0)) user = Some u)).
  { apply asks_query; [|intros; apply refused_unauthorized]. intros w u _ Hc Hu%first_row_elem. rewrite <- (calm_rows db_users w0 w); [|done..].
    destruct (row_at _ _); [|by apply elem_of_nil in Hu]. by apply list_elem_of_singleton in Hu as ->. }
  intros u. eapply (asks_bind _ _ _ _ _ (fun mem => row_at (db_users (w_db w0)) user = Some u /\ (exists k, db_memberships (w_db w0) !! k = Some mem) /\ member_of user org mem = true)).
  { apply asks_query; [|intros; apply refused_unauthorized]. intros w mem Hu Hc Hm%first_row_elem. split; [done|].
    rewrite <- (calm_rows db_memberships w0 w) by done. apply elem_of_rows in Hm as [? ?]. done. }
  intros mem. apply asks_next. by intros.
Qed.

End rows.

(** The rows of tokens, up to the notes of their use. *)
Lemma stamped_key d d' k key : rtc stamp d d' -> db_keys d' !! k = Some key -> exists key0 t, db_keys d !! k = Some key0 /\ key = set_key_LastUsedAt t key0.
Proof.
  induction 1 as [d|d d1 d2 Hs _ IH]; intros Hk; [exists key, (key_LastUsedAt key); by destruct key|].
  destruct (IH Hk) as (key1 & t & H1 & ->). destruct Hs as [k0 row t0 Hrow|]; [|by exists key1, t].
  cbn in H1. destruct (decide (k = k0)) as [->|Hne]; [rewrite lookup_insert_eq in H1; injection H1 as <-; by exists row, t|].
  rewrite lookup_insert_ne in H1 by done. by exists key1, t.
Qed.

Lemma stamped_agent d d' k wa :
  rtc stamp d d' -> db_agents d' !! k = Some wa ->
  exists wa0, db_agents d !! k = Some wa0 /\ wa_ID wa = wa_ID wa0 /\ wa_OrganizationID wa = wa_OrganizationID wa0 /\ wa_ApiTokenHash wa = wa_ApiTokenHash wa0.
Proof.
  induction 1 as [d|d d1 d2 Hs _ IH]; intros Hk; [by exists wa|].
  destruct (IH Hk) as (wa1 & H1 & E1 & E2 & E3). rewrite E1, E2, E3. destruct Hs as [|k0 row t0 Hrow]; [by exists wa1|].
  cbn in H1. destruct (decide (k = k0)) as [->|Hne]; [rewrite lookup_insert_eq in H1; injection H1 as <-; by exists row|].
  rewrite lookup_insert_ne in H1 by done. by exists wa1.
Qed.

Lemma asks_key {B} w0 r tok w' :
  bearerValue r = Some tok -> HasPrefix tok APIKeyPrefix = true -> asks (B := B) w0 True (key_caller tok) (fun c _ => authentic r w0 w' c) refused.
Proof.
  intros Ht Hp. unfold key_caller. eapply (asks_bind _ _ _ _ _ (fun x => exists k key t, db_keys (w_db w0) !! k = Some key /\ x = set_key_LastUsedAt t key /\
    key_TokenHash key = sha256 (bytes_of tok) /\ key_RevokedAt key = None)).
  { apply asks_query; [|intros; apply refused_token]. intros w x _ Hc Hx%first_row_elem. apply elem_of_rows in Hx as [[Hh%bool_decide_eq_true Hn]%andb_true_iff (k & Hk)].
    destruct (stamped_key _ _ k x (calm_db _ _ Hc) Hk) as (key & t & Hkey & ->). exists k, key, t. split_and!; try done. by destruct key as [? ? ? ? ? ? ? []]. }
  intros x. apply asks_stamp; [apply touch_key_stamps|]. intros (k & key & t & Hk & -> & Hh & Hn). revert Hk Hh Hn. cbn [key_UserID key_OrganizationID key_ID set_key_LastUsedAt]. intros Hk Hh Hn.
  intros w Hw. eapply (asks_bind _ _ True _ _ _ _ (asks_member _ _ _)); [|done|done]. intros [u mem]. apply asks_next. intros Hm w1 Hw1. by eapply authentic_key.
Qed.

Lemma asks_agent {B} w0 r tok w' :
  bearerValue r = Some tok -> HasPrefix tok WorkerAgentTokenPrefix = true -> asks (B := B) w0 True (agent_caller tok) (fun c _ => authentic r w0 w' c) refused.
Proof.
  intros Ht Hp. unfold agent_caller. eapply (asks_bind _ _ _ _ _ (fun x => exists k wa, db_agents (w_db w0) !! k = Some wa /\ wa_ID x = wa_ID wa /\
    wa_OrganizationID x = wa_OrganizationID wa /\ wa_ApiTokenHash wa = sha256 (bytes_of tok))).
  { apply asks_query; [|intros; apply refused_token]. intros w x _ Hc Hx%first_row_elem. apply elem_of_rows in Hx as [Hh%bool_decide_eq_true (k & Hk)].
    destruct (stamped_agent _ _ k x (calm_db _ _ Hc) Hk) as (wa & Hwa & E1 & E2 & E3). exists k, wa. by rewrite <- E3. }
  intros x. apply asks_stamp; [apply touch_agent_stamps|]. apply asks_next. intros (k & wa & Hk & E1 & E2 & E3) w Hw. rewrite E1, E2. by eapply authentic_agent.
Qed.

Lemma trusted_read (w : World) : exists allow w1, TrustedOrigins w = (Ret allow, w1) /\ calm w w1.
Proof.
  unfold TrustedOrigins. generalize (fold_left add_origin (Split_comma (ah_getenv "KINDLING_CORS_ORIGINS")) []). intros out.
  assert (forall (f : reads string) w, exists r w1, attempt (query f) w = (Ret r, w1) /\ calm w w1) as Hq.
  { intros f w1. unfold attempt. destruct (query_cases f w1) as [(a & _ & ->)|(e & -> & _)]; eexists _, _; (split; [done|apply calm_tick]). }
  destruct (Hq (ClusterSettingGet ClusterSettingKeyDashboardPublicHost) w) as (host & w1 & E1 & C1). rewrite (bind_ret _ _ _ _ _ E1). cbv zeta.
  destruct (match host with inl e => _ | inr v => _ end) as [o|o]; [by exists o, w1|].
  destruct (Hq (ClusterSettingGet ClusterSettingKeyPublicBaseURL) w1) as (base & w2 & E2 & C2). rewrite (bind_ret _ _ _ _ _ E2).
  eexists _, w2. split; [done|by etrans].
Qed.

Lemma session_value r : match cookie_value r with Some v => hr_Cookie r = Some v | None => True end.
Proof. unfold cookie_value. destruct (hr_Cookie r) as [v|]; [|done]. by destruct (String.eqb v ""). Qed.

Lemma asks_session {B} w0 r :
  w_tx w0 = None ->
  exists x w1, session_caller (B := B) r w0 = (Ret x, w1) /\ calm w0 w1 /\ match x with inl resp => refused resp | inr c => authentic r w0 w1 c end.
Proof.
  intros Htx. unfold session_caller. pose proof (session_value r) as Hv. destruct (cookie_value r) as [value|].
  2: { exists (inl unauthorized), w0. split; [done|]. split; [done|apply refused_unauthorized]. }
  unfold hbind at 1, trusted_or. rewrite bind_nested. destruct (trusted_read w0) as (allow & w1 & Ea & C1). rewrite (bind_ret _ _ _ _ _ Ea).
  destruct (RequestHasTrustedOrigin r allow) eqn:Hr.
  2: { eexists _, w1. split; [done|]. split; [done|]. do 3 eexists. split; [done|]. by right; left. }
  unfold bind at 1, next at 1, ret at 1. unfold session_bytes. destruct (hex_Decode _) as [raw|] eqn:Ed.
  2: { exists (inl unauthorized), w1. split; [done|]. split; [done|apply refused_unauthorized]. }
  destruct (Nat.eqb_spec (length raw) SessionTokenBytes) as [El|].
  2: { exists (inl unauthorized), w1. split; [done|]. split; [done|apply refused_unauthorized]. }
  unfold hbind at 1, token_row, or_reply, attempt, bind.
  destruct (query_cases (UserSessionByTokenHash (HashSessionToken raw)) w1) as [(ses & Hs & ->)|(e & -> & _)].
  2: { eexists _, (tick w1). split; [done|]. split; [etrans; [done|apply calm_tick]|apply refused_token]. }
  simpl. assert (calm w0 (tick w1)) as C2 by (etrans; [done|apply calm_tick]).
  edestruct (asks_bind (B := B) w0 refused True _ (fun x => next (Member (member_principal x.1 x.2 (ses_CurrentOrganizationID ses) (FromPgtype (ses_ID ses)) uuid_Nil)))
    _ (fun c _ => exists u mem, c = Member (member_principal u mem (ses_CurrentOrganizationID ses) (FromPgtype (ses_ID ses)) uuid_Nil) /\
                   member_in (w_db w0) (ses_UserID ses) (ses_CurrentOrganizationID ses) u mem)
    (asks_member w0 (ses_UserID ses) (ses_CurrentOrganizationID ses))) as (x & w2 & E2 & C3 & Hx); [intros [u mem]; apply asks_next; eauto|done|exact C2|].
  exists x, w2. split; [rewrite <- E2; unfold hbind, bind; destruct (member_rows _ _ (tick w1)) as [[[|[]]| | |] ?]; done|]. split; [by etrans|].
  destruct x as [resp|c]; [done|]. destruct Hx as (u & mem & -> & Hm). apply first_row_elem, elem_of_rows in Hs as [[Hh%bool_decide_eq_true Ho]%andb_true_iff (k & Hk)].
  unfold session_open in Ho. destruct (ses_ExpiresAt ses) as [expires|] eqn:Ee; [|done]. apply Z.ltb_lt in Ho.
  rewrite (calm_rows db_sessions w0 w1) in Hk by done. eapply authentic_session; try done; [by rewrite Ea|].
  unfold sql_now. rewrite (calm_tx _ _ C1), Htx. pose proof (calm_now _ _ C1). pose proof (calm_now _ _ C3). simpl in *. lia.
Qed.

End middleware.

(** C11: Whatever fails, the middleware refuses a request with 401, 403 or 500 or
    hands it to the handler with a caller the request speaks for: nobody on a
    public route, the user of an unrevoked API key or of a session that was
    open while the request was checked and came from a trusted origin, with
    the role of the user's membership (of whatever status), or the worker agent
    of the token; by then nothing has changed but the notes of when a token was
    last used. *)
Theorem middleware_authentic (env : Env) (U : Unicode) (UF : UnicodeFold) (H : AuthHost) (B : Type)
    (handler : HttpRequest -> Caller -> M (Response B)) (r : HttpRequest) (w : World) :
  w_tx w = None ->
  exists w1, calm w w1 /\
    ((exists resp, Middleware handler r w = (Ret resp, w1) /\ refused resp) \/
     (exists c, authentic r w w1 c /\ Middleware handler r w = handler r c w1)).
Proof.
  intros Htx. assert (exists x w1, authenticate (B := B) r w = (Ret x, w1) /\ calm w w1 /\ match x with inl resp => refused resp | inr c => authentic r w w1 c end)
    as (x & w1 & E & C & Hx).
  { unfold authenticate. destruct (PublicRoute r) eqn:Hp; [exists (inr Anonymous), w; split; [done|]; split; [done|by apply authentic_public]|].
    destruct (bearerValue r) as [tok|] eqn:Ht; [|by apply asks_session].
    destruct (HasPrefix tok APIKeyPrefix) eqn:Hk.
    { destruct (asks_key (B := B) w r tok w Ht Hk I w) as (x & w1 & E & C & Hx); [done|]. exists x, w1. split; [done|]. split; [done|].
      destruct x as [|c]; [done|]. inversion Hx; subst; [by eapply authentic_public|by eapply authentic_key|by eapply authentic_agent|].
      eapply authentic_session; try done. pose proof (calm_now _ _ C). lia. }
    destruct (HasPrefix tok WorkerAgentTokenPrefix) eqn:Hk2; [|by apply asks_session].
    destruct (asks_agent (B := B) w r tok w Ht Hk2 I w) as (x & w1 & E & C & Hx); [done|]. exists x, w1. split; [done|]. split; [done|].
    destruct x as [|c]; [done|]. inversion Hx; subst; [by eapply authentic_public|by eapply authentic_key|by eapply authentic_agent|].
    eapply authentic_session; try done. pose proof (calm_now _ _ C). lia. }
  exists w1. split; [done|]. unfold Middleware, handle, hbind, bind. rewrite E. destruct x as [resp|c]; [left; by exists resp|right].
  exists c. split; [done|]. simpl. by destruct (handler r c w1) as [[] ?].
Qed.

(** ** What requests about accounts change *)

(** Rows lie under their ids. *)
Record accounts_wf (d : Db) : Prop := {
  aw_organizations : forall k o, db_organizations d !! k = Some o -> org_ID o = Some k;
  aw_users : forall k u, db_users d !! k = Some u -> usr_ID u = Some k;
  aw_sessions : forall k s, db_sessions d !! k = Some s -> ses_ID s = Some k
}.

(** The body of the request holds these fields. *)
Definition sent {UF : UnicodeFold} {A} (st : GoStruct A) (zero : A) (r : HttpRequest) (a : A) : Prop :=
  exists j, hr_Body r = Some j /\ json_Unmarshal st j zero = (a, None).

Definition has_membership (d : Db) (user org : pgUUID) : Prop := exists k m, db_memberships d !! k = Some m /\ member_of user org m = true.

Section changes.
Context {U : Unicode} {UF : UnicodeFold} {UP : UuidParser} {Q : SqlText} {H : AuthHost}.

(** The first user may be made: there is none, and the request comes from this
    host or has the token. *)
Definition may_bootstrap (r : HttpRequest) (d : Db) : Prop := size (db_users d) = 0%nat /\ bootstrapRequestAllowed r = true.

(** The request holds the email and the password of the user. *)
Definition knows_password (r : HttpRequest) (d : Db) (user : pgUUID) : Prop :=
  exists k u cr, user = Some k /\ db_users d !! k = Some u /\ sent login_struct (mkCredentials "" "" "") r cr /\
    sql_lower (usr_Email u) = sql_lower (TrimSpace (ToLower (cr_Email cr))) /\ ah_check (usr_PasswordHash u) (cr_Password cr) = true.

(** The cookie of the request is the session's. *)
Definition holds_session (r : HttpRequest) (s : UserSession) : Prop := sessionTokenHashFromRequest r = Some (ses_TokenHash s).

(** A change that the request of the caller may make; [d0] is the database when
    the request arrives. *)
Inductive account_change (r : HttpRequest) (c : Caller) (d0 d : Db) : Db -> Prop :=
  | change_onboarding k row :
      db_onboarding d !! k = None -> ob_CompletedAt row = None ->
      account_change r c d0 d (set_onboarding (<[k := row]> (db_onboarding d)) d)
  | change_used k row t :
      db_keys d !! k = Some row ->
      account_change r c d0 d (set_keys (<[k := set_key_LastUsedAt (Some t) row]> (db_keys d)) d)
  | change_first_user k u cr :
      may_bootstrap r d0 -> sent bootstrap_struct (mkCredentials "" "" "") r cr -> (exists n, ah_hash n (cr_Password cr) = inr (usr_PasswordHash u)) ->
      db_users d !! k = None -> account_change r c d0 d (set_users (<[k := u]> (db_users d)) d)
  | change_first_owner k m :
      may_bootstrap r d0 -> fk_required (db_users d) (mem_UserID m) = true -> db_memberships d !! k = None -> mem_OrganizationID m = Some BootstrapOrganizationID -> mem_Role m = "owner" ->
      account_change r c d0 d (set_memberships (<[k := m]> (db_memberships d)) d)
  | change_login k s km m :
      (may_bootstrap r d0 \/ knows_password r d0 (ses_UserID s)) -> db_sessions d !! k = None ->
      (exists n raw, ah_rand n = inr raw /\ ses_TokenHash s = HashSessionToken raw) ->
      db_memberships d !! km = Some m -> mem_UserID m = ses_UserID s -> mem_OrganizationID m = ses_CurrentOrganizationID s -> mem_Status m = "active" ->
      account_change r c d0 d (set_sessions (<[k := s]> (db_sessions d)) d)
  | change_logout k s :
      db_sessions d !! k = Some s -> holds_session r s -> account_change r c d0 d (set_sessions (delete k (db_sessions d)) d)
  | change_organization p s org :
      c = Member p -> pr_APIKeyID p = uuid_Nil -> db_sessions d !! pr_SessionID p = Some s -> has_membership d0 (Some (pr_UserID p)) (Some org) ->
      account_change r c d0 d (set_sessions
        (<[pr_SessionID p := mkUserSession (ses_ID s) (ses_UserID s) (ses_TokenHash s) (Some org) (ses_ExpiresAt s) (ses_CreatedAt s)]> (db_sessions d)) d)
  | change_password p req u hash t :
      c = Member p -> sent password_struct (mkPasswordChange "" "") r req -> db_users d !! pr_UserID p = Some u ->
      ah_check (usr_PasswordHash u) (pc_Current req) = true -> (exists n, ah_hash n (pc_New req) = inr hash) ->
      account_change r c d0 d (set_users
        (<[pr_UserID p := mkUser (usr_ID u) (usr_Email u) hash (usr_DisplayName u) (usr_IsPlatformAdmin u) (usr_CreatedAt u) (Some t)]> (db_users d)) d)
  | change_sessions p (gone : UserSession -> bool) :
      c = Member p -> (forall s, gone s = true -> ses_UserID s = Some (pr_UserID p) /\ ~ holds_session r s) ->
      account_change r c d0 d (set_sessions (filter (fun '(_, s) => gone s = false) (db_sessions d)) d)
  | change_new_key p k key :
      c = Member p -> orgRoleCanManage (pr_OrgRole p) = true -> db_keys d !! k = None -> key_UserID key = Some (pr_UserID p) ->
      (key_OrganizationID key = Some (pr_OrgID p) \/ has_membership d0 (Some (pr_UserID p)) (key_OrganizationID key)) ->
      account_change r c d0 d (set_keys (<[k := key]> (db_keys d)) d)
  | change_revoked p k key t :
      c = Member p -> orgRoleCanManage (pr_OrgRole p) = true -> db_keys d !! k = Some key -> key_UserID key = Some (pr_UserID p) ->
      account_change r c d0 d (set_keys (<[k := set_key_RevokedAt (Some t) key]> (db_keys d)) d)
  | change_member p k m status :
      c = Member p -> orgRoleCanManage (pr_OrgRole p) = true -> db_memberships d !! k = Some m -> mem_OrganizationID m = pr_OrganizationID p ->
      mem_Status m = "pending" -> (status = "active" \/ status = "rejected") ->
      account_change r c d0 d (set_memberships (<[k := set_mem_Status status m]> (db_memberships d)) d).

End changes.

Section requests.
Context {env : Env} {S : Sorter} {U : Unicode} {UF : UnicodeFold} {UP : UuidParser} {Q : SqlText} {H : AuthHost}
        (r : HttpRequest) (c : Caller) (d0 : Db).

Abbreviation chg := (account_change r c d0).
Abbreviation eff := (fun d => rtc chg d0 d).

(** Each state of the precondition on its own. *)
Lemma tr_each {A} (P : Db -> Prop) (m : M A) Qp X : (forall d, P d -> triple (fun d' => d' = d) m Qp X) -> triple P m Qp X.
Proof. intros Hm w Hw. by apply (Hm (w_db w)). Qed.

(** From a state the request may have reached. *)
Context (d : Db) (Hd : eff d).
Abbreviation here := (fun d' : Db => d' = d).
Abbreviation hd m Qp := (htr (B := AuthBody) here m Qp (fun _ => eff) eff).

Lemma here_kept d' : here d' -> eff d'.
Proof. by intros ->. Qed.

(** Statements that are changes whatever the handler knows. *)
Definition any_change (A : Type) (s : writes A) : Prop := forall t d a d', s t d = inr (a, d') -> d' = d \/ chg d d'.

Lemma tr_changes {A} (m : M A) (P : Db -> Prop) : (forall d, P d -> eff d) -> runs any_change m -> triple P m (fun _ => eff) eff.
Proof.
  intros HP Hm w Hw. assert (rtc chg (w_db w) (w_db (m w).2)) as Hr.
  { apply (runs_preorder any_change (rtc chg)); [|done]. intros d1 d2 (A' & s & t & a & Hs & E). destruct (Hs t d1 a d2 E) as [->|Hc]; [done|by apply rtc_once]. }
  assert (eff (w_db (m w).2)) by (etrans; [by apply HP|done]). by destruct (m w).1.
Qed.

Lemma ensure_change org : any_change unit (OrgOnboardingEnsure org).
Proof.
  intros t d1 a d2 E. unfold OrgOnboardingEnsure in E. destruct org as [k|]; [|done]. destruct (db_onboarding d1 !! k) eqn:Hk; [injection E as <- <-; by left|].
  destruct (fk_required _ _); [|done]. injection E as <- <-. right. by eapply change_onboarding.
Qed.

Lemma used_change id : any_change unit (UserApiKeyTouchLastUsed id).
Proof. intros t d1 a d2 [->|(k & row & _ & Hk & _ & _ & ->)]%executing_inv; [by left|]. right. by eapply change_used. Qed.

#[local] Hint Resolve ensure_change used_change : runs.

Lemma tr_payload u org role orgs (P : Db -> Prop) : (forall d, P d -> eff d) -> triple P (authSuccessPayload u org role orgs) (fun _ => eff) eff.
Proof. intros HP. apply tr_changes; [done|]. unfold authSuccessPayload, session_out, mergeOnboardingSession. solve_runs. Qed.

(** The last step of a handler that answers with a session. *)
Lemma hd_payload u org role orgs (k : sessionOut -> Response AuthBody) (P : Db -> Prop) :
  (forall d, P d -> eff d) -> htr (B := AuthBody) P (let! out := authSuccessPayload u org role orgs in next (k out)) (fun _ => eff) (fun _ => eff) eff.
Proof. intros HP. eapply (htr_m _ _ _ (fun _ => eff)); [by apply tr_payload|]. intros out. by apply htr_next. Qed.

(** ** New sessions *)

Definition active_in (user : pgUUID) (o : Organization) : Prop :=
  exists km m, db_memberships d !! km = Some m /\ mem_UserID m = user /\ mem_OrganizationID m = org_ID o /\ mem_Status m = "active".

Lemma organizations_active user t orgs :
  (forall k o, db_organizations d !! k = Some o -> org_ID o = Some k) -> OrganizationsForUser user t d = inr orgs -> Forall (active_in user) orgs.
Proof.
  intros Hwf [= <-]. apply Forall_forall. intros o Ho. rewrite sort_by_elem in Ho. apply list_elem_of_omap in Ho as (m & Hm & Ho).
  apply elem_of_rows in Hm as [[(u & E1 & E2)%org_cols Hs%String.eqb_eq]%andb_true_iff (km & Hkm)]. exists km, m. split; [done|]. split; [congruence|]. split; [|done].
  destruct (mem_OrganizationID m) as [k|]; [|done]. symmetry. by apply Hwf.
Qed.

Lemma tr_choose user cands : forall org role,
  Forall (active_in user) cands -> active_in user org ->
  triple here (choose_org user cands org role) (fun x d' => here d' /\ active_in user x.1) eff.
Proof.
  induction cands as [|o cands IH]; intros org role Hc Ho; simpl; [by apply tr_ret|]. apply Forall_cons in Hc as [Ho' Hc].
  eapply (tr_bind _ _ _ (fun _ => here)); [apply tr_query; [apply here_kept|done]|]. intros mem.
  destruct (if String.eqb role "" then _ else _) as [org' role'] eqn:E. assert (active_in user org') as Ho2 by (destruct (String.eqb role ""); by injection E as <- <-).
  destruct (orgRoleCanManage _); [by apply tr_ret|by apply IH].
Qed.

Lemma tr_new_session u :
  (may_bootstrap r d0 \/ knows_password r d0 (usr_ID u)) -> (forall k o, db_organizations d !! k = Some o -> org_ID o = Some k) ->
  triple here (issueSessionForUser u) (fun _ => eff) eff.
Proof.
  intros Hu Hwf. unfold issueSessionForUser.
  eapply (tr_bind _ _ _ (fun orgs d' => here d' /\ Forall (active_in (usr_ID u)) orgs)).
  { apply tr_query; [apply here_kept|]. intros t orgs d' -> E. split; [done|]. by eapply organizations_active. }
  intros orgs. apply tr_and. intros Ho. destruct orgs as [|first orgs]; [apply tr_throw, here_kept|].
  eapply tr_bind; [apply (tr_choose (usr_ID u)); [done|by apply Forall_cons in Ho as [? _]]|]. intros [org role]. apply tr_and. intros (km & m & Hm & E1 & E2 & E3). simpl in E2.
  destruct (String.eqb role ""); [apply tr_throw, here_kept|].
  eapply (tr_bind _ _ _ (fun raw d' => here d' /\ exists n, ah_rand n = inr raw)).
  { intros w Hw. unfold NewSessionToken. destruct (ah_rand _) eqn:En; simpl; [by apply here_kept|eauto]. }
  intros raw. apply tr_and. intros (n & Hraw). eapply (tr_bind _ _ _ (fun _ => here)); [by intros w Hw|]. intros id.
  eapply (tr_bind _ _ _ (fun _ => here)); [by intros w Hw|]. intros t.
  eapply (tr_bind _ _ _ (fun _ => eff)); [|intros; by apply tr_ret].
  apply tr_exec; [apply here_kept|]. intros t' x d1 d2 -> E. unfold UserSessionCreate in E. apply insert_row_inv in E as (k & _ & Hk & _ & _ & ->).
  assert (eff (t_set t_sessions (<[k:=mkUserSession (Some id) (usr_ID u) (HashSessionToken raw) (org_ID org) (Some (t + sessionDuration)) (Some t')]> (t_get t_sessions d)) d)) as He; [|by split].
  eapply rtc_r; [exact Hd|]. eapply (change_login _ _ _ _ k _ km m); eauto.
Qed.

End requests.

(** ** The handlers *)

#[local] Hint Resolve ensure_change used_change : runs.

Section handlers.
Context {env : Env} {S : Sorter} {U : Unicode} {UF : UnicodeFold} {UP : UuidParser} {Q : SqlText} {H : AuthHost}
        (r : HttpRequest) (c : Caller) (d0 : Db) (Hwf : accounts_wf d0).

Abbreviation chg := (account_change r c d0).
Abbreviation eff := (fun d => rtc chg d0 d).
Abbreviation start := (fun d : Db => d = d0).
Abbreviation hd P m Qp := (htr (B := AuthBody) P m Qp (fun _ => eff) eff).

Lemma eff_unchanged : eff d0.
Proof. done. Qed.

Lemma hd_member : hd start (mustPrincipal (as_request r c)) (fun p d => start d /\ c = Member p).
Proof.
  eapply tr_conseq; [apply (htr_principal (as_request r c) d0 eff), eff_unchanged|done| |done]. intros [resp|p] d; [done|].
  intros [Hd Hp]. split; [done|]. destruct c; simpl in Hp; [done| |done]. congruence.
Qed.

Lemma hd_admin p : hd start (requireOrgAdmin p) (fun _ d => start d /\ orgRoleCanManage (pr_OrgRole p) = true).
Proof. apply htr_admin, eff_unchanged. Qed.

Lemma hd_read {A} (f : reads A) on_err : hd start (or_reply (query f) on_err) (fun x d => start d /\ exists t, f t d0 = inr x).
Proof. apply htr_read, eff_unchanged. Qed.

Lemma hd_trusted : hd start (trusted_or r) (fun _ => start).
Proof. apply htr_reading; [apply eff_unchanged|]. unfold trusted_or, TrustedOrigins. solve_runs. Qed.

Lemma hd_body {A} (st : GoStruct A) zero : hd start (decode_body st zero (as_request r c)) (fun a d => start d /\ sent st zero r a).
Proof.
  unfold decode_body. simpl. destruct (hr_Body r) as [j|] eqn:Hj; [|apply htr_reply, start_kept, eff_unchanged].
  destruct (json_Unmarshal st j zero) as [a [e|]] eqn:E; [apply htr_reply, start_kept, eff_unchanged|]. apply htr_next. intros d Hd. split; [done|]. by exists j.
Qed.

(** A write after which the handler's answer is known. *)
Lemma hd_write {A} (s : writes A) on_err :
  (forall t x d', s t d0 = inr (x, d') -> d' = d0 \/ chg d0 d') -> hd start (or_reply (exec s) on_err) (fun _ => eff).
Proof.
  intros Hs. apply htr_or_reply, tr_exec; [intros d ->; by split|]. intros t x d d' -> E.
  assert (eff d') by (destruct (Hs t x d' E) as [->|He]; [done|by apply rtc_once]). split; [done|]. by split.
Qed.

Lemma hd_stop resp (P : Db -> Prop) A (Qp : A -> Db -> Prop) : (forall d, P d -> eff d) -> hd P (reply resp) Qp.
Proof. intros HP. by apply htr_reply. Qed.

Lemma hd_ends resp (P : Db -> Prop) : (forall d, P d -> eff d) -> hd P (next resp) (fun (_ : Response AuthBody) => eff).
Proof. intros HP. by apply htr_next. Qed.

Lemma membership_found user org t m : OrganizationMembershipByUserAndOrg user org t d0 = inr m -> has_membership d0 user org.
Proof. intros Hm%first_row_elem. apply elem_of_rows in Hm as [Hm (k & Hk)]. by exists k, m. Qed.

Lemma user_found id t u : UserByID id t d0 = inr u -> exists k, id = Some k /\ db_users d0 !! k = Some u.
Proof.
  intros Hu%first_row_elem. destruct id as [k|]; simpl in Hu; [|by apply elem_of_nil in Hu]. destruct (db_users d0 !! k) eqn:E; [|by apply elem_of_nil in Hu].
  apply list_elem_of_singleton in Hu as ->. by exists k.
Qed.

(** The last steps of a login and of the bootstrap. *)
Lemma hd_session u on_err (k : issued -> sessionOut -> Response AuthBody) (P : Db -> Prop) :
  (forall d, P d -> eff d /\ (forall k o, db_organizations d !! k = Some o -> org_ID o = Some k)) ->
  (may_bootstrap r d0 \/ knows_password r d0 (usr_ID u)) ->
  hd P (let? s := or_reply (issueSessionForUser u) on_err in let! out := authSuccessPayload u s.(is_Org) s.(is_Role) s.(is_Orgs) in next (k s out)) (fun _ => eff).
Proof.
  intros HP Hu. eapply (htr_bind _ _ _ (fun _ => eff)); [|intros s; by apply hd_payload].
  apply htr_or_reply, tr_each. intros d Hd. apply HP in Hd as [Hd Ho]. eapply tr_conseq; [by apply (tr_new_session r c d0 d)|done..|]. intros d' Hd'. by split.
Qed.

Lemma hd_login : hd start
  (let? req := decode_body login_struct (mkCredentials "" "" "") (as_request r c) in
  let email := TrimSpace (ToLower req.(cr_Email)) in
  if String.eqb email "" || String.eqb req.(cr_Password) "" then invalid "email and password are required"
  else
    let? u := or_reply (query (UserByEmail email)) (fun _ => writeAPIError StatusUnauthorized "invalid_credentials" "invalid email or password") in
    if negb (ah_check u.(usr_PasswordHash) req.(cr_Password)) then invalid_credentials "invalid email or password"
    else
      let? s := or_reply (issueSessionForUser u) (fun e => writeAPIError StatusForbidden "no_org" (error_Error e)) in
      let! out := authSuccessPayload u s.(is_Org) s.(is_Role) s.(is_Orgs) in
      next (RespJSON StatusOK (BodySession (session_cookie r s.(is_Token)) out))) (fun _ => eff).
Proof.
  eapply htr_bind; [apply hd_body|]. intros req. apply tr_and. intros Hs. cbv zeta. destruct (_ || _); [by apply hd_stop; intros d ->|].
  eapply htr_bind; [apply hd_read|]. intros u. apply tr_and. intros (t & Hu%first_row_elem).
  destruct (ah_check (usr_PasswordHash u) (cr_Password req)) eqn:Hc; simpl; [|by apply hd_stop; intros d ->].
  apply (hd_session u _ (fun s out => RespJSON StatusOK (BodySession (session_cookie r s.(is_Token)) out))).
  - intros d ->. split; [done|apply Hwf].
  - right. unfold any_order in Hu. rewrite sort_by_elem in Hu. apply elem_of_rows in Hu as [He%String.eqb_eq (k & Hk)].
    exists k, u, req. by rewrite (aw_users _ Hwf k u Hk).
Qed.

(** The organizations are as they were. *)
Definition booting (d : Db) : Prop := eff d /\ db_organizations d = db_organizations d0.

Lemma booting_write {A} (s : writes A) on_err :
  (forall t x d d', booting d -> s t d = inr (x, d') -> chg d d' /\ db_organizations d' = db_organizations d) ->
  hd booting (or_reply (exec s) on_err) (fun _ => booting).
Proof.
  intros Hs. apply htr_or_reply, tr_exec; [intros d [Hd _]; by split|]. intros t x d d' Hd E. destruct (Hs t x d d' Hd E) as [Hc Ho]. destruct Hd as [Hd Hb].
  assert (eff d') by by eapply rtc_r. split; [split; [done|congruence]|]. by split.
Qed.

Lemma create_first_user id email hash name admin t x d d' cr :
  may_bootstrap r d0 -> sent bootstrap_struct (mkCredentials "" "" "") r cr -> (exists n, ah_hash n (cr_Password cr) = inr hash) -> UserCreate id email hash name admin t d = inr (x, d') -> chg d d' /\ db_organizations d' = db_organizations d.
Proof.
  intros Hm Hs Hh E. unfold UserCreate in E. destruct (existsb _ _); [done|]. apply insert_row_inv in E as (k & _ & Hk & _ & _ & ->). split; [|done].
  by eapply change_first_user.
Qed.

Lemma create_first_owner id user t x d d' :
  may_bootstrap r d0 -> OrganizationMembershipCreate id (Some BootstrapOrganizationID) user "owner" t d = inr (x, d') ->
  chg d d' /\ db_organizations d' = db_organizations d.
Proof.
  intros Hm E. unfold OrganizationMembershipCreate in E. apply insert_row_inv in E as (k & _ & Hk & Hok & _ & ->). split; [|done].
  apply change_first_owner; [done| |done..]. cbn in Hok. unfold membership_ok in Hok. cbn in Hok. rewrite !andb_true_iff in Hok. tauto.
Qed.

Lemma triple_bootstrap : triple start (authBootstrap r c) (fun _ => eff) eff.
Proof.
  unfold authBootstrap. apply tr_handle. eapply htr_bind; [apply hd_read|]. intros n. apply tr_and. intros (t & [= <-]).
  destruct (Z.ltb_spec 0 (Z.of_nat (size (db_users d0)))); [by apply hd_stop; intros d ->|]. destruct (bootstrapRequestAllowed r) eqn:Hb; simpl; [|by apply hd_stop; intros d ->].
  assert (may_bootstrap r d0) as Hm by (split; [lia|done]).
  eapply htr_bind; [apply hd_body|]. intros req. apply tr_and. intros Hreq. destruct (_ || _); [by apply hd_stop; intros d ->|]. destruct (_ <? 8)%nat; [by apply hd_stop; intros d ->|].
  eapply (htr_bind _ _ _ (fun hash d => start d /\ exists n, ah_hash n (cr_Password req) = inr hash)).
  { apply htr_or_reply. intros w Hw. unfold HashPassword. destruct (ah_hash _ _) eqn:Eh; simpl; rewrite Hw; [by split|]. split; [done|eauto]. }
  intros hash. apply tr_and. intros Hhash. eapply (htr_m _ _ _ (fun _ => booting)); [intros w Hw; simpl; rewrite Hw; by split|]. intros id.
  eapply (htr_bind _ _ _ (fun _ => booting)); [apply booting_write; intros; by eapply create_first_user|]. intros u.
  eapply (htr_m _ _ _ (fun _ => booting)); [by intros w Hw|]. intros mid.
  eapply (htr_bind _ _ _ (fun _ => booting)); [apply booting_write; intros; by eapply create_first_owner|]. intros ?.
  apply (hd_session u _ (fun s out => RespJSON StatusCreated (BodySession (session_cookie r s.(is_Token)) out))); [|by left].
  intros d [Hd Ho]. split; [done|]. rewrite Ho. apply Hwf.
Qed.

Lemma triple_logout : triple start (authLogout r c) (fun _ => eff) eff.
Proof.
  unfold authLogout. apply tr_handle. eapply htr_bind; [apply hd_trusted|]. intros []. eapply (htr_m _ _ _ (fun _ => eff)); [|intros; by apply hd_ends].
  destruct (cookie_value r ≫= session_bytes) as [raw|] eqn:Ec; [|by apply tr_ret; intros d ->].
  eapply (tr_bind _ _ _ (fun x d => start d /\ forall s, x = inr s -> exists t, UserSessionByTokenHash (HashSessionToken raw) t d0 = inr s)).
  { apply tr_attempt, tr_query; [intros d ->; by split|]. intros t s d -> E. split; [done|]. intros s' [= <-]. eauto. }
  intros x. apply tr_and. intros Hx. destruct x as [e|s]; [by apply tr_ret; intros d ->|]. destruct (Hx s eq_refl) as (t & Hs%first_row_elem).
  apply elem_of_rows in Hs as [[Hh%bool_decide_eq_true _]%andb_true_iff (k & Hk)].
  eapply (tr_bind _ _ _ (fun _ => eff)); [|intros; by apply tr_ret]. apply tr_attempt, tr_exec; [by intros d ->|].
  intros t' y d d' -> E. injection E as _ <-. rewrite (aw_sessions _ Hwf k s Hk).
  assert (eff (set_sessions (delete k (db_sessions d0)) d0)); [|done]. apply rtc_once. eapply change_logout; [done|]. unfold holds_session, sessionTokenHashFromRequest. by rewrite Ec, Hh.
Qed.

Lemma triple_switch : triple start (authSwitchOrg r c) (fun _ => eff) eff.
Proof.
  unfold authSwitchOrg. apply tr_handle. eapply htr_bind; [apply hd_trusted|]. intros []. eapply htr_bind; [apply hd_member|]. intros p. apply tr_and. intros Hc.
  destruct (N.eqb_spec (pr_APIKeyID p) uuid_Nil) as [Hk|]; simpl; [|by apply hd_stop; intros d ->].
  eapply htr_bind; [apply hd_body|]. intros raw. apply tr_and. intros _. destruct (uuid_Parse _) as [org|]; [|by apply hd_stop; intros d ->].
  eapply htr_bind; [apply hd_read|]. intros m. apply tr_and. intros (t & Hm%membership_found). eapply (htr_bind _ _ _ (fun _ => eff)).
  { apply hd_write. intros t' x d' (k & s & [= E] & Hs & _ & _ & _ & ->)%returning_inv. subst k. right. by eapply change_organization. }
  intros ?. eapply (htr_bind _ _ _ (fun _ => eff)); [apply htr_or_reply, tr_query; by intros|]. intros u.
  eapply (htr_bind _ _ _ (fun _ => eff)); [apply htr_or_reply, tr_query; by intros|]. intros o.
  eapply (htr_bind _ _ _ (fun _ => eff)); [apply htr_or_reply, tr_query; by intros|]. intros mem.
  eapply (htr_m _ _ _ (fun _ => eff)); [apply tr_attempt, tr_query; by intros|]. intros orgs. by apply hd_payload.
Qed.

Lemma deleted_sessions p gone x d d' :
  c = Member p -> eff d -> (forall s, gone s = true -> ses_UserID s = Some (pr_UserID p) /\ ~ holds_session r s) ->
  delete_sessions gone d = inr (x, d') -> eff d'.
Proof. intros Hc Hd Hg [= _ <-]. eapply rtc_r; [exact Hd|]. by eapply change_sessions. Qed.

Lemma triple_password : triple start (authChangePassword r c) (fun _ => eff) eff.
Proof.
  unfold authChangePassword. apply tr_handle. eapply htr_bind; [apply hd_trusted|]. intros []. eapply htr_bind; [apply hd_member|]. intros p. apply tr_and. intros Hc.
  eapply htr_bind; [apply hd_body|]. intros req. apply tr_and. intros Hs. destruct (_ || _); [by apply hd_stop; intros d ->|]. destruct (_ <? 8)%nat; [by apply hd_stop; intros d ->|].
  cbv zeta. eapply htr_bind; [apply hd_read|]. intros u. apply tr_and. intros (t & (k & [= <-] & Hk)%user_found).
  destruct (ah_check (usr_PasswordHash u) (pc_Current req)) eqn:Hp; simpl; [|by apply hd_stop; intros d ->].
  eapply (htr_bind _ _ _ (fun hash d => start d /\ exists n, ah_hash n (pc_New req) = inr hash)).
  { apply htr_or_reply. intros w Hw. unfold HashPassword. destruct (ah_hash _ _) eqn:E; simpl; rewrite Hw; [by split|]. split; [done|]. eauto. }
  intros hash. apply tr_and. intros Hh. eapply (htr_bind _ _ _ (fun _ => eff)).
  { apply hd_write. intros t' x d' [->|(k' & u' & [= <-] & Hu & _ & _ & ->)]%executing_inv; [by left|]. right. cbn in Hu. rewrite Hk in Hu. injection Hu as <-.
    by eapply change_password. }
  intros ?. eapply (htr_bind _ _ _ (fun _ => eff)); [|intros; by apply hd_ends]. apply htr_or_reply.
  destruct (sessionTokenHashFromRequest r) as [hash'|] eqn:E; (apply tr_exec; [by intros|]); intros t' x d d' Hd HD;
    (assert (eff d'); [|split; [done|by split]]); (eapply deleted_sessions; [exact Hc|exact Hd| |exact HD]); intros s; unfold holds_session; rewrite E.
  - intros [(o & E1 & E2)%org_cols Hn%negb_true_iff%bool_decide_eq_false]%andb_true_iff. injection E2 as <-. split; [done|]. by intros [= ->].
  - intros (o & E1 & [= <-])%org_cols. done.
Qed.

Lemma triple_new_key : triple start (createAPIKey r c) (fun _ => eff) eff.
Proof.
  unfold createAPIKey. apply tr_handle. eapply htr_bind; [apply hd_member|]. intros p. apply tr_and. intros Hc. eapply htr_bind; [apply hd_admin|]. intros ?. apply tr_and. intros Ha.
  eapply htr_bind; [apply hd_body|]. intros req. apply tr_and. intros _. cbv zeta. destruct (String.eqb _ ""); [by apply hd_stop; intros d ->|].
  eapply (htr_bind _ _ _ (fun org d => start d /\ (org = pr_OrgID p \/ has_membership d0 (Some (pr_UserID p)) (Some org)))).
  { unfold key_organization. destruct (String.eqb _ ""); [by apply htr_next; auto|]. destruct (uuid_Parse _) as [org|]; [|by apply hd_stop; intros d ->].
    eapply htr_bind; [apply hd_read|]. intros m. apply tr_and. intros (t & Hm%membership_found). apply htr_next. auto. }
  intros org. apply tr_and. intros Ho. eapply (htr_bind _ _ _ (fun _ => start)).
  { apply htr_or_reply. intros w Hw. unfold NewAPIKeyToken. destruct (ah_rand _); simpl; rewrite Hw; by split. }
  intros plain. eapply (htr_m _ _ _ (fun _ => start)); [by intros w Hw|]. intros id. eapply (htr_bind _ _ _ (fun _ => eff)); [|intros; by apply hd_ends].
  apply hd_write. intros t x d' E. unfold UserApiKeyCreate in E. apply insert_row_inv in E as (k & _ & Hk & _ & _ & ->). right. eapply change_new_key; try done.
  destruct Ho as [->|Ho]; [by left|by right].
Qed.

Lemma triple_revoke : triple start (revokeAPIKey r c) (fun _ => eff) eff.
Proof.
  unfold revokeAPIKey. apply tr_handle. eapply htr_bind; [apply hd_member|]. intros p. apply tr_and. intros Hc. eapply htr_bind; [apply hd_admin|]. intros ?. apply tr_and. intros Ha.
  destruct (uuid_Parse _) as [k|]; [|by apply hd_stop; intros d ->]. eapply (htr_bind _ _ _ (fun _ => eff)); [|intros; by apply hd_ends].
  apply hd_write. intros t x d' [->|(k' & key & [= <-] & Hk & [(o & E1 & [= <-])%org_cols _]%andb_true_iff & _ & ->)]%executing_inv; [by left|].
  subst. right. by eapply change_revoked.
Qed.

Lemma triple_decide status code : (status = "active" \/ status = "rejected") -> triple start (decide_member status code r c) (fun _ => eff) eff.
Proof.
  intros Hs. unfold decide_member. apply tr_handle. eapply htr_bind; [apply hd_member|]. intros p. apply tr_and. intros Hc. eapply htr_bind; [apply hd_admin|]. intros ?. apply tr_and. intros Ha.
  destruct (parseUUID _) as [user|]; [|by apply hd_stop; intros d ->]. eapply (htr_bind _ _ _ (fun _ => eff)); [|intros; by apply hd_ends].
  apply hd_write. intros t x d' (k & m & Ek & Hm & _ & _ & _ & ->)%returning_inv. right.
  unfold key_where in Ek. destruct (List.filter _ _) as [|[k' m'] l] eqn:Ef; [done|]. injection Ek as ->.
  assert ((k, m') ∈ List.filter (fun '(_, m) => pending_member (pr_OrganizationID p) user m) (map_to_list (db_memberships d0))) as Hin by (rewrite Ef; constructor).
  apply list_elem_of_In, List.filter_In in Hin as [Hin%list_elem_of_In%elem_of_map_to_list Hp]. cbn in Hm. rewrite Hm in Hin. injection Hin as <-.
  unfold pending_member in Hp. apply andb_true_iff in Hp as [[_ (o & E1 & E2)%org_cols]%andb_true_iff Hst%String.eqb_eq]. eapply change_member; try done. congruence.
Qed.

End handlers.

(** C12: Whatever fails, a request to the account API makes only changes its
    caller may make: the first user, with a hash of the password it sent, and
    their ownership, only while there is no user and from this host or with the
    token; a session under the hash of a token just drawn, only for the first
    user or with the user's password, in an organization where the user is
    active; the end of the session whose cookie it holds; another organization
    for the caller's own session, of which the user has a membership, of
    whatever status; the caller's own password, with the current one, which ends
    the caller's other sessions and nobody else's; keys of the caller alone, and
    decisions about pending members of the caller's organization, by owners and
    admins only. Besides it may add the onboarding of an organization, not
    completed, and note the use of a key. *)
Theorem account_requests (env : Env) (S : Sorter) (U : Unicode) (UF : UnicodeFold) (UP : UuidParser) (Q : SqlText) (H : AuthHost) (path : string)
    (h : HttpRequest -> Caller -> M (Response AuthBody)) (r : HttpRequest) (c : Caller) (w : World) :
  (path, h) ∈ account_routes -> accounts_wf (w_db w) -> rtc (account_change r c (w_db w)) (w_db w) (w_db (h r c w).2).
Proof.
  intros Hin Hwf.
  assert (triple (fun d => d = w_db w) (h r c) (fun _ d => rtc (account_change r c (w_db w)) (w_db w) d) (fun d => rtc (account_change r c (w_db w)) (w_db w) d)) as Ht.
  2: { specialize (Ht w eq_refl). by destruct (h r c w).1. }
  unfold account_routes in Hin. repeat (apply elem_of_cons in Hin as [[= -> ->]|Hin]); [..|by apply not_elem_of_nil in Hin].
  - apply tr_changes; [by intros d ->|]. unfold authBootstrapStatus, handle, hbind, or_reply. solve_runs.
  - apply tr_changes; [by intros d ->|]. unfold authSession, sessionPayload, sessionPayloadFromAPIKey, token_session, session_out, mergeOnboardingSession. solve_runs.
  - by apply triple_bootstrap.
  - unfold authLogin. apply tr_handle. by apply hd_login.
  - by apply triple_logout.
  - by apply triple_switch.
  - by apply triple_password.
  - apply tr_changes; [by intros d ->|]. unfold listAPIKeys, handle, hbind, or_reply, mustPrincipal. solve_runs.
  - by apply triple_new_key.
  - by apply triple_revoke.
  - apply tr_changes; [by intros d ->|]. unfold listPendingMembers, handle, hbind, or_reply, mustPrincipal, requireOrgAdmin. solve_runs.
  - apply triple_decide; auto.
  - apply triple_decide; auto.
Qed.

(** ** From a login to the requests with its cookie *)

(** Hexadecimal digits. *)
Lemma hex_pair b : is_byte b -> fromHexChar (toHexChar (b / 16)) = Some (b / 16)%N /\ fromHexChar (toHexChar (b mod 16)) = Some (b mod 16)%N /\
  hex_dash (Ascii.ascii_of_N (toHexChar (b / 16))) = true /\ hex_dash (Ascii.ascii_of_N (toHexChar (b mod 16))) = true.
Proof.
  intros Hb. assert (forall n, (n < 16)%N -> fromHexChar (toHexChar n) = Some n /\ hex_dash (Ascii.ascii_of_N (toHexChar n)) = true) as Hn.
  { intros n Hn. assert (forallb (fun n => bool_decide (fromHexChar (toHexChar n) = Some n) && hex_dash (Ascii.ascii_of_N (toHexChar n))) (N.of_nat <$> seq 0 16) = true) as Hall by by vm_compute.
    rewrite forallb_forall in Hall. specialize (Hall n). rewrite andb_true_iff, bool_decide_eq_true in Hall. apply Hall. apply list_elem_of_In, list_elem_of_fmap.
    exists (N.to_nat n). rewrite N2Nat.id. split; [done|]. apply elem_of_seq. lia. }
  unfold is_byte in Hb. destruct (Hn (b / 16)%N) as [? ?]; [apply N.Div0.div_lt_upper_bound; lia|]. destruct (Hn (b mod 16)%N) as [? ?]; [by apply N.mod_lt|]. done.
Qed.

Lemma hex_decode_encode l : Forall is_byte l -> hex_Decode (hex_Encode l) = Some l.
Proof.
  induction 1 as [|b l Hb _ IH]; [done|]. cbn. destruct (hex_pair b Hb) as (-> & -> & _). unfold hex_Encode in IH. rewrite IH.
  by rewrite N.mul_comm, <- N.div_mod.
Qed.

Lemma hex_bytes l : Forall is_byte l -> Forall is_byte (hex_Encode l).
Proof.
  induction 1 as [|b l Hb _ IH]; [constructor|]. cbn. assert (forall n, (n < 16)%N -> is_byte (toHexChar n)) as Hn.
  { intros n Hn. unfold is_byte, toHexChar. case_match; lia. }
  unfold is_byte in Hb. apply Forall_cons. split; [apply Hn, N.Div0.div_lt_upper_bound; lia|]. apply Forall_cons. split; [by apply Hn, N.mod_lt|exact IH].
Qed.

(** A cookie that was issued holds its token. *)
Lemma session_bytes_issued raw : Forall is_byte raw -> length raw = SessionTokenBytes -> session_bytes (of_bytes (hex_Encode raw)) = Some raw.
Proof.
  intros Hb Hl. unfold session_bytes. rewrite TrimSpace_graphics.
  - rewrite bytes_of_of_bytes by by apply hex_bytes. rewrite hex_decode_encode by done. by rewrite Hl.
  - unfold of_bytes. assert (forall s, str_bytes (str_of_bytes s) = s) as -> by apply String.list_ascii_of_string_of_list_ascii. apply Forall_fmap.
    clear Hl. induction Hb as [|b l Hb _ IH]; [constructor|]. destruct (hex_pair b Hb) as (_ & _ & H1 & H2). cbn. apply Forall_cons. split; [by apply hex_dash_graphic|]. apply Forall_cons. split; [by apply hex_dash_graphic|exact IH].
Qed.

(** Runs that leave the database as it is. *)
Record idle (w w' : World) : Prop := {
  idle_db : w_db w' = w_db w;
  idle_now : w_now w <= w_now w';
  idle_tx : w_tx w' = w_tx w
}.

#[export] Instance idle_preorder : PreOrder idle.
Proof. split; [by split|]. intros w1 w2 w3 [A1 A2 A3] [B1 B2 B3]. split; [congruence|lia|congruence]. Qed.

Lemma idle_tick {env : Env} w : idle w (tick w).
Proof. split; [done|simpl; lia|done]. Qed.

Section runs.
Context {env : Env} (Hq : quiet env).

Lemma read_runs {A} (f : reads A) w a : f (sql_now w) (w_db w) = inr a -> exists w', query f w = (Ret a, w') /\ idle w w'.
Proof. intros E. exists (tick w). rewrite quiet_query by done. rewrite E. split; [done|apply idle_tick]. Qed.

Lemma or_reply_runs {B A} (m : M A) (on_err : error -> Response B) w a w' : m w = (Ret a, w') -> or_reply m on_err w = (Ret (inr a), w').
Proof. intros E. unfold or_reply. by rewrite (bind_ret _ _ _ _ _ (attempt_ret _ _ _ _ E)). Qed.

Lemma hbind_runs {B A C} (m : step_of B A) (k : A -> step_of B C) w a w' : m w = (Ret (inr a), w') -> hbind m k w = k a w'.
Proof. intros E. unfold hbind. by rewrite (bind_ret _ _ _ _ _ E). Qed.

End runs.

(** The statements that only note the onboarding of an organization. *)
Definition onboards (A : Type) (s : writes A) : Prop := forall t d a d', s t d = inr (a, d') -> d' = d \/ exists m, d' = set_onboarding m d.

Lemma ensure_onboards org : onboards unit (OrgOnboardingEnsure org).
Proof.
  intros t d a d' E. unfold OrgOnboardingEnsure in E. destruct org as [k|]; [|done]. destruct (db_onboarding d !! k); [|destruct (fk_required _ _); [|done]];
    injection E as _ <-; [by left|right; by eexists].
Qed.

Lemma onboarded_rows {env : Env} {A X} (f : Db -> X) (m : M A) w :
  (forall v d, f (set_onboarding v d) = f d) -> runs onboards m -> f (w_db (m w).2) = f (w_db w).
Proof.
  intros Hf. apply (runs_same onboards f). intros d d' (A' & s & t & a & Hs & E). destruct (Hs t d a d' E) as [->|(v & ->)]; [done|apply Hf].
Qed.

#[local] Hint Resolve ensure_onboards : runs.

(** The request logs the user in: the right password, a membership that is
    active, and roles and organizations as schema.sql demands. *)
Record may_login {U : Unicode} {UF : UnicodeFold} {S : Sorter} {Q : SqlText} {H : AuthHost} (r : HttpRequest) (d : Db) (u : User) : Prop := {
  ml_body : exists cr, sent login_struct (mkCredentials "" "" "") r cr /\ TrimSpace (ToLower (cr_Email cr)) <> "" /\ cr_Password cr <> "" /\
    (forall t, UserByEmail (TrimSpace (ToLower (cr_Email cr))) t d = inr u) /\ ah_check (usr_PasswordHash u) (cr_Password cr) = true;
  ml_member : exists k m, db_memberships d !! k = Some m /\ mem_UserID m = usr_ID u /\ mem_Status m = "active";
  ml_rows : forall k m, db_memberships d !! k = Some m -> mem_Role m <> "" /\ fk_required (db_organizations d) (mem_OrganizationID m) = true
}.

(** The random source gives 32 bytes, and they and the new ids are fresh. *)
Definition fresh_tokens {env : Env} {H : AuthHost} (d : Db) : Prop :=
  (forall n, exists raw, ah_rand n = inr raw /\ length raw = 32%nat /\ Forall is_byte raw /\ forall k s, db_sessions d !! k = Some s -> ses_TokenHash s <> sha256 raw) /\
  (forall n, db_sessions d !! env_uuid n = None).

(** The one row of a token. *)
Definition sole_session (d : Db) (raw : list N) (s : UserSession) : Prop :=
  ses_TokenHash s = sha256 raw /\ (exists k, db_sessions d !! k = Some s) /\ forall k s', db_sessions d !! k = Some s' -> ses_TokenHash s' = sha256 raw -> s' = s.

Section login.
Context {env : Env} (Hq : quiet env) {S : Sorter} {U : Unicode} {UF : UnicodeFold} {UP : UuidParser} {Q : SqlText} {H : AuthHost}.

Lemma membership_of_active d user o t :
  active_in d user o -> user <> None -> org_ID o <> None ->
  exists mem, OrganizationMembershipByUserAndOrg user (org_ID o) t d = inr mem /\ exists k, db_memberships d !! k = Some mem.
Proof.
  intros (km & m & Hm & E1 & E2 & _) Hu Ho. assert (m ∈ rows (member_of user (org_ID o)) (db_memberships d)) as Hin.
  { apply elem_of_rows. split; [|by exists km]. unfold member_of, col_eq. rewrite E1, E2. destruct user, (org_ID o); try done. by rewrite !bool_decide_eq_true_2. }
  unfold OrganizationMembershipByUserAndOrg. destruct (rows _ _) as [|mem l] eqn:E; [by apply elem_of_nil in Hin|]. exists mem. split; [done|].
  assert (mem ∈ rows (member_of user (org_ID o)) (db_memberships d)) as [_ ?]%elem_of_rows by (rewrite E; constructor). done.
Qed.

Lemma choose_runs d user cands : forall org role w,
  user <> None -> (forall k m, db_memberships d !! k = Some m -> mem_Role m <> "") ->
  Forall (fun o => active_in d user o /\ org_ID o <> None) (org :: cands) -> (role <> "" \/ cands <> []) -> w_db w = d ->
  exists org' role' w', choose_org user cands org role w = (Ret (org', role'), w') /\ idle w w' /\ active_in d user org' /\ org_ID org' <> None /\ role' <> "".
Proof.
  induction cands as [|o cands IH]; intros org role w Hu Hr [[Ho Ho'] Hc]%Forall_cons Hne Hw.
  - exists org, role, w. destruct Hne; [|done]. by split_and!.
  - apply Forall_cons in Hc as [[Hoa Ho2] Hc]. destruct (membership_of_active d user o (sql_now w) Hoa Hu Ho2) as (mem & Em & km & Hkm).
    rewrite <- Hw in Em. destruct (read_runs Hq _ w mem Em) as (w1 & E1 & I1). cbn [choose_org]. rewrite (bind_ret _ _ _ _ _ E1).
    destruct (if String.eqb role "" then (o, mem_Role mem) else (org, role)) as [org1 role1] eqn:E.
    assert (active_in d user org1 /\ org_ID org1 <> None /\ role1 <> "") as (A1 & A2 & A3).
    { destruct (String.eqb_spec role ""); injection E as <- <-; split_and!; try done. by eapply Hr. }
    destruct (orgRoleCanManage (mem_Role mem)); [exists o, (mem_Role mem), w1; split_and!; try done; by eapply Hr|].
    destruct (IH org1 role1 w1 Hu Hr) as (org' & role' & w' & E2 & I2 & ?); [by constructor|by left|by rewrite (idle_db _ _ I1)|].
    exists org', role', w'. split; [done|]. split; [by etrans|done].
Qed.

(** What a session that was issued is. *)
Definition issued_to (d d' : Db) (u : User) (since : Time) (raw : list N) : Prop :=
  exists s org, sole_session d' raw s /\ ses_UserID s = usr_ID u /\ ses_CurrentOrganizationID s = org_ID org /\ active_in d (usr_ID u) org /\ org_ID org <> None /\
    (exists e, ses_ExpiresAt s = Some e /\ since + sessionDuration <= e) /\
    db_users d' = db_users d /\ db_memberships d' = db_memberships d.

Lemma login_user r d u : accounts_wf d -> may_login r d u -> exists k, usr_ID u = Some k /\ db_users d !! k = Some u.
Proof.
  intros Hwf [(cr & _ & _ & _ & Hu & _) _ _]. specialize (Hu 0). apply first_row_elem in Hu. unfold any_order in Hu. rewrite sort_by_elem in Hu.
  apply elem_of_rows in Hu as [_ (k & Hk)]. exists k. split; [by apply (aw_users _ Hwf)|done].
Qed.

Lemma login_organizations r d u t :
  accounts_wf d -> may_login r d u ->
  exists o orgs, OrganizationsForUser (usr_ID u) t d = inr (o :: orgs) /\ Forall (fun o => active_in d (usr_ID u) o /\ org_ID o <> None) (o :: orgs).
Proof.
  intros Hwf Hm. destruct (login_user r d u Hwf Hm) as (ku & Eu & Hku). destruct Hm as [_ (k & m & Hk & E1 & E2) Hr].
  destruct (OrganizationsForUser (usr_ID u) t d) as [|orgs] eqn:E; [done|].
  assert (Forall (active_in d (usr_ID u)) orgs) as Ha by (eapply organizations_active; [apply Hwf|exact E]).
  assert (Forall (fun o => active_in d (usr_ID u) o /\ org_ID o <> None) orgs) as Ho.
  { eapply Forall_impl; [exact Ha|]. intros o Hoa. split; [done|]. destruct Hoa as (km & m' & Hkm & _ & Em & _). destruct (Hr km m' Hkm) as [_ Hfk]. rewrite Em in Hfk. by destruct (org_ID o). }
  destruct orgs as [|o orgs]; [|by exists o, orgs]. exfalso. destruct (Hr k m Hk) as [_ Hfk].
  destruct (mem_OrganizationID m) as [ko|] eqn:Eo; [|done]. simpl in Hfk. destruct (db_organizations d !! ko) as [o|] eqn:Hko; [|done].
  unfold OrganizationsForUser in E. injection E as E. assert (o ∈ @nil Organization) as Hin; [|by apply elem_of_nil in Hin]. rewrite <- E, sort_by_elem. apply list_elem_of_omap.
  exists m. split; [|by rewrite Eo]. apply elem_of_rows. split; [|by exists k]. rewrite E1, Eu, E2. unfold col_eq. by rewrite bool_decide_eq_true_2.
Qed.

Lemma issue_runs r u w :
  accounts_wf (w_db w) -> may_login r (w_db w) u -> fresh_tokens (w_db w) ->
  exists s w', issueSessionForUser u w = (Ret s, w') /\ issued_to (w_db w) (w_db w') u (w_now w) (is_Token s) /\ length (is_Token s) = 32%nat /\ Forall is_byte (is_Token s).
Proof.
  intros Hwf Hm [Hrand Hids]. destruct (login_user r _ u Hwf Hm) as (ku & Eu & Hku).
  destruct (login_organizations r (w_db w) u (sql_now w) Hwf Hm) as (o & orgs & Eo & Ho). unfold issueSessionForUser.
  destruct (read_runs Hq _ w _ Eo) as (w1 & E1 & I1). rewrite (bind_ret _ _ _ _ _ E1).
  destruct (choose_runs (w_db w) (usr_ID u) (o :: orgs) o "" w1) as (org & role & w2 & E2 & I2 & A1 & A2 & A3).
  { by rewrite Eu. } { intros k m Hk. by eapply ml_rows. } { constructor; [by apply Forall_cons in Ho as [? _]|done]. } { by right. } { apply (idle_db _ _ I1). }
  rewrite (bind_ret _ _ _ _ _ E2). destruct (String.eqb_spec role "") as [|_]; [done|].
  destruct (Hrand (w_step w2)) as (raw & Er & El & Eb & Ef). assert (NewSessionToken w2 = (Ret raw, tick w2)) as E3 by (unfold NewSessionToken; by rewrite Er).
  rewrite (bind_ret _ _ _ _ _ E3). unfold new_uuid, now, bind at 1 2. cbv beta iota. set (w4 := tick (tick w2)).
  assert (w_db w4 = w_db w) as Hdb by (simpl; by rewrite (idle_db _ _ I2), (idle_db _ _ I1)).
  assert (w_now w <= w_now w4) as Hnow. { pose proof (idle_now _ _ I1). pose proof (idle_now _ _ I2). simpl. lia. }
  set (k := env_uuid (w_step (tick w2))). set (s := mkUserSession (Some k) (usr_ID u) (HashSessionToken raw) (org_ID org) (Some (w_now w4 + sessionDuration)) (Some (sql_now w4))).
  assert (UserSessionCreate (Some k) (usr_ID u) (HashSessionToken raw) (org_ID org) (w_now w4 + sessionDuration) (sql_now w4) (w_db w4) = inr (s, set_sessions (<[k := s]> (db_sessions (w_db w))) (w_db w))) as E5.
  { unfold UserSessionCreate. rewrite Hdb. apply insert_row_ok; [apply Hids|]. cbn [t_ok t_sessions]. unfold session_ok, s.
    destruct A1 as (km & m & Hkm & _ & Em & _). destruct (ml_rows _ _ _ Hm km m Hkm) as [_ Hfk]. cbn [ses_UserID ses_CurrentOrganizationID ses_ExpiresAt ses_TokenHash].
    rewrite Eu, <- Em, Hfk. simpl. rewrite Hku. simpl. apply forallb_forall. intros x Hx%list_elem_of_In. unfold others in Hx. apply list_elem_of_fmap in Hx as ([k' x'] & -> & Hx).
    apply elem_of_map_to_list in Hx. rewrite lookup_delete_Some in Hx. destruct Hx as [_ Hx]. simpl. rewrite bool_decide_eq_false_2; [done|]. by eapply Ef. }
  eexists (mkIssued raw org role (o :: orgs)), (tick (set_db (set_sessions (<[k := s]> (db_sessions (w_db w))) (w_db w)) w4)). split.
  { unfold bind. rewrite quiet_exec by done. fold k. by rewrite E5. }
  split; [|done]. exists s, org. cbn. split_and!; try done; [|eexists; split; [done|apply Z.add_le_mono_r; exact Hnow]].
  split; [done|]. split; [exists k; apply lookup_insert_eq|]. intros k' s' Hs' Hh. cbn in Hs'. apply lookup_insert_Some in Hs' as [[_ ?]|[_ Hs']]; [done|].
  by destruct (Ef k' s' Hs').
Qed.

End login.

Lemma trusted_idle {env : Env} {U : Unicode} {UF : UnicodeFold} {H : AuthHost} (w : World) : w_db (TrustedOrigins w).2 = w_db w.
Proof. apply runs_none. unfold TrustedOrigins. solve_runs. Qed.

(** A session that is open lets its user in. *)
Lemma session_accepted {env : Env} (Hq : quiet env) {U : Unicode} {UF : UnicodeFold} {H : AuthHost} {B}
    (handler : HttpRequest -> Caller -> M (Response B)) r w value raw s u org expires :
  w_tx w = None -> PublicRoute r = false -> bearerValue r = None -> hr_Cookie r = Some value -> session_bytes value = Some raw ->
  (forall allow w1, TrustedOrigins w = (Ret allow, w1) -> RequestHasTrustedOrigin r allow = true /\ w_now w1 < expires) ->
  sole_session (w_db w) raw s -> ses_ExpiresAt s = Some expires -> ses_UserID s = usr_ID u -> row_at (db_users (w_db w)) (usr_ID u) = Some u ->
  ses_CurrentOrganizationID s = org_ID org -> active_in (w_db w) (usr_ID u) org -> org_ID org <> None ->
  exists mem w1, Middleware handler r w = handler r (Member (member_principal u mem (org_ID org) (FromPgtype (ses_ID s)) uuid_Nil)) w1 /\
    w_db w1 = w_db w /\ member_in (w_db w) (usr_ID u) (org_ID org) u mem.
Proof.
  intros Htx Hp Hb Hc Hs Hallow (Hh & (k & Hk) & Hsole) He Hu Hrow Ho Ha Hne.
  destruct (trusted_read w) as (allow & w1 & E1 & C1). destruct (Hallow _ _ E1) as [Hr Hnow].
  assert (w_db w1 = w_db w) as Hdb by (rewrite <- (trusted_idle w), E1; done).
  assert (UserSessionByTokenHash (HashSessionToken raw) (sql_now w1) (w_db w1) = inr s) as Es.
  { rewrite Hdb. unfold UserSessionByTokenHash. set (p := fun x => _ && _). assert (s ∈ rows p (db_sessions (w_db w))) as Hin.
    { apply elem_of_rows. split; [|by exists k]. unfold p, session_open. rewrite bool_decide_eq_true_2 by done. rewrite He.
      unfold sql_now. rewrite (calm_tx _ _ C1), Htx. simpl. by apply Z.ltb_lt. }
    destruct (rows p _) as [|s' l] eqn:E; [by apply elem_of_nil in Hin|]. simpl. f_equal.
    assert (s' ∈ rows p (db_sessions (w_db w))) as [[Hs'%bool_decide_eq_true _]%andb_true_iff (k' & Hk')]%elem_of_rows by (rewrite E; constructor). by eapply Hsole. }
  destruct (read_runs Hq _ w1 _ Es) as (w2 & E2 & I2).
  assert (UserByID (usr_ID u) (sql_now w2) (w_db w2) = inr u) as Eu by (rewrite (idle_db _ _ I2), Hdb; unfold UserByID; by rewrite Hrow).
  destruct (read_runs Hq _ w2 _ Eu) as (w3 & E3 & I3).
  destruct (membership_of_active (w_db w3) (usr_ID u) org (sql_now w3)) as (mem & Em & Hmem); [by rewrite (idle_db _ _ I3), (idle_db _ _ I2), Hdb|by destruct (usr_ID u)|done|].
  destruct (read_runs Hq _ w3 _ Em) as (w4 & E4 & I4).
  assert (w_db w3 = w_db w) as H3 by by rewrite (idle_db _ _ I3), (idle_db _ _ I2), Hdb.
  exists mem, w4. split; [|split; [by rewrite (idle_db _ _ I4)|split; [done|]]].
  2: { rewrite H3 in *. split; [done|]. apply first_row_elem, elem_of_rows in Em as [? _]. done. }
  unfold Middleware, handle. assert (authenticate (B := B) r w = (Ret (inr (Member (member_principal u mem (org_ID org) (FromPgtype (ses_ID s)) uuid_Nil))), w4)) as EA.
  { unfold authenticate. rewrite Hp, Hb. unfold session_caller, cookie_value. rewrite Hc. destruct (String.eqb_spec value "") as [->|_]; [by vm_compute in Hs|].
    rewrite (hbind_runs _ _ w tt w1); [|unfold trusted_or; rewrite (bind_ret _ _ _ _ _ E1), Hr; done]. rewrite Hs.
    rewrite (hbind_runs _ _ w1 s w2); [|by apply or_reply_runs]. rewrite (hbind_runs _ _ w2 (u, mem) w4); [by rewrite Ho|]. unfold member_rows. rewrite Hu, Ho.
    rewrite (hbind_runs _ _ w2 u w3); [|by apply or_reply_runs]. rewrite (hbind_runs _ _ w3 mem w4); [done|by apply or_reply_runs]. }
  unfold bind at 1. rewrite (hbind_runs _ _ _ _ _ EA). unfold bind. by destruct (handler _ _ w4) as [[] ?].
Qed.


(** ** A sample *)

#[local] Existing Instance canonical_uuid.
#[local] Instance sample_text : SqlText := {| sql_lower s := ToLower s |}.
#[local] Instance sample_folding : UnicodeFold := {| fold_other r := r |}.
#[local] Instance sample_auth : AuthHost :=
  {| ah_getenv name := if String.eqb name "KINDLING_CORS_ORIGINS" then "https://app.example.com/, " else "";
     ah_rand _ := inr (repeat 7%N 32); ah_hash _ password := inr ("h:" +:+ password); ah_check hashed password := String.eqb hashed ("h:" +:+ password) |}.

Definition sample_user (id : UUID) (email : string) : User := mkUser (Some id) email "h:open sesame" "Someone" false (Some 1) (Some 1).
Definition sample_org (id : UUID) (name : string) : Organization := mkOrganization (Some id) name name "" (Some 1) (Some 1).

(** Users 3 and 4; the second waits for the approval of the first organization. *)
Definition accounts_db : Db :=
  set_organizations {[ 2%N := sample_org 2 "acme"; 5%N := sample_org 5 "beta" ]}
    (set_accounts (mkAccounts {[ 3%N := sample_user 3 "a@example.com"; 4%N := sample_user 4 "b@example.com" ]}
      {[ 80%N := mkUserSession (Some 80%N) (Some 4%N) (sha256 (repeat 9%N 32)) (Some 5%N) (Some 9000) (Some 1) ]} ∅
      {[ 6%N := mkMembership (Some 6%N) (Some 2%N) (Some 3%N) "owner" "active" (Some 1);
         7%N := mkMembership (Some 7%N) (Some 5%N) (Some 4%N) "owner" "active" (Some 1);
         8%N := mkMembership (Some 8%N) (Some 2%N) (Some 4%N) "member" "pending" (Some 1) ]} ∅ ∅) sample_db).
Definition accounts_world : World := mkWorld accounts_db 2000 0 None [].

Definition http_request (method path : string) (cookie : option string) (body : option json) : HttpRequest :=
  mkHttp method path "kindling.example.com" true "203.0.113.9:4000" (fun h => if String.eqb h "Origin" then "https://kindling.example.com" else "") cookie "" body.

Definition login_request : HttpRequest :=
  http_request "POST" "/api/auth/login" None (Some (JObject [("email", JString " A@Example.com"); ("password", JString "open sesame")])).

(** The handler that answers with its caller. *)
Definition who_am_i (_ : HttpRequest) (c : Caller) : M (Response Caller) := ret (RespJSON StatusOK c).

(** The cookie of the second user's session. *)
Definition sample_cookie : string := of_bytes (hex_Encode (repeat 9%N 32)).
Definition switch_request : HttpRequest :=
  http_request "POST" "/api/auth/switch-org" (Some sample_cookie) (Some (JObject [("organization_id", JString (uuid_String 2))])).

(** A member whose approval is pending switches to the organization and then
    reaches every handler as its member; so does one who was rejected. *)
Example pending_member_enters :
  let w := snd (Middleware authSwitchOrg switch_request accounts_world) in
  let rejected := set_memberships (set_mem_Status "rejected" <$> db_memberships (w_db w)) (w_db w) in
  let as_member := Ret (RespJSON StatusOK (Member (mkPrincipal 4 "b@example.com" false 2 "member" 80 0 (Some 2%N)))) in
  fst (Middleware who_am_i (http_request "GET" "/api/projects" (Some sample_cookie) None) w) = as_member /\
  fst (Middleware who_am_i (http_request "GET" "/api/projects" (Some sample_cookie) None) (set_db rejected w)) = as_member.
Proof. vm_compute. done. Qed.

(** Requests of other sites, and cookies nobody was given, are refused. *)
Example foreign_requests_refused :
  let evil := mkHttp "POST" "/api/projects" "kindling.example.com" true "" (fun h => if String.eqb h "Origin" then "https://evil.example.com" else "") (Some sample_cookie) "" None in
  fst (Middleware who_am_i evil accounts_world) = Ret (RespError StatusForbidden "csrf_forbidden" "request origin is not allowed") /\
  fst (Middleware who_am_i (http_request "GET" "/api/projects" (Some (of_bytes (hex_Encode (repeat 8%N 32)))) None) accounts_world) = Ret unauthorized /\
  fst (Middleware who_am_i (http_request "GET" "/api/projects" None None) accounts_world) = Ret unauthorized /\
  originMatchesTarget " HTTPS://App.Example.COM/path" "https://app.example.com" = true.
Proof. vm_compute. done. Qed.

Lemma middleware_authentic_witness :
  exists w1, calm accounts_world w1 /\
    ((exists resp, Middleware who_am_i switch_request accounts_world = (Ret resp, w1) /\ refused resp) \/
     (exists c, authentic switch_request accounts_world w1 c /\ Middleware who_am_i switch_request accounts_world = who_am_i switch_request c w1)).
Proof. apply (middleware_authentic sample_env sample_unicode sample_folding sample_auth Caller who_am_i switch_request accounts_world). reflexivity. Defined.

Lemma accounts_sample_wf : accounts_wf accounts_db.
Proof.
  split; cbn -[lookup insert singletonM sha256].
  - intros k o. rewrite lookup_insert_Some, lookup_singleton_Some. naive_solver.
  - intros k u. rewrite lookup_insert_Some, lookup_singleton_Some. naive_solver.
  - intros k s. rewrite lookup_singleton_Some. naive_solver.
Qed.

Lemma account_requests_witness :
  rtc (account_change login_request Anonymous accounts_db) accounts_db (w_db (authLogin login_request Anonymous accounts_world).2).
Proof.
  apply (account_requests sample_env insertion_sorter sample_unicode sample_folding canonical_uuid sample_text sample_auth "POST /api/auth/login" authLogin
    login_request Anonymous accounts_world).
  - unfold account_routes. set_solver.
  - apply accounts_sample_wf.
Defined.

Lemma sample_may_login : may_login login_request accounts_db (sample_user 3 "a@example.com").
Proof.
  split.
  - exists (mkCredentials " A@Example.com" "open sesame" ""). split; [eexists; split; [reflexivity|vm_compute; reflexivity]|]. repeat split; try (vm_compute; done).
  - exists 6%N. eexists. split; [vm_compute; reflexivity|done].
  - intros k m. cbn -[lookup insert singletonM db_organizations sha256]. rewrite !lookup_insert_Some, lookup_singleton_Some.
    intros [[<- <-]|[_ [[<- <-]|[_ [<- <-]]]]]; (split; [done|vm_compute; reflexivity]).
Qed.

Lemma sample_tokens : fresh_tokens accounts_db.
Proof.
  split.
  - intros n. exists (repeat 7%N 32). split; [done|]. split; [done|]. split; [by repeat constructor|].
    intros k s. cbn -[lookup singletonM sha256]. rewrite lookup_singleton_Some. intros [<- <-]. vm_compute. discriminate.
  - intros n. assert (env_uuid n = 1000 + N.of_nat n)%N as -> by done. cbn -[lookup singletonM sha256 N.add N.of_nat]. rewrite lookup_singleton_ne; [done|]. lia.
Qed.

Lemma instant_origins w : w_now (TrustedOrigins w).2 = w_now w.
Proof.
  unfold TrustedOrigins. generalize (fold_left add_origin (Split_comma (ah_getenv "KINDLING_CORS_ORIGINS")) []). intros out.
  assert (forall (f : reads string) w, exists r, attempt (query f) w = (Ret r, tick w)) as Hq.
  { intros f w1. unfold attempt. destruct (query_cases f w1) as [(a & _ & ->)|(e & -> & _)]; eauto. }
  destruct (Hq (ClusterSettingGet ClusterSettingKeyDashboardPublicHost) w) as (host & E1). rewrite (bind_ret _ _ _ _ _ E1). cbv zeta.
  destruct (match host with inl e => _ | inr v => _ end) as [o|o]; [simpl; lia|].
  destruct (Hq (ClusterSettingGet ClusterSettingKeyPublicBaseURL) (tick w)) as (base & E2). rewrite (bind_ret _ _ _ _ _ E2). simpl. lia.
Qed.

